(* ===== verification/_CoqProject ===== *)
-Q . S2P
Prelude.v
Strings.v
Bytes.v
Btree.v
StringSet.v
Json.v
Redaction.v
CatalogTypes.v
WorkspaceTypes.v
Capability.v
Core.v
CapabilityOps.v
Samples.v
JsonOps.v
JsonEq.v
SchemaRedaction.v
RequestSchema.v
Demo.v
Policy.v
Authority.v
Plan.v
PlanJournal.v
PlanLifecycle.v
Admission.v
PlanV2.v
PlanSet.v
Proofs.v
Registry.v
Transition.v
Execution.v
TransitionProofs.v
TransitionQualification.v
Contracts.v
Verification.v
Gaps.v
Planner.v
RulesetRules.v
JsonSchema.v
FloatOrder.v
SchemaInclusion.v
SchemaSoundness.v
CloudflareErrors.v
DecimalMultiple.v
RequestFormats.v
RequestValidation.v
EqualityKeys.v
RequestSoundness.v
StructuredSql.v
RequestBuilder.v
RequestPaths.v
Pagination.v
Listings.v
Sorting.v
Readback.v
ReadbackProofs.v
AccessCreate.v
VerificationTargets.v
TokenVerification.v
VerificationReads.v
VerificationOperations.v
VerificationProofs.v
OperationProofs.v
Paths.v
Files.v
Store.v
PlanStore.v
AuthorityStore.v
AdmissionStore.v
PlanLock.v
WorkspaceManifest.v
Repository.v
TransitionCompiler.v
RegistryStore.v
RegistrySamples.v
RegistryProofs.v
RegistryLedger.v
RegistryTables.v
PagesProjects.v
PrivateRestore.v
EmailRouting.v
