(* ===== verification/Prelude.v ===== *)
(** * The cfctl control plane

    cfctl is a governed control plane for Cloudflare: an operation is a
    capability of a catalog; a policy engine decides whether it may run; it
    runs as a plan that is reviewed, bound to the hash of what was reviewed,
    approved or covered by a standing grant, consumed once and journalled.
    This development models the Rust crates that make these decisions,
    crates/cfctl-core and crates/cfctl-planner, the part of
    crates/cfctl-storage that keeps them on disk, the registry database of
    crates/cfctl-registry, the compiler of D1 transitions of
    crates/cfctl-workspace, the comparison of request contracts of
    crates/cfctl-catalog and the request side of crates/cfctl-cloudflare -
    validation of bodies, construction of requests, structured queries, paged
    listings and the verification of mutations by reading back - and proves
    what they promise.

    ** Parts, files and sources

    Paths are under src/crates/; "lib.rs" is cfctl-core/src/lib.rs.

    - Foundations. [Prelude]: results, the state-and-error monad of the
      [&mut self] methods, Rust's option and slice combinators, tactics.
      [Strings]: the byte-string operations of the Rust library. [Btree]:
      [BTreeMap] as sorted association lists. [Json]: [serde_json::Value],
      serialisation as the class [Serialize] with its laws ([SerializeInj]: a
      type is determined by its JSON), time, and the parameters of the model.
      [JsonOps]: indexing, JSON pointers, unsigned parsing. [Bytes]: slices of
      bytes, UTF-8 and its lossy reading, trimming, SQL text literals.
    - Data. [CatalogTypes], [WorkspaceTypes], [Capability]: every contract
      record of [CapabilityV1] with its serialisation (lib.rs). [CapabilityOps]:
      its constructor and classification helpers. [Core]: errors, content
      hashes, money. [Policy]: policy decisions.
    - [Redaction]: [redact_json], [is_sensitive_key], [canonical_json_value].
      [SchemaRedaction]: [redact_json_schema], which keeps schema labels and
      follows local references.
    - [RequestSchema]: the budgeted walk over composed request schemas.
      [Contracts], [Verification], [Gaps]: what a capability must declare to
      mutate - resource contracts, the tables of verification and rollback
      strategies, security actions, [mutation_contract_gaps].
    - [Planner]: [PolicyEngine::evaluate] (cfctl-planner/src/lib.rs), which
      calls [mutation_contract_gaps] and yields the [PolicyDecisionV1] a plan
      carries.
    - [Plan]: [PlanV1], its journal and life cycle; [PlanJournal]: theorems on
      the journal; [PlanLifecycle]: theorems on approval, consumption and
      cancellation over arbitrary sequences of calls. [PlanV2]: the pinned
      document around a plan. [PlanSet]: deployment plan sets.
    - [Authority]: [StandingAuthorityV1], which a plan's standing consumption
      asks for cover. [Admission]: policy bundles that tighten a decision.
    - [Proofs]: operational proofs, their bindings and freshness, and result
      envelopes. [Registry]: registry identities, observations and events.
    - [Transition], [Execution], [TransitionProofs], [TransitionQualification]:
      D1 transitions (cfctl-core/src/workspace_d1/transition.rs and
      transition/): schedules, identities and the one-dispatch state machine;
      execution records and import receipts (proofs.rs), assurance modes
      (assurance.rs), the ten-case qualification and the pack it is derived
      from (proofs.rs, admission.rs, admission/resource.rs).
    - Storage (cfctl-storage/src/lib.rs). [Files]: what the store sees of the
      file system - a map of paths, and a stream of faults the coming system
      calls meet - with the atomic writes, and the weakest-precondition rules
      ([wp], [wp_step]) that reason about a call under every fault. [Store]:
      paths, managed identifiers, lock files. [PlanStore]: plan, [PlanV2] and
      plan-set documents. [AuthorityStore]: standing authorities.
      [AdmissionStore]: policy bundles and the pointer to the active one.
      [PlanLock]: the plan lock as a step relation over processes.
      [WorkspaceManifest]: registered roots (cfctl-workspace/src/lib.rs) and
      their document. The stores call the validations of [Plan], [PlanV2],
      [PlanSet], [Authority] and [Admission], and [redact_json] and
      [redact_json_schema] before they write.
    - Rulesets (cfctl-core/src/). [RulesetRules]: the repairs of custom
      challenge and response header rules, their bodies, patches, verification
      and recovery (custom_challenge_rule.rs, response_header_rule.rs).
    - Request contracts (cfctl-catalog/src/lib.rs). [StringSet]: [BTreeSet] of
      strings. [JsonEq]: equality of JSON values as JSON Schema has it.
      [JsonSchema]: a reference definition of validity, which compares numbers
      exactly. [FloatOrder]: which numbers are binary64, and that binary64 orders
      those as they are. [SchemaInclusion]: the acceptance walk of a source schema over
      a curated one; [SchemaSoundness]: what its answer means.
    - Requests (cfctl-cloudflare/src/lib.rs). [CloudflareErrors]: the errors.
      [RequestFormats]: date and time formats (request_dates.rs).
      [DecimalMultiple]: decimal renderings and exact decimal multiples. [RequestValidation]:
      [validate_request_body] and everything below it; [RequestSoundness] and
      [EqualityKeys]: what it accepts. [StructuredSql]: structured analytics
      queries as SQL. [RequestBuilder]: selector and query contracts, path,
      query and headers of a request; [RequestPaths]: what they promise.
      [Pagination]: completing listings by pages and by cursors, with the
      exchange of requests as a state; [Listings]: what a completed listing is.
    - Verification of mutations (cfctl-cloudflare/src/). [Sorting]: sorted and
      searched slices. [Readback]: the planned body against the resource read
      back (lib.rs, [mismatched_verifiable_planned_fields]); [ReadbackProofs]:
      what no mismatch means. [AccessCreate]: applications that own a hostname
      (access_create.rs). [VerificationTargets]: what must be there before a
      mutation (lib.rs, [validate_verification_preconditions]), on top of the
      core's [verification_contract_supported]. [TokenVerification]: the
      policies of a token (token_verification.rs). [VerificationReads] and
      [VerificationOperations]: the verifiers, which build reads with
      [RequestBuilder], send them as [Pagination] does and judge the answer
      with [Readback], [AccessCreate], [TokenVerification] and, for ruleset
      repairs, [RulesetRules]; [verify_plan_with_input] chooses one by the
      strategy of the plan. [VerificationProofs], [OperationProofs]: what a
      verdict proves.
    - Projections and private restores (cfctl-core/src/). [PagesProjects]:
      Pages responses with their values removed, the commitment to a
      configuration and its non-secret metadata (pages_projects.rs,
      pages_projects/configuration.rs). [PrivateRestore]:
      captures of R2 objects and the restore of one of them (r2_recovery.rs,
      r2_restore.rs). [EmailRouting]: listings of e-mail rules reduced to
      identifiers, digests and counts (email_routing.rs). They build on the foundations and
      are called by the command line.
    - Workspaces (cfctl-workspace/src/). [Paths]: path components.
      [Repository]: committed files, read through git and compared with the
      work tree, and the framework [no_panic] (lib.rs, d1_operation.rs,
      operation_identity.rs). [TransitionCompiler]: the compiler of transition
      packs and the envelope it materialises (d1_operation/transition.rs and
      transition/execution.rs); it builds the data of [Transition].
    - Registry (cfctl-registry/src/lib.rs). [RegistryStore]: tables as maps by
      primary key, statements with the constraints of the schema, transactions,
      every operation. [RegistryProofs]: the rules for what a call can leave
      ([ends], [kept], [stays]). [RegistryLedger]: events and jobs.
      [RegistryTables]: references, what recording stores, owners, locks,
      rebuilding.
      [RegistrySamples]: a machine for their witnesses.
    - [Demo] and [Samples] hold concrete instances for the witnesses; no
      theorem depends on them.

    ** What the theorems show

    Plans: nothing is consumed without a review, the policy's leave or an
    operational authority, and never twice, whatever calls,
    assignments and edits surround it; the governed calls form the state
    machine the statuses name; approval, both consumptions and cancellation
    are characterised outcome by outcome; the journal and the content hash are
    tamper evident. Policy: the engine's three verdicts, exactly; unattended
    writes are scoped, verified and recoverable; paid operations are bounded;
    admission bundles only tighten and only approved rules decide. Authorities:
    the run budget is a rolling bound, an approval binds the exact grant,
    minting is characterised, revocation is terminal. Documents: pinned plans
    and plan sets are ordered and bound by their hash. Data: redaction hides
    every secret and nothing else, the values of one named boolean switch aside, canonical form is canonical, stored state
    and events are redacted and bound. Transitions: a transition starts from
    the reviewed prefix, dispatches at most once, and its checkpoint binds its
    whole history; its execution record is accepted exactly for a run of that
    machine, its qualification exactly for the ten isolated cases, which a
    valid pack always completes; compiling never panics, the compiled envelope
    is the committed sources and materialises to the same bytes, and the
    ledger statement cannot be broken out of. Registry: a batch of events is
    all or nothing and acknowledged only when stored with its jobs, redelivery
    changes nothing, the ledger and the references between the tables stay
    consistent under faults and other connections, recording an observation
    stores it with its scopes and resource or stores nothing, owners are final for one
    connection but not for two, held locks exclude, a rebuild keeps declared
    state. Storage: every write of a plan document refines a
    specification of what a crash can leave, executable records survive a
    crash whole or not at all, stored pins, the budget aside, and revocations
    are final, saved
    plans read back, activation of a policy is atomic, the manifest is a map,
    locks exclude each other unless a takeover races. Schema redaction
    terminates on cyclic references and shows labels only. Requests: a source
    contract the catalog calls compatible accepts every curated body, and a body
    the validator lets through is valid as JSON Schema has it, multiples and
    uniqueness included, as long as the numbers compared are binary64 (the code
    rounds those that are not) and, for the second, the contract uses the
    keywords the validator reads as JSON Schema does; values do not become SQL
    where a quote ends a literal, nor, without backslashes, where a backslash
    escapes one; selectors stay in their path
    segments and set no reserved header, a validated call always has a path and
    loses nothing of its query; a completed listing is whole. Verification: the
    core and the executor agree on which updates of a resource read back at its
    own path can be verified; an admitted change of the strategies listed there
    is verified unless the request of its readback cannot be built or its
    exchange fails; a comparison without mismatch has read back every scalar of
    the plan that is observable and compared by value in its place, and a complete
    snapshot is the plan; a passed deletion, removal of a list member, token,
    ruleset repair or owned application is what was planned, by the whole
    collection where one is needed; the readback of a token keeps no secret.
    Rulesets: the
    verification of a correction accepts exactly the planned change, and its
    recovery restores the rule. Projections: a redacted Pages response is
    sealed and redacting it again changes nothing, a configuration's hash
    commits to all but the added variables and its metadata reads no value; the
    expected result of a restore commits to bytes and metadata, and a validated
    selection always has one; a listing of e-mail rules is bounded and shows no
    address, and its refusals quote nothing. Errors: a stale
    lock can be taken over twice, an interrupted activation cannot be resumed,
    one failed lookup empties the manifest, an empty pin locks it; [freshness] panics on a saturated limit,
    late consumption unbinds the status, read contracts are unreachable, two
    registrations of an owner can both succeed, a production database spelled
    in upper case passes as synthetic, a selector of dots addresses the
    collection instead of the resource, and a listing started at a later page
    is marked as the whole; limits beyond 2^53
    are rounded on both sides, numeric exclusive bounds are not enforced on
    bodies, and a backslash at the end of a value reaches into the SQL after it.

    ** Conventions

    A [&mut self] method is a function in [ST S E A]: the state after a call is
    part of the result also when the call fails, so partial updates are
    visible. [Clock] gives the reading of each [Utc::now()] of a call in
    program order; no clock is assumed to be monotone. Integers are [Z] and
    saturate, wrap or fail where the source does; floats are the standard
    library's specification floats. Hash bindings are stated as "equal, or
    [collision]": two different JSON values with one content hash.

    Code outside the repository is a parameter, the class [Runtime]: JSON
    encoding, SHA-256, RFC 3339 rendering and UUID parsing; chrono's
    [Duration::seconds] is the class [Chrono] of [Proofs]; the encoder and the
    decoder of stored documents are the classes [Pretty] and [Decode] of
    [Files], path resolution the class [Canonicalize] of [WorkspaceManifest];
    git and the files of a repository are the class [Machine] of [Repository],
    answering call by call; the registry's column texts, SQLite's faults, the
    commits of other connections, its integrity check and its backup copy are
    the classes [Codec] and [Environment] of [RegistryStore]; the printing of
    floats is [FloatDisplay] of [DecimalMultiple], RFC 3339 instants and HTTP
    dates are [HttpDates] of [PrivateRestore], the url and http crates are the
    classes of [RequestBuilder], and the Cloudflare API is the state of
    [Pagination], answering request by request. The verifiers take the check of
    a request against its contract ([request_contract]), the wrapping of core
    errors, chrono's RFC 3339 parser and clock, and the verifiers that are not
    modelled ([other]) as arguments.
    Decoding laws are named where they are used, for the documents a theorem
    is about ([reads_back]) or for one field ([StatusReadsBack],
    [PointerReadsBack]), since float fields need not round-trip exactly. Facts
    about [Runtime] are classes a theorem names when it uses them: [RuntimeTotal]
    (encoding a [Value] into memory succeeds), [RuntimeInjective] (RFC 3339
    with nanoseconds determines the instant), [RuntimeHex] (digests are 64
    lower-case hexadecimal digits), [ChronoBounded]. [Demo] instantiates them.

    The source's own recursion limits are kept as the measure: the request
    schema walk has 65 levels (depth 0 to 64) and 4096 steps, as in lib.rs, and
    running out of either is one of its results. The collection of schema
    references follows each pointer once; its fuel is the depth of the document
    times one more than the number of its pointers, which
    [reference_collection_terminates] proves enough. The body validator and the
    acceptance walk have 65 levels, the latter 65536 steps; a listing has the
    1000 pages of MAX_PAGES, and one more is the error of the source; a
    deployment is read 120 times and a bulk operation as often as its contract
    says. Everything else is structural.

    ** Not modelled

    The GraphQL fingerprint of lib.rs and the remaining records of cfctl-core
    that have no operations; opening and migrating the
    registry's file (SQL text run once); the loading half of the transition
    compiler (it discovers repositories) and the compilers of the other
    operation packs; of cfctl-cloudflare the HTTP transport, multipart encoding,
    the API clients, the sentences that explain a verdict and the verifiers of
    Pages setup, D1 restores and imports, R2 uploads and e-mail routing; of
    cfctl-catalog the ingestion of vendored OpenAPI and SDK documents into
    capabilities, most of which is tables; of cfctl-storage evidence artifacts,
    import checkpoints and directory listings; and cfctl-auth (credentials,
    kept by the operating system), the rest of cfctl-workspace (discovery),
    cfctl-agent and cfctl-cli (installation, argument parsing, the commands that
    order the modelled operations around provider calls, and output),
    xtask and the TypeScript bridge.

    ** This file

    The vocabulary all files share: the [result] type of the fallible code, the
    state-and-error monad, option and slice combinators, boolean equality, and
    the automation. *)

From Stdlib Require Import String Ascii ZArith Lia List Bool.
From Stdlib Require Import Floats.SpecFloat.
From stdpp Require Import base option list strings.

Declare Scope cf_scope.
Delimit Scope cf_scope with cf.
Open Scope cf_scope.

(** ** Fallible computations: [std::result::Result<A, E>] *)

Inductive result (E A : Type) : Type :=
| Ok (a : A)
| Err (e : E).
Arguments Ok {E A} a.
Arguments Err {E A} e.

Definition is_ok {E A} (r : result E A) : bool :=
  match r with Ok _ => true | Err _ => false end.

Definition res_bind {E A B} (r : result E A) (k : A -> result E B) : result E B :=
  match r with Ok a => k a | Err e => Err e end.

Definition map_err {E F A} (f : E -> F) (r : result E A) : result F A :=
  match r with Ok a => Ok a | Err e => Err (f e) end.

Definition ok_or {E A} (e : E) (o : option A) : result E A :=
  match o with Some a => Ok a | None => Err e end.

(** [res.ok()] *)
Definition ok_opt {E A} (r : result E A) : option A :=
  match r with Ok a => Some a | Err _ => None end.

Notation "'let?' x := r 'in' k" := (res_bind r (fun x => k))
  (at level 10, x pattern, r at level 100, k at level 200)
  : cf_scope.

#[export] Instance result_eq_dec {E A} `{EqDecision E, EqDecision A} :
  EqDecision (result E A).
Proof. solve_decision. Defined.

(** ** `&mut self` methods returning `Result`: the receiver survives an [Err],
    with whatever assignments ran before the early return. *)

Definition ST (S E A : Type) : Type := S -> result E A * S.

Definition st_ret {S E A} (a : A) : ST S E A := fun s => (Ok a, s).
Definition st_throw {S E A} (e : E) : ST S E A := fun s => (Err e, s).
Definition st_get {S E} : ST S E S := fun s => (Ok s, s).
Definition st_modify {S E} (f : S -> S) : ST S E unit := fun s => (Ok tt, f s).
Definition st_lift {S E A} (r : result E A) : ST S E A := fun s => (r, s).

Definition st_bind {S E A B} (m : ST S E A) (k : A -> ST S E B) : ST S E B :=
  fun s => match m s with
           | (Ok a, s') => k a s'
           | (Err e, s') => (Err e, s')
           end.

(** `if let Err(error) = m { undo; return Err(error) }` *)
Definition st_on_err {S E A} (m : ST S E A) (undo : S -> S) : ST S E A :=
  fun s => match m s with
           | (Ok a, s') => (Ok a, s')
           | (Err e, s') => (Err e, undo s')
           end.

(** [if condition { return Err(error) }] *)
Definition st_guard {S E} (condition : bool) (e : E) : ST S E unit :=
  if condition then st_throw e else st_ret tt.

Notation "'let*' x := m 'in' k" := (st_bind m (fun x => k))
  (at level 10, x pattern, m at level 100, k at level 200)
  : cf_scope.
Notation "'do*' m 'in' k" := (st_bind m (fun _ => k))
  (at level 10, m at level 100, k at level 200) : cf_scope.

Lemma st_bind_inv {S E A B} (m : ST S E A) (k : A -> ST S E B) s r s' :
  st_bind m k s = (r, s') ->
  (exists a s1, m s = (Ok a, s1) /\ k a s1 = (r, s')) \/ (exists e, m s = (Err e, s') /\ r = Err e).
Proof. unfold st_bind. destruct (m s) as [[a|e] s1]; [eauto|]. intros [= <- <-]. eauto. Qed.

Lemma st_bind_ok {S E A B} (m : ST S E A) (k : A -> ST S E B) s b s' :
  st_bind m k s = (Ok b, s') <-> exists a s1, m s = (Ok a, s1) /\ k a s1 = (Ok b, s').
Proof.
  unfold st_bind. destruct (m s) as [[a|e] s1]; split; [eauto| |done|by intros (? & ? & [=] & _)].
  by intros (a' & s2 & [= <- <-] & ?).
Qed.

Lemma st_guard_ok {S E} (c : bool) (e : E) (s s' : S) :
  st_guard c e s = (Ok tt, s') <-> c = false /\ s' = s.
Proof. unfold st_guard, st_throw, st_ret. destruct c; split; [done|by intros []|by intros [= ->]|by intros [_ ->]]. Qed.

Lemma st_lift_ok {S E A} (r : result E A) (s s' : S) a : st_lift r s = (Ok a, s') <-> r = Ok a /\ s' = s.
Proof. unfold st_lift. split; [by intros [= -> ->]|by intros [-> ->]]. Qed.

(** [for x in l { body(x)?; }] where the body has no other effect. *)
Fixpoint for_each {E A} (body : A -> result E unit) (l : list A) : result E unit :=
  match l with
  | [] => Ok tt
  | x :: t => res_bind (body x) (fun _ => for_each body t)
  end.

Lemma for_each_ok {E A} (body : A -> result E unit) (l : list A) :
  for_each body l = Ok tt <-> Forall (fun x => body x = Ok tt) l.
Proof.
  induction l as [|x l IH]; cbn; [done|]. rewrite Forall_cons, <- IH.
  destruct (body x) as [[]|e]; cbn; intuition congruence.
Qed.

Lemma res_bind_ok {E A B} (r : result E A) (k : A -> result E B) (b : B) :
  res_bind r k = Ok b <-> exists a, r = Ok a /\ k a = Ok b.
Proof. destruct r; cbn; split; [eauto|by intros (? & [= ->] & ?)|done|by intros (? & ? & ?)]. Qed.

(** [collect::<Result<Vec<_>, _>>]: the first error, or every value. *)
Fixpoint collect {E A B} (f : A -> result E B) (l : list A) : result E (list B) :=
  match l with
  | [] => Ok []
  | x :: l =>
      let? y := f x in
      let? ys := collect f l in
      Ok (y :: ys)
  end.

Lemma collect_ok {E A B} (f : A -> result E B) (l : list A) ys :
  collect f l = Ok ys <-> Forall2 (fun x y => f x = Ok y) l ys.
Proof.
  revert ys. induction l as [|x l IH]; intros ys; cbn.
  - split; [by intros [= <-]|by intros H; inversion H].
  - rewrite res_bind_ok. setoid_rewrite res_bind_ok. split.
    + intros (y & Hy & zs & Hz & [= <-]). constructor; [done|by apply IH].
    + intros H. inversion H as [|? y ? zs Hy Hz]; subst. apply IH in Hz. eauto.
Qed.

(** [if guard { return Err(e) }; rest] *)
Definition guard {E A} (c : bool) (e : E) (rest : result E A) : result E A :=
  if c then Err e else rest.

Lemma guard_ok {E A} (c : bool) (e : E) (rest : result E A) (a : A) :
  guard c e rest = Ok a <-> c = false /\ rest = Ok a.
Proof. destruct c; cbn; intuition congruence. Qed.

Lemma guard_unit_ok {E} (c : bool) (e : E) :
  guard c e (Ok tt) = Ok tt <-> c = false.
Proof. rewrite guard_ok. tauto. Qed.

Lemma res_bind_unit_ok {E B} (r : result E unit) (k : unit -> result E B) (b : B) :
  res_bind r k = Ok b <-> r = Ok tt /\ k tt = Ok b.
Proof. destruct r as [[]|]; cbn; intuition congruence. Qed.

(** ** Options as the Rust combinators read them *)

Definition is_some_and {A} (o : option A) (p : A -> bool) : bool :=
  match o with Some a => p a | None => false end.
Definition is_none_or {A} (o : option A) (p : A -> bool) : bool :=
  match o with Some a => p a | None => true end.
Definition is_someb {A} (o : option A) : bool :=
  match o with Some _ => true | None => false end.
Definition is_noneb {A} (o : option A) : bool := negb (is_someb o).

(** Rust's [==] on types whose derived [PartialEq] is Leibniz equality. *)
Definition eqb {A} `{EqDecision A} (x y : A) : bool := bool_decide (x = y).
Notation "x =? y" := (eqb x y) (at level 70, no associativity) : cf_scope.
Notation "x <>? y" := (negb (eqb x y)) (at level 70, no associativity) : cf_scope.

Lemma eqb_true {A} `{EqDecision A} (x y : A) : eqb x y = true <-> x = y.
Proof. unfold eqb. apply bool_decide_eq_true. Qed.
Lemma eqb_false {A} `{EqDecision A} (x y : A) : eqb x y = false <-> x <> y.
Proof. unfold eqb. apply bool_decide_eq_false. Qed.
Lemma eqb_eq {A} `{EqDecision A} (x y : A) : eqb x y = true -> x = y.
Proof. apply eqb_true. Qed.
Lemma eqb_neq {A} `{EqDecision A} (x y : A) : eqb x y = false -> x <> y.
Proof. apply eqb_false. Qed.
Lemma eqb_refl {A} `{EqDecision A} (x : A) : eqb x x = true.
Proof. by apply eqb_true. Qed.
Lemma neqb_true {A} `{EqDecision A} (x y : A) : negb (eqb x y) = true <-> x <> y.
Proof. rewrite negb_true_iff. apply eqb_false. Qed.
Lemma neqb_false {A} `{EqDecision A} (x y : A) : negb (eqb x y) = false <-> x = y.
Proof. rewrite negb_false_iff. apply eqb_true. Qed.

Lemma length_zero_false {A} (l : list A) : (length l =? 0) = false <-> l <> [].
Proof. rewrite eqb_false. destruct l; cbn; intuition congruence. Qed.

(** [values.windows(2).all(|pair| f(pair[0], pair[1]))] *)
Fixpoint windows2_all {A} (f : A -> A -> bool) (l : list A) : bool :=
  match l with
  | x :: ((y :: _) as t) => f x y && windows2_all f t
  | _ => true
  end.

(** [slice.contains(&x)] *)
Definition contains {A} `{EqDecision A} (l : list A) (x : A) : bool :=
  existsb (fun y => eqb y x) l.

Lemma contains_true {A} `{EqDecision A} (l : list A) (x : A) :
  contains l x = true <-> x ∈ l.
Proof.
  unfold contains. rewrite existsb_exists. split.
  - intros (y & Hin & ->%eqb_eq). by apply list_elem_of_In.
  - intros Hin. exists x. split; [by apply list_elem_of_In|]. by apply eqb_true.
Qed.

Lemma contains_false {A} `{EqDecision A} (l : list A) (x : A) :
  contains l x = false <-> x ∉ l.
Proof. rewrite <- contains_true. destruct (contains l x); naive_solver. Qed.

Lemma existsb_Forall {A} (f : A -> bool) (l : list A) :
  existsb f l = false <-> Forall (fun x => f x = false) l.
Proof.
  induction l as [|x l IH]; cbn; [done|]. by rewrite orb_false_iff, Forall_cons, IH.
Qed.

Lemma forallb_Forall {A} (f : A -> bool) (l : list A) :
  forallb f l = true <-> Forall (fun x => f x = true) l.
Proof.
  induction l as [|x l IH]; cbn; [done|]. by rewrite andb_true_iff, Forall_cons, IH.
Qed.

(** ** Automation *)

Create HintDb cf discriminated.
Create Rewrite HintDb cf.
#[export] Hint Rewrite @eqb_true @eqb_false @neqb_true @neqb_false
  @contains_true @contains_false : cf.

(** Split a conjunction of boolean tests assumed [true] into its conjuncts. *)
Ltac split_andb :=
  repeat match goal with
  | H : _ && _ = true |- _ => apply andb_true_iff in H as [? ?]
  | H : _ || _ = false |- _ => apply orb_false_iff in H as [? ?]
  | H : negb _ = true |- _ => apply negb_true_iff in H
  | H : negb _ = false |- _ => apply negb_false_iff in H
  end.

(** Turn the Rust-side comparisons among the hypotheses into equalities. *)
Ltac reflect_eqb :=
  repeat match goal with
  | H : eqb _ _ = true |- _ => apply eqb_eq in H
  | H : eqb _ _ = false |- _ => apply eqb_neq in H
  | H : contains _ _ = true |- _ => apply contains_true in H
  | H : contains _ _ = false |- _ => apply contains_false in H
  end.

(** Case analysis on the scrutinee of a [match] or [if] in hypothesis [H],
    keeping the equation. *)
Ltac case_in H :=
  match type of H with
  | context [match ?x with _ => _ end] =>
      lazymatch x with
      | context [match _ with _ => _ end] => fail
      | _ => let E := fresh "E" in destruct x eqn:E
      end
  end.

(** Explore every branch of a call [H : f .. = ..], closing the branches whose
    result constructor does not match. *)
Ltac branches H := repeat (case_in H; simplify_eq/=).
Ltac case_goal :=
  match goal with
  | |- context [match ?x with _ => _ end] =>
      lazymatch x with
      | context [match _ with _ => _ end] => fail
      | _ => let E := fresh "E" in destruct x eqn:E
      end
  end.
