(* ===== verification/Strings.v ===== *)
(** Byte-level model of the [str] operations used by the crates. A Rust
    [String] is its UTF-8 byte sequence, so [len], [bytes], [starts_with],
    ASCII case mapping and comparison are operations on that sequence; only
    [trim] looks at characters, and its whitespace set is spelled in UTF-8. *)

From Stdlib Require Import String Ascii ZArith Lia List Bool.
From stdpp Require Import base option list strings pretty.
From S2P Require Import Prelude.

Open Scope cf_scope.

(** ** Byte classes *)

Definition byte (a : ascii) : N := N_of_ascii a.
Definition in_range (lo hi : N) (a : ascii) : bool :=
  (N.leb lo (byte a) && N.leb (byte a) hi)%N.

Definition is_ascii_uppercase (a : ascii) : bool := in_range 65 90 a.
Definition is_ascii_lowercase (a : ascii) : bool := in_range 97 122 a.
Definition is_ascii_digit (a : ascii) : bool := in_range 48 57 a.
Definition is_ascii_alphabetic (a : ascii) : bool :=
  is_ascii_uppercase a || is_ascii_lowercase a.
Definition is_ascii_alphanumeric (a : ascii) : bool :=
  is_ascii_alphabetic a || is_ascii_digit a.
Definition is_ascii_hexdigit (a : ascii) : bool :=
  is_ascii_digit a || in_range 65 70 a || in_range 97 102 a.

Definition ascii_lower (a : ascii) : ascii :=
  if is_ascii_uppercase a then ascii_of_N (byte a + 32) else a.
Definition ascii_upper (a : ascii) : ascii :=
  if is_ascii_lowercase a then ascii_of_N (byte a - 32) else a.

Fixpoint str_map (f : ascii -> ascii) (s : string) : string :=
  match s with
  | EmptyString => EmptyString
  | String a s' => String (f a) (str_map f s')
  end.

Definition to_ascii_lowercase : string -> string := str_map ascii_lower.
Definition to_ascii_uppercase : string -> string := str_map ascii_upper.
Definition eq_ignore_ascii_case (a b : string) : bool :=
  to_ascii_lowercase a =? to_ascii_lowercase b.

(** [s.bytes().all(p)] *)
Fixpoint bytes_all (p : ascii -> bool) (s : string) : bool :=
  match s with
  | EmptyString => true
  | String a s' => p a && bytes_all p s'
  end.

Definition is_empty (s : string) : bool :=
  match s with EmptyString => true | _ => false end.

(** ** Prefixes, suffixes and substrings *)

Fixpoint strip_prefix (p s : string) : option string :=
  match p, s with
  | EmptyString, _ => Some s
  | String a p', String b s' => if a =? b then strip_prefix p' s' else None
  | String _ _, EmptyString => None
  end.

Definition starts_with (s p : string) : bool := is_someb (strip_prefix p s).

Fixpoint ends_with (s suffix : string) : bool :=
  (s =? suffix) ||
  match s with
  | EmptyString => false
  | String _ s' => ends_with s' suffix
  end.

Fixpoint str_contains (s needle : string) : bool :=
  starts_with s needle ||
  match s with
  | EmptyString => false
  | String _ s' => str_contains s' needle
  end.

(** [s.rsplit(sep).next()]: the segment after the last separator; for a
    single-byte separator it always exists. *)
Fixpoint rsplit_first (sep : ascii) (s : string) : string :=
  match s with
  | EmptyString => EmptyString
  | String a s' =>
      if str_contains s' (String sep EmptyString) then rsplit_first sep s'
      else if a =? sep then s' else s
  end.

(** [s.trim_end_matches(c)] *)
Fixpoint trim_end_matches (c : ascii) (s : string) : string :=
  match s with
  | EmptyString => EmptyString
  | String a s' =>
      match trim_end_matches c s' with
      | EmptyString => if a =? c then EmptyString else String a EmptyString
      | t => String a t
      end
  end.

(** ** [s.trim().is_empty()]: every character is Unicode [White_Space] *)

(** Drop one leading whitespace character, if the string starts with one. *)
Definition strip_whitespace (s : string) : option string :=
  match s with
  | String a s1 =>
      if in_range 9 13 a || (byte a =? 32)%N then Some s1 else
      match s1 with
      | String a2 s2 =>
          if (byte a =? 0xC2)%N && ((byte a2 =? 0x85)%N || (byte a2 =? 0xA0)%N)
          then Some s2 else
          match s2 with
          | String a3 s3 =>
              if ((byte a =? 0xE1)%N && (byte a2 =? 0x9A)%N && (byte a3 =? 0x80)%N)
                 || ((byte a =? 0xE2)%N && (byte a2 =? 0x80)%N
                     && (in_range 0x80 0x8A a3 || in_range 0xA8 0xA9 a3
                         || (byte a3 =? 0xAF)%N))
                 || ((byte a =? 0xE2)%N && (byte a2 =? 0x81)%N && (byte a3 =? 0x9F)%N)
                 || ((byte a =? 0xE3)%N && (byte a2 =? 0x80)%N && (byte a3 =? 0x80)%N)
              then Some s3 else None
          | EmptyString => None
          end
      | EmptyString => None
      end
  | EmptyString => None
  end.

(** Each step drops at least one byte, so the byte length is enough fuel. *)
Fixpoint trim_is_empty_fuel (fuel : nat) (s : string) : bool :=
  match s, fuel with
  | EmptyString, _ => true
  | _, O => false
  | _, S n => match strip_whitespace s with
              | Some s' => trim_is_empty_fuel n s'
              | None => false
              end
  end.
Definition trim_is_empty (s : string) : bool :=
  trim_is_empty_fuel (String.length s) s.

(** ** Formatting *)

Definition show_Z (z : Z) : string := pretty z.
Definition join (sep : string) (l : list string) : string := String.concat sep l.

(** ** Order: [Ord] on [String] is the lexicographic order of the bytes *)

Fixpoint str_ltb (s t : string) : bool :=
  match s, t with
  | EmptyString, EmptyString => false
  | EmptyString, String _ _ => true
  | String _ _, EmptyString => false
  | String a s', String c t' =>
      (byte a <? byte c)%N || ((byte a =? byte c)%N && str_ltb s' t')
  end.

Lemma bytes_all_impl (p q : ascii -> bool) s :
  (forall a, p a = true -> q a = true) -> bytes_all p s = true -> bytes_all q s = true.
Proof.
  intros H. induction s as [|a s IH]; [done|]. cbn. intros [Ha Hs]%andb_true_iff. by rewrite (H a Ha), IH.
Qed.

Lemma byte_inj a c : byte a = byte c -> a = c.
Proof. intros H. rewrite <- (ascii_N_embedding a), <- (ascii_N_embedding c). by f_equal. Qed.

Lemma str_ltb_irrefl s : str_ltb s s = false.
Proof. induction s as [|a s IH]; simpl; [done|]. rewrite N.ltb_irrefl, N.eqb_refl. done. Qed.

Lemma str_ltb_trans s t u :
  str_ltb s t = true -> str_ltb t u = true -> str_ltb s u = true.
Proof.
  revert t u; induction s as [|a s IH]; intros [|c t] [|d u]; simpl; try done.
  rewrite !orb_true_iff, !andb_true_iff, !N.ltb_lt, !N.eqb_eq.
  intros [|[? ?]] [|[? ?]]; [left; lia..|right]. split; [lia|eauto].
Qed.

Lemma str_ltb_total s t : str_ltb s t = false -> str_ltb t s = false -> s = t.
Proof.
  revert t; induction s as [|a s IH]; intros [|c t]; simpl; try done.
  rewrite !orb_false_iff, !andb_false_iff, !N.ltb_ge, !N.eqb_neq.
  intros [? H1] [? H2]. assert (byte a = byte c) as Hac by lia.
  destruct H1 as [|H1], H2 as [|H2]; try lia.
  f_equal; [by apply byte_inj | by apply IH].
Qed.

Lemma str_ltb_asym s t : str_ltb s t = true -> str_ltb t s = false.
Proof.
  intros H. destruct (str_ltb t s) eqn:E; [|done].
  pose proof (str_ltb_trans _ _ _ H E) as Hs. by rewrite str_ltb_irrefl in Hs.
Qed.

(** ** Facts the components use *)

Lemma strip_prefix_app p s t : strip_prefix p s = Some t <-> s = (p ++ t)%string.
Proof.
  revert s; induction p as [|a p IH]; intros s; simpl.
  - split; [by intros [= ->] | by intros ->].
  - destruct s as [|c s]; [done|]. destruct (a =? c) eqn:E.
    + apply eqb_eq in E as ->. rewrite IH. split; [by intros -> | by intros [= ->]].
    + apply eqb_neq in E. split; [done|]. by intros [= ? ?].
Qed.

Lemma starts_with_true s p :
  starts_with s p = true <-> exists t, s = (p ++ t)%string.
Proof.
  unfold starts_with, is_someb. setoid_rewrite <- strip_prefix_app.
  destruct (strip_prefix p s) as [t|]; split; [eauto|done|done|by intros [??]].
Qed.

Lemma str_app_inj_l p s t : (p ++ s = p ++ t)%string -> s = t.
Proof. induction p as [|a p IH]; simpl; [done|]. injection 1 as H. by apply IH. Qed.

Lemma ends_with_app s t : ends_with (s ++ t) t = true.
Proof.
  induction s as [|a s IH]; simpl.
  - destruct t as [|a t]; simpl; [done|]. by rewrite (eqb_refl _).
  - rewrite IH. by rewrite orb_true_r.
Qed.

Lemma ends_with_true s t :
  ends_with s t = true <-> exists p, s = (p ++ t)%string.
Proof.
  split; [|intros [p ->]; apply ends_with_app].
  induction s as [|a s IH]; simpl.
  - rewrite orb_false_r. intros ->%eqb_eq. by exists ""%string.
  - intros [->%eqb_eq|H]%orb_true_iff; [by exists ""%string|].
    destruct (IH H) as [p ->]. by exists (String a p).
Qed.
