(* ===== verification/Bytes.v ===== *)
(** Byte strings: slices, UTF-8 validity and the lossy decoding of
    [String::from_utf8_lossy], [str::trim], and the quoting of SQL text. *)

From Stdlib Require Import String Ascii ZArith Lia List Bool.
From stdpp Require Import base option list strings.
From S2P Require Import Prelude Strings.

Open Scope cf_scope.
Open Scope string_scope.
Open Scope cf_scope.

(** ** Slices *)

Fixpoint str_take (n : nat) (s : string) : string :=
  match n, s with
  | S n, String a s => String a (str_take n s)
  | _, _ => EmptyString
  end.

Fixpoint str_drop (n : nat) (s : string) : string :=
  match n, s with
  | S n, String _ s => str_drop n s
  | _, _ => s
  end.

(** [bytes.get(from..to)] *)
Definition slice_get (from to : nat) (s : string) : option string :=
  if (from <=? to)%nat && (to <=? String.length s)%nat
  then Some (str_take (to - from) (str_drop from s)) else None.

(** [&bytes[..at]] and [&bytes[at..]]; [None] where Rust panics. *)
Definition slice_to (at_ : nat) (s : string) : option string :=
  if (at_ <=? String.length s)%nat then Some (str_take at_ s) else None.
Definition slice_from (at_ : nat) (s : string) : option string :=
  if (at_ <=? String.length s)%nat then Some (str_drop at_ s) else None.

(** ** UTF-8 *)

Definition continuation (a : ascii) : bool := in_range 0x80 0xBF a.

(** One step of the decoder: the length of the valid character at the front,
    or the length of the longest invalid prefix that is replaced at once. *)
Definition utf8_step (s : string) : option (bool * nat) :=
  match s with
  | EmptyString => None
  | String a r =>
      if in_range 0 0x7F a then Some (true, 1%nat)
      else if in_range 0xC2 0xDF a then
        match r with
        | String b _ => if continuation b then Some (true, 2%nat) else Some (false, 1%nat)
        | _ => Some (false, 1%nat)
        end
      else if in_range 0xE0 0xEF a then
        match r with
        | String b r =>
            if (if (byte a =? 0xE0)%N then in_range 0xA0 0xBF b
                else if (byte a =? 0xED)%N then in_range 0x80 0x9F b else continuation b)
            then match r with
                 | String c _ => if continuation c then Some (true, 3%nat) else Some (false, 2%nat)
                 | _ => Some (false, 2%nat)
                 end
            else Some (false, 1%nat)
        | _ => Some (false, 1%nat)
        end
      else if in_range 0xF0 0xF4 a then
        match r with
        | String b r =>
            if (if (byte a =? 0xF0)%N then in_range 0x90 0xBF b
                else if (byte a =? 0xF4)%N then in_range 0x80 0x8F b else continuation b)
            then match r with
                 | String c r =>
                     if continuation c then
                       match r with
                       | String d _ =>
                           if continuation d then Some (true, 4%nat) else Some (false, 3%nat)
                       | _ => Some (false, 3%nat)
                       end
                     else Some (false, 2%nat)
                 | _ => Some (false, 2%nat)
                 end
            else Some (false, 1%nat)
        | _ => Some (false, 1%nat)
        end
      else Some (false, 1%nat)
  end.

(** Every step consumes a byte, so the byte length is enough fuel. *)
Fixpoint utf8_fuel (fuel : nat) (s : string) : bool :=
  match utf8_step s, fuel with
  | None, _ => true
  | Some (valid, n), S fuel => valid && utf8_fuel fuel (str_drop n s)
  | Some _, O => false
  end.
(** [std::str::from_utf8(bytes).is_ok()] *)
Definition is_utf8 (s : string) : bool := utf8_fuel (String.length s) s.

(** U+FFFD *)
Definition replacement : string :=
  String (ascii_of_N 0xEF) (String (ascii_of_N 0xBF) (String (ascii_of_N 0xBD) EmptyString)).

Fixpoint lossy_fuel (fuel : nat) (s : string) : string :=
  match utf8_step s, fuel with
  | Some (true, n), S fuel => str_take n s ++ lossy_fuel fuel (str_drop n s)
  | Some (false, n), S fuel => replacement ++ lossy_fuel fuel (str_drop n s)
  | _, _ => EmptyString
  end.
(** [String::from_utf8_lossy] *)
Definition from_utf8_lossy (s : string) : string := lossy_fuel (String.length s) s.

(** ** [str::trim] *)

Fixpoint trim_start_fuel (fuel : nat) (s : string) : string :=
  match fuel, strip_whitespace s with
  | S fuel, Some rest => trim_start_fuel fuel rest
  | _, _ => s
  end.
Definition trim_start (s : string) : string := trim_start_fuel (String.length s) s.

Fixpoint trim_end (s : string) : string :=
  if trim_is_empty s then EmptyString
  else match s with
       | String a s => String a (trim_end s)
       | EmptyString => EmptyString
       end.
Definition trim (s : string) : string := trim_end (trim_start s).

(** ** SQL text *)

(** [s.replace('\'', "''")] *)
Fixpoint double_quotes (s : string) : string :=
  match s with
  | EmptyString => EmptyString
  | String a s =>
      if (byte a =? 39)%N then String a (String a (double_quotes s))
      else String a (double_quotes s)
  end.

(** How SQL reads a string literal after its opening quote: a doubled quote is
    one quote of the value and a single one ends it. The value and the rest. *)
Fixpoint sql_string (s : string) : option (string * string) :=
  match s with
  | EmptyString => None
  | String a r =>
      if (byte a =? 39)%N then
        match r with
        | String b r' =>
            if (byte b =? 39)%N
            then (fun found => (String a (fst found), snd found)) <$> sql_string r'
            else Some (EmptyString, r)
        | EmptyString => Some (EmptyString, EmptyString)
        end
      else (fun found => (String a (fst found), snd found)) <$> sql_string r
  end.

Definition newline : string := String (ascii_of_N 10) EmptyString.
Definition dquote : string := String (ascii_of_N 34) EmptyString.
Definition squote : string := String (ascii_of_N 39) EmptyString.

(** ** Facts *)

Lemma str_app_assoc (s t u : string) : (s ++ t) ++ u = s ++ (t ++ u).
Proof. induction s as [|a s IH]; [done|]. exact (f_equal (String a) IH). Qed.

Lemma str_app_nil (s : string) : s ++ "" = s.
Proof. induction s as [|a s IH]; [done|]. exact (f_equal (String a) IH). Qed.

Lemma str_length_app (s t : string) :
  String.length (s ++ t) = (String.length s + String.length t)%nat.
Proof. induction s as [|a s IH]; [done|]. exact (f_equal S IH). Qed.

Lemma str_take_drop n s : str_take n s ++ str_drop n s = s.
Proof.
  revert s. induction n as [|n IH]; intros [|a s]; [done..|]. exact (f_equal (String a) (IH s)).
Qed.

Lemma str_take_app s t : str_take (String.length s) (s ++ t) = s.
Proof. induction s as [|a s IH]; [by destruct t|]. exact (f_equal (String a) IH). Qed.

Lemma str_drop_app s t : str_drop (String.length s) (s ++ t) = t.
Proof. induction s as [|a s IH]; [by destruct t|]. done. Qed.

Lemma str_length_take n s : (n <= String.length s)%nat -> String.length (str_take n s) = n.
Proof.
  revert s. induction n as [|n IH]; intros [|a s] Hn; cbn in *; [done|done|lia|].
  rewrite IH; lia.
Qed.

Lemma str_take_all s : str_take (String.length s) s = s.
Proof. rewrite <- (str_app_nil s) at 2. by rewrite str_take_app, ?str_app_nil. Qed.

Lemma slice_get_app before piece after :
  slice_get (String.length before) (String.length before + String.length piece)
    (before ++ (piece ++ after)) = Some piece.
Proof.
  unfold slice_get. rewrite !str_length_app.
  replace (_ && _) with true by (symmetry; apply andb_true_iff; split; apply Nat.leb_le; lia).
  rewrite str_drop_app. replace (_ + _ - _)%nat with (String.length piece) by lia.
  by rewrite str_take_app.
Qed.

Lemma str_length_drop n s : String.length (str_drop n s) = (String.length s - n)%nat.
Proof. revert s. induction n as [|n IH]; intros [|a s]; [done..|]. apply IH. Qed.

Lemma str_drop_drop n m s : str_drop n (str_drop m s) = str_drop (m + n) s.
Proof. revert s. induction m as [|m IH]; intros [|a s]; [done|done|by destruct n|]. apply IH. Qed.

Lemma slice_get_some from to s piece :
  slice_get from to s = Some piece ->
  (from <= to <= String.length s)%nat /\ String.length piece = (to - from)%nat /\
  s = str_take from s ++ (piece ++ str_drop to s).
Proof.
  unfold slice_get. destruct (_ && _) eqn:E; [|done]. intros [= <-].
  apply andb_true_iff in E as [Hf%Nat.leb_le Ht%Nat.leb_le]. split; [lia|].
  split; [apply str_length_take; rewrite str_length_drop; lia|].
  replace (str_drop to s) with (str_drop (to - from) (str_drop from s))
    by (rewrite str_drop_drop; f_equal; lia).
  by rewrite str_take_drop, str_take_drop.
Qed.

Lemma is_squote a : (byte a =? 39)%N = ("'"%char =? a).
Proof.
  destruct ("'"%char =? a) eqn:E; [by apply eqb_eq in E as <-|]. apply N.eqb_neq. intros Ha.
  apply eqb_neq in E. apply E. change 39%N with (byte "'"%char) in Ha. symmetry. by apply byte_inj.
Qed.

Lemma sql_string_quoted s rest :
  starts_with rest squote = false ->
  sql_string (double_quotes s ++ (squote ++ rest)) = Some (s, rest).
Proof.
  intros Hr. induction s as [|a s IH].
  - change (sql_string (String "'"%char rest) = Some (EmptyString, rest)).
    destruct rest as [|b rest]; [done|]. unfold starts_with in Hr. cbn in Hr.
    cbn [sql_string]. rewrite (is_squote b). by destruct ("'"%char =? b).
  - cbn [double_quotes]. destruct (byte a =? 39)%N eqn:E.
    + change (sql_string (String a (String a (double_quotes s ++ (squote ++ rest)))) =
              Some (String a s, rest)). cbn [sql_string]. by rewrite E, IH.
    + change (sql_string (String a (double_quotes s ++ (squote ++ rest))) =
              Some (String a s, rest)). cbn [sql_string]. by rewrite E, IH.
Qed.
