(* ===== verification/Btree.v ===== *)
(** [BTreeMap<String, A>] (and [serde_json::Map], which is one in this build:
    the [preserve_order] feature is off) as the list of its entries in
    iteration order. A map is well formed when its keys increase strictly;
    on well-formed maps lookups determine the list, so Leibniz equality of
    models is [==] of maps whose values compare by Leibniz equality. *)

From Stdlib Require Import String ZArith Lia List Bool.
From stdpp Require Import base option list strings.
From S2P Require Import Prelude Strings.

Open Scope cf_scope.

Definition btree (A : Type) : Type := list (string * A).

Section Btree.
Context {A : Type}.
Implicit Types (m : btree A) (k : string) (v : A).

Definition bt_keys m : list string := map fst m.
Definition bt_values m : list A := map snd m.

Fixpoint bt_sorted m : bool :=
  match m with
  | [] => true
  | (k, _) :: t => forallb (fun e => str_ltb k (fst e)) t && bt_sorted t
  end.

(** [map.get(key)] *)
Fixpoint bt_get k m : option A :=
  match m with
  | [] => None
  | (k', v) :: t => if k =? k' then Some v else bt_get k t
  end.

(** [map.insert(key, value)]; the previous value is [bt_get k m]. *)
Fixpoint bt_insert k v m : btree A :=
  match m with
  | [] => [(k, v)]
  | (k', v') :: t =>
      if str_ltb k k' then (k, v) :: m
      else if str_ltb k' k then (k', v') :: bt_insert k v t
      else (k, v) :: t
  end.

(** [entries.collect::<BTreeMap<_, _>>()] *)
Definition bt_collect (l : list (string * A)) : btree A :=
  fold_left (fun m e => bt_insert (fst e) (snd e) m) l [].

(** [map.remove(key)] *)
Fixpoint bt_remove k m : btree A :=
  match m with
  | [] => []
  | (k', v') :: t => if k =? k' then t else (k', v') :: bt_remove k t
  end.

(** Every key of [m] is above [k]. *)
Definition above k m : Prop := forall k' v, In (k', v) m -> str_ltb k k' = true.

Lemma bt_sorted_cons k v m :
  bt_sorted ((k, v) :: m) = true <-> above k m /\ bt_sorted m = true.
Proof.
  simpl. rewrite andb_true_iff, forallb_forall. unfold above. split.
  - intros [H ?]. split; [|done]. intros k' v' Hin. by apply (H (k', v')).
  - intros [H ?]. split; [|done]. intros [k' v'] Hin. by apply (H k' v').
Qed.

Lemma above_get k m : above k m -> bt_get k m = None.
Proof.
  induction m as [|[k' v'] m IH]; intros H; simpl; [done|].
  destruct (k =? k') eqn:E.
  - apply eqb_eq in E as ->.
    pose proof (H k' v' (or_introl eq_refl)) as Hlt. by rewrite str_ltb_irrefl in Hlt.
  - apply IH. intros ?? ?. eapply H. by right.
Qed.

Lemma above_lt_get k k' m : str_ltb k k' = true -> above k' m -> bt_get k m = None.
Proof.
  intros Hlt Hab. apply above_get. intros k2 v2 Hin.
  eapply str_ltb_trans; [done|]. by eapply Hab.
Qed.

Lemma bt_get_insert k k' v m :
  bt_get k' (bt_insert k v m) = if k' =? k then Some v else bt_get k' m.
Proof.
  induction m as [|[k1 v1] m IH]; simpl; [done|].
  destruct (str_ltb k k1) eqn:E1; [done|].
  destruct (str_ltb k1 k) eqn:E2; simpl.
  - rewrite IH. destruct (k' =? k1) eqn:E3; [|done].
    apply eqb_eq in E3 as ->. destruct (k1 =? k) eqn:E4; [|done].
    apply eqb_eq in E4 as ->. by rewrite str_ltb_irrefl in E2.
  - pose proof (str_ltb_total _ _ E1 E2) as ->. by destruct (k' =? k1).
Qed.

Lemma bt_insert_in k v m k' v' :
  In (k', v') (bt_insert k v m) -> (k' = k /\ v' = v) \/ In (k', v') m.
Proof.
  induction m as [|[k1 v1] m IH]; simpl.
  - intros [[= <- <-]|[]]. auto.
  - destruct (str_ltb k k1); [|destruct (str_ltb k1 k)]; simpl; intuition congruence.
Qed.

Lemma bt_insert_sorted k v m : bt_sorted m = true -> bt_sorted (bt_insert k v m) = true.
Proof.
  induction m as [|[k1 v1] m IH]; [done|].
  rewrite bt_sorted_cons. intros [Hab Hs]. cbn [bt_insert].
  destruct (str_ltb k k1) eqn:E1; [|destruct (str_ltb k1 k) eqn:E2].
  - apply bt_sorted_cons. split; [|by apply bt_sorted_cons].
    intros k2 v2 [[= <- <-]|Hin]; [done|]. eapply str_ltb_trans; [done|]. by eapply Hab.
  - apply bt_sorted_cons. split; [|by apply IH].
    intros k2 v2 [[-> _]|Hin]%bt_insert_in; [done|]. by eapply Hab.
  - pose proof (str_ltb_total _ _ E1 E2) as ->. by apply bt_sorted_cons.
Qed.

Lemma bt_collect_acc_sorted l m :
  bt_sorted m = true ->
  bt_sorted (fold_left (fun m e => bt_insert (fst e) (snd e) m) l m) = true.
Proof.
  revert m; induction l as [|e l IH]; intros m Hm; simpl; [done|].
  apply IH. by apply bt_insert_sorted.
Qed.

Lemma bt_collect_sorted l : bt_sorted (bt_collect l) = true.
Proof. by apply bt_collect_acc_sorted. Qed.

Lemma bt_collect_in l e : In e (bt_collect l) -> In e l.
Proof.
  unfold bt_collect. assert (H : forall m, In e (fold_left (fun m e => bt_insert (fst e) (snd e) m) l m) ->
    In e l \/ In e m).
  { induction l as [|[k v] l IH]; intros m; cbn; [auto|]. intros [Hin|Hin]%IH; [auto|].
    destruct e as [k' v']. apply bt_insert_in in Hin as [[-> ->]|]; auto. }
  intros [|[]]%H; auto.
Qed.

Lemma bt_insert_length k v m :
  bt_get k m = None -> length (bt_insert k v m) = S (length m).
Proof.
  induction m as [|[k1 v1] m IH]; simpl; [done|].
  destruct (k =? k1) eqn:Ek; [done|]. intros Hm.
  destruct (str_ltb k k1) eqn:E1; [done|].
  destruct (str_ltb k1 k) eqn:E2; [cbn; by rewrite IH|].
  apply eqb_neq in Ek. destruct Ek. by apply str_ltb_total.
Qed.

Lemma bt_keys_NoDup m : bt_sorted m = true -> List.NoDup (bt_keys m).
Proof.
  induction m as [|[k v] m IH]; [intros _; constructor|].
  rewrite bt_sorted_cons. intros [Hab Hs]. cbn. constructor; [|by apply IH].
  intros ([k' v'] & <- & Hin)%in_map_iff. pose proof (Hab _ _ Hin) as Hlt.
  cbn in Hlt. by rewrite str_ltb_irrefl in Hlt.
Qed.

Lemma bt_get_keys k m : bt_get k m <> None -> In k (bt_keys m).
Proof.
  induction m as [|[k1 v1] m IH]; simpl; [done|].
  destruct (k =? k1) eqn:E; [apply eqb_eq in E as ->; by left|]. intros ?. right. by apply IH.
Qed.

Lemma bt_keys_get k m : In k (bt_keys m) -> bt_get k m <> None.
Proof.
  induction m as [|[k1 v1] m IH]; simpl; [done|].
  destruct (k =? k1) eqn:E; [done|]. intros [->|?]; [|by apply IH]. by rewrite eqb_refl in E.
Qed.

Lemma bt_get_in k v m : bt_get k m = Some v -> In (k, v) m.
Proof.
  induction m as [|[k1 v1] m IH]; simpl; [done|].
  destruct (k =? k1) eqn:E; [apply eqb_eq in E as ->; intros [= ->]; auto|auto].
Qed.

Lemma bt_in_get k v m : bt_sorted m = true -> In (k, v) m -> bt_get k m = Some v.
Proof.
  induction m as [|[k1 v1] m IH]; [done|].
  rewrite bt_sorted_cons. intros [Hab Hs] [[= -> ->]|Hin]; simpl.
  - by rewrite (eqb_refl _).
  - destruct (k =? k1) eqn:E; [|by apply IH].
    apply eqb_eq in E as ->. pose proof (Hab _ _ Hin) as Hlt.
    by rewrite str_ltb_irrefl in Hlt.
Qed.

Lemma bt_ext m1 m2 :
  bt_sorted m1 = true -> bt_sorted m2 = true ->
  (forall k, bt_get k m1 = bt_get k m2) -> m1 = m2.
Proof.
  revert m2; induction m1 as [|[k1 v1] m1 IH]; intros [|[k2 v2] m2]; [done|..].
  - intros _ _ H. specialize (H k2). simpl in H. by rewrite (eqb_refl _) in H.
  - intros _ _ H. specialize (H k1). simpl in H. by rewrite (eqb_refl _) in H.
  - rewrite !bt_sorted_cons. intros [Ha1 Hs1] [Ha2 Hs2] H.
    assert (k1 = k2) as <-.
    { pose proof (H k1) as H1. pose proof (H k2) as H2. simpl in H1, H2.
      rewrite (eqb_refl _) in H1.
      rewrite (eqb_refl k2) in H2.
      destruct (k1 =? k2) eqn:E; [by apply eqb_eq in E|].
      destruct (k2 =? k1) eqn:E'; [by apply eqb_eq in E'|].
      symmetry in H1. apply bt_get_in in H1, H2.
      pose proof (Ha1 _ _ H2) as Hlt. pose proof (Ha2 _ _ H1) as Hgt.
      apply str_ltb_asym in Hlt. congruence. }
    pose proof (H k1) as H1. simpl in H1. rewrite (eqb_refl k1) in H1.
    injection H1 as <-. f_equal. apply IH; [done..|]. intros k.
    specialize (H k). simpl in H. destruct (k =? k1) eqn:E; [|done].
    apply eqb_eq in E as ->. by rewrite !above_get.
Qed.

(** Inserting keys in increasing order appends. *)
Lemma bt_get_remove_ne k k' m : k <> k' -> bt_get k (bt_remove k' m) = bt_get k m.
Proof.
  intros Hk. induction m as [|[k1 v1] m IH]; [done|]. cbn. destruct (k' =? k1) eqn:E.
  - apply eqb_eq in E as ->. destruct (k =? k1) eqn:E; [by apply eqb_eq in E|done].
  - cbn. by rewrite IH.
Qed.

Lemma bt_insert_snoc m k v :
  (forall k' v', In (k', v') m -> str_ltb k' k = true) ->
  bt_insert k v m = m ++ [(k, v)].
Proof.
  induction m as [|[k1 v1] m IH]; intros H; simpl; [done|].
  pose proof (H k1 v1 (or_introl eq_refl)) as Hlt.
  rewrite (str_ltb_asym _ _ Hlt), Hlt, IH; [done|]. intros. eapply H. by right.
Qed.

Lemma bt_collect_acc_id m l :
  bt_sorted (m ++ l) = true ->
  fold_left (fun m e => bt_insert (fst e) (snd e) m) l m = m ++ l.
Proof.
  revert m; induction l as [|[k v] l IH]; intros m Hs; simpl; [by rewrite app_nil_r|].
  rewrite bt_insert_snoc.
  - rewrite IH; rewrite <- app_assoc; done.
  - intros k' v' Hin. clear IH. induction m as [|[k1 v1] m IHm]; [done|].
    rewrite <- app_comm_cons, bt_sorted_cons in Hs. destruct Hs as [Hab Hs].
    destruct Hin as [[= -> ->]|Hin]; [|by apply IHm].
    apply (Hab k v). apply in_or_app. right. by left.
Qed.

(** Collecting the entries of a map in order gives the map back. *)
Lemma bt_collect_id m : bt_sorted m = true -> bt_collect m = m.
Proof. intros H. unfold bt_collect. by rewrite bt_collect_acc_id. Qed.

Lemma bt_collect_acc_get_notin l m k :
  ~ In k (map fst l) ->
  bt_get k (fold_left (fun m e => bt_insert (fst e) (snd e) m) l m) = bt_get k m.
Proof.
  revert m; induction l as [|[k1 v1] l IH]; intros m H; simpl in *; [done|].
  rewrite IH by tauto. rewrite bt_get_insert.
  destruct (k =? k1) eqn:E; [apply eqb_eq in E as ->; tauto|done].
Qed.

(** With distinct keys, collecting keeps every entry and only those. *)
Lemma bt_collect_get_in l k v :
  List.NoDup (map fst l) -> In (k, v) l -> bt_get k (bt_collect l) = Some v.
Proof.
  unfold bt_collect. generalize (@nil (string * A)) as m.
  induction l as [|[k1 v1] l IH]; intros m Hnd Hin; simpl in *; [done|].
  inversion Hnd as [|?? Hni Hnd']; subst.
  destruct Hin as [[= -> ->]|Hin]; [|by apply IH].
  rewrite bt_collect_acc_get_notin by done. rewrite bt_get_insert.
  by rewrite (eqb_refl _).
Qed.

Lemma bt_collect_get_notin l k :
  ~ In k (map fst l) -> bt_get k (bt_collect l) = None.
Proof. intros. unfold bt_collect. by rewrite bt_collect_acc_get_notin. Qed.
End Btree.

Create Rewrite HintDb btree.
#[export] Hint Rewrite @bt_get_insert @bt_collect_sorted : btree.
#[export] Hint Resolve bt_insert_sorted bt_collect_sorted : cf.

(** Maps over the values keep the keys, hence the order. *)
Definition bt_map {A B} (f : string -> A -> B) (m : btree A) : btree B :=
  map (fun e => (fst e, f (fst e) (snd e))) m.

Lemma bt_map_keys {A B} (f : string -> A -> B) m : bt_keys (bt_map f m) = bt_keys m.
Proof. unfold bt_keys, bt_map. rewrite map_map. done. Qed.

Lemma bt_map_sorted {A B} (f : string -> A -> B) m : bt_sorted (bt_map f m) = bt_sorted m.
Proof.
  induction m as [|[k v] m IH]; simpl; [done|]. rewrite IH. f_equal.
  clear IH. induction m as [|[k' v'] m IH]; simpl; [done|]. by rewrite IH.
Qed.

Lemma bt_get_map {A B} (f : string -> A -> B) k m :
  bt_get k (bt_map f m) = f k <$> bt_get k m.
Proof.
  induction m as [|[k' v] m IH]; simpl; [done|].
  destruct (k =? k') eqn:E; [by apply eqb_eq in E as ->|done].
Qed.
