(* ===== verification/StringSet.v ===== *)
(** [BTreeSet<String>]: the keys of a sorted map. *)

From Stdlib Require Import String Ascii ZArith Lia List Bool.
From stdpp Require Import base option list strings.
From S2P Require Import Prelude Strings Btree.

Open Scope cf_scope.
Open Scope string_scope.
Open Scope cf_scope.

Definition str_set : Type := btree unit.
Definition set_of (names : list string) : str_set := bt_collect (map (fun k => (k, tt)) names).
Definition set_has (k : string) (s : str_set) : bool := is_someb (bt_get k s).
Definition set_add (k : string) (s : str_set) : str_set := bt_insert k tt s.
(** [set.extend(names)] *)
Definition set_extend (names : list string) (s : str_set) : str_set := fold_left (fun s k => set_add k s) names s.

Lemma in_keys k (s : str_set) : In k (bt_keys s) <-> set_has k s = true.
Proof.
  unfold set_has. destruct (bt_get k s) eqn:E; cbn.
  - split; [done|]. intros _. apply bt_get_keys. congruence.
  - split; [|done]. intros Hin. by apply bt_keys_get in Hin.
Qed.

Lemma set_of_has k names : set_has k (set_of names) = true <-> In k names.
Proof.
  unfold set_has, set_of. split.
  - intros H. destruct (bt_get k _) eqn:E; [|done]. apply bt_get_in, bt_collect_in in E.
    apply in_map_iff in E as (? & [= <- _] & ?). done.
  - intros Hin. destruct (bt_get k _) eqn:E; [done|]. exfalso. revert E.
    generalize dependent names. unfold bt_collect. intros names.
    assert (H : forall m, (In k names \/ bt_get k m <> None) ->
              bt_get k (fold_left (fun acc e => bt_insert e.1 e.2 acc) (map (fun k => (k, tt)) names) m) <> None).
    { induction names as [|x names IH]; cbn; intros m Hk.
      - destruct Hk as [[]|?]; done.
      - apply IH. destruct Hk as [[->|?]|Hk].
        + right. by rewrite bt_get_insert, eqb_refl.
        + by left.
        + right. rewrite bt_get_insert. by destruct (k =? x). }
    intros Hin. apply H. by left.
Qed.

Lemma set_has_add k x s : set_has k (set_add x s) = (k =? x) || set_has k s.
Proof. unfold set_has, set_add. rewrite bt_get_insert. by destruct (k =? x). Qed.

Lemma set_has_extend k names : forall s, set_has k (set_extend names s) = contains names k || set_has k s.
Proof.
  induction names as [|x names IH]; intros s; [done|]. cbn. rewrite IH, set_has_add.
  assert (E : (k =? x) = (x =? k)) by (unfold eqb; apply bool_decide_ext; split; congruence).
  rewrite E. unfold contains. cbn. by destruct (x =? k), (existsb _ names).
Qed.
