(* ===== verification/Json.v ===== *)
(** JSON values ([serde_json::Value]), Rust's [Serialize] as a type class, and
    the redaction and canonicalisation passes of crates/cfctl-core/src/lib.rs.

    [serde_json::Value] is modelled from its documentation: objects are
    [BTreeMap]s, integers are kept apart from floats, and a float is finite. *)

From Stdlib Require Import String Ascii ZArith Lia List Bool.
From Stdlib Require Import Floats.SpecFloat.
From stdpp Require Import base option list strings.
From S2P Require Import Prelude Strings Btree.

Open Scope cf_scope.

(** ** Values *)

(** [f64]; a [serde_json::Number] holds a finite one. *)
Definition f64 : Type := spec_float.
Inductive finite_f64 : Type :=
| FZero (negative : bool)
| FFinite (negative : bool) (mantissa : positive) (exponent : Z).

Definition f64_is_finite (f : f64) : bool :=
  match f with S754_zero _ | S754_finite _ _ _ => true | _ => false end.

Inductive Number : Type :=
| PosInt (n : Z)
| NegInt (n : Z)
| Float (f : finite_f64).

#[warnings="-register-all"]
Inductive Value : Type :=
| VNull
| VBool (b : bool)
| VNumber (n : Number)
| VString (s : string)
| VArray (l : list Value)
| VObject (m : list (string * Value)).

Section ValueInd.
Variable P : Value -> Prop.
Hypothesis Hnull : P VNull.
Hypothesis Hbool : forall b, P (VBool b).
Hypothesis Hnum : forall n, P (VNumber n).
Hypothesis Hstr : forall s, P (VString s).
Hypothesis Harr : forall l, Forall P l -> P (VArray l).
Hypothesis Hobj : forall m, Forall (fun e => P (snd e)) m -> P (VObject m).

Fixpoint Value_ind' (v : Value) : P v :=
  match v with
  | VNull => Hnull
  | VBool b => Hbool b
  | VNumber n => Hnum n
  | VString s => Hstr s
  | VArray l =>
      Harr l ((fix go l : Forall P l :=
                 match l with
                 | [] => @List.Forall_nil _ P
                 | x :: t => @List.Forall_cons _ P x t (Value_ind' x) (go t)
                 end) l)
  | VObject m =>
      Hobj m ((fix go m : Forall (fun e => P (snd e)) m :=
                 match m with
                 | [] => @List.Forall_nil _ (fun e => P (snd e))
                 | e :: t =>
                     @List.Forall_cons _ (fun e => P (snd e)) e t
                       (Value_ind' (snd e)) (go t)
                 end) m)
  end.
End ValueInd.

#[export] Instance finite_f64_eq_dec : EqDecision finite_f64.
Proof. solve_decision. Defined.
#[export] Instance Number_eq_dec : EqDecision Number.
Proof. solve_decision. Defined.
#[export] Instance Value_eq_dec : EqDecision Value.
Proof.
  refine (fix go (v w : Value) : Decision (v = w) :=
    match v, w with
    | VNull, VNull => left eq_refl
    | VBool b, VBool c => cast_if (decide (b = c))
    | VNumber n, VNumber m => cast_if (decide (n = m))
    | VString s, VString t => cast_if (decide (s = t))
    | VArray l, VArray k =>
        cast_if ((fix gol (l k : list Value) : Decision (l = k) :=
          match l, k with
          | [], [] => left eq_refl
          | x :: l', y :: k' => cast_if_and (go x y) (gol l' k')
          | _, _ => right _
          end) l k)
    | VObject l, VObject k =>
        cast_if ((fix gol (l k : list (string * Value)) : Decision (l = k) :=
          match l, k with
          | [], [] => left eq_refl
          | (s, x) :: l', (t, y) :: k' =>
              cast_if_and3 (decide (s = t)) (go x y) (gol l' k')
          | _, _ => right _
          end) l k)
    | _, _ => right _
    end); clear go; try clear gol; abstract congruence.
Defined.

(** ** Accessors *)

Definition as_str (v : Value) : option string :=
  match v with VString s => Some s | _ => None end.
Definition as_bool (v : Value) : option bool :=
  match v with VBool b => Some b | _ => None end.
Definition as_array (v : Value) : option (list Value) :=
  match v with VArray l => Some l | _ => None end.
Definition as_object (v : Value) : option (btree Value) :=
  match v with VObject m => Some m | _ => None end.
Definition as_u64 (v : Value) : option Z :=
  match v with VNumber (PosInt n) => Some n | _ => None end.
Definition is_boolean (v : Value) : bool := is_someb (as_bool v).

(** [value.get("key")]: [None] unless the value is an object with that key. *)
Definition vget (k : string) (v : Value) : option Value :=
  match v with VObject m => bt_get k m | _ => None end.

(** ** Equality: [==] on values is structural, except that the float compare
    of [f64] identifies the two zeros. *)

Definition finite_f64_eqb (f g : finite_f64) : bool :=
  match f, g with
  | FZero _, FZero _ => true
  | _, _ => f =? g
  end.

Definition Number_eqb (n m : Number) : bool :=
  match n, m with
  | Float f, Float g => finite_f64_eqb f g
  | _, _ => n =? m
  end.

Fixpoint Value_eqb (v w : Value) : bool :=
  match v, w with
  | VNull, VNull => true
  | VBool b, VBool c => Bool.eqb b c
  | VNumber n, VNumber m => Number_eqb n m
  | VString s, VString t => s =? t
  | VArray l, VArray k =>
      (fix go (l k : list Value) : bool :=
         match l, k with
         | [], [] => true
         | x :: l', y :: k' => Value_eqb x y && go l' k'
         | _, _ => false
         end) l k
  | VObject l, VObject k =>
      (fix go (l k : list (string * Value)) : bool :=
         match l, k with
         | [], [] => true
         | (s, x) :: l', (t, y) :: k' => (s =? t) && Value_eqb x y && go l' k'
         | _, _ => false
         end) l k
  | _, _ => false
  end.

Lemma Value_eqb_refl v : Value_eqb v v = true.
Proof.
  induction v as [| | n | |l IH|m IH] using Value_ind'; cbn; try done.
  - apply Bool.eqb_reflx.
  - destruct n as [n|n|[]]; cbn; try done; apply eqb_refl.
  - apply eqb_refl.
  - induction IH as [|x l Hx _ IH]; [done|]. by rewrite Hx, IH.
  - induction IH as [|[k x] m Hx _ IH]; [done|]. cbn in Hx. by rewrite eqb_refl, Hx, IH.
Qed.

(** Well-formed values: every object is a map, its keys strictly increasing. *)
Fixpoint value_wf (v : Value) : bool :=
  match v with
  | VArray l => forallb value_wf l
  | VObject m => bt_sorted m && forallb (fun e => value_wf (snd e)) m
  | _ => true
  end.

(** ** Canonical form: crates/cfctl-core/src/lib.rs [canonical_json_value] *)

Fixpoint canonical_json_value (value : Value) : Value :=
  match value with
  | VObject object =>
      VObject (bt_collect (bt_collect
        (map (fun e => (fst e, canonical_json_value (snd e))) object)))
  | VArray values => VArray (map canonical_json_value values)
  | _ => value
  end.

(** ** Redaction: crates/cfctl-core/src/lib.rs [redact_json] *)

Definition sensitive_names : list string :=
  ["access_token"; "refresh_token"; "api_token"; "api_key"; "global_key";
   "client_secret"; "private_key"; "destination_conf"; "ownership_challenge";
   "authorization"; "password"; "cookie"; "secret"; "token"]%string.

Definition is_sensitive_key (key : string) : bool :=
  let normalized := to_ascii_lowercase key in
  existsb (fun sensitive =>
    (normalized =? sensitive) || ends_with normalized ("_" ++ sensitive)%string)
    sensitive_names.

Definition is_non_secret_boolean_configuration (key : string) (value : Value) : bool :=
  eq_ignore_ascii_case key "enable_binding_cookie" && is_boolean value.

Definition REDACTED : Value := VString "[REDACTED]".

Fixpoint redact_json (value : Value) : Value :=
  match value with
  | VObject map_ =>
      VObject (bt_collect
        (map (fun e =>
           if is_sensitive_key (fst e)
              && negb (is_non_secret_boolean_configuration (fst e) (snd e))
           then (fst e, REDACTED)
           else (fst e, redact_json (snd e))) map_))
  | VArray items => VArray (map redact_json items)
  | _ => value
  end.

(** ** [Serialize]: what the derives and [json!] produce *)

Class Serialize (A : Type) := to_value : A -> Value.

(** A point in time, in nanoseconds since the epoch ([DateTime<Utc>]). *)
Inductive DateTime : Type := Timestamp (ns : Z).
#[export] Instance DateTime_eq_dec : EqDecision DateTime.
Proof. solve_decision. Defined.
Definition ns (t : DateTime) : Z := match t with Timestamp z => z end.
Definition dt_gt (a b : DateTime) : bool := (ns b <? ns a)%Z.
Definition dt_lt (a b : DateTime) : bool := (ns a <? ns b)%Z.
(** [Duration::hours(n)] *)
Definition hours (n : Z) : Z := (n * 3600 * 1000000000)%Z.
Definition dt_add (t : DateTime) (d : Z) : DateTime := Timestamp (ns t + d).
Definition dt_sub (a b : DateTime) : Z := (ns a - ns b)%Z.

(** The third-party code the hash chains go through: [serde_json::to_vec],
    [hex::encode(Sha256::digest(..))], chrono's RFC 3339 rendering of
    timestamps and [Uuid::parse_str] followed by [hyphenated().to_string()].
    They are parameters of the model. *)
Class Runtime : Type := {
  to_vec : Value -> result string string;
  sha256_hex : string -> string;
  rfc3339 : DateTime -> string;
  uuid_hyphenated : string -> option string;
}.

#[export] Instance ser_value : Serialize Value := fun v => v.
#[export] Instance ser_string : Serialize string := VString.
#[export] Instance ser_bool : Serialize bool := VBool.
#[export] Instance ser_int : Serialize Z :=
  fun n => VNumber (if (0 <=? n)%Z then PosInt n else NegInt n).
(** [Number::from_f64]: a float that is not finite serialises to [null]. *)
#[export] Instance ser_f64 : Serialize f64 :=
  fun f => match f with
           | S754_zero s => VNumber (Float (FZero s))
           | S754_finite s m e => VNumber (Float (FFinite s m e))
           | _ => VNull
           end.
#[export] Instance ser_option {A} `{Serialize A} : Serialize (option A) :=
  fun o => match o with Some a => to_value a | None => VNull end.
#[export] Instance ser_list {A} `{Serialize A} : Serialize (list A) :=
  fun l => VArray (map to_value l).
#[export] Instance ser_btree {A} `{Serialize A} : Serialize (btree A) | 0 :=
  fun m => VObject (bt_collect (bt_map (fun _ => to_value) m)).
#[export] Instance ser_datetime `{Runtime} : Serialize DateTime :=
  fun t => VString (rfc3339 t).

(** A derived [Serialize] for a struct: one entry per field, [None] when the
    field's [skip_serializing_if] fires. *)
Definition struct_value (fields : list (string * option Value)) : Value :=
  VObject (bt_collect (omap (fun f => pair (fst f) <$> snd f) fields)).


Definition field {A} `{Serialize A} (name : string) (a : A) : string * option Value :=
  (name, Some (to_value a)).
(** [skip_serializing_if = "Option::is_none"] *)
Definition field_some {A} `{Serialize A} (name : string) (o : option A)
  : string * option Value := (name, to_value <$> o).
(** [skip_serializing_if = "Vec::is_empty"] *)
Definition field_nonempty {A} `{Serialize A} (name : string) (l : list A)
  : string * option Value :=
  (name, match l with [] => None | _ => Some (to_value l) end).
(** [skip_serializing_if = "BTreeMap::is_empty"] *)
Definition field_nonempty_map {A} `{Serialize A} (name : string) (m : btree A)
  : string * option Value :=
  (name, match m with [] => None | _ => Some (to_value m) end).
(** [skip_serializing_if = "is_false"] / ["is_true"] / ["is_zero_u64"] *)
Definition field_unless {A} `{Serialize A, EqDecision A} (name : string) (skipped a : A)
  : string * option Value :=
  (name, if a =? skipped then None else Some (to_value a)).

(** ** Serialisation loses nothing on values whose floats are finite. *)
Class SerializeInj (A : Type) `{Serialize A} := {
  ser_ok : A -> Prop;
  ser_inj : forall a b, ser_ok a -> ser_ok b -> to_value a = to_value b -> a = b;
}.

Definition present (l : list (string * option Value)) : list (string * Value) :=
  omap (fun f => pair (fst f) <$> snd f) l.

Lemma present_keys l k : In k (map fst (present l)) -> In k (map fst l).
Proof.
  induction l as [|[k' [v|]] l IH]; simpl; [done|..].
  - intros [->|H]; [by left|right; by apply IH].
  - intros H; right; by apply IH.
Qed.

Lemma present_NoDup l : List.NoDup (map fst l) -> List.NoDup (map fst (present l)).
Proof.
  induction l as [|[k [v|]] l IH]; simpl; intros H; inversion H; subst; [constructor|..].
  - constructor; [intros Hin; by apply present_keys in Hin|by apply IH].
  - by apply IH.
Qed.

Lemma present_in l k v : In (k, Some v) l -> In (k, v) (present l).
Proof.
  induction l as [|[k' [v'|]] l IH]; simpl; intros Hin; [done|..].
  - destruct Hin as [[= -> ->]|]; auto.
  - destruct Hin as [|]; [done|auto].
Qed.

Lemma present_notin l k :
  List.NoDup (map fst l) -> In (k, None) l -> ~ In k (map fst (present l)).
Proof.
  induction l as [|[k' [v'|]] l IH]; simpl; intros Hl Hin; [tauto|..];
    inversion Hl as [|?? Hni ?]; subst.
  - destruct Hin as [|Hin]; [done|]. intros [->|H']; [|by apply IH].
    apply (in_map fst) in Hin. done.
  - destruct Hin as [[= ->]|Hin]; [|by apply IH]. intros Hk. by apply present_keys in Hk.
Qed.

(** Reading a field back from a serialised struct. *)
Lemma struct_value_get l k o :
  List.NoDup (map fst l) -> In (k, o) l -> vget k (struct_value l) = o.
Proof.
  intros Hl Hin. destruct o as [v|]; cbn [vget struct_value].
  - apply bt_collect_get_in; [by apply present_NoDup|by apply present_in].
  - apply bt_collect_get_notin. by apply present_notin.
Qed.

Lemma struct_value_get_notin l k :
  ~ In k (map fst l) -> vget k (struct_value l) = None.
Proof. intros H. apply bt_collect_get_notin. intros Hk. by apply H, present_keys. Qed.

Lemma struct_value_fields l1 l2 :
  map fst l1 = map fst l2 -> List.NoDup (map fst l1) ->
  struct_value l1 = struct_value l2 -> map snd l1 = map snd l2.
Proof.
  intros Hf Hl Heq.
  assert (Hall : forall k o1 o2, In (k, o1) l1 -> In (k, o2) l2 -> o1 = o2).
  { intros k o1 o2 H1 H2. rewrite <- (struct_value_get l1 k o1) by done.
    rewrite Heq. apply struct_value_get; [by rewrite <- Hf|done]. }
  clear Heq Hl. revert l2 Hf Hall.
  induction l1 as [|[k o] l1 IH]; intros [|[k2 o2] l2] Hf Hall; simpl in *; try done.
  injection Hf as <- Hf. f_equal; [eapply Hall; by left|].
  apply IH; [done|]. intros k' ????; eapply Hall; by right.
Qed.

Definition some_ok {A} `{SerializeInj A} (o : option A) : Prop :=
  match o with Some a => ser_ok a | None => True end.

(** [object.insert(key, value)] on a value that is an object. *)
Definition object_insert (k : string) (x : Value) (v : Value) : Value :=
  match v with VObject m => VObject (bt_insert k x m) | _ => v end.

Lemma object_insert_struct k x l :
  object_insert k x (struct_value l) = struct_value (l ++ [(k, Some x)]).
Proof.
  cbn [object_insert struct_value]. f_equal. unfold struct_value, bt_collect.
  fold (present l). fold (present (l ++ [(k, Some x)])).
  assert (present (l ++ [(k, Some x)]) = present l ++ [(k, x)]) as ->.
  { unfold present. by rewrite omap_app. }
  by rewrite fold_left_app.
Qed.

Lemma struct_value_snoc_none k l :
  struct_value (l ++ [(k, None)]) = struct_value l.
Proof. unfold struct_value. by rewrite omap_app, app_nil_r. Qed.

(** Types every value of which serialises faithfully. *)
Class SerializeTotal (A : Type) `{SerializeInj A} : Prop :=
  ser_total : forall a : A, ser_ok a.
(** Types whose serialisation is never [null], so that [Option] of them is
    faithful. *)
Class SerializeNonNull (A : Type) `{SerializeInj A} : Prop :=
  ser_nonnull : forall a : A, ser_ok a -> to_value a <> VNull.

#[export] Program Instance inj_value : SerializeInj Value := {| ser_ok _ := True |}.
Next Obligation. done. Qed.
#[export] Instance total_value : SerializeTotal Value.
Proof. done. Qed.

#[export] Program Instance inj_string : SerializeInj string := {| ser_ok _ := True |}.
Next Obligation. intros a c _ _ [= ->]. done. Qed.
#[export] Instance total_string : SerializeTotal string.
Proof. done. Qed.
#[export] Instance nonnull_string : SerializeNonNull string.
Proof. done. Qed.

#[export] Program Instance inj_bool : SerializeInj bool := {| ser_ok _ := True |}.
Next Obligation. intros a c _ _ [= ->]. done. Qed.
#[export] Instance total_bool : SerializeTotal bool.
Proof. done. Qed.
#[export] Instance nonnull_bool : SerializeNonNull bool.
Proof. done. Qed.

#[export] Program Instance inj_int : SerializeInj Z := {| ser_ok _ := True |}.
Next Obligation.
  intros a c _ _. unfold to_value, ser_int. by destruct (0 <=? a)%Z, (0 <=? c)%Z; intros [=].
Qed.
#[export] Instance total_int : SerializeTotal Z.
Proof. done. Qed.
#[export] Instance nonnull_int : SerializeNonNull Z.
Proof. done. Qed.

#[export] Program Instance inj_f64 : SerializeInj f64 :=
  {| ser_ok f := f64_is_finite f = true |}.
Next Obligation. intros [] [] ? ?; try done; by intros [=]; subst. Qed.
#[export] Instance nonnull_f64 : SerializeNonNull f64.
Proof. by intros [] ?. Qed.

#[export] Program Instance inj_option {A} `{SerializeNonNull A} : SerializeInj (option A) :=
  {| ser_ok o := some_ok o |}.
Next Obligation.
  intros A ?? Hnn [a|] [c|]; cbn; [..|done].
  - intros ?? E. f_equal. by apply ser_inj.
  - intros Ha _ E. by destruct (ser_nonnull a Ha).
  - intros _ Hc E. by destruct (ser_nonnull c Hc).
Qed.
#[export] Instance total_option {A} `{Serialize A, !SerializeInj A, !SerializeNonNull A,
  !SerializeTotal A} : SerializeTotal (option A).
Proof. intros [a|]; cbn; [apply ser_total|done]. Qed.

(** [Option<Value>]: [Some(Value::Null)] and [None] both serialise to [null]. *)
#[export] Program Instance inj_option_value : SerializeInj (option Value) :=
  {| ser_ok o := o <> Some VNull |}.
Next Obligation.
  intros [a|] [c|] Ha Hc E; cbv [to_value ser_option ser_value] in E; subst; congruence.
Qed.

Lemma map_to_value_inj {A} `{SerializeInj A} (l k : list A) :
  Forall ser_ok l -> Forall ser_ok k -> map to_value l = map to_value k -> l = k.
Proof.
  intros Hl; revert k. induction Hl as [|a l Ha Hl IH]; intros k Hk Heq;
    destruct Hk as [|c k Hc Hk]; try done.
  injection Heq as ? ?. f_equal; [by apply ser_inj|by apply IH].
Qed.

#[export] Program Instance inj_list {A} `{SerializeInj A} : SerializeInj (list A) :=
  {| ser_ok l := Forall ser_ok l |}.
Next Obligation. intros A ?? a c Ha Hc [= E]. by apply map_to_value_inj. Qed.
#[export] Instance total_list {A} `{Serialize A, !SerializeInj A, !SerializeTotal A} :
  SerializeTotal (list A).
Proof. intros l. apply Forall_forall. intros ??. apply ser_total. Qed.
#[export] Instance nonnull_list {A} `{Serialize A, !SerializeInj A} :
  SerializeNonNull (list A).
Proof. done. Qed.

(** A [BTreeMap] field: its keys are sorted by the type. *)
#[export] Program Instance inj_btree {A} `{SerializeInj A} : SerializeInj (btree A) :=
  {| ser_ok m := bt_sorted m = true /\ Forall (fun e => ser_ok (snd e)) m |}.
Next Obligation.
  intros A ?? a c [Sa Ha] [Sc Hc] [= E].
  rewrite !bt_collect_id in E by (by rewrite bt_map_sorted). unfold bt_map in E.
  clear Sa Sc. revert c Hc E. induction Ha as [|[k x] a Hx Ha IH]; intros c Hc E;
    destruct Hc as [|[k' y] c Hy Hc]; try done.
  injection E as -> ? ?. f_equal; [f_equal; by apply ser_inj|by apply IH].
Qed.
#[export] Instance nonnull_btree {A} `{Serialize A, !SerializeInj A} :
  SerializeNonNull (btree A).
Proof. done. Qed.

Lemma some_ok_total {A} `{Serialize A, !SerializeInj A, !SerializeTotal A} (o : option A) :
  some_ok o.
Proof. destruct o; [apply ser_total|exact I]. Qed.

(** *** Field by field *)

Section FieldInj.
Context {A : Type} `{Serialize A, !SerializeInj A}.

Lemma field_inj (a c : A) : ser_ok a -> ser_ok c ->
  Some (to_value a) = Some (to_value c) -> a = c.
Proof. intros ?? [=]. by apply ser_inj. Qed.

Lemma field_some_inj (a c : option A) :
  some_ok a -> some_ok c -> to_value <$> a = to_value <$> c -> a = c.
Proof. destruct a, c; cbn; intros ?? [=]; [f_equal; by apply ser_inj|done]. Qed.

Lemma field_nonempty_inj (a c : list A) : Forall ser_ok a -> Forall ser_ok c ->
  match a with [] => None | _ => Some (to_value a) end =
  match c with [] => None | _ => Some (to_value c) end -> a = c.
Proof.
  intros Ha Hc E. apply map_to_value_inj; [done..|].
  destruct a as [|x a], c as [|y c]; [done..|].
  injection E as E1 E2. cbn. by rewrite E1, E2.
Qed.

Lemma field_nonempty_map_inj (a c : btree A) : ser_ok a -> ser_ok c ->
  match a with [] => None | _ => Some (to_value a) end =
  match c with [] => None | _ => Some (to_value c) end -> a = c.
Proof.
  intros Ha Hc E. apply (ser_inj (A := btree A)); [done..|].
  destruct a as [|x a], c as [|y c]; [done..|]. congruence.
Qed.

Lemma field_unless_inj `{EqDecision A} (d a c : A) : ser_ok a -> ser_ok c ->
  (if a =? d then None else Some (to_value a)) =
  (if c =? d then None else Some (to_value c)) -> a = c.
Proof.
  intros ??. destruct (a =? d) eqn:Ea, (c =? d) eqn:Ec; try done.
  - apply eqb_eq in Ea, Ec. congruence.
  - by apply field_inj.
Qed.
End FieldInj.

Fixpoint nodupb (l : list string) : bool :=
  match l with [] => true | x :: t => negb (contains t x) && nodupb t end.

Lemma nodupb_NoDup l : nodupb l = true -> List.NoDup l.
Proof.
  induction l as [|x l IH]; cbn; intros H; [constructor|].
  split_andb. constructor; [|by apply IH].
  intros Hin. apply list_elem_of_In in Hin. by apply contains_true in Hin; congruence.
Qed.

(** Discharge the well-formedness of one field. *)
Ltac ser_field_ok :=
  first [ assumption | exact I | apply ser_total
        | apply Forall_forall; intros ??; apply ser_total
        | apply some_ok_total ].

Ltac ser_field H :=
  first [ apply field_inj in H; [|ser_field_ok..]
        | apply field_some_inj in H; [|ser_field_ok..]
        | apply field_nonempty_inj in H; [|ser_field_ok..]
        | apply field_nonempty_map_inj in H; [|ser_field_ok..]
        | apply field_unless_inj in H; [|ser_field_ok..] ].

Lemma some_inj {A} (x y : A) : Some x = Some y -> x = y.
Proof. by intros [= ->]. Qed.

Lemma cons_eq_parts {A} (x y : A) l k : x :: l = y :: k -> x = y /\ l = k.
Proof. by intros [= -> ->]. Qed.

(** Peel the entry lists of two equal serialised structs, field by field. *)
Ltac struct_fields H :=
  repeat match type of H with
  | _ :: _ = _ :: _ =>
      let E := fresh "E" in
      apply cons_eq_parts in H as [E H]; ser_field E; cbn in E; subst
  | [] = [] => clear H
  end.

(** Injectivity of a derived struct serialiser. *)
Ltac struct_inj :=
  let H := fresh "H" in
  let Ha := fresh "Ha" in let Hc := fresh "Hc" in
  intros [] [] Ha Hc H; hnf in Ha, Hc; destruct_and?;
  apply struct_value_fields in H;
  [ cbn [map snd field field_some field_nonempty field_nonempty_map field_unless] in H
  | reflexivity
  | apply nodupb_NoDup; vm_compute; reflexivity ];
  struct_fields H; reflexivity.

Arguments is_sensitive_key : simpl never.
Arguments is_non_secret_boolean_configuration : simpl never.
