(* ===== verification/Redaction.v ===== *)
(** Redaction and canonical form of JSON values: what [redact_json] hides,
    what it keeps, which values it leaves alone, and what
    [canonical_json_value] makes independent of entry order. *)

From Stdlib Require Import String ZArith Lia List Bool Permutation.
From stdpp Require Import base option list strings.
From S2P Require Import Prelude Strings Btree Json.

Open Scope cf_scope.

(** ** Paths into a value: the specification is stated on them *)

Inductive step : Type :=
| Key (k : string)
| Index (i : nat).

Inductive at_path : Value -> list step -> Value -> Prop :=
| at_here v : at_path v [] v
| at_key m k x p v :
    In (k, x) m -> at_path x p v -> at_path (VObject m) (Key k :: p) v
| at_index l i x p v :
    l !! i = Some x -> at_path x p v -> at_path (VArray l) (Index i :: p) v.

(** An entry whose value [redact_json] replaces. *)
Definition redacted_entry (e : string * Value) : bool :=
  is_sensitive_key (fst e) && negb (is_non_secret_boolean_configuration (fst e) (snd e)).

(** No key on the path names a secret. *)
Definition public_step (s : step) : bool :=
  match s with Key k => negb (is_sensitive_key k) | Index _ => true end.

(** A value that carries no secret: every sensitive entry already reads
    ["[REDACTED]"], at every depth. *)
Fixpoint secret_free (v : Value) : bool :=
  match v with
  | VArray l => forallb secret_free l
  | VObject m =>
      forallb (fun e => if redacted_entry e then snd e =? REDACTED
                        else secret_free (snd e)) m
  | _ => true
  end.

(** Two object values that list the same entries, in whatever order. *)
Definition same_entries (l l' : list (string * Value)) : Prop :=
  Permutation l l' /\ List.NoDup (map fst l).

(** ** Shared facts *)

Definition redact_entry (e : string * Value) : string * Value :=
  if redacted_entry e then (fst e, REDACTED) else (fst e, redact_json (snd e)).

Lemma redact_object m :
  redact_json (VObject m) = VObject (bt_collect (map redact_entry m)).
Proof. done. Qed.

Lemma redact_entry_fst e : fst (redact_entry e) = fst e.
Proof. unfold redact_entry. by destruct (redacted_entry e). Qed.

Lemma sorted_same_keys {A B} (m : btree A) (m' : btree B) :
  map fst m = map fst m' -> bt_sorted m = bt_sorted m'.
Proof.
  revert m'; induction m as [|[k v] m IH]; intros [|[k' v'] m']; try done.
  intros [= -> Hk]. cbn. rewrite (IH m') by done. f_equal. clear IH. revert m' Hk.
  induction m as [|[k v2] m IH]; intros [|[k2 v3] m']; try done.
  intros [= -> Hk]. cbn. by rewrite (IH m').
Qed.

Lemma map_redact_sorted m : bt_sorted (map redact_entry m) = bt_sorted m.
Proof.
  apply sorted_same_keys. rewrite map_map. apply map_ext. apply redact_entry_fst.
Qed.

(** On a map, redaction only touches the values. *)
Lemma redact_object_wf m :
  bt_sorted m = true -> redact_json (VObject m) = VObject (map redact_entry m).
Proof. intros H. rewrite redact_object, bt_collect_id; [done|]. by rewrite map_redact_sorted. Qed.

Lemma bt_collect_forallb {A} (P : string * A -> bool) l :
  forallb P l = true -> forallb P (bt_collect l) = true.
Proof.
  rewrite !forallb_forall. intros H.
  enough (Hacc : forall l m, (forall e, In e l -> P e = true) ->
    (forall e, In e m -> P e = true) ->
    forall e, In e (fold_left (fun m e => bt_insert (fst e) (snd e) m) l m) -> P e = true).
  { by eapply Hacc. }
  clear. intros l. induction l as [|[k v] l IH]; intros m Hl Hm; [done|].
  apply IH; [intros; apply Hl; by right|]. intros [k' v'] Hin.
  apply bt_insert_in in Hin as [[-> ->]|Hin]; [apply Hl; by left|by apply Hm].
Qed.

Lemma redact_wf v : value_wf (redact_json v) = true.
Proof.
  induction v as [| | | |l IH|m IH] using Value_ind'; try done.
  - cbn. rewrite forallb_forall. intros x (y & <- & Hin)%in_map_iff.
    by apply (proj1 (List.Forall_forall _ _) IH).
  - rewrite redact_object. cbn. rewrite bt_collect_sorted. cbn.
    apply bt_collect_forallb, forallb_forall.
    intros e (e0 & <- & Hin)%in_map_iff. unfold redact_entry.
    destruct (redacted_entry e0); [done|]. by apply (proj1 (List.Forall_forall _ _) IH).
Qed.

Lemma redacted_entry_REDACTED k v :
  redacted_entry (k, v) = true -> redacted_entry (k, REDACTED) = true.
Proof.
  unfold redacted_entry, is_non_secret_boolean_configuration. cbn.
  rewrite !andb_true_iff. intros [-> _]. by rewrite andb_false_r.
Qed.

Lemma eq_ignore_case_bool k v :
  is_non_secret_boolean_configuration k v = true -> exists b, v = VBool b.
Proof.
  unfold is_non_secret_boolean_configuration. intros H. split_andb.
  destruct v; try done. by eexists.
Qed.

(** A redacted entry stays redacted, and an entry that is kept is not one. *)
Lemma redacted_entry_redact k v :
  redacted_entry (k, v) = false -> redacted_entry (k, redact_json v) = false.
Proof.
  unfold redacted_entry. cbn. destruct (is_sensitive_key k); [|done]. cbn.
  rewrite !negb_false_iff. intros H. pose proof (eq_ignore_case_bool _ _ H) as [b ->]. done.
Qed.

Lemma redact_secret_free v : secret_free (redact_json v) = true.
Proof.
  induction v as [| | | |l IH|m IH] using Value_ind'; try done.
  - cbn. rewrite forallb_forall. intros x (y & <- & Hin)%in_map_iff.
    by apply (proj1 (List.Forall_forall _ _) IH).
  - rewrite redact_object. cbn. apply bt_collect_forallb, forallb_forall.
    intros e ([k x] & <- & Hin)%in_map_iff. unfold redact_entry.
    destruct (redacted_entry (k, x)) eqn:E; cbn [fst snd].
    + by rewrite (redacted_entry_REDACTED _ _ E).
    + rewrite redacted_entry_redact by done.
      apply (proj1 (List.Forall_forall _ _) IH _ Hin).
Qed.

Lemma secret_free_fixpoint v :
  value_wf v = true -> secret_free v = true -> redact_json v = v.
Proof.
  induction v as [| | | |l IH|m IH] using Value_ind'; try done; cbn [value_wf secret_free].
  - rewrite !forallb_forall. intros Hw Hs. cbn. f_equal.
    rewrite <- (map_id l) at 2. apply map_ext_in. intros x Hin.
    apply (proj1 (List.Forall_forall _ _) IH); auto.
  - rewrite andb_true_iff, !forallb_forall. intros [Hso Hw] Hs.
    rewrite redact_object_wf by done. f_equal.
    rewrite <- (map_id m) at 2. apply map_ext_in. intros [k x] Hin.
    specialize (Hs _ Hin). unfold redact_entry. destruct (redacted_entry (k, x)); cbn in *.
    + by apply eqb_eq in Hs as ->.
    + f_equal. apply (proj1 (List.Forall_forall _ _) IH _ Hin); [|done]. by apply (Hw _ Hin).
Qed.

(** The guard of the transaction journal, [redact_json(v) == v], accepts
    exactly the values that carry no secret. *)
Lemma redact_guard_secret_free v :
  value_wf v = true -> Value_eqb (redact_json v) v = secret_free v.
Proof.
  induction v as [| | | |l IH|m IH] using Value_ind'; try done; cbn [value_wf secret_free].
  - intros _. apply Value_eqb_refl.
  - intros _. apply Value_eqb_refl.
  - intros _. apply Value_eqb_refl.
  - intros Hw. cbn. induction IH as [|x l Hx _ IH]; [done|].
    cbn in *. split_andb. by rewrite Hx, IH.
  - rewrite andb_true_iff. intros [Hs Hw]. rewrite redact_object_wf by done. clear Hs. cbn.
    induction IH as [|[k x] m Hx _ IH]; [done|].
    cbn in *. split_andb. rewrite IH by done. unfold redact_entry.
    destruct (redacted_entry (k, x)) eqn:E; cbn [fst snd]; rewrite eqb_refl; cbn; f_equal;
      [|by apply Hx].
    destruct x; try done. cbn. unfold eqb. apply bool_decide_ext.
    split; [by intros <-|by intros [= <-]].
Qed.

(** ** Properties *)

Section Paths.
Lemma at_path_secret_free v p k x y :
  secret_free v = true -> at_path v p (VObject y) -> In (k, x) y ->
  redacted_entry (k, x) = true -> x = REDACTED.
Proof.
  intros Hs Hp Hin He. remember (VObject y) as w eqn:Ew.
  induction Hp as [v|m k' x' p v Hm _ IH|l i x' p v Hl _ IH]; subst.
  - cbn in Hs. rewrite forallb_forall in Hs. specialize (Hs _ Hin).
    rewrite He in Hs. by apply eqb_eq in Hs.
  - cbn in Hs. rewrite forallb_forall in Hs. specialize (Hs _ Hm). cbn in Hs.
    destruct (redacted_entry (k', x')) eqn:E; [|by apply IH].
    apply eqb_eq in Hs as ->. by apply IH.
  - cbn in Hs. rewrite forallb_forall in Hs. apply IH; [|done].
    apply Hs, list_elem_of_In, list_elem_of_lookup. eauto.
Qed.

Lemma at_path_redact v p x :
  value_wf v = true -> forallb public_step p = true -> at_path v p x ->
  at_path (redact_json v) p (redact_json x).
Proof.
  intros Hw Hp H. induction H as [v|m k y p v Hm _ IH|l i y p v Hl _ IH].
  - constructor.
  - cbn [value_wf forallb public_step] in Hw, Hp. split_andb.
    rewrite redact_object_wf by done. apply at_key with (redact_json y).
    + apply in_map_iff. exists (k, y). split; [|done].
      unfold redact_entry, redacted_entry. cbn [fst snd].
      by replace (is_sensitive_key k) with false.
    + match goal with Hf : forallb _ m = true |- _ => rewrite forallb_forall in Hf;
        apply IH; [by apply (Hf (k, y))|done] end.
  - cbn [value_wf forallb public_step] in Hw, Hp. split_andb.
    apply at_index with (redact_json y).
    + by rewrite list_lookup_fmap, Hl.
    + apply IH; [|done]. rewrite forallb_forall in Hw.
      apply Hw, list_elem_of_In, list_elem_of_lookup. eauto.
Qed.
End Paths.

(** C37: at every depth of a redacted value, an entry whose key names a secret
    reads ["[REDACTED]"], with the one exception the code makes: the boolean
    switch [enable_binding_cookie], whose key names a secret and whose value,
    as long as it is a boolean, is kept. *)
Theorem redact_hides_secrets (v : Value) (p : list step) (m : btree Value)
    (k : string) (x : Value) :
  at_path (redact_json v) p (VObject m) -> In (k, x) m ->
  is_sensitive_key k = true -> is_non_secret_boolean_configuration k x = false ->
  x = REDACTED.
Proof.
  intros Hp Hin Hk Hb. eapply at_path_secret_free; [apply redact_secret_free|done..|].
  unfold redacted_entry. cbn [fst snd]. by rewrite Hk, Hb.
Qed.

(** Redaction keeps the rest: whatever sits at a path none of whose keys
    names a secret sits, redacted, at the same path of the redacted value. *)
Theorem redact_keeps_public (v : Value) (p : list step) (x : Value) :
  value_wf v = true -> forallb public_step p = true -> at_path v p x ->
  at_path (redact_json v) p (redact_json x).
Proof. apply at_path_redact. Qed.

(** [redact_json] leaves a value alone exactly when it carries no secret,
    so the journal's [redact_json(artifact) != artifact] guard refuses exactly
    the artifacts that do; and redacting twice is redacting once. *)
Theorem redact_fixpoint_iff (v : Value) :
  value_wf v = true ->
  (redact_json v = v <-> secret_free v = true) /\
  redact_json (redact_json v) = redact_json v.
Proof.
  intros Hw. split; [split|].
  - intros <-. apply redact_secret_free.
  - by apply secret_free_fixpoint.
  - apply secret_free_fixpoint; [apply redact_wf|apply redact_secret_free].
Qed.

Lemma canonical_wf v : value_wf (canonical_json_value v) = true.
Proof.
  induction v as [| | | |l IH|m IH] using Value_ind'; try done.
  - cbn. rewrite forallb_forall. intros x (y & <- & Hin)%in_map_iff.
    by apply (proj1 (List.Forall_forall _ _) IH).
  - cbn. rewrite bt_collect_sorted. cbn. rewrite bt_collect_id by apply bt_collect_sorted.
    apply bt_collect_forallb, forallb_forall. intros e (e0 & <- & Hin)%in_map_iff.
    by apply (proj1 (List.Forall_forall _ _) IH).
Qed.

Lemma canonical_id v : value_wf v = true -> canonical_json_value v = v.
Proof.
  induction v as [| | | |l IH|m IH] using Value_ind'; try done; cbn [value_wf].
  - rewrite forallb_forall. intros Hw. cbn. f_equal.
    rewrite <- (map_id l) at 2. apply map_ext_in. intros x Hin.
    apply (proj1 (List.Forall_forall _ _) IH); auto.
  - rewrite andb_true_iff, forallb_forall. intros [Hs Hw]. cbn. f_equal.
    replace (map (fun e => (fst e, canonical_json_value (snd e))) m) with m.
    + by rewrite (bt_collect_id m), bt_collect_id.
    + rewrite <- (map_id m) at 1. apply map_ext_in. intros [k x] Hin. cbn. f_equal.
      symmetry. apply (proj1 (List.Forall_forall _ _) IH _ Hin). by apply (Hw _ Hin).
Qed.

(** Serialised structs are well formed when their fields are. *)
Definition field_wf (f : string * option Value) : bool :=
  match snd f with Some v => value_wf v | None => true end.

Lemma struct_value_wf l : forallb field_wf l = true -> value_wf (struct_value l) = true.
Proof.
  intros H. cbn. rewrite bt_collect_sorted. cbn. apply bt_collect_forallb.
  induction l as [|[k [v|]] l IH]; cbn in *; [done|..]; split_andb; [|by apply IH].
  by rewrite H, IH.
Qed.

Lemma list_value_wf {A} `{Serialize A} (l : list A) :
  (forall a, value_wf (to_value a) = true) -> value_wf (to_value l) = true.
Proof.
  intros Ha. cbn. rewrite forallb_forall. by intros v (a & <- & _)%in_map_iff.
Qed.

Lemma bt_collect_perm {A} (l l' : list (string * A)) :
  Permutation l l' -> List.NoDup (map fst l) -> bt_collect l = bt_collect l'.
Proof.
  intros Hp Hnd. apply bt_ext; [apply bt_collect_sorted..|]. intros k.
  assert (List.NoDup (map fst l')) as Hnd'.
  { eapply Permutation_NoDup; [by apply Permutation_map|done]. }
  destruct (in_dec string_dec k (map fst l)) as [Hin|Hni].
  - apply in_map_iff in Hin as ([k' v] & <- & Hin). cbn.
    rewrite (bt_collect_get_in l k' v) by done. symmetry.
    apply bt_collect_get_in; [done|]. by eapply Permutation_in.
  - rewrite (bt_collect_get_notin l) by done. symmetry. apply bt_collect_get_notin.
    intros H. apply Hni. eapply Permutation_in; [|done].
    by apply Permutation_map, Permutation_sym.
Qed.

(** [canonical_json_value] does not depend on the order in which an
    object's entries are listed, its result is a well-formed value, and it is
    the identity on the values the process actually holds (whose objects are
    [BTreeMap]s), so [canonical_hash_value] and [hash_value] agree on them. *)
Theorem canonical_order_independent (l l' : list (string * Value)) :
  same_entries l l' ->
  canonical_json_value (VObject l) = canonical_json_value (VObject l') /\
  value_wf (canonical_json_value (VObject l)) = true /\
  (forall v, value_wf v = true -> canonical_json_value v = v).
Proof.
  intros [Hp Hnd]. split; [|split; [apply canonical_wf|apply canonical_id]].
  cbn. do 2 f_equal. apply bt_collect_perm; [by apply Permutation_map|].
  rewrite map_map. by cbn.
Qed.

(** ** Witnesses *)

Definition sample_secret : Value :=
  VObject [("api_token", VString "t"); ("name", VString "n");
           ("nested", VArray [VObject [("password", VString "p")]])]%string.

Lemma redact_hides_secrets_witness : VString "[REDACTED]" = REDACTED.
Proof.
  apply (redact_hides_secrets sample_secret [Key "nested"; Index 0]%string
           [("password", VString "[REDACTED]")]%string "password"%string).
  - vm_compute. eapply at_key; [right; right; left; reflexivity|].
    eapply (at_index _ 0); [reflexivity|]. apply at_here.
  - by left.
  - vm_compute. reflexivity.
  - vm_compute. reflexivity.
Defined.

Lemma redact_keeps_public_witness :
  at_path (redact_json sample_secret) [Key "name"]%string (redact_json (VString "n")).
Proof.
  apply redact_keeps_public; [vm_compute; reflexivity..|].
  eapply at_key; [right; left; reflexivity|]. apply at_here.
Defined.

Lemma redact_fixpoint_iff_witness :
  value_wf sample_secret = true /\
  ((redact_json sample_secret = sample_secret <-> secret_free sample_secret = true) /\
   redact_json (redact_json sample_secret) = redact_json sample_secret).
Proof.
  split; [vm_compute; reflexivity|].
  apply (redact_fixpoint_iff sample_secret). vm_compute. reflexivity.
Defined.

Lemma canonical_order_independent_witness :
  let l := [("b", VNull); ("a", VBool true)]%string in
  let l' := [("a", VBool true); ("b", VNull)]%string in
  canonical_json_value (VObject l) = canonical_json_value (VObject l') /\
  value_wf (canonical_json_value (VObject l)) = true /\
  (forall v, value_wf v = true -> canonical_json_value v = v).
Proof.
  intros l l'. apply (canonical_order_independent l l'). split; [apply perm_swap|].
  apply nodupb_NoDup. vm_compute. reflexivity.
Defined.
