(* ===== verification/CatalogTypes.v ===== *)
(** The data of a catalog capability (crates/cfctl-core/src/lib.rs and the small
    modules it re-exports): every enum and struct a [CapabilityV1] is made of,
    with the JSON its derived [Serialize] produces, field by field and with
    every [skip_serializing_if], and the instances saying that this JSON
    determines the value. Integers are [Z], [f64] is a binary64 value. *)

From Stdlib Require Import String ZArith Lia List Bool.
From Stdlib Require Import Floats.SpecFloat.
From stdpp Require Import base option list strings.
From S2P Require Import Prelude Strings Btree Json.

Open Scope cf_scope.

(** crates/cfctl-core/src/lib.rs, lines 854-867: [CapabilityAuthorityScopeV1]. *)
Inductive CapabilityAuthorityScopeV1 : Type :=
| CapabilityAuthorityScope_ProviderGeneric
| CapabilityAuthorityScope_CfctlProduct
| CapabilityAuthorityScope_WorkspaceOwned
| CapabilityAuthorityScope_LegacyEmbedded.
#[export] Instance CapabilityAuthorityScopeV1_eq_dec : EqDecision CapabilityAuthorityScopeV1.
Proof. solve_decision. Defined.
#[export] Instance ser_CapabilityAuthorityScopeV1 : Serialize CapabilityAuthorityScopeV1 := fun x =>
  VString (match x with
  | CapabilityAuthorityScope_ProviderGeneric => "provider_generic"
  | CapabilityAuthorityScope_CfctlProduct => "cfctl_product"
  | CapabilityAuthorityScope_WorkspaceOwned => "workspace_owned"
  | CapabilityAuthorityScope_LegacyEmbedded => "legacy_embedded"
  end)%string.

(** crates/cfctl-core/src/lib.rs, lines 953-958: [QuerySerializationV1]. *)
Record QuerySerializationV1 : Type := mkQuerySerializationV1 {
  qs_style : string;
  qs_explode : bool;
  qs_allow_reserved : bool;
  qs_allow_empty_value : bool;
}.
#[export] Instance ser_QuerySerializationV1 : Serialize QuerySerializationV1 := fun c => struct_value [
  field "style" (qs_style c);
  field "explode" (qs_explode c);
  field "allow_reserved" (qs_allow_reserved c);
  field "allow_empty_value" (qs_allow_empty_value c)].

(** crates/cfctl-core/src/lib.rs, lines 961-965: [SelectorContractV1]. *)
Record SelectorContractV1 : Type := mkSelectorContractV1 {
  selc_schema : Value;
  selc_query : option QuerySerializationV1;
}.
#[export] Instance ser_SelectorContractV1 : Serialize SelectorContractV1 := fun c => struct_value [
  field "schema" (selc_schema c);
  field_some "query" (selc_query c)].

(** crates/cfctl-core/src/lib.rs, lines 968-976: [SelectorV1]. *)
Record SelectorV1 : Type := mkSelectorV1 {
  sel_name : string;
  sel_location : string;
  sel_required : bool;
  sel_value_type : string;
  sel_description : option string;
  sel_contract : option SelectorContractV1;
}.
#[export] Instance ser_SelectorV1 : Serialize SelectorV1 := fun c => struct_value [
  field "name" (sel_name c);
  field "location" (sel_location c);
  field "required" (sel_required c);
  field "value_type" (sel_value_type c);
  field "description" (sel_description c);
  field_some "contract" (sel_contract c)].

(** crates/cfctl-core/src/lib.rs, lines 871-883: [RiskClass]. *)
Inductive RiskClass : Type :=
| RiskClass_Read
| RiskClass_Recovery
| RiskClass_ScopedWrite
| RiskClass_CrossConfig
| RiskClass_Destructive
| RiskClass_SecretSensitive
| RiskClass_ExternalCommunication
| RiskClass_IdentityOrOwnership
| RiskClass_Spend
| RiskClass_Irreversible
| RiskClass_Unknown.
#[export] Instance RiskClass_eq_dec : EqDecision RiskClass.
Proof. solve_decision. Defined.
#[export] Instance ser_RiskClass : Serialize RiskClass := fun x =>
  VString (match x with
  | RiskClass_Read => "read"
  | RiskClass_Recovery => "recovery"
  | RiskClass_ScopedWrite => "scoped_write"
  | RiskClass_CrossConfig => "cross_config"
  | RiskClass_Destructive => "destructive"
  | RiskClass_SecretSensitive => "secret_sensitive"
  | RiskClass_ExternalCommunication => "external_communication"
  | RiskClass_IdentityOrOwnership => "identity_or_ownership"
  | RiskClass_Spend => "spend"
  | RiskClass_Irreversible => "irreversible"
  | RiskClass_Unknown => "unknown"
  end)%string.

(** crates/cfctl-core/src/lib.rs, lines 887-897: [EffectClass]. *)
Inductive EffectClass : Type :=
| EffectClass_ReadOnly
| EffectClass_DataWrite
| EffectClass_ReversibleWrite
| EffectClass_Destructive
| EffectClass_ExternalCommunication
| EffectClass_IdentityOrOwnership
| EffectClass_Spend
| EffectClass_Irreversible
| EffectClass_Unknown.
#[export] Instance EffectClass_eq_dec : EqDecision EffectClass.
Proof. solve_decision. Defined.
#[export] Instance ser_EffectClass : Serialize EffectClass := fun x =>
  VString (match x with
  | EffectClass_ReadOnly => "read_only"
  | EffectClass_DataWrite => "data_write"
  | EffectClass_ReversibleWrite => "reversible_write"
  | EffectClass_Destructive => "destructive"
  | EffectClass_ExternalCommunication => "external_communication"
  | EffectClass_IdentityOrOwnership => "identity_or_ownership"
  | EffectClass_Spend => "spend"
  | EffectClass_Irreversible => "irreversible"
  | EffectClass_Unknown => "unknown"
  end)%string.

(** crates/cfctl-core/src/lib.rs, lines 944-950: [Maturity]. *)
Inductive Maturity : Type :=
| Maturity_GenerallyAvailable
| Maturity_Beta
| Maturity_Experimental
| Maturity_Deprecated
| Maturity_Unknown.
#[export] Instance Maturity_eq_dec : EqDecision Maturity.
Proof. solve_decision. Defined.
#[export] Instance ser_Maturity : Serialize Maturity := fun x =>
  VString (match x with
  | Maturity_GenerallyAvailable => "generally_available"
  | Maturity_Beta => "beta"
  | Maturity_Experimental => "experimental"
  | Maturity_Deprecated => "deprecated"
  | Maturity_Unknown => "unknown"
  end)%string.

(** crates/cfctl-core/src/lib.rs, lines 1509-1513: [EntitlementProbeV1]. *)
Record EntitlementProbeV1 : Type := mkEntitlementProbeV1 {
  probe_capability_id : string;
  probe_path : string;
  probe_selector_names : list string;
}.
#[export] Instance ser_EntitlementProbeV1 : Serialize EntitlementProbeV1 := fun c => struct_value [
  field "capability_id" (probe_capability_id c);
  field "path" (probe_path c);
  field "selector_names" (probe_selector_names c)].

(** crates/cfctl-core/src/lib.rs, lines 1516-1528: [EntitlementV1]. *)
Record EntitlementV1 : Type := mkEntitlementV1 {
  ent_available : option bool;
  ent_plans : btree bool;
  ent_blocker : option string;
  ent_source : option string;
  ent_requires_live_resolution : bool;
  ent_observed_plan : option string;
  ent_probe : option EntitlementProbeV1;
}.
#[export] Instance ser_EntitlementV1 : Serialize EntitlementV1 := fun c => struct_value [
  field "available" (ent_available c);
  field "plans" (ent_plans c);
  field "blocker" (ent_blocker c);
  field "source" (ent_source c);
  field "requires_live_resolution" (ent_requires_live_resolution c);
  field "observed_plan" (ent_observed_plan c);
  field_some "probe" (ent_probe c)].

(** crates/cfctl-core/src/lib.rs, lines 1446-1455: [BillingModelV1]. *)
Inductive BillingModelV1 : Type :=
| BillingModel_None
| BillingModel_Fixed
| BillingModel_UsageBased
| BillingModel_Subscription
| BillingModel_PassThrough
| BillingModel_Contract
| BillingModel_Unknown.
#[export] Instance BillingModelV1_eq_dec : EqDecision BillingModelV1.
Proof. solve_decision. Defined.
#[export] Instance ser_BillingModelV1 : Serialize BillingModelV1 := fun x =>
  VString (match x with
  | BillingModel_None => "none"
  | BillingModel_Fixed => "fixed"
  | BillingModel_UsageBased => "usage_based"
  | BillingModel_Subscription => "subscription"
  | BillingModel_PassThrough => "pass_through"
  | BillingModel_Contract => "contract"
  | BillingModel_Unknown => "unknown"
  end)%string.

(** crates/cfctl-core/src/lib.rs, lines 1459-1464: [CostExposureV1]. *)
Inductive CostExposureV1 : Type :=
| CostExposure_None
| CostExposure_DownstreamUsage
| CostExposure_AccountQuote.
#[export] Instance CostExposureV1_eq_dec : EqDecision CostExposureV1.
Proof. solve_decision. Defined.
#[export] Instance ser_CostExposureV1 : Serialize CostExposureV1 := fun x =>
  VString (match x with
  | CostExposure_None => "none"
  | CostExposure_DownstreamUsage => "downstream_usage"
  | CostExposure_AccountQuote => "account_quote"
  end)%string.

(** crates/cfctl-core/src/lib.rs, lines 1467-1471: [KnowledgeReferenceV1]. *)
Record KnowledgeReferenceV1 : Type := mkKnowledgeReferenceV1 {
  ref_title : string;
  ref_url : string;
  ref_source : string;
}.
#[export] Instance ser_KnowledgeReferenceV1 : Serialize KnowledgeReferenceV1 := fun c => struct_value [
  field "title" (ref_title c);
  field "url" (ref_url c);
  field "source" (ref_source c)].

(** crates/cfctl-core/src/lib.rs, lines 1474-1486: [CostV1]. *)
Record CostV1 : Type := mkCostV1 {
  cost_incremental : bool;
  cost_currency : option string;
  cost_maximum : option f64;
  cost_basis : option string;
  cost_known : bool;
  cost_billing_model : BillingModelV1;
  cost_exposure : CostExposureV1;
  cost_references : list KnowledgeReferenceV1;
}.
#[export] Instance ser_CostV1 : Serialize CostV1 := fun c => struct_value [
  field "incremental" (cost_incremental c);
  field "currency" (cost_currency c);
  field "maximum" (cost_maximum c);
  field "basis" (cost_basis c);
  field "known" (cost_known c);
  field "billing_model" (cost_billing_model c);
  field "exposure" (cost_exposure c);
  field "references" (cost_references c)].

(** crates/cfctl-core/src/lib.rs, lines 1531-1534: [VerificationSpecV1]. *)
Record VerificationSpecV1 : Type := mkVerificationSpecV1 {
  verif_required : bool;
  verif_strategy : string;
}.
#[export] Instance ser_VerificationSpecV1 : Serialize VerificationSpecV1 := fun c => struct_value [
  field "required" (verif_required c);
  field "strategy" (verif_strategy c)].

(** crates/cfctl-core/src/lib.rs, lines 1537-1541: [RollbackSpecV1]. *)
Record RollbackSpecV1 : Type := mkRollbackSpecV1 {
  rollback_supported : bool;
  rollback_strategy : option string;
  rollback_warning : option string;
}.
#[export] Instance ser_RollbackSpecV1 : Serialize RollbackSpecV1 := fun c => struct_value [
  field "supported" (rollback_supported c);
  field "strategy" (rollback_strategy c);
  field "warning" (rollback_warning c)].

(** crates/cfctl-core/src/lib.rs, lines 1657-1667: [CreatedResourceContractV1]. *)
Record CreatedResourceContractV1 : Type := mkCreatedResourceContractV1 {
  cr_detail_path : string;
  cr_identity_selector : string;
  cr_response_result_identity_pointer : string;
  cr_read_capability_id : string;
  cr_delete_capability_id : string;
  cr_verified_response_fields : list string;
}.
#[export] Instance ser_CreatedResourceContractV1 : Serialize CreatedResourceContractV1 := fun c => struct_value [
  field "detail_path" (cr_detail_path c);
  field "identity_selector" (cr_identity_selector c);
  field "response_result_identity_pointer" (cr_response_result_identity_pointer c);
  field "read_capability_id" (cr_read_capability_id c);
  field "delete_capability_id" (cr_delete_capability_id c);
  field_nonempty "verified_response_fields" (cr_verified_response_fields c)].

(** crates/cfctl-core/src/lib.rs, lines 1675-1688: [CreatedCollectionResourceContractV1]. *)
Record CreatedCollectionResourceContractV1 : Type := mkCreatedCollectionResourceContractV1 {
  ccr_collection_path : string;
  ccr_identity_selector : string;
  ccr_response_result_identity_pointer : string;
  ccr_response_item_identity_pointer : string;
  ccr_read_capability_id : string;
  ccr_delete_capability_id : string;
  ccr_verified_response_fields : list string;
  ccr_requires_page_number_completion : bool;
}.
#[export] Instance ser_CreatedCollectionResourceContractV1 : Serialize CreatedCollectionResourceContractV1 := fun c => struct_value [
  field "collection_path" (ccr_collection_path c);
  field "identity_selector" (ccr_identity_selector c);
  field "response_result_identity_pointer" (ccr_response_result_identity_pointer c);
  field "response_item_identity_pointer" (ccr_response_item_identity_pointer c);
  field "read_capability_id" (ccr_read_capability_id c);
  field "delete_capability_id" (ccr_delete_capability_id c);
  field "verified_response_fields" (ccr_verified_response_fields c);
  field_unless "requires_page_number_completion" false (ccr_requires_page_number_completion c)].

(** crates/cfctl-core/src/lib.rs, lines 1697-1707: [CreatedNestedResourceContractV1]. *)
Record CreatedNestedResourceContractV1 : Type := mkCreatedNestedResourceContractV1 {
  cnr_parent_path : string;
  cnr_items_pointer : string;
  cnr_identity_selector : string;
  cnr_response_item_identity_pointer : string;
  cnr_correlation_field : string;
  cnr_read_capability_id : string;
  cnr_delete_capability_id : string;
  cnr_delete_path : string;
  cnr_verified_response_fields : list string;
}.
#[export] Instance ser_CreatedNestedResourceContractV1 : Serialize CreatedNestedResourceContractV1 := fun c => struct_value [
  field "parent_path" (cnr_parent_path c);
  field "items_pointer" (cnr_items_pointer c);
  field "identity_selector" (cnr_identity_selector c);
  field "response_item_identity_pointer" (cnr_response_item_identity_pointer c);
  field "correlation_field" (cnr_correlation_field c);
  field "read_capability_id" (cnr_read_capability_id c);
  field "delete_capability_id" (cnr_delete_capability_id c);
  field "delete_path" (cnr_delete_path c);
  field "verified_response_fields" (cnr_verified_response_fields c)].

(** crates/cfctl-core/src/lib.rs, lines 1714-1724: [DeletedResourceContractV1]. *)
Record DeletedResourceContractV1 : Type := mkDeletedResourceContractV1 {
  dr_collection_path : string;
  dr_identity_selector : string;
  dr_response_item_identity_pointer : string;
  dr_read_capability_id : string;
  dr_requires_page_number_completion : bool;
}.
#[export] Instance ser_DeletedResourceContractV1 : Serialize DeletedResourceContractV1 := fun c => struct_value [
  field "collection_path" (dr_collection_path c);
  field "identity_selector" (dr_identity_selector c);
  field "response_item_identity_pointer" (dr_response_item_identity_pointer c);
  field "read_capability_id" (dr_read_capability_id c);
  field_unless "requires_page_number_completion" false (dr_requires_page_number_completion c)].

(** crates/cfctl-core/src/lib.rs, lines 1729-1736: [DeletedNestedResourceContractV1]. *)
Record DeletedNestedResourceContractV1 : Type := mkDeletedNestedResourceContractV1 {
  dnr_parent_path : string;
  dnr_collection_path : string;
  dnr_items_pointer : string;
  dnr_identity_selector : string;
  dnr_response_item_identity_pointer : string;
  dnr_read_capability_id : string;
}.
#[export] Instance ser_DeletedNestedResourceContractV1 : Serialize DeletedNestedResourceContractV1 := fun c => struct_value [
  field "parent_path" (dnr_parent_path c);
  field "collection_path" (dnr_collection_path c);
  field "items_pointer" (dnr_items_pointer c);
  field "identity_selector" (dnr_identity_selector c);
  field "response_item_identity_pointer" (dnr_response_item_identity_pointer c);
  field "read_capability_id" (dnr_read_capability_id c)].

(** crates/cfctl-core/src/lib.rs, lines 1742-1753: [UpdatedResourceContractV1]. *)
Record UpdatedResourceContractV1 : Type := mkUpdatedResourceContractV1 {
  ur_collection_path : string;
  ur_identity_selector : string;
  ur_response_item_identity_pointer : string;
  ur_read_capability_id : string;
  ur_verified_response_fields : list string;
  ur_requires_page_number_completion : bool;
}.
#[export] Instance ser_UpdatedResourceContractV1 : Serialize UpdatedResourceContractV1 := fun c => struct_value [
  field "collection_path" (ur_collection_path c);
  field "identity_selector" (ur_identity_selector c);
  field "response_item_identity_pointer" (ur_response_item_identity_pointer c);
  field "read_capability_id" (ur_read_capability_id c);
  field "verified_response_fields" (ur_verified_response_fields c);
  field_unless "requires_page_number_completion" false (ur_requires_page_number_completion c)].

(** crates/cfctl-core/src/lib.rs, lines 1759-1764: [SamePathReadContractV1]. *)
Record SamePathReadContractV1 : Type := mkSamePathReadContractV1 {
  spr_path : string;
  spr_read_capability_id : string;
  spr_verified_response_fields : list string;
}.
#[export] Instance ser_SamePathReadContractV1 : Serialize SamePathReadContractV1 := fun c => struct_value [
  field "path" (spr_path c);
  field "read_capability_id" (spr_read_capability_id c);
  field_nonempty "verified_response_fields" (spr_verified_response_fields c)].

(** crates/cfctl-core/src/lib.rs, lines 1772-1794: [AsyncCollectionMutationContractV1]. *)
Record AsyncCollectionMutationContractV1 : Type := mkAsyncCollectionMutationContractV1 {
  acm_operation_status_path : string;
  acm_operation_status_capability_id : string;
  acm_operation_id_selector : string;
  acm_apply_operation_id_pointer : string;
  acm_status_operation_id_pointer : string;
  acm_status_state_pointer : string;
  acm_pending_states : list string;
  acm_completed_state : string;
  acm_failed_state : string;
  acm_max_poll_attempts : Z;
  acm_poll_interval_ms : Z;
  acm_collection_path : string;
  acm_collection_capability_id : string;
  acm_collection_metadata_path : string;
  acm_collection_metadata_capability_id : string;
  acm_collection_item_identity_pointer : string;
  acm_correlation_field : option string;
  acm_remove_capability_id : option string;
  acm_requires_cursor_completion : bool;
}.
#[export] Instance ser_AsyncCollectionMutationContractV1 : Serialize AsyncCollectionMutationContractV1 := fun c => struct_value [
  field "operation_status_path" (acm_operation_status_path c);
  field "operation_status_capability_id" (acm_operation_status_capability_id c);
  field "operation_id_selector" (acm_operation_id_selector c);
  field "apply_operation_id_pointer" (acm_apply_operation_id_pointer c);
  field "status_operation_id_pointer" (acm_status_operation_id_pointer c);
  field "status_state_pointer" (acm_status_state_pointer c);
  field "pending_states" (acm_pending_states c);
  field "completed_state" (acm_completed_state c);
  field "failed_state" (acm_failed_state c);
  field "max_poll_attempts" (acm_max_poll_attempts c);
  field "poll_interval_ms" (acm_poll_interval_ms c);
  field "collection_path" (acm_collection_path c);
  field "collection_capability_id" (acm_collection_capability_id c);
  field "collection_metadata_path" (acm_collection_metadata_path c);
  field "collection_metadata_capability_id" (acm_collection_metadata_capability_id c);
  field "collection_item_identity_pointer" (acm_collection_item_identity_pointer c);
  field_some "correlation_field" (acm_correlation_field c);
  field_some "remove_capability_id" (acm_remove_capability_id c);
  field "requires_cursor_completion" (acm_requires_cursor_completion c)].

(** crates/cfctl-core/src/lib.rs, lines 828-834: [AdapterStatus]. *)
Inductive AdapterStatus : Type :=
| AdapterStatus_Native
| AdapterStatus_DynamicApi
| AdapterStatus_DelegatedCli
| AdapterStatus_GovernedUi
| AdapterStatus_Blocked.
#[export] Instance AdapterStatus_eq_dec : EqDecision AdapterStatus.
Proof. solve_decision. Defined.
#[export] Instance ser_AdapterStatus : Serialize AdapterStatus := fun x =>
  VString (match x with
  | AdapterStatus_Native => "native"
  | AdapterStatus_DynamicApi => "dynamic_api"
  | AdapterStatus_DelegatedCli => "delegated_cli"
  | AdapterStatus_GovernedUi => "governed_ui"
  | AdapterStatus_Blocked => "blocked"
  end)%string.

(** crates/cfctl-core/src/lib.rs, lines 980-989: [ResponseBodyModeV1]. *)
Inductive ResponseBodyModeV1 : Type :=
| ResponseBodyMode_CloudflareJsonEnvelope
| ResponseBodyMode_CloudflareDataEnvelope
| ResponseBodyMode_JsonValue
| ResponseBodyMode_GraphqlJson
| ResponseBodyMode_NegotiatedRows
| ResponseBodyMode_R2PrivateObjectDigest
| ResponseBodyMode_Empty
| ResponseBodyMode_Unsupported.
#[export] Instance ResponseBodyModeV1_eq_dec : EqDecision ResponseBodyModeV1.
Proof. solve_decision. Defined.
#[export] Instance ser_ResponseBodyModeV1 : Serialize ResponseBodyModeV1 := fun x =>
  VString (match x with
  | ResponseBodyMode_CloudflareJsonEnvelope => "cloudflare_json_envelope"
  | ResponseBodyMode_CloudflareDataEnvelope => "cloudflare_data_envelope"
  | ResponseBodyMode_JsonValue => "json_value"
  | ResponseBodyMode_GraphqlJson => "graphql_json"
  | ResponseBodyMode_NegotiatedRows => "negotiated_rows"
  | ResponseBodyMode_R2PrivateObjectDigest => "r2_private_object_digest"
  | ResponseBodyMode_Empty => "empty"
  | ResponseBodyMode_Unsupported => "unsupported"
  end)%string.

(** crates/cfctl-core/src/lib.rs, lines 992-997: [ResponseContractV1]. *)
Record ResponseContractV1 : Type := mkResponseContractV1 {
  resp_success_statuses : list string;
  resp_success_media_types : list string;
  resp_body_mode : ResponseBodyModeV1;
}.
#[export] Instance ser_ResponseContractV1 : Serialize ResponseContractV1 := fun c => struct_value [
  field_nonempty "success_statuses" (resp_success_statuses c);
  field "success_media_types" (resp_success_media_types c);
  field "body_mode" (resp_body_mode c)].

(** crates/cfctl-core/src/read_query.rs, lines 16-21: [AnalyticsQueryKindV1]. *)
Inductive AnalyticsQueryKindV1 : Type :=
| AnalyticsQueryKind_StructuredSql
| AnalyticsQueryKind_LogExplorerSql
| AnalyticsQueryKind_GraphqlAnalytics
| AnalyticsQueryKind_WorkersObservability.
#[export] Instance AnalyticsQueryKindV1_eq_dec : EqDecision AnalyticsQueryKindV1.
Proof. solve_decision. Defined.
#[export] Instance ser_AnalyticsQueryKindV1 : Serialize AnalyticsQueryKindV1 := fun x =>
  VString (match x with
  | AnalyticsQueryKind_StructuredSql => "structured_sql"
  | AnalyticsQueryKind_LogExplorerSql => "log_explorer_sql"
  | AnalyticsQueryKind_GraphqlAnalytics => "graphql_analytics"
  | AnalyticsQueryKind_WorkersObservability => "workers_observability"
  end)%string.

(** crates/cfctl-core/src/lib.rs, lines 1179-1184: [TimestampFormatV1]. *)
Inductive TimestampFormatV1 : Type :=
| TimestampFormat_Date
| TimestampFormat_Rfc3339
| TimestampFormat_UnixSeconds
| TimestampFormat_UnixMilliseconds.
#[export] Instance TimestampFormatV1_eq_dec : EqDecision TimestampFormatV1.
Proof. solve_decision. Defined.
#[export] Instance ser_TimestampFormatV1 : Serialize TimestampFormatV1 := fun x =>
  VString (match x with
  | TimestampFormat_Date => "date"
  | TimestampFormat_Rfc3339 => "rfc3339"
  | TimestampFormat_UnixSeconds => "unix_seconds"
  | TimestampFormat_UnixMilliseconds => "unix_milliseconds"
  end)%string.

(** crates/cfctl-core/src/lib.rs, lines 1197-1203: [TimeRangeContractV1]. *)
Record TimeRangeContractV1 : Type := mkTimeRangeContractV1 {
  tr_start_pointer : string;
  tr_end_pointer : string;
  tr_timestamp_format : TimestampFormatV1;
  tr_max_lookback_seconds : Z;
  tr_max_window_seconds : Z;
}.
#[export] Instance ser_TimeRangeContractV1 : Serialize TimeRangeContractV1 := fun c => struct_value [
  field "start_pointer" (tr_start_pointer c);
  field "end_pointer" (tr_end_pointer c);
  field "timestamp_format" (tr_timestamp_format c);
  field "max_lookback_seconds" (tr_max_lookback_seconds c);
  field "max_window_seconds" (tr_max_window_seconds c)].

(** crates/cfctl-core/src/read_query.rs, lines 7-11: [OutputFormatV1]. *)
Inductive OutputFormatV1 : Type :=
| OutputFormat_Json
| OutputFormat_Ndjson
| OutputFormat_Csv.
#[export] Instance OutputFormatV1_eq_dec : EqDecision OutputFormatV1.
Proof. solve_decision. Defined.
#[export] Instance ser_OutputFormatV1 : Serialize OutputFormatV1 := fun x =>
  VString (match x with
  | OutputFormat_Json => "json"
  | OutputFormat_Ndjson => "ndjson"
  | OutputFormat_Csv => "csv"
  end)%string.

(** crates/cfctl-core/src/lib.rs, lines 1189-1194: [PaginationModeV1]. *)
Inductive PaginationModeV1 : Type :=
| PaginationMode_BoundedResult
| PaginationMode_OrderedKeyset
| PaginationMode_TimeWindow
| PaginationMode_UpstreamPage.
#[export] Instance PaginationModeV1_eq_dec : EqDecision PaginationModeV1.
Proof. solve_decision. Defined.
#[export] Instance ser_PaginationModeV1 : Serialize PaginationModeV1 := fun x =>
  VString (match x with
  | PaginationMode_BoundedResult => "bounded_result"
  | PaginationMode_OrderedKeyset => "ordered_keyset"
  | PaginationMode_TimeWindow => "time_window"
  | PaginationMode_UpstreamPage => "upstream_page"
  end)%string.

(** crates/cfctl-core/src/lib.rs, lines 1208-1229: [AnalyticsQueryContractV1]. *)
Record AnalyticsQueryContractV1 : Type := mkAnalyticsQueryContractV1 {
  aq_kind : AnalyticsQueryKindV1;
  aq_dataset : option string;
  aq_dataset_pointer : option string;
  aq_time_range : option TimeRangeContractV1;
  aq_row_limit_pointer : option string;
  aq_max_rows : Z;
  aq_max_bytes : Z;
  aq_max_timeout_seconds : Z;
  aq_allowed_output_formats : list OutputFormatV1;
  aq_default_output_format : OutputFormatV1;
  aq_pagination : PaginationModeV1;
  aq_read_only : bool;
  aq_freshness : option string;
  aq_sampling : option string;
}.
#[export] Instance ser_AnalyticsQueryContractV1 : Serialize AnalyticsQueryContractV1 := fun c => struct_value [
  field "kind" (aq_kind c);
  field_some "dataset" (aq_dataset c);
  field_some "dataset_pointer" (aq_dataset_pointer c);
  field_some "time_range" (aq_time_range c);
  field_some "row_limit_pointer" (aq_row_limit_pointer c);
  field "max_rows" (aq_max_rows c);
  field "max_bytes" (aq_max_bytes c);
  field "max_timeout_seconds" (aq_max_timeout_seconds c);
  field "allowed_output_formats" (aq_allowed_output_formats c);
  field "default_output_format" (aq_default_output_format c);
  field "pagination" (aq_pagination c);
  field "read_only" (aq_read_only c);
  field_some "freshness" (aq_freshness c);
  field_some "sampling" (aq_sampling c)].

(** crates/cfctl-core/src/read_query.rs, lines 27-31: [D1SchemaIntrospectionContractV1]. *)
Record D1SchemaIntrospectionContractV1 : Type := mkD1SchemaIntrospectionContractV1 {
  si_max_rows : Z;
  si_max_bytes : Z;
  si_max_timeout_seconds : Z;
}.
#[export] Instance ser_D1SchemaIntrospectionContractV1 : Serialize D1SchemaIntrospectionContractV1 := fun c => struct_value [
  field "max_rows" (si_max_rows c);
  field "max_bytes" (si_max_bytes c);
  field "max_timeout_seconds" (si_max_timeout_seconds c)].

(** crates/cfctl-core/src/lib.rs, lines 1001-1009: [Mln0142PostImportSchemaContractV1]. *)
Record Mln0142PostImportSchemaContractV1 : Type := mkMln0142PostImportSchemaContractV1 {
  m0142_account_id : string;
  m0142_database_id : string;
  m0142_migration_sha256 : string;
  m0142_trigger_name : string;
  m0142_trigger_definition : string;
  m0142_trigger_definition_sha256 : string;
  m0142_capability_version : Z;
}.
#[export] Instance ser_Mln0142PostImportSchemaContractV1 : Serialize Mln0142PostImportSchemaContractV1 := fun c => struct_value [
  field "account_id" (m0142_account_id c);
  field "database_id" (m0142_database_id c);
  field "migration_sha256" (m0142_migration_sha256 c);
  field "trigger_name" (m0142_trigger_name c);
  field "trigger_definition" (m0142_trigger_definition c);
  field "trigger_definition_sha256" (m0142_trigger_definition_sha256 c);
  field "capability_version" (m0142_capability_version c)].

(** crates/cfctl-core/src/lib.rs, lines 1015-1030: [Mln0143DataInvariantsContractV1]. *)
Record Mln0143DataInvariantsContractV1 : Type := mkMln0143DataInvariantsContractV1 {
  m0143_account_id : string;
  m0143_database_id : string;
  m0143_migration_sha256 : string;
  m0143_prior_0142_trigger_definition_hash : string;
  m0143_trigger_definition_hashes : list string;
  m0143_fixed_query_sha256 : string;
  m0143_pre_table_definition_hash : string;
  m0143_post_table_definition_hash : string;
  m0143_validator_contract_hash : string;
  m0143_capability_version : Z;
  m0143_max_evidence_rows : Z;
  m0143_probe_rows : Z;
  m0143_max_bytes : Z;
  m0143_max_timeout_seconds : Z;
}.
#[export] Instance ser_Mln0143DataInvariantsContractV1 : Serialize Mln0143DataInvariantsContractV1 := fun c => struct_value [
  field "account_id" (m0143_account_id c);
  field "database_id" (m0143_database_id c);
  field "migration_sha256" (m0143_migration_sha256 c);
  field "prior_0142_trigger_definition_hash" (m0143_prior_0142_trigger_definition_hash c);
  field "trigger_definition_hashes" (m0143_trigger_definition_hashes c);
  field "fixed_query_sha256" (m0143_fixed_query_sha256 c);
  field "pre_table_definition_hash" (m0143_pre_table_definition_hash c);
  field "post_table_definition_hash" (m0143_post_table_definition_hash c);
  field "validator_contract_hash" (m0143_validator_contract_hash c);
  field "capability_version" (m0143_capability_version c);
  field "max_evidence_rows" (m0143_max_evidence_rows c);
  field "probe_rows" (m0143_probe_rows c);
  field "max_bytes" (m0143_max_bytes c);
  field "max_timeout_seconds" (m0143_max_timeout_seconds c)].

(** crates/cfctl-core/src/lib.rs, lines 1101-1108: [D1FullExportContractV1]. *)
Record D1FullExportContractV1 : Type := mkD1FullExportContractV1 {
  fe_max_bytes : Z;
  fe_max_poll_response_bytes : Z;
  fe_max_poll_attempts : Z;
  fe_max_timeout_seconds : Z;
  fe_max_download_seconds : Z;
  fe_requires_new_mode_0600_file : bool;
}.
#[export] Instance ser_D1FullExportContractV1 : Serialize D1FullExportContractV1 := fun c => struct_value [
  field "max_bytes" (fe_max_bytes c);
  field "max_poll_response_bytes" (fe_max_poll_response_bytes c);
  field "max_poll_attempts" (fe_max_poll_attempts c);
  field "max_timeout_seconds" (fe_max_timeout_seconds c);
  field "max_download_seconds" (fe_max_download_seconds c);
  field "requires_new_mode_0600_file" (fe_requires_new_mode_0600_file c)].

(** crates/cfctl-core/src/lib.rs, lines 1111-1117: [D1RestoreExactBookmarkContractV1]. *)
Record D1RestoreExactBookmarkContractV1 : Type := mkD1RestoreExactBookmarkContractV1 {
  reb_bookmark_path : string;
  reb_restore_path : string;
  reb_max_response_bytes : Z;
  reb_max_timeout_seconds : Z;
  reb_post_retry_count : Z;
}.
#[export] Instance ser_D1RestoreExactBookmarkContractV1 : Serialize D1RestoreExactBookmarkContractV1 := fun c => struct_value [
  field "bookmark_path" (reb_bookmark_path c);
  field "restore_path" (reb_restore_path c);
  field "max_response_bytes" (reb_max_response_bytes c);
  field "max_timeout_seconds" (reb_max_timeout_seconds c);
  field "post_retry_count" (reb_post_retry_count c)].

(** crates/cfctl-core/src/lib.rs, lines 1547-1557: [WorkspaceReplySubdomainIngressContractV1]. *)
Record WorkspaceReplySubdomainIngressContractV1 : Type := mkWorkspaceReplySubdomainIngressContractV1 {
  wri_operation_kind : string;
  wri_repository_root : string;
  wri_repository_head : string;
  wri_repository_origin : string;
  wri_surface_path : string;
  wri_surface_sha256 : string;
  wri_consumer_contract_path : string;
  wri_consumer_contract_sha256 : string;
  wri_projection : string;
}.
#[export] Instance ser_WorkspaceReplySubdomainIngressContractV1 : Serialize WorkspaceReplySubdomainIngressContractV1 := fun c => struct_value [
  field "operation_kind" (wri_operation_kind c);
  field "repository_root" (wri_repository_root c);
  field "repository_head" (wri_repository_head c);
  field "repository_origin" (wri_repository_origin c);
  field "surface_path" (wri_surface_path c);
  field "surface_sha256" (wri_surface_sha256 c);
  field "consumer_contract_path" (wri_consumer_contract_path c);
  field "consumer_contract_sha256" (wri_consumer_contract_sha256 c);
  field "projection" (wri_projection c)].

(** crates/cfctl-core/src/artifact_digest.rs, lines 8-15: [R2PrivateFileUploadContractV1]. *)
Record R2PrivateFileUploadContractV1 : Type := mkR2PrivateFileUploadContractV1 {
  r2u_max_source_bytes : Z;
  r2u_allowed_content_types : list string;
  r2u_require_if_none_match_star : bool;
  r2u_read_capability_id : string;
  r2u_delete_capability_id : string;
  r2u_etag_algorithm : string;
}.
#[export] Instance ser_R2PrivateFileUploadContractV1 : Serialize R2PrivateFileUploadContractV1 := fun c => struct_value [
  field "max_source_bytes" (r2u_max_source_bytes c);
  field "allowed_content_types" (r2u_allowed_content_types c);
  field "require_if_none_match_star" (r2u_require_if_none_match_star c);
  field "read_capability_id" (r2u_read_capability_id c);
  field "delete_capability_id" (r2u_delete_capability_id c);
  field "etag_algorithm" (r2u_etag_algorithm c)].

(** crates/cfctl-core/src/artifact_digest.rs, lines 24-26: [R2PrivateObjectDigestContractV1]. *)
Record R2PrivateObjectDigestContractV1 : Type := mkR2PrivateObjectDigestContractV1 {
  r2d_max_object_bytes : Z;
}.
#[export] Instance ser_R2PrivateObjectDigestContractV1 : Serialize R2PrivateObjectDigestContractV1 := fun c => struct_value [
  field "max_object_bytes" (r2d_max_object_bytes c)].

(** crates/cfctl-core/src/lib.rs, lines 1636-1639: [EmailSendingDnsRepairContractV1]. *)
Record EmailSendingDnsRepairContractV1 : Type := mkEmailSendingDnsRepairContractV1 {
  esd_status_read_capability_id : string;
  esd_status_read_path : string;
}.
#[export] Instance ser_EmailSendingDnsRepairContractV1 : Serialize EmailSendingDnsRepairContractV1 := fun c => struct_value [
  field "status_read_capability_id" (esd_status_read_capability_id c);
  field "status_read_path" (esd_status_read_path c)].

(** crates/cfctl-core/src/lib.rs, lines 1645-1650: [EmailRoutingSubdomainDnsContractV1]. *)
Record EmailRoutingSubdomainDnsContractV1 : Type := mkEmailRoutingSubdomainDnsContractV1 {
  erd_read_capability_id : string;
  erd_read_path : string;
  erd_request_name_field : string;
  erd_read_query_field : string;
}.
#[export] Instance ser_EmailRoutingSubdomainDnsContractV1 : Serialize EmailRoutingSubdomainDnsContractV1 := fun c => struct_value [
  field "read_capability_id" (erd_read_capability_id c);
  field "read_path" (erd_read_path c);
  field "request_name_field" (erd_request_name_field c);
  field "read_query_field" (erd_read_query_field c)].

(** crates/cfctl-core/src/lib.rs, lines 1123-1131: [D1ApprovedMlnMigrationV1]. *)
Record D1ApprovedMlnMigrationV1 : Type := mkD1ApprovedMlnMigrationV1 {
  mm_migration_id : string;
  mm_basename : string;
  mm_repository_relative_path : string;
  mm_git_blob_oid : string;
  mm_bytes : Z;
  mm_sha256 : string;
  mm_md5 : string;
}.
#[export] Instance ser_D1ApprovedMlnMigrationV1 : Serialize D1ApprovedMlnMigrationV1 := fun c => struct_value [
  field "migration_id" (mm_migration_id c);
  field "basename" (mm_basename c);
  field "repository_relative_path" (mm_repository_relative_path c);
  field "git_blob_oid" (mm_git_blob_oid c);
  field "bytes" (mm_bytes c);
  field "sha256" (mm_sha256 c);
  field "md5" (mm_md5 c)].

(** crates/cfctl-core/src/lib.rs, lines 1134-1158: [D1ApprovedMlnImportContractV1]. *)
Record D1ApprovedMlnImportContractV1 : Type := mkD1ApprovedMlnImportContractV1 {
  mi_repository_id : string;
  mi_repository_head : string;
  mi_pre_import_capability_version : Z;
  mi_pre_import_validator_contract_hash : string;
  mi_pre_import_fixed_query_sha256 : string;
  mi_account_id : string;
  mi_database_id : string;
  mi_import_path : string;
  mi_migrations : list D1ApprovedMlnMigrationV1;
  mi_max_source_bytes : Z;
  mi_max_response_bytes : Z;
  mi_max_poll_attempts : Z;
  mi_max_timeout_seconds : Z;
  mi_upload_url_suffix : string;
  mi_requires_create_new_mode_0600_stage : bool;
}.
#[export] Instance ser_D1ApprovedMlnImportContractV1 : Serialize D1ApprovedMlnImportContractV1 := fun c => struct_value [
  field "repository_id" (mi_repository_id c);
  field "repository_head" (mi_repository_head c);
  field "pre_import_capability_version" (mi_pre_import_capability_version c);
  field "pre_import_validator_contract_hash" (mi_pre_import_validator_contract_hash c);
  field "pre_import_fixed_query_sha256" (mi_pre_import_fixed_query_sha256 c);
  field "account_id" (mi_account_id c);
  field "database_id" (mi_database_id c);
  field "import_path" (mi_import_path c);
  field "migrations" (mi_migrations c);
  field_unless "max_source_bytes" 0%Z (mi_max_source_bytes c);
  field "max_response_bytes" (mi_max_response_bytes c);
  field "max_poll_attempts" (mi_max_poll_attempts c);
  field "max_timeout_seconds" (mi_max_timeout_seconds c);
  field "upload_url_suffix" (mi_upload_url_suffix c);
  field "requires_create_new_mode_0600_stage" (mi_requires_create_new_mode_0600_stage c)].

(** crates/cfctl-core/src/lib.rs, lines 1164-1174: [D1ApprovedMlnImportPollResumeContractV1]. *)
Record D1ApprovedMlnImportPollResumeContractV1 : Type := mkD1ApprovedMlnImportPollResumeContractV1 {
  mir_root_capability_id : string;
  mir_account_id : string;
  mir_database_id : string;
  mir_import_path : string;
  mir_max_response_bytes : Z;
  mir_max_poll_attempts : Z;
  mir_max_timeout_seconds : Z;
}.
#[export] Instance ser_D1ApprovedMlnImportPollResumeContractV1 : Serialize D1ApprovedMlnImportPollResumeContractV1 := fun c => struct_value [
  field "root_capability_id" (mir_root_capability_id c);
  field "account_id" (mir_account_id c);
  field "database_id" (mir_database_id c);
  field "import_path" (mir_import_path c);
  field "max_response_bytes" (mir_max_response_bytes c);
  field "max_poll_attempts" (mir_max_poll_attempts c);
  field "max_timeout_seconds" (mir_max_timeout_seconds c)].

(** crates/cfctl-core/src/lib.rs, lines 1237-1252: [R2LogRetrievalContractV1]. *)
Record R2LogRetrievalContractV1 : Type := mkR2LogRetrievalContractV1 {
  r2log_access_key_input_field : string;
  r2log_secret_access_key_input_field : string;
  r2log_access_key_header : string;
  r2log_secret_access_key_header : string;
  r2log_start_query_selector : string;
  r2log_end_query_selector : string;
  r2log_bucket_query_selector : string;
  r2log_prefix_query_selector : string;
  r2log_max_lookback_seconds : Z;
  r2log_max_window_seconds : Z;
  r2log_max_bytes : Z;
  r2log_max_timeout_seconds : Z;
  r2log_output_media_types : list string;
  r2log_requires_new_mode_0600_file : bool;
}.
#[export] Instance ser_R2LogRetrievalContractV1 : Serialize R2LogRetrievalContractV1 := fun c => struct_value [
  field "access_key_input_field" (r2log_access_key_input_field c);
  field "secret_access_key_input_field" (r2log_secret_access_key_input_field c);
  field "access_key_header" (r2log_access_key_header c);
  field "secret_access_key_header" (r2log_secret_access_key_header c);
  field "start_query_selector" (r2log_start_query_selector c);
  field "end_query_selector" (r2log_end_query_selector c);
  field "bucket_query_selector" (r2log_bucket_query_selector c);
  field "prefix_query_selector" (r2log_prefix_query_selector c);
  field "max_lookback_seconds" (r2log_max_lookback_seconds c);
  field "max_window_seconds" (r2log_max_window_seconds c);
  field "max_bytes" (r2log_max_bytes c);
  field "max_timeout_seconds" (r2log_max_timeout_seconds c);
  field "output_media_types" (r2log_output_media_types c);
  field "requires_new_mode_0600_file" (r2log_requires_new_mode_0600_file c)].

(** crates/cfctl-core/src/lib.rs, lines 1257-1282: [GraphqlAnalyticsContractV1]. *)
Record GraphqlAnalyticsContractV1 : Type := mkGraphqlAnalyticsContractV1 {
  gql_operation_name : string;
  gql_document : string;
  gql_dataset : string;
  gql_selector_variables : btree string;
  gql_body_variables : btree string;
  gql_response_data_pointer : string;
  gql_expected_row_fields : list string;
  gql_cursor_fields : list string;
  gql_cursor_input_pointer : option string;
  gql_cursor_input_pointers : btree string;
  gql_schema_fingerprint : string;
}.
#[export] Instance ser_GraphqlAnalyticsContractV1 : Serialize GraphqlAnalyticsContractV1 := fun c => struct_value [
  field "operation_name" (gql_operation_name c);
  field "document" (gql_document c);
  field "dataset" (gql_dataset c);
  field "selector_variables" (gql_selector_variables c);
  field "body_variables" (gql_body_variables c);
  field "response_data_pointer" (gql_response_data_pointer c);
  field "expected_row_fields" (gql_expected_row_fields c);
  field "cursor_fields" (gql_cursor_fields c);
  field_some "cursor_input_pointer" (gql_cursor_input_pointer c);
  field_nonempty_map "cursor_input_pointers" (gql_cursor_input_pointers c);
  field "schema_fingerprint" (gql_schema_fingerprint c)].

(** crates/cfctl-core/src/lib.rs, lines 1326-1333: [WorkflowStepV1]. *)
Record WorkflowStepV1 : Type := mkWorkflowStepV1 {
  wfs_id : string;
  wfs_capability_id : string;
  wfs_purpose : string;
  wfs_mutating : bool;
  wfs_depends_on : list string;
}.
#[export] Instance ser_WorkflowStepV1 : Serialize WorkflowStepV1 := fun c => struct_value [
  field "id" (wfs_id c);
  field "capability_id" (wfs_capability_id c);
  field "purpose" (wfs_purpose c);
  field "mutating" (wfs_mutating c);
  field_nonempty "depends_on" (wfs_depends_on c)].

(** crates/cfctl-core/src/lib.rs, lines 1338-1349: [WorkflowContractV1]. *)
Record WorkflowContractV1 : Type := mkWorkflowContractV1 {
  wf_purpose : string;
  wf_steps : list WorkflowStepV1;
  wf_preserves_component_approval : bool;
  wf_exports_evidence_packet : bool;
  wf_proof_freshness_seconds : Z;
}.
#[export] Instance ser_WorkflowContractV1 : Serialize WorkflowContractV1 := fun c => struct_value [
  field "purpose" (wf_purpose c);
  field "steps" (wf_steps c);
  field "preserves_component_approval" (wf_preserves_component_approval c);
  field "exports_evidence_packet" (wf_exports_evidence_packet c);
  field "proof_freshness_seconds" (wf_proof_freshness_seconds c)].

(** crates/cfctl-core/src/lib.rs, lines 1358-1363: [SecurityActionKindV1]. *)
Inductive SecurityActionKindV1 : Type :=
| SecurityActionKind_CreateExpiring
| SecurityActionKind_RemoveExpired
| SecurityActionKind_AddExpiringListMember
| SecurityActionKind_RemoveExpiredListMember.
#[export] Instance SecurityActionKindV1_eq_dec : EqDecision SecurityActionKindV1.
Proof. solve_decision. Defined.
#[export] Instance ser_SecurityActionKindV1 : Serialize SecurityActionKindV1 := fun x =>
  VString (match x with
  | SecurityActionKind_CreateExpiring => "create_expiring"
  | SecurityActionKind_RemoveExpired => "remove_expired"
  | SecurityActionKind_AddExpiringListMember => "add_expiring_list_member"
  | SecurityActionKind_RemoveExpiredListMember => "remove_expired_list_member"
  end)%string.

(** crates/cfctl-core/src/lib.rs, lines 1370-1373: [SecurityActionSafetyProfileV1]. *)
Inductive SecurityActionSafetyProfileV1 : Type :=
| SecurityActionSafetyProfile_TelemetryDerivedStrict.
#[export] Instance SecurityActionSafetyProfileV1_eq_dec : EqDecision SecurityActionSafetyProfileV1.
Proof. solve_decision. Defined.
#[export] Instance ser_SecurityActionSafetyProfileV1 : Serialize SecurityActionSafetyProfileV1 := fun x =>
  VString (match x with
  | SecurityActionSafetyProfile_TelemetryDerivedStrict => "telemetry_derived_strict"
  end)%string.

(** crates/cfctl-core/src/lib.rs, lines 1376-1390: [SecurityActionContractV1]. *)
Record SecurityActionContractV1 : Type := mkSecurityActionContractV1 {
  sac_kind : SecurityActionKindV1;
  sac_input_schema : Value;
  sac_default_action : option string;
  sac_allowed_actions : list string;
  sac_allowed_target_types : list string;
  sac_default_ttl_seconds : Z;
  sac_max_ttl_seconds : Z;
  sac_current_state_capability_id : string;
  sac_safety_profile : SecurityActionSafetyProfileV1;
}.
#[export] Instance ser_SecurityActionContractV1 : Serialize SecurityActionContractV1 := fun c => struct_value [
  field "kind" (sac_kind c);
  field "input_schema" (sac_input_schema c);
  field_some "default_action" (sac_default_action c);
  field_nonempty "allowed_actions" (sac_allowed_actions c);
  field_nonempty "allowed_target_types" (sac_allowed_target_types c);
  field "default_ttl_seconds" (sac_default_ttl_seconds c);
  field "max_ttl_seconds" (sac_max_ttl_seconds c);
  field "current_state_capability_id" (sac_current_state_capability_id c);
  field "safety_profile" (sac_safety_profile c)].

(** crates/cfctl-core/src/lib.rs, lines 1402-1415: [EventBatchContractV1]. *)
Record EventBatchContractV1 : Type := mkEventBatchContractV1 {
  ebc_pull_capability_id : string;
  ebc_pull_path : string;
  ebc_acknowledge_capability_id : string;
  ebc_acknowledge_path : string;
  ebc_required_permissions : list string;
  ebc_max_batch_size : Z;
  ebc_max_visibility_timeout_ms : Z;
  ebc_max_message_bytes : Z;
  ebc_billing_chunk_bytes : Z;
  ebc_price_per_million_operations : f64;
  ebc_pricing_reference : KnowledgeReferenceV1;
  ebc_schema_reference : KnowledgeReferenceV1;
}.
#[export] Instance ser_EventBatchContractV1 : Serialize EventBatchContractV1 := fun c => struct_value [
  field "pull_capability_id" (ebc_pull_capability_id c);
  field "pull_path" (ebc_pull_path c);
  field "acknowledge_capability_id" (ebc_acknowledge_capability_id c);
  field "acknowledge_path" (ebc_acknowledge_path c);
  field "required_permissions" (ebc_required_permissions c);
  field "max_batch_size" (ebc_max_batch_size c);
  field "max_visibility_timeout_ms" (ebc_max_visibility_timeout_ms c);
  field "max_message_bytes" (ebc_max_message_bytes c);
  field "billing_chunk_bytes" (ebc_billing_chunk_bytes c);
  field "price_per_million_operations" (ebc_price_per_million_operations c);
  field "pricing_reference" (ebc_pricing_reference c);
  field "schema_reference" (ebc_schema_reference c)].

(** ** Serialisation is injective *)

#[export] Program Instance inj_CapabilityAuthorityScopeV1 : SerializeInj CapabilityAuthorityScopeV1 := {| ser_ok _ := True |}.
Next Obligation. by intros [] [] _ _ [=]. Qed.
#[export] Instance total_CapabilityAuthorityScopeV1 : SerializeTotal CapabilityAuthorityScopeV1.
Proof. done. Qed.
#[export] Instance nonnull_CapabilityAuthorityScopeV1 : SerializeNonNull CapabilityAuthorityScopeV1.
Proof. done. Qed.

#[export] Program Instance inj_QuerySerializationV1 : SerializeInj QuerySerializationV1 := {| ser_ok _ := True |}.
Next Obligation. struct_inj. Qed.
#[export] Instance total_QuerySerializationV1 : SerializeTotal QuerySerializationV1.
Proof. done. Qed.
#[export] Instance nonnull_QuerySerializationV1 : SerializeNonNull QuerySerializationV1.
Proof. done. Qed.

#[export] Program Instance inj_SelectorContractV1 : SerializeInj SelectorContractV1 := {| ser_ok _ := True |}.
Next Obligation. struct_inj. Qed.
#[export] Instance total_SelectorContractV1 : SerializeTotal SelectorContractV1.
Proof. done. Qed.
#[export] Instance nonnull_SelectorContractV1 : SerializeNonNull SelectorContractV1.
Proof. done. Qed.

#[export] Program Instance inj_SelectorV1 : SerializeInj SelectorV1 := {| ser_ok _ := True |}.
Next Obligation. struct_inj. Qed.
#[export] Instance total_SelectorV1 : SerializeTotal SelectorV1.
Proof. done. Qed.
#[export] Instance nonnull_SelectorV1 : SerializeNonNull SelectorV1.
Proof. done. Qed.

#[export] Program Instance inj_RiskClass : SerializeInj RiskClass := {| ser_ok _ := True |}.
Next Obligation. by intros [] [] _ _ [=]. Qed.
#[export] Instance total_RiskClass : SerializeTotal RiskClass.
Proof. done. Qed.
#[export] Instance nonnull_RiskClass : SerializeNonNull RiskClass.
Proof. done. Qed.

#[export] Program Instance inj_EffectClass : SerializeInj EffectClass := {| ser_ok _ := True |}.
Next Obligation. by intros [] [] _ _ [=]. Qed.
#[export] Instance total_EffectClass : SerializeTotal EffectClass.
Proof. done. Qed.
#[export] Instance nonnull_EffectClass : SerializeNonNull EffectClass.
Proof. done. Qed.

#[export] Program Instance inj_Maturity : SerializeInj Maturity := {| ser_ok _ := True |}.
Next Obligation. by intros [] [] _ _ [=]. Qed.
#[export] Instance total_Maturity : SerializeTotal Maturity.
Proof. done. Qed.
#[export] Instance nonnull_Maturity : SerializeNonNull Maturity.
Proof. done. Qed.

#[export] Program Instance inj_EntitlementProbeV1 : SerializeInj EntitlementProbeV1 := {| ser_ok _ := True |}.
Next Obligation. struct_inj. Qed.
#[export] Instance total_EntitlementProbeV1 : SerializeTotal EntitlementProbeV1.
Proof. done. Qed.
#[export] Instance nonnull_EntitlementProbeV1 : SerializeNonNull EntitlementProbeV1.
Proof. done. Qed.

#[export] Program Instance inj_EntitlementV1 : SerializeInj EntitlementV1 := {|
  ser_ok c :=
    ser_ok (ent_plans c) /\ True |}.
Next Obligation. struct_inj. Qed.
#[export] Instance nonnull_EntitlementV1 : SerializeNonNull EntitlementV1.
Proof. done. Qed.

#[export] Program Instance inj_BillingModelV1 : SerializeInj BillingModelV1 := {| ser_ok _ := True |}.
Next Obligation. by intros [] [] _ _ [=]. Qed.
#[export] Instance total_BillingModelV1 : SerializeTotal BillingModelV1.
Proof. done. Qed.
#[export] Instance nonnull_BillingModelV1 : SerializeNonNull BillingModelV1.
Proof. done. Qed.

#[export] Program Instance inj_CostExposureV1 : SerializeInj CostExposureV1 := {| ser_ok _ := True |}.
Next Obligation. by intros [] [] _ _ [=]. Qed.
#[export] Instance total_CostExposureV1 : SerializeTotal CostExposureV1.
Proof. done. Qed.
#[export] Instance nonnull_CostExposureV1 : SerializeNonNull CostExposureV1.
Proof. done. Qed.

#[export] Program Instance inj_KnowledgeReferenceV1 : SerializeInj KnowledgeReferenceV1 := {| ser_ok _ := True |}.
Next Obligation. struct_inj. Qed.
#[export] Instance total_KnowledgeReferenceV1 : SerializeTotal KnowledgeReferenceV1.
Proof. done. Qed.
#[export] Instance nonnull_KnowledgeReferenceV1 : SerializeNonNull KnowledgeReferenceV1.
Proof. done. Qed.

#[export] Program Instance inj_CostV1 : SerializeInj CostV1 := {|
  ser_ok c :=
    ser_ok (cost_maximum c) /\ True |}.
Next Obligation. struct_inj. Qed.
#[export] Instance nonnull_CostV1 : SerializeNonNull CostV1.
Proof. done. Qed.

#[export] Program Instance inj_VerificationSpecV1 : SerializeInj VerificationSpecV1 := {| ser_ok _ := True |}.
Next Obligation. struct_inj. Qed.
#[export] Instance total_VerificationSpecV1 : SerializeTotal VerificationSpecV1.
Proof. done. Qed.
#[export] Instance nonnull_VerificationSpecV1 : SerializeNonNull VerificationSpecV1.
Proof. done. Qed.

#[export] Program Instance inj_RollbackSpecV1 : SerializeInj RollbackSpecV1 := {| ser_ok _ := True |}.
Next Obligation. struct_inj. Qed.
#[export] Instance total_RollbackSpecV1 : SerializeTotal RollbackSpecV1.
Proof. done. Qed.
#[export] Instance nonnull_RollbackSpecV1 : SerializeNonNull RollbackSpecV1.
Proof. done. Qed.

#[export] Program Instance inj_CreatedResourceContractV1 : SerializeInj CreatedResourceContractV1 := {| ser_ok _ := True |}.
Next Obligation. struct_inj. Qed.
#[export] Instance total_CreatedResourceContractV1 : SerializeTotal CreatedResourceContractV1.
Proof. done. Qed.
#[export] Instance nonnull_CreatedResourceContractV1 : SerializeNonNull CreatedResourceContractV1.
Proof. done. Qed.

#[export] Program Instance inj_CreatedCollectionResourceContractV1 : SerializeInj CreatedCollectionResourceContractV1 := {| ser_ok _ := True |}.
Next Obligation. struct_inj. Qed.
#[export] Instance total_CreatedCollectionResourceContractV1 : SerializeTotal CreatedCollectionResourceContractV1.
Proof. done. Qed.
#[export] Instance nonnull_CreatedCollectionResourceContractV1 : SerializeNonNull CreatedCollectionResourceContractV1.
Proof. done. Qed.

#[export] Program Instance inj_CreatedNestedResourceContractV1 : SerializeInj CreatedNestedResourceContractV1 := {| ser_ok _ := True |}.
Next Obligation. struct_inj. Qed.
#[export] Instance total_CreatedNestedResourceContractV1 : SerializeTotal CreatedNestedResourceContractV1.
Proof. done. Qed.
#[export] Instance nonnull_CreatedNestedResourceContractV1 : SerializeNonNull CreatedNestedResourceContractV1.
Proof. done. Qed.

#[export] Program Instance inj_DeletedResourceContractV1 : SerializeInj DeletedResourceContractV1 := {| ser_ok _ := True |}.
Next Obligation. struct_inj. Qed.
#[export] Instance total_DeletedResourceContractV1 : SerializeTotal DeletedResourceContractV1.
Proof. done. Qed.
#[export] Instance nonnull_DeletedResourceContractV1 : SerializeNonNull DeletedResourceContractV1.
Proof. done. Qed.

#[export] Program Instance inj_DeletedNestedResourceContractV1 : SerializeInj DeletedNestedResourceContractV1 := {| ser_ok _ := True |}.
Next Obligation. struct_inj. Qed.
#[export] Instance total_DeletedNestedResourceContractV1 : SerializeTotal DeletedNestedResourceContractV1.
Proof. done. Qed.
#[export] Instance nonnull_DeletedNestedResourceContractV1 : SerializeNonNull DeletedNestedResourceContractV1.
Proof. done. Qed.

#[export] Program Instance inj_UpdatedResourceContractV1 : SerializeInj UpdatedResourceContractV1 := {| ser_ok _ := True |}.
Next Obligation. struct_inj. Qed.
#[export] Instance total_UpdatedResourceContractV1 : SerializeTotal UpdatedResourceContractV1.
Proof. done. Qed.
#[export] Instance nonnull_UpdatedResourceContractV1 : SerializeNonNull UpdatedResourceContractV1.
Proof. done. Qed.

#[export] Program Instance inj_SamePathReadContractV1 : SerializeInj SamePathReadContractV1 := {| ser_ok _ := True |}.
Next Obligation. struct_inj. Qed.
#[export] Instance total_SamePathReadContractV1 : SerializeTotal SamePathReadContractV1.
Proof. done. Qed.
#[export] Instance nonnull_SamePathReadContractV1 : SerializeNonNull SamePathReadContractV1.
Proof. done. Qed.

#[export] Program Instance inj_AsyncCollectionMutationContractV1 : SerializeInj AsyncCollectionMutationContractV1 := {| ser_ok _ := True |}.
Next Obligation. struct_inj. Qed.
#[export] Instance total_AsyncCollectionMutationContractV1 : SerializeTotal AsyncCollectionMutationContractV1.
Proof. done. Qed.
#[export] Instance nonnull_AsyncCollectionMutationContractV1 : SerializeNonNull AsyncCollectionMutationContractV1.
Proof. done. Qed.

#[export] Program Instance inj_AdapterStatus : SerializeInj AdapterStatus := {| ser_ok _ := True |}.
Next Obligation. by intros [] [] _ _ [=]. Qed.
#[export] Instance total_AdapterStatus : SerializeTotal AdapterStatus.
Proof. done. Qed.
#[export] Instance nonnull_AdapterStatus : SerializeNonNull AdapterStatus.
Proof. done. Qed.

#[export] Program Instance inj_ResponseBodyModeV1 : SerializeInj ResponseBodyModeV1 := {| ser_ok _ := True |}.
Next Obligation. by intros [] [] _ _ [=]. Qed.
#[export] Instance total_ResponseBodyModeV1 : SerializeTotal ResponseBodyModeV1.
Proof. done. Qed.
#[export] Instance nonnull_ResponseBodyModeV1 : SerializeNonNull ResponseBodyModeV1.
Proof. done. Qed.

#[export] Program Instance inj_ResponseContractV1 : SerializeInj ResponseContractV1 := {| ser_ok _ := True |}.
Next Obligation. struct_inj. Qed.
#[export] Instance total_ResponseContractV1 : SerializeTotal ResponseContractV1.
Proof. done. Qed.
#[export] Instance nonnull_ResponseContractV1 : SerializeNonNull ResponseContractV1.
Proof. done. Qed.

#[export] Program Instance inj_AnalyticsQueryKindV1 : SerializeInj AnalyticsQueryKindV1 := {| ser_ok _ := True |}.
Next Obligation. by intros [] [] _ _ [=]. Qed.
#[export] Instance total_AnalyticsQueryKindV1 : SerializeTotal AnalyticsQueryKindV1.
Proof. done. Qed.
#[export] Instance nonnull_AnalyticsQueryKindV1 : SerializeNonNull AnalyticsQueryKindV1.
Proof. done. Qed.

#[export] Program Instance inj_TimestampFormatV1 : SerializeInj TimestampFormatV1 := {| ser_ok _ := True |}.
Next Obligation. by intros [] [] _ _ [=]. Qed.
#[export] Instance total_TimestampFormatV1 : SerializeTotal TimestampFormatV1.
Proof. done. Qed.
#[export] Instance nonnull_TimestampFormatV1 : SerializeNonNull TimestampFormatV1.
Proof. done. Qed.

#[export] Program Instance inj_TimeRangeContractV1 : SerializeInj TimeRangeContractV1 := {| ser_ok _ := True |}.
Next Obligation. struct_inj. Qed.
#[export] Instance total_TimeRangeContractV1 : SerializeTotal TimeRangeContractV1.
Proof. done. Qed.
#[export] Instance nonnull_TimeRangeContractV1 : SerializeNonNull TimeRangeContractV1.
Proof. done. Qed.

#[export] Program Instance inj_OutputFormatV1 : SerializeInj OutputFormatV1 := {| ser_ok _ := True |}.
Next Obligation. by intros [] [] _ _ [=]. Qed.
#[export] Instance total_OutputFormatV1 : SerializeTotal OutputFormatV1.
Proof. done. Qed.
#[export] Instance nonnull_OutputFormatV1 : SerializeNonNull OutputFormatV1.
Proof. done. Qed.

#[export] Program Instance inj_PaginationModeV1 : SerializeInj PaginationModeV1 := {| ser_ok _ := True |}.
Next Obligation. by intros [] [] _ _ [=]. Qed.
#[export] Instance total_PaginationModeV1 : SerializeTotal PaginationModeV1.
Proof. done. Qed.
#[export] Instance nonnull_PaginationModeV1 : SerializeNonNull PaginationModeV1.
Proof. done. Qed.

#[export] Program Instance inj_AnalyticsQueryContractV1 : SerializeInj AnalyticsQueryContractV1 := {| ser_ok _ := True |}.
Next Obligation. struct_inj. Qed.
#[export] Instance total_AnalyticsQueryContractV1 : SerializeTotal AnalyticsQueryContractV1.
Proof. done. Qed.
#[export] Instance nonnull_AnalyticsQueryContractV1 : SerializeNonNull AnalyticsQueryContractV1.
Proof. done. Qed.

#[export] Program Instance inj_D1SchemaIntrospectionContractV1 : SerializeInj D1SchemaIntrospectionContractV1 := {| ser_ok _ := True |}.
Next Obligation. struct_inj. Qed.
#[export] Instance total_D1SchemaIntrospectionContractV1 : SerializeTotal D1SchemaIntrospectionContractV1.
Proof. done. Qed.
#[export] Instance nonnull_D1SchemaIntrospectionContractV1 : SerializeNonNull D1SchemaIntrospectionContractV1.
Proof. done. Qed.

#[export] Program Instance inj_Mln0142PostImportSchemaContractV1 : SerializeInj Mln0142PostImportSchemaContractV1 := {| ser_ok _ := True |}.
Next Obligation. struct_inj. Qed.
#[export] Instance total_Mln0142PostImportSchemaContractV1 : SerializeTotal Mln0142PostImportSchemaContractV1.
Proof. done. Qed.
#[export] Instance nonnull_Mln0142PostImportSchemaContractV1 : SerializeNonNull Mln0142PostImportSchemaContractV1.
Proof. done. Qed.

#[export] Program Instance inj_Mln0143DataInvariantsContractV1 : SerializeInj Mln0143DataInvariantsContractV1 := {| ser_ok _ := True |}.
Next Obligation. struct_inj. Qed.
#[export] Instance total_Mln0143DataInvariantsContractV1 : SerializeTotal Mln0143DataInvariantsContractV1.
Proof. done. Qed.
#[export] Instance nonnull_Mln0143DataInvariantsContractV1 : SerializeNonNull Mln0143DataInvariantsContractV1.
Proof. done. Qed.

#[export] Program Instance inj_D1FullExportContractV1 : SerializeInj D1FullExportContractV1 := {| ser_ok _ := True |}.
Next Obligation. struct_inj. Qed.
#[export] Instance total_D1FullExportContractV1 : SerializeTotal D1FullExportContractV1.
Proof. done. Qed.
#[export] Instance nonnull_D1FullExportContractV1 : SerializeNonNull D1FullExportContractV1.
Proof. done. Qed.

#[export] Program Instance inj_D1RestoreExactBookmarkContractV1 : SerializeInj D1RestoreExactBookmarkContractV1 := {| ser_ok _ := True |}.
Next Obligation. struct_inj. Qed.
#[export] Instance total_D1RestoreExactBookmarkContractV1 : SerializeTotal D1RestoreExactBookmarkContractV1.
Proof. done. Qed.
#[export] Instance nonnull_D1RestoreExactBookmarkContractV1 : SerializeNonNull D1RestoreExactBookmarkContractV1.
Proof. done. Qed.

#[export] Program Instance inj_WorkspaceReplySubdomainIngressContractV1 : SerializeInj WorkspaceReplySubdomainIngressContractV1 := {| ser_ok _ := True |}.
Next Obligation. struct_inj. Qed.
#[export] Instance total_WorkspaceReplySubdomainIngressContractV1 : SerializeTotal WorkspaceReplySubdomainIngressContractV1.
Proof. done. Qed.
#[export] Instance nonnull_WorkspaceReplySubdomainIngressContractV1 : SerializeNonNull WorkspaceReplySubdomainIngressContractV1.
Proof. done. Qed.

#[export] Program Instance inj_R2PrivateFileUploadContractV1 : SerializeInj R2PrivateFileUploadContractV1 := {| ser_ok _ := True |}.
Next Obligation. struct_inj. Qed.
#[export] Instance total_R2PrivateFileUploadContractV1 : SerializeTotal R2PrivateFileUploadContractV1.
Proof. done. Qed.
#[export] Instance nonnull_R2PrivateFileUploadContractV1 : SerializeNonNull R2PrivateFileUploadContractV1.
Proof. done. Qed.

#[export] Program Instance inj_R2PrivateObjectDigestContractV1 : SerializeInj R2PrivateObjectDigestContractV1 := {| ser_ok _ := True |}.
Next Obligation. struct_inj. Qed.
#[export] Instance total_R2PrivateObjectDigestContractV1 : SerializeTotal R2PrivateObjectDigestContractV1.
Proof. done. Qed.
#[export] Instance nonnull_R2PrivateObjectDigestContractV1 : SerializeNonNull R2PrivateObjectDigestContractV1.
Proof. done. Qed.

#[export] Program Instance inj_EmailSendingDnsRepairContractV1 : SerializeInj EmailSendingDnsRepairContractV1 := {| ser_ok _ := True |}.
Next Obligation. struct_inj. Qed.
#[export] Instance total_EmailSendingDnsRepairContractV1 : SerializeTotal EmailSendingDnsRepairContractV1.
Proof. done. Qed.
#[export] Instance nonnull_EmailSendingDnsRepairContractV1 : SerializeNonNull EmailSendingDnsRepairContractV1.
Proof. done. Qed.

#[export] Program Instance inj_EmailRoutingSubdomainDnsContractV1 : SerializeInj EmailRoutingSubdomainDnsContractV1 := {| ser_ok _ := True |}.
Next Obligation. struct_inj. Qed.
#[export] Instance total_EmailRoutingSubdomainDnsContractV1 : SerializeTotal EmailRoutingSubdomainDnsContractV1.
Proof. done. Qed.
#[export] Instance nonnull_EmailRoutingSubdomainDnsContractV1 : SerializeNonNull EmailRoutingSubdomainDnsContractV1.
Proof. done. Qed.

#[export] Program Instance inj_D1ApprovedMlnMigrationV1 : SerializeInj D1ApprovedMlnMigrationV1 := {| ser_ok _ := True |}.
Next Obligation. struct_inj. Qed.
#[export] Instance total_D1ApprovedMlnMigrationV1 : SerializeTotal D1ApprovedMlnMigrationV1.
Proof. done. Qed.
#[export] Instance nonnull_D1ApprovedMlnMigrationV1 : SerializeNonNull D1ApprovedMlnMigrationV1.
Proof. done. Qed.

#[export] Program Instance inj_D1ApprovedMlnImportContractV1 : SerializeInj D1ApprovedMlnImportContractV1 := {| ser_ok _ := True |}.
Next Obligation. struct_inj. Qed.
#[export] Instance total_D1ApprovedMlnImportContractV1 : SerializeTotal D1ApprovedMlnImportContractV1.
Proof. done. Qed.
#[export] Instance nonnull_D1ApprovedMlnImportContractV1 : SerializeNonNull D1ApprovedMlnImportContractV1.
Proof. done. Qed.

#[export] Program Instance inj_D1ApprovedMlnImportPollResumeContractV1 : SerializeInj D1ApprovedMlnImportPollResumeContractV1 := {| ser_ok _ := True |}.
Next Obligation. struct_inj. Qed.
#[export] Instance total_D1ApprovedMlnImportPollResumeContractV1 : SerializeTotal D1ApprovedMlnImportPollResumeContractV1.
Proof. done. Qed.
#[export] Instance nonnull_D1ApprovedMlnImportPollResumeContractV1 : SerializeNonNull D1ApprovedMlnImportPollResumeContractV1.
Proof. done. Qed.

#[export] Program Instance inj_R2LogRetrievalContractV1 : SerializeInj R2LogRetrievalContractV1 := {| ser_ok _ := True |}.
Next Obligation. struct_inj. Qed.
#[export] Instance total_R2LogRetrievalContractV1 : SerializeTotal R2LogRetrievalContractV1.
Proof. done. Qed.
#[export] Instance nonnull_R2LogRetrievalContractV1 : SerializeNonNull R2LogRetrievalContractV1.
Proof. done. Qed.

#[export] Program Instance inj_GraphqlAnalyticsContractV1 : SerializeInj GraphqlAnalyticsContractV1 := {|
  ser_ok c :=
    ser_ok (gql_selector_variables c) /\
    ser_ok (gql_body_variables c) /\
    ser_ok (gql_cursor_input_pointers c) /\ True |}.
Next Obligation. struct_inj. Qed.
#[export] Instance nonnull_GraphqlAnalyticsContractV1 : SerializeNonNull GraphqlAnalyticsContractV1.
Proof. done. Qed.

#[export] Program Instance inj_WorkflowStepV1 : SerializeInj WorkflowStepV1 := {| ser_ok _ := True |}.
Next Obligation. struct_inj. Qed.
#[export] Instance total_WorkflowStepV1 : SerializeTotal WorkflowStepV1.
Proof. done. Qed.
#[export] Instance nonnull_WorkflowStepV1 : SerializeNonNull WorkflowStepV1.
Proof. done. Qed.

#[export] Program Instance inj_WorkflowContractV1 : SerializeInj WorkflowContractV1 := {| ser_ok _ := True |}.
Next Obligation. struct_inj. Qed.
#[export] Instance total_WorkflowContractV1 : SerializeTotal WorkflowContractV1.
Proof. done. Qed.
#[export] Instance nonnull_WorkflowContractV1 : SerializeNonNull WorkflowContractV1.
Proof. done. Qed.

#[export] Program Instance inj_SecurityActionKindV1 : SerializeInj SecurityActionKindV1 := {| ser_ok _ := True |}.
Next Obligation. by intros [] [] _ _ [=]. Qed.
#[export] Instance total_SecurityActionKindV1 : SerializeTotal SecurityActionKindV1.
Proof. done. Qed.
#[export] Instance nonnull_SecurityActionKindV1 : SerializeNonNull SecurityActionKindV1.
Proof. done. Qed.

#[export] Program Instance inj_SecurityActionSafetyProfileV1 : SerializeInj SecurityActionSafetyProfileV1 := {| ser_ok _ := True |}.
Next Obligation. by intros [] [] _ _ [=]. Qed.
#[export] Instance total_SecurityActionSafetyProfileV1 : SerializeTotal SecurityActionSafetyProfileV1.
Proof. done. Qed.
#[export] Instance nonnull_SecurityActionSafetyProfileV1 : SerializeNonNull SecurityActionSafetyProfileV1.
Proof. done. Qed.

#[export] Program Instance inj_SecurityActionContractV1 : SerializeInj SecurityActionContractV1 := {| ser_ok _ := True |}.
Next Obligation. struct_inj. Qed.
#[export] Instance total_SecurityActionContractV1 : SerializeTotal SecurityActionContractV1.
Proof. done. Qed.
#[export] Instance nonnull_SecurityActionContractV1 : SerializeNonNull SecurityActionContractV1.
Proof. done. Qed.

#[export] Program Instance inj_EventBatchContractV1 : SerializeInj EventBatchContractV1 := {|
  ser_ok c :=
    ser_ok (ebc_price_per_million_operations c) /\ True |}.
Next Obligation. struct_inj. Qed.
#[export] Instance nonnull_EventBatchContractV1 : SerializeNonNull EventBatchContractV1.
Proof. done. Qed.
