(* ===== verification/WorkspaceTypes.v ===== *)
(** The data of the workspace-owned contracts a capability may carry: D1
    migrations, policy projections, transitions, read inventories and the two
    disjoint reply lifecycles, in the style of the file CatalogTypes. *)

From Stdlib Require Import String ZArith Lia List Bool.
From Stdlib Require Import Floats.SpecFloat.
From stdpp Require Import base option list strings.
From S2P Require Import Prelude Strings Btree Json CatalogTypes.

Open Scope cf_scope.

(** crates/cfctl-core/src/workspace_d1.rs, lines 18-21: [WorkspaceD1MigrationFileV1]. *)
Record WorkspaceD1MigrationFileV1 : Type := mkWorkspaceD1MigrationFileV1 {
  wmf_path : string;
  wmf_sha256 : string;
}.
#[export] Instance ser_WorkspaceD1MigrationFileV1 : Serialize WorkspaceD1MigrationFileV1 := fun c => struct_value [
  field "path" (wmf_path c);
  field "sha256" (wmf_sha256 c)].

(** crates/cfctl-core/src/workspace_d1.rs, lines 88-95: [WorkspaceD1ExactObjectAssertionV1]. *)
Record WorkspaceD1ExactObjectAssertionV1 : Type := mkWorkspaceD1ExactObjectAssertionV1 {
  weo_object_type : string;
  weo_name : string;
  weo_table : option string;
  weo_definition : string;
  weo_definition_sha256 : string;
}.
#[export] Instance ser_WorkspaceD1ExactObjectAssertionV1 : Serialize WorkspaceD1ExactObjectAssertionV1 := fun c => struct_value [
  field "object_type" (weo_object_type c);
  field "name" (weo_name c);
  field_some "table" (weo_table c);
  field "definition" (weo_definition c);
  field "definition_sha256" (weo_definition_sha256 c)].

(** crates/cfctl-core/src/workspace_d1.rs, lines 101-111: [WorkspaceD1SchemaAssertionV1]. *)
Record WorkspaceD1SchemaAssertionV1 : Type := mkWorkspaceD1SchemaAssertionV1 {
  wsa_kind : string;
  wsa_table : option string;
  wsa_column : option string;
  wsa_index : option string;
  wsa_exact_object : option WorkspaceD1ExactObjectAssertionV1;
}.
#[export] Instance ser_WorkspaceD1SchemaAssertionV1 : Serialize WorkspaceD1SchemaAssertionV1 := fun c => struct_value [
  field "kind" (wsa_kind c);
  field_some "table" (wsa_table c);
  field_some "column" (wsa_column c);
  field_some "index" (wsa_index c);
  field_some "exact_object" (wsa_exact_object c)].

(** crates/cfctl-core/src/workspace_d1.rs, lines 28-32: [WorkspaceD1MigrationLedgerEntryV1]. *)
Record WorkspaceD1MigrationLedgerEntryV1 : Type := mkWorkspaceD1MigrationLedgerEntryV1 {
  wle_sequence : Z;
  wle_name : string;
  wle_sha256 : string;
}.
#[export] Instance ser_WorkspaceD1MigrationLedgerEntryV1 : Serialize WorkspaceD1MigrationLedgerEntryV1 := fun c => struct_value [
  field "sequence" (wle_sequence c);
  field "name" (wle_name c);
  field "sha256" (wle_sha256 c)].

(** crates/cfctl-core/src/workspace_d1.rs, lines 40-65: [WorkspaceD1ManifestMigrationContractV1]. *)
Record WorkspaceD1ManifestMigrationContractV1 : Type := mkWorkspaceD1ManifestMigrationContractV1 {
  wmm_manifest_path : string;
  wmm_manifest_sha256 : string;
  wmm_account_id : string;
  wmm_profile_id : string;
  wmm_database_name : string;
  wmm_database_id : string;
  wmm_baseline_start_sequence : Z;
  wmm_baseline_end_sequence : Z;
  wmm_baseline : list WorkspaceD1MigrationLedgerEntryV1;
  wmm_baseline_digest : string;
  wmm_target_sequence : Z;
  wmm_target_git_blob_oid : string;
  wmm_migrations_pattern : string;
  wmm_ledger_table : string;
  wmm_ledger_name : string;
  wmm_wrangler_cli_sha256 : string;
  wmm_full_export_capability_id : string;
  wmm_require_exact_post_ledger : bool;
  wmm_forbidden_future_sequences : list Z;
  wmm_require_exact_schema_sql : bool;
  wmm_require_foreign_key_check_empty : bool;
  wmm_require_integrity_check_ok : bool;
  wmm_require_unchanged_worker_identity : bool;
  wmm_require_old_worker_compatibility : bool;
}.
#[export] Instance ser_WorkspaceD1ManifestMigrationContractV1 : Serialize WorkspaceD1ManifestMigrationContractV1 := fun c => struct_value [
  field "manifest_path" (wmm_manifest_path c);
  field "manifest_sha256" (wmm_manifest_sha256 c);
  field "account_id" (wmm_account_id c);
  field "profile_id" (wmm_profile_id c);
  field "database_name" (wmm_database_name c);
  field "database_id" (wmm_database_id c);
  field "baseline_start_sequence" (wmm_baseline_start_sequence c);
  field "baseline_end_sequence" (wmm_baseline_end_sequence c);
  field "baseline" (wmm_baseline c);
  field "baseline_digest" (wmm_baseline_digest c);
  field "target_sequence" (wmm_target_sequence c);
  field "target_git_blob_oid" (wmm_target_git_blob_oid c);
  field "migrations_pattern" (wmm_migrations_pattern c);
  field "ledger_table" (wmm_ledger_table c);
  field "ledger_name" (wmm_ledger_name c);
  field "wrangler_cli_sha256" (wmm_wrangler_cli_sha256 c);
  field "full_export_capability_id" (wmm_full_export_capability_id c);
  field "require_exact_post_ledger" (wmm_require_exact_post_ledger c);
  field "forbidden_future_sequences" (wmm_forbidden_future_sequences c);
  field "require_exact_schema_sql" (wmm_require_exact_schema_sql c);
  field "require_foreign_key_check_empty" (wmm_require_foreign_key_check_empty c);
  field "require_integrity_check_ok" (wmm_require_integrity_check_ok c);
  field "require_unchanged_worker_identity" (wmm_require_unchanged_worker_identity c);
  field "require_old_worker_compatibility" (wmm_require_old_worker_compatibility c)].

(** crates/cfctl-core/src/workspace_d1/transition.rs, lines 29-33: [Source]. *)
Record TransitionSource : Type := mkTransitionSource {
  ts_path : string;
  ts_sha256 : string;
  ts_git_blob_oid : string;
}.
#[export] Instance ser_TransitionSource : Serialize TransitionSource := fun c => struct_value [
  field "path" (ts_path c);
  field "sha256" (ts_sha256 c);
  field "git_blob_oid" (ts_git_blob_oid c)].

(** crates/cfctl-core/src/workspace_d1/transition.rs, lines 37-41: [Target]. *)
Record TransitionTarget : Type := mkTransitionTarget {
  tt_sequence : Z;
  tt_file : string;
  tt_source : TransitionSource;
}.
#[export] Instance ser_TransitionTarget : Serialize TransitionTarget := fun c => struct_value [
  field "sequence" (tt_sequence c);
  field "file" (tt_file c);
  field "source" (tt_source c)].

(** crates/cfctl-core/src/workspace_d1/transition.rs, lines 22-25: [Phase]. *)
Inductive TransitionPhase : Type :=
| TransitionPhase_PreDeploy
| TransitionPhase_PostDeploy.
#[export] Instance TransitionPhase_eq_dec : EqDecision TransitionPhase.
Proof. solve_decision. Defined.
#[export] Instance ser_TransitionPhase : Serialize TransitionPhase := fun x =>
  VString (match x with
  | TransitionPhase_PreDeploy => "pre_deploy"
  | TransitionPhase_PostDeploy => "post_deploy"
  end)%string.

(** crates/cfctl-core/src/workspace_d1/transition.rs, lines 45-50: [Step]. *)
Record TransitionStep : Type := mkTransitionStep {
  tst_sequence : Z;
  tst_phase : TransitionPhase;
  tst_required_completed_transition_sequences : list Z;
  tst_deferred_sequences : list Z;
}.
#[export] Instance ser_TransitionStep : Serialize TransitionStep := fun c => struct_value [
  field "sequence" (tst_sequence c);
  field "phase" (tst_phase c);
  field "required_completed_transition_sequences" (tst_required_completed_transition_sequences c);
  field "deferred_sequences" (tst_deferred_sequences c)].

(** crates/cfctl-core/src/workspace_d1/transition.rs, lines 55-60: [Assertions]. *)
Record TransitionAssertions : Type := mkTransitionAssertions {
  ta_preconditions : TransitionSource;
  ta_capture : TransitionSource;
  ta_preservation : TransitionSource;
  ta_cleanup : TransitionSource;
}.
#[export] Instance ser_TransitionAssertions : Serialize TransitionAssertions := fun c => struct_value [
  field "preconditions" (ta_preconditions c);
  field "capture" (ta_capture c);
  field "preservation" (ta_preservation c);
  field "cleanup" (ta_cleanup c)].

(** crates/cfctl-core/src/workspace_d1/transition.rs, lines 65-68: [Observation]. *)
Record TransitionObservation : Type := mkTransitionObservation {
  to_capability_id : string;
  to_inventory : TransitionSource;
}.
#[export] Instance ser_TransitionObservation : Serialize TransitionObservation := fun c => struct_value [
  field "capability_id" (to_capability_id c);
  field "inventory" (to_inventory c)].

(** crates/cfctl-core/src/workspace_d1/transition.rs, lines 72-75: [Observations]. *)
Record TransitionObservations : Type := mkTransitionObservations {
  tos_baseline : TransitionObservation;
  tos_terminal : TransitionObservation;
}.
#[export] Instance ser_TransitionObservations : Serialize TransitionObservations := fun c => struct_value [
  field "baseline" (tos_baseline c);
  field "terminal" (tos_terminal c)].

(** crates/cfctl-core/src/workspace_d1/transition/assurance.rs, lines 10-18: [Declaration]. *)
Inductive AssuranceDeclaration : Type :=
| AssuranceDeclaration_FullIntegrityV1 (diagnostic : TransitionObservation)
| AssuranceDeclaration_ManagedD1ApplicationV1
    (policy : TransitionSource) (diagnostic : TransitionObservation).
(** [#[serde(tag = "mode")]] *)
#[export] Instance ser_AssuranceDeclaration : Serialize AssuranceDeclaration := fun d =>
  match d with
  | AssuranceDeclaration_FullIntegrityV1 diagnostic =>
      struct_value [field "mode" "full_integrity_v1"%string;
                    field "diagnostic" diagnostic]
  | AssuranceDeclaration_ManagedD1ApplicationV1 policy diagnostic =>
      struct_value [field "mode" "managed_d1_application_v1"%string;
                    field "policy" policy; field "diagnostic" diagnostic]
  end.

(** crates/cfctl-core/src/workspace_d1/transition.rs, lines 79-99: [Declaration]. *)
Record TransitionDeclaration : Type := mkTransitionDeclaration {
  td_id : string;
  td_title : string;
  td_description : string;
  td_manifest : TransitionSource;
  td_historical_ledger : TransitionSource;
  td_config_template : string;
  td_account_id : string;
  td_profile_id : string;
  td_database_id : string;
  td_database_binding : string;
  td_migrations_dir : string;
  td_target : TransitionTarget;
  td_transition_schedule : list TransitionStep;
  td_assertions : TransitionAssertions;
  td_observations : option TransitionObservations;
  td_assurance : option AssuranceDeclaration;
}.
#[export] Instance ser_TransitionDeclaration : Serialize TransitionDeclaration := fun c => struct_value [
  field "id" (td_id c);
  field "title" (td_title c);
  field "description" (td_description c);
  field "manifest" (td_manifest c);
  field "historical_ledger" (td_historical_ledger c);
  field "config_template" (td_config_template c);
  field "account_id" (td_account_id c);
  field "profile_id" (td_profile_id c);
  field "database_id" (td_database_id c);
  field "database_binding" (td_database_binding c);
  field "migrations_dir" (td_migrations_dir c);
  field "target" (td_target c);
  field "transition_schedule" (td_transition_schedule c);
  field "assertions" (td_assertions c);
  field_some "observations" (td_observations c);
  field_some "assurance" (td_assurance c)].

(** crates/cfctl-core/src/workspace_d1/transition.rs, lines 103-107: [Segment]. *)
Record TransitionSegment : Type := mkTransitionSegment {
  tsg_source : TransitionSource;
  tsg_offset : Z;
  tsg_length : Z;
}.
#[export] Instance ser_TransitionSegment : Serialize TransitionSegment := fun c => struct_value [
  field "source" (tsg_source c);
  field "offset" (tsg_offset c);
  field "length" (tsg_length c)].

(** crates/cfctl-core/src/workspace_d1/transition.rs, lines 113-123: [ExecutionManifest]. *)
Record TransitionExecutionManifest : Type := mkTransitionExecutionManifest {
  tem_compiler_id : string;
  tem_source_envelope_sha256 : string;
  tem_ledger_name : string;
  tem_ledger_offset : Z;
  tem_ledger_length : Z;
  tem_ledger_sha256 : string;
  tem_execution_length : Z;
  tem_execution_sha256 : string;
}.
#[export] Instance ser_TransitionExecutionManifest : Serialize TransitionExecutionManifest := fun c => struct_value [
  field "compiler_id" (tem_compiler_id c);
  field "source_envelope_sha256" (tem_source_envelope_sha256 c);
  field "ledger_name" (tem_ledger_name c);
  field "ledger_offset" (tem_ledger_offset c);
  field "ledger_length" (tem_ledger_length c);
  field "ledger_sha256" (tem_ledger_sha256 c);
  field "execution_length" (tem_execution_length c);
  field "execution_sha256" (tem_execution_sha256 c)].

(** crates/cfctl-core/src/workspace_d1/transition/assurance.rs, lines 32-35: [UnobservedProperty]. *)
Inductive TransitionUnobservedProperty : Type :=
| TransitionUnobservedProperty_GlobalIndexConsistency
| TransitionUnobservedProperty_GlobalUniquenessStorageConsistency.
#[export] Instance TransitionUnobservedProperty_eq_dec : EqDecision TransitionUnobservedProperty.
Proof. solve_decision. Defined.
#[export] Instance ser_TransitionUnobservedProperty : Serialize TransitionUnobservedProperty := fun x =>
  VString (match x with
  | TransitionUnobservedProperty_GlobalIndexConsistency => "global_index_consistency"
  | TransitionUnobservedProperty_GlobalUniquenessStorageConsistency => "global_uniqueness_storage_consistency"
  end)%string.

(** crates/cfctl-core/src/workspace_d1/transition/assurance.rs, lines 39-47: [Control]. *)
Inductive TransitionControl : Type :=
| TransitionControl_PrimaryQuickCheck
| TransitionControl_ExactSchema
| TransitionControl_FullScanTypedPopulationPreservation
| TransitionControl_ForeignKeyCheck
| TransitionControl_AtomicFailureRollback
| TransitionControl_TargetOnceLedger
| TransitionControl_FinalScratchCleanup.
#[export] Instance TransitionControl_eq_dec : EqDecision TransitionControl.
Proof. solve_decision. Defined.
#[export] Instance ser_TransitionControl : Serialize TransitionControl := fun x =>
  VString (match x with
  | TransitionControl_PrimaryQuickCheck => "primary_quick_check"
  | TransitionControl_ExactSchema => "exact_schema"
  | TransitionControl_FullScanTypedPopulationPreservation => "full_scan_typed_population_preservation"
  | TransitionControl_ForeignKeyCheck => "foreign_key_check"
  | TransitionControl_AtomicFailureRollback => "atomic_failure_rollback"
  | TransitionControl_TargetOnceLedger => "target_once_ledger"
  | TransitionControl_FinalScratchCleanup => "final_scratch_cleanup"
  end)%string.

(** crates/cfctl-core/src/workspace_d1/transition/assurance.rs, lines 52-62: [ManagedPolicyV1]. *)
Record TransitionManagedPolicyV1 : Type := mkTransitionManagedPolicyV1 {
  tmp_schema_version : Z;
  tmp_mode : string;
  tmp_release_id : string;
  tmp_account_id : string;
  tmp_database_id : string;
  tmp_target_sequence : Z;
  tmp_migration_sha256 : string;
  tmp_accepted_unobserved_properties : list TransitionUnobservedProperty;
  tmp_required_controls : list TransitionControl;
}.
#[export] Instance ser_TransitionManagedPolicyV1 : Serialize TransitionManagedPolicyV1 := fun c => struct_value [
  field "schema_version" (tmp_schema_version c);
  field "mode" (tmp_mode c);
  field "release_id" (tmp_release_id c);
  field "account_id" (tmp_account_id c);
  field "database_id" (tmp_database_id c);
  field "target_sequence" (tmp_target_sequence c);
  field "migration_sha256" (tmp_migration_sha256 c);
  field "accepted_unobserved_properties" (tmp_accepted_unobserved_properties c);
  field "required_controls" (tmp_required_controls c)].

(** crates/cfctl-core/src/workspace_d1/transition.rs, lines 127-138: [Compiled]. *)
Record TransitionCompiled : Type := mkTransitionCompiled {
  tc_declaration : TransitionDeclaration;
  tc_compiler_id : string;
  tc_envelope_sha256 : string;
  tc_envelope_length : Z;
  tc_segments : list TransitionSegment;
  tc_execution : TransitionExecutionManifest;
  tc_historical_sequences : list Z;
  tc_scheduled_targets : list TransitionTarget;
  tc_assurance_policy : option TransitionManagedPolicyV1;
}.
#[export] Instance ser_TransitionCompiled : Serialize TransitionCompiled := fun c => struct_value [
  field "declaration" (tc_declaration c);
  field "compiler_id" (tc_compiler_id c);
  field "envelope_sha256" (tc_envelope_sha256 c);
  field "envelope_length" (tc_envelope_length c);
  field "segments" (tc_segments c);
  field "execution" (tc_execution c);
  field "historical_sequences" (tc_historical_sequences c);
  field "scheduled_targets" (tc_scheduled_targets c);
  field_some "assurance_policy" (tc_assurance_policy c)].

(** crates/cfctl-core/src/workspace_d1.rs, lines 261-282: [WorkspaceD1MigrationContractV1]. *)
Record WorkspaceD1MigrationContractV1 : Type := mkWorkspaceD1MigrationContractV1 {
  wdm_repository_root : string;
  wdm_repository_head : string;
  wdm_repository_origin : string;
  wdm_operation_pack_path : string;
  wdm_operation_pack_sha256 : string;
  wdm_config_template_path : string;
  wdm_config_template_sha256 : string;
  wdm_production_config_path : string;
  wdm_migrations_dir : string;
  wdm_database_binding : string;
  wdm_wrangler_version : string;
  wdm_migrations : list WorkspaceD1MigrationFileV1;
  wdm_assertions : list WorkspaceD1SchemaAssertionV1;
  wdm_recovery_capability_id : string;
  wdm_recovery_max_age_seconds : Z;
  wdm_rollback_capability_id : string;
  wdm_manifest_migration : option WorkspaceD1ManifestMigrationContractV1;
  wdm_transition : option TransitionCompiled;
}.
#[export] Instance ser_WorkspaceD1MigrationContractV1 : Serialize WorkspaceD1MigrationContractV1 := fun c => struct_value [
  field "repository_root" (wdm_repository_root c);
  field "repository_head" (wdm_repository_head c);
  field "repository_origin" (wdm_repository_origin c);
  field "operation_pack_path" (wdm_operation_pack_path c);
  field "operation_pack_sha256" (wdm_operation_pack_sha256 c);
  field "config_template_path" (wdm_config_template_path c);
  field "config_template_sha256" (wdm_config_template_sha256 c);
  field "production_config_path" (wdm_production_config_path c);
  field "migrations_dir" (wdm_migrations_dir c);
  field "database_binding" (wdm_database_binding c);
  field "wrangler_version" (wdm_wrangler_version c);
  field "migrations" (wdm_migrations c);
  field "assertions" (wdm_assertions c);
  field "recovery_capability_id" (wdm_recovery_capability_id c);
  field "recovery_max_age_seconds" (wdm_recovery_max_age_seconds c);
  field "rollback_capability_id" (wdm_rollback_capability_id c);
  field_some "manifest_migration" (wdm_manifest_migration c);
  field_some "transition" (wdm_transition c)].

(** crates/cfctl-core/src/workspace_d1.rs, lines 289-311: [WorkspaceD1PolicyProjectionContractV1]. *)
Record WorkspaceD1PolicyProjectionContractV1 : Type := mkWorkspaceD1PolicyProjectionContractV1 {
  wpp_repository_root : string;
  wpp_repository_head : string;
  wpp_repository_origin : string;
  wpp_operation_pack_path : string;
  wpp_operation_pack_sha256 : string;
  wpp_config_template_path : string;
  wpp_config_template_sha256 : string;
  wpp_production_config_path : string;
  wpp_database_binding : string;
  wpp_wrangler_version : string;
  wpp_route_table : string;
  wpp_route_policy_sha_column : string;
  wpp_runtime_state_table : string;
  wpp_runtime_state_key_column : string;
  wpp_runtime_state_value_column : string;
  wpp_active_policy_key : string;
  wpp_desired_state_digest_key : string;
  wpp_projection_digest_key : string;
  wpp_recovery_capability_id : string;
  wpp_recovery_max_age_seconds : Z;
  wpp_rollback_capability_id : string;
}.
#[export] Instance ser_WorkspaceD1PolicyProjectionContractV1 : Serialize WorkspaceD1PolicyProjectionContractV1 := fun c => struct_value [
  field "repository_root" (wpp_repository_root c);
  field "repository_head" (wpp_repository_head c);
  field "repository_origin" (wpp_repository_origin c);
  field "operation_pack_path" (wpp_operation_pack_path c);
  field "operation_pack_sha256" (wpp_operation_pack_sha256 c);
  field "config_template_path" (wpp_config_template_path c);
  field "config_template_sha256" (wpp_config_template_sha256 c);
  field "production_config_path" (wpp_production_config_path c);
  field "database_binding" (wpp_database_binding c);
  field "wrangler_version" (wpp_wrangler_version c);
  field "route_table" (wpp_route_table c);
  field "route_policy_sha_column" (wpp_route_policy_sha_column c);
  field "runtime_state_table" (wpp_runtime_state_table c);
  field "runtime_state_key_column" (wpp_runtime_state_key_column c);
  field "runtime_state_value_column" (wpp_runtime_state_value_column c);
  field "active_policy_key" (wpp_active_policy_key c);
  field "desired_state_digest_key" (wpp_desired_state_digest_key c);
  field "projection_digest_key" (wpp_projection_digest_key c);
  field "recovery_capability_id" (wpp_recovery_capability_id c);
  field "recovery_max_age_seconds" (wpp_recovery_max_age_seconds c);
  field "rollback_capability_id" (wpp_rollback_capability_id c)].

(** crates/cfctl-core/src/reply_lifecycle.rs, lines 51-54: [ReplyContainmentSchemaV3]. *)
Inductive ReplyContainmentSchemaV3 : Type :=
| ReplyContainmentSchema_V3.
#[export] Instance ReplyContainmentSchemaV3_eq_dec : EqDecision ReplyContainmentSchemaV3.
Proof. solve_decision. Defined.
#[export] Instance ser_ReplyContainmentSchemaV3 : Serialize ReplyContainmentSchemaV3 := fun x =>
  VString (match x with
  | ReplyContainmentSchema_V3 => "maildesk_reply_containment_v3"
  end)%string.

(** crates/cfctl-core/src/reply_lifecycle.rs, lines 58-62: [ReplyContainmentOperationV3]. *)
Inductive ReplyContainmentOperationV3 : Type :=
| ReplyContainmentOperation_PreRead
| ReplyContainmentOperation_Apply
| ReplyContainmentOperation_Read.
#[export] Instance ReplyContainmentOperationV3_eq_dec : EqDecision ReplyContainmentOperationV3.
Proof. solve_decision. Defined.
#[export] Instance ser_ReplyContainmentOperationV3 : Serialize ReplyContainmentOperationV3 := fun x =>
  VString (match x with
  | ReplyContainmentOperation_PreRead => "pre_read"
  | ReplyContainmentOperation_Apply => "apply"
  | ReplyContainmentOperation_Read => "read"
  end)%string.

(** crates/cfctl-core/src/reply_lifecycle.rs, lines 80-105: [WorkspaceD1ReplyContainmentContractV3]. *)
Record WorkspaceD1ReplyContainmentContractV3 : Type := mkWorkspaceD1ReplyContainmentContractV3 {
  wrc_contract : ReplyContainmentSchemaV3;
  wrc_schema_version : Z;
  wrc_operation_kind : ReplyContainmentOperationV3;
  wrc_repository_root : string;
  wrc_repository_head : string;
  wrc_repository_tree : string;
  wrc_repository_origin : string;
  wrc_operation_pack_path : string;
  wrc_operation_pack_sha256 : string;
  wrc_compiler_path : string;
  wrc_compiler_sha256 : string;
  wrc_compiler_runtime : string;
  wrc_compiler_runtime_version : string;
  wrc_compiler_runtime_sha256 : string;
  wrc_config_template_path : string;
  wrc_config_template_sha256 : string;
  wrc_production_config_path : string;
  wrc_database_binding : string;
  wrc_wrangler_version : string;
  wrc_input_contract : string;
  wrc_recovery_capability_id : string;
  wrc_recovery_max_age_seconds : Z;
  wrc_rollback_capability_id : string;
}.
#[export] Instance ser_WorkspaceD1ReplyContainmentContractV3 : Serialize WorkspaceD1ReplyContainmentContractV3 := fun c => struct_value [
  field "contract" (wrc_contract c);
  field "schema_version" (wrc_schema_version c);
  field "operation_kind" (wrc_operation_kind c);
  field "repository_root" (wrc_repository_root c);
  field "repository_head" (wrc_repository_head c);
  field "repository_tree" (wrc_repository_tree c);
  field "repository_origin" (wrc_repository_origin c);
  field "operation_pack_path" (wrc_operation_pack_path c);
  field "operation_pack_sha256" (wrc_operation_pack_sha256 c);
  field "compiler_path" (wrc_compiler_path c);
  field "compiler_sha256" (wrc_compiler_sha256 c);
  field "compiler_runtime" (wrc_compiler_runtime c);
  field "compiler_runtime_version" (wrc_compiler_runtime_version c);
  field "compiler_runtime_sha256" (wrc_compiler_runtime_sha256 c);
  field "config_template_path" (wrc_config_template_path c);
  field "config_template_sha256" (wrc_config_template_sha256 c);
  field "production_config_path" (wrc_production_config_path c);
  field "database_binding" (wrc_database_binding c);
  field "wrangler_version" (wrc_wrangler_version c);
  field "input_contract" (wrc_input_contract c);
  field "recovery_capability_id" (wrc_recovery_capability_id c);
  field "recovery_max_age_seconds" (wrc_recovery_max_age_seconds c);
  field "rollback_capability_id" (wrc_rollback_capability_id c)].

(** crates/cfctl-core/src/workspace_d1.rs, lines 318-345: [WorkspaceD1ReplyAdmissionContractV1]. *)
Record WorkspaceD1ReplyAdmissionContractV1 : Type := mkWorkspaceD1ReplyAdmissionContractV1 {
  wra_operation_kind : string;
  wra_repository_root : string;
  wra_repository_head : string;
  wra_repository_origin : string;
  wra_operation_pack_path : string;
  wra_operation_pack_sha256 : string;
  wra_compiler_path : string;
  wra_compiler_sha256 : string;
  wra_compiler_runtime : string;
  wra_compiler_runtime_version : string;
  wra_compiler_runtime_sha256 : string;
  wra_config_template_path : string;
  wra_config_template_sha256 : string;
  wra_production_config_path : string;
  wra_database_binding : string;
  wra_wrangler_version : string;
  wra_admission_table : string;
  wra_input_contract : string;
  wra_mutation_projection : string;
  wra_read_projection : option string;
  wra_read_parameters : list string;
  wra_recovery_capability_id : string;
  wra_recovery_max_age_seconds : Z;
  wra_rollback_capability_id : string;
}.
#[export] Instance ser_WorkspaceD1ReplyAdmissionContractV1 : Serialize WorkspaceD1ReplyAdmissionContractV1 := fun c => struct_value [
  field "operation_kind" (wra_operation_kind c);
  field "repository_root" (wra_repository_root c);
  field "repository_head" (wra_repository_head c);
  field "repository_origin" (wra_repository_origin c);
  field "operation_pack_path" (wra_operation_pack_path c);
  field "operation_pack_sha256" (wra_operation_pack_sha256 c);
  field "compiler_path" (wra_compiler_path c);
  field "compiler_sha256" (wra_compiler_sha256 c);
  field "compiler_runtime" (wra_compiler_runtime c);
  field "compiler_runtime_version" (wra_compiler_runtime_version c);
  field "compiler_runtime_sha256" (wra_compiler_runtime_sha256 c);
  field "config_template_path" (wra_config_template_path c);
  field "config_template_sha256" (wra_config_template_sha256 c);
  field "production_config_path" (wra_production_config_path c);
  field "database_binding" (wra_database_binding c);
  field "wrangler_version" (wra_wrangler_version c);
  field "admission_table" (wra_admission_table c);
  field "input_contract" (wra_input_contract c);
  field "mutation_projection" (wra_mutation_projection c);
  field_some "read_projection" (wra_read_projection c);
  field_nonempty "read_parameters" (wra_read_parameters c);
  field "recovery_capability_id" (wra_recovery_capability_id c);
  field "recovery_max_age_seconds" (wra_recovery_max_age_seconds c);
  field "rollback_capability_id" (wra_rollback_capability_id c)].

(** crates/cfctl-core/src/reply_lifecycle.rs, lines 15-18: [WorkspaceD1ReplyLifecycleContract]. *)
Inductive WorkspaceD1ReplyLifecycleContract : Type :=
| WorkspaceD1ReplyLifecycleContract_Containment (c : WorkspaceD1ReplyContainmentContractV3)
| WorkspaceD1ReplyLifecycleContract_Admission (c : WorkspaceD1ReplyAdmissionContractV1).
(** [#[serde(untagged)]] *)
#[export] Instance ser_WorkspaceD1ReplyLifecycleContract :
  Serialize WorkspaceD1ReplyLifecycleContract := fun c =>
  match c with
  | WorkspaceD1ReplyLifecycleContract_Containment c => to_value c
  | WorkspaceD1ReplyLifecycleContract_Admission c => to_value c
  end.

(** crates/cfctl-core/src/workspace_d1.rs, lines 352-365: [WorkspaceD1EvidenceContractV1]. *)
Record WorkspaceD1EvidenceContractV1 : Type := mkWorkspaceD1EvidenceContractV1 {
  wde_repository_root : string;
  wde_repository_head : string;
  wde_repository_origin : string;
  wde_operation_pack_path : string;
  wde_operation_pack_sha256 : string;
  wde_config_template_path : string;
  wde_config_template_sha256 : string;
  wde_production_config_path : string;
  wde_database_binding : string;
  wde_wrangler_version : string;
  wde_projection : string;
  wde_query_sha256 : string;
}.
#[export] Instance ser_WorkspaceD1EvidenceContractV1 : Serialize WorkspaceD1EvidenceContractV1 := fun c => struct_value [
  field "repository_root" (wde_repository_root c);
  field "repository_head" (wde_repository_head c);
  field "repository_origin" (wde_repository_origin c);
  field "operation_pack_path" (wde_operation_pack_path c);
  field "operation_pack_sha256" (wde_operation_pack_sha256 c);
  field "config_template_path" (wde_config_template_path c);
  field "config_template_sha256" (wde_config_template_sha256 c);
  field "production_config_path" (wde_production_config_path c);
  field "database_binding" (wde_database_binding c);
  field "wrangler_version" (wde_wrangler_version c);
  field "projection" (wde_projection c);
  field "query_sha256" (wde_query_sha256 c)].

(** crates/cfctl-core/src/d1_read_inventory.rs, lines 12-15: [D1ReadSourceV1]. *)
Record D1ReadSourceV1 : Type := mkD1ReadSourceV1 {
  rs_path : string;
  rs_sha256 : string;
}.
#[export] Instance ser_D1ReadSourceV1 : Serialize D1ReadSourceV1 := fun c => struct_value [
  field "path" (rs_path c);
  field "sha256" (rs_sha256 c)].

(** crates/cfctl-core/src/d1_read_inventory.rs, lines 192-203: [D1ReadOperationV1]. *)
Record D1ReadOperationV1 : Type := mkD1ReadOperationV1 {
  rop_id : string;
  rop_title : string;
  rop_description : string;
  rop_account_id : string;
  rop_database_id : string;
  rop_profile_id : string;
  rop_source_revision : string;
  rop_source : list D1ReadSourceV1;
  rop_inventory_path : string;
  rop_inventory_sha256 : string;
}.
#[export] Instance ser_D1ReadOperationV1 : Serialize D1ReadOperationV1 := fun c => struct_value [
  field "id" (rop_id c);
  field "title" (rop_title c);
  field "description" (rop_description c);
  field "account_id" (rop_account_id c);
  field "database_id" (rop_database_id c);
  field "profile_id" (rop_profile_id c);
  field "source_revision" (rop_source_revision c);
  field "source" (rop_source c);
  field "inventory_path" (rop_inventory_path c);
  field "inventory_sha256" (rop_inventory_sha256 c)].

(** crates/cfctl-core/src/d1_read_inventory.rs, lines 20-23: [D1ReadTableV1]. *)
Record D1ReadTableV1 : Type := mkD1ReadTableV1 {
  rt_name : string;
  rt_columns : list string;
}.
#[export] Instance ser_D1ReadTableV1 : Serialize D1ReadTableV1 := fun c => struct_value [
  field "name" (rt_name c);
  field "columns" (rt_columns c)].

(** crates/cfctl-core/src/d1_read_inventory.rs, lines 119-125: [D1ReadLimitsV1]. *)
Record D1ReadLimitsV1 : Type := mkD1ReadLimitsV1 {
  rl_max_total_response_bytes : Z;
  rl_max_elapsed_seconds : Z;
  rl_stop_after_rows_read : Z;
}.
#[export] Instance ser_D1ReadLimitsV1 : Serialize D1ReadLimitsV1 := fun c => struct_value [
  field "max_total_response_bytes" (rl_max_total_response_bytes c);
  field "max_elapsed_seconds" (rl_max_elapsed_seconds c);
  field "stop_after_rows_read" (rl_stop_after_rows_read c)].

(** crates/cfctl-core/src/d1_read_inventory.rs, lines 61-66: [D1ReadDependencyV1]. *)
Record D1ReadDependencyV1 : Type := mkD1ReadDependencyV1 {
  rd_query_id : string;
  rd_column : option string;
  rd_equals : option Value;
}.
#[export] Instance ser_D1ReadDependencyV1 : Serialize D1ReadDependencyV1 := fun c => struct_value [
  field "query_id" (rd_query_id c);
  field "column" (rd_column c);
  field "equals" (rd_equals c)].

(** crates/cfctl-core/src/d1_read_inventory.rs, lines 27-32: [D1ReadValueKindV1]. *)
Inductive D1ReadValueKindV1 : Type :=
| D1ReadValueKind_Integer
| D1ReadValueKind_Real
| D1ReadValueKind_Text
| D1ReadValueKind_Boolean.
#[export] Instance D1ReadValueKindV1_eq_dec : EqDecision D1ReadValueKindV1.
Proof. solve_decision. Defined.
#[export] Instance ser_D1ReadValueKindV1 : Serialize D1ReadValueKindV1 := fun x =>
  VString (match x with
  | D1ReadValueKind_Integer => "integer"
  | D1ReadValueKind_Real => "real"
  | D1ReadValueKind_Text => "text"
  | D1ReadValueKind_Boolean => "boolean"
  end)%string.

(** crates/cfctl-core/src/d1_read_inventory.rs, lines 95-104: [D1ReadParameterV1]. *)
Record D1ReadParameterV1 : Type := mkD1ReadParameterV1 {
  rp_index : Z;
  rp_from_query : string;
  rp_row_index : Z;
  rp_column : string;
  rp_kind : D1ReadValueKindV1;
  rp_trim : bool;
  rp_nonempty : bool;
  rp_max_bytes : option Z;
}.
#[export] Instance ser_D1ReadParameterV1 : Serialize D1ReadParameterV1 := fun c => struct_value [
  field "index" (rp_index c);
  field "from_query" (rp_from_query c);
  field "row_index" (rp_row_index c);
  field "column" (rp_column c);
  field "kind" (rp_kind c);
  field "trim" (rp_trim c);
  field "nonempty" (rp_nonempty c);
  field "max_bytes" (rp_max_bytes c)].

(** crates/cfctl-core/src/d1_read_inventory.rs, lines 36-46: [D1ReadColumnV1]. *)
Record D1ReadColumnV1 : Type := mkD1ReadColumnV1 {
  rc_name : string;
  rc_kind : D1ReadValueKindV1;
  rc_nullable : bool;
  rc_max_bytes : option Z;
  rc_allowed_values : option (list Value);
  rc_min_integer : option Z;
  rc_max_integer : option Z;
}.
#[export] Instance ser_D1ReadColumnV1 : Serialize D1ReadColumnV1 := fun c => struct_value [
  field "name" (rc_name c);
  field "kind" (rc_kind c);
  field "nullable" (rc_nullable c);
  field "max_bytes" (rc_max_bytes c);
  field "allowed_values" (rc_allowed_values c);
  field "min_integer" (rc_min_integer c);
  field "max_integer" (rc_max_integer c)].

(** crates/cfctl-core/src/d1_read_inventory.rs, lines 50-57: [D1ReadOutputV1]. *)
Record D1ReadOutputV1 : Type := mkD1ReadOutputV1 {
  ro_columns : list D1ReadColumnV1;
  ro_min_rows : Z;
  ro_max_rows : Z;
  ro_max_bytes : Z;
}.
#[export] Instance ser_D1ReadOutputV1 : Serialize D1ReadOutputV1 := fun c => struct_value [
  field "columns" (ro_columns c);
  field "min_rows" (ro_min_rows c);
  field "max_rows" (ro_max_rows c);
  field "max_bytes" (ro_max_bytes c)].

(** crates/cfctl-core/src/d1_read_inventory.rs, lines 70-75: [D1ReadWitnessV1]. *)
Record D1ReadWitnessV1 : Type := mkD1ReadWitnessV1 {
  rw_id : string;
  rw_ordinal : Z;
  rw_group : string;
  rw_source_reference : string;
}.
#[export] Instance ser_D1ReadWitnessV1 : Serialize D1ReadWitnessV1 := fun c => struct_value [
  field "id" (rw_id c);
  field "ordinal" (rw_ordinal c);
  field "group" (rw_group c);
  field "source_reference" (rw_source_reference c)].

(** crates/cfctl-core/src/d1_read_inventory.rs, lines 79-89: [D1ReadQueryV1]. *)
Record D1ReadQueryV1 : Type := mkD1ReadQueryV1 {
  rq_id : string;
  rq_sql : string;
  rq_sha256 : string;
  rq_phase : string;
  rq_requires : list D1ReadDependencyV1;
  rq_parameters : list D1ReadParameterV1;
  rq_output : D1ReadOutputV1;
  rq_witnesses : list D1ReadWitnessV1;
}.
#[export] Instance ser_D1ReadQueryV1 : Serialize D1ReadQueryV1 := fun c => struct_value [
  field "id" (rq_id c);
  field "sql" (rq_sql c);
  field "sha256" (rq_sha256 c);
  field "phase" (rq_phase c);
  field "requires" (rq_requires c);
  field "parameters" (rq_parameters c);
  field "output" (rq_output c);
  field "witnesses" (rq_witnesses c)].

(** crates/cfctl-core/src/d1_read_inventory.rs, lines 144-149: [D1PrivateOutputV1]. *)
Record D1PrivateOutputV1 : Type := mkD1PrivateOutputV1 {
  rpo_schema_version : Z;
  rpo_format : string;
  rpo_max_artifact_bytes : Z;
  rpo_require_primary : bool;
}.
#[export] Instance ser_D1PrivateOutputV1 : Serialize D1PrivateOutputV1 := fun c => struct_value [
  field "schema_version" (rpo_schema_version c);
  field "format" (rpo_format c);
  field "max_artifact_bytes" (rpo_max_artifact_bytes c);
  field "require_primary" (rpo_require_primary c)].

(** crates/cfctl-core/src/d1_read_inventory.rs, lines 129-139: [D1ReadInventoryV1]. *)
Record D1ReadInventoryV1 : Type := mkD1ReadInventoryV1 {
  ri_schema_version : Z;
  ri_query_count : Z;
  ri_witness_count : Z;
  ri_tables : list D1ReadTableV1;
  ri_functions : list string;
  ri_limits : D1ReadLimitsV1;
  ri_queries : list D1ReadQueryV1;
  ri_private_output : option D1PrivateOutputV1;
}.
#[export] Instance ser_D1ReadInventoryV1 : Serialize D1ReadInventoryV1 := fun c => struct_value [
  field "schema_version" (ri_schema_version c);
  field "query_count" (ri_query_count c);
  field "witness_count" (ri_witness_count c);
  field "tables" (ri_tables c);
  field "functions" (ri_functions c);
  field "limits" (ri_limits c);
  field "queries" (ri_queries c);
  field_some "private_output" (ri_private_output c)].

(** crates/cfctl-core/src/d1_read_inventory.rs, lines 215-219: [D1ReadSourceSelectionV1]. *)
Record D1ReadSourceSelectionV1 : Type := mkD1ReadSourceSelectionV1 {
  rss_checkout_root : string;
  rss_head : string;
  rss_tree : string;
}.
#[export] Instance ser_D1ReadSourceSelectionV1 : Serialize D1ReadSourceSelectionV1 := fun c => struct_value [
  field "checkout_root" (rss_checkout_root c);
  field "head" (rss_head c);
  field "tree" (rss_tree c)].

(** crates/cfctl-core/src/d1_read_inventory.rs, lines 225-231: [D1ReadSourceBindingV1]. *)
Record D1ReadSourceBindingV1 : Type := mkD1ReadSourceBindingV1 {
  rsb_selection : D1ReadSourceSelectionV1;
  rsb_registered_repository_root : string;
  rsb_registered_head : string;
  rsb_registered_tree : string;
  rsb_git_common_directory : string;
}.
#[export] Instance ser_D1ReadSourceBindingV1 : Serialize D1ReadSourceBindingV1 := fun c => struct_value [
  field "selection" (rsb_selection c);
  field "registered_repository_root" (rsb_registered_repository_root c);
  field "registered_head" (rsb_registered_head c);
  field "registered_tree" (rsb_registered_tree c);
  field "git_common_directory" (rsb_git_common_directory c)].

(** crates/cfctl-core/src/d1_read_inventory.rs, lines 236-246: [WorkspaceD1ReadInventoryContractV1]. *)
Record WorkspaceD1ReadInventoryContractV1 : Type := mkWorkspaceD1ReadInventoryContractV1 {
  wri_inv_repository_root : string;
  wri_inv_repository_head : string;
  wri_inv_repository_tree : string;
  wri_inv_repository_origin : string;
  wri_inv_operation_pack_sha256 : string;
  wri_inv_operation : D1ReadOperationV1;
  wri_inv_inventory : D1ReadInventoryV1;
  wri_inv_source_binding : option D1ReadSourceBindingV1;
}.
#[export] Instance ser_WorkspaceD1ReadInventoryContractV1 : Serialize WorkspaceD1ReadInventoryContractV1 := fun c => struct_value [
  field "repository_root" (wri_inv_repository_root c);
  field "repository_head" (wri_inv_repository_head c);
  field "repository_tree" (wri_inv_repository_tree c);
  field "repository_origin" (wri_inv_repository_origin c);
  field "operation_pack_sha256" (wri_inv_operation_pack_sha256 c);
  field "operation" (wri_inv_operation c);
  field "inventory" (wri_inv_inventory c);
  field_some "source_binding" (wri_inv_source_binding c)].

(** ** Serialisation is injective *)

#[export] Program Instance inj_WorkspaceD1MigrationFileV1 : SerializeInj WorkspaceD1MigrationFileV1 := {| ser_ok _ := True |}.
Next Obligation. struct_inj. Qed.
#[export] Instance total_WorkspaceD1MigrationFileV1 : SerializeTotal WorkspaceD1MigrationFileV1.
Proof. done. Qed.
#[export] Instance nonnull_WorkspaceD1MigrationFileV1 : SerializeNonNull WorkspaceD1MigrationFileV1.
Proof. done. Qed.

#[export] Program Instance inj_WorkspaceD1ExactObjectAssertionV1 : SerializeInj WorkspaceD1ExactObjectAssertionV1 := {| ser_ok _ := True |}.
Next Obligation. struct_inj. Qed.
#[export] Instance total_WorkspaceD1ExactObjectAssertionV1 : SerializeTotal WorkspaceD1ExactObjectAssertionV1.
Proof. done. Qed.
#[export] Instance nonnull_WorkspaceD1ExactObjectAssertionV1 : SerializeNonNull WorkspaceD1ExactObjectAssertionV1.
Proof. done. Qed.

#[export] Program Instance inj_WorkspaceD1SchemaAssertionV1 : SerializeInj WorkspaceD1SchemaAssertionV1 := {| ser_ok _ := True |}.
Next Obligation. struct_inj. Qed.
#[export] Instance total_WorkspaceD1SchemaAssertionV1 : SerializeTotal WorkspaceD1SchemaAssertionV1.
Proof. done. Qed.
#[export] Instance nonnull_WorkspaceD1SchemaAssertionV1 : SerializeNonNull WorkspaceD1SchemaAssertionV1.
Proof. done. Qed.

#[export] Program Instance inj_WorkspaceD1MigrationLedgerEntryV1 : SerializeInj WorkspaceD1MigrationLedgerEntryV1 := {| ser_ok _ := True |}.
Next Obligation. struct_inj. Qed.
#[export] Instance total_WorkspaceD1MigrationLedgerEntryV1 : SerializeTotal WorkspaceD1MigrationLedgerEntryV1.
Proof. done. Qed.
#[export] Instance nonnull_WorkspaceD1MigrationLedgerEntryV1 : SerializeNonNull WorkspaceD1MigrationLedgerEntryV1.
Proof. done. Qed.

#[export] Program Instance inj_WorkspaceD1ManifestMigrationContractV1 : SerializeInj WorkspaceD1ManifestMigrationContractV1 := {| ser_ok _ := True |}.
Next Obligation. struct_inj. Qed.
#[export] Instance total_WorkspaceD1ManifestMigrationContractV1 : SerializeTotal WorkspaceD1ManifestMigrationContractV1.
Proof. done. Qed.
#[export] Instance nonnull_WorkspaceD1ManifestMigrationContractV1 : SerializeNonNull WorkspaceD1ManifestMigrationContractV1.
Proof. done. Qed.

#[export] Program Instance inj_TransitionSource : SerializeInj TransitionSource := {| ser_ok _ := True |}.
Next Obligation. struct_inj. Qed.
#[export] Instance total_TransitionSource : SerializeTotal TransitionSource.
Proof. done. Qed.
#[export] Instance nonnull_TransitionSource : SerializeNonNull TransitionSource.
Proof. done. Qed.

#[export] Program Instance inj_TransitionTarget : SerializeInj TransitionTarget := {| ser_ok _ := True |}.
Next Obligation. struct_inj. Qed.
#[export] Instance total_TransitionTarget : SerializeTotal TransitionTarget.
Proof. done. Qed.
#[export] Instance nonnull_TransitionTarget : SerializeNonNull TransitionTarget.
Proof. done. Qed.

#[export] Program Instance inj_TransitionPhase : SerializeInj TransitionPhase := {| ser_ok _ := True |}.
Next Obligation. by intros [] [] _ _ [=]. Qed.
#[export] Instance total_TransitionPhase : SerializeTotal TransitionPhase.
Proof. done. Qed.
#[export] Instance nonnull_TransitionPhase : SerializeNonNull TransitionPhase.
Proof. done. Qed.

#[export] Program Instance inj_TransitionStep : SerializeInj TransitionStep := {| ser_ok _ := True |}.
Next Obligation. struct_inj. Qed.
#[export] Instance total_TransitionStep : SerializeTotal TransitionStep.
Proof. done. Qed.
#[export] Instance nonnull_TransitionStep : SerializeNonNull TransitionStep.
Proof. done. Qed.

#[export] Program Instance inj_TransitionAssertions : SerializeInj TransitionAssertions := {| ser_ok _ := True |}.
Next Obligation. struct_inj. Qed.
#[export] Instance total_TransitionAssertions : SerializeTotal TransitionAssertions.
Proof. done. Qed.
#[export] Instance nonnull_TransitionAssertions : SerializeNonNull TransitionAssertions.
Proof. done. Qed.

#[export] Program Instance inj_TransitionObservation : SerializeInj TransitionObservation := {| ser_ok _ := True |}.
Next Obligation. struct_inj. Qed.
#[export] Instance total_TransitionObservation : SerializeTotal TransitionObservation.
Proof. done. Qed.
#[export] Instance nonnull_TransitionObservation : SerializeNonNull TransitionObservation.
Proof. done. Qed.

#[export] Program Instance inj_TransitionObservations : SerializeInj TransitionObservations := {| ser_ok _ := True |}.
Next Obligation. struct_inj. Qed.
#[export] Instance total_TransitionObservations : SerializeTotal TransitionObservations.
Proof. done. Qed.
#[export] Instance nonnull_TransitionObservations : SerializeNonNull TransitionObservations.
Proof. done. Qed.

#[export] Program Instance inj_AssuranceDeclaration :
  SerializeInj AssuranceDeclaration := {| ser_ok _ := True |}.
Next Obligation.
  intros [d|p d] [d'|p' d'] _ _ H; try (apply (f_equal (vget "mode")) in H; discriminate H);
    apply struct_value_fields in H; try reflexivity;
    try (apply nodupb_NoDup; vm_compute; reflexivity);
    cbn [map snd field] in H; struct_fields H; reflexivity.
Qed.
#[export] Instance total_AssuranceDeclaration : SerializeTotal AssuranceDeclaration.
Proof. done. Qed.
#[export] Instance nonnull_AssuranceDeclaration : SerializeNonNull AssuranceDeclaration.
Proof. by intros [] ?. Qed.

#[export] Program Instance inj_TransitionDeclaration : SerializeInj TransitionDeclaration := {| ser_ok _ := True |}.
Next Obligation. struct_inj. Qed.
#[export] Instance total_TransitionDeclaration : SerializeTotal TransitionDeclaration.
Proof. done. Qed.
#[export] Instance nonnull_TransitionDeclaration : SerializeNonNull TransitionDeclaration.
Proof. done. Qed.

#[export] Program Instance inj_TransitionSegment : SerializeInj TransitionSegment := {| ser_ok _ := True |}.
Next Obligation. struct_inj. Qed.
#[export] Instance total_TransitionSegment : SerializeTotal TransitionSegment.
Proof. done. Qed.
#[export] Instance nonnull_TransitionSegment : SerializeNonNull TransitionSegment.
Proof. done. Qed.

#[export] Program Instance inj_TransitionExecutionManifest : SerializeInj TransitionExecutionManifest := {| ser_ok _ := True |}.
Next Obligation. struct_inj. Qed.
#[export] Instance total_TransitionExecutionManifest : SerializeTotal TransitionExecutionManifest.
Proof. done. Qed.
#[export] Instance nonnull_TransitionExecutionManifest : SerializeNonNull TransitionExecutionManifest.
Proof. done. Qed.

#[export] Program Instance inj_TransitionUnobservedProperty : SerializeInj TransitionUnobservedProperty := {| ser_ok _ := True |}.
Next Obligation. by intros [] [] _ _ [=]. Qed.
#[export] Instance total_TransitionUnobservedProperty : SerializeTotal TransitionUnobservedProperty.
Proof. done. Qed.
#[export] Instance nonnull_TransitionUnobservedProperty : SerializeNonNull TransitionUnobservedProperty.
Proof. done. Qed.

#[export] Program Instance inj_TransitionControl : SerializeInj TransitionControl := {| ser_ok _ := True |}.
Next Obligation. by intros [] [] _ _ [=]. Qed.
#[export] Instance total_TransitionControl : SerializeTotal TransitionControl.
Proof. done. Qed.
#[export] Instance nonnull_TransitionControl : SerializeNonNull TransitionControl.
Proof. done. Qed.

#[export] Program Instance inj_TransitionManagedPolicyV1 : SerializeInj TransitionManagedPolicyV1 := {| ser_ok _ := True |}.
Next Obligation. struct_inj. Qed.
#[export] Instance total_TransitionManagedPolicyV1 : SerializeTotal TransitionManagedPolicyV1.
Proof. done. Qed.
#[export] Instance nonnull_TransitionManagedPolicyV1 : SerializeNonNull TransitionManagedPolicyV1.
Proof. done. Qed.

#[export] Program Instance inj_TransitionCompiled : SerializeInj TransitionCompiled := {| ser_ok _ := True |}.
Next Obligation. struct_inj. Qed.
#[export] Instance total_TransitionCompiled : SerializeTotal TransitionCompiled.
Proof. done. Qed.
#[export] Instance nonnull_TransitionCompiled : SerializeNonNull TransitionCompiled.
Proof. done. Qed.

#[export] Program Instance inj_WorkspaceD1MigrationContractV1 : SerializeInj WorkspaceD1MigrationContractV1 := {| ser_ok _ := True |}.
Next Obligation. struct_inj. Qed.
#[export] Instance total_WorkspaceD1MigrationContractV1 : SerializeTotal WorkspaceD1MigrationContractV1.
Proof. done. Qed.
#[export] Instance nonnull_WorkspaceD1MigrationContractV1 : SerializeNonNull WorkspaceD1MigrationContractV1.
Proof. done. Qed.

#[export] Program Instance inj_WorkspaceD1PolicyProjectionContractV1 : SerializeInj WorkspaceD1PolicyProjectionContractV1 := {| ser_ok _ := True |}.
Next Obligation. struct_inj. Qed.
#[export] Instance total_WorkspaceD1PolicyProjectionContractV1 : SerializeTotal WorkspaceD1PolicyProjectionContractV1.
Proof. done. Qed.
#[export] Instance nonnull_WorkspaceD1PolicyProjectionContractV1 : SerializeNonNull WorkspaceD1PolicyProjectionContractV1.
Proof. done. Qed.

#[export] Program Instance inj_ReplyContainmentSchemaV3 : SerializeInj ReplyContainmentSchemaV3 := {| ser_ok _ := True |}.
Next Obligation. by intros [] [] _ _ [=]. Qed.
#[export] Instance total_ReplyContainmentSchemaV3 : SerializeTotal ReplyContainmentSchemaV3.
Proof. done. Qed.
#[export] Instance nonnull_ReplyContainmentSchemaV3 : SerializeNonNull ReplyContainmentSchemaV3.
Proof. done. Qed.

#[export] Program Instance inj_ReplyContainmentOperationV3 : SerializeInj ReplyContainmentOperationV3 := {| ser_ok _ := True |}.
Next Obligation. by intros [] [] _ _ [=]. Qed.
#[export] Instance total_ReplyContainmentOperationV3 : SerializeTotal ReplyContainmentOperationV3.
Proof. done. Qed.
#[export] Instance nonnull_ReplyContainmentOperationV3 : SerializeNonNull ReplyContainmentOperationV3.
Proof. done. Qed.

#[export] Program Instance inj_WorkspaceD1ReplyContainmentContractV3 : SerializeInj WorkspaceD1ReplyContainmentContractV3 := {| ser_ok _ := True |}.
Next Obligation. struct_inj. Qed.
#[export] Instance total_WorkspaceD1ReplyContainmentContractV3 : SerializeTotal WorkspaceD1ReplyContainmentContractV3.
Proof. done. Qed.
#[export] Instance nonnull_WorkspaceD1ReplyContainmentContractV3 : SerializeNonNull WorkspaceD1ReplyContainmentContractV3.
Proof. done. Qed.

#[export] Program Instance inj_WorkspaceD1ReplyAdmissionContractV1 : SerializeInj WorkspaceD1ReplyAdmissionContractV1 := {| ser_ok _ := True |}.
Next Obligation. struct_inj. Qed.
#[export] Instance total_WorkspaceD1ReplyAdmissionContractV1 : SerializeTotal WorkspaceD1ReplyAdmissionContractV1.
Proof. done. Qed.
#[export] Instance nonnull_WorkspaceD1ReplyAdmissionContractV1 : SerializeNonNull WorkspaceD1ReplyAdmissionContractV1.
Proof. done. Qed.

#[export] Program Instance inj_WorkspaceD1ReplyLifecycleContract :
  SerializeInj WorkspaceD1ReplyLifecycleContract := {| ser_ok _ := True |}.
Next Obligation.
  assert (Hadm : forall c, vget "contract" (to_value (A := WorkspaceD1ReplyAdmissionContractV1) c)
    = None).
  { intros c. apply struct_value_get_notin. cbn. intuition discriminate. }
  assert (Hcon : forall c, vget "contract" (to_value (A := WorkspaceD1ReplyContainmentContractV3) c)
    <> None).
  { intros c. unfold to_value, ser_WorkspaceD1ReplyContainmentContractV3.
    erewrite struct_value_get;
      [|apply nodupb_NoDup; vm_compute; reflexivity|by left]. discriminate. }
  intros [c|c] [d|d] _ _ H;
    cbv [to_value ser_WorkspaceD1ReplyLifecycleContract] in H.
  - f_equal. by apply ser_inj.
  - exfalso. apply (Hcon c). unfold to_value. rewrite H. apply Hadm.
  - exfalso. apply (Hcon d). unfold to_value. rewrite <- H. apply Hadm.
  - f_equal. by apply ser_inj.
Qed.
#[export] Instance total_WorkspaceD1ReplyLifecycleContract :
  SerializeTotal WorkspaceD1ReplyLifecycleContract.
Proof. done. Qed.
#[export] Instance nonnull_WorkspaceD1ReplyLifecycleContract :
  SerializeNonNull WorkspaceD1ReplyLifecycleContract.
Proof. by intros [] ?. Qed.

#[export] Program Instance inj_WorkspaceD1EvidenceContractV1 : SerializeInj WorkspaceD1EvidenceContractV1 := {| ser_ok _ := True |}.
Next Obligation. struct_inj. Qed.
#[export] Instance total_WorkspaceD1EvidenceContractV1 : SerializeTotal WorkspaceD1EvidenceContractV1.
Proof. done. Qed.
#[export] Instance nonnull_WorkspaceD1EvidenceContractV1 : SerializeNonNull WorkspaceD1EvidenceContractV1.
Proof. done. Qed.

#[export] Program Instance inj_D1ReadSourceV1 : SerializeInj D1ReadSourceV1 := {| ser_ok _ := True |}.
Next Obligation. struct_inj. Qed.
#[export] Instance total_D1ReadSourceV1 : SerializeTotal D1ReadSourceV1.
Proof. done. Qed.
#[export] Instance nonnull_D1ReadSourceV1 : SerializeNonNull D1ReadSourceV1.
Proof. done. Qed.

#[export] Program Instance inj_D1ReadOperationV1 : SerializeInj D1ReadOperationV1 := {| ser_ok _ := True |}.
Next Obligation. struct_inj. Qed.
#[export] Instance total_D1ReadOperationV1 : SerializeTotal D1ReadOperationV1.
Proof. done. Qed.
#[export] Instance nonnull_D1ReadOperationV1 : SerializeNonNull D1ReadOperationV1.
Proof. done. Qed.

#[export] Program Instance inj_D1ReadTableV1 : SerializeInj D1ReadTableV1 := {| ser_ok _ := True |}.
Next Obligation. struct_inj. Qed.
#[export] Instance total_D1ReadTableV1 : SerializeTotal D1ReadTableV1.
Proof. done. Qed.
#[export] Instance nonnull_D1ReadTableV1 : SerializeNonNull D1ReadTableV1.
Proof. done. Qed.

#[export] Program Instance inj_D1ReadLimitsV1 : SerializeInj D1ReadLimitsV1 := {| ser_ok _ := True |}.
Next Obligation. struct_inj. Qed.
#[export] Instance total_D1ReadLimitsV1 : SerializeTotal D1ReadLimitsV1.
Proof. done. Qed.
#[export] Instance nonnull_D1ReadLimitsV1 : SerializeNonNull D1ReadLimitsV1.
Proof. done. Qed.

#[export] Program Instance inj_D1ReadDependencyV1 : SerializeInj D1ReadDependencyV1 := {|
  ser_ok c :=
    ser_ok (rd_equals c) /\ True |}.
Next Obligation. struct_inj. Qed.
#[export] Instance nonnull_D1ReadDependencyV1 : SerializeNonNull D1ReadDependencyV1.
Proof. done. Qed.

#[export] Program Instance inj_D1ReadValueKindV1 : SerializeInj D1ReadValueKindV1 := {| ser_ok _ := True |}.
Next Obligation. by intros [] [] _ _ [=]. Qed.
#[export] Instance total_D1ReadValueKindV1 : SerializeTotal D1ReadValueKindV1.
Proof. done. Qed.
#[export] Instance nonnull_D1ReadValueKindV1 : SerializeNonNull D1ReadValueKindV1.
Proof. done. Qed.

#[export] Program Instance inj_D1ReadParameterV1 : SerializeInj D1ReadParameterV1 := {| ser_ok _ := True |}.
Next Obligation. struct_inj. Qed.
#[export] Instance total_D1ReadParameterV1 : SerializeTotal D1ReadParameterV1.
Proof. done. Qed.
#[export] Instance nonnull_D1ReadParameterV1 : SerializeNonNull D1ReadParameterV1.
Proof. done. Qed.

#[export] Program Instance inj_D1ReadColumnV1 : SerializeInj D1ReadColumnV1 := {| ser_ok _ := True |}.
Next Obligation. struct_inj. Qed.
#[export] Instance total_D1ReadColumnV1 : SerializeTotal D1ReadColumnV1.
Proof. done. Qed.
#[export] Instance nonnull_D1ReadColumnV1 : SerializeNonNull D1ReadColumnV1.
Proof. done. Qed.

#[export] Program Instance inj_D1ReadOutputV1 : SerializeInj D1ReadOutputV1 := {| ser_ok _ := True |}.
Next Obligation. struct_inj. Qed.
#[export] Instance total_D1ReadOutputV1 : SerializeTotal D1ReadOutputV1.
Proof. done. Qed.
#[export] Instance nonnull_D1ReadOutputV1 : SerializeNonNull D1ReadOutputV1.
Proof. done. Qed.

#[export] Program Instance inj_D1ReadWitnessV1 : SerializeInj D1ReadWitnessV1 := {| ser_ok _ := True |}.
Next Obligation. struct_inj. Qed.
#[export] Instance total_D1ReadWitnessV1 : SerializeTotal D1ReadWitnessV1.
Proof. done. Qed.
#[export] Instance nonnull_D1ReadWitnessV1 : SerializeNonNull D1ReadWitnessV1.
Proof. done. Qed.

#[export] Program Instance inj_D1ReadQueryV1 : SerializeInj D1ReadQueryV1 := {|
  ser_ok c :=
    ser_ok (rq_requires c) /\ True |}.
Next Obligation. struct_inj. Qed.
#[export] Instance nonnull_D1ReadQueryV1 : SerializeNonNull D1ReadQueryV1.
Proof. done. Qed.

#[export] Program Instance inj_D1PrivateOutputV1 : SerializeInj D1PrivateOutputV1 := {| ser_ok _ := True |}.
Next Obligation. struct_inj. Qed.
#[export] Instance total_D1PrivateOutputV1 : SerializeTotal D1PrivateOutputV1.
Proof. done. Qed.
#[export] Instance nonnull_D1PrivateOutputV1 : SerializeNonNull D1PrivateOutputV1.
Proof. done. Qed.

#[export] Program Instance inj_D1ReadInventoryV1 : SerializeInj D1ReadInventoryV1 := {|
  ser_ok c :=
    ser_ok (ri_queries c) /\ True |}.
Next Obligation. struct_inj. Qed.
#[export] Instance nonnull_D1ReadInventoryV1 : SerializeNonNull D1ReadInventoryV1.
Proof. done. Qed.

#[export] Program Instance inj_D1ReadSourceSelectionV1 : SerializeInj D1ReadSourceSelectionV1 := {| ser_ok _ := True |}.
Next Obligation. struct_inj. Qed.
#[export] Instance total_D1ReadSourceSelectionV1 : SerializeTotal D1ReadSourceSelectionV1.
Proof. done. Qed.
#[export] Instance nonnull_D1ReadSourceSelectionV1 : SerializeNonNull D1ReadSourceSelectionV1.
Proof. done. Qed.

#[export] Program Instance inj_D1ReadSourceBindingV1 : SerializeInj D1ReadSourceBindingV1 := {| ser_ok _ := True |}.
Next Obligation. struct_inj. Qed.
#[export] Instance total_D1ReadSourceBindingV1 : SerializeTotal D1ReadSourceBindingV1.
Proof. done. Qed.
#[export] Instance nonnull_D1ReadSourceBindingV1 : SerializeNonNull D1ReadSourceBindingV1.
Proof. done. Qed.

#[export] Program Instance inj_WorkspaceD1ReadInventoryContractV1 : SerializeInj WorkspaceD1ReadInventoryContractV1 := {|
  ser_ok c :=
    ser_ok (wri_inv_inventory c) /\ True |}.
Next Obligation. struct_inj. Qed.
#[export] Instance nonnull_WorkspaceD1ReadInventoryContractV1 : SerializeNonNull WorkspaceD1ReadInventoryContractV1.
Proof. done. Qed.
