(* ===== verification/Capability.v ===== *)
(** [CapabilityV1]: the hash-bound contract of one Cloudflare operation, with
    its serialisation and its injectivity. *)

From Stdlib Require Import String ZArith Lia List Bool.
From Stdlib Require Import Floats.SpecFloat.
From stdpp Require Import base option list strings.
From S2P Require Import Prelude Strings Btree Json CatalogTypes WorkspaceTypes.

Open Scope cf_scope.

(** crates/cfctl-core/src/lib.rs, lines 1817-1916: [CapabilityV1]. *)
Record CapabilityV1 : Type := mkCapabilityV1 {
  cap_schema_version : Z;
  cap_id : string;
  cap_title : string;
  cap_description : option string;
  cap_authority_scope : option CapabilityAuthorityScopeV1;
  cap_product : string;
  cap_source : string;
  cap_method : string;
  cap_path : string;
  cap_account_scope : string;
  cap_selectors : list SelectorV1;
  cap_aliases : list string;
  cap_permissions : list string;
  cap_mutating : bool;
  cap_execution_supported : bool;
  cap_risk : RiskClass;
  cap_effect : EffectClass;
  cap_maturity : Maturity;
  cap_entitlement : EntitlementV1;
  cap_cost : CostV1;
  cap_verification : VerificationSpecV1;
  cap_rollback : RollbackSpecV1;
  cap_created_resource : option CreatedResourceContractV1;
  cap_created_collection_resource : option CreatedCollectionResourceContractV1;
  cap_created_nested_resource : option CreatedNestedResourceContractV1;
  cap_deleted_resource : option DeletedResourceContractV1;
  cap_deleted_nested_resource : option DeletedNestedResourceContractV1;
  cap_updated_resource : option UpdatedResourceContractV1;
  cap_same_path_read : option SamePathReadContractV1;
  cap_async_collection_mutation : option AsyncCollectionMutationContractV1;
  cap_adapter_status : AdapterStatus;
  cap_blocked_reason : option string;
  cap_request_schema : option Value;
  cap_response_contract : option ResponseContractV1;
  cap_analytics_query : option AnalyticsQueryContractV1;
  cap_d1_schema_introspection : option D1SchemaIntrospectionContractV1;
  cap_mln_0142_post_import_schema : option Mln0142PostImportSchemaContractV1;
  cap_mln_0143_data_invariants : option Mln0143DataInvariantsContractV1;
  cap_d1_full_export : option D1FullExportContractV1;
  cap_d1_restore_exact_bookmark : option D1RestoreExactBookmarkContractV1;
  cap_workspace_d1_migration : option WorkspaceD1MigrationContractV1;
  cap_workspace_d1_policy_projection : option WorkspaceD1PolicyProjectionContractV1;
  cap_workspace_d1_reply_admission : option WorkspaceD1ReplyLifecycleContract;
  cap_workspace_reply_subdomain_ingress : option WorkspaceReplySubdomainIngressContractV1;
  cap_workspace_d1_evidence : option WorkspaceD1EvidenceContractV1;
  cap_workspace_d1_read_inventory : option WorkspaceD1ReadInventoryContractV1;
  cap_r2_private_file_upload : option R2PrivateFileUploadContractV1;
  cap_r2_private_object_digest : option R2PrivateObjectDigestContractV1;
  cap_email_sending_dns_repair : option EmailSendingDnsRepairContractV1;
  cap_email_routing_subdomain_dns : option EmailRoutingSubdomainDnsContractV1;
  cap_d1_approved_mln_import : option D1ApprovedMlnImportContractV1;
  cap_d1_approved_mln_import_poll_resume : option D1ApprovedMlnImportPollResumeContractV1;
  cap_r2_log_retrieval : option R2LogRetrievalContractV1;
  cap_graphql : option GraphqlAnalyticsContractV1;
  cap_workflow : option WorkflowContractV1;
  cap_security_action : option SecurityActionContractV1;
  cap_event_batch : option EventBatchContractV1;
}.
#[export] Instance ser_CapabilityV1 : Serialize CapabilityV1 := fun c => struct_value [
  field "schema_version" (cap_schema_version c);
  field "id" (cap_id c);
  field "title" (cap_title c);
  field "description" (cap_description c);
  field_some "authority_scope" (cap_authority_scope c);
  field "product" (cap_product c);
  field "source" (cap_source c);
  field "method" (cap_method c);
  field "path" (cap_path c);
  field "account_scope" (cap_account_scope c);
  field "selectors" (cap_selectors c);
  field_nonempty "aliases" (cap_aliases c);
  field "permissions" (cap_permissions c);
  field "mutating" (cap_mutating c);
  field_unless "execution_supported" true (cap_execution_supported c);
  field "risk" (cap_risk c);
  field "effect" (cap_effect c);
  field "maturity" (cap_maturity c);
  field "entitlement" (cap_entitlement c);
  field "cost" (cap_cost c);
  field "verification" (cap_verification c);
  field "rollback" (cap_rollback c);
  field "created_resource" (cap_created_resource c);
  field_some "created_collection_resource" (cap_created_collection_resource c);
  field_some "created_nested_resource" (cap_created_nested_resource c);
  field_some "deleted_resource" (cap_deleted_resource c);
  field_some "deleted_nested_resource" (cap_deleted_nested_resource c);
  field_some "updated_resource" (cap_updated_resource c);
  field_some "same_path_read" (cap_same_path_read c);
  field_some "async_collection_mutation" (cap_async_collection_mutation c);
  field "adapter_status" (cap_adapter_status c);
  field "blocked_reason" (cap_blocked_reason c);
  field "request_schema" (cap_request_schema c);
  field_some "response_contract" (cap_response_contract c);
  field_some "analytics_query" (cap_analytics_query c);
  field_some "d1_schema_introspection" (cap_d1_schema_introspection c);
  field_some "mln_0142_post_import_schema" (cap_mln_0142_post_import_schema c);
  field_some "mln_0143_data_invariants" (cap_mln_0143_data_invariants c);
  field_some "d1_full_export" (cap_d1_full_export c);
  field_some "d1_restore_exact_bookmark" (cap_d1_restore_exact_bookmark c);
  field_some "workspace_d1_migration" (cap_workspace_d1_migration c);
  field_some "workspace_d1_policy_projection" (cap_workspace_d1_policy_projection c);
  field_some "workspace_d1_reply_admission" (cap_workspace_d1_reply_admission c);
  field_some "workspace_reply_subdomain_ingress" (cap_workspace_reply_subdomain_ingress c);
  field_some "workspace_d1_evidence" (cap_workspace_d1_evidence c);
  field_some "workspace_d1_read_inventory" (cap_workspace_d1_read_inventory c);
  field_some "r2_private_file_upload" (cap_r2_private_file_upload c);
  field_some "r2_private_object_digest" (cap_r2_private_object_digest c);
  field_some "email_sending_dns_repair" (cap_email_sending_dns_repair c);
  field_some "email_routing_subdomain_dns" (cap_email_routing_subdomain_dns c);
  field_some "d1_approved_mln_import" (cap_d1_approved_mln_import c);
  field_some "d1_approved_mln_import_poll_resume" (cap_d1_approved_mln_import_poll_resume c);
  field_some "r2_log_retrieval" (cap_r2_log_retrieval c);
  field_some "graphql" (cap_graphql c);
  field_some "workflow" (cap_workflow c);
  field_some "security_action" (cap_security_action c);
  field_some "event_batch" (cap_event_batch c)].

(** ** Serialisation is injective *)

#[export] Program Instance inj_CapabilityV1 : SerializeInj CapabilityV1 := {|
  ser_ok c :=
    ser_ok (cap_entitlement c) /\
    ser_ok (cap_cost c) /\
    ser_ok (cap_request_schema c) /\
    some_ok (cap_workspace_d1_read_inventory c) /\
    some_ok (cap_graphql c) /\
    some_ok (cap_event_batch c) /\ True |}.
Next Obligation. struct_inj. Qed.
#[export] Instance nonnull_CapabilityV1 : SerializeNonNull CapabilityV1.
Proof. done. Qed.
