(* ===== verification/Core.v ===== *)
(** Contracts every crate shares (crates/cfctl-core/src/lib.rs): the error
    type, content hashes, money, and the syntactic identity checks. *)

From Stdlib Require Import String Ascii ZArith Lia List Bool.
From Stdlib Require Import Floats.SpecFloat.
From stdpp Require Import base option list strings.
From S2P Require Import Prelude Strings Btree Json.

Open Scope cf_scope.

(** ** Plan status and errors *)

Inductive PlanStatus : Type :=
| Draft
| Approved
| Running
| Consumed
| Verified
| Failed
| RectificationRequired
| Rectified
| Expired
| Cancelled.
#[export] Instance PlanStatus_eq_dec : EqDecision PlanStatus.
Proof. solve_decision. Defined.
#[export] Instance ser_PlanStatus : Serialize PlanStatus := fun s =>
  VString (match s with
  | Draft => "draft"
  | Approved => "approved"
  | Running => "running"
  | Consumed => "consumed"
  | Verified => "verified"
  | Failed => "failed"
  | RectificationRequired => "rectification_required"
  | Rectified => "rectified"
  | Expired => "expired"
  | Cancelled => "cancelled"
  end)%string.

Inductive CoreError : Type :=
| Serialization (error : string)
| InvalidPlanState (operation_id : string) (actual : PlanStatus) (expected : string)
| PlanExpired (operation_id : string) (expires_at : DateTime)
| ExplicitApprovalRequired
| CostCeilingRequired (operation_id : string)
| InvalidCostCeiling (operation_id reason : string)
| CostCeilingTooLow (operation_id required_currency : string) (required_amount : f64)
| PlanDrifted (operation_id : string)
| StandingAuthorityDenied (authority_id reason : string)
| InvalidAdmissionPolicyState (bundle_id actual expected : string)
| AdmissionPolicyBroadened (bundle_id : string)
| InvalidPlanV2 (reason : string)
| InvalidDeploymentPlanSet (reason : string)
| InvalidEventEnvelope (reason : string)
| InvalidOperationalProofBinding (reason : string)
| InvalidStandingAuthorityState (authority_id actual expected : string)
| StandingAuthorityExpired (authority_id : string) (expires_at : DateTime)
| InvalidTransactionJournal (operation_id reason : string)
| GraphqlSchemaFingerprintDrift (operation_name : string).

(** [crate::Result<T>] *)
Abbreviation Result := (result CoreError).

(** The readings of [Utc::now()] a call makes, in program order. *)
Definition Clock : Type := nat -> DateTime.

(** ** Content hashes *)

Section Hash.
Context `{Runtime}.

Definition hash_value (value : Value) : Result string :=
  let? encoded := map_err Serialization (to_vec value) in
  Ok ("sha256:" ++ sha256_hex encoded)%string.

Definition canonical_hash_value (value : Value) : Result string :=
  hash_value (canonical_json_value value).

(** [serde_json::to_value] cannot fail on the types of this crate. *)
Definition json_value {A} `{Serialize A} (value : A) : Result Value :=
  Ok (to_value value).

(** Two values with one content hash: either they are the same value, or
    they exhibit a collision of the hash over the JSON encoding. *)
Definition hash_collision (v w : Value) : Prop :=
  v <> w /\ exists h, hash_value v = Ok h /\ hash_value w = Ok h.

(** Some two values collide. *)
Definition collision : Prop := exists v w, hash_collision v w.

Lemma hash_value_binds v w h :
  hash_value v = Ok h -> hash_value w = Ok h -> v = w \/ hash_collision v w.
Proof.
  intros Hv Hw. destruct (decide (v = w)); [by left|right]. split; [done|by exists h].
Qed.

Lemma hash_value_same v w h :
  hash_value v = Ok h -> hash_value w = Ok h -> v = w \/ collision.
Proof.
  intros Hv Hw. destruct (hash_value_binds v w h Hv Hw); [by left|right; by exists v, w].
Qed.
End Hash.

(** [serde_json::to_vec] of a [Value] writes into memory and its object keys
    are strings: the documented failures of the encoder cannot occur. *)
Class RuntimeTotal `{Runtime} : Prop :=
  to_vec_total : forall v, exists bytes, to_vec v = Ok bytes.
(** RFC 3339 with nanoseconds determines the instant. *)
Class RuntimeInjective `{Runtime} : Prop :=
  rfc3339_inj : forall a b, rfc3339 a = rfc3339 b -> a = b.

Lemma hash_value_total `{RuntimeTotal} v : exists h, hash_value v = Ok h.
Proof. destruct (to_vec_total v) as [s Hs]. unfold hash_value. rewrite Hs. by eexists. Qed.

#[export] Program Instance inj_datetime `{RuntimeInjective} : SerializeInj DateTime :=
  {| ser_ok _ := True |}.
Next Obligation. intros ?? [a] [c] _ _ [= E]. by apply rfc3339_inj. Qed.
#[export] Instance total_datetime `{RuntimeInjective} : SerializeTotal DateTime.
Proof. done. Qed.

#[export] Program Instance inj_PlanStatus : SerializeInj PlanStatus := {| ser_ok _ := True |}.
Next Obligation. by intros [] []. Qed.
#[export] Instance total_PlanStatus : SerializeTotal PlanStatus.
Proof. done. Qed.

(** ** Money *)

Record MoneyV1 : Type := mkMoneyV1 {
  money_currency : string;
  money_amount : f64;
}.
#[export] Instance ser_MoneyV1 : Serialize MoneyV1 := fun c => struct_value [
  field "currency" (money_currency c);
  field "amount" (money_amount c)].

Definition f64_zero : f64 := S754_zero false.
Definition f64_lt (a b : f64) : bool := SFltb a b.
Definition f64_le (a b : f64) : bool := SFleb a b.

Definition valid_currency_code (currency : string) : bool :=
  (String.length currency =? 3) && bytes_all is_ascii_alphabetic currency.

Definition valid_non_negative_amount (amount : f64) : bool :=
  f64_is_finite amount && f64_le f64_zero amount.

Definition validate_money_fields (currency : string) (amount : f64) : result string unit :=
  if negb (valid_currency_code currency)
  then Err "currency must be a three-letter ASCII code"%string
  else if negb (f64_is_finite amount)
  then Err "amount must be finite"%string
  else if f64_lt amount f64_zero
  then Err "amount must not be negative"%string
  else Ok tt.

Definition validate_money (money : MoneyV1) : result string unit :=
  validate_money_fields (money_currency money) (money_amount money).

(** [f64]s compared by [==]; the derived [PartialEq] of money goes through it. *)
Definition f64_eqb (a b : f64) : bool := SFeqb a b.

Record ApprovalV1 : Type := mkApprovalV1 {
  approval_approved_at : DateTime;
  approval_approved_content_hash : string;
  approval_max_cost : option MoneyV1;
}.

(** ** Syntactic identities *)

Definition lower_hex (s : string) : bool :=
  bytes_all (fun c => is_ascii_hexdigit c && negb (is_ascii_uppercase c)) s.

Definition valid_sha256_identity (value : string) : bool :=
  is_some_and (strip_prefix "sha256:" value) (fun digest =>
    (String.length digest =? 64) && lower_hex digest).

Definition valid_policy_identity (value : string) : bool :=
  existsb (fun prefix => is_some_and (strip_prefix prefix value) valid_sha256_identity)
    ["bundle:"; "compiled:"]%string.

Definition valid_git_object_id (value : string) : bool :=
  ((String.length value =? 40) || (String.length value =? 64)) && lower_hex value.

Definition sorted_unique_nonempty_values (values : list string) : bool :=
  forallb (fun value => negb (trim_is_empty value)) values
  && windows2_all str_ltb values.

(** ** Facts *)

Lemma validate_money_fields_ok currency amount :
  validate_money_fields currency amount = Ok tt <->
  valid_currency_code currency = true /\ f64_is_finite amount = true /\
  f64_lt amount f64_zero = false.
Proof.
  unfold validate_money_fields.
  destruct (valid_currency_code currency), (f64_is_finite amount),
    (f64_lt amount f64_zero); cbn; intuition congruence.
Qed.

(** A finite amount that is not negative is what the catalog check asks for. *)
Lemma finite_not_negative amount :
  f64_is_finite amount = true ->
  f64_lt amount f64_zero = negb (valid_non_negative_amount amount).
Proof. by destruct amount as [[]|[]| |[]]. Qed.

Lemma windows2_sorted values x y i j :
  windows2_all str_ltb values = true -> i < j ->
  values !! i = Some x -> values !! j = Some y -> str_ltb x y = true.
Proof.
  revert x y i j. induction values as [|a values IH]; intros x y i j Hw Hij Hx Hy; [done|].
  assert (Hstep : forall c t, values = c :: t ->
    str_ltb a c = true /\ windows2_all str_ltb values = true).
  { intros c t ->. cbn in Hw. by apply andb_true_iff in Hw. }
  destruct values as [|c values]; [destruct j; [lia|done]|].
  destruct (Hstep _ _ eq_refl) as [Hac Hw'].
  destruct j as [|j]; [lia|]. destruct i as [|i]; cbn in Hx, Hy.
  - injection Hx as <-. destruct j as [|j]; [by injection Hy as <-|].
    eapply str_ltb_trans; [done|]. by eapply (IH c y 0 (S j)); [done|lia|done|done].
  - eapply (IH x y i j); [done|lia|done|done].
Qed.

Lemma sorted_unique_NoDup values :
  sorted_unique_nonempty_values values = true -> NoDup values.
Proof.
  unfold sorted_unique_nonempty_values. intros H. split_andb.
  apply NoDup_alt. intros i j x Hi Hj.
  destruct (lt_eq_lt_dec i j) as [[Hlt|?]|Hlt]; [|done|]; exfalso.
  - pose proof (windows2_sorted _ _ _ _ _ H0 Hlt Hi Hj) as Hc. by rewrite str_ltb_irrefl in Hc.
  - pose proof (windows2_sorted _ _ _ _ _ H0 Hlt Hj Hi) as Hc. by rewrite str_ltb_irrefl in Hc.
Qed.
