(* ===== verification/CapabilityOps.v ===== *)
(** Construction and classification of capabilities: [CapabilityV1::new], the
    defaults it fills in, the attestation partition of effects and risks, and
    the reply-contract accessors (crates/cfctl-core/src/lib.rs). *)

From Stdlib Require Import String Ascii ZArith Lia List Bool.
From Stdlib Require Import Floats.SpecFloat.
From stdpp Require Import base option list strings.
From S2P Require Import Prelude Strings Btree Json CatalogTypes WorkspaceTypes Capability Core.

Open Scope cf_scope.
Open Scope string_scope.
Open Scope cf_scope.

Definition effect_requires_attestation (e : EffectClass) : bool :=
  match e with
  | EffectClass_ReadOnly | EffectClass_DataWrite | EffectClass_ReversibleWrite => false
  | EffectClass_Destructive
  | EffectClass_ExternalCommunication
  | EffectClass_IdentityOrOwnership
  | EffectClass_Spend
  | EffectClass_Irreversible
  | EffectClass_Unknown => true
  end.

Definition risk_requires_attestation (r : RiskClass) : bool :=
  match r with
  | RiskClass_Read | RiskClass_Recovery | RiskClass_ScopedWrite | RiskClass_CrossConfig => false
  | RiskClass_Destructive
  | RiskClass_SecretSensitive
  | RiskClass_ExternalCommunication
  | RiskClass_IdentityOrOwnership
  | RiskClass_Spend
  | RiskClass_Irreversible
  | RiskClass_Unknown => true
  end.

Definition requires_attestation_to_execute (c : CapabilityV1) : bool :=
  effect_requires_attestation (cap_effect c) || risk_requires_attestation (cap_risk c).

Definition cost_default : CostV1 :=
  {| cost_incremental := false;
     cost_currency := None;
     cost_maximum := Some f64_zero;
     cost_basis := Some "no incremental cost metadata declared";
     cost_known := true;
     cost_billing_model := BillingModel_None;
     cost_exposure := CostExposure_None;
     cost_references := [] |}.

Definition entitlement_default : EntitlementV1 :=
  {| ent_available := None;
     ent_plans := [];
     ent_blocker := None;
     ent_source := None;
     ent_requires_live_resolution := false;
     ent_observed_plan := None;
     ent_probe := None |}.

Definition infer_scope (path : string) : string :=
  if str_contains path "/zones/{" then "zone"
  else if str_contains path "/accounts/{" then "account"
  else if str_contains path "/user" then "user"
  else "global".

Definition is_read_method (method : string) : bool :=
  contains ["GET"; "HEAD"; "OPTIONS"] method.

Definition capability_new (id title method path : string) : CapabilityV1 :=
  let normalized_method := to_ascii_uppercase method in
  let is_read := is_read_method normalized_method in
  let cost :=
    if is_read then cost_default
    else
      {| cost_incremental := false;
         cost_currency := None;
         cost_maximum := None;
         cost_basis := Some "official API schema does not declare operation pricing";
         cost_known := false;
         cost_billing_model := BillingModel_Unknown;
         cost_exposure := CostExposure_None;
         cost_references := [] |} in
  {| cap_schema_version := 1;
     cap_id := id;
     cap_title := title;
     cap_description := None;
     cap_authority_scope := Some CapabilityAuthorityScope_ProviderGeneric;
     cap_product := "Cloudflare API";
     cap_source := "cloudflare-api-schemas";
     cap_method := normalized_method;
     cap_path := path;
     cap_account_scope := infer_scope path;
     cap_selectors := [];
     cap_aliases := [];
     cap_permissions := [];
     cap_mutating := negb is_read;
     cap_execution_supported := true;
     cap_risk := if is_read then RiskClass_Read else RiskClass_Unknown;
     cap_effect := if is_read then EffectClass_ReadOnly else EffectClass_Unknown;
     cap_maturity := Maturity_Unknown;
     cap_entitlement := entitlement_default;
     cap_cost := cost;
     cap_verification :=
       {| verif_required := negb is_read;
          verif_strategy := if is_read then "not_applicable" else "required" |};
     cap_rollback :=
       {| rollback_supported := false;
          rollback_strategy := None;
          rollback_warning :=
            if is_read then None
            else Some "rollback semantics have not been declared" |};
     cap_created_resource := None;
     cap_created_collection_resource := None;
     cap_created_nested_resource := None;
     cap_deleted_resource := None;
     cap_deleted_nested_resource := None;
     cap_updated_resource := None;
     cap_same_path_read := None;
     cap_async_collection_mutation := None;
     cap_adapter_status := AdapterStatus_DynamicApi;
     cap_blocked_reason := None;
     cap_request_schema := None;
     cap_response_contract := None;
     cap_analytics_query := None;
     cap_d1_schema_introspection := None;
     cap_mln_0142_post_import_schema := None;
     cap_mln_0143_data_invariants := None;
     cap_d1_full_export := None;
     cap_d1_restore_exact_bookmark := None;
     cap_workspace_d1_migration := None;
     cap_workspace_d1_policy_projection := None;
     cap_workspace_d1_reply_admission := None;
     cap_workspace_reply_subdomain_ingress := None;
     cap_workspace_d1_evidence := None;
     cap_workspace_d1_read_inventory := None;
     cap_r2_private_file_upload := None;
     cap_r2_private_object_digest := None;
     cap_email_sending_dns_repair := None;
     cap_email_routing_subdomain_dns := None;
     cap_d1_approved_mln_import := None;
     cap_d1_approved_mln_import_poll_resume := None;
     cap_r2_log_retrieval := None;
     cap_graphql := None;
     cap_workflow := None;
     cap_security_action := None;
     cap_event_batch := None |}.
