(* ===== verification/Samples.v ===== *)
(** Concrete capabilities for the witnesses: a capability as
    [CapabilityV1::new] builds it, with its classification and contracts
    filled in. *)

From Stdlib Require Import String ZArith List Bool.
From stdpp Require Import base option list strings.
From S2P Require Import Prelude Json CatalogTypes WorkspaceTypes Capability Core CapabilityOps.

Open Scope cf_scope.

(** The classification a catalog pass adds to a new capability. *)
Record Classification : Type := mkClassification {
  class_selectors : list SelectorV1;
  class_permissions : list string;
  class_risk : RiskClass;
  class_effect : EffectClass;
  class_cost : CostV1;
  class_verification : VerificationSpecV1;
  class_rollback : RollbackSpecV1;
  class_same_path_read : option SamePathReadContractV1;
  class_request_schema : option Value;
  class_response_contract : option ResponseContractV1;
}.

Definition classification_of (c : CapabilityV1) : Classification := {|
  class_selectors := cap_selectors c;
  class_permissions := cap_permissions c;
  class_risk := cap_risk c;
  class_effect := cap_effect c;
  class_cost := cap_cost c;
  class_verification := cap_verification c;
  class_rollback := cap_rollback c;
  class_same_path_read := cap_same_path_read c;
  class_request_schema := cap_request_schema c;
  class_response_contract := cap_response_contract c
|}.

Definition classify (k : Classification) (c : CapabilityV1) : CapabilityV1 := {|
  cap_schema_version := cap_schema_version c;
  cap_id := cap_id c;
  cap_title := cap_title c;
  cap_description := cap_description c;
  cap_authority_scope := cap_authority_scope c;
  cap_product := cap_product c;
  cap_source := cap_source c;
  cap_method := cap_method c;
  cap_path := cap_path c;
  cap_account_scope := cap_account_scope c;
  cap_selectors := class_selectors k;
  cap_aliases := cap_aliases c;
  cap_permissions := class_permissions k;
  cap_mutating := cap_mutating c;
  cap_execution_supported := cap_execution_supported c;
  cap_risk := class_risk k;
  cap_effect := class_effect k;
  cap_maturity := cap_maturity c;
  cap_entitlement := cap_entitlement c;
  cap_cost := class_cost k;
  cap_verification := class_verification k;
  cap_rollback := class_rollback k;
  cap_created_resource := cap_created_resource c;
  cap_created_collection_resource := cap_created_collection_resource c;
  cap_created_nested_resource := cap_created_nested_resource c;
  cap_deleted_resource := cap_deleted_resource c;
  cap_deleted_nested_resource := cap_deleted_nested_resource c;
  cap_updated_resource := cap_updated_resource c;
  cap_same_path_read := class_same_path_read k;
  cap_async_collection_mutation := cap_async_collection_mutation c;
  cap_adapter_status := cap_adapter_status c;
  cap_blocked_reason := cap_blocked_reason c;
  cap_request_schema := class_request_schema k;
  cap_response_contract := class_response_contract k;
  cap_analytics_query := cap_analytics_query c;
  cap_d1_schema_introspection := cap_d1_schema_introspection c;
  cap_mln_0142_post_import_schema := cap_mln_0142_post_import_schema c;
  cap_mln_0143_data_invariants := cap_mln_0143_data_invariants c;
  cap_d1_full_export := cap_d1_full_export c;
  cap_d1_restore_exact_bookmark := cap_d1_restore_exact_bookmark c;
  cap_workspace_d1_migration := cap_workspace_d1_migration c;
  cap_workspace_d1_policy_projection := cap_workspace_d1_policy_projection c;
  cap_workspace_d1_reply_admission := cap_workspace_d1_reply_admission c;
  cap_workspace_reply_subdomain_ingress := cap_workspace_reply_subdomain_ingress c;
  cap_workspace_d1_evidence := cap_workspace_d1_evidence c;
  cap_workspace_d1_read_inventory := cap_workspace_d1_read_inventory c;
  cap_r2_private_file_upload := cap_r2_private_file_upload c;
  cap_r2_private_object_digest := cap_r2_private_object_digest c;
  cap_email_sending_dns_repair := cap_email_sending_dns_repair c;
  cap_email_routing_subdomain_dns := cap_email_routing_subdomain_dns c;
  cap_d1_approved_mln_import := cap_d1_approved_mln_import c;
  cap_d1_approved_mln_import_poll_resume := cap_d1_approved_mln_import_poll_resume c;
  cap_r2_log_retrieval := cap_r2_log_retrieval c;
  cap_graphql := cap_graphql c;
  cap_workflow := cap_workflow c;
  cap_security_action := cap_security_action c;
  cap_event_batch := cap_event_batch c
|}.
