(* ===== verification/JsonOps.v ===== *)
(** Operations on [serde_json::Value] beyond the ones of the file Json:
    [json!] objects, indexing with a default, JSON pointers (RFC 6901), and
    comparisons of optional values. They follow serde_json's documentation. *)

From Stdlib Require Import String Ascii ZArith Lia List Bool.
From Stdlib Require Import Floats.SpecFloat.
From stdpp Require Import base option list strings.
From S2P Require Import Prelude Strings Btree Json Core.

Open Scope cf_scope.

(** [json!({...})]: the entries land in a [BTreeMap]. *)
Definition jobj (entries : list (string * Value)) : Value := VObject (bt_collect entries).

(** [Option::and_then] *)
Definition obind {A B} (o : option A) (f : A -> option B) : option B :=
  match o with Some a => f a | None => None end.

(** [value.as_f64()]: the closest binary64 to an integer, a float as it is. *)
Definition number_f64 (n : Number) : f64 :=
  match n with
  | PosInt z | NegInt z => binary_normalize 53 1024 z 0 false
  | Float (FZero s) => S754_zero s
  | Float (FFinite s m e) => S754_finite s m e
  end.
Definition as_f64 (v : Value) : option f64 :=
  match v with VNumber n => Some (number_f64 n) | _ => None end.

Definition is_nil {A} (l : list A) : bool := match l with [] => true | _ => false end.

Lemma is_nil_true {A} (l : list A) : is_nil l = true <-> l = [].
Proof. by destruct l. Qed.

Lemma is_nil_false {A} (l : list A) : is_nil l = false <-> l <> [].
Proof. by destruct l. Qed.

Definition is_null (v : Value) : bool := match v with VNull => true | _ => false end.

(** [==] on [Option<Value>], through [Value]'s own equality. *)
Definition option_eqb {A} (f : A -> A -> bool) (a b : option A) : bool :=
  match a, b with
  | Some x, Some y => f x y
  | None, None => true
  | _, _ => false
  end.

(** [value["key"]] on a shared value: [Null] when there is no such member. *)
Definition vindex (v : Value) (k : string) : Value := default VNull (vget k v).

Definition bytes_any (p : ascii -> bool) (s : string) : bool :=
  negb (bytes_all (fun a => negb (p a)) s).

(** ** Pointers *)

Fixpoint split_on (c : ascii) (s : string) : list string :=
  match s with
  | EmptyString => [EmptyString]
  | String a s' =>
      match split_on c s' with
      | [] => [String a EmptyString]
      | t :: l => if a =? c then EmptyString :: t :: l else String a t :: l
      end
  end.

(** [s.replace("xy", "r")] for a two-character pattern. *)
Fixpoint replace2 (x y r : ascii) (s : string) : string :=
  match s with
  | String a ((String b s'') as s') =>
      if (a =? x) && (b =? y) then String r (replace2 x y r s'')
      else String a (replace2 x y r s')
  | _ => s
  end.

Definition unescape (token : string) : string :=
  replace2 "~" "0" "~" (replace2 "~" "1" "/" token).

Fixpoint digits_value (acc : Z) (s : string) : Z :=
  match s with
  | EmptyString => acc
  | String a s' => digits_value (acc * 10 + Z.of_N (byte a - 48)) s'
  end.

(** [str::parse] of an unsigned integer of [bits] bits; a leading [+] is
    accepted by Rust and excluded by the callers. *)
Definition parse_unsigned (bits : Z) (s : string) : option Z :=
  if is_empty s || negb (bytes_all is_ascii_digit s) then None
  else let n := digits_value 0 s in if (n <? 2 ^ bits)%Z then Some n else None.

(** serde_json's array index: no sign, no leading zero. *)
Definition parse_index (token : string) : option Z :=
  if starts_with token "0" && negb (String.length token =? 1) then None
  else parse_unsigned 64 token.

Definition pointer_step (target : Value) (token : string) : option Value :=
  match target with
  | VObject m => vget token target
  | VArray l => obind (parse_index token) (fun i => l !! Z.to_nat i)
  | _ => None
  end.

Definition vpointer (pointer : string) (v : Value) : option Value :=
  if is_empty pointer then Some v
  else if negb (starts_with pointer "/") then None
  else fold_left (fun target token => obind target (fun t => pointer_step t (unescape token)))
         (tail (split_on "/" pointer)) (Some v).

Example pointer_into_array :
  vpointer "/required/0" (jobj [("required", VArray [VString "name"])]%string)
    = Some (VString "name").
Proof. reflexivity. Qed.

(** ** Binary64 literals and arithmetic *)

Definition f64_sub (a b : f64) : f64 := SFsub 53 1024 a b.
Definition f64_abs (a : f64) : f64 := SFabs a.
(** [0.40_f64], the closest binary64 value *)
Definition f64_0_40 : f64 := S754_finite false 7205759403792794 (-54).
(** [f64::EPSILON], 2^-52 *)
Definition f64_EPSILON : f64 := S754_finite false 4503599627370496 (-104).
