(* ===== verification/JsonEq.v ===== *)
(** [==] on JSON values as an equivalence: values are the same when they differ
    at most in the signs of zeros. Objects are the same member by member, arrays
    element by element, and the accessors respect it. Removing and replacing
    members of sorted objects. *)

From Stdlib Require Import String Ascii ZArith Lia List Bool.
From stdpp Require Import base option list strings.
From S2P Require Import Prelude Strings Btree Json JsonOps.

Open Scope cf_scope.

(** ** The sign of zero *)

Definition unsigned_number (n : Number) : Number :=
  match n with Float (FZero _) => Float (FZero false) | _ => n end.

Fixpoint unsigned (v : Value) : Value :=
  match v with
  | VNumber n => VNumber (unsigned_number n)
  | VArray l => VArray (map unsigned l)
  | VObject m => VObject (map (fun e => (fst e, unsigned (snd e))) m)
  | _ => v
  end.

Lemma Number_eqb_iff n m : Number_eqb n m = true <-> unsigned_number n = unsigned_number m.
Proof.
  destruct n as [|?|[]], m as [|?|[]]; cbn; rewrite ?eqb_true; split; intros H;
    try discriminate H; try done; congruence.
Qed.

Lemma Value_eqb_iff v w : Value_eqb v w = true <-> unsigned v = unsigned w.
Proof.
  revert w; induction v as [|b|n|s|l IH|m IH] using Value_ind'; intros w.
  - destruct w; cbn; (split; [try done|by intros]).
  - destruct w; cbn; try (split; [done|by intros]). rewrite Bool.eqb_true_iff. split; congruence.
  - destruct w; cbn; try (split; [done|by intros]). rewrite Number_eqb_iff. split; congruence.
  - destruct w; cbn; try (split; [done|by intros]). rewrite eqb_true. split; congruence.
  - destruct w as [| | | |k|]; cbn; try (split; [done|by intros]).
    assert (H : forall k, (fix go (l k : list Value) : bool := match l, k with
      | [], [] => true | x :: l', y :: k' => Value_eqb x y && go l' k' | _, _ => false end) l k = true <->
      map unsigned l = map unsigned k); [|rewrite H; split; congruence].
    clear k. induction IH as [|x l Hx _ IHl]; intros [|y k]; cbn; try (split; [done|by intros]).
    rewrite andb_true_iff, Hx, IHl. split; [by intros [-> ->]|by intros [= -> ->]].
  - destruct w as [| | | | |k]; cbn; try (split; [done|by intros]).
    assert (H : forall k, (fix go (l k : list (string * Value)) : bool := match l, k with
      | [], [] => true | (s, x) :: l', (t, y) :: k' => (s =? t) && Value_eqb x y && go l' k'
      | _, _ => false end) m k = true <->
      map (fun e => (fst e, unsigned (snd e))) m = map (fun e => (fst e, unsigned (snd e))) k);
      [|rewrite H; split; congruence].
    clear k. induction IH as [|[s x] l Hx _ IHl]; intros [|[t y] k]; cbn; try (split; [done|by intros]).
    cbn in Hx. rewrite !andb_true_iff, eqb_true, Hx, IHl.
    split; [by intros [[-> ->] ->]|by intros [= -> -> ->]].
Qed.

(** ** Equality as a relation *)

Definition json_same (v w : Value) : Prop := Value_eqb v w = true.
Infix "=j" := json_same (at level 70) : cf_scope.
Definition member_same (a b : option Value) : Prop := option_eqb Value_eqb a b = true.
Infix "=o" := member_same (at level 70) : cf_scope.

Lemma json_same_iff v w : v =j w <-> unsigned v = unsigned w.
Proof. apply Value_eqb_iff. Qed.

Lemma member_same_iff a b : a =o b <-> option_map unsigned a = option_map unsigned b.
Proof.
  unfold member_same. destruct a as [v|], b as [w|]; cbn; try (split; [done|by intros]).
  rewrite Value_eqb_iff. split; congruence.
Qed.

#[export] Instance json_same_equivalence : Equivalence json_same.
Proof.
  split.
  - intros v. by apply json_same_iff.
  - intros v w. rewrite !json_same_iff. congruence.
  - intros u v w. rewrite !json_same_iff. congruence.
Qed.
#[export] Instance member_same_equivalence : Equivalence member_same.
Proof.
  split.
  - intros v. by apply member_same_iff.
  - intros v w. rewrite !member_same_iff. congruence.
  - intros u v w. rewrite !member_same_iff. congruence.
Qed.

Lemma not_same_false v w : negb (Value_eqb v w) = false <-> v =j w.
Proof. unfold json_same. by rewrite negb_false_iff. Qed.

Lemma bt_get_unsigned k m :
  bt_get k (map (fun e => (fst e, unsigned (snd e))) m) = option_map unsigned (bt_get k m).
Proof. induction m as [|[s x] m IH]; [done|]. cbn. by destruct (k =? s). Qed.

#[export] Instance vget_proper k : Proper (json_same ==> member_same) (vget k).
Proof.
  intros v w H. apply json_same_iff in H. apply member_same_iff.
  destruct v, w; cbn in *; try discriminate; try done.
  injection H as H. by rewrite <- !bt_get_unsigned, H.
Qed.

Lemma default_same a b : a =o b -> default VNull a =j default VNull b.
Proof. by destruct a, b. Qed.

#[export] Instance vindex_proper : Proper (json_same ==> eq ==> json_same) vindex.
Proof. intros v w H k ? <-. apply default_same. by rewrite H. Qed.

#[export] Instance as_str_proper : Proper (json_same ==> eq) as_str.
Proof. intros v w H. apply json_same_iff in H. destruct v, w; cbn in *; congruence. Qed.
#[export] Instance is_boolean_proper : Proper (json_same ==> eq) is_boolean.
Proof. intros v w H. apply json_same_iff in H. by destruct v, w; cbn in *. Qed.

Lemma same_string v s : v =j VString s <-> v = VString s.
Proof. rewrite json_same_iff. destruct v; cbn; (split; [try done|try done]). Qed.

Lemma same_array l k : VArray l =j VArray k <-> Forall2 json_same l k.
Proof.
  rewrite json_same_iff. cbn. revert k; induction l as [|x l IH]; intros [|y k]; cbn.
  - by split.
  - split; [done|by inversion 1].
  - split; [done|by inversion 1].
  - specialize (IH k). split.
    + intros [= Hx Hl]. constructor; [by apply json_same_iff|]. apply IH. congruence.
    + intros [Hx Hl]%Forall2_cons. apply json_same_iff in Hx. apply IH in Hl. congruence.
Qed.

Lemma same_as_array v w l : v =j w -> as_array v = Some l -> exists k, as_array w = Some k /\ Forall2 json_same l k.
Proof.
  intros H. destruct v; try done. intros [= ->].
  destruct w; try (apply json_same_iff in H; discriminate H). exists l0. split; [done|]. by apply same_array.
Qed.

(** ** Sorted objects *)

Lemma unsigned_sorted m : bt_sorted (map (fun e => (fst e, unsigned (snd e))) m) = bt_sorted m.
Proof.
  induction m as [|[k x] m IH]; [done|]. cbn. rewrite IH. f_equal.
  clear. induction m as [|[k' x'] m IH]; [done|]. cbn. by rewrite IH.
Qed.

(** Objects are the same when their members are. *)
Lemma same_object m k :
  bt_sorted m = true -> bt_sorted k = true ->
  VObject m =j VObject k <-> forall name, bt_get name m =o bt_get name k.
Proof.
  intros Hm Hk. rewrite json_same_iff. cbn. split.
  - intros [= H] name. apply member_same_iff. by rewrite <- !bt_get_unsigned, H.
  - intros H. f_equal. apply bt_ext; rewrite ?unsigned_sorted; try done.
    intros name. rewrite !bt_get_unsigned. apply member_same_iff, H.
Qed.

Section Remove.
Context {A : Type}.
Implicit Types m : btree A.

Lemma bt_remove_in k m e : In e (bt_remove k m) -> In e m.
Proof.
  induction m as [|[k' v] m IH]; [done|]. cbn. destruct (k =? k'); [by right|].
  cbn. intros [->|H]; [by left|right; auto].
Qed.

Lemma bt_remove_sorted k m : bt_sorted m = true -> bt_sorted (bt_remove k m) = true.
Proof.
  induction m as [|[k' v] m IH]; [done|]. intros [Ha Hs]%bt_sorted_cons. cbn.
  destruct (k =? k'); [done|]. apply bt_sorted_cons. split; [|auto].
  intros k2 v2 H. eapply Ha. by eapply bt_remove_in.
Qed.

Lemma bt_get_remove k k' m :
  bt_sorted m = true -> bt_get k (bt_remove k' m) = if k =? k' then None else bt_get k m.
Proof.
  induction m as [|[k2 v] m IH]; intros Hs; cbn; [by destruct (k =? k')|].
  apply bt_sorted_cons in Hs as [Ha Hs]. destruct (k' =? k2) eqn:E.
  - apply eqb_eq in E as ->. destruct (k =? k2) eqn:E2; [|done].
    apply eqb_eq in E2 as ->. by apply above_get.
  - cbn. rewrite IH by done. destruct (k =? k2) eqn:E2; [|done].
    apply eqb_eq in E2 as ->. destruct (k2 =? k') eqn:E3; [|done].
    apply eqb_eq in E3 as ->. by rewrite eqb_refl in E.
Qed.
End Remove.

Lemma value_wf_object m : value_wf (VObject m) = true -> bt_sorted m = true.
Proof. cbn. by intros [? _]%andb_true_iff. Qed.

Lemma value_wf_member m k v : value_wf (VObject m) = true -> bt_get k m = Some v -> value_wf v = true.
Proof.
  cbn. intros [_ H]%andb_true_iff Hg%bt_get_in. rewrite forallb_forall in H. exact (H _ Hg).
Qed.

Lemma value_wf_items l : value_wf (VArray l) = true -> Forall (fun v => value_wf v = true) l.
Proof. cbn. rewrite forallb_forall. intros H. apply List.Forall_forall. exact H. Qed.

(** Sets of member names: removing every name of a list. *)
Definition bt_without {A} (names : list string) (m : btree A) : btree A :=
  fold_left (fun m k => bt_remove k m) names m.

Lemma bt_without_spec {A} names (m : btree A) :
  bt_sorted m = true ->
  bt_sorted (bt_without names m) = true /\
  forall k, bt_get k (bt_without names m) = if contains names k then None else bt_get k m.
Proof.
  revert m; induction names as [|n names IH]; intros m Hm; [done|]. cbn.
  destruct (IH (bt_remove n m)) as [Hs Hg]; [by apply bt_remove_sorted|]. split; [done|].
  intros k. rewrite Hg, bt_get_remove by done. unfold contains. cbn.
  replace (n =? k) with (k =? n) by (apply bool_decide_ext; done). by destruct (existsb _ _), (k =? n).
Qed.
