(* ===== verification/SchemaRedaction.v ===== *)
(** Redaction of JSON Schema documents (crates/cfctl-core/src/lib.rs,
    [redact_json_schema]): property names are labels, what they name is not
    shown. The collection of sensitive [$ref]s follows references, so it is
    written with fuel and shown to terminate. *)

From Stdlib Require Import String Ascii ZArith Lia List Bool.
From stdpp Require Import base option list strings gmap.
From S2P Require Import Prelude Strings Btree Json JsonOps Redaction.

Open Scope cf_scope.
Open Scope string_scope.
Open Scope cf_scope.

Definition is_json_schema_name_map (key : string) : bool :=
  contains ["properties"; "patternProperties"; "dependentSchemas"; "definitions"; "$defs"] key.

Definition is_json_schema_instance_annotation (key : string) : bool :=
  contains ["const"; "default"; "enum"; "example"; "examples"; "x-example"; "x-examples"] key.

(** [s.replace(c, r)] for a character [c]. *)
Fixpoint replace_char (c : ascii) (r s : string) : string :=
  match s with
  | EmptyString => EmptyString
  | String a s => (if a =? c then r else String a EmptyString) ++ replace_char c r s
  end.

Definition json_pointer_escape_token (token : string) : string :=
  replace_char "/" "~1" (replace_char "~" "~0" token).

(** [matches!(item, Value::Object(_) | Value::Bool(_))]: a schema. *)
Definition is_schema (item : Value) : bool :=
  match item with VObject _ | VBool _ => true | _ => false end.

(** ** Collecting references *)

(** [for x in l { s = visit(s, x) }], out of fuel when one visit is. *)
Fixpoint fold_visits {A} (visit : gset string -> A -> option (gset string)) (l : list A)
    (refs : gset string) : option (gset string) :=
  match l with
  | [] => Some refs
  | x :: l => obind (visit refs x) (fold_visits visit l)
  end.

(** The pointer of a local [$ref]. *)
Definition reference_pointer (value : Value) : option string :=
  obind (obind (vget "$ref" value) as_str) (strip_prefix "#").

(** [collect_sensitive_schema_references]; [None] is out of fuel. *)
Fixpoint collect_sensitive_schema_references (fuel : nat) (document value : Value)
    (schema_names sensitive_instance_schema : bool) (refs : gset string)
    : option (gset string) :=
  match fuel with
  | O => None
  | S fuel =>
      let visit := collect_sensitive_schema_references fuel document in
      match value with
      | VObject map =>
          obind
            (match (if sensitive_instance_schema then reference_pointer value else None) with
             | Some pointer =>
                 if bool_decide (pointer ∈ refs) then Some refs
                 else
                   match vpointer pointer document with
                   | Some resolved => visit resolved false true ({[pointer]} ∪ refs)
                   | None => Some ({[pointer]} ∪ refs)
                   end
             | None => Some refs
             end)
            (fold_visits
               (fun refs e =>
                  let '(key, item) := e in
                  if schema_names && is_schema item
                  then visit item false (sensitive_instance_schema || is_sensitive_key key) refs
                  else visit item (is_json_schema_name_map key) sensitive_instance_schema refs)
               map)
      | VArray items =>
          fold_visits (fun refs item => visit item false sensitive_instance_schema refs) items refs
      | _ => Some refs
      end
  end.

(** ** Redacting *)

Section Enumerate.
Context {A B : Type} (f : nat -> A -> B).
Fixpoint map_from (i : nat) (l : list A) : list B :=
  match l with [] => [] | x :: l => f i x :: map_from (S i) l end.
End Enumerate.

Fixpoint redact_json_schema_inner (refs : gset string) (value : Value) (pointer : string)
    (schema_names sensitive_instance_schema : bool) {struct value} : Value :=
  let sensitive_instance_schema := sensitive_instance_schema || bool_decide (pointer ∈ refs) in
  match value with
  | VObject m =>
      VObject (bt_collect (map (fun e =>
        let key := fst e in
        let item_pointer := pointer ++ "/" ++ json_pointer_escape_token key in
        if schema_names && is_schema (snd e) then
          (key, redact_json_schema_inner refs (snd e) item_pointer false
                  (sensitive_instance_schema || is_sensitive_key key))
        else if (sensitive_instance_schema && is_json_schema_instance_annotation key)
                || is_sensitive_key key
        then (key, REDACTED)
        else
          (key, redact_json_schema_inner refs (snd e) item_pointer (is_json_schema_name_map key)
                  sensitive_instance_schema)) m))
  | VArray items =>
      VArray (map_from (fun i item =>
        redact_json_schema_inner refs item (pointer ++ "/" ++ show_Z (Z.of_nat i)) false
          sensitive_instance_schema) 0 items)
  | _ => value
  end.

(** ** Fuel *)

Fixpoint vdepth (v : Value) : nat :=
  match v with
  | VArray l => S (list_max (map vdepth l))
  | VObject m => S (list_max (map (fun e => vdepth (snd e)) m))
  | _ => 1
  end.

(** The pointers of all local references in a document. *)
Fixpoint pointers (v : Value) : list string :=
  match v with
  | VArray l => flat_map pointers l
  | VObject m =>
      match reference_pointer v with Some p => [p] | None => [] end
      ++ flat_map (fun e => pointers (snd e)) m
  | _ => []
  end%list.

(** Each reference is followed once, through at most the whole document. *)
Definition collection_fuel (document : Value) : nat :=
  vdepth document * S (size (list_to_set (pointers document) : gset string)).

Definition redact_json_schema (value : Value) : Value :=
  redact_json_schema_inner
    (default ∅ (collect_sensitive_schema_references (collection_fuel value) value value false
                  false ∅))
    value "" false false.

(** ** Termination *)

Lemma obind_some {A B} (o : option A) (f : A -> option B) b :
  obind o f = Some b <-> exists a, o = Some a /\ f a = Some b.
Proof. destruct o; cbn; naive_solver. Qed.


(** [v] occurs in [w], as far as the measure can tell. *)
Definition within (v w : Value) : Prop :=
  vdepth v <= vdepth w /\ pointers v ⊆ pointers w.

Lemma within_refl v : within v v.
Proof. done. Qed.

Lemma within_trans u v w : within u v -> within v w -> within u w.
Proof. intros [H1 H2] [H3 H4]. split; [lia|]. by etrans. Qed.

Lemma list_max_in l n : n ∈ l -> n <= list_max l.
Proof.
  apply (proj1 (Forall_forall _ _) (proj1 (list_max_le l _) (Nat.le_refl _))).
Qed.

Lemma flat_map_subseteq {A} (f : A -> list string) l x : In x l -> f x ⊆ flat_map f l.
Proof.
  intros Hx s Hs. apply list_elem_of_In, in_flat_map. exists x. split; [done|].
  by apply list_elem_of_In.
Qed.

Lemma member_within m e :
  In e m -> vdepth (snd e) < vdepth (VObject m) /\ within (snd e) (VObject m).
Proof.
  intros He. assert (Hd : vdepth (snd e) < vdepth (VObject m)).
  { cbn. apply Nat.lt_succ_r, list_max_in, list_elem_of_In, in_map_iff. by exists e. }
  split; [done|]. split; [lia|]. cbn [pointers].
  pose proof (flat_map_subseteq (fun e => pointers (snd e)) m e He). set_solver.
Qed.

Lemma item_within l x : In x l -> vdepth x < vdepth (VArray l) /\ within x (VArray l).
Proof.
  intros Hx. assert (Hd : vdepth x < vdepth (VArray l)).
  { cbn. by apply Nat.lt_succ_r, list_max_in, list_elem_of_In, in_map. }
  split; [done|]. split; [lia|]. by apply flat_map_subseteq.
Qed.

Lemma pointer_step_within t token x : pointer_step t token = Some x -> within x t.
Proof.
  destruct t as [| | | |l|m]; try done; cbn [pointer_step].
  - unfold obind. destruct (parse_index token); [|done]. intros Hl.
    by apply list_elem_of_lookup_2, list_elem_of_In, item_within in Hl as [_ ?].
  - intros Hg%bt_get_in. by apply (member_within m (token, x)) in Hg as [_ ?].
Qed.

Lemma vpointer_within pointer v x : vpointer pointer v = Some x -> within x v.
Proof.
  unfold vpointer. destruct (is_empty pointer); [by intros [= <-]|].
  destruct (negb _); [done|]. generalize (tail (split_on "/" pointer)).
  assert (Hnone : forall tokens, fold_left (fun target token =>
      obind target (fun t => pointer_step t (unescape token))) tokens None = None :> option Value).
  { intros tokens. induction tokens as [|token tokens IH]; [done|exact IH]. }
  intros tokens. revert v. induction tokens as [|token tokens IH]; intros v; [by intros [= <-]|].
  cbn [fold_left obind]. destruct (pointer_step v (unescape token)) as [t|] eqn:E;
    [|by rewrite Hnone].
  intros Hx. eapply within_trans; [by apply IH|]. by eapply pointer_step_within.
Qed.

Lemma reference_pointer_in v p : reference_pointer v = Some p -> p ∈ pointers v.
Proof.
  intros Hp. destruct v; try done. cbn [pointers]. rewrite Hp. by left.
Qed.

(** A pass over [l] in which every visit succeeds and only adds. *)
Lemma fold_visits_total {A} (visit : gset string -> A -> option (gset string)) l refs :
  (forall x refs', In x l -> refs ⊆ refs' -> exists r, visit refs' x = Some r /\ refs' ⊆ r) ->
  exists r, fold_visits visit l refs = Some r /\ refs ⊆ r.
Proof.
  revert refs; induction l as [|x l IH]; intros refs Hv; cbn; [by exists refs|].
  destruct (Hv x refs) as (r & -> & Hr); [by left|done|]. cbn.
  destruct (IH r) as (r' & Hr' & Hsub).
  - intros y refs' Hy Hs. apply Hv; [by right|]. by etrans.
  - exists r'. split; [done|]. by etrans.
Qed.

Section Termination.
Variable document : Value.

(** References of the document still to follow. *)
Definition unvisited (refs : gset string) : nat :=
  size (list_to_set (pointers document) ∖ refs : gset string).

Lemma unvisited_mono refs refs' : refs ⊆ refs' -> unvisited refs' <= unvisited refs.
Proof. intros Hs. unfold unvisited. apply subseteq_size. set_solver. Qed.

Lemma unvisited_visit pointer refs :
  pointer ∈ pointers document -> pointer ∉ refs ->
  S (unvisited ({[pointer]} ∪ refs)) <= unvisited refs.
Proof.
  intros Hp Hn. unfold unvisited. apply subset_size, strict_spec_alt. split; [set_solver|].
  intros Heq. assert (Hin : pointer ∈ (list_to_set (pointers document) ∖ refs : gset string)).
  { apply elem_of_difference. split; [by apply elem_of_list_to_set|done]. }
  rewrite <- Heq in Hin. set_solver.
Qed.

Lemma collection_enough fuel value names sensitive refs :
  within value document ->
  vdepth value + unvisited refs * vdepth document <= fuel ->
  exists r, collect_sensitive_schema_references fuel document value names sensitive refs = Some r
            /\ refs ⊆ r.
Proof.
  revert value names sensitive refs.
  induction fuel as [|fuel IH]; intros value names sensitive refs Hw Hf.
  { exfalso. assert (1 <= vdepth value) by (destruct value; cbn; lia). lia. }
  assert (Hchild : forall x n s refs', vdepth x < vdepth value /\ within x value -> refs ⊆ refs' ->
    exists r, collect_sensitive_schema_references fuel document x n s refs' = Some r /\ refs' ⊆ r).
  { intros x n s refs' [Hd Hx] Hs. apply IH; [by eapply within_trans|].
    pose proof (Nat.mul_le_mono_r _ _ (vdepth document) (unvisited_mono refs refs' Hs)). lia. }
  destruct value as [| | | |l|m]; cbn [collect_sensitive_schema_references];
    try (by exists refs).
  { apply fold_visits_total. intros x refs' Hx Hs. apply Hchild; [by apply item_within|done]. }
  assert (Hstart : exists r0, match (if sensitive then reference_pointer (VObject m) else None) with
    | Some pointer => if bool_decide (pointer ∈ refs) then Some refs
        else match vpointer pointer document with
             | Some resolved => collect_sensitive_schema_references fuel document resolved false true
                                  ({[pointer]} ∪ refs)
             | None => Some ({[pointer]} ∪ refs)
             end
    | None => Some refs end = Some r0 /\ refs ⊆ r0).
  { destruct (if sensitive then reference_pointer (VObject m) else None) as [pointer|] eqn:Er;
      [|by exists refs].
    assert (Hp : pointer ∈ pointers document).
    { destruct sensitive; [|done]. apply reference_pointer_in in Er. by apply Hw. }
    destruct (bool_decide_reflect (pointer ∈ refs)) as [|Hn]; [by exists refs|].
    destruct (vpointer pointer document) as [resolved|] eqn:Ev; [|eexists; split; [done|set_solver]].
    apply vpointer_within in Ev. pose proof (unvisited_visit pointer refs Hp Hn) as Hu.
    destruct (IH resolved false true ({[pointer]} ∪ refs) Ev) as (r & Hr & Hsub).
    - assert (1 <= vdepth (VObject m)) by (cbn; lia). destruct Ev as [Hd _].
      pose proof (Nat.mul_le_mono_r _ _ (vdepth document) Hu). cbn [Nat.mul] in *. lia.
    - exists r. split; [done|set_solver]. }
  destruct Hstart as (r0 & -> & H0). cbn [obind].
  destruct (fold_visits_total (fun refs e => let '(key, item) := e in
      if names && is_schema item
      then collect_sensitive_schema_references fuel document item false
             (sensitive || is_sensitive_key key) refs
      else collect_sensitive_schema_references fuel document item (is_json_schema_name_map key)
             sensitive refs) m r0) as (r & Hr & Hsub).
  - intros [key item] refs' Hin Hs. apply member_within in Hin. cbn [snd] in Hin.
    destruct (names && is_schema item); apply Hchild; try done; by etrans.
  - exists r. split; [exact Hr|]. by etrans.
Qed.
End Termination.

Lemma unvisited_empty document :
  unvisited document ∅ = size (list_to_set (pointers document) : gset string).
Proof. unfold unvisited. by rewrite difference_empty_L. Qed.

Lemma fold_visits_mono {A} (visit visit' : gset string -> A -> option (gset string)) l refs r :
  (forall x refs r, visit refs x = Some r -> visit' refs x = Some r) ->
  fold_visits visit l refs = Some r -> fold_visits visit' l refs = Some r.
Proof.
  intros Hv. revert refs. induction l as [|x l IH]; intros refs; cbn; [done|].
  destruct (visit refs x) as [refs'|] eqn:E; [|done]. rewrite (Hv _ _ _ E). apply IH.
Qed.

Lemma collection_mono fuel fuel' document value names sensitive refs r :
  fuel <= fuel' ->
  collect_sensitive_schema_references fuel document value names sensitive refs = Some r ->
  collect_sensitive_schema_references fuel' document value names sensitive refs = Some r.
Proof.
  revert fuel' value names sensitive refs r.
  induction fuel as [|fuel IH]; intros fuel' value names sensitive refs r Hle; [done|].
  destruct fuel' as [|fuel']; [lia|]. apply le_S_n in Hle.
  destruct value as [| | | |l|m]; try done.
  { apply fold_visits_mono. intros x refs' r'. by apply IH. }
  cbn [collect_sensitive_schema_references]. generalize (reference_pointer (VObject m)).
  intros reference H. apply obind_some in H as (r0 & Hstart & Hfold).
  assert (Hmem : fold_visits (fun refs e => let '(key, item) := e in
      if names && is_schema item
      then collect_sensitive_schema_references fuel' document item false
             (sensitive || is_sensitive_key key) refs
      else collect_sensitive_schema_references fuel' document item (is_json_schema_name_map key)
             sensitive refs) m r0 = Some r).
  { revert Hfold. apply fold_visits_mono. intros [key item] refs' r'.
    destruct (names && is_schema item); by apply IH. }
  apply obind_some. exists r0. split; [|exact Hmem].
  destruct (if sensitive then reference else None) as [pointer|]; [|exact Hstart].
  destruct (bool_decide _); [exact Hstart|].
  destruct (vpointer pointer document); [|exact Hstart]. by apply (IH fuel').
Qed.

(** ** What is hidden *)

(** The position directly under a name map. *)
Definition under_name_map (names : bool) (path : list step) : Prop :=
  match last path with
  | None => names = true
  | Some (Key n) => is_json_schema_name_map n = true
  | Some (Index _) => False
  end.

Lemma under_name_map_cons names names' s path :
  under_name_map names' path ->
  (path = [] -> names' = true -> under_name_map names [s]) ->
  under_name_map names (s :: path).
Proof.
  intros Hu Hs. destruct path as [|s' path]; [by apply Hs|].
  unfold under_name_map in *. rewrite last_cons_cons.
  destruct (last (s' :: path)) eqn:E; [done|]. by apply last_None in E.
Qed.

Lemma map_from_in {A B} (f : nat -> A -> B) i l y :
  In y (map_from f i l) -> exists j x, In x l /\ y = f j x.
Proof.
  revert i; induction l as [|x l IH]; intros i; cbn; [done|].
  intros [<-|Hin]; [by exists i, x; auto|]. destruct (IH _ Hin) as (j & x' & Hx & ->).
  exists j, x'. auto.
Qed.

Lemma schema_inner refs v pointer names sensitive :
  is_schema (redact_json_schema_inner refs v pointer names sensitive) = is_schema v.
Proof. destruct v; reflexivity. Qed.

Lemma no_path_in_redacted s p v : ~ at_path REDACTED (s :: p) v.
Proof. intros H. inversion H. Qed.

Lemma snoc_cons {A} (p : list A) (k : A) q x : (p ++ [k] = q :: x)%list ->
  (p = [] /\ q = k /\ x = []) \/ exists p', (p = q :: p')%list /\ (x = p' ++ [k])%list.
Proof. destruct p as [|a p]; intros [= <- <-]; eauto. Qed.

(** One entry of a redacted object. *)
Lemma redacted_schema_entry refs m pointer names sensitive k x :
  let sensitive' := sensitive || bool_decide (pointer ∈ refs) in
  In (k, x) (match redact_json_schema_inner refs (VObject m) pointer names sensitive with
             | VObject m' => m' | _ => [] end) ->
  exists item, In (k, item) m /\
    ((names && is_schema item = true /\
      exists pointer', x = redact_json_schema_inner refs item pointer' false
                             (sensitive' || is_sensitive_key k)) \/
     x = REDACTED \/
     (is_sensitive_key k = false /\
      (sensitive' && is_json_schema_instance_annotation k = false) /\
      exists pointer', x = redact_json_schema_inner refs item pointer'
                             (is_json_schema_name_map k) sensitive')).
Proof.
  cbn zeta. cbn [redact_json_schema_inner]. intros Hin%bt_collect_in.
  apply in_map_iff in Hin as ([k' item] & Heq & Hin). cbn [fst snd] in Heq.
  destruct (names && is_schema item) eqn:En.
  { injection Heq as <- <-. exists item. split; [done|]. left. split; [done|]. by eexists. }
  destruct (_ || is_sensitive_key k') eqn:Es.
  { injection Heq as <- <-. exists item. split; [done|]. by right; left. }
  injection Heq as <- <-. apply orb_false_iff in Es as [Ea Es].
  exists item. split; [done|]. right; right. split; [done|]. split; [done|]. by eexists.
Qed.

Lemma at_path_object v k p x :
  at_path v (Key k :: p) x ->
  exists x0, In (k, x0) (match v with VObject m => m | _ => [] end) /\ at_path x0 p x.
Proof. intros H. inversion H; subst. eauto. Qed.

Lemma at_path_array v i p x :
  at_path v (Index i :: p) x ->
  exists x0, In x0 (match v with VArray l => l | _ => [] end) /\ at_path x0 p x.
Proof.
  intros H. inversion H; subst. eexists. split; [|done]. by eapply list_elem_of_In, list_elem_of_lookup_2.
Qed.

Lemma inner_object_only refs v pointer names sensitive e :
  In e (match redact_json_schema_inner refs v pointer names sensitive with
        | VObject m => m | _ => [] end) -> exists m, v = VObject m.
Proof. destruct v; cbn; try done. by eexists. Qed.

Lemma inner_item refs v pointer names sensitive x :
  In x (match redact_json_schema_inner refs v pointer names sensitive with
        | VArray l => l | _ => [] end) ->
  exists l item pointer', v = VArray l /\ In item l /\
    x = redact_json_schema_inner refs item pointer' false
          (sensitive || bool_decide (pointer ∈ refs)).
Proof.
  destruct v; cbn [redact_json_schema_inner]; try done.
  intros (j & item & Hin & ->)%map_from_in. by eexists _, item, _.
Qed.

(** A sensitive key survives only as the label of a schema. *)
Lemma sensitive_key_is_label refs v pointer names sensitive p k x :
  at_path (redact_json_schema_inner refs v pointer names sensitive) (p ++ [Key k])%list x ->
  is_sensitive_key k = true ->
  x = REDACTED \/ (is_schema x = true /\ under_name_map names p).
Proof.
  intros H Hk. revert pointer names sensitive p H.
  induction v as [| | | |l IH|m IH] using Value_ind'; intros pointer names sensitive p H;
    try (destruct p as [|[] ]; by inversion H).
  - destruct p as [|[k0|i] p]; [by inversion H..|].
    apply at_path_array in H as (x0 & (l' & item & ptr & [= <-] & Hin & ->)%inner_item & Hp).
    rewrite List.Forall_forall in IH. destruct (IH item Hin _ _ _ _ Hp) as [|[Hx Hu]]; [by left|].
    right. split; [done|]. eapply under_name_map_cons; [exact Hu|done].
  - destruct p as [|[k0|i] p]; [|cbn in H|by inversion H].
    + apply at_path_object in H as (x0 & Hin & Hp). inversion Hp; subst. clear Hp.
      apply redacted_schema_entry in Hin as (item & _ & [[Hn (ptr & ->)]|[->|(Hs & _)]]);
        [|by left|congruence].
      right. apply andb_true_iff in Hn as [Hn Hi]. by rewrite schema_inner.
    + apply at_path_object in H as (x0 & Hin & Hp).
      apply redacted_schema_entry in Hin as (item & Hin & Hcase).
      rewrite List.Forall_forall in IH. specialize (IH _ Hin). cbn [snd] in IH.
      destruct Hcase as [[Hn (ptr & ->)]|[->|(Hs & _ & ptr & ->)]].
      * destruct (IH _ _ _ _ Hp) as [|[Hx Hu]]; [by left|]. right. split; [done|].
        by eapply under_name_map_cons; [exact Hu|].
      * exfalso. destruct p; by apply no_path_in_redacted in Hp.
      * destruct (IH _ _ _ _ Hp) as [|[Hx Hu]]; [by left|]. right. split; [done|].
        by eapply under_name_map_cons; [exact Hu|].
Qed.

(** Under a sensitive label, instance annotations are hidden. *)
Lemma sensitive_annotation_hidden refs v pointer names sensitive p k a x :
  at_path (redact_json_schema_inner refs v pointer names sensitive) (p ++ [Key k; Key a])%list x ->
  is_sensitive_key k = true -> is_json_schema_instance_annotation a = true -> x = REDACTED.
Proof.
  intros H Hk Ha. revert pointer names sensitive p H.
  induction v as [| | | |l IH|m IH] using Value_ind'; intros pointer names sensitive p H;
    try (destruct p as [|[] ]; by inversion H).
  - destruct p as [|[k0|i] p]; [by inversion H..|].
    apply at_path_array in H as (x0 & (l' & item & ptr & [= <-] & Hin & ->)%inner_item & Hp).
    rewrite List.Forall_forall in IH. by eapply IH.
  - rewrite List.Forall_forall in IH.
    destruct p as [|[k0|i] p]; [|cbn in H|by inversion H].
    + apply at_path_object in H as (x0 & Hin & Hp).
      apply redacted_schema_entry in Hin as (item & _ & [[_ (ptr & ->)]|[->|(Hs & _)]]);
        [|by apply no_path_in_redacted in Hp|congruence].
      apply at_path_object in Hp as (x1 & Hin & Hp). inversion Hp; subst. clear Hp.
      destruct (inner_object_only _ _ _ _ _ _ Hin) as [m' ->].
      apply redacted_schema_entry in Hin as (item' & _ & [[? _]|[->|(_ & Hf & _)]]); [done|done|].
      by rewrite Hk, orb_true_r, Ha in Hf.
    + apply at_path_object in H as (x0 & Hin & Hp).
      apply redacted_schema_entry in Hin as (item & Hin & Hcase). specialize (IH _ Hin).
      destruct Hcase as [[Hn (ptr & ->)]|[->|(Hs & _ & ptr & ->)]]; [by eapply IH| |by eapply IH].
      destruct p; by apply no_path_in_redacted in Hp.
Qed.

(** ** Properties *)

(** C39: following references terminates, cyclic ones included. The fuel of
    [redact_json_schema] - the depth of the document times one more than its
    distinct local references - always suffices for the collection, and no
    larger fuel changes what is collected. *)
Theorem reference_collection_terminates (document : Value) :
  exists refs, forall fuel, collection_fuel document <= fuel ->
    collect_sensitive_schema_references fuel document document false false ∅ = Some refs /\
    redact_json_schema document = redact_json_schema_inner refs document "" false false.
Proof.
  destruct (collection_enough document (collection_fuel document) document false false ∅)
    as (refs & Hr & _).
  - apply within_refl.
  - unfold collection_fuel. rewrite unvisited_empty. lia.
  - exists refs. intros fuel Hf. split; [by eapply collection_mono|].
    unfold redact_json_schema. by rewrite Hr.
Qed.

(** Schema redaction shows names, not values. In a redacted schema a
    sensitive key reads [[REDACTED]], unless it is the label of a schema
    directly under a name map such as [properties]; and below such a label no
    default, example, constant or enumeration is shown. *)
Theorem schema_shows_labels_only (document : Value) :
  (forall p k x, at_path (redact_json_schema document) (p ++ [Key k])%list x ->
     is_sensitive_key k = true ->
     x = REDACTED \/
     (is_schema x = true /\
      exists p' n, p = (p' ++ [Key n])%list /\ is_json_schema_name_map n = true)) /\
  (forall p k a x, at_path (redact_json_schema document) (p ++ [Key k; Key a])%list x ->
     is_sensitive_key k = true -> is_json_schema_instance_annotation a = true -> x = REDACTED).
Proof.
  unfold redact_json_schema. split.
  - intros p k x Hp Hk. destruct (sensitive_key_is_label _ _ _ _ _ _ _ _ Hp Hk) as [|[Hx Hu]];
      [by left|].
    right. split; [done|]. unfold under_name_map in Hu.
    destruct (last p) as [[n|i]|] eqn:E; [|done|done]. apply last_Some in E as [p' ->].
    by exists p', n.
  - intros p k a x Hp Hk Ha. by eapply sensitive_annotation_hidden.
Qed.

(** Where it is stricter than [redact_json]: the boolean switch that
    [redact_json] lets through is hidden in a schema. *)
Example schema_hides_boolean_switch :
  let v := jobj [("default", jobj [("enable_binding_cookie", VBool true)])]%string in
  redact_json v = v /\ redact_json_schema v <> v.
Proof. split; [reflexivity|]. vm_compute. discriminate. Qed.

(** A cyclic schema: the secret's definition refers to itself. *)
Example cyclic_schema_redacted :
  let v := jobj [("properties", jobj [("token", jobj [("$ref", VString "#/$defs/t")])]);
                 ("$defs", jobj [("t", jobj [("$ref", VString "#/$defs/t");
                                             ("default", VString "hunter2")])])]%string in
  obind (vpointer "/$defs/t/default" (redact_json_schema v)) as_str = Some "[REDACTED]"%string.
Proof. vm_compute. reflexivity. Qed.

(** ** Witnesses *)

Definition token_schema : Value :=
  jobj [("properties", jobj [("token", jobj [("default", VString "hunter2")])])]%string.

Lemma schema_shows_labels_only_witness : VString "[REDACTED]" = REDACTED.
Proof.
  refine (proj2 (schema_shows_labels_only token_schema) [Key "properties"]%string "token"%string
    "default"%string (VString "[REDACTED]") _ _ _); [|vm_compute; reflexivity..].
  vm_compute. do 3 (eapply at_key; [left; reflexivity|]). apply at_here.
Defined.
