(* ===== verification/RequestSchema.v ===== *)
(** Reading the fields of a request body off its JSON schema
    (crates/cfctl-core/src/lib.rs): direct properties, [allOf] compositions and
    [oneOf]/[anyOf] alternatives, under a depth limit and a shared budget of
    visited schemas. The source counts [depth] up to 64; the model recurses on
    the levels that are left, so running out of them is the source's own
    [depth > MAX_REQUEST_OBJECT_SCHEMA_DEPTH]. *)

From Stdlib Require Import String Ascii ZArith Lia List Bool.
From stdpp Require Import base option list strings.
From S2P Require Import Prelude Strings Btree Json JsonOps Core CatalogTypes Capability.
From S2P Require Import CapabilityOps Samples.

Open Scope cf_scope.
Open Scope string_scope.
Open Scope cf_scope.

Definition MAX_REQUEST_OBJECT_SCHEMA_DEPTH : nat := 64.
Definition MAX_REQUEST_OBJECT_SCHEMA_STEPS : Z := 4096.

(** The levels left at depth 0. *)
Definition all_levels : nat := S MAX_REQUEST_OBJECT_SCHEMA_DEPTH.

(** [BTreeMap<String, Vec<&Value>>] *)
Definition fieldmap : Type := btree (list Value).

Inductive RequestObjectSchemaCollection : Type :=
| CollectionObject
| CollectionIneligible
| CollectionLimitExceeded.
#[export] Instance RequestObjectSchemaCollection_eq_dec :
  EqDecision RequestObjectSchemaCollection.
Proof. solve_decision. Defined.

(** [fields.entry(name).or_default().extend(schemas)] *)
Definition extend_field (name : string) (schemas : list Value) (fields : fieldmap) : fieldmap :=
  bt_insert name (default [] (bt_get name fields) ++ schemas)%list fields.

Definition merge_request_object_property_schemas (fields additional : fieldmap) : fieldmap :=
  fold_left (fun fields e => extend_field (fst e) (snd e) fields) additional fields.

Definition push_properties (fields : fieldmap) (properties : btree Value) : fieldmap :=
  fold_left (fun fields e => extend_field (fst e) [snd e] fields) properties fields.

(** [match schema.get("type")]: absent or exactly ["object"] *)
Definition object_typed (schema : Value) : bool :=
  match vget "type" schema with
  | None => true
  | Some (VString value_type) => value_type =? "object"
  | Some _ => false
  end.

(** [value.as_array().filter(|members| !members.is_empty())] *)
Definition nonempty_array (v : Value) : option (list Value) :=
  match as_array v with Some (x :: l) => Some (x :: l) | _ => None end.

Definition Collected : Type := RequestObjectSchemaCollection * Z * fieldmap.

(** Visit members until one is not object-shaped. *)
Fixpoint collect_members (visit : Value -> Z -> fieldmap -> Collected) (members : list Value)
    (remaining_steps : Z) (fields : fieldmap) : Collected :=
  match members with
  | [] => (CollectionObject, remaining_steps, fields)
  | member :: members =>
      match visit member remaining_steps fields with
      | (CollectionObject, remaining_steps, fields) =>
          collect_members visit members remaining_steps fields
      | stopped => stopped
      end
  end.

(** The [for composition in ["oneOf", "anyOf"]] loop over [local_fields]. *)
Fixpoint collect_alternatives (visit : Value -> Z -> fieldmap -> Collected)
    (compositions : list string) (schema : Value) (remaining_steps : Z) (local_fields : fieldmap)
    : Collected :=
  match compositions with
  | [] => (CollectionObject, remaining_steps, local_fields)
  | composition :: compositions =>
      match vget composition schema with
      | None => collect_alternatives visit compositions schema remaining_steps local_fields
      | Some members =>
          match nonempty_array members with
          | None => (CollectionIneligible, remaining_steps, local_fields)
          | Some members =>
              match collect_members visit members remaining_steps [] with
              | (CollectionObject, remaining_steps, alternative_fields) =>
                  collect_alternatives visit compositions schema remaining_steps
                    (merge_request_object_property_schemas local_fields alternative_fields)
              | (CollectionIneligible, remaining_steps, _) =>
                  if is_nil local_fields
                  then (CollectionIneligible, remaining_steps, local_fields)
                  else collect_alternatives visit compositions schema remaining_steps local_fields
              | (CollectionLimitExceeded, remaining_steps, _) =>
                  (CollectionLimitExceeded, remaining_steps, local_fields)
              end
          end
      end
  end.

(** [if let Some(all_of) = schema.get("allOf")] *)
Definition collect_all_of (visit : Value -> Z -> fieldmap -> Collected) (schema : Value)
    (remaining_steps : Z) (local_fields : fieldmap) : Collected :=
  match vget "allOf" schema with
  | None => (CollectionObject, remaining_steps, local_fields)
  | Some all_of =>
      match nonempty_array all_of with
      | None => (CollectionIneligible, remaining_steps, local_fields)
      | Some members => collect_members visit members remaining_steps local_fields
      end
  end.

(** [if let Some(properties) = schema.get("properties")] into an empty map *)
Definition direct_properties (schema : Value) (fields : fieldmap) : option fieldmap :=
  match vget "properties" schema with
  | None => Some fields
  | Some properties => option_map (push_properties fields) (as_object properties)
  end.

Fixpoint collect_composed_object_property_schemas (levels : nat) (schema : Value)
    (remaining_steps : Z) (fields : fieldmap) {struct levels} : Collected :=
  match levels with
  | O => (CollectionLimitExceeded, remaining_steps, fields)
  | S levels =>
      if (remaining_steps =? 0)%Z then (CollectionLimitExceeded, remaining_steps, fields)
      else
        let remaining_steps := (remaining_steps - 1)%Z in
        if negb (object_typed schema) then (CollectionIneligible, remaining_steps, fields)
        else
          match direct_properties schema [] with
          | None => (CollectionIneligible, remaining_steps, fields)
          | Some local_fields =>
              let visit := collect_composed_object_property_schemas levels in
              match collect_all_of visit schema remaining_steps local_fields with
              | (CollectionObject, remaining_steps, local_fields) =>
                  match collect_alternatives visit ["oneOf"; "anyOf"] schema remaining_steps
                          local_fields with
                  | (CollectionObject, remaining_steps, local_fields) =>
                      (CollectionObject, remaining_steps,
                       merge_request_object_property_schemas fields local_fields)
                  | (outcome, remaining_steps, _) => (outcome, remaining_steps, fields)
                  end
              | (outcome, remaining_steps, _) => (outcome, remaining_steps, fields)
              end
          end
  end.

Definition request_object_property_schemas (schema : Value) : option fieldmap :=
  match collect_composed_object_property_schemas all_levels schema
          MAX_REQUEST_OBJECT_SCHEMA_STEPS [] with
  | (CollectionObject, _, fields) => if is_nil fields then None else Some fields
  | _ => None
  end.

(** ** Fields a readback does not see *)

(** [items.iter().any(visit)] and [all(visit)] where [visit] spends steps. *)
Fixpoint any_spending (visit : Value -> Z -> bool * Z) (items : list Value) (steps : Z)
    : bool * Z :=
  match items with
  | [] => (false, steps)
  | x :: items =>
      match visit x steps with
      | (true, steps) => (true, steps)
      | (false, steps) => any_spending visit items steps
      end
  end.

Fixpoint all_spending (visit : Value -> Z -> bool * Z) (items : list Value) (steps : Z)
    : bool * Z :=
  match items with
  | [] => (true, steps)
  | x :: items =>
      match visit x steps with
      | (true, steps) => all_spending visit items steps
      | (false, steps) => (false, steps)
      end
  end.

(** [schema.get(composition).and_then(Value::as_array).is_some_and(p)] *)
Definition members_spending (schema : Value) (composition : string)
    (p : list Value -> Z -> bool * Z) (steps : Z) : bool * Z :=
  match obind (vget composition schema) as_array with
  | Some members => p members steps
  | None => (false, steps)
  end.

Definition nonempty_all (visit : Value -> Z -> bool * Z) (members : list Value) (steps : Z)
    : bool * Z :=
  if is_nil members then (false, steps) else all_spending visit members steps.

(** The two recursive schema predicates share everything but their first test. *)
Fixpoint schema_declares (declared : Value -> bool) (levels : nat) (schema : Value)
    (remaining_steps : Z) {struct levels} : bool * Z :=
  match levels with
  | O => (false, remaining_steps)
  | S levels =>
      if (remaining_steps =? 0)%Z then (false, remaining_steps)
      else
        let remaining_steps := (remaining_steps - 1)%Z in
        if declared schema then (true, remaining_steps)
        else
          let visit := schema_declares declared levels in
          match members_spending schema "allOf" (any_spending visit) remaining_steps with
          | (true, remaining_steps) => (true, remaining_steps)
          | (false, remaining_steps) =>
              match members_spending schema "oneOf" (nonempty_all visit) remaining_steps with
              | (true, remaining_steps) => (true, remaining_steps)
              | (false, remaining_steps) =>
                  members_spending schema "anyOf" (nonempty_all visit) remaining_steps
              end
          end
  end.

Definition flag (schema : Value) (key : string) : option bool := obind (vget key schema) as_bool.

Definition schema_declares_write_only : nat -> Value -> Z -> bool * Z :=
  schema_declares (fun schema => flag schema "writeOnly" =? Some true).

Definition schema_declares_verification_omitted : nat -> Value -> Z -> bool * Z :=
  schema_declares (fun schema =>
    (flag schema "writeOnly" =? Some true)
    || (flag schema "x-cfctl-verification-observable" =? Some false)).

Definition property_schemas_are_write_only (schemas : list Value) : bool :=
  if is_nil schemas then false
  else fst (all_spending (schema_declares_write_only all_levels) schemas
              MAX_REQUEST_OBJECT_SCHEMA_STEPS).

Definition property_schemas_are_verification_omitted (schemas : list Value) : bool :=
  if is_nil schemas then false
  else fst (all_spending (schema_declares_verification_omitted all_levels) schemas
              MAX_REQUEST_OBJECT_SCHEMA_STEPS).

(** [BTreeSet<String>] *)
Definition names : Type := btree unit.

Definition response_field_name (schema : Value) : option string :=
  match obind (vget "x-cfctl-verification-response-field" schema) as_str with
  | Some name =>
      if negb (is_empty name) && bytes_all (fun c => is_ascii_alphanumeric c || (c =? "_"%char)) name
      then Some name else None
  | None => None
  end.

Fixpoint fold_spending (visit : Value -> Z -> names -> Z * names) (items : list Value) (steps : Z)
    (found : names) : Z * names :=
  match items with
  | [] => (steps, found)
  | x :: items => let '(steps, found) := visit x steps found in fold_spending visit items steps found
  end.

Fixpoint collect_verification_response_field_names (levels : nat) (schema : Value)
    (remaining_steps : Z) (found : names) {struct levels} : Z * names :=
  match levels with
  | O => (remaining_steps, found)
  | S levels =>
      if (remaining_steps =? 0)%Z then (remaining_steps, found)
      else
        let found :=
          match response_field_name schema with
          | Some name => bt_insert name tt found
          | None => found
          end in
        fold_left
          (fun state composition =>
             fold_spending (collect_verification_response_field_names levels)
               (default [] (obind (vget composition schema) as_array)) (fst state) (snd state))
          ["allOf"; "oneOf"; "anyOf"] ((remaining_steps - 1)%Z, found)
  end.

(** ** Discriminated branches *)

(** [collect_direct_and_all_of_property_schemas]: [None] aborts the whole
    collection, an ineligible member only contributes nothing. *)
Fixpoint collect_direct_and_all_of_property_schemas (levels : nat) (schema : Value)
    (remaining_steps : Z) (fields : fieldmap) {struct levels} : option (Z * fieldmap) :=
  match levels with
  | O => None
  | S levels =>
      if (remaining_steps =? 0)%Z then None
      else
        let remaining_steps := (remaining_steps - 1)%Z in
        if negb (object_typed schema) then Some (remaining_steps, fields)
        else
          obind (direct_properties schema fields) (fun fields =>
            match vget "allOf" schema with
            | None => Some (remaining_steps, fields)
            | Some members =>
                obind (nonempty_array members) (fun members =>
                  fold_left
                    (fun state member =>
                       obind state (fun state =>
                         collect_direct_and_all_of_property_schemas levels member
                           (fst state) (snd state)))
                    members (Some (remaining_steps, fields)))
            end)
  end.

Definition single_string_enum (schema : Value) : option string :=
  if obind (vget "type" schema) as_str <>? Some "string" then None
  else
    match obind (vget "enum" schema) as_array with
    | Some [entry] => as_str entry
    | _ => None
    end.

(** All schemas pin one string, and it is the same one. *)
Definition exact_single_string_enum (schemas : list Value) : option string :=
  match fold_left
          (fun values schema =>
             obind values (fun values =>
               option_map (fun v => bt_insert v tt values) (single_string_enum schema)))
          schemas (Some []) with
  | Some [(value, _)] => Some value
  | _ => None
  end.

Definition Branches : Type := list (string * Value).

Fixpoint collect_discriminated_object_branches (discriminator : string) (levels : nat)
    (schema : Value) (remaining_steps : Z) (branches : Branches) {struct levels}
    : option (Z * Branches) :=
  match levels with
  | O => None
  | S below =>
      if (remaining_steps =? 0)%Z then None
      else
        obind (collect_direct_and_all_of_property_schemas levels schema
                 (remaining_steps - 1)%Z []) (fun direct =>
          let '(remaining_steps, direct_fields) := direct in
          match obind (bt_get discriminator direct_fields) exact_single_string_enum with
          | Some value => Some (remaining_steps, branches ++ [(value, schema)])%list
          | None =>
              fold_left
                (fun state composition =>
                   obind state (fun state =>
                     match vget composition schema with
                     | None => Some state
                     | Some members =>
                         obind (nonempty_array members) (fun members =>
                           fold_left
                             (fun state member =>
                                obind state (fun state =>
                                  collect_discriminated_object_branches discriminator below member
                                    (fst state) (snd state)))
                             members (Some state))
                     end))
                ["oneOf"; "anyOf"] (Some (remaining_steps, branches))
          end)
  end.

(** The schemas of one field: nested object fields, or a scalar. *)
Record Split : Type := mkSplit {
  split_nested : fieldmap;
  split_objects : Z;
  split_scalars : Z;
}.

Fixpoint split_property_schemas (levels : nat) (schemas : list Value) (remaining_steps : Z)
    (s : Split) : option (Z * Split) :=
  match schemas with
  | [] => Some (remaining_steps, s)
  | schema :: schemas =>
      match collect_composed_object_property_schemas levels schema remaining_steps [] with
      | (CollectionLimitExceeded, _, _) => None
      | (CollectionObject, remaining_steps, (_ :: _) as fields) =>
          split_property_schemas levels schemas remaining_steps
            (mkSplit (merge_request_object_property_schemas (split_nested s) fields)
               (split_objects s + 1) (split_scalars s))
      | (_, remaining_steps, _) =>
          split_property_schemas levels schemas remaining_steps
            (mkSplit (split_nested s) (split_objects s) (split_scalars s + 1))
      end
  end.

Fixpoint collect_request_property_paths (levels : nat) (schemas : list Value) (prefix : string)
    (remaining_steps : Z) (paths : names) {struct levels} : option (Z * names) :=
  match levels with
  | O => None
  | S levels =>
      if (remaining_steps =? 0)%Z || is_nil schemas then None
      else
        obind (split_property_schemas levels schemas remaining_steps (mkSplit [] 0 0)) (fun split =>
          let '(remaining_steps, s) := split in
          if (0 <? split_objects s)%Z && (0 <? split_scalars s)%Z then None
          else if (split_objects s =? 0)%Z then Some (remaining_steps, bt_insert prefix tt paths)
          else
            fold_left
              (fun state e =>
                 obind state (fun state =>
                   collect_request_property_paths levels (snd e) (prefix ++ "." ++ fst e)%string
                     (fst state) (snd state)))
              (split_nested s) (Some (remaining_steps, paths)))
  end.

(** ** The request contract of a capability *)

Definition request_object_fields (self : CapabilityV1) : option (list string) :=
  obind (cap_request_schema self) (fun schema =>
    option_map bt_keys (request_object_property_schemas schema)).

(** One [(value, branch)] of the discriminated union. *)
Definition branch_paths (value : string) (branch : Value) (remaining_steps : Z)
    (paths_by_value : btree (list string)) : option (Z * btree (list string)) :=
  match collect_composed_object_property_schemas all_levels branch remaining_steps [] with
  | (CollectionObject, remaining_steps, fields) =>
      obind
        (fold_left
           (fun state e =>
              obind state (fun state =>
                collect_request_property_paths all_levels (snd e) (fst e) (fst state) (snd state)))
           fields (Some (remaining_steps, [])))
        (fun found =>
           let '(remaining_steps, paths) := found in
           if is_nil paths || is_someb (bt_get value paths_by_value) then None
           else Some (remaining_steps, bt_insert value (bt_keys paths) paths_by_value))
  | _ => None
  end.

Definition request_object_paths_by_discriminator (self : CapabilityV1) (discriminator : string)
    : option (btree (list string)) :=
  obind (cap_request_schema self) (fun schema =>
  obind (collect_discriminated_object_branches discriminator all_levels schema
           MAX_REQUEST_OBJECT_SCHEMA_STEPS []) (fun collected =>
    let '(remaining_steps, branches) := collected in
    if is_nil branches then None
    else
      option_map snd
        (fold_left
           (fun state e =>
              obind state (fun state => branch_paths (fst e) (snd e) (fst state) (snd state)))
           branches (Some (remaining_steps, []))))).

Definition verifiable_request_object_fields (self : CapabilityV1) : option (list string) :=
  obind (cap_request_schema self) (fun schema =>
  obind (request_object_property_schemas schema) (fun fields =>
    let fields :=
      map fst (List.filter (fun e => negb (property_schemas_are_verification_omitted (snd e))) fields) in
    if is_nil fields then None else Some fields)).

(** The schemas one top-level request field is declared with. *)
Definition request_object_field (self : CapabilityV1) (name : string) : option (list Value) :=
  obind (obind (cap_request_schema self) request_object_property_schemas) (bt_get name).

Definition request_object_field_is_write_only (self : CapabilityV1) (name : string) : bool :=
  is_some_and (request_object_field self name) property_schemas_are_write_only.

Definition request_object_field_is_verification_omitted (self : CapabilityV1) (name : string)
    : bool :=
  is_some_and (request_object_field self name) property_schemas_are_verification_omitted.

Definition request_object_field_verification_response_field (self : CapabilityV1) (name : string)
    : option string :=
  obind (request_object_field self name) (fun schemas =>
    match fold_left
            (fun state schema =>
               collect_verification_response_field_names all_levels schema (fst state) (snd state))
            schemas (MAX_REQUEST_OBJECT_SCHEMA_STEPS, []) with
    | (_, [(found, _)]) => Some found
    | _ => None
    end).

Definition required_empty_request_body_contract (self : CapabilityV1) : bool :=
  is_some_and (cap_request_schema self) (fun schema =>
    (obind (vget "type" schema) as_str =? Some "object")
    && is_some_and (obind (vget "properties" schema) as_object) is_nil
    && (flag schema "additionalProperties" =? Some false)
    && is_none_or (obind (vget "required" schema) as_array) is_nil
    && (flag schema "x-cfctl-body-required" =? Some true)
    && forallb (fun composition => is_noneb (vget composition schema)) ["allOf"; "oneOf"; "anyOf"]
    && is_none_or (obind (vget "minProperties" schema) as_u64) (fun minimum => (minimum =? 0)%Z)
    && is_noneb (vget "enum" schema)).

(** ** Facts: field maps stay ordered, the budget only shrinks *)

Lemma extend_field_sorted name schemas fields :
  bt_sorted fields = true -> bt_sorted (extend_field name schemas fields) = true.
Proof. apply bt_insert_sorted. Qed.

Lemma fold_extend_sorted {A} (f : A -> string * list Value) (l : list A) fields :
  bt_sorted fields = true ->
  bt_sorted (fold_left (fun m e => extend_field (fst (f e)) (snd (f e)) m) l fields) = true.
Proof.
  revert fields; induction l as [|x l IH]; intros fields Hf; [done|].
  apply IH. by apply extend_field_sorted.
Qed.

Lemma merge_sorted fields additional :
  bt_sorted fields = true ->
  bt_sorted (merge_request_object_property_schemas fields additional) = true.
Proof. apply (fold_extend_sorted (fun e => e)). Qed.

Lemma direct_properties_sorted schema fields out :
  bt_sorted fields = true -> direct_properties schema fields = Some out -> bt_sorted out = true.
Proof.
  unfold direct_properties. intros Hf. destruct (vget _ _) as [p|]; [|by intros [= <-]].
  destruct (as_object p) as [m|]; [|done]. intros [= <-].
  by apply (fold_extend_sorted (fun e => (fst e, [snd e]))).
Qed.

(** What every visit guarantees. *)
Definition visit_ok (visit : Value -> Z -> fieldmap -> Collected) : Prop :=
  forall v n fields, (0 <= n)%Z -> bt_sorted fields = true ->
    let '(_, n', fields') := visit v n fields in
    (0 <= n' <= n)%Z /\ bt_sorted fields' = true.

Lemma collect_members_ok visit members : visit_ok visit ->
  visit_ok (fun _ => collect_members visit members).
Proof.
  intros Hv v. induction members as [|m members IH]; intros n fields Hn Hf; cbn; [by split; [lia|]|].
  specialize (Hv m n fields Hn Hf). destruct (visit m n fields) as [[[] n'] fields']; try done.
  destruct Hv as [Hn' Hf']. specialize (IH n' fields' ltac:(lia) Hf').
  destruct (collect_members _ _ _ _) as [[o n''] fields'']. split; [lia|tauto].
Qed.

Lemma collect_all_of_ok visit : visit_ok visit -> visit_ok (collect_all_of visit).
Proof.
  intros Hv schema n fields Hn Hf. unfold collect_all_of.
  destruct (vget _ _) as [all_of|]; [|by split; [lia|]].
  destruct (nonempty_array all_of) as [members|]; [|by split; [lia|]].
  by apply (collect_members_ok visit members Hv VNull).
Qed.

Lemma collect_alternatives_ok visit compositions : visit_ok visit ->
  visit_ok (collect_alternatives visit compositions).
Proof.
  intros Hv schema. induction compositions as [|c compositions IH]; intros n fields Hn Hf; cbn;
    [by split; [lia|]|].
  destruct (vget c schema) as [members|]; [|by apply IH].
  destruct (nonempty_array members) as [l|]; [|by split; [lia|]].
  pose proof (collect_members_ok visit l Hv VNull n [] Hn eq_refl) as Hm. cbn in Hm.
  destruct (collect_members visit l n []) as [[[] n'] alternative]; destruct Hm as [Hn' Ha].
  - specialize (IH n' _ ltac:(lia) (merge_sorted fields alternative Hf)).
    destruct (collect_alternatives _ _ _ _ _) as [[o n''] out]. split; [lia|tauto].
  - destruct (is_nil fields); [by split|]. specialize (IH n' fields ltac:(lia) Hf).
    destruct (collect_alternatives _ _ _ _ _) as [[o n''] out]. split; [lia|tauto].
  - by split.
Qed.

Lemma composed_ok levels : visit_ok (collect_composed_object_property_schemas levels).
Proof.
  induction levels as [|levels IH]; intros schema n fields Hn Hf; [by split; [cbn; lia|]|].
  cbn [collect_composed_object_property_schemas].
  destruct (Z.eqb_spec n 0); [by split; [lia|]|].
  destruct (negb (object_typed schema)); [by split; [lia|]|].
  destruct (direct_properties schema []) as [local|] eqn:Ed; [|by split; [lia|]].
  apply direct_properties_sorted in Ed; [|done].
  pose proof (collect_all_of_ok _ IH schema (n - 1)%Z local ltac:(lia) Ed) as Ha.
  destruct (collect_all_of _ _ _ _) as [[[] n1] local1]; destruct Ha as [Hn1 Hl1];
    [|split; [lia|done]..].
  pose proof (collect_alternatives_ok _ ["oneOf"; "anyOf"] IH schema n1 local1 ltac:(lia) Hl1) as Ho.
  destruct (collect_alternatives _ _ _ _ _) as [[[] n2] local2]; destruct Ho as [Hn2 Hl2];
    (split; [lia|]); [by apply merge_sorted|done..].
Qed.

Lemma request_object_property_schemas_sorted schema fields :
  request_object_property_schemas schema = Some fields ->
  bt_sorted fields = true /\ fields <> [].
Proof.
  unfold request_object_property_schemas.
  assert (Hsteps : (0 <= MAX_REQUEST_OBJECT_SCHEMA_STEPS)%Z) by (unfold MAX_REQUEST_OBJECT_SCHEMA_STEPS; lia).
  pose proof (composed_ok all_levels schema _ [] Hsteps eq_refl) as Hc.
  destruct (collect_composed_object_property_schemas _ _ _ _) as [[[] n] out]; try done.
  destruct out as [|e out]; [done|]. intros [= <-]. by destruct Hc.
Qed.

Lemma windows2_sorted_keys {A} (m : btree A) :
  bt_sorted m = true -> windows2_all str_ltb (map fst m) = true.
Proof.
  induction m as [|[k v] [|[k' v'] m] IH]; intros Hs; try done.
  change (str_ltb k k' && windows2_all str_ltb (map fst ((k', v') :: m)) = true).
  apply bt_sorted_cons in Hs as [Ha Hs]. rewrite (Ha k' v') by by left. by apply IH.
Qed.

Lemma bt_filter_sorted {A} (p : string * A -> bool) (m : btree A) :
  bt_sorted m = true -> bt_sorted (List.filter p m) = true.
Proof.
  induction m as [|[k v] m IH]; intros Hs; [done|]. apply bt_sorted_cons in Hs as [Ha Hs].
  cbn. destruct (p (k, v)); [|by apply IH]. apply bt_sorted_cons. split; [|by apply IH].
  intros k' v' [Hin _]%filter_In. by apply (Ha k' v').
Qed.

Lemma request_object_field_some self name schemas fields schema :
  cap_request_schema self = Some schema ->
  request_object_property_schemas schema = Some fields ->
  request_object_field self name = Some schemas <-> In (name, schemas) fields.
Proof.
  intros Hs Hf. unfold request_object_field. rewrite Hs. cbn. rewrite Hf. cbn.
  split; [apply bt_get_in|]. apply bt_in_get. by apply (request_object_property_schemas_sorted schema).
Qed.

(** ** Properties *)

(** The fields a readback is held to. The verifiable request fields are
    listed once each in increasing order, there is at least one, and they are
    exactly the request fields that are not omitted from verification. *)
Theorem verifiable_fields_iff (self : CapabilityV1) (fields : list string) :
  verifiable_request_object_fields self = Some fields ->
  windows2_all str_ltb fields = true /\ fields <> [] /\
  (forall name, name ∈ fields <->
     request_object_field self name <> None /\
     request_object_field_is_verification_omitted self name = false) /\
  exists requested, request_object_fields self = Some requested /\
    windows2_all str_ltb requested = true /\ fields ⊆ requested.
Proof.
  unfold verifiable_request_object_fields, request_object_fields,
    request_object_field_is_verification_omitted.
  destruct (cap_request_schema self) as [schema|] eqn:Es; [cbn|done].
  destruct (request_object_property_schemas schema) as [m|] eqn:Em; [cbn|done].
  pose proof (request_object_property_schemas_sorted schema m Em) as [Hm _].
  intros Hf. set (p := fun e : string * list Value =>
    negb (property_schemas_are_verification_omitted (snd e))) in *.
  assert (E : fields = map fst (List.filter p m) /\ fields <> [])
    by (destruct (map fst (List.filter p m)); [done|by injection Hf as <-]).
  destruct E as [-> Hne]. split; [by apply windows2_sorted_keys, bt_filter_sorted|].
  split; [done|]. split.
  - intros name. rewrite list_elem_of_In, in_map_iff. split.
    + intros ([k schemas] & <- & [Hin Hp]%filter_In). cbn in *.
      apply (request_object_field_some self k schemas m schema Es Em) in Hin. rewrite Hin. cbn.
      split; [done|]. by apply negb_true_iff in Hp.
    + intros [Hsome Ho]. destruct (request_object_field self name) as [schemas|] eqn:E; [|done].
      exists (name, schemas). split; [done|]. apply filter_In. split.
      * by apply (request_object_field_some self name schemas m schema Es Em).
      * unfold p. cbn in *. by rewrite Ho.
  - exists (bt_keys m). split; [done|]. split; [by apply windows2_sorted_keys|].
    intros name. rewrite !list_elem_of_In. unfold bt_keys. rewrite !in_map_iff.
    intros (e & <- & [Hin _]%filter_In). by exists e.
Qed.

(** ** Witness *)

Definition sample_request_schema : Value :=
  jobj [("type", VString "object");
        ("properties", jobj [("name", jobj [("type", VString "string")])]);
        ("oneOf", VArray
           [jobj [("properties", jobj [("text", jobj [("writeOnly", VBool true)])])];
            jobj [("properties", jobj [("kind", jobj [("type", VString "string")])])]])].

Definition sample_request_capability : CapabilityV1 :=
  classify
    {| class_selectors := []; class_permissions := ["Samples Write"];
       class_risk := RiskClass_ScopedWrite; class_effect := EffectClass_ReversibleWrite;
       class_cost := cost_default;
       class_verification := mkVerificationSpecV1 true "same_resource_contains_planned_fields_after_update";
       class_rollback := mkRollbackSpecV1 false None (Some "re-apply the prior sample");
       class_same_path_read := None; class_request_schema := Some sample_request_schema;
       class_response_contract := None |}
    (capability_new "sample" "Sample" "PUT" "/accounts/{account_id}/samples/{sample_id}").

Lemma verifiable_fields_iff_witness :
  verifiable_request_object_fields sample_request_capability = Some ["kind"; "name"] /\
  request_object_field_is_verification_omitted sample_request_capability "name" = false.
Proof.
  assert (Hf : verifiable_request_object_fields sample_request_capability = Some ["kind"; "name"])
    by (vm_compute; reflexivity).
  split; [exact Hf|].
  destruct (verifiable_fields_iff sample_request_capability ["kind"; "name"] Hf)
    as (_ & _ & Hiff & _).
  apply (Hiff "name"). apply list_elem_of_further, list_elem_of_here.
Defined.
