(* ===== verification/Demo.v ===== *)
(** A concrete instance of the [Runtime] parameters, used by the witnesses to
    evaluate the model: a JSON printer, a 96-bit polynomial digest rendered
    as 64 lower-case hexadecimal digits, and a decimal rendering of instants.
    It stands in for serde_json, sha2, chrono and uuid only where a concrete
    function is needed; no theorem depends on it. *)

From Stdlib Require Import String Ascii ZArith Lia List Bool.
From stdpp Require Import base option list strings pretty.
From S2P Require Import Prelude Strings Btree Json Core.

Open Scope cf_scope.
Open Scope string_scope.
Open Scope cf_scope.

Fixpoint escape (s : string) : string :=
  match s with
  | EmptyString => EmptyString
  | String a s' =>
      if ((byte a =? 34) || (byte a =? 92))%N
      then String (ascii_of_N 92) (String a (escape s')) else String a (escape s')
  end.
Definition quote (s : string) : string :=
  let q := String (ascii_of_N 34) EmptyString in q ++ escape s ++ q.

Definition encode_number (n : Number) : string :=
  match n with
  | PosInt z | NegInt z => show_Z z
  | Float (FZero s) => if s then "-0.0" else "0.0"
  | Float (FFinite s m e) =>
      (if s then "-" else "") ++ show_Z (Zpos m) ++ "p" ++ show_Z e
  end.

Fixpoint encode (v : Value) : string :=
  match v with
  | VNull => "null"
  | VBool b => if b then "true" else "false"
  | VNumber n => encode_number n
  | VString s => quote s
  | VArray l => "[" ++ join "," (map encode l) ++ "]"
  | VObject m =>
      "{" ++ join "," (map (fun e => quote (fst e) ++ ":" ++ encode (snd e)) m) ++ "}"
  end.

Definition hex_digit (n : Z) : ascii :=
  ascii_of_N (Z.to_N (if (n <? 10)%Z then 48 + n else 87 + n)).
Fixpoint hex_digits (k : nat) (n : Z) : string :=
  match k with
  | O => EmptyString
  | S k' => String (hex_digit (Z.land n 15)) (hex_digits k' (Z.shiftr n 4))
  end.

Fixpoint digest_acc (s : string) (acc : Z) : Z :=
  match s with
  | EmptyString => acc
  | String a s' =>
      digest_acc s' (Z.land ((acc + Z.of_N (byte a)) * 33 + 1) (Z.ones 96))%Z
  end.
Definition digest_hex (s : string) : string := hex_digits 64 (digest_acc s 0).

(** Hyphenated UUIDs in either case are read, and rendered in lower case. *)
Fixpoint uuid_shape (shape : list bool) (s : string) : bool :=
  match shape, s with
  | [], EmptyString => true
  | true :: shape', String a s' =>
      is_ascii_hexdigit a && uuid_shape shape' s'
  | false :: shape', String a s' => (byte a =? 45)%N && uuid_shape shape' s'
  | _, _ => false
  end.
Definition uuid_pattern : list bool :=
  repeat true 8 ++ [false] ++ repeat true 4 ++ [false] ++ repeat true 4 ++ [false]
  ++ repeat true 4 ++ [false] ++ repeat true 12.

Definition show_instant (t : DateTime) : string :=
  (if (ns t <? 0)%Z then "-" else "+") ++ pretty (Z.abs_N (ns t)).

#[export] Instance demo_runtime : Runtime := {|
  to_vec v := Ok (encode v);
  sha256_hex := digest_hex;
  rfc3339 := show_instant;
  uuid_hyphenated s :=
    let lower := to_ascii_lowercase s in
    if uuid_shape uuid_pattern lower then Some lower else None;
|}.

#[export] Instance demo_total : RuntimeTotal.
Proof. intros v. by eexists. Qed.
#[export] Instance demo_injective : RuntimeInjective.
Proof.
  intros [a] [c] E. f_equal. cbv [rfc3339 demo_runtime show_instant ns] in E.
  destruct (Z.ltb_spec a 0), (Z.ltb_spec c 0); try done;
    apply str_app_inj_l in E; apply (inj (pretty (A := N))) in E; lia.
Qed.

(** Instants of the witnesses, in seconds. *)
Definition at_s (seconds : Z) : DateTime := Timestamp (seconds * 1000000000).
Definition clock_at (seconds : Z) : Clock := fun _ => at_s seconds.
