(* ===== verification/Policy.v ===== *)
(** Policy decisions: the disposition the planner gives a plan and the
    decision record hashed into it (crates/cfctl-core/src/lib.rs). *)

From Stdlib Require Import String ZArith Lia List Bool.
From stdpp Require Import base option list strings.
From S2P Require Import Prelude Strings Btree Json.

Open Scope cf_scope.

Inductive PolicyDisposition : Type :=
| AutoExecute
| ApprovalRequired
| PolicyBlocked.
#[export] Instance PolicyDisposition_eq_dec : EqDecision PolicyDisposition.
Proof. solve_decision. Defined.
#[export] Instance ser_PolicyDisposition : Serialize PolicyDisposition := fun d =>
  VString (match d with
  | AutoExecute => "auto_execute"
  | ApprovalRequired => "approval_required"
  | PolicyBlocked => "blocked"
  end)%string.
#[export] Program Instance inj_PolicyDisposition : SerializeInj PolicyDisposition :=
  {| ser_ok _ := True |}.
Next Obligation. by intros [] []. Qed.
#[export] Instance total_PolicyDisposition : SerializeTotal PolicyDisposition.
Proof. done. Qed.

Definition restriction_rank (d : PolicyDisposition) : Z :=
  match d with
  | AutoExecute => 0
  | ApprovalRequired => 1
  | PolicyBlocked => 2
  end.

Record PolicyDecisionV1 : Type := mkPolicyDecisionV1 {
  policy_schema_version : Z;
  policy_disposition : PolicyDisposition;
  policy_reasons : list string;
  policy_requires_cost_ceiling : bool;
}.
#[export] Instance PolicyDecisionV1_eq_dec : EqDecision PolicyDecisionV1.
Proof. solve_decision. Defined.
#[export] Instance ser_PolicyDecisionV1 : Serialize PolicyDecisionV1 := fun p => struct_value [
  field "schema_version" (policy_schema_version p);
  field "disposition" (policy_disposition p);
  field "reasons" (policy_reasons p);
  field "requires_cost_ceiling" (policy_requires_cost_ceiling p)].
#[export] Program Instance inj_PolicyDecisionV1 : SerializeInj PolicyDecisionV1 :=
  {| ser_ok _ := True |}.
Next Obligation. struct_inj. Qed.
#[export] Instance total_PolicyDecisionV1 : SerializeTotal PolicyDecisionV1.
Proof. done. Qed.
