(* ===== verification/Authority.v ===== *)
(** Standing authorities: [StandingAuthorityV1] of crates/cfctl-core/src/lib.rs,
    the hash-bound grant under which token-lifecycle plans may be consumed
    unattended. State, operations, and the bounds they enforce. *)

From Stdlib Require Import String Ascii ZArith Lia List Bool.
From stdpp Require Import base option list strings relations.
From S2P Require Import Prelude Strings Btree Json Core Demo.

Open Scope cf_scope.

(** ** State *)

Inductive StandingAuthorityStatus : Type :=
| PendingApproval
| Active
| Revoked.
#[export] Instance StandingAuthorityStatus_eq_dec : EqDecision StandingAuthorityStatus.
Proof. solve_decision. Defined.

Definition status_as_str (s : StandingAuthorityStatus) : string :=
  match s with
  | PendingApproval => "pending_approval"
  | Active => "active"
  | Revoked => "revoked"
  end.

Record StandingAuthorityRunV1 : Type := mkStandingAuthorityRunV1 {
  run_at : DateTime;
  run_operation_id : string;
  run_capability_id : string;
}.

Record StandingAuthorityV1 : Type := mkStandingAuthorityV1 {
  sa_schema_version : Z;
  sa_authority_id : string;
  sa_created_at : DateTime;
  sa_expires_at : DateTime;
  sa_account_id : string;
  sa_zone_id : option string;
  sa_capability_ids : list string;
  sa_permission_group_ids : list string;
  sa_permission_inventory_hash : string;
  sa_max_child_ttl_hours : Z;
  sa_name_prefix : string;
  sa_max_runs_per_day : Z;
  sa_status : StandingAuthorityStatus;
  sa_approval : option ApprovalV1;
  sa_minted_token_ids : list string;
  sa_run_log : list StandingAuthorityRunV1;
  sa_content_hash : string;
}.

(** The part of the record the assignments of the methods touch. *)
Definition sa_update (s : StandingAuthorityV1) (status : StandingAuthorityStatus)
    (approval : option ApprovalV1) (minted : list string)
    (log : list StandingAuthorityRunV1) (hash : string) : StandingAuthorityV1 :=
  {| sa_schema_version := sa_schema_version s;
     sa_authority_id := sa_authority_id s;
     sa_created_at := sa_created_at s;
     sa_expires_at := sa_expires_at s;
     sa_account_id := sa_account_id s;
     sa_zone_id := sa_zone_id s;
     sa_capability_ids := sa_capability_ids s;
     sa_permission_group_ids := sa_permission_group_ids s;
     sa_permission_inventory_hash := sa_permission_inventory_hash s;
     sa_max_child_ttl_hours := sa_max_child_ttl_hours s;
     sa_name_prefix := sa_name_prefix s;
     sa_max_runs_per_day := sa_max_runs_per_day s;
     sa_status := status;
     sa_approval := approval;
     sa_minted_token_ids := minted;
     sa_run_log := log;
     sa_content_hash := hash |}.
Definition sa_set_status status s :=
  sa_update s status (sa_approval s) (sa_minted_token_ids s) (sa_run_log s) (sa_content_hash s).
Definition sa_set_approval approval s :=
  sa_update s (sa_status s) approval (sa_minted_token_ids s) (sa_run_log s) (sa_content_hash s).
Definition sa_set_minted minted s :=
  sa_update s (sa_status s) (sa_approval s) minted (sa_run_log s) (sa_content_hash s).
Definition sa_set_log log s :=
  sa_update s (sa_status s) (sa_approval s) (sa_minted_token_ids s) log (sa_content_hash s).
Definition sa_set_hash hash s :=
  sa_update s (sa_status s) (sa_approval s) (sa_minted_token_ids s) (sa_run_log s) hash.

(** [values.sort()] and [values.dedup()] *)
Fixpoint insert_sorted (x : string) (l : list string) : list string :=
  match l with
  | [] => [x]
  | y :: t => if str_ltb y x then y :: insert_sorted x t else x :: l
  end.
Definition sort (l : list string) : list string := fold_right insert_sorted [] l.
Fixpoint dedup (l : list string) : list string :=
  match l with
  | x :: ((y :: _) as t) => if x =? y then dedup t else x :: dedup t
  | _ => l
  end.

Section Authority.
Context `{Runtime}.
Open Scope string_scope.
Open Scope cf_scope.

(** *** The reviewed grant content *)

Definition sa_hashable_content (s : StandingAuthorityV1) : Value :=
  let content := struct_value [
    field "schema_version" (sa_schema_version s);
    field "authority_id" (sa_authority_id s);
    field "created_at" (sa_created_at s);
    field "expires_at" (sa_expires_at s);
    field "account_id" (sa_account_id s);
    field "capability_ids" (sa_capability_ids s);
    field "permission_group_ids" (sa_permission_group_ids s);
    field "permission_inventory_hash" (sa_permission_inventory_hash s);
    field "max_child_ttl_hours" (sa_max_child_ttl_hours s);
    field "name_prefix" (sa_name_prefix s);
    field "max_runs_per_day" (sa_max_runs_per_day s)] in
  match sa_zone_id s with
  | Some zone_id => object_insert "zone_id" (VString zone_id) content
  | None => content
  end.

Definition sa_refresh_hash : ST StandingAuthorityV1 CoreError unit :=
  let* self := st_get in
  let* hash := st_lift (hash_value (sa_hashable_content self)) in
  st_modify (sa_set_hash hash).

Definition sa_draft (clk : Clock) (authority_id account_id : string)
    (zone_id : option string) (capability_ids permission_group_ids : list string)
    (permission_inventory_hash : string) (max_child_ttl_hours : Z)
    (name_prefix : string) (max_runs_per_day : Z) (expires_at : DateTime)
  : Result StandingAuthorityV1 :=
  let authority :=
    {| sa_schema_version := 1;
       sa_authority_id := authority_id;
       sa_created_at := clk 0;
       sa_expires_at := expires_at;
       sa_account_id := account_id;
       sa_zone_id := zone_id;
       sa_capability_ids := capability_ids;
       sa_permission_group_ids := dedup (sort permission_group_ids);
       sa_permission_inventory_hash := permission_inventory_hash;
       sa_max_child_ttl_hours := max_child_ttl_hours;
       sa_name_prefix := name_prefix;
       sa_max_runs_per_day := max_runs_per_day;
       sa_status := PendingApproval;
       sa_approval := None;
       sa_minted_token_ids := [];
       sa_run_log := [];
       sa_content_hash := "" |} in
  match sa_refresh_hash authority with
  | (Ok _, authority) => Ok authority
  | (Err e, _) => Err e
  end.

Definition allowed_token_resources (s : StandingAuthorityV1) : list string :=
  ("com.cloudflare.api.account." ++ sa_account_id s)%string ::
  match sa_zone_id s with
  | Some zone_id => [("com.cloudflare.api.account.zone." ++ zone_id)%string]
  | None => []
  end.

(** *** Lifecycle *)

Definition sa_approve (clk : Clock) (explicit_yes : bool)
  : ST StandingAuthorityV1 CoreError unit :=
  let* self := st_get in
  if negb explicit_yes then st_throw ExplicitApprovalRequired
  else if sa_status self <>? PendingApproval then
    st_throw (InvalidStandingAuthorityState (sa_authority_id self)
      (status_as_str (sa_status self)) "pending_approval")
  else if dt_gt (clk 0) (sa_expires_at self) then
    st_throw (StandingAuthorityExpired (sa_authority_id self) (sa_expires_at self))
  else
  let* current_hash := st_lift (hash_value (sa_hashable_content self)) in
  if current_hash <>? sa_content_hash self then
    st_throw (InvalidStandingAuthorityState (sa_authority_id self)
      "hash-drifted" "unchanged hash-bound grant")
  else
  do* st_modify (sa_set_approval (Some
        {| approval_approved_at := clk 1;
           approval_approved_content_hash := sa_content_hash self;
           approval_max_cost := None |})) in
  st_modify (sa_set_status Active).

Definition sa_revoke (s : StandingAuthorityV1) : StandingAuthorityV1 :=
  sa_set_status Revoked s.

Definition effective_status (s : StandingAuthorityV1) (now : DateTime) : string :=
  if sa_status s =? Revoked then status_as_str Revoked
  else if dt_gt now (sa_expires_at s) then "expired"
  else status_as_str (sa_status s).

Definition ensure_operational_at (s : StandingAuthorityV1) (now : DateTime)
  : Result unit :=
  guard (sa_status s <>? Active)
    (InvalidStandingAuthorityState (sa_authority_id s)
       (status_as_str (sa_status s)) "active") (
  guard (dt_gt now (sa_expires_at s))
    (StandingAuthorityExpired (sa_authority_id s) (sa_expires_at s)) (
  let? current_hash := hash_value (sa_hashable_content s) in
  let approval_matches := is_some_and (sa_approval s) (fun approval =>
    approval_approved_content_hash approval =? current_hash) in
  guard ((current_hash <>? sa_content_hash s) || negb approval_matches)
    (InvalidStandingAuthorityState (sa_authority_id s)
       "hash-drifted" "approval bound to the current grant content")
    (Ok tt))).

(** *** Run budget *)

Definition in_last_day (now : DateTime) (run : StandingAuthorityRunV1) : bool :=
  (dt_sub now (run_at run) <=? hours 24)%Z.

Definition runs_in_last_day (s : StandingAuthorityV1) (now : DateTime) : Z :=
  Z.of_nat (length (List.filter (in_last_day now) (sa_run_log s))).

Definition denied (s : StandingAuthorityV1) (reason : string) : CoreError :=
  StandingAuthorityDenied (sa_authority_id s) reason.

Definition ensure_run_budget (s : StandingAuthorityV1) (now : DateTime) : Result unit :=
  guard (sa_max_runs_per_day s <=? runs_in_last_day s now)%Z
    (denied s ("run budget exhausted: " ++ show_Z (runs_in_last_day s now)
      ++ " runs in the last 24h against a limit of "
      ++ show_Z (sa_max_runs_per_day s))%string)
    (Ok tt).

Definition validate_permission_inventory (s : StandingAuthorityV1)
    (normalized_full_allowlist : Value) : Result unit :=
  let? current_hash := hash_value normalized_full_allowlist in
  guard (current_hash <>? sa_permission_inventory_hash s)
    (denied s "complete permission allowlist metadata drifted from the approved inventory hash")
    (Ok tt).

(** *** Bounds checks *)

Definition authorize_token_create (s : StandingAuthorityV1) (now : DateTime)
    (child_name : string) (requested_group_ids requested_resources : list string)
    (child_expires_at : option DateTime) : Result unit :=
  let? _ := ensure_operational_at s now in
  let? _ := ensure_run_budget s now in
  guard (negb (starts_with child_name (sa_name_prefix s)))
    (denied s ("child token name `" ++ child_name
      ++ "` does not carry the pinned prefix `" ++ sa_name_prefix s ++ "`")%string) (
  guard (length requested_group_ids =? 0)
    (denied s "child token requests no permission groups") (
  guard (length requested_resources =? 0)
    (denied s "child token binds no resource") (
  let allowed := allowed_token_resources s in
  let? _ := for_each (fun resource =>
    guard (negb (contains allowed resource))
      (denied s ("child token resource `" ++ resource
        ++ "` is outside this authority's bound scope (" ++ join ", " allowed ++ ")")%string)
      (Ok tt)) requested_resources in
  let? _ := for_each (fun group_id =>
    guard (negb (contains (sa_permission_group_ids s) group_id))
      (denied s ("permission group `" ++ group_id
        ++ "` is outside the approved allowlist")%string)
      (Ok tt)) requested_group_ids in
  let? child_expires_at := ok_or
    (denied s "child token declares no expiry; standing mints must be short-lived")
    child_expires_at in
  let max_ttl := hours (sa_max_child_ttl_hours s) in
  guard (max_ttl <? dt_sub child_expires_at now)%Z
    (denied s ("child token expiry exceeds the " ++ show_Z (sa_max_child_ttl_hours s)
      ++ "h maximum child TTL")%string)
    (Ok tt)))).

Definition authorize_token_delete (s : StandingAuthorityV1) (now : DateTime)
    (token_id : string) : Result unit :=
  let? _ := ensure_operational_at s now in
  let? _ := ensure_run_budget s now in
  guard (negb (existsb (fun minted => minted =? token_id) (sa_minted_token_ids s)))
    (denied s ("token `" ++ token_id
      ++ "` was not minted under this authority; lineage bound refuses the revoke")%string)
    (Ok tt).

Definition reserve_run (now : DateTime) (operation_id capability_id : string)
  : ST StandingAuthorityV1 CoreError unit :=
  let* self := st_get in
  do* st_lift (ensure_operational_at self now) in
  if existsb (fun run => run_operation_id run =? operation_id) (sa_run_log self) then
    st_throw (denied self ("operation `" ++ operation_id
      ++ "` is already reserved under this authority")%string)
  else
  do* st_lift (ensure_run_budget self now) in
  st_modify (fun s => sa_set_log (sa_run_log s ++
    [{| run_at := now; run_operation_id := operation_id;
        run_capability_id := capability_id |}]) s).

Definition record_minted_token (token_id : string) (s : StandingAuthorityV1)
  : StandingAuthorityV1 :=
  if existsb (fun id => id =? token_id) (sa_minted_token_ids s) then s
  else sa_set_minted (sa_minted_token_ids s ++ [token_id]) s.

(** *** One method call on an authority, whatever its outcome *)

Inductive sa_step (s : StandingAuthorityV1) : StandingAuthorityV1 -> Prop :=
| sa_step_approve clk explicit_yes : sa_step s (sa_approve clk explicit_yes s).2
| sa_step_revoke : sa_step s (sa_revoke s)
| sa_step_reserve now operation_id capability_id :
    sa_step s (reserve_run now operation_id capability_id s).2
| sa_step_mint token_id : sa_step s (record_minted_token token_id s).

(** The authorities a process can hold: drafted, then operated on. *)
Definition sa_reachable (s : StandingAuthorityV1) : Prop :=
  exists clk id account zone caps groups inventory ttl prefix runs expires s0,
    sa_draft clk id account zone caps groups inventory ttl prefix runs expires = Ok s0 /\
    rtc sa_step s0 s.

(** *** Specifications *)

Definition operational (s : StandingAuthorityV1) (now : DateTime) : Prop :=
  sa_status s = Active /\ dt_gt now (sa_expires_at s) = false /\
  hash_value (sa_hashable_content s) = Ok (sa_content_hash s) /\
  exists approval, sa_approval s = Some approval /\
    approval_approved_content_hash approval = sa_content_hash s.

Definition within_budget (s : StandingAuthorityV1) (now : DateTime) : Prop :=
  (runs_in_last_day s now < sa_max_runs_per_day s)%Z.

(** The fields the operator reviewed. *)
Definition same_grant (a b : StandingAuthorityV1) : Prop :=
  sa_schema_version a = sa_schema_version b /\
  sa_authority_id a = sa_authority_id b /\
  sa_created_at a = sa_created_at b /\
  sa_expires_at a = sa_expires_at b /\
  sa_account_id a = sa_account_id b /\
  sa_zone_id a = sa_zone_id b /\
  sa_capability_ids a = sa_capability_ids b /\
  sa_permission_group_ids a = sa_permission_group_ids b /\
  sa_permission_inventory_hash a = sa_permission_inventory_hash b /\
  sa_max_child_ttl_hours a = sa_max_child_ttl_hours b /\
  sa_name_prefix a = sa_name_prefix b /\
  sa_max_runs_per_day a = sa_max_runs_per_day b.

(** The runs whose reservation lies in the 24 hours from [start]. *)
Definition runs_in_window (s : StandingAuthorityV1) (start : DateTime)
  : list StandingAuthorityRunV1 :=
  List.filter (fun run => (ns start <=? ns (run_at run))%Z
    && (ns (run_at run) <=? ns start + hours 24)%Z) (sa_run_log s).
End Authority.

(** ** Facts *)

Lemma ensure_operational_iff `{Runtime} s now :
  ensure_operational_at s now = Ok tt <-> operational s now.
Proof.
  unfold ensure_operational_at, operational. rewrite !guard_ok, neqb_false.
  destruct (hash_value (sa_hashable_content s)) as [h|e]; cbn [res_bind].
  - rewrite guard_ok, orb_false_iff, neqb_false, negb_false_iff.
    destruct (sa_approval s) as [a|]; cbn [is_some_and]; rewrite ?eqb_true; split.
    + intros (? & ? & (-> & ?) & _). repeat split; eauto.
    + intros (? & ? & [= ->] & ? & [= ->] & ?). done.
    + intros (_ & _ & (_ & [=]) & _).
    + intros (_ & _ & _ & ? & [=] & _).
  - split; [by intros (_ & _ & [=])|by intros (_ & _ & [=] & _)].
Qed.

Lemma ensure_run_budget_iff s now :
  ensure_run_budget s now = Ok tt <-> within_budget s now.
Proof. unfold ensure_run_budget, within_budget. rewrite guard_ok, Z.leb_gt. tauto. Qed.

(** What [reserve_run] does when it succeeds, and that it does nothing else. *)
Lemma reserve_run_ok `{Runtime} now op cap s s' :
  reserve_run now op cap s = (Ok tt, s') <->
  operational s now /\ (op ∉ map run_operation_id (sa_run_log s)) /\ within_budget s now /\
  s' = sa_set_log (sa_run_log s ++ [mkStandingAuthorityRunV1 now op cap]) s.
Proof.
  unfold reserve_run, st_bind, st_get, st_lift, st_throw, st_modify.
  rewrite <- ensure_operational_iff, <- ensure_run_budget_iff.
  assert (Hex : (existsb (fun run => run_operation_id run =? op) (sa_run_log s))
    = contains (map run_operation_id (sa_run_log s)) op).
  { unfold contains. induction (sa_run_log s) as [|x l IH]; cbn; [done|by rewrite IH]. }
  rewrite Hex. destruct (ensure_operational_at s now) as [[]|]; [|intuition congruence].
  destruct (contains _ op) eqn:Ec; reflect_eqb; [intuition congruence|].
  destruct (ensure_run_budget s now) as [[]|]; intuition congruence.
Qed.

Lemma reserve_run_err `{Runtime} now op cap s e s' :
  reserve_run now op cap s = (Err e, s') -> s' = s.
Proof.
  unfold reserve_run, st_bind, st_get, st_lift, st_throw, st_modify.
  intros Hr. branches Hr; done.
Qed.

Lemma sa_approve_ok `{Runtime} clk yes s s' :
  sa_approve clk yes s = (Ok tt, s') <->
  yes = true /\ sa_status s = PendingApproval /\ dt_gt (clk 0) (sa_expires_at s) = false /\
  hash_value (sa_hashable_content s) = Ok (sa_content_hash s) /\
  s' = sa_set_status Active (sa_set_approval
    (Some {| approval_approved_at := clk 1;
             approval_approved_content_hash := sa_content_hash s;
             approval_max_cost := None |}) s).
Proof.
  unfold sa_approve, st_bind, st_get, st_lift, st_throw, st_modify.
  destruct yes; cbn; [|intuition congruence].
  destruct (sa_status s =? PendingApproval) eqn:Es; reflect_eqb; cbn; [|intuition congruence].
  destruct (dt_gt _ _); [intuition congruence|].
  destruct (hash_value _) as [h|]; [|intuition congruence].
  destruct (h =? sa_content_hash s) eqn:Eh; reflect_eqb; cbn; intuition congruence.
Qed.

Lemma sa_approve_err `{Runtime} clk yes s e s' :
  sa_approve clk yes s = (Err e, s') -> s' = s.
Proof.
  unfold sa_approve, st_bind, st_get, st_lift, st_throw, st_modify.
  intros Hr. branches Hr; done.
Qed.

(** Every method call either leaves the authority alone or makes exactly one
    of these changes. *)
Lemma sa_step_cases `{Runtime} s s' :
  sa_step s s' ->
  s' = s \/
  (exists clk, sa_approve clk true s = (Ok tt, s')) \/
  s' = sa_revoke s \/
  (exists now op cap, reserve_run now op cap s = (Ok tt, s')) \/
  (exists token, s' = sa_set_minted (sa_minted_token_ids s ++ [token]) s).
Proof.
  intros [clk yes| |now op cap|token].
  - destruct (sa_approve clk yes s) as [[[]|e] s1] eqn:E; cbn.
    + pose proof (proj1 (sa_approve_ok clk yes s s1) E) as (-> & _).
      right. left. by exists clk.
    + left. by eapply sa_approve_err.
  - tauto.
  - destruct (reserve_run now op cap s) as [[[]|e] s1] eqn:E; cbn.
    + do 3 right. left. by exists now, op, cap.
    + left. by eapply reserve_run_err.
  - unfold record_minted_token. destruct (existsb _ _); [by left|]. do 4 right. by exists token.
Qed.

Ltac sa_cases Hstep :=
  apply sa_step_cases in Hstep as
    [-> | [[?clk Hstep] | [-> | [(?now & ?op & ?cap & Hstep) | [?token ->]]]]];
  try (apply sa_approve_ok in Hstep as (_ & ?Hpending & ?Hunexpired & ?Hhash & ->));
  try (apply reserve_run_ok in Hstep as (?Hop & ?Hfresh & ?Hbudget & ->)).

(** No method touches a reviewed field. *)
Lemma same_grant_step `{Runtime} s0 s s' :
  same_grant s s0 -> sa_step s s' -> same_grant s' s0.
Proof. intros Hg Hs. sa_cases Hs; exact Hg. Qed.

Lemma same_grant_rtc `{Runtime} s s' : rtc sa_step s s' -> same_grant s' s.
Proof.
  intros H1. enough (forall s0, same_grant s s0 -> same_grant s' s0) as Hg.
  { apply Hg. repeat split. }
  induction H1 as [|x y z Hxy _ IH]; intros s0 Hg; [done|].
  apply IH. by eapply same_grant_step.
Qed.

Lemma revoked_step `{Runtime} s s' :
  sa_status s = Revoked -> sa_step s s' -> sa_status s' = Revoked.
Proof.
  intros Hr Hs. sa_cases Hs; cbn; congruence.
Qed.

(** *** The rolling budget *)

(** Each entry was appended while fewer than [max] earlier entries were at
    most 24 hours old (or later than it). *)
Inductive paced (max : Z) : list StandingAuthorityRunV1 -> Prop :=
| paced_nil : paced max []
| paced_snoc log run :
    paced max log ->
    (Z.of_nat (length (List.filter (in_last_day (run_at run)) log)) < max)%Z ->
    paced max (log ++ [run]).

Lemma filter_length_mono {A} (f g : A -> bool) l :
  (forall x, f x = true -> g x = true) ->
  length (List.filter f l) <= length (List.filter g l).
Proof.
  intros Hfg. induction l as [|x l IH]; cbn; [done|].
  destruct (f x) eqn:E; [rewrite (Hfg _ E); cbn; lia|]. destruct (g x); cbn; lia.
Qed.

Lemma paced_window max log start :
  (0 <= max)%Z -> paced max log ->
  (Z.of_nat (length (List.filter (fun run => (ns start <=? ns (run_at run))%Z
      && (ns (run_at run) <=? ns start + hours 24)%Z) log)) <= max)%Z.
Proof.
  intros Hmax. induction 1 as [|log run _ IH Hlt]; [done|].
  rewrite List.filter_app, length_app. cbn [List.filter].
  destruct (_ && _) eqn:E; cbn [length]; [|lia]. split_andb.
  etransitivity; [|apply Z.le_succ_l; exact Hlt].
  rewrite <- Nat2Z.inj_succ, Nat.add_1_r. apply inj_le, le_n_S, filter_length_mono.
  intros x Hx. unfold in_last_day, dt_sub. split_andb. rewrite Z.leb_le in *. lia.
Qed.

Definition run_inv (s : StandingAuthorityV1) : Prop :=
  paced (sa_max_runs_per_day s) (sa_run_log s) /\
  NoDup (map run_operation_id (sa_run_log s)).

Lemma run_inv_step `{Runtime} s s' : run_inv s -> sa_step s s' -> run_inv s'.
Proof.
  intros [Hp Hn] Hs. sa_cases Hs; split; cbn; try done.
  - constructor; [done|]. exact Hbudget.
  - rewrite map_app. apply NoDup_app. split; [done|]. split; [|apply NoDup_singleton].
    intros x Hx ->%list_elem_of_singleton. done.
Qed.

Lemma sa_draft_ok `{Runtime} clk id account zone caps groups inventory ttl prefix runs expires s :
  sa_draft clk id account zone caps groups inventory ttl prefix runs expires = Ok s <->
  exists h, s = mkStandingAuthorityV1 1 id (clk 0) expires account zone caps
      (dedup (sort groups)) inventory ttl prefix runs PendingApproval None [] [] h /\
    hash_value (sa_hashable_content s) = Ok h.
Proof.
  unfold sa_draft, sa_refresh_hash, st_bind, st_get, st_lift, st_modify.
  set (d := mkStandingAuthorityV1 _ _ _ _ _ _ _ _ _ _ _ _ _ _ _ _ _).
  destruct (hash_value (sa_hashable_content d)) as [h|e] eqn:E; split.
  - intros [= <-]. exists h. split; [done|exact E].
  - intros (h' & -> & E'). change (hash_value (sa_hashable_content d) = Ok h') in E'.
    rewrite E in E'. injection E' as <-. done.
  - done.
  - intros (h' & -> & E'). change (hash_value (sa_hashable_content d) = Ok h') in E'.
    congruence.
Qed.

Lemma sa_reachable_inv `{Runtime} (P : StandingAuthorityV1 -> Prop) :
  (forall clk id account zone caps groups inventory ttl prefix runs expires s,
    sa_draft clk id account zone caps groups inventory ttl prefix runs expires = Ok s -> P s) ->
  (forall s s', P s -> sa_step s s' -> P s') ->
  forall s, sa_reachable s -> P s.
Proof.
  intros H0 Hstep s (clk & id & account & zone & caps & groups & inventory & ttl & prefix &
    runs & expires & s0 & Hd & Hr).
  apply H0 in Hd. clear H0. induction Hr as [|x y z Hxy _ IH]; [done|].
  apply IH. by eapply Hstep.
Qed.

Lemma sa_reachable_step `{Runtime} s s' : sa_reachable s -> sa_step s s' -> sa_reachable s'.
Proof.
  intros (clk & id & account & zone & caps & groups & inventory & ttl & prefix & runs &
    expires & s0 & Hd & Hr) Hs.
  exists clk, id, account, zone, caps, groups, inventory, ttl, prefix, runs, expires, s0.
  split; [done|by eapply rtc_r].
Qed.

Lemma sa_reachable_run_inv `{Runtime} s : sa_reachable s -> run_inv s.
Proof.
  revert s. apply sa_reachable_inv; [|intros; by eapply run_inv_step].
  intros * (h & -> & _)%sa_draft_ok. split; constructor.
Qed.

(** *** The grant hash *)

Lemma sa_hashable_content_struct `{Runtime} s :
  sa_hashable_content s = struct_value [
    field "schema_version" (sa_schema_version s);
    field "authority_id" (sa_authority_id s);
    field "created_at" (sa_created_at s);
    field "expires_at" (sa_expires_at s);
    field "account_id" (sa_account_id s);
    field "capability_ids" (sa_capability_ids s);
    field "permission_group_ids" (sa_permission_group_ids s);
    field "permission_inventory_hash" (sa_permission_inventory_hash s);
    field "max_child_ttl_hours" (sa_max_child_ttl_hours s);
    field "name_prefix" (sa_name_prefix s);
    field "max_runs_per_day" (sa_max_runs_per_day s);
    field_some "zone_id" (sa_zone_id s)].
Proof.
  unfold sa_hashable_content, field_some. destruct (sa_zone_id s) as [z|]; cbn [fmap option_fmap option_map].
  - by rewrite object_insert_struct.
  - by rewrite <- (struct_value_snoc_none "zone_id").
Qed.

Lemma sa_hashable_content_inj `{RuntimeInjective} a b :
  sa_hashable_content a = sa_hashable_content b -> same_grant a b.
Proof.
  rewrite !sa_hashable_content_struct. intros E.
  apply struct_value_fields in E;
    [|reflexivity|apply nodupb_NoDup; vm_compute; reflexivity].
  destruct a, b. unfold same_grant.
  cbn [map snd field field_some sa_schema_version sa_authority_id sa_created_at
    sa_expires_at sa_account_id sa_capability_ids sa_permission_group_ids
    sa_permission_inventory_hash sa_max_child_ttl_hours sa_name_prefix
    sa_max_runs_per_day sa_zone_id] in *.
  struct_fields E. repeat split.
Qed.

Lemma sa_hashable_content_same `{Runtime} a b :
  same_grant a b -> sa_hashable_content a = sa_hashable_content b.
Proof.
  intros (H1 & H2 & H3 & H4 & H5 & H6 & H7 & H8 & H9 & H10 & H11 & H12).
  rewrite !sa_hashable_content_struct. by rewrite H1, H2, H3, H4, H5, H6, H7, H8, H9, H10, H11, H12.
Qed.

(** *** [sort] and [dedup] *)

Lemma insert_sorted_in x y l : (x ∈ insert_sorted y l) <-> x = y \/ x ∈ l.
Proof.
  induction l as [|z l IH]; cbn; [set_solver|]. destruct (str_ltb z y); set_solver.
Qed.

Lemma sort_in x l : (x ∈ sort l) <-> x ∈ l.
Proof.
  induction l as [|z l IH]; [done|]. unfold sort in *. cbn. rewrite insert_sorted_in, IH. set_solver.
Qed.

Lemma dedup_in x l : (x ∈ dedup l) <-> x ∈ l.
Proof.
  induction l as [|z [|y l] IH]; [done|done|].
  change (dedup (z :: y :: l)) with (if z =? y then dedup (y :: l) else z :: dedup (y :: l)).
  destruct (z =? y) eqn:E; reflect_eqb; set_solver.
Qed.

Definition le_all (x : string) (l : list string) : Prop :=
  forall y, y ∈ l -> str_ltb y x = false.
Fixpoint ordered (l : list string) : Prop :=
  match l with [] => True | x :: t => le_all x t /\ ordered t end.

Lemma str_le_trans x y z : str_ltb y x = false -> str_ltb z y = false -> str_ltb z x = false.
Proof.
  intros H1 H2. destruct (str_ltb z x) eqn:E; [|done].
  destruct (str_ltb x y) eqn:E2.
  - by rewrite (str_ltb_trans _ _ _ E E2) in H2.
  - rewrite (str_ltb_total _ _ E2 H1) in E. congruence.
Qed.

Lemma insert_sorted_ordered x l : ordered l -> ordered (insert_sorted x l).
Proof.
  induction l as [|y l IH]; cbn; [intros _; split; [by intros ? ?%not_elem_of_nil|done]|].
  intros [Hy Hl]. destruct (str_ltb y x) eqn:E; cbn.
  - split; [|by apply IH]. intros z [->|Hz]%insert_sorted_in; [by apply str_ltb_asym|by apply Hy].
  - split; [|done]. intros z [->|Hz]%elem_of_cons; [done|]. eapply str_le_trans; [done|by apply Hy].
Qed.

Lemma sort_ordered l : ordered (sort l).
Proof. induction l as [|x l IH]; [done|]. by apply insert_sorted_ordered. Qed.

Lemma dedup_ordered l : ordered l -> windows2_all str_ltb (dedup l) = true.
Proof.
  assert (Hhd : forall y l, exists t, dedup (y :: l) = y :: t).
  { intros y l'. revert y. induction l' as [|z l' IH]; intros y; [by exists []|].
    change (dedup (y :: z :: l')) with (if y =? z then dedup (z :: l') else y :: dedup (z :: l')).
    destruct (y =? z) eqn:E; reflect_eqb; subst; eauto. }
  induction l as [|x [|y l] IH]; [done|done|]. intros [Hx Ho].
  change (dedup (x :: y :: l)) with (if x =? y then dedup (y :: l) else x :: dedup (y :: l)).
  destruct (x =? y) eqn:E; [by apply IH|]. destruct (Hhd y l) as [t Ht].
  specialize (IH Ho). rewrite Ht in *.
  change (str_ltb x y && windows2_all str_ltb (y :: t) = true). rewrite IH, andb_true_r.
  destruct (str_ltb x y) eqn:E'; [done|]. reflect_eqb. destruct E. apply str_ltb_total; [done|].
  apply Hx. set_solver.
Qed.

(** ** Properties *)

(** A child token is minted unattended exactly when every bound holds: the
    grant is active, unexpired and still carries an approval of its exact
    content; fewer than [max_runs_per_day] runs are at most 24 hours old; the
    name carries the pinned prefix; the requested resources are a non-empty
    subset of the pinned account (and zone); the requested groups are a
    non-empty subset of the allowlist; and the child declares an expiry no
    later than the maximum child TTL from now. *)
Theorem authorize_token_create_iff `{Runtime} (s : StandingAuthorityV1) now name groups
    resources expiry :
  authorize_token_create s now name groups resources expiry = Ok tt <->
  operational s now /\ within_budget s now /\
  (exists suffix, name = (sa_name_prefix s ++ suffix)%string) /\
  groups <> [] /\ resources <> [] /\
  (forall r, r ∈ resources -> r ∈ allowed_token_resources s) /\
  (forall g, g ∈ groups -> g ∈ sa_permission_group_ids s) /\
  exists at_, expiry = Some at_ /\
    (ns at_ <= ns now + hours (sa_max_child_ttl_hours s))%Z.
Proof.
  unfold authorize_token_create.
  rewrite !res_bind_unit_ok, ensure_operational_iff, ensure_run_budget_iff, guard_ok,
    negb_false_iff, starts_with_true, !guard_ok, !length_zero_false, !res_bind_unit_ok,
    !for_each_ok, !Forall_forall.
  setoid_rewrite guard_unit_ok. setoid_rewrite negb_false_iff.
  setoid_rewrite contains_true.
  destruct expiry as [at_|]; cbn [ok_or res_bind].
  - rewrite guard_unit_ok, Z.ltb_ge. unfold dt_sub.
    assert (Hexp : (exists a, Some at_ = Some a /\
        (ns a <= ns now + hours (sa_max_child_ttl_hours s))%Z) <->
      (ns at_ - ns now <= hours (sa_max_child_ttl_hours s))%Z).
    { split; [intros (a & [= <-] & ?); lia|intros; exists at_; split; [done|lia]]. }
    rewrite Hexp. tauto.
  - split; [by intros (_ & _ & _ & _ & _ & _ & _ & [=])|].
    by intros (_ & _ & _ & _ & _ & _ & _ & a & [=] & _).
Qed.

(** Revocation is terminal. Whatever sequence of calls follows it, the
    authority stays revoked, reads ["revoked"] at every instant, admits no run
    and authorises neither a mint nor a revoke. *)
Theorem revocation_is_terminal `{Runtime} (s s' : StandingAuthorityV1) :
  rtc sa_step (sa_revoke s) s' ->
  sa_status s' = Revoked /\
  forall now,
    effective_status s' now = status_as_str Revoked /\
    is_ok (ensure_operational_at s' now) = false /\
    (forall name groups resources expiry,
       is_ok (authorize_token_create s' now name groups resources expiry) = false) /\
    (forall token, is_ok (authorize_token_delete s' now token) = false) /\
    (forall operation capability, is_ok (reserve_run now operation capability s').1 = false).
Proof.
  intros Hr. assert (Hs : sa_status s' = Revoked).
  { enough (forall a b, rtc sa_step a b -> sa_status a = Revoked -> sa_status b = Revoked) as Hx
      by by eapply Hx.
    induction 1 as [|a b c Hab _ IH]; [done|]. intros Ha. by eapply IH, revoked_step. }
  split; [done|]. intros now.
  assert (He : exists e, ensure_operational_at s' now = Err e).
  { unfold ensure_operational_at. rewrite Hs. by eexists. }
  destruct He as [e He]. split; [unfold effective_status; by rewrite Hs|].
  unfold authorize_token_create, authorize_token_delete, reserve_run, st_bind, st_get, st_lift.
  by rewrite !He.
Qed.

(** C36: the run budget is a rolling bound. On every authority a process can
    hold, any window of 24 hours - not only the ones ending now, and whatever
    the clock did between reservations - contains at most [max_runs_per_day]
    reserved runs, and no operation is reserved twice. *)
Theorem rolling_budget `{Runtime} (s : StandingAuthorityV1) (start : DateTime) :
  sa_reachable s -> (0 <= sa_max_runs_per_day s)%Z ->
  (Z.of_nat (length (runs_in_window s start)) <= sa_max_runs_per_day s)%Z /\
  NoDup (map run_operation_id (sa_run_log s)).
Proof.
  intros Hr Hmax. apply sa_reachable_run_inv in Hr as [Hp Hn].
  split; [by apply paced_window|done].
Qed.

(** An operational authority is one whose current grant is the grant that
    was approved. If an approval succeeded on [s0] and [s] still carries that
    approval and is operational, then every reviewed field of [s] is the one
    [s0] had when the operator approved it - or SHA-256 collided. *)
Theorem approval_binds_grant `{RuntimeInjective} clk s0 s1 s now :
  sa_approve clk true s0 = (Ok tt, s1) ->
  sa_approval s = sa_approval s1 -> ensure_operational_at s now = Ok tt ->
  same_grant s s0 \/ hash_collision (sa_hashable_content s) (sa_hashable_content s0).
Proof.
  intros (_ & _ & _ & Hh0 & ->)%sa_approve_ok Ha (_ & _ & Hh & a & Ha' & Hc)%ensure_operational_iff.
  rewrite Ha' in Ha. cbn in Ha. injection Ha as ->. cbn in Hc. rewrite Hc in Hh0.
  destruct (hash_value_binds _ _ _ Hh Hh0) as [E|E]; [left|by right].
  by apply sa_hashable_content_inj.
Qed.

(** The grant ceremony. A draft never operates by itself: it is pending,
    its allowlist is the requested groups sorted without duplicates, and an
    explicit approval before expiry - and nothing less - turns it into an
    authority that is operational until it expires. *)
Theorem draft_then_approve `{RuntimeTotal} clk clk' yes now id account zone caps groups
    inventory ttl prefix runs expires :
  exists s, sa_draft clk id account zone caps groups inventory ttl prefix runs expires = Ok s /\
    sa_status s = PendingApproval /\ is_ok (ensure_operational_at s now) = false /\
    windows2_all str_ltb (sa_permission_group_ids s) = true /\
    (forall g, g ∈ sa_permission_group_ids s <-> g ∈ groups) /\
    (is_ok (sa_approve clk' yes s).1 = yes && negb (dt_gt (clk' 0) expires)) /\
    (is_ok (sa_approve clk' yes s).1 = false -> (sa_approve clk' yes s).2 = s) /\
    (is_ok (sa_approve clk' yes s).1 = true ->
     (ensure_operational_at (sa_approve clk' yes s).2 now = Ok tt <->
      dt_gt now expires = false)).
Proof.
  set (d := fun h => mkStandingAuthorityV1 1 id (clk 0) expires account zone caps
      (dedup (sort groups)) inventory ttl prefix runs PendingApproval None [] [] h).
  destruct (hash_value_total (sa_hashable_content (d ""%string))) as [h Hh].
  exists (d h). assert (Hdh : hash_value (sa_hashable_content (d h)) = Ok h) by exact Hh.
  split; [apply sa_draft_ok; by exists h|]. split; [done|]. split; [done|].
  split; [apply dedup_ordered, sort_ordered|].
  split; [intros g; cbn; by rewrite dedup_in, sort_in|].
  destruct (sa_approve clk' yes (d h)) as [[[]|e] s1] eqn:E; cbn [fst snd is_ok].
  - pose proof (proj1 (sa_approve_ok _ _ _ _) E) as (-> & _ & Hu & _ & Hs1).
    change (dt_gt (clk' 0) expires = false) in Hu.
    split; [by rewrite Hu|]. split; [done|]. intros _.
    rewrite ensure_operational_iff, Hs1. split; [by intros (_ & Hx & _)|].
    intros Hx. repeat split; try done. by eexists.
  - split; [|split; [intros _; by eapply sa_approve_err|done]].
    destruct yes; cbn; [|done]. destruct (dt_gt (clk' 0) expires) eqn:Eu; [done|].
    exfalso. assert (Hok : sa_approve clk' true (d h) = (Ok tt, sa_set_status Active
      (sa_set_approval (Some {| approval_approved_at := clk' 1;
         approval_approved_content_hash := h; approval_max_cost := None |}) (d h)))).
    { by apply sa_approve_ok. }
    congruence.
Qed.

(** The lineage bound. A token is revoked unattended exactly when the
    authority is operational, within budget, and minted that token; a token
    enters the lineage only by [record_minted_token], which records it once
    and touches nothing else. *)
Theorem authorize_token_delete_iff `{Runtime} (s : StandingAuthorityV1) now token other :
  (authorize_token_delete s now token = Ok tt <->
   operational s now /\ within_budget s now /\ token ∈ sa_minted_token_ids s) /\
  (forall t, t ∈ sa_minted_token_ids (record_minted_token other s) <->
     t = other \/ t ∈ sa_minted_token_ids s) /\
  (NoDup (sa_minted_token_ids s) -> NoDup (sa_minted_token_ids (record_minted_token other s))) /\
  sa_set_minted (sa_minted_token_ids s) (record_minted_token other s) = s.
Proof.
  split; [|unfold record_minted_token].
  - unfold authorize_token_delete.
    change (existsb _ _) with (contains (sa_minted_token_ids s) token).
    by rewrite !res_bind_unit_ok, ensure_operational_iff, ensure_run_budget_iff, guard_unit_ok,
      negb_false_iff, contains_true.
  - change (existsb _ _) with (contains (sa_minted_token_ids s) other).
    destruct (contains _ other) eqn:E; reflect_eqb; cbn.
    + split; [intros t; split; [by right|by intros [->|]]|]. split; [done|]. by destruct s.
    + split; [intros t; rewrite elem_of_app, list_elem_of_singleton; tauto|].
      split; [|by destruct s]. intros Hn. apply NoDup_app.
      split; [done|]. split; [|apply NoDup_singleton]. intros x Hx ->%list_elem_of_singleton. done.
Qed.

(** ** Witnesses *)

Definition sample_grant (hash : string) (status : StandingAuthorityStatus)
    (approval : option ApprovalV1) : StandingAuthorityV1 :=
  mkStandingAuthorityV1 1 "authority" (at_s 0) (at_s 864000) "acct" (Some "zone")
    ["token.create"] ["dns.read"; "dns.write"] "inventory" 8 "cfctl-child-" 2
    status approval [] [] hash.
Definition sample_grant_hash : string :=
  match hash_value (sa_hashable_content (sample_grant "" PendingApproval None)) with
  | Ok h => h
  | Err _ => ""
  end.
Definition sample_pending : StandingAuthorityV1 :=
  sample_grant sample_grant_hash PendingApproval None.
Definition sample_active : StandingAuthorityV1 :=
  (sa_approve (clock_at 10) true sample_pending).2.

Lemma sample_reachable : sa_reachable sample_pending.
Proof.
  exists (clock_at 0), "authority"%string, "acct"%string, (Some "zone"%string),
    ["token.create"%string], ["dns.write"; "dns.read"; "dns.write"]%string,
    "inventory"%string, 8%Z, "cfctl-child-"%string, 2%Z, (at_s 864000), sample_pending.
  split; [vm_compute; reflexivity|apply rtc_refl].
Defined.

Lemma revocation_is_terminal_witness :
  sa_status (sa_approve (clock_at 20) true (sa_revoke sample_active)).2 = Revoked.
Proof.
  apply (revocation_is_terminal sample_active).
  apply rtc_once. apply sa_step_approve.
Defined.

Lemma rolling_budget_witness :
  let s := (reserve_run (at_s 90) "op-2" "token.create"
    (reserve_run (at_s 60) "op-1" "token.create" sample_active).2).2 in
  length (sa_run_log s) = 2 /\
  ((Z.of_nat (length (runs_in_window s (at_s 30))) <= sa_max_runs_per_day s)%Z /\
   NoDup (map run_operation_id (sa_run_log s))).
Proof.
  intros s. split; [vm_compute; reflexivity|].
  apply (rolling_budget s (at_s 30)); [|vm_compute; discriminate].
  eapply sa_reachable_step; [|exact (sa_step_reserve _ (at_s 90) "op-2" "token.create")].
  eapply sa_reachable_step; [|exact (sa_step_reserve _ (at_s 60) "op-1" "token.create")].
  eapply sa_reachable_step; [|exact (sa_step_approve _ (clock_at 10) true)].
  exact sample_reachable.
Defined.

Lemma approval_binds_grant_witness :
  let later := (reserve_run (at_s 60) "op-1" "token.create" sample_active).2 in
  same_grant later sample_pending \/
  hash_collision (sa_hashable_content later) (sa_hashable_content sample_pending).
Proof.
  intros later.
  apply (approval_binds_grant (clock_at 10) sample_pending sample_active later (at_s 60)).
  - vm_cast_no_check (eq_refl (sa_approve (clock_at 10) true sample_pending)).
  - vm_compute. reflexivity.
  - vm_compute. reflexivity.
Defined.

Lemma draft_then_approve_witness :
  exists s, sa_draft (clock_at 0) "authority" "acct" None ["token.create"] ["b"; "a"; "b"]
      "inventory" 8 "cfctl-" 2 (at_s 100) = Ok s /\
    is_ok (sa_approve (clock_at 50) true s).1 = true && negb (dt_gt (at_s 50) (at_s 100)).
Proof.
  destruct (draft_then_approve (clock_at 0) (clock_at 50) true (at_s 60) "authority" "acct" None
    ["token.create"]%string ["b"; "a"; "b"]%string "inventory" 8 "cfctl-" 2 (at_s 100))
    as (s & Hd & _ & _ & _ & _ & Ha & _).
  exists s. split; [exact Hd|exact Ha].
Defined.
