(* ===== verification/Plan.v ===== *)
(** Plans: [PlanV1] of crates/cfctl-core/src/lib.rs, its content hash, its
    approval and consumption, and the hash-chained transaction journal. *)

From Stdlib Require Import String Ascii ZArith Lia List Bool.
From stdpp Require Import base option list strings relations.
From S2P Require Import Prelude Strings Btree Json CatalogTypes Capability Core Policy Authority.

Open Scope cf_scope.

(** ** State *)

Inductive TransactionStageV1 : Type :=
| PlanPrepared
| ApprovalPersisted
| ConsumptionPersisted
| BoundaryAttemptPersisted
| BoundaryResponsePersisted
| SecretSinkPersisted
| VerificationAttemptPersisted
| VerificationResponsePersisted
| CompensationAttemptPersisted
| CompensationResponsePersisted
| Closed.
#[export] Instance TransactionStageV1_eq_dec : EqDecision TransactionStageV1.
Proof. solve_decision. Defined.

Definition stage_as_str (s : TransactionStageV1) : string :=
  match s with
  | PlanPrepared => "plan_prepared"
  | ApprovalPersisted => "approval_persisted"
  | ConsumptionPersisted => "consumption_persisted"
  | BoundaryAttemptPersisted => "boundary_attempt_persisted"
  | BoundaryResponsePersisted => "boundary_response_persisted"
  | SecretSinkPersisted => "secret_sink_persisted"
  | VerificationAttemptPersisted => "verification_attempt_persisted"
  | VerificationResponsePersisted => "verification_response_persisted"
  | CompensationAttemptPersisted => "compensation_attempt_persisted"
  | CompensationResponsePersisted => "compensation_response_persisted"
  | Closed => "closed"
  end%string.
#[export] Instance ser_TransactionStageV1 : Serialize TransactionStageV1 :=
  fun s => VString (stage_as_str s).

#[export] Program Instance inj_TransactionStageV1 : SerializeInj TransactionStageV1 :=
  {| ser_ok _ := True |}.
Next Obligation. by intros [] []. Qed.
#[export] Instance total_TransactionStageV1 : SerializeTotal TransactionStageV1.
Proof. done. Qed.

Definition rank (s : TransactionStageV1) : Z :=
  match s with
  | PlanPrepared => 0
  | ApprovalPersisted => 1
  | ConsumptionPersisted => 2
  | BoundaryAttemptPersisted => 3
  | BoundaryResponsePersisted => 4
  | SecretSinkPersisted => 5
  | VerificationAttemptPersisted => 6
  | VerificationResponsePersisted => 7
  | CompensationAttemptPersisted => 8
  | CompensationResponsePersisted => 9
  | Closed => 10
  end.

(** The derived [Debug] of a stage, as error reasons print it. *)
Definition stage_debug (s : TransactionStageV1) : string :=
  match s with
  | PlanPrepared => "PlanPrepared"
  | ApprovalPersisted => "ApprovalPersisted"
  | ConsumptionPersisted => "ConsumptionPersisted"
  | BoundaryAttemptPersisted => "BoundaryAttemptPersisted"
  | BoundaryResponsePersisted => "BoundaryResponsePersisted"
  | SecretSinkPersisted => "SecretSinkPersisted"
  | VerificationAttemptPersisted => "VerificationAttemptPersisted"
  | VerificationResponsePersisted => "VerificationResponsePersisted"
  | CompensationAttemptPersisted => "CompensationAttemptPersisted"
  | CompensationResponsePersisted => "CompensationResponsePersisted"
  | Closed => "Closed"
  end%string.

Record TransactionCheckpointV1 : Type := mkTransactionCheckpointV1 {
  cp_stage : TransactionStageV1;
  cp_recorded_at : DateTime;
  cp_plan_content_hash : string;
  cp_plan_status : PlanStatus;
  cp_previous_checkpoint_hash : option string;
  cp_artifact_hash : option string;
  cp_checkpoint_hash : string;
}.

Record PlanV1 : Type := mkPlanV1 {
  plan_schema_version : Z;
  plan_operation_id : string;
  plan_created_at : DateTime;
  plan_expires_at : DateTime;
  plan_profile_id : string;
  plan_account_id : string;
  plan_catalog_hash : string;
  plan_permission_lane : string;
  plan_precondition_hashes : btree string;
  plan_capability : CapabilityV1;
  plan_targets : Value;
  plan_input : Value;
  plan_affected_repositories : list string;
  plan_affected_resources : list string;
  plan_local_diffs : list Value;
  plan_cloudflare_diffs : list Value;
  plan_verification_steps : list string;
  plan_compensation_steps : list string;
  plan_non_reversible_warnings : list string;
  plan_policy : PolicyDecisionV1;
  plan_status : PlanStatus;
  plan_approval : option ApprovalV1;
  plan_cancelled_at : option DateTime;
  plan_content_hash : string;
  plan_transaction_stage : TransactionStageV1;
  plan_transaction_journal : list TransactionCheckpointV1;
  plan_transaction_artifacts : btree Value;
}.

(** Everything outside the reviewed content. *)
Definition plan_update (p : PlanV1) (status : PlanStatus) (approval : option ApprovalV1)
    (cancelled_at : option DateTime) (content_hash : string) (stage : TransactionStageV1)
    (journal : list TransactionCheckpointV1) (artifacts : btree Value) : PlanV1 :=
  {| plan_schema_version := plan_schema_version p;
     plan_operation_id := plan_operation_id p;
     plan_created_at := plan_created_at p;
     plan_expires_at := plan_expires_at p;
     plan_profile_id := plan_profile_id p;
     plan_account_id := plan_account_id p;
     plan_catalog_hash := plan_catalog_hash p;
     plan_permission_lane := plan_permission_lane p;
     plan_precondition_hashes := plan_precondition_hashes p;
     plan_capability := plan_capability p;
     plan_targets := plan_targets p;
     plan_input := plan_input p;
     plan_affected_repositories := plan_affected_repositories p;
     plan_affected_resources := plan_affected_resources p;
     plan_local_diffs := plan_local_diffs p;
     plan_cloudflare_diffs := plan_cloudflare_diffs p;
     plan_verification_steps := plan_verification_steps p;
     plan_compensation_steps := plan_compensation_steps p;
     plan_non_reversible_warnings := plan_non_reversible_warnings p;
     plan_policy := plan_policy p;
     plan_status := status;
     plan_approval := approval;
     plan_cancelled_at := cancelled_at;
     plan_content_hash := content_hash;
     plan_transaction_stage := stage;
     plan_transaction_journal := journal;
     plan_transaction_artifacts := artifacts |}.

Definition set_status status p :=
  plan_update p status (plan_approval p) (plan_cancelled_at p) (plan_content_hash p)
    (plan_transaction_stage p) (plan_transaction_journal p) (plan_transaction_artifacts p).
Definition set_approval approval p :=
  plan_update p (plan_status p) approval (plan_cancelled_at p) (plan_content_hash p)
    (plan_transaction_stage p) (plan_transaction_journal p) (plan_transaction_artifacts p).
Definition set_cancelled_at at_ p :=
  plan_update p (plan_status p) (plan_approval p) at_ (plan_content_hash p)
    (plan_transaction_stage p) (plan_transaction_journal p) (plan_transaction_artifacts p).
Definition set_content_hash hash p :=
  plan_update p (plan_status p) (plan_approval p) (plan_cancelled_at p) hash
    (plan_transaction_stage p) (plan_transaction_journal p) (plan_transaction_artifacts p).
Definition set_stage stage p :=
  plan_update p (plan_status p) (plan_approval p) (plan_cancelled_at p) (plan_content_hash p)
    stage (plan_transaction_journal p) (plan_transaction_artifacts p).
Definition set_journal journal p :=
  plan_update p (plan_status p) (plan_approval p) (plan_cancelled_at p) (plan_content_hash p)
    (plan_transaction_stage p) journal (plan_transaction_artifacts p).
Definition set_artifacts artifacts p :=
  plan_update p (plan_status p) (plan_approval p) (plan_cancelled_at p) (plan_content_hash p)
    (plan_transaction_stage p) (plan_transaction_journal p) artifacts.

(** The clock readings left after the first [n]. *)
Definition after (n : nat) (clk : Clock) : Clock := fun k => clk (n + k).

Definition approval_matches (approval : option ApprovalV1) (hash : string) : bool :=
  is_some_and approval (fun a => approval_approved_content_hash a =? hash).

(** ** Operations *)

Section Operations.
Context `{Runtime}.
Open Scope string_scope.
Open Scope cf_scope.

Definition hashable_content (p : PlanV1) : Value := struct_value [
  field "schema_version" (plan_schema_version p);
  field "operation_id" (plan_operation_id p);
  field "created_at" (plan_created_at p);
  field "expires_at" (plan_expires_at p);
  field "profile_id" (plan_profile_id p);
  field "account_id" (plan_account_id p);
  field "catalog_hash" (plan_catalog_hash p);
  field "permission_lane" (plan_permission_lane p);
  field "precondition_hashes" (plan_precondition_hashes p);
  field "capability" (plan_capability p);
  field "targets" (plan_targets p);
  field "input" (plan_input p);
  field "affected_repositories" (plan_affected_repositories p);
  field "affected_resources" (plan_affected_resources p);
  field "local_diffs" (plan_local_diffs p);
  field "cloudflare_diffs" (plan_cloudflare_diffs p);
  field "verification_steps" (plan_verification_steps p);
  field "compensation_steps" (plan_compensation_steps p);
  field "non_reversible_warnings" (plan_non_reversible_warnings p);
  field "policy" (plan_policy p)].

Definition refresh_hash : ST PlanV1 CoreError unit :=
  let* self := st_get in
  let* hash := st_lift (hash_value (hashable_content self)) in
  st_modify (set_content_hash hash).

Definition approval_receipt (p : PlanV1) (approval : ApprovalV1) : Value := struct_value [
  field "schema_version" 1%Z;
  field "operation_id" (plan_operation_id p);
  field "approved_at" (approval_approved_at approval);
  field "approved_content_hash" (approval_approved_content_hash approval);
  field "max_cost" (approval_max_cost approval)].

Definition checkpoint_value (p : PlanV1) (stage : TransactionStageV1)
    (recorded_at : DateTime) (plan_content_hash : string) (status : PlanStatus)
    (previous_checkpoint_hash artifact_hash : option string) : Value :=
  let value := struct_value [
    field "operation_id" (plan_operation_id p);
    field "plan_content_hash" plan_content_hash;
    field "plan_status" status;
    field "stage" stage;
    field "recorded_at" recorded_at;
    field "previous_checkpoint_hash" previous_checkpoint_hash] in
  match artifact_hash with
  | Some artifact_hash => object_insert "artifact_hash" (VString artifact_hash) value
  | None => value
  end.

Definition transaction_checkpoint_hash (p : PlanV1) (stage : TransactionStageV1)
    (recorded_at : DateTime) (plan_content_hash : string) (status : PlanStatus)
    (previous_checkpoint_hash artifact_hash : option string) : Result string :=
  hash_value (checkpoint_value p stage recorded_at plan_content_hash status
    previous_checkpoint_hash artifact_hash).

Definition invalid_transaction_journal (p : PlanV1) (reason : string) : CoreError :=
  InvalidTransactionJournal (plan_operation_id p) reason.

Definition transaction_artifact (p : PlanV1) (stage : TransactionStageV1) : option Value :=
  bt_get (stage_as_str stage) (plan_transaction_artifacts p).

(** *** Journal validation *)

Definition validate_approval_checkpoint (p : PlanV1) (bind_current_status : bool)
  : Result unit :=
  let invalid := invalid_transaction_journal p in
  if existsb (fun checkpoint => cp_stage checkpoint =? ApprovalPersisted)
      (plan_transaction_journal p)
  then
    let? approval := ok_or (invalid "approval checkpoint has no current approval")
      (plan_approval p) in
    guard (approval_approved_content_hash approval <>? plan_content_hash p)
      (invalid "approval content hash does not match the current plan") (
    let? _ := match approval_max_cost approval with
      | Some max_cost =>
          map_err (fun reason =>
            invalid ("approval cost ceiling is invalid: " ++ reason)%string)
            (validate_money max_cost)
      | None => Ok tt
      end in
    let expected_receipt := approval_receipt p approval in
    guard (negb (is_some_and (transaction_artifact p ApprovalPersisted)
                   (fun artifact => Value_eqb artifact expected_receipt)))
      (invalid "approval checkpoint does not bind the current approval")
      (Ok tt))
  else
    guard (bind_current_status && is_someb (plan_approval p))
      (invalid "current approval has no approval checkpoint") (Ok tt).

Definition invalid_checkpoint (p : PlanV1) (checkpoint : TransactionCheckpointV1)
    (what : string) : CoreError :=
  invalid_transaction_journal p
    ("checkpoint " ++ stage_debug (cp_stage checkpoint) ++ what)%string.

(** The artifact a checkpoint hashes, and how many it counts for. *)
Definition checkpoint_artifact (p : PlanV1) (checkpoint : TransactionCheckpointV1)
  : Result nat :=
  let invalid := invalid_checkpoint p checkpoint in
  match cp_artifact_hash checkpoint, transaction_artifact p (cp_stage checkpoint) with
  | Some expected_hash, Some artifact =>
      guard (negb (Value_eqb (redact_json artifact) artifact))
        (invalid " artifact hash does not match") (
      let? hash := hash_value artifact in
      guard (hash <>? expected_hash)
        (invalid " artifact hash does not match") (Ok 1))
  | None, None => Ok 0
  | _, _ => Err (invalid " artifact presence does not match")
  end.

(** One turn of the validation loop; the result is its contribution to
    [artifact_count]. *)
Definition validate_checkpoint (p : PlanV1) (previous_stage : option TransactionStageV1)
    (previous_hash : option string) (checkpoint : TransactionCheckpointV1) : Result nat :=
  let invalid := invalid_checkpoint p checkpoint in
  guard (is_some_and previous_stage (fun stage =>
           (rank (cp_stage checkpoint) <=? rank stage)%Z))
    (invalid " is not forward-only") (
  guard (cp_previous_checkpoint_hash checkpoint <>? previous_hash)
    (invalid " does not link to its predecessor") (
  let? counted := checkpoint_artifact p checkpoint in
  let? expected := transaction_checkpoint_hash p (cp_stage checkpoint)
    (cp_recorded_at checkpoint) (cp_plan_content_hash checkpoint)
    (cp_plan_status checkpoint) (cp_previous_checkpoint_hash checkpoint)
    (cp_artifact_hash checkpoint) in
  guard (cp_checkpoint_hash checkpoint <>? expected)
    (invalid " hash does not match")
    (Ok counted))).

(** The loop: the stage of the last checkpoint and the artifact count. *)
Fixpoint validate_checkpoints (p : PlanV1) (previous_stage : option TransactionStageV1)
    (previous_hash : option string) (artifact_count : nat)
    (journal : list TransactionCheckpointV1)
  : Result (option TransactionStageV1 * nat) :=
  match journal with
  | [] => Ok (previous_stage, artifact_count)
  | checkpoint :: rest =>
      let? counted := validate_checkpoint p previous_stage previous_hash checkpoint in
      validate_checkpoints p (Some (cp_stage checkpoint))
        (Some (cp_checkpoint_hash checkpoint)) (artifact_count + counted) rest
  end.

Definition validate_transaction_journal_inner (p : PlanV1) (bind_current_status : bool)
  : Result unit :=
  let invalid := invalid_transaction_journal p in
  if length (plan_transaction_journal p) =? 0 then
    guard (negb ((plan_status p =? Draft) && (plan_transaction_stage p =? PlanPrepared)))
      (invalid "a non-draft plan has no checkpoints") (Ok tt)
  else
    let? (previous_stage, artifact_count) :=
      validate_checkpoints p None None 0 (plan_transaction_journal p) in
    guard (artifact_count <>? length (plan_transaction_artifacts p))
      (invalid "transaction artifacts contain a receipt without a matching checkpoint") (
    guard (previous_stage <>? Some (plan_transaction_stage p))
      (invalid "current transaction stage does not match the journal tail") (
    let? _ := validate_approval_checkpoint p bind_current_status in
    guard (bind_current_status
           && is_some_and (last (plan_transaction_journal p))
                (fun checkpoint => cp_plan_status checkpoint <>? plan_status p))
      (invalid "current plan status does not match the journal tail")
      (Ok tt))).

Definition validate_transaction_journal (p : PlanV1) : Result unit :=
  validate_transaction_journal_inner p true.

(** *** Journal append *)

Definition advance_guard (p : PlanV1) (stage : TransactionStageV1) : Result unit :=
  if length (plan_transaction_journal p) =? 0 then
    guard (stage <>? PlanPrepared)
      (invalid_transaction_journal p "the first checkpoint must be plan_prepared") (Ok tt)
  else
    let? _ := validate_transaction_journal_inner p false in
    guard (rank stage <=? rank (plan_transaction_stage p))%Z
      (invalid_transaction_journal p ("checkpoint " ++ stage_debug stage
        ++ " does not advance past " ++ stage_debug (plan_transaction_stage p))%string)
      (Ok tt).

Definition record_transaction_stage_inner (clk : Clock) (stage : TransactionStageV1)
    (artifact : option Value) : ST PlanV1 CoreError unit :=
  let* self := st_get in
  do* st_lift (advance_guard self stage) in
  if is_some_and artifact (fun value => negb (Value_eqb (redact_json value) value)) then
    st_throw (invalid_transaction_journal self ("checkpoint " ++ stage_debug stage
      ++ " artifact contains secret-bearing fields")%string)
  else
  let recorded_at := clk 0 in
  let previous_checkpoint_hash :=
    cp_checkpoint_hash <$> last (plan_transaction_journal self) in
  let* artifact_hash := st_lift match artifact with
    | Some artifact => let? hash := hash_value artifact in Ok (Some hash)
    | None => Ok None
    end in
  let* checkpoint_hash := st_lift (transaction_checkpoint_hash self stage recorded_at
    (plan_content_hash self) (plan_status self) previous_checkpoint_hash artifact_hash) in
  do* match artifact with
    | Some artifact => st_modify (fun s =>
        set_artifacts (bt_insert (stage_as_str stage) artifact (plan_transaction_artifacts s)) s)
    | None => st_ret tt
    end in
  do* st_modify (fun s => set_journal (plan_transaction_journal s ++
    [{| cp_stage := stage;
        cp_recorded_at := recorded_at;
        cp_plan_content_hash := plan_content_hash s;
        cp_plan_status := plan_status s;
        cp_previous_checkpoint_hash := previous_checkpoint_hash;
        cp_artifact_hash := artifact_hash;
        cp_checkpoint_hash := checkpoint_hash |}]) s) in
  st_modify (set_stage stage).

Definition record_transaction_stage (clk : Clock) (stage : TransactionStageV1) :=
  record_transaction_stage_inner clk stage None.
Definition record_transaction_stage_with_artifact (clk : Clock)
    (stage : TransactionStageV1) (artifact : Value) :=
  record_transaction_stage_inner clk stage (Some artifact).

(** *** Lifecycle *)

Definition plan_draft (clk : Clock) (operation_id profile_id account_id catalog_hash : string)
    (capability : CapabilityV1) (targets : Value) : Result PlanV1 :=
  let created_at := clk 0 in
  let plan :=
    {| plan_schema_version := 1;
       plan_operation_id := operation_id;
       plan_created_at := created_at;
       plan_expires_at := dt_add created_at (hours 24);
       plan_profile_id := profile_id;
       plan_account_id := account_id;
       plan_catalog_hash := catalog_hash;
       plan_permission_lane := "unspecified";
       plan_precondition_hashes := [];
       plan_capability := capability;
       plan_targets := targets;
       plan_input := VNull;
       plan_affected_repositories := [];
       plan_affected_resources := [];
       plan_local_diffs := [];
       plan_cloudflare_diffs := [];
       plan_verification_steps := [];
       plan_compensation_steps := [];
       plan_non_reversible_warnings := [];
       plan_policy :=
         {| policy_schema_version := 1;
            policy_disposition := ApprovalRequired;
            policy_reasons := ["policy has not classified this operation"];
            policy_requires_cost_ceiling := false |};
       plan_status := Draft;
       plan_approval := None;
       plan_cancelled_at := None;
       plan_content_hash := "";
       plan_transaction_stage := PlanPrepared;
       plan_transaction_journal := [];
       plan_transaction_artifacts := [] |} in
  match (do* refresh_hash in record_transaction_stage (after 1 clk) PlanPrepared) plan with
  | (Ok _, plan) => Ok plan
  | (Err e, _) => Err e
  end.

Definition invalid_plan_state (p : PlanV1) (expected : string) : CoreError :=
  InvalidPlanState (plan_operation_id p) (plan_status p) expected.

(** The ceiling the approval records: validated, its currency upper-cased. *)
Definition normalized_ceiling (p : PlanV1) (max_cost : option MoneyV1)
  : Result (option MoneyV1) :=
  match max_cost with
  | Some approved =>
      let? _ := map_err (InvalidCostCeiling (plan_operation_id p)) (validate_money approved) in
      Ok (Some {| money_currency := to_ascii_uppercase (money_currency approved);
                  money_amount := money_amount approved |})
  | None => Ok None
  end.

(** The approved ceiling covers the maximum the catalog declares. *)
Definition ceiling_covers_catalog (p : PlanV1) (max_cost : option MoneyV1) : Result unit :=
  let cost := cap_cost (plan_capability p) in
  if cost_incremental cost && cost_known cost then
    let? required := ok_or (InvalidCostCeiling (plan_operation_id p)
      "known incremental cost has no declared maximum") (cost_maximum cost) in
    let? currency := ok_or (InvalidCostCeiling (plan_operation_id p)
      "known incremental cost has no declared currency") (cost_currency cost) in
    let? _ := map_err (fun reason => InvalidCostCeiling (plan_operation_id p)
      ("declared catalog maximum is invalid: " ++ reason)%string)
      (validate_money_fields currency required) in
    guard (is_some_and max_cost (fun approved =>
        negb (eq_ignore_ascii_case (money_currency approved) currency)
        || f64_lt (money_amount approved) required))
      (CostCeilingTooLow (plan_operation_id p) currency required) (Ok tt)
  else Ok tt.

Definition approve (clk : Clock) (explicit_yes : bool) (max_cost : option MoneyV1)
  : ST PlanV1 CoreError unit :=
  let* self := st_get in
  if negb explicit_yes then st_throw ExplicitApprovalRequired
  else if plan_status self <>? Draft then st_throw (invalid_plan_state self "draft")
  else if dt_gt (clk 0) (plan_expires_at self) then
    do* st_modify (set_status Expired) in
    st_throw (PlanExpired (plan_operation_id self) (plan_expires_at self))
  else if policy_requires_cost_ceiling (plan_policy self) && is_noneb max_cost then
    st_throw (CostCeilingRequired (plan_operation_id self))
  else
  let* max_cost := st_lift (normalized_ceiling self max_cost) in
  do* st_lift (ceiling_covers_catalog self max_cost) in
  let* current_hash := st_lift (hash_value (hashable_content self)) in
  if current_hash <>? plan_content_hash self then
    st_throw (invalid_plan_state self "unchanged hash-bound draft")
  else
  let approval :=
    {| approval_approved_at := clk 1;
       approval_approved_content_hash := plan_content_hash self;
       approval_max_cost := max_cost |} in
  let receipt := approval_receipt self approval in
  do* st_modify (set_approval (Some approval)) in
  do* st_modify (set_status Approved) in
  st_on_err
    (record_transaction_stage_with_artifact (after 2 clk) ApprovalPersisted receipt)
    (fun s => set_status Draft (set_approval None s)).

(** The status a plan is consumed from. *)
Definition consumable (p : PlanV1) : Result unit :=
  match plan_status p with
  | Approved =>
      guard (negb (approval_matches (plan_approval p) (plan_content_hash p)))
        (PlanDrifted (plan_operation_id p)) (Ok tt)
  | Draft =>
      guard (negb ((policy_disposition (plan_policy p) =? AutoExecute)
                   && is_noneb (plan_approval p)))
        (invalid_plan_state p "approved or policy-authorized auto-execute draft") (Ok tt)
  | _ => Err (invalid_plan_state p "approved or policy-authorized auto-execute draft")
  end.

Definition mark_consumed (clk : Clock) : ST PlanV1 CoreError unit :=
  let* self := st_get in
  if dt_gt (clk 0) (plan_expires_at self) then
    do* st_modify (set_status Expired) in
    st_throw (PlanExpired (plan_operation_id self) (plan_expires_at self))
  else
  let* current_hash := st_lift (hash_value (hashable_content self)) in
  if current_hash <>? plan_content_hash self then
    st_throw (PlanDrifted (plan_operation_id self))
  else
  do* st_lift (consumable self) in
  do* st_modify (set_status Consumed) in
  record_transaction_stage (after 1 clk) ConsumptionPersisted.

Definition authority_receipt (authority : StandingAuthorityV1) : Value := struct_value [
  field "standing_authority_id" (sa_authority_id authority);
  field "standing_authority_content_hash" (sa_content_hash authority)].

(** The authority bounds the plan: operational now, same account, and the
    capability is on its allowlist. *)
Definition authority_covers (now : DateTime) (authority : StandingAuthorityV1) (p : PlanV1)
  : Result unit :=
  let? _ := ensure_operational_at authority now in
  guard (sa_account_id authority <>? plan_account_id p)
    (StandingAuthorityDenied (sa_authority_id authority)
      ("plan account `" ++ plan_account_id p
        ++ "` is outside the authority's pinned account")%string) (
  guard (negb (existsb (fun capability_id => capability_id =? cap_id (plan_capability p))
                 (sa_capability_ids authority)))
    (StandingAuthorityDenied (sa_authority_id authority)
      ("capability `" ++ cap_id (plan_capability p)
        ++ "` is outside the authority's allowlist")%string)
    (Ok tt)).

Definition mark_consumed_via_standing_authority (clk : Clock)
    (authority : StandingAuthorityV1) : ST PlanV1 CoreError unit :=
  let* self := st_get in
  if dt_gt (clk 0) (plan_expires_at self) then
    do* st_modify (set_status Expired) in
    st_throw (PlanExpired (plan_operation_id self) (plan_expires_at self))
  else
  let* current_hash := st_lift (hash_value (hashable_content self)) in
  if current_hash <>? plan_content_hash self then
    st_throw (PlanDrifted (plan_operation_id self))
  else if (plan_status self <>? Draft) || is_someb (plan_approval self)
          || (policy_disposition (plan_policy self) <>? ApprovalRequired) then
    st_throw (invalid_plan_state self
      "unapproved approval-required draft for standing-authority consumption")
  else
  do* st_lift (authority_covers (clk 1) authority self) in
  do* st_modify (set_status Consumed) in
  st_on_err
    (record_transaction_stage_with_artifact (after 2 clk) ConsumptionPersisted
      (authority_receipt authority))
    (set_status Draft).

Definition cancel (clk : Clock) : ST PlanV1 CoreError unit :=
  let* self := st_get in
  match plan_status self with
  | Draft | Approved | Expired =>
      let previous_status := plan_status self in
      do* st_modify (set_status Cancelled) in
      do* st_modify (set_cancelled_at (Some (clk 0))) in
      st_on_err (record_transaction_stage (after 1 clk) Closed)
        (fun s => set_cancelled_at None (set_status previous_status s))
  | Cancelled => st_ret tt
  | _ => st_throw (invalid_plan_state self "draft, approved, or expired")
  end.
End Operations.

Arguments record_transaction_stage_inner {_} clk stage artifact _ : simpl never.
Arguments approve {_} clk explicit_yes max_cost _ : simpl never.
Arguments mark_consumed {_} clk _ : simpl never.
Arguments mark_consumed_via_standing_authority {_} clk authority _ : simpl never.
Arguments cancel {_} clk _ : simpl never.
