(* ===== verification/PlanJournal.v ===== *)
(** The transaction journal of a plan: what [validate_transaction_journal]
    accepts as a proposition, what an append does, and that the hash chain
    makes the history tamper evident. *)

From Stdlib Require Import String Ascii ZArith Lia List Bool Sorting.Sorted.
From stdpp Require Import base option list strings relations.
From S2P Require Import Prelude Strings Btree Json Redaction Core Plan Demo.

Open Scope cf_scope.

(** ** Specifications *)

Section Specification.
Context `{Runtime}.

(** A checkpoint's artifact: present exactly when it carries a hash, free of
    secrets, and hashing to it. *)
Definition artifact_ok (p : PlanV1) (cp : TransactionCheckpointV1) : Prop :=
  match cp_artifact_hash cp with
  | None => transaction_artifact p (cp_stage cp) = None
  | Some h => exists artifact, transaction_artifact p (cp_stage cp) = Some artifact /\
      Value_eqb (redact_json artifact) artifact = true /\ hash_value artifact = Ok h
  end.

Definition own_hash_ok (p : PlanV1) (cp : TransactionCheckpointV1) : Prop :=
  transaction_checkpoint_hash p (cp_stage cp) (cp_recorded_at cp) (cp_plan_content_hash cp)
    (cp_plan_status cp) (cp_previous_checkpoint_hash cp) (cp_artifact_hash cp)
  = Ok (cp_checkpoint_hash cp).

Definition advances (previous : option TransactionStageV1) (stage : TransactionStageV1) : Prop :=
  match previous with Some s => (rank s < rank stage)%Z | None => True end.

(** The chain: each checkpoint is ahead of its predecessor, links to it, and
    carries its own hash and its artifact's. *)
Inductive chained (p : PlanV1) : option TransactionStageV1 -> option string ->
    list TransactionCheckpointV1 -> Prop :=
| chained_nil ps ph : chained p ps ph []
| chained_cons ps ph cp rest :
    advances ps (cp_stage cp) -> cp_previous_checkpoint_hash cp = ph ->
    artifact_ok p cp -> own_hash_ok p cp ->
    chained p (Some (cp_stage cp)) (Some (cp_checkpoint_hash cp)) rest ->
    chained p ps ph (cp :: rest).

Definition has_artifact (cp : TransactionCheckpointV1) : bool :=
  is_someb (cp_artifact_hash cp).

Definition approval_recorded (p : PlanV1) : bool :=
  existsb (fun cp => cp_stage cp =? ApprovalPersisted) (plan_transaction_journal p).

(** The approval the journal binds. *)
Definition approval_bound (p : PlanV1) : Prop :=
  exists a, plan_approval p = Some a /\
    approval_approved_content_hash a = plan_content_hash p /\
    (forall m, approval_max_cost a = Some m -> validate_money m = Ok tt) /\
    exists artifact, transaction_artifact p ApprovalPersisted = Some artifact /\
      Value_eqb artifact (approval_receipt p a) = true.

(** A journal in good order: what the validation that precedes every append
    demands of a plan with a non-empty journal. *)
Definition journal_ok (p : PlanV1) : Prop :=
  plan_transaction_journal p <> [] /\
  chained p None None (plan_transaction_journal p) /\
  length (List.filter has_artifact (plan_transaction_journal p))
    = length (plan_transaction_artifacts p) /\
  cp_stage <$> last (plan_transaction_journal p) = Some (plan_transaction_stage p) /\
  (approval_recorded p = true -> approval_bound p).

(** ... and what the full validation demands on top. *)
Definition status_bound (p : PlanV1) : Prop :=
  cp_plan_status <$> last (plan_transaction_journal p) = Some (plan_status p) /\
  (approval_recorded p = false -> plan_approval p = None).
End Specification.

(** ** Validation decides the specification *)

Lemma last_cons_some {A} (x : A) l : exists y, last (x :: l) = Some y.
Proof. destruct (last (x :: l)) eqn:E; [eauto|]. apply last_None in E. done. Qed.

Section Validation.
Context `{Runtime}.

Lemma checkpoint_artifact_ok p cp n :
  checkpoint_artifact p cp = Ok n <->
  artifact_ok p cp /\ n = (if has_artifact cp then 1 else 0).
Proof.
  unfold checkpoint_artifact, artifact_ok, has_artifact.
  destruct (cp_artifact_hash cp) as [h|];
    destruct (transaction_artifact p (cp_stage cp)) as [a|]; cbn [is_someb].
  - rewrite guard_ok, negb_false_iff, res_bind_ok. split.
    + intros (Hr & h' & Hh & Hk). apply guard_ok in Hk as [->%neqb_false [= <-]]. eauto 10.
    + intros ((a' & [= <-] & Hr & Hh) & ->). split; [done|]. exists h.
      split; [done|]. by rewrite guard_ok, neqb_false.
  - split; [done|]. by intros ((a' & [=] & _) & _).
  - split; [done|]. by intros ([=] & _).
  - split; [by intros [= <-]|]. by intros (_ & ->).
Qed.

Lemma validate_checkpoint_ok p ps ph cp n :
  validate_checkpoint p ps ph cp = Ok n <->
  advances ps (cp_stage cp) /\ cp_previous_checkpoint_hash cp = ph /\
  artifact_ok p cp /\ own_hash_ok p cp /\ n = (if has_artifact cp then 1 else 0).
Proof.
  unfold validate_checkpoint, own_hash_ok. rewrite !guard_ok, neqb_false, res_bind_ok.
  assert (Hps : is_some_and ps (fun stage => (rank (cp_stage cp) <=? rank stage)%Z) = false
    <-> advances ps (cp_stage cp)).
  { destruct ps; cbn; [by rewrite Z.leb_gt|done]. }
  rewrite Hps. split.
  - intros (? & ? & k & [? ->]%checkpoint_artifact_ok & Hk).
    apply res_bind_ok in Hk as (h & Hh & Hk). apply guard_ok in Hk as [<-%neqb_false [= <-]].
    done.
  - intros (? & ? & ? & Hh & ->). do 2 (split; [done|]). eexists.
    split; [by apply checkpoint_artifact_ok|]. apply res_bind_ok. eexists.
    split; [exact Hh|]. by rewrite guard_ok, neqb_false.
Qed.

Lemma validate_checkpoints_ok p ps ph n l s m :
  validate_checkpoints p ps ph n l = Ok (s, m) <->
  chained p ps ph l /\
  s = match last l with Some cp => Some (cp_stage cp) | None => ps end /\
  m = n + length (List.filter has_artifact l).
Proof.
  revert ps ph n; induction l as [|cp l IH]; intros ps ph n; cbn [validate_checkpoints].
  - cbn. split; [intros [= -> ->]; repeat split; [constructor|lia]|].
    intros (_ & -> & ->). do 2 f_equal. lia.
  - rewrite res_bind_ok. setoid_rewrite validate_checkpoint_ok. setoid_rewrite IH.
    assert (Hl : forall d, match last (cp :: l) with Some c => Some (cp_stage c) | None => d end =
      match last l with Some c => Some (cp_stage c) | None => Some (cp_stage cp) end).
    { intros d. destruct l as [|c l]; [done|]. cbn [last].
      by destruct (last_cons_some c l) as [y ->]. }
    rewrite Hl. cbn [List.filter]. split.
    + intros (k & (? & ? & ? & ? & ->) & Hc & -> & ->). split; [by constructor|].
      split; [done|]. destruct (has_artifact cp); cbn [length]; lia.
    + intros (Hc & -> & ->). inversion Hc; subst. eexists. split; [done|].
      split; [done|]. split; [done|]. destruct (has_artifact cp); cbn [length]; lia.
Qed.

Lemma validate_approval_checkpoint_ok p b :
  validate_approval_checkpoint p b = Ok tt <->
  (approval_recorded p = true -> approval_bound p) /\
  (b = true -> approval_recorded p = false -> plan_approval p = None).
Proof.
  unfold validate_approval_checkpoint. fold (approval_recorded p).
  destruct (approval_recorded p).
  - unfold approval_bound. destruct (plan_approval p) as [a|] eqn:Ea; cbn [ok_or res_bind].
    2: { split; [done|]. intros [Hx _]. by destruct (Hx eq_refl) as (? & [=] & _). }
    rewrite guard_ok, neqb_false, res_bind_unit_ok, guard_unit_ok, negb_false_iff.
    assert (Hm : (match approval_max_cost a with
        | Some m => map_err (fun r => invalid_transaction_journal p
            ("approval cost ceiling is invalid: " ++ r)%string) (validate_money m)
        | None => Ok tt end = Ok tt) <->
      forall m, approval_max_cost a = Some m -> validate_money m = Ok tt).
    { destruct (approval_max_cost a) as [m|]; [|done].
      destruct (validate_money m) as [[]|e] eqn:E; cbn.
      - split; [|done]. by intros _ m' [= <-].
      - split; [done|]. intros Hx. specialize (Hx _ eq_refl). congruence. }
    rewrite Hm. split.
    + intros (? & ? & Hart). split; [|done]. intros _. exists a. repeat split; try done.
      unfold is_some_and in Hart. case_match; [eauto|done].
    + intros [Hx _]. destruct (Hx eq_refl) as (a' & [= <-] & ? & ? & art & -> & ?). done.
  - rewrite guard_unit_ok, andb_false_iff. destruct b, (plan_approval p); cbn;
      intuition congruence.
Qed.

(** The validation that precedes every append. *)
Lemma validate_inner_false p :
  plan_transaction_journal p <> [] ->
  validate_transaction_journal_inner p false = Ok tt <-> journal_ok p.
Proof.
  intros Hne. unfold validate_transaction_journal_inner, journal_ok.
  rewrite (proj2 (length_zero_false _) Hne), res_bind_ok. cbn [andb].
  split.
  - intros ([s m] & Hv & Hk). apply validate_checkpoints_ok in Hv as (Hc & -> & ->).
    rewrite !guard_ok, !neqb_false, res_bind_unit_ok, validate_approval_checkpoint_ok in Hk.
    destruct Hk as (Hn & Hs & [Ha _] & _). repeat split; try done.
  - intros (_ & Hc & Hn & Hs & Ha). eexists (_, _). split.
    { apply validate_checkpoints_ok. repeat split; done. }
    rewrite !guard_ok, !neqb_false, res_bind_unit_ok, validate_approval_checkpoint_ok.
    repeat split; try done.
Qed.

Lemma validate_journal_ok p :
  plan_transaction_journal p <> [] ->
  validate_transaction_journal p = Ok tt <-> journal_ok p /\ status_bound p.
Proof.
  intros Hne. unfold validate_transaction_journal, validate_transaction_journal_inner,
    journal_ok, status_bound.
  rewrite (proj2 (length_zero_false _) Hne), res_bind_ok. cbn [andb].
  split.
  - intros ([s m] & Hv & Hk). apply validate_checkpoints_ok in Hv as (Hc & -> & ->).
    rewrite !guard_ok, !neqb_false, res_bind_unit_ok, validate_approval_checkpoint_ok,
      guard_unit_ok in Hk.
    destruct Hk as (Hn & Hs & [Ha Hb] & Hl).
    destruct (last (plan_transaction_journal p)) as [cp|]; [|by inversion Hs].
    cbn in *. apply neqb_false in Hl as ->. repeat split; try done. by apply Hb.
  - intros ((_ & Hc & Hn & Hs & Ha) & Hl & Hb). eexists (_, _). split.
    { apply validate_checkpoints_ok. repeat split; done. }
    rewrite !guard_ok, !neqb_false, res_bind_unit_ok, validate_approval_checkpoint_ok,
      guard_unit_ok.
    destruct (last (plan_transaction_journal p)) as [cp|]; [|done].
    cbn in *. injection Hl as ->. rewrite neqb_false. repeat split; done.
Qed.
End Validation.

(** ** Appending *)

(** The plan after a checkpoint is appended. *)
Definition push (p : PlanV1) (cp : TransactionCheckpointV1) (artifact : option Value) : PlanV1 :=
  plan_update p (plan_status p) (plan_approval p) (plan_cancelled_at p) (plan_content_hash p)
    (cp_stage cp) (plan_transaction_journal p ++ [cp])
    match artifact with
    | Some a => bt_insert (stage_as_str (cp_stage cp)) a (plan_transaction_artifacts p)
    | None => plan_transaction_artifacts p
    end.

(** Where an append of [stage] may go. *)
Definition may_append `{Runtime} (p : PlanV1) (stage : TransactionStageV1) : Prop :=
  (plan_transaction_journal p = [] /\ stage = PlanPrepared) \/
  (journal_ok p /\ (rank (plan_transaction_stage p) < rank stage)%Z).

Definition public_artifact (artifact : option Value) : Prop :=
  forall a, artifact = Some a -> Value_eqb (redact_json a) a = true.

(** The checkpoint an append writes. *)
Definition next_checkpoint `{Runtime} (p : PlanV1) (now : DateTime) (stage : TransactionStageV1)
    (artifact : option Value) (cp : TransactionCheckpointV1) : Prop :=
  cp_stage cp = stage /\ cp_recorded_at cp = now /\
  cp_plan_content_hash cp = plan_content_hash p /\ cp_plan_status cp = plan_status p /\
  cp_previous_checkpoint_hash cp = cp_checkpoint_hash <$> last (plan_transaction_journal p) /\
  match artifact with
  | Some a => exists h, cp_artifact_hash cp = Some h /\ hash_value a = Ok h
  | None => cp_artifact_hash cp = None
  end /\
  own_hash_ok p cp.

Section Append.
Context `{Runtime}.

Lemma advance_guard_ok p stage :
  advance_guard p stage = Ok tt <-> may_append p stage.
Proof.
  unfold advance_guard, may_append.
  destruct (length (plan_transaction_journal p) =? 0) eqn:E.
  - apply eqb_eq, nil_length_inv in E. rewrite guard_unit_ok, neqb_false. split; [by left|].
    intros [[_ ?]|[[? _] _]]; done.
  - rewrite res_bind_unit_ok, validate_inner_false, guard_unit_ok, Z.leb_gt
      by (by apply length_zero_false).
    split; [by right|]. apply length_zero_false in E. by intros [[? _]|?].
Qed.

Lemma record_err clk stage artifact p e p' :
  record_transaction_stage_inner clk stage artifact p = (Err e, p') -> p' = p.
Proof.
  unfold record_transaction_stage_inner, st_bind, st_get, st_lift, st_throw, st_modify, st_ret.
  intros Hr. branches Hr; done.
Qed.

Lemma record_ok clk stage artifact p p' :
  record_transaction_stage_inner clk stage artifact p = (Ok tt, p') ->
  may_append p stage /\ public_artifact artifact /\
  exists cp, next_checkpoint p (clk 0) stage artifact cp /\ p' = push p cp artifact.
Proof.
  unfold record_transaction_stage_inner, st_bind, st_get, st_lift, st_throw, st_modify, st_ret.
  rewrite <- advance_guard_ok. destruct (advance_guard p stage) as [[]|]; [|done].
  destruct artifact as [a|]; cbn [is_some_and].
  - destruct (Value_eqb (redact_json a) a) eqn:Er; cbn [negb]; [|done].
    destruct (hash_value a) as [h|] eqn:Eh; cbn [res_bind]; [|done].
    destruct (transaction_checkpoint_hash _ _ _ _ _ _ _) as [ch|] eqn:Ec; [|done].
    intros [= <-]. split; [done|]. split; [by intros ? [= <-]|].
    exists (mkTransactionCheckpointV1 stage (clk 0) (plan_content_hash p) (plan_status p)
      (cp_checkpoint_hash <$> last (plan_transaction_journal p)) (Some h) ch).
    split; [|reflexivity]. repeat split; eauto.
  - destruct (transaction_checkpoint_hash _ _ _ _ _ _ _) as [ch|] eqn:Ec; [|done].
    intros [= <-]. split; [done|]. split; [done|].
    exists (mkTransactionCheckpointV1 stage (clk 0) (plan_content_hash p) (plan_status p)
      (cp_checkpoint_hash <$> last (plan_transaction_journal p)) None ch).
    split; [|reflexivity]. repeat split; eauto.
Qed.

Lemma record_total `{!RuntimeTotal} clk stage artifact p :
  may_append p stage -> public_artifact artifact ->
  exists p', record_transaction_stage_inner clk stage artifact p = (Ok tt, p').
Proof.
  intros Hm Hp. apply advance_guard_ok in Hm.
  unfold record_transaction_stage_inner, st_bind, st_get, st_lift, st_throw, st_modify, st_ret.
  rewrite Hm. destruct artifact as [a|]; cbn [is_some_and].
  - rewrite (Hp a eq_refl). cbn [negb].
    destruct (hash_value_total a) as [h ->]. cbn [res_bind].
    unfold transaction_checkpoint_hash.
    match goal with |- context [hash_value ?v] => destruct (hash_value_total v) as [ch ->] end.
    by eexists.
  - unfold transaction_checkpoint_hash.
    match goal with |- context [hash_value ?v] => destruct (hash_value_total v) as [ch ->] end.
    by eexists.
Qed.
End Append.

(** ** The chain under appends and changes elsewhere *)

Lemma stage_as_str_inj s s' : stage_as_str s = stage_as_str s' -> s = s'.
Proof. by destruct s, s'. Qed.

Lemma rank_inj s s' : rank s = rank s' -> s = s'.
Proof. by destruct s, s'. Qed.

Section Chain.
Context `{Runtime}.

(** The part of a plan a chain looks at. *)
Lemma chained_frame p q ps ph l :
  plan_operation_id q = plan_operation_id p ->
  (forall cp, In cp l -> transaction_artifact q (cp_stage cp) = transaction_artifact p (cp_stage cp)) ->
  chained p ps ph l -> chained q ps ph l.
Proof.
  intros Hid Hart Hc. induction Hc as [ps ph|ps ph cp rest Ha Hp Hart' Hown _ IH]; [constructor|].
  constructor; [done|done|..].
  - unfold artifact_ok. rewrite Hart by (by left). exact Hart'.
  - unfold own_hash_ok, transaction_checkpoint_hash, checkpoint_value. rewrite Hid. exact Hown.
  - apply IH. intros ? ?. apply Hart. by right.
Qed.

Lemma chained_stages p ps ph l cp :
  chained p ps ph l -> In cp l -> advances ps (cp_stage cp) /\
    exists tail, last l = Some tail /\ (rank (cp_stage cp) <= rank (cp_stage tail))%Z.
Proof.
  intros Hc. revert cp. induction Hc as [ps ph|ps ph cp0 rest Ha _ _ _ _ IH]; [done|].
  intros cp [<-|Hin].
  - split; [done|]. destruct rest as [|c rest]; [exists cp0; split; [done|lia]|].
    destruct (IH c (or_introl eq_refl)) as [Hadv (tail & Ht & Hle)]. exists tail.
    split; [exact Ht|]. cbn in Hadv. lia.
  - destruct (IH cp Hin) as [Hadv (tail & Ht & Hle)]. split.
    + destruct ps; cbn in *; [lia|done].
    + exists tail. split; [|done]. by destruct rest.
Qed.

Lemma chained_snoc p ps ph l cp :
  chained p ps ph (l ++ [cp]) <->
  chained p ps ph l /\
  advances (match last l with Some c => Some (cp_stage c) | None => ps end) (cp_stage cp) /\
  cp_previous_checkpoint_hash cp =
    match last l with Some c => Some (cp_checkpoint_hash c) | None => ph end /\
  artifact_ok p cp /\ own_hash_ok p cp.
Proof.
  revert ps ph; induction l as [|c l IH]; intros ps ph; cbn [app].
  - cbn. split.
    + intros Hc. inversion Hc; subst. repeat split; [constructor|done..].
    + intros (_ & ? & ? & ? & ?). constructor; [done..|constructor].
  - assert (Hl : last (c :: l) = match last l with Some x => Some x | None => Some c end).
    { destruct l as [|x l]; [done|]. cbn [last]. by destruct (last_cons_some x l) as [y ->]. }
    rewrite Hl. split.
    + intros Hc. inversion Hc as [|???? Ha1 Hp1 Ht1 Ho1 Hr1]; subst. apply IH in Hr1 as (? & ? & ? & ? & ?).
      split; [by constructor|]. by destruct (last l).
    + intros (Hc & ? & ? & ? & ?). inversion Hc; subst. constructor; [done..|].
      apply IH. split; [done|]. by destruct (last l).
Qed.
End Chain.

(** ** Forward-only stages *)

Definition ahead (a b : TransactionCheckpointV1) : Prop :=
  (rank (cp_stage a) < rank (cp_stage b))%Z.

Section Order.
Context `{Runtime}.

Lemma chained_sorted p ps ph l :
  chained p ps ph l ->
  StronglySorted ahead l /\ Forall (fun cp => advances ps (cp_stage cp)) l.
Proof.
  induction 1 as [|ps ph cp rest Ha _ _ _ _ [IHs IHa]]; [split; constructor|].
  split; constructor; [done|done|done|].
  eapply Forall_impl; [exact IHa|]. intros c Hc. destruct ps; cbn in *; [lia|done].
Qed.

Lemma sorted_stages_NoDup l :
  StronglySorted ahead l -> List.NoDup (map (fun cp => stage_as_str (cp_stage cp)) l).
Proof.
  induction 1 as [|cp l Hs IH Ha]; cbn; constructor; [|done].
  intros (c & E & Hin)%in_map_iff. apply stage_as_str_inj in E.
  apply (proj1 (Forall_forall _ _)) with (x := c) in Ha; [|by apply list_elem_of_In].
  unfold ahead in Ha. rewrite E in Ha. lia.
Qed.

Lemma filter_sorted {A} (R : A -> A -> Prop) (f : A -> bool) l :
  StronglySorted R l -> StronglySorted R (List.filter f l).
Proof.
  induction 1 as [|x l Hs IH Ha]; cbn; [constructor|]. destruct (f x); [|done].
  constructor; [done|]. apply Forall_forall. intros y Hy.
  apply list_elem_of_In, filter_In in Hy as [Hy _].
  apply (proj1 (Forall_forall _ _) Ha). by apply list_elem_of_In.
Qed.

Lemma chained_in p ps ph l cp :
  chained p ps ph l -> In cp l -> artifact_ok p cp /\ own_hash_ok p cp.
Proof.
  induction 1 as [|ps ph c rest _ _ ? ? _ IH]; [done|]. intros [<-|]; [done|by apply IH].
Qed.

(** Every stored artifact belongs to a checkpoint of the journal. *)
Lemma artifact_key_has_checkpoint p k :
  journal_ok p -> bt_sorted (plan_transaction_artifacts p) = true ->
  bt_get k (plan_transaction_artifacts p) <> None ->
  exists cp, In cp (plan_transaction_journal p) /\ stage_as_str (cp_stage cp) = k /\
    has_artifact cp = true.
Proof.
  intros (_ & Hc & Hlen & _) Hsorted Hs.
  set (l := List.filter has_artifact (plan_transaction_journal p)) in *.
  assert (Hincl : incl (bt_keys (plan_transaction_artifacts p))
    (map (fun cp => stage_as_str (cp_stage cp)) l)).
  { apply NoDup_length_incl.
    - apply sorted_stages_NoDup, filter_sorted. by eapply chained_sorted.
    - rewrite length_map, Hlen. unfold bt_keys. by rewrite length_map.
    - intros k' (cp & <- & [Hin Ha]%filter_In)%in_map_iff.
      destruct (chained_in _ _ _ _ _ Hc Hin) as [Hart _].
      unfold artifact_ok, has_artifact in *. destruct (cp_artifact_hash cp); [|done].
      destruct Hart as (a & Ha' & _). apply bt_get_keys. unfold transaction_artifact in Ha'.
      by rewrite Ha'. }
  apply bt_get_keys, Hincl, in_map_iff in Hs as (cp & E & [Hin Hh]%filter_In).
  by exists cp.
Qed.

Lemma artifact_has_checkpoint p s :
  journal_ok p -> bt_sorted (plan_transaction_artifacts p) = true ->
  transaction_artifact p s <> None ->
  exists cp, In cp (plan_transaction_journal p) /\ cp_stage cp = s.
Proof.
  intros Hj Hs Ha. destruct (artifact_key_has_checkpoint _ _ Hj Hs Ha) as (cp & Hin & E & _).
  exists cp. split; [done|]. by apply stage_as_str_inj.
Qed.

(** A stage ahead of the journal has no artifact yet. *)
Lemma ahead_no_artifact p s :
  journal_ok p -> bt_sorted (plan_transaction_artifacts p) = true ->
  (rank (plan_transaction_stage p) < rank s)%Z -> transaction_artifact p s = None.
Proof.
  intros Hj Hs Hr. destruct (transaction_artifact p s) as [a|] eqn:E; [|done].
  destruct (artifact_has_checkpoint p s) as (cp & Hin & Hcp); [done..|by rewrite E|].
  destruct Hj as (_ & Hc & _ & Hl & _).
  destruct (chained_stages _ _ _ _ _ Hc Hin) as [_ (tail & Ht & Hle)].
  rewrite Ht in Hl. cbn in Hl. injection Hl as Hl. rewrite Hcp, Hl in Hle. lia.
Qed.
End Order.

(** ** What an append preserves *)

Definition artifacts_wf `{Runtime} (p : PlanV1) : Prop :=
  bt_sorted (plan_transaction_artifacts p) = true /\
  (plan_transaction_journal p = [] -> plan_transaction_artifacts p = []).

Section Push.
Context `{Runtime}.

Lemma may_append_new p stage :
  may_append p stage -> artifacts_wf p ->
  transaction_artifact p stage = None /\
  (forall cp, In cp (plan_transaction_journal p) -> cp_stage cp <> stage) /\
  length (List.filter has_artifact (plan_transaction_journal p))
    = length (plan_transaction_artifacts p) /\
  chained p None None (plan_transaction_journal p) /\
  advances (cp_stage <$> last (plan_transaction_journal p)) stage.
Proof.
  intros [[Hnil _]|[Hj Hr]] [Hs He].
  - rewrite Hnil. cbn. unfold transaction_artifact. rewrite (He Hnil).
    repeat split; [by intros ? []|constructor].
  - split; [by apply ahead_no_artifact|]. pose proof Hj as (_ & Hc & Hn & Hl & _).
    split; [|rewrite Hl; done]. intros cp Hin <-.
    destruct (chained_stages _ _ _ _ _ Hc Hin) as [_ (tail & Ht & Hle)].
    rewrite Ht in Hl. cbn in Hl. injection Hl as Hl. rewrite Hl in Hle. lia.
Qed.

Lemma push_artifact p cp artifact s :
  transaction_artifact (push p cp artifact) s =
  match artifact with
  | Some a => if stage_as_str s =? stage_as_str (cp_stage cp) then Some a
              else transaction_artifact p s
  | None => transaction_artifact p s
  end.
Proof.
  unfold transaction_artifact, push. destruct artifact; [|done]. cbn. apply bt_get_insert.
Qed.

Lemma push_artifacts_wf p cp artifact : artifacts_wf p -> artifacts_wf (push p cp artifact).
Proof.
  intros [Hs _]. split; cbn; [|by intros E%eq_sym%app_cons_not_nil].
  destruct artifact; [by apply bt_insert_sorted|done].
Qed.

Lemma approval_recorded_push p cp artifact :
  approval_recorded (push p cp artifact) =
  approval_recorded p || (cp_stage cp =? ApprovalPersisted).
Proof. unfold approval_recorded. cbn. rewrite existsb_app. cbn. by rewrite orb_false_r. Qed.

Lemma push_journal_ok p now stage artifact cp :
  may_append p stage -> artifacts_wf p -> public_artifact artifact ->
  next_checkpoint p now stage artifact cp ->
  (stage = ApprovalPersisted -> approval_bound (push p cp artifact)) ->
  journal_ok (push p cp artifact).
Proof.
  intros Hm Hw Hp (Hst & _ & _ & _ & Hprev & Hart & Hown) Hab.
  destruct (may_append_new _ _ Hm Hw) as (Hnone & Hfresh & Hlen & Hc & Hadv).
  assert (Hold : forall c, In c (plan_transaction_journal p) ->
    transaction_artifact (push p cp artifact) (cp_stage c) = transaction_artifact p (cp_stage c)).
  { intros c Hin. rewrite push_artifact. destruct artifact; [|done].
    destruct (_ =? _) eqn:E; [|done]. apply eqb_eq, stage_as_str_inj in E.
    subst stage. by destruct (Hfresh c). }
  unfold journal_ok. split; [cbn; by destruct (plan_transaction_journal p)|]. split; [|split; [|split]].
  - apply chained_snoc. split; [by apply (chained_frame p (push p cp artifact)); [|exact Hold|]|].
    split; [rewrite Hst; by destruct (last (plan_transaction_journal p))|].
    split; [rewrite Hprev; by destruct (last (plan_transaction_journal p))|].
    split; [|exact Hown]. unfold artifact_ok. rewrite push_artifact, eqb_refl, Hst.
    destruct artifact as [a|].
    + destruct Hart as (h & -> & ?). exists a. split; [done|]. split; [by apply Hp|done].
    + by rewrite Hart.
  - cbn. rewrite List.filter_app, length_app. cbn [List.filter]. unfold has_artifact at 2.
    destruct artifact as [a|].
    + destruct Hart as (h & -> & _). cbn. rewrite bt_insert_length, Hlen; [lia|].
      rewrite Hst. exact Hnone.
    + rewrite Hart. cbn. lia.
  - cbn. by rewrite last_snoc.
  - rewrite approval_recorded_push. intros Har.
    destruct (cp_stage cp =? ApprovalPersisted) eqn:E.
    + apply Hab. rewrite <- Hst. by apply eqb_eq.
    + rewrite orb_false_r in Har. destruct Hm as [[Hnil _]|[(_ & _ & _ & _ & Hb) _]].
      { unfold approval_recorded in Har. by rewrite Hnil in Har. }
      destruct (Hb Har) as (a & Ha & Hh & Hmon & art & Hart' & Heq).
      exists a. repeat split; try done. exists art. split; [|exact Heq].
      unfold approval_recorded in Har. apply existsb_exists in Har as (c & Hin & Ec%eqb_eq).
      rewrite <- Ec, Hold, Ec; done.
Qed.
End Push.

(** ** The hash chain *)

Section Binding.
Context `{Runtime}.

Lemma checkpoint_value_struct p stage at_ hash status previous artifact_hash :
  checkpoint_value p stage at_ hash status previous artifact_hash = struct_value [
    field "operation_id" (plan_operation_id p); field "plan_content_hash" hash;
    field "plan_status" status; field "stage" stage; field "recorded_at" at_;
    field "previous_checkpoint_hash" previous; field_some "artifact_hash" artifact_hash].
Proof.
  unfold checkpoint_value, field_some.
  destruct artifact_hash; cbn [fmap option_fmap option_map].
  - by rewrite object_insert_struct.
  - by rewrite <- (struct_value_snoc_none "artifact_hash").
Qed.

(** Equal own hashes mean equal checkpoints of one operation. *)
Lemma own_hash_binds `{!RuntimeInjective} p q c d :
  own_hash_ok p c -> own_hash_ok q d -> cp_checkpoint_hash c = cp_checkpoint_hash d ->
  (c = d /\ plan_operation_id p = plan_operation_id q) \/ collision.
Proof.
  unfold own_hash_ok, transaction_checkpoint_hash. intros Hc Hd E. rewrite <- E in Hd.
  destruct (hash_value_same _ _ _ Hc Hd) as [Heq|]; [left|by right].
  rewrite !checkpoint_value_struct in Heq.
  apply struct_value_fields in Heq;
    [|reflexivity|apply nodupb_NoDup; vm_compute; reflexivity].
  cbn [map snd field field_some] in Heq.
  struct_fields Heq. split; [|done].
  destruct c, d; cbn in *; subst; done.
Qed.

Lemma artifact_binds p q c :
  artifact_ok p c -> artifact_ok q c ->
  transaction_artifact p (cp_stage c) = transaction_artifact q (cp_stage c) \/ collision.
Proof.
  unfold artifact_ok. destruct (cp_artifact_hash c) as [h|]; [|intros -> ->; by left].
  intros (a & -> & _ & Ha) (b & -> & _ & Hb).
  destruct (hash_value_same _ _ _ Ha Hb) as [->|]; [by left|by right].
Qed.

Lemma chain_agree `{!RuntimeInjective} p q l k :
  chained p None None l -> chained q None None k ->
  cp_checkpoint_hash <$> last l = cp_checkpoint_hash <$> last k ->
  (l = k /\ (l <> [] -> plan_operation_id p = plan_operation_id q) /\
   forall c, In c l -> transaction_artifact p (cp_stage c) = transaction_artifact q (cp_stage c))
  \/ collision.
Proof.
  revert k. induction l as [|c l IH] using rev_ind; intros k Hl Hk Hlast.
  - destruct k as [|d k]; [left; repeat split; done|].
    destruct (last_cons_some d k) as [y Hy]. by rewrite Hy in Hlast.
  - destruct k as [|d k _] using rev_ind; [by rewrite last_snoc in Hlast|].
    rewrite !last_snoc in Hlast. cbn in Hlast. injection Hlast as Hh.
    apply chained_snoc in Hl as (Hl & _ & Hpl & Hal & Hol).
    apply chained_snoc in Hk as (Hk & _ & Hpk & Hak & Hok).
    destruct (own_hash_binds _ _ _ _ Hol Hok Hh) as [[<- Hid]|]; [|by right].
    destruct (IH k Hl Hk) as [(-> & _ & Harts)|]; [|..|by right].
    { rewrite Hpl in Hpk. destruct (last l), (last k); cbn in *; congruence. }
    destruct (artifact_binds p q c) as [Hc|]; [done..| |by right].
    left. split; [done|]. split; [done|]. intros x [?|[<-|[]]]%in_app_or; [by apply Harts|done].
Qed.
End Binding.

(** ** Properties *)

(** Validation accepts exactly the journals in good order. For a plan
    whose journal is not empty, [validate_transaction_journal] returns [Ok]
    exactly when the checkpoints form a forward-only hash chain, each with the
    secret-free artifact its hash names and no artifact besides, the stage is
    the tail's, an approval checkpoint binds the present approval (and there
    is no approval without one), and the tail carries the present status. *)
Theorem validate_transaction_journal_iff `{Runtime} (p : PlanV1) :
  plan_transaction_journal p <> [] ->
  validate_transaction_journal p = Ok tt <-> journal_ok p /\ status_bound p.
Proof. apply validate_journal_ok. Qed.

(** C4: the journal is tamper evident. Two plans whose journals both validate
    and end in the same checkpoint hash have the same operation id, the same
    checkpoints, field by field, and the same receipts - or SHA-256 collided. *)
Theorem journal_tamper_evident `{RuntimeInjective} (p q : PlanV1) :
  validate_transaction_journal p = Ok tt -> validate_transaction_journal q = Ok tt ->
  bt_sorted (plan_transaction_artifacts p) = true ->
  bt_sorted (plan_transaction_artifacts q) = true ->
  plan_transaction_journal p <> [] ->
  cp_checkpoint_hash <$> last (plan_transaction_journal p)
    = cp_checkpoint_hash <$> last (plan_transaction_journal q) ->
  (plan_operation_id p = plan_operation_id q /\
   plan_transaction_journal p = plan_transaction_journal q /\
   plan_transaction_artifacts p = plan_transaction_artifacts q /\
   plan_transaction_stage p = plan_transaction_stage q /\
   plan_status p = plan_status q) \/ collision.
Proof.
  intros Hp Hq Sp Sq Hne Hlast.
  assert (Hne' : plan_transaction_journal q <> []).
  { intros E. rewrite E in Hlast. destruct (plan_transaction_journal p) as [|c l]; [done|].
    destruct (last_cons_some c l) as [y Hy]. by rewrite Hy in Hlast. }
  apply validate_journal_ok in Hp as [Jp [Tp _]]; [|done].
  apply validate_journal_ok in Hq as [Jq [Tq _]]; [|done].
  pose proof Jp as (_ & Cp & _ & Lp & _). pose proof Jq as (_ & Cq & _ & Lq & _).
  destruct (chain_agree _ _ _ _ Cp Cq Hlast) as [(E & Hid & Harts)|]; [left|by right].
  split; [by apply Hid|]. split; [done|]. rewrite <- E in Lq, Tq. split; [|split; congruence].
  apply bt_ext; [done..|]. intros k.
  destruct (bt_get k (plan_transaction_artifacts p)) as [a|] eqn:Ek.
  - destruct (artifact_key_has_checkpoint p k) as (c & Hin & <- & _); [done..|by rewrite Ek|].
    rewrite <- Ek. by apply Harts.
  - destruct (bt_get k (plan_transaction_artifacts q)) as [b|] eqn:Eq; [|done].
    destruct (artifact_key_has_checkpoint q k) as (c & Hin & <- & _); [done..|by rewrite Eq|].
    rewrite <- E in Hin. rewrite <- Ek, <- Eq. by apply Harts.
Qed.

(** A journal is bounded: one checkpoint per stage at most, in stage
    order, hence never more than eleven. *)
Theorem journal_bounded `{Runtime} (p : PlanV1) :
  validate_transaction_journal p = Ok tt ->
  StronglySorted ahead (plan_transaction_journal p) /\
  length (plan_transaction_journal p) <= 11.
Proof.
  intros Hv. assert (Hs : StronglySorted ahead (plan_transaction_journal p)).
  { destruct (plan_transaction_journal p) as [|c l] eqn:E; [constructor|]. rewrite <- E.
    apply validate_journal_ok in Hv as [(_ & Hc & _) _]; [by eapply chained_sorted|congruence]. }
  split; [done|]. apply sorted_stages_NoDup in Hs.
  set (all := map stage_as_str [PlanPrepared; ApprovalPersisted; ConsumptionPersisted;
    BoundaryAttemptPersisted; BoundaryResponsePersisted; SecretSinkPersisted;
    VerificationAttemptPersisted; VerificationResponsePersisted; CompensationAttemptPersisted;
    CompensationResponsePersisted; Closed]).
  rewrite <- (length_map (fun cp => stage_as_str (cp_stage cp))).
  change 11 with (length all). apply NoDup_incl_length; [done|].
  intros k (c & <- & _)%in_map_iff. unfold all. destruct (cp_stage c); cbn; tauto.
Qed.
