(* ===== verification/PlanLifecycle.v ===== *)
(** The lifecycle of a plan: approval, consumption, standing consumption,
    cancellation, and what holds over every sequence of calls a caller can
    make - including one that assigns [status] or edits the reviewed content
    directly, as the CLI does. *)

From Stdlib Require Import String Ascii ZArith Lia List Bool Sorting.Sorted.
From Stdlib Require Import Floats.SpecFloat.
From stdpp Require Import base option list strings relations.
From S2P Require Import Prelude Strings Btree Json Redaction CatalogTypes Capability Core Policy.
From S2P Require Import CapabilityOps Authority Plan PlanJournal Demo.

Open Scope cf_scope.

(** ** The reviewed content *)

(** The plan with everything outside the reviewed content blanked. *)
Definition reviewed (p : PlanV1) : PlanV1 :=
  plan_update p Draft None None "" PlanPrepared [] [].

(** What the types and the catalog loader guarantee of a plan's content: a
    sorted map, finite floats, no [Some(null)] schema. *)
Definition content_ok (p : PlanV1) : Prop :=
  ser_ok (plan_precondition_hashes p) /\ ser_ok (plan_capability p).

Section Content.
Context `{RuntimeInjective}.

Lemma hashable_content_inj p q :
  content_ok p -> content_ok q ->
  hashable_content p = hashable_content q -> reviewed p = reviewed q.
Proof.
  intros [Hp1 Hp2] [Hq1 Hq2] E. apply struct_value_fields in E;
    [|reflexivity|apply nodupb_NoDup; vm_compute; reflexivity].
  cbn [map snd field] in E. struct_fields E.
  unfold reviewed, plan_update. f_equal; assumption.
Qed.
End Content.

Lemma hashable_content_reviewed `{Runtime} p q :
  reviewed p = reviewed q -> hashable_content p = hashable_content q.
Proof.
  intros E. change (hashable_content (reviewed p) = hashable_content (reviewed q)). by rewrite E.
Qed.

(** ** Approval *)

Lemma upper_alphabetic a : is_ascii_alphabetic (ascii_upper a) = is_ascii_alphabetic a.
Proof. by destruct a as [[] [] [] [] [] [] [] []]. Qed.

Lemma uppercase_currency c :
  valid_currency_code (to_ascii_uppercase c) = valid_currency_code c.
Proof.
  unfold valid_currency_code. f_equal.
  - f_equal. induction c as [|a c IH]; [done|]. cbn. by rewrite IH.
  - induction c as [|a c IH]; [done|]. cbn. by rewrite upper_alphabetic, IH.
Qed.

Definition uppercased (m : MoneyV1) : MoneyV1 :=
  mkMoneyV1 (to_ascii_uppercase (money_currency m)) (money_amount m).

Lemma uppercased_valid m : validate_money (uppercased m) = validate_money m.
Proof.
  unfold validate_money, validate_money_fields. cbn. by rewrite uppercase_currency.
Qed.

(** The approved ceiling covers a known incremental cost, whose declaration
    is complete and valid. *)
Definition covers (p : PlanV1) (ceiling : option MoneyV1) : Prop :=
  let cost := cap_cost (plan_capability p) in
  cost_incremental cost = true -> cost_known cost = true ->
  exists required currency,
    cost_maximum cost = Some required /\ cost_currency cost = Some currency /\
    validate_money_fields currency required = Ok tt /\
    forall m, ceiling = Some m ->
      eq_ignore_ascii_case (money_currency m) currency = true /\
      f64_lt (money_amount m) required = false.

Lemma ceiling_covers_catalog_ok p ceiling :
  ceiling_covers_catalog p ceiling = Ok tt <-> covers p ceiling.
Proof.
  unfold ceiling_covers_catalog, covers.
  destruct (cost_incremental _), (cost_known _); cbn [andb]; try (by split).
  destruct (cost_maximum _) as [required|]; cbn [ok_or res_bind].
  2: { split; [done|]. intros Hx. by destruct (Hx eq_refl eq_refl) as (? & ? & [=] & _). }
  destruct (cost_currency _) as [currency|]; cbn [ok_or res_bind].
  2: { split; [done|]. intros Hx. by destruct (Hx eq_refl eq_refl) as (? & ? & _ & [=] & _). }
  destruct (validate_money_fields currency required) as [[]|e] eqn:E; cbn [map_err res_bind].
  2: { split; [done|]. intros Hx.
       destruct (Hx eq_refl eq_refl) as (? & ? & [= <-] & [= <-] & Hv & _). congruence. }
  rewrite guard_unit_ok. split.
  - intros Hm _ _. exists required, currency. repeat split; try done; subst; cbn in Hm;
      split_andb; done.
  - intros Hx. destruct (Hx eq_refl eq_refl) as (? & ? & [= <-] & [= <-] & _ & Hm).
    destruct ceiling as [m|]; [|done]. cbn. destruct (Hm m eq_refl) as [-> ->]. done.
Qed.

(** The approval a call would record. *)
Definition granted (clk : Clock) (p : PlanV1) (ceiling : option MoneyV1) : ApprovalV1 :=
  {| approval_approved_at := clk 1;
     approval_approved_content_hash := plan_content_hash p;
     approval_max_cost := uppercased <$> ceiling |}.

(** What an approval requires of the call and the plan, journal apart. *)
Definition approvable `{Runtime} (clk : Clock) (yes : bool) (ceiling : option MoneyV1)
    (p : PlanV1) : Prop :=
  yes = true /\ plan_status p = Draft /\ dt_gt (clk 0) (plan_expires_at p) = false /\
  (policy_requires_cost_ceiling (plan_policy p) = true -> ceiling <> None) /\
  (forall m, ceiling = Some m -> validate_money m = Ok tt) /\
  covers p (uppercased <$> ceiling) /\
  hash_value (hashable_content p) = Ok (plan_content_hash p).

Definition with_approval (a : ApprovalV1) (p : PlanV1) : PlanV1 :=
  set_status Approved (set_approval (Some a) p).

Lemma normalized_ceiling_ok p ceiling c :
  normalized_ceiling p ceiling = Ok c <->
  c = uppercased <$> ceiling /\ (forall m, ceiling = Some m -> validate_money m = Ok tt).
Proof.
  unfold normalized_ceiling. destruct ceiling as [m|]; cbn.
  - destruct (validate_money m) as [[]|e] eqn:E; cbn.
    + split; [intros [= <-]|by intros [-> _]]. split; [done|]. by intros ? [= <-].
    + split; [done|]. intros [_ Hx]. specialize (Hx m eq_refl). congruence.
  - split; [intros [= <-]; split; done|by intros [-> _]].
Qed.

Section Approve.
Context `{Runtime}.

(** [approve], outcome by outcome. *)
Lemma approve_cases clk yes ceiling p :
  let a := granted clk p ceiling in
  let attempt := record_transaction_stage_with_artifact (after 2 clk) ApprovalPersisted
    (approval_receipt p a) (with_approval a p) in
  (approvable clk yes ceiling p /\
   approve clk yes ceiling p =
     match attempt with
     | (Ok tt, p') => (Ok tt, p')
     | (Err e, p') => (Err e, set_status Draft (set_approval None p'))
     end) \/
  (~ approvable clk yes ceiling p /\ plan_status p = Draft /\
   dt_gt (clk 0) (plan_expires_at p) = true /\
   approve clk yes ceiling p =
     (Err (PlanExpired (plan_operation_id p) (plan_expires_at p)), set_status Expired p)) \/
  (~ approvable clk yes ceiling p /\ exists e, approve clk yes ceiling p = (Err e, p)).
Proof.
  intros a attempt. unfold approve, st_bind, st_get, st_lift, st_throw, st_modify, st_on_err.
  destruct yes; cbn [negb]; [|right; right; split; [by intros (? & _)|by eexists]].
  destruct (plan_status p =? Draft) eqn:Es; reflect_eqb; cbn [negb].
  2: { right; right. split; [by intros (_ & ? & _)|by eexists]. }
  destruct (dt_gt (clk 0) (plan_expires_at p)) eqn:Et.
  { right; left. split; [|done]. intros (_ & _ & ? & _). congruence. }
  destruct (policy_requires_cost_ceiling (plan_policy p) && is_noneb ceiling) eqn:Ec.
  { right; right. split; [|by eexists]. intros (_ & _ & _ & Hx & _). split_andb.
    destruct ceiling; [done|]. by apply Hx. }
  destruct (normalized_ceiling p ceiling) as [c|e] eqn:En.
  2: { right; right. split; [|by eexists]. intros (_ & _ & _ & _ & Hx & _).
       pose proof (proj2 (normalized_ceiling_ok p ceiling _) (conj eq_refl Hx)). congruence. }
  apply normalized_ceiling_ok in En as [-> Hmoney].
  destruct (ceiling_covers_catalog p (uppercased <$> ceiling)) as [[]|e] eqn:Eo.
  2: { right; right. split; [|by eexists]. intros (_ & _ & _ & _ & _ & Hx & _).
       apply ceiling_covers_catalog_ok in Hx. congruence. }
  apply ceiling_covers_catalog_ok in Eo.
  destruct (hash_value (hashable_content p)) as [h|e] eqn:Eh.
  2: { right; right. split; [|by eexists]. intros (_ & _ & _ & _ & _ & _ & Hx). congruence. }
  destruct (h =? plan_content_hash p) eqn:Ehc; reflect_eqb; cbn [negb].
  2: { right; right. split; [|by eexists]. intros (_ & _ & _ & _ & _ & _ & Hx). congruence. }
  left. subst h. split.
  { split; [done|]. do 2 (split; [done|]). split; [|by repeat split].
    intros Hr ->. by rewrite Hr in Ec. }
  fold (granted clk p ceiling). fold a. fold (with_approval a p).
  change (set_status Approved (set_approval (Some a) p)) with (with_approval a p).
  fold attempt. by destruct attempt as [[[]|e] p'].
Qed.

(** An approval receipt never carries a secret-bearing key, so the journal
    never refuses it. *)
Lemma approval_receipt_public p a : public_artifact (Some (approval_receipt p a)).
Proof.
  intros ? [= <-]. destruct a as [at_ h [[currency [[]|[]| |[]]]|]];
    rewrite redact_guard_secret_free; vm_compute; reflexivity.
Qed.

Lemma authority_receipt_public s : public_artifact (Some (authority_receipt s)).
Proof.
  intros ? [= <-]. rewrite redact_guard_secret_free; vm_compute; reflexivity.
Qed.
End Approve.

(** ** Journal facts under the lifecycle's assignments *)

Section Frame.
Context `{Runtime}.

Lemma journal_ok_frame p q :
  plan_operation_id q = plan_operation_id p ->
  plan_transaction_journal q = plan_transaction_journal p ->
  plan_transaction_artifacts q = plan_transaction_artifacts p ->
  plan_transaction_stage q = plan_transaction_stage p ->
  (approval_recorded p = true ->
   plan_approval q = plan_approval p /\ plan_content_hash q = plan_content_hash p) ->
  journal_ok p -> journal_ok q.
Proof.
  intros Hid Hj Ha Hs Hap (Hne & Hc & Hn & Hl & Hb). unfold journal_ok.
  assert (Hart : forall s, transaction_artifact q s = transaction_artifact p s).
  { intros s. unfold transaction_artifact. by rewrite Ha. }
  assert (Hrec : approval_recorded q = approval_recorded p).
  { unfold approval_recorded. by rewrite Hj. }
  rewrite Hj, Ha, Hs, Hrec. repeat split; try done.
  - eapply chained_frame; [exact Hid| |exact Hc]. intros; apply Hart.
  - intros Hr. destruct (Hap Hr) as [Hpa Hch]. destruct (Hb Hr) as (a & E & Hh & Hm & art & Hat & Hv).
    exists a. rewrite Hpa, Hch, Hart. repeat split; try done. exists art.
    split; [done|]. unfold approval_receipt in *. by rewrite Hid.
Qed.

Lemma before_approval p :
  journal_ok p -> (rank (plan_transaction_stage p) < 1)%Z -> approval_recorded p = false.
Proof.
  intros (_ & Hc & _ & Hl & _) Hr. destruct (approval_recorded p) eqn:E; [|done].
  apply existsb_exists in E as (cp & Hin & Ecp%eqb_eq).
  destruct (chained_stages _ _ _ _ _ Hc Hin) as [_ (tail & Ht & Hle)].
  rewrite Ht in Hl. cbn in Hl. injection Hl as Hl. rewrite Ecp, Hl in Hle. cbn in Hle. lia.
Qed.

Lemma push_status_bound p now stage artifact cp :
  next_checkpoint p now stage artifact cp ->
  (approval_recorded p = false -> stage <> ApprovalPersisted -> plan_approval p = None) ->
  status_bound (push p cp artifact).
Proof.
  intros (Hst & _ & _ & Hps & _) Hap. split.
  - cbn. rewrite last_snoc. cbn. by rewrite Hps.
  - rewrite approval_recorded_push, orb_false_iff, eqb_false, Hst. cbn. intros [? ?]. by apply Hap.
Qed.

Lemma granted_bound p a cp :
  cp_stage cp = ApprovalPersisted ->
  approval_approved_content_hash a = plan_content_hash p ->
  (forall m, approval_max_cost a = Some m -> validate_money m = Ok tt) ->
  approval_bound (push (with_approval a p) cp (Some (approval_receipt p a))).
Proof.
  intros Hst Hh Hm. exists a. split; [done|]. split; [done|]. split; [done|].
  exists (approval_receipt p a). split; [|apply Value_eqb_refl].
  rewrite push_artifact, Hst, eqb_refl. done.
Qed.

Lemma granted_money clk p ceiling :
  (forall m, ceiling = Some m -> validate_money m = Ok tt) ->
  forall m, approval_max_cost (granted clk p ceiling) = Some m -> validate_money m = Ok tt.
Proof.
  intros Hm m. destruct ceiling as [c|]; cbn; [|done]. intros [= <-].
  rewrite uppercased_valid. by apply Hm.
Qed.

Lemma with_approval_journal a p :
  journal_ok p -> (rank (plan_transaction_stage p) < 1)%Z -> journal_ok (with_approval a p).
Proof.
  intros Hj Hr. pose proof (before_approval _ Hj Hr) as Hb.
  apply (journal_ok_frame p); [done..| |done]. by rewrite Hb.
Qed.
End Frame.

(** C5: the approval ceremony, outcome by outcome. On a freshly prepared plan,
    [approve] succeeds exactly when the operator said yes explicitly, the plan
    is an unexpired draft whose content still hashes to [content_hash], the
    ceiling is present if the policy requires one, well formed, and covers a
    known incremental cost in its own currency. The result is the same plan,
    [Approved], carrying the approval of exactly that hash with the ceiling's
    currency upper-cased, its receipt journaled and the whole journal valid;
    a refusal leaves the plan as it was, except that an expired draft becomes
    [Expired]. *)
Theorem approve_ceremony `{RuntimeTotal} clk yes ceiling (p : PlanV1) :
  journal_ok p -> artifacts_wf p -> plan_transaction_stage p = PlanPrepared ->
  (approvable clk yes ceiling p ->
   exists p' cp, approve clk yes ceiling p = (Ok tt, p') /\
     cp_stage cp = ApprovalPersisted /\ cp_plan_status cp = Approved /\
     p' = push (with_approval (granted clk p ceiling) p) cp
            (Some (approval_receipt p (granted clk p ceiling))) /\
     validate_transaction_journal p' = Ok tt) /\
  (~ approvable clk yes ceiling p ->
   exists e, approve clk yes ceiling p = (Err e, p) \/
     (plan_status p = Draft /\ dt_gt (clk 0) (plan_expires_at p) = true /\
      approve clk yes ceiling p = (Err e, set_status Expired p))).
Proof.
  intros Hj Hw Hst. assert (Hr : (rank (plan_transaction_stage p) < 1)%Z) by by rewrite Hst.
  destruct (approve_cases clk yes ceiling p) as [[Hok E]|[(Hno & Hd & Hx & E)|(Hno & e & E)]].
  - split; [|done]. intros _. set (a := granted clk p ceiling) in *.
    assert (Hma : may_append (with_approval a p) ApprovalPersisted).
    { right. split; [by apply with_approval_journal|by cbn; rewrite Hst]. }
    destruct (record_total (after 2 clk) ApprovalPersisted (Some (approval_receipt p a))
      (with_approval a p) Hma (approval_receipt_public p a)) as [p' Hp'].
    unfold record_transaction_stage_with_artifact in E. rewrite Hp' in E.
    apply record_ok in Hp' as (_ & Hpub & cp & Hnext & ->).
    eexists _, cp. split; [exact E|]. pose proof Hnext as (Hcs & _ & _ & Hps & _).
    split; [done|]. split; [done|]. split; [done|].
    destruct Hok as (_ & _ & _ & _ & Hm & _).
    apply validate_journal_ok; [cbn; by destruct (plan_transaction_journal p)|]. split.
    + eapply push_journal_ok; [exact Hma|exact Hw|exact Hpub|exact Hnext|]. intros _.
      by apply granted_bound; [..|apply granted_money].
    + by eapply push_status_bound.
  - split; [done|]. intros _. eexists. by right.
  - split; [done|]. intros _. exists e. by left.
Qed.

(** ** Consumption *)

Definition has_authority (p : PlanV1) : Prop :=
  (plan_status p = Approved /\ exists a, plan_approval p = Some a /\
     approval_approved_content_hash a = plan_content_hash p) \/
  (plan_status p = Draft /\ policy_disposition (plan_policy p) = AutoExecute /\
   plan_approval p = None).

Lemma consumable_ok p : consumable p = Ok tt <-> has_authority p.
Proof.
  unfold consumable, has_authority, approval_matches.
  destruct (plan_status p); try (by split; [done|intros [[? _]|[? _]]]).
  - rewrite guard_unit_ok, negb_false_iff, andb_true_iff, eqb_true.
    destruct (plan_approval p); cbn; intuition congruence.
  - rewrite guard_unit_ok, negb_false_iff. destruct (plan_approval p) as [a|]; cbn.
    + rewrite eqb_true. split; [intros; left; eauto|]. intros [(_ & ? & [= <-] & ?)|(? & _)]; done.
    + split; [done|]. by intros [(_ & ? & ? & _)|(? & _)].
Qed.

Section Consume.
Context `{Runtime}.

(** What consuming requires of the plan, journal apart. *)
Definition consumption_due (clk : Clock) (p : PlanV1) : Prop :=
  dt_gt (clk 0) (plan_expires_at p) = false /\
  hash_value (hashable_content p) = Ok (plan_content_hash p) /\ has_authority p.

Lemma mark_consumed_cases clk p :
  (consumption_due clk p /\
   mark_consumed clk p =
     record_transaction_stage (after 1 clk) ConsumptionPersisted (set_status Consumed p)) \/
  (~ consumption_due clk p /\ dt_gt (clk 0) (plan_expires_at p) = true /\
   mark_consumed clk p =
     (Err (PlanExpired (plan_operation_id p) (plan_expires_at p)), set_status Expired p)) \/
  (~ consumption_due clk p /\ exists e, mark_consumed clk p = (Err e, p)).
Proof.
  unfold mark_consumed, st_bind, st_get, st_lift, st_throw, st_modify, consumption_due.
  destruct (dt_gt (clk 0) (plan_expires_at p)) eqn:Et.
  { right; left. split; [by intros ([=] & _)|done]. }
  destruct (hash_value (hashable_content p)) as [h|e] eqn:Eh.
  2: { right; right. split; [by intros (_ & [=] & _)|by eexists]. }
  destruct (h =? plan_content_hash p) eqn:Ehc; reflect_eqb; cbn [negb].
  2: { right; right. split; [|by eexists]. intros (_ & [= ?] & _). congruence. }
  destruct (consumable p) as [[]|e] eqn:Ec.
  - left. rewrite <- consumable_ok. subst h. done.
  - right; right. split; [|by eexists]. rewrite <- consumable_ok. intros (_ & _ & ?). congruence.
Qed.

(** What a standing consumption requires. *)
Definition standing_due (clk : Clock) (authority : StandingAuthorityV1) (p : PlanV1) : Prop :=
  dt_gt (clk 0) (plan_expires_at p) = false /\
  hash_value (hashable_content p) = Ok (plan_content_hash p) /\
  plan_status p = Draft /\ plan_approval p = None /\
  policy_disposition (plan_policy p) = ApprovalRequired /\
  operational authority (clk 1) /\
  sa_account_id authority = plan_account_id p /\
  (cap_id (plan_capability p) ∈ sa_capability_ids authority).

Lemma authority_covers_ok now authority p :
  authority_covers now authority p = Ok tt <->
  operational authority now /\ sa_account_id authority = plan_account_id p /\
  (cap_id (plan_capability p) ∈ sa_capability_ids authority).
Proof.
  unfold authority_covers.
  change (existsb _ _) with (contains (sa_capability_ids authority) (cap_id (plan_capability p))).
  by rewrite res_bind_unit_ok, ensure_operational_iff, guard_ok, neqb_false, guard_unit_ok,
    negb_false_iff, contains_true.
Qed.

Lemma standing_cases clk authority p :
  let attempt := record_transaction_stage_with_artifact (after 2 clk) ConsumptionPersisted
    (authority_receipt authority) (set_status Consumed p) in
  (standing_due clk authority p /\
   mark_consumed_via_standing_authority clk authority p =
     match attempt with
     | (Ok tt, p') => (Ok tt, p')
     | (Err e, p') => (Err e, set_status Draft p')
     end) \/
  (~ standing_due clk authority p /\ dt_gt (clk 0) (plan_expires_at p) = true /\
   mark_consumed_via_standing_authority clk authority p =
     (Err (PlanExpired (plan_operation_id p) (plan_expires_at p)), set_status Expired p)) \/
  (~ standing_due clk authority p /\
   exists e, mark_consumed_via_standing_authority clk authority p = (Err e, p)).
Proof.
  intros attempt. unfold mark_consumed_via_standing_authority, st_bind, st_get, st_lift,
    st_throw, st_modify, st_on_err, standing_due.
  destruct (dt_gt (clk 0) (plan_expires_at p)) eqn:Et.
  { right; left. split; [by intros ([=] & _)|done]. }
  destruct (hash_value (hashable_content p)) as [h|e] eqn:Eh.
  2: { right; right. split; [by intros (_ & [=] & _)|by eexists]. }
  destruct (h =? plan_content_hash p) eqn:Ehc; reflect_eqb; cbn [negb].
  2: { right; right. split; [|by eexists]. intros (_ & [= ?] & _). congruence. }
  destruct ((plan_status p <>? Draft) || is_someb (plan_approval p)
    || (policy_disposition (plan_policy p) <>? ApprovalRequired)) eqn:Eg.
  { right; right. split; [|by eexists]. intros (_ & _ & Hs & Ha & Hd & _).
    by rewrite Hs, Ha, Hd in Eg. }
  split_andb. reflect_eqb.
  destruct (authority_covers (clk 1) authority p) as [[]|e] eqn:Ec.
  - left. apply authority_covers_ok in Ec as (? & ? & ?). subst h. split.
    + destruct (plan_approval p); [done|]. repeat (split; [done|]). done.
    + fold attempt. by destruct attempt as [[[]|e] p'].
  - right; right. split; [|by eexists]. intros (_ & _ & _ & _ & _ & Hx).
    apply authority_covers_ok in Hx. congruence.
Qed.

Lemma set_status_journal_ok s p : journal_ok p -> journal_ok (set_status s p).
Proof. by apply journal_ok_frame. Qed.
End Consume.

(** A plan is consumed exactly under authority. On a plan with a valid
    journal that has not reached consumption, [mark_consumed] succeeds exactly
    when the plan is unexpired, its content still hashes to [content_hash],
    and it is either [Approved] with an approval of that very hash or a draft
    the policy lets auto-execute; it then reads [Consumed], with the
    consumption journaled and the whole journal valid. *)
Theorem mark_consumed_iff `{RuntimeTotal} clk (p : PlanV1) :
  validate_transaction_journal p = Ok tt -> plan_transaction_journal p <> [] ->
  artifacts_wf p -> (rank (plan_transaction_stage p) < rank ConsumptionPersisted)%Z ->
  (is_ok (mark_consumed clk p).1 = true <-> consumption_due clk p) /\
  (consumption_due clk p ->
   let p' := (mark_consumed clk p).2 in
   plan_status p' = Consumed /\ reviewed p' = reviewed p /\
   plan_transaction_stage p' = ConsumptionPersisted /\
   validate_transaction_journal p' = Ok tt).
Proof.
  intros Hv Hne Hw Hr. apply validate_journal_ok in Hv as [Hj [_ Ha]]; [|done].
  destruct (mark_consumed_cases clk p) as [[Hd E]|[(Hno & _ & E)|(Hno & e & E)]];
    [|rewrite E; split; [by split|by intros]..].
  assert (Hma : may_append (set_status Consumed p) ConsumptionPersisted).
  { right. split; [by apply set_status_journal_ok|exact Hr]. }
  destruct (record_total (after 1 clk) ConsumptionPersisted None _ Hma) as [p' Hp']; [done|].
  unfold record_transaction_stage in E. rewrite E, Hp'. split; [by split|]. intros _. cbn [snd].
  apply record_ok in Hp' as (_ & Hpub & cp & Hnext & ->).
  split; [done|]. split; [done|]. split; [by destruct Hnext as (Hcs & _)|].
  apply validate_journal_ok; [cbn; by destruct (plan_transaction_journal p)|]. split.
  - eapply push_journal_ok; [exact Hma|exact Hw|exact Hpub|exact Hnext|done].
  - eapply push_status_bound; [exact Hnext|]. intros Hrec _. by apply Ha.
Qed.

(** Standing consumption is bounded and attributable. It succeeds exactly
    when the plan is an unexpired, unapproved, approval-required draft whose
    content is intact, and the authority is operational, pinned to the plan's
    account and allows its capability. The consumed plan's journal is valid
    and its consumption checkpoint carries the authority's id and content
    hash. Every other call leaves the plan as it was (or [Expired]). *)
Theorem standing_consumption_iff `{RuntimeTotal} clk authority (p : PlanV1) :
  validate_transaction_journal p = Ok tt -> plan_transaction_journal p <> [] ->
  artifacts_wf p -> (rank (plan_transaction_stage p) < rank ConsumptionPersisted)%Z ->
  let p' := (mark_consumed_via_standing_authority clk authority p).2 in
  (is_ok (mark_consumed_via_standing_authority clk authority p).1 = true
     <-> standing_due clk authority p) /\
  (standing_due clk authority p ->
   plan_status p' = Consumed /\ reviewed p' = reviewed p /\
   validate_transaction_journal p' = Ok tt /\
   transaction_artifact p' ConsumptionPersisted = Some (authority_receipt authority)) /\
  (~ standing_due clk authority p ->
   p' = p \/ (dt_gt (clk 0) (plan_expires_at p) = true /\ p' = set_status Expired p)).
Proof.
  intros Hv Hne Hw Hr p'. subst p'. apply validate_journal_ok in Hv as [Hj [_ Ha]]; [|done].
  destruct (standing_cases clk authority p) as [[Hd E]|[(Hno & Ht & E)|(Hno & e & E)]];
    [|rewrite E; split; [by split|]; split; [by intros|]; intros _; cbn; auto..].
  assert (Hma : may_append (set_status Consumed p) ConsumptionPersisted).
  { right. split; [by apply set_status_journal_ok|exact Hr]. }
  destruct (record_total (after 2 clk) ConsumptionPersisted (Some (authority_receipt authority))
    _ Hma (authority_receipt_public authority)) as [p' Hp'].
  unfold record_transaction_stage_with_artifact in E. rewrite Hp' in E. rewrite E.
  split; [by split|]. split; [|done]. intros _. cbn [snd].
  apply record_ok in Hp' as (_ & Hpub & cp & Hnext & ->).
  split; [done|]. split; [done|]. split.
  - apply validate_journal_ok; [cbn; by destruct (plan_transaction_journal p)|]. split.
    + eapply push_journal_ok; [exact Hma|exact Hw|exact Hpub|exact Hnext|done].
    + eapply push_status_bound; [exact Hnext|]. intros Hrec _. by apply Ha.
  - rewrite push_artifact. destruct Hnext as (-> & _). by rewrite eqb_refl.
Qed.

(** ** Sequences of calls *)

(** What a caller does to a plan: the methods, a direct assignment of
    [status] (as the runtime does), and an edit of the reviewed content
    followed by [refresh_hash] (as plan preparation does). *)
Inductive event : Type :=
| EvApprove (clk : Clock) (yes : bool) (ceiling : option MoneyV1)
| EvConsume (clk : Clock)
| EvConsumeStanding (clk : Clock) (authority : StandingAuthorityV1)
| EvCancel (clk : Clock)
| EvRecord (clk : Clock) (stage : TransactionStageV1) (artifact : option Value)
| EvAssignStatus (status : PlanStatus)
| EvEdit (content : PlanV1).

Section Events.
Context `{Runtime}.

(** The reviewed content of [content] in place of that of [p]. *)
Definition edited (content p : PlanV1) : PlanV1 :=
  plan_update content (plan_status p) (plan_approval p) (plan_cancelled_at p)
    (plan_content_hash p) (plan_transaction_stage p) (plan_transaction_journal p)
    (plan_transaction_artifacts p).

Definition run_event (e : event) (p : PlanV1) : Result unit * PlanV1 :=
  match e with
  | EvApprove clk yes ceiling => approve clk yes ceiling p
  | EvConsume clk => mark_consumed clk p
  | EvConsumeStanding clk authority => mark_consumed_via_standing_authority clk authority p
  | EvCancel clk => cancel clk p
  | EvRecord clk stage artifact => record_transaction_stage_inner clk stage artifact p
  | EvAssignStatus status => (Ok tt, set_status status p)
  | EvEdit content => refresh_hash (edited content p)
  end.

Fixpoint run (es : list event) (p : PlanV1) : PlanV1 :=
  match es with
  | [] => p
  | e :: rest => run rest (run_event e p).2
  end.

(** The checkpoint a successful call writes ([cancel] is separate: on a
    cancelled plan it succeeds without writing). *)
Definition records (e : event) : option TransactionStageV1 :=
  match e with
  | EvApprove _ _ _ => Some ApprovalPersisted
  | EvConsume _ | EvConsumeStanding _ _ => Some ConsumptionPersisted
  | EvRecord _ stage _ => Some stage
  | EvCancel _ | EvAssignStatus _ | EvEdit _ => None
  end.
Definition is_consumption (e : event) : bool := records e =? Some ConsumptionPersisted.

(** How many calls of a sequence consume the plan. *)
Fixpoint consumptions (es : list event) (p : PlanV1) : nat :=
  match es with
  | [] => 0
  | e :: rest =>
      (if is_consumption e && is_ok (run_event e p).1 then 1 else 0)
      + consumptions rest (run_event e p).2
  end.

(** The effect of one call on the mutable part. *)
Definition journal_grows (p p' : PlanV1) : Prop :=
  (plan_transaction_journal p' = plan_transaction_journal p /\
   plan_transaction_stage p' = plan_transaction_stage p) \/
  (exists cp, plan_transaction_journal p' = (plan_transaction_journal p ++ [cp])%list /\
     plan_transaction_stage p' = cp_stage cp /\
     (plan_transaction_journal p <> [] ->
      (rank (plan_transaction_stage p) < rank (cp_stage cp))%Z)).

Lemma record_grows clk stage artifact p r p' :
  record_transaction_stage_inner clk stage artifact p = (r, p') ->
  (exists e, r = Err e /\ p' = p) \/
  (r = Ok tt /\ exists cp, cp_stage cp = stage /\ p' = push p cp artifact /\
    (plan_transaction_journal p <> [] -> (rank (plan_transaction_stage p) < rank stage)%Z)).
Proof.
  destruct r as [[]|e]; intros E.
  - right. split; [done|]. apply record_ok in E as (Hm & _ & cp & Hn & ->).
    exists cp. split; [by destruct Hn|]. split; [done|]. intros Hne.
    destruct Hm as [[? _]|[_ ?]]; done.
  - left. apply record_err in E. eauto.
Qed.

Ltac grown E cp Hcp Hr :=
  apply record_grows in E as [(? & -> & ->)|(-> & cp & Hcp & -> & Hr)].

(** Every call appends at most one checkpoint, ahead of the stage; a
    successful approval, consumption or record appends its own; only a successful
    explicit approval installs an approval, of the plan's own hash. *)
Lemma run_event_effect e p :
  let p' := (run_event e p).2 in
  journal_grows p p' /\
  (forall stage, records e = Some stage -> is_ok (run_event e p).1 = true ->
   plan_transaction_stage p' = stage /\
   (plan_transaction_journal p <> [] ->
    (rank (plan_transaction_stage p) < rank stage)%Z)) /\
  (plan_approval p' = plan_approval p \/ plan_approval p' = None \/
   exists clk ceiling, e = EvApprove clk true ceiling /\ is_ok (run_event e p).1 = true /\
     approvable clk true ceiling p /\ plan_approval p' = Some (granted clk p ceiling)).
Proof.
  destruct e as [clk yes ceiling|clk|clk authority|clk|clk stage artifact|status|content];
    cbn [run_event records].
  - destruct (approve_cases clk yes ceiling p) as [[Hok E]|[(_ & _ & _ & E)|(_ & e & E)]];
      rewrite E; cbn; [|split; [by left|]; split; [done|by left]..].
    unfold record_transaction_stage_with_artifact.
    destruct (record_transaction_stage_inner _ _ _ _) as [r p'] eqn:Er.
    grown Er cp Hcp Hr; cbn; [split; [by left|]; split; [done|by right; left]|].
    split; [right; exists cp; rewrite Hcp; done|]. split; [by intros ? [= <-]|].
    right; right. exists clk, ceiling. assert (yes = true) as -> by apply Hok. done.
  - destruct (mark_consumed_cases clk p) as [[_ E]|[(_ & _ & E)|(_ & e & E)]]; rewrite E; cbn;
      [|split; [by left|]; split; [done|by left]..].
    unfold record_transaction_stage.
    destruct (record_transaction_stage_inner _ _ _ _) as [r p'] eqn:Er.
    grown Er cp Hcp Hr; cbn; (split; [|split; [|by left]]); [by left|done| |].
    + right. exists cp. rewrite Hcp. done.
    + by intros ? [= <-].
  - destruct (standing_cases clk authority p) as [[_ E]|[(_ & _ & E)|(_ & e & E)]]; rewrite E; cbn;
      [|split; [by left|]; split; [done|by left]..].
    unfold record_transaction_stage_with_artifact.
    destruct (record_transaction_stage_inner _ _ _ _) as [r p'] eqn:Er.
    grown Er cp Hcp Hr; cbn; (split; [|split; [|by left]]); [by left|done| |].
    + right. exists cp. rewrite Hcp. done.
    + by intros ? [= <-].
  - split; [|split; [done|]]; unfold cancel, st_bind, st_get, st_modify, st_on_err, st_ret,
      st_throw, record_transaction_stage; destruct (plan_status p); try (by left);
      destruct (record_transaction_stage_inner _ _ _ _) as [r p'] eqn:Er;
      grown Er cp Hcp Hr; cbn; try (by left); right; exists cp; rewrite Hcp; done.
  - destruct (record_transaction_stage_inner _ _ _ _) as [r p'] eqn:Er.
    grown Er cp Hcp Hr; cbn; (split; [|split; [|by left]]); [by left|done| |].
    + right. exists cp. rewrite Hcp. done.
    + by intros ? [= <-].
  - split; [by left|]. split; [done|by left].
  - unfold refresh_hash, st_bind, st_get, st_lift, st_modify.
    destruct (hash_value _); cbn; (split; [by left|]; split; [done|by left]).
Qed.

Lemma grows_nonempty p p' :
  journal_grows p p' -> plan_transaction_journal p <> [] -> plan_transaction_journal p' <> [].
Proof.
  intros [[-> _]|(cp & -> & _)]; [done|]. by destruct (plan_transaction_journal p).
Qed.

Lemma grows_rank p p' :
  journal_grows p p' -> plan_transaction_journal p <> [] ->
  (rank (plan_transaction_stage p) <= rank (plan_transaction_stage p'))%Z.
Proof. intros [[_ ->]|(cp & _ & -> & Hr)] Hne; [lia|]. specialize (Hr Hne). lia. Qed.

(** Where the approval of a plan comes from. *)
Lemma approval_origin es p a :
  plan_approval (run es p) = Some a ->
  plan_approval p = Some a \/
  exists es1 clk ceiling es2, es = (es1 ++ EvApprove clk true ceiling :: es2)%list /\
    is_ok (run_event (EvApprove clk true ceiling) (run es1 p)).1 = true /\
    approvable clk true ceiling (run es1 p) /\ a = granted clk (run es1 p) ceiling.
Proof.
  revert p; induction es as [|e es IH]; intros p; cbn [run]; [by left|].
  intros Ha. destruct (IH _ Ha) as [Ha'|(es1 & clk & ceiling & es2 & -> & Hok & Hap & Hg)].
  - destruct (run_event_effect e p) as (_ & _ & [E|[E|(clk & ceiling & -> & Hok & Hap & E)]]);
      rewrite Ha' in E; [by left|done|].
    right. exists [], clk, ceiling, es. injection E as ->. done.
  - right. exists (e :: es1), clk, ceiling, es2. done.
Qed.

Lemma run_event_reviewed e p :
  reviewed (run_event e p).2 = reviewed p \/
  (exists content, e = EvEdit content /\ reviewed (run_event e p).2 = reviewed content).
Proof.
  destruct e as [clk yes ceiling|clk|clk authority|clk|clk stage artifact|status|content];
    cbn [run_event]; try (by left).
  - left. destruct (approve_cases clk yes ceiling p) as [[Hok E]|[(_ & _ & _ & E)|(_ & e & E)]];
      rewrite E; try done. unfold record_transaction_stage_with_artifact.
    destruct (record_transaction_stage_inner _ _ _ _) as [r p'] eqn:Er. by grown Er cp Hcp Hr.
  - left. destruct (mark_consumed_cases clk p) as [[_ E]|[(_ & _ & E)|(_ & e & E)]];
      rewrite E; try done. unfold record_transaction_stage.
    destruct (record_transaction_stage_inner _ _ _ _) as [r p'] eqn:Er. by grown Er cp Hcp Hr.
  - left. destruct (standing_cases clk authority p) as [[_ E]|[(_ & _ & E)|(_ & e & E)]];
      rewrite E; try done. unfold record_transaction_stage_with_artifact.
    destruct (record_transaction_stage_inner _ _ _ _) as [r p'] eqn:Er. by grown Er cp Hcp Hr.
  - left. unfold cancel, st_bind, st_get, st_modify, st_on_err, st_ret,
      st_throw, record_transaction_stage; destruct (plan_status p); try done;
      destruct (record_transaction_stage_inner _ _ _ _) as [r p'] eqn:Er; by grown Er cp Hcp Hr.
  - left. destruct (record_transaction_stage_inner _ _ _ _) as [r p'] eqn:Er. by grown Er cp Hcp Hr.
  - right. exists content. unfold refresh_hash, st_bind, st_get, st_lift, st_modify.
    split; [done|]. by destruct (hash_value _).
Qed.

Definition edits_ok (es : list event) : Prop :=
  Forall (fun e => match e with EvEdit content => content_ok content | _ => True end) es.

Lemma run_content_ok es p : edits_ok es -> content_ok p -> content_ok (run es p).
Proof.
  intros He; revert p; induction He as [|e es He _ IH]; intros p Hp; [done|]. apply IH.
  change (content_ok (reviewed (run_event e p).2)).
  destruct (run_event_reviewed e p) as [E|(content & -> & E)]; rewrite E; done.
Qed.
End Events.

(** C2: a plan is consumed at most once, whatever the caller does: over any
    sequence of approvals, consumptions of either kind, cancellations and
    checkpoints, interleaved with arbitrary assignments of [status] and edits
    of the content, at most one call that consumes the plan succeeds. *)
Theorem consumed_at_most_once `{Runtime} (es : list event) (p : PlanV1) :
  plan_transaction_journal p <> [] -> consumptions es p <= 1.
Proof.
  assert (Hmain : forall es p, plan_transaction_journal p <> [] ->
    consumptions es p <= 1 /\
    ((2 <= rank (plan_transaction_stage p))%Z -> consumptions es p = 0)).
  { clear es p. induction es as [|e es IH]; intros p Hne; [split; [cbn; lia|done]|].
    cbn [consumptions].
    destruct (run_event_effect e p) as (Hg & Hrec & _).
    destruct (IH _ (grows_nonempty _ _ Hg Hne)) as [IH1 IH2].
    pose proof (grows_rank _ _ Hg Hne) as Hle.
    destruct (is_consumption e && is_ok (run_event e p).1) eqn:E.
    - apply andb_true_iff in E as [Ec%eqb_eq Eok].
      destruct (Hrec _ Ec Eok) as [Hs Hr]. specialize (Hr Hne). cbn in Hr.
      rewrite IH2 by (rewrite Hs; cbn; lia). split; [lia|lia].
    - split; [lia|]. intros. rewrite IH2; lia. }
  intros Hne. by apply Hmain.
Qed.

(** C1: nothing executes unreviewed. After any sequence of calls, assignments
    and edits on a plan that started unapproved, [mark_consumed] succeeds only
    if the policy lets the draft auto-execute, or if some earlier call was an
    explicit, successful approval of a plan whose reviewed content was, field
    by field, the content consumed now - or SHA-256 collided. The other
    consumption, [mark_consumed_via_standing_authority], succeeds only on an
    unapproved draft that requires approval, and only under an authority that
    is operational at that instant - active, unexpired, approved by its
    operator for exactly its present grant - and that names the plan's account
    and its capability. *)
Theorem consumption_requires_review `{RuntimeInjective} (es : list event) (p : PlanV1) clk :
  plan_approval p = None -> content_ok p -> edits_ok es ->
  (is_ok (mark_consumed clk (run es p)).1 = true ->
   (plan_approval (run es p) = None /\
    policy_disposition (plan_policy (run es p)) = AutoExecute) \/
   (exists es1 clk' ceiling es2, es = (es1 ++ EvApprove clk' true ceiling :: es2)%list /\
      is_ok (run_event (EvApprove clk' true ceiling) (run es1 p)).1 = true /\
      reviewed (run es1 p) = reviewed (run es p)) \/
   collision) /\
  (forall authority,
   is_ok (mark_consumed_via_standing_authority clk authority (run es p)).1 = true ->
   plan_status (run es p) = Draft /\ plan_approval (run es p) = None /\
   policy_disposition (plan_policy (run es p)) = ApprovalRequired /\
   operational authority (clk 1) /\
   sa_account_id authority = plan_account_id (run es p) /\
   (cap_id (plan_capability (run es p)) ∈ sa_capability_ids authority)).
Proof.
  intros Hnone Hp He. split; intros Hok; [|intros Hok'; rename Hok into authority].
  - destruct (mark_consumed_cases clk (run es p)) as [[(_ & Hh & Ha) E]|[(_ & _ & E)|(_ & e & E)]];
      [|rewrite E in Hok; done..].
    destruct Ha as [(_ & a & Ha & Hah)|(_ & Hd & Ha)]; [|by left]. right.
    destruct (approval_origin _ _ _ Ha) as [Ha0|(es1 & clk' & ceiling & es2 & -> & Hoka & Hap & ->)];
      [congruence|].
    destruct Hap as (_ & _ & _ & _ & _ & _ & Hh1). cbn in Hah. rewrite Hah in Hh1.
    destruct (hash_value_same _ _ _ Hh1 Hh) as [Heq|]; [left|by right].
    exists es1, clk', ceiling, es2. split; [done|]. split; [done|].
    apply hashable_content_inj; [|by apply run_content_ok|done].
    apply run_content_ok; [|done]. by apply Forall_app in He as [? _].
  - destruct (standing_cases clk authority (run es p)) as [[(_ & _ & Hdue) _]|[(_ & _ & E)|(_ & e & E)]];
      [done|rewrite E in Hok'; done..].
Qed.

(** ** The governed state machine *)

(** The calls of the governed flow: the four lifecycle methods, and edits of
    the content while the plan is still a draft. *)
Inductive governed_step `{Runtime} (p : PlanV1) : PlanV1 -> Prop :=
| gs_approve clk yes ceiling : governed_step p (approve clk yes ceiling p).2
| gs_consume clk : governed_step p (mark_consumed clk p).2
| gs_standing clk authority : governed_step p (mark_consumed_via_standing_authority clk authority p).2
| gs_cancel clk : governed_step p (cancel clk p).2
| gs_edit content :
    plan_status p = Draft -> plan_operation_id content = plan_operation_id p ->
    governed_step p (refresh_hash (edited content p)).2.

(** The journal stage each status of the governed flow sits at. *)
Definition stage_of (s : PlanStatus) : option TransactionStageV1 :=
  match s with
  | Draft => Some PlanPrepared
  | Approved => Some ApprovalPersisted
  | Consumed => Some ConsumptionPersisted
  | Cancelled => Some Closed
  | _ => None
  end.

Definition governed_inv `{Runtime} (p : PlanV1) : Prop :=
  journal_ok p /\ artifacts_wf p /\ (approval_recorded p = false -> plan_approval p = None) /\
  (plan_status p = Expired \/
   (cp_plan_status <$> last (plan_transaction_journal p) = Some (plan_status p) /\
    stage_of (plan_status p) = Some (plan_transaction_stage p))).

Section Governed.
Context `{RuntimeTotal}.

Lemma governed_expired p : governed_inv p -> governed_inv (set_status Expired p).
Proof.
  intros (Hj & Hw & Ha & _). split; [by apply set_status_journal_ok|].
  split; [done|]. split; [done|by left].
Qed.

Lemma governed_push q now stage artifact cp :
  may_append q stage -> artifacts_wf q -> public_artifact artifact ->
  next_checkpoint q now stage artifact cp ->
  (approval_recorded q = false -> stage <> ApprovalPersisted -> plan_approval q = None) ->
  (stage = ApprovalPersisted -> approval_bound (push q cp artifact)) ->
  stage_of (plan_status q) = Some stage -> governed_inv (push q cp artifact).
Proof.
  intros Hm Hw Hp Hn Ha Hb Hs. split; [by eapply push_journal_ok|].
  split; [by apply push_artifacts_wf|].
  destruct (push_status_bound q now stage artifact cp Hn Ha) as [Ht Hap].
  split; [done|]. right. split; [done|]. destruct Hn as (<- & _). exact Hs.
Qed.

Lemma governed_not_expired p s :
  governed_inv p -> plan_status p = s -> s <> Expired ->
  stage_of s = Some (plan_transaction_stage p).
Proof. intros (_ & _ & _ & [?|[_ ?]]) <- ?; [done|done]. Qed.

Lemma governed_approve clk yes ceiling p :
  governed_inv p -> governed_inv (approve clk yes ceiling p).2.
Proof.
  intros Hi. pose proof Hi as (Hj & Hw & Ha & _).
  destruct (approve_cases clk yes ceiling p) as [[Hok E]|[(_ & _ & _ & E)|(_ & e & E)]];
    rewrite E; [|by apply governed_expired|done].
  assert (Hst : plan_transaction_stage p = PlanPrepared).
  { destruct Hok as (_ & Hd & _). pose proof (governed_not_expired _ _ Hi Hd) as Hs.
    by injection Hs. }
  set (a := granted clk p ceiling).
  assert (Hma : may_append (with_approval a p) ApprovalPersisted).
  { right. split; [apply with_approval_journal; [done|by rewrite Hst]|by cbn; rewrite Hst]. }
  destruct (record_total (after 2 clk) ApprovalPersisted (Some (approval_receipt p a))
    (with_approval a p) Hma (approval_receipt_public p a)) as [p' Hp'].
  unfold record_transaction_stage_with_artifact. rewrite Hp'. cbn [snd].
  apply record_ok in Hp' as (_ & Hpub & cp & Hnext & ->).
  destruct Hok as (_ & _ & _ & _ & Hm & _). pose proof Hnext as (Hcs & _).
  eapply governed_push; [exact Hma|exact Hw|exact Hpub|exact Hnext|done| |done].
  intros _. by apply granted_bound; [..|apply granted_money].
Qed.

Lemma governed_record clk s stage artifact p :
  governed_inv p -> (rank (plan_transaction_stage p) < rank stage)%Z ->
  stage <> ApprovalPersisted -> stage_of s = Some stage -> public_artifact artifact ->
  exists p', record_transaction_stage_inner clk stage artifact (set_status s p) = (Ok tt, p') /\
    governed_inv p'.
Proof.
  intros (Hj & Hw & Ha & _) Hr Hna Hs Hpub.
  assert (Hma : may_append (set_status s p) stage).
  { right. split; [by apply set_status_journal_ok|exact Hr]. }
  destruct (record_total clk stage artifact _ Hma Hpub) as [p' Hp']. exists p'. split; [done|].
  apply record_ok in Hp' as (_ & _ & cp & Hnext & ->).
  eapply governed_push; [exact Hma|exact Hw|exact Hpub|exact Hnext| |done|exact Hs].
  intros Hrec _. by apply Ha.
Qed.

Lemma governed_consume clk p : governed_inv p -> governed_inv (mark_consumed clk p).2.
Proof.
  intros Hi.
  destruct (mark_consumed_cases clk p) as [[(_ & _ & Hauth) E]|[(_ & _ & E)|(_ & e & E)]];
    rewrite E; [|by apply governed_expired|done].
  assert (Hr : (rank (plan_transaction_stage p) < rank ConsumptionPersisted)%Z).
  { destruct Hauth as [[Hs _]|[Hs _]]; pose proof (governed_not_expired _ _ Hi Hs) as Hst;
      injection Hst as <-; done. }
  unfold record_transaction_stage.
  destruct (governed_record (after 1 clk) Consumed ConsumptionPersisted None p)
    as (p' & -> & ?); done.
Qed.

Lemma governed_standing clk authority p :
  governed_inv p -> governed_inv (mark_consumed_via_standing_authority clk authority p).2.
Proof.
  intros Hi.
  destruct (standing_cases clk authority p) as [[Hd E]|[(_ & _ & E)|(_ & e & E)]];
    rewrite E; [|by apply governed_expired|done].
  assert (Hr : (rank (plan_transaction_stage p) < rank ConsumptionPersisted)%Z).
  { destruct Hd as (_ & _ & Hs & _). pose proof (governed_not_expired _ _ Hi Hs) as Hst.
    injection Hst as <-; done. }
  unfold record_transaction_stage_with_artifact.
  destruct (governed_record (after 2 clk) Consumed ConsumptionPersisted
    (Some (authority_receipt authority)) p) as (p' & -> & ?); try done.
  apply authority_receipt_public.
Qed.

Definition cancelled (clk : Clock) (p : PlanV1) : PlanV1 :=
  set_cancelled_at (Some (clk 0)) (set_status Cancelled p).

Lemma cancel_cases clk p :
  let attempt := record_transaction_stage (after 1 clk) Closed (cancelled clk p) in
  ((plan_status p = Draft \/ plan_status p = Approved \/ plan_status p = Expired) /\
   cancel clk p =
     match attempt with
     | (Ok tt, p') => (Ok tt, p')
     | (Err e, p') => (Err e, set_cancelled_at None (set_status (plan_status p) p'))
     end) \/
  (plan_status p = Cancelled /\ cancel clk p = (Ok tt, p)) \/
  (exists e, cancel clk p = (Err e, p)).
Proof.
  intros attempt. unfold cancel, st_bind, st_get, st_modify, st_on_err, st_ret, st_throw.
  destruct (plan_status p) eqn:Es; try (by right; right; eexists); try (by right; left);
    left; (split; [tauto|]); subst attempt; cbn [fst snd];
    change (set_cancelled_at (Some (clk 0)) (set_status Cancelled p)) with (cancelled clk p);
    by destruct (record_transaction_stage (after 1 clk) Closed (cancelled clk p)) as [[[]|] ?].
Qed.

Lemma governed_cancelled_at at_ p : governed_inv p -> governed_inv (set_cancelled_at at_ p).
Proof.
  intros (Hj & Hw & Ha & Hs). split; [by apply (journal_ok_frame p)|].
  exact (conj Hw (conj Ha Hs)).
Qed.

Lemma governed_cancel clk p : governed_inv p -> governed_inv (cancel clk p).2.
Proof.
  intros Hi. destruct (cancel_cases clk p) as [[Hst E]|[[_ E]|(e & E)]]; rewrite E; [|done..].
  destruct (decide (plan_transaction_stage p = Closed)) as [Hc|Hc].
  - destruct (record_transaction_stage (after 1 clk) Closed (cancelled clk p)) as [[[]|e] p'] eqn:Er.
    + apply record_ok in Er as ([[Hn _]|[_ Hr]] & _); [by destruct Hi as ((? & _) & _)|].
      cbn in Hr. rewrite Hc in Hr. cbn in Hr. lia.
    + apply record_err in Er as ->. cbn [snd].
      apply (governed_cancelled_at None) in Hi. exact Hi.
  - destruct (governed_record (after 1 clk) Cancelled Closed None
      (set_cancelled_at (Some (clk 0)) p)) as (p' & Hp' & Hg); try done.
    + by apply governed_cancelled_at.
    + cbn. by destruct (plan_transaction_stage p).
    + unfold record_transaction_stage.
      change (cancelled clk p) with (set_status Cancelled (set_cancelled_at (Some (clk 0)) p)).
      by rewrite Hp'.
Qed.

Lemma governed_edit content p :
  plan_status p = Draft -> plan_operation_id content = plan_operation_id p ->
  governed_inv p -> governed_inv (refresh_hash (edited content p)).2.
Proof.
  intros Hd Hid Hi. unfold refresh_hash, st_bind, st_get, st_lift, st_modify.
  assert (Hb : approval_recorded p = false).
  { apply before_approval; [by destruct Hi|].
    pose proof (governed_not_expired _ _ Hi Hd) as Hs. injection Hs as <-; done. }
  destruct Hi as (Hj & Hw & Ha & Hs).
  destruct (hash_value _); cbn [fst snd]; (split; [apply (journal_ok_frame p); try done;
    by rewrite Hb|]; exact (conj Hw (conj Ha Hs))).
Qed.

Lemma governed_step_inv p p' : governed_inv p -> governed_step p p' -> governed_inv p'.
Proof.
  intros Hi [clk yes ceiling|clk|clk authority|clk|content Hd Hid].
  - by apply governed_approve.
  - by apply governed_consume.
  - by apply governed_standing.
  - by apply governed_cancel.
  - by apply governed_edit.
Qed.
End Governed.

Lemma plan_draft_ok `{RuntimeTotal} clk id profile account catalog capability targets :
  exists p, plan_draft clk id profile account catalog capability targets = Ok p /\
    governed_inv p /\ plan_status p = Draft /\ plan_approval p = None /\
    plan_transaction_stage p = PlanPrepared /\ plan_operation_id p = id /\
    plan_capability p = capability /\ plan_targets p = targets /\
    plan_expires_at p = dt_add (clk 0) (hours 24) /\
    hash_value (hashable_content p) = Ok (plan_content_hash p).
Proof.
  unfold plan_draft. match goal with |- context [st_bind _ _ ?d] => set (d0 := d) end.
  unfold refresh_hash, st_bind, st_get, st_lift, st_modify.
  destruct (hash_value_total (hashable_content d0)) as [h Hh]. rewrite Hh.
  destruct (record_total (after 1 clk) PlanPrepared None (set_content_hash h d0)) as [p Hp];
    [by left|done|].
  unfold record_transaction_stage. rewrite Hp. exists p.
  apply record_ok in Hp as (Hm & Hpub & cp & Hnext & ->). split; [done|].
  split; [|destruct Hnext as (Hcs & _); split_and!; try done; exact Hcs].
  eapply governed_push; [exact Hm|done|exact Hpub|exact Hnext|done| |done]. intros [=].
Qed.

(** C3: the governed flow is the state machine its statuses name. From a
    draft, under any sequence of approvals, consumptions of either kind,
    cancellations and draft edits, the plan is always [Draft], [Approved],
    [Consumed], [Cancelled] or [Expired]; each of the first four sits at its
    own journal stage with the whole journal valid; and even an expired plan
    keeps a well-chained journal. *)
Theorem governed_state_machine `{RuntimeTotal} clk id profile account catalog capability targets
    p0 (p : PlanV1) :
  plan_draft clk id profile account catalog capability targets = Ok p0 ->
  rtc governed_step p0 p ->
  (plan_status p = Expired \/
   (stage_of (plan_status p) = Some (plan_transaction_stage p) /\
    validate_transaction_journal p = Ok tt)) /\
  validate_transaction_journal_inner p false = Ok tt.
Proof.
  intros Hd Hr. destruct (plan_draft_ok clk id profile account catalog capability targets)
    as (p1 & Hd1 & Hi & _). rewrite Hd in Hd1. injection Hd1 as <-. clear Hd.
  induction Hr as [p|p1 p2 p3 Hs _ IH]; [|by apply IH, (governed_step_inv p1)].
  destruct Hi as (Hj & Hw & Ha & Hs). assert (Hne : plan_transaction_journal p <> []) by apply Hj.
  split; [|by apply validate_inner_false]. destruct Hs as [Hs|[Ht Hs]]; [by left|right].
  split; [done|]. by apply validate_journal_ok.
Qed.

(** Cancellation retires the plan for good. On a draft, approved or
    expired plan with a well-chained open journal, [cancel] always succeeds -
    whether or not the plan expired or its content drifted - and journals
    [Closed]; after that no approval, no consumption of either kind and no
    checkpoint ever succeeds again, whatever the caller assigns or edits in
    between, and cancelling again changes nothing. *)
Theorem cancel_is_final `{RuntimeTotal} clk (p : PlanV1) :
  journal_ok p -> artifacts_wf p -> plan_transaction_stage p <> Closed ->
  plan_status p = Draft \/ plan_status p = Approved \/ plan_status p = Expired ->
  exists p', cancel clk p = (Ok tt, p') /\ plan_status p' = Cancelled /\
    plan_cancelled_at p' = Some (clk 0) /\ plan_transaction_stage p' = Closed /\
    reviewed p' = reviewed p /\
    (forall clk', cancel clk' p' = (Ok tt, p')) /\
    forall es e, is_someb (records e) = true -> is_ok (run_event e (run es p')).1 = false.
Proof.
  intros Hj Hw Hc Hst.
  destruct (cancel_cases clk p) as [[_ E]|[[? _]|(e & E)]]; [|by destruct Hst as [|[]]; congruence|].
  2: { exfalso. unfold cancel, st_bind, st_get, st_modify, st_on_err, record_transaction_stage in E.
       assert (Hma : may_append (cancelled clk p) Closed).
       { right. split; [by apply (journal_ok_frame p)|cbn; by destruct (plan_transaction_stage p)]. }
       destruct (record_total (after 1 clk) Closed None _ Hma) as [p' Hp']; [done|].
       unfold cancelled in Hp'. destruct Hst as [Hst|[Hst|Hst]]; rewrite Hst in E; cbn in E;
         rewrite Hp' in E; done. }
  assert (Hma : may_append (cancelled clk p) Closed).
  { right. split; [by apply (journal_ok_frame p)|cbn; by destruct (plan_transaction_stage p)]. }
  destruct (record_total (after 1 clk) Closed None _ Hma) as [p' Hp']; [done|].
  unfold record_transaction_stage in E. rewrite Hp' in E. exists p'. split; [done|].
  apply record_ok in Hp' as (_ & _ & cp & (Hcs & _) & ->).
  split; [done|]. split; [done|]. split; [exact Hcs|]. split; [done|]. split; [done|].
  assert (Hclosed : forall es q, plan_transaction_journal q <> [] ->
    plan_transaction_stage q = Closed -> plan_transaction_journal (run es q) <> [] /\
    plan_transaction_stage (run es q) = Closed).
  { induction es as [|e es IH]; intros q Hq Hqs; [done|]. cbn [run].
    destruct (run_event_effect e q) as (Hg & _). apply IH; [by eapply grows_nonempty|].
    pose proof (grows_rank _ _ Hg Hq) as Hle. rewrite Hqs in Hle. cbn in Hle.
    destruct (plan_transaction_stage (run_event e q).2); cbn in Hle; try lia. done. }
  intros es e Hrec. destruct (is_ok (run_event e _).1) eqn:Eok; [exfalso|done].
  destruct (Hclosed es (push (cancelled clk p) cp None)) as [Hne Hs];
    [cbn; by destruct (plan_transaction_journal p)|exact Hcs|].
  destruct (records e) as [s|] eqn:Er; [|done].
  destruct (run_event_effect e (run es (push (cancelled clk p) cp None))) as (_ & Hx & _).
  destruct (Hx _ Er Eok) as [_ Hr]. specialize (Hr Hne). rewrite Hs in Hr.
  by destruct s; cbn in Hr; lia.
Qed.

(** The content hash binds the reviewed content: two plans whose
    [content_hash] both verify and agree have equal reviewed content, field
    by field - or SHA-256 collided. *)
Theorem content_hash_binds `{RuntimeInjective} (p q : PlanV1) :
  content_ok p -> content_ok q ->
  hash_value (hashable_content p) = Ok (plan_content_hash p) ->
  hash_value (hashable_content q) = Ok (plan_content_hash q) ->
  plan_content_hash p = plan_content_hash q ->
  reviewed p = reviewed q \/ collision.
Proof.
  intros Hp Hq Hhp Hhq E. rewrite E in Hhp.
  destruct (hash_value_same _ _ _ Hhp Hhq) as [Heq|]; [left|by right].
  by apply hashable_content_inj.
Qed.

(** Expiry is checked before the status, so a late call rewrites history.
    Whatever its status - consumed, verified, cancelled - a plan past its
    expiry that [mark_consumed] is called on becomes [Expired], without a
    checkpoint: a journal that validated no longer does, unless the status
    already was [Expired]. *)
Theorem late_consumption_unbinds_status `{Runtime} clk (p : PlanV1) :
  dt_gt (clk 0) (plan_expires_at p) = true ->
  mark_consumed clk p =
    (Err (PlanExpired (plan_operation_id p) (plan_expires_at p)), set_status Expired p) /\
  (validate_transaction_journal p = Ok tt -> plan_status p <> Expired ->
   is_ok (validate_transaction_journal (mark_consumed clk p).2) = false).
Proof.
  intros Ht.
  assert (E : mark_consumed clk p =
    (Err (PlanExpired (plan_operation_id p) (plan_expires_at p)), set_status Expired p)).
  { unfold mark_consumed, st_bind, st_get. by rewrite Ht. }
  split; [exact E|]. intros Hv Hs. rewrite E. cbn [snd].
  destruct (is_ok _) eqn:Eok; [exfalso|done].
  assert (Hv' : validate_transaction_journal (set_status Expired p) = Ok tt).
  { by destruct (validate_transaction_journal (set_status Expired p)) as [[]|]. }
  destruct (plan_transaction_journal p) as [|c l] eqn:Ej.
  { unfold validate_transaction_journal, validate_transaction_journal_inner in Hv'.
    change (plan_transaction_journal (set_status Expired p)) with (plan_transaction_journal p) in Hv'.
    by rewrite Ej in Hv'. }
  assert (Hne : plan_transaction_journal p <> []) by congruence.
  apply validate_journal_ok in Hv as [_ [Hl _]]; [|done].
  apply validate_journal_ok in Hv' as [_ [Hl' _]]; [|done].
  cbn in Hl'. rewrite Hl in Hl'. injection Hl' as Hl'. by apply Hs.
Qed.

(** ** Witnesses *)

Definition sample_capability : CapabilityV1 :=
  capability_new "zone.settings.edit" "Edit a zone setting" "patch"
    "/zones/{zone_id}/settings/{setting_id}".
Definition sample_plan : PlanV1 :=
  match plan_draft (clock_at 0) "op" "profile" "acct" "catalog" sample_capability
      (VObject [("zone_id", VString "z")]) with
  | Ok p => p
  | Err _ => mkPlanV1 0 "" (at_s 0) (at_s 0) "" "" "" "" [] sample_capability VNull VNull [] [] []
               [] [] [] [] (mkPolicyDecisionV1 0 PolicyBlocked [] false) Failed None None ""
               Closed [] []
  end.
Definition sample_ceiling : MoneyV1 := mkMoneyV1 "usd" (S754_finite false 5 0).
Definition sample_approved : PlanV1 :=
  (approve (clock_at 60) true (Some sample_ceiling) sample_plan).2.
Definition sample_consumed : PlanV1 := (mark_consumed (clock_at 120) sample_approved).2.

Lemma sample_plan_valid : validate_transaction_journal sample_plan = Ok tt.
Proof. vm_compute. reflexivity. Qed.
Lemma sample_approved_valid : validate_transaction_journal sample_approved = Ok tt.
Proof. vm_compute. reflexivity. Qed.
Lemma sample_plan_nonempty : plan_transaction_journal sample_plan <> [].
Proof. vm_compute. discriminate. Qed.
Lemma sample_approved_nonempty : plan_transaction_journal sample_approved <> [].
Proof. vm_compute. discriminate. Qed.

Lemma sample_plan_journal_ok : journal_ok sample_plan.
Proof. by apply (proj1 (validate_journal_ok sample_plan sample_plan_nonempty) sample_plan_valid). Qed.
Lemma sample_approved_journal_ok : journal_ok sample_approved.
Proof.
  by apply (proj1 (validate_journal_ok sample_approved sample_approved_nonempty)
    sample_approved_valid).
Qed.

Lemma sample_plan_wf : artifacts_wf sample_plan.
Proof. split; [vm_compute; reflexivity|intros E; by destruct (sample_plan_nonempty E)]. Qed.
Lemma sample_approved_wf : artifacts_wf sample_approved.
Proof. split; [vm_compute; reflexivity|intros E; by destruct (sample_approved_nonempty E)]. Qed.

(** An event list that approves, edits the status, and tries to consume twice. *)
Definition sample_events : list event :=
  [EvApprove (clock_at 60) true (Some sample_ceiling); EvConsume (clock_at 120);
   EvAssignStatus Approved; EvConsume (clock_at 130)].

Lemma approve_ceremony_witness :
  exists p' cp, approve (clock_at 60) true (Some sample_ceiling) sample_plan = (Ok tt, p') /\
    cp_stage cp = ApprovalPersisted /\ cp_plan_status cp = Approved /\
    p' = push (with_approval (granted (clock_at 60) sample_plan (Some sample_ceiling)) sample_plan)
           cp (Some (approval_receipt sample_plan
             (granted (clock_at 60) sample_plan (Some sample_ceiling)))) /\
    validate_transaction_journal p' = Ok tt.
Proof.
  apply (approve_ceremony (clock_at 60) true (Some sample_ceiling) sample_plan
    sample_plan_journal_ok sample_plan_wf ltac:(vm_compute; reflexivity)).
  split; [reflexivity|]. split; [vm_compute; reflexivity|]. split; [vm_compute; reflexivity|].
  split; [intros _ [=]|]. split; [intros m [= <-]; vm_compute; reflexivity|].
  split; [intros [=]|]. vm_compute. reflexivity.
Defined.

Lemma mark_consumed_iff_witness :
  plan_status (mark_consumed (clock_at 120) sample_approved).2 = Consumed.
Proof.
  destruct (mark_consumed_iff (clock_at 120) sample_approved sample_approved_valid
    sample_approved_nonempty sample_approved_wf ltac:(vm_compute; reflexivity)) as [_ Hc].
  apply Hc. split; [vm_compute; reflexivity|]. split; [vm_compute; reflexivity|].
  left. split; [vm_compute; reflexivity|]. eexists. split; vm_compute; reflexivity.
Defined.

Definition sample_token_plan : PlanV1 :=
  match plan_draft (clock_at 0) "op" "profile" "acct" "catalog"
      (capability_new "token.create" "Create a token" "post" "/user/tokens") VNull with
  | Ok p => p
  | Err _ => sample_plan
  end.

Lemma standing_consumption_iff_witness :
  plan_status (mark_consumed_via_standing_authority (clock_at 120) sample_active
    sample_token_plan).2 = Consumed.
Proof.
  assert (Hv : validate_transaction_journal sample_token_plan = Ok tt)
    by (vm_compute; reflexivity).
  assert (Hne : plan_transaction_journal sample_token_plan <> []) by (vm_compute; discriminate).
  assert (Hw : artifacts_wf sample_token_plan)
    by (split; [vm_compute; reflexivity|intros E; by destruct (Hne E)]).
  destruct (standing_consumption_iff (clock_at 120) sample_active sample_token_plan Hv Hne Hw
    ltac:(vm_compute; reflexivity)) as (_ & Hc & _).
  apply Hc. split; [vm_compute; reflexivity|]. split; [vm_compute; reflexivity|].
  split; [vm_compute; reflexivity|]. split; [vm_compute; reflexivity|].
  split; [vm_compute; reflexivity|]. split.
  - split; [vm_compute; reflexivity|]. split; [vm_compute; reflexivity|].
    split; [vm_compute; reflexivity|]. eexists. split; vm_compute; reflexivity.
  - split; [vm_compute; reflexivity|]. apply contains_true. vm_compute. reflexivity.
Defined.

Lemma sample_content_ok : content_ok sample_plan.
Proof.
  split; [split; [reflexivity|constructor]|]. vm_compute. repeat split; done.
Qed.

Lemma sample_token_content_ok : content_ok sample_token_plan.
Proof.
  split; [split; [reflexivity|constructor]|]. vm_compute. repeat split; done.
Qed.

Lemma consumption_requires_review_witness :
  let es := [EvApprove (clock_at 60) true (Some sample_ceiling)] in
  ((plan_approval (run es sample_plan) = None /\
    policy_disposition (plan_policy (run es sample_plan)) = AutoExecute) \/
   (exists es1 clk' ceiling es2, es = (es1 ++ EvApprove clk' true ceiling :: es2)%list /\
      is_ok (run_event (EvApprove clk' true ceiling) (run es1 sample_plan)).1 = true /\
      reviewed (run es1 sample_plan) = reviewed (run es sample_plan)) \/
   collision) /\
  operational sample_active (clock_at 120 1).
Proof.
  intros es. split.
  - apply (consumption_requires_review es sample_plan (clock_at 120)).
    + vm_compute. reflexivity.
    + exact sample_content_ok.
    + repeat constructor.
    + vm_compute. reflexivity.
  - destruct (consumption_requires_review [] sample_token_plan (clock_at 120)) as [_ H].
    + vm_compute. reflexivity.
    + exact sample_token_content_ok.
    + constructor.
    + destruct (H sample_active) as (_ & _ & _ & Ho & _); [vm_compute; reflexivity|exact Ho].
Defined.

Lemma consumed_at_most_once_witness :
  consumptions sample_events sample_plan = 1 /\ consumptions sample_events sample_plan <= 1.
Proof.
  split; [vm_compute; reflexivity|].
  apply (consumed_at_most_once sample_events sample_plan sample_plan_nonempty).
Defined.

Lemma governed_state_machine_witness :
  validate_transaction_journal_inner sample_approved false = Ok tt.
Proof.
  apply (governed_state_machine (clock_at 0) "op" "profile" "acct" "catalog" sample_capability
    (VObject [("zone_id", VString "z")])%string sample_plan sample_approved).
  - vm_compute. reflexivity.
  - apply rtc_once. exact (gs_approve sample_plan (clock_at 60) true (Some sample_ceiling)).
Defined.

Lemma cancel_is_final_witness :
  exists p', cancel (clock_at 100000) sample_approved = (Ok tt, p') /\
    is_ok (run_event (EvConsume (clock_at 120)) (run [EvAssignStatus Approved] p')).1 = false.
Proof.
  destruct (cancel_is_final (clock_at 100000) sample_approved sample_approved_journal_ok
    sample_approved_wf ltac:(vm_compute; discriminate)
    ltac:(right; left; vm_compute; reflexivity))
    as (p' & Hc & _ & _ & _ & _ & _ & Hfinal).
  exists p'. split; [exact Hc|]. apply Hfinal. reflexivity.
Defined.

Lemma content_hash_binds_witness :
  reviewed sample_plan = reviewed sample_approved \/ collision.
Proof.
  apply (content_hash_binds sample_plan sample_approved sample_content_ok).
  - exact sample_content_ok.
  - vm_compute. reflexivity.
  - vm_compute. reflexivity.
  - vm_compute. reflexivity.
Defined.

Lemma late_consumption_unbinds_status_witness :
  is_ok (validate_transaction_journal (mark_consumed (clock_at 90000) sample_consumed).2) = false.
Proof.
  apply (late_consumption_unbinds_status (clock_at 90000) sample_consumed).
  - vm_compute. reflexivity.
  - vm_compute. reflexivity.
  - vm_compute. discriminate.
Defined.

Lemma validate_transaction_journal_iff_witness :
  journal_ok sample_approved /\ status_bound sample_approved.
Proof.
  apply (validate_transaction_journal_iff sample_approved sample_approved_nonempty).
  exact sample_approved_valid.
Defined.

Lemma journal_tamper_evident_witness :
  plan_transaction_journal sample_approved = plan_transaction_journal sample_approved \/ collision.
Proof.
  destruct (journal_tamper_evident sample_approved sample_approved sample_approved_valid
    sample_approved_valid ltac:(vm_compute; reflexivity) ltac:(vm_compute; reflexivity)
    sample_approved_nonempty eq_refl) as [(_ & Hj & _)|Hc]; [left; exact Hj|right; exact Hc].
Defined.

Lemma journal_bounded_witness :
  StronglySorted ahead (plan_transaction_journal sample_approved) /\
  length (plan_transaction_journal sample_approved) <= 11.
Proof. apply (journal_bounded sample_approved sample_approved_valid). Defined.
