(* ===== verification/Admission.v ===== *)
(** Admission policy bundles ([AdmissionPolicyBundleV1] of
    crates/cfctl-core/src/lib.rs): operator-approved, hash-bound rules that may
    only tighten the decision of the compiled safety floor. *)

From Stdlib Require Import String Ascii ZArith Lia List Bool.
From stdpp Require Import base option list strings relations.
From S2P Require Import Prelude Strings Btree Json Redaction CatalogTypes Capability Core.
From S2P Require Import CapabilityOps Policy Demo.

Open Scope cf_scope.

(** ** State *)

Inductive AdmissionPolicyBundleStatusV1 : Type :=
| BundlePending
| BundleApproved
| BundleActive
| BundleSuperseded
| BundleRevoked.
#[export] Instance AdmissionPolicyBundleStatusV1_eq_dec : EqDecision AdmissionPolicyBundleStatusV1.
Proof. solve_decision. Defined.

Definition bundle_status_as_str (s : AdmissionPolicyBundleStatusV1) : string :=
  match s with
  | BundlePending => "pending"
  | BundleApproved => "approved"
  | BundleActive => "active"
  | BundleSuperseded => "superseded"
  | BundleRevoked => "revoked"
  end.

Record AdmissionPolicyRuleV1 : Type := mkAdmissionPolicyRuleV1 {
  rule_id : string;
  rule_capability_id : option string;
  rule_product : option string;
  rule_effect : option EffectClass;
  rule_risk : option RiskClass;
  rule_disposition : PolicyDisposition;
  rule_reason : string;
}.
#[export] Instance ser_AdmissionPolicyRuleV1 : Serialize AdmissionPolicyRuleV1 :=
  fun r => struct_value [
    field "rule_id" (rule_id r);
    field_some "capability_id" (rule_capability_id r);
    field_some "product" (rule_product r);
    field_some "effect" (rule_effect r);
    field_some "risk" (rule_risk r);
    field "disposition" (rule_disposition r);
    field "reason" (rule_reason r)].
#[export] Program Instance inj_AdmissionPolicyRuleV1 : SerializeInj AdmissionPolicyRuleV1 :=
  {| ser_ok _ := True |}.
Next Obligation. struct_inj. Qed.
#[export] Instance total_AdmissionPolicyRuleV1 : SerializeTotal AdmissionPolicyRuleV1.
Proof. done. Qed.

Record AdmissionPolicyBundleV1 : Type := mkAdmissionPolicyBundleV1 {
  bundle_schema_version : Z;
  bundle_id : string;
  bundle_name : string;
  bundle_created_at : DateTime;
  bundle_status : AdmissionPolicyBundleStatusV1;
  bundle_rules : list AdmissionPolicyRuleV1;
  bundle_content_hash : string;
  bundle_approved_at : option DateTime;
  bundle_approved_content_hash : option string;
}.

Definition bundle_update (b : AdmissionPolicyBundleV1) status hash approved_at approved_hash :=
  {| bundle_schema_version := bundle_schema_version b;
     bundle_id := bundle_id b;
     bundle_name := bundle_name b;
     bundle_created_at := bundle_created_at b;
     bundle_status := status;
     bundle_rules := bundle_rules b;
     bundle_content_hash := hash;
     bundle_approved_at := approved_at;
     bundle_approved_content_hash := approved_hash |}.
Definition bundle_set_status status (b : AdmissionPolicyBundleV1) :=
  bundle_update b status (bundle_content_hash b) (bundle_approved_at b)
    (bundle_approved_content_hash b).
Definition bundle_set_hash hash (b : AdmissionPolicyBundleV1) :=
  bundle_update b (bundle_status b) hash (bundle_approved_at b) (bundle_approved_content_hash b).
Definition bundle_set_approved approved_at approved_hash (b : AdmissionPolicyBundleV1) :=
  bundle_update b (bundle_status b) (bundle_content_hash b) approved_at approved_hash.

(** ** Operations *)

Definition rule_matches (r : AdmissionPolicyRuleV1) (capability : CapabilityV1) : bool :=
  is_none_or (rule_capability_id r) (fun id => id =? cap_id capability)
  && is_none_or (rule_product r) (fun product => product =? cap_product capability)
  && is_none_or (rule_effect r) (fun effect => effect =? cap_effect capability)
  && is_none_or (rule_risk r) (fun risk => risk =? cap_risk capability).

Section Bundle.
Context `{Runtime}.
Open Scope string_scope.
Open Scope cf_scope.

(** The tuple the bundle hash covers. *)
Definition bundle_content (b : AdmissionPolicyBundleV1) : Value :=
  VArray [to_value (bundle_schema_version b); to_value (bundle_id b); to_value (bundle_name b);
          to_value (bundle_created_at b); to_value (bundle_rules b)].

Definition bundle_hash (b : AdmissionPolicyBundleV1) : Result string :=
  let? value := json_value (bundle_content b) in canonical_hash_value value.

Definition bundle_refresh_hash : ST AdmissionPolicyBundleV1 CoreError unit :=
  let* self := st_get in
  let* hash := st_lift (bundle_hash self) in
  st_modify (bundle_set_hash hash).

Definition auto_executes (rule : AdmissionPolicyRuleV1) : bool :=
  rule_disposition rule =? AutoExecute.

Definition bundle_pending (clk : Clock) (id name : string) (rules : list AdmissionPolicyRuleV1)
  : Result AdmissionPolicyBundleV1 :=
  guard (existsb auto_executes rules) (AdmissionPolicyBroadened "pending-bundle") (
  let bundle :=
    {| bundle_schema_version := 1;
       bundle_id := id;
       bundle_name := name;
       bundle_created_at := clk 0;
       bundle_status := BundlePending;
       bundle_rules := rules;
       bundle_content_hash := "";
       bundle_approved_at := None;
       bundle_approved_content_hash := None |} in
  match bundle_refresh_hash bundle with
  | (Ok _, bundle) => Ok bundle
  | (Err e, _) => Err e
  end).

Definition bundle_validate (b : AdmissionPolicyBundleV1) : Result unit :=
  let broadened := AdmissionPolicyBroadened (bundle_id b) in
  guard (bundle_schema_version b <>? 1%Z) broadened (
  guard (existsb auto_executes (bundle_rules b)) broadened (
  let? actual := bundle_hash b in
  guard (actual <>? bundle_content_hash b) broadened (
  guard ((bundle_status b <>? BundlePending)
         && (bundle_approved_content_hash b <>? Some (bundle_content_hash b)))
    broadened (Ok tt)))).

Definition invalid_bundle_state (b : AdmissionPolicyBundleV1) (expected : string) : CoreError :=
  InvalidAdmissionPolicyState (bundle_id b) (bundle_status_as_str (bundle_status b)) expected.

Definition bundle_approve (clk : Clock) (explicit_yes : bool)
  : ST AdmissionPolicyBundleV1 CoreError unit :=
  let* self := st_get in
  if bundle_status self <>? BundlePending then st_throw (invalid_bundle_state self "pending")
  else if negb explicit_yes then st_throw ExplicitApprovalRequired
  else
  do* st_lift (bundle_validate self) in
  do* st_modify (bundle_set_status BundleApproved) in
  st_modify (fun s => bundle_set_approved (Some (clk 0)) (Some (bundle_content_hash s)) s).

Definition bundle_activate : ST AdmissionPolicyBundleV1 CoreError unit :=
  let* self := st_get in
  if negb (contains [BundleApproved; BundleSuperseded] (bundle_status self)) then
    st_throw (invalid_bundle_state self "approved or superseded")
  else
  do* st_lift (bundle_validate self) in
  st_modify (bundle_set_status BundleActive).

Definition bundle_supersede (b : AdmissionPolicyBundleV1) : AdmissionPolicyBundleV1 :=
  if bundle_status b =? BundleActive then bundle_set_status BundleSuperseded b else b.

Definition bundle_revoke (b : AdmissionPolicyBundleV1) : AdmissionPolicyBundleV1 :=
  bundle_set_status BundleRevoked b.

(** One turn of the loop of [tighten]. *)
Definition tighten_rule (b : AdmissionPolicyBundleV1) (floor decision : PolicyDecisionV1)
    (rule : AdmissionPolicyRuleV1) : Result PolicyDecisionV1 :=
  guard (restriction_rank (rule_disposition rule)
         <? restriction_rank (policy_disposition floor))%Z
    (AdmissionPolicyBroadened (bundle_id b)) (
  let disposition :=
    if (restriction_rank (policy_disposition decision)
        <? restriction_rank (rule_disposition rule))%Z
    then rule_disposition rule else policy_disposition decision in
  Ok {| policy_schema_version := policy_schema_version decision;
        policy_disposition := disposition;
        policy_reasons := (policy_reasons decision ++
          ["admission rule " ++ rule_id rule ++ ": " ++ rule_reason rule]%string)%list;
        policy_requires_cost_ceiling := policy_requires_cost_ceiling decision |}).

Fixpoint tighten_rules (b : AdmissionPolicyBundleV1) (floor decision : PolicyDecisionV1)
    (rules : list AdmissionPolicyRuleV1) : Result PolicyDecisionV1 :=
  match rules with
  | [] => Ok decision
  | rule :: rest =>
      let? decision := tighten_rule b floor decision rule in
      tighten_rules b floor decision rest
  end.

Definition tighten (b : AdmissionPolicyBundleV1) (floor : PolicyDecisionV1)
    (capability : CapabilityV1) : Result PolicyDecisionV1 :=
  let? _ := bundle_validate b in
  guard (bundle_status b <>? BundleActive) (invalid_bundle_state b "active")
    (tighten_rules b floor floor
       (List.filter (fun rule => rule_matches rule capability) (bundle_rules b))).
End Bundle.

(** ** Specification *)

Section AdmissionSpec.
Context `{Runtime}.

Definition matching (b : AdmissionPolicyBundleV1) (capability : CapabilityV1)
  : list AdmissionPolicyRuleV1 :=
  List.filter (fun rule => rule_matches rule capability) (bundle_rules b).

Definition reason_line (rule : AdmissionPolicyRuleV1) : string :=
  ("admission rule " ++ rule_id rule ++ ": " ++ rule_reason rule)%string.

(** The stricter of two dispositions. *)
Definition stricter (a c : PolicyDisposition) : PolicyDisposition :=
  if (restriction_rank a <? restriction_rank c)%Z then c else a.

(** A bundle in force: active, of this schema, free of auto-execute rules, and
    still hashing to the content that was approved. *)
Definition in_force (b : AdmissionPolicyBundleV1) : Prop :=
  bundle_schema_version b = 1%Z /\ existsb auto_executes (bundle_rules b) = false /\
  bundle_hash b = Ok (bundle_content_hash b) /\ bundle_status b = BundleActive /\
  bundle_approved_content_hash b = Some (bundle_content_hash b).

(** One call on a bundle, whatever its outcome, or a direct edit of its
    content followed by [refresh_hash]. *)
Inductive bundle_step (b : AdmissionPolicyBundleV1) : AdmissionPolicyBundleV1 -> Prop :=
| bundle_step_approve clk yes : bundle_step b (bundle_approve clk yes b).2
| bundle_step_activate : bundle_step b (bundle_activate b).2
| bundle_step_supersede : bundle_step b (bundle_supersede b)
| bundle_step_revoke : bundle_step b (bundle_revoke b)
| bundle_step_edit content :
    bundle_step b (bundle_refresh_hash (bundle_update content (bundle_status b)
      (bundle_content_hash b) (bundle_approved_at b) (bundle_approved_content_hash b))).2.

Definition same_bundle_content (a b : AdmissionPolicyBundleV1) : Prop :=
  bundle_schema_version a = bundle_schema_version b /\ bundle_id a = bundle_id b /\
  bundle_name a = bundle_name b /\ bundle_created_at a = bundle_created_at b /\
  bundle_rules a = bundle_rules b.
End AdmissionSpec.

(** ** Facts *)

Lemma rank_strict a c : (restriction_rank a <= restriction_rank (stricter a c))%Z /\
  (restriction_rank c <= restriction_rank (stricter a c))%Z.
Proof. by destruct a, c. Qed.

Section AdmissionFacts.
Context `{Runtime}.

Lemma bundle_validate_ok b :
  bundle_validate b = Ok tt <->
  bundle_schema_version b = 1%Z /\ existsb auto_executes (bundle_rules b) = false /\
  bundle_hash b = Ok (bundle_content_hash b) /\
  (bundle_status b <> BundlePending ->
   bundle_approved_content_hash b = Some (bundle_content_hash b)).
Proof.
  unfold bundle_validate. rewrite !guard_ok, neqb_false, res_bind_ok. split.
  - intros (? & ? & h & Hh & Hk). apply guard_ok in Hk as [->%neqb_false Hk].
    apply guard_unit_ok in Hk. repeat split; try done. intros Hs.
    apply andb_false_iff in Hk as [Hk|Hk]; rewrite neqb_false in Hk; congruence.
  - intros (? & ? & Hh & Hs). do 2 (split; [done|]). eexists. split; [exact Hh|].
    rewrite guard_ok, neqb_false, guard_unit_ok, andb_false_iff, !neqb_false. split; [done|].
    destruct (decide (bundle_status b = BundlePending)); auto.
Qed.

Lemma tighten_rules_ok b floor decision rules d :
  tighten_rules b floor decision rules = Ok d <->
  (forall r, r ∈ rules ->
     (restriction_rank (policy_disposition floor) <= restriction_rank (rule_disposition r))%Z) /\
  d = {| policy_schema_version := policy_schema_version decision;
         policy_disposition :=
           fold_left stricter (map rule_disposition rules) (policy_disposition decision);
         policy_reasons := (policy_reasons decision ++ map reason_line rules)%list;
         policy_requires_cost_ceiling := policy_requires_cost_ceiling decision |}.
Proof.
  revert decision; induction rules as [|r rules IH]; intros decision; cbn [tighten_rules].
  - cbn. rewrite app_nil_r. split.
    + intros [= <-]. split; [by intros r ?%not_elem_of_nil|by destruct decision].
    + intros [_ ->]. by destruct decision.
  - unfold tighten_rule, guard. destruct (_ <? _)%Z eqn:E; cbn [res_bind].
    + split; [done|]. intros [Hx _]. specialize (Hx r ltac:(by left)).
      apply Z.ltb_lt in E. lia.
    + rewrite IH. cbn [policy_disposition policy_reasons policy_schema_version
        policy_requires_cost_ceiling map fold_left]. rewrite <- app_assoc.
      change ([("admission rule " ++ rule_id r ++ ": " ++ rule_reason r)%string] ++
        map reason_line rules)%list with (reason_line r :: map reason_line rules).
      fold (stricter (policy_disposition decision) (rule_disposition r)).
      apply Z.ltb_ge in E. setoid_rewrite elem_of_cons. split.
      * intros [Hr ->]. split; [by intros x [->|Hx]; auto|done].
      * intros [Hr ->]. split; [by auto|done].
Qed.

Lemma tighten_ok b floor capability d :
  tighten b floor capability = Ok d <->
  in_force b /\
  (forall r, r ∈ matching b capability ->
     (restriction_rank (policy_disposition floor) <= restriction_rank (rule_disposition r))%Z) /\
  d = {| policy_schema_version := policy_schema_version floor;
         policy_disposition :=
           fold_left stricter (map rule_disposition (matching b capability))
             (policy_disposition floor);
         policy_reasons := (policy_reasons floor ++ map reason_line (matching b capability))%list;
         policy_requires_cost_ceiling := policy_requires_cost_ceiling floor |}.
Proof.
  unfold tighten, in_force. fold (matching b capability).
  rewrite res_bind_unit_ok, bundle_validate_ok, guard_ok, neqb_false, tighten_rules_ok.
  split.
  - intros ((? & ? & ? & Hs) & Ha & ?). split; [|done]. repeat split; try done. apply Hs. by rewrite Ha.
  - intros ((? & ? & ? & Ha & ?) & ? & ?). by split_and!.
Qed.

Lemma rank_disposition_inj a c : restriction_rank a = restriction_rank c -> a = c.
Proof. by destruct a, c. Qed.

Lemma fold_stricter l a :
  (restriction_rank a <= restriction_rank (fold_left stricter l a))%Z /\
  (forall c, c ∈ l -> (restriction_rank c <= restriction_rank (fold_left stricter l a))%Z) /\
  (fold_left stricter l a = a \/ (fold_left stricter l a ∈ l)).
Proof.
  revert a; induction l as [|c l IH]; intros a; cbn.
  - split; [lia|]. split; [by intros ? ?%not_elem_of_nil|by left].
  - destruct (IH (stricter a c)) as (H1 & H2 & H3). pose proof (rank_strict a c) as [H4 H5].
    split; [lia|]. split.
    + intros x [->|Hx]%elem_of_cons; [lia|by apply H2].
    + destruct H3 as [H3|H3]; [|right; by right]. rewrite H3. unfold stricter.
      destruct (_ <? _)%Z; [right; by left|by left].
Qed.

Lemma bundle_content_wf b : value_wf (bundle_content b) = true.
Proof.
  unfold bundle_content. cbn [value_wf forallb].
  rewrite (list_value_wf (bundle_rules b)); [done|].
  intros r. apply struct_value_wf. by destruct r as [? [?|] [?|] [?|] [?|] ? ?].
Qed.

Lemma bundle_hash_value b : bundle_hash b = hash_value (bundle_content b).
Proof.
  unfold bundle_hash, json_value, canonical_hash_value. cbn [res_bind].
  by rewrite (canonical_id (to_value (bundle_content b))) by apply bundle_content_wf.
Qed.

Lemma bundle_content_inj `{!RuntimeInjective} a b :
  bundle_content a = bundle_content b -> same_bundle_content a b.
Proof.
  intros E. apply (f_equal as_array), some_inj in E. unfold bundle_content in E.
  cbn [as_array] in E. apply cons_eq_parts in E as [E1 E]. apply cons_eq_parts in E as [E2 E].
  apply cons_eq_parts in E as [E3 E]. apply cons_eq_parts in E as [E4 E].
  apply cons_eq_parts in E as [E5 _].
  apply (ser_inj (A := Z)) in E1; [|exact I..]. apply (ser_inj (A := string)) in E2; [|exact I..].
  apply (ser_inj (A := string)) in E3; [|exact I..].
  apply (ser_inj (A := DateTime)) in E4; [|exact I..].
  apply (ser_inj (A := list AdmissionPolicyRuleV1)) in E5; [|apply ser_total..].
  by repeat split.
Qed.
End AdmissionFacts.

Section BundleTraces.
Context `{Runtime}.

Lemma bundle_approve_ok clk yes b b' :
  bundle_approve clk yes b = (Ok tt, b') <->
  yes = true /\ bundle_status b = BundlePending /\ bundle_validate b = Ok tt /\
  b' = bundle_set_approved (Some (clk 0)) (Some (bundle_content_hash b))
         (bundle_set_status BundleApproved b).
Proof.
  unfold bundle_approve, st_bind, st_get, st_lift, st_throw, st_modify.
  destruct (bundle_status b =? BundlePending) eqn:Es; reflect_eqb; cbn; [|intuition congruence].
  destruct yes; cbn; [|intuition congruence].
  destruct (bundle_validate b) as [[]|e]; intuition congruence.
Qed.

Lemma bundle_approve_cases clk yes b :
  (exists e, bundle_approve clk yes b = (Err e, b)) \/
  (exists b', bundle_approve clk yes b = (Ok tt, b')).
Proof.
  unfold bundle_approve, st_bind, st_get, st_lift, st_throw, st_modify.
  repeat case_goal; eauto.
Qed.

Lemma bundle_activate_cases b :
  (exists e, bundle_activate b = (Err e, b)) \/
  (bundle_activate b = (Ok tt, bundle_set_status BundleActive b) /\ bundle_status b <> BundleRevoked).
Proof.
  unfold bundle_activate, st_bind, st_get, st_lift, st_throw, st_modify.
  destruct (contains _ _) eqn:E; cbn; [|eauto].
  destruct (bundle_validate b) as [[]|]; [right|eauto]. split; [done|].
  intros Hs. by rewrite Hs in E.
Qed.

(** Where an approved hash comes from. *)
Lemma bundle_step_approved b b' h :
  bundle_step b b' -> bundle_approved_content_hash b' = Some h ->
  bundle_approved_content_hash b = Some h \/
  (exists clk, is_ok (bundle_approve clk true b).1 = true /\ bundle_validate b = Ok tt /\
     h = bundle_content_hash b).
Proof.
  intros [clk yes| | | |content] Hh.
  - destruct (bundle_approve_cases clk yes b) as [[e E]|[b1 E]]; rewrite E in Hh; [by left|].
    pose proof (proj1 (bundle_approve_ok _ _ _ _) E) as (-> & _ & Hv & ->).
    cbn in Hh. injection Hh as <-. right. exists clk. by rewrite E.
  - destruct (bundle_activate_cases b) as [[e E]|[E _]]; rewrite E in Hh; by left.
  - unfold bundle_supersede in Hh. destruct (_ =? _); by left.
  - by left.
  - left. unfold bundle_refresh_hash, st_bind, st_get, st_lift, st_modify in Hh.
    by destruct (bundle_hash _).
Qed.

Lemma bundle_revoked_step b b' :
  bundle_status b = BundleRevoked -> bundle_step b b' -> bundle_status b' = BundleRevoked.
Proof.
  intros Hs [clk yes| | | |content].
  - destruct (bundle_approve_cases clk yes b) as [[e E]|[b1 E]]; rewrite E; [done|].
    apply bundle_approve_ok in E as (_ & ? & _). congruence.
  - destruct (bundle_activate_cases b) as [[e E]|[E ?]]; rewrite E; done.
  - unfold bundle_supersede. by rewrite Hs.
  - done.
  - unfold bundle_refresh_hash, st_bind, st_get, st_lift, st_modify. by destruct (bundle_hash _).
Qed.
End BundleTraces.

(** ** Properties *)

(** C38: an admission bundle only tightens. [tighten] answers a decision exactly
    when the bundle is in force, no matching rule is weaker than the floor,
    and the decision is the floor's made as strict as the strictest matching
    rule: its disposition is at least the floor's and every matching rule's,
    and is one of them; one reason is appended per matching rule, in rule
    order; the schema version and the cost-ceiling demand are the floor's. In
    every other case it refuses. *)
Theorem tighten_only_tightens `{Runtime} (b : AdmissionPolicyBundleV1) floor capability d :
  tighten b floor capability = Ok d <->
  in_force b /\
  (forall r, r ∈ matching b capability ->
     (restriction_rank (policy_disposition floor) <= restriction_rank (rule_disposition r))%Z) /\
  (restriction_rank (policy_disposition floor) <= restriction_rank (policy_disposition d))%Z /\
  (forall r, r ∈ matching b capability ->
     (restriction_rank (rule_disposition r) <= restriction_rank (policy_disposition d))%Z) /\
  (policy_disposition d = policy_disposition floor \/
   exists r, (r ∈ matching b capability) /\ policy_disposition d = rule_disposition r) /\
  policy_reasons d = (policy_reasons floor ++ map reason_line (matching b capability))%list /\
  policy_requires_cost_ceiling d = policy_requires_cost_ceiling floor /\
  policy_schema_version d = policy_schema_version floor.
Proof.
  rewrite tighten_ok. destruct (fold_stricter (map rule_disposition (matching b capability))
    (policy_disposition floor)) as (H1 & H2 & H3). split.
  - intros (Hf & Hr & ->). split; [done|]. split; [done|]. cbn. split; [done|].
    split; [|split; [|done]].
    + intros r Hin. apply H2, list_elem_of_fmap. by exists r.
    + destruct H3 as [->|(r & -> & Hin)%list_elem_of_fmap]; [by left|right; by exists r].
  - intros (Hf & Hr & Hd & Hm & Ho & Hs & Hc & Hv). split; [done|]. split; [done|].
    destruct d as [v disposition reasons ceiling]. cbn in *. subst. f_equal. apply rank_disposition_inj.
    apply Z.le_antisymm.
    + destruct Ho as [->|(r & Hin & ->)]; [done|]. apply H2, list_elem_of_fmap. by exists r.
    + destruct H3 as [->|(r & -> & Hin)%list_elem_of_fmap]; auto.
Qed.

(** When [tighten] refuses. A bundle that is not in force never decides;
    one in force decides every capability whose floor is not [Blocked], and on
    a blocked floor refuses exactly when a matching rule is weaker. *)
Theorem tighten_decides_iff `{Runtime} (b : AdmissionPolicyBundleV1) floor capability :
  is_ok (tighten b floor capability) = true <->
  in_force b /\
  (policy_disposition floor = PolicyBlocked ->
   forall r, r ∈ matching b capability -> rule_disposition r = PolicyBlocked).
Proof.
  split.
  - destruct (tighten b floor capability) as [d|] eqn:E; [intros _|done].
    apply tighten_ok in E as (Hf & Hr & _). split; [done|]. intros Hb r Hin.
    specialize (Hr r Hin). rewrite Hb in Hr. by destruct (rule_disposition r).
  - intros [Hf Hb].
    assert (Hr : forall r, r ∈ matching b capability ->
      (restriction_rank (policy_disposition floor) <= restriction_rank (rule_disposition r))%Z).
    { intros r Hin. assert (Hna : auto_executes r = false).
      { destruct Hf as (_ & Hna & _). destruct (auto_executes r) eqn:E; [|done].
        apply list_elem_of_In, filter_In in Hin as [Hin _].
        assert (existsb auto_executes (bundle_rules b) = true) by (apply existsb_exists; eauto).
        congruence. }
      apply eqb_neq in Hna. destruct (policy_disposition floor), (rule_disposition r) eqn:Er;
        try done. by rewrite (Hb eq_refl r Hin) in Er. }
    by rewrite (proj2 (tighten_ok b floor capability _) (conj Hf (conj Hr eq_refl))).
Qed.

(** Only approved rules decide. If a bundle that started unapproved
    decides after any sequence of calls and content edits, then along the way
    an explicit approval succeeded on a bundle with exactly its id, name, date
    and rules - or SHA-256 collided. *)
Theorem deciding_rules_were_approved `{RuntimeInjective} (b0 b : AdmissionPolicyBundleV1)
    floor capability :
  bundle_approved_content_hash b0 = None -> rtc bundle_step b0 b ->
  is_ok (tighten b floor capability) = true ->
  (exists b1 clk, rtc bundle_step b0 b1 /\ is_ok (bundle_approve clk true b1).1 = true /\
     same_bundle_content b1 b) \/ collision.
Proof.
  intros Hnone Hr Hok. destruct (tighten b floor capability) as [d|] eqn:E; [|done].
  apply tighten_ok in E as ((_ & _ & Hh & _ & Ha) & _). clear d Hok.
  assert (Horigin : forall h, bundle_approved_content_hash b = Some h ->
    exists b1 clk, rtc bundle_step b0 b1 /\ is_ok (bundle_approve clk true b1).1 = true /\
      bundle_validate b1 = Ok tt /\ h = bundle_content_hash b1).
  { clear Hh Ha. pattern b. eapply rtc_ind_r; [| |exact Hr]; [by rewrite Hnone|]. clear b Hr.
    intros b1 b Hr Hs IH h Hh. destruct (bundle_step_approved _ _ _ Hs Hh) as [Hb|(clk & Hok & Hv & ->)]; [by apply IH|].
    by exists b1, clk. }
  destruct (Horigin _ Ha) as (b1 & clk & Hr1 & Hok & Hv & Heq).
  apply bundle_validate_ok in Hv as (_ & _ & Hh1 & _). rewrite bundle_hash_value in Hh, Hh1.
  rewrite <- Heq in Hh1. destruct (hash_value_same _ _ _ Hh1 Hh) as [Hc|]; [left|by right].
  exists b1, clk. split; [done|]. split; [done|]. by apply bundle_content_inj.
Qed.

(** Revoking a bundle is terminal: after it, whatever calls and edits
    follow, the bundle stays revoked and neither approves, activates nor
    decides. *)
Theorem bundle_revocation_is_terminal `{Runtime} (b b' : AdmissionPolicyBundleV1) :
  rtc bundle_step (bundle_revoke b) b' ->
  bundle_status b' = BundleRevoked /\
  (forall clk yes, is_ok (bundle_approve clk yes b').1 = false) /\
  is_ok (bundle_activate b').1 = false /\
  (forall floor capability, is_ok (tighten b' floor capability) = false).
Proof.
  intros Hr. assert (Hs : bundle_status b' = BundleRevoked).
  { refine (rtc_ind_r (fun b' => bundle_status b' = BundleRevoked) (bundle_revoke b) _ _ b' Hr);
      [done|].
    intros b1 b2 _ Hs IH. by eapply bundle_revoked_step. }
  split; [done|]. split; [|split].
  - intros clk yes. destruct (bundle_approve_cases clk yes b') as [[e ->]|[b1 E]]; [done|].
    apply bundle_approve_ok in E as (_ & ? & _). congruence.
  - destruct (bundle_activate_cases b') as [[e ->]|[_ ?]]; done.
  - intros floor capability. destruct (tighten b' floor capability) as [d|] eqn:E; [exfalso|done].
    apply tighten_ok in E as ((_ & _ & _ & ? & _) & _). congruence.
Qed.

(** ** Witnesses *)

Definition sample_rules : list AdmissionPolicyRuleV1 :=
  [mkAdmissionPolicyRuleV1 "r1" None (Some "Cloudflare API") None None ApprovalRequired "review";
   mkAdmissionPolicyRuleV1 "r2" (Some "dns.delete") None None None PolicyBlocked "frozen"]%string.
Definition sample_pending_bundle : AdmissionPolicyBundleV1 :=
  match bundle_pending (clock_at 0) "bundle" "freeze" sample_rules with
  | Ok b => b
  | Err _ => mkAdmissionPolicyBundleV1 0 "" "" (at_s 0) BundleRevoked [] "" None None
  end.
Definition sample_bundle : AdmissionPolicyBundleV1 :=
  (bundle_activate (bundle_approve (clock_at 5) true sample_pending_bundle).2).2.
Definition sample_floor : PolicyDecisionV1 := mkPolicyDecisionV1 1 AutoExecute ["read"]%string false.
Definition sample_dns_delete : CapabilityV1 :=
  capability_new "dns.delete" "Delete a record" "delete" "/zones/{zone_id}/dns_records/{id}".
Definition sample_decision : PolicyDecisionV1 :=
  mkPolicyDecisionV1 1 PolicyBlocked
    ["read"; "admission rule r1: review"; "admission rule r2: frozen"]%string false.

Lemma tighten_only_tightens_witness :
  (restriction_rank (policy_disposition sample_floor)
     <= restriction_rank (policy_disposition sample_decision))%Z.
Proof.
  apply (tighten_only_tightens sample_bundle sample_floor sample_dns_delete sample_decision).
  vm_compute. reflexivity.
Defined.

Lemma sample_bundle_reachable : rtc bundle_step sample_pending_bundle sample_bundle.
Proof.
  eapply rtc_l; [exact (bundle_step_approve sample_pending_bundle (clock_at 5) true)|].
  apply rtc_once. exact (bundle_step_activate _).
Defined.

Lemma deciding_rules_were_approved_witness :
  (exists b1 clk, rtc bundle_step sample_pending_bundle b1 /\
     is_ok (bundle_approve clk true b1).1 = true /\ same_bundle_content b1 sample_bundle) \/
  collision.
Proof.
  apply (deciding_rules_were_approved sample_pending_bundle sample_bundle sample_floor
    sample_dns_delete).
  - vm_compute. reflexivity.
  - exact sample_bundle_reachable.
  - vm_compute. reflexivity.
Defined.

Lemma bundle_revocation_is_terminal_witness :
  is_ok (bundle_activate (bundle_approve (clock_at 9) true (bundle_revoke sample_bundle)).2).1
    = false.
Proof.
  apply (bundle_revocation_is_terminal sample_bundle). apply rtc_once.
  exact (bundle_step_approve _ (clock_at 9) true).
Defined.
