(* ===== verification/PlanV2.v ===== *)
(** Pinned plans: [PlanV2] of crates/cfctl-core/src/lib.rs wraps a plan with
    the execution pins it was reviewed under and hashes the whole document. *)

From Stdlib Require Import String Ascii ZArith Lia List Bool.
From stdpp Require Import base option list strings relations.
From S2P Require Import Prelude Strings Btree Json Redaction CatalogTypes Capability Core Policy.
From S2P Require Import Authority Plan PlanJournal PlanLifecycle Demo.

Open Scope cf_scope.

(** ** Serialisation of a plan with its mutable part *)

#[export] Instance ser_ApprovalV1 `{Runtime} : Serialize ApprovalV1 := fun a => struct_value [
  field "approved_at" (approval_approved_at a);
  field "approved_content_hash" (approval_approved_content_hash a);
  field "max_cost" (approval_max_cost a)].

#[export] Instance ser_TransactionCheckpointV1 `{Runtime} : Serialize TransactionCheckpointV1 :=
  fun c => struct_value [
    field "stage" (cp_stage c);
    field "recorded_at" (cp_recorded_at c);
    field "plan_content_hash" (cp_plan_content_hash c);
    field "plan_status" (cp_plan_status c);
    field "previous_checkpoint_hash" (cp_previous_checkpoint_hash c);
    field_some "artifact_hash" (cp_artifact_hash c);
    field "checkpoint_hash" (cp_checkpoint_hash c)].

#[export] Instance ser_PlanV1 `{Runtime} : Serialize PlanV1 := fun p => struct_value [
  field "schema_version" (plan_schema_version p);
  field "operation_id" (plan_operation_id p);
  field "created_at" (plan_created_at p);
  field "expires_at" (plan_expires_at p);
  field "profile_id" (plan_profile_id p);
  field "account_id" (plan_account_id p);
  field "catalog_hash" (plan_catalog_hash p);
  field "permission_lane" (plan_permission_lane p);
  field "precondition_hashes" (plan_precondition_hashes p);
  field "capability" (plan_capability p);
  field "targets" (plan_targets p);
  field "input" (plan_input p);
  field "affected_repositories" (plan_affected_repositories p);
  field "affected_resources" (plan_affected_resources p);
  field "local_diffs" (plan_local_diffs p);
  field "cloudflare_diffs" (plan_cloudflare_diffs p);
  field "verification_steps" (plan_verification_steps p);
  field "compensation_steps" (plan_compensation_steps p);
  field "non_reversible_warnings" (plan_non_reversible_warnings p);
  field "policy" (plan_policy p);
  field "status" (plan_status p);
  field "approval" (plan_approval p);
  field_some "cancelled_at" (plan_cancelled_at p);
  field "content_hash" (plan_content_hash p);
  field "transaction_stage" (plan_transaction_stage p);
  field "transaction_journal" (plan_transaction_journal p);
  field_nonempty_map "transaction_artifacts" (plan_transaction_artifacts p)].

#[export] Program Instance inj_MoneyV1 : SerializeInj MoneyV1 :=
  {| ser_ok m := ser_ok (money_amount m) |}.
Next Obligation. struct_inj. Qed.
#[export] Instance nonnull_MoneyV1 : SerializeNonNull MoneyV1.
Proof. done. Qed.
#[export] Program Instance inj_ApprovalV1 `{RuntimeInjective} : SerializeInj ApprovalV1 :=
  {| ser_ok a := ser_ok (approval_max_cost a) |}.
Next Obligation. intros ??. struct_inj. Qed.
#[export] Instance nonnull_ApprovalV1 `{RuntimeInjective} : SerializeNonNull ApprovalV1.
Proof. done. Qed.
#[export] Program Instance inj_TransactionCheckpointV1 `{RuntimeInjective} :
  SerializeInj TransactionCheckpointV1 := {| ser_ok _ := True |}.
Next Obligation. intros ??. struct_inj. Qed.
#[export] Instance total_TransactionCheckpointV1 `{RuntimeInjective} :
  SerializeTotal TransactionCheckpointV1.
Proof. done. Qed.
#[export] Program Instance inj_PlanV1 `{RuntimeInjective} : SerializeInj PlanV1 :=
  {| ser_ok p := ser_ok (plan_precondition_hashes p) /\ ser_ok (plan_capability p) /\
                 ser_ok (plan_approval p) /\ ser_ok (plan_transaction_artifacts p) |}.
Next Obligation. intros ??. struct_inj. Qed.

(** ** State *)

Record PlanPinsV2 : Type := mkPlanPinsV2 {
  pins_build_identity_hash : string;
  pins_catalog_hash : string;
  pins_credential_generation_id : string;
  pins_admission_policy_hash : string;
  pins_authority_hash : option string;
  pins_workspace_graph_hash : string;
  pins_resource_observation_hashes : btree string;
  pins_cost_budget : option MoneyV1;
}.
#[export] Instance ser_PlanPinsV2 : Serialize PlanPinsV2 := fun p => struct_value [
  field "build_identity_hash" (pins_build_identity_hash p);
  field "catalog_hash" (pins_catalog_hash p);
  field "credential_generation_id" (pins_credential_generation_id p);
  field "admission_policy_hash" (pins_admission_policy_hash p);
  field_some "authority_hash" (pins_authority_hash p);
  field "workspace_graph_hash" (pins_workspace_graph_hash p);
  field_nonempty_map "resource_observation_hashes" (pins_resource_observation_hashes p);
  field_some "cost_budget" (pins_cost_budget p)].
#[export] Program Instance inj_PlanPinsV2 : SerializeInj PlanPinsV2 :=
  {| ser_ok p := ser_ok (pins_resource_observation_hashes p) /\ some_ok (pins_cost_budget p) |}.
Next Obligation. struct_inj. Qed.

Record PlanV2 : Type := mkPlanV2 {
  v2_schema_version : Z;
  v2_plan : PlanV1;
  v2_pins : PlanPinsV2;
  v2_content_hash : string;
}.

Definition pins_set_authority (authority_hash : option string) (p : PlanPinsV2) : PlanPinsV2 :=
  {| pins_build_identity_hash := pins_build_identity_hash p;
     pins_catalog_hash := pins_catalog_hash p;
     pins_credential_generation_id := pins_credential_generation_id p;
     pins_admission_policy_hash := pins_admission_policy_hash p;
     pins_authority_hash := authority_hash;
     pins_workspace_graph_hash := pins_workspace_graph_hash p;
     pins_resource_observation_hashes := pins_resource_observation_hashes p;
     pins_cost_budget := pins_cost_budget p |}.
Definition pins_set_budget (budget : option MoneyV1) (p : PlanPinsV2) : PlanPinsV2 :=
  {| pins_build_identity_hash := pins_build_identity_hash p;
     pins_catalog_hash := pins_catalog_hash p;
     pins_credential_generation_id := pins_credential_generation_id p;
     pins_admission_policy_hash := pins_admission_policy_hash p;
     pins_authority_hash := pins_authority_hash p;
     pins_workspace_graph_hash := pins_workspace_graph_hash p;
     pins_resource_observation_hashes := pins_resource_observation_hashes p;
     pins_cost_budget := budget |}.
Definition v2_set (d : PlanV2) (plan : PlanV1) (pins : PlanPinsV2) : PlanV2 :=
  mkPlanV2 (v2_schema_version d) plan pins (v2_content_hash d).
Definition v2_set_hash (hash : string) (d : PlanV2) : PlanV2 :=
  mkPlanV2 (v2_schema_version d) (v2_plan d) (v2_pins d) hash.

(** ** Operations *)

Section PlanV2.
Context `{Runtime}.
Open Scope string_scope.
Open Scope cf_scope.

(** The tuple the document hash covers. *)
Definition v2_content (d : PlanV2) : Value :=
  VArray [to_value (v2_schema_version d); to_value (v2_plan d); to_value (v2_pins d)].

Definition v2_hash (d : PlanV2) : Result string :=
  let? value := json_value (v2_content d) in canonical_hash_value value.

Definition v2_refresh_hash : ST PlanV2 CoreError unit :=
  let* self := st_get in
  let* hash := st_lift (v2_hash self) in
  st_modify (v2_set_hash hash).

Definition v2_validate (d : PlanV2) : Result unit :=
  let? _ := validate_transaction_journal (v2_plan d) in
  guard ((v2_schema_version d <>? 2%Z)
         || is_empty (pins_build_identity_hash (v2_pins d))
         || (pins_catalog_hash (v2_pins d) <>? plan_catalog_hash (v2_plan d))
         || is_empty (pins_credential_generation_id (v2_pins d))
         || is_empty (pins_admission_policy_hash (v2_pins d))
         || is_empty (pins_workspace_graph_hash (v2_pins d)))
    (InvalidPlanV2 "required execution pins are missing or drifted") (
  let? actual := v2_hash d in
  guard (actual <>? v2_content_hash d)
    (InvalidPlanV2 "document content hash drifted") (Ok tt)).

Definition v2_new (plan : PlanV1) (pins : PlanPinsV2) : Result PlanV2 :=
  let document := mkPlanV2 2 plan pins "" in
  match v2_refresh_hash document with
  | (Ok _, document) => let? _ := v2_validate document in Ok document
  | (Err e, _) => Err e
  end.

Definition v2_refresh_from_plan (plan : PlanV1) : ST PlanV2 CoreError unit :=
  do* st_modify (fun d => v2_set d plan (v2_pins d)) in
  do* st_modify (fun d => v2_set d (v2_plan d) (pins_set_budget
    (match plan_approval (v2_plan d) with Some a => approval_max_cost a | None => None end)
    (v2_pins d))) in
  do* v2_refresh_hash in
  let* self := st_get in
  st_lift (v2_validate self).

Definition v2_bind_authority_hash (authority_hash : string) : ST PlanV2 CoreError unit :=
  let* self := st_get in
  if is_empty authority_hash then st_throw (InvalidPlanV2 "authority hash cannot be empty")
  else
  match pins_authority_hash (v2_pins self) with
  | Some existing =>
      if existing <>? authority_hash
      then st_throw (InvalidPlanV2 "a PlanV2 authority pin cannot be replaced")
      else st_ret tt
  | None =>
      if (plan_status (v2_plan self) <>? Draft) || is_someb (plan_approval (v2_plan self))
      then st_throw (InvalidPlanV2 "authority must be bound before plan approval or consumption")
      else
      do* st_modify (fun d =>
        v2_set d (v2_plan d) (pins_set_authority (Some authority_hash) (v2_pins d))) in
      do* v2_refresh_hash in
      let* self := st_get in
      st_lift (v2_validate self)
  end.
End PlanV2.

(** ** Specification *)

(** The pins every execution needs, and the catalog the plan was made from. *)
Definition pins_complete (pins : PlanPinsV2) (plan : PlanV1) : Prop :=
  pins_build_identity_hash pins <> "" /\ pins_catalog_hash pins = plan_catalog_hash plan /\
  pins_credential_generation_id pins <> "" /\ pins_admission_policy_hash pins <> "" /\
  pins_workspace_graph_hash pins <> "".

Definition approved_budget (plan : PlanV1) : option MoneyV1 :=
  match plan_approval plan with Some a => approval_max_cost a | None => None end.

Section PlanV2Spec.
Context `{Runtime}.

(** What the types guarantee of a document: maps are maps, floats finite. *)
Definition document_ok `{!RuntimeInjective} (d : PlanV2) : Prop :=
  ser_ok (v2_plan d) /\ ser_ok (v2_pins d) /\ value_wf (v2_content d) = true.

(** One call on a document, whatever its outcome. *)
Inductive v2_step (d : PlanV2) : PlanV2 -> Prop :=
| v2_step_refresh plan : v2_step d (v2_refresh_from_plan plan d).2
| v2_step_bind hash : v2_step d (v2_bind_authority_hash hash d).2.
End PlanV2Spec.

(** ** Facts *)

Lemma is_empty_false s : is_empty s = false <-> s <> ""%string.
Proof. by destruct s. Qed.

Section PlanV2Facts.
Context `{Runtime}.

Lemma v2_validate_ok d :
  v2_validate d = Ok tt <->
  validate_transaction_journal (v2_plan d) = Ok tt /\ v2_schema_version d = 2%Z /\
  pins_complete (v2_pins d) (v2_plan d) /\ v2_hash d = Ok (v2_content_hash d).
Proof.
  unfold v2_validate, pins_complete.
  rewrite res_bind_unit_ok, guard_ok, !orb_false_iff, !is_empty_false, !neqb_false, res_bind_ok.
  split.
  - intros (? & (((((? & ?) & ?) & ?) & ?) & ?) & h & Hh & Hk). rewrite guard_unit_ok, neqb_false in Hk.
    subst h. by repeat split.
  - intros (? & ? & (? & ? & ? & ? & ?) & Hh). split; [done|]. split; [by repeat split|].
    eexists. split; [exact Hh|]. by rewrite guard_unit_ok, neqb_false.
Qed.

(** [refresh_hash] then [validate]. *)
Lemma v2_rehash `{!RuntimeTotal} d :
  exists h, v2_refresh_hash d = (Ok tt, v2_set_hash h d) /\ v2_hash (v2_set_hash h d) = Ok h.
Proof.
  unfold v2_refresh_hash, st_bind, st_get, st_lift, st_modify.
  destruct (hash_value_total (canonical_json_value (v2_content d))) as [h Hh].
  assert (Hd : v2_hash d = Ok h) by exact Hh. rewrite Hd. by exists h.
Qed.

Lemma v2_refresh_result d :
  (exists e, v2_refresh_hash d = (Err e, d)) \/ (exists h, v2_refresh_hash d = (Ok tt, v2_set_hash h d)).
Proof.
  unfold v2_refresh_hash, st_bind, st_get, st_lift, st_modify. destruct (v2_hash d); eauto.
Qed.

Lemma v2_hash_value d : value_wf (v2_content d) = true -> v2_hash d = hash_value (v2_content d).
Proof.
  intros Hw. unfold v2_hash, json_value, canonical_hash_value. cbn [res_bind].
  by rewrite (canonical_id (to_value (v2_content d)) Hw).
Qed.

Lemma v2_content_inj `{!RuntimeInjective} a b :
  document_ok a -> document_ok b -> v2_content a = v2_content b ->
  v2_schema_version a = v2_schema_version b /\ v2_plan a = v2_plan b /\ v2_pins a = v2_pins b.
Proof.
  intros (Ha1 & Ha2 & _) (Hb1 & Hb2 & _) E. apply (f_equal as_array), some_inj in E.
  unfold v2_content in E. cbn [as_array] in E.
  apply cons_eq_parts in E as [E1 E]. apply cons_eq_parts in E as [E2 E].
  apply cons_eq_parts in E as [E3 _].
  apply (ser_inj (A := Z)) in E1; [|exact I..]. apply (ser_inj (A := PlanV1)) in E2; [|done..].
  by apply (ser_inj (A := PlanPinsV2)) in E3.
Qed.

Lemma v2_refresh_from_plan_ok plan d d' :
  v2_refresh_from_plan plan d = (Ok tt, d') ->
  v2_plan d' = plan /\ v2_pins d' = pins_set_budget (approved_budget plan) (v2_pins d) /\
  v2_validate d' = Ok tt.
Proof.
  unfold v2_refresh_from_plan, st_bind, st_modify, st_get, st_lift. cbn beta iota.
  match goal with |- context [v2_refresh_hash ?x] => destruct (v2_refresh_result x) as [[e ->]|[h ->]] end;
    [done|]. cbn. by intros [= ? <-].
Qed.

(** Binding changes nothing but the authority pin and the hash. *)
Lemma v2_bind_keeps hash d :
  exists a h, (v2_bind_authority_hash hash d).2 =
    v2_set_hash h (v2_set d (v2_plan d) (pins_set_authority a (v2_pins d))).
Proof.
  assert (Hsame : exists a h, d = v2_set_hash h (v2_set d (v2_plan d) (pins_set_authority a (v2_pins d)))).
  { exists (pins_authority_hash (v2_pins d)), (v2_content_hash d). by destruct d as [? ? [] ?]. }
  unfold v2_bind_authority_hash, st_bind, st_get, st_lift, st_throw, st_modify, st_ret.
  destruct (is_empty hash); [done|]. destruct (pins_authority_hash (v2_pins d)); [by destruct (_ <>? _)|].
  destruct (_ || _); [done|].
  match goal with |- context [v2_refresh_hash ?x] => destruct (v2_refresh_result x) as [[e ->]|[h ->]] end.
  - by exists (Some hash), (v2_content_hash d).
  - by exists (Some hash), h.
Qed.

(** Binding an authority, case by case. *)
Lemma v2_bind_cases hash d :
  (pins_authority_hash (v2_pins d) = Some hash /\ v2_bind_authority_hash hash d = (Ok tt, d)) \/
  (exists e, v2_bind_authority_hash hash d = (Err e, d)) \/
  (hash <> ""%string /\ pins_authority_hash (v2_pins d) = None /\ plan_status (v2_plan d) = Draft /\
   plan_approval (v2_plan d) = None /\
   exists r d', v2_bind_authority_hash hash d = (r, d') /\
     pins_authority_hash (v2_pins d') = Some hash /\ v2_plan d' = v2_plan d /\
     (r = Ok tt -> v2_validate d' = Ok tt)).
Proof.
  unfold v2_bind_authority_hash, st_bind, st_get, st_lift, st_throw, st_modify, st_ret.
  destruct (is_empty hash) eqn:Ee; [by right; left; eexists|].
  destruct (pins_authority_hash (v2_pins d)) as [existing|] eqn:Ep.
  - destruct (existing =? hash) eqn:E; reflect_eqb; cbn [negb]; [subst; by left|].
    right; left. by eexists.
  - destruct ((plan_status (v2_plan d) <>? Draft) || is_someb (plan_approval (v2_plan d))) eqn:Es;
      [by right; left; eexists|].
    split_andb. reflect_eqb. right; right. split; [by apply is_empty_false|]. split; [done|].
    split; [done|]. split; [by destruct (plan_approval (v2_plan d))|].
    match goal with |- context [v2_refresh_hash ?x] => set (d1 := x) end.
    destruct (v2_refresh_result d1) as [[e ->]|[h ->]]; cbn; [by eexists _, _|].
    by eexists _, _.
Qed.
End PlanV2Facts.

(** ** Properties *)

(** The document hash binds everything: two pinned plans that validate
    under one [content_hash] are the same plan - reviewed content, approval,
    status, journal and receipts - under the same pins, or SHA-256 collided. *)
Theorem v2_document_binds `{RuntimeInjective} (a b : PlanV2) :
  document_ok a -> document_ok b ->
  v2_validate a = Ok tt -> v2_validate b = Ok tt -> v2_content_hash a = v2_content_hash b ->
  a = b \/ collision.
Proof.
  intros Ha Hb (_ & _ & _ & Hva)%v2_validate_ok (_ & _ & _ & Hvb)%v2_validate_ok E.
  rewrite v2_hash_value in Hva by apply Ha. rewrite v2_hash_value in Hvb by apply Hb.
  rewrite E in Hva. destruct (hash_value_same _ _ _ Hva Hvb) as [Hc|]; [left|by right].
  destruct (v2_content_inj a b Ha Hb Hc) as (? & ? & ?). destruct a, b; cbn in *. congruence.
Qed.

(** Refreshing a document from its plan succeeds exactly when the plan's
    journal validates and the pins are complete for it; the document then
    validates, carries that plan, keeps every pin but the budget, and its
    budget is the ceiling of the plan's approval. *)
Theorem v2_refresh_from_plan_iff `{RuntimeTotal} (d : PlanV2) (plan : PlanV1) :
  v2_schema_version d = 2%Z ->
  let d' := (v2_refresh_from_plan plan d).2 in
  (is_ok (v2_refresh_from_plan plan d).1 = true <->
   validate_transaction_journal plan = Ok tt /\ pins_complete (v2_pins d) plan) /\
  (is_ok (v2_refresh_from_plan plan d).1 = true -> v2_validate d' = Ok tt) /\
  v2_plan d' = plan /\ v2_pins d' = pins_set_budget (approved_budget plan) (v2_pins d).
Proof.
  intros Hv d'. subst d'. unfold v2_refresh_from_plan, st_bind, st_modify, st_get, st_lift.
  match goal with |- context [v2_refresh_hash ?x] => set (d1 := x) end.
  destruct (v2_rehash d1) as (h & -> & Hh). cbn [fst snd].
  assert (Hok : v2_validate (v2_set_hash h d1) = Ok tt <->
    validate_transaction_journal plan = Ok tt /\ pins_complete (v2_pins d) plan).
  { rewrite v2_validate_ok. split; [by intros (? & _ & ? & _)|]. by intros (? & ?). }
  rewrite <- Hok. split; [|split; [|done]].
  - destruct (v2_validate _) as [[]|]; by split.
  - destruct (v2_validate _) as [[]|]; done.
Qed.

(** An authority pin is set once. Over any sequence of calls a bound pin
    never changes; and a call that changes it does so on an unapproved draft
    without a pin, to the non-empty hash it was given. *)
Theorem v2_authority_pin_is_final `{Runtime} (d d' : PlanV2) (a : string) :
  (pins_authority_hash (v2_pins d) = Some a -> rtc v2_step d d' ->
   pins_authority_hash (v2_pins d') = Some a) /\
  (v2_step d d' -> pins_authority_hash (v2_pins d') <> pins_authority_hash (v2_pins d) ->
   pins_authority_hash (v2_pins d) = None /\ plan_status (v2_plan d) = Draft /\
   plan_approval (v2_plan d) = None /\ pins_authority_hash (v2_pins d') <> Some ""%string).
Proof.
  assert (Hrefresh : forall plan d, pins_authority_hash (v2_pins (v2_refresh_from_plan plan d).2)
    = pins_authority_hash (v2_pins d)).
  { intros plan x. unfold v2_refresh_from_plan, st_bind, st_modify, st_get, st_lift.
    match goal with |- context [v2_refresh_hash ?y] => set (d1 := y) end.
    by destruct (v2_refresh_result d1) as [[e ->]|[h ->]]. }
  split.
  - intros Ha Hr. induction Hr as [|x y z Hxy _ IH]; [done|]. apply IH. clear IH.
    destruct Hxy as [plan|hash]; [by rewrite Hrefresh|].
    destruct (v2_bind_cases hash x) as [[_ ->]|[[e ->]|(_ & Hn & _)]]; [done..|congruence].
  - intros [plan|hash] Hne; [by rewrite Hrefresh in Hne|].
    destruct (v2_bind_cases hash d) as [[_ E]|[[e E]|(Hh & Hn & Hs & Hap & r & d1 & E & Hp & _)]];
      rewrite E in *; [done..|]. cbn [snd]. rewrite Hp. split_and!; [done..|congruence].
Qed.

(** ** Witnesses *)

Definition sample_pins : PlanPinsV2 := mkPlanPinsV2 "build" "catalog" "cred" "policy" None "graph"
  [("dns", "sha256:aa")]%string None.
Definition sample_v2 : PlanV2 :=
  match v2_new sample_plan sample_pins with
  | Ok d => d
  | Err _ => mkPlanV2 0 sample_plan sample_pins ""
  end.

Lemma sample_document_ok : document_ok sample_v2.
Proof. vm_compute. repeat split; repeat constructor; discriminate. Qed.

Lemma v2_document_binds_witness : sample_v2 = sample_v2 \/ collision.
Proof.
  apply (v2_document_binds sample_v2 sample_v2 sample_document_ok sample_document_ok);
    [vm_compute; reflexivity..|reflexivity].
Defined.

Lemma v2_refresh_from_plan_iff_witness :
  v2_validate (v2_refresh_from_plan sample_approved sample_v2).2 = Ok tt.
Proof.
  destruct (v2_refresh_from_plan_iff sample_v2 sample_approved ltac:(vm_compute; reflexivity))
    as (_ & Hv & _).
  apply Hv. vm_compute. reflexivity.
Defined.

Lemma v2_authority_pin_is_final_witness :
  let bound := (v2_bind_authority_hash "auth" sample_v2).2 in
  pins_authority_hash (v2_pins (v2_bind_authority_hash "other" bound).2) = Some "auth"%string.
Proof.
  intros bound.
  apply (v2_authority_pin_is_final bound (v2_bind_authority_hash "other" bound).2 "auth").
  - vm_compute. reflexivity.
  - apply rtc_once. exact (v2_step_bind bound "other").
Defined.
