(* ===== verification/PlanSet.v ===== *)
(** Deployment plan sets: [DeploymentPlanSetV1] of crates/cfctl-core/src/lib.rs,
    the immutable review receipt for an ordered set of independently governed
    child plans. *)

From Stdlib Require Import String Ascii ZArith Lia List Bool.
From Stdlib Require Import Floats.SpecFloat.
From stdpp Require Import base option list strings.
From S2P Require Import Prelude Strings Btree Json CatalogTypes Capability Core Policy.
From S2P Require Import CapabilityOps Demo.

Open Scope cf_scope.

(** ** State *)

Record DeploymentPlanSetRepositoryV1 : Type := mkDeploymentPlanSetRepositoryV1 {
  repo_repository_id : string;
  repo_root_sha256 : string;
  repo_origin_identity : string;
  repo_head : string;
  repo_tree : string;
}.
#[export] Instance ser_DeploymentPlanSetRepositoryV1 : Serialize DeploymentPlanSetRepositoryV1 :=
  fun r => struct_value [
    field "repository_id" (repo_repository_id r);
    field "root_sha256" (repo_root_sha256 r);
    field "origin_identity" (repo_origin_identity r);
    field "head" (repo_head r);
    field "tree" (repo_tree r)].
#[export] Program Instance inj_DeploymentPlanSetRepositoryV1 :
  SerializeInj DeploymentPlanSetRepositoryV1 := {| ser_ok _ := True |}.
Next Obligation. struct_inj. Qed.
#[export] Instance total_DeploymentPlanSetRepositoryV1 :
  SerializeTotal DeploymentPlanSetRepositoryV1.
Proof. done. Qed.

Record DeploymentPlanSetChildV1 : Type := mkDeploymentPlanSetChildV1 {
  child_sequence : Z;
  child_operation_id : string;
  child_plan_content_hash : string;
  child_pins_hash : string;
  child_capability_id : string;
  child_account_id : string;
  child_zone_ids : list string;
  child_expires_at : DateTime;
  child_initial_status : PlanStatus;
  child_depends_on : list string;
  child_affected_resources : list string;
  child_permissions : list string;
  child_risk : RiskClass;
  child_effect : EffectClass;
  child_cost : CostV1;
  child_warnings : list string;
  child_rollback : RollbackSpecV1;
  child_compensation_steps : list string;
  child_provider_snapshot_hashes : btree string;
}.
#[export] Instance ser_DeploymentPlanSetChildV1 `{Runtime} : Serialize DeploymentPlanSetChildV1 :=
  fun c => struct_value [
    field "sequence" (child_sequence c);
    field "operation_id" (child_operation_id c);
    field "plan_content_hash" (child_plan_content_hash c);
    field "pins_hash" (child_pins_hash c);
    field "capability_id" (child_capability_id c);
    field "account_id" (child_account_id c);
    field_nonempty "zone_ids" (child_zone_ids c);
    field "expires_at" (child_expires_at c);
    field "initial_status" (child_initial_status c);
    field_nonempty "depends_on" (child_depends_on c);
    field_nonempty "affected_resources" (child_affected_resources c);
    field "permissions" (child_permissions c);
    field "risk" (child_risk c);
    field "effect" (child_effect c);
    field "cost" (child_cost c);
    field_nonempty "warnings" (child_warnings c);
    field "rollback" (child_rollback c);
    field_nonempty "compensation_steps" (child_compensation_steps c);
    field_nonempty_map "provider_snapshot_hashes" (child_provider_snapshot_hashes c)].
#[export] Program Instance inj_DeploymentPlanSetChildV1 `{RuntimeInjective} :
  SerializeInj DeploymentPlanSetChildV1 :=
  {| ser_ok c := ser_ok (child_cost c) /\ ser_ok (child_provider_snapshot_hashes c) |}.
Next Obligation. intros ??. struct_inj. Qed.

Record DeploymentPlanSetV1 : Type := mkDeploymentPlanSetV1 {
  set_schema_version : Z;
  set_bundle_id : string;
  set_name : string;
  set_created_at : DateTime;
  set_expires_at : DateTime;
  set_source_spec_sha256 : string;
  set_profile_id : string;
  set_account_ids : list string;
  set_build_identity_hash : string;
  set_catalog_hash : string;
  set_credential_generation_id : string;
  set_admission_policy_hash : string;
  set_workspace_graph_hash : string;
  set_repositories : list DeploymentPlanSetRepositoryV1;
  set_children : list DeploymentPlanSetChildV1;
  set_provider_snapshot_hashes : btree string;
  set_explicit_exclusions : list string;
  set_content_hash : string;
}.
#[export] Instance ser_DeploymentPlanSetV1 `{Runtime} : Serialize DeploymentPlanSetV1 :=
  fun s => struct_value [
    field "schema_version" (set_schema_version s);
    field "bundle_id" (set_bundle_id s);
    field "name" (set_name s);
    field "created_at" (set_created_at s);
    field "expires_at" (set_expires_at s);
    field "source_spec_sha256" (set_source_spec_sha256 s);
    field "profile_id" (set_profile_id s);
    field "account_ids" (set_account_ids s);
    field "build_identity_hash" (set_build_identity_hash s);
    field "catalog_hash" (set_catalog_hash s);
    field "credential_generation_id" (set_credential_generation_id s);
    field "admission_policy_hash" (set_admission_policy_hash s);
    field "workspace_graph_hash" (set_workspace_graph_hash s);
    field "repositories" (set_repositories s);
    field "children" (set_children s);
    field_nonempty_map "provider_snapshot_hashes" (set_provider_snapshot_hashes s);
    field_nonempty "explicit_exclusions" (set_explicit_exclusions s);
    field "content_hash" (set_content_hash s)].
#[export] Program Instance inj_DeploymentPlanSetV1 `{RuntimeInjective} :
  SerializeInj DeploymentPlanSetV1 :=
  {| ser_ok s := ser_ok (set_children s) /\ ser_ok (set_provider_snapshot_hashes s) |}.
Next Obligation. intros ??. struct_inj. Qed.

Definition set_with_hash (hash : string) (s : DeploymentPlanSetV1) : DeploymentPlanSetV1 :=
  {| set_schema_version := set_schema_version s;
     set_bundle_id := set_bundle_id s;
     set_name := set_name s;
     set_created_at := set_created_at s;
     set_expires_at := set_expires_at s;
     set_source_spec_sha256 := set_source_spec_sha256 s;
     set_profile_id := set_profile_id s;
     set_account_ids := set_account_ids s;
     set_build_identity_hash := set_build_identity_hash s;
     set_catalog_hash := set_catalog_hash s;
     set_credential_generation_id := set_credential_generation_id s;
     set_admission_policy_hash := set_admission_policy_hash s;
     set_workspace_graph_hash := set_workspace_graph_hash s;
     set_repositories := set_repositories s;
     set_children := set_children s;
     set_provider_snapshot_hashes := set_provider_snapshot_hashes s;
     set_explicit_exclusions := set_explicit_exclusions s;
     set_content_hash := hash |}.

(** ** Operations *)

Definition rollback_spec_is_explicit (rollback : RollbackSpecV1) : bool :=
  if rollback_supported rollback then
    is_some_and (rollback_strategy rollback) (fun strategy => negb (trim_is_empty strategy))
  else
    is_noneb (rollback_strategy rollback)
    && is_some_and (rollback_warning rollback) (fun warning => negb (trim_is_empty warning)).

Section PlanSet.
Context `{Runtime}.
Open Scope string_scope.
Open Scope cf_scope.

Definition invalid_set (reason : string) : CoreError := InvalidDeploymentPlanSet reason.

(** The inner loop: the snapshots of one child join the union. *)
Fixpoint union_snapshots (union : btree string) (snapshots : list (string * string))
  : Result (btree string) :=
  match snapshots with
  | [] => Ok union
  | (key, value) :: rest =>
      guard (is_some_and (bt_get key union) (fun existing => existing <>? value))
        (invalid_set ("provider snapshot `" ++ key ++ "` disagrees across child plans")%string)
        (union_snapshots (bt_insert key value union) rest)
  end.

Fixpoint union_children (union : btree string) (children : list DeploymentPlanSetChildV1)
  : Result (btree string) :=
  match children with
  | [] => Ok union
  | child :: rest =>
      let? union := union_snapshots union (child_provider_snapshot_hashes child) in
      union_children union rest
  end.

Definition deployment_plan_set_provider_hashes (children : list DeploymentPlanSetChildV1)
  : Result (btree string) := union_children [] children.

(** [children.iter().map(|child| child.expires_at).min()] *)
Fixpoint earliest (children : list DeploymentPlanSetChildV1) : option DateTime :=
  match children with
  | [] => None
  | child :: rest =>
      Some match earliest rest with
           | Some t => if dt_lt t (child_expires_at child) then t else child_expires_at child
           | None => child_expires_at child
           end
  end.

Definition set_refresh_hash : ST DeploymentPlanSetV1 CoreError unit :=
  let* self := st_get in
  let hashable := set_with_hash "" self in
  let* hash := st_lift (let? value := json_value hashable in hash_value value) in
  st_modify (set_with_hash hash).

(** The identity check of bundle and operation ids. *)
Definition canonical_uuid (id : string) : bool :=
  is_some_and (uuid_hyphenated id) (fun rendered => rendered =? id).

Definition identity_malformed (s : DeploymentPlanSetV1) : bool :=
  (set_schema_version s <>? 1%Z)
  || negb (canonical_uuid (set_bundle_id s))
  || trim_is_empty (set_name s)
  || (128 <? Z.of_nat (String.length (set_name s)))%Z
  || trim_is_empty (set_profile_id s)
  || trim_is_empty (set_credential_generation_id s)
  || negb (dt_lt (set_created_at s) (set_expires_at s))
  || negb (valid_sha256_identity (set_source_spec_sha256 s))
  || negb (valid_sha256_identity (set_build_identity_hash s))
  || negb (valid_sha256_identity (set_catalog_hash s))
  || negb (valid_policy_identity (set_admission_policy_hash s))
  || negb (valid_sha256_identity (set_workspace_graph_hash s)).

Definition members_malformed (s : DeploymentPlanSetV1) : bool :=
  (length (set_account_ids s) =? 0)
  || negb (sorted_unique_nonempty_values (set_account_ids s))
  || (length (set_repositories s) =? 0)
  || (length (set_children s) =? 0)
  || (length (set_explicit_exclusions s) =? 0)
  || negb (sorted_unique_nonempty_values (set_explicit_exclusions s)).

Definition repositories_malformed (s : DeploymentPlanSetV1) : bool :=
  let repository_ids := map repo_repository_id (set_repositories s) in
  negb (sorted_unique_nonempty_values repository_ids)
  || existsb (fun repository =>
       negb (valid_sha256_identity (repo_root_sha256 repository))
       || trim_is_empty (repo_origin_identity repository)
       || negb (valid_git_object_id (repo_head repository))
       || negb (valid_git_object_id (repo_tree repository))) (set_repositories s).

Definition child_malformed (s : DeploymentPlanSetV1) (prior_operations : list string)
    (expected_sequence : Z) (child : DeploymentPlanSetChildV1) : bool :=
  (child_sequence child <>? expected_sequence)
  || negb (canonical_uuid (child_operation_id child))
  || negb (valid_sha256_identity (child_plan_content_hash child))
  || negb (valid_sha256_identity (child_pins_hash child))
  || trim_is_empty (child_capability_id child)
  || trim_is_empty (child_account_id child)
  || negb (contains (set_account_ids s) (child_account_id child))
  || dt_lt (child_expires_at child) (set_expires_at s)
  || (child_initial_status child <>? Draft)
  || (child_risk child =? RiskClass_Unknown)
  || (child_effect child =? EffectClass_Unknown)
  || negb (cost_known (child_cost child))
  || (length (child_permissions child) =? 0)
  || negb (sorted_unique_nonempty_values (child_permissions child))
  || negb (sorted_unique_nonempty_values (child_zone_ids child))
  || negb (sorted_unique_nonempty_values (child_affected_resources child))
  || negb (sorted_unique_nonempty_values (child_warnings child))
  || negb (sorted_unique_nonempty_values (child_depends_on child))
  || existsb (fun dependency => negb (contains prior_operations dependency))
       (child_depends_on child)
  || negb (rollback_spec_is_explicit (child_rollback child))
  || existsb (fun snapshot =>
       trim_is_empty (fst snapshot) || negb (valid_sha256_identity (snd snapshot)))
       (child_provider_snapshot_hashes child).

(** [u32::try_from] of an index *)
Definition u32_try_from (n : Z) : option Z := if (n <? 2 ^ 32)%Z then Some n else None.

(** The loop over [children], from child number [index]. *)
Fixpoint validate_children (s : DeploymentPlanSetV1) (prior_operations : list string)
    (index : Z) (children : list DeploymentPlanSetChildV1) : Result unit :=
  match children with
  | [] => Ok tt
  | child :: rest =>
      let? expected_sequence := ok_or (invalid_set "child sequence exceeds supported range")
        (u32_try_from (index + 1)) in
      guard (child_malformed s prior_operations expected_sequence child)
        (invalid_set
          "a child plan, dependency, target, cost, permission, or rollback pin is malformed") (
      guard (contains prior_operations (child_operation_id child))
        (invalid_set "child operation IDs must be unique")
        (validate_children s (child_operation_id child :: prior_operations) (index + 1) rest))
  end.

Definition set_validate (s : DeploymentPlanSetV1) : Result unit :=
  guard (identity_malformed s)
    (invalid_set "bundle identity or top-level pins are malformed") (
  guard (members_malformed s)
    (invalid_set "accounts, repositories, children, or exclusions are empty or non-canonical") (
  guard (repositories_malformed s)
    (invalid_set "repository pins are malformed or non-canonical") (
  let? _ := validate_children s [] 0 (set_children s) in
  let? first_expiry := ok_or (invalid_set "bundle has no child expiration")
    (earliest (set_children s)) in
  let? drifted :=
    if set_expires_at s <>? first_expiry then Ok true
    else
      let? union := deployment_plan_set_provider_hashes (set_children s) in
      Ok (set_provider_snapshot_hashes s <>? union) in
  guard drifted
    (invalid_set "bundle expiration or provider snapshot union drifted from its children") (
  let? current := let? value := json_value (set_with_hash "" s) in hash_value value in
  guard (set_content_hash s <>? current)
    (invalid_set "content hash no longer matches the plan set") (Ok tt))))).

Definition set_new (clk : Clock) (bundle_id name source_spec_sha256 profile_id : string)
    (account_ids : list string)
    (build_identity_hash catalog_hash credential_generation_id admission_policy_hash
     workspace_graph_hash : string)
    (repositories : list DeploymentPlanSetRepositoryV1)
    (children : list DeploymentPlanSetChildV1) (explicit_exclusions : list string)
  : Result DeploymentPlanSetV1 :=
  let? expires_at := ok_or (invalid_set "at least one child plan is required")
    (earliest children) in
  let? provider_snapshot_hashes := deployment_plan_set_provider_hashes children in
  let document :=
    {| set_schema_version := 1;
       set_bundle_id := bundle_id;
       set_name := name;
       set_created_at := clk 0;
       set_expires_at := expires_at;
       set_source_spec_sha256 := source_spec_sha256;
       set_profile_id := profile_id;
       set_account_ids := account_ids;
       set_build_identity_hash := build_identity_hash;
       set_catalog_hash := catalog_hash;
       set_credential_generation_id := credential_generation_id;
       set_admission_policy_hash := admission_policy_hash;
       set_workspace_graph_hash := workspace_graph_hash;
       set_repositories := repositories;
       set_children := children;
       set_provider_snapshot_hashes := provider_snapshot_hashes;
       set_explicit_exclusions := explicit_exclusions;
       set_content_hash := "" |} in
  match set_refresh_hash document with
  | (Ok _, document) => let? _ := set_validate document in Ok document
  | (Err e, _) => Err e
  end.
End PlanSet.

(** ** Specification *)

(** The child at position [i] (from 0) of a reviewed set. *)
Definition child_in_order (s : DeploymentPlanSetV1) (i : nat) (child : DeploymentPlanSetChildV1)
  : Prop :=
  child_sequence child = (Z.of_nat i + 1)%Z /\
  (forall dep, dep ∈ child_depends_on child ->
     exists j earlier, j < i /\ set_children s !! j = Some earlier /\
       child_operation_id earlier = dep) /\
  (child_account_id child ∈ set_account_ids s) /\
  dt_lt (child_expires_at child) (set_expires_at s) = false /\
  child_initial_status child = Draft /\
  child_risk child <> RiskClass_Unknown /\ child_effect child <> EffectClass_Unknown /\
  cost_known (child_cost child) = true /\ child_permissions child <> [] /\
  rollback_spec_is_explicit (child_rollback child) = true.

(** All children agree on the snapshots they share. *)
Definition snapshots_agree (entries : list (string * string)) : Prop :=
  forall k v v', In (k, v) entries -> In (k, v') entries -> v = v'.

Definition all_snapshots (children : list DeploymentPlanSetChildV1) : list (string * string) :=
  concat (map child_provider_snapshot_hashes children).

Definition plan_set_ok `{RuntimeInjective} (s : DeploymentPlanSetV1) : Prop := ser_ok s.

(** ** Facts *)

Section PlanSetFacts.
Context `{Runtime}.

Lemma validate_children_cons s prior index child rest :
  validate_children s prior index (child :: rest) = Ok tt <->
  (index + 1 < 2 ^ 32)%Z /\ child_malformed s prior (index + 1) child = false /\
  contains prior (child_operation_id child) = false /\
  validate_children s (child_operation_id child :: prior) (index + 1) rest = Ok tt.
Proof.
  cbn [validate_children]. unfold u32_try_from.
  destruct (index + 1 <? 2 ^ 32)%Z eqn:E; cbn [ok_or res_bind].
  - rewrite !guard_ok. apply Z.ltb_lt in E. tauto.
  - apply Z.ltb_ge in E. split; [done|]. intros (? & _). lia.
Qed.

Lemma validate_children_at s prior index l i child :
  validate_children s prior index l = Ok tt -> l !! i = Some child ->
  child_malformed s (rev (map child_operation_id (take i l)) ++ prior)
    (index + Z.of_nat i + 1) child = false.
Proof.
  revert prior index i; induction l as [|c l IH]; intros prior index i Hv Hl; [done|].
  apply validate_children_cons in Hv as (_ & Hm & _ & Hv). destruct i as [|i]; cbn in Hl.
  - injection Hl as ->. cbn. by rewrite Z.add_0_r.
  - specialize (IH _ _ i Hv Hl). cbn [take map rev]. rewrite <- app_assoc.
    replace (index + Z.of_nat (S i) + 1)%Z with (index + 1 + Z.of_nat i + 1)%Z by lia. exact IH.
Qed.

Lemma validate_children_unique s prior index l :
  validate_children s prior index l = Ok tt -> NoDup prior ->
  NoDup (rev (map child_operation_id l) ++ prior).
Proof.
  revert prior index; induction l as [|c l IH]; intros prior index Hv Hp; [done|].
  apply validate_children_cons in Hv as (_ & _ & Hc & Hv). cbn [map rev].
  rewrite <- app_assoc. apply (IH _ _ Hv). apply NoDup_cons. split; [|done].
  by apply contains_false.
Qed.

Lemma child_malformed_false s prior n child :
  child_malformed s prior n child = false ->
  child_sequence child = n /\
  (forall dep, dep ∈ child_depends_on child -> dep ∈ prior) /\
  (child_account_id child ∈ set_account_ids s) /\
  dt_lt (child_expires_at child) (set_expires_at s) = false /\
  child_initial_status child = Draft /\
  child_risk child <> RiskClass_Unknown /\ child_effect child <> EffectClass_Unknown /\
  cost_known (child_cost child) = true /\ child_permissions child <> [] /\
  rollback_spec_is_explicit (child_rollback child) = true.
Proof.
  unfold child_malformed. intros Hm. split_andb. reflect_eqb. split_and!; try done.
  - intros dep Hd. destruct (contains prior dep) eqn:E; [by apply contains_true|].
    exfalso. assert (Hx : existsb (fun d => negb (contains prior d)) (child_depends_on child) = true).
    { apply existsb_exists. exists dep. split; [by apply list_elem_of_In|]. by rewrite E. }
    congruence.
  - intros Ep. by rewrite Ep in *.
Qed.

Lemma set_validate_ok s :
  set_validate s = Ok tt <->
  identity_malformed s = false /\ members_malformed s = false /\
  repositories_malformed s = false /\ validate_children s [] 0 (set_children s) = Ok tt /\
  earliest (set_children s) = Some (set_expires_at s) /\
  deployment_plan_set_provider_hashes (set_children s) = Ok (set_provider_snapshot_hashes s) /\
  hash_value (to_value (set_with_hash "" s)) = Ok (set_content_hash s).
Proof.
  unfold set_validate. rewrite !guard_ok, res_bind_unit_ok.
  destruct (earliest (set_children s)) as [t|]; cbn [ok_or res_bind].
  2: { split; [by intros (_ & _ & _ & _ & [=])|by intros (_ & _ & _ & _ & [=] & _)]. }
  destruct (set_expires_at s =? t) eqn:Et; reflect_eqb; cbn [negb].
  2: { split; [by intros (_ & _ & _ & _ & [=])|]. intros (_ & _ & _ & _ & [= ->] & _). done. }
  destruct (deployment_plan_set_provider_hashes (set_children s)) as [u|e]; cbn [res_bind].
  2: { split; [by intros (_ & _ & _ & _ & [=])|by intros (_ & _ & _ & _ & _ & [=] & _)]. }
  rewrite guard_ok, neqb_false. unfold json_value. cbn [res_bind].
  destruct (hash_value (to_value (set_with_hash "" s))) as [h|e]; cbn [res_bind].
  - rewrite guard_unit_ok, neqb_false. subst t. intuition congruence.
  - split; [by intros (_ & _ & _ & _ & _ & [=])|by intros (_ & _ & _ & _ & _ & _ & [=])].
Qed.

Lemma earliest_spec children t :
  earliest children = Some t ->
  (forall c, In c children -> dt_lt (child_expires_at c) t = false) /\
  exists c, In c children /\ child_expires_at c = t.
Proof.
  revert t; induction children as [|c l IH]; intros t; cbn; [done|]. intros [= <-].
  destruct (earliest l) as [t|] eqn:E.
  - destruct (IH t eq_refl) as [Hmin (m & Hm & Hmt)]. unfold dt_lt in *.
    destruct (ns t <? ns (child_expires_at c))%Z eqn:El.
    + split; [|by exists m; split; [right|]]. intros x [<-|Hx]; [|by apply Hmin].
      apply Z.ltb_lt in El. apply Z.ltb_ge. lia.
    + split; [|by exists c; split; [left|]]. intros x [<-|Hx]; [by rewrite Z.ltb_irrefl|].
      specialize (Hmin x Hx). rewrite Z.ltb_ge in *. lia.
  - destruct l as [|d l]; [|done]. split; [|by exists c; split; [left|]].
    intros x [<-|[]]. unfold dt_lt. by rewrite Z.ltb_irrefl.
Qed.

Lemma union_snapshots_app u a b :
  union_snapshots u (a ++ b) =
  res_bind (union_snapshots u a) (fun u => union_snapshots u b).
Proof.
  revert u; induction a as [|[k v] a IH]; intros u; cbn; [done|].
  unfold guard. destruct (is_some_and _ _); [done|]. apply IH.
Qed.

Lemma union_children_snapshots u children :
  union_children u children = union_snapshots u (all_snapshots children).
Proof.
  revert u; induction children as [|c l IH]; intros u; [done|].
  cbn [union_children]. unfold all_snapshots. cbn [map concat]. rewrite union_snapshots_app.
  destruct (union_snapshots u _); [apply IH|done].
Qed.

(** The union succeeds exactly on agreeing entries, and is then their map. *)
Lemma union_snapshots_ok u entries r :
  union_snapshots u entries = Ok r <->
  (forall k v, In (k, v) entries -> forall v', bt_get k u = Some v' -> v' = v) /\
  snapshots_agree entries /\
  r = fold_left (fun m e => bt_insert (fst e) (snd e) m) entries u.
Proof.
  revert u; induction entries as [|[k v] l IH]; intros u; cbn [union_snapshots].
  - cbn. split; [intros [= ->]; split_and!; try done; by intros ? ? ? []|by intros (_ & _ & ->)].
  - rewrite guard_ok, IH. cbn [fold_left fst snd]. split.
    + intros (Hk & Hu & Ha & ->). split_and!; [..|done].
      * intros k' v' [[= <- <-]|Hin] w Hw.
        -- rewrite Hw in Hk. cbn in Hk. by rewrite neqb_false in Hk.
        -- specialize (Hu k' v' Hin). rewrite bt_get_insert in Hu.
           destruct (k' =? k) eqn:E; [|by apply Hu]. reflect_eqb. subst k'.
           specialize (Hu v eq_refl) as <-. rewrite Hw in Hk. cbn in Hk. by rewrite neqb_false in Hk.
      * intros k' w w' [E|Hin] [E'|Hin']; simplify_eq; [done|..].
        -- specialize (Hu k' w' Hin' w). rewrite bt_get_insert, eqb_refl in Hu. by apply Hu.
        -- specialize (Hu k' w Hin w'). rewrite bt_get_insert, eqb_refl in Hu. symmetry. by apply Hu.
        -- by eapply Ha.
    + intros (Hu & Ha & ->). split_and!; [..|done].
      * destruct (bt_get k u) as [w|] eqn:Ek; [|done]. cbn. rewrite neqb_false.
        by apply (Hu k v (or_introl eq_refl)).
      * intros k' v' Hin w. rewrite bt_get_insert. destruct (k' =? k) eqn:E.
        -- reflect_eqb. subst k'. intros [= <-]. apply (Ha k); [by left|by right].
        -- apply Hu. by right.
      * intros k' w w' Hin Hin'. apply (Ha k'); by right.
Qed.

Lemma union_get_notin k entries (u : btree string) :
  ~ In k (map fst entries) ->
  bt_get k (fold_left (fun m e => bt_insert (fst e) (snd e) m) entries u) = bt_get k u.
Proof. apply bt_collect_acc_get_notin. Qed.

Lemma union_get entries u k v :
  snapshots_agree entries -> In (k, v) entries ->
  bt_get k (fold_left (fun m e => bt_insert (fst e) (snd e) m) entries u) = Some v.
Proof.
  revert u; induction entries as [|[k1 v1] l IH]; intros u Ha Hin; [done|]. cbn [fold_left fst snd].
  assert (Hl : snapshots_agree l) by (intros ? ? ? ? ?; eapply Ha; by right).
  destruct (in_dec string_dec k (map fst l)) as [Hk|Hk].
  - apply in_map_iff in Hk as ([k' v'] & E & Hin'). cbn in E. subst k'.
    assert (v = v') as -> by (eapply (Ha k); [exact Hin|by right]). by apply IH.
  - rewrite union_get_notin by done. destruct Hin as [[= -> ->]|Hin].
    + by rewrite bt_get_insert, eqb_refl.
    + destruct Hk. apply in_map_iff. by exists (k, v).
Qed.
End PlanSetFacts.

(** ** Properties *)

(** A reviewed set is an executable order. In a set that validates, child
    [i] has sequence [i + 1], every dependency is the operation of an earlier
    child - so the dependencies have no cycle -, operations are distinct, and
    every child is still a draft of known risk, effect and cost with explicit
    rollback, in one of the set's accounts, expiring no earlier than the set;
    the set expires with its first child. *)
Theorem plan_set_order `{Runtime} (s : DeploymentPlanSetV1) :
  set_validate s = Ok tt ->
  (forall i child, set_children s !! i = Some child -> child_in_order s i child) /\
  NoDup (map child_operation_id (set_children s)) /\
  (exists child, In child (set_children s) /\ child_expires_at child = set_expires_at s).
Proof.
  intros (_ & _ & _ & Hv & He & _)%set_validate_ok. split; [|split].
  - intros i child Hi. pose proof (validate_children_at _ _ _ _ _ _ Hv Hi) as Hm.
    apply child_malformed_false in Hm as (Hs & Hd & Hrest). rewrite app_nil_r in Hd.
    split; [lia|]. split; [|exact Hrest]. intros dep Hdep. specialize (Hd dep Hdep).
    apply list_elem_of_In, in_rev, in_map_iff in Hd as (c & <- & Hc).
    apply list_elem_of_In, list_elem_of_lookup in Hc as [j Hj].
    apply lookup_take_Some in Hj as [Hj Hlt]. by exists j, c.
  - pose proof (validate_children_unique _ _ _ _ Hv ltac:(constructor)) as Hn.
    rewrite app_nil_r in Hn. apply NoDup_ListNoDup. apply NoDup_ListNoDup in Hn.
    rewrite <- (rev_involutive (map _ _)). by apply List.NoDup_rev.
  - by apply earliest_spec in He as [_ ?].
Qed.

(** A reviewed set is tamper evident: two sets that validate under one
    content hash are equal, child by child and pin by pin, or SHA-256
    collided. *)
Theorem plan_set_binds `{RuntimeInjective} (a b : DeploymentPlanSetV1) :
  plan_set_ok a -> plan_set_ok b ->
  set_validate a = Ok tt -> set_validate b = Ok tt -> set_content_hash a = set_content_hash b ->
  a = b \/ collision.
Proof.
  intros Ha Hb (_ & _ & _ & _ & _ & _ & Hha)%set_validate_ok
    (_ & _ & _ & _ & _ & _ & Hhb)%set_validate_ok E.
  rewrite E in Hha. destruct (hash_value_same _ _ _ Hha Hhb) as [Heq|]; [left|by right].
  apply (ser_inj (A := DeploymentPlanSetV1)) in Heq; [|exact Ha|exact Hb].
  assert (Hset : forall s, s = set_with_hash (set_content_hash s) (set_with_hash "" s)).
  { by intros []. }
  by rewrite (Hset a), (Hset b), Heq, E.
Qed.

(** The provider snapshots of the children are merged or refused: the
    union succeeds exactly when no two children disagree on a key, and then
    looks up exactly the snapshots of the children. *)
Theorem provider_union_iff `{Runtime} (children : list DeploymentPlanSetChildV1) :
  (is_ok (deployment_plan_set_provider_hashes children) = true <->
   snapshots_agree (all_snapshots children)) /\
  (forall u, deployment_plan_set_provider_hashes children = Ok u ->
   forall k v, bt_get k u = Some v <-> In (k, v) (all_snapshots children)).
Proof.
  unfold deployment_plan_set_provider_hashes. rewrite union_children_snapshots. split.
  - split.
    + destruct (union_snapshots [] _) as [u|] eqn:E; [intros _|done].
      by apply union_snapshots_ok in E as (_ & ? & _).
    + intros Ha. assert (Hn : forall k v, In (k, v) (all_snapshots children) ->
        forall v', bt_get k (@nil (string * string)) = Some v' -> v' = v) by done.
      by rewrite (proj2 (union_snapshots_ok [] _ _) (conj Hn (conj Ha eq_refl))).
  - intros u (_ & Ha & ->)%union_snapshots_ok k v. split; [|by apply union_get].
    intros Hg. destruct (in_dec string_dec k (map fst (all_snapshots children))) as [Hk|Hk].
    + apply in_map_iff in Hk as ([k' v'] & E & Hin). cbn in E. subst k'.
      rewrite (union_get _ _ k v') in Hg by done. by injection Hg as <-.
    + by rewrite union_get_notin in Hg.
Qed.

(** ** Witnesses *)

Definition sample_sha : string :=
  "sha256:0123456789abcdef0123456789abcdef0123456789abcdef0123456789abcdef".
Definition sample_child (n : Z) (id : string) (deps : list string) : DeploymentPlanSetChildV1 :=
  mkDeploymentPlanSetChildV1 n id sample_sha sample_sha "dns.create" "acct" [] (at_s (1000 + n))
    Draft deps [] ["dns:write"]%string RiskClass_ScopedWrite EffectClass_ReversibleWrite
    cost_default [] (mkRollbackSpecV1 true (Some "delete the record"%string) None) []
    [("zone", sample_sha)]%string.
Definition sample_set : DeploymentPlanSetV1 :=
  match set_new (clock_at 0) "00000000-0000-4000-8000-000000000001" "launch" sample_sha "profile"
      ["acct"] sample_sha sample_sha "cred" ("bundle:" ++ sample_sha) sample_sha
      [mkDeploymentPlanSetRepositoryV1 "repo" sample_sha "origin"
         "0123456789012345678901234567890123456789" "0123456789012345678901234567890123456789"]
      [sample_child 1 "00000000-0000-4000-8000-0000000000aa" [];
       sample_child 2 "00000000-0000-4000-8000-0000000000bb"
         ["00000000-0000-4000-8000-0000000000aa"]]
      ["billing"] with
  | Ok s => s
  | Err _ => mkDeploymentPlanSetV1 0 "" "" (at_s 0) (at_s 0) "" "" [] "" "" "" "" "" [] [] [] [] ""
  end%string.

Lemma plan_set_order_witness :
  length (set_children sample_set) = 2 /\
  NoDup (map child_operation_id (set_children sample_set)).
Proof.
  split; [vm_compute; reflexivity|]. apply (plan_set_order sample_set). vm_compute. reflexivity.
Defined.

Lemma sample_set_ok : plan_set_ok sample_set.
Proof. vm_compute. repeat split; repeat constructor. Qed.

Lemma plan_set_binds_witness : sample_set = sample_set \/ collision.
Proof.
  apply (plan_set_binds sample_set sample_set sample_set_ok sample_set_ok);
    [vm_compute; reflexivity..|reflexivity].
Defined.
