(* ===== verification/Proofs.v ===== *)
(** Evidence and operational proofs of crates/cfctl-core/src/lib.rs: the
    receipt of one live read, its immutable execution bindings and its
    freshness; result envelopes and attestation telemetry. *)

From Stdlib Require Import String Ascii ZArith Lia List Bool.
From stdpp Require Import base option list strings relations.
From S2P Require Import Prelude Strings Btree Json Redaction CatalogTypes Core Policy.
From S2P Require Import CapabilityOps Demo.

Open Scope cf_scope.

(** ** Evidence *)

Inductive EvidenceClass : Type :=
| SourceConfig
| LiveRead
| Preview
| Apply
| StandingApply
| EventReceipt
| PostChangeVerification
| AgentAction
| LocalProof
| Release.
#[export] Instance EvidenceClass_eq_dec : EqDecision EvidenceClass.
Proof. solve_decision. Defined.

Record EvidenceV1 : Type := mkEvidenceV1 {
  evidence_schema_version : Z;
  evidence_generated_at : DateTime;
  evidence_class : EvidenceClass;
  evidence_content_hash : string;
  evidence_path : string;
  evidence_metadata : Value;
}.

Definition evidence_new (clk : Clock) (class : EvidenceClass) (content_hash path : string)
  : EvidenceV1 :=
  {| evidence_schema_version := 1;
     evidence_generated_at := clk 0;
     evidence_class := class;
     evidence_content_hash := content_hash;
     evidence_path := path;
     evidence_metadata := VNull |}.

(** ** Operational proofs *)

Inductive OperationalProofOutcomeV1 : Type :=
| OutcomeSucceeded
| OutcomeFailed.
#[export] Instance OperationalProofOutcomeV1_eq_dec : EqDecision OperationalProofOutcomeV1.
Proof. solve_decision. Defined.

Record OperationalProofScopeV1 : Type := mkOperationalProofScopeV1 {
  scope_profile_id : option string;
  scope_account_id : option string;
  scope_credential_generation_id : option string;
}.

Record D1FullExportGovernedExecutionBindingV1 : Type := mkD1FullExportGovernedExecutionBindingV1 {
  fxb_schema_version : Z;
  fxb_operation_id : string;
  fxb_capability_id : string;
  fxb_catalog_hash : string;
  fxb_target_scope_hash : string;
  fxb_output_file_sha256 : string;
  fxb_at_bookmark_hash : string;
  fxb_manifest_evidence_hash : string;
  fxb_request_hash : string;
  fxb_profile_id : string;
  fxb_credential_generation_id : string;
  fxb_completion_status : string;
  fxb_completed_at : DateTime;
}.

Record Mln0142GovernedExecutionBindingV1 : Type := mkMln0142GovernedExecutionBindingV1 {
  m42_schema_version : Z;
  m42_operation_id : string;
  m42_capability_id : string;
  m42_capability_version : Z;
  m42_catalog_hash : string;
  m42_target_scope_hash : string;
  m42_import_operation_id : string;
  m42_import_boundary_evidence_hash : string;
  m42_import_source_sha256 : string;
  m42_import_plan_hash : string;
  m42_final_bookmark_hash : string;
  m42_trigger_name : string;
  m42_trigger_definition_sha256 : string;
  m42_manifest_evidence_hash : string;
  m42_request_hash : string;
  m42_credential_generation_id : string;
  m42_completion_status : string;
  m42_completed_at : DateTime;
}.

Record Mln0143GovernedExecutionBindingV1 : Type := mkMln0143GovernedExecutionBindingV1 {
  m43_schema_version : Z;
  m43_operation_id : string;
  m43_capability_id : string;
  m43_capability_version : Z;
  m43_validator_contract_hash : string;
  m43_fixed_query_sha256 : string;
  m43_catalog_hash : string;
  m43_target_scope_hash : string;
  m43_phase : string;
  m43_manifest_evidence_hash : string;
  m43_request_hash : string;
  m43_profile_identity_hash : string;
  m43_credential_generation_id : string;
  m43_completion_status : string;
  m43_completed_at : DateTime;
  m43_cross_operation_lineage_hash : option string;
}.

Record OperationalProofV1 : Type := mkOperationalProofV1 {
  proof_schema_version : Z;
  proof_observed_at : DateTime;
  proof_capability_id : string;
  proof_catalog_hash : string;
  proof_input_hash : string;
  proof_build_identity_hash : option string;
  proof_profile_id : option string;
  proof_account_id : option string;
  proof_credential_generation_id : option string;
  proof_outcome : OperationalProofOutcomeV1;
  proof_evidence : EvidenceV1;
  proof_mln_0143_execution : option Mln0143GovernedExecutionBindingV1;
  proof_mln_0142_execution : option Mln0142GovernedExecutionBindingV1;
  proof_d1_full_export_execution : option D1FullExportGovernedExecutionBindingV1;
}.

(** The four bindings are the only fields any method assigns. *)
Definition proof_bind (p : OperationalProofV1) build m43 m42 export : OperationalProofV1 :=
  {| proof_schema_version := proof_schema_version p;
     proof_observed_at := proof_observed_at p;
     proof_capability_id := proof_capability_id p;
     proof_catalog_hash := proof_catalog_hash p;
     proof_input_hash := proof_input_hash p;
     proof_build_identity_hash := build;
     proof_profile_id := proof_profile_id p;
     proof_account_id := proof_account_id p;
     proof_credential_generation_id := proof_credential_generation_id p;
     proof_outcome := proof_outcome p;
     proof_evidence := proof_evidence p;
     proof_mln_0143_execution := m43;
     proof_mln_0142_execution := m42;
     proof_d1_full_export_execution := export |}.

Definition proof_new (observed_at : DateTime) (capability_id catalog_hash input_hash : string)
    (scope : OperationalProofScopeV1) (outcome : OperationalProofOutcomeV1)
    (evidence : EvidenceV1) : OperationalProofV1 :=
  {| proof_schema_version := 1;
     proof_observed_at := observed_at;
     proof_capability_id := capability_id;
     proof_catalog_hash := catalog_hash;
     proof_input_hash := input_hash;
     proof_build_identity_hash := None;
     proof_profile_id := scope_profile_id scope;
     proof_account_id := scope_account_id scope;
     proof_credential_generation_id := scope_credential_generation_id scope;
     proof_outcome := outcome;
     proof_evidence := evidence;
     proof_mln_0143_execution := None;
     proof_mln_0142_execution := None;
     proof_d1_full_export_execution := None |}.

Definition bind_build_identity_hash (build_identity_hash : string)
  : ST OperationalProofV1 CoreError unit :=
  let* self := st_get in
  if negb (valid_sha256_identity build_identity_hash)
     || is_someb (proof_build_identity_hash self) then
    st_throw (InvalidOperationalProofBinding
      "build identity must be one immutable canonical SHA-256")
  else
  st_modify (fun s => proof_bind s (Some build_identity_hash) (proof_mln_0143_execution s)
    (proof_mln_0142_execution s) (proof_d1_full_export_execution s)).

Definition d1_full_export_mismatch (self : OperationalProofV1)
    (binding : D1FullExportGovernedExecutionBindingV1) : bool :=
  is_someb (proof_d1_full_export_execution self)
  || (proof_capability_id self <>? "d1-full-export"%string)
  || (proof_outcome self <>? OutcomeSucceeded)
  || (evidence_content_hash (proof_evidence self) <>? fxb_manifest_evidence_hash binding)
  || (proof_catalog_hash self <>? fxb_catalog_hash binding)
  || (proof_input_hash self <>? fxb_request_hash binding)
  || (proof_profile_id self <>? Some (fxb_profile_id binding))
  || (proof_credential_generation_id self <>? Some (fxb_credential_generation_id binding))
  || (fxb_schema_version binding <>? 1%Z)
  || (fxb_completion_status binding <>? "completed"%string).

Definition bind_d1_full_export_governed_execution
    (binding : D1FullExportGovernedExecutionBindingV1) : ST OperationalProofV1 CoreError unit :=
  let* self := st_get in
  if d1_full_export_mismatch self binding then
    st_throw (InvalidOperationalProofBinding
      "D1 full-export binding does not match its completed operational proof")
  else
  st_modify (fun s => proof_bind s (proof_build_identity_hash s) (proof_mln_0143_execution s)
    (proof_mln_0142_execution s) (Some binding)).

Definition mln_0143_mismatch (self : OperationalProofV1)
    (binding : Mln0143GovernedExecutionBindingV1) : bool :=
  is_someb (proof_mln_0143_execution self)
  || (proof_capability_id self <>? "mln-0143-data-invariants"%string)
  || (proof_outcome self <>? OutcomeSucceeded)
  || (evidence_content_hash (proof_evidence self) <>? m43_manifest_evidence_hash binding)
  || (proof_catalog_hash self <>? m43_catalog_hash binding)
  || (proof_input_hash self <>? m43_request_hash binding)
  || (proof_credential_generation_id self <>? Some (m43_credential_generation_id binding))
  || (m43_schema_version binding <>? 1%Z)
  || (m43_completion_status binding <>? "completed"%string)
  || ((m43_phase binding =? "pre_import"%string)
      <>? is_noneb (m43_cross_operation_lineage_hash binding)).

Definition bind_mln_0143_governed_execution (binding : Mln0143GovernedExecutionBindingV1)
  : ST OperationalProofV1 CoreError unit :=
  let* self := st_get in
  if mln_0143_mismatch self binding then
    st_throw (InvalidOperationalProofBinding
      "MLN governed execution binding does not match its completed operational proof")
  else
  st_modify (fun s => proof_bind s (proof_build_identity_hash s) (Some binding)
    (proof_mln_0142_execution s) (proof_d1_full_export_execution s)).

Definition mln_0142_mismatch (self : OperationalProofV1)
    (binding : Mln0142GovernedExecutionBindingV1) : bool :=
  is_someb (proof_mln_0142_execution self)
  || (proof_capability_id self <>? "mln-0142-post-import-schema"%string)
  || (proof_outcome self <>? OutcomeSucceeded)
  || (evidence_content_hash (proof_evidence self) <>? m42_manifest_evidence_hash binding)
  || (proof_catalog_hash self <>? m42_catalog_hash binding)
  || (proof_input_hash self <>? m42_request_hash binding)
  || (proof_credential_generation_id self <>? Some (m42_credential_generation_id binding))
  || (m42_schema_version binding <>? 1%Z)
  || (m42_completion_status binding <>? "completed"%string).

Definition bind_mln_0142_governed_execution (binding : Mln0142GovernedExecutionBindingV1)
  : ST OperationalProofV1 CoreError unit :=
  let* self := st_get in
  if mln_0142_mismatch self binding then
    st_throw (InvalidOperationalProofBinding
      "MLN 0142 governed schema binding does not match its completed operational proof")
  else
  st_modify (fun s => proof_bind s (proof_build_identity_hash s) (proof_mln_0143_execution s)
    (Some binding) (proof_d1_full_export_execution s)).

(** ** Freshness *)

Inductive OperationalProofFreshnessV1 : Type :=
| Fresh
| Stale
| CredentialUnbound
| CredentialDrifted
| CatalogDrifted
| ProofFailed
| NotRecorded.
#[export] Instance OperationalProofFreshnessV1_eq_dec : EqDecision OperationalProofFreshnessV1.
Proof. solve_decision. Defined.

Definition i64_max : Z := (2 ^ 63 - 1)%Z.

(** chrono's [Duration::seconds], in nanoseconds; [None] is its panic. *)
Class Chrono : Type := duration_seconds : Z -> option Z.

(** Its documentation: a duration is bounded by [i64::MAX] milliseconds either
    way, and the constructor panics beyond. *)
Class ChronoBounded `{Chrono} : Prop :=
  duration_seconds_bounds : forall seconds,
    duration_seconds seconds =
      if (Z.abs seconds <=? i64_max / 1000)%Z then Some (seconds * 1000000000)%Z else None.

(** [i64::try_from(n).unwrap_or(i64::MAX)] for a [u64] *)
Definition saturating_i64 (n : Z) : Z := if (n <=? i64_max)%Z then n else i64_max.

(** [None] is the panic. *)
Definition freshness `{Chrono} (self : OperationalProofV1) (now : DateTime) (current_catalog_hash : string)
    (max_age_seconds : Z) (current_credential_generation_id : option string)
  : option OperationalProofFreshnessV1 :=
  match proof_credential_generation_id self with
  | None => Some CredentialUnbound
  | Some recorded_generation =>
      if current_credential_generation_id <>? Some recorded_generation
      then Some CredentialDrifted
      else if proof_catalog_hash self <>? current_catalog_hash then Some CatalogDrifted
      else if proof_outcome self =? OutcomeFailed then Some ProofFailed
      else if (max_age_seconds =? 0)%Z then Some Stale
      else
      let age := dt_sub now (proof_observed_at self) in
      if (age <? 0)%Z then Some Stale
      else
        match duration_seconds (saturating_i64 max_age_seconds) with
        | None => None
        | Some limit => Some (if (limit <? age)%Z then Stale else Fresh)
        end
  end.

(** ** Result envelopes and attestation *)

Inductive VerificationState : Type :=
| NotApplicable
| Pending
| Passed
| VerificationFailed
| Unsupported.

Record VerificationStatusV1 : Type := mkVerificationStatusV1 {
  status_state : VerificationState;
  status_basis : option string;
}.

Record ErrorV1 : Type := mkErrorV1 {
  error_code : string;
  error_message : string;
  error_next_step : option string;
}.

Inductive AttestationStateV1 : Type :=
| Attested
| UnattestedReversibleEffect.

Record AttestationStatusV1 : Type := mkAttestationStatusV1 {
  attestation_schema_version : Z;
  attestation_state : AttestationStateV1;
  attestation_reason : option string;
}.

Definition attested : AttestationStatusV1 := mkAttestationStatusV1 1 Attested None.
Definition unattested_reversible_effect (reason : string) : AttestationStatusV1 :=
  mkAttestationStatusV1 1 UnattestedReversibleEffect (Some reason).

Record ResultEnvelopeV2 : Type := mkResultEnvelopeV2 {
  env_schema_version : Z;
  env_generated_at : DateTime;
  env_ok : bool;
  env_command : string;
  env_capability_id : option string;
  env_operation_id : option string;
  env_profile_id : option string;
  env_account_id : option string;
  env_performed : bool;
  env_policy_decision : option PolicyDecisionV1;
  env_verification : VerificationStatusV1;
  env_evidence : list EvidenceV1;
  env_result : Value;
  env_error : option ErrorV1;
  env_attestation : option AttestationStatusV1;
}.

Definition envelope_success (clk : Clock) (command : string) (result : Value) : ResultEnvelopeV2 :=
  let result := redact_json result in
  {| env_schema_version := 2;
     env_generated_at := clk 0;
     env_ok := true;
     env_command := command;
     env_capability_id := None;
     env_operation_id := None;
     env_profile_id := None;
     env_account_id := None;
     env_performed := false;
     env_policy_decision := None;
     env_verification := mkVerificationStatusV1 NotApplicable None;
     env_evidence := [];
     env_result := result;
     env_error := None;
     env_attestation := None |}.

Definition envelope_failure (clk : Clock) (command code message : string)
    (next_step : option string) : ResultEnvelopeV2 :=
  {| env_schema_version := 2;
     env_generated_at := clk 0;
     env_ok := false;
     env_command := command;
     env_capability_id := None;
     env_operation_id := None;
     env_profile_id := None;
     env_account_id := None;
     env_performed := false;
     env_policy_decision := None;
     env_verification := mkVerificationStatusV1 Pending None;
     env_evidence := [];
     env_result := VNull;
     env_error := Some (mkErrorV1 code message next_step);
     env_attestation := None |}.

(** ** Specification *)

(** A read whose receipt is usable now, age and clock aside. *)
Definition proof_current (p : OperationalProofV1) (catalog_hash : string)
    (generation : option string) : Prop :=
  (exists g, proof_credential_generation_id p = Some g /\ generation = Some g) /\
  proof_catalog_hash p = catalog_hash /\ proof_outcome p = OutcomeSucceeded.

(** The largest age chrono can represent, in seconds. *)
Definition max_representable_seconds : Z := (i64_max / 1000)%Z.

(** One binding call, whatever its outcome. *)
Inductive proof_step (p : OperationalProofV1) : OperationalProofV1 -> Prop :=
| proof_step_build hash : proof_step p (bind_build_identity_hash hash p).2
| proof_step_export b : proof_step p (bind_d1_full_export_governed_execution b p).2
| proof_step_0143 b : proof_step p (bind_mln_0143_governed_execution b p).2
| proof_step_0142 b : proof_step p (bind_mln_0142_governed_execution b p).2.

(** A value that is set stays set. *)
Definition extends {A} (before after : option A) : Prop :=
  forall a, before = Some a -> after = Some a.

(** Every binding names the receipt it is attached to. *)
Definition bindings_match (p : OperationalProofV1) : Prop :=
  (forall h, proof_build_identity_hash p = Some h -> valid_sha256_identity h = true) /\
  (forall b, proof_d1_full_export_execution p = Some b ->
     proof_outcome p = OutcomeSucceeded /\ proof_capability_id p = "d1-full-export"%string /\
     fxb_manifest_evidence_hash b = evidence_content_hash (proof_evidence p) /\
     fxb_catalog_hash b = proof_catalog_hash p /\ fxb_request_hash b = proof_input_hash p /\
     proof_profile_id p = Some (fxb_profile_id b) /\
     proof_credential_generation_id p = Some (fxb_credential_generation_id b)) /\
  (forall b, proof_mln_0143_execution p = Some b ->
     proof_outcome p = OutcomeSucceeded /\
     proof_capability_id p = "mln-0143-data-invariants"%string /\
     m43_manifest_evidence_hash b = evidence_content_hash (proof_evidence p) /\
     m43_catalog_hash b = proof_catalog_hash p /\ m43_request_hash b = proof_input_hash p /\
     proof_credential_generation_id p = Some (m43_credential_generation_id b) /\
     (m43_phase b = "pre_import"%string <-> m43_cross_operation_lineage_hash b = None)) /\
  (forall b, proof_mln_0142_execution p = Some b ->
     proof_outcome p = OutcomeSucceeded /\
     proof_capability_id p = "mln-0142-post-import-schema"%string /\
     m42_manifest_evidence_hash b = evidence_content_hash (proof_evidence p) /\
     m42_catalog_hash b = proof_catalog_hash p /\ m42_request_hash b = proof_input_hash p /\
     proof_credential_generation_id p = Some (m42_credential_generation_id b)).

(** The receipt apart from its bindings. *)
Definition same_receipt (p q : OperationalProofV1) : Prop :=
  proof_bind p None None None None = proof_bind q None None None None.

(** ** Facts *)

Lemma is_someb_false {A} (o : option A) : is_someb o = false <-> o = None.
Proof. by destruct o. Qed.
Lemma is_noneb_true {A} (o : option A) : is_noneb o = true <-> o = None.
Proof. by destruct o. Qed.

Lemma extends_refl {A} (a : option A) : extends a a.
Proof. by intros x Hx. Qed.
Lemma extends_from_none {A} (a b : option A) : a = None -> extends a b.
Proof. by intros -> x Hx. Qed.
#[local] Hint Resolve extends_refl extends_from_none : core.

Lemma proof_step_inv p p' :
  proof_step p p' ->
  bindings_match p ->
  bindings_match p' /\ same_receipt p p' /\
  extends (proof_build_identity_hash p) (proof_build_identity_hash p') /\
  extends (proof_d1_full_export_execution p) (proof_d1_full_export_execution p') /\
  extends (proof_mln_0143_execution p) (proof_mln_0143_execution p') /\
  extends (proof_mln_0142_execution p) (proof_mln_0142_execution p').
Proof.
  assert (Hkeep : forall x, bindings_match x -> bindings_match x /\ same_receipt x x /\
    extends (proof_build_identity_hash x) (proof_build_identity_hash x) /\
    extends (proof_d1_full_export_execution x) (proof_d1_full_export_execution x) /\
    extends (proof_mln_0143_execution x) (proof_mln_0143_execution x) /\
    extends (proof_mln_0142_execution x) (proof_mln_0142_execution x)) by (intros x Hx; refine (conj Hx (conj eq_refl (conj _ (conj _ (conj _ _))))); eauto).
  intros [hash|b|b|b] (Hb & He & H3 & H2).
  - unfold bind_build_identity_hash, st_bind, st_get, st_throw, st_modify.
    destruct (negb _ || _) eqn:E; [by apply Hkeep|]. split_andb.
    match goal with Hs : is_someb _ = false |- _ => apply is_someb_false in Hs as Hn end.
    split; [|by split_and!; eauto].
    split; [by intros h [= <-]|done].
  - unfold bind_d1_full_export_governed_execution, st_bind, st_get, st_throw, st_modify.
    destruct (d1_full_export_mismatch p b) eqn:E; [by apply Hkeep|].
    unfold d1_full_export_mismatch in E. split_andb. reflect_eqb.
    match goal with Hs : is_someb _ = false |- _ => apply is_someb_false in Hs as Hn end.
    split; [|by split_and!; eauto].
    split; [done|]. split; [|done]. by intros b' [= <-].
  - unfold bind_mln_0143_governed_execution, st_bind, st_get, st_throw, st_modify.
    destruct (mln_0143_mismatch p b) eqn:E; [by apply Hkeep|].
    unfold mln_0143_mismatch in E. split_andb. reflect_eqb.
    match goal with Hs : is_someb _ = false |- _ => apply is_someb_false in Hs as Hn end.
    split; [|by split_and!; eauto].
    split; [done|]. split; [done|]. split; [|done]. intros b' [= <-]. split_and!; try done.
    rewrite <- is_noneb_true, <- eqb_true. by match goal with Hx : eqb _ _ = is_noneb _ |- _ =>
      rewrite Hx end.
  - unfold bind_mln_0142_governed_execution, st_bind, st_get, st_throw, st_modify.
    destruct (mln_0142_mismatch p b) eqn:E; [by apply Hkeep|].
    unfold mln_0142_mismatch in E. split_andb. reflect_eqb.
    match goal with Hs : is_someb _ = false |- _ => apply is_someb_false in Hs as Hn end.
    split; [|by split_and!; eauto].
    split; [done|]. split; [done|]. split; [done|]. by intros b' [= <-].
Qed.

(** ** Properties *)

(** When a live read still counts. A proof reads [Fresh] exactly when it
    succeeded under the current catalog and the current credential
    generation, it is not from the future, and its age is within a positive
    limit that chrono can represent. *)
Theorem freshness_fresh_iff `{ChronoBounded} (p : OperationalProofV1) now catalog_hash max_age generation :
  (0 <= max_age < 2 ^ 64)%Z ->
  freshness p now catalog_hash max_age generation = Some Fresh <->
  proof_current p catalog_hash generation /\
  (0 < max_age <= max_representable_seconds)%Z /\
  (0 <= dt_sub now (proof_observed_at p) <= max_age * 1000000000)%Z.
Proof.
  intros Hrange. unfold freshness, proof_current, saturating_i64,
    max_representable_seconds. rewrite duration_seconds_bounds.
  destruct (proof_credential_generation_id p) as [g|].
  2: { split; [done|]. intros (((g & Hg & _) & _) & _). discriminate Hg. }
  destruct (generation =? Some g) eqn:Eg; reflect_eqb; cbn [negb].
  2: { split; [done|]. intros (((g' & [= <-] & ->) & _) & _). done. }
  destruct (proof_catalog_hash p =? catalog_hash) eqn:Ec; reflect_eqb; cbn [negb].
  2: { split; [done|]. by intros ((_ & ? & _) & _). }
  destruct (proof_outcome p =? OutcomeFailed) eqn:Eo; reflect_eqb.
  { split; [done|]. intros ((_ & _ & ?) & _). congruence. }
  assert (Hcur : (exists g0, Some g = Some g0 /\ generation = Some g0) /\
    proof_catalog_hash p = catalog_hash /\ proof_outcome p = OutcomeSucceeded).
  { split; [by exists g|]. split; [done|]. by destruct (proof_outcome p). }
  destruct (Z.eqb_spec max_age 0) as [->|Hnz]; [split; [done|lia]|].
  destruct (Z.ltb_spec (dt_sub now (proof_observed_at p)) 0); [split; [done|lia]|].
  assert (Hmax : i64_max = 9223372036854775807%Z) by reflexivity.
  assert (Hdiv : (i64_max / 1000)%Z = 9223372036854775%Z) by reflexivity.
  destruct (Z.leb_spec max_age i64_max).
  - destruct (Z.leb_spec (Z.abs max_age) (i64_max / 1000)); [|split; [done|lia]].
    destruct (Z.ltb_spec (max_age * 1000000000) (dt_sub now (proof_observed_at p)));
      (split; [|]); intros; try done; try lia.
    split; [done|]. lia.
  - destruct (Z.leb_spec (Z.abs i64_max) (i64_max / 1000)); [lia|split; [done|lia]].
Qed.

(** The saturation does not protect the call. On a current, successful
    proof that is not from the future, [freshness] panics exactly when the
    limit exceeds what chrono's [Duration::seconds] accepts - the fallback to
    [i64::MAX] included - and on every other input it returns. *)
Theorem freshness_panics_iff `{ChronoBounded} (p : OperationalProofV1) now catalog_hash max_age generation :
  (0 <= max_age < 2 ^ 64)%Z ->
  freshness p now catalog_hash max_age generation = None <->
  proof_current p catalog_hash generation /\
  (0 <= dt_sub now (proof_observed_at p))%Z /\ (max_representable_seconds < max_age)%Z.
Proof.
  intros Hrange. unfold freshness, proof_current, saturating_i64,
    max_representable_seconds. rewrite duration_seconds_bounds.
  assert (Hmax : i64_max = 9223372036854775807%Z) by reflexivity.
  assert (Hdiv : (i64_max / 1000)%Z = 9223372036854775%Z) by reflexivity.
  destruct (proof_credential_generation_id p) as [g|].
  2: { split; [done|]. by intros (((g & [=] & _) & _) & _). }
  destruct (generation =? Some g) eqn:Eg; reflect_eqb; cbn [negb].
  2: { split; [done|]. intros (((g' & [= <-] & ->) & _) & _). done. }
  destruct (proof_catalog_hash p =? catalog_hash) eqn:Ec; reflect_eqb; cbn [negb].
  2: { split; [done|]. by intros ((_ & ? & _) & _). }
  destruct (proof_outcome p =? OutcomeFailed) eqn:Eo; reflect_eqb.
  { split; [done|]. intros ((_ & _ & ?) & _). congruence. }
  assert (Hcur : (exists g0, Some g = Some g0 /\ generation = Some g0) /\
    proof_catalog_hash p = catalog_hash /\ proof_outcome p = OutcomeSucceeded).
  { split; [by exists g|]. split; [done|]. by destruct (proof_outcome p). }
  destruct (Z.eqb_spec max_age 0) as [->|Hnz]; [split; [done|lia]|].
  destruct (Z.ltb_spec (dt_sub now (proof_observed_at p)) 0); [split; [done|lia]|].
  destruct (Z.leb_spec max_age i64_max).
  - destruct (Z.leb_spec (Z.abs max_age) (i64_max / 1000)); [split; [done|lia]|].
    split; [|done]. intros _. split; [done|lia].
  - destruct (Z.leb_spec (Z.abs i64_max) (i64_max / 1000)); [lia|].
    split; [|done]. intros _. split; [done|lia].
Qed.

(** Execution bindings are write-once and honest. Over any sequence of
    binding calls on a new proof, the receipt itself never changes, a binding
    that is set is never replaced, and every binding names the evidence,
    catalog, input, credential and capability of the succeeded proof it is
    attached to. *)
Theorem bindings_write_once observed capability catalog input scope outcome evidence p q :
  rtc proof_step (proof_new observed capability catalog input scope outcome evidence) p ->
  rtc proof_step p q ->
  bindings_match q /\ same_receipt p q /\
  extends (proof_build_identity_hash p) (proof_build_identity_hash q) /\
  extends (proof_d1_full_export_execution p) (proof_d1_full_export_execution q) /\
  extends (proof_mln_0143_execution p) (proof_mln_0143_execution q) /\
  extends (proof_mln_0142_execution p) (proof_mln_0142_execution q).
Proof.
  intros H0 H1. assert (Hp : bindings_match p).
  { refine (rtc_ind_r bindings_match _ _ _ p H0); [by split_and!|].
    intros y z _ Hs Hy. by apply (proof_step_inv y z Hs). }
  clear H0. revert Hp. induction H1 as [x|x y z Hs _ IH]; intros Hx; [by split_and!|].
  destruct (proof_step_inv x y Hs Hx) as (Hy & Hr & E1 & E2 & E3 & E4).
  destruct (IH Hy) as (Hz & Hr' & F1 & F2 & F3 & F4).
  split; [done|]. split; [unfold same_receipt in *; congruence|].
  split_and!; intros a Ha; auto.
Qed.

(** ** Witnesses *)

#[local] Instance demo_chrono : Chrono := fun seconds =>
  if (Z.abs seconds <=? i64_max / 1000)%Z then Some (seconds * 1000000000)%Z else None.
#[local] Instance demo_chrono_bounded : ChronoBounded.
Proof. done. Qed.

Definition sample_proof : OperationalProofV1 :=
  proof_new (at_s 0) "zones.list" "cat" "in"
    (mkOperationalProofScopeV1 None None (Some "gen"%string)) OutcomeSucceeded
    (evidence_new (clock_at 0) LiveRead "sha256:x" "p").

Lemma freshness_fresh_iff_witness :
  freshness sample_proof (at_s 30) "cat" 60 (Some "gen"%string) = Some Fresh.
Proof.
  apply (freshness_fresh_iff sample_proof (at_s 30) "cat" 60 (Some "gen"%string)); [lia|].
  split; [|vm_compute; split; [split|split]; congruence].
  split; [by exists "gen"%string|]. by split.
Defined.

Lemma freshness_panics_iff_witness :
  freshness sample_proof (at_s 30) "cat" (2 ^ 63) (Some "gen"%string) = None.
Proof.
  apply (freshness_panics_iff sample_proof (at_s 30) "cat" (2 ^ 63) (Some "gen"%string)); [lia|].
  split; [|vm_compute; split; congruence].
  split; [by exists "gen"%string|]. by split.
Defined.

Lemma bindings_write_once_witness :
  let hash := ("sha256:" ++ digest_hex "build")%string in
  let bound := (bind_build_identity_hash hash sample_proof).2 in
  proof_build_identity_hash (bind_build_identity_hash ("sha256:" ++ digest_hex "x") bound).2
    = Some hash.
Proof.
  intros hash bound.
  apply (bindings_write_once (at_s 0) "zones.list" "cat" "in"
    (mkOperationalProofScopeV1 None None (Some "gen"%string)) OutcomeSucceeded
    (evidence_new (clock_at 0) LiveRead "sha256:x" "p") bound).
  - apply rtc_once. exact (proof_step_build sample_proof hash).
  - apply rtc_once. exact (proof_step_build bound ("sha256:" ++ digest_hex "x")%string).
  - vm_compute. reflexivity.
Defined.
