(* ===== verification/Registry.v ===== *)
(** The registry and event types of crates/cfctl-core/src/lib.rs: scope and
    resource identities with their storage keys, redacted observations and
    desired state, event receipts and reconciliation jobs. *)

From Stdlib Require Import String Ascii ZArith Lia List Bool.
From stdpp Require Import base option list strings.
From S2P Require Import Prelude Strings Btree Json Redaction Core Demo Proofs.

Open Scope cf_scope.

(** ** Identities *)

Inductive ScopeKindV1 : Type :=
| ScopeOrganization
| ScopeAccount
| ScopeZone
| ScopeResource.
#[export] Instance ScopeKindV1_eq_dec : EqDecision ScopeKindV1.
Proof. solve_decision. Defined.

Definition scope_kind_as_str (k : ScopeKindV1) : string :=
  match k with
  | ScopeOrganization => "organization"
  | ScopeAccount => "account"
  | ScopeZone => "zone"
  | ScopeResource => "resource"
  end%string.

#[warnings="-register-all"]
Inductive ScopeRefV1 : Type := mkScopeRefV1 {
  scope_schema_version : Z;
  scope_kind : ScopeKindV1;
  scope_id : string;
  scope_parent : option ScopeRefV1;
}.
#[export] Instance ScopeRefV1_eq_dec : EqDecision ScopeRefV1.
Proof.
  refine (fix go (a b : ScopeRefV1) : Decision (a = b) :=
    match a, b with
    | mkScopeRefV1 v k i p, mkScopeRefV1 w l j q =>
        cast_if_and4 (decide (v = w)) (decide (k = l)) (decide (i = j))
          (match p, q return Decision (p = q) with
           | None, None => left eq_refl
           | Some x, Some y => cast_if (go x y)
           | _, _ => right _
           end)
    end); clear go; abstract congruence.
Defined.

Definition scope_new (kind : ScopeKindV1) (id : string) (parent : option ScopeRefV1) : ScopeRefV1 :=
  mkScopeRefV1 1 kind id parent.

Fixpoint scope_key (s : ScopeRefV1) : string :=
  match scope_parent s with
  | None => scope_kind_as_str (scope_kind s) ++ ":" ++ scope_id s
  | Some parent =>
      scope_key parent ++ "/" ++ scope_kind_as_str (scope_kind s) ++ ":" ++ scope_id s
  end%string.

Record ResourceRefV1 : Type := mkResourceRefV1 {
  resource_schema_version : Z;
  resource_scope : ScopeRefV1;
  resource_kind : string;
  resource_id : string;
}.
#[export] Instance ResourceRefV1_eq_dec : EqDecision ResourceRefV1.
Proof. solve_decision. Defined.

Definition resource_new (scope : ScopeRefV1) (kind id : string) : ResourceRefV1 :=
  mkResourceRefV1 1 scope kind id.

Definition resource_key (r : ResourceRefV1) : string :=
  (scope_key (resource_scope r) ++ "/" ++ resource_kind r ++ ":" ++ resource_id r)%string.

(** ** Observations and desired state *)

Inductive RegistryObservationStatusV1 : Type :=
| ObservationCurrent
| ObservationStale
| ObservationPartial
| ObservationPermissionDenied
| ObservationTombstone
| ObservationUnknownSchema.

Record RegistryObservationV1 : Type := mkRegistryObservationV1 {
  obs_schema_version : Z;
  obs_resource : ResourceRefV1;
  obs_observed_at : DateTime;
  obs_fresh_until : DateTime;
  obs_catalog_hash : string;
  obs_capability_id : string;
  obs_state_hash : string;
  obs_state : Value;
  obs_status : RegistryObservationStatusV1;
  obs_evidence : EvidenceV1;
}.

Record DesiredResourceV1 : Type := mkDesiredResourceV1 {
  desired_schema_version : Z;
  desired_resource : ResourceRefV1;
  desired_manifest_hash : string;
  desired_manifest : Value;
  desired_owner : string;
  desired_deploy_lane : string;
  desired_verifier : string;
  desired_allowed_change_path : string;
  desired_source_path : string;
}.

Section Observations.
Context `{Runtime}.

Definition observation_new (resource : ResourceRefV1) (observed_at fresh_until : DateTime)
    (catalog_hash capability_id : string) (state : Value)
    (status : RegistryObservationStatusV1) (evidence : EvidenceV1)
    : Result RegistryObservationV1 :=
  let state := redact_json state in
  let? state_hash := canonical_hash_value state in
  Ok {| obs_schema_version := 1;
        obs_resource := resource;
        obs_observed_at := observed_at;
        obs_fresh_until := fresh_until;
        obs_catalog_hash := catalog_hash;
        obs_capability_id := capability_id;
        obs_state_hash := state_hash;
        obs_state := state;
        obs_status := status;
        obs_evidence := evidence |}.

Definition desired_new (resource : ResourceRefV1) (manifest : Value)
    (owner deploy_lane verifier allowed_change_path source_path : string)
    : Result DesiredResourceV1 :=
  let manifest := redact_json manifest in
  let? manifest_hash := canonical_hash_value manifest in
  Ok {| desired_schema_version := 1;
        desired_resource := resource;
        desired_manifest_hash := manifest_hash;
        desired_manifest := manifest;
        desired_owner := owner;
        desired_deploy_lane := deploy_lane;
        desired_verifier := verifier;
        desired_allowed_change_path := allowed_change_path;
        desired_source_path := source_path |}.
End Observations.

(** ** Event receipts *)

Record EventUpstreamIdentityV1 : Type := mkEventUpstreamIdentityV1 {
  upstream_provider : string;
  upstream_source : string;
  upstream_event_type : string;
  upstream_event_id : string;
  upstream_queue_id : option string;
  upstream_subscription_id : option string;
}.

Inductive EventSignatureStatusV1 : Type :=
| SignatureVerified
| SignatureProviderOriginated
| SignatureNotRequired
| SignatureInvalid
| SignatureUnknown.

Record EventEnvelopeV1 : Type := mkEventEnvelopeV1 {
  event_schema_version : Z;
  event_upstream : EventUpstreamIdentityV1;
  event_upstream_schema_version : Z;
  event_occurred_at : DateTime;
  event_received_at : DateTime;
  event_scope : option ScopeRefV1;
  event_dedupe_key : string;
  event_signature_status : EventSignatureStatusV1;
  event_operation_id : option string;
  event_authority_id : option string;
  event_cursor : option string;
  event_resource_refs : list ResourceRefV1;
  event_payload_hash : string;
  event_payload : Value;
  event_evidence : EvidenceV1;
}.

Section Events.
Context `{Runtime}.
Open Scope string_scope.
Open Scope cf_scope.

Definition required_identity (e : EventEnvelopeV1) : list string :=
  let u := event_upstream e in
  [upstream_provider u; upstream_source u; upstream_event_type u; upstream_event_id u].

Definition event_validate (self : EventEnvelopeV1) : Result unit :=
  guard ((event_schema_version self <>? 1%Z)
         || (event_upstream_schema_version self =? 0%Z)
         || trim_is_empty (event_dedupe_key self)
         || existsb trim_is_empty (required_identity self))
    (InvalidEventEnvelope
      "event version, provider identity, schema version, and dedupe key must be explicit") (
  guard (evidence_class (event_evidence self) <>? EventReceipt)
    (InvalidEventEnvelope "event evidence must use the event_receipt evidence class") (
  let? actual_payload_hash := canonical_hash_value (redact_json (event_payload self)) in
  guard (actual_payload_hash <>? event_payload_hash self)
    (InvalidEventEnvelope "event payload no longer matches its hash") (
  guard (existsb (fun resource =>
           is_some_and (event_scope self) (fun scope => resource_scope resource <>? scope))
         (event_resource_refs self))
    (InvalidEventEnvelope "event resource references must remain inside the declared scope") (
  Ok tt)))).

Definition event_new (upstream : EventUpstreamIdentityV1) (upstream_schema_version : Z)
    (occurred_at received_at : DateTime) (scope : option ScopeRefV1) (dedupe_key : string)
    (signature_status : EventSignatureStatusV1) (operation_id cursor : option string)
    (resource_refs : list ResourceRefV1) (payload : Value) (evidence : EvidenceV1)
    : Result EventEnvelopeV1 :=
  let payload := redact_json payload in
  let? payload_hash := canonical_hash_value payload in
  let envelope :=
    {| event_schema_version := 1;
       event_upstream := upstream;
       event_upstream_schema_version := upstream_schema_version;
       event_occurred_at := occurred_at;
       event_received_at := received_at;
       event_scope := scope;
       event_dedupe_key := dedupe_key;
       event_signature_status := signature_status;
       event_operation_id := operation_id;
       event_authority_id := None;
       event_cursor := cursor;
       event_resource_refs := resource_refs;
       event_payload_hash := payload_hash;
       event_payload := payload;
       event_evidence := evidence |} in
  let? _ := event_validate envelope in
  Ok envelope.
End Events.

(** ** Reconciliation jobs *)

Inductive ReconciliationJobStatusV1 : Type :=
| JobQueued
| JobRunning
| JobSucceeded
| JobFailed
| JobBlockedUnknownSchema
| JobBlockedInvalidSignature.

Record ReconciliationJobV1 : Type := mkReconciliationJobV1 {
  job_schema_version : Z;
  job_id : string;
  job_event_dedupe_key : option string;
  job_resource : ResourceRefV1;
  job_status : ReconciliationJobStatusV1;
  job_enqueued_at : DateTime;
  job_updated_at : DateTime;
  job_attempts : Z;
  job_error : option string;
}.

(** The clock is read once; the id is a fresh v4 UUID. *)
Definition job_queued (clk : Clock) (id : string) (resource : ResourceRefV1)
    (event_dedupe_key : option string) : ReconciliationJobV1 :=
  {| job_schema_version := 1;
     job_id := id;
     job_event_dedupe_key := event_dedupe_key;
     job_resource := resource;
     job_status := JobQueued;
     job_enqueued_at := clk 0;
     job_updated_at := clk 0;
     job_attempts := 0;
     job_error := None |}.

(** ** Specification *)

(** [c] does not occur in [s]. *)
Definition free_of (c : ascii) (s : string) : bool := bytes_all (fun a => a <>? c) s.

Definition slash : ascii := "/"%char.
Definition colon : ascii := ":"%char.

(** Identities of the current schema version whose ids do not contain the
    separator of the keys. *)
Fixpoint scope_plain (s : ScopeRefV1) : bool :=
  (scope_schema_version s =? 1%Z) && free_of slash (scope_id s) &&
  match scope_parent s with None => true | Some parent => scope_plain parent end.

Definition resource_plain (r : ResourceRefV1) : bool :=
  (resource_schema_version r =? 1%Z) && scope_plain (resource_scope r) &&
  free_of slash (resource_kind r) && free_of colon (resource_kind r) &&
  free_of slash (resource_id r).

(** The receipt an event gives rise to. *)
Definition receipt_ok (e : EventEnvelopeV1) : Prop :=
  event_schema_version e = 1%Z /\ event_upstream_schema_version e <> 0%Z /\
  trim_is_empty (event_dedupe_key e) = false /\
  Forall (fun s => trim_is_empty s = false) (required_identity e) /\
  evidence_class (event_evidence e) = EventReceipt /\
  Forall (fun r => forall scope, event_scope e = Some scope -> resource_scope r = scope)
    (event_resource_refs e).

(** ** Keys *)

Lemma free_app c a b : free_of c (a ++ b) = free_of c a && free_of c b.
Proof.
  unfold free_of. induction a as [|x a IH]; [done|]. change (String x a ++ b)%string with (String x (a ++ b)).
  cbn. by rewrite IH, andb_assoc.
Qed.

Lemma free_sep c b : free_of c (String c b) = false.
Proof. cbn. by rewrite eqb_refl. Qed.

Lemma split_first c a b a' b' :
  free_of c a = true -> free_of c a' = true ->
  (a ++ String c b = a' ++ String c b')%string -> a = a' /\ b = b'.
Proof.
  revert a'; induction a as [|x a IH]; intros [|x' a'] Ha Ha' E.
  - by injection E.
  - injection E as -> _. by rewrite free_sep in Ha'.
  - injection E as -> _. by rewrite free_sep in Ha.
  - injection E as -> E. cbn in Ha, Ha'. split_andb. destruct (IH a') as [-> ->]; done.
Qed.

Lemma split_last c a b a' b' :
  free_of c b = true -> free_of c b' = true ->
  (a ++ String c b = a' ++ String c b')%string -> a = a' /\ b = b'.
Proof.
  revert a'; induction a as [|x a IH]; intros [|x' a'] Hb Hb' E.
  - by injection E.
  - injection E as -> ->. by rewrite free_app, free_sep, andb_false_r in Hb.
  - injection E as -> <-. by rewrite free_app, free_sep, andb_false_r in Hb'.
  - injection E as -> E. destruct (IH a') as [-> ->]; done.
Qed.

Lemma scope_kind_plain k :
  free_of slash (scope_kind_as_str k) = true /\ free_of colon (scope_kind_as_str k) = true.
Proof. by destruct k. Qed.

Lemma scope_kind_inj k l : scope_kind_as_str k = scope_kind_as_str l -> k = l.
Proof. by destruct k, l. Qed.

(** One segment of a key. *)
Lemma segment_free k i :
  free_of slash k = true -> free_of slash i = true ->
  free_of slash (k ++ ":" ++ i) = true.
Proof. intros Hk Hi. rewrite free_app, Hk. cbn. exact Hi. Qed.

Lemma scope_segment_free k i :
  free_of slash i = true -> free_of slash (scope_kind_as_str k ++ ":" ++ i) = true.
Proof. apply segment_free, scope_kind_plain. Qed.

Lemma scope_segment_inj k i l j :
  (scope_kind_as_str k ++ ":" ++ i = scope_kind_as_str l ++ ":" ++ j)%string ->
  k = l /\ i = j.
Proof.
  intros E. apply split_first in E as [Ek ->]; [|apply scope_kind_plain..].
  split; [by apply scope_kind_inj|done].
Qed.

Fixpoint scope_key_inj (s t : ScopeRefV1) {struct s} :
  scope_plain s = true -> scope_plain t = true -> scope_key s = scope_key t -> s = t.
Proof.
  destruct s as [v k i [p|]], t as [w l j [q|]]; cbn; intros Hs Ht E; split_andb; reflect_eqb; subst.
  - apply split_last in E as [Ep E]; [|by apply scope_segment_free..].
    apply scope_segment_inj in E as [-> ->]. by rewrite (scope_key_inj p q).
  - exfalso.
    assert (Hf : free_of slash (scope_kind_as_str l ++ ":" ++ j) = true) by by apply scope_segment_free.
    rewrite <- E, free_app in Hf.
    cbn in Hf. by rewrite andb_false_r in Hf.
  - exfalso.
    assert (Hf : free_of slash (scope_kind_as_str k ++ ":" ++ i) = true) by by apply scope_segment_free.
    rewrite E, free_app in Hf.
    cbn in Hf. by rewrite andb_false_r in Hf.
  - by apply scope_segment_inj in E as [-> ->].
Qed.

(** Without the separator restriction two resources can share a key. *)
Lemma resource_key_collides :
  let account := scope_new ScopeAccount "a" None in
  let zone := scope_new ScopeZone "z" (Some account) in
  resource_new zone "dns" "r" <> resource_new account "zone" "z/dns:r" /\
  resource_key (resource_new zone "dns" "r")
    = resource_key (resource_new account "zone" "z/dns:r").
Proof. by split. Qed.

(** ** Properties *)

(** Storage keys identify resources. Two resources of the current schema
    version whose ids hold no slash and whose kinds hold no separator have the
    same key only when they are the same resource in the same scope chain. *)
Theorem resource_key_injective (r s : ResourceRefV1) :
  resource_plain r = true -> resource_plain s = true ->
  resource_key r = resource_key s -> r = s.
Proof.
  destruct r as [v p k i], s as [w q l j]. cbn. intros Hr Hs E.
  unfold resource_plain, resource_key in *. cbn in *. split_andb. reflect_eqb. subst.
  apply split_last in E as [Ep E]; [|by apply segment_free..].
  apply split_first in E as [-> ->]; [|done..]. by rewrite (scope_key_inj p q).
Qed.

Section Properties.
Context `{Runtime}.

(** Redacted values are in canonical form, so their canonical hash binds them. *)
Lemma redacted_hash_binds v w h :
  canonical_hash_value (redact_json v) = Ok h -> canonical_hash_value (redact_json w) = Ok h ->
  redact_json v = redact_json w \/ collision.
Proof.
  unfold canonical_hash_value. rewrite !(canonical_id (redact_json _)) by apply redact_wf.
  apply hash_value_same.
Qed.

Lemma event_validate_ok e :
  event_validate e = Ok tt <->
  receipt_ok e /\ canonical_hash_value (redact_json (event_payload e)) = Ok (event_payload_hash e).
Proof.
  unfold event_validate, receipt_ok. rewrite !guard_ok, !orb_false_iff, neqb_false, eqb_false.
  rewrite neqb_false, res_bind_ok.
  assert (Hrefs : Forall (fun r => is_some_and (event_scope e)
                    (fun scope => resource_scope r <>? scope) = false) (event_resource_refs e) <->
                  Forall (fun r => forall scope, event_scope e = Some scope ->
                    resource_scope r = scope) (event_resource_refs e)).
  { apply Forall_proper; [|done]. intros r. destruct (event_scope e) as [scope|]; cbn; [|done].
    rewrite neqb_false. split; [by intros ? ? [= <-]|by auto]. }
  setoid_rewrite guard_ok. setoid_rewrite guard_unit_ok. setoid_rewrite existsb_Forall.
  setoid_rewrite Hrefs. setoid_rewrite neqb_false. naive_solver.
Qed.

(** Event receipts are redacted and well formed. [event_new] succeeds
    exactly on an explicit identity with event-receipt evidence and resources
    inside the declared scope; the receipt then holds the redacted payload,
    with no secret in it, validates, and does not depend on what was hidden. *)
Theorem event_new_iff upstream version occurred received scope dedupe sig operation cursor
    refs payload evidence (e : EventEnvelopeV1) :
  let new p := event_new upstream version occurred received scope dedupe sig operation
                 cursor refs p evidence in
  (new payload = Ok e <->
     receipt_ok e /\
     canonical_hash_value (event_payload e) = Ok (event_payload_hash e) /\
     e = mkEventEnvelopeV1 1 upstream version occurred received scope dedupe sig operation None
           cursor refs (event_payload_hash e) (redact_json payload) evidence) /\
  (new payload = Ok e ->
     secret_free (event_payload e) = true /\ event_validate e = Ok tt /\
     forall p, redact_json p = redact_json payload -> new p = Ok e).
Proof.
  intros new.
  assert (Hiff : new payload = Ok e <->
     receipt_ok e /\
     canonical_hash_value (event_payload e) = Ok (event_payload_hash e) /\
     e = mkEventEnvelopeV1 1 upstream version occurred received scope dedupe sig operation None
           cursor refs (event_payload_hash e) (redact_json payload) evidence).
  { unfold new, event_new. rewrite res_bind_ok. split.
    - intros (h & Hh & Hb). apply res_bind_unit_ok in Hb as [Hv [= <-]].
      apply event_validate_ok in Hv as [Hr _]. by split_and!.
    - intros (Hr & Hh & He). rewrite He in Hh. cbn in Hh. eexists; split; [exact Hh|].
      rewrite res_bind_unit_ok. rewrite <- He. split; [|done].
      apply event_validate_ok. split; [done|]. rewrite He. cbn.
      by rewrite (secret_free_fixpoint _ (redact_wf _) (redact_secret_free _)). }
  split; [exact Hiff|]. intros Hn. pose proof (proj1 Hiff Hn) as (Hr & Hh & He).
  assert (Hp : event_payload e = redact_json payload) by (by rewrite He).
  split; [rewrite Hp; apply redact_secret_free|]. split.
  - apply event_validate_ok. split; [done|]. rewrite Hp.
    rewrite (secret_free_fixpoint _ (redact_wf _) (redact_secret_free _)). by rewrite <- Hp.
  - intros p Hsame. unfold new, event_new in *. by rewrite Hsame.
Qed.

(** Stored state is redacted and bound by its hash. Observations, desired
    resources and event receipts built from any state hold no secret; two of
    the same kind with the same hash hold the same state, or SHA-256
    collides. *)
Theorem stored_state_binds :
  (forall r a b c i v st ev o, observation_new r a b c i v st ev = Ok o ->
     secret_free (obs_state o) = true /\ obs_state o = redact_json v /\
     forall r' a' b' c' i' v' st' ev' o',
       observation_new r' a' b' c' i' v' st' ev' = Ok o' ->
       obs_state_hash o = obs_state_hash o' -> obs_state o = obs_state o' \/ collision) /\
  (forall r m a b c d p o, desired_new r m a b c d p = Ok o ->
     secret_free (desired_manifest o) = true /\ desired_manifest o = redact_json m /\
     forall r' m' a' b' c' d' p' o',
       desired_new r' m' a' b' c' d' p' = Ok o' ->
       desired_manifest_hash o = desired_manifest_hash o' ->
       desired_manifest o = desired_manifest o' \/ collision) /\
  (forall e e', event_validate e = Ok tt -> event_validate e' = Ok tt ->
     event_payload_hash e = event_payload_hash e' ->
     redact_json (event_payload e) = redact_json (event_payload e') \/ collision).
Proof.
  split_and!.
  - intros * (h & Hh & [= <-])%res_bind_ok. split; [apply redact_secret_free|]. split; [done|].
    intros * (h' & Hh' & [= <-])%res_bind_ok. cbn. intros ->. eapply redacted_hash_binds; eassumption.
  - intros * (h & Hh & [= <-])%res_bind_ok. split; [apply redact_secret_free|]. split; [done|].
    intros * (h' & Hh' & [= <-])%res_bind_ok. cbn. intros ->. eapply redacted_hash_binds; eassumption.
  - intros * [_ Hh]%event_validate_ok [_ Hh']%event_validate_ok E. rewrite E in Hh.
    eapply redacted_hash_binds; eassumption.
Qed.
End Properties.

(** ** Witnesses *)

Definition sample_zone : ScopeRefV1 :=
  scope_new ScopeZone "z" (Some (scope_new ScopeAccount "a" None)).

Lemma resource_key_injective_witness :
  resource_key (resource_new sample_zone "dns_record" "r1") =
    "account:a/zone:z/dns_record:r1"%string /\
  resource_new sample_zone "dns_record" "r1" = resource_new sample_zone "dns_record" ("r" ++ "1").
Proof.
  split; [reflexivity|].
  apply (resource_key_injective (resource_new sample_zone "dns_record" "r1")
           (resource_new sample_zone "dns_record" ("r" ++ "1"))); reflexivity.
Defined.

Definition sample_upstream : EventUpstreamIdentityV1 :=
  mkEventUpstreamIdentityV1 "cloudflare" "queues" "zone.updated" "e1" None None.
Definition sample_payload (token : string) : Value :=
  VObject [("api_token", VString token); ("name", VString "n")]%string.
Definition sample_new (token : string) : Result EventEnvelopeV1 :=
  event_new sample_upstream 1 (at_s 0) (at_s 1) (Some sample_zone) "k" SignatureVerified None None
    [resource_new sample_zone "dns_record" "r1"] (sample_payload token)
    (evidence_new (clock_at 1) EventReceipt "sha256:x" "p").
Definition sample_event : EventEnvelopeV1 :=
  default (mkEventEnvelopeV1 0 sample_upstream 0 (at_s 0) (at_s 0) None "" SignatureInvalid None None
            None [] "" VNull (evidence_new (clock_at 0) Release "" "")) (ok_opt (sample_new "s3cret")).

(** Another secret gives the same receipt. *)
Lemma event_new_iff_witness : sample_new "other" = Ok sample_event.
Proof.
  assert (Hn : sample_new "s3cret" = Ok sample_event) by (vm_compute; reflexivity).
  destruct (event_new_iff sample_upstream 1 (at_s 0) (at_s 1) (Some sample_zone) "k"
    SignatureVerified None None [resource_new sample_zone "dns_record" "r1"]
    (sample_payload "s3cret") (evidence_new (clock_at 1) EventReceipt "sha256:x" "p") sample_event)
    as [_ Hsame].
  destruct (Hsame Hn) as (_ & _ & Hother). apply (Hother (sample_payload "other")).
  vm_compute. reflexivity.
Defined.

Lemma stored_state_binds_witness :
  redact_json (event_payload sample_event) = redact_json (event_payload sample_event) \/ collision.
Proof.
  assert (Hv : event_validate sample_event = Ok tt) by (vm_compute; reflexivity).
  destruct stored_state_binds as (_ & _ & Hevent).
  exact (Hevent sample_event sample_event Hv Hv eq_refl).
Defined.
