(* ===== verification/Transition.v ===== *)
(** Workspace D1 transitions: the transition schedule and its completed
    prefix (crates/cfctl-core/src/workspace_d1/transition.rs), the identity a
    proof is bound to (transition/proofs.rs) and the native verification
    contract (transition/application.rs). *)

From Stdlib Require Import String Ascii ZArith Lia List Bool.
From stdpp Require Import base option list strings gmap.
From S2P Require Import Prelude Strings Btree Json JsonOps Core CatalogTypes WorkspaceTypes.
From S2P Require Import Capability.

Open Scope cf_scope.
Open Scope string_scope.
Open Scope cf_scope.

Definition MAX_HISTORY : nat := 256.
Definition MAX_ENVELOPE_BYTES : Z := (1024 * 1024)%Z.
Definition COMPILER_ID : string := "workspace-d1-envelope-v3.4".
Definition EXECUTION_COMPILER_ID : string := "workspace-d1-execution-v1".

(** The [&'static str] errors of these modules. *)
Abbreviation Checked := (result string).

(** [lower_hex(value, length)] *)
Definition lower_hex_of (value : string) (length : nat) : bool :=
  (String.length value =? length) && bytes_all (fun b => is_ascii_digit b || in_range 97 102 b) value.

Definition canonical_digest (value : string) : bool :=
  is_some_and (strip_prefix "sha256:" value) (fun v => lower_hex_of v 64).

(** ** The schedule *)

(** [set.len() == list.len()] after collecting [list] into [set]. *)
Definition distinct `{Countable A} (l : list A) : bool :=
  size (list_to_set l : gset A) =? length l.

Section Schedule.
Implicit Types (step : TransitionStep) (before pending : gset Z).

Definition deferred_gaps pending before step : gset Z :=
  filter (fun s => (s < tst_sequence step)%Z /\ s ∉ before) pending.

Definition step_ready pending before step : bool :=
  let required := tst_required_completed_transition_sequences step in
  let deferred := tst_deferred_sequences step in
  distinct required && bool_decide (list_to_set required ⊆ before)
  && distinct deferred
  && bool_decide ((list_to_set deferred : gset Z) = deferred_gaps pending before step).

(** The loop over the schedule: [post_started] and [before] are its state. *)
Fixpoint validate_steps pending (post_started : bool) before (schedule : list TransitionStep)
    : Checked unit :=
  match schedule with
  | [] => Ok tt
  | step :: schedule =>
      guard (post_started && (tst_phase step =? TransitionPhase_PreDeploy))
        "pre-deploy transition follows post-deploy phase" (
      guard (negb (step_ready pending before step))
        "prerequisites or exact deferred gaps do not match the schedule prefix" (
      validate_steps pending (post_started || (tst_phase step =? TransitionPhase_PostDeploy))
        ({[tst_sequence step]} ∪ before) schedule))
  end.

Definition validate_schedule (schedule : list TransitionStep) (pending : list Z) : Checked unit :=
  guard (is_nil pending || (MAX_HISTORY <? length pending)%nat
         || negb (length schedule =? length pending))
    "transition schedule has an invalid bound or does not cover pending source identities" (
  let pending_set : gset Z := list_to_set pending in
  let scheduled : gset Z := list_to_set (map tst_sequence schedule) in
  guard (negb (size pending_set =? length pending) || bool_decide (scheduled <> pending_set)
         || negb (size scheduled =? length schedule))
    "transition schedule duplicates or omits pending source identities" (
  validate_steps pending_set false ∅ schedule)).
End Schedule.

(** [schedule.iter().position(|step| step.sequence == sequence)] *)
Fixpoint position_of (sequence : Z) (schedule : list TransitionStep) : option nat :=
  match schedule with
  | [] => None
  | step :: schedule =>
      if (tst_sequence step =? sequence)%Z then Some O
      else option_map S (position_of sequence schedule)
  end.

Definition target_sequence (self : TransitionCompiled) : Z :=
  tt_sequence (td_target (tc_declaration self)).

(** [Compiled::step] *)
Definition compiled_step (self : TransitionCompiled) : Checked TransitionStep :=
  ok_or "target is absent from transition schedule"
    (find (fun step => tst_sequence step =? target_sequence self)%Z
       (td_transition_schedule (tc_declaration self))).

(** [Compiled::validate_completed] *)
Definition validate_completed (self : TransitionCompiled) (completed : list Z) : Checked unit :=
  let schedule := td_transition_schedule (tc_declaration self) in
  let? position := ok_or "target is absent from transition schedule"
                     (position_of (target_sequence self) schedule) in
  let prefix := map tst_sequence (take position schedule) in
  guard (prefix <>? completed) "completed transitions are not the exact schedule prefix" (Ok tt).

(** ** Identity *)

Record Identity : Type := mkIdentity {
  id_repository_head : string;
  id_operation_pack_sha256 : string;
  id_declaration_sha256 : string;
  id_source_envelope_sha256 : string;
  id_execution_sha256 : string;
  id_account_id : string;
  id_database_id : string;
  id_target_sequence : Z;
  id_migration_sha256 : string;
}.
#[export] Instance Identity_eq_dec : EqDecision Identity.
Proof. solve_decision. Defined.
#[export] Instance ser_Identity : Serialize Identity := fun c => struct_value [
  field "repository_head" (id_repository_head c);
  field "operation_pack_sha256" (id_operation_pack_sha256 c);
  field "declaration_sha256" (id_declaration_sha256 c);
  field "source_envelope_sha256" (id_source_envelope_sha256 c);
  field "execution_sha256" (id_execution_sha256 c);
  field "account_id" (id_account_id c);
  field "database_id" (id_database_id c);
  field "target_sequence" (id_target_sequence c);
  field "migration_sha256" (id_migration_sha256 c)].
#[export] Program Instance inj_Identity : SerializeInj Identity := {| ser_ok _ := True |}.
Next Obligation. struct_inj. Qed.
#[export] Instance total_Identity : SerializeTotal Identity.
Proof. done. Qed.

Section Identity.
Context `{Runtime}.

(** [Identity::new] *)
Definition identity_new (head pack : string) (compiled : TransitionCompiled) : Result Identity :=
  let? declaration := json_value (tc_declaration compiled) in
  let? declaration_sha256 := hash_value declaration in
  let d := tc_declaration compiled in
  Ok {| id_repository_head := head;
        id_operation_pack_sha256 := pack;
        id_declaration_sha256 := declaration_sha256;
        id_source_envelope_sha256 := tc_envelope_sha256 compiled;
        id_execution_sha256 := tem_execution_sha256 (tc_execution compiled);
        id_account_id := td_account_id d;
        id_database_id := td_database_id d;
        id_target_sequence := tt_sequence (td_target d);
        id_migration_sha256 := ts_sha256 (tt_source (td_target d)) |}.

Definition identity_from_contract (contract : WorkspaceD1MigrationContractV1) : Result Identity :=
  let? compiled := ok_or (InvalidOperationalProofBinding "V3 transition is missing")
                     (wdm_transition contract) in
  identity_new (wdm_repository_head contract) (wdm_operation_pack_sha256 contract) compiled.

Definition identity_validate (self : Identity) : Checked unit :=
  guard (negb (lower_hex_of (id_repository_head self) 40)
         || negb (lower_hex_of (id_account_id self) 32)
         || is_noneb (uuid_hyphenated (id_database_id self))
         || (id_target_sequence self =? 0)%Z
         || existsb (fun hash => negb (canonical_digest hash))
              [id_operation_pack_sha256 self; id_declaration_sha256 self;
               id_source_envelope_sha256 self; id_execution_sha256 self;
               id_migration_sha256 self])
    "transition identity is not canonical" (Ok tt).

(** [application::contract_supported] *)
Definition transition_contract_supported (self : CapabilityV1) : bool :=
  (cap_authority_scope self =? Some CapabilityAuthorityScope_WorkspaceOwned)
  && (cap_adapter_status self =? AdapterStatus_Native)
  && (cap_path self =? "workspace:d1-transition-envelope-v3")
  && (cap_method self =? "POST")
  && cap_mutating self
  && (cap_risk self =? RiskClass_Irreversible)
  && (cap_effect self =? EffectClass_DataWrite)
  && is_some_and (cap_workspace_d1_migration self) (fun contract =>
       match identity_from_contract contract with
       | Ok identity => is_ok (identity_validate identity)
       | Err _ => false
       end
       && is_some_and (wdm_transition contract) (fun compiled =>
            (tc_compiler_id compiled =? COMPILER_ID)
            && (tem_compiler_id (tc_execution compiled) =? EXECUTION_COMPILER_ID)
            && (tem_execution_length (tc_execution compiled) <=? MAX_ENVELOPE_BYTES)%Z
            && is_someb (td_assurance (tc_declaration compiled))
            && is_someb (td_observations (tc_declaration compiled)))).
End Identity.

(** ** Specification of the schedule *)

(** The sequences scheduled before position [i]. *)
Definition completed_before (schedule : list TransitionStep) (i : nat) : list Z :=
  map tst_sequence (take i schedule).

(** Prerequisites lie in the prefix, and the deferred list is exactly the
    pending work that the step overtakes. *)
Definition step_in_order (schedule : list TransitionStep) (pending : list Z) (i : nat)
    (step : TransitionStep) : Prop :=
  NoDup (tst_required_completed_transition_sequences step) /\
  (forall s, s ∈ tst_required_completed_transition_sequences step ->
     s ∈ completed_before schedule i) /\
  NoDup (tst_deferred_sequences step) /\
  (forall s, s ∈ tst_deferred_sequences step <->
     (s ∈ pending) /\ (s < tst_sequence step)%Z /\ (s ∉ completed_before schedule i)).

Definition phases_in_order (schedule : list TransitionStep) : Prop :=
  forall i j a b, schedule !! i = Some a -> schedule !! j = Some b -> (i < j)%nat ->
    tst_phase a = TransitionPhase_PostDeploy -> tst_phase b = TransitionPhase_PostDeploy.

(** ** Facts *)

Lemma size_list_to_set_le `{Countable A} (l : list A) :
  size (list_to_set l : gset A) <= length l.
Proof.
  induction l as [|x l IH]; [cbn; by rewrite size_empty|]. rewrite list_to_set_cons.
  pose proof (size_union_alt ({[x]} : gset A) (list_to_set l)) as Hs.
  rewrite size_singleton in Hs.
  pose proof (subseteq_size ((list_to_set l : gset A) ∖ {[x]}) (list_to_set l) ltac:(set_solver)).
  cbn. lia.
Qed.

Lemma size_eq_NoDup `{Countable A} (l : list A) :
  size (list_to_set l : gset A) = length l <-> NoDup l.
Proof.
  split; [|apply size_list_to_set].
  induction l as [|x l IH]; intros Hs; [constructor|]. rewrite list_to_set_cons in Hs. cbn in Hs.
  pose proof (size_list_to_set_le l). destruct (decide (x ∈ l)) as [Hin|Hin].
  - exfalso. replace ({[x]} ∪ list_to_set l : gset A) with (list_to_set l : gset A) in Hs; [lia|].
    apply leibniz_equiv. set_solver.
  - constructor; [done|]. apply IH. rewrite size_union in Hs by set_solver.
    rewrite size_singleton in Hs. lia.
Qed.

Lemma distinct_true `{Countable A} (l : list A) : distinct l = true <-> NoDup l.
Proof. unfold distinct. by rewrite eqb_true, size_eq_NoDup. Qed.

(** A list without repetitions whose set is that of [required] is an
    arrangement of [required]: how the closed matrices of these modules are
    compared. *)
Lemma distinct_set_Permutation `{Countable A} (l required : list A) (Hr : NoDup required) :
  distinct l = true /\ (list_to_set l : gset A) = list_to_set required <-> l ≡ₚ required.
Proof.
  rewrite distinct_true. split.
  - intros [Hl Hs]. apply NoDup_Permutation; [done..|]. intros x.
    rewrite <- !(elem_of_list_to_set (C := gset A)). by rewrite Hs.
  - intros Hp. split; [by rewrite Hp|]. apply leibniz_equiv. by rewrite Hp.
Qed.

Lemma step_ready_ok (pending before : list Z) step :
  step_ready (list_to_set pending) (list_to_set before) step = true <->
  NoDup (tst_required_completed_transition_sequences step) /\
  (forall s, s ∈ tst_required_completed_transition_sequences step -> s ∈ before) /\
  NoDup (tst_deferred_sequences step) /\
  (forall s, s ∈ tst_deferred_sequences step <->
     (s ∈ pending) /\ (s < tst_sequence step)%Z /\ (s ∉ before)).
Proof.
  unfold step_ready, deferred_gaps. rewrite !andb_true_iff, !distinct_true, !bool_decide_eq_true.
  assert (Hr : (list_to_set (tst_required_completed_transition_sequences step) : gset Z)
             ⊆ list_to_set before <->
           forall s, s ∈ tst_required_completed_transition_sequences step -> s ∈ before) by set_solver.
  rewrite Hr, set_eq.
  assert (Hd : (forall x : Z, x ∈ (list_to_set (tst_deferred_sequences step) : gset Z) <->
             x ∈ filter (fun s => (s < tst_sequence step)%Z /\ s ∉ (list_to_set before : gset Z))
                   (list_to_set pending : gset Z)) <->
           forall s, s ∈ tst_deferred_sequences step <->
             (s ∈ pending) /\ (s < tst_sequence step)%Z /\ (s ∉ before)).
  { apply forall_proper. intros s. rewrite elem_of_filter, !elem_of_list_to_set. tauto. }
  rewrite Hd. tauto.
Qed.

(** The loop, from a prefix already scheduled. *)
Lemma validate_steps_ok (pending : list Z) post before schedule :
  validate_steps (list_to_set pending) post (list_to_set before) schedule = Ok tt <->
  (forall i step, schedule !! i = Some step ->
     step_ready (list_to_set pending) (list_to_set (rev (completed_before schedule i) ++ before))
       step = true) /\
  (post = true -> Forall (fun s => tst_phase s = TransitionPhase_PostDeploy) schedule) /\
  phases_in_order schedule.
Proof.
  revert post before; induction schedule as [|step schedule IH]; intros post before; cbn.
  { split; [|done]. intros _. split; [by intros i|]. split; [done|]. by intros i j a b Ha. }
  rewrite !guard_ok.
  assert (Hset : ({[tst_sequence step]} ∪ list_to_set before : gset Z)
    = list_to_set (tst_sequence step :: before)) by (by rewrite list_to_set_cons).
  rewrite Hset, IH. rewrite negb_false_iff. clear IH Hset. split.
  - intros (Hpre & Hready & Hsteps & Hpost & Hph). split.
    + intros [|i] s; cbn; [by intros [= <-]|]. intros Hi. specialize (Hsteps i s Hi).
      by rewrite <- app_assoc.
    + split.
      * intros ->. cbn in Hpre. apply Forall_cons. split; [|by apply Hpost; rewrite orb_true_l].
        apply eqb_false in Hpre. by destruct (tst_phase step).
      * intros [|i] [|j] a b; cbn; intros Ha Hb Hij Hpa; try lia.
        -- injection Ha as ->. refine (Forall_lookup_1 (fun s => tst_phase s = _) _ _ _ _ Hb).
           apply Hpost. by rewrite Hpa, orb_true_r.
        -- apply (Hph i j a b); [done..|lia|done].
  - intros (Hsteps & Hpost & Hph). split; [|split; [by apply (Hsteps O step)|]].
    + destruct post; [|done]. apply eqb_false. specialize (Hpost eq_refl).
      apply Forall_cons in Hpost as [-> _]. done.
    + split; [|split].
      * intros i s Hi. specialize (Hsteps (S i) s Hi). cbn in Hsteps.
        by rewrite <- app_assoc in Hsteps.
      * intros Ho. apply Forall_lookup. intros i s Hi. apply orb_true_iff in Ho as [->|Hp].
        -- specialize (Hpost eq_refl). apply Forall_cons in Hpost as [_ Hpost].
           exact (Forall_lookup_1 (fun s => tst_phase s = _) _ _ _ Hpost Hi).
        -- rewrite eqb_true in Hp. apply (Hph O (S i) step s); [done..|lia|done].
      * intros i j a b Ha Hb Hij. apply (Hph (S i) (S j) a b); [done..|lia].
Qed.

Lemma completed_before_app schedule i s :
  s ∈ (rev (completed_before schedule i) ++ [])%list <-> s ∈ completed_before schedule i.
Proof. rewrite app_nil_r, list_elem_of_In, <- in_rev. by rewrite list_elem_of_In. Qed.

Lemma step_ready_order schedule pending i step :
  step_ready (list_to_set pending) (list_to_set (rev (completed_before schedule i) ++ [])%list) step
    = true <-> step_in_order schedule pending i step.
Proof.
  rewrite step_ready_ok. unfold step_in_order.
  setoid_rewrite completed_before_app. reflexivity.
Qed.

(** A schedule that covers the pending work: same sequences, each once. *)
Lemma covers_iff (scheduled pending : list Z) :
  length scheduled = length pending ->
  (NoDup pending /\ (list_to_set scheduled : gset Z) = list_to_set pending /\ NoDup scheduled) <->
  NoDup pending /\ scheduled ≡ₚ pending.
Proof.
  intros Hlen. split.
  - intros (Hp & He & Hs). split; [done|]. apply NoDup_Permutation; [done..|].
    intros x. rewrite <- (elem_of_list_to_set (C := gset Z)), He. apply elem_of_list_to_set.
  - intros (Hp & Hperm). split; [done|]. split; [|by rewrite Hperm].
    apply leibniz_equiv. by rewrite Hperm.
Qed.

Lemma validate_schedule_ok (schedule : list TransitionStep) (pending : list Z) :
  validate_schedule schedule pending = Ok tt <->
  pending <> [] /\ length pending <= MAX_HISTORY /\ NoDup pending /\
  map tst_sequence schedule ≡ₚ pending /\ phases_in_order schedule /\
  forall i step, schedule !! i = Some step -> step_in_order schedule pending i step.
Proof.
  unfold validate_schedule. rewrite !guard_ok, !orb_false_iff, !negb_false_iff.
  rewrite bool_decide_eq_false, !eqb_true, size_eq_NoDup.
  assert (Hmap : size (list_to_set (map tst_sequence schedule) : gset Z) = length schedule <->
    NoDup (map tst_sequence schedule)) by (by rewrite <- size_eq_NoDup, length_map).
  rewrite Hmap. clear Hmap.
  rewrite <- (list_to_set_nil (C := gset Z)). setoid_rewrite validate_steps_ok.
  setoid_rewrite step_ready_order.
  rewrite Nat.ltb_ge. assert (Hnil : is_nil pending = false <-> pending <> []) by (by destruct pending).
  rewrite Hnil. clear Hnil. split.
  - intros (((Hne & Hmax) & Hlen) & ((Hp & Heq) & Hs) & Hsteps & _ & Hph). split_and!; try done.
    apply (covers_iff (map tst_sequence schedule) pending); [by rewrite length_map|].
    split_and!; try done. by destruct (decide ((list_to_set (map tst_sequence schedule) : gset Z)
      = list_to_set pending)).
  - intros (Hne & Hmax & Hp & Hperm & Hph & Hsteps).
    assert (Hlen : length schedule = length pending)
      by (by rewrite <- Hperm, length_map).
    destruct (proj2 (covers_iff (map tst_sequence schedule) pending
      ltac:(by rewrite length_map)) (conj Hp Hperm)) as (_ & Heq & Hs).
    split_and!; try done. by intros [].
Qed.

Lemma position_of_find sequence schedule i :
  position_of sequence schedule = Some i ->
  exists step, schedule !! i = Some step /\ tst_sequence step = sequence /\
    find (fun step => tst_sequence step =? sequence)%Z schedule = Some step.
Proof.
  revert i; induction schedule as [|step schedule IH]; intros i; cbn; [done|].
  destruct (Z.eqb_spec (tst_sequence step) sequence) as [He|He]; [by intros [= <-]; exists step|].
  destruct (position_of sequence schedule) as [j|]; [|done]. intros [= <-].
  destruct (IH j eq_refl) as (s & Hs & Hq & Hf). by exists s.
Qed.

Lemma completed_before_notin schedule i step :
  NoDup (map tst_sequence schedule) -> schedule !! i = Some step ->
  NoDup (completed_before schedule i) /\ (tst_sequence step ∉ completed_before schedule i).
Proof.
  intros Hnd Hi. rewrite <- (take_drop_middle schedule i step Hi), map_app, map_cons in Hnd.
  apply NoDup_app in Hnd as (Hnd & Hdis & _). split; [done|].
  intros Hin. by apply (Hdis _ Hin), list_elem_of_here.
Qed.

(** ** Properties *)

(** A transition starts from exactly the state it was reviewed for. When
    the schedule is valid for the pending work and the completed list passes
    against the target, the target is scheduled, is not completed yet, every
    prerequisite of it is completed, and its deferred list is exactly the
    pending work with a lower sequence that is still open. *)
Theorem completed_prefix_is_ready (self : TransitionCompiled) (pending completed : list Z) :
  validate_schedule (td_transition_schedule (tc_declaration self)) pending = Ok tt ->
  validate_completed self completed = Ok tt ->
  exists step, compiled_step self = Ok step /\ tst_sequence step = target_sequence self /\
    NoDup completed /\ completed ⊆ pending /\
    (target_sequence self ∈ pending) /\ (target_sequence self ∉ completed) /\
    (tst_required_completed_transition_sequences step ⊆ completed) /\
    (forall s, s ∈ tst_deferred_sequences step <->
       (s ∈ pending) /\ (s < target_sequence self)%Z /\ (s ∉ completed)).
Proof.
  intros (_ & _ & Hp & Hperm & _ & Hsteps)%validate_schedule_ok Hc.
  unfold validate_completed in Hc. apply res_bind_ok in Hc as (i & Hi & Hc).
  rewrite guard_unit_ok, neqb_false in Hc.
  destruct (position_of _ _) as [j|] eqn:Ej; [|done]. injection Hi as ->.
  apply position_of_find in Ej as (step & Hs & Hq & Hf). exists step.
  destruct (Hsteps i step Hs) as (_ & Hreq & _ & Hdef).
  unfold completed_before in *. rewrite Hc, Hq in *.
  destruct (completed_before_notin _ i step ltac:(by rewrite Hperm) Hs) as [Hnd Hnot].
  unfold completed_before in *. rewrite Hc, Hq in *.
  split; [unfold compiled_step; by rewrite Hf|]. split; [done|]. split; [done|].
  assert (Hin : forall s, s ∈ map tst_sequence (td_transition_schedule (tc_declaration self)) ->
    s ∈ pending) by (intros s; by rewrite Hperm).
  split.
  { intros s Hsin. apply Hin. rewrite <- Hc in Hsin. rewrite list_elem_of_In, in_map_iff in *.
    destruct Hsin as (t & <- & Ht). exists t. split; [done|].
    rewrite <- (take_drop i). apply in_or_app. by left. }
  split; [|done]. apply Hin. rewrite <- Hq, list_elem_of_In. apply in_map.
  by eapply list_elem_of_In, list_elem_of_lookup_2.
Qed.

(** What a valid schedule is. [validate_schedule] accepts exactly the
    permutations of a bounded duplicate-free pending list in which no
    pre-deploy step follows a post-deploy one, prerequisites come first and
    deferred lists name exactly the overtaken work. *)
Theorem validate_schedule_iff (schedule : list TransitionStep) (pending : list Z) :
  validate_schedule schedule pending = Ok tt <->
  pending <> [] /\ length pending <= MAX_HISTORY /\ NoDup pending /\
  map tst_sequence schedule ≡ₚ pending /\ phases_in_order schedule /\
  forall i step, schedule !! i = Some step -> step_in_order schedule pending i step.
Proof. apply validate_schedule_ok. Qed.

(** ** Witness *)

Definition sample_source : TransitionSource := mkTransitionSource "migrations/0002.sql" "" "".
(** Sequence 3 is published first and defers 2, which runs after the deploy. *)
Definition sample_schedule : list TransitionStep :=
  [mkTransitionStep 1 TransitionPhase_PreDeploy [] [];
   mkTransitionStep 3 TransitionPhase_PreDeploy [1%Z] [2%Z];
   mkTransitionStep 2 TransitionPhase_PostDeploy [1%Z; 3%Z] []].
Definition sample_declaration : TransitionDeclaration :=
  {| td_id := "t"; td_title := "t"; td_description := "t"; td_manifest := sample_source;
     td_historical_ledger := sample_source; td_config_template := "wrangler.toml";
     td_account_id := "0123456789abcdef0123456789abcdef"; td_profile_id := "p";
     td_database_id := "00000000-0000-4000-8000-000000000001"; td_database_binding := "DB";
     td_migrations_dir := "migrations"; td_target := mkTransitionTarget 3 "0003.sql" sample_source;
     td_transition_schedule := sample_schedule;
     td_assertions := mkTransitionAssertions sample_source sample_source sample_source sample_source;
     td_observations := None; td_assurance := None |}.
Definition sample_compiled : TransitionCompiled :=
  {| tc_declaration := sample_declaration; tc_compiler_id := COMPILER_ID; tc_envelope_sha256 := "";
     tc_envelope_length := 0; tc_segments := [];
     tc_execution := mkTransitionExecutionManifest EXECUTION_COMPILER_ID "" "0003.sql" 0 0 "" 0 "";
     tc_historical_sequences := []; tc_scheduled_targets := []; tc_assurance_policy := None |}.

Lemma completed_prefix_is_ready_witness :
  exists step, compiled_step sample_compiled = Ok step /\
    tst_required_completed_transition_sequences step ⊆ [1%Z].
Proof.
  destruct (completed_prefix_is_ready sample_compiled [1; 2; 3]%Z [1%Z])
    as (step & Hs & _ & _ & _ & _ & _ & Hreq & _).
  - vm_compute. reflexivity.
  - vm_compute. reflexivity.
  - exists step. split; [exact Hs|exact Hreq].
Defined.
