(* ===== verification/Execution.v ===== *)
(** The durable one-dispatch state machine of a D1 transition
    (crates/cfctl-core/src/workspace_d1/transition/execution.rs): an ambiguous
    send can only be reconciled. *)

From Stdlib Require Import String Ascii ZArith Lia List Bool.
From stdpp Require Import base option list strings gmap.
From S2P Require Import Prelude Strings Btree Json JsonOps Core CatalogTypes WorkspaceTypes.
From S2P Require Import Capability Transition Demo.

Open Scope cf_scope.
Open Scope string_scope.
Open Scope cf_scope.

Inductive Stage : Type :=
| Prepared
| DispatchIntent
| AwaitingTerminal
| Committed
| RolledBack
| Uncertain.
#[export] Instance Stage_eq_dec : EqDecision Stage.
Proof. solve_decision. Defined.
#[export] Instance ser_Stage : Serialize Stage := fun s => VString
  match s with
  | Prepared => "prepared"
  | DispatchIntent => "dispatch_intent"
  | AwaitingTerminal => "awaiting_terminal"
  | Committed => "committed"
  | RolledBack => "rolled_back"
  | Uncertain => "uncertain"
  end.
#[export] Program Instance inj_Stage : SerializeInj Stage := {| ser_ok _ := True |}.
Next Obligation. by intros [] []. Qed.
#[export] Instance total_Stage : SerializeTotal Stage.
Proof. done. Qed.

Inductive Event : Type :=
| Dispatch
| Accepted
| Commit
| Rollback
| Ambiguous
| ReconciledCommit
| ReconciledRollback.
#[export] Instance Event_eq_dec : EqDecision Event.
Proof. solve_decision. Defined.

Record Checkpoint : Type := mkCheckpoint {
  ck_schema_version : Z;
  ck_operation_id : string;
  ck_identity : Identity;
  ck_plan_hash : string;
  ck_qualification_evidence_hash : string;
  ck_assurance_sha256 : string;
  ck_baseline_evidence_hash : string;
  ck_predecessor_evidence_hash : string;
  ck_stage : Stage;
  ck_previous_checkpoint_sha256 : option string;
  ck_provider_receipt_sha256 : option string;
  ck_bookmark_sha256 : option string;
}.
#[export] Instance Checkpoint_eq_dec : EqDecision Checkpoint.
Proof. solve_decision. Defined.
#[export] Instance ser_Checkpoint : Serialize Checkpoint := fun c => struct_value [
  field "schema_version" (ck_schema_version c);
  field "operation_id" (ck_operation_id c);
  field "identity" (ck_identity c);
  field "plan_hash" (ck_plan_hash c);
  field "qualification_evidence_hash" (ck_qualification_evidence_hash c);
  field "assurance_sha256" (ck_assurance_sha256 c);
  field "baseline_evidence_hash" (ck_baseline_evidence_hash c);
  field "predecessor_evidence_hash" (ck_predecessor_evidence_hash c);
  field "stage" (ck_stage c);
  field "previous_checkpoint_sha256" (ck_previous_checkpoint_sha256 c);
  field "provider_receipt_sha256" (ck_provider_receipt_sha256 c);
  field "bookmark_sha256" (ck_bookmark_sha256 c)].
#[export] Program Instance inj_Checkpoint : SerializeInj Checkpoint := {| ser_ok _ := True |}.
Next Obligation. struct_inj. Qed.
#[export] Instance total_Checkpoint : SerializeTotal Checkpoint.
Proof. done. Qed.

Definition invalid (message : string) : CoreError := InvalidOperationalProofBinding message.

(** The [match (self.stage, event)] of [advance]. *)
Definition next_stage (stage : Stage) (event : Event) : option Stage :=
  match stage, event with
  | Prepared, Dispatch => Some DispatchIntent
  | DispatchIntent, Accepted => Some AwaitingTerminal
  | DispatchIntent, Commit | AwaitingTerminal, Commit | Uncertain, ReconciledCommit => Some Committed
  | DispatchIntent, Rollback | AwaitingTerminal, Rollback
  | Uncertain, ReconciledRollback => Some RolledBack
  | DispatchIntent, Ambiguous | AwaitingTerminal, Ambiguous => Some Uncertain
  | _, _ => None
  end.

Section Execution.
Context `{Runtime}.

Definition malformed (self : Checkpoint) : bool :=
  (ck_schema_version self <>? 1)%Z
  || is_noneb (uuid_hyphenated (ck_operation_id self))
  || existsb (fun hash => negb (canonical_digest hash))
       [ck_plan_hash self; ck_qualification_evidence_hash self; ck_assurance_sha256 self;
        ck_baseline_evidence_hash self; ck_predecessor_evidence_hash self]
  || is_some_and (ck_previous_checkpoint_sha256 self) (fun hash => negb (canonical_digest hash))
  || is_some_and (ck_provider_receipt_sha256 self) (fun hash => negb (canonical_digest hash))
  || is_some_and (ck_bookmark_sha256 self) (fun hash => negb (canonical_digest hash))
  || ((ck_stage self =? Prepared) && is_someb (ck_previous_checkpoint_sha256 self))
  || ((ck_stage self <>? Prepared) && is_noneb (ck_previous_checkpoint_sha256 self))
  || (contains [Prepared; DispatchIntent; Uncertain] (ck_stage self)
      && (is_someb (ck_provider_receipt_sha256 self) || is_someb (ck_bookmark_sha256 self)))
  || (contains [Committed; RolledBack] (ck_stage self)
      && (is_noneb (ck_provider_receipt_sha256 self) || is_noneb (ck_bookmark_sha256 self))).

(** [Checkpoint::validate] *)
Definition validate (self : Checkpoint) : Checked unit :=
  let? _ := identity_validate (ck_identity self) in
  guard (malformed self) "atomic checkpoint is malformed or lacks terminal evidence" (Ok tt).

(** The successor: a clone with the stage, the link and the evidence replaced. *)
Definition successor (self : Checkpoint) (stage : Stage) (previous : string)
    (receipt bookmark : option string) : Checkpoint := {|
  ck_schema_version := ck_schema_version self;
  ck_operation_id := ck_operation_id self;
  ck_identity := ck_identity self;
  ck_plan_hash := ck_plan_hash self;
  ck_qualification_evidence_hash := ck_qualification_evidence_hash self;
  ck_assurance_sha256 := ck_assurance_sha256 self;
  ck_baseline_evidence_hash := ck_baseline_evidence_hash self;
  ck_predecessor_evidence_hash := ck_predecessor_evidence_hash self;
  ck_stage := stage;
  ck_previous_checkpoint_sha256 := Some previous;
  ck_provider_receipt_sha256 := receipt;
  ck_bookmark_sha256 := bookmark
|}.

(** [Checkpoint::advance] *)
Definition advance (self : Checkpoint) (event : Event) (receipt bookmark : option string)
    : Result Checkpoint :=
  let? _ := map_err invalid (validate self) in
  let? stage := ok_or (invalid "atomic execution cannot replay or advance this stage")
                  (next_stage (ck_stage self) event) in
  let? value := json_value self in
  let? previous := hash_value value in
  let next := successor self stage previous receipt bookmark in
  let? _ := map_err invalid (validate next) in
  Ok next.
End Execution.

(** ** Specification *)

Section Properties.
Context `{Runtime}.

(** SHA-256 rendered by [hex::encode]: 64 lower-case hexadecimal digits. *)
Class RuntimeHex : Prop := sha256_hex_lower : forall s, lower_hex_of (sha256_hex s) 64 = true.

(** The evidence a stage carries. *)
Definition evidence_fits (stage : Stage) (receipt bookmark : option string) : Prop :=
  (forall hash, receipt = Some hash -> canonical_digest hash = true) /\
  (forall hash, bookmark = Some hash -> canonical_digest hash = true) /\
  match stage with
  | Prepared | DispatchIntent | Uncertain => receipt = None /\ bookmark = None
  | Committed | RolledBack => receipt <> None /\ bookmark <> None
  | AwaitingTerminal => True
  end.

(** The part of a checkpoint no event touches. *)
Definition pinned (c : Checkpoint) :=
  (ck_schema_version c, ck_operation_id c, ck_identity c, ck_plan_hash c,
   ck_qualification_evidence_hash c, ck_assurance_sha256 c, ck_baseline_evidence_hash c,
   ck_predecessor_evidence_hash c).

Definition pinned_valid (c : Checkpoint) : bool :=
  is_ok (identity_validate (ck_identity c))
  && (ck_schema_version c =? 1)%Z && is_someb (uuid_hyphenated (ck_operation_id c))
  && forallb canonical_digest
       [ck_plan_hash c; ck_qualification_evidence_hash c; ck_assurance_sha256 c;
        ck_baseline_evidence_hash c; ck_predecessor_evidence_hash c].

(** [history s events c]: [c] is reached from the prepared checkpoint [s] by
    [events]. *)
Inductive history (s : Checkpoint) : list Event -> Checkpoint -> Prop :=
| history_prepared : validate s = Ok tt -> ck_stage s = Prepared -> history s [] s
| history_advance events c event receipt bookmark next :
    history s events c -> advance c event receipt bookmark = Ok next ->
    history s (events ++ [event])%list next.

(** Every word of events an execution can take, with the stage it ends in. *)
Definition executions : list (list Event * Stage) :=
  [([], Prepared); ([Dispatch], DispatchIntent); ([Dispatch; Accepted], AwaitingTerminal);
   ([Dispatch; Commit], Committed); ([Dispatch; Accepted; Commit], Committed);
   ([Dispatch; Rollback], RolledBack); ([Dispatch; Accepted; Rollback], RolledBack);
   ([Dispatch; Ambiguous], Uncertain); ([Dispatch; Accepted; Ambiguous], Uncertain);
   ([Dispatch; Ambiguous; ReconciledCommit], Committed);
   ([Dispatch; Accepted; Ambiguous; ReconciledCommit], Committed);
   ([Dispatch; Ambiguous; ReconciledRollback], RolledBack);
   ([Dispatch; Accepted; Ambiguous; ReconciledRollback], RolledBack)].

(** ** Facts *)

Lemma is_some_and_negb_false {A} (o : option A) (f : A -> bool) :
  is_some_and o (fun a => negb (f a)) = false <-> forall a, o = Some a -> f a = true.
Proof. destruct o; cbn; rewrite ?negb_false_iff; naive_solver. Qed.

Lemma is_ok_tt {E} (r : result E unit) : is_ok r = true <-> r = Ok tt.
Proof. by destruct r as [[]|]. Qed.

Lemma evidence_fits_iff stage receipt bookmark :
  (forall hash, receipt = Some hash -> canonical_digest hash = true) /\
  (forall hash, bookmark = Some hash -> canonical_digest hash = true) /\
  contains [Prepared; DispatchIntent; Uncertain] stage && (is_someb receipt || is_someb bookmark)
    = false /\
  contains [Committed; RolledBack] stage && (is_noneb receipt || is_noneb bookmark) = false <->
  evidence_fits stage receipt bookmark.
Proof. unfold evidence_fits. destruct stage, receipt, bookmark; cbn; naive_solver. Qed.

(** The stage and the link of a checkpoint agree: only a prepared one has none. *)
Definition link_fits (stage : Stage) (previous : option string) : Prop :=
  match previous with
  | None => stage = Prepared
  | Some hash => stage <> Prepared /\ canonical_digest hash = true
  end.

Lemma link_fits_iff stage previous :
  (forall hash, previous = Some hash -> canonical_digest hash = true) /\
  (stage =? Prepared) && is_someb previous = false /\
  (stage <>? Prepared) && is_noneb previous = false <-> link_fits stage previous.
Proof. unfold link_fits. destruct stage, previous; cbn; naive_solver. Qed.

Lemma validate_ok c :
  validate c = Ok tt <->
  pinned_valid c = true /\
  evidence_fits (ck_stage c) (ck_provider_receipt_sha256 c) (ck_bookmark_sha256 c) /\
  link_fits (ck_stage c) (ck_previous_checkpoint_sha256 c).
Proof.
  unfold validate, malformed, pinned_valid.
  rewrite res_bind_unit_ok, guard_unit_ok, !orb_false_iff, !andb_true_iff, is_ok_tt.
  rewrite !is_some_and_negb_false, neqb_false, Z.eqb_eq.
  replace (is_noneb (uuid_hyphenated (ck_operation_id c)) = false)
    with (negb (is_someb (uuid_hyphenated (ck_operation_id c))) = false) by done.
  rewrite negb_false_iff, existsb_Forall, forallb_Forall.
  setoid_rewrite negb_false_iff. rewrite <- evidence_fits_iff, <- link_fits_iff. tauto.
Qed.

Lemma advance_ok c event receipt bookmark next :
  advance c event receipt bookmark = Ok next <->
  validate c = Ok tt /\
  exists stage previous, next_stage (ck_stage c) event = Some stage /\
    hash_value (to_value c) = Ok previous /\ next = successor c stage previous receipt bookmark /\
    validate next = Ok tt.
Proof.
  unfold advance, json_value. rewrite res_bind_ok. destruct (validate c) as [[]|]; cbn [map_err].
  2: { split; [by intros (? & ? & ?)|by intros [? _]]. }
  destruct (next_stage (ck_stage c) event) as [stage|]; cbn [ok_or res_bind].
  2: { split; [by intros (? & ? & ?)|by intros (_ & ? & ? & ? & _)]. }
  destruct (hash_value (to_value c)) as [previous|]; cbn [res_bind].
  2: { split; [by intros (? & ? & ?)|by intros (_ & ? & ? & _ & ? & _)]. }
  destruct (validate (successor c stage previous receipt bookmark)) as [[]|] eqn:E; cbn; split.
  - intros (_ & _ & [= <-]). split; [done|]. by exists stage, previous.
  - intros (_ & ? & ? & [= <-] & [= <-] & -> & _). by exists tt.
  - by intros (? & ? & ?).
  - intros (_ & ? & ? & [= <-] & [= <-] & -> & ?). congruence.
Qed.

Lemma successor_pinned c stage previous receipt bookmark :
  pinned (successor c stage previous receipt bookmark) = pinned c /\
  pinned_valid (successor c stage previous receipt bookmark) = pinned_valid c.
Proof. done. Qed.

Lemma next_stage_inj stage e f s :
  next_stage stage e = Some s -> next_stage stage f = Some s -> e = f.
Proof. by destruct stage, e, f; cbn; intros [= <-]. Qed.

Lemma next_stage_prepared stage e : next_stage stage e <> Some Prepared.
Proof. by destruct stage, e. Qed.

Lemma executions_closed events stage event stage' :
  (events, stage) ∈ executions -> next_stage stage event = Some stage' ->
  ((events ++ [event])%list, stage') ∈ executions.
Proof.
  unfold executions. rewrite !elem_of_cons, elem_of_nil. intros Hin Hn.
  destruct_or! Hin; simplify_eq; destruct event; cbn in Hn; simplify_eq; cbn; tauto.
Qed.

Lemma history_execution s events c :
  history s events c ->
  validate c = Ok tt /\ pinned c = pinned s /\ (events, ck_stage c) ∈ executions.
Proof.
  induction 1 as [Hv Hs|events c event r b next Hh (Hv & Hp & Hin) Ha].
  - split; [done|]. split; [done|]. rewrite Hs. by left.
  - apply advance_ok in Ha as (_ & stage & previous & Hn & _ & -> & Hv').
    split; [done|]. split; [done|]. by eapply executions_closed.
Qed.

Lemma digest_canonical `{!RuntimeHex} v h : hash_value v = Ok h -> canonical_digest h = true.
Proof.
  unfold hash_value. intros (bytes & _ & [= <-])%res_bind_ok. unfold canonical_digest.
  cbn. apply sha256_hex_lower.
Qed.

Definition dispatches (events : list Event) : nat :=
  length (filter (fun e => e = Dispatch) events).

(** What every execution word satisfies, checked word by word. *)
Definition word_ok (w : list Event * Stage) : bool :=
  (dispatches (fst w) <=? 1)%nat
  && (negb (contains [Committed; RolledBack] (snd w)) || (dispatches (fst w) =? 1)).

Lemma executions_ok w : w ∈ executions -> word_ok w = true.
Proof.
  intros Hin. assert (Hall : forallb word_ok executions = true) by (vm_compute; reflexivity).
  rewrite forallb_forall in Hall. by apply Hall, list_elem_of_In.
Qed.

(** ** Properties *)

(** C24: at most one dispatch. Along any execution from a prepared checkpoint the
    events are one of thirteen words with at most one [Dispatch]; everything
    but the stage, the link and the evidence is what was prepared; a committed
    or rolled-back checkpoint was dispatched exactly once, carries the
    provider's receipt and bookmark and can never advance; and an uncertain
    one can only be reconciled. *)
Theorem one_dispatch s events c (Hh : history s events c) :
  (events, ck_stage c) ∈ executions /\ pinned c = pinned s /\ dispatches events <= 1 /\
  (ck_stage c = Committed \/ ck_stage c = RolledBack ->
   dispatches events = 1 /\ ck_provider_receipt_sha256 c <> None /\ ck_bookmark_sha256 c <> None /\
   forall event receipt bookmark next, advance c event receipt bookmark <> Ok next) /\
  (ck_stage c = Uncertain -> forall event receipt bookmark next,
     advance c event receipt bookmark = Ok next ->
     event = ReconciledCommit \/ event = ReconciledRollback).
Proof.
  apply history_execution in Hh as (Hv & Hp & Hin). split; [done|]. split; [done|].
  pose proof (executions_ok _ Hin) as Hw. unfold word_ok in Hw. cbn [fst snd] in Hw.
  apply andb_true_iff in Hw as [Hle Hone]. apply Nat.leb_le in Hle. split; [done|].
  apply validate_ok in Hv as (_ & (_ & _ & Hev) & _). split.
  - intros Ht. assert (Hd : dispatches events = 1).
    { destruct Ht as [Ht|Ht]; rewrite Ht in Hone; by apply eqb_eq in Hone. }
    split; [done|]. assert (Hn : forall event, next_stage (ck_stage c) event = None).
    { by destruct Ht as [-> | ->]; intros []. }
    split; [by destruct Ht as [Ht|Ht]; rewrite Ht in Hev; destruct Hev|].
    split; [by destruct Ht as [Ht|Ht]; rewrite Ht in Hev; destruct Hev|].
    intros event r b next (_ & stage & ? & Hs & _)%advance_ok. by rewrite Hn in Hs.
  - intros Hu event r b next (_ & stage & ? & Hs & _)%advance_ok. rewrite Hu in Hs.
    destruct event; naive_solver.
Qed.

(** A valid checkpoint advances exactly when the event is allowed in its
    stage and the evidence fits the stage it leads to: no receipt or bookmark
    while the outcome is open, both once it is terminal, canonical digests
    always. With such an event the machine is never stuck. *)
Theorem advance_iff `{!RuntimeTotal} `{!RuntimeHex} c event receipt bookmark
    (Hv : validate c = Ok tt) :
  (exists next, advance c event receipt bookmark = Ok next) <->
  exists stage, next_stage (ck_stage c) event = Some stage /\ evidence_fits stage receipt bookmark.
Proof.
  split.
  - intros (next & (_ & stage & p & Hs & _ & -> & Hn)%advance_ok). exists stage.
    split; [done|]. by apply validate_ok in Hn as (_ & Hn & _).
  - intros (stage & Hs & He). destruct (hash_value_total (to_value c)) as [p Hp].
    exists (successor c stage p receipt bookmark). apply advance_ok. split; [done|].
    exists stage, p. split; [done|]. split; [done|]. split; [done|].
    apply validate_ok in Hv as (Hpin & _ & _). apply validate_ok.
    split; [done|]. split; [done|]. cbn. split; [|by eapply digest_canonical].
    intros ->. by apply next_stage_prepared in Hs.
Qed.

(** A checkpoint binds its whole past. Two executions that end in the same
    checkpoint started from the same prepared checkpoint and took the same
    events, or SHA-256 collided: replaying another history under a stored
    checkpoint is detected.  *)
Theorem checkpoint_binds_history s events s' events' c :
  history s events c -> history s' events' c -> (s = s' /\ events = events') \/ collision.
Proof.
  intros Hh. revert s' events'. induction Hh as [Hv Hs|events c event r b next Hh IH Ha].
  - intros s' events' Hh'. inversion Hh' as [|evs d e r b ? _ Ha]; simplify_eq; [by left|].
    apply advance_ok in Ha as (_ & stage & p & Hn & _ & -> & _). cbn in Hs. subst.
    by apply next_stage_prepared in Hn.
  - intros s' events' Hh'. apply advance_ok in Ha as (_ & stage & p & Hn & Hp & -> & _).
    inversion Hh' as [Hv' Hs'|evs d e r' b' ? Hd Ha]; subst.
    + cbn in Hs'. subst. by apply next_stage_prepared in Hn.
    + apply advance_ok in Ha as (_ & stage' & p' & Hn' & Hp' & [= ] & _). subst.
      destruct (hash_value_same _ _ _ Hp Hp') as [Heq|]; [|by right].
      apply (ser_inj (A := Checkpoint)) in Heq as <-; [|exact I..].
      destruct (IH _ _ Hd) as [[<- <-]|]; [|by right]. left. split; [done|].
      by rewrite (next_stage_inj _ _ _ _ Hn Hn').
Qed.
End Properties.

(** ** Witnesses *)

Lemma hex_digit_lower z : (0 <= z < 16)%Z ->
  is_ascii_digit (hex_digit z) || in_range 97 102 (hex_digit z) = true.
Proof.
  intros Hz. assert (Hall : forallb (fun z => is_ascii_digit (hex_digit z)
    || in_range 97 102 (hex_digit z)) (seqZ 0 16) = true) by (vm_compute; reflexivity).
  rewrite forallb_forall in Hall. apply Hall, list_elem_of_In, elem_of_seqZ. lia.
Qed.

Lemma hex_digits_lower k n : lower_hex_of (hex_digits k n) k = true.
Proof.
  revert n. induction k as [|k IH]; intros n; [done|]. specialize (IH (Z.shiftr n 4)).
  unfold lower_hex_of in *. apply andb_true_iff in IH as [Hl Hb]. rewrite eqb_true in Hl.
  cbn [hex_digits bytes_all]. rewrite Hb, andb_true_r. apply andb_true_iff. split.
  - apply eqb_true. cbn. by rewrite Hl.
  - apply hex_digit_lower. change 15%Z with (Z.ones 4). rewrite Z.land_ones by lia.
    apply Z.mod_pos_bound. lia.
Qed.

#[local] Instance demo_hex : RuntimeHex.
Proof. intros s. apply hex_digits_lower. Qed.

Definition sample_digest : string := ("sha256:" ++ digest_hex "evidence")%string.

Definition sample_prepared : Checkpoint := {|
  ck_schema_version := 1;
  ck_operation_id := "00000000-0000-4000-8000-000000000007";
  ck_identity := {|
    id_repository_head := "0123456789012345678901234567890123456789";
    id_operation_pack_sha256 := sample_digest;
    id_declaration_sha256 := sample_digest;
    id_source_envelope_sha256 := sample_digest;
    id_execution_sha256 := sample_digest;
    id_account_id := "0123456789abcdef0123456789abcdef";
    id_database_id := "00000000-0000-4000-8000-000000000001";
    id_target_sequence := 3;
    id_migration_sha256 := sample_digest |};
  ck_plan_hash := sample_digest;
  ck_qualification_evidence_hash := sample_digest;
  ck_assurance_sha256 := sample_digest;
  ck_baseline_evidence_hash := sample_digest;
  ck_predecessor_evidence_hash := sample_digest;
  ck_stage := Prepared;
  ck_previous_checkpoint_sha256 := None;
  ck_provider_receipt_sha256 := None;
  ck_bookmark_sha256 := None
|}.

(** Dispatch, lose the answer, reconcile: the events with their evidence. *)
Fixpoint run (c : Checkpoint) (events : list (Event * option string)) : Result Checkpoint :=
  match events with
  | [] => Ok c
  | (event, evidence) :: events =>
      let? next := advance c event evidence evidence in run next events
  end.

Definition sample_events : list (Event * option string) :=
  [(Dispatch, None); (Ambiguous, None); (ReconciledCommit, Some sample_digest)].

Definition sample_committed : Checkpoint :=
  Eval vm_compute in
    match run sample_prepared sample_events return Checkpoint with
    | Ok c => c
    | Err _ => sample_prepared
    end.

Lemma run_history s events c (word : list (Event * option string)) d :
  history s events c -> run c word = Ok d -> history s (events ++ map fst word)%list d.
Proof.
  revert events c; induction word as [|[e r] word IH]; intros events c Hh; cbn.
  - intros [= <-]. by rewrite app_nil_r.
  - intros (next & Ha & Hr)%res_bind_ok. replace (events ++ e :: map fst word)%list with ((events ++ [e]) ++ map fst word)%list
      by (by rewrite <- app_assoc).
    eapply IH; [|exact Hr]. by eapply history_advance.
Qed.

Lemma sample_history :
  history sample_prepared [Dispatch; Ambiguous; ReconciledCommit] sample_committed.
Proof.
  refine (run_history sample_prepared [] sample_prepared sample_events sample_committed _ _).
  - by apply history_prepared; [vm_compute; reflexivity|].
  - vm_compute. reflexivity.
Qed.

Lemma one_dispatch_witness :
  ck_stage sample_committed = Committed /\
  dispatches [Dispatch; Ambiguous; ReconciledCommit] <= 1 /\
  forall event receipt bookmark next, advance sample_committed event receipt bookmark <> Ok next.
Proof.
  destruct (one_dispatch sample_prepared [Dispatch; Ambiguous; ReconciledCommit]
    sample_committed sample_history) as (_ & _ & Hd & Ht & _).
  split; [reflexivity|]. split; [exact Hd|].
  exact (proj2 (proj2 (proj2 (Ht (or_introl eq_refl))))).
Defined.

Lemma advance_iff_witness : exists next, advance sample_prepared Dispatch None None = Ok next.
Proof.
  apply (advance_iff sample_prepared Dispatch None None).
  - vm_compute. reflexivity.
  - exists DispatchIntent. split; [reflexivity|]. split; [discriminate|]. split; [discriminate|].
    split; reflexivity.
Defined.

Lemma checkpoint_binds_history_witness :
  (sample_prepared = sample_prepared /\
   [Dispatch; Ambiguous; ReconciledCommit] = [Dispatch; Ambiguous; ReconciledCommit]) \/ collision.
Proof. exact (checkpoint_binds_history _ _ _ _ _ sample_history sample_history). Defined.
