(* ===== verification/TransitionProofs.v ===== *)
(** The receipts of a D1 transition: the record of an atomic execution, the
    native import receipt checked against its terminal checkpoint
    (crates/cfctl-core/src/workspace_d1/transition/proofs.rs), the reviewed
    assurance policy and the runtime assurance binding
    (transition/assurance.rs). *)

From Stdlib Require Import String Ascii ZArith Lia List Bool.
From stdpp Require Import base option list strings gmap.
From S2P Require Import Prelude Strings Btree Json JsonOps Core CatalogTypes WorkspaceTypes.
From S2P Require Import Capability Transition Demo Execution.

Open Scope cf_scope.
Open Scope string_scope.
Open Scope cf_scope.

#[export] Instance TransitionSource_eq_dec : EqDecision TransitionSource.
Proof. solve_decision. Defined.
#[export] Instance TransitionObservation_eq_dec : EqDecision TransitionObservation.
Proof. solve_decision. Defined.

(** References are resolved through authenticated native state. *)
Record ProofRef : Type := mkProofRef {
  pr_proof_hash : string;
  pr_evidence_hash : string;
}.
#[export] Instance ProofRef_eq_dec : EqDecision ProofRef.
Proof. solve_decision. Defined.

Record EffectRef : Type := mkEffectRef {
  er_operation_id : string;
  er_evidence_hash : string;
}.
#[export] Instance EffectRef_eq_dec : EqDecision EffectRef.
Proof. solve_decision. Defined.

(** ** Assurance *)

(** [Declaration::diagnostic] *)
Definition declaration_diagnostic (self : AssuranceDeclaration) : TransitionObservation :=
  match self with
  | AssuranceDeclaration_FullIntegrityV1 diagnostic
  | AssuranceDeclaration_ManagedD1ApplicationV1 _ diagnostic => diagnostic
  end.

Inductive AssuranceBinding : Type :=
| AssuranceBinding_FullIntegrityV1 (diagnostic : ProofRef)
| AssuranceBinding_ManagedD1ApplicationV1 (diagnostic : ProofRef) (policy_decision : EffectRef).

Definition binding_diagnostic (self : AssuranceBinding) : ProofRef :=
  match self with
  | AssuranceBinding_FullIntegrityV1 diagnostic
  | AssuranceBinding_ManagedD1ApplicationV1 diagnostic _ => diagnostic
  end.

(** [Binding::validate_mode] *)
Definition validate_mode (self : AssuranceBinding) (expected : AssuranceDeclaration)
    : Checked unit :=
  match self, expected with
  | AssuranceBinding_FullIntegrityV1 _, AssuranceDeclaration_FullIntegrityV1 _
  | AssuranceBinding_ManagedD1ApplicationV1 _ _, AssuranceDeclaration_ManagedD1ApplicationV1 _ _ =>
      Ok tt
  | _, _ => Err "source and runtime assurance modes differ"
  end.

Definition unobserved_properties : list TransitionUnobservedProperty :=
  [TransitionUnobservedProperty_GlobalIndexConsistency;
   TransitionUnobservedProperty_GlobalUniquenessStorageConsistency].

Definition cumulative_controls : list TransitionControl :=
  [TransitionControl_PrimaryQuickCheck; TransitionControl_ExactSchema;
   TransitionControl_FullScanTypedPopulationPreservation; TransitionControl_ForeignKeyCheck;
   TransitionControl_AtomicFailureRollback; TransitionControl_TargetOnceLedger;
   TransitionControl_FinalScratchCleanup].

(** Position in a closed list, with which its elements are counted. *)
Fixpoint index_in `{EqDecision A} (x : A) (l : list A) : nat :=
  match l with
  | [] => O
  | y :: l => if x =? y then O else S (index_in x l)
  end.

Lemma index_in_lookup `{EqDecision A} (x : A) l : x ∈ l -> l !! index_in x l = Some x.
Proof.
  induction l as [|y l IH]; [by intros ?%elem_of_nil|]. intros Hin. cbn.
  destruct (x =? y) eqn:E; [by apply eqb_eq in E as ->|]. apply eqb_neq in E.
  apply IH. by apply elem_of_cons in Hin as [->|].
Qed.

#[export] Program Instance UnobservedProperty_countable : Countable TransitionUnobservedProperty :=
  inj_countable (fun x => index_in x unobserved_properties) (fun n => unobserved_properties !! n) _.
Next Obligation. intros x. apply index_in_lookup. destruct x; set_solver. Qed.
#[export] Program Instance Control_countable : Countable TransitionControl :=
  inj_countable (fun x => index_in x cumulative_controls) (fun n => cumulative_controls !! n) _.
Next Obligation. intros x. apply index_in_lookup. destruct x; set_solver. Qed.

(** [ManagedPolicyV1::validate] *)
Definition managed_policy_validate (self : TransitionManagedPolicyV1) (account database : string)
    (target : TransitionTarget) : Checked unit :=
  let gaps : gset TransitionUnobservedProperty :=
    list_to_set (tmp_accepted_unobserved_properties self) in
  let controls : gset TransitionControl := list_to_set (tmp_required_controls self) in
  guard ((tmp_schema_version self <>? 1)%Z
         || (tmp_mode self <>? "managed_d1_application_v1")
         || trim_is_empty (tmp_release_id self)
         || (tmp_account_id self <>? account)
         || (tmp_database_id self <>? database)
         || (tmp_target_sequence self <>? tt_sequence target)
         || (tmp_migration_sha256 self <>? ts_sha256 (tt_source target))
         || negb (canonical_digest (tmp_migration_sha256 self))
         || negb (distinct (tmp_accepted_unobserved_properties self))
         || (gaps <>? list_to_set unobserved_properties)
         || negb (distinct (tmp_required_controls self))
         || (controls <>? list_to_set cumulative_controls))
    "managed assurance policy scope, version or cumulative controls differ" (Ok tt).

(** ** The record of an atomic execution *)

Definition EXECUTION_KIND : string := "workspace_d1_transition_execution_v1".
Definition VERIFIED_EXECUTION_KIND : string := "workspace_d1_transition_verified_execution_v1".
Definition VERIFIED_TRANSPORT_KIND : string := "workspace_d1_transition_verified_transport_v1".
Definition TRANSPORT : string := "native_d1_file_import_v1".
Definition TRANSPORT_RECEIPT_KIND : string := "workspace_d1_transition_import_terminal_v1".

Record ExecutionRecord : Type := mkExecutionRecord {
  xr_schema_version : Z;
  xr_kind : string;
  xr_checkpoints : list Checkpoint;
  xr_checkpoint_evidence_hashes : list string;
}.

Record VerifiedExecutionRecord : Type := mkVerifiedExecutionRecord {
  vx_schema_version : Z;
  vx_kind : string;
  vx_apply_evidence_hash : string;
  vx_execution : ExecutionRecord;
}.

Record PollContinuation : Type := mkPollContinuation {
  pc_operation_id : string;
  pc_plan_hash : string;
  pc_parent_checkpoint_sha256 : string;
  pc_bookmark_sha256 : string;
}.

Record TransportReceipt : Type := mkTransportReceipt {
  tr_schema_version : Z;
  tr_kind : string;
  tr_operation_id : string;
  tr_database_id : string;
  tr_transport : string;
  tr_execution_sha256 : string;
  tr_stage : Stage;
  tr_bookmark_sha256 : string;
  tr_provider_error_evidence_hash : option string;
  tr_continuation : option PollContinuation;
}.

Record VerifiedTransportReceipt : Type := mkVerifiedTransportReceipt {
  vt_schema_version : Z;
  vt_kind : string;
  vt_apply_evidence_hash : string;
  vt_receipt : TransportReceipt;
}.

(** The event of a pair of consecutive stages. *)
Definition event_between (before next : Stage) : option Event :=
  match before, next with
  | Prepared, DispatchIntent => Some Dispatch
  | DispatchIntent, AwaitingTerminal => Some Accepted
  | DispatchIntent, Committed | AwaitingTerminal, Committed => Some Commit
  | DispatchIntent, RolledBack | AwaitingTerminal, RolledBack => Some Rollback
  | DispatchIntent, Uncertain | AwaitingTerminal, Uncertain => Some Ambiguous
  | Uncertain, Committed => Some ReconciledCommit
  | Uncertain, RolledBack => Some ReconciledRollback
  | _, _ => None
  end.

Section Records.
Context `{Runtime}.

(** The body of the loop over [self.checkpoints.windows(2)]. *)
Definition check_pair (before next : Checkpoint) : Checked unit :=
  let? event := ok_or "atomic checkpoint chain contains a replay or impossible transition"
                  (event_between (ck_stage before) (ck_stage next)) in
  let? expected := map_err (fun _ => "atomic checkpoint chain is invalid")
                     (advance before event (ck_provider_receipt_sha256 next)
                        (ck_bookmark_sha256 next)) in
  guard (expected <>? next) "atomic checkpoint identity or predecessor was substituted" (Ok tt).

Fixpoint check_pairs (checkpoints : list Checkpoint) : Checked unit :=
  match checkpoints with
  | before :: ((next :: _) as rest) => let? _ := check_pair before next in check_pairs rest
  | _ => Ok tt
  end.

(** [ExecutionRecord::terminal] *)
Definition terminal (self : ExecutionRecord) : Checked Checkpoint :=
  let checkpoints := xr_checkpoints self in
  let hashes := xr_checkpoint_evidence_hashes self in
  guard ((xr_schema_version self <>? 1)%Z
         || (xr_kind self <>? EXECUTION_KIND)
         || (length checkpoints <? 3)%nat
         || (8 <? length checkpoints)%nat
         || is_some_and (head checkpoints) (fun first => ck_stage first <>? Prepared)
         || (length hashes <>? length checkpoints)
         || existsb (fun hash => negb (canonical_digest hash)) hashes
         || (size (list_to_set hashes : gset string) <>? length checkpoints))
    "atomic execution record has invalid kind, bound or initial stage" (
  let? _ := for_each validate checkpoints in
  let? _ := check_pairs checkpoints in
  let? terminal := ok_or "atomic execution has no terminal" (last checkpoints) in
  guard (negb (contains [Committed; RolledBack] (ck_stage terminal)))
    "atomic execution remains uncertain or incomplete" (Ok terminal)).

Definition verified_execution_validate (self : VerifiedExecutionRecord) : Checked unit :=
  guard ((vx_schema_version self <>? 1)%Z || (vx_kind self <>? VERIFIED_EXECUTION_KIND)
         || negb (canonical_digest (vx_apply_evidence_hash self)))
    "verified execution lacks its distinct kind and exact apply identity" (
  let? _ := terminal (vx_execution self) in Ok tt).

Definition verified_transport_validate (self : VerifiedTransportReceipt) : Checked unit :=
  guard ((vt_schema_version self <>? 1)%Z || (vt_kind self <>? VERIFIED_TRANSPORT_KIND)
         || negb (canonical_digest (vt_apply_evidence_hash self)))
    "verified transport lacks its distinct kind and exact apply identity" (Ok tt).

Definition continuation_validate (self : PollContinuation) : Checked unit :=
  guard (is_noneb (uuid_hyphenated (pc_operation_id self))
         || existsb (fun hash => negb (canonical_digest hash))
              [pc_plan_hash self; pc_parent_checkpoint_sha256 self; pc_bookmark_sha256 self])
    "poll continuation identity is malformed" (Ok tt).

(** [TransportReceipt::validate] *)
Definition transport_receipt_validate (self : TransportReceipt) (terminal : Checkpoint)
    (database : string) : Checked unit :=
  guard ((tr_schema_version self <>? 1)%Z
         || (tr_kind self <>? TRANSPORT_RECEIPT_KIND)
         || (tr_operation_id self <>? ck_operation_id terminal)
         || (tr_database_id self <>? database)
         || (tr_transport self <>? TRANSPORT)
         || (tr_execution_sha256 self <>? id_execution_sha256 (ck_identity terminal))
         || is_some_and (tr_continuation self) (fun continuation =>
              negb (is_ok (continuation_validate continuation))
              || (pc_operation_id continuation =? tr_operation_id self))
         || (tr_stage self <>? ck_stage terminal)
         || match tr_stage self with
            | Committed => is_someb (tr_provider_error_evidence_hash self)
            | RolledBack => is_none_or (tr_provider_error_evidence_hash self)
                              (fun hash => negb (canonical_digest hash))
            | _ => true
            end
         || (ck_bookmark_sha256 terminal <>? Some (tr_bookmark_sha256 self)))
    "native import terminal artifact differs from atomic checkpoint" (validate terminal).
End Records.

(** ** Specification *)

Section Properties.
Context `{Runtime}.

(** [trace s events checkpoints]: the checkpoints of an execution that starts
    at the valid prepared checkpoint [s] and takes [events], oldest first. *)
Inductive trace (s : Checkpoint) : list Event -> list Checkpoint -> Prop :=
| trace_prepared : validate s = Ok tt -> ck_stage s = Prepared -> trace s [] [s]
| trace_advance events before c event receipt bookmark next :
    trace s events (before ++ [c])%list -> advance c event receipt bookmark = Ok next ->
    trace s (events ++ [event])%list (before ++ [c; next])%list.

Definition terminal_stage (stage : Stage) : Prop := stage = Committed \/ stage = RolledBack.

(** What the storage evidence of a record must look like. *)
Definition evidence_listed (self : ExecutionRecord) : Prop :=
  length (xr_checkpoint_evidence_hashes self) = length (xr_checkpoints self) /\
  NoDup (xr_checkpoint_evidence_hashes self) /\
  Forall (fun hash => canonical_digest hash = true) (xr_checkpoint_evidence_hashes self).

(** ** Facts *)

Lemma event_between_next before next event :
  event_between before next = Some event <-> next_stage before event = Some next.
Proof. by destruct before, next, event. Qed.

Lemma check_pair_ok before next :
  check_pair before next = Ok tt <->
  exists event receipt bookmark, advance before event receipt bookmark = Ok next.
Proof.
  unfold check_pair. rewrite res_bind_ok. split.
  - intros (event & _ & (expected & Ha & <-%guard_unit_ok%neqb_false)%res_bind_ok).
    destruct advance as [c|] eqn:E in Ha; [|done]. cbn in Ha. simplify_eq. eauto.
  - intros (event & r & b & Ha). exists event.
    pose proof Ha as (_ & stage & p & Hn & _ & -> & _)%advance_ok.
    cbn [ck_stage ck_provider_receipt_sha256 ck_bookmark_sha256 successor].
    split; [by rewrite (proj2 (event_between_next _ _ _) Hn)|]. rewrite Ha. cbn. by apply guard_unit_ok, neqb_false.
Qed.

Lemma check_pairs_cons before next rest :
  check_pairs (before :: next :: rest) = Ok tt <->
  check_pair before next = Ok tt /\ check_pairs (next :: rest) = Ok tt.
Proof. cbn [check_pairs]. by rewrite res_bind_unit_ok. Qed.

Lemma check_pairs_snoc before c next :
  check_pairs (before ++ [c; next])%list = Ok tt <->
  check_pairs (before ++ [c])%list = Ok tt /\ check_pair c next = Ok tt.
Proof.
  induction before as [|d before IH].
  - cbn [app]. rewrite check_pairs_cons. cbn. tauto.
  - destruct before as [|e before]; cbn [app] in IH |- *.
    + rewrite !check_pairs_cons. cbn. tauto.
    + rewrite !(check_pairs_cons d e), IH. tauto.
Qed.

Lemma snoc_pair {A} (before : list A) c next :
  (before ++ [c; next] = (before ++ [c]) ++ [next])%list.
Proof. by rewrite <- app_assoc. Qed.

Lemma trace_last s events checkpoints :
  trace s events checkpoints ->
  exists c, last checkpoints = Some c /\ history s events c /\
    length checkpoints = S (length events).
Proof.
  induction 1 as [Hv Hs|events before c event r b next Ht (d & Hd & Hh & Hl) Ha].
  - exists s. by split; [|split; [apply history_prepared|]].
  - rewrite last_snoc in Hd. simplify_eq. exists next.
    split; [by rewrite snoc_pair, last_snoc|].
    split; [by eapply history_advance|].
    rewrite !length_app in *. cbn in *. lia.
Qed.

Lemma trace_checked s events checkpoints :
  trace s events checkpoints ->
  head checkpoints = Some s /\ ck_stage s = Prepared /\
  Forall (fun c => validate c = Ok tt) checkpoints /\ check_pairs checkpoints = Ok tt.
Proof.
  induction 1 as [Hv Hs|events before c event r b next Ht (Hh & Hs & Hf & Hc) Ha].
  - by repeat constructor.
  - split; [by destruct before|]. split; [done|]. split.
    + rewrite snoc_pair. apply Forall_app. split; [done|].
      apply Forall_singleton. by apply advance_ok in Ha as (_ & ? & ? & _ & _ & -> & ?).
    + apply check_pairs_snoc. split; [done|]. apply check_pair_ok. eauto.
Qed.

Lemma checked_trace s events before c rest :
  trace s events (before ++ [c])%list -> check_pairs (c :: rest) = Ok tt ->
  exists events', trace s events' (before ++ c :: rest)%list.
Proof.
  revert events before c. induction rest as [|next rest IH]; intros events before c Ht Hc; [eauto|].
  apply check_pairs_cons in Hc as [(event & r & b & Ha)%check_pair_ok Hc].
  replace (before ++ c :: next :: rest)%list with ((before ++ [c]) ++ next :: rest)%list
    by (by rewrite <- app_assoc).
  apply (IH (events ++ [event])%list); [|done]. rewrite <- snoc_pair. by eapply trace_advance.
Qed.

Lemma trace_iff checkpoints :
  (exists s events, trace s events checkpoints) <->
  is_some_and (head checkpoints) (fun first => ck_stage first <>? Prepared) = false /\
  checkpoints <> [] /\
  for_each validate checkpoints = Ok tt /\ check_pairs checkpoints = Ok tt.
Proof.
  rewrite for_each_ok. split.
  - intros (s & events & (Hh & Hs & Hf & Hc)%trace_checked). rewrite Hh. cbn. rewrite Hs.
    split; [done|]. split; [by intros ->|]. done.
  - intros (Hs & Hne & Hf & Hc). destruct checkpoints as [|s rest]; [done|]. cbn in Hs.
    rewrite neqb_false in Hs. exists s. apply (checked_trace s [] []); [|done].
    apply trace_prepared; [|done]. by apply Forall_cons in Hf as [? _].
Qed.

(** Every execution word that ends in an outcome, checked word by word. *)
Definition outcome_word (w : list Event * Stage) : bool :=
  negb (contains [Committed; RolledBack] (snd w))
  || ((dispatches (fst w) =? 1) && (2 <=? length (fst w))%nat && (length (fst w) <=? 4)%nat).

Lemma outcome_words w :
  w ∈ executions -> terminal_stage (snd w) ->
  dispatches (fst w) = 1 /\ 2 <= length (fst w) <= 4.
Proof.
  intros Hin Ht. assert (Hall : forallb outcome_word executions = true) by (vm_compute; reflexivity).
  rewrite forallb_forall in Hall. apply list_elem_of_In, Hall in Hin. unfold outcome_word in Hin.
  replace (contains [Committed; RolledBack] (snd w)) with true in Hin.
  2: { symmetry. apply contains_true. destruct Ht as [-> | ->]; set_solver. }
  cbn [negb orb] in Hin. apply andb_true_iff in Hin as [[Hd Hl]%andb_true_iff Hu].
  apply eqb_eq in Hd. apply Nat.leb_le in Hl, Hu. lia.
Qed.

Lemma contains_terminal stage :
  negb (contains [Committed; RolledBack] stage) = false <-> terminal_stage stage.
Proof. rewrite negb_false_iff, contains_true. unfold terminal_stage. set_solver. Qed.

Lemma terminal_ok self t :
  terminal self = Ok t <->
  xr_schema_version self = 1%Z /\ xr_kind self = EXECUTION_KIND /\ evidence_listed self /\
  3 <= length (xr_checkpoints self) <= 8 /\
  (exists s events, trace s events (xr_checkpoints self)) /\
  last (xr_checkpoints self) = Some t /\ terminal_stage (ck_stage t).
Proof.
  unfold terminal. rewrite guard_ok, !orb_false_iff, !neqb_false, !Nat.ltb_ge.
  rewrite trace_iff. unfold evidence_listed. rewrite <- size_eq_NoDup, existsb_Forall.
  setoid_rewrite negb_false_iff. rewrite !res_bind_unit_ok, res_bind_ok.
  setoid_rewrite guard_ok. setoid_rewrite contains_terminal.
  assert (Hl : forall x, ok_or "atomic execution has no terminal" (last (xr_checkpoints self)) = Ok x
            <-> last (xr_checkpoints self) = Some x).
  { intros x. destruct last; cbn; naive_solver. }
  setoid_rewrite Hl. split.
  - intros ((((((((? & ?) & ?) & ?) & ?) & ?) & ?) & ?) & ? & ? & x & ? & ? & [= ->]).
    split_and!; try done; try lia. by intros Hnil; rewrite Hnil in *; cbn in *; lia.
  - intros (? & ? & (? & ? & ?) & [? ?] & (? & ? & ? & ?) & ? & ?).
    split; [split_and!; try done; try congruence|]. split; [done|]. split; [done|]. by exists t.
Qed.

Lemma record_trace self t (Ht : terminal self = Ok t) :
  exists s events, trace s events (xr_checkpoints self) /\ history s events t /\
    dispatches events = 1 /\ 3 <= length (xr_checkpoints self) <= 5.
Proof.
  apply terminal_ok in Ht as (_ & _ & _ & _ & (s & events & Ht) & Hl & Hstage).
  exists s, events. pose proof (trace_last _ _ _ Ht) as (c & Hc & Hh & Hlen).
  rewrite Hl in Hc. simplify_eq.
  pose proof (history_execution _ _ _ Hh) as (_ & _ & Hin).
  destruct (outcome_words _ Hin Hstage) as [Hd Hb]. cbn in Hd, Hb.
  split; [done|]. split; [done|]. split; [done|]. lia.
Qed.

Lemma trace_inv s events before c :
  trace s events (before ++ [c])%list ->
  (before = [] /\ c = s /\ ck_stage s = Prepared) \/
  exists front d events' stage event previous receipt bookmark,
    before = (front ++ [d])%list /\ trace s events' (front ++ [d])%list /\
    next_stage (ck_stage d) event = Some stage /\
    hash_value (to_value d) = Ok previous /\ c = successor d stage previous receipt bookmark.
Proof.
  intros Ht. remember (before ++ [c])%list as l eqn:Hl.
  destruct Ht as [Hv Hs|events front d event r b next Ht Ha].
  - apply (app_inj_tail [] before) in Hl as [<- ->]. by left.
  - rewrite snoc_pair in Hl. apply app_inj_tail in Hl as [<- ->].
    apply advance_ok in Ha as (_ & stage & p & Hn & Hp & -> & _). right.
    by exists front, d, events, stage, event, p, r, b.
Qed.

Lemma trace_binds before :
  forall c s events s' events' before', trace s events (before ++ [c])%list ->
  trace s' events' (before' ++ [c])%list -> before = before' \/ collision.
Proof.
  induction before as [before IH] using (induction_ltof1 _ (@length Checkpoint)).
  intros c s events s' events' before' Ht Ht'.
  apply trace_inv in Ht as [(-> & -> & Hs)|(l & d & ev & stage & e & p & r & b & -> & Ht & Hn & Hp & Hc)];
    apply trace_inv in Ht' as
      [(-> & Hc' & Hs')|(l' & d' & ev' & stage' & e' & p' & r' & b' & -> & Ht' & Hn' & Hp' & Hc')].
  - by left.
  - subst. cbn in Hs. subst. by apply next_stage_prepared in Hn'.
  - subst. cbn in Hs'. subst. by apply next_stage_prepared in Hn.
  - rewrite Hc in Hc'. injection Hc' as Hpins. subst.
    destruct (hash_value_same _ _ _ Hp Hp') as [Heq|]; [|by right].
    apply (ser_inj (A := Checkpoint)) in Heq as <-; [|exact I..].
    destruct (IH l) with (2 := Ht) (3 := Ht') as [->|]; [|by left|by right].
    unfold ltof. rewrite length_app. cbn. lia.
Qed.

(** ** Properties *)

(** An execution record is accepted with terminal checkpoint [t] exactly
    when its storage evidence lists one distinct canonical hash per checkpoint
    and its checkpoints are, in order, those of an execution of the one-dispatch
    machine from a valid prepared checkpoint that ended in [t], committed or
    rolled back. Such an execution dispatched exactly once and has three to
    five checkpoints, so the bounds of three and eight are never what decides. *)
Theorem execution_record_iff self t :
  terminal self = Ok t <->
  xr_schema_version self = 1%Z /\ xr_kind self = EXECUTION_KIND /\ evidence_listed self /\
  exists s events, trace s events (xr_checkpoints self) /\
    last (xr_checkpoints self) = Some t /\ terminal_stage (ck_stage t) /\
    dispatches events = 1 /\ 3 <= length (xr_checkpoints self) <= 5.
Proof.
  split.
  - intros Ht. pose proof (record_trace _ _ Ht) as (s & events & ? & _ & ?).
    apply terminal_ok in Ht as (? & ? & ? & _ & _ & ? & ?).
    split; [done|]. split; [done|]. split; [done|]. by exists s, events.
  - intros (? & ? & ? & s & events & ? & ? & ? & _ & ?). apply terminal_ok.
    split_and!; try done; try lia. by exists s, events.
Qed.

(** The terminal checkpoint fixes the record. Two accepted records with the
    same terminal checkpoint list the same checkpoints, or SHA-256 collided: no
    checkpoint before the outcome can be dropped, inserted or substituted. *)
Theorem terminal_fixes_record self other t :
  terminal self = Ok t -> terminal other = Ok t ->
  xr_checkpoints self = xr_checkpoints other \/ collision.
Proof.
  intros (_ & _ & _ & _ & (s & events & Hs) & Hl & _)%terminal_ok
         (_ & _ & _ & _ & (s' & events' & Hs') & Hl' & _)%terminal_ok.
  apply last_Some in Hl as [l Hl], Hl' as [l' Hl']. rewrite Hl in Hs |- *. rewrite Hl' in Hs' |- *.
  destruct (trace_binds _ _ _ _ _ _ _ Hs Hs') as [->|]; [by left|by right].
Qed.

(** The outcome a receipt reports: an import that failed carries the hash of the
    provider's error, one that succeeded carries none. *)
Definition outcome_reported (stage : Stage) (error : option string) : Prop :=
  match stage with
  | Committed => error = None
  | RolledBack => exists hash, error = Some hash /\ canonical_digest hash = true
  | _ => False
  end.

(** A poll that continues the import runs under an operation of its own. *)
Definition continuation_fits (operation : string) (continuation : option PollContinuation) : Prop :=
  forall c, continuation = Some c ->
    is_someb (uuid_hyphenated (pc_operation_id c)) = true /\
    Forall (fun hash => canonical_digest hash = true)
      [pc_plan_hash c; pc_parent_checkpoint_sha256 c; pc_bookmark_sha256 c] /\
    pc_operation_id c <> operation.

Lemma outcome_reported_iff stage error :
  match stage with
  | Committed => is_someb error
  | RolledBack => is_none_or error (fun hash => negb (canonical_digest hash))
  | _ => true
  end = false <-> outcome_reported stage error.
Proof.
  unfold outcome_reported. destruct stage, error; cbn; rewrite ?negb_false_iff; naive_solver.
Qed.

Lemma continuation_fits_iff operation continuation :
  is_some_and continuation (fun c =>
    negb (is_ok (continuation_validate c)) || (pc_operation_id c =? operation)) = false <->
  continuation_fits operation continuation.
Proof.
  unfold continuation_fits. destruct continuation as [c|]; cbn [is_some_and]; [|naive_solver].
  rewrite orb_false_iff, negb_false_iff, is_ok_tt, eqb_false. unfold continuation_validate.
  rewrite guard_unit_ok, orb_false_iff, existsb_Forall. setoid_rewrite negb_false_iff.
  split; [by intros [[? ?] ?] ? [= <-]|]. intros Hc. by destruct (Hc c eq_refl) as (? & ? & ?).
Qed.

(** A native import receipt fits an accepted execution record exactly when it
    names the operation, the execution bytes, the outcome and the bookmark of
    the terminal checkpoint, the database it was asked about, carries a
    provider error just when the import was rolled back, and any poll that
    continued it ran under another operation. *)
Theorem transport_receipt_iff record t receipt database (Ht : terminal record = Ok t) :
  transport_receipt_validate receipt t database = Ok tt <->
  tr_schema_version receipt = 1%Z /\ tr_kind receipt = TRANSPORT_RECEIPT_KIND /\
  tr_transport receipt = TRANSPORT /\ tr_database_id receipt = database /\
  tr_operation_id receipt = ck_operation_id t /\
  tr_execution_sha256 receipt = id_execution_sha256 (ck_identity t) /\
  tr_stage receipt = ck_stage t /\ Some (tr_bookmark_sha256 receipt) = ck_bookmark_sha256 t /\
  outcome_reported (tr_stage receipt) (tr_provider_error_evidence_hash receipt) /\
  continuation_fits (tr_operation_id receipt) (tr_continuation receipt).
Proof.
  apply record_trace in Ht as (s & events & _ & (Hv & _)%history_execution & _).
  unfold transport_receipt_validate.
  rewrite guard_ok, !orb_false_iff, !neqb_false, outcome_reported_iff, continuation_fits_iff.
  rewrite Hv. naive_solver.
Qed.

(** The reviewed assurance policy of a managed migration is accepted exactly
    when it is for this account, database and target, and its lists are
    arrangements of the two accepted gaps and of the seven cumulative controls:
    nothing is waived beyond the two gaps and no control is left out or
    repeated. *)
Theorem managed_policy_iff policy account database target :
  managed_policy_validate policy account database target = Ok tt <->
  tmp_schema_version policy = 1%Z /\ tmp_mode policy = "managed_d1_application_v1" /\
  trim_is_empty (tmp_release_id policy) = false /\
  tmp_account_id policy = account /\ tmp_database_id policy = database /\
  tmp_target_sequence policy = tt_sequence target /\
  tmp_migration_sha256 policy = ts_sha256 (tt_source target) /\
  canonical_digest (tmp_migration_sha256 policy) = true /\
  tmp_accepted_unobserved_properties policy ≡ₚ unobserved_properties /\
  tmp_required_controls policy ≡ₚ cumulative_controls.
Proof.
  unfold managed_policy_validate.
  rewrite guard_unit_ok, !orb_false_iff, !neqb_false, !negb_false_iff.
  rewrite <- !distinct_set_Permutation by (apply (bool_decide_unpack _); vm_compute; exact I).
  tauto.
Qed.
End Properties.

(** ** Witnesses *)

#[local] Instance demo_hex : RuntimeHex.
Proof. intros s. apply hex_digits_lower. Qed.

Fixpoint run_all (c : Checkpoint) (events : list (Event * option string)) : list Checkpoint :=
  c :: match events with
       | [] => []
       | (event, evidence) :: events =>
           match advance c event evidence evidence with
           | Ok next => run_all next events
           | Err _ => []
           end
       end.

Definition sample_record : ExecutionRecord := Eval vm_compute in {|
  xr_schema_version := 1;
  xr_kind := EXECUTION_KIND;
  xr_checkpoints := run_all sample_prepared sample_events;
  xr_checkpoint_evidence_hashes :=
    map (fun stage => "sha256:" ++ digest_hex stage)%string ["a"; "b"; "c"; "d"]
|}.

Example sample_record_committed : terminal sample_record = Ok sample_committed.
Proof. vm_compute. reflexivity. Qed.

(** A dropped checkpoint, an unreconciled record and a repeated evidence hash. *)
Definition drop_checkpoint (i : nat) (record : ExecutionRecord) : ExecutionRecord := {|
  xr_schema_version := xr_schema_version record;
  xr_kind := xr_kind record;
  xr_checkpoints := delete i (xr_checkpoints record);
  xr_checkpoint_evidence_hashes := delete i (xr_checkpoint_evidence_hashes record)
|}.

Example dropped_checkpoints_are_noticed :
  map (fun i => terminal (drop_checkpoint i sample_record)) [0; 1; 2; 3] =
  [Err "atomic execution record has invalid kind, bound or initial stage";
   Err "atomic checkpoint chain contains a replay or impossible transition";
   Err "atomic checkpoint identity or predecessor was substituted";
   Err "atomic execution remains uncertain or incomplete"].
Proof. vm_compute. reflexivity. Qed.

Lemma terminal_fixes_record_witness :
  xr_checkpoints sample_record = xr_checkpoints sample_record \/ collision.
Proof.
  exact (terminal_fixes_record _ _ _ sample_record_committed sample_record_committed).
Defined.

Definition sample_receipt : TransportReceipt := {|
  tr_schema_version := 1;
  tr_kind := TRANSPORT_RECEIPT_KIND;
  tr_operation_id := ck_operation_id sample_committed;
  tr_database_id := id_database_id (ck_identity sample_committed);
  tr_transport := TRANSPORT;
  tr_execution_sha256 := id_execution_sha256 (ck_identity sample_committed);
  tr_stage := Committed;
  tr_bookmark_sha256 := sample_digest;
  tr_provider_error_evidence_hash := None;
  tr_continuation := None
|}.

Lemma transport_receipt_iff_witness :
  transport_receipt_validate sample_receipt sample_committed
    (id_database_id (ck_identity sample_committed)) = Ok tt.
Proof.
  apply (proj2 (transport_receipt_iff sample_record sample_committed sample_receipt
    (id_database_id (ck_identity sample_committed)) sample_record_committed)).
  do 9 (split; [vm_compute; reflexivity|]). discriminate.
Defined.
