(* ===== verification/TransitionQualification.v ===== *)
(** The synthetic qualification of a D1 transition: the ten-case matrix and its
    targets (crates/cfctl-core/src/workspace_d1/transition/proofs.rs), the
    committed qualification pack (transition/admission.rs) and the targets
    derived from created resources (transition/admission/resource.rs). *)

From Stdlib Require Import String Ascii ZArith Lia List Bool.
From stdpp Require Import base option list strings gmap.
From S2P Require Import Prelude Strings Btree Json JsonOps Core CatalogTypes WorkspaceTypes.
From S2P Require Import Capability Transition Demo Execution TransitionProofs.

Open Scope cf_scope.
Open Scope string_scope.
Open Scope cf_scope.

(** ** The case matrix *)

Inductive Case : Type :=
| Case_Success
| Case_MigrationFailure
| Case_LedgerFailure
| Case_CleanupFailure
| Case_ConcurrentPopulation
| Case_InterruptedResponse
| Case_FullScanAccessPath
| Case_ExactSchemaFormat
| Case_PerformanceBound
| Case_PreservationFailure.
#[export] Instance Case_eq_dec : EqDecision Case.
Proof. solve_decision. Defined.

(** [Case::is_failure] *)
Definition is_failure (self : Case) : bool :=
  contains [Case_MigrationFailure; Case_LedgerFailure; Case_CleanupFailure;
            Case_PreservationFailure] self.

Definition REQUIRED_CASES : list Case :=
  [Case_Success; Case_MigrationFailure; Case_LedgerFailure; Case_CleanupFailure;
   Case_ConcurrentPopulation; Case_InterruptedResponse; Case_FullScanAccessPath;
   Case_ExactSchemaFormat; Case_PerformanceBound; Case_PreservationFailure].

#[export] Program Instance Case_countable : Countable Case :=
  inj_countable (fun x => index_in x REQUIRED_CASES) (fun n => REQUIRED_CASES !! n) _.
Next Obligation. intros x. apply index_in_lookup. destruct x; set_solver. Qed.

Inductive PopulationPhase : Type :=
| PopulationPhase_Before
| PopulationPhase_After.

Record ConcurrentSource : Type := mkConcurrentSource {
  cs_writer : TransitionSource;
  cs_writer_bytes : Z;
  cs_post_writer_inventory : TransitionObservation;
  cs_expected_post_writer_state_sha256 : string;
}.
#[export] Instance ConcurrentSource_eq_dec : EqDecision ConcurrentSource.
Proof. solve_decision. Defined.

Record ConcurrentCase : Type := mkConcurrentCase {
  cc_source : ConcurrentSource;
  cc_writer : EffectRef;
  cc_post_writer_observation : ProofRef;
}.

Record CaseRef : Type := mkCaseRef {
  cr_case : Case;
  cr_effect : EffectRef;
  cr_before : ProofRef;
  cr_after : ProofRef;
  cr_synthetic_database_id : string;
  cr_fixture_sha256 : string;
  cr_fixture_bytes : Z;
  cr_failure_sentinel : option string;
  cr_performance_max_seconds : option Z;
  cr_concurrency : option ConcurrentCase;
  cr_before_population_inventory : TransitionObservation;
  cr_after_population_inventory : TransitionObservation;
  cr_expected_after_state_sha256 : string;
}.

(** [CaseRef::inventory] *)
Definition case_inventory (self : CaseRef) (phase : PopulationPhase) : TransitionObservation :=
  match phase with
  | PopulationPhase_Before => cr_before_population_inventory self
  | PopulationPhase_After => cr_after_population_inventory self
  end.

Definition observation_ok (observation : TransitionObservation) : bool :=
  canonical_digest (ts_sha256 (to_inventory observation))
  && lower_hex_of (ts_git_blob_oid (to_inventory observation)) 40
  && negb (is_empty (to_capability_id observation)).

(** [ConcurrentSource::validate] *)
Definition concurrent_source_validate (self : ConcurrentSource) : Checked unit :=
  guard (negb (canonical_digest (ts_sha256 (cs_writer self)))
         || negb (lower_hex_of (ts_git_blob_oid (cs_writer self)) 40)
         || (cs_writer_bytes self =? 0)%Z
         || (MAX_ENVELOPE_BYTES <? cs_writer_bytes self)%Z
         || negb (observation_ok (cs_post_writer_inventory self))
         || negb (canonical_digest (cs_expected_post_writer_state_sha256 self)))
    "concurrent writer source and complete post-writer observation must be bound" (Ok tt).

Record QualificationTarget : Type := mkQualificationTarget {
  qt_identity : Identity;
  qt_case : Case;
  qt_synthetic_database_id : string;
  qt_fixture_sha256 : string;
  qt_fixture_bytes : Z;
  qt_failure_sentinel : option string;
  qt_performance_max_seconds : option Z;
  qt_concurrent_source : option ConcurrentSource;
  qt_before_population_inventory : TransitionObservation;
  qt_after_population_inventory : TransitionObservation;
  qt_expected_after_state_sha256 : string;
}.

(** [QualificationTarget::from_case] *)
Definition target_from_case (identity : Identity) (case : CaseRef) : QualificationTarget := {|
  qt_identity := identity;
  qt_case := cr_case case;
  qt_synthetic_database_id := cr_synthetic_database_id case;
  qt_fixture_sha256 := cr_fixture_sha256 case;
  qt_fixture_bytes := cr_fixture_bytes case;
  qt_failure_sentinel := cr_failure_sentinel case;
  qt_performance_max_seconds := cr_performance_max_seconds case;
  qt_concurrent_source := option_map cc_source (cr_concurrency case);
  qt_before_population_inventory := cr_before_population_inventory case;
  qt_after_population_inventory := cr_after_population_inventory case;
  qt_expected_after_state_sha256 := cr_expected_after_state_sha256 case
|}.

(** The part of the case rules that the target and the pack both write out: a
    failure case and only a failure case has a sentinel, only the performance
    case has a bound of seconds, and only the concurrent one a writer. *)
Definition sentinel_ok (sentinel : string) : bool :=
  (16 <=? String.length sentinel)%nat && (String.length sentinel <=? 128)%nat
  && bytes_all (fun b => is_ascii_uppercase b || is_ascii_digit b || (byte b =? 95)%N) sentinel.

Definition case_extras_differ (case : Case) (failure_sentinel : option string)
    (performance_max_seconds : option Z) (concurrent_source : option ConcurrentSource) : bool :=
  (is_failure case <>? is_someb failure_sentinel)
  || is_some_and failure_sentinel (fun sentinel => negb (sentinel_ok sentinel))
  || ((case =? Case_PerformanceBound) <>? is_someb performance_max_seconds)
  || is_some_and performance_max_seconds (fun seconds => (seconds =? 0)%Z || (600 <? seconds)%Z)
  || ((case =? Case_ConcurrentPopulation) <>? is_someb concurrent_source).

Section Targets.
Context `{Runtime}.

(** [QualificationTarget::validate] *)
Definition target_validate (self : QualificationTarget) : Checked unit :=
  let? _ := identity_validate (qt_identity self) in
  guard (case_extras_differ (qt_case self) (qt_failure_sentinel self)
           (qt_performance_max_seconds self) (qt_concurrent_source self)
         || is_some_and (qt_concurrent_source self) (fun source =>
              negb (is_ok (concurrent_source_validate source))))
    "case-specific source requirements are missing or contradict the selected case" (
  guard ((qt_synthetic_database_id self =? id_database_id (qt_identity self))
         || is_noneb (uuid_hyphenated (qt_synthetic_database_id self))
         || (qt_fixture_bytes self =? 0)%Z
         || (MAX_ENVELOPE_BYTES <? qt_fixture_bytes self)%Z
         || negb (canonical_digest (qt_fixture_sha256 self))
         || negb (canonical_digest (qt_expected_after_state_sha256 self))
         || existsb (fun observation => negb (observation_ok observation))
              [qt_before_population_inventory self; qt_after_population_inventory self]
         || (is_failure (qt_case self)
             && (qt_before_population_inventory self <>? qt_after_population_inventory self)))
    "synthetic qualification target is malformed or selects production" (Ok tt)).

Record Qualification : Type := mkQualification {
  qu_schema_version : Z;
  qu_kind : string;
  qu_identity : Identity;
  qu_transport : string;
  qu_max_execution_bytes : Z;
  qu_cases : list CaseRef;
}.

Definition QUALIFICATION_KIND : string := "workspace_d1_transition_qualification_v2".
Definition QUALIFICATION_SCHEMA_VERSION : Z := 2.

(** [iter().max()] *)
Definition max_of (l : list Z) : option Z :=
  match l with
  | [] => None
  | x :: l => Some (fold_left Z.max l x)
  end.

(** The closure of [self.cases.iter().any(..)]. *)
Definition case_differs (expected : Identity) (bytes : Z) (case : CaseRef) : bool :=
  negb (is_ok (target_validate (target_from_case expected case)))
  || (cr_synthetic_database_id case =? id_database_id expected)
  || is_noneb (uuid_hyphenated (cr_synthetic_database_id case))
  || (cr_fixture_bytes case =? 0)%Z
  || (MAX_ENVELOPE_BYTES <? cr_fixture_bytes case)%Z
  || ((cr_case case =? Case_PerformanceBound) && (cr_fixture_bytes case <? bytes)%Z)
  || negb (canonical_digest (cr_fixture_sha256 case))
  || negb (canonical_digest (cr_expected_after_state_sha256 case))
  || (cr_before case =? cr_after case).

(** [Qualification::validate] *)
Definition qualification_validate (self : Qualification) (expected : Identity) (bytes : Z)
    : Checked unit :=
  let cases : gset Case := list_to_set (map cr_case (qu_cases self)) in
  guard ((qu_schema_version self <>? QUALIFICATION_SCHEMA_VERSION)
         || (qu_kind self <>? QUALIFICATION_KIND)
         || (qu_identity self <>? expected)
         || (qu_transport self <>? TRANSPORT)
         || (qu_max_execution_bytes self <? bytes)%Z
         || (MAX_ENVELOPE_BYTES <? qu_max_execution_bytes self)%Z
         || (max_of (map cr_fixture_bytes (qu_cases self))
             <>? Some (qu_max_execution_bytes self))
         || (cases <>? list_to_set REQUIRED_CASES)
         || (size cases <>? length (qu_cases self))
         || existsb (case_differs expected bytes) (qu_cases self))
    "qualification identity, bounded transport or exact synthetic matrix differs" (
  identity_validate expected).
End Targets.

(** ** The committed pack *)

Definition CONTRACT : string := "workspace_d1_transition_qualification_v1".

Inductive Role : Type :=
| Role_Create
| Role_Seed
| Role_Execute
| Role_Writer
| Role_Poll
| Role_Cleanup
| Role_Population
| Role_Aggregate
| Role_Policy.
#[export] Instance Role_eq_dec : EqDecision Role.
Proof. solve_decision. Defined.

Definition REQUIRED_ROLES : list Role :=
  [Role_Create; Role_Seed; Role_Execute; Role_Writer; Role_Poll; Role_Cleanup;
   Role_Population; Role_Aggregate; Role_Policy].

#[export] Program Instance Role_countable : Countable Role :=
  inj_countable (fun x => index_in x REQUIRED_ROLES) (fun n => REQUIRED_ROLES !! n) _.
Next Obligation. intros x. apply index_in_lookup. destruct x; set_solver. Qed.

(** [Role::path] *)
Definition role_path (self : Role) : string :=
  match self with
  | Role_Create => "workspace:d1-transition-create-v1"
  | Role_Seed => "workspace:d1-transition-seed-v1"
  | Role_Execute => "workspace:d1-transition-qualification-v1"
  | Role_Writer => "workspace:d1-transition-writer-v1"
  | Role_Poll => "workspace:d1-transition-poll-v1"
  | Role_Cleanup => "workspace:d1-transition-cleanup-v1"
  | Role_Population => "workspace:d1-transition-population-v1"
  | Role_Aggregate => "workspace:d1-transition-aggregate-v1"
  | Role_Policy => "workspace:d1-assurance-policy-v1"
  end.

(** [Role::mutates] *)
Definition role_mutates (self : Role) : bool :=
  negb (contains [Role_Population; Role_Aggregate] self).

Record PackOperation : Type := mkPackOperation {
  po_id : string;
  po_title : string;
  po_description : string;
  po_role : Role;
}.

Record CaseSource : Type := mkCaseSource {
  ca_case : Case;
  ca_resource_name : string;
  ca_seed : TransitionSource;
  ca_execution : TransitionSource;
  ca_before : TransitionObservation;
  ca_after : TransitionObservation;
  ca_before_oracle : TransitionSource;
  ca_after_oracle : TransitionSource;
  ca_expected_before_state_sha256 : string;
  ca_expected_after_state_sha256 : string;
  ca_failure_sentinel : option string;
  ca_performance_max_seconds : option Z;
  ca_concurrent_source : option ConcurrentSource;
  ca_post_writer_oracle : option TransitionSource;
}.

Record Pack : Type := mkPack {
  pk_schema_version : Z;
  pk_contract : string;
  pk_transition_operation_id : string;
  pk_maximum_live_databases : Z;
  pk_maximum_database_lifetimes : Z;
  pk_resets_allowed : bool;
  pk_operation : list PackOperation;
  pk_cases : list CaseSource;
}.

Definition valid_id (value : string) : bool :=
  negb (is_empty value) && (String.length value <=? 160)%nat
  && bytes_all (fun b => is_ascii_alphanumeric b
       || ((byte b =? 46) || (byte b =? 95) || (byte b =? 45))%N) value.

(** [source(value)]: a relative path without dot segments, with its hashes. *)
Definition source_ok (value : TransitionSource) : bool :=
  negb (is_empty (ts_path value))
  && negb (starts_with (ts_path value) "/")
  && negb (str_contains (ts_path value) "\")
  && forallb (fun p => negb (is_empty p) && (p <>? ".") && (p <>? ".."))
       (split_on "/" (ts_path value))
  && canonical_digest (ts_sha256 value)
  && lower_hex_of (ts_git_blob_oid value) 40.

Definition safe_name (name : string) : bool :=
  negb (is_empty name) && (String.length name <=? 64)%nat
  && bytes_all (fun b => is_ascii_lowercase b || is_ascii_digit b || (byte b =? 45)%N) name.

(** [CaseSource::validate] *)
Definition case_source_validate (population_id : string) (self : CaseSource) : Checked unit :=
  guard (negb (safe_name (ca_resource_name self))
         || existsb (fun value => negb (source_ok value))
              [ca_seed self; ca_execution self; to_inventory (ca_before self);
               to_inventory (ca_after self); ca_before_oracle self; ca_after_oracle self]
         || (to_capability_id (ca_before self) <>? population_id)
         || (to_capability_id (ca_after self) <>? population_id)
         || negb (canonical_digest (ca_expected_before_state_sha256 self))
         || negb (canonical_digest (ca_expected_after_state_sha256 self))
         || (is_failure (ca_case self)
             && ((to_inventory (ca_before self) <>? to_inventory (ca_after self))
                 || (ca_expected_before_state_sha256 self
                     <>? ca_expected_after_state_sha256 self)))
         || case_extras_differ (ca_case self) (ca_failure_sentinel self)
              (ca_performance_max_seconds self) (ca_concurrent_source self)
         || (is_someb (ca_concurrent_source self) <>? is_someb (ca_post_writer_oracle self))
         || is_some_and (ca_post_writer_oracle self) (fun value => negb (source_ok value)))
    "qualification case source, oracle, fault or bounded lifetime is invalid" (
  match ca_concurrent_source self with
  | None => Ok tt
  | Some writer =>
      let? _ := concurrent_source_validate writer in
      guard ((to_capability_id (cs_post_writer_inventory writer) <>? population_id)
             || negb (source_ok (cs_writer writer))
             || negb (source_ok (to_inventory (cs_post_writer_inventory writer))))
        "qualification writer source or population binding differs" (Ok tt)
  end).

(** [Pack::validate] *)
Definition pack_validate (self : Pack) : Checked unit :=
  let roles : gset Role := list_to_set (map po_role (pk_operation self)) in
  let ids : gset string := list_to_set (map po_id (pk_operation self)) in
  guard ((pk_schema_version self <>? 1)%Z
         || (pk_contract self <>? CONTRACT)
         || negb (valid_id (pk_transition_operation_id self))
         || (pk_maximum_live_databases self <>? 1)%Z
         || (pk_maximum_database_lifetimes self <>? 10)%Z
         || pk_resets_allowed self
         || (length (pk_operation self) <>? length REQUIRED_ROLES)
         || (roles <>? list_to_set REQUIRED_ROLES)
         || (size ids <>? length (pk_operation self))
         || existsb (fun op =>
              negb (valid_id (po_id op)) || (po_id op =? pk_transition_operation_id self)
              || trim_is_empty (po_title op) || trim_is_empty (po_description op))
              (pk_operation self))
    "qualification pack version, identity, roles or resource bounds differ" (
  let? population := ok_or "qualification population operation missing"
                       (find (fun op => po_role op =? Role_Population) (pk_operation self)) in
  let cases : gset Case := list_to_set (map ca_case (pk_cases self)) in
  let names : gset string := list_to_set (map ca_resource_name (pk_cases self)) in
  guard ((length (pk_cases self) <>? 10) || (cases <>? list_to_set REQUIRED_CASES)
         || (size names <>? 10))
    "qualification pack requires ten distinct case resource lifetimes" (
  for_each (case_source_validate (po_id population)) (pk_cases self))).

(** ** Targets derived from created resources *)

Record Resource : Type := mkResource {
  re_schema_version : Z;
  re_identity : Identity;
  re_qualification_pack_sha256 : string;
  re_case : Case;
  re_resource_name : string;
  re_create : EffectRef;
  re_create_plan_sha256 : string;
  re_database_id : string;
}.

Inductive ReadPhase : Type :=
| ReadPhase_Before
| ReadPhase_After
| ReadPhase_PostWriter.

(** [impl From<PopulationPhase> for ReadPhase] *)
Definition read_phase_of (value : PopulationPhase) : ReadPhase :=
  match value with
  | PopulationPhase_Before => ReadPhase_Before
  | PopulationPhase_After => ReadPhase_After
  end.

(** [ReadPhase::observation] *)
Definition phase_observation (self : ReadPhase) (source : CaseSource)
    : Checked TransitionObservation :=
  match self with
  | ReadPhase_Before => Ok (ca_before source)
  | ReadPhase_After => Ok (ca_after source)
  | ReadPhase_PostWriter =>
      ok_or "post-writer reads require the committed concurrent case"
        (option_map cs_post_writer_inventory (ca_concurrent_source source))
  end.

(** [ReadPhase::expected_state] *)
Definition phase_expected_state (self : ReadPhase) (source : CaseSource) : Checked string :=
  match self with
  | ReadPhase_Before => Ok (ca_expected_before_state_sha256 source)
  | ReadPhase_After => Ok (ca_expected_after_state_sha256 source)
  | ReadPhase_PostWriter =>
      ok_or "post-writer oracle requires the committed concurrent case"
        (option_map cs_expected_post_writer_state_sha256 (ca_concurrent_source source))
  end.

Record PopulationRequest : Type := mkPopulationRequest {
  pq_schema_version : Z;
  pq_case : Case;
  pq_phase : ReadPhase;
  pq_create : EffectRef;
  pq_expected_credential_generation_id : string;
}.

Record SeedTarget : Type := mkSeedTarget {
  sd_resource : Resource;
  sd_source : TransitionSource;
  sd_bytes : Z;
}.

Record SeededCleanupTarget : Type := mkSeededCleanupTarget {
  ct_schema_version : Z;
  ct_resource : Resource;
  ct_seed : EffectRef;
  ct_terminal : CaseRef;
}.

Section Resources.
Context `{Runtime}.

Definition is_canonical_uuid (value : string) : bool :=
  is_some_and (uuid_hyphenated value) (fun id => id =? value).

(** [effect(reference)] *)
Definition effect_ok (reference : EffectRef) : bool :=
  is_canonical_uuid (er_operation_id reference) && canonical_digest (er_evidence_hash reference).

(** [Resource::validate] *)
Definition resource_validate (self : Resource) (pack : Pack) (expected : Identity)
    (qualification_pack_sha256 : string) : Checked CaseSource :=
  let? _ := pack_validate pack in
  let? _ := identity_validate expected in
  let? source := ok_or "synthetic case is not in the frozen pack"
                   (find (fun source => ca_case source =? re_case self) (pk_cases pack)) in
  guard ((re_schema_version self <>? 1)%Z
         || (re_identity self <>? expected)
         || (re_qualification_pack_sha256 self <>? qualification_pack_sha256)
         || negb (canonical_digest qualification_pack_sha256)
         || negb (canonical_digest (re_create_plan_sha256 self))
         || negb (effect_ok (re_create self))
         || negb (is_canonical_uuid (re_database_id self))
         || (re_database_id self =? id_database_id expected)
         || (re_resource_name self <>? ca_resource_name source))
    "synthetic resource source, create lineage or isolation differs" (Ok source).

Definition population_request_validate (self : PopulationRequest) : Checked unit :=
  guard ((pq_schema_version self <>? 1)%Z
         || negb (effect_ok (pq_create self))
         || negb (is_canonical_uuid (pq_expected_credential_generation_id self)))
    "synthetic population request version, create or credential generation differs" (Ok tt).

(** [SeedTarget::validate] *)
Definition seed_target_validate (self : SeedTarget) (pack : Pack) (identity : Identity)
    (pack_sha256 : string) (seed_bytes : Z) : Checked unit :=
  let? case := resource_validate (sd_resource self) pack identity pack_sha256 in
  guard ((sd_source self <>? ca_seed case) || (sd_bytes self <>? seed_bytes)
         || (seed_bytes =? 0)%Z || (MAX_ENVELOPE_BYTES <? seed_bytes)%Z)
    "seed target substituted committed source or byte length" (Ok tt).

(** [SeededCleanupTarget::validate] *)
Definition cleanup_target_validate (self : SeededCleanupTarget) (pack : Pack)
    (identity : Identity) (pack_sha256 : string) (execution_bytes : Z) : Checked unit :=
  let resource := ct_resource self in
  let? source := resource_validate resource pack identity pack_sha256 in
  let case := ct_terminal self in
  guard ((ct_schema_version self <>? 1)%Z
         || negb (effect_ok (ct_seed self))
         || negb (effect_ok (cr_effect case))
         || (er_operation_id (re_create resource) =? er_operation_id (ct_seed self))
         || (er_operation_id (re_create resource) =? er_operation_id (cr_effect case))
         || (er_operation_id (ct_seed self) =? er_operation_id (cr_effect case))
         || (cr_case case <>? ca_case source)
         || (cr_synthetic_database_id case <>? re_database_id resource)
         || (cr_fixture_sha256 case <>? ts_sha256 (ca_execution source))
         || (cr_fixture_bytes case <>? execution_bytes)
         || (cr_before_population_inventory case <>? ca_before source)
         || (cr_after_population_inventory case <>? ca_after source)
         || (cr_expected_after_state_sha256 case <>? ca_expected_after_state_sha256 source)
         || (cr_failure_sentinel case <>? ca_failure_sentinel source)
         || (cr_performance_max_seconds case <>? ca_performance_max_seconds source)
         || (option_map cc_source (cr_concurrency case) <>? ca_concurrent_source source))
    "seeded cleanup substituted a resource, source or terminal case" (Ok tt).
End Resources.

(** ** Specification *)

(** The optional parts of a case: a sentinel for the failures, a bound of
    seconds for the performance case, a writer for the concurrent one. *)
Record extras_fit (case : Case) (sentinel : option string) (seconds : option Z)
    (writer : option ConcurrentSource) : Prop := {
  fit_sentinel : is_someb sentinel = is_failure case;
  fit_sentinel_shape : forall s, sentinel = Some s -> sentinel_ok s = true;
  fit_seconds : is_someb seconds = (case =? Case_PerformanceBound);
  fit_seconds_bound : forall n, seconds = Some n -> n <> 0%Z /\ (n <= 600)%Z;
  fit_writer : is_someb writer = (case =? Case_ConcurrentPopulation);
}.

Record target_fit `{Runtime} (self : QualificationTarget) : Prop := {
  tf_identity : identity_validate (qt_identity self) = Ok tt;
  tf_extras : extras_fit (qt_case self) (qt_failure_sentinel self)
                (qt_performance_max_seconds self) (qt_concurrent_source self);
  tf_writer : forall w, qt_concurrent_source self = Some w -> concurrent_source_validate w = Ok tt;
  tf_not_production : qt_synthetic_database_id self <> id_database_id (qt_identity self);
  tf_uuid : is_someb (uuid_hyphenated (qt_synthetic_database_id self)) = true;
  tf_bytes : qt_fixture_bytes self <> 0%Z /\ (qt_fixture_bytes self <= MAX_ENVELOPE_BYTES)%Z;
  tf_fixture : canonical_digest (qt_fixture_sha256 self) = true;
  tf_state : canonical_digest (qt_expected_after_state_sha256 self) = true;
  tf_inventories : observation_ok (qt_before_population_inventory self) = true /\
                   observation_ok (qt_after_population_inventory self) = true;
  tf_unchanged : is_failure (qt_case self) = true ->
                 qt_before_population_inventory self = qt_after_population_inventory self;
}.

(** What the qualification demands of each case beyond the target rules. *)
Definition case_fit `{Runtime} (identity : Identity) (bytes : Z) (case : CaseRef) : Prop :=
  target_validate (target_from_case identity case) = Ok tt /\
  (cr_case case = Case_PerformanceBound -> (bytes <= cr_fixture_bytes case)%Z) /\
  cr_before case <> cr_after case.

(** ** Facts *)

Lemma REQUIRED_CASES_NoDup : NoDup REQUIRED_CASES.
Proof. apply (bool_decide_unpack _). vm_compute. exact I. Qed.

Lemma REQUIRED_ROLES_NoDup : NoDup REQUIRED_ROLES.
Proof. apply (bool_decide_unpack _). vm_compute. exact I. Qed.

Lemma neqb_eqb_false {A} `{EqDecision A} (x y : A) : (x <>? y) = false <-> y = x.
Proof. rewrite neqb_false. by split. Qed.

Lemma seconds_bound_iff n :
  (n =? 0)%Z || (600 <? n)%Z = false <-> n <> 0%Z /\ (n <= 600)%Z.
Proof. rewrite orb_false_iff, Z.eqb_neq, Z.ltb_ge. done. Qed.

Lemma is_some_and_false {A} (o : option A) (f : A -> bool) :
  is_some_and o f = false <-> forall a, o = Some a -> f a = false.
Proof. destruct o; cbn; naive_solver. Qed.

Lemma case_extras_iff case sentinel seconds writer :
  case_extras_differ case sentinel seconds writer = false <->
  extras_fit case sentinel seconds writer.
Proof.
  unfold case_extras_differ. rewrite !orb_false_iff, !neqb_eqb_false, !is_some_and_false.
  setoid_rewrite negb_false_iff. setoid_rewrite seconds_bound_iff.
  split; [by intros [[[[? ?] ?] ?] ?]|by intros []].
Qed.

Lemma noneb_false {A} (o : option A) : is_noneb o = false <-> is_someb o = true.
Proof. apply negb_false_iff. Qed.

Lemma writer_ok_iff (o : option ConcurrentSource) :
  is_some_and o (fun w => negb (is_ok (concurrent_source_validate w))) = false <->
  forall w, o = Some w -> concurrent_source_validate w = Ok tt.
Proof. rewrite is_some_and_negb_false. by setoid_rewrite is_ok_tt. Qed.

Section Facts.
Context `{Runtime}.

Lemma target_validate_ok self : target_validate self = Ok tt <-> target_fit self.
Proof.
  unfold target_validate. rewrite res_bind_unit_ok, guard_ok, guard_unit_ok.
  rewrite !orb_false_iff, case_extras_iff, writer_ok_iff, eqb_false, Z.eqb_neq, Z.ltb_ge.
  rewrite noneb_false, !negb_false_iff, existsb_Forall, !Forall_cons, !negb_false_iff.
  rewrite andb_false_iff, neqb_false. split.
  - intros (? & [? ?] & [[[[[[[? ?] ?] ?] ?] ?] (? & ? & _)] Hu]). split; try done.
    intros Hf. rewrite Hf in Hu. by destruct Hu.
  - intros [? ? ? ? ? [? ?] ? ? [? ?] Hu]. split_and!; try done.
    destruct (is_failure (qt_case self)); [right; by apply Hu|by left].
Qed.

Lemma fold_max_spec l x m :
  fold_left Z.max l x = m <->
  m ∈ x :: l /\ forall y, y ∈ x :: l -> (y <= m)%Z.
Proof.
  assert (Hmax : fold_left Z.max l x ∈ x :: l /\
                 forall y, y ∈ x :: l -> (y <= fold_left Z.max l x)%Z).
  { revert x. induction l as [|z l IH]; intros x; cbn.
    - split; [set_solver|]. intros y ->%list_elem_of_singleton. lia.
    - destruct (IH (Z.max x z)) as [Hin Hle]. split.
      + apply elem_of_cons in Hin as [->|Hin]; [|set_solver].
        destruct (Z.max_spec x z) as [[_ ->]|[_ ->]]; set_solver.
      + pose proof (Hle (Z.max x z) ltac:(set_solver)).
        intros y Hy. rewrite !elem_of_cons in Hy. destruct Hy as [->|[->|Hy]]; [lia|lia|].
        apply Hle. set_solver. }
  split; [by intros <-|]. intros [Hin Hle]. destruct Hmax as [Hm Hmle].
  apply Z.le_antisymm; auto.
Qed.

Lemma max_of_spec l m :
  max_of l = Some m <-> m ∈ l /\ forall y, y ∈ l -> (y <= m)%Z.
Proof.
  destruct l as [|x l]; cbn; [set_solver|]. rewrite <- fold_max_spec. naive_solver.
Qed.

(** Every further check of a case is one that its target already passed. *)
Lemma case_differs_false identity bytes case :
  case_differs identity bytes case = false <-> case_fit identity bytes case.
Proof.
  unfold case_differs, case_fit.
  rewrite !orb_false_iff, negb_false_iff, is_ok_tt, !negb_false_iff, noneb_false.
  rewrite !eqb_false, Z.eqb_neq, Z.ltb_ge. split.
  - intros ((((((((? & _) & _) & _) & _) & Hp) & _) & _) & ?). split; [done|]. split; [|done].
    intros Hc. rewrite (proj2 (eqb_true _ _) Hc) in Hp. cbn in Hp. by apply Z.ltb_ge in Hp.
  - intros (Ht & Hp & ?). pose proof Ht as [_ _ _ ? ? [? ?] ? ? _ _]%target_validate_ok.
    split_and!; try done. destruct (cr_case case =? Case_PerformanceBound) eqn:E; [|done].
    apply eqb_eq in E. by apply Z.ltb_ge, Hp.
Qed.
End Facts.

(** A list as long as [required] with the same set is an arrangement of it. *)
Lemma length_set_Permutation `{Countable A} (l required : list A) (Hr : NoDup required) :
  length l = length required /\ (list_to_set l : gset A) = list_to_set required <->
  l ≡ₚ required.
Proof.
  rewrite <- distinct_set_Permutation by done. rewrite distinct_true, <- size_eq_NoDup.
  apply size_eq_NoDup in Hr. split; intros [Hl Hs]; (split; [|done]); rewrite Hs in *; congruence.
Qed.

(** What [Pack::validate] establishes, with [population] the id of the operation
    that reads populations. *)
Record pack_fit `{Runtime} (self : Pack) (population : string) : Prop := {
  pf_version : pk_schema_version self = 1%Z /\ pk_contract self = CONTRACT;
  pf_bounds : pk_maximum_live_databases self = 1%Z /\
              pk_maximum_database_lifetimes self = 10%Z /\ pk_resets_allowed self = false;
  pf_transition : valid_id (pk_transition_operation_id self) = true;
  pf_roles : map po_role (pk_operation self) ≡ₚ REQUIRED_ROLES;
  pf_ids : NoDup (pk_transition_operation_id self :: map po_id (pk_operation self));
  pf_texts : Forall (fun op => valid_id (po_id op) = true /\ trim_is_empty (po_title op) = false /\
                               trim_is_empty (po_description op) = false) (pk_operation self);
  pf_population : exists op, op ∈ pk_operation self /\ po_role op = Role_Population /\
                             po_id op = population;
  pf_cases : map ca_case (pk_cases self) ≡ₚ REQUIRED_CASES;
  pf_names : NoDup (map ca_resource_name (pk_cases self));
  pf_sources : Forall (fun case => case_source_validate population case = Ok tt) (pk_cases self);
}.

Section Properties.
Context `{Runtime}.

Lemma operation_differs_false transition (op : PackOperation) :
  negb (valid_id (po_id op)) || (po_id op =? transition)
  || trim_is_empty (po_title op) || trim_is_empty (po_description op) = false <->
  transition <> po_id op /\
  (valid_id (po_id op) = true /\ trim_is_empty (po_title op) = false /\
   trim_is_empty (po_description op) = false).
Proof. rewrite !orb_false_iff, negb_false_iff, eqb_false. naive_solver. Qed.

Lemma find_population ops :
  map po_role ops ≡ₚ REQUIRED_ROLES ->
  exists op, find (fun op => po_role op =? Role_Population) ops = Some op /\
    op ∈ ops /\ po_role op = Role_Population.
Proof.
  intros Hp. destruct find as [op|] eqn:E.
  - apply find_some in E as [Hin Hr]. apply eqb_eq in Hr. apply list_elem_of_In in Hin. by exists op.
  - exfalso. assert (Hin : Role_Population ∈ map po_role ops) by (rewrite Hp; set_solver).
    apply list_elem_of_fmap in Hin as (op & Hr & Hin). apply list_elem_of_In in Hin.
    eapply find_none in E; [|exact Hin]. rewrite <- Hr in E. by rewrite eqb_refl in E.
Qed.

Lemma population_unique ops a b :
  map po_role ops ≡ₚ REQUIRED_ROLES -> a ∈ ops -> b ∈ ops -> po_role a = po_role b -> a = b.
Proof.
  intros Hp Ha Hb Hr. assert (Hn : NoDup (map po_role ops)) by (rewrite Hp; apply REQUIRED_ROLES_NoDup).
  apply list_elem_of_lookup in Ha as [i Hi], Hb as [j Hj].
  assert (i = j) as ->; [|congruence].
  eapply (NoDup_lookup _ _ _ (po_role a) Hn); rewrite list_lookup_fmap, ?Hi, ?Hj; cbn; congruence.
Qed.

Lemma matrix_iff {A B} `{Countable B} (f : A -> B) (l : list A) required (Hr : NoDup required) :
  (length l = length required /\ (list_to_set (map f l) : gset B) = list_to_set required) <->
  map f l ≡ₚ required.
Proof. by rewrite <- length_set_Permutation, length_map by done. Qed.

Lemma distinct_map_iff {A B} `{Countable B} (f : A -> B) (l : list A) :
  size (list_to_set (map f l) : gset B) = length l <-> NoDup (map f l).
Proof. by rewrite <- size_eq_NoDup, length_map. Qed.

Lemma Forall_apart {A B} (f : A -> B) x l :
  Forall (fun a => x <> f a) l <-> ~ x ∈ map f l.
Proof. rewrite Forall_forall, list_elem_of_fmap. naive_solver. Qed.

(** The second half of [Pack::validate], after the population operation. *)
Lemma pack_cases_iff cases population :
  guard ((length cases <>? 10)
         || ((list_to_set (map ca_case cases) : gset Case) <>? list_to_set REQUIRED_CASES)
         || (size (list_to_set (map ca_resource_name cases) : gset string) <>? 10))
    "qualification pack requires ten distinct case resource lifetimes"
    (for_each (case_source_validate population) cases) = Ok tt <->
  map ca_case cases ≡ₚ REQUIRED_CASES /\ NoDup (map ca_resource_name cases) /\
  Forall (fun case => case_source_validate population case = Ok tt) cases.
Proof.
  rewrite guard_ok, !orb_false_iff, !neqb_false, for_each_ok.
  rewrite <- (matrix_iff _ _ _ REQUIRED_CASES_NoDup), <- (distinct_map_iff ca_resource_name).
  change (length REQUIRED_CASES) with 10. intuition congruence.
Qed.

Lemma pack_validate_ok self :
  pack_validate self = Ok tt <-> exists population, pack_fit self population.
Proof.
  unfold pack_validate. rewrite guard_ok, !orb_false_iff, !neqb_false, !negb_false_iff.
  rewrite existsb_Forall. setoid_rewrite operation_differs_false.
  rewrite Forall_and, Forall_apart, distinct_map_iff, res_bind_ok.
  setoid_rewrite pack_cases_iff. split.
  - intros ((((((((((? & ?) & ?) & ?) & ?) & ?) & Hl) & Hr) & ?) & ? & ?) & op & Hop & ? & ? & ?).
    pose proof (proj1 (matrix_iff _ _ _ REQUIRED_ROLES_NoDup) (conj Hl Hr)) as Hroles.
    destruct (find_population _ Hroles) as (op' & Hf & Hin & Hpop). rewrite Hf in Hop.
    injection Hop as ->. exists (po_id op). split; try done; [by apply NoDup_cons|]. by exists op.
  - intros (population & [[? ?] (? & ? & ?) ? Hroles [? ?]%NoDup_cons ? (op & Hin & Hpop & <-) ? ? ?]).
    destruct (find_population _ Hroles) as (op' & Hf & Hin' & Hpop').
    rewrite (population_unique _ op op' Hroles) in * by congruence. rewrite Hf.
    apply (matrix_iff _ _ _ REQUIRED_ROLES_NoDup) in Hroles as [? ?].
    split; [by split_and!|]. by exists op'.
Qed.

Lemma resource_validate_ok self pack identity sha source :
  resource_validate self pack identity sha = Ok source <->
  pack_validate pack = Ok tt /\ identity_validate identity = Ok tt /\
  find (fun source => ca_case source =? re_case self) (pk_cases pack) = Some source /\
  re_schema_version self = 1%Z /\ re_identity self = identity /\
  re_qualification_pack_sha256 self = sha /\ canonical_digest sha = true /\
  canonical_digest (re_create_plan_sha256 self) = true /\ effect_ok (re_create self) = true /\
  is_canonical_uuid (re_database_id self) = true /\
  re_database_id self <> id_database_id identity /\
  re_resource_name self = ca_resource_name source.
Proof.
  unfold resource_validate. rewrite !res_bind_unit_ok.
  destruct find as [x|]; cbn [ok_or res_bind]; 
    [|split; [by intros (_ & _ & ?)|by intros (_ & _ & ? & _)]].
  rewrite guard_ok, !orb_false_iff, !neqb_false, !negb_false_iff, eqb_false. split.
  - by intros (? & ? & [[[[[[[[? ?] ?] ?] ?] ?] ?] ?] ?] & [= <-]).
  - by intros (? & ? & [= <-] & ? & ? & ? & ? & ? & ? & ? & ? & ?).
Qed.

(** What the case rules of a valid pack establish about a case. *)
Record source_fit (population : string) (self : CaseSource) : Prop := {
  sf_capabilities : to_capability_id (ca_before self) = population /\
                    to_capability_id (ca_after self) = population;
  sf_sources : Forall (fun value => source_ok value = true)
    [ca_seed self; ca_execution self; to_inventory (ca_before self);
     to_inventory (ca_after self); ca_before_oracle self; ca_after_oracle self];
  sf_states : canonical_digest (ca_expected_before_state_sha256 self) = true /\
              canonical_digest (ca_expected_after_state_sha256 self) = true;
  sf_unchanged : is_failure (ca_case self) = true -> ca_before self = ca_after self;
  sf_extras : extras_fit (ca_case self) (ca_failure_sentinel self)
                (ca_performance_max_seconds self) (ca_concurrent_source self);
  sf_writer : forall w, ca_concurrent_source self = Some w -> concurrent_source_validate w = Ok tt;
}.

Lemma case_source_fit population self :
  case_source_validate population self = Ok tt -> source_fit population self.
Proof.
  unfold case_source_validate. rewrite guard_ok, !orb_false_iff, case_extras_iff.
  rewrite !neqb_false, existsb_Forall, !negb_false_iff.
  intros ((((((((((_ & ?) & Hb) & Ha) & ?) & ?) & Hf) & ?) & _) & _) & Hw). split; try done.
  - eapply Forall_impl; [done|]. by intros value ?%negb_false_iff.
  - intros Hfail. rewrite Hfail in Hf. cbn [andb] in Hf.
    apply orb_false_iff in Hf as [Hi _]. rewrite neqb_false in Hi.
    destruct (ca_before self), (ca_after self). cbn in *. congruence.
  - intros w Hs. rewrite Hs in Hw. by apply res_bind_unit_ok in Hw as [? _].
Qed.

Lemma source_digests value : source_ok value = true ->
  canonical_digest (ts_sha256 value) = true /\ lower_hex_of (ts_git_blob_oid value) 40 = true.
Proof. unfold source_ok. rewrite !andb_true_iff. tauto. Qed.

Lemma observed_source observation population :
  source_ok (to_inventory observation) = true -> to_capability_id observation = population ->
  valid_id population = true -> observation_ok observation = true.
Proof.
  intros [Hs Hg]%source_digests <- [[Hid _]%andb_true_iff _]%andb_true_iff.
  unfold observation_ok. by rewrite Hs, Hg, Hid.
Qed.

Lemma resource_source_fit self pack identity sha source :
  resource_validate self pack identity sha = Ok source ->
  ca_case source = re_case self /\
  exists population, valid_id population = true /\ source_fit population source.
Proof.
  intros (Hp & _ & Hf & _)%resource_validate_ok.
  apply find_some in Hf as [Hin Hc]. split; [by apply eqb_eq in Hc|].
  apply pack_validate_ok in Hp as [population Hp]. exists population.
  destruct Hp as [_ _ _ _ _ Ht (op & Hop & _ & <-) _ _ Hs]. apply list_elem_of_In in Hin. split.
  - rewrite Forall_forall in Ht. by apply Ht in Hop as [? _].
  - rewrite Forall_forall in Hs. by apply case_source_fit, Hs.
Qed.

Lemma cleanup_target_ok self pack identity sha bytes :
  cleanup_target_validate self pack identity sha bytes = Ok tt <->
  exists source, resource_validate (ct_resource self) pack identity sha = Ok source /\
  let resource := ct_resource self in let case := ct_terminal self in
  (ct_schema_version self = 1%Z /\ effect_ok (ct_seed self) = true /\
   effect_ok (cr_effect case) = true) /\
  (er_operation_id (re_create resource) <> er_operation_id (ct_seed self) /\
   er_operation_id (re_create resource) <> er_operation_id (cr_effect case) /\
   er_operation_id (ct_seed self) <> er_operation_id (cr_effect case)) /\
  cr_case case = ca_case source /\ cr_synthetic_database_id case = re_database_id resource /\
  cr_fixture_sha256 case = ts_sha256 (ca_execution source) /\ cr_fixture_bytes case = bytes /\
  cr_before_population_inventory case = ca_before source /\
  cr_after_population_inventory case = ca_after source /\
  cr_expected_after_state_sha256 case = ca_expected_after_state_sha256 source /\
  cr_failure_sentinel case = ca_failure_sentinel source /\
  cr_performance_max_seconds case = ca_performance_max_seconds source /\
  option_map cc_source (cr_concurrency case) = ca_concurrent_source source.
Proof.
  unfold cleanup_target_validate. cbv zeta. rewrite res_bind_ok. apply exist_proper. intros source.
  rewrite guard_unit_ok, !orb_false_iff, !neqb_false, !negb_false_iff, !eqb_false. tauto.
Qed.

(** The terminal case of a cleanup target satisfies the rules of a
    qualification target. *)
Lemma cleanup_target_fit self pack identity sha bytes :
  cleanup_target_validate self pack identity sha bytes = Ok tt ->
  bytes <> 0%Z -> (bytes <= MAX_ENVELOPE_BYTES)%Z ->
  target_validate (target_from_case identity (ct_terminal self)) = Ok tt.
Proof.
  intros (source & Hr & _ & _ & Hc & Hdb & Hfx & Hb & Hbe & Haf & Hst & Hse & Hpe & Hcc)%cleanup_target_ok
    Hne Hle. pose proof (resource_source_fit _ _ _ _ _ Hr) as (Hcase & population & Hid & Hfit).
  apply resource_validate_ok in Hr as (_ & Hi & _ & _ & _ & _ & _ & _ & _ & Hu & Hprod & _).
  destruct Hfit as [[? ?] Hs [? ?] Hun Hex Hw].
  rewrite !Forall_cons in Hs. destruct Hs as (_ & Hx & Hib & Hia & _).
  apply target_validate_ok. split; cbn [target_from_case qt_identity qt_case qt_failure_sentinel
    qt_performance_max_seconds qt_concurrent_source qt_synthetic_database_id qt_fixture_bytes
    qt_fixture_sha256 qt_expected_after_state_sha256 qt_before_population_inventory
    qt_after_population_inventory];
    rewrite ?Hc, ?Hdb, ?Hfx, ?Hb, ?Hbe, ?Haf, ?Hst, ?Hse, ?Hpe, ?Hcc; try done.
  - unfold is_canonical_uuid in Hu. by destruct uuid_hyphenated.
  - by apply source_digests in Hx as [? _].
  - split; by eapply observed_source.
Qed.

(** The qualification that collects the terminal cases of cleanup targets. *)
Definition qualification_of (identity : Identity) (max_execution_bytes : Z)
    (targets : list SeededCleanupTarget) : Qualification := {|
  qu_schema_version := QUALIFICATION_SCHEMA_VERSION;
  qu_kind := QUALIFICATION_KIND;
  qu_identity := identity;
  qu_transport := TRANSPORT;
  qu_max_execution_bytes := max_execution_bytes;
  qu_cases := map ct_terminal targets
|}.

(** A target accepted for the bytes its own terminal case reports. *)
Definition accepted_cleanup (pack : Pack) (identity : Identity) (sha : string)
    (self : SeededCleanupTarget) : Prop :=
  cleanup_target_validate self pack identity sha (cr_fixture_bytes (ct_terminal self)) = Ok tt.

(** The resource of a target at another database. *)
Definition resource_at (database : string) (self : Resource) : Resource := {|
  re_schema_version := re_schema_version self;
  re_identity := re_identity self;
  re_qualification_pack_sha256 := re_qualification_pack_sha256 self;
  re_case := re_case self;
  re_resource_name := re_resource_name self;
  re_create := re_create self;
  re_create_plan_sha256 := re_create_plan_sha256 self;
  re_database_id := database
|}.

(** ** Properties *)

(** C33: a qualification is accepted exactly when it is for the expected identity
    and transport, its cases are the ten required ones in some order, each once,
    every case fits the target rules (a synthetic database that is not the
    production one, bound fixture and inventories, a failure case with its
    sentinel and an unchanged population), the largest fixture is the declared
    bound and covers the execution, and before and after proofs differ. The
    further per-case comparisons of the code never decide. *)
Theorem qualification_iff self expected bytes :
  qualification_validate self expected bytes = Ok tt <->
  qu_schema_version self = QUALIFICATION_SCHEMA_VERSION /\ qu_kind self = QUALIFICATION_KIND /\
  qu_identity self = expected /\ qu_transport self = TRANSPORT /\
  (bytes <= qu_max_execution_bytes self <= MAX_ENVELOPE_BYTES)%Z /\
  (qu_max_execution_bytes self ∈ map cr_fixture_bytes (qu_cases self) /\
   forall n, n ∈ map cr_fixture_bytes (qu_cases self) -> (n <= qu_max_execution_bytes self)%Z) /\
  map cr_case (qu_cases self) ≡ₚ REQUIRED_CASES /\
  Forall (case_fit expected bytes) (qu_cases self) /\
  identity_validate expected = Ok tt.
Proof.
  unfold qualification_validate. cbv zeta.
  rewrite guard_ok, !orb_false_iff, !neqb_false, !Z.ltb_ge, existsb_Forall, max_of_spec.
  rewrite <- (distinct_set_Permutation _ _ REQUIRED_CASES_NoDup), distinct_true, distinct_map_iff.
  setoid_rewrite case_differs_false. tauto.
Qed.

(** A pack that was carried through qualifies. Ten accepted cleanup targets,
    one for each case of a valid pack, whose fixtures are within the bounds and
    whose before and after proofs differ, make a qualification that is
    accepted: the rules of the pack are strong enough for those of the
    qualification, so a reviewed pack cannot fail on its sources. *)
Theorem completed_pack_qualifies pack identity sha targets bytes max
    (Hall : Forall (accepted_cleanup pack identity sha) targets)
    (Hcases : map (fun t => re_case (ct_resource t)) targets ≡ₚ REQUIRED_CASES)
    (Hfixtures : Forall (fun t => cr_fixture_bytes (ct_terminal t) <> 0%Z) targets)
    (Hproofs : Forall (fun t => cr_before (ct_terminal t) <> cr_after (ct_terminal t)) targets)
    (Hperformance : Forall (fun t => re_case (ct_resource t) = Case_PerformanceBound ->
       (bytes <= cr_fixture_bytes (ct_terminal t))%Z) targets)
    (Hmax : max_of (map (fun t => cr_fixture_bytes (ct_terminal t)) targets) = Some max)
    (Hbound : (bytes <= max <= MAX_ENVELOPE_BYTES)%Z) :
  qualification_validate (qualification_of identity max targets) identity bytes = Ok tt.
Proof.
  assert (Hof : forall t, t ∈ targets ->
    cr_case (ct_terminal t) = re_case (ct_resource t) /\ identity_validate identity = Ok tt).
  { intros t Ht. rewrite Forall_forall in Hall.
    apply Hall, cleanup_target_ok in Ht as (source & Hr & _ & _ & -> & _).
    pose proof (resource_source_fit _ _ _ _ _ Hr) as [-> _].
    by apply resource_validate_ok in Hr as (_ & ? & _). }
  apply max_of_spec in Hmax as [Hin Hle]. apply qualification_iff.
  cbn [qualification_of qu_schema_version qu_kind qu_identity qu_transport
    qu_max_execution_bytes qu_cases]. rewrite !map_map. destruct Hbound. split_and!; try done.
  - rewrite <- Hcases. replace (map _ targets) with (map (fun t => re_case (ct_resource t)) targets);
      [done|]. apply map_ext_in. intros t ?%list_elem_of_In. symmetry. by apply Hof.
  - rewrite Forall_map. rewrite !Forall_forall in *. intros t Ht. destruct (Hof t Ht) as [Hc _].
    split_and!; [|cbn; rewrite Hc; by apply Hperformance|by apply Hproofs].
    apply (cleanup_target_fit t pack identity sha (cr_fixture_bytes (ct_terminal t)));
      [by apply Hall|by apply Hfixtures|].
    etrans; [|done]. apply Hle, list_elem_of_fmap. by exists t.
  - apply list_elem_of_fmap in Hin as (t & _ & Ht). by apply (Hof t).
Qed.

(** A cleanup target names one synthetic database only. The database it
    would delete is the one its case ran on, a canonical UUID other than the
    production identity's, created under the pack's name for that case; create,
    seed and case are three different operations. *)
Theorem cleanup_is_isolated self pack identity sha bytes
    (Hok : cleanup_target_validate self pack identity sha bytes = Ok tt) :
  let resource := ct_resource self in let case := ct_terminal self in
  re_identity resource = identity /\
  re_database_id resource <> id_database_id identity /\
  uuid_hyphenated (re_database_id resource) = Some (re_database_id resource) /\
  cr_synthetic_database_id case = re_database_id resource /\
  cr_case case = re_case resource /\
  (exists source, source ∈ pk_cases pack /\ ca_case source = re_case resource /\
     ca_resource_name source = re_resource_name resource /\
     cr_fixture_sha256 case = ts_sha256 (ca_execution source)) /\
  NoDup [er_operation_id (re_create resource); er_operation_id (ct_seed self);
         er_operation_id (cr_effect case)].
Proof.
  apply cleanup_target_ok in Hok as (source & Hr & _ & (Ha & Hb & Hc) & Hcase & Hdb & Hfx & _).
  pose proof (resource_source_fit _ _ _ _ _ Hr) as [Hs _].
  apply resource_validate_ok in Hr as (_ & _ & Hf & _ & Hi & _ & _ & _ & _ & Hu & Hprod & Hn).
  apply find_some in Hf as [Hin _]. apply list_elem_of_In in Hin. cbv zeta. split_and!; try done.
  - unfold is_canonical_uuid in Hu. destruct uuid_hyphenated as [id|]; [|done].
    by apply eqb_eq in Hu as ->.
  - congruence.
  - by exists source.
  - repeat constructor; set_solver.
Qed.

(** The isolation check compares spellings. When the production identity
    spells its database UUID other than in canonical form, a resource at the
    canonical spelling of that same database is accepted as synthetic wherever
    any other resource is. *)
Theorem production_alias_is_synthetic self pack identity sha source database
    (Hok : resource_validate self pack identity sha = Ok source)
    (Hsame : uuid_hyphenated (id_database_id identity) = Some database)
    (Hcanonical : uuid_hyphenated database = Some database)
    (Hspelling : id_database_id identity <> database) :
  resource_validate (resource_at database self) pack identity sha = Ok source.
Proof.
  apply resource_validate_ok. apply resource_validate_ok in Hok.
  unfold is_canonical_uuid, resource_at in *. cbn in *. rewrite Hcanonical. cbn.
  rewrite eqb_refl. naive_solver.
Qed.
End Properties.

(** ** Witnesses *)

Definition sample_identity : Identity := ck_identity sample_prepared.

Definition sample_committed_source (path : string) : TransitionSource := {|
  ts_path := path;
  ts_sha256 := sample_digest;
  ts_git_blob_oid := "0123456789012345678901234567890123456789"
|}.

Definition sample_population : TransitionObservation := {|
  to_capability_id := "fixture.population";
  to_inventory := sample_committed_source "qualification/population.json"
|}.

Definition sample_writer : ConcurrentSource := {|
  cs_writer := sample_committed_source "qualification/writer.sql";
  cs_writer_bytes := 100;
  cs_post_writer_inventory := sample_population;
  cs_expected_post_writer_state_sha256 := sample_digest
|}.

Definition sample_case_source (case : Case) : CaseSource := {|
  ca_case := case;
  ca_resource_name := ("qualify-" ++ show_Z (Z.of_nat (index_in case REQUIRED_CASES)))%string;
  ca_seed := sample_committed_source "qualification/seed.sql";
  ca_execution := sample_committed_source "qualification/execution.sql";
  ca_before := sample_population;
  ca_after := sample_population;
  ca_before_oracle := sample_committed_source "qualification/before.json";
  ca_after_oracle := sample_committed_source "qualification/after.json";
  ca_expected_before_state_sha256 := sample_digest;
  ca_expected_after_state_sha256 := sample_digest;
  ca_failure_sentinel := if is_failure case then Some "QUALIFIED_NATIVE_FAILURE" else None;
  ca_performance_max_seconds := if case =? Case_PerformanceBound then Some 600%Z else None;
  ca_concurrent_source := if case =? Case_ConcurrentPopulation then Some sample_writer else None;
  ca_post_writer_oracle :=
    if case =? Case_ConcurrentPopulation
    then Some (sample_committed_source "qualification/writer.json") else None
|}.

Definition sample_operation (role : Role) : PackOperation := {|
  po_id := match role with
           | Role_Population => "fixture.population"
           | _ => "fixture." ++ show_Z (Z.of_nat (index_in role REQUIRED_ROLES))
           end%string;
  po_title := "Qualify";
  po_description := "Qualify the transition";
  po_role := role
|}.

Definition sample_pack : Pack := {|
  pk_schema_version := 1;
  pk_contract := CONTRACT;
  pk_transition_operation_id := "fixture.transition";
  pk_maximum_live_databases := 1;
  pk_maximum_database_lifetimes := 10;
  pk_resets_allowed := false;
  pk_operation := map sample_operation REQUIRED_ROLES;
  pk_cases := map sample_case_source REQUIRED_CASES
|}.

Definition sample_effect (operation : string) : EffectRef := {|
  er_operation_id := ("00000000-0000-4000-8000-" ++ operation)%string;
  er_evidence_hash := sample_digest
|}.

Definition sample_resource (identity : Identity) (case : Case) : Resource := {|
  re_schema_version := 1;
  re_identity := identity;
  re_qualification_pack_sha256 := sample_digest;
  re_case := case;
  re_resource_name := ca_resource_name (sample_case_source case);
  re_create := sample_effect "00000000000a";
  re_create_plan_sha256 := sample_digest;
  re_database_id := "33333333-3333-4333-8333-333333333333"
|}.

Definition sample_cleanup (case : Case) : SeededCleanupTarget :=
  let source := sample_case_source case in {|
  ct_schema_version := 1;
  ct_resource := sample_resource sample_identity case;
  ct_seed := sample_effect "00000000000b";
  ct_terminal := {|
    cr_case := case;
    cr_effect := sample_effect "00000000000c";
    cr_before := mkProofRef sample_digest sample_digest;
    cr_after := mkProofRef "sha256:after" sample_digest;
    cr_synthetic_database_id := "33333333-3333-4333-8333-333333333333";
    cr_fixture_sha256 := ts_sha256 (ca_execution source);
    cr_fixture_bytes := 1024;
    cr_failure_sentinel := ca_failure_sentinel source;
    cr_performance_max_seconds := ca_performance_max_seconds source;
    cr_concurrency := option_map (fun writer =>
      mkConcurrentCase writer (sample_effect "00000000000d") (mkProofRef sample_digest sample_digest))
      (ca_concurrent_source source);
    cr_before_population_inventory := ca_before source;
    cr_after_population_inventory := ca_after source;
    cr_expected_after_state_sha256 := ca_expected_after_state_sha256 source |}
|}.

Definition sample_targets : list SeededCleanupTarget := map sample_cleanup (rev REQUIRED_CASES).

Example sample_pack_accepted : pack_validate sample_pack = Ok tt.
Proof. vm_compute. reflexivity. Qed.

(** A failure case without its sentinel, and a repeated case. *)
Definition without_sentinel (target : SeededCleanupTarget) : CaseRef :=
  let case := ct_terminal target in {|
  cr_case := cr_case case;
  cr_effect := cr_effect case;
  cr_before := cr_before case;
  cr_after := cr_after case;
  cr_synthetic_database_id := cr_synthetic_database_id case;
  cr_fixture_sha256 := cr_fixture_sha256 case;
  cr_fixture_bytes := cr_fixture_bytes case;
  cr_failure_sentinel := None;
  cr_performance_max_seconds := cr_performance_max_seconds case;
  cr_concurrency := cr_concurrency case;
  cr_before_population_inventory := cr_before_population_inventory case;
  cr_after_population_inventory := cr_after_population_inventory case;
  cr_expected_after_state_sha256 := cr_expected_after_state_sha256 case
|}.

Example missing_sentinel_is_refused :
  target_validate (target_from_case sample_identity
    (without_sentinel (sample_cleanup Case_LedgerFailure))) =
  Err "case-specific source requirements are missing or contradict the selected case".
Proof. vm_compute. reflexivity. Qed.

Example repeated_case_is_refused :
  is_ok (qualification_validate (qualification_of sample_identity 1024
    (sample_cleanup Case_Success :: sample_targets)) sample_identity 1024) = false.
Proof. vm_compute. reflexivity. Qed.

Lemma completed_pack_qualifies_witness :
  qualification_validate (qualification_of sample_identity 1024 sample_targets)
    sample_identity 1000 = Ok tt.
Proof.
  apply (completed_pack_qualifies sample_pack sample_identity sample_digest sample_targets 1000 1024).
  - unfold accepted_cleanup. repeat constructor; vm_compute; reflexivity.
  - apply distinct_set_Permutation; [exact REQUIRED_CASES_NoDup|].
    split; [vm_compute; reflexivity|]. apply (bool_decide_unpack _). vm_compute. exact I.
  - repeat constructor; discriminate.
  - repeat constructor; discriminate.
  - repeat constructor; intros _; vm_compute; discriminate.
  - vm_compute. reflexivity.
  - split; vm_compute; discriminate.
Defined.

Lemma cleanup_is_isolated_witness :
  re_database_id (ct_resource (sample_cleanup Case_Success)) <> id_database_id sample_identity.
Proof.
  apply (cleanup_is_isolated (sample_cleanup Case_Success) sample_pack sample_identity
    sample_digest 1024). vm_compute. reflexivity.
Defined.

(** A production database whose UUID the source spells in upper case. *)
Definition upper_identity : Identity :=
  let i := sample_identity in {|
  id_repository_head := id_repository_head i;
  id_operation_pack_sha256 := id_operation_pack_sha256 i;
  id_declaration_sha256 := id_declaration_sha256 i;
  id_source_envelope_sha256 := id_source_envelope_sha256 i;
  id_execution_sha256 := id_execution_sha256 i;
  id_account_id := id_account_id i;
  id_database_id := "7C282983-2E48-4EA4-9F0D-09B0D718FE65";
  id_target_sequence := id_target_sequence i;
  id_migration_sha256 := id_migration_sha256 i
|}.

Lemma production_alias_is_synthetic_witness :
  resource_validate
    (resource_at "7c282983-2e48-4ea4-9f0d-09b0d718fe65"
       (sample_resource upper_identity Case_Success))
    sample_pack upper_identity sample_digest = Ok (sample_case_source Case_Success).
Proof.
  apply (production_alias_is_synthetic (sample_resource upper_identity Case_Success) sample_pack
    upper_identity sample_digest (sample_case_source Case_Success)).
  - vm_compute. reflexivity.
  - vm_compute. reflexivity.
  - vm_compute. reflexivity.
  - discriminate.
Defined.
