(* ===== verification/Contracts.v ===== *)
(** The execution contracts of a capability, from crates/cfctl-core/src/lib.rs
    and the modules it delegates to: resource contracts, identity pointers,
    operation-specific verification and recovery contracts. Every predicate is
    the source's conjunction, in the source's order. [binary_search] on the
    field lists is membership: each of its uses is joined with the check that
    the list increases strictly. *)

From Stdlib Require Import String Ascii ZArith Lia List Bool.
From stdpp Require Import base option list strings.
From S2P Require Import Prelude Strings Btree Json JsonOps Core CatalogTypes WorkspaceTypes.
From S2P Require Import Capability CapabilityOps RequestSchema.

Open Scope cf_scope.
Open Scope string_scope.
Open Scope list_scope.
Open Scope cf_scope.

(** ** Constants *)

Definition EVENT_BATCH_CAPABILITY_ID : string :=
  "events-consume-queue-batch".
Definition QUEUE_PULL_CAPABILITY_ID : string :=
  "queues-pull-messages".
Definition QUEUE_ACK_CAPABILITY_ID : string :=
  "queues-ack-messages".
Definition QUEUE_PULL_PATH : string :=
  "/accounts/{account_id}/queues/{queue_id}/messages/pull".
Definition QUEUE_ACK_PATH : string :=
  "/accounts/{account_id}/queues/{queue_id}/messages/ack".
Definition DNS_RECORD_DETAIL_PATH : string :=
  "/zones/{zone_id}/dns_records/{dns_record_id}".
Definition WORKER_DEPLOYMENT_PLAN_CAPABILITY_ID : string :=
  "worker-deployment-plan".
Definition DNS_RECORD_DETAIL_READ_CAPABILITY_ID : string :=
  "dns-records-for-a-zone-dns-record-details".
Definition CLOUDFLARE_TUNNEL_CONFIGURATION_REQUEST_SCHEMA_HASH : string :=
  "sha256:0d3afbf113085d7fe33fb84c2e0194f9b2adffb96917e78d1f9c6e3cef57c2ed".
Definition WARP_CONNECTOR_CONFIGURATION_REQUEST_SCHEMA_HASH : string :=
  "sha256:4e5032c727efe10cba31c324f8141a1ea723a8f7ddf4779882e0f06665edef5e".
Definition WEB_ANALYTICS_RUM_REQUEST_SCHEMA_HASH : string :=
  "sha256:9499b763c96acee1138259b42b03394f697b0b812266c7b8b085cf3bb1fcc65d".
Definition DNS_RECORD_UPDATE_REQUEST_SCHEMA_HASH : string :=
  "sha256:13a888c46013d663dc09187c7a625ab91a8d9ffbcdc68ce4a294e14d3ab279f9".
Definition worker_module_upload_ID : string :=
  "worker-script-upload-worker-module".
Definition worker_module_upload_BLOCKING_GAP : string :=
  "Worker module upload requires a governed multipart source, transport, and module/settings readback contract; generic JSON execution is unsupported".
Definition challenge_rule_ID : string :=
  "zone-custom-challenge-expression-update".
Definition challenge_rule_PATH : string :=
  "/zones/{zone_id}/rulesets/{ruleset_id}/rules/{rule_id}".
Definition challenge_rule_READ_ID : string :=
  "getZoneRuleset".
Definition challenge_rule_READ_PATH : string :=
  "/zones/{zone_id}/rulesets/{ruleset_id}".
Definition challenge_rule_VERIFY : string :=
  "custom_challenge_expression_and_unchanged_parent".
Definition challenge_rule_ROLLBACK : string :=
  "restore_custom_challenge_expression_from_verified_state".
Definition header_rule_ID : string :=
  "updateZoneRulesetRule".
Definition header_rule_PATH : string :=
  "/zones/{zone_id}/rulesets/{ruleset_id}/rules/{rule_id}".
Definition header_rule_READ_ID : string :=
  "getZoneRuleset".
Definition header_rule_READ_PATH : string :=
  "/zones/{zone_id}/rulesets/{ruleset_id}".
Definition header_rule_VERIFY : string :=
  "response_header_rule_and_unchanged_parent_readback".
Definition header_rule_ROLLBACK : string :=
  "restore_response_header_rule_prior_definition".
Definition pages_CREATE_ID : string :=
  "pages-project-create-direct-upload".
Definition pages_VARIABLES_ID : string :=
  "pages-project-add-production-variables".
Definition pages_READ_ID : string :=
  "pages-project-get-project".
Definition pages_DELETE_ID : string :=
  "pages-project-delete-project".
Definition pages_COLLECTION : string :=
  "/accounts/{account_id}/pages/projects".
Definition pages_DETAIL : string :=
  "/accounts/{account_id}/pages/projects/{project_name}".
Definition pages_CREATE_STRATEGY : string :=
  "pages_direct_project_matches_returned_identity_without_git".
Definition pages_VARIABLES_STRATEGY : string :=
  "pages_production_variables_added_with_preserved_configuration".
Definition WORKER_VERSION_ARTIFACT_DIGEST_ID : string :=
  "worker-version-artifact-digest".
Definition WORKER_VERSION_ARTIFACT_PATH : string :=
  "/accounts/{account_id}/workers/workers/{worker_id}/versions/{version_id}".
Definition r2_restore_RESTORE_ID : string :=
  "r2-restore-private-captured-object".
Definition r2_restore_STRATEGY : string :=
  "r2_authenticated_member_conditional_restore".
Definition r2_OBJECTS_PATH : string :=
  "/accounts/{account_id}/r2/buckets/{bucket_name}/objects".

(** ** Paths and identity pointers *)

Definition SECRET_FIELD_NAMES : list string :=
  ["value"; "token"; "secret"; "key"; "access_token"; "client_secret"; "text"; "key_base64";
   "key_jwk"; "accessKeyId"; "secretAccessKey"; "sessionToken"].

Definition pointer_names_secret_field (pointer : string) : bool :=
  contains SECRET_FIELD_NAMES (rsplit_first "/" pointer).

Definition selector_can_be_response_id (selector : string) : bool :=
  contains ["id"; "identifier"] selector || ends_with selector "_id"
  || ends_with selector "_identifier".

Definition response_identity_pointer_supported (selector pointer : string) : bool :=
  if pointer_names_secret_field pointer then false
  else
    (selector_can_be_response_id selector && (pointer =? "/id"))
    || (ends_with selector "_name" && (pointer =? "/name"))
    || ((selector =? "database_id") && (pointer =? "/uuid"))
    || ((selector =? "site_id") && (pointer =? "/site_tag"))
    || ((selector =? "subdomain_id") && (pointer =? "/tag"))
    || ((selector =? "oauth_client_id") && (pointer =? "/client_id"))
    || (negb (bytes_any (fun c => (c =? "/"%char) || (c =? "~"%char)) selector)
        && (strip_prefix "/" pointer =? Some selector)).

Definition path_targets_exact_resource (path : string) : bool :=
  let segment := rsplit_first "/" path in
  starts_with segment "{" && ends_with segment "}" && (2 <? Z.of_nat (String.length segment))%Z.

Definition path_targets_singleton_subresource (path : string) : bool :=
  let segment := rsplit_first "/" path in
  negb (is_empty segment || (starts_with segment "{" && ends_with segment "}"))
  && str_contains path "{".

(** ** Resource contracts *)

Definition routing_header (self : CapabilityV1) (selector : SelectorV1) : bool :=
  (sel_location selector =? "header") && (sel_name selector =? "cf-r2-jurisdiction")
  && negb (sel_required selector) && (sel_value_type selector =? "string")
  && contains ["R2 Bucket"; "R2 Object"] (cap_product self).

(** The loop over the selectors, with its [routing_headers] counter. *)
Fixpoint readback_selectors (self : CapabilityV1) (selectors : list SelectorV1)
    (routing_headers : Z) : bool :=
  match selectors with
  | [] => true
  | selector :: selectors =>
      if sel_location selector =? "path" then readback_selectors self selectors routing_headers
      else if routing_header self selector then
        let routing_headers := (routing_headers + 1)%Z in
        if (1 <? routing_headers)%Z then false
        else readback_selectors self selectors routing_headers
      else false
  end.

Definition same_path_readback_selectors_supported (self : CapabilityV1) : bool :=
  readback_selectors self (cap_selectors self) 0.

Definition verified_response_fields_match_request_schema (self : CapabilityV1)
    (fields : list string) : bool :=
  match cap_request_schema self with
  | None => true
  | Some _ =>
      is_some_and (verifiable_request_object_fields self) (fun request_fields =>
        fields =? request_fields)
  end.

Definition created_resource_creation_method_supported (self : CapabilityV1) : bool :=
  (cap_method self =? "POST")
  || ((cap_id self =? "workers.domains.update")
   && (cap_method self =? "PUT")
   && (cap_path self =? "/accounts/{account_id}/workers/domains")).

Definition created_resource_contract_structurally_supported (self : CapabilityV1) (fields_valid
  : CreatedResourceContractV1 -> bool) : bool :=
  is_some_and (cap_created_resource self) (fun target =>
    let expected_path :=
      (trim_end_matches "/"%char (cap_path self) ++ "/{" ++ cr_identity_selector target ++
        "}")%string in
    negb (is_empty (cr_identity_selector target))
    && (cr_detail_path target =? expected_path)
    && response_identity_pointer_supported (cr_identity_selector target)
      (cr_response_result_identity_pointer target)
    && negb (is_empty (cr_read_capability_id target))
    && negb (is_empty (cr_delete_capability_id target))
    && same_path_readback_selectors_supported self
    && negb (is_nil (cr_verified_response_fields target))
    && fields_valid target
    && forallb (fun field =>
      negb (is_empty field)
      && negb (str_contains field "/")) (cr_verified_response_fields target)
    && windows2_all str_ltb (cr_verified_response_fields target)).

Definition created_resource_contract_supported (self : CapabilityV1) : bool :=
  created_resource_contract_structurally_supported self (fun target =>
    verified_response_fields_match_request_schema self (cr_verified_response_fields target)).

Definition created_resource_contract_supported_with_curated_fields (self : CapabilityV1)
  (curated : list string) : bool :=
  created_resource_contract_structurally_supported self (fun target =>
    (Z.of_nat (length (cr_verified_response_fields target)) =? Z.of_nat (length curated))
    && forallb (fun '(field, expected) => field =? expected) (zip (cr_verified_response_fields
      target) curated)).

Definition same_path_read_contract_supported (self : CapabilityV1) (require_fields : bool) :
  bool :=
  is_some_and (cap_same_path_read self) (fun target =>
    if (spr_path target <>? cap_path self)
    || is_empty (spr_read_capability_id target) then false else
    if negb require_fields then is_nil (spr_verified_response_fields target) else
    is_some_and (verifiable_request_object_fields self) (fun request_fields =>
    negb (is_nil request_fields)
    && (spr_verified_response_fields target =? request_fields))).

Definition created_collection_resource_contract_supported (self : CapabilityV1) : bool :=
  is_some_and (cap_created_collection_resource self) (fun target =>
    negb (is_empty (ccr_identity_selector target))
    && (cap_path self =? ccr_collection_path target)
    && (ccr_response_result_identity_pointer target =? ccr_response_item_identity_pointer
      target)
    && response_identity_pointer_supported (ccr_identity_selector target)
      (ccr_response_result_identity_pointer target)
    && negb (is_empty (ccr_read_capability_id target))
    && negb (is_empty (ccr_delete_capability_id target))
    && negb (is_nil (ccr_verified_response_fields target))
    && verified_response_fields_match_request_schema self (ccr_verified_response_fields target)
    && forallb (fun field =>
      negb (is_empty field)
      && negb (str_contains field "/")) (ccr_verified_response_fields target)
    && windows2_all str_ltb (ccr_verified_response_fields target)).

Definition worker_tail_created_collection_contract_supported (self : CapabilityV1) : bool :=
  (cap_id self =? "worker-tail-logs-start-tail")
  && (cap_method self =? "POST")
  && (cap_path self =? "/accounts/{account_id}/workers/scripts/{script_name}/tails")
  && (cap_product self =? "Worker Tail Logs")
  && (cap_account_scope self =? "account")
  && is_noneb (cap_request_schema self)
  && (cap_risk self =? RiskClass_SecretSensitive)
  && (cap_effect self =? EffectClass_ReversibleWrite)
  && (cap_permissions self =? ["Workers Tail Read"; "Workers Scripts Write"])
  && forallb (fun selector =>
    sel_location selector =? "path") (cap_selectors self)
  && forallb (fun name =>
    existsb (fun selector =>
      (sel_name selector =? name)
      && (sel_location selector =? "path")
      && sel_required selector) (cap_selectors self)) ["account_id"; "script_name"]
  && is_some_and (cap_created_collection_resource self) (fun target =>
    (ccr_collection_path target =? "/accounts/{account_id}/workers/scripts/{script_name}/tails")
    && (ccr_identity_selector target =? "id")
    && (ccr_response_result_identity_pointer target =? "/id")
    && (ccr_response_item_identity_pointer target =? "/id")
    && (ccr_read_capability_id target =? "worker-tail-logs-list-tails")
    && (ccr_delete_capability_id target =? "worker-tail-logs-delete-tail")
    && is_nil (ccr_verified_response_fields target)
    && negb (ccr_requires_page_number_completion target)).

Definition async_list_COLLECTION : string :=
  "/accounts/{account_id}/rules/lists/{list_id}/items".
Definition async_list_STATUS : string :=
  "/accounts/{account_id}/rules/lists/bulk_operations/{operation_id}".

Definition async_list_mutation_contract_supported (self : CapabilityV1) (create : bool) : bool
  :=
  let expected_id :=
    if create
    then "security-response-add-expiring-list-member"
    else "security-response-remove-expired-list-member" in
  let expected_method :=
    if create
    then "POST"
    else "DELETE" in
  (cap_id self =? expected_id)
  && (cap_method self =? expected_method)
  && (cap_path self =? async_list_COLLECTION)
  && (cap_product self =? "Lists")
  && (cap_account_scope self =? "account")
  && (cap_risk self =? RiskClass_IdentityOrOwnership)
  && (cap_effect self =? (if create
    then EffectClass_ReversibleWrite
    else EffectClass_Destructive))
  && (cap_permissions self =? ["Account Filter Lists Edit"; "Account Filter Lists Read"])
  && forallb (fun selector =>
    sel_location selector =? "path") (cap_selectors self)
  && forallb (fun name =>
    existsb (fun selector =>
      (sel_name selector =? name)
      && (sel_location selector =? "path")
      && sel_required selector) (cap_selectors self)) ["account_id"; "list_id"]
  && is_some_and (cap_async_collection_mutation self) (fun contract =>
    (acm_operation_status_path contract =? async_list_STATUS)
    && (acm_operation_status_capability_id contract =? "lists-get-bulk-operation-status")
    && (acm_operation_id_selector contract =? "operation_id")
    && (acm_apply_operation_id_pointer contract =? "/operation_id")
    && (acm_status_operation_id_pointer contract =? "/id")
    && (acm_status_state_pointer contract =? "/status")
    && (acm_pending_states contract =? ["pending"; "running"])
    && (acm_completed_state contract =? "completed")
    && (acm_failed_state contract =? "failed")
    && (acm_max_poll_attempts contract =? 30%Z)
    && (acm_poll_interval_ms contract =? 1000%Z)
    && (acm_collection_path contract =? async_list_COLLECTION)
    && (acm_collection_capability_id contract =? "lists-get-list-items")
    && (acm_collection_metadata_path contract =? "/accounts/{account_id}/rules/lists/{list_id}")
    && (acm_collection_metadata_capability_id contract =? "lists-get-a-list")
    && (acm_collection_item_identity_pointer contract =? "/id")
    && acm_requires_cursor_completion contract
    && (if create
     then (acm_correlation_field contract =? Some "comment")
     && (acm_remove_capability_id contract =? Some
       "security-response-remove-expired-list-member")
     else is_noneb (acm_correlation_field contract)
     && is_noneb (acm_remove_capability_id contract))).

Definition created_nested_resource_contract_supported (self : CapabilityV1) : bool :=
  is_some_and (cap_created_nested_resource self) (fun target =>
    let expected_delete_path :=
      (trim_end_matches "/"%char (cap_path self) ++ "/{" ++ cnr_identity_selector target ++
        "}")%string in
    negb (is_empty (cnr_parent_path target))
    && negb (is_empty (cnr_items_pointer target))
    && starts_with (cnr_items_pointer target) "/"
    && negb (is_empty (cnr_identity_selector target))
    && response_identity_pointer_supported (cnr_identity_selector target)
      (cnr_response_item_identity_pointer target)
    && negb (is_empty (cnr_correlation_field target))
    && negb (str_contains (cnr_correlation_field target) "/")
    && negb (is_empty (cnr_read_capability_id target))
    && negb (is_empty (cnr_delete_capability_id target))
    && (cnr_delete_path target =? expected_delete_path)
    && negb (is_nil (cnr_verified_response_fields target))
    && contains (cnr_verified_response_fields target) (cnr_correlation_field target)
    && verified_response_fields_match_request_schema self (cnr_verified_response_fields target)
    && forallb (fun field =>
      negb (is_empty field)
      && negb (str_contains field "/")) (cnr_verified_response_fields target)
    && windows2_all str_ltb (cnr_verified_response_fields target)).

Definition deleted_resource_contract_supported (self : CapabilityV1) : bool :=
  is_some_and (cap_deleted_resource self) (fun target =>
    let expected_path :=
      (trim_end_matches "/"%char (dr_collection_path target) ++ "/{" ++ dr_identity_selector
        target ++ "}")%string in
    negb (is_empty (dr_identity_selector target))
    && (cap_path self =? expected_path)
    && response_identity_pointer_supported (dr_identity_selector target)
      (dr_response_item_identity_pointer target)
    && negb (is_empty (dr_read_capability_id target))).

Definition deleted_nested_resource_contract_supported (self : CapabilityV1) : bool :=
  is_some_and (cap_deleted_nested_resource self) (fun target =>
    let expected_path :=
      (trim_end_matches "/"%char (dnr_collection_path target) ++ "/{" ++ dnr_identity_selector
        target ++ "}")%string in
    negb (is_empty (dnr_parent_path target))
    && negb (is_empty (dnr_collection_path target))
    && negb (is_empty (dnr_items_pointer target))
    && starts_with (dnr_items_pointer target) "/"
    && (cap_path self =? expected_path)
    && response_identity_pointer_supported (dnr_identity_selector target)
      (dnr_response_item_identity_pointer target)
    && negb (is_empty (dnr_read_capability_id target))).

Definition updated_resource_contract_supported (self : CapabilityV1) : bool :=
  is_some_and (cap_updated_resource self) (fun target =>
    let expected_path :=
      (trim_end_matches "/"%char (ur_collection_path target) ++ "/{" ++ ur_identity_selector
        target ++ "}")%string in
    is_some_and (verifiable_request_object_fields self) (fun request_fields =>
    negb (is_empty (ur_identity_selector target))
    && (cap_path self =? expected_path)
    && response_identity_pointer_supported (ur_identity_selector target)
      (ur_response_item_identity_pointer target)
    && negb (is_empty (ur_read_capability_id target))
    && negb (is_nil request_fields)
    && (ur_verified_response_fields target =? request_fields)
    && forallb (fun field =>
      negb (is_empty field)
      && negb (str_contains field "/")) (ur_verified_response_fields target)
    && windows2_all str_ltb (ur_verified_response_fields target))).

Definition delete_created_resource_rollback_supported (self : CapabilityV1) : bool :=
  created_resource_creation_method_supported self
  && (cap_id self <>? "d1-create-database")
  && (created_resource_contract_supported self
   || created_collection_resource_contract_supported self
   || created_nested_resource_contract_supported self
   || worker_tail_created_collection_contract_supported self
   || ((cap_id self =? "access-applications-add-an-application")
    && created_resource_contract_supported_with_curated_fields self ["name"; "type"])).

(** ** Operation-specific contracts *)

Definition approved_mln_import_recovery_contract_supported (self : CapabilityV1) : bool :=
  contains ["d1-import-approved-mln-migration"; "d1-import-approved-osint-research-migration";
    "d1-resume-approved-mln-import-poll"; "d1-import-database";
    "d1-apply-reviewed-schema-migration"; "d1-resume-database-import-poll"] (cap_id self)
  && (cap_method self =? "POST")
  && (cap_risk self =? RiskClass_Irreversible)
  && (cap_effect self =? EffectClass_DataWrite)
  && xorb (is_someb (cap_d1_approved_mln_import self)) (is_someb
    (cap_d1_approved_mln_import_poll_resume self)).

Definition exact_bookmark_restore_recovery_contract_supported (self : CapabilityV1) : bool :=
  (cap_id self =? "d1-restore-exact-bookmark")
  && (cap_method self =? "POST")
  && (cap_risk self =? RiskClass_Recovery)
  && (cap_effect self =? EffectClass_DataWrite)
  && is_someb (cap_d1_restore_exact_bookmark self).

Definition oauth_client_secret_verification_contract_supported (self : CapabilityV1) : bool :=
  let operation_supported :=
    contains [("oauth-clients-rotate-secret", "POST",
      "oauth_client_reports_rotated_secret_after_value_roll");
      ("oauth-clients-delete-rotated-secret", "DELETE",
      "oauth_client_reports_no_rotated_secret_after_old_secret_delete")] (cap_id self,
      cap_method self, verif_strategy (cap_verification self)) in
  operation_supported
  && (cap_product self =? "OAuth Clients")
  && (cap_account_scope self =? "account")
  && (cap_permissions self =? ["OAuth Client Write"; "OAuth Client Read"])
  && (cap_path self =? "/accounts/{account_id}/oauth_clients/{oauth_client_id}/rotate_secret")
  && is_noneb (cap_request_schema self)
  && (Z.of_nat (length (cap_selectors self)) =? 2%Z)
  && forallb (fun name =>
    existsb (fun selector =>
      (sel_name selector =? name)
      && (sel_location selector =? "path")
      && sel_required selector
      && (sel_value_type selector =? "string")) (cap_selectors self)) ["account_id";
        "oauth_client_id"]
  && is_some_and (cap_same_path_read self) (fun read =>
    (spr_path read =? "/accounts/{account_id}/oauth_clients/{oauth_client_id}")
    && (spr_read_capability_id read =? "oauth-clients-get")
    && (spr_verified_response_fields read =? ["client_id"; "has_rotated_secret"])).

Definition worker_script_secret_put_verification_contract_supported (self : CapabilityV1) : bool
  :=
  (cap_id self =? "worker-put-script-secret")
  && (cap_method self =? "PUT")
  && (cap_product self =? "Worker Script")
  && (cap_account_scope self =? "account")
  && (cap_permissions self =? ["Workers Scripts Write"])
  && (cap_path self =? "/accounts/{account_id}/workers/scripts/{script_name}/secrets")
  && (Z.of_nat (length (cap_selectors self)) =? 2%Z)
  && forallb (fun '(name, schema) =>
    existsb (fun selector =>
      (sel_name selector =? name)
      && (sel_location selector =? "path")
      && sel_required selector
      && (sel_value_type selector =? "string")
      && is_some_and (sel_contract selector) (fun contract =>
        Value_eqb (selc_schema contract) schema
        && is_noneb (selc_query contract))) (cap_selectors self)) [("account_id", jobj
          [("maxLength", VNumber (PosInt 32)); ("type", VString "string")]); ("script_name",
          jobj [("type", VString "string")])]
  && option_eqb Value_eqb (cap_request_schema self) (Some (jobj [
      ("type", VString "object");
      ("oneOf",
         VArray [jobj [
           ("type", VString "object");
           ("required", VArray [VString "name"; VString "type"; VString "text"]);
           ("properties",
              jobj [
                ("name", jobj [("type", VString "string")]);
                ("type",
                   jobj [
                     ("type", VString "string");
                     ("enum", VArray [VString "secret_text"])]);
                ("text",
                   jobj [("type", VString "string"); ("writeOnly", VBool true)])])]; jobj [
           ("type", VString "object");
           ("required",
              VArray [VString "name"; VString "type"; VString "format"; VString "algorithm";
                VString "usages"]);
           ("properties",
              jobj [
                ("name", jobj [("type", VString "string")]);
                ("type",
                   jobj [
                     ("type", VString "string");
                     ("enum", VArray [VString "secret_key"])]);
                ("format",
                   jobj [
                     ("type", VString "string");
                     ("enum",
                        VArray [VString "raw"; VString "pkcs8"; VString "spki"; VString
                          "jwk"])]);
                ("algorithm", jobj [("type", VString "object")]);
                ("usages",
                   jobj [
                     ("type", VString "array");
                     ("items",
                        jobj [
                          ("type", VString "string");
                          ("enum",
                             VArray [VString "encrypt"; VString "decrypt"; VString "sign";
                               VString "verify"; VString "deriveKey"; VString "deriveBits";
                               VString "wrapKey"; VString "unwrapKey"])])]);
                ("key_base64",
                   jobj [("type", VString "string"); ("writeOnly", VBool true)]);
                ("key_jwk",
                   jobj [("type", VString "object"); ("writeOnly", VBool true)])])]]);
      ("x-cfctl-body-required", VBool true)]))
  && is_some_and (cap_same_path_read self) (fun read =>
    (spr_path read =?
      "/accounts/{account_id}/workers/scripts/{script_name}/secrets/{secret_name}")
    && (spr_read_capability_id read =? "worker-get-script-secret")
    && (spr_verified_response_fields read =? ["name"; "type"])).

Definition secret_lifecycle_verification_contract_supported (self : CapabilityV1) : bool :=
  let strategy := verif_strategy (cap_verification self) in
  if contains ["oauth_client_reports_rotated_secret_after_value_roll";
               "oauth_client_reports_no_rotated_secret_after_old_secret_delete"] strategy
  then oauth_client_secret_verification_contract_supported self
       && same_path_readback_selectors_supported self
  else if strategy =? "worker_script_secret_reports_planned_name_and_type_after_put"
  then worker_script_secret_put_verification_contract_supported self
  else false.

Definition access_service_token_refresh_selector_supported (self : CapabilityV1) (name : string)
  (max_length : Z) : bool :=
  existsb (fun selector =>
    (sel_name selector =? name)
    && (sel_location selector =? "path")
    && sel_required selector
    && (sel_value_type selector =? "string")
    && is_some_and (sel_contract selector) (fun contract =>
      Value_eqb (selc_schema contract) (jobj [
         ("maxLength", VNumber (PosInt max_length));
         ("type", VString "string")])
      && is_noneb (selc_query contract))) (cap_selectors self).

Definition access_service_token_refresh_verification_contract_supported (self : CapabilityV1) :
  bool :=
  (cap_id self =? "access-service-tokens-refresh-a-service-token")
  && (cap_method self =? "POST")
  && (cap_product self =? "Access service tokens")
  && (cap_account_scope self =? "account")
  && (cap_permissions self =? ["Access: Service Tokens Write"])
  && (cap_path self =?
    "/accounts/{account_id}/access/service_tokens/{service_token_id}/refresh")
  && is_noneb (cap_request_schema self)
  && (Z.of_nat (length (cap_selectors self)) =? 2%Z)
  && access_service_token_refresh_selector_supported self "account_id" 32
  && access_service_token_refresh_selector_supported self "service_token_id" 36
  && is_some_and (cap_same_path_read self) (fun read =>
    (spr_path read =? "/accounts/{account_id}/access/service_tokens/{service_token_id}")
    && (spr_read_capability_id read =? "access-service-tokens-get-a-service-token")
    && (spr_verified_response_fields read =? ["expires_at"; "id"])).

Definition event_batch_contract_supported (self : CapabilityV1) : bool :=
  is_some_and (cap_event_batch self) (fun contract =>
    (cap_id self =? EVENT_BATCH_CAPABILITY_ID)
    && (cap_adapter_status self =? AdapterStatus_Native)
    && (cap_method self =? "POST")
    && (cap_path self =?
      "/cfctl/events/queue-batches/{account_id}/{queue_id}/{subscription_id}")
    && (ebc_pull_capability_id contract =? QUEUE_PULL_CAPABILITY_ID)
    && (ebc_pull_path contract =? QUEUE_PULL_PATH)
    && (ebc_acknowledge_capability_id contract =? QUEUE_ACK_CAPABILITY_ID)
    && (ebc_acknowledge_path contract =? QUEUE_ACK_PATH)
    && (ebc_required_permissions contract =? ["Queues Write"; "Workers Scripts Write"])
    && (ebc_max_batch_size contract =? 100%Z)
    && (ebc_max_visibility_timeout_ms contract =? 43200000%Z)
    && (ebc_max_message_bytes contract =? 131072%Z)
    && (ebc_billing_chunk_bytes contract =? 65536%Z)
    && f64_lt (f64_abs (f64_sub (ebc_price_per_million_operations contract) f64_0_40))
      f64_EPSILON
    && (ref_url (ebc_pricing_reference contract) =?
      "https://developers.cloudflare.com/queues/platform/pricing/")
    && (ref_url (ebc_schema_reference contract) =?
      "https://developers.cloudflare.com/queues/configuration/pull-consumers/")).

Definition entitlement_probe_contract_supported (self : CapabilityV1) : bool :=
  is_some_and (ent_probe (cap_entitlement self)) (fun probe =>
    contains ["account"; "zone"] (cap_account_scope self)
    && ent_requires_live_resolution (cap_entitlement self)
    && negb (is_empty (probe_capability_id probe))
    && starts_with (probe_path probe) "/"
    && negb (is_nil (probe_selector_names probe))
    && windows2_all str_ltb (probe_selector_names probe)
    && forallb (fun name =>
      negb (is_empty name)
      && existsb (fun selector =>
        (sel_name selector =? name)
        && (sel_location selector =? "path")
        && sel_required selector) (cap_selectors self)
      && str_contains (probe_path probe) ("{" ++ name ++ "}")%string) (probe_selector_names
        probe)).

(** ** Contracts of the core modules *)

Definition challenge_rule_FIELDS : list string :=
  ["expression"; "expected_expression"; "expected_rule_version"; "expected_ruleset_version";
    "expected_definition"].
Definition challenge_rule_DEFINITION_FIELDS : list string :=
  ["action"; "enabled"; "expression"; "description"; "ref"].
Definition challenge_rule_request_schema : Value :=
  jobj [
  ("type", VString "object");
  ("additionalProperties", VBool false);
  ("required", VArray (map VString challenge_rule_FIELDS));
  ("properties",
     jobj [
       ("expression",
          jobj [
            ("type", VString "string");
            ("minLength", VNumber (PosInt 1));
            ("maxLength", VNumber (PosInt 4096))]);
       ("expected_expression",
          jobj [
            ("type", VString "string");
            ("minLength", VNumber (PosInt 1));
            ("maxLength", VNumber (PosInt 4096))]);
       ("expected_rule_version",
          jobj [
            ("type", VString "string");
            ("pattern", VString "^[0-9]+$");
            ("maxLength", VNumber (PosInt 20))]);
       ("expected_ruleset_version",
          jobj [
            ("type", VString "string");
            ("pattern", VString "^[0-9]+$");
            ("maxLength", VNumber (PosInt 20))]);
       ("expected_definition",
          jobj [
            ("type", VString "object");
            ("additionalProperties", VBool false);
            ("required", VArray (map VString challenge_rule_DEFINITION_FIELDS));
            ("properties",
               jobj [
                 ("action",
                    jobj [
                      ("enum",
                         VArray [VString "managed_challenge"; VString "js_challenge"])]);
                 ("enabled", jobj [("type", VString "boolean")]);
                 ("expression",
                    jobj [
                      ("type", VString "string");
                      ("minLength", VNumber (PosInt 1));
                      ("maxLength", VNumber (PosInt 4096))]);
                 ("description",
                    jobj [
                      ("type", VString "string");
                      ("maxLength", VNumber (PosInt 1024))]);
                 ("ref",
                    jobj [
                      ("type", VString "string");
                      ("minLength", VNumber (PosInt 1));
                      ("maxLength", VNumber (PosInt 256))])])])])].

Definition challenge_rule_supported (self : CapabilityV1) : bool :=
  (cap_id self =? challenge_rule_ID)
  && (cap_method self =? "PATCH")
  && (cap_path self =? challenge_rule_PATH)
  && cap_mutating self
  && (cap_account_scope self =? "zone")
  && contains [AdapterStatus_DynamicApi; AdapterStatus_Blocked] (cap_adapter_status self)
  && (cap_risk self =? RiskClass_IdentityOrOwnership)
  && (cap_effect self =? EffectClass_ReversibleWrite)
  && (cap_permissions self =? ["Zone WAF Read"; "Zone WAF Write"])
  && option_eqb Value_eqb (cap_request_schema self) (Some (challenge_rule_request_schema))
  && verif_required (cap_verification self)
  && (verif_strategy (cap_verification self) =? challenge_rule_VERIFY)
  && rollback_supported (cap_rollback self)
  && (rollback_strategy (cap_rollback self) =? Some challenge_rule_ROLLBACK)
  && is_some_and (cap_same_path_read self) (fun r =>
    (spr_path r =? challenge_rule_READ_PATH)
    && (spr_read_capability_id r =? challenge_rule_READ_ID)
    && (spr_verified_response_fields r =? ["expression"]))
  && is_some_and (cap_response_contract self) (fun r =>
    (resp_success_statuses r =? ["200"])
    && (resp_success_media_types r =? ["application/json"])
    && (resp_body_mode r =? ResponseBodyMode_CloudflareJsonEnvelope))
  && (Z.of_nat (length (cap_selectors self)) =? 3%Z)
  && forallb (fun name =>
    existsb (fun s =>
      (sel_name s =? name)
      && (sel_location s =? "path")
      && sel_required s) (cap_selectors self)) ["zone_id"; "ruleset_id"; "rule_id"].

Definition header_rule_FIELDS : list string :=
  ["action"; "action_parameters"; "description"; "enabled"; "expression"; "ref"].
Definition header_rule_request_schema : Value :=
  jobj [
  ("type", VString "object");
  ("additionalProperties", VBool false);
  ("required", VArray (map VString header_rule_FIELDS));
  ("properties",
     jobj [
       ("action", jobj [("const", VString "rewrite")]);
       ("action_parameters",
          jobj [
            ("type", VString "object");
            ("additionalProperties", VBool false);
            ("required", VArray [VString "headers"]);
            ("properties",
               jobj [
                 ("headers",
                    jobj [
                      ("type", VString "object");
                      ("minProperties", VNumber (PosInt 1));
                      ("maxProperties", VNumber (PosInt 10));
                      ("additionalProperties",
                         jobj [
                           ("type", VString "object");
                           ("additionalProperties", VBool false);
                           ("required", VArray [VString "operation"; VString "value"]);
                           ("properties",
                              jobj [
                                ("operation", jobj [("const", VString "set")]);
                                ("value",
                                   jobj [
                                     ("type", VString "string");
                                     ("maxLength", VNumber (PosInt 16384))])])])])])]);
       ("description",
          jobj [
            ("type", VString "string");
            ("maxLength", VNumber (PosInt 1024))]);
       ("enabled", jobj [("type", VString "boolean")]);
       ("expression",
          jobj [
            ("type", VString "string");
            ("minLength", VNumber (PosInt 1));
            ("maxLength", VNumber (PosInt 4096))]);
       ("ref",
          jobj [
            ("type", VString "string");
            ("minLength", VNumber (PosInt 1));
            ("maxLength", VNumber (PosInt 256))])])].

Definition header_rule_supported (self : CapabilityV1) : bool :=
  (cap_id self =? header_rule_ID)
  && (cap_method self =? "PATCH")
  && (cap_path self =? header_rule_PATH)
  && cap_mutating self
  && (cap_account_scope self =? "zone")
  && (cap_risk self =? RiskClass_CrossConfig)
  && (cap_effect self =? EffectClass_ReversibleWrite)
  && (cap_permissions self =? ["Zone Transform Rules Read"; "Zone Transform Rules Write"])
  && is_some_and (cap_response_contract self) (fun r =>
    (resp_success_statuses r =? ["200"])
    && (resp_success_media_types r =? ["application/json"])
    && (resp_body_mode r =? ResponseBodyMode_CloudflareJsonEnvelope))
  && contains [AdapterStatus_DynamicApi; AdapterStatus_Blocked] (cap_adapter_status self)
  && verif_required (cap_verification self)
  && (verif_strategy (cap_verification self) =? header_rule_VERIFY)
  && rollback_supported (cap_rollback self)
  && (rollback_strategy (cap_rollback self) =? Some header_rule_ROLLBACK)
  && option_eqb Value_eqb (cap_request_schema self) (Some (header_rule_request_schema))
  && is_some_and (cap_same_path_read self) (fun r =>
    (spr_path r =? header_rule_READ_PATH)
    && (spr_read_capability_id r =? header_rule_READ_ID)
    && (spr_verified_response_fields r =? header_rule_FIELDS))
  && (Z.of_nat (length (cap_selectors self)) =? 3%Z)
  && forallb (fun name =>
    existsb (fun s =>
      (sel_name s =? name)
      && (sel_location s =? "path")
      && sel_required s) (cap_selectors self)) ["zone_id"; "ruleset_id"; "rule_id"].

Definition pages_create_schema : Value :=
  jobj [
  ("type", VString "object");
  ("additionalProperties", VBool false);
  ("x-cfctl-body-required", VBool true);
  ("required", VArray [VString "name"; VString "production_branch"]);
  ("properties",
     jobj [
       ("name",
          jobj [
            ("type", VString "string");
            ("minLength", VNumber (PosInt 1));
            ("maxLength", VNumber (PosInt 58))]);
       ("production_branch",
          jobj [("type", VString "string"); ("enum", VArray [VString "main"])])])].

Definition pages_variables_schema : Value :=
  jobj [
  ("type", VString "object");
  ("additionalProperties", VBool false);
  ("x-cfctl-body-required", VBool true);
  ("required", VArray [VString "deployment_configs"]);
  ("properties",
     jobj [
       ("deployment_configs",
          jobj [
            ("type", VString "object");
            ("writeOnly", VBool true);
            ("additionalProperties", VBool false);
            ("required", VArray [VString "production"]);
            ("properties",
               jobj [
                 ("production",
                    jobj [
                      ("type", VString "object");
                      ("additionalProperties", VBool false);
                      ("required", VArray [VString "env_vars"]);
                      ("properties",
                         jobj [
                           ("env_vars",
                              jobj [
                                ("type", VString "object");
                                ("minProperties", VNumber (PosInt 1));
                                ("maxProperties", VNumber (PosInt 100));
                                ("additionalProperties",
                                   jobj [
                                     ("type", VString "object");
                                     ("additionalProperties", VBool false);
                                     ("required", VArray [VString "type"; VString "value"]);
                                     ("properties",
                                        jobj [
                                          ("type",
                                             jobj [
                                               ("type", VString "string");
                                               ("enum", VArray [VString "plain_text"; VString
                                                 "secret_text"])]);
                                          ("value",
                                             jobj [
                                               ("type", VString "string");
                                               ("minLength", VNumber (PosInt 1));
                                               ("maxLength", VNumber (PosInt 5120));
                                               ("writeOnly", VBool true)])])])])])])])])])].

Definition pages_common (self : CapabilityV1) : bool :=
  cap_mutating self
  && (cap_product self =? "Pages Project")
  && (cap_account_scope self =? "account")
  && (cap_permissions self =? ["Pages Write"])
  && (cap_effect self =? EffectClass_ReversibleWrite)
  && contains [AdapterStatus_DynamicApi; AdapterStatus_Native] (cap_adapter_status self)
  && is_some_and (cap_response_contract self) (fun response =>
    (resp_body_mode response =? ResponseBodyMode_CloudflareJsonEnvelope)
    && (resp_success_media_types response =? ["application/json"])
    && negb (is_nil (resp_success_statuses response)))
  && forallb (fun selector =>
    (sel_location selector =? "path")
    && sel_required selector
    && contains ["account_id"; "project_name"] (sel_name selector)) (cap_selectors self)
  && existsb (fun selector =>
    sel_name selector =? "account_id") (cap_selectors self).

Definition pages_create_supported (self : CapabilityV1) : bool :=
  (cap_method self =? "POST")
  && (cap_path self =? pages_COLLECTION)
  && (Z.of_nat (length (cap_selectors self)) =? 1%Z)
  && (cap_risk self =? RiskClass_CrossConfig)
  && option_eqb Value_eqb (cap_request_schema self) (Some (pages_create_schema))
  && (verif_strategy (cap_verification self) =? pages_CREATE_STRATEGY)
  && is_some_and (cap_created_resource self) (fun target =>
    (cr_detail_path target =? pages_DETAIL)
    && (cr_identity_selector target =? "project_name")
    && (cr_response_result_identity_pointer target =? "/name")
    && (cr_read_capability_id target =? pages_READ_ID)
    && (cr_delete_capability_id target =? pages_DELETE_ID)
    && (cr_verified_response_fields target =? ["name"; "production_branch"])).

Definition pages_variables_supported (self : CapabilityV1) : bool :=
  (cap_method self =? "PATCH")
  && (cap_path self =? pages_DETAIL)
  && (Z.of_nat (length (cap_selectors self)) =? 2%Z)
  && existsb (fun selector =>
    sel_name selector =? "project_name") (cap_selectors self)
  && (cap_risk self =? RiskClass_SecretSensitive)
  && option_eqb Value_eqb (cap_request_schema self) (Some (pages_variables_schema))
  && (verif_strategy (cap_verification self) =? pages_VARIABLES_STRATEGY)
  && is_some_and (cap_same_path_read self) (fun target =>
    (spr_path target =? pages_DETAIL)
    && (spr_read_capability_id target =? pages_READ_ID)
    && (spr_verified_response_fields target =? ["deployment_configs"])).

Definition pages_contract_supported (self : CapabilityV1) : bool :=
  if negb (pages_common self) then false
  else if cap_id self =? pages_CREATE_ID then pages_create_supported self
  else if cap_id self =? pages_VARIABLES_ID then pages_variables_supported self
  else false.

Definition r2_restore_capability_matches (self : CapabilityV1) : bool :=
  (cap_id self =? r2_restore_RESTORE_ID)
  && (cap_method self =? "PUT")
  && (cap_path self =? r2_OBJECTS_PATH)
  && cap_mutating self
  && (cap_risk self =? RiskClass_ScopedWrite)
  && (cap_effect self =? EffectClass_DataWrite)
  && (cap_adapter_status self =? AdapterStatus_Native)
  && (cap_permissions self =? ["Workers R2 Storage Write"])
  && verif_required (cap_verification self)
  && (verif_strategy (cap_verification self) =? r2_restore_STRATEGY).

Definition worker_version_artifact_digest_supported (self : CapabilityV1) : bool :=
  (cap_id self =? WORKER_VERSION_ARTIFACT_DIGEST_ID)
  && (cap_method self =? "GET")
  && (cap_path self =? WORKER_VERSION_ARTIFACT_PATH)
  && negb (cap_mutating self)
  && (cap_risk self =? RiskClass_Read)
  && (cap_effect self =? EffectClass_ReadOnly)
  && (cap_permissions self =? ["Workers Scripts Read"])
  && is_noneb (cap_request_schema self)
  && is_some_and (cap_response_contract self) (fun response =>
    (resp_success_statuses response =? ["200"])
    && (resp_body_mode response =? ResponseBodyMode_CloudflareJsonEnvelope)).

Definition r2_private_object_digest_supported (self : CapabilityV1) : bool :=
  (cap_id self =? "r2-get-private-object-digest")
  && (cap_method self =? "GET")
  && (cap_path self =? "/accounts/{account_id}/r2/buckets/{bucket_name}/objects/{object_key}")
  && negb (cap_mutating self)
  && (cap_risk self =? RiskClass_Read)
  && (cap_effect self =? EffectClass_ReadOnly)
  && (cap_permissions self =? ["Workers R2 Storage Read"])
  && is_noneb (cap_request_schema self)
  && is_some_and (cap_r2_private_object_digest self) (fun contract =>
    (0 <? r2d_max_object_bytes contract)%Z
    && (r2d_max_object_bytes contract <=? 300000000)%Z)
  && is_some_and (cap_response_contract self) (fun response =>
    (resp_success_statuses response =? ["200"])
    && (resp_body_mode response =? ResponseBodyMode_R2PrivateObjectDigest)).

Definition artifact_digest_verification_supported (self : CapabilityV1) : bool :=
  let strategy := verif_strategy (cap_verification self) in
  if strategy =? r2_restore_STRATEGY then r2_restore_capability_matches self
  else if strategy =? "worker_version_artifact_digest" then worker_version_artifact_digest_supported self
  else if strategy =? "r2_private_object_digest" then r2_private_object_digest_supported self
  else false.

Definition reply_admission (c : WorkspaceD1ReplyLifecycleContract)
    : option WorkspaceD1ReplyAdmissionContractV1 :=
  match c with
  | WorkspaceD1ReplyLifecycleContract_Admission contract => Some contract
  | WorkspaceD1ReplyLifecycleContract_Containment _ => None
  end.
Definition reply_containment (c : WorkspaceD1ReplyLifecycleContract)
    : option WorkspaceD1ReplyContainmentContractV3 :=
  match c with
  | WorkspaceD1ReplyLifecycleContract_Containment contract => Some contract
  | WorkspaceD1ReplyLifecycleContract_Admission _ => None
  end.
Definition reply_admission_contract (self : CapabilityV1) :=
  obind (cap_workspace_d1_reply_admission self) reply_admission.
Definition reply_containment_contract (self : CapabilityV1) :=
  obind (cap_workspace_d1_reply_admission self) reply_containment.

Definition reply_capability_id (operation : ReplyContainmentOperationV3) : string :=
  match operation with
  | ReplyContainmentOperation_PreRead => "star-maildesk-cf.reply-containment-pre-read"
  | ReplyContainmentOperation_Apply => "star-maildesk-cf.reply-containment-apply"
  | ReplyContainmentOperation_Read => "star-maildesk-cf.reply-containment-read"
  end.

Definition reply_containment_strategy (operation : ReplyContainmentOperationV3) : string :=
  match operation with
  | ReplyContainmentOperation_PreRead => "workspace_d1_reply_containment_pre_read_v3"
  | ReplyContainmentOperation_Apply => "workspace_d1_reply_containment_apply_v3"
  | ReplyContainmentOperation_Read => "workspace_d1_reply_containment_readback_v3"
  end.

Definition reply_containment_verification_supported (contract :
  WorkspaceD1ReplyContainmentContractV3) (capability : CapabilityV1) : bool :=
  let apply :=
    wrc_operation_kind contract =? ReplyContainmentOperation_Apply in
  let strategy :=
    reply_containment_strategy (wrc_operation_kind contract) in
  (cap_id capability =? reply_capability_id (wrc_operation_kind contract))
  && (cap_authority_scope capability =? Some CapabilityAuthorityScope_WorkspaceOwned)
  && (cap_adapter_status capability =? AdapterStatus_DelegatedCli)
  && cap_execution_supported capability
  && Bool.eqb (cap_mutating capability) apply
  && (cap_method capability =? (if apply
    then "POST"
    else "GET"))
  && (cap_risk capability =? (if apply
    then RiskClass_IdentityOrOwnership
    else RiskClass_Read))
  && (cap_effect capability =? (if apply
    then EffectClass_IdentityOrOwnership
    else EffectClass_ReadOnly))
  && (verif_strategy (cap_verification capability) =? strategy)
  && (wrc_schema_version contract =? 3%Z)
  && (wrc_input_contract contract =? "maildesk_reply_containment_v3")
  && (wrc_compiler_runtime contract =? "bun")
  && (wrc_compiler_runtime_version contract =? "1.3.14")
  && (wrc_wrangler_version contract =? "4.110.0")
  && (wrc_database_binding contract =? "DB")
  && negb (is_empty (wrc_repository_root contract))
  && negb (is_empty (wrc_repository_head contract))
  && negb (is_empty (wrc_repository_tree contract))
  && negb (is_empty (wrc_operation_pack_sha256 contract))
  && negb (is_empty (wrc_compiler_sha256 contract))
  && negb (is_empty (wrc_compiler_runtime_sha256 contract))
  && negb (is_empty (wrc_config_template_sha256 contract))
  && (negb apply
   || ((wrc_recovery_capability_id contract =? "d1-time-travel-get-bookmark")
    && ((1 <=? wrc_recovery_max_age_seconds contract) && (wrc_recovery_max_age_seconds contract
      <=? 600))%Z
    && (wrc_rollback_capability_id contract =? "d1-restore-exact-bookmark"))).

(** [baseline_end.checked_add(1) == Some(target)] on [u64] *)
Definition target_is_immediate_successor (baseline_end target : Z) : bool :=
  (baseline_end + 1 <? 2 ^ 64)%Z && (baseline_end + 1 =? target)%Z.

Definition legacy_verification_supported (contract : WorkspaceD1MigrationContractV1) : bool :=
  if is_someb (wdm_transition contract) then false else
  let contract :=
    contract in
  let manifest_valid :=
    is_none_or (wdm_manifest_migration contract) (fun manifest =>
      negb (is_empty (wmm_manifest_path manifest))
      && negb (is_empty (wmm_manifest_sha256 manifest))
      && negb (is_empty (wmm_account_id manifest))
      && negb (is_empty (wmm_profile_id manifest))
      && negb (is_empty (wmm_database_name manifest))
      && negb (is_empty (wmm_database_id manifest))
      && ((1 <=? Z.of_nat (length (wmm_baseline manifest))) && (Z.of_nat (length (wmm_baseline
        manifest)) <=? 64))%Z
      && (wmm_baseline_start_sequence manifest <=? wmm_baseline_end_sequence manifest)%Z
      && target_is_immediate_successor (wmm_baseline_end_sequence manifest) (wmm_target_sequence
        manifest)
      && negb (is_empty (wmm_target_git_blob_oid manifest))
      && (Z.of_nat (length (wdm_migrations contract)) =? 1%Z)
      && negb (is_empty (wmm_baseline_digest manifest))
      && negb (is_empty (wmm_migrations_pattern manifest))
      && (wmm_ledger_table manifest =? "d1_migrations")
      && negb (is_empty (wmm_ledger_name manifest))
      && negb (is_empty (wmm_wrangler_cli_sha256 manifest))
      && (wmm_full_export_capability_id manifest =? "d1-full-export")
      && wmm_require_exact_post_ledger manifest
      && wmm_require_exact_schema_sql manifest
      && wmm_require_foreign_key_check_empty manifest
      && wmm_require_integrity_check_ok manifest
      && wmm_require_unchanged_worker_identity manifest
      && wmm_require_old_worker_compatibility manifest) in
  negb (is_empty (wdm_repository_root contract))
  && negb (is_empty (wdm_repository_head contract))
  && negb (is_empty (wdm_operation_pack_sha256 contract))
  && negb (is_empty (wdm_config_template_sha256 contract))
  && negb (is_empty (wdm_wrangler_version contract))
  && negb (is_nil (wdm_migrations contract))
  && negb (is_nil (wdm_assertions contract))
  && manifest_valid
  && (wdm_recovery_capability_id contract =? "d1-time-travel-get-bookmark")
  && (0 <? wdm_recovery_max_age_seconds contract)%Z
  && (wdm_recovery_max_age_seconds contract <=? 600)%Z
  && (wdm_rollback_capability_id contract =? "d1-restore-exact-bookmark").
