(* ===== verification/Verification.v ===== *)
(** Verification and rollback contracts of a capability
    (crates/cfctl-core/src/lib.rs): which strategies are declared and which the
    runtime implements for the capability's exact shape. Each arm of the two
    large [match]es is a predicate of its own, and the [match]es are the tables
    of these predicates. *)

From Stdlib Require Import String Ascii ZArith Lia List Bool.
From stdpp Require Import base option list strings.
From S2P Require Import Prelude Strings Btree Json JsonOps Core CatalogTypes WorkspaceTypes.
From S2P Require Import Samples Demo Capability CapabilityOps RequestSchema Contracts Transition.

Open Scope cf_scope.
Open Scope string_scope.
Open Scope list_scope.
Open Scope cf_scope.

Section Verification.
Context `{Runtime}.

Definition verification_contract_declared (self : CapabilityV1) : bool :=
  negb (verif_required (cap_verification self))
  || negb (contains [""; "required"; "post_change_read_or_operation_specific_verifier"]
             (verif_strategy (cap_verification self))).

(** ** One predicate per verification strategy *)

Definition verify_workspace_d1_migration_ledger_and_schema_assertions (self : CapabilityV1) :
  bool :=
  (cap_authority_scope self =? Some CapabilityAuthorityScope_WorkspaceOwned)
  && (cap_adapter_status self =? AdapterStatus_DelegatedCli)
  && (cap_method self =? "POST")
  && (cap_risk self =? RiskClass_ScopedWrite)
  && (cap_effect self =? EffectClass_DataWrite)
  && is_some_and (cap_workspace_d1_migration self) legacy_verification_supported.

Definition verify_workspace_d1_policy_projection_count_and_digest (self : CapabilityV1) : bool
  :=
  (cap_authority_scope self =? Some CapabilityAuthorityScope_WorkspaceOwned)
  && (cap_adapter_status self =? AdapterStatus_DelegatedCli)
  && (cap_method self =? "POST")
  && (cap_risk self =? RiskClass_ScopedWrite)
  && (cap_effect self =? EffectClass_DataWrite)
  && is_some_and (cap_workspace_d1_policy_projection self) (fun contract =>
    negb (is_empty (wpp_repository_root contract))
    && negb (is_empty (wpp_repository_head contract))
    && negb (is_empty (wpp_operation_pack_sha256 contract))
    && negb (is_empty (wpp_config_template_sha256 contract))
    && negb (is_empty (wpp_wrangler_version contract))
    && negb (is_empty (wpp_route_table contract))
    && negb (is_empty (wpp_route_policy_sha_column contract))
    && negb (is_empty (wpp_runtime_state_table contract))
    && negb (is_empty (wpp_runtime_state_key_column contract))
    && negb (is_empty (wpp_runtime_state_value_column contract))
    && negb (is_empty (wpp_active_policy_key contract))
    && negb (is_empty (wpp_desired_state_digest_key contract))
    && negb (is_empty (wpp_projection_digest_key contract))
    && (wpp_recovery_capability_id contract =? "d1-time-travel-get-bookmark")
    && (0 <? wpp_recovery_max_age_seconds contract)%Z
    && (wpp_recovery_max_age_seconds contract <=? 600)%Z
    && (wpp_rollback_capability_id contract =? "d1-restore-exact-bookmark")).

Definition verify_workspace_d1_reply_containment_pre_read_v3 (self : CapabilityV1) : bool :=
  is_some_and (reply_containment_contract self) (fun contract =>
    reply_containment_verification_supported contract self).

Definition verify_workspace_d1_reply_admission_exact_readback (self : CapabilityV1) : bool :=
  (cap_authority_scope self =? Some CapabilityAuthorityScope_WorkspaceOwned)
  && (cap_adapter_status self =? AdapterStatus_DelegatedCli)
  && (cap_method self =? "POST")
  && (cap_risk self =? RiskClass_ScopedWrite)
  && (cap_effect self =? EffectClass_DataWrite)
  && is_some_and (reply_admission_contract self) (fun contract =>
    (wra_operation_kind contract =? "activate")
    && negb (is_empty (wra_repository_root contract))
    && negb (is_empty (wra_repository_head contract))
    && negb (is_empty (wra_operation_pack_sha256 contract))
    && negb (is_empty (wra_compiler_sha256 contract))
    && (wra_compiler_runtime contract =? "bun")
    && negb (is_empty (wra_compiler_runtime_version contract))
    && negb (is_empty (wra_compiler_runtime_sha256 contract))
    && negb (is_empty (wra_config_template_sha256 contract))
    && negb (is_empty (wra_wrangler_version contract))
    && negb (is_empty (wra_admission_table contract))
    && (wra_input_contract contract =? "maildesk_reply_admission_compiler_input_v1")
    && (wra_mutation_projection contract =? "maildesk_reply_admission_insert_v1")
    && is_noneb (wra_read_projection contract)
    && is_nil (wra_read_parameters contract)
    && (wra_recovery_capability_id contract =? "d1-time-travel-get-bookmark")
    && (0 <? wra_recovery_max_age_seconds contract)%Z
    && (wra_recovery_max_age_seconds contract <=? 600)%Z
    && (wra_rollback_capability_id contract =? "d1-restore-exact-bookmark")).

Definition verify_workspace_d1_reply_admission_body_free_read (self : CapabilityV1) : bool :=
  (cap_authority_scope self =? Some CapabilityAuthorityScope_WorkspaceOwned)
  && (cap_adapter_status self =? AdapterStatus_DelegatedCli)
  && (cap_method self =? "GET")
  && negb (cap_mutating self)
  && (cap_risk self =? RiskClass_Read)
  && (cap_effect self =? EffectClass_ReadOnly)
  && is_some_and (reply_admission_contract self) (fun contract =>
    (wra_operation_kind contract =? "read")
    && negb (is_empty (wra_repository_root contract))
    && negb (is_empty (wra_repository_head contract))
    && negb (is_empty (wra_operation_pack_sha256 contract))
    && negb (is_empty (wra_compiler_sha256 contract))
    && (wra_compiler_runtime contract =? "bun")
    && negb (is_empty (wra_compiler_runtime_version contract))
    && negb (is_empty (wra_compiler_runtime_sha256 contract))
    && negb (is_empty (wra_config_template_sha256 contract))
    && negb (is_empty (wra_wrangler_version contract))
    && negb (is_empty (wra_admission_table contract))
    && (wra_input_contract contract =? "maildesk_reply_admission_compiler_input_v1")
    && is_empty (wra_mutation_projection contract)
    && (wra_read_projection contract =? Some "maildesk_reply_admission_read_v1")
    && (wra_read_parameters contract =? ["transaction_sha256"; "activation_record_sha256";
      "pre_send_identity_projection_sha256"; "activation_operation_id"])
    && is_empty (wra_recovery_capability_id contract)
    && (wra_recovery_max_age_seconds contract =? 0%Z)
    && is_empty (wra_rollback_capability_id contract)).

Definition verify_workspace_reply_subdomain_ingress_body_free_read (self : CapabilityV1) : bool
  :=
  (cap_authority_scope self =? Some CapabilityAuthorityScope_WorkspaceOwned)
  && (cap_adapter_status self =? AdapterStatus_DelegatedCli)
  && (cap_method self =? "GET")
  && negb (cap_mutating self)
  && (cap_risk self =? RiskClass_Read)
  && (cap_effect self =? EffectClass_ReadOnly)
  && is_some_and (cap_workspace_reply_subdomain_ingress self) (fun contract =>
    (wri_operation_kind contract =? "read")
    && negb (is_empty (wri_repository_root contract))
    && negb (is_empty (wri_repository_head contract))
    && negb (is_empty (wri_surface_sha256 contract))
    && negb (is_empty (wri_consumer_contract_sha256 contract))
    && (wri_projection contract =? "workspace_reply_subdomain_ingress_v1")).

Definition verify_workspace_reply_subdomain_ingress_activation_body_free_readback (self :
  CapabilityV1) : bool :=
  (cap_authority_scope self =? Some CapabilityAuthorityScope_WorkspaceOwned)
  && (cap_adapter_status self =? AdapterStatus_DelegatedCli)
  && (cap_method self =? "POST")
  && cap_mutating self
  && (cap_risk self =? RiskClass_ScopedWrite)
  && (cap_effect self =? EffectClass_ReversibleWrite)
  && is_some_and (cap_workspace_reply_subdomain_ingress self) (fun contract =>
    (wri_operation_kind contract =? "activate")
    && negb (is_empty (wri_repository_root contract))
    && negb (is_empty (wri_repository_head contract))
    && negb (is_empty (wri_surface_sha256 contract))
    && negb (is_empty (wri_consumer_contract_sha256 contract))
    && (wri_projection contract =? "workspace_reply_subdomain_ingress_v1")).

Definition verify_workspace_d1_maildesk_body_free_evidence (self : CapabilityV1) : bool :=
  (cap_authority_scope self =? Some CapabilityAuthorityScope_WorkspaceOwned)
  && (cap_adapter_status self =? AdapterStatus_DelegatedCli)
  && (cap_method self =? "GET")
  && negb (cap_mutating self)
  && (cap_risk self =? RiskClass_Read)
  && (cap_effect self =? EffectClass_ReadOnly)
  && is_some_and (cap_workspace_d1_evidence self) (fun contract =>
    negb (is_empty (wde_repository_root contract))
    && negb (is_empty (wde_repository_head contract))
    && negb (is_empty (wde_operation_pack_sha256 contract))
    && negb (is_empty (wde_config_template_sha256 contract))
    && negb (is_empty (wde_production_config_path contract))
    && negb (is_empty (wde_database_binding contract))
    && negb (is_empty (wde_wrangler_version contract))
    && (wde_projection contract =? "maildesk_v1")
    && starts_with (wde_query_sha256 contract) "sha256:").

Definition verify_workspace_d1_maildesk_inbound_acceptance_body_free_read (self : CapabilityV1)
  : bool :=
  (cap_authority_scope self =? Some CapabilityAuthorityScope_WorkspaceOwned)
  && (cap_adapter_status self =? AdapterStatus_DelegatedCli)
  && (cap_method self =? "GET")
  && negb (cap_mutating self)
  && (cap_risk self =? RiskClass_Read)
  && (cap_effect self =? EffectClass_ReadOnly)
  && is_some_and (cap_workspace_d1_evidence self) (fun contract =>
    negb (is_empty (wde_repository_root contract))
    && negb (is_empty (wde_repository_head contract))
    && negb (is_empty (wde_operation_pack_sha256 contract))
    && negb (is_empty (wde_config_template_sha256 contract))
    && negb (is_empty (wde_production_config_path contract))
    && negb (is_empty (wde_database_binding contract))
    && negb (is_empty (wde_wrangler_version contract))
    && (wde_projection contract =? "maildesk_inbound_acceptance_v1")
    && starts_with (wde_query_sha256 contract) "sha256:").

Definition verify_r2_private_file_upload_etag_and_conditional_read (self : CapabilityV1) : bool
  :=
  (cap_id self =? "r2-put-object")
  && (cap_method self =? "PUT")
  && (cap_path self =? "/accounts/{account_id}/r2/buckets/{bucket_name}/objects/{object_key}")
  && (cap_risk self =? RiskClass_ScopedWrite)
  && (cap_effect self =? EffectClass_ReversibleWrite)
  && (cap_permissions self =? ["Workers R2 Storage Write"])
  && is_noneb (cap_request_schema self)
  && is_some_and (cap_r2_private_file_upload self) (fun contract =>
    (0 <? r2u_max_source_bytes contract)%Z
    && (r2u_max_source_bytes contract <=? 300000000)%Z
    && negb (is_nil (r2u_allowed_content_types contract))
    && r2u_require_if_none_match_star contract
    && (r2u_read_capability_id contract =? "r2-get-object")
    && (r2u_delete_capability_id contract =? "r2-delete-object")
    && (r2u_etag_algorithm contract =? "md5")).

Definition verify_email_sending_dns_status_reports_ready (self : CapabilityV1) : bool :=
  (cap_id self =? "email-sending-subdomains-fix-sending-subdomain-dns")
  && (cap_method self =? "POST")
  && (cap_path self =? "/zones/{zone_id}/email/sending/subdomains/{subdomain_id}/dns")
  && (cap_risk self =? RiskClass_ScopedWrite)
  && (cap_effect self =? EffectClass_ReversibleWrite)
  && (cap_permissions self =? ["DNS Write"; "Email Sending Read"; "Email Sending Write"])
  && is_noneb (cap_request_schema self)
  && is_some_and (cap_email_sending_dns_repair self) (fun contract =>
    (esd_status_read_capability_id contract =?
      "email-sending-subdomains-get-sending-subdomain-dns-status")
    && (esd_status_read_path contract =?
      "/zones/{zone_id}/email/sending/subdomains/{subdomain_id}/dns/status")).

Definition verify_email_routing_subdomain_dns_records_match (self : CapabilityV1) : bool :=
  (cap_id self =? "email-routing-settings-enable-email-routing-dns")
  && (cap_method self =? "POST")
  && (cap_path self =? "/zones/{zone_id}/email/routing/dns")
  && (cap_risk self =? RiskClass_ScopedWrite)
  && (cap_effect self =? EffectClass_ReversibleWrite)
  && (cap_permissions self =? ["DNS Write"; "Zone Settings Write"])
  && is_some_and (cap_request_schema self) (fun schema =>
    negb (option_eqb Value_eqb (vget "nullable" schema) (Some (VBool true)))
    && option_eqb Value_eqb (vget "x-cfctl-body-required" schema) (Some (VBool true))
    && (obind (vpointer "/required/0" schema) as_str =? Some "name"))
  && is_some_and (cap_email_routing_subdomain_dns self) (fun contract =>
    (erd_read_capability_id contract =? "email-routing-settings-email-routing-dns-settings")
    && (erd_read_path contract =? "/zones/{zone_id}/email/routing/dns")
    && (erd_request_name_field contract =? "name")
    && (erd_read_query_field contract =? "subdomain")).

Definition verify_mln_import_requires_governed_post_import_proof (self : CapabilityV1) : bool :=
  contains ["d1-import-approved-mln-migration"; "d1-resume-approved-mln-import-poll"] (cap_id
    self)
  && (cap_method self =? "POST")
  && (cap_risk self =? RiskClass_Irreversible)
  && (cap_effect self =? EffectClass_DataWrite)
  && xorb (is_someb (cap_d1_approved_mln_import self)) (is_someb
    (cap_d1_approved_mln_import_poll_resume self)).

Definition verify_d1_import_provider_completion_matches_reviewed_source (self : CapabilityV1) :
  bool :=
  contains ["d1-import-database"; "d1-resume-database-import-poll"] (cap_id self)
  && (cap_method self =? "POST")
  && (cap_risk self =? RiskClass_Irreversible)
  && (cap_effect self =? EffectClass_DataWrite)
  && xorb (is_someb (cap_d1_approved_mln_import self)) (is_someb
    (cap_d1_approved_mln_import_poll_resume self)).

Definition verify_d1_reviewed_schema_batch_reports_every_statement_success (self : CapabilityV1)
  : bool :=
  (cap_id self =? "d1-apply-reviewed-schema-migration")
  && (cap_method self =? "POST")
  && (cap_path self =? "/accounts/{account_id}/d1/database/{database_id}/query")
  && (cap_risk self =? RiskClass_Irreversible)
  && (cap_effect self =? EffectClass_DataWrite)
  && is_someb (cap_d1_approved_mln_import self)
  && is_noneb (cap_d1_approved_mln_import_poll_resume self).

Definition verify_osint_research_migration_schema_marker_is_present (self : CapabilityV1) : bool
  :=
  (cap_id self =? "d1-import-approved-osint-research-migration")
  && (cap_method self =? "POST")
  && (cap_risk self =? RiskClass_Irreversible)
  && (cap_effect self =? EffectClass_DataWrite)
  && is_someb (cap_d1_approved_mln_import self)
  && is_noneb (cap_d1_approved_mln_import_poll_resume self).

Definition verify_d1_current_bookmark_equals_restore_result_bookmark (self : CapabilityV1) :
  bool :=
  (cap_id self =? "d1-restore-exact-bookmark")
  && (cap_method self =? "POST")
  && (cap_risk self =? RiskClass_Recovery)
  && (cap_effect self =? EffectClass_DataWrite)
  && is_someb (cap_d1_restore_exact_bookmark self).

Definition verify_api_token_details_match_created_id_and_active_status (self : CapabilityV1) :
  bool :=
  (cap_method self =? "POST")
  && contains ["account-api-tokens-create-token"; "user-api-tokens-create-token"] (cap_id self).

Definition verify_api_token_details_report_active_after_value_roll (self : CapabilityV1) : bool
  :=
  (cap_method self =? "PUT")
  && contains ["account-api-tokens-roll-token"; "user-api-tokens-roll-token"] (cap_id self).

Definition verify_api_token_details_returns_not_found_after_revoke (self : CapabilityV1) : bool
  :=
  (cap_method self =? "DELETE")
  && contains ["account-api-tokens-delete-token"; "user-api-tokens-delete-token"] (cap_id self).

Definition verify_dns_record_details_match_created_id_and_planned_fields (self : CapabilityV1) :
  bool :=
  (cap_method self =? "POST")
  && (cap_id self =? "dns-records-for-a-zone-create-dns-record").

Definition verify_dns_record_details_match_planned_id_and_fields (self : CapabilityV1) : bool :=
  contains ["PATCH"; "PUT"] (cap_method self)
  && contains ["dns-records-for-a-zone-patch-dns-record";
    "dns-records-for-a-zone-update-dns-record"] (cap_id self).

Definition verify_dns_record_details_returns_not_found_after_delete (self : CapabilityV1) : bool
  :=
  (cap_method self =? "DELETE")
  && (cap_id self =? "dns-records-for-a-zone-delete-dns-record").

Definition verify_same_resource_returns_not_found_after_delete (self : CapabilityV1) : bool :=
  (cap_method self =? "DELETE")
  && (path_targets_exact_resource (cap_path self)
   || path_targets_singleton_subresource (cap_path self))
  && (is_noneb (cap_request_schema self)
   || required_empty_request_body_contract self)
  && same_path_readback_selectors_supported self
  && same_path_read_contract_supported self false.

Definition verify_parent_collection_omits_deleted_resource_id (self : CapabilityV1) : bool :=
  (cap_method self =? "DELETE")
  && is_noneb (cap_request_schema self)
  && forallb (fun selector =>
    sel_location selector =? "path") (cap_selectors self)
  && deleted_resource_contract_supported self.

Definition verify_parent_object_omits_deleted_nested_resource_id (self : CapabilityV1) : bool :=
  (cap_method self =? "DELETE")
  && is_noneb (cap_request_schema self)
  && forallb (fun selector =>
    sel_location selector =? "path") (cap_selectors self)
  && deleted_nested_resource_contract_supported self.

Definition verify_parent_collection_item_contains_planned_fields_after_update (self :
  CapabilityV1) : bool :=
  contains ["PATCH"; "PUT"] (cap_method self)
  && forallb (fun selector =>
    sel_location selector =? "path") (cap_selectors self)
  && updated_resource_contract_supported self.

Definition verify_same_resource_contains_planned_fields_after_update (self : CapabilityV1) :
  bool :=
  contains ["PATCH"; "PUT"] (cap_method self)
  && path_targets_exact_resource (cap_path self)
  && same_path_readback_selectors_supported self
  && same_path_read_contract_supported self true.

Definition verify_same_path_result_contains_planned_fields_after_update (self : CapabilityV1) :
  bool :=
  contains ["PATCH"; "PUT"] (cap_method self)
  && same_path_readback_selectors_supported self
  && same_path_read_contract_supported self true.

Definition verify_same_path_result_contains_planned_fields_after_mutation (self : CapabilityV1)
  : bool :=
  (cap_method self =? "POST")
  && same_path_readback_selectors_supported self
  && same_path_read_contract_supported self true.

Definition verify_worker_script_settings_returns_not_found_after_delete (self : CapabilityV1) :
  bool :=
  (cap_id self =? "worker-script-delete-worker")
  && (cap_method self =? "DELETE")
  && (cap_path self =? "/accounts/{account_id}/workers/scripts/{script_name}")
  && is_noneb (cap_request_schema self)
  && forallb (fun selector =>
    sel_location selector =? "path") (cap_selectors self)
  && forallb (fun name =>
    existsb (fun selector =>
      (sel_name selector =? name)
      && (sel_location selector =? "path")
      && sel_required selector) (cap_selectors self)) ["account_id"; "script_name"]
  && is_some_and (cap_same_path_read self) (fun target =>
    (spr_path target =? "/accounts/{account_id}/workers/scripts/{script_name}/settings")
    && (spr_read_capability_id target =? "worker-script-get-settings")
    && is_nil (spr_verified_response_fields target)).

Definition verify_worker_deployment_latest_matches_planned_versions (self : CapabilityV1) : bool
  :=
  (cap_id self =? "worker-deployments-create-deployment")
  && (cap_method self =? "POST")
  && (cap_path self =? "/accounts/{account_id}/workers/scripts/{script_name}/deployments")
  && (cap_product self =? "Worker Deployments")
  && (cap_permissions self =? ["Workers Scripts Write"])
  && forallb (fun selector =>
    sel_location selector =? "path") (cap_selectors self)
  && forallb (fun name =>
    existsb (fun selector =>
      (sel_name selector =? name)
      && (sel_location selector =? "path")
      && sel_required selector) (cap_selectors self)) ["account_id"; "script_name"]
  && is_some_and (cap_same_path_read self) (fun target =>
    (spr_path target =? cap_path self)
    && (spr_read_capability_id target =? "worker-deployments-list-deployments")
    && is_nil (spr_verified_response_fields target)).

Definition verify_worker_cron_schedules_match_planned_crons (self : CapabilityV1) : bool :=
  (cap_id self =? "worker-cron-trigger-update-cron-triggers")
  && (cap_method self =? "PUT")
  && (cap_path self =? "/accounts/{account_id}/workers/scripts/{script_name}/schedules")
  && (cap_product self =? "Worker Cron Trigger")
  && (cap_permissions self =? ["Workers Scripts Write"])
  && forallb (fun selector =>
    sel_location selector =? "path") (cap_selectors self)
  && forallb (fun name =>
    existsb (fun selector =>
      (sel_name selector =? name)
      && (sel_location selector =? "path")
      && sel_required selector) (cap_selectors self)) ["account_id"; "script_name"]
  && is_some_and (cap_same_path_read self) (fun target =>
    (spr_path target =? cap_path self)
    && (spr_read_capability_id target =? "worker-cron-trigger-get-cron-triggers")
    && is_nil (spr_verified_response_fields target)).

Definition verify_created_resource_contains_planned_fields_by_returned_id (self : CapabilityV1)
  : bool :=
  created_resource_creation_method_supported self
  && created_resource_contract_supported self.

Definition verify_pages_production_deployment_succeeds_by_returned_id (self : CapabilityV1) :
  bool :=
  (cap_id self =? "pages-deployment-create-deployment")
  && (cap_method self =? "POST")
  && (cap_path self =? "/accounts/{account_id}/pages/projects/{project_name}/deployments")
  && (cap_product self =? "Pages Deployment")
  && (cap_account_scope self =? "account")
  && (cap_permissions self =? ["Pages Write"])
  && is_noneb (cap_request_schema self)
  && (cap_risk self =? RiskClass_CrossConfig)
  && (cap_effect self =? EffectClass_ReversibleWrite)
  && contains [AdapterStatus_Native; AdapterStatus_DynamicApi] (cap_adapter_status self)
  && created_resource_contract_structurally_supported self (fun target =>
    (cr_detail_path target =?
      "/accounts/{account_id}/pages/projects/{project_name}/deployments/{deployment_id}")
    && (cr_identity_selector target =? "deployment_id")
    && (cr_response_result_identity_pointer target =? "/id")
    && (cr_read_capability_id target =? "pages-deployment-get-deployment-info")
    && (cr_delete_capability_id target =? "pages-deployment-delete-deployment")
    && (cr_verified_response_fields target =? ["environment"; "project_name"])).

Definition verify_created_access_application_contains_planned_fields_by_returned_id (self :
  CapabilityV1) : bool :=
  (cap_id self =? "access-applications-add-an-application")
  && (cap_method self =? "POST")
  && (cap_path self =? "/accounts/{account_id}/access/apps")
  && created_resource_contract_supported_with_curated_fields self ["name"; "type"].

Definition verify_parent_collection_contains_created_resource_id_and_planned_fields (self :
  CapabilityV1) : bool :=
  (cap_method self =? "POST")
  && created_collection_resource_contract_supported self.

Definition verify_async_list_operation_completes_and_correlated_member_exists (self :
  CapabilityV1) : bool :=
  async_list_mutation_contract_supported self true.

Definition verify_async_list_operation_completes_and_members_absent (self : CapabilityV1) : bool
  :=
  async_list_mutation_contract_supported self false.

Definition verify_parent_object_contains_created_nested_resource_by_correlation (self :
  CapabilityV1) : bool :=
  (cap_method self =? "POST")
  && created_nested_resource_contract_supported self.

Definition verify_web_analytics_rule_list_contains_created_id_and_planned_fields (self :
  CapabilityV1) : bool :=
  (cap_id self =? "web-analytics-create-rule")
  && (cap_method self =? "POST")
  && (cap_path self =? "/accounts/{account_id}/rum/v2/{ruleset_id}/rule")
  && (cap_permissions self =? ["Account Settings Read"; "Account Settings Write"])
  && created_resource_contract_supported self
  && is_some_and (cap_created_resource self) (fun target =>
    (cr_detail_path target =? "/accounts/{account_id}/rum/v2/{ruleset_id}/rule/{rule_id}")
    && (cr_identity_selector target =? "rule_id")
    && (cr_response_result_identity_pointer target =? "/id")
    && (cr_read_capability_id target =? "web-analytics-list-rules")
    && (cr_delete_capability_id target =? "web-analytics-delete-rule")).

Definition verify_web_analytics_rule_list_omits_deleted_id (self : CapabilityV1) : bool :=
  (cap_id self =? "web-analytics-delete-rule")
  && (cap_method self =? "DELETE")
  && (cap_path self =? "/accounts/{account_id}/rum/v2/{ruleset_id}/rule/{rule_id}")
  && is_noneb (cap_request_schema self)
  && (cap_permissions self =? ["Account Settings Read"; "Account Settings Write"])
  && forallb (fun selector =>
    sel_location selector =? "path") (cap_selectors self)
  && is_some_and (cap_same_path_read self) (fun target =>
    (spr_path target =? "/accounts/{account_id}/rum/v2/{ruleset_id}/rules")
    && (spr_read_capability_id target =? "web-analytics-list-rules")
    && is_nil (spr_verified_response_fields target)).

Definition verify_cache_purge_response_reports_target_zone_id (self : CapabilityV1) : bool :=
  (cap_method self =? "POST")
  && contains ["zone-purge"; "zone-purge-tagged"; "zone-environment-purge";
    "zone-environment-purge-tagged"] (cap_id self).

Definition verify_wrangler_deployment_status_reports_promoted_version (self : CapabilityV1) :
  bool :=
  (cap_id self =? "wrangler.deploy")
  && (cap_method self =? "CLI")
  && (cap_path self =? "wrangler deploy")
  && (cap_adapter_status self =? AdapterStatus_DelegatedCli)
  && existsb (fun selector =>
    (sel_name selector =? "config")
    && (sel_location selector =? "query")
    && sel_required selector
    && (sel_value_type selector =? "string")) (cap_selectors self).

Definition verify_wrangler_pages_new_deployment_succeeds_by_returned_id (self : CapabilityV1) :
  bool :=
  (cap_id self =? "wrangler.pages-deploy")
  && (cap_method self =? "CLI")
  && (cap_path self =? "wrangler pages deploy")
  && (cap_adapter_status self =? AdapterStatus_DelegatedCli)
  && forallb (fun name =>
    existsb (fun selector =>
      (sel_name selector =? name)
      && (sel_location selector =? "query")
      && sel_required selector
      && (sel_value_type selector =? "string")) (cap_selectors self)) ["argument";
        "project_name"; "branch"; "commit_hash"]
  && is_some_and (cap_created_resource self) (fun target =>
    (cr_detail_path target =?
      "/accounts/{account_id}/pages/projects/{project_name}/deployments/{deployment_id}")
    && (cr_identity_selector target =? "deployment_id")
    && (cr_response_result_identity_pointer target =? "/id")
    && (cr_read_capability_id target =? "pages-deployment-get-deployment-info")
    && (cr_delete_capability_id target =? "pages-deployment-delete-deployment")
    && (cr_verified_response_fields target =? ["environment"; "project_name"])).

Definition verify_wrangler_worker_version_reports_expected_message (self : CapabilityV1) : bool
  :=
  (cap_id self =? "wrangler.versions-upload")
  && (cap_method self =? "CLI")
  && (cap_path self =? "wrangler versions upload")
  && (cap_adapter_status self =? AdapterStatus_DelegatedCli)
  && forallb (fun name =>
    existsb (fun selector =>
      (sel_name selector =? name)
      && (sel_location selector =? "query")
      && sel_required selector
      && (sel_value_type selector =? "string")) (cap_selectors self)) ["config"; "message"].

Definition verify_wrangler_worker_versions_deployment_reports_expected_traffic (self :
  CapabilityV1) : bool :=
  (cap_id self =? "wrangler.versions-deploy")
  && (cap_method self =? "CLI")
  && (cap_path self =? "wrangler versions deploy --yes")
  && (cap_adapter_status self =? AdapterStatus_DelegatedCli)
  && forallb (fun name =>
    existsb (fun selector =>
      (sel_name selector =? name)
      && (sel_location selector =? "query")
      && sel_required selector
      && (sel_value_type selector =? "string")) (cap_selectors self)) ["argument"; "config";
        "message"].

Definition verify_worker_latest_deployment_is_exact_rollback_target (self : CapabilityV1) : bool
  :=
  (cap_id self =? "worker-version-rollback")
  && (cap_method self =? "POST")
  && (cap_path self =? "/accounts/{account_id}/workers/scripts/{script_name}/deployments")
  && (cap_adapter_status self =? AdapterStatus_Native)
  && (cap_risk self =? RiskClass_Recovery)
  && (cap_effect self =? EffectClass_ReversibleWrite)
  && (cap_permissions self =? ["Workers Scripts Write"; "Workers Scripts Read"])
  && (Z.of_nat (length (cap_selectors self)) =? 2%Z)
  && forallb (fun name =>
    existsb (fun selector =>
      (sel_name selector =? name)
      && (sel_location selector =? "path")
      && sel_required selector) (cap_selectors self)) ["account_id"; "script_name"]
  && is_some_and (cap_request_schema self) (fun schema =>
    (obind (vget "type" schema) as_str =? Some "object")
    && (obind (vget "additionalProperties" schema) as_bool =? Some false)
    && (request_object_fields self =? Some ["expected_current_deployment_id"; "message";
      "target_version_id"])).

Definition
  verify_worker_deployment_plan_binds_artifact_config_prior_active_and_post_deploy_verifier
  (self : CapabilityV1) : bool :=
  (cap_id self =? WORKER_DEPLOYMENT_PLAN_CAPABILITY_ID)
  && (cap_method self =? "POST")
  && (cap_path self =? "/cfctl/plans/accounts/{account_id}/workers/deployment")
  && (cap_adapter_status self =? AdapterStatus_Native)
  && negb (cap_execution_supported self)
  && (cap_risk self =? RiskClass_CrossConfig)
  && (cap_effect self =? EffectClass_ReversibleWrite)
  && (cap_permissions self =? ["Workers Scripts Write"; "Workers Scripts Read"])
  && (Z.of_nat (length (cap_selectors self)) =? 4%Z)
  && forallb (fun name =>
    existsb (fun selector =>
      (sel_name selector =? name)
      && sel_required selector) (cap_selectors self)) ["account_id"; "config"; "message";
        "name"].

Definition verify_trycloudflare_https_url_reaches_reviewed_origin (self : CapabilityV1) : bool
  :=
  (cap_id self =? "cloudflared.tunnel")
  && (cap_method self =? "CLI")
  && (cap_path self =? "cloudflared tunnel")
  && (cap_adapter_status self =? AdapterStatus_DelegatedCli)
  && (cap_risk self =? RiskClass_ExternalCommunication)
  && (cap_effect self =? EffectClass_ExternalCommunication)
  && existsb (fun selector =>
    (sel_name selector =? "url")
    && (sel_location selector =? "query")
    && sel_required selector
    && (sel_value_type selector =? "string")) (cap_selectors self)
  && existsb (fun selector =>
    (sel_name selector =? "health_path")
    && (sel_location selector =? "query")
    && negb (sel_required selector)
    && (sel_value_type selector =? "string")) (cap_selectors self).

Definition verify_email_routing_settings_response_reports_enabled_state (self : CapabilityV1) :
  bool :=
  (cap_method self =? "POST")
  && contains ["email-routing-settings-enable-email-routing";
    "email-routing-settings-disable-email-routing"] (cap_id self).

(** The arms of the [match] on the strategy, in the source's order. *)
Definition verification_strategies : list (string * (CapabilityV1 -> bool)) :=
  [("workspace_d1_transition_envelope_v3", transition_contract_supported);
   (challenge_rule_VERIFY, challenge_rule_supported);
   (header_rule_VERIFY, header_rule_supported);
   (pages_CREATE_STRATEGY, pages_contract_supported);
   (pages_VARIABLES_STRATEGY, pages_contract_supported);
   ("workspace_d1_migration_ledger_and_schema_assertions",
    verify_workspace_d1_migration_ledger_and_schema_assertions);
   ("workspace_d1_policy_projection_count_and_digest",
    verify_workspace_d1_policy_projection_count_and_digest);
   ("workspace_d1_reply_containment_pre_read_v3",
    verify_workspace_d1_reply_containment_pre_read_v3);
   ("workspace_d1_reply_containment_apply_v3",
    verify_workspace_d1_reply_containment_pre_read_v3);
   ("workspace_d1_reply_containment_readback_v3",
    verify_workspace_d1_reply_containment_pre_read_v3);
   ("workspace_d1_reply_admission_exact_readback",
    verify_workspace_d1_reply_admission_exact_readback);
   ("workspace_d1_reply_admission_body_free_read",
    verify_workspace_d1_reply_admission_body_free_read);
   ("workspace_reply_subdomain_ingress_body_free_read",
    verify_workspace_reply_subdomain_ingress_body_free_read);
   ("workspace_reply_subdomain_ingress_activation_body_free_readback",
    verify_workspace_reply_subdomain_ingress_activation_body_free_readback);
   ("workspace_d1_maildesk_body_free_evidence",
    verify_workspace_d1_maildesk_body_free_evidence);
   ("workspace_d1_maildesk_inbound_acceptance_body_free_read",
    verify_workspace_d1_maildesk_inbound_acceptance_body_free_read);
   ("r2_private_file_upload_etag_and_conditional_read",
    verify_r2_private_file_upload_etag_and_conditional_read);
   ("worker_version_artifact_digest", artifact_digest_verification_supported);
   ("r2_private_object_digest", artifact_digest_verification_supported);
   (r2_restore_STRATEGY, artifact_digest_verification_supported);
   ("email_sending_dns_status_reports_ready", verify_email_sending_dns_status_reports_ready);
   ("email_routing_subdomain_dns_records_match",
    verify_email_routing_subdomain_dns_records_match);
   ("mln_import_requires_governed_post_import_proof",
    verify_mln_import_requires_governed_post_import_proof);
   ("d1_import_provider_completion_matches_reviewed_source",
    verify_d1_import_provider_completion_matches_reviewed_source);
   ("d1_reviewed_schema_batch_reports_every_statement_success",
    verify_d1_reviewed_schema_batch_reports_every_statement_success);
   ("osint_research_migration_schema_marker_is_present",
    verify_osint_research_migration_schema_marker_is_present);
   ("d1_current_bookmark_equals_restore_result_bookmark",
    verify_d1_current_bookmark_equals_restore_result_bookmark);
   ("event_batch_registry_commit_and_queue_acknowledgement_receipt",
    event_batch_contract_supported);
   ("api_token_details_match_created_id_and_active_status",
    verify_api_token_details_match_created_id_and_active_status);
   ("api_token_details_report_active_after_value_roll",
    verify_api_token_details_report_active_after_value_roll);
   ("api_token_details_returns_not_found_after_revoke",
    verify_api_token_details_returns_not_found_after_revoke);
   ("oauth_client_reports_rotated_secret_after_value_roll",
    secret_lifecycle_verification_contract_supported);
   ("oauth_client_reports_no_rotated_secret_after_old_secret_delete",
    secret_lifecycle_verification_contract_supported);
   ("worker_script_secret_reports_planned_name_and_type_after_put",
    secret_lifecycle_verification_contract_supported);
   ("access_service_token_reports_refreshed_expiration",
    access_service_token_refresh_verification_contract_supported);
   ("dns_record_details_match_created_id_and_planned_fields",
    verify_dns_record_details_match_created_id_and_planned_fields);
   ("dns_record_details_match_planned_id_and_fields",
    verify_dns_record_details_match_planned_id_and_fields);
   ("dns_record_details_returns_not_found_after_delete",
    verify_dns_record_details_returns_not_found_after_delete);
   ("same_resource_returns_not_found_after_delete",
    verify_same_resource_returns_not_found_after_delete);
   ("parent_collection_omits_deleted_resource_id",
    verify_parent_collection_omits_deleted_resource_id);
   ("parent_object_omits_deleted_nested_resource_id",
    verify_parent_object_omits_deleted_nested_resource_id);
   ("parent_collection_item_contains_planned_fields_after_update",
    verify_parent_collection_item_contains_planned_fields_after_update);
   ("same_resource_contains_planned_fields_after_update",
    verify_same_resource_contains_planned_fields_after_update);
   ("same_path_result_contains_planned_fields_after_update",
    verify_same_path_result_contains_planned_fields_after_update);
   ("same_path_result_contains_planned_fields_after_mutation",
    verify_same_path_result_contains_planned_fields_after_mutation);
   ("worker_script_settings_returns_not_found_after_delete",
    verify_worker_script_settings_returns_not_found_after_delete);
   ("worker_deployment_latest_matches_planned_versions",
    verify_worker_deployment_latest_matches_planned_versions);
   ("worker_cron_schedules_match_planned_crons",
    verify_worker_cron_schedules_match_planned_crons);
   ("created_resource_contains_planned_fields_by_returned_id",
    verify_created_resource_contains_planned_fields_by_returned_id);
   ("pages_production_deployment_succeeds_by_returned_id",
    verify_pages_production_deployment_succeeds_by_returned_id);
   ("created_access_application_contains_planned_fields_by_returned_id",
    verify_created_access_application_contains_planned_fields_by_returned_id);
   ("parent_collection_contains_created_resource_id_and_planned_fields",
    verify_parent_collection_contains_created_resource_id_and_planned_fields);
   ("worker_tail_collection_contains_created_lease_id",
    worker_tail_created_collection_contract_supported);
   ("async_list_operation_completes_and_correlated_member_exists",
    verify_async_list_operation_completes_and_correlated_member_exists);
   ("async_list_operation_completes_and_members_absent",
    verify_async_list_operation_completes_and_members_absent);
   ("parent_object_contains_created_nested_resource_by_correlation",
    verify_parent_object_contains_created_nested_resource_by_correlation);
   ("web_analytics_rule_list_contains_created_id_and_planned_fields",
    verify_web_analytics_rule_list_contains_created_id_and_planned_fields);
   ("web_analytics_rule_list_omits_deleted_id",
    verify_web_analytics_rule_list_omits_deleted_id);
   ("cache_purge_response_reports_target_zone_id",
    verify_cache_purge_response_reports_target_zone_id);
   ("wrangler_deployment_status_reports_promoted_version",
    verify_wrangler_deployment_status_reports_promoted_version);
   ("wrangler_pages_new_deployment_succeeds_by_returned_id",
    verify_wrangler_pages_new_deployment_succeeds_by_returned_id);
   ("wrangler_worker_version_reports_expected_message",
    verify_wrangler_worker_version_reports_expected_message);
   ("wrangler_worker_versions_deployment_reports_expected_traffic",
    verify_wrangler_worker_versions_deployment_reports_expected_traffic);
   ("worker_latest_deployment_is_exact_rollback_target",
    verify_worker_latest_deployment_is_exact_rollback_target);
   ("worker_deployment_plan_binds_artifact_config_prior_active_and_post_deploy_verifier",
    verify_worker_deployment_plan_binds_artifact_config_prior_active_and_post_deploy_verifier);
   ("trycloudflare_https_url_reaches_reviewed_origin",
    verify_trycloudflare_https_url_reaches_reviewed_origin);
   ("email_routing_settings_response_reports_enabled_state",
    verify_email_routing_settings_response_reports_enabled_state)].

(** [match key { arms, _ => false }] *)
Definition select_arm {K} `{EqDecision K} (arms : list (K * (CapabilityV1 -> bool))) (key : K)
    (self : CapabilityV1) : bool :=
  match find (fun arm => fst arm =? key) arms with
  | Some (_, supported) => supported self
  | None => false
  end.

Definition verification_contract_supported (self : CapabilityV1) : bool :=
  if cap_id self =? worker_module_upload_ID then false
  else if negb (cap_mutating self) then true
  else if negb (verif_required (cap_verification self)) then
    (cap_risk self =? RiskClass_SecretSensitive)
    && (verif_strategy (cap_verification self) =? "sink_write_and_source_response_status")
  else select_arm verification_strategies (verif_strategy (cap_verification self)) self.

(** ** Rollback *)

Definition rollback_contract_declared (self : CapabilityV1) : bool :=
  if rollback_supported (cap_rollback self) then
    is_some_and (rollback_strategy (cap_rollback self)) (fun strategy =>
      negb (trim_is_empty strategy))
  else
    is_some_and (rollback_warning (cap_rollback self)) (fun warning =>
      negb (trim_is_empty warning)
      && (warning <>? "rollback semantics have not been declared")).

Definition global_warp_override_rollback_supported (self : CapabilityV1) : bool :=
  (cap_id self =? "devices-resilience-set-global-warp-override")
  && (cap_method self =? "POST")
  && (cap_path self =? "/accounts/{account_id}/devices/resilience/disconnect")
  && (cap_account_scope self =? "account")
  && (verif_strategy (cap_verification self) =?
    "same_path_result_contains_planned_fields_after_mutation")
  && verification_contract_supported self
  && is_some_and (cap_same_path_read self) (fun read =>
    (spr_read_capability_id read =? "devices-resilience-retrieve-global-warp-override")
    && (spr_verified_response_fields read =? ["disconnect"])).

Definition same_path_prior_snapshot_rollback_supported (self : CapabilityV1) : bool :=
  contains ["PATCH"; "PUT"] (cap_method self)
  && contains ["same_resource_contains_planned_fields_after_update";
    "same_path_result_contains_planned_fields_after_update"] (verif_strategy (cap_verification
    self))
  && verification_contract_supported self
  && same_path_readback_selectors_supported self
  && same_path_read_contract_supported self true.

Definition d1_database_create_request_contract_supported (self : CapabilityV1) : bool :=
  option_eqb Value_eqb (cap_request_schema self) (Some (jobj [
      ("properties",
         jobj [
           ("jurisdiction",
              jobj [
                ("enum", VArray [VString "eu"; VString "fedramp"; VString "us"]);
                ("type", VString "string")]);
           ("name", jobj [("type", VString "string")]);
           ("primary_location_hint",
              jobj [
                ("enum",
                   VArray [VString "wnam"; VString "enam"; VString "weur"; VString "eeur";
                     VString "apac"; VString "oc"]);
                ("type", VString "string");
                ("x-cfctl-verification-observable", VBool false)]);
           ("read_replication",
              jobj [
                ("properties",
                   jobj [
                     ("mode",
                        jobj [
                          ("enum", VArray [VString "auto"; VString "disabled"]);
                          ("type", VString "string")])]);
                ("required", VArray [VString "mode"]);
                ("type", VString "object")])]);
      ("required", VArray [VString "name"]);
      ("type", VString "object");
      ("x-cfctl-body-required", VBool true)])).

Definition kv_namespace_create_rollback_contract_supported (self : CapabilityV1) : bool :=
  (cap_id self =? "workers-kv-namespace-create-a-namespace")
  && (cap_method self =? "POST")
  && (cap_path self =? "/accounts/{account_id}/storage/kv/namespaces")
  && (cap_product self =? "Workers KV Namespace")
  && (cap_account_scope self =? "account")
  && cap_mutating self
  && (verif_strategy (cap_verification self) =?
    "created_resource_contains_planned_fields_by_returned_id")
  && verification_contract_supported self
  && created_resource_contract_supported self
  && is_some_and (cap_created_resource self) (fun target =>
    (cr_detail_path target =? "/accounts/{account_id}/storage/kv/namespaces/{namespace_id}")
    && (cr_identity_selector target =? "namespace_id")
    && (cr_response_result_identity_pointer target =? "/id")
    && (cr_delete_capability_id target =? "workers-kv-namespace-remove-a-namespace")).

Definition d1_database_create_rollback_contract_supported (self : CapabilityV1) : bool :=
  (cap_id self =? "d1-create-database")
  && (cap_title self =? "Create D1 Database")
  && (cap_method self =? "POST")
  && (cap_path self =? "/accounts/{account_id}/d1/database")
  && (cap_product self =? "D1")
  && (cap_account_scope self =? "account")
  && cap_mutating self
  && (cap_permissions self =? ["D1 Write"])
  && (cap_risk self =? RiskClass_ScopedWrite)
  && (cap_effect self =? EffectClass_ReversibleWrite)
  && (verif_strategy (cap_verification self) =?
    "created_resource_contains_planned_fields_by_returned_id")
  && verification_contract_supported self
  && d1_database_create_request_contract_supported self
  && created_resource_contract_supported self
  && is_some_and (cap_created_resource self) (fun target =>
    (cr_detail_path target =? "/accounts/{account_id}/d1/database/{database_id}")
    && (cr_identity_selector target =? "database_id")
    && (cr_response_result_identity_pointer target =? "/uuid")
    && (cr_read_capability_id target =? "d1-get-database")
    && (cr_delete_capability_id target =? "d1-delete-database")).

Definition d1_read_replication_request_contract_supported (self : CapabilityV1) : bool :=
  is_some_and (cap_request_schema self) (fun schema =>
  is_some_and (obind (vget "properties" schema) as_object) (fun properties =>
  is_some_and (bt_get "read_replication" properties) (fun replication =>
    let replication_properties := obind (vget "properties" replication) as_object in
    (obind (vget "type" schema) as_str =? Some "object")
    && (length properties =? 1)
    && (obind (vget "type" replication) as_str =? Some "object")
    && option_eqb Value_eqb (vget "required" replication) (Some (VArray [VString "mode"]))
    && is_some_and replication_properties (fun properties =>
         (length properties =? 1)
         && is_some_and (bt_get "mode" properties) (fun mode =>
              (obind (vget "type" mode) as_str =? Some "string")
              && option_eqb Value_eqb (vget "enum" mode)
                   (Some (VArray [VString "auto"; VString "disabled"]))))))).

(** [request_schema.and_then(|s| canonical_hash_value(s).ok()) == Some(hash)] *)
Definition request_schema_hash_is (self : CapabilityV1) (hash : string) : bool :=
  obind (cap_request_schema self) (fun schema => ok_opt (canonical_hash_value schema))
    =? Some hash.

Definition cloudflare_tunnel_configuration_request_contract_supported (self : CapabilityV1) : bool :=
  request_schema_hash_is self CLOUDFLARE_TUNNEL_CONFIGURATION_REQUEST_SCHEMA_HASH.

Definition warp_connector_configuration_request_contract_supported (self : CapabilityV1) : bool :=
  request_schema_hash_is self WARP_CONNECTOR_CONFIGURATION_REQUEST_SCHEMA_HASH.

Definition dns_record_update_request_contract_supported (self : CapabilityV1) : bool :=
  request_schema_hash_is self DNS_RECORD_UPDATE_REQUEST_SCHEMA_HASH.

Definition cloudflare_tunnel_configuration_rollback_contract_supported (self : CapabilityV1) :
  bool :=
  (cap_id self =? "cloudflare-tunnel-configuration-put-configuration")
  && (cap_method self =? "PUT")
  && (cap_product self =? "Cloudflare Tunnel Configuration")
  && (cap_path self =? "/accounts/{account_id}/cfd_tunnel/{tunnel_id}/configurations")
  && (cap_account_scope self =? "account")
  && (verif_strategy (cap_verification self) =?
    "same_path_result_contains_planned_fields_after_update")
  && verification_contract_supported self
  && cloudflare_tunnel_configuration_request_contract_supported self
  && is_some_and (cap_same_path_read self) (fun read =>
    (spr_path read =? "/accounts/{account_id}/cfd_tunnel/{tunnel_id}/configurations")
    && (spr_read_capability_id read =? "cloudflare-tunnel-configuration-get-configuration")
    && (spr_verified_response_fields read =? ["config"])).

Definition warp_connector_configuration_rollback_contract_supported (self : CapabilityV1) : bool
  :=
  (cap_id self =? "cloudflare-tunnel-configuration-update-warp-connector-configuration")
  && (cap_method self =? "PUT")
  && (cap_product self =? "Cloudflare Tunnel Configuration")
  && (cap_path self =? "/accounts/{account_id}/warp_connector/{tunnel_id}/configurations")
  && (cap_account_scope self =? "account")
  && (verif_strategy (cap_verification self) =?
    "same_path_result_contains_planned_fields_after_update")
  && verification_contract_supported self
  && warp_connector_configuration_request_contract_supported self
  && is_some_and (cap_same_path_read self) (fun read =>
    (spr_path read =? "/accounts/{account_id}/warp_connector/{tunnel_id}/configurations")
    && (spr_read_capability_id read =?
      "cloudflare-tunnel-configuration-get-warp-connector-configuration")
    && (spr_verified_response_fields read =? ["config"; "ha_mode"])).

Definition web_analytics_rum_rollback_contract_supported (self : CapabilityV1) : bool :=
  (cap_id self =? "web-analytics-toggle-rum")
  && (cap_method self =? "PATCH")
  && (cap_product self =? "Web Analytics")
  && (cap_path self =? "/zones/{zone_id}/settings/rum")
  && (cap_account_scope self =? "zone")
  && (verif_strategy (cap_verification self) =?
    "same_path_result_contains_planned_fields_after_update")
  && verification_contract_supported self
  && request_schema_hash_is self WEB_ANALYTICS_RUM_REQUEST_SCHEMA_HASH
  && is_some_and (cap_same_path_read self) (fun read =>
    (spr_path read =? "/zones/{zone_id}/settings/rum")
    && (spr_read_capability_id read =? "web-analytics-get-rum-status")
    && (spr_verified_response_fields read =? ["value"])).

Definition dns_record_update (self : CapabilityV1) : bool :=
  contains [("dns-records-for-a-zone-update-dns-record", "PUT");
    ("dns-records-for-a-zone-patch-dns-record", "PATCH")] (cap_id self, cap_method self)
  && (cap_product self =? "DNS Records for a Zone")
  && (cap_path self =? DNS_RECORD_DETAIL_PATH)
  && (cap_account_scope self =? "zone")
  && (verif_strategy (cap_verification self) =?
    "dns_record_details_match_planned_id_and_fields")
  && verification_contract_supported self
  && dns_record_update_request_contract_supported self
  && is_some_and (cap_same_path_read self) (fun read =>
    (spr_path read =? DNS_RECORD_DETAIL_PATH)
    && (spr_read_capability_id read =? DNS_RECORD_DETAIL_READ_CAPABILITY_ID)
    && (spr_verified_response_fields read =? ["comment"; "content"; "data"; "name"; "priority";
      "private_routing"; "proxied"; "settings"; "tags"; "ttl"; "type"])).

Definition rollback_revoke_created_api_token_by_returned_id_if_downstream_installation_fails
  (self : CapabilityV1) : bool :=
  (cap_method self =? "POST")
  && contains ["account-api-tokens-create-token"; "user-api-tokens-create-token"] (cap_id self).

Definition rollback_delete_created_dns_record_by_returned_id (self : CapabilityV1) : bool :=
  (cap_method self =? "POST")
  && (cap_id self =? "dns-records-for-a-zone-create-dns-record").

Definition rollback_remove_async_created_list_member_by_correlated_id (self : CapabilityV1) :
  bool :=
  async_list_mutation_contract_supported self true
  && (verif_strategy (cap_verification self) =?
    "async_list_operation_completes_and_correlated_member_exists").

Definition rollback_restore_d1_read_replication_prior_mode (self : CapabilityV1) : bool :=
  contains [("d1-update-database", "PUT"); ("d1-update-partial-database", "PATCH")] (cap_id
    self, cap_method self)
  && (cap_product self =? "D1")
  && (cap_path self =? "/accounts/{account_id}/d1/database/{database_id}")
  && (cap_account_scope self =? "account")
  && (verif_strategy (cap_verification self) =?
    "same_resource_contains_planned_fields_after_update")
  && verification_contract_supported self
  && d1_read_replication_request_contract_supported self
  && is_some_and (cap_same_path_read self) (fun read =>
    (spr_path read =? "/accounts/{account_id}/d1/database/{database_id}")
    && (spr_read_capability_id read =? "d1-get-database")
    && (spr_verified_response_fields read =? ["read_replication"])).

Definition rollback_strategies : list (option string * (CapabilityV1 -> bool)) :=
  [(Some challenge_rule_ROLLBACK, challenge_rule_supported);
   (Some header_rule_ROLLBACK, header_rule_supported);
   (Some "revoke_created_api_token_by_returned_id_if_downstream_installation_fails",
    rollback_revoke_created_api_token_by_returned_id_if_downstream_installation_fails);
   (Some "delete_created_dns_record_by_returned_id",
    rollback_delete_created_dns_record_by_returned_id);
   (Some "delete_created_resource_by_returned_id", delete_created_resource_rollback_supported);
   (Some "remove_async_created_list_member_by_correlated_id",
    rollback_remove_async_created_list_member_by_correlated_id);
   (Some "delete_created_empty_d1_database_by_returned_uuid_if_unchanged",
    d1_database_create_rollback_contract_supported);
   (Some "delete_created_empty_kv_namespace_by_returned_id_if_unchanged",
    kv_namespace_create_rollback_contract_supported);
   (Some "restore_global_warp_override_prior_disconnect_state",
    global_warp_override_rollback_supported);
   (Some "restore_d1_read_replication_prior_mode",
    rollback_restore_d1_read_replication_prior_mode);
   (Some "restore_cloudflare_tunnel_configuration_prior_snapshot",
    cloudflare_tunnel_configuration_rollback_contract_supported);
   (Some "restore_warp_connector_configuration_prior_snapshot",
    warp_connector_configuration_rollback_contract_supported);
   (Some "restore_web_analytics_rum_prior_value",
    web_analytics_rum_rollback_contract_supported);
   (Some "restore_dns_record_prior_snapshot_with_put", dns_record_update);
   (Some "restore_same_path_prior_snapshot", same_path_prior_snapshot_rollback_supported);
   (Some "new_approved_exact_bookmark_restore_from_previous_bookmark",
    exact_bookmark_restore_recovery_contract_supported);
   (Some "no_automatic_rollback_use_separately_approved_bookmark_restore",
    approved_mln_import_recovery_contract_supported)].

Definition rollback_contract_supported (self : CapabilityV1) : bool :=
  if negb (cap_mutating self) || negb (rollback_supported (cap_rollback self)) then true
  else select_arm rollback_strategies (rollback_strategy (cap_rollback self)) self.

End Verification.

(** ** Properties *)

(** The strategies that describe a body-free read. *)
Definition read_only_strategies : list string :=
  ["workspace_d1_reply_admission_body_free_read";
   "workspace_reply_subdomain_ingress_body_free_read";
   "workspace_d1_maildesk_body_free_evidence";
   "workspace_d1_maildesk_inbound_acceptance_body_free_read";
   "worker_version_artifact_digest"; "r2_private_object_digest"].

Section Properties.
Context `{Runtime}.

(** Their arms. *)
Lemma read_only_arm strategy self :
  strategy ∈ read_only_strategies ->
  select_arm verification_strategies strategy self =
    (if strategy =? "workspace_d1_reply_admission_body_free_read"
     then verify_workspace_d1_reply_admission_body_free_read self
     else if strategy =? "workspace_reply_subdomain_ingress_body_free_read"
     then verify_workspace_reply_subdomain_ingress_body_free_read self
     else if strategy =? "workspace_d1_maildesk_body_free_evidence"
     then verify_workspace_d1_maildesk_body_free_evidence self
     else if strategy =? "workspace_d1_maildesk_inbound_acceptance_body_free_read"
     then verify_workspace_d1_maildesk_inbound_acceptance_body_free_read self
     else artifact_digest_verification_supported self).
Proof.
  unfold read_only_strategies. rewrite !elem_of_cons, elem_of_nil.
  intros Hs. destruct_or! Hs; subst; try done; reflexivity.
Qed.

(** Each of them is for capabilities that do not mutate. *)
Lemma read_only_arms_false self :
  cap_mutating self = true ->
  verif_strategy (cap_verification self) ∈ read_only_strategies ->
  select_arm verification_strategies (verif_strategy (cap_verification self)) self = false.
Proof.
  intros Hm Hs. rewrite read_only_arm by done.
  unfold verify_workspace_d1_reply_admission_body_free_read,
    verify_workspace_reply_subdomain_ingress_body_free_read,
    verify_workspace_d1_maildesk_body_free_evidence,
    verify_workspace_d1_maildesk_inbound_acceptance_body_free_read,
    artifact_digest_verification_supported, worker_version_artifact_digest_supported,
    r2_private_object_digest_supported.
  rewrite Hm. cbn [negb]. rewrite !andb_false_r. cbn [andb].
  unfold read_only_strategies in Hs. rewrite !elem_of_cons, elem_of_nil in Hs.
  destruct_or! Hs; try done; by rewrite Hs.
Qed.

(** The body-free read contracts are never checked. The arms of
    [verification_contract_supported] for them require a capability that does
    not mutate, but such a capability is accepted before the strategy is
    looked at: with one of these strategies the answer is just whether the
    capability mutates, whatever its contract says. *)
Theorem read_contracts_are_unchecked self
    (Hs : verif_strategy (cap_verification self) ∈ read_only_strategies) :
  verification_contract_supported self =
  (cap_id self <>? worker_module_upload_ID) && negb (cap_mutating self).
Proof.
  unfold verification_contract_supported.
  destruct (cap_id self =? worker_module_upload_ID); [done|].
  destruct (cap_mutating self) eqn:Hm; [|done]. cbn [negb andb].
  destruct (verif_required _).
  - by apply read_only_arms_false.
  - unfold read_only_strategies in Hs. rewrite !elem_of_cons, elem_of_nil in Hs.
    cbn [negb]. destruct_or! Hs; try done; by rewrite Hs, andb_false_r.
Qed.
End Properties.

(** ** Witness *)

(** A read whose Worker digest contract names another operation. *)
Definition stray_digest_read : CapabilityV1 :=
  let c := capability_new "zone-list" "List zones" "GET" "/zones" in
  let k := classification_of c in
  classify {|
    class_selectors := class_selectors k;
    class_permissions := class_permissions k;
    class_risk := class_risk k;
    class_effect := class_effect k;
    class_cost := class_cost k;
    class_verification := mkVerificationSpecV1 true "worker_version_artifact_digest";
    class_rollback := class_rollback k;
    class_same_path_read := class_same_path_read k;
    class_request_schema := class_request_schema k;
    class_response_contract := class_response_contract k
  |} c.

Lemma read_contracts_are_unchecked_witness :
  verification_contract_supported stray_digest_read = true /\
  artifact_digest_verification_supported stray_digest_read = false.
Proof.
  split; [|vm_compute; reflexivity].
  refine (eq_trans (read_contracts_are_unchecked stray_digest_read _) _).
  - do 4 apply list_elem_of_further. apply list_elem_of_here.
  - vm_compute. reflexivity.
Defined.
