(* ===== verification/Gaps.v ===== *)
(** The safety metadata a mutating capability must carry
    (crates/cfctl-core/src/lib.rs): the telemetry-derived security actions and
    [mutation_contract_gaps], the list of everything that is missing. *)

From Stdlib Require Import String Ascii ZArith Lia List Bool.
From stdpp Require Import base option list strings.
From S2P Require Import Prelude Strings Btree Json JsonOps Core CatalogTypes Capability.
From S2P Require Import CapabilityOps RequestSchema Contracts Verification.

Open Scope cf_scope.
Open Scope string_scope.
Open Scope list_scope.
Open Scope cf_scope.

Section Gaps.
Context `{Runtime}.

(** ** Security actions *)

Definition schema_is_closed_object (schema : Value) : bool :=
  (obind (vget "type" schema) as_str =? Some "object")
  && (flag schema "additionalProperties" =? Some false)
  && is_some_and (obind (vget "required" schema) as_array) (fun required => negb (is_nil required)).

Definition security_action_common (self : CapabilityV1) (contract : SecurityActionContractV1)
    : bool :=
  cap_mutating self
  && schema_is_closed_object (sac_input_schema contract)
  && negb (is_empty (sac_current_state_capability_id contract))
  && (sac_safety_profile contract =? SecurityActionSafetyProfile_TelemetryDerivedStrict).

(** Between five minutes and seven days. *)
Definition expiring_ttl (contract : SecurityActionContractV1) : bool :=
  (300 <=? sac_default_ttl_seconds contract)%Z
  && (sac_default_ttl_seconds contract <=? sac_max_ttl_seconds contract)%Z
  && (sac_max_ttl_seconds contract <=? 604800)%Z.

Definition no_ttl (contract : SecurityActionContractV1) : bool :=
  (sac_default_ttl_seconds contract =? 0)%Z && (sac_max_ttl_seconds contract =? 0)%Z
  && is_noneb (sac_default_action contract) && is_nil (sac_allowed_actions contract).

Definition security_action_contract_supported (self : CapabilityV1) : bool :=
  match cap_security_action self with
  | None => true
  | Some contract =>
      if negb (security_action_common self contract) then false
      else
        match sac_kind contract with
        | SecurityActionKind_CreateExpiring =>
            (cap_method self =? "POST")
            && expiring_ttl contract
            && is_some_and (sac_default_action contract) (fun action =>
                 (action =? "managed_challenge")
                 && existsb (fun allowed => allowed =? action) (sac_allowed_actions contract))
            && negb (is_nil (sac_allowed_target_types contract))
            && verification_contract_supported self
            && rollback_supported (cap_rollback self)
            && rollback_contract_supported self
        | SecurityActionKind_RemoveExpired =>
            (cap_method self =? "DELETE")
            && no_ttl contract
            && verification_contract_supported self
            && negb (rollback_supported (cap_rollback self))
        | SecurityActionKind_AddExpiringListMember =>
            (cap_method self =? "POST")
            && expiring_ttl contract
            && (sac_default_action contract =? Some "managed_challenge")
            && existsb (fun action => action =? "managed_challenge") (sac_allowed_actions contract)
            && negb (is_nil (sac_allowed_target_types contract))
            && async_list_mutation_contract_supported self true
            && verification_contract_supported self
            && rollback_supported (cap_rollback self)
            && rollback_contract_supported self
        | SecurityActionKind_RemoveExpiredListMember =>
            (cap_method self =? "DELETE")
            && no_ttl contract
            && async_list_mutation_contract_supported self false
            && verification_contract_supported self
            && negb (rollback_supported (cap_rollback self))
        end
  end.

(** ** Gaps *)

(** [if condition { gaps.push(gap) }] *)
Definition gap_if (condition : bool) (gap : string) : list string :=
  if condition then [gap] else [].

Definition cost_gaps (cost : CostV1) : list string :=
  if negb (cost_known cost) then
    if is_nil (cost_references cost)
    then ["operation-specific incremental cost is unknown"]
    else ["operation-specific cost is not bounded; review official pricing reference(s): "
            ++ join ", " (map ref_url (cost_references cost))]%string
  else if cost_incremental cost then
    gap_if (negb (is_some_and (cost_currency cost) valid_currency_code))
      "known incremental cost has no valid three-letter currency"
    ++ gap_if (negb (is_some_and (cost_maximum cost) valid_non_negative_amount))
         "known incremental cost has no finite non-negative maximum"
  else [].

Definition verification_gaps (self : CapabilityV1) : list string :=
  if negb (verification_contract_declared self)
  then ["operation-specific verification is not declared"]
  else if negb (verification_contract_supported self)
  then ["declared verification strategy is unsupported: " ++ verif_strategy (cap_verification self)]%string
  else [].

Definition rollback_gaps (self : CapabilityV1) : list string :=
  if negb (rollback_contract_declared self)
  then ["operation-specific rollback or irreversibility behavior is not declared"]
  else if negb (rollback_contract_supported self)
  then ["declared rollback strategy is unsupported: "
          ++ default "<missing>" (rollback_strategy (cap_rollback self))]%string
  else [].

Definition dynamic_api_contract (self : CapabilityV1) : bool :=
  (cap_adapter_status self =? AdapterStatus_DynamicApi)
  || ((cap_adapter_status self =? AdapterStatus_Blocked)
      && is_some_and (cap_blocked_reason self) (fun reason =>
           starts_with reason "operation contract incomplete:")).

Definition entitlement_gaps (entitlement : EntitlementV1) : list string :=
  if ent_available entitlement =? Some true then []
  else
    match ent_blocker entitlement with
    | Some blocker => [blocker]
    | None =>
        gap_if (is_noneb (ent_probe entitlement)
                && existsb (fun available => negb available) (bt_values (ent_plans entitlement)))
          "account entitlement has not been resolved for this plan-gated operation"
    end.

Definition mutation_contract_gaps (self : CapabilityV1) : list string :=
  if negb (cap_mutating self) then []
  else
    gap_if (cap_id self =? worker_module_upload_ID) worker_module_upload_BLOCKING_GAP
    ++ gap_if (cap_risk self =? RiskClass_Unknown)
         "operation-specific risk classification is missing"
    ++ gap_if (cap_effect self =? EffectClass_Unknown)
         "operation-specific effect classification is missing"
    ++ cost_gaps (cap_cost self)
    ++ verification_gaps self
    ++ rollback_gaps self
    ++ gap_if (is_someb (cap_security_action self) && negb (security_action_contract_supported self))
         "telemetry-derived security action safety contract is malformed"
    ++ gap_if (is_someb (cap_event_batch self) && negb (event_batch_contract_supported self))
         "event batch safety contract is malformed or drifted"
    ++ gap_if (is_someb (ent_probe (cap_entitlement self))
               && negb (entitlement_probe_contract_supported self))
         "declared live entitlement probe is malformed"
    ++ gap_if (dynamic_api_contract self && is_nil (cap_permissions self))
         "required Cloudflare permission lane is not declared"
    ++ entitlement_gaps (cap_entitlement self).
End Gaps.

(** ** Facts *)

Lemma gap_if_nil c gap : gap_if c gap = [] <-> c = false.
Proof. by destruct c. Qed.

(** A known cost, with a currency and a finite ceiling when it adds up. *)
Definition cost_bounded (cost : CostV1) : Prop :=
  cost_known cost = true /\
  (cost_incremental cost = true ->
   (exists currency, cost_currency cost = Some currency /\ valid_currency_code currency = true) /\
   (exists amount, cost_maximum cost = Some amount /\ valid_non_negative_amount amount = true)).

Lemma is_some_and_true {A} (o : option A) (f : A -> bool) :
  is_some_and o f = true <-> exists a, o = Some a /\ f a = true.
Proof. destruct o; cbn; naive_solver. Qed.

Lemma cost_gaps_nil cost : cost_gaps cost = [] <-> cost_bounded cost.
Proof.
  unfold cost_gaps, cost_bounded. destruct (cost_known cost); cbn.
  - destruct (cost_incremental cost); [|naive_solver].
    rewrite app_nil, !gap_if_nil, !negb_false_iff, !is_some_and_true. naive_solver.
  - destruct (is_nil _); naive_solver.
Qed.

Section Facts.
Context `{Runtime}.

Lemma verification_gaps_nil self :
  verification_gaps self = [] <->
  verification_contract_declared self = true /\ verification_contract_supported self = true.
Proof.
  unfold verification_gaps.
  destruct (verification_contract_declared self), (verification_contract_supported self);
    naive_solver.
Qed.

Lemma rollback_gaps_nil self :
  rollback_gaps self = [] <->
  rollback_contract_declared self = true /\ rollback_contract_supported self = true.
Proof.
  unfold rollback_gaps.
  destruct (rollback_contract_declared self), (rollback_contract_supported self); naive_solver.
Qed.

(** The safety metadata behind an empty list of gaps. *)
Lemma mutation_contract_gaps_nil self :
  cap_mutating self = true -> mutation_contract_gaps self = [] ->
  cap_id self <> worker_module_upload_ID /\
  cap_risk self <> RiskClass_Unknown /\ cap_effect self <> EffectClass_Unknown /\
  cost_bounded (cap_cost self) /\
  (verification_contract_declared self = true /\ verification_contract_supported self = true) /\
  (rollback_contract_declared self = true /\ rollback_contract_supported self = true) /\
  (cap_security_action self <> None -> security_action_contract_supported self = true) /\
  (cap_event_batch self <> None -> event_batch_contract_supported self = true) /\
  (cap_adapter_status self = AdapterStatus_DynamicApi -> cap_permissions self <> []) /\
  (ent_available (cap_entitlement self) <> Some true -> ent_blocker (cap_entitlement self) = None).
Proof.
  intros Hm. unfold mutation_contract_gaps. rewrite Hm. cbn [negb].
  rewrite !app_nil, !gap_if_nil, cost_gaps_nil, verification_gaps_nil, rollback_gaps_nil.
  rewrite !andb_false_iff, !negb_false_iff, is_nil_false.
  intros (H1 & H2 & H3 & H4 & H5 & H6 & H7 & H8 & _ & H9 & H10). reflect_eqb.
  repeat (split; [done|]). split; [|split; [|split]].
  - destruct (cap_security_action self); naive_solver.
  - destruct (cap_event_batch self); naive_solver.
  - intros Ha [=]. destruct H9 as [H9|]; [|done]. unfold dynamic_api_contract in H9.
    by rewrite Ha in H9.
  - intros Ha. unfold entitlement_gaps in H10. destruct (_ =? Some true) eqn:Et; reflect_eqb; [done|].
    by destruct (ent_blocker _).
Qed.

Lemma read_only_has_no_gaps self : cap_mutating self = false -> mutation_contract_gaps self = [].
Proof. intros Hm. unfold mutation_contract_gaps. by rewrite Hm. Qed.
End Facts.
