(* ===== verification/Planner.v ===== *)
(** The policy engine (crates/cfctl-planner/src/lib.rs): from a capability and
    the impact of the plan to the built-in policy decision. *)

From Stdlib Require Import String Ascii ZArith Lia List Bool.
From stdpp Require Import base option list strings.
From S2P Require Import Prelude Strings Btree Json JsonOps Core CatalogTypes Capability.
From S2P Require Import CapabilityOps Samples RequestSchema Contracts Verification Gaps Policy Demo.

Open Scope cf_scope.
Open Scope string_scope.
Open Scope list_scope.
Open Scope cf_scope.

Definition INCREMENTAL_COST_REASON : string := "operation can incur incremental cost".

(** [usize] counts as [Z]. *)
Record ImpactContext : Type := mkImpactContext {
  affected_repositories : Z;
  affected_resources : Z;
  dependent_configurations : Z;
  has_unmanaged_dependencies : bool;
  has_dirty_overlap : bool;
  selector_ambiguous : bool;
}.

Definition impact_default : ImpactContext := mkImpactContext 0 0 0 false false false.

Definition decision (disposition : PolicyDisposition) (reasons : list string)
    (requires_cost_ceiling : bool) : PolicyDecisionV1 :=
  mkPolicyDecisionV1 1 disposition reasons requires_cost_ceiling.

(** [policy.disposition = ApprovalRequired; policy.reasons.push(reason)] *)
Definition require_approval (reason : string) (policy : PolicyDecisionV1) : PolicyDecisionV1 :=
  mkPolicyDecisionV1 (policy_schema_version policy) ApprovalRequired
    (policy_reasons policy ++ [reason]) (policy_requires_cost_ceiling policy).

Definition require_approval_if (condition : bool) (reason : string) (policy : PolicyDecisionV1)
    : PolicyDecisionV1 :=
  if condition then require_approval reason policy else policy.

Definition set_cost_ceiling (policy : PolicyDecisionV1) : PolicyDecisionV1 :=
  mkPolicyDecisionV1 (policy_schema_version policy) (policy_disposition policy)
    (policy_reasons policy) true.

Definition push_reason (reason : string) (policy : PolicyDecisionV1) : PolicyDecisionV1 :=
  mkPolicyDecisionV1 (policy_schema_version policy) (policy_disposition policy)
    (policy_reasons policy ++ [reason]) (policy_requires_cost_ceiling policy).

Definition require_incremental_cost_approval (capability : CapabilityV1)
    (policy : PolicyDecisionV1) : PolicyDecisionV1 :=
  if cost_incremental (cap_cost capability)
  then set_cost_ceiling (require_approval INCREMENTAL_COST_REASON policy)
  else policy.

(** [format!("{:?}", effect)] *)
Definition effect_debug (e : EffectClass) : string :=
  match e with
  | EffectClass_ReadOnly => "ReadOnly"
  | EffectClass_DataWrite => "DataWrite"
  | EffectClass_ReversibleWrite => "ReversibleWrite"
  | EffectClass_Destructive => "Destructive"
  | EffectClass_ExternalCommunication => "ExternalCommunication"
  | EffectClass_IdentityOrOwnership => "IdentityOrOwnership"
  | EffectClass_Spend => "Spend"
  | EffectClass_Irreversible => "Irreversible"
  | EffectClass_Unknown => "Unknown"
  end.

Definition apply_effect_policy (capability : CapabilityV1) (policy : PolicyDecisionV1)
    : PolicyDecisionV1 :=
  match cap_effect capability with
  | EffectClass_ReadOnly => policy
  | EffectClass_DataWrite => require_approval "operation writes database state" policy
  | EffectClass_ReversibleWrite =>
      require_approval_if
        ((cap_risk capability <>? RiskClass_ScopedWrite)
         || negb (rollback_supported (cap_rollback capability)))
        "write is not both known-scoped and backed by a declared rollback" policy
  | EffectClass_Spend =>
      let policy :=
        mkPolicyDecisionV1 (policy_schema_version policy) ApprovalRequired
          (policy_reasons policy) true in
      if negb (existsb (fun reason => reason =? INCREMENTAL_COST_REASON) (policy_reasons policy))
      then push_reason INCREMENTAL_COST_REASON policy else policy
  | effect =>
      require_approval ("operation has " ++ effect_debug effect ++ " effects")%string policy
  end.

Section Planner.
Context `{Runtime}.

(** [PolicyEngine::evaluate] *)
Definition evaluate (capability : CapabilityV1) (impact : ImpactContext) : PolicyDecisionV1 :=
  if selector_ambiguous impact then
    decision PolicyBlocked ["selectors resolve ambiguously"] false
  else if has_dirty_overlap impact then
    decision PolicyBlocked ["a proposed repository patch overlaps uncommitted work"] false
  else if cap_adapter_status capability =? AdapterStatus_Blocked then
    decision PolicyBlocked ["the capability adapter is blocked"] false
  else
  let contract_gaps := mutation_contract_gaps capability in
  let cost := cap_cost capability in
  if negb (is_nil contract_gaps) then
    mkPolicyDecisionV1 1 PolicyBlocked contract_gaps
      (cost_incremental cost && negb (cost_known cost))
  else if (cap_effect capability =? EffectClass_Spend) && cost_incremental cost
          && negb (cost_known cost) then
    decision PolicyBlocked ["incremental cost is unknown and cannot satisfy a hard ceiling"] true
  else
  let policy := decision AutoExecute [] false in
  let policy := require_incremental_cost_approval capability policy in
  if (cap_effect capability =? EffectClass_ReadOnly) && (cap_risk capability =? RiskClass_Read)
     && negb (cost_incremental cost) then
    decision AutoExecute ["read-only operation"] false
  else
  let policy := require_approval_if (1 <? affected_repositories impact)%Z
                  "operation affects multiple repositories" policy in
  let policy := require_approval_if
                  ((0 <? dependent_configurations impact)%Z || has_unmanaged_dependencies impact)
                  "operation has dependent or unmanaged configuration" policy in
  let policy := apply_effect_policy capability policy in
  let policy := require_approval_if
                  (contains [RiskClass_Unknown; RiskClass_CrossConfig] (cap_risk capability))
                  "risk is unknown or crosses configuration boundaries" policy in
  if is_nil (policy_reasons policy)
  then push_reason "known scoped reversible write" policy else policy.
End Planner.

(** ** Specification *)

Section Properties.
Context `{Runtime}.

(** What stops an operation outright. *)
Definition blocked (capability : CapabilityV1) (impact : ImpactContext) : Prop :=
  selector_ambiguous impact = true \/ has_dirty_overlap impact = true \/
  cap_adapter_status capability = AdapterStatus_Blocked \/
  mutation_contract_gaps capability <> [] \/
  (cap_effect capability = EffectClass_Spend /\ cost_incremental (cap_cost capability) = true /\
   cost_known (cap_cost capability) = false).

(** A change confined to one repository with nothing depending on it. *)
Definition confined (impact : ImpactContext) : Prop :=
  (affected_repositories impact <= 1)%Z /\ (dependent_configurations impact <= 0)%Z /\
  has_unmanaged_dependencies impact = false.

(** What may run without a human. *)
Definition unattended (capability : CapabilityV1) (impact : ImpactContext) : Prop :=
  cost_incremental (cap_cost capability) = false /\
  ((cap_effect capability = EffectClass_ReadOnly /\
    (cap_risk capability = RiskClass_Read \/
     (confined impact /\ cap_risk capability <> RiskClass_Unknown /\
      cap_risk capability <> RiskClass_CrossConfig))) \/
   (cap_effect capability = EffectClass_ReversibleWrite /\
    cap_risk capability = RiskClass_ScopedWrite /\
    rollback_supported (cap_rollback capability) = true /\ confined impact)).

(** ** Facts *)

Lemma require_approval_if_auto c reason p :
  policy_disposition (require_approval_if c reason p) = AutoExecute <->
  c = false /\ policy_disposition p = AutoExecute.
Proof. destruct c; cbn; intuition congruence. Qed.

Lemma require_approval_if_open c reason p :
  policy_disposition p <> PolicyBlocked ->
  policy_disposition (require_approval_if c reason p) <> PolicyBlocked.
Proof. by destruct c. Qed.

Lemma require_approval_if_ceiling c reason p :
  policy_requires_cost_ceiling (require_approval_if c reason p) = policy_requires_cost_ceiling p.
Proof. by destruct c. Qed.

Lemma final_reason_frame reason p :
  let q := if is_nil (policy_reasons p) then push_reason reason p else p in
  policy_disposition q = policy_disposition p /\
  policy_requires_cost_ceiling q = policy_requires_cost_ceiling p /\ policy_reasons q <> [].
Proof. unfold push_reason. destruct p as [v d [|r rs] c]; by cbn. Qed.

Lemma incremental_approval_auto capability p :
  policy_disposition (require_incremental_cost_approval capability p) = AutoExecute <->
  cost_incremental (cap_cost capability) = false /\ policy_disposition p = AutoExecute.
Proof.
  unfold require_incremental_cost_approval.
  destruct (cost_incremental _); cbn; intuition congruence.
Qed.

Lemma effect_policy_auto capability p :
  policy_disposition (apply_effect_policy capability p) = AutoExecute <->
  policy_disposition p = AutoExecute /\
  (cap_effect capability = EffectClass_ReadOnly \/
   (cap_effect capability = EffectClass_ReversibleWrite /\
    cap_risk capability = RiskClass_ScopedWrite /\
    rollback_supported (cap_rollback capability) = true)).
Proof.
  unfold apply_effect_policy. destruct (cap_effect capability); cbn;
    try (rewrite require_approval_if_auto, orb_false_iff, neqb_false, negb_false_iff);
    try destruct (negb _); cbn; intuition congruence.
Qed.

Lemma effect_policy_ceiling capability p :
  policy_requires_cost_ceiling (apply_effect_policy capability p) =
  policy_requires_cost_ceiling p || (cap_effect capability =? EffectClass_Spend).
Proof.
  unfold apply_effect_policy. destruct (cap_effect capability); cbn;
    rewrite ?require_approval_if_ceiling, ?orb_false_r, ?orb_true_r; try done.
  by destruct (negb _).
Qed.

Lemma effect_policy_open capability p :
  policy_disposition p <> PolicyBlocked ->
  policy_disposition (apply_effect_policy capability p) <> PolicyBlocked.
Proof.
  intros Hp. unfold apply_effect_policy. destruct (cap_effect capability); try done.
  - by apply require_approval_if_open.
  - by destruct (negb _).
Qed.

(** What the engine decides once nothing blocks the operation. *)
Definition open_policy (capability : CapabilityV1) (impact : ImpactContext) : PolicyDecisionV1 :=
  require_approval_if (contains [RiskClass_Unknown; RiskClass_CrossConfig] (cap_risk capability))
    "risk is unknown or crosses configuration boundaries"
  (apply_effect_policy capability
  (require_approval_if ((0 <? dependent_configurations impact)%Z || has_unmanaged_dependencies impact)
    "operation has dependent or unmanaged configuration"
  (require_approval_if (1 <? affected_repositories impact)%Z
    "operation affects multiple repositories"
  (require_incremental_cost_approval capability (decision AutoExecute [] false))))).

Definition plain_read (capability : CapabilityV1) : bool :=
  (cap_effect capability =? EffectClass_ReadOnly) && (cap_risk capability =? RiskClass_Read)
  && negb (cost_incremental (cap_cost capability)).

Lemma evaluate_cases capability impact :
  (blocked capability impact /\ policy_disposition (evaluate capability impact) = PolicyBlocked) \/
  (~ blocked capability impact /\
   evaluate capability impact =
     if plain_read capability then decision AutoExecute ["read-only operation"] false
     else let p := open_policy capability impact in
          if is_nil (policy_reasons p) then push_reason "known scoped reversible write" p else p).
Proof.
  unfold evaluate, blocked. destruct (selector_ambiguous impact); [left; by auto|].
  destruct (has_dirty_overlap impact); [left; by auto|].
  destruct (cap_adapter_status capability =? AdapterStatus_Blocked) eqn:Ea; reflect_eqb;
    [left; by auto|].
  destruct (mutation_contract_gaps capability) as [|gap gaps]; [|left; split; [auto 6|done]].
  cbn [is_nil negb]. destruct (_ && _ && _) eqn:Es in |- *.
  - split_andb. reflect_eqb. left. split; [|done]. by do 4 right.
  - right. split; [|done]. intros [|[|[|[|(He & Hi & Hk)]]]]; try done.
    by rewrite He, Hi, Hk, eqb_refl in Es.
Qed.

Lemma open_policy_open capability impact :
  policy_disposition (open_policy capability impact) <> PolicyBlocked.
Proof.
  unfold open_policy. apply require_approval_if_open, effect_policy_open.
  do 2 apply require_approval_if_open. unfold require_incremental_cost_approval.
  by destruct (cost_incremental _).
Qed.

Lemma open_policy_auto capability impact :
  policy_disposition (open_policy capability impact) = AutoExecute <->
  cost_incremental (cap_cost capability) = false /\ confined impact /\
  cap_risk capability <> RiskClass_Unknown /\ cap_risk capability <> RiskClass_CrossConfig /\
  (cap_effect capability = EffectClass_ReadOnly \/
   (cap_effect capability = EffectClass_ReversibleWrite /\
    cap_risk capability = RiskClass_ScopedWrite /\
    rollback_supported (cap_rollback capability) = true)).
Proof.
  unfold open_policy, confined.
  rewrite require_approval_if_auto, effect_policy_auto, !require_approval_if_auto,
    incremental_approval_auto, contains_false, orb_false_iff, !Z.ltb_ge.
  assert (Hr : cap_risk capability ∉ [RiskClass_Unknown; RiskClass_CrossConfig] <->
    cap_risk capability <> RiskClass_Unknown /\ cap_risk capability <> RiskClass_CrossConfig).
  { rewrite not_elem_of_cons, list_elem_of_singleton. done. }
  rewrite Hr. cbn. tauto.
Qed.

Lemma open_policy_ceiling capability impact :
  policy_requires_cost_ceiling (open_policy capability impact) =
  cost_incremental (cap_cost capability) || (cap_effect capability =? EffectClass_Spend).
Proof.
  unfold open_policy.
  rewrite require_approval_if_ceiling, effect_policy_ceiling, !require_approval_if_ceiling.
  unfold require_incremental_cost_approval. by destruct (cost_incremental _).
Qed.

Lemma evaluate_auto_iff capability impact :
  policy_disposition (evaluate capability impact) = AutoExecute <->
  ~ blocked capability impact /\ unattended capability impact.
Proof.
  destruct (evaluate_cases capability impact) as [[Hb ->]|[Hb ->]]; [naive_solver|].
  destruct (plain_read capability) eqn:Ep; unfold plain_read in Ep; cbn zeta.
  - split_andb. reflect_eqb. cbn. unfold unattended. naive_solver.
  - destruct (final_reason_frame "known scoped reversible write" (open_policy capability impact))
      as (Hd & _ & _). rewrite Hd, open_policy_auto. unfold unattended.
    rewrite !andb_false_iff, negb_false_iff in Ep.
    rewrite !eqb_false in Ep.
    naive_solver congruence.
Qed.

Lemma unblocked_no_gaps capability impact :
  ~ blocked capability impact -> mutation_contract_gaps capability = [].
Proof.
  intros Hb. destruct (mutation_contract_gaps capability) eqn:Eg; [done|].
  destruct Hb. do 3 right. left. by rewrite Eg.
Qed.

(** ** Properties *)

(** C6: the engine blocks exactly the operations with an ambiguous selector, an
    overlap with uncommitted work, a blocked adapter, a gap in the mutation
    contract or a spend of unknown incremental cost, and runs without approval
    exactly the unblocked operations that add no cost and are reads (classified
    so in effect and risk, or read-only and confined under another known risk
    that stays in one configuration) or confined, reversible scoped writes that
    declare a rollback. Everything else needs approval. *)
Theorem disposition_iff capability impact :
  (policy_disposition (evaluate capability impact) = PolicyBlocked <->
   blocked capability impact) /\
  (policy_disposition (evaluate capability impact) = AutoExecute <->
   ~ blocked capability impact /\ unattended capability impact).
Proof.
  split; [|apply evaluate_auto_iff].
  destruct (evaluate_cases capability impact) as [[Hb ->]|[Hb ->]]; [naive_solver|].
  destruct (plain_read capability); [naive_solver|]. cbn zeta.
  destruct (final_reason_frame "known scoped reversible write" (open_policy capability impact))
    as (Hd & _ & _). rewrite Hd.
  pose proof (open_policy_open capability impact). naive_solver.
Qed.

(** C7: a mutating operation the engine lets run without approval, and whose
    effect is not a mere read, is a scoped reversible write: its verification
    and its rollback are declared and supported, it adds no cost and what it
    does cost is known, and executing it needs no human attestation. *)
Theorem auto_executed_writes_are_recoverable capability impact
    (Hm : cap_mutating capability = true) (He : cap_effect capability <> EffectClass_ReadOnly)
    (Ha : policy_disposition (evaluate capability impact) = AutoExecute) :
  cap_effect capability = EffectClass_ReversibleWrite /\
  cap_risk capability = RiskClass_ScopedWrite /\
  requires_attestation_to_execute capability = false /\
  verification_contract_supported capability = true /\
  rollback_supported (cap_rollback capability) = true /\
  select_arm rollback_strategies (rollback_strategy (cap_rollback capability)) capability = true /\
  cost_incremental (cap_cost capability) = false /\ cost_known (cap_cost capability) = true /\
  (affected_repositories impact <= 1)%Z.
Proof.
  apply evaluate_auto_iff in Ha as [Hb (Hi & [[]|(Hw & Hr & Hs & Hc & _)])]; [done|].
  destruct (mutation_contract_gaps_nil capability Hm (unblocked_no_gaps _ _ Hb))
    as (_ & _ & _ & [Hk _] & [_ Hv] & [_ Hrs] & _).
  unfold rollback_contract_supported in Hrs. rewrite Hm, Hs in Hrs.
  unfold requires_attestation_to_execute. rewrite Hw, Hr. done.
Qed.

(** An operation that adds cost is never run unattended: unless it is
    blocked it needs approval and a cost ceiling, and a mutating one then has
    a known cost with a valid currency and a finite, non-negative maximum. *)
Theorem paid_operations_are_bounded capability impact
    (Hi : cost_incremental (cap_cost capability) = true)
    (Hd : policy_disposition (evaluate capability impact) <> PolicyBlocked) :
  policy_disposition (evaluate capability impact) = ApprovalRequired /\
  policy_requires_cost_ceiling (evaluate capability impact) = true /\
  (cap_mutating capability = true -> cost_bounded (cap_cost capability)).
Proof.
  destruct (evaluate_cases capability impact) as [[? ?]|[Hb Ev]]; [done|].
  assert (Ha : policy_disposition (evaluate capability impact) <> AutoExecute).
  { intros Ha. apply evaluate_auto_iff in Ha as [_ [? _]]. congruence. }
  split; [by destruct (policy_disposition _)|]. split.
  - rewrite Ev. unfold plain_read. rewrite Hi, andb_false_r. cbn zeta.
    destruct (final_reason_frame "known scoped reversible write" (open_policy capability impact))
      as (_ & -> & _). by rewrite open_policy_ceiling, Hi.
  - intros Hm. by apply mutation_contract_gaps_nil, (unblocked_no_gaps _ _ Hb).
Qed.
End Properties.

(** ** Witnesses *)

(** A zone setting changed in place, read back on the same path and restored
    from its prior value. *)
Definition setting_write : CapabilityV1 :=
  let c := capability_new "zone-settings-edit-brotli" "Edit Brotli" "PATCH"
             "/zones/{zone_id}/settings/brotli" in
  classify {|
    class_selectors := [mkSelectorV1 "zone_id" "path" true "string" None None];
    class_permissions := ["Zone Settings Write"];
    class_risk := RiskClass_ScopedWrite;
    class_effect := EffectClass_ReversibleWrite;
    class_cost := cost_default;
    class_verification :=
      mkVerificationSpecV1 true "same_path_result_contains_planned_fields_after_update";
    class_rollback := mkRollbackSpecV1 true (Some "restore_same_path_prior_snapshot") None;
    class_same_path_read :=
      Some (mkSamePathReadContractV1 "/zones/{zone_id}/settings/brotli"
              "zone-settings-get-brotli" ["value"]);
    class_request_schema :=
      Some (jobj [("type", VString "object");
                  ("properties", jobj [("value", jobj [("type", VString "string")])]);
                  ("required", VArray [VString "value"])]);
    class_response_contract := cap_response_contract c
  |} c.

(** The same change, charged at most two dollars. *)
Definition paid_write : CapabilityV1 :=
  let k := classification_of setting_write in
  classify {|
    class_selectors := class_selectors k;
    class_permissions := class_permissions k;
    class_risk := class_risk k;
    class_effect := class_effect k;
    class_cost := mkCostV1 true (Some "USD") (Some (SpecFloat.S754_finite false 2 0))
                    (Some "metered") true BillingModel_UsageBased CostExposure_None [];
    class_verification := class_verification k;
    class_rollback := class_rollback k;
    class_same_path_read := class_same_path_read k;
    class_request_schema := class_request_schema k;
    class_response_contract := class_response_contract k
  |} setting_write.

Lemma auto_executed_writes_are_recoverable_witness :
  cap_effect setting_write = EffectClass_ReversibleWrite /\
  select_arm rollback_strategies (rollback_strategy (cap_rollback setting_write)) setting_write = true.
Proof.
  destruct (auto_executed_writes_are_recoverable setting_write impact_default)
    as (He & _ & _ & _ & _ & Hr & _).
  - vm_compute; reflexivity.
  - discriminate.
  - vm_compute; reflexivity.
  - split; [exact He|exact Hr].
Defined.

Lemma paid_operations_are_bounded_witness :
  policy_disposition (evaluate paid_write impact_default) = ApprovalRequired /\
  cost_bounded (cap_cost paid_write).
Proof.
  destruct (paid_operations_are_bounded paid_write impact_default) as (Ha & _ & Hb).
  - reflexivity.
  - vm_compute. discriminate.
  - split; [exact Ha|]. apply Hb. vm_compute; reflexivity.
Defined.
