(* ===== verification/RulesetRules.v ===== *)
(** Repairs of one rule of a zone ruleset: the expression of a custom challenge
    (cfctl-core/src/custom_challenge_rule.rs) and a response-header rule
    (cfctl-core/src/response_header_rule.rs). What a plan may send, how the
    result is verified against everything else in the ruleset, the receipt of
    the prior state, and recovery. *)

From Stdlib Require Import String Ascii ZArith Lia List Bool.
From stdpp Require Import base option list strings sets.
From S2P Require Import Prelude Strings Btree Json JsonOps JsonEq Core CatalogTypes WorkspaceTypes.
From S2P Require Import Capability Policy Plan Contracts Demo.

Open Scope cf_scope.
Open Scope string_scope.
Open Scope cf_scope.

(** ** Shared checks *)

Definition challenge_rejected : string := "custom challenge expression contract rejected".
Definition header_rejected : string := "targeted response-header rule contract rejected".

(** [id] *)
Definition hex_id (value : Value) : bool :=
  is_some_and (as_str value) (fun s => (String.length s =? 32) && bytes_all is_ascii_hexdigit s).

(** [value == "text"] *)
Definition is_text (value : Value) (text : string) : bool := as_str value =? Some text.

(** The loop that collects the ids of the rules. *)
Fixpoint check_ids (rejected : string) (ids : list string) (rules : list Value) : result string unit :=
  match rules with
  | [] => Ok tt
  | rule :: rules =>
      guard (negb (hex_id (vindex rule "id"))) rejected (
      let? id := ok_or rejected (as_str (vindex rule "id")) in
      guard (contains ids id) rejected (check_ids rejected (id :: ids) rules))
  end.

Definition is_target (selectors rule : Value) : bool :=
  Value_eqb (vindex rule "id") (vindex selectors "rule_id").

Definition selector_names : list string := ["zone_id"; "ruleset_id"; "rule_id"].

(** [rules.iter_mut().find(..).and_then(Value::as_object_mut)], edited. *)
Fixpoint edit_target (selectors : Value) (edit : btree Value -> btree Value) (rules : list Value)
    : option (list Value) :=
  match rules with
  | [] => None
  | rule :: rules =>
      if is_target selectors rule then
        match as_object rule with Some o => Some (VObject (edit o) :: rules) | None => None end
      else option_map (cons rule) (edit_target selectors edit rules)
  end.

(** A ruleset without what the provider moves on its own, the target edited. *)
Definition edit_parent (selectors : Value) (edit : btree Value -> btree Value) (parent : Value)
    : option Value :=
  obind (as_object parent) (fun object =>
  let object := bt_remove "last_updated" (bt_remove "version" object) in
  obind (obind (bt_get "rules" object) as_array) (fun rules =>
  obind (edit_target selectors edit rules) (fun rules =>
  Some (VObject (bt_insert "rules" (VArray rules) object))))).

Section Rules.
Context `{Runtime}.

(** ** The expression of a custom challenge *)

(** [version] *)
Definition challenge_version (v : Value) : result string Z :=
  ok_or challenge_rejected
    (obind (as_str v) (fun s =>
       if negb (is_empty s) && (String.length s <=? 20)%nat && bytes_all is_ascii_digit s
       then parse_unsigned 64 s else None)).

(** [chars().any(char::is_control)] on UTF-8: C0, DEL, and C1 after the lead
    byte C2. *)
Fixpoint has_control (s : string) : bool :=
  match s with
  | EmptyString => false
  | String a s' =>
      (byte a <? 32)%N || (byte a =? 127)%N
      || match s' with
         | String b _ => (byte a =? 194)%N && (128 <=? byte b)%N && (byte b <=? 159)%N
         | EmptyString => false
         end
      || has_control s'
  end.

(** [expression] *)
Definition valid_expression (v : Value) : bool :=
  is_some_and (as_str v) (fun s =>
    negb (trim_is_empty s) && (String.length s <=? 4096)%nat && negb (has_control s)).

Definition has_exactly (fields : list string) (v : Value) : bool :=
  is_some_and (as_object v) (fun o =>
    (length o =? length fields) && forallb (fun k => is_someb (bt_get k o)) fields).

Definition challenge_action (v : Value) : bool :=
  is_some_and (as_str v) (contains ["managed_challenge"; "js_challenge"]).

Definition challenge_valid_definition (value : Value) : bool :=
  has_exactly challenge_rule_DEFINITION_FIELDS value
  && challenge_action (vindex value "action")
  && is_boolean (vindex value "enabled")
  && valid_expression (vindex value "expression")
  && is_some_and (as_str (vindex value "description")) (fun s => String.length s <=? 1024)%nat
  && is_some_and (as_str (vindex value "ref"))
       (fun s => negb (is_empty s) && (String.length s <=? 256)%nat).

Definition challenge_valid_body (body : Value) : bool :=
  has_exactly challenge_rule_FIELDS body
  && valid_expression (vindex body "expression")
  && valid_expression (vindex body "expected_expression")
  && negb (Value_eqb (vindex body "expression") (vindex body "expected_expression"))
  && is_ok (challenge_version (vindex body "expected_rule_version"))
  && is_ok (challenge_version (vindex body "expected_ruleset_version"))
  && challenge_valid_definition (vindex body "expected_definition")
  && Value_eqb (vindex (vindex body "expected_definition") "expression")
       (vindex body "expected_expression").

Definition challenge_definition (rule : Value) : result string Value :=
  let? object := ok_or challenge_rejected (as_object rule) in
  let value := VObject (bt_without ["id"; "version"; "last_updated"] object) in
  guard (negb (challenge_valid_definition value)) challenge_rejected (Ok value).

(** [wire["expression"] = ..] on an object. *)
Definition set_member (k : string) (v : Value) (object : Value) : Value :=
  match object with VObject o => VObject (bt_insert k v o) | _ => object end.

Definition wire_body (body : Value) : result string Value :=
  guard (negb (challenge_valid_body body)) challenge_rejected
    (Ok (set_member "expression" (vindex body "expression") (vindex body "expected_definition"))).

Definition challenge_target (parent selectors : Value) : result string Value :=
  guard (is_none_or (as_object selectors) (fun s => negb (length s =? 3))
         || existsb (fun k => negb (hex_id (vindex selectors k))) selector_names
         || negb (Value_eqb (vindex parent "id") (vindex selectors "ruleset_id"))
         || negb (is_text (vindex parent "kind") "zone")
         || negb (is_text (vindex parent "phase") "http_request_firewall_custom")
         || negb (is_ok (challenge_version (vindex parent "version")))) challenge_rejected (
  let? encoded := map_err (fun _ => challenge_rejected) (to_vec parent) in
  guard (2 * 1024 * 1024 <? Z.of_nat (String.length encoded))%Z challenge_rejected (
  let? rules := ok_or challenge_rejected (as_array (vindex parent "rules")) in
  guard (is_nil rules || (1000 <? length rules)%nat) challenge_rejected (
  let? _ := check_ids challenge_rejected [] rules in
  let? r := ok_or challenge_rejected (List.find (is_target selectors) rules) in
  guard (negb (challenge_action (vindex r "action"))
         || negb (is_boolean (vindex r "enabled"))
         || negb (valid_expression (vindex r "expression"))
         || negb (is_ok (challenge_version (vindex r "version")))) challenge_rejected (
  let? _ := challenge_definition r in
  Ok r)))).

Definition challenge_drifted : string :=
  "expected challenge expression or versions drifted; create a fresh plan".

Definition challenge_validate_patch (parent selectors body : Value) : result string unit :=
  let? r := challenge_target parent selectors in
  guard (negb (challenge_valid_body body)
         || negb (Value_eqb (vindex r "expression") (vindex body "expected_expression"))
         || negb (Value_eqb (vindex r "version") (vindex body "expected_rule_version"))
         || negb (Value_eqb (vindex parent "version") (vindex body "expected_ruleset_version")))
    challenge_drifted (
  let? definition := challenge_definition r in
  guard (negb (Value_eqb definition (vindex body "expected_definition"))) challenge_drifted (Ok tt)).

(** [normalized] *)
Definition challenge_edit (replacement : Value) (rule : btree Value) : btree Value :=
  bt_insert "expression" replacement (bt_remove "last_updated" (bt_remove "version" rule)).

Definition challenge_normalized (parent selectors replacement : Value) : result string Value :=
  let? _ := challenge_target parent selectors in
  ok_or challenge_rejected (edit_parent selectors (challenge_edit replacement) parent).

Definition challenge_unverified : string :=
  "challenge expression, unrelated fields or rule order failed verification".

Definition challenge_verify_after (before after selectors body : Value) : result string unit :=
  let? _ := challenge_validate_patch before selectors body in
  let? old := challenge_target before selectors in
  let? new := challenge_target after selectors in
  guard (negb (Value_eqb (vindex new "expression") (vindex body "expression"))) challenge_unverified (
  let? new_version := challenge_version (vindex new "version") in
  let? old_version := challenge_version (vindex old "version") in
  guard (new_version <=? old_version)%Z challenge_unverified (
  let? after_version := challenge_version (vindex after "version") in
  let? before_version := challenge_version (vindex before "version") in
  guard (after_version <=? before_version)%Z challenge_unverified (
  let? expected := challenge_normalized before selectors (vindex body "expression") in
  let? actual := challenge_normalized after selectors (vindex body "expression") in
  guard (negb (Value_eqb expected actual)) challenge_unverified (Ok tt)))).

(** The receipt of the state a plan starts from. *)
Definition rule_receipt (read_id read_path id path : string) (selectors : Value) (account : string)
    (parent : Value) : Value :=
  jobj [("schema_version", VNumber (PosInt 1)); ("source_capability_id", VString read_id);
        ("source_path", VString read_path); ("target_capability_id", VString id);
        ("target_method", VString "PATCH"); ("target_path", VString path);
        ("target_scope", VString "zone"); ("account_id", VString account);
        ("selectors", selectors); ("prior_state", parent)].

Definition challenge_receipt (cap : CapabilityV1) (selectors : Value) (account : string)
    (parent body : Value) : result string Value :=
  guard (negb (challenge_rule_supported cap)) challenge_rejected (
  let? _ := challenge_validate_patch parent selectors body in
  Ok (rule_receipt challenge_rule_READ_ID challenge_rule_READ_PATH challenge_rule_ID
        challenge_rule_PATH selectors account parent)).

Definition PRECONDITION : string := "same_path_prior_state".

(** [prior] *)
Definition challenge_prior (plan : PlanV1) (selectors body : Value) : result string Value :=
  let? stored := ok_or challenge_rejected
                   (vpointer "/live_preconditions/same_path_prior_state" (plan_targets plan)) in
  let? parent := ok_or challenge_rejected (vget "prior_state" stored) in
  let? receipt := challenge_receipt (plan_capability plan) selectors (plan_account_id plan) parent body in
  guard (negb (Value_eqb stored receipt)) challenge_rejected (
  let? hash := map_err (fun _ => challenge_rejected) (hash_value stored) in
  guard (bt_get PRECONDITION (plan_precondition_hashes plan) <>? Some hash) challenge_rejected
    (Ok parent)).

Definition challenge_unrecoverable : string :=
  "post-write target changed or apply evidence missing; reconcile without replay".

Definition recovery_body (before applied observed selectors body : Value) : result string Value :=
  let? _ := challenge_validate_patch before selectors body in
  let? applied_rule := challenge_target applied selectors in
  let? r := challenge_target observed selectors in
  let? definition := challenge_definition applied_rule in
  let? wire := wire_body body in
  guard (negb (Value_eqb definition wire)) challenge_unrecoverable (
  guard (negb (Value_eqb applied_rule r)) challenge_unrecoverable (
  let? applied_rule_version := challenge_version (vindex applied_rule "version") in
  let? before_rule := challenge_target before selectors in
  let? before_rule_version := challenge_version (vindex before_rule "version") in
  guard (applied_rule_version <=? before_rule_version)%Z challenge_unrecoverable (
  let? applied_version := challenge_version (vindex applied "version") in
  let? before_version := challenge_version (vindex before "version") in
  guard (applied_version <=? before_version)%Z challenge_unrecoverable (
  let? observed_version := challenge_version (vindex observed "version") in
  let? applied_version := challenge_version (vindex applied "version") in
  guard (observed_version <? applied_version)%Z challenge_unrecoverable (
  let? definition := challenge_definition r in
  Ok (jobj [("expression", vindex body "expected_expression");
            ("expected_expression", vindex body "expression");
            ("expected_rule_version", vindex r "version");
            ("expected_ruleset_version", vindex observed "version");
            ("expected_definition", definition)])))))).

(** ** A response-header rule *)

(** [version] *)
Definition header_version (value : Value) : result string Z :=
  let? s := ok_or header_rejected (as_str value) in
  guard (is_empty s || negb (bytes_all is_ascii_digit s)) header_rejected
    (ok_or header_rejected (parse_unsigned 64 s)).

Definition bounded_text (min max : nat) (v : Value) : bool :=
  is_some_and (as_str v) (fun s => (min <=? String.length s)%nat && (String.length s <=? max)%nat).

Definition header_value_ok (value : Value) : bool :=
  is_some_and (as_object value) (fun v => length v =? 2)
  && is_text (vindex value "operation") "set"
  && is_some_and (as_str (vindex value "value")) (fun s =>
       (Z.of_nat (String.length s) <=? 16384)%Z && negb (bytes_any (fun b => (byte b =? 13) || (byte b =? 10))%N s)).

Definition header_name_ok (name : string) : bool :=
  negb (is_empty name) && bytes_all (fun b => is_ascii_alphanumeric b || (b =? "-"%char)) name.

Definition header_valid_body (body : Value) : bool :=
  match as_object body with
  | None => false
  | Some fields =>
      if negb (length fields =? length header_rule_FIELDS)
         || existsb (fun key => is_noneb (bt_get key fields)) header_rule_FIELDS
         || negb (is_text (vindex body "action") "rewrite")
         || negb (is_boolean (vindex body "enabled"))
      then false
      else if negb (bounded_text 0 1024 (vindex body "description")
                    && bounded_text 1 4096 (vindex body "expression")
                    && bounded_text 1 256 (vindex body "ref"))
      then false
      else
        let parameters := vindex body "action_parameters" in
        match as_object (vindex parameters "headers") with
        | None => false
        | Some headers =>
            is_some_and (as_object parameters) (fun p => length p =? 1)
            && negb (is_nil headers)
            && (length headers <=? 10)%nat
            && forallb (fun e => header_name_ok (fst e) && header_value_ok (snd e)) headers
        end
  end.

(** The loop that copies the authored fields of a rule. *)
Fixpoint collect_fields (fields : list string) (rule : Value) (body : btree Value)
    : result string (btree Value) :=
  match fields with
  | [] => Ok body
  | field :: fields =>
      let? value := ok_or header_rejected (vget field rule) in
      collect_fields fields rule (bt_insert field value body)
  end.

Definition header_definition (rule : Value) : result string Value :=
  let? members := collect_fields header_rule_FIELDS rule [] in
  let body := VObject members in
  guard (negb (header_valid_body body)) header_rejected (Ok body).

Definition header_target (parent selectors : Value) : result string Value :=
  guard (is_none_or (as_object selectors) (fun s => negb (length s =? 3))
         || existsb (fun key => negb (hex_id (vindex selectors key))) selector_names
         || negb (Value_eqb (vindex parent "id") (vindex selectors "ruleset_id"))
         || negb (is_text (vindex parent "phase") "http_response_headers_transform")
         || negb (is_text (vindex parent "kind") "zone")
         || negb (is_ok (header_version (vindex parent "version")))) header_rejected (
  let? encoded := map_err (fun _ => header_rejected) (to_vec parent) in
  guard (2 * 1024 * 1024 <? Z.of_nat (String.length encoded))%Z header_rejected (
  let? rules := ok_or header_rejected (as_array (vindex parent "rules")) in
  guard (is_nil rules || (1000 <? length rules)%nat) header_rejected (
  let? _ := check_ids header_rejected [] rules in
  let? target := ok_or header_rejected (List.find (is_target selectors) rules) in
  let? _ := header_version (vindex target "version") in
  guard (is_none_or (as_object target) (fun r =>
           existsb (fun key => negb (contains header_rule_FIELDS key)
                               && negb (contains ["id"; "version"; "last_updated"] key))
             (bt_keys r))) header_rejected (
  let? _ := header_definition target in
  Ok target)))).

(** The fields a patch may not change. *)
Definition header_fixed : list string := ["action"; "action_parameters"; "description"; "ref"].

Definition header_validate_patch (parent selectors body : Value) : result string unit :=
  guard (negb (header_valid_body body)) header_rejected (
  let? previous := header_target parent selectors in
  guard (existsb (fun key => negb (Value_eqb (vindex previous key) (vindex body key))) header_fixed)
    header_rejected (Ok tt)).

(** What is done to the target of both sides before they are compared. *)
Definition header_edit (body : Value) (rule : btree Value) : btree Value :=
  fold_left (fun rule field => bt_insert field (vindex body field) rule) header_rule_FIELDS
    (bt_remove "last_updated" (bt_remove "version" rule)).

Definition header_verify_after (before after selectors body : Value) : result string unit :=
  let? _ := header_validate_patch before selectors body in
  let? previous := header_target before selectors in
  let? observed := header_target after selectors in
  let? definition := header_definition observed in
  guard (negb (Value_eqb definition body)) header_rejected (
  let? after_version := header_version (vindex after "version") in
  let? before_version := header_version (vindex before "version") in
  guard (after_version <=? before_version)%Z header_rejected (
  let? observed_version := header_version (vindex observed "version") in
  let? previous_version := header_version (vindex previous "version") in
  guard (observed_version <=? previous_version)%Z header_rejected (
  let? expected := ok_or header_rejected (edit_parent selectors (header_edit body) before) in
  let? actual := ok_or header_rejected (edit_parent selectors (header_edit body) after) in
  guard (negb (Value_eqb expected actual)) "unrelated ruleset fields, rules or order changed"
    (Ok tt)))).

Definition header_receipt (cap : CapabilityV1) (selectors : Value) (account : string)
    (parent body : Value) : result string Value :=
  guard (negb (header_rule_supported cap)) header_rejected (
  let? _ := header_validate_patch parent selectors body in
  Ok (rule_receipt header_rule_READ_ID header_rule_READ_PATH header_rule_ID header_rule_PATH
        selectors account parent)).

(** [prior] *)
Definition header_prior (plan : PlanV1) (selectors body : Value) : result string Value :=
  let? stored := ok_or header_rejected
                   (vpointer "/live_preconditions/same_path_prior_state" (plan_targets plan)) in
  let? parent := ok_or header_rejected (vget "prior_state" stored) in
  let? receipt := header_receipt (plan_capability plan) selectors (plan_account_id plan) parent body in
  guard (negb (Value_eqb stored receipt)) header_rejected (
  let? hash := map_err (fun _ => header_rejected) (hash_value stored) in
  guard (bt_get PRECONDITION (plan_precondition_hashes plan) <>? Some hash) header_rejected
    (Ok parent)).
End Rules.

(** ** Specification *)

(** The same members but for the names listed. *)
Definition same_but (names : list string) (v w : Value) : Prop :=
  forall k, k ∉ names -> vget k v =o vget k w.

(** Nothing moved between two states of a ruleset but the version and the time
    of the ruleset and, in the one rule selected, the members named [free]: the
    rules are the same ones in the same order, every other rule as it was. *)
Record confined (free : list string) (selectors before after : Value) : Prop := mkConfined {
  confined_members : same_but ["version"; "last_updated"; "rules"] before after;
  confined_rules : exists rules rules',
    vget "rules" before = Some (VArray rules) /\ vget "rules" after = Some (VArray rules') /\
    Forall2 (fun r r' => if is_target selectors r then same_but free r r' else r =j r') rules rules';
}.

(** ** Editing the target *)

Definition rule_id_of (rule : Value) : option string := as_str (vindex rule "id").

Lemma check_ids_ok e ids rules :
  check_ids e ids rules = Ok tt ->
  Forall (fun r => exists s, rule_id_of r = Some s /\ s ∉ ids) rules /\ NoDup (map rule_id_of rules).
Proof.
  revert ids; induction rules as [|r rules IH]; intros ids; cbn; [by split; constructor|].
  intros [_ H]%guard_ok. unfold rule_id_of at 1 3. destruct (as_str (vindex r "id")) as [s|] eqn:Es; [|done].
  cbn in H. apply guard_ok in H as [Hs H]. rewrite contains_false in Hs.
  destruct (IH _ H) as [Hall Hnd]. split; constructor; rewrite ?Es; eauto.
  - eapply Forall_impl; [exact Hall|]. cbn. intros x (t & Ht & Hn). exists t. split; [done|].
    intros Hin. apply Hn. by right.
  - intros Hin. apply list_elem_of_In, in_map_iff in Hin as (x & Hx & Hin).
    rewrite List.Forall_forall in Hall. destruct (Hall x Hin) as (t & Ht & Hn).
    apply Hn. unfold rule_id_of in *. rewrite Hx, Es in Ht. injection Ht as ->. by left.
Qed.

Lemma is_target_iff selectors t r :
  vindex selectors "rule_id" = VString t -> is_target selectors r = true <-> rule_id_of r = Some t.
Proof.
  intros Ht. unfold is_target, rule_id_of. rewrite Ht.
  change (vindex r "id" =j VString t <-> as_str (vindex r "id") = Some t). rewrite same_string.
  destruct (vindex r "id"); cbn; split; congruence.
Qed.

(** Two edits that agree exactly up to the members [free], and keep ids. *)
Record edits_free (free : list string) (edit : btree Value -> btree Value) : Prop := mkEditsFree {
  ef_same o o' : bt_sorted o = true -> bt_sorted o' = true ->
    VObject (edit o) =j VObject (edit o') <-> same_but free (VObject o) (VObject o');
  ef_id o : bt_sorted o = true -> bt_get "id" (edit o) = bt_get "id" o;
  ef_free : "id" ∉ free;
}.

Section Edits.
Context (free : list string) (edit : btree Value -> btree Value) (Hedit : edits_free free edit).
Context (selectors : Value) (t : string) (Ht : vindex selectors "rule_id" = VString t).

Definition target_confined (r r' : Value) : Prop :=
  if is_target selectors r then same_but free r r' else r =j r'.

Lemma not_target r : rule_id_of r <> Some t -> is_target selectors r = false.
Proof. intros H. apply not_true_iff_false. by rewrite (is_target_iff _ _ _ Ht). Qed.

Lemma no_target_same rules rules' :
  Forall (fun r => rule_id_of r <> Some t) rules ->
  Forall2 target_confined rules rules' <-> Forall2 json_same rules rules'.
Proof.
  intros H. revert rules'; induction H as [|r rules Hr _ IH]; intros [|r' rules'];
    [by split|by split; inversion 1..|]. rewrite !Forall2_cons, IH. unfold target_confined at 1.
  by rewrite not_target.
Qed.

Lemma same_id r r' : vget "id" r =o vget "id" r' -> rule_id_of r = rule_id_of r'.
Proof. intros H. unfold rule_id_of. apply as_str_proper, default_same, H. Qed.

Lemma same_rule_id r r' : r =j r' -> rule_id_of r = rule_id_of r'.
Proof. intros H. apply same_id. by rewrite H. Qed.

Lemma edited_id o : bt_sorted o = true -> rule_id_of (VObject (edit o)) = rule_id_of (VObject o).
Proof. intros H. apply same_id. cbn. by rewrite (ef_id _ _ Hedit). Qed.

Lemma edit_target_iff rules rules' l l' :
  NoDup (map rule_id_of rules) -> NoDup (map rule_id_of rules') ->
  Forall (fun r => value_wf r = true) rules -> Forall (fun r => value_wf r = true) rules' ->
  edit_target selectors edit rules = Some l -> edit_target selectors edit rules' = Some l' ->
  Forall2 json_same l l' <-> Forall2 target_confined rules rules'.
Proof.
  revert rules' l l'; induction rules as [|r rules IH]; intros rules' l l' N N' W W' E E'; [done|].
  destruct rules' as [|r' rules']; [done|]. cbn in E, E', N, N'.
  apply NoDup_cons in N as [Nr N]. apply NoDup_cons in N' as [Nr' N'].
  apply Forall_cons in W as [Wr W]. apply Forall_cons in W' as [Wr' W'].
  assert (Hid : forall x, is_target selectors x = true <-> rule_id_of x = Some t).
  { intros x. by apply is_target_iff. }
  assert (Hrest : forall x xs, rule_id_of x = Some t -> rule_id_of x ∉ map rule_id_of xs ->
                    Forall (fun r => rule_id_of r <> Some t) xs).
  { intros x xs Hx Hn. apply List.Forall_forall. intros y Hy Hyt. apply Hn. rewrite Hx, <- Hyt.
    by apply list_elem_of_In, in_map. }
  rewrite Forall2_cons. unfold target_confined at 1.
  destruct (is_target selectors r) eqn:Er, (is_target selectors r') eqn:Er'.
  - destruct r as [| | | | |o]; try done. destruct r' as [| | | | |o']; try done.
    injection E as <-. injection E' as <-. rewrite Forall2_cons.
    apply value_wf_object in Wr. apply value_wf_object in Wr'. rewrite (ef_same _ _ Hedit) by done.
    rewrite no_target_same; [done|]. apply (Hrest (VObject o)); [by apply Hid|exact Nr].
  - destruct r as [| | | | |o]; try done. injection E as <-.
    destruct (edit_target selectors edit rules') as [k'|] eqn:Ek'; [|done]. injection E' as <-.
    rewrite Forall2_cons. apply value_wf_object in Wr. rewrite <- not_true_iff_false, Hid in Er'. apply Hid in Er.
    split; intros [H _]; destruct Er'.
    + apply same_rule_id in H. by rewrite <- H, edited_id.
    + specialize (H "id" (ef_free _ _ Hedit)). apply same_id in H. by rewrite <- H.
  - destruct r' as [| | | | |o']; try done. injection E' as <-.
    destruct (edit_target selectors edit rules) as [k|] eqn:Ek; [|done]. injection E as <-.
    rewrite Forall2_cons. apply value_wf_object in Wr'. rewrite <- not_true_iff_false, Hid in Er. apply Hid in Er'.
    split; intros [H _]; destruct Er.
    + apply same_rule_id in H. by rewrite H, edited_id.
    + apply same_rule_id in H. by rewrite H.
  - destruct (edit_target selectors edit rules) as [k|] eqn:Ek; [|done]. injection E as <-.
    destruct (edit_target selectors edit rules') as [k'|] eqn:Ek'; [|done]. injection E' as <-.
    rewrite Forall2_cons. by rewrite (IH rules' k k').
Qed.

Lemma edit_target_some rules :
  (exists o, List.find (is_target selectors) rules = Some (VObject o)) ->
  exists l, edit_target selectors edit rules = Some l.
Proof.
  intros [o H]. induction rules as [|r rules IH]; [done|]. cbn in *. destruct (is_target selectors r).
  - injection H as ->. by eexists.
  - destruct (IH H) as [l ->]. by eexists.
Qed.

(** The edited rulesets are the same exactly when nothing else moved. *)
Lemma edit_parent_iff before after rules rules' :
  value_wf before = true -> value_wf after = true ->
  vget "rules" before = Some (VArray rules) -> vget "rules" after = Some (VArray rules') ->
  NoDup (map rule_id_of rules) -> NoDup (map rule_id_of rules') ->
  (exists o, List.find (is_target selectors) rules = Some (VObject o)) ->
  (exists o, List.find (is_target selectors) rules' = Some (VObject o)) ->
  exists v w, edit_parent selectors edit before = Some v /\ edit_parent selectors edit after = Some w /\
    (v =j w <-> confined free selectors before after).
Proof.
  intros Wb Wa Gb Ga Nb Na Fb Fa.
  destruct before as [| | | | |o]; try done. destruct after as [| | | | |o']; try done. cbn in Gb, Ga.
  destruct (edit_target_some rules Fb) as [l El]. destruct (edit_target_some rules' Fa) as [l' El'].
  pose proof (value_wf_object _ Wb) as So. pose proof (value_wf_object _ Wa) as So'.
  assert (Hrm : forall m : btree Value, bt_sorted m = true ->
    bt_sorted (bt_remove "last_updated" (bt_remove "version" m)) = true /\
    forall k, bt_get k (bt_remove "last_updated" (bt_remove "version" m)) =
              if (k =? "last_updated") || (k =? "version") then None else bt_get k m).
  { intros m Hm. split; [by apply bt_remove_sorted, bt_remove_sorted|]. intros k.
    rewrite !bt_get_remove by (try apply bt_remove_sorted; done).
    by destruct (k =? "last_updated"), (k =? "version"). }
  destruct (Hrm o So) as [S1 G1]. destruct (Hrm o' So') as [S1' G1'].
  unfold edit_parent. cbn [obind as_object].
  rewrite (eq_trans (G1 "rules") Gb), (eq_trans (G1' "rules") Ga). cbn [obind as_array].
  rewrite El, El'. cbn [obind].
  eexists _, _. split; [done|]. split; [done|].
  rewrite same_object by (by apply bt_insert_sorted).
  assert (Hl : Forall2 json_same l l' <-> Forall2 target_confined rules rules').
  { apply edit_target_iff; try done.
    - exact (value_wf_items _ (value_wf_member _ _ _ Wb Gb)).
    - exact (value_wf_items _ (value_wf_member _ _ _ Wa Ga)). }
  split.
  - intros H. split.
    + intros k Hk. specialize (H k). rewrite !bt_get_insert, G1, G1' in H.
      rewrite !not_elem_of_cons in Hk. destruct Hk as (H1 & H2 & H3 & _).
      rewrite (proj2 (eqb_false k "rules") H3), (proj2 (eqb_false k "last_updated") H2),
        (proj2 (eqb_false k "version") H1) in H. exact H.
    + exists rules, rules'. split; [done|]. split; [done|]. apply Hl.
      specialize (H "rules"). rewrite !bt_get_insert in H. apply same_array. exact H.
  - intros [Hm (x & x' & Ex & Ex' & Hr)] k. cbn in Ex, Ex'. rewrite Gb in Ex. rewrite Ga in Ex'.
    injection Ex as <-. injection Ex' as <-. rewrite !bt_get_insert, G1, G1'.
    destruct (k =? "rules") eqn:E1; [by apply same_array, Hl|].
    destruct (k =? "last_updated") eqn:E2; [done|]. destruct (k =? "version") eqn:E3; [done|].
    apply (Hm k). rewrite eqb_false in E1. rewrite eqb_false in E2. rewrite eqb_false in E3.
    rewrite !not_elem_of_cons. split_and!; try done. apply not_elem_of_nil.
Qed.
End Edits.

(** Edits that overwrite or remove members, whatever they were. *)
Lemma overwrite_free free (over : string -> option (option Value)) edit :
  (forall o, bt_sorted o = true -> bt_sorted (edit o) = true /\
     forall k, bt_get k (edit o) = match over k with Some x => x | None => bt_get k o end) ->
  (forall k, over k = None <-> k ∉ free) -> "id" ∉ free -> edits_free free edit.
Proof.
  intros He Ho Hid. split; [|intros o Hs|done].
  - intros o o' Hs Hs'. destruct (He o Hs) as [S G], (He o' Hs') as [S' G'].
    rewrite same_object by done. split.
    + intros H k Hk. specialize (H k). by rewrite G, G', (proj2 (Ho k) Hk) in H.
    + intros H k. rewrite G, G'. destruct (over k) as [x|] eqn:E; [done|]. by apply (H k), Ho.
  - destruct (He o Hs) as [_ G]. by rewrite G, (proj2 (Ho "id") Hid).
Qed.

Lemma challenge_edit_free replacement :
  edits_free ["version"; "last_updated"; "expression"] (challenge_edit replacement).
Proof.
  apply (overwrite_free _ (fun k =>
    if k =? "expression" then Some (Some replacement)
    else if (k =? "last_updated") || (k =? "version") then Some None else None)).
  - intros o Hs. split; [by apply bt_insert_sorted, bt_remove_sorted, bt_remove_sorted|].
    intros k. unfold challenge_edit. rewrite bt_get_insert, !bt_get_remove by (try apply bt_remove_sorted; done).
    by destruct (k =? "expression"), (k =? "last_updated"), (k =? "version").
  - intros k. rewrite !not_elem_of_cons.
    destruct (k =? "expression") eqn:E1; [apply eqb_eq in E1; naive_solver|].
    destruct (k =? "last_updated") eqn:E2; [apply eqb_eq in E2; naive_solver|].
    destruct (k =? "version") eqn:E3; [apply eqb_eq in E3; naive_solver|].
    rewrite eqb_false in E1. rewrite eqb_false in E2. rewrite eqb_false in E3.
    split; [|done]. intros _. split_and!; try done. apply not_elem_of_nil.
  - rewrite !not_elem_of_cons. split_and!; try done. apply not_elem_of_nil.
Qed.

Lemma bt_insert_all (f : string -> Value) fields (o : btree Value) :
  bt_sorted o = true ->
  let o' := fold_left (fun o k => bt_insert k (f k) o) fields o in
  bt_sorted o' = true /\
  forall k, bt_get k o' = if contains fields k then Some (f k) else bt_get k o.
Proof.
  revert o; induction fields as [|x fields IH]; intros o Hs; [done|]. cbn.
  destruct (IH (bt_insert x (f x) o)) as [S G]; [by apply bt_insert_sorted|]. split; [done|].
  intros k. rewrite G, bt_get_insert. unfold contains. cbn.
  replace (x =? k) with (k =? x) by (apply bool_decide_ext; done).
  destruct (k =? x) eqn:E; [|done]. apply eqb_eq in E as ->. by destruct (existsb _ _).
Qed.

Definition header_free : list string := "version" :: "last_updated" :: header_rule_FIELDS.

Lemma header_edit_free body : edits_free header_free (header_edit body).
Proof.
  apply (overwrite_free _ (fun k =>
    if contains header_rule_FIELDS k then Some (Some (vindex body k))
    else if (k =? "last_updated") || (k =? "version") then Some None else None)).
  - intros o Hs. destruct (bt_insert_all (vindex body) header_rule_FIELDS
      (bt_remove "last_updated" (bt_remove "version" o))) as [S G]; [by apply bt_remove_sorted, bt_remove_sorted|].
    split; [done|]. intros k. unfold header_edit. rewrite G, !bt_get_remove by (try apply bt_remove_sorted; done).
    by destruct (contains _ k), (k =? "last_updated"), (k =? "version").
  - intros k. unfold header_free. rewrite !not_elem_of_cons, <- (contains_false header_rule_FIELDS).
    destruct (contains header_rule_FIELDS k); [naive_solver|].
    destruct (k =? "last_updated") eqn:E2; [apply eqb_eq in E2; naive_solver|].
    destruct (k =? "version") eqn:E3; [apply eqb_eq in E3; naive_solver|].
    rewrite eqb_false in E2. rewrite eqb_false in E3. naive_solver.
  - apply (bool_decide_unpack _). vm_compute. exact I.
Qed.

(** ** Targets *)

(** What a ruleset with its selectors is once a target was found in it. *)
Record target_view (parent selectors r : Value) (t : string) (rules : list Value) : Prop := mkTargetView {
  tv_id : vindex selectors "rule_id" = VString t;
  tv_rules : vget "rules" parent = Some (VArray rules);
  tv_ids : NoDup (map rule_id_of rules);
  tv_found : List.find (is_target selectors) rules = Some r;
  tv_object : exists o, r = VObject o;
}.

Lemma hex_id_string v : hex_id v = true -> exists s, v = VString s.
Proof. destruct v; try done. by eexists. Qed.

Lemma vindex_array k v l : as_array (vindex v k) = Some l -> vget k v = Some (VArray l).
Proof. unfold vindex. destruct (vget k v) as [[]|]; cbn; congruence. Qed.

Lemma selectors_id selectors : existsb (fun key => negb (hex_id (vindex selectors key))) selector_names = false ->
  exists t, vindex selectors "rule_id" = VString t.
Proof.
  cbn. rewrite !orb_false_iff, !negb_false_iff. intros (_ & _ & H & _). by apply hex_id_string.
Qed.

Section Properties.
Context `{Runtime}.

Lemma challenge_target_ok parent selectors r :
  challenge_target parent selectors = Ok r ->
  (exists t rules, target_view parent selectors r t rules) /\
  (exists n, challenge_version (vindex parent "version") = Ok n) /\
  (exists n, challenge_version (vindex r "version") = Ok n) /\
  (exists d, challenge_definition r = Ok d).
Proof.
  unfold challenge_target. intros [Hc H1]%guard_ok. rewrite !orb_false_iff in Hc.
  destruct Hc as [[[[[_ Hids] _] _] _] Hv]. apply negb_false_iff in Hv.
  destruct (to_vec parent) as [enc|]; cbn in H1; [|done]. apply guard_ok in H1 as [_ H1].
  destruct (as_array (vindex parent "rules")) as [rules|] eqn:Er; cbn in H1; [|done].
  apply guard_ok in H1 as [_ H1]. destruct (check_ids _ _ rules) as [[]|] eqn:Ei; cbn in H1; [|done].
  destruct (List.find _ rules) as [r'|] eqn:Ef; cbn in H1; [|done].
  apply guard_ok in H1 as [Hr H1]. rewrite !orb_false_iff, !negb_false_iff in Hr. destruct Hr as [_ Hrv].
  destruct (challenge_definition r') as [d|] eqn:Ed; cbn in H1; [|done]. injection H1 as ->.
  destruct (selectors_id _ Hids) as [t Ht]. apply check_ids_ok in Ei as [_ Hnd].
  split_and!.
  - exists t, rules. split; try done; [by apply vindex_array|].
    unfold challenge_definition in Ed. destruct r; try done. by eexists.
  - destruct (challenge_version (vindex parent "version")); [by eexists|done].
  - destruct (challenge_version (vindex r "version")); [by eexists|done].
  - by exists d.
Qed.

Lemma header_target_ok parent selectors r :
  header_target parent selectors = Ok r ->
  (exists t rules, target_view parent selectors r t rules) /\
  (exists n, header_version (vindex parent "version") = Ok n) /\
  (exists n, header_version (vindex r "version") = Ok n) /\
  (exists d, header_definition r = Ok d).
Proof.
  unfold header_target. intros [Hc H1]%guard_ok. rewrite !orb_false_iff in Hc.
  destruct Hc as [[[[[_ Hids] _] _] _] Hv]. apply negb_false_iff in Hv.
  destruct (to_vec parent) as [enc|]; cbn in H1; [|done]. apply guard_ok in H1 as [_ H1].
  destruct (as_array (vindex parent "rules")) as [rules|] eqn:Er; cbn in H1; [|done].
  apply guard_ok in H1 as [_ H1]. destruct (check_ids _ _ rules) as [[]|] eqn:Ei; cbn in H1; [|done].
  destruct (List.find _ rules) as [r'|] eqn:Ef; cbn in H1; [|done].
  destruct (header_version (vindex r' "version")) as [n|] eqn:En; cbn in H1; [|done].
  apply guard_ok in H1 as [Hk H1].
  destruct (header_definition r') as [d|] eqn:Ed; cbn in H1; [|done]. injection H1 as ->.
  destruct (selectors_id _ Hids) as [t Ht]. apply check_ids_ok in Ei as [_ Hnd].
  split_and!; [|by destruct (header_version (vindex parent "version")); [eexists|]|by exists n|by exists d].
  exists t, rules. split; try done; [by apply vindex_array|]. destruct r; try done. by eexists.
Qed.

Lemma views_confined free edit before after selectors r r' t t' rules rules' :
  edits_free free edit -> value_wf before = true -> value_wf after = true ->
  target_view before selectors r t rules -> target_view after selectors r' t' rules' ->
  exists v w, edit_parent selectors edit before = Some v /\ edit_parent selectors edit after = Some w /\
    (v =j w <-> confined free selectors before after).
Proof.
  intros He Wb Wa [T R N F [o ->]] [T' R' N' F' [o' ->]].
  eapply edit_parent_iff; eauto.
Qed.

(** The version of [w] is above that of [v]. *)
Definition moved (version : Value -> result string Z) (v w : Value) : Prop :=
  exists n m, version (vindex v "version") = Ok n /\ version (vindex w "version") = Ok m /\ (n < m)%Z.

Lemma moved_guard {A} (version : Value -> result string Z) v w e (rest : result string A) x :
  (let? new := version (vindex w "version") in
   let? old := version (vindex v "version") in
   guard (new <=? old)%Z e rest) = Ok x <-> moved version v w /\ rest = Ok x.
Proof.
  unfold moved. destruct (version (vindex w "version")) as [m|]; cbn; [|split; [done|by intros [(? & ? & _ & ? & _) _]]].
  destruct (version (vindex v "version")) as [n|]; cbn; [|split; [done|by intros [(? & ? & ? & _) _]]].
  rewrite guard_ok, Z.leb_gt. split.
  - intros [Hlt ->]. split; [|done]. by exists n, m.
  - by intros [(n' & m' & [= <-] & [= <-] & Hlt) ->].
Qed.

(** What a verified correction is. *)
Definition corrected (before after selectors body : Value) : Prop :=
  challenge_validate_patch before selectors body = Ok tt /\
  exists old new, challenge_target before selectors = Ok old /\ challenge_target after selectors = Ok new /\
    vindex new "expression" =j vindex body "expression" /\
    moved challenge_version old new /\ moved challenge_version before after /\
    confined ["version"; "last_updated"; "expression"] selectors before after.

(** The comparison at the end of the verification. *)
Lemma challenge_compared before after selectors body old new :
  value_wf before = true -> value_wf after = true ->
  challenge_target before selectors = Ok old -> challenge_target after selectors = Ok new ->
  (let? expected := challenge_normalized before selectors (vindex body "expression") in
   let? actual := challenge_normalized after selectors (vindex body "expression") in
   guard (negb (Value_eqb expected actual)) challenge_unverified (Ok tt)) = Ok tt <->
  confined ["version"; "last_updated"; "expression"] selectors before after.
Proof.
  intros Wb Wa Eo En. unfold challenge_normalized. rewrite Eo, En. cbn [res_bind].
  destruct (challenge_target_ok _ _ _ Eo) as ((t & rules & V) & _).
  destruct (challenge_target_ok _ _ _ En) as ((t' & rules' & V') & _).
  destruct (views_confined _ _ _ _ _ _ _ _ _ _ _ (challenge_edit_free (vindex body "expression"))
    Wb Wa V V') as (v & w & -> & -> & Hiff).
  cbn. rewrite guard_ok, not_same_false, Hiff. naive_solver.
Qed.

Lemma challenge_verified before after selectors body :
  value_wf before = true -> value_wf after = true ->
  challenge_verify_after before after selectors body = Ok tt -> corrected before after selectors body.
Proof.
  intros Wb Wa. unfold challenge_verify_after.
  destruct (challenge_validate_patch before selectors body) as [[]|] eqn:Ev; cbn [res_bind]; [|done].
  destruct (challenge_target before selectors) as [old|] eqn:Eo; cbn [res_bind]; [|done].
  destruct (challenge_target after selectors) as [new|] eqn:En; cbn [res_bind]; [|done].
  rewrite guard_ok, not_same_false, moved_guard, moved_guard.
  rewrite (challenge_compared _ _ _ _ _ _ Wb Wa Eo En). intros (Hx & H1 & H2 & Hc). split; [done|]. by exists old, new.
Qed.

(** The verification of a challenge correction accepts exactly the change
    that was planned. It succeeds when the plan's patch was valid on the state
    before, the rule now has the planned expression, the versions of the rule
    and of the ruleset both moved forward, and nothing else in the ruleset
    changed: same members, same rules in the same order, every other rule and
    every other member of the corrected one as before. *)
Theorem challenge_verification_iff before after selectors body :
  value_wf before = true -> value_wf after = true ->
  challenge_verify_after before after selectors body = Ok tt <-> corrected before after selectors body.
Proof.
  intros Wb Wa. split; [by apply challenge_verified|]. intros (Ev & old & new & Eo & En & Hx & H1 & H2 & Hc).
  unfold challenge_verify_after. rewrite Ev, Eo, En. cbn [res_bind].
  rewrite guard_ok, not_same_false, moved_guard, moved_guard.
  by rewrite (challenge_compared _ _ _ _ _ _ Wb Wa Eo En).
Qed.

(** *** Narrowing what was free *)

Lemma confined_widen free free' selectors before after :
  (forall k, k ∈ free -> k ∈ free') -> confined free selectors before after ->
  confined free' selectors before after.
Proof.
  intros Hsub [Hm (rules & rules' & Hb & Ha & Hr)]. split; [done|]. exists rules, rules'.
  split; [done|]. split; [done|]. eapply Forall2_impl; [exact Hr|]. cbn. intros r r'.
  destruct (is_target selectors r); [|done]. intros Hs k Hk. apply Hs. auto.
Qed.

Lemma found_unique selectors t rules r x :
  vindex selectors "rule_id" = VString t -> NoDup (map rule_id_of rules) ->
  List.find (is_target selectors) rules = Some r -> In x rules -> is_target selectors x = true -> x = r.
Proof.
  intros Ht N F Hx Hxt. apply List.find_some in F as [Hr Hrt].
  apply (is_target_iff _ _ _ Ht) in Hxt. apply (is_target_iff _ _ _ Ht) in Hrt.
  assert (E : rule_id_of x = rule_id_of r) by congruence. clear -N Hx Hr E.
  induction rules as [|y rules IH]; [done|]. cbn in N. apply NoDup_cons in N as [Hy N].
  destruct Hx as [<-|Hx], Hr as [<-|Hr]; [done| | |auto].
  - destruct Hy. rewrite E. by apply list_elem_of_In, in_map.
  - destruct Hy. rewrite <- E. by apply list_elem_of_In, in_map.
Qed.

Lemma confined_narrow free free' before after selectors r r' t t' rules rules' :
  "id" ∉ free -> target_view before selectors r t rules -> target_view after selectors r' t' rules' ->
  same_but free' r r' -> confined free selectors before after -> confined free' selectors before after.
Proof.
  intros Hid [T R N F _] [T' R' N' F' _] Hrr [Hm (x & x' & Hx & Hx' & Hall)].
  rewrite R in Hx. injection Hx as <-. rewrite R' in Hx'. injection Hx' as <-.
  split; [done|]. exists rules, rules'. split; [done|]. split; [done|].
  assert (Hin : Forall2 (fun y y' => In y rules /\ In y' rules' /\
                           if is_target selectors y then same_but free y y' else y =j y') rules rules').
  { apply Forall2_same_length_lookup_2; [by eapply Forall2_length|]. intros i y y' Hy Hy'.
    split; [exact (proj1 (list_elem_of_In _ _) (list_elem_of_lookup_2 _ _ _ Hy))|].
    split; [exact (proj1 (list_elem_of_In _ _) (list_elem_of_lookup_2 _ _ _ Hy'))|].
    exact (Forall2_lookup_lr _ _ _ _ _ _ Hall Hy Hy'). }
  eapply Forall2_impl; [exact Hin|]. cbn. intros y y' (Iy & Iy' & Hy).
  destruct (is_target selectors y) eqn:Ey; [|done].
  assert (Ey' : is_target selectors y' = true).
  { apply (is_target_iff _ _ _ T). specialize (Hy "id" Hid). apply same_id in Hy. rewrite <- Hy.
    by apply (is_target_iff _ _ _ T). }
  by rewrite (found_unique _ _ _ _ _ T N F Iy Ey), (found_unique _ _ _ _ _ T' N' F' Iy' Ey').
Qed.

(** What is confined is so in the target. *)
Lemma confined_target free before after selectors r r' t t' rules rules' :
  "id" ∉ free -> target_view before selectors r t rules -> target_view after selectors r' t' rules' ->
  confined free selectors before after -> same_but free r r'.
Proof.
  intros Hid [T R N F _] [T' R' N' F' _] [_ (x & x' & Hx & Hx' & Hall)].
  rewrite R in Hx. injection Hx as <-. rewrite R' in Hx'. injection Hx' as <-.
  apply List.find_some in F as [Hin Ht]. apply list_elem_of_In, list_elem_of_lookup in Hin as [i Hi].
  destruct (Forall2_lookup_l _ _ _ _ _ Hall Hi) as (y & Hy & Hry). rewrite Ht in Hry.
  assert (Ey : is_target selectors y = true).
  { apply (is_target_iff _ _ _ T). specialize (Hry "id" Hid). apply same_id in Hry. rewrite <- Hry.
    by apply (is_target_iff _ _ _ T). }
  assert (Iy : In y rules') by (exact (proj1 (list_elem_of_In _ _) (list_elem_of_lookup_2 _ _ _ Hy))).
  by rewrite <- (found_unique _ _ _ _ _ T N' F' Iy Ey).
Qed.

(** *** Authored fields *)

Lemma collect_fields_ok fields rule body o :
  collect_fields fields rule body = Ok o ->
  (forall k, k ∈ fields -> exists v, vget k rule = Some v) /\
  forall k, bt_get k o = if contains fields k then vget k rule else bt_get k body.
Proof.
  revert body; induction fields as [|f fields IH]; intros body; cbn.
  { intros [= ->]. split; [|done]. by intros k Hk%not_elem_of_nil. }
  destruct (vget f rule) as [v|] eqn:Ev; cbn; [|done]. intros E. destruct (IH _ E) as [Hp Hg]. split.
  - intros k [->|Hk]%elem_of_cons; [by exists v|auto].
  - intros k. rewrite Hg, bt_get_insert. unfold contains. cbn.
    replace (f =? k) with (k =? f) by (apply bool_decide_ext; done).
    destruct (k =? f) eqn:E1; [|done]. apply eqb_eq in E1 as ->. by destruct (existsb _ _).
Qed.

Lemma header_definition_ok rule d k :
  header_definition rule = Ok d -> k ∈ header_rule_FIELDS ->
  exists v, vget k rule = Some v /\ vget k d = Some v.
Proof.
  unfold header_definition. destruct (collect_fields _ _ _) as [o|] eqn:E; cbn; [|done].
  intros [_ [= <-]]%guard_ok Hk. destruct (collect_fields_ok _ _ _ _ E) as [Hp Hg].
  destruct (Hp k Hk) as [v Hv]. exists v. split; [done|]. cbn. rewrite Hg.
  apply contains_true in Hk. by rewrite Hk.
Qed.

Lemma header_patch_fixed parent selectors body k :
  header_validate_patch parent selectors body = Ok tt -> k ∈ header_fixed ->
  exists previous, header_target parent selectors = Ok previous /\ vindex previous k =j vindex body k.
Proof.
  unfold header_validate_patch. intros [_ Hp]%guard_ok Hk.
  destruct (header_target parent selectors) as [previous|] eqn:E; cbn [res_bind] in Hp; [|done].
  apply guard_ok in Hp as [Hp _]. exists previous. split; [done|]. apply not_same_false.
  destruct (negb _) eqn:En; [|done]. rewrite <- Hp. symmetry. apply existsb_exists. exists k.
  split; [by apply list_elem_of_In|done].
Qed.

(** The verification of a header repair accepts exactly a change of
    enablement and expression. It succeeds when the plan's patch was valid on
    the state before, the rule's authored fields are now those of the patch, the
    versions of rule and ruleset both moved forward, and nothing else changed:
    the same rules in the same order, every other rule as it was, and in the
    repaired one only its version, time, enablement and expression. *)
Theorem header_verification_iff before after selectors body :
  value_wf before = true -> value_wf after = true ->
  header_verify_after before after selectors body = Ok tt <->
  header_validate_patch before selectors body = Ok tt /\
  exists previous observed definition,
    header_target before selectors = Ok previous /\ header_target after selectors = Ok observed /\
    header_definition observed = Ok definition /\ definition =j body /\
    moved header_version previous observed /\ moved header_version before after /\
    confined ["version"; "last_updated"; "enabled"; "expression"] selectors before after.
Proof.
  intros Wb Wa. unfold header_verify_after.
  destruct (header_validate_patch before selectors body) as [[]|] eqn:Ev; cbn; [|naive_solver].
  destruct (header_target before selectors) as [old|] eqn:Eo; cbn; [|naive_solver].
  destruct (header_target after selectors) as [new|] eqn:En; cbn; [|naive_solver].
  destruct (header_definition new) as [d|] eqn:Ed; cbn; [|split; [done|]; intros (_ & ? & ? & ? & [= <-] & [= <-] & E & _); congruence].
  rewrite guard_ok, not_same_false, moved_guard, moved_guard.
  destruct (header_target_ok _ _ _ Eo) as ((t & rules & V) & _ & _ & [d0 Ed0]).
  destruct (header_target_ok _ _ _ En) as ((t' & rules' & V') & _).
  destruct (views_confined _ _ _ _ _ _ _ _ _ _ _ (header_edit_free body) Wb Wa V V')
    as (v & w & -> & -> & Hiff).
  cbn [res_bind ok_or]. rewrite guard_ok, not_same_false, Hiff.
  assert (Hnarrow : d =j body -> confined header_free selectors before after <->
    confined ["version"; "last_updated"; "enabled"; "expression"] selectors before after).
  { intros Hd. split.
    - intros Hc. eapply confined_narrow; [|exact V|exact V'| |exact Hc].
      + apply (ef_free _ _ (header_edit_free body)).
      + intros k Hk. destruct (decide (k ∈ header_fixed)) as [Hf|Hf].
        * assert (Hk' : k ∈ header_rule_FIELDS).
          { revert Hf. unfold header_fixed, header_rule_FIELDS. set_solver. }
          destruct (header_patch_fixed _ _ _ k Ev Hf) as (p & Ep & Hp). rewrite Eo in Ep. injection Ep as <-.
          destruct (header_definition_ok _ _ _ Ed0 Hk') as (x & Hx & _).
          destruct (header_definition_ok _ _ _ Ed Hk') as (y & Hy & Hyd).
          rewrite Hx, Hy. change (x =j y). unfold vindex at 1 in Hp. rewrite Hx in Hp. cbn in Hp.
          rewrite Hp, <- Hd. unfold vindex. by rewrite Hyd.
        * eapply confined_target; [|exact V|exact V'|exact Hc|].
          { apply (ef_free _ _ (header_edit_free body)). }
          revert Hk Hf. unfold header_free, header_fixed, header_rule_FIELDS. set_solver.
    - apply confined_widen. unfold header_free, header_rule_FIELDS. set_solver. }
  split.
  - intros (Hd & Hm & Hm' & Hc & _). split; [done|]. exists old, new, d.
    apply Hnarrow in Hc; [|done]. done.
  - intros (_ & ? & ? & d' & [= <-] & [= <-] & Ed' & Hd & Hm & Hm' & Hc).
    rewrite Ed in Ed'. injection Ed' as <-. by rewrite Hnarrow.
Qed.

(** ** Recovery *)

Lemma challenge_valid_body_ok body :
  challenge_valid_body body = true ->
  valid_expression (vindex body "expression") = true /\
  valid_expression (vindex body "expected_expression") = true /\
  ~ vindex body "expression" =j vindex body "expected_expression" /\
  challenge_valid_definition (vindex body "expected_definition") = true /\
  vindex (vindex body "expected_definition") "expression" =j vindex body "expected_expression".
Proof.
  unfold challenge_valid_body. rewrite !andb_true_iff, negb_true_iff.
  intros [[[[[[[_ H1] H2] H3] _] _] H4] H5]. split_and!; try done.
  unfold json_same. by rewrite H3.
Qed.

Lemma challenge_patch_ok parent selectors body :
  challenge_validate_patch parent selectors body = Ok tt ->
  challenge_valid_body body = true /\
  exists r d, challenge_target parent selectors = Ok r /\ challenge_definition r = Ok d /\
    vindex r "expression" =j vindex body "expected_expression" /\
    d =j vindex body "expected_definition".
Proof.
  unfold challenge_validate_patch.
  destruct (challenge_target parent selectors) as [r|] eqn:Er; cbn [res_bind]; [|done].
  intros [Hc H1]%guard_ok. rewrite !orb_false_iff, !not_same_false, negb_false_iff in Hc.
  destruct Hc as [[[Hb He] _] _]. destruct (challenge_definition r) as [d|] eqn:Ed; cbn [res_bind] in H1; [|done].
  apply guard_ok in H1 as [Hd _]. apply not_same_false in Hd. split; [done|]. by exists r, d.
Qed.

(** The definition of a rule: its members but for the provider's. *)
Lemma challenge_definition_ok r d :
  challenge_definition r = Ok d -> value_wf r = true ->
  challenge_valid_definition d = true /\ (exists o, d = VObject o /\ bt_sorted o = true) /\
  forall k, vget k d = if contains ["id"; "version"; "last_updated"] k then None else vget k r.
Proof.
  unfold challenge_definition. destruct r as [| | | | |o]; try done. cbn [as_object ok_or res_bind].
  intros [Hv [= <-]]%guard_ok Hwf. apply negb_false_iff in Hv. apply value_wf_object in Hwf.
  destruct (bt_without_spec ["id"; "version"; "last_updated"] o Hwf) as [Hs Hg].
  split; [done|]. split; [by eexists|]. intros k. cbn [vget]. apply Hg.
Qed.

Lemma target_wf parent selectors r :
  value_wf parent = true -> challenge_target parent selectors = Ok r -> value_wf r = true.
Proof.
  intros Hwf Hr. destruct (challenge_target_ok _ _ _ Hr) as ((t & rules & [_ R _ F _]) & _).
  destruct parent as [| | | | |o]; try done. cbn in R.
  pose proof (value_wf_items _ (value_wf_member _ _ _ Hwf R)) as Hall.
  apply List.find_some in F as [Hin _]. rewrite List.Forall_forall in Hall. by apply Hall.
Qed.

Lemma set_member_get k v object j :
  (exists o, object = VObject o) ->
  vget j (set_member k v object) = if j =? k then Some v else vget j object.
Proof. intros [o ->]. cbn. apply bt_get_insert. Qed.

(** Sorted objects are the same when their members are. *)
Lemma same_members v w :
  (exists o, v = VObject o /\ bt_sorted o = true) -> (exists o, w = VObject o /\ bt_sorted o = true) ->
  (forall k, vget k v =o vget k w) -> v =j w.
Proof. intros (o & -> & S) (o' & -> & S') Hm. by apply same_object. Qed.

Lemma valid_expression_present k v : valid_expression (vindex v k) = true -> vget k v = Some (vindex v k).
Proof. unfold vindex. by destruct (vget k v). Qed.

Lemma set_member_object k v object :
  (exists o, object = VObject o /\ bt_sorted o = true) ->
  exists o, set_member k v object = VObject o /\ bt_sorted o = true.
Proof. intros (o & -> & Hs). eexists. split; [done|]. by apply bt_insert_sorted. Qed.

Lemma expected_definition_object body :
  value_wf body = true -> challenge_valid_definition (vindex body "expected_definition") = true ->
  exists o, vindex body "expected_definition" = VObject o /\ bt_sorted o = true.
Proof.
  intros Hwf Hv. destruct (vindex body "expected_definition") as [| | | | |o] eqn:E; try done.
  exists o. split; [done|]. unfold vindex in E. destruct body as [| | | | |b]; try done. cbn in E.
  destruct (bt_get "expected_definition" b) as [v|] eqn:Eg; [|done]. cbn in E. subst v.
  exact (value_wf_object _ (value_wf_member _ _ _ Hwf Eg)).
Qed.

(** The body [recovery_body] builds. *)
Definition recovery_of (body r observed definition : Value) : Value :=
  jobj [("expression", vindex body "expected_expression");
        ("expected_expression", vindex body "expression");
        ("expected_rule_version", vindex r "version");
        ("expected_ruleset_version", vindex observed "version");
        ("expected_definition", definition)].

Lemma recovery_body_ok before applied observed selectors body recovery :
  recovery_body before applied observed selectors body = Ok recovery <->
  challenge_validate_patch before selectors body = Ok tt /\
  exists old ra r da w dr,
    challenge_target before selectors = Ok old /\ challenge_target applied selectors = Ok ra /\
    challenge_target observed selectors = Ok r /\ challenge_definition ra = Ok da /\
    wire_body body = Ok w /\ da =j w /\ ra =j r /\ moved challenge_version old ra /\
    moved challenge_version before applied /\
    (exists n m, challenge_version (vindex observed "version") = Ok n /\
       challenge_version (vindex applied "version") = Ok m /\ (m <= n)%Z) /\
    challenge_definition r = Ok dr /\ recovery = recovery_of body r observed dr.
Proof.
  unfold recovery_body.
  destruct (challenge_validate_patch before selectors body) as [[]|] eqn:Ev; cbn [res_bind]; [|naive_solver].
  destruct (challenge_patch_ok _ _ _ Ev) as (_ & old & _ & Eold & _).
  rewrite Eold. cbn [res_bind].
  destruct (challenge_target applied selectors) as [ra|] eqn:Ea; cbn [res_bind]; [|naive_solver].
  destruct (challenge_target observed selectors) as [r|] eqn:Er; cbn [res_bind]; [|naive_solver].
  destruct (challenge_definition ra) as [da|] eqn:Eda; cbn [res_bind];
    [|split; [done|]; intros (_ & ? & ? & ? & ? & ? & ? & [= <-] & [= <-] & [= <-] & E & _); congruence].
  destruct (wire_body body) as [w|] eqn:Ew; cbn [res_bind]; [|naive_solver].
  rewrite !guard_ok, !not_same_false, moved_guard, moved_guard.
  destruct (challenge_version (vindex observed "version")) as [n|] eqn:En; cbn [res_bind]; [|naive_solver].
  destruct (challenge_version (vindex applied "version")) as [m|] eqn:Em; cbn [res_bind]; [|naive_solver].
  rewrite guard_ok, Z.ltb_ge.
  destruct (challenge_definition r) as [dr|] eqn:Edr; cbn [res_bind].
  - split.
    + intros (H1 & H2 & H3 & H4 & H5 & [= <-]). split; [done|]. exists old, ra, r, da, w, dr.
      split_and!; try done. by exists n, m.
    + intros (_ & ? & ? & ? & da' & ? & dr' & [= <-] & [= <-] & [= <-] & E1 & [= <-] & H1 & H2 & H3 & H4 &
        (? & ? & [= <-] & [= <-] & H5) & E2 & ->).
      rewrite Eda in E1. rewrite Edr in E2. injection E1 as <-. injection E2 as <-. done.
  - split; [by intros (_ & _ & _ & _ & _ & ?)|].
    intros (_ & ? & ? & ? & ? & ? & ? & [= <-] & [= <-] & [= <-] & _ & _ & _ & _ & _ & _ & _ & E2 & _). congruence.
Qed.

(** What was corrected, put back: a definition that is the reviewed one with the
    new expression becomes the reviewed one under the old expression. *)
Lemma put_back body dr :
  value_wf body = true -> challenge_valid_body body = true ->
  (exists o, dr = VObject o /\ bt_sorted o = true) ->
  dr =j set_member "expression" (vindex body "expression") (vindex body "expected_definition") ->
  set_member "expression" (vindex body "expected_expression") dr =j vindex body "expected_definition".
Proof.
  intros Wy Hb Ho Hdr. destruct (challenge_valid_body_ok _ Hb) as (_ & V2 & _ & V3 & V4).
  pose proof (expected_definition_object _ Wy V3) as Hd.
  apply same_members; [by apply set_member_object|done|]. intros k.
  rewrite set_member_get by (destruct Ho as (o & -> & _); by eexists).
  destruct (k =? "expression") eqn:Ek.
  - apply eqb_eq in Ek as ->. rewrite valid_expression_present.
    + change (vindex body "expected_expression" =j vindex (vindex body "expected_definition") "expression").
      by symmetry.
    + unfold valid_expression in *. by rewrite (as_str_proper _ _ V4).
  - rewrite Hdr, set_member_get, Ek by (destruct Hd as (o & -> & _); by eexists). done.
Qed.

Lemma recovery_valid body r observed n m dr :
  challenge_valid_body body = true -> challenge_definition r = Ok dr -> value_wf r = true ->
  challenge_version (vindex r "version") = Ok n -> challenge_version (vindex observed "version") = Ok m ->
  vindex dr "expression" =j vindex body "expression" ->
  challenge_valid_body (recovery_of body r observed dr) = true.
Proof.
  intros Hb Hdr Hwf Hn Hm He. destruct (challenge_valid_body_ok _ Hb) as (V1 & V2 & Hne & _).
  destruct (challenge_definition_ok _ _ Hdr Hwf) as (Hv & _).
  unfold challenge_valid_body.
  change (vindex (recovery_of body r observed dr) "expression") with (vindex body "expected_expression").
  change (vindex (recovery_of body r observed dr) "expected_expression") with (vindex body "expression").
  change (vindex (recovery_of body r observed dr) "expected_rule_version") with (vindex r "version").
  change (vindex (recovery_of body r observed dr) "expected_ruleset_version") with (vindex observed "version").
  change (vindex (recovery_of body r observed dr) "expected_definition") with dr.
  rewrite V1, V2, Hn, Hm, Hv, He. cbn [andb is_ok].
  destruct (Value_eqb (vindex body "expected_expression") (vindex body "expression")) eqn:E; [|reflexivity].
  destruct Hne. by symmetry.
Qed.

(** A recovery undoes exactly the correction. Whenever a recovery body is
    produced, it is a valid patch for the ruleset as it was observed, and what
    it sends is the definition the rule had before the correction. *)
Theorem recovery_restores_definition before applied observed selectors body recovery :
  value_wf before = true -> value_wf applied = true -> value_wf observed = true -> value_wf body = true ->
  recovery_body before applied observed selectors body = Ok recovery ->
  challenge_validate_patch observed selectors recovery = Ok tt /\
  exists wire old d, wire_body recovery = Ok wire /\ challenge_target before selectors = Ok old /\
    challenge_definition old = Ok d /\ wire =j d.
Proof.
  intros Wb Wp Wo Wy. rewrite recovery_body_ok.
  intros (Ev & old & ra & r & da & w & dr & Eold & Ea & Er & Eda & Ew & Hda & Har & _ & _ & _ & Edr & ->).
  destruct (challenge_patch_ok _ _ _ Ev) as (Hb & old' & d & Eold' & Ed & _ & Hd).
  rewrite Eold in Eold'. injection Eold' as <-.
  pose proof (target_wf _ _ _ Wp Ea) as Wra. pose proof (target_wf _ _ _ Wo Er) as Wr.
  destruct (challenge_definition_ok _ _ Eda Wra) as (_ & Oa & Ga).
  destruct (challenge_definition_ok _ _ Edr Wr) as (_ & Or & Gr).
  destruct (challenge_target_ok _ _ _ Er) as (_ & [m Hm] & [n Hn] & _).
  unfold wire_body in Ew. rewrite Hb in Ew. injection Ew as <-.
  assert (Hdr : dr =j set_member "expression" (vindex body "expression") (vindex body "expected_definition")).
  { rewrite <- Hda. apply same_members; [done..|]. intros k. rewrite Ga, Gr.
    destruct (contains _ k); [done|]. by rewrite Har. }
  pose proof (put_back _ _ Wy Hb Or Hdr) as Hback.
  destruct (challenge_valid_body_ok _ Hb) as (V1 & _ & _ & V3 & _).
  pose proof (expected_definition_object _ Wy V3) as Hobj.
  assert (He : vindex dr "expression" =j vindex body "expression").
  { unfold vindex at 1. apply default_same. rewrite Hdr, set_member_get by (destruct Hobj as (o & -> & _); by eexists).
    by rewrite eqb_refl, (valid_expression_present _ _ V1). }
  pose proof (recovery_valid _ _ _ _ _ _ Hb Edr Wr Hn Hm He) as Hrec. split.
  - unfold challenge_validate_patch. rewrite Er. cbn [res_bind]. apply guard_ok. split.
    + rewrite Hrec. rewrite !orb_false_iff, !not_same_false. split_and!; try reflexivity.
      change (vindex r "expression" =j vindex body "expression"). rewrite <- He.
      unfold vindex. by rewrite Gr.
    + rewrite Edr. cbn [res_bind]. apply guard_ok. split; [|done]. apply not_same_false. reflexivity.
  - eexists _, old, d. split; [unfold wire_body; by rewrite Hrec|]. split; [done|]. split; [done|].
    change (set_member "expression" (vindex body "expected_expression") dr =j d). by rewrite Hback, Hd.
Qed.

(** A verified correction can be undone: whenever the verification of a
    correction succeeded, the recovery from the state it left produces a body. *)
Theorem verified_correction_is_recoverable before after selectors body :
  value_wf before = true -> value_wf after = true -> value_wf body = true ->
  challenge_verify_after before after selectors body = Ok tt ->
  exists recovery, recovery_body before after after selectors body = Ok recovery.
Proof.
  intros Wb Wa Wy (Ev & old & new & Eo & En & Hx & H1 & H2 & Hc)%challenge_verified; [|done..].
  destruct (challenge_patch_ok _ _ _ Ev) as (Hb & old' & d & Eo' & Ed & _ & Hd).
  rewrite Eo in Eo'. injection Eo' as <-.
  destruct (challenge_target_ok _ _ _ Eo) as ((t & rules & V) & _).
  destruct (challenge_target_ok _ _ _ En) as ((t' & rules' & V') & [m Hm] & _ & [dn Edn]).
  pose proof (target_wf _ _ _ Wb Eo) as Wo. pose proof (target_wf _ _ _ Wa En) as Wn.
  destruct (challenge_definition_ok _ _ Ed Wo) as (_ & Oo & Go).
  destruct (challenge_definition_ok _ _ Edn Wn) as (Vn & On & Gn).
  destruct (challenge_valid_body_ok _ Hb) as (V1 & _ & _ & V3 & _).
  pose proof (expected_definition_object _ Wy V3) as Hobj.
  assert (Hsame : same_but ["version"; "last_updated"; "expression"] old new).
  { eapply confined_target; [|exact V|exact V'|exact Hc]. apply (bool_decide_unpack _). vm_compute. exact I. }
  eexists. apply recovery_body_ok. split; [exact Ev|].
  exists old, new, new, dn, (set_member "expression" (vindex body "expression") (vindex body "expected_definition")), dn.
  split_and!; try done.
  - unfold wire_body. by rewrite Hb.
  - apply same_members; [done|by apply set_member_object|]. intros k.
    rewrite set_member_get by (destruct Hobj as (o & -> & _); by eexists).
    destruct (k =? "expression") eqn:Ek.
    + apply eqb_eq in Ek as ->. rewrite Gn. change (vget "expression" new =o Some (vindex body "expression")).
      unfold vindex at 1 in Hx. destruct (vget "expression" new) as [x|]; [exact Hx|].
      unfold valid_expression in V1. by rewrite <- (as_str_proper _ _ Hx) in V1.
    + rewrite <- Hd, Gn, Go. destruct (contains _ k) eqn:Ec; [done|]. symmetry. apply Hsame.
      rewrite contains_false in Ec. rewrite eqb_false in Ek. set_solver.
  - exists m, m. split; [done|]. split; [done|lia].
Qed.

(** ** The pinned prior state *)

(** What a stored receipt says when it matches the one of a plan. *)
Lemma receipt_members stored read_id read_path id path selectors account parent :
  stored =j rule_receipt read_id read_path id path selectors account parent ->
  vget "selectors" stored =o Some selectors /\ vget "account_id" stored = Some (VString account).
Proof.
  intros Hs. split; [by rewrite Hs|].
  assert (Ha : vget "account_id" stored =o Some (VString account)) by (by rewrite Hs).
  destruct (vget "account_id" stored) as [v|]; [|done]. by apply same_string in Ha as ->.
Qed.

Lemma challenge_prior_ok plan selectors body parent :
  challenge_prior plan selectors body = Ok parent ->
  challenge_rule_supported (plan_capability plan) = true /\
  challenge_validate_patch parent selectors body = Ok tt /\
  exists stored hash, vget "prior_state" stored = Some parent /\
    stored =j rule_receipt challenge_rule_READ_ID challenge_rule_READ_PATH challenge_rule_ID
      challenge_rule_PATH selectors (plan_account_id plan) parent /\
    hash_value stored = Ok hash /\ bt_get PRECONDITION (plan_precondition_hashes plan) = Some hash.
Proof.
  unfold challenge_prior. destruct (vpointer _ _) as [stored|]; cbn [ok_or res_bind]; [|done].
  destruct (vget "prior_state" stored) as [p|] eqn:Ep; cbn [ok_or res_bind]; [|done].
  unfold challenge_receipt. destruct (challenge_rule_supported _); cbn [negb guard res_bind]; [|done].
  destruct (challenge_validate_patch p selectors body) as [[]|] eqn:Ev; cbn [res_bind]; [|done].
  intros [Hs Hh]%guard_ok. rewrite not_same_false in Hs.
  destruct (hash_value stored) as [hash|] eqn:Eh; cbn [map_err res_bind] in Hh; [|done].
  apply guard_ok in Hh as [Hh [= <-]]. rewrite neqb_false in Hh. split_and!; try done. by exists stored, hash.
Qed.

(** The precondition hash of a plan pins the state it was reviewed on. The
    prior state a correction works from is one its patch is valid on, and two
    plans with one precondition hash have the same prior state, account and
    selectors, or SHA-256 collides. *)
Theorem prior_state_is_pinned plan plan' selectors selectors' body body' parent parent' :
  challenge_prior plan selectors body = Ok parent -> challenge_prior plan' selectors' body' = Ok parent' ->
  bt_get PRECONDITION (plan_precondition_hashes plan) =
    bt_get PRECONDITION (plan_precondition_hashes plan') ->
  challenge_validate_patch parent selectors body = Ok tt /\
  ((parent = parent' /\ selectors =j selectors' /\ plan_account_id plan = plan_account_id plan') \/ collision).
Proof.
  intros (_ & Hv & stored & h & Hp & Hs & Hh & Hg)%challenge_prior_ok
    (_ & _ & stored' & h' & Hp' & Hs' & Hh' & Hg')%challenge_prior_ok E.
  split; [done|]. rewrite Hg, Hg' in E. injection E as <-.
  destruct (hash_value_same _ _ _ Hh Hh') as [<-|Hc]; [left|by right].
  apply receipt_members in Hs as [S A]. apply receipt_members in Hs' as [S' A'].
  split_and!; [congruence| |congruence].
  change (Some selectors =o Some selectors'). by rewrite <- S, S'.
Qed.
End Properties.

(** ** A correction and a repair on concrete rulesets *)

Section Witnesses.

Definition hex32 (a : ascii) : string := string_of_list_ascii (List.repeat a 32).

Definition sample_selectors : Value :=
  jobj [("zone_id", VString (hex32 "a")); ("ruleset_id", VString (hex32 "b"));
        ("rule_id", VString (hex32 "c"))].

Definition sample_wall : list (string * Value) :=
  [("action", VString "managed_challenge"); ("expression", VString "true"); ("enabled", VBool true);
   ("description", VString "entry wall"); ("ref", VString "wall")].

Definition sample_challenge_parent (version at_ rule_version expression : string) : Value :=
  jobj [("id", VString (hex32 "b")); ("kind", VString "zone");
        ("phase", VString "http_request_firewall_custom"); ("version", VString version);
        ("last_updated", VString at_);
        ("rules", VArray
          [jobj ((sample_wall ++ [("id", VString (hex32 "c")); ("version", VString rule_version);
                                  ("last_updated", VString at_); ("expression", VString expression)])%list);
           jobj [("id", VString (hex32 "d")); ("action", VString "block");
                 ("expression", VString "false"); ("version", VString "3")]])].

Definition sample_challenge_body : Value :=
  jobj [("expression", VString "http.host ne meet"); ("expected_expression", VString "true");
        ("expected_rule_version", VString "11"); ("expected_ruleset_version", VString "14");
        ("expected_definition", jobj sample_wall)].

Definition sample_challenge_before : Value := sample_challenge_parent "14" "before" "11" "true".
Definition sample_challenge_after : Value := sample_challenge_parent "15" "after" "12" "http.host ne meet".

Definition sample_header_rule (enabled : bool) : list (string * Value) :=
  [("action", VString "rewrite");
   ("action_parameters", jobj [("headers", jobj [("Cache-Control",
      jobj [("operation", VString "set"); ("value", VString "no-store")])])]);
   ("description", VString "HTML cache policy"); ("enabled", VBool enabled);
   ("expression", VString "http.host eq example"); ("ref", VString "reference")].

Definition sample_header_parent (version rule_version : string) (enabled : bool) : Value :=
  jobj [("id", VString (hex32 "b")); ("phase", VString "http_response_headers_transform");
        ("kind", VString "zone"); ("version", VString version);
        ("rules", VArray
          [jobj ((sample_header_rule enabled ++ [("id", VString (hex32 "c"));
                                                 ("version", VString rule_version)])%list);
           jobj [("id", VString (hex32 "d")); ("version", VString "3"); ("action", VString "rewrite");
                 ("opaque", jobj [("keep", VBool true)])]])].

Lemma challenge_verification_iff_witness :
  corrected sample_challenge_before sample_challenge_after sample_selectors sample_challenge_body.
Proof.
  refine (proj1 (challenge_verification_iff sample_challenge_before sample_challenge_after
                   sample_selectors sample_challenge_body _ _) _); vm_compute; reflexivity.
Defined.

Lemma header_verification_iff_witness :
  header_verify_after (sample_header_parent "11" "5" true) (sample_header_parent "12" "6" false)
    sample_selectors (jobj (sample_header_rule false)) = Ok tt /\
  header_validate_patch (sample_header_parent "11" "5" true) sample_selectors
    (jobj (sample_header_rule false)) = Ok tt.
Proof.
  split; [vm_compute; reflexivity|].
  refine (proj1 (proj1 (header_verification_iff (sample_header_parent "11" "5" true)
    (sample_header_parent "12" "6" false) sample_selectors (jobj (sample_header_rule false)) _ _) _));
    vm_compute; reflexivity.
Defined.

Lemma recovery_restores_definition_witness :
  exists recovery,
    recovery_body sample_challenge_before sample_challenge_after sample_challenge_after
      sample_selectors sample_challenge_body = Ok recovery /\
    challenge_validate_patch sample_challenge_after sample_selectors recovery = Ok tt.
Proof.
  destruct (recovery_body sample_challenge_before sample_challenge_after sample_challenge_after
      sample_selectors sample_challenge_body) as [recovery|] eqn:E.
  - exists recovery. split; [reflexivity|].
    refine (proj1 (recovery_restores_definition sample_challenge_before sample_challenge_after
      sample_challenge_after sample_selectors sample_challenge_body recovery _ _ _ _ E));
      vm_compute; reflexivity.
  - exfalso. vm_compute in E. discriminate E.
Defined.

Lemma verified_correction_is_recoverable_witness :
  exists recovery,
    recovery_body sample_challenge_before sample_challenge_after sample_challenge_after
      sample_selectors sample_challenge_body = Ok recovery.
Proof.
  refine (verified_correction_is_recoverable sample_challenge_before sample_challenge_after
    sample_selectors sample_challenge_body _ _ _ _); vm_compute; reflexivity.
Defined.

End Witnesses.
