(* ===== verification/JsonSchema.v ===== *)
(** JSON Schema, as far as the catalog's comparisons need it: an executable
    validator of the OpenAPI vocabulary with three answers, written from the
    specification and not from the code, and what it means for a value to be
    valid or invalid. *)

From Stdlib Require Import String Ascii ZArith Lia List Bool.
From stdpp Require Import base option list strings.
From S2P Require Import Prelude Strings Btree Json JsonOps JsonEq.

Open Scope cf_scope.
Open Scope string_scope.
Open Scope cf_scope.

(** ** Three answers: [None] is no verdict yet *)

Definition kand (a b : option bool) : option bool :=
  match a, b with
  | Some false, _ | _, Some false => Some false
  | Some true, Some true => Some true
  | _, _ => None
  end.

Definition kor (a b : option bool) : option bool :=
  option_map negb (kand (option_map negb a) (option_map negb b)).

Definition kall {A} (f : A -> option bool) (l : list A) : option bool :=
  foldr (fun x acc => kand (f x) acc) (Some true) l.
Definition kany {A} (f : A -> option bool) (l : list A) : option bool :=
  foldr (fun x acc => kor (f x) acc) (Some false) l.

(** How many are true, once all are known. *)
Fixpoint kcount {A} (f : A -> option bool) (l : list A) : option nat :=
  match l with
  | [] => Some 0
  | x :: l =>
      match f x, kcount f l with
      | Some b, Some n => Some (if b then S n else n)
      | _, _ => None
      end
  end.

(** ** Numbers *)

(** A number is its mantissa times two to its exponent, and numbers compare by
    that value, without rounding. *)
Definition mantissa (n : Number) : Z :=
  match n with
  | PosInt z | NegInt z => z
  | Float (FZero _) => 0
  | Float (FFinite s m e) => if s then Z.neg m else Z.pos m
  end.
Definition exponent (n : Number) : Z := match n with Float (FFinite _ _ e) => e | _ => 0 end.
(** The number as a multiple of [2 ^ k], [k] being at most its exponent. *)
Definition scaled (k : Z) (n : Number) : Z := (mantissa n * 2 ^ (exponent n - k))%Z.
Definition exact_compare (a b : Number) : comparison :=
  let k := Z.min (exponent a) (exponent b) in (scaled k a ?= scaled k b)%Z.
Definition number_le (a b : Number) : bool := match exact_compare a b with Gt => false | _ => true end.
Definition number_lt (a b : Number) : bool := match exact_compare a b with Lt => true | _ => false end.
Definition as_number (v : Value) : option Number := match v with VNumber n => Some n | _ => None end.

(** A number without fractional part. *)
Definition is_integral (n : Number) : bool :=
  match n with
  | PosInt _ | NegInt _ => true
  | Float (FZero _) => true
  | Float (FFinite _ m e) => (0 <=? e)%Z || (Z.pos m mod 2 ^ (- e) =? 0)%Z
  end.

(** Characters of a UTF-8 string: the bytes that do not continue one. *)
Fixpoint char_count (s : string) : Z :=
  match s with
  | EmptyString => 0
  | String a s => (if (128 <=? byte a)%N && (byte a <? 192)%N then 0 else 1) + char_count s
  end%Z.

(** ** Keywords *)

(** Does [v] have the type a schema calls [name]? *)
Definition has_type (v : Value) (name : string) : bool :=
  match v with
  | VNull => name =? "null"
  | VBool _ => name =? "boolean"
  | VString _ => name =? "string"
  | VArray _ => name =? "array"
  | VObject _ => name =? "object"
  | VNumber n => (name =? "number") || ((name =? "integer") && is_integral n)
  end.

(** The names of a list, if all of them are strings. *)
Fixpoint all_strings (l : list Value) : option (list string) :=
  match l with
  | [] => Some []
  | v :: l => obind (as_str v) (fun s => option_map (cons s) (all_strings l))
  end.

Definition names_of (v : Value) : option (list string) :=
  match v with
  | VString s => Some [s]
  | VArray l => if is_nil l then None else all_strings l
  | _ => None
  end.

Definition type_ok (s : btree Value) (v : Value) : bool :=
  is_none_or (obind (bt_get "type" s) names_of) (fun names =>
    existsb (has_type v) names
    || (is_null v && is_some_and (bt_get "nullable" s) (fun b => Value_eqb b (VBool true)))).

Definition enum_ok (s : btree Value) (v : Value) : bool :=
  is_none_or (obind (bt_get "enum" s) as_array) (fun values => is_nil values || existsb (Value_eqb v) values).
Definition const_ok (s : btree Value) (v : Value) : bool :=
  is_none_or (bt_get "const" s) (Value_eqb v).

Definition at_least (s : btree Value) (key : string) (n : Z) : bool :=
  is_none_or (obind (bt_get key s) as_u64) (fun least => (least <=? n)%Z).
Definition at_most (s : btree Value) (key : string) (n : Z) : bool :=
  is_none_or (obind (bt_get key s) as_u64) (fun most => (n <=? most)%Z).

(** [minimum] and [exclusiveMinimum], the latter as OpenAPI 3.0 (a flag on
    [minimum]) and as JSON Schema (a bound of its own) have it. *)
Definition lower_ok (s : btree Value) (x : Number) : bool :=
  is_none_or (obind (bt_get "minimum" s) as_number) (fun m => number_le m x)
  && match bt_get "exclusiveMinimum" s with
     | Some (VBool true) => is_none_or (obind (bt_get "minimum" s) as_number) (fun m => number_lt m x)
     | Some (VNumber n) => number_lt n x
     | _ => true
     end.
Definition upper_ok (s : btree Value) (x : Number) : bool :=
  is_none_or (obind (bt_get "maximum" s) as_number) (fun m => number_le x m)
  && match bt_get "exclusiveMaximum" s with
     | Some (VBool true) => is_none_or (obind (bt_get "maximum" s) as_number) (fun m => number_lt x m)
     | Some (VNumber n) => number_lt x n
     | _ => true
     end.

Fixpoint all_distinct (l : list Value) : bool :=
  match l with [] => true | v :: l => negb (existsb (Value_eqb v) l) && all_distinct l end.

Definition required_ok (s m : btree Value) : bool :=
  is_none_or (obind (obind (bt_get "required" s) as_array) all_strings)
    (forallb (fun f => is_someb (bt_get f m))).

(** What a schema says of the member [k]. *)
Definition member_schema (s : btree Value) (k : string) : option Value :=
  match obind (obind (bt_get "properties" s) as_object) (bt_get k) with
  | Some schema => Some schema
  | None => bt_get "additionalProperties" s
  end.

(** The members of an instance and what the schema says of each. *)
Definition governed (s m : btree Value) : list (Value * Value) :=
  omap (fun e => option_map (fun schema => (schema, e.2)) (member_schema s e.1)) m.

Section Validation.
(** The meaning of [format], [pattern] and [multipleOf] is left open: the
    keyword, its value, and the instance. *)
Context (keyword : string -> Value -> Value -> bool).
Context (document : Value).

Definition open_ok (key : string) (s : btree Value) (v : Value) : bool :=
  is_none_or (bt_get key s) (fun c => keyword key c v).

(** The constraints that look at nothing but the value itself. *)
Definition plain_ok (s : btree Value) (v : Value) : bool :=
  type_ok s v && enum_ok s v && const_ok s v
  && match v with
     | VString t =>
         open_ok "format" s v && open_ok "pattern" s v
         && at_least s "minLength" (char_count t) && at_most s "maxLength" (char_count t)
     | VNumber n =>
         lower_ok s n && upper_ok s n && open_ok "multipleOf" s v
     | VArray l =>
         at_least s "minItems" (Z.of_nat (length l)) && at_most s "maxItems" (Z.of_nat (length l))
         && (negb (is_some_and (bt_get "uniqueItems" s) (fun b => Value_eqb b (VBool true)))
             || all_distinct l)
     | VObject m =>
         at_least s "minProperties" (Z.of_nat (length m))
         && at_most s "maxProperties" (Z.of_nat (length m)) && required_ok s m
     | _ => true
     end.

(** The target of a [$ref] into the document. *)
Definition resolve (s : btree Value) : option Value :=
  obind (obind (bt_get "$ref" s) as_str) (fun reference =>
  obind (strip_prefix "#" reference) (fun pointer => vpointer pointer document)).

Definition members (s : btree Value) (key : string) : option (list Value) :=
  obind (bt_get key s) as_array.

(** What a schema object asks of a value, with [check] for its subschemas. *)
Definition parts (check : Value -> Value -> option bool) (s : btree Value) (v : Value) : list (option bool) :=
  [Some (plain_ok s v);
   match resolve s with Some target => check target v | None => Some true end;
   match v, bt_get "items" s with
   | VArray l, Some items => kall (check items) l
   | _, _ => Some true
   end;
   match v with
   | VObject m => kall (fun e => check e.1 e.2) (governed s m)
   | _ => Some true
   end;
   match members s "allOf" with
   | Some schemas => kall (fun schema => check schema v) schemas
   | None => Some true
   end;
   match members s "anyOf" with
   | Some schemas => kany (fun schema => check schema v) schemas
   | None => Some true
   end;
   match members s "oneOf" with
   | Some schemas => option_map (fun n => n =? 1) (kcount (fun schema => check schema v) schemas)
   | None => Some true
   end].

(** Validation, [fuel] bounding the references and levels followed. A keyword
    or a schema that is malformed constrains nothing. *)
Fixpoint validate (fuel : nat) (schema v : Value) : option bool :=
  match fuel, schema with
  | O, _ => None
  | S fuel, VBool b => Some b
  | S fuel, VObject s => kall id (parts (validate fuel) s v)
  | S fuel, _ => Some true
  end.

Definition decides (answer : bool) (schema v : Value) : Prop :=
  exists fuel, validate fuel schema v = Some answer.
Definition valid : Value -> Value -> Prop := decides true.
Definition invalid : Value -> Value -> Prop := decides false.
End Validation.

(** ** More fuel refines an answer *)

Definition refines (a b : option bool) : Prop := forall x, a = Some x -> b = Some x.

Lemma kand_true a b : kand a b = Some true <-> a = Some true /\ b = Some true.
Proof. destruct a as [[]|], b as [[]|]; cbn; naive_solver. Qed.
Lemma kand_false a b : kand a b = Some false <-> a = Some false \/ b = Some false.
Proof. destruct a as [[]|], b as [[]|]; cbn; naive_solver. Qed.
Lemma kor_true a b : kor a b = Some true <-> a = Some true \/ b = Some true.
Proof. destruct a as [[]|], b as [[]|]; cbn; naive_solver. Qed.
Lemma kor_false a b : kor a b = Some false <-> a = Some false /\ b = Some false.
Proof. destruct a as [[]|], b as [[]|]; cbn; naive_solver. Qed.

Lemma kall_true {A} (f : A -> option bool) l : kall f l = Some true <-> Forall (fun x => f x = Some true) l.
Proof. induction l as [|x l IH]; cbn; [by split|]. by rewrite kand_true, Forall_cons, <- IH. Qed.
Lemma kall_false {A} (f : A -> option bool) l : kall f l = Some false <-> Exists (fun x => f x = Some false) l.
Proof.
  induction l as [|x l IH]; cbn; [by rewrite List.Exists_nil|]. by rewrite kand_false, List.Exists_cons, <- IH.
Qed.
Lemma kany_true {A} (f : A -> option bool) l : kany f l = Some true <-> Exists (fun x => f x = Some true) l.
Proof.
  induction l as [|x l IH]; cbn; [by rewrite List.Exists_nil|]. by rewrite kor_true, List.Exists_cons, <- IH.
Qed.
Lemma kany_false {A} (f : A -> option bool) l : kany f l = Some false <-> Forall (fun x => f x = Some false) l.
Proof. induction l as [|x l IH]; cbn; [by split|]. by rewrite kor_false, Forall_cons, <- IH. Qed.

Lemma kcount_zero {A} (f : A -> option bool) l :
  kcount f l = Some 0 <-> Forall (fun x => f x = Some false) l.
Proof.
  induction l as [|x l IH]; cbn; [by split|]. rewrite Forall_cons.
  destruct (f x) as [[]|], (kcount f l); naive_solver.
Qed.

Lemma kcount_one {A} (f : A -> option bool) l :
  kcount f l = Some 1 <->
  exists l1 x l2, l = (l1 ++ x :: l2)%list /\ f x = Some true /\
    Forall (fun x => f x = Some false) (l1 ++ l2)%list.
Proof.
  induction l as [|x l IH]; cbn; [split; [done|]; by intros ([] & ? & ? & ? & _)|]. split.
  - destruct (f x) as [[]|] eqn:E, (kcount f l) as [[|[|n]]|] eqn:Ec; try (by intros [=]).
    + intros _. exists [], x, l. split_and!; [done..|]. by apply kcount_zero.
    + intros _. destruct IH as [IH _]. destruct (IH eq_refl) as (l1 & y & l2 & -> & Hy & Hl).
      exists (x :: l1), y, l2. split_and!; [done..|]. by constructor.
  - intros ([|x' l1] & y & l2 & [= -> ->] & Hy & Hl); cbn in *.
    + rewrite Hy. apply kcount_zero in Hl. by rewrite Hl.
    + apply Forall_cons in Hl as [Hx Hl]. rewrite Hx. destruct IH as [_ IH]. rewrite IH; [done|].
      by exists l1, y, l2.
Qed.

Lemma kcount_refines {A} (f g : A -> option bool) l n :
  Forall (fun x => refines (f x) (g x)) l -> kcount f l = Some n -> kcount g l = Some n.
Proof.
  intros Hl. revert n. induction Hl as [|x l Hx _ IH]; intros n; cbn; [done|].
  destruct (f x) as [b|] eqn:E; [|done]. rewrite (Hx _ eq_refl).
  destruct (kcount f l) as [k|]; [|done]. by rewrite (IH _ eq_refl).
Qed.

Lemma kall_refines {A} (f g : A -> option bool) l :
  Forall (fun x => refines (f x) (g x)) l -> refines (kall f l) (kall g l).
Proof.
  intros Hl [].
  - rewrite !kall_true. intros H. induction H as [|x l H1 _ IH]; [done|].
    inversion Hl; subst. constructor; auto.
  - rewrite !kall_false. intros H. induction H; inversion Hl; subst; [left|right]; auto.
Qed.
Lemma kany_refines {A} (f g : A -> option bool) l :
  Forall (fun x => refines (f x) (g x)) l -> refines (kany f l) (kany g l).
Proof.
  intros Hl [].
  - rewrite !kany_true. intros H. induction H; inversion Hl; subst; [left|right]; auto.
  - rewrite !kany_false. intros H. induction H as [|x l H1 _ IH]; [done|].
    inversion Hl; subst. constructor; auto.
Qed.

Lemma kall_id_refines l l' : Forall2 refines l l' -> refines (kall id l) (kall id l').
Proof.
  induction 1 as [|x y l l' Hx _ IH]; [by intros ?|]. intros [].
  - cbn. rewrite !kand_true. intros [H1 H2]. split; [by apply Hx|by apply IH].
  - cbn. rewrite !kand_false. intros [H1|H1]; [left; by apply Hx|right; by apply IH].
Qed.

Lemma Forall_all {A} (P : A -> Prop) l : (forall x, P x) -> Forall P l.
Proof. intros H. induction l; auto. Qed.

Section Facts.
Context (keyword : string -> Value -> Value -> bool) (document : Value).
Abbreviation validate := (JsonSchema.validate keyword document).
Abbreviation valid := (JsonSchema.valid keyword document).
Abbreviation invalid := (JsonSchema.invalid keyword document).
Abbreviation decides := (JsonSchema.decides keyword document).
Abbreviation plain_ok := (JsonSchema.plain_ok keyword).
Abbreviation resolve := (JsonSchema.resolve document).

Lemma validate_more n : forall m schema v, n <= m -> refines (validate n schema v) (validate m schema v).
Proof.
  induction n as [|n IH]; intros m schema v Hm; [by intros ?|]. destruct m as [|m]; [lia|].
  assert (IH' : forall schema v, refines (validate n schema v) (validate m schema v)) by (intros; apply IH; lia).
  destruct schema as [| | | | |s]; try (by intros ?).
  cbn [JsonSchema.validate]. apply kall_id_refines. unfold parts. repeat apply Forall2_cons_2; [by intros ?|..|done].
  - destruct (resolve s); [apply IH'|by intros ?].
  - destruct v; try (by intros ?). destruct (bt_get "items" s); [|by intros ?].
    apply kall_refines, Forall_all. intros. apply IH'.
  - destruct v; try (by intros ?). apply kall_refines, Forall_all. intros; apply IH'.
  - destruct (members s "allOf"); [|by intros ?]. apply kall_refines, Forall_all. intros; apply IH'.
  - destruct (members s "anyOf"); [|by intros ?]. apply kany_refines, Forall_all. intros; apply IH'.
  - destruct (members s "oneOf") as [l|]; [|by intros ?]. intros x.
    destruct (kcount (fun schema => validate n schema v) l) eqn:E; [|done].
    erewrite kcount_refines; [|apply Forall_all; intros; apply IH'|exact E]. done.
Qed.

Lemma decides_more n m b schema v : n <= m -> validate n schema v = Some b -> validate m schema v = Some b.
Proof. intros Hm. by apply validate_more. Qed.

(** A value is not both. *)
Lemma valid_not_invalid schema v : valid schema v -> invalid schema v -> False.
Proof.
  intros [n Hn] [m Hm]. apply (decides_more n (Nat.max n m)) in Hn; [|lia].
  apply (decides_more m (Nat.max n m)) in Hm; [|lia]. congruence.
Qed.

(** One amount of fuel for a whole list. *)
Lemma common_fuel {A} b (schema v : A -> Value) l :
  Forall (fun x => decides b (schema x) (v x)) l ->
  exists n, Forall (fun x => validate n (schema x) (v x) = Some b) l.
Proof.
  induction 1 as [|x l [n Hn] _ [m Hm]]; [by exists 0|]. exists (Nat.max n m). constructor.
  - eapply decides_more; [|exact Hn]. lia.
  - eapply Forall_impl; [exact Hm|]. cbn. intros y. apply decides_more. lia.
Qed.

Lemma fuelled {A} n b (schema v : A -> Value) l :
  Forall (fun x => validate n (schema x) (v x) = Some b) l -> Forall (fun x => decides b (schema x) (v x)) l.
Proof. intros H. eapply Forall_impl; [exact H|]. cbn. intros x Hx. by exists n. Qed.

(** ** What validity and invalidity of an object schema are *)

Lemma governed_in s m schema x :
  (schema, x) ∈ governed s m <-> exists k, (k, x) ∈ m /\ member_schema s k = Some schema.
Proof.
  unfold governed. rewrite list_elem_of_omap. split.
  - intros ([k y] & Hin & E). cbn in E. destruct (member_schema s k) as [c|] eqn:Em; [|done].
    injection E as <- <-. by exists k.
  - intros (k & Hin & Em). exists (k, x). split; [done|]. cbn. by rewrite Em.
Qed.

Record holds (s : btree Value) (v : Value) : Prop := mkHolds {
  holds_plain : plain_ok s v = true;
  holds_target target : resolve s = Some target -> valid target v;
  holds_items l items : v = VArray l -> bt_get "items" s = Some items -> Forall (valid items) l;
  holds_members m : v = VObject m -> Forall (fun e => valid e.1 e.2) (governed s m);
  holds_all l : members s "allOf" = Some l -> Forall (fun c => valid c v) l;
  holds_any l : members s "anyOf" = Some l -> Exists (fun c => valid c v) l;
  holds_one l : members s "oneOf" = Some l ->
    exists l1 c l2, l = (l1 ++ c :: l2)%list /\ valid c v /\ Forall (fun c => invalid c v) (l1 ++ l2)%list;
}.

Lemma count_is_one o : option_map (fun n => n =? 1) o = Some true <-> o = Some 1.
Proof. destruct o as [n|]; cbn; [|done]. split; [by intros [= ->%eqb_eq]|by intros [= ->]]. Qed.

Lemma valid_holds s v : valid (VObject s) v -> holds s v.
Proof.
  intros [[|n] Hn]; [done|]. cbn [JsonSchema.validate] in Hn. apply kall_true in Hn.
  inversion_clear Hn as [|? ? H1 Hn1]. inversion_clear Hn1 as [|? ? H2 Hn2].
  inversion_clear Hn2 as [|? ? H3 Hn3]. inversion_clear Hn3 as [|? ? H4 Hn4].
  inversion_clear Hn4 as [|? ? H5 Hn5]. inversion_clear Hn5 as [|? ? H6 Hn6].
  inversion_clear Hn6 as [|? ? H7 _]. unfold id in *. constructor.
  - congruence.
  - intros target E. rewrite E in H2. by exists n.
  - intros l items -> E. rewrite E, kall_true in H3. by apply (fuelled n true (fun _ => items) id).
  - intros m ->. rewrite kall_true in H4. by apply (fuelled n true fst snd).
  - intros l E. rewrite E, kall_true in H5. by apply (fuelled n true id (fun _ => v)).
  - intros l E. rewrite E, kany_true in H6. eapply List.Exists_impl; [|exact H6]. intros c Hc. by exists n.
  - intros l E. rewrite E, count_is_one, kcount_one in H7. destruct H7 as (l1 & c & l2 & -> & Hc & Hl).
    exists l1, c, l2. split_and!; [done|by exists n|]. by apply (fuelled n false id (fun _ => v)).
Qed.

(** The largest of several amounts of fuel. *)
Lemma decided_within n b schema v : validate n schema v = Some b -> forall m, n <= m -> validate m schema v = Some b.
Proof. intros H m Hm. by eapply decides_more. Qed.

Lemma all_within {A} n b (schema v : A -> Value) l :
  Forall (fun x => validate n (schema x) (v x) = Some b) l ->
  forall m, n <= m -> Forall (fun x => validate m (schema x) (v x) = Some b) l.
Proof. intros H m Hm. eapply Forall_impl; [exact H|]. cbn. intros x. by apply decides_more. Qed.

(** A property that more fuel keeps: some amount has it. *)
Definition eventually (P : nat -> Prop) : Prop := exists n, forall m, n <= m -> P m.

Lemma eventually_true (P : nat -> Prop) : (forall n, P n) -> eventually P.
Proof. intros H. by exists 0. Qed.
Lemma eventually_and P Q : eventually P -> eventually Q -> eventually (fun n => P n /\ Q n).
Proof. intros [n Hn] [k Hk]. exists (Nat.max n k). intros m Hm. split; [apply Hn|apply Hk]; lia. Qed.
Lemma eventually_impl P Q : eventually P -> (forall n, P n -> Q n) -> eventually Q.
Proof. intros [n Hn] H. exists n. auto. Qed.
Lemma eventually_decides b schema v : decides b schema v -> eventually (fun n => validate n schema v = Some b).
Proof. intros [n Hn]. exists n. by apply decided_within. Qed.
Lemma eventually_all {A} b (schema v : A -> Value) l :
  Forall (fun x => decides b (schema x) (v x)) l ->
  eventually (fun n => Forall (fun x => validate n (schema x) (v x) = Some b) l).
Proof. intros [n Hn]%common_fuel. exists n. by apply all_within. Qed.

Lemma eventually_target b s v :
  (forall target, resolve s = Some target -> decides b target v) ->
  eventually (fun n => forall target, resolve s = Some target -> validate n target v = Some b).
Proof.
  intros H. destruct (resolve s) as [t|]; [|by apply eventually_true].
  eapply eventually_impl; [by apply eventually_decides, H|]. by intros n Hn ? [= <-].
Qed.

Lemma eventually_list {A} b (o : option (list A)) (schema v : A -> Value) :
  (forall l, o = Some l -> Forall (fun x => decides b (schema x) (v x)) l) ->
  eventually (fun n => forall l, o = Some l -> Forall (fun x => validate n (schema x) (v x) = Some b) l).
Proof.
  intros H. destruct o as [l|]; [|by apply eventually_true].
  eapply eventually_impl; [exact (eventually_all b schema v l (H _ eq_refl))|]. by intros n Hn ? [= <-].
Qed.

(** Validity from its parts. *)
Lemma holds_valid s v : holds s v -> valid (VObject s) v.
Proof.
  intros [H1 H2 H3 H4 H5 H6 H7].
  assert (E3 : eventually (fun n => forall l items, v = VArray l -> bt_get "items" s = Some items ->
                 Forall (fun x => validate n items x = Some true) l)).
  { destruct v as [| | | |l|]; try (by apply eventually_true). destruct (bt_get "items" s) as [items|];
      [|by apply eventually_true].
    eapply eventually_impl; [by apply (eventually_all true (fun _ => items) id), H3|]. by intros n Hn ? ? [= <-] [= <-]. }
  assert (E4 : eventually (fun n => forall m, v = VObject m ->
                 Forall (fun e => validate n e.1 e.2 = Some true) (governed s m))).
  { destruct v as [| | | | |m]; try (by apply eventually_true).
    eapply eventually_impl; [by apply (eventually_all true fst snd), H4|]. by intros n Hn ? [= <-]. }
  assert (E6 : eventually (fun n => forall l, members s "anyOf" = Some l ->
                 Exists (fun c => validate n c v = Some true) l)).
  { destruct (members s "anyOf") as [l|]; [|by apply eventually_true].
    destruct (proj1 (List.Exists_exists _ _) (H6 _ eq_refl)) as (c & Hin & Hc).
    eapply eventually_impl; [by apply eventually_decides, Hc|]. intros n Hn ? [= <-].
    apply List.Exists_exists. by exists c. }
  assert (E7 : eventually (fun n => forall l, members s "oneOf" = Some l ->
                 kcount (fun c => validate n c v) l = Some 1)).
  { destruct (members s "oneOf") as [l|]; [|by apply eventually_true].
    destruct (H7 _ eq_refl) as (l1 & c & l2 & -> & Hc & Hl).
    eapply eventually_impl; [eapply eventually_and; [by apply eventually_decides, Hc|
      by apply (eventually_all false id (fun _ => v)), Hl]|].
    intros n [Hn Hn'] ? [= <-]. apply kcount_one. by exists l1, c, l2. }
  destruct (eventually_and _ _ (eventually_target true s v H2) (eventually_and _ _ E3 (eventually_and _ _ E4
    (eventually_and _ _ (eventually_list true (members s "allOf") id (fun _ => v) H5)
      (eventually_and _ _ E6 E7))))) as [n Hn].
  destruct (Hn n (le_n n)) as (F2 & F3 & F4 & F5 & F6 & F7). exists (S n). cbn [JsonSchema.validate].
  apply kall_true. repeat apply Forall_cons_2; [by rewrite H1|..|done].
  - destruct (resolve s); [by apply F2|done].
  - destruct v; try done. destruct (bt_get "items" s); [|done]. apply kall_true. by eapply F3.
  - destruct v; try done. apply kall_true. by eapply F4.
  - destruct (members s "allOf"); [|done]. apply kall_true. by apply F5.
  - destruct (members s "anyOf"); [|done]. apply kany_true. by apply F6.
  - destruct (members s "oneOf"); [|done]. by rewrite F7.
Qed.

(** Ways to be invalid. *)
Lemma invalid_part n s v answer :
  In answer (parts keyword document (validate n) s v) -> answer = Some false -> invalid (VObject s) v.
Proof.
  intros Hin ->. exists (S n). cbn [JsonSchema.validate]. apply kall_false, List.Exists_exists.
  by exists (Some false).
Qed.

Lemma invalid_plain s v : plain_ok s v = false -> invalid (VObject s) v.
Proof. intros H. eapply (invalid_part 0); [left; reflexivity|]. by rewrite H. Qed.

Lemma invalid_target s v target : resolve s = Some target -> invalid target v -> invalid (VObject s) v.
Proof. intros E [n Hn]. eapply (invalid_part n); [right; left; reflexivity|]. by rewrite E. Qed.

Lemma invalid_member s m schema x :
  (schema, x) ∈ governed s m -> invalid schema x -> invalid (VObject s) (VObject m).
Proof.
  intros Hin [n Hn]. eapply (invalid_part n); [do 3 right; left; reflexivity|].
  apply kall_false, List.Exists_exists. exists (schema, x). by rewrite <- list_elem_of_In.
Qed.

Lemma invalid_all s v l c : members s "allOf" = Some l -> c ∈ l -> invalid c v -> invalid (VObject s) v.
Proof.
  intros E Hin [n Hn]. eapply (invalid_part n); [do 4 right; left; reflexivity|]. rewrite E.
  apply kall_false, List.Exists_exists. exists c. by rewrite <- list_elem_of_In.
Qed.

Lemma invalid_any s v l : members s "anyOf" = Some l -> Forall (fun c => invalid c v) l -> invalid (VObject s) v.
Proof.
  intros E [n Hn]%(common_fuel false id (fun _ => v)).
  eapply (invalid_part n); [do 5 right; left; reflexivity|]. rewrite E. by apply kany_false.
Qed.

Lemma invalid_one s v l : members s "oneOf" = Some l -> Forall (fun c => invalid c v) l -> invalid (VObject s) v.
Proof.
  intros E [n Hn]%(common_fuel false id (fun _ => v)).
  eapply (invalid_part n); [do 6 right; left; reflexivity|]. rewrite E.
  apply kcount_zero in Hn. unfold id in Hn. by rewrite Hn.
Qed.
End Facts.
