(* ===== verification/FloatOrder.v ===== *)
(** Numbers and the binary64 the code compares them by: which numbers are one,
    and that on those the order of binary64 is the order of the numbers. *)

From Stdlib Require Import String ZArith Lia List Bool.
From Stdlib Require Import Floats.SpecFloat.
From stdpp Require Import base option list strings.
From S2P Require Import Prelude Strings Btree Json JsonOps JsonEq JsonSchema.

Open Scope cf_scope.
Local Open Scope Z_scope.

(** ** The exact order *)

Lemma compare_scaled k a b :
  k <= exponent a -> k <= exponent b -> exact_compare a b = (scaled k a ?= scaled k b).
Proof.
  intros Ha Hb. unfold exact_compare. set (j := Z.min (exponent a) (exponent b)).
  assert (Hs : forall n, j <= exponent n -> scaled k n = scaled j n * 2 ^ (j - k)).
  { intros n Hn. unfold scaled. rewrite <- Z.mul_assoc, <- Z.pow_add_r by lia. do 2 f_equal. lia. }
  rewrite !Hs by lia. apply Zmult_compare_compat_r. apply Z.lt_gt, Z.pow_pos_nonneg; lia.
Qed.

(** Decide a goal about the order of up to three numbers on one scale. *)
Ltac by_scale a b c :=
  unfold number_lt, number_le in *;
  rewrite ?(compare_scaled (Z.min (exponent a) (Z.min (exponent b) (exponent c)))) in * by lia;
  repeat match goal with
  | |- context [Z.compare ?x ?y] => destruct (Z.compare_spec x y)
  | H : context [Z.compare ?x ?y] |- _ => destruct (Z.compare_spec x y)
  end; try done; try (exfalso; lia).

Lemma compare_opp a b : (- a ?= - b) = CompOpp (a ?= b).
Proof. rewrite Z.compare_opp. apply Z.compare_antisym. Qed.

Lemma number_le_trans a b c : number_le a b = true -> number_le b c = true -> number_le a c = true.
Proof. intros. by_scale a b c. Qed.

(** ** Binary64 *)

(** A finite binary64 as IEEE 754 has it. *)
Definition canonical_float (f : finite_f64) : bool :=
  match f with FZero _ => true | FFinite _ m e => bounded 53 1024 m e end.
Lemma digits_bound m : Z.pos m < 2 ^ Z.pos (digits2_pos m) /\ 2 ^ (Z.pos (digits2_pos m) - 1) <= Z.pos m.
Proof.
  induction m as [m IH|m IH|]; cbn [digits2_pos]; [| |done].
  - rewrite Pos2Z.inj_succ, Z.pow_succ_r by lia. replace (Z.succ (Z.pos (digits2_pos m)) - 1)
      with (Z.succ (Z.pos (digits2_pos m) - 1)) by lia. rewrite Z.pow_succ_r by lia. lia.
  - rewrite Pos2Z.inj_succ, Z.pow_succ_r by lia. replace (Z.succ (Z.pos (digits2_pos m)) - 1)
      with (Z.succ (Z.pos (digits2_pos m) - 1)) by lia. rewrite Z.pow_succ_r by lia. lia.
Qed.

(** Normal numbers have 53 digits, the others the least exponent. *)
Lemma bounded_cases m e : bounded 53 1024 m e = true ->
  Z.pos m < 2 ^ 53 /\ -1074 <= e <= 971 /\ (2 ^ 52 <= Z.pos m \/ e = -1074).
Proof.
  unfold bounded, canonical_mantissa, fexp, emin. intros [H1%Z.eqb_eq H2%Z.leb_le]%andb_true_iff.
  destruct (digits_bound m) as [B1 B2]. set (d := Z.pos (digits2_pos m)) in *.
  assert (Hd : d <= 53) by lia. split.
  - eapply Z.lt_le_trans; [exact B1|]. by apply Z.pow_le_mono_r.
  - split; [lia|]. destruct (Z.eq_dec d 53) as [E|E]; [|right; lia]. left. rewrite E in B2. exact B2.
Qed.


(** The number a finite binary64 is. *)
Definition f64_value (f : f64) : Number :=
  match f with
  | S754_zero s => Float (FZero s)
  | S754_finite s m e => Float (FFinite s m e)
  | _ => Float (FZero false)
  end.
Definition proper (f : f64) : bool :=
  match f with S754_zero _ => true | S754_finite _ m e => bounded 53 1024 m e | _ => false end.

(** Is the number one of the finite binary64? Reading it as one then keeps its
    value. *)
Definition representable (n : Number) : bool :=
  proper (number_f64 n)
  && match exact_compare n (f64_value (number_f64 n)) with Eq => true | _ => false end.

(** The exponents of finite binary64 order their values. *)
Lemma finite_compare m e m' e' :
  bounded 53 1024 m e = true -> bounded 53 1024 m' e' = true ->
  match e ?= e' with Eq => Z.pos m ?= Z.pos m' | c => c end =
    (Z.pos m * 2 ^ (e - Z.min e e') ?= Z.pos m' * 2 ^ (e' - Z.min e e')).
Proof.
  intros (Hm & He & Hc)%bounded_cases (Hm' & He' & Hc')%bounded_cases.
  assert (Hlt : forall a b x y, a < 2 ^ 53 -> 2 ^ 52 <= b -> x < y -> a * 2 ^ (x - x) < b * 2 ^ (y - x)).
  { intros a b x y Ha Hb Hxy. rewrite Z.sub_diag, Z.mul_1_r.
    assert (2 ^ 1 <= 2 ^ (y - x)) by (apply Z.pow_le_mono_r; lia). nia. }
  destruct (Z.compare_spec e e') as [->|Hee|Hee].
  - by rewrite Z.min_id, Z.sub_diag, !Z.mul_1_r.
  - rewrite Z.min_l by lia. symmetry. apply Z.compare_lt_iff. apply Hlt; lia.
  - rewrite Z.min_r by lia. symmetry. apply Z.compare_gt_iff. apply Hlt; lia.
Qed.

Lemma SFcompare_exact f g :
  proper f = true -> proper g = true -> SFcompare f g = Some (exact_compare (f64_value f) (f64_value g)).
Proof.
  assert (Hpos : forall m k, 0 <= k -> 0 < Z.pos m * 2 ^ k).
  { intros m k Hk. apply Z.mul_pos_pos; [lia|]. by apply Z.pow_pos_nonneg. }
  destruct f as [s|s| |s m e], g as [s'|s'| |s' m' e']; try done; cbn [proper f64_value]; intros Hf Hg;
    unfold exact_compare, scaled; cbn [mantissa exponent SFcompare]; f_equal.
  - symmetry. destruct s'; [apply Z.compare_gt_iff|apply Z.compare_lt_iff];
      specialize (Hpos m' (e' - Z.min 0 e')); lia.
  - symmetry. destruct s; [apply Z.compare_lt_iff|apply Z.compare_gt_iff];
      specialize (Hpos m (e - Z.min e 0)); lia.
  - pose proof (finite_compare _ _ _ _ Hf Hg) as H.
    pose proof (Hpos m (e - Z.min e e') ltac:(lia)). pose proof (Hpos m' (e' - Z.min e e') ltac:(lia)).
    destruct s, s'.
    + change (Z.neg m) with (- Z.pos m). change (Z.neg m') with (- Z.pos m'). rewrite !Z.mul_opp_l, compare_opp, <- H.
      by destruct (e ?= e').
    + symmetry. apply Z.compare_lt_iff. lia.
    + symmetry. apply Z.compare_gt_iff. lia.
    + rewrite <- H. by destruct (e ?= e').
Qed.

Lemma SFltb_exact f g : proper f = true -> proper g = true -> SFltb f g = number_lt (f64_value f) (f64_value g).
Proof. intros Hf Hg. unfold SFltb, number_lt. by rewrite SFcompare_exact. Qed.
Lemma SFleb_exact f g : proper f = true -> proper g = true -> SFleb f g = number_le (f64_value f) (f64_value g).
Proof. intros Hf Hg. unfold SFleb, number_le. rewrite SFcompare_exact by done. by destruct (exact_compare _ _). Qed.

Lemma representable_proper n : representable n = true -> proper (number_f64 n) = true.
Proof. by intros [? _]%andb_true_iff. Qed.

(** A representable number may be replaced by its reading. *)
Lemma representable_same n x : representable n = true ->
  exact_compare (f64_value (number_f64 n)) x = exact_compare n x /\
  exact_compare x (f64_value (number_f64 n)) = exact_compare x n.
Proof.
  intros [_ H]%andb_true_iff. set (y := f64_value (number_f64 n)) in *. split; by_scale n y x.
Qed.

Lemma representable_lt n m : representable n = true -> representable m = true ->
  SFltb (number_f64 n) (number_f64 m) = number_lt n m.
Proof.
  intros Hn Hm. rewrite SFltb_exact by (by apply representable_proper). unfold number_lt.
  by rewrite (proj1 (representable_same _ _ Hn)), (proj2 (representable_same _ _ Hm)).
Qed.
Lemma representable_le n m : representable n = true -> representable m = true ->
  SFleb (number_f64 n) (number_f64 m) = number_le n m.
Proof.
  intros Hn Hm. rewrite SFleb_exact by (by apply representable_proper). unfold number_le.
  by rewrite (proj1 (representable_same _ _ Hn)), (proj2 (representable_same _ _ Hm)).
Qed.

(** ** The numbers of a schema and of a body *)

(** The numbers of a value are binary64. *)
Fixpoint exact_numbers (v : Value) : bool :=
  match v with
  | VNumber n => representable n
  | VArray l => forallb exact_numbers l
  | VObject m => forallb (fun e => exact_numbers (snd e)) m
  | _ => true
  end.

Definition limit_keywords : list string := ["minimum"; "maximum"; "exclusiveMinimum"; "exclusiveMaximum"]%string.
Definition exact_limit (key : string) (v : Value) : bool :=
  match v with VNumber n => negb (contains limit_keywords key) || representable n | _ => true end.

(** The numeric limits of a schema, at every level, are binary64. *)
Fixpoint exact_limits (v : Value) : bool :=
  match v with
  | VArray l => forallb exact_limits l
  | VObject m => forallb (fun e => exact_limit (fst e) (snd e) && exact_limits (snd e)) m
  | _ => true
  end.

Lemma exact_limits_member m k v : exact_limits (VObject m) = true -> bt_get k m = Some v ->
  exact_limit k v = true /\ exact_limits v = true.
Proof.
  cbn [exact_limits]. rewrite forallb_forall. intros H Hk%bt_get_in. by apply H, andb_true_iff in Hk.
Qed.

Lemma exact_limits_element l v : exact_limits (VArray l) = true -> In v l -> exact_limits v = true.
Proof. cbn [exact_limits]. rewrite forallb_forall. auto. Qed.

Lemma exact_members s key l c :
  exact_limits (VObject s) = true -> members s key = Some l -> In c l -> exact_limits c = true.
Proof.
  unfold members. intros Hs Hl. destruct (bt_get key s) as [[| | | |l'|]|] eqn:E; try done. injection Hl as <-.
  apply (exact_limits_member _ _ _ Hs) in E as [_ E]. by apply exact_limits_element.
Qed.

Lemma exact_limits_pointer p v t : exact_limits v = true -> vpointer p v = Some t -> exact_limits t = true.
Proof.
  unfold vpointer. destruct (is_empty p); [congruence|]. destruct (negb _); [done|].
  intros Hv. assert (H : forall o, is_none_or o exact_limits = true ->
    forall tokens, is_none_or (fold_left (fun target token => obind target (fun t => pointer_step t (unescape token))) tokens o)
      exact_limits = true).
  { intros o Ho tokens. revert o Ho. induction tokens as [|token tokens IH]; intros o Ho; [done|]. apply IH.
    destruct o as [w|]; [|done]. cbn [obind is_none_or] in *. destruct w as [| | | |l|m]; try done; cbn [pointer_step].
    - destruct (parse_index _) as [i|]; [|done]. cbn [obind].
      destruct (l !! Z.to_nat i) as [x|] eqn:E; [|done]. apply (exact_limits_element l); [done|].
      by eapply list_elem_of_In, list_elem_of_lookup_2.
    - cbn [vget]. destruct (bt_get _ m) as [x|] eqn:E; [|done]. by eapply exact_limits_member. }
  intros Hp. set (tokens := tail _) in Hp. pose proof (H (Some v) Hv tokens) as Ht. by rewrite Hp in Ht.
Qed.

Lemma exact_numbers_element l : exact_numbers (VArray l) = true -> Forall (fun v => exact_numbers v = true) l.
Proof. cbn [exact_numbers]. by rewrite forallb_forall, List.Forall_forall. Qed.

Lemma exact_numbers_member m : exact_numbers (VObject m) = true -> Forall (fun e => exact_numbers e.2 = true) m.
Proof. cbn [exact_numbers]. by rewrite forallb_forall, List.Forall_forall. Qed.
