(* ===== verification/SchemaInclusion.v ===== *)
(** The comparison of a provider's request schema with a curated one
    (cfctl-catalog/src/lib.rs, [access_application_source_request_body_compatible]
    and what it calls): does the source schema of the OpenAPI document accept
    whatever the curated schema allows? The search is bounded in depth, follows
    local references, and proves the other branches of a [oneOf] disjoint. *)

From Stdlib Require Import String Ascii ZArith Lia List Bool.
From Stdlib Require Import Floats.SpecFloat.
From stdpp Require Import base option list strings.
From S2P Require Import Prelude Strings Btree StringSet Json JsonOps JsonEq JsonSchema.

Open Scope cf_scope.
Open Scope string_scope.
Open Scope cf_scope.

Definition MAX_ACCESS_SOURCE_SCHEMA_DEPTH : nat := 32.

(** ** Keywords of one schema *)

Definition annotation_keywords : list string :=
  ["$comment"; "default"; "deprecated"; "description"; "discriminator"; "example"; "examples";
   "externalDocs"; "readOnly"; "title"; "writeOnly"; "xml"].
Definition access_source_annotation_keyword (key : string) : bool :=
  starts_with key "x-" || contains annotation_keywords key.

Definition supported_keywords : list string :=
  ["type"; "enum"; "const"; "format"; "pattern"; "nullable"; "minimum"; "maximum";
   "exclusiveMinimum"; "exclusiveMaximum"; "multipleOf"; "minLength"; "maxLength"; "minItems";
   "maxItems"; "uniqueItems"; "items"; "minProperties"; "maxProperties"; "required"; "properties";
   "additionalProperties"; "allOf"; "oneOf"; "anyOf"].
Definition access_source_schema_uses_supported_keywords (source : btree Value) : bool :=
  forallb (fun key => access_source_annotation_keyword key || contains supported_keywords key)
    (bt_keys source).

Definition access_source_reference_target (document : Value) (source : btree Value)
    : result unit (option (string * Value)) :=
  match bt_get "$ref" source with
  | None => Ok None
  | Some reference =>
      guard (existsb (fun key => (key <>? "$ref") && negb (access_source_annotation_keyword key))
               (bt_keys source)) tt (
      let? reference := ok_or tt (as_str reference) in
      let? pointer := ok_or tt (strip_prefix "#" reference) in
      guard (negb (starts_with pointer "/")) tt (
      let? target := ok_or tt (vpointer pointer document) in
      Ok (Some (reference, target))))
  end.

Definition schema_composition_members (schema : btree Value) (key : string)
    : result unit (option (list Value)) :=
  match bt_get key schema with
  | None => Ok None
  | Some value => let? members := ok_or tt (as_array value) in Ok (Some members)
  end.

Definition direct_keywords : list string :=
  ["type"; "enum"; "const"; "format"; "pattern"; "nullable"; "minimum"; "maximum";
   "exclusiveMinimum"; "exclusiveMaximum"; "multipleOf"; "minLength"; "maxLength"; "minItems";
   "maxItems"; "uniqueItems"; "minProperties"; "maxProperties"; "required"; "properties";
   "additionalProperties"; "items"].
Definition has_any (keys : list string) (schema : btree Value) : bool :=
  existsb (fun key => is_someb (bt_get key schema)) keys.
Definition schema_has_direct_constraints (schema : btree Value) : bool := has_any direct_keywords schema.

Definition schema_possible_types (schema : btree Value) : result unit (option str_set) :=
  let? types :=
    match bt_get "type" schema with
    | None => Ok None
    | Some (VString value) => Ok (Some (set_of [value]))
    | Some (VArray values) =>
        if is_nil values then Err tt
        else let? types := ok_or tt (all_strings values) in Ok (Some (set_of types))
    | Some _ => Err tt
    end in
  match bt_get "nullable" schema with
  | None => Ok types
  | Some nullable =>
      let? nullable := ok_or tt (as_bool nullable) in
      Ok (if nullable then option_map (bt_insert "null" tt) types else types)
  end.

Definition schema_may_include_type (types : option str_set) (expected : string) : bool :=
  is_none_or types (set_has expected).

Definition vcontains (values : list Value) (v : Value) : bool := existsb (fun w => Value_eqb w v) values.

Definition schema_finite_values (schema : btree Value) : result unit (option (list Value)) :=
  let? enumeration :=
    match bt_get "enum" schema with
    | None => Ok None
    | Some value =>
        match as_array value with
        | Some (v :: l) => Ok (Some (v :: l))
        | _ => Err tt
        end
    end in
  match bt_get "const" schema with
  | Some constant =>
      guard (is_some_and enumeration (fun values => negb (vcontains values constant))) tt
        (Ok (Some [constant]))
  | None => Ok enumeration
  end.

Definition json_schema_type_sets_overlap (left right : str_set) : bool :=
  existsb (fun l => existsb (fun r =>
    (l =? r) || ((l =? "number") && (r =? "integer")) || ((l =? "integer") && (r =? "number")))
    (bt_keys right)) (bt_keys left).

(** ** One keyword against the same one *)

Definition source_exact_constraint_accepts_curated (source curated : btree Value) (key : string) : bool :=
  is_none_or (bt_get key source) (fun v => option_eqb Value_eqb (bt_get key curated) (Some v)).

Definition source_minimum_u64_accepts_curated (source curated : btree Value) (key : string) : bool :=
  match bt_get key source with
  | None => true
  | Some source_minimum =>
      match as_u64 source_minimum with
      | None => false
      | Some source_minimum =>
          is_some_and (obind (bt_get key curated) as_u64) (fun c => (source_minimum <=? c)%Z)
          || (source_minimum =? 0)%Z
      end
  end.

Definition source_maximum_u64_accepts_curated (source curated : btree Value) (key : string) : bool :=
  match bt_get key source with
  | None => true
  | Some source_maximum =>
      match as_u64 source_maximum with
      | None => false
      | Some source_maximum =>
          is_some_and (obind (bt_get key curated) as_u64) (fun c => (c <=? source_maximum)%Z)
      end
  end.

(** A numeric bound and whether it is exclusive. *)
Definition bound : Type := f64 * bool.

Definition stricter_numeric_bound (stricter : f64 -> f64 -> bool) (left right : option bound) : option bound :=
  match left, right with
  | None, bound | bound, None => bound
  | Some (l, l_exclusive), Some (r, r_exclusive) =>
      if stricter l r then Some (l, l_exclusive)
      else if stricter r l then Some (r, r_exclusive)
      else Some (l, l_exclusive || r_exclusive)
  end.
Definition stricter_numeric_lower_bound : option bound -> option bound -> option bound :=
  stricter_numeric_bound (fun a b => SFltb b a).
Definition stricter_numeric_upper_bound : option bound -> option bound -> option bound :=
  stricter_numeric_bound (fun a b => SFltb a b).

(** [schema_numeric_lower_bound] and [.._upper_bound], by keyword. *)
Definition numeric_limit (key : string) (schema : btree Value) : result unit (option f64) :=
  match bt_get key schema with
  | None => Ok None
  | Some value => let? limit := ok_or tt (as_f64 value) in Ok (Some limit)
  end.
Definition exclusive_limit (key : string) (limit : option f64) (schema : btree Value)
    : result unit (option bound) :=
  match bt_get key schema with
  | None | Some (VBool false) => Ok None
  | Some (VBool true) => let? limit := ok_or tt limit in Ok (Some (limit, true))
  | Some value => let? limit := ok_or tt (as_f64 value) in Ok (Some (limit, true))
  end.
Definition schema_numeric_lower_bound (schema : btree Value) : result unit (option bound) :=
  let? minimum := numeric_limit "minimum" schema in
  let? exclusive := exclusive_limit "exclusiveMinimum" minimum schema in
  Ok (stricter_numeric_lower_bound (option_map (fun m => (m, false)) minimum) exclusive).
Definition schema_numeric_upper_bound (schema : btree Value) : result unit (option bound) :=
  let? maximum := numeric_limit "maximum" schema in
  let? exclusive := exclusive_limit "exclusiveMaximum" maximum schema in
  Ok (stricter_numeric_upper_bound (option_map (fun m => (m, false)) maximum) exclusive).

Definition bound_accepts (wanted : comparison) (source curated : option bound) : bool :=
  is_none_or source (fun s => is_some_and curated (fun c =>
    match SFcompare (fst c) (fst s) with
    | Some Eq => negb (snd s) || snd c
    | Some ordering => match wanted, ordering with Gt, Gt | Lt, Lt => true | _, _ => false end
    | None => false
    end)).
Definition source_numeric_lower_bound_accepts_curated (source curated : btree Value) : bool :=
  match schema_numeric_lower_bound source, schema_numeric_lower_bound curated with
  | Ok source, Ok curated => bound_accepts Gt source curated
  | _, _ => false
  end.
Definition source_numeric_upper_bound_accepts_curated (source curated : btree Value) : bool :=
  match schema_numeric_upper_bound source, schema_numeric_upper_bound curated with
  | Ok source, Ok curated => bound_accepts Lt source curated
  | _, _ => false
  end.

Definition schema_required_fields (schema : btree Value) : result unit str_set :=
  match bt_get "required" schema with
  | None => Ok (set_of [])
  | Some required =>
      let? fields := ok_or tt (as_array required) in
      let? names := ok_or tt (all_strings fields) in
      Ok (set_of names)
  end.

Inductive SchemaAllowance : Type :=
| Any
| Forbidden
| Schema (value : Value).

Definition schema_allowance (value : option Value) : result unit SchemaAllowance :=
  match value with
  | None | Some (VBool true) => Ok Any
  | Some (VBool false) => Ok Forbidden
  | Some (VObject o) => Ok (Schema (VObject o))
  | Some _ => Err tt
  end.

(** [match schema.get("properties") { None => None, Some(Object(p)) => Some(p), _ => return false }] *)
Definition schema_properties (schema : btree Value) : result unit (option (btree Value)) :=
  match bt_get "properties" schema with
  | None => Ok None
  | Some (VObject properties) => Ok (Some properties)
  | Some _ => Err tt
  end.

(** [properties.and_then(|p| p.get(field)).map_or(additional, SchemaAllowance::Schema)] *)
Definition property_allowance (properties : option (btree Value)) (additional : SchemaAllowance)
    (field : string) : SchemaAllowance :=
  match obind properties (bt_get field) with Some schema => Schema schema | None => additional end.

(** ** Fields the source declares

    [levels] is what is left of the depth. Every call takes a reference out of
    [active_references] again before it returns, so the set is an argument. *)

Fixpoint source_schema_declares_top_level_field (document : Value) (field : string) (levels : nat)
    (active_references : str_set) (source_schema : Value) : bool :=
  match levels with
  | O => false
  | S levels =>
      let declares := source_schema_declares_top_level_field document field levels in
      match as_object source_schema with
      | None => false
      | Some source =>
          match access_source_reference_target document source with
          | Err _ => false
          | Ok (Some (reference, target)) =>
              negb (set_has reference active_references)
              && declares (bt_insert reference tt active_references) target
          | Ok None =>
              access_source_schema_uses_supported_keywords source
              && (is_some_and (obind (bt_get "properties" source) as_object)
                    (fun properties => is_someb (bt_get field properties))
                  || existsb (fun composition =>
                       is_some_and (obind (bt_get composition source) as_array) (fun members =>
                         negb (is_nil members) && existsb (declares active_references) members))
                       ["allOf"; "oneOf"; "anyOf"])
          end
      end
  end.

(** ** Disjointness *)

Definition scalar_constraints_are_well_formed (source curated : btree Value) : bool :=
  is_ok (schema_possible_types source) && is_ok (schema_possible_types curated)
  && is_ok (schema_finite_values source) && is_ok (schema_finite_values curated).

Definition scalar_constraints_prove_disjoint (source curated : btree Value) : bool :=
  match schema_possible_types source, schema_possible_types curated with
  | Ok source_types, Ok curated_types =>
      if match source_types, curated_types with
         | Some s, Some c => negb (json_schema_type_sets_overlap s c)
         | _, _ => false
         end
      then true
      else
        match schema_finite_values source, schema_finite_values curated with
        | Ok (Some source_values), Ok (Some curated_values) =>
            forallb (fun v => negb (vcontains curated_values v)) source_values
        | _, _ => false
        end
  | _, _ => false
  end.

Definition source_union_composition_is_empty (source : btree Value) : bool :=
  existsb (fun composition =>
    match schema_composition_members source composition with Ok (Some []) => true | _ => false end)
    ["oneOf"; "anyOf"].

Section Disjoint.
(** [source_schema_is_provably_disjoint] one level deeper. *)
Context (disjoint : Value -> Value -> bool).

Fixpoint union_compositions_prove_disjoint (compositions : list string) (source_schema : Value)
    (curated : btree Value) : bool :=
  match compositions with
  | [] => false
  | composition :: compositions =>
      match bt_get composition curated with
      | Some members =>
          match as_array members with
          | Some (m :: l) => forallb (disjoint source_schema) (m :: l)
          | _ => false
          end
      | None => union_compositions_prove_disjoint compositions source_schema curated
      end
  end.
Definition curated_union_compositions_prove_disjoint : Value -> btree Value -> bool :=
  union_compositions_prove_disjoint ["oneOf"; "anyOf"].

Definition curated_all_of_proves_disjoint (source_schema : Value) (members : list Value) : bool :=
  existsb (disjoint source_schema) members.

Definition source_compositions_prove_disjoint (source : btree Value) (curated_schema : Value) : bool :=
  match schema_composition_members source "allOf" with
  | Ok (Some members) =>
      negb (is_nil members) && existsb (fun member => disjoint member curated_schema) members
  | _ => false
  end
  || existsb (fun composition =>
       match schema_composition_members source composition with
       | Ok (Some members) => forallb (fun member => disjoint member curated_schema) members
       | _ => false
       end) ["oneOf"; "anyOf"].

Definition allowances_disjoint (source curated : SchemaAllowance) : bool :=
  match source, curated with
  | Schema source, Schema curated => disjoint source curated
  | _, _ => false
  end.

Definition required_object_property_proves_disjoint (source curated : btree Value) : bool :=
  match schema_possible_types curated with
  | Err _ => false
  | Ok curated_types =>
      if negb (is_some_and curated_types (fun types => types =? set_of ["object"])) then false
      else
        match schema_required_fields source, schema_required_fields curated with
        | Ok source_required, Ok curated_required =>
            match schema_properties source, schema_properties curated with
            | Ok source_properties, Ok curated_properties =>
                match schema_allowance (bt_get "additionalProperties" source),
                      schema_allowance (bt_get "additionalProperties" curated) with
                | Ok source_additional, Ok curated_additional =>
                    existsb (fun field =>
                      let s := property_allowance source_properties source_additional field in
                      let c := property_allowance curated_properties curated_additional field in
                      match s, c with
                      | Forbidden, _ | _, Forbidden => true
                      | _, _ => allowances_disjoint s c
                      end) (bt_keys source_required)
                    || existsb (fun field =>
                      let s := property_allowance source_properties source_additional field in
                      let c := property_allowance curated_properties curated_additional field in
                      match s, c with
                      | Forbidden, Schema _ => true
                      | _, _ => allowances_disjoint s c
                      end) (bt_keys curated_required)
                | _, _ => false
                end
            | _, _ => false
            end
        | _, _ => false
        end
  end.
End Disjoint.

Fixpoint source_schema_is_provably_disjoint (document : Value) (levels : nat)
    (active_references : str_set) (source_schema curated_schema : Value) : bool :=
  match levels with
  | O => false
  | S levels =>
      let disjoint := source_schema_is_provably_disjoint document levels in
      match as_object source_schema with
      | None => false
      | Some source =>
          match access_source_reference_target document source with
          | Err _ => false
          | Ok (Some (reference, target)) =>
              negb (set_has reference active_references)
              && disjoint (bt_insert reference tt active_references) target curated_schema
          | Ok None =>
              if negb (access_source_schema_uses_supported_keywords source) then false
              else
                match as_object curated_schema with
                | None => false
                | Some curated =>
                    let disjoint := disjoint active_references in
                    if has_any ["oneOf"; "anyOf"] curated
                    then curated_union_compositions_prove_disjoint disjoint source_schema curated
                    else
                      let rest :=
                        scalar_constraints_are_well_formed source curated
                        && (scalar_constraints_prove_disjoint source curated
                            || negb (source_union_composition_is_empty source)
                               && (source_compositions_prove_disjoint disjoint source curated_schema
                                   || required_object_property_proves_disjoint disjoint source curated)) in
                      match bt_get "allOf" curated with
                      | None => rest
                      | Some members =>
                          match as_array members with
                          | Some (m :: l) =>
                              curated_all_of_proves_disjoint disjoint source_schema (m :: l) || rest
                          | _ => false
                          end
                      end
                end
          end
      end
  end.

(** ** Acceptance *)

Section Accepts.
(** [source_schema_accepts_curated] and [source_schema_is_provably_disjoint]
    one level deeper. *)
Context (accepts disjoint : Value -> Value -> bool).

Definition source_allowance_accepts_curated (source curated : SchemaAllowance) : bool :=
  match source, curated with
  | Any, _ | _, Forbidden => true
  | Forbidden, _ | Schema _, Any => false
  | Schema source, Schema curated => accepts source curated
  end.

Definition source_array_constraints_accept_curated (source curated : btree Value) : bool :=
  source_minimum_u64_accepts_curated source curated "minItems"
  && source_maximum_u64_accepts_curated source curated "maxItems"
  && (if obind (bt_get "maxItems" curated) as_u64 =? Some 0%Z then true
      else
        match bt_get "uniqueItems" source with
        | None => true
        | Some unique =>
            match as_bool unique with
            | None => false
            | Some unique =>
                negb (unique && (obind (bt_get "uniqueItems" curated) as_bool <>? Some true))
            end
        end
        && match bt_get "items" source with
           | None | Some (VBool true) => true
           | Some (VBool false) => false
           | Some (VObject items) =>
               match bt_get "items" curated with
               | Some (VObject curated_items) => accepts (VObject items) (VObject curated_items)
               | _ => false
               end
           | Some _ => false
           end).

Definition source_object_constraints_accept_curated (source curated : btree Value) : bool :=
  source_minimum_u64_accepts_curated source curated "minProperties"
  && source_maximum_u64_accepts_curated source curated "maxProperties"
  && match schema_required_fields source, schema_required_fields curated with
     | Ok source_required, Ok curated_required =>
         forallb (fun field => set_has field curated_required) (bt_keys source_required)
         && match schema_properties source, schema_properties curated with
            | Ok source_properties, Ok curated_properties =>
                match schema_allowance (bt_get "additionalProperties" source),
                      schema_allowance (bt_get "additionalProperties" curated) with
                | Ok source_additional, Ok curated_additional =>
                    negb (is_some_and curated_properties (existsb (fun e =>
                      negb (source_allowance_accepts_curated
                        (property_allowance source_properties source_additional (fst e))
                        (Schema (snd e))))))
                    && negb (is_some_and source_properties (existsb (fun e =>
                         is_none_or curated_properties (fun p => negb (is_someb (bt_get (fst e) p)))
                         && negb (source_allowance_accepts_curated (Schema (snd e)) curated_additional))))
                    && source_allowance_accepts_curated source_additional curated_additional
                | _, _ => false
                end
            | _, _ => false
            end
     | _, _ => false
     end.

Definition source_direct_constraints_accept_curated (source curated : btree Value) : bool :=
  match schema_possible_types source, schema_possible_types curated with
  | Ok source_types, Ok curated_types =>
      negb (is_some_and source_types (fun source_types =>
        is_none_or curated_types (fun curated_types => existsb (fun curated_type =>
          negb (set_has curated_type source_types
                || ((curated_type =? "integer") && set_has "number" source_types)))
          (bt_keys curated_types))))
      && match schema_finite_values source, schema_finite_values curated with
         | Ok source_values, Ok curated_values =>
             negb (is_some_and source_values (fun source_values =>
               is_none_or curated_values (existsb (fun v => negb (vcontains source_values v)))))
             && (negb (schema_may_include_type curated_types "string")
                 || (source_exact_constraint_accepts_curated source curated "format"
                     && source_exact_constraint_accepts_curated source curated "pattern"
                     && source_minimum_u64_accepts_curated source curated "minLength"
                     && source_maximum_u64_accepts_curated source curated "maxLength"))
             && (negb (schema_may_include_type curated_types "number"
                       || schema_may_include_type curated_types "integer")
                 || (source_numeric_lower_bound_accepts_curated source curated
                     && source_numeric_upper_bound_accepts_curated source curated
                     && source_exact_constraint_accepts_curated source curated "multipleOf"))
             && (negb (has_any ["minItems"; "maxItems"; "uniqueItems"; "items"] source
                       && schema_may_include_type curated_types "array")
                 || source_array_constraints_accept_curated source curated)
             && (negb (has_any ["minProperties"; "maxProperties"; "required"; "properties";
                                "additionalProperties"] source)
                 || negb (schema_may_include_type curated_types "object")
                 || source_object_constraints_accept_curated source curated)
         | _, _ => false
         end
  | _, _ => false
  end.

Definition curated_composition_is_accepted (source_schema : Value) (curated : btree Value)
    (members : list Value) : bool :=
  negb (is_nil members) && negb (schema_has_direct_constraints curated)
  && forallb (accepts source_schema) members.

(** The loop that looks for the one accepting member. *)
Fixpoint find_accepting (curated_schema : Value) (index : nat) (accepting_member : option nat)
    (members : list Value) : option (option nat) :=
  match members with
  | [] => Some accepting_member
  | member :: members =>
      if accepts member curated_schema
      then if is_someb accepting_member then None
           else find_accepting curated_schema (S index) (Some index) members
      else find_accepting curated_schema (S index) accepting_member members
  end.

Fixpoint others_disjoint (curated_schema : Value) (index accepting_member : nat) (members : list Value)
    : bool :=
  match members with
  | [] => true
  | member :: members =>
      ((index =? accepting_member) || disjoint member curated_schema)
      && others_disjoint curated_schema (S index) accepting_member members
  end.

Definition source_one_of_accepts_curated (members : list Value) (curated_schema : Value) : bool :=
  if is_nil members then false
  else
    match find_accepting curated_schema 0 None members with
    | Some (Some accepting_member) => others_disjoint curated_schema 0 accepting_member members
    | _ => false
    end.

Definition source_compositions_accept_curated (source : btree Value) (curated_schema : Value) : bool :=
  match schema_composition_members source "allOf" with
  | Err _ => false
  | Ok source_all_of =>
      negb (is_some_and source_all_of (fun members =>
        is_nil members || negb (forallb (fun member => accepts member curated_schema) members)))
      && match schema_composition_members source "oneOf", schema_composition_members source "anyOf" with
         | Ok (Some _), Ok (Some _) => false
         | Ok (Some members), Ok None => source_one_of_accepts_curated members curated_schema
         | Ok None, Ok source_any_of =>
             is_none_or source_any_of (fun members =>
               negb (is_nil members) && existsb (fun member => accepts member curated_schema) members)
         | _, _ => false
         end
  end.
End Accepts.

Fixpoint source_schema_accepts_curated (document : Value) (levels : nat)
    (active_references : str_set) (source_schema curated_schema : Value) : bool :=
  match levels with
  | O => false
  | S levels =>
      match as_object source_schema with
      | None => false
      | Some source =>
          match access_source_reference_target document source with
          | Err _ => false
          | Ok (Some (reference, target)) =>
              negb (set_has reference active_references)
              && source_schema_accepts_curated document levels
                   (bt_insert reference tt active_references) target curated_schema
          | Ok None =>
              if negb (access_source_schema_uses_supported_keywords source) then false
              else
                match as_object curated_schema with
                | None => false
                | Some curated =>
                    let accepts := source_schema_accepts_curated document levels active_references in
                    let disjoint := source_schema_is_provably_disjoint document levels active_references in
                    match schema_composition_members curated "oneOf",
                          schema_composition_members curated "anyOf" with
                    | Ok (Some _), Ok (Some _) => false
                    | Ok (Some members), Ok None | Ok None, Ok (Some members) =>
                        curated_composition_is_accepted accepts source_schema curated members
                    | Ok None, Ok None =>
                        if is_someb (bt_get "allOf" curated) then false
                        else source_direct_constraints_accept_curated accepts source curated
                             && source_compositions_accept_curated accepts disjoint source curated_schema
                    | _, _ => false
                    end
                end
          end
      end
  end.

Definition access_application_source_request_body_compatible (document source_schema curated_schema : Value)
    : bool :=
  match obind (vget "properties" curated_schema) as_object with
  | None => false
  | Some curated_properties =>
      forallb (fun field => source_schema_declares_top_level_field document field
                 MAX_ACCESS_SOURCE_SCHEMA_DEPTH [] source_schema) (bt_keys curated_properties)
      && source_schema_accepts_curated document MAX_ACCESS_SOURCE_SCHEMA_DEPTH [] source_schema curated_schema
  end.
