(* ===== verification/SchemaSoundness.v ===== *)
(** The comparison of the file SchemaInclusion is sound: a provider schema that
    accepts a curated one allows every value it allows, in the sense of the
    validator of the file JsonSchema, as long as the numeric limits are binary64;
    and schemas proved disjoint share no value. *)

From Stdlib Require Import String Ascii ZArith Lia List Bool.
From Stdlib Require Import Floats.SpecFloat.
From stdpp Require Import base option list strings.
From S2P Require Import Prelude Strings Btree StringSet Json JsonOps JsonEq JsonSchema FloatOrder SchemaInclusion.

Open Scope cf_scope.
Open Scope string_scope.
Open Scope cf_scope.

(** ** What the keyword comparisons are about *)

Lemma Ok_inj {E A} (a b : A) : @Ok E A a = Ok b -> a = b.
Proof. congruence. Qed.

Lemma possible_types_ok s o v :
  schema_possible_types s = Ok o ->
  type_ok s v = true <->
  match o with None => True | Some types => exists t, set_has t types = true /\ has_type v t = true end.
Proof.
  unfold schema_possible_types, type_ok. intros H.
  assert (Hnull : is_null v = true -> has_type v "null" = true) by (by destruct v).
  assert (Hset : forall names, existsb (has_type v) names = true <->
            exists t, set_has t (set_of names) = true /\ has_type v t = true).
  { intros names. rewrite existsb_exists. split; intros (t & Ht & Hv); exists t; split; try done; by apply set_of_has. }
  assert (Hn : forall names, existsb (has_type v) names = true \/ has_type v "null" = true <->
            exists t, set_has t (bt_insert "null" tt (set_of names)) = true /\ has_type v t = true).
  { intros names. rewrite Hset. unfold set_has at 2. split.
    - intros [(t & Ht & Hv)|Hv].
      + exists t. rewrite bt_get_insert. split; [|done]. by destruct (t =? "null").
      + exists "null". by rewrite bt_get_insert, eqb_refl.
    - intros (t & Ht & Hv). rewrite bt_get_insert in Ht. destruct (t =? "null") eqn:E.
      + apply eqb_eq in E as ->. by right.
      + left. by exists t. }
  assert (Hv : has_type v "null" = true -> is_null v = true).
  { by destruct v. }
  destruct (bt_get "type" s) as [[| | |t|l|]|]; cbn [res_bind obind names_of is_none_or] in *; try done.
  - destruct (bt_get "nullable" s) as [b|]; cbn [is_some_and res_bind ok_or] in *.
    + destruct b as [|[]| | | |]; cbn [as_bool ok_or res_bind option_map] in H; try done; apply Ok_inj in H as <-.
      * cbn [andb Value_eqb Bool.eqb option_map]. rewrite orb_true_iff, andb_true_r, <- Hn. intuition.
      * rewrite andb_false_r, orb_false_r. apply Hset.
    + injection H as <-. rewrite andb_false_r, orb_false_r. apply Hset.
  - destruct (is_nil l); [done|]. destruct (all_strings l) as [names|]; cbn [ok_or res_bind is_none_or] in *; [|done].
    destruct (bt_get "nullable" s) as [b|]; cbn [is_some_and res_bind ok_or] in *.
    + destruct b as [|[]| | | |]; cbn [as_bool ok_or res_bind option_map] in H; try done; apply Ok_inj in H as <-.
      * cbn [andb Value_eqb Bool.eqb option_map]. rewrite orb_true_iff, andb_true_r, <- Hn. intuition.
      * rewrite andb_false_r, orb_false_r. apply Hset.
    + injection H as <-. rewrite andb_false_r, orb_false_r. apply Hset.
  - destruct (bt_get "nullable" s) as [b|]; cbn [res_bind ok_or] in H; [|by injection H as <-].
    destruct (as_bool b) as [[]|]; cbn in H; try done; by injection H as <-.
Qed.

Lemma vcontains_true l v : vcontains l v = true <-> exists w, In w l /\ w =j v.
Proof. apply existsb_exists. Qed.

Lemma among_iff l v : existsb (Value_eqb v) l = true <-> vcontains l v = true.
Proof.
  rewrite vcontains_true, existsb_exists. split; intros (w & Hin & Hw); exists w; (split; [done|]);
    [change (w =j v)|change (v =j w)]; by symmetry.
Qed.

Lemma finite_values_ok s o v :
  schema_finite_values s = Ok o ->
  enum_ok s v && const_ok s v = true <-> is_none_or o (fun l => vcontains l v) = true.
Proof.
  unfold schema_finite_values, enum_ok, const_ok.
  assert (Hc : forall c, Value_eqb v c = true <-> vcontains [c] v = true).
  { intros c. rewrite <- among_iff. cbn. by rewrite orb_false_r. }
  destruct (bt_get "enum" s) as [e|]; cbn [obind is_none_or res_bind].
  - destruct (as_array e) as [[|w l]|]; cbn [res_bind]; try done.
    cbn [is_nil is_none_or orb]. destruct (bt_get "const" s) as [c|]; cbn [is_none_or is_some_and].
    + intros [Hin <-%Ok_inj]%guard_ok. apply negb_false_iff, vcontains_true in Hin as (x & Hx & Hxc).
      cbn [is_none_or]. rewrite andb_true_iff, Hc, among_iff. split; [by intros []|]. intros Hv. split; [|done].
      apply vcontains_true. exists x. split; [done|]. apply Hc in Hv. change (v =j c) in Hv. by rewrite Hxc, Hv.
    + intros <-%Ok_inj. cbn [is_none_or]. by rewrite andb_true_r, among_iff.
  - destruct (bt_get "const" s) as [c|]; cbn [is_none_or is_some_and guard andb]; intros <-%Ok_inj; [apply Hc|done].
Qed.

Lemma minimum_accepts key source curated n :
  (0 <= n)%Z -> source_minimum_u64_accepts_curated source curated key = true ->
  at_least curated key n = true -> at_least source key n = true.
Proof.
  unfold source_minimum_u64_accepts_curated, at_least. intros Hn.
  destruct (bt_get key source) as [sv|]; [|done]. cbn. destruct (as_u64 sv) as [s|]; [|done]. cbn.
  destruct (obind (bt_get key curated) as_u64) as [c|]; cbn; rewrite ?orb_true_iff, ?Z.leb_le, ?Z.eqb_eq; lia.
Qed.

Lemma maximum_accepts key source curated n :
  source_maximum_u64_accepts_curated source curated key = true ->
  at_most curated key n = true -> at_most source key n = true.
Proof.
  unfold source_maximum_u64_accepts_curated, at_most.
  destruct (bt_get key source) as [sv|]; [|done]. cbn. destruct (as_u64 sv) as [s|]; [|done]. cbn.
  destruct (obind (bt_get key curated) as_u64) as [c|]; cbn; rewrite ?Z.leb_le; [lia|done].
Qed.

(** *** Numeric bounds *)

Definition within (strict wide : Number -> Number -> bool) (o : option bound) (x : Number) : bool :=
  is_none_or o (fun b => if snd b then strict (f64_value (fst b)) x else wide (f64_value (fst b)) x).
Definition above_bound : option bound -> Number -> bool := within number_lt number_le.
Definition below_bound : option bound -> Number -> bool :=
  within (fun b x => number_lt x b) (fun b x => number_le x b).

Definition proper_bound (o : option bound) : Prop := is_none_or o (fun b => proper (fst b)) = true.

Lemma stricter_lower a b x :
  proper_bound a -> proper_bound b ->
  above_bound (stricter_numeric_lower_bound a b) x = above_bound a x && above_bound b x.
Proof.
  unfold proper_bound. destruct a as [[l le]|], b as [[r re]|]; cbn; rewrite ?andb_true_r; try done.
  intros Hl Hr. rewrite !SFltb_exact by done.
  destruct (number_lt (f64_value r) (f64_value l)) eqn:E1; [|destruct (number_lt (f64_value l) (f64_value r)) eqn:E2];
    cbn; clear Hl Hr; destruct le, re; by_scale (f64_value l) (f64_value r) x.
Qed.

Lemma stricter_upper a b x :
  proper_bound a -> proper_bound b ->
  below_bound (stricter_numeric_upper_bound a b) x = below_bound a x && below_bound b x.
Proof.
  unfold proper_bound. destruct a as [[l le]|], b as [[r re]|]; cbn; rewrite ?andb_true_r; try done.
  intros Hl Hr. rewrite !SFltb_exact by done.
  destruct (number_lt (f64_value l) (f64_value r)) eqn:E1; [|destruct (number_lt (f64_value r) (f64_value l)) eqn:E2];
    cbn; clear Hl Hr; destruct le, re; by_scale (f64_value l) (f64_value r) x.
Qed.

(** A limit that is a binary64 bounds as its reading does. *)
Lemma limit_read s key v m :
  exact_limits (VObject s) = true -> bt_get key s = Some v -> contains limit_keywords key = true ->
  as_f64 v = Some m ->
  exists n, v = VNumber n /\ m = number_f64 n /\ proper m = true /\
    forall x, number_le n x = number_le (f64_value m) x /\ number_lt n x = number_lt (f64_value m) x /\
              number_le x n = number_le x (f64_value m) /\ number_lt x n = number_lt x (f64_value m).
Proof.
  intros Hs Hv Hk. destruct v as [| |n| | |]; try done. intros [= <-]. exists n.
  apply (exact_limits_member _ _ _ Hs) in Hv as [Hv _]. cbn [exact_limit] in Hv. rewrite Hk in Hv. cbn in Hv.
  split_and!; [done|done|by apply representable_proper|]. intros x. destruct (representable_same n x Hv) as [E1 E2].
  unfold number_le, number_lt. by rewrite E1, E2.
Qed.

Lemma stricter_proper stricter a b :
  proper_bound a -> proper_bound b -> proper_bound (stricter_numeric_bound stricter a b).
Proof.
  destruct a as [[l le]|], b as [[r re]|]; cbn; try done. by destruct (stricter l r), (stricter r l).
Qed.

Lemma lower_bound_ok s o x : exact_limits (VObject s) = true ->
  schema_numeric_lower_bound s = Ok o -> proper_bound o /\ lower_ok s x = above_bound o x.
Proof.
  intros Hs. unfold schema_numeric_lower_bound, numeric_limit, exclusive_limit, lower_ok, stricter_numeric_lower_bound.
  assert (Hex : forall n, bt_get "exclusiveMinimum" s = Some (VNumber n) -> proper (number_f64 n) = true /\
    forall x, above_bound (Some (number_f64 n, true)) x = number_lt n x).
  { intros n Ee. destruct (limit_read _ _ _ _ Hs Ee eq_refl eq_refl) as (? & [= <-] & _ & Hp & Hn).
    split; [done|]. intros y. destruct (Hn y) as (_ & E1 & _ & E2). by rewrite ?E1, ?E2. }
  destruct (bt_get "minimum" s) as [mv|] eqn:Em; cbn [obind is_none_or res_bind ok_or option_map].
  - destruct (as_f64 mv) as [l|] eqn:El; [|done].
    destruct (limit_read _ _ _ _ Hs Em eq_refl El) as (n & -> & _ & Hl & Hn).
    cbn [ok_or res_bind obind as_number is_none_or option_map].
    destruct (Hn x) as (E1 & E2 & E3 & E4). rewrite ?E1, ?E2, ?E3, ?E4.
    destruct (bt_get "exclusiveMinimum" s) as [[|[]|e| | |]|]; cbn [res_bind ok_or as_f64]; try done;
      intros <-%Ok_inj; try (destruct (Hex e eq_refl) as [Hp He]; rewrite <- He);
      (split; [by apply stricter_proper|rewrite stricter_lower by done; cbn; by rewrite ?andb_true_r]).
  - destruct (bt_get "exclusiveMinimum" s) as [[|[]|e| | |]|]; cbn [res_bind ok_or as_f64]; try done;
      intros <-%Ok_inj; try done. destruct (Hex e eq_refl) as [Hp He]. by rewrite <- He.
Qed.

Lemma upper_bound_ok s o x : exact_limits (VObject s) = true ->
  schema_numeric_upper_bound s = Ok o -> proper_bound o /\ upper_ok s x = below_bound o x.
Proof.
  intros Hs. unfold schema_numeric_upper_bound, numeric_limit, exclusive_limit, upper_ok, stricter_numeric_upper_bound.
  assert (Hex : forall n, bt_get "exclusiveMaximum" s = Some (VNumber n) -> proper (number_f64 n) = true /\
    forall x, below_bound (Some (number_f64 n, true)) x = number_lt x n).
  { intros n Ee. destruct (limit_read _ _ _ _ Hs Ee eq_refl eq_refl) as (? & [= <-] & _ & Hp & Hn).
    split; [done|]. intros y. destruct (Hn y) as (_ & E1 & _ & E2). by rewrite ?E1, ?E2. }
  destruct (bt_get "maximum" s) as [mv|] eqn:Em; cbn [obind is_none_or res_bind ok_or option_map].
  - destruct (as_f64 mv) as [l|] eqn:El; [|done].
    destruct (limit_read _ _ _ _ Hs Em eq_refl El) as (n & -> & _ & Hl & Hn).
    cbn [ok_or res_bind obind as_number is_none_or option_map].
    destruct (Hn x) as (E1 & E2 & E3 & E4). rewrite ?E1, ?E2, ?E3, ?E4.
    destruct (bt_get "exclusiveMaximum" s) as [[|[]|e| | |]|]; cbn [res_bind ok_or as_f64]; try done;
      intros <-%Ok_inj; try (destruct (Hex e eq_refl) as [Hp He]; rewrite <- He);
      (split; [by apply stricter_proper|rewrite stricter_upper by done; cbn; by rewrite ?andb_true_r]).
  - destruct (bt_get "exclusiveMaximum" s) as [[|[]|e| | |]|]; cbn [res_bind ok_or as_f64]; try done;
      intros <-%Ok_inj; try done. destruct (Hex e eq_refl) as [Hp He]. by rewrite <- He.
Qed.

Lemma lower_accepts source curated x :
  exact_limits (VObject source) = true -> exact_limits (VObject curated) = true ->
  source_numeric_lower_bound_accepts_curated source curated = true ->
  lower_ok curated x = true -> lower_ok source x = true.
Proof.
  unfold source_numeric_lower_bound_accepts_curated. intros Hs Hc.
  destruct (schema_numeric_lower_bound source) as [s|] eqn:Es; [|done].
  destruct (schema_numeric_lower_bound curated) as [c|] eqn:Ec; [|done].
  destruct (lower_bound_ok _ _ x Hs Es) as [Ps ->]. destruct (lower_bound_ok _ _ x Hc Ec) as [Pc ->].
  unfold proper_bound in *. destruct s as [[s se]|]; [|done]. destruct c as [[c ce]|]; [|done]. cbn in *.
  rewrite SFcompare_exact by done. generalize (f64_value s), (f64_value c). clear. intros p q.
  destruct se, ce; by_scale p q x.
Qed.

Lemma upper_accepts source curated x :
  exact_limits (VObject source) = true -> exact_limits (VObject curated) = true ->
  source_numeric_upper_bound_accepts_curated source curated = true ->
  upper_ok curated x = true -> upper_ok source x = true.
Proof.
  unfold source_numeric_upper_bound_accepts_curated. intros Hs Hc.
  destruct (schema_numeric_upper_bound source) as [s|] eqn:Es; [|done].
  destruct (schema_numeric_upper_bound curated) as [c|] eqn:Ec; [|done].
  destruct (upper_bound_ok _ _ x Hs Es) as [Ps ->]. destruct (upper_bound_ok _ _ x Hc Ec) as [Pc ->].
  unfold proper_bound in *. destruct s as [[s se]|]; [|done]. destruct c as [[c ce]|]; [|done]. cbn in *.
  rewrite SFcompare_exact by done. generalize (f64_value s), (f64_value c). clear. intros p q.
  destruct se, ce; by_scale p q x.
Qed.

(** The meaning of a keyword respects the equality of values. *)
Class KeywordRespects (keyword : string -> Value -> Value -> bool) : Prop :=
  keyword_respects : forall key c c' v, c =j c' -> keyword key c v = keyword key c' v.

Lemma may_include s types v names :
  schema_possible_types s = Ok types -> type_ok s v = true ->
  (forall t, has_type v t = true -> In t names) ->
  existsb (schema_may_include_type types) names = true \/ types = None.
Proof.
  intros Ht Hv Hn. apply (possible_types_ok _ _ _ Ht) in Hv. destruct types as [types|]; [left|by right].
  destruct Hv as (t & Hin & Hty). apply existsb_exists. exists t. split; [by apply Hn|done].
Qed.

Section Soundness.
Context (keyword : string -> Value -> Value -> bool) `{!KeywordRespects keyword} (document : Value).
Abbreviation valid := (JsonSchema.valid keyword document).
Abbreviation invalid := (JsonSchema.invalid keyword document).
Abbreviation plain_ok := (JsonSchema.plain_ok keyword).

Lemma reference_resolves source reference target :
  access_source_reference_target document source = Ok (Some (reference, target)) ->
  resolve document source = Some target.
Proof.
  unfold access_source_reference_target, resolve. destruct (bt_get "$ref" source) as [r|]; [|done].
  intros [_ H]%guard_ok. cbn [obind]. destruct (as_str r) as [s|]; cbn [ok_or res_bind obind] in *; [|done].
  destruct (strip_prefix "#" s) as [p|]; cbn [ok_or res_bind obind] in *; [|done].
  apply guard_ok in H as [_ H]. destruct (vpointer p document); cbn [ok_or res_bind] in H; [|done]. congruence.
Qed.

Lemma no_reference source :
  access_source_reference_target document source = Ok None -> resolve document source = None.
Proof.
  unfold access_source_reference_target, resolve. destruct (bt_get "$ref" source) as [r|]; [|done].
  intros [_ H]%guard_ok. destruct (as_str r) as [s|]; cbn [ok_or res_bind obind] in *; [|done].
  destruct (strip_prefix "#" s) as [p|]; cbn [ok_or res_bind obind] in *; [|done].
  apply guard_ok in H as [_ H]. destruct (vpointer p document); cbn [ok_or res_bind] in H; [|done]. congruence.
Qed.

Lemma members_of s key o : schema_composition_members s key = Ok o -> members s key = o.
Proof.
  unfold schema_composition_members, members. destruct (bt_get key s) as [v|]; cbn; [|congruence].
  destruct (as_array v); cbn; congruence.
Qed.

Lemma member_schema_split s properties k :
  schema_properties s = Ok properties ->
  member_schema s k =
    match obind properties (bt_get k) with Some c => Some c | None => bt_get "additionalProperties" s end.
Proof.
  unfold schema_properties, member_schema. destruct (bt_get "properties" s) as [[]|]; try done; by intros <-%Ok_inj.
Qed.

Definition allows (a : SchemaAllowance) (x : Value) : Prop :=
  match a with Any => True | Forbidden => False | Schema c => valid c x end.

Lemma forbidden_false x : valid (VBool false) x -> False.
Proof. intros [[|n] Hn]; done. Qed.

(** A value that satisfies an object schema has allowed members only. *)
Lemma members_allowed s properties additional m k x :
  schema_properties s = Ok properties -> schema_allowance (bt_get "additionalProperties" s) = Ok additional ->
  holds keyword document s (VObject m) -> (k, x) ∈ m ->
  allows (property_allowance properties additional k) x.
Proof.
  intros Hp Ha Hs Hin. pose proof (holds_members _ _ _ _ Hs m eq_refl) as Hg.
  rewrite Forall_forall in Hg. unfold property_allowance.
  assert (Hm : forall c, member_schema s k = Some c -> valid c x).
  { intros c Hc. apply (Hg (c, x)). apply governed_in. by exists k. }
  rewrite (member_schema_split _ _ _ Hp) in Hm. destruct (obind properties (bt_get k)) as [c|]; [by apply Hm|].
  destruct (bt_get "additionalProperties" s) as [[|[]| | | |]|]; cbn in Ha; try done; apply Ok_inj in Ha as <-; cbn; auto.
  by apply (forbidden_false x), Hm.
Qed.

Lemma required_present s fields v m f :
  schema_required_fields s = Ok fields -> plain_ok s v = true -> v = VObject m -> set_has f fields = true ->
  exists x, (f, x) ∈ m.
Proof.
  unfold schema_required_fields, JsonSchema.plain_ok, required_ok. intros Hr Hp -> Hf.
  apply andb_true_iff in Hp as [_ [_ Hp]%andb_true_iff].
  destruct (bt_get "required" s) as [r|]; cbn [obind] in Hp; [|by apply Ok_inj in Hr as <-].
  destruct (as_array r) as [l|]; cbn [ok_or res_bind obind] in *; [|done].
  destruct (all_strings l) as [names|]; cbn [ok_or res_bind is_none_or] in *; [|done]. apply Ok_inj in Hr as <-.
  apply set_of_has in Hf. rewrite forallb_forall in Hp. specialize (Hp _ Hf).
  destruct (bt_get f m) as [x|] eqn:E; [|done]. exists x. apply list_elem_of_In. by apply bt_get_in.
Qed.

(** *** Disjointness *)

Lemma scalar_disjoint source curated v :
  scalar_constraints_prove_disjoint source curated = true ->
  plain_ok curated v = true -> plain_ok source v = false.
Proof.
  unfold scalar_constraints_prove_disjoint. intros H Hc.
  destruct (plain_ok source v) eqn:Hs; [exfalso|done]. unfold JsonSchema.plain_ok in Hs, Hc.
  rewrite <- !andb_assoc, !andb_true_iff in Hs, Hc. destruct Hs as (Ts & Es & Cs & _), Hc as (Tc & Ec & Cc & _).
  destruct (schema_possible_types source) as [ts|] eqn:Ets; [|done].
  destruct (schema_possible_types curated) as [tc|] eqn:Etc; [|done].
  apply (possible_types_ok _ _ _ Ets) in Ts. apply (possible_types_ok _ _ _ Etc) in Tc.
  destruct (match ts, tc with Some s, Some c => negb (json_schema_type_sets_overlap s c) | _, _ => false end) eqn:Eo.
  - destruct ts as [ts|], tc as [tc|]; try done. destruct Ts as (t & Ht & Hvt), Tc as (t' & Ht' & Hvt').
    apply negb_true_iff in Eo. revert Eo. apply not_false_iff_true. unfold json_schema_type_sets_overlap.
    apply existsb_exists. exists t. split; [by apply in_keys|]. apply existsb_exists. exists t'. split; [by apply in_keys|].
    destruct v; cbn in Hvt, Hvt'; try (apply eqb_eq in Hvt as ->, Hvt' as ->; reflexivity).
    apply orb_true_iff in Hvt as [->%eqb_eq|[->%eqb_eq _]%andb_true_iff],
      Hvt' as [->%eqb_eq|[->%eqb_eq _]%andb_true_iff]; reflexivity.
  - destruct (schema_finite_values source) as [[vs|]|] eqn:Evs; try done.
    destruct (schema_finite_values curated) as [[vc|]|] eqn:Evc; try done.
    assert (Hvs : vcontains vs v = true) by (apply (finite_values_ok _ _ v Evs); by rewrite Es, Cs).
    assert (Hvc : vcontains vc v = true) by (apply (finite_values_ok _ _ v Evc); by rewrite Ec, Cc).
    apply vcontains_true in Hvs as (w & Hw & Hwv). rewrite forallb_forall in H. specialize (H w Hw).
    apply negb_true_iff in H. revert H. apply not_false_iff_true, vcontains_true.
    apply vcontains_true in Hvc as (u & Hu & Huv). exists u. split; [done|]. by rewrite Huv, Hwv.
Qed.

Lemma governed_property source properties m f x c :
  schema_properties source = Ok properties -> (f, x) ∈ m ->
  forall additional, schema_allowance (bt_get "additionalProperties" source) = Ok additional ->
  property_allowance properties additional f = Schema c -> (c, x) ∈ governed source m.
Proof.
  intros Hp Hin additional Ha Hc. apply governed_in. exists f. split; [done|].
  rewrite (member_schema_split _ _ _ Hp). unfold property_allowance in Hc.
  destruct (obind properties (bt_get f)) as [c'|]; [congruence|]. subst additional.
  destruct (bt_get "additionalProperties" source) as [[|[]| | | |]|]; cbn in Ha; congruence.
Qed.

Lemma forbidden_property source properties m f x :
  schema_properties source = Ok properties -> (f, x) ∈ m ->
  forall additional, schema_allowance (bt_get "additionalProperties" source) = Ok additional ->
  property_allowance properties additional f = Forbidden -> (VBool false, x) ∈ governed source m.
Proof.
  intros Hp Hin additional Ha Hc. apply governed_in. exists f. split; [done|].
  rewrite (member_schema_split _ _ _ Hp). unfold property_allowance in Hc.
  destruct (obind properties (bt_get f)) as [c'|]; [done|]. subst additional.
  destruct (bt_get "additionalProperties" source) as [[|[]| | | |]|]; cbn in Ha; congruence.
Qed.

Section Step.
Context (disjoint : Value -> Value -> bool).
Hypothesis disjoint_sound : forall s c v, disjoint s c = true -> valid c v -> invalid s v.

(** One field of an object tells the schemas apart. *)
Lemma field_disjoint source sp sa curated cp ca m f x :
  schema_properties source = Ok sp -> schema_allowance (bt_get "additionalProperties" source) = Ok sa ->
  schema_properties curated = Ok cp -> schema_allowance (bt_get "additionalProperties" curated) = Ok ca ->
  holds keyword document curated (VObject m) -> (f, x) ∈ m ->
  property_allowance sp sa f = Forbidden \/ property_allowance cp ca f = Forbidden \/
    allowances_disjoint disjoint (property_allowance sp sa f) (property_allowance cp ca f) = true ->
  invalid (VObject source) (VObject m).
Proof.
  intros Hsp Hsa Hcp Hca Hc Hin H.
  pose proof (members_allowed _ _ _ _ _ _ Hcp Hca Hc Hin) as Hallow. destruct H as [H|[H|H]].
  - eapply invalid_member; [by eapply forbidden_property|]. by exists 1.
  - by rewrite H in Hallow.
  - destruct (property_allowance sp sa f) as [| |c] eqn:Es; try done.
    destruct (property_allowance cp ca f) as [| |c'] eqn:Ec; try done. cbn in H, Hallow.
    eapply invalid_member; [by eapply governed_property|]. by eapply disjoint_sound.
Qed.

Lemma object_only curated types v :
  schema_possible_types curated = Ok types ->
  is_some_and types (fun types => types =? set_of ["object"]) = true -> type_ok curated v = true ->
  exists m, v = VObject m.
Proof.
  intros Ht Ho Hv. apply (possible_types_ok _ _ _ Ht) in Hv. destruct types as [types|]; [|done].
  unfold is_some_and in Ho. apply eqb_eq in Ho as ->. destruct Hv as (t & [<-|[]]%set_of_has & Hty).
  destruct v; try done. by eexists.
Qed.

Lemma required_property_disjoint source curated v :
  required_object_property_proves_disjoint disjoint source curated = true ->
  valid (VObject curated) v -> invalid (VObject source) v.
Proof.
  unfold required_object_property_proves_disjoint. intros H Hv%valid_holds.
  destruct (schema_possible_types curated) as [types|] eqn:Et; [|done].
  destruct (is_some_and types _) eqn:Eo; cbn [negb] in H; [|done].
  destruct (schema_required_fields source) as [sr|] eqn:Esr; [|done].
  destruct (schema_required_fields curated) as [cr|] eqn:Ecr; [|done].
  destruct (schema_properties source) as [sp|] eqn:Esp; [|done].
  destruct (schema_properties curated) as [cp|] eqn:Ecp; [|done].
  destruct (schema_allowance (bt_get "additionalProperties" source)) as [sa|] eqn:Esa; [|done].
  destruct (schema_allowance (bt_get "additionalProperties" curated)) as [ca|] eqn:Eca; [|done].
  pose proof (holds_plain _ _ _ _ Hv) as Hp. pose proof Hp as Hp'. unfold JsonSchema.plain_ok in Hp'.
  rewrite <- !andb_assoc, !andb_true_iff in Hp'. destruct Hp' as (Hty & _).
  destruct (object_only _ _ _ Et Eo Hty) as [m ->]. apply orb_true_iff in H as [H|H];
    apply existsb_exists in H as (f & Hf%in_keys & H).
  - destruct (JsonSchema.plain_ok keyword source (VObject m)) eqn:Es; [|by apply invalid_plain].
    destruct (required_present _ _ _ _ _ Esr Es eq_refl Hf) as [x Hx].
    eapply (field_disjoint source sp sa curated cp ca m f x); try done.
    destruct (property_allowance sp sa f), (property_allowance cp ca f); auto.
  - destruct (required_present _ _ _ _ _ Ecr Hp eq_refl Hf) as [x Hx].
    eapply (field_disjoint source sp sa curated cp ca m f x); try done.
    destruct (property_allowance sp sa f), (property_allowance cp ca f); auto.
Qed.

Lemma union_disjoint source_schema curated v :
  curated_union_compositions_prove_disjoint disjoint source_schema curated = true ->
  valid (VObject curated) v -> invalid source_schema v.
Proof.
  intros H Hv%valid_holds. unfold curated_union_compositions_prove_disjoint in H. cbn [union_compositions_prove_disjoint] in H.
  assert (Hm : forall key l c, forallb (disjoint source_schema) l = true -> members curated key = Some l -> c ∈ l ->
             valid c v -> invalid source_schema v).
  { intros key l c Hd _ Hin Hc. rewrite forallb_forall in Hd. eapply disjoint_sound; [|exact Hc].
    by apply Hd, list_elem_of_In. }
  destruct (bt_get "oneOf" curated) as [one|] eqn:E1.
  - assert (E : members curated "oneOf" = as_array one) by (unfold members; by rewrite E1).
    destruct (as_array one) as [[|c l]|] eqn:Ea; try done.
    destruct (holds_one _ _ _ _ Hv _ E) as (l1 & d & l2 & El & Hd & _).
    eapply Hm; [exact H|exact E| |exact Hd]. rewrite El. apply list_elem_of_In, in_elt.
  - destruct (bt_get "anyOf" curated) as [any|] eqn:E2; [|done].
    assert (E : members curated "anyOf" = as_array any) by (unfold members; by rewrite E2).
    destruct (as_array any) as [[|c l]|] eqn:Ea; try done.
    destruct (proj1 (List.Exists_exists _ _) (holds_any _ _ _ _ Hv _ E)) as (d & Hin & Hd).
    eapply Hm; [exact H|exact E| |exact Hd]. by apply list_elem_of_In.
Qed.

Lemma source_compositions_disjoint source curated_schema v :
  source_compositions_prove_disjoint disjoint source curated_schema = true ->
  valid curated_schema v -> invalid (VObject source) v.
Proof.
  unfold source_compositions_prove_disjoint. intros H Hv. apply orb_true_iff in H as [H|H].
  - destruct (schema_composition_members source "allOf") as [[l|]|] eqn:E; try done. apply members_of in E.
    apply andb_true_iff in H as [_ (c & Hin & Hc)%existsb_exists].
    eapply invalid_all; [exact E|by apply list_elem_of_In|]. by eapply disjoint_sound.
  - assert (Hl : forall l, forallb (fun member => disjoint member curated_schema) l = true ->
                  Forall (fun c => invalid c v) l).
    { intros l Hl. apply Forall_forall. intros c Hin. rewrite forallb_forall in Hl.
      eapply disjoint_sound; [apply Hl, list_elem_of_In, Hin|done]. }
    apply existsb_exists in H as (key & Hk & H).
    destruct (schema_composition_members source key) as [[l|]|] eqn:E; try done. apply members_of in E.
    destruct Hk as [<-|[<-|[]]]; [by eapply invalid_one, Hl|by eapply invalid_any, Hl].
Qed.

Lemma object_disjoint source curated v :
  (let rest :=
     scalar_constraints_are_well_formed source curated
     && (scalar_constraints_prove_disjoint source curated
         || negb (source_union_composition_is_empty source)
            && (source_compositions_prove_disjoint disjoint source (VObject curated)
                || required_object_property_proves_disjoint disjoint source curated)) in
   match bt_get "allOf" curated with
   | None => rest
   | Some members =>
       match as_array members with
       | Some (m :: l) => curated_all_of_proves_disjoint disjoint (VObject source) (m :: l) || rest
       | _ => false
       end
   end) = true ->
  valid (VObject curated) v -> invalid (VObject source) v.
Proof.
  intros H Hv.
  assert (Hrest : scalar_constraints_are_well_formed source curated
     && (scalar_constraints_prove_disjoint source curated
         || negb (source_union_composition_is_empty source)
            && (source_compositions_prove_disjoint disjoint source (VObject curated)
                || required_object_property_proves_disjoint disjoint source curated)) = true ->
     invalid (VObject source) v).
  { intros [_ [Hs|[_ [Hs|Hs]%orb_true_iff]%andb_true_iff]%orb_true_iff]%andb_true_iff.
    - apply invalid_plain. eapply scalar_disjoint; [exact Hs|]. by apply valid_holds in Hv as [? _ _ _ _ _ _].
    - by eapply source_compositions_disjoint.
    - by eapply required_property_disjoint. }
  cbv zeta in H. destruct (bt_get "allOf" curated) as [all|] eqn:E; [|by apply Hrest].
  assert (Em : members curated "allOf" = as_array all) by (unfold members; by rewrite E).
  destruct (as_array all) as [[|c l]|]; try done. apply orb_true_iff in H as [H|H]; [|by apply Hrest].
  apply existsb_exists in H as (d & Hin & Hd). eapply disjoint_sound; [exact Hd|].
  apply valid_holds in Hv. pose proof (holds_all _ _ _ _ Hv _ Em) as Hall. rewrite Forall_forall in Hall.
  by apply Hall, list_elem_of_In.
Qed.
End Step.

(** Schemas that are provably disjoint have no value in common. *)
Lemma provably_disjoint_sound levels : forall active source curated v,
  source_schema_is_provably_disjoint document levels active source curated = true ->
  valid curated v -> invalid source v.
Proof.
  induction levels as [|levels IH]; [done|]. intros active source_schema curated_schema v.
  cbn [source_schema_is_provably_disjoint].
  destruct source_schema as [| | | | |source]; cbn [as_object]; try done.
  destruct (access_source_reference_target document source) as [[[reference target]|]|] eqn:Er; [| |done].
  - intros [_ H]%andb_true_iff Hv. eapply invalid_target; [by eapply reference_resolves|]. by eapply IH.
  - destruct (access_source_schema_uses_supported_keywords source); cbn [negb]; [|done].
    destruct curated_schema as [| | | | |curated]; cbn [as_object]; try done.
    destruct (has_any ["oneOf"; "anyOf"] curated).
    + intros H. eapply union_disjoint; [|exact H]. intros s c w. apply IH.
    + intros H. eapply object_disjoint; [|exact H]. intros s c w. apply IH.
Qed.

(** *** Acceptance *)

Lemma exact_accepts source curated key v :
  source_exact_constraint_accepts_curated source curated key = true ->
  open_ok keyword key curated v = true -> open_ok keyword key source v = true.
Proof.
  unfold source_exact_constraint_accepts_curated, open_ok.
  destruct (bt_get key source) as [s|]; [|done]. destruct (bt_get key curated) as [c|]; [|done]. cbn.
  intros Hc Hv. by rewrite <- (KeywordRespects0 key c s v Hc).
Qed.

Lemma holds_type curated v : plain_ok curated v = true -> type_ok curated v = true.
Proof. unfold JsonSchema.plain_ok. rewrite <- !andb_assoc, !andb_true_iff. by intros (? & _). Qed.

Lemma included_type curated types v name :
  schema_possible_types curated = Ok types -> plain_ok curated v = true ->
  (forall t, has_type v t = true -> t = name) -> schema_may_include_type types name = true.
Proof.
  intros Ht Hv%holds_type Hn.
  assert (Hin : forall t, has_type v t = true -> In t [name]) by (intros t Hty; left; symmetry; by apply Hn).
  destruct (may_include _ _ _ _ Ht Hv Hin) as [H| ->]; [|done].
  cbn [existsb] in H. by rewrite orb_false_r in H.
Qed.

Section AcceptStep.
Context (accepts disjoint : Value -> Value -> bool).
Hypothesis accepts_sound : forall s c v,
  exact_limits s = true -> exact_limits c = true -> accepts s c = true -> valid c v -> valid s v.
Hypothesis disjoint_sound : forall s c v, disjoint s c = true -> valid c v -> invalid s v.

Lemma types_accept source curated st ct v :
  schema_possible_types source = Ok st -> schema_possible_types curated = Ok ct ->
  is_some_and st (fun source_types => is_none_or ct (fun curated_types => existsb (fun curated_type =>
    negb (set_has curated_type source_types
          || ((curated_type =? "integer") && set_has "number" source_types))) (bt_keys curated_types))) = false ->
  type_ok curated v = true -> type_ok source v = true.
Proof.
  intros Hs Hc H Hv. apply (possible_types_ok _ _ _ Hs). apply (possible_types_ok _ _ _ Hc) in Hv.
  destruct st as [st|]; [|done]. destruct ct as [ct|]; [|done]. destruct Hv as (t & Ht & Hty).
  cbn [is_some_and is_none_or] in H. rewrite existsb_Forall, Forall_forall in H.
  specialize (H t). rewrite list_elem_of_In, in_keys in H. specialize (H Ht).
  apply negb_false_iff, orb_true_iff in H as [H|[->%eqb_eq H]%andb_true_iff]; [by exists t|].
  exists "number". split; [done|]. by destruct v.
Qed.

Lemma values_accept source curated sv cv v :
  schema_finite_values source = Ok sv -> schema_finite_values curated = Ok cv ->
  is_some_and sv (fun source_values =>
    is_none_or cv (existsb (fun v => negb (vcontains source_values v)))) = false ->
  enum_ok curated v && const_ok curated v = true -> enum_ok source v && const_ok source v = true.
Proof.
  intros Hs Hc H Hv. apply (finite_values_ok _ _ _ Hs). apply (finite_values_ok _ _ _ Hc) in Hv.
  destruct sv as [sv|]; [|done]. destruct cv as [cv|]; [|done]. cbn [is_some_and is_none_or] in *.
  apply vcontains_true in Hv as (w & Hw & Hwv). rewrite existsb_Forall, List.Forall_forall in H.
  specialize (H w Hw). apply negb_false_iff, vcontains_true in H as (u & Hu & Huw).
  apply vcontains_true. exists u. split; [done|]. by rewrite Huw, Hwv.
Qed.

(** What an allowance says has limits that are binary64. *)
Definition exact_allowance (a : SchemaAllowance) : Prop :=
  match a with Schema c => exact_limits c = true | _ => True end.

Lemma exact_property s properties additional k :
  exact_limits (VObject s) = true -> schema_properties s = Ok properties ->
  schema_allowance (bt_get "additionalProperties" s) = Ok additional ->
  exact_allowance additional /\ exact_allowance (property_allowance properties additional k) /\
  (forall c, obind properties (bt_get k) = Some c -> exact_limits c = true).
Proof.
  intros Hs Hp Ha. assert (Hadd : exact_allowance additional).
  { destruct (bt_get "additionalProperties" s) as [[|[]| | | |o]|] eqn:E; cbn in Ha; try done; apply Ok_inj in Ha as <-; try done.
    by apply (exact_limits_member _ _ _ Hs) in E as [_ ?]. }
  assert (Hprop : forall c, obind properties (bt_get k) = Some c -> exact_limits c = true).
  { intros c Hc. unfold schema_properties in Hp. destruct (bt_get "properties" s) as [[| | | | |o]|] eqn:E; try done;
      apply Ok_inj in Hp as <-; [|done]. apply (exact_limits_member _ _ _ Hs) in E as [_ E].
    by eapply exact_limits_member. }
  split; [done|]. split; [|done]. unfold property_allowance. destruct (obind properties _); [by apply Hprop|done].
Qed.

Lemma allowance_accepts s c x :
  exact_allowance s -> exact_allowance c ->
  source_allowance_accepts_curated accepts s c = true -> allows c x -> allows s x.
Proof. destruct s, c; cbn; try done. apply accepts_sound. Qed.

(** What the array check gives for an array valid under the curated schema. *)
Lemma array_accepts source curated l :
  exact_limits (VObject source) = true -> exact_limits (VObject curated) = true ->
  source_array_constraints_accept_curated accepts source curated = true ->
  holds keyword document curated (VArray l) ->
  at_least source "minItems" (Z.of_nat (length l)) = true /\
  at_most source "maxItems" (Z.of_nat (length l)) = true /\
  (negb (is_some_and (bt_get "uniqueItems" source) (fun b => Value_eqb b (VBool true))) || all_distinct l) = true /\
  (forall items, bt_get "items" source = Some items -> Forall (valid items) l).
Proof.
  unfold source_array_constraints_accept_curated. intros Xs Xc H Hc.
  apply andb_true_iff in H as [[Hmin Hmax]%andb_true_iff H].
  pose proof (holds_plain _ _ _ _ Hc) as Hp. unfold JsonSchema.plain_ok in Hp.
  apply andb_true_iff in Hp as [_ [[Pmin Pmax]%andb_true_iff Pu]%andb_true_iff].
  split; [by eapply minimum_accepts; [lia|..]|]. split; [by eapply maximum_accepts|].
  destruct (obind (bt_get "maxItems" curated) as_u64 =? Some 0%Z) eqn:Ez.
  { apply eqb_eq in Ez. unfold at_most in Pmax. rewrite Ez in Pmax. cbn in Pmax. apply Z.leb_le in Pmax.
    destruct l; [|cbn in Pmax; lia]. by rewrite orb_true_r. }
  apply andb_true_iff in H as [Hu Hi]. split.
  - destruct (bt_get "uniqueItems" source) as [u|]; [|done]. cbn [is_some_and].
    destruct u as [|[]| | | |]; cbn [as_bool] in Hu; try done. cbn [Value_eqb Bool.eqb negb orb andb] in *.
    apply negb_true_iff, neqb_false in Hu. destruct (bt_get "uniqueItems" curated) as [[|[]| | | |]|]; try done.
  - intros items Hitems. rewrite Hitems in Hi. destruct items as [|[]| | | |items]; try done.
    + apply Forall_all. intros x. by exists 1.
    + destruct (bt_get "items" curated) as [[| | | | |ci]|] eqn:Eci; try done.
      pose proof (holds_items _ _ _ _ Hc l _ eq_refl Eci) as Hl.
      eapply Forall_impl; [exact Hl|]. cbn. intros x. apply accepts_sound; [| |done].
      * exact (proj2 (exact_limits_member _ _ _ Xs Hitems)).
      * exact (proj2 (exact_limits_member _ _ _ Xc Eci)).
Qed.

Lemma object_accepts source curated m :
  exact_limits (VObject source) = true -> exact_limits (VObject curated) = true ->
  source_object_constraints_accept_curated accepts source curated = true ->
  holds keyword document curated (VObject m) ->
  at_least source "minProperties" (Z.of_nat (length m)) = true /\
  at_most source "maxProperties" (Z.of_nat (length m)) = true /\
  required_ok source m = true /\ Forall (fun e => valid e.1 e.2) (governed source m).
Proof.
  unfold source_object_constraints_accept_curated. intros Xs Xc H Hc.
  apply andb_true_iff in H as [[Hmin Hmax]%andb_true_iff H].
  pose proof (holds_plain _ _ _ _ Hc) as Hp. pose proof Hp as Hp'. unfold JsonSchema.plain_ok in Hp.
  apply andb_true_iff in Hp as [_ [[Pmin Pmax]%andb_true_iff Pr]%andb_true_iff].
  split; [by eapply minimum_accepts; [lia|..]|]. split; [by eapply maximum_accepts|].
  destruct (schema_required_fields source) as [sr|] eqn:Esr; [|done].
  destruct (schema_required_fields curated) as [cr|] eqn:Ecr; [|done].
  destruct (schema_properties source) as [sp|] eqn:Esp; [|by rewrite andb_false_r in H].
  destruct (schema_properties curated) as [cp|] eqn:Ecp; [|by rewrite andb_false_r in H].
  destruct (schema_allowance (bt_get "additionalProperties" source)) as [sa|] eqn:Esa; [|by rewrite andb_false_r in H].
  destruct (schema_allowance (bt_get "additionalProperties" curated)) as [ca|] eqn:Eca; [|by rewrite andb_false_r in H].
  apply andb_true_iff in H as [Hr [[H1 H2]%andb_true_iff H3]%andb_true_iff]. split.
  - unfold required_ok. unfold schema_required_fields in Esr.
    destruct (bt_get "required" source) as [r|]; [|done]. cbn [obind].
    destruct (as_array r) as [l|]; [|done]. cbn [ok_or res_bind obind] in *.
    destruct (all_strings l) as [names|]; [|done]. cbn [ok_or res_bind is_none_or] in *. apply Ok_inj in Esr as <-.
    apply forallb_forall. intros f Hf. rewrite forallb_forall in Hr.
    assert (Hcr : set_has f cr = true) by (apply Hr, in_keys, set_of_has, Hf).
    destruct (required_present _ _ _ _ _ Ecr Hp' eq_refl Hcr) as [x Hx%list_elem_of_In].
    destruct (bt_get f m) eqn:E; [done|]. exfalso. revert E. apply bt_keys_get. by apply (in_map fst) in Hx.
  - apply Forall_forall. intros [c x] (f & Hin & Hm)%governed_in. cbn.
    pose proof (members_allowed _ _ _ _ _ _ Ecp Eca Hc Hin) as Hallow.
    destruct (exact_property _ _ _ f Xs Esp Esa) as (Ys & Zs & Ps).
    destruct (exact_property _ _ _ f Xc Ecp Eca) as (Yc & Zc & Pc).
    assert (Hs : allows (property_allowance sp sa f) x).
    { unfold property_allowance in *. destruct (obind cp (bt_get f)) as [cc|] eqn:Ecc.
      - destruct cp as [cp|]; [|done]. cbn in H1, Ecc. apply negb_true_iff in H1.
        rewrite existsb_Forall, List.Forall_forall in H1. specialize (H1 (f, cc) (bt_get_in _ _ _ Ecc)).
        apply negb_false_iff in H1. eapply allowance_accepts; [exact Zs| |exact H1|exact Hallow]. by apply Pc.
      - destruct (obind sp (bt_get f)) as [sc|] eqn:Esc; [|by eapply allowance_accepts].
        destruct sp as [sp|]; [|done]. cbn in H2, Esc. apply negb_true_iff in H2.
        rewrite existsb_Forall, List.Forall_forall in H2. specialize (H2 (f, sc) (bt_get_in _ _ _ Esc)).
        apply andb_false_iff in H2 as [H2|H2].
        + destruct cp as [cp|]; [|done]. cbn in H2, Ecc. by rewrite Ecc in H2.
        + apply negb_false_iff in H2. eapply (allowance_accepts (Schema sc)); [by apply Ps|exact Yc|done|done]. }
    rewrite (member_schema_split _ _ _ Esp) in Hm. unfold property_allowance in Hs.
    destruct (obind sp (bt_get f)) as [sc|]; [by injection Hm as <-|].
    rewrite Hm in Esa. destruct c as [|[]| | | |]; cbn in Esa; try done; apply Ok_inj in Esa as <-; try done.
    by exists 1.
Qed.

Lemma no_object_constraints source m :
  has_any ["minProperties"; "maxProperties"; "required"; "properties"; "additionalProperties"] source = false ->
  at_least source "minProperties" (Z.of_nat (length m)) = true /\
  at_most source "maxProperties" (Z.of_nat (length m)) = true /\
  required_ok source m = true /\ Forall (fun e => valid e.1 e.2) (governed source m).
Proof.
  unfold has_any. cbn [existsb]. rewrite !orb_false_iff. intros (H1 & H2 & H3 & H4 & H5 & _).
  unfold at_least, at_most, required_ok.
  destruct (bt_get "minProperties" source); [done|]. destruct (bt_get "maxProperties" source); [done|].
  destruct (bt_get "required" source); [done|]. split_and!; [done..|].
  apply Forall_forall. intros [c x] (f & _ & Hm)%governed_in. unfold member_schema in Hm.
  destruct (bt_get "properties" source); [done|]. destruct (bt_get "additionalProperties" source); done.
Qed.

Lemma no_array_constraints source l :
  has_any ["minItems"; "maxItems"; "uniqueItems"; "items"] source = false ->
  at_least source "minItems" (Z.of_nat (length l)) = true /\
  at_most source "maxItems" (Z.of_nat (length l)) = true /\
  (negb (is_some_and (bt_get "uniqueItems" source) (fun b => Value_eqb b (VBool true))) || all_distinct l) = true /\
  (forall items, bt_get "items" source = Some items -> Forall (valid items) l).
Proof.
  unfold has_any. cbn [existsb]. rewrite !orb_false_iff. intros (H1 & H2 & H3 & H4 & _).
  unfold at_least, at_most.
  destruct (bt_get "minItems" source); [done|]. destruct (bt_get "maxItems" source); [done|].
  destruct (bt_get "uniqueItems" source); [done|]. destruct (bt_get "items" source); [done|]. done.
Qed.

(** The constraints of the source that are not compositions hold. *)
Lemma direct_accepts source curated v :
  exact_limits (VObject source) = true -> exact_limits (VObject curated) = true ->
  source_direct_constraints_accept_curated accepts source curated = true ->
  holds keyword document curated v ->
  plain_ok source v = true /\
  (forall l items, v = VArray l -> bt_get "items" source = Some items -> Forall (valid items) l) /\
  (forall m, v = VObject m -> Forall (fun e => valid e.1 e.2) (governed source m)).
Proof.
  unfold source_direct_constraints_accept_curated. intros Xs Xc H Hc. pose proof (holds_plain _ _ _ _ Hc) as Hp.
  destruct (schema_possible_types source) as [st|] eqn:Est; [|done].
  destruct (schema_possible_types curated) as [ct|] eqn:Ect; [|done].
  apply andb_true_iff in H as [Ht%negb_true_iff H].
  destruct (schema_finite_values source) as [sv|] eqn:Esv; [|done].
  destruct (schema_finite_values curated) as [cv|] eqn:Ecv; [|done].
  apply andb_true_iff in H as [[[[Hv%negb_true_iff Hs]%andb_true_iff Hn]%andb_true_iff Ha]%andb_true_iff Ho].
  pose proof (fun name => included_type _ _ v name Ect Hp) as Hin.
  pose proof Hp as Hp'. unfold JsonSchema.plain_ok in Hp. apply andb_true_iff in Hp as [Hp Hrest].
  rewrite <- andb_assoc in Hp. apply andb_true_iff in Hp as [Hty Hval].
  pose proof (types_accept _ _ _ _ _ Est Ect Ht Hty) as Sty.
  pose proof (values_accept _ _ _ _ _ Esv Ecv Hv Hval) as Sval.
  unfold JsonSchema.plain_ok. rewrite Sty. cbn [andb]. rewrite Sval. cbn [andb].
  destruct v as [| |n|t|l|m]; try done.
  - split; [|done]. destruct (may_include _ _ _ ["number"; "integer"] Ect Hty) as [Hi|Hi].
    { intros t [->%eqb_eq|[->%eqb_eq _]%andb_true_iff]%orb_true_iff; cbn; auto. }
    all: assert (Hi' : schema_may_include_type ct "number" || schema_may_include_type ct "integer" = true)
      by (try (by rewrite Hi); cbn [existsb] in Hi; by rewrite orb_false_r in Hi).
    all: rewrite Hi' in Hn; cbn [negb orb] in Hn; rewrite !andb_true_iff in Hn, Hrest |- *;
      destruct Hn as [[N1 N2] N3], Hrest as [[R1 R2] R3]; split_and!;
      [by eapply lower_accepts|by eapply upper_accepts|by eapply exact_accepts].
  - split; [|done]. rewrite (Hin "string") in Hs by (by intros ? ->%eqb_eq). cbn [negb orb] in Hs.
    rewrite !andb_true_iff in Hs, Hrest |- *. destruct Hs as [[[S1 S2] S3] S4], Hrest as [[[R1 R2] R3] R4].
    assert (0 <= char_count t)%Z.
    { clear. induction t as [|a t IH]; cbn; [done|]. destruct (_ && _); lia. }
    split_and!; [by eapply exact_accepts|by eapply exact_accepts|by eapply minimum_accepts|by eapply maximum_accepts].
  - rewrite (Hin "array") in Ha by (by intros ? ->%eqb_eq). rewrite andb_true_r in Ha.
    assert (Hgoal : at_least source "minItems" (Z.of_nat (length l)) = true /\
      at_most source "maxItems" (Z.of_nat (length l)) = true /\
      (negb (is_some_and (bt_get "uniqueItems" source) (fun b => Value_eqb b (VBool true))) || all_distinct l) = true /\
      (forall items, bt_get "items" source = Some items -> Forall (valid items) l)).
    { apply orb_true_iff in Ha as [Ha%negb_true_iff|Ha]; [by apply no_array_constraints|by eapply array_accepts]. }
    destruct Hgoal as (-> & -> & -> & Hi). split; [done|]. split; [|done]. intros ? items [= <-]. apply Hi.
  - rewrite (Hin "object") in Ho by (by intros ? ->%eqb_eq). rewrite orb_false_r in Ho.
    assert (Hgoal : at_least source "minProperties" (Z.of_nat (length m)) = true /\
      at_most source "maxProperties" (Z.of_nat (length m)) = true /\
      required_ok source m = true /\ Forall (fun e => valid e.1 e.2) (governed source m)).
    { apply orb_true_iff in Ho as [Ho%negb_true_iff|Ho]; [by apply no_object_constraints|by eapply object_accepts]. }
    destruct Hgoal as (-> & -> & -> & Hi). split; [done|]. split; [done|]. intros ? [= <-]. exact Hi.
Qed.

(** *** Exactly one member of a [oneOf] *)

Lemma find_accepting_none curated members : forall index i,
  find_accepting accepts curated index None members = Some (Some i) ->
  exists l1 c l2, members = (l1 ++ c :: l2)%list /\ i = index + length l1 /\ accepts c curated = true.
Proof.
  induction members as [|member members IH]; intros index i; cbn; [done|].
  destruct (accepts member curated) eqn:E; cbn.
  - intros H. assert (Hi : i = index).
    { clear -H. revert H. generalize (S index) as k. induction members as [|m l IH]; intros k; cbn; [congruence|].
      destruct (accepts m curated); cbn; [done|]. apply IH. }
    exists [], member, members. cbn. split_and!; [done|lia|done].
  - intros (l1 & c & l2 & -> & -> & Hc)%IH. exists (member :: l1), c, l2. cbn. split_and!; [done|lia|done].
Qed.

Lemma others_disjoint_iff curated members : forall index i,
  others_disjoint disjoint curated index i members = true ->
  forall l1 c l2, members = (l1 ++ c :: l2)%list -> index + length l1 <> i -> disjoint c curated = true.
Proof.
  induction members as [|member members IH]; intros index i H l1 c l2 E Hi; [by destruct l1|].
  cbn in H. apply andb_true_iff in H as [H1 H2]. destruct l1 as [|x l1]; cbn in *.
  - injection E as -> ->. apply orb_true_iff in H1 as [H1%eqb_eq|H1]; [lia|done].
  - injection E as -> ->. eapply (IH _ _ H2 l1 c l2); [done|lia].
Qed.

Lemma one_of_accepts members curated v :
  (forall c, In c members -> exact_limits c = true) -> exact_limits curated = true ->
  source_one_of_accepts_curated accepts disjoint members curated = true -> valid curated v ->
  exists l1 c l2, members = (l1 ++ c :: l2)%list /\ valid c v /\ Forall (fun c => invalid c v) (l1 ++ l2)%list.
Proof.
  unfold source_one_of_accepts_curated. intros Xs Xc H Hv. destruct (is_nil members); [done|].
  destruct (find_accepting accepts curated 0 None members) as [[i|]|] eqn:E; try done.
  apply find_accepting_none in E as (l1 & c & l2 & -> & -> & Hc).
  exists l1, c, l2. split_and!; [done|eapply accepts_sound; [apply Xs, in_elt|done..]|].
  pose proof (others_disjoint_iff _ _ _ _ H) as Ho. apply Forall_app. split; apply Forall_forall; intros d Hd;
    apply list_elem_of_split in Hd as (k1 & k2 & ->); eapply disjoint_sound; try exact Hv.
  - eapply (Ho k1 d (k2 ++ c :: l2)%list); [by rewrite <- app_assoc|]. rewrite length_app. cbn. lia.
  - eapply (Ho (l1 ++ c :: k1)%list d k2); [by rewrite <- app_assoc|]. rewrite length_app. cbn. lia.
Qed.

Lemma compositions_accept source curated v :
  exact_limits (VObject source) = true -> exact_limits curated = true ->
  source_compositions_accept_curated accepts disjoint source curated = true -> valid curated v ->
  (forall l, members source "allOf" = Some l -> Forall (fun c => valid c v) l) /\
  (forall l, members source "anyOf" = Some l -> Exists (fun c => valid c v) l) /\
  (forall l, members source "oneOf" = Some l ->
    exists l1 c l2, l = (l1 ++ c :: l2)%list /\ valid c v /\ Forall (fun c => invalid c v) (l1 ++ l2)%list).
Proof.
  unfold source_compositions_accept_curated. intros Xs Xc H Hv. pose proof (exact_members source) as Xm.
  destruct (schema_composition_members source "allOf") as [all|] eqn:Eall; [|done].
  apply andb_true_iff in H as [Hall%negb_true_iff H].
  destruct (schema_composition_members source "oneOf") as [one|] eqn:Eone; [|done].
  destruct (schema_composition_members source "anyOf") as [any|] eqn:Eany; [|by destruct one].
  rewrite (members_of _ _ _ Eall), (members_of _ _ _ Eone), (members_of _ _ _ Eany). split.
  - intros l ->. cbn in Hall. apply orb_false_iff in Hall as [_ Hall%negb_false_iff].
    rewrite forallb_forall in Hall. apply List.Forall_forall. intros c Hc.
    eapply accepts_sound; [by eapply Xm; [|by apply members_of|]|done|by apply Hall|done].
  - destruct one as [one|], any as [any|]; try done.
    + split; [done|]. intros l [= <-]. refine (one_of_accepts _ _ _ _ Xc H Hv).
      intros c. eapply Xm; [done|by apply members_of].
    + split; [|done]. intros l [= <-]. cbn in H. apply andb_true_iff in H as [_ (c & Hin & Hc)%existsb_exists].
      apply List.Exists_exists. exists c. split; [done|].
      eapply accepts_sound; [by eapply Xm; [|by apply members_of|]|done..].
Qed.

Lemma curated_composition_accepts source_schema curated key members v :
  exact_limits source_schema = true -> exact_limits (VObject curated) = true ->
  curated_composition_is_accepted accepts source_schema curated members = true ->
  JsonSchema.members curated key = Some members -> key = "oneOf" \/ key = "anyOf" ->
  valid (VObject curated) v -> valid source_schema v.
Proof.
  unfold curated_composition_is_accepted. intros Xs Xc H Hm Hk Hv%valid_holds.
  apply andb_true_iff in H as [_ H]. rewrite forallb_forall in H.
  assert (Hex : Exists (fun c => valid c v) members).
  { destruct Hk as [-> | ->]; [|by eapply holds_any].
    destruct (holds_one _ _ _ _ Hv _ Hm) as (l1 & c & l2 & -> & Hc & _). apply List.Exists_exists.
    exists c. split; [apply in_elt|done]. }
  apply List.Exists_exists in Hex as (c & Hin & Hc). eapply accepts_sound; [done|by eapply exact_members|by apply H|done].
Qed.
End AcceptStep.

(** A schema with a reference has no other constraint. *)
Lemma only_reference source reference target key :
  access_source_reference_target document source = Ok (Some (reference, target)) ->
  access_source_annotation_keyword key = false -> key <> "$ref" -> bt_get key source = None.
Proof.
  unfold access_source_reference_target. destruct (bt_get "$ref" source); [|done]. intros [H _]%guard_ok Ha Hk.
  destruct (bt_get key source) eqn:E; [exfalso|done].
  rewrite existsb_Forall, List.Forall_forall in H. assert (Hin : In key (bt_keys source)) by (apply bt_get_keys; by rewrite E).
  specialize (H _ Hin). rewrite Ha in H. cbn [negb] in H. rewrite andb_true_r in H. by rewrite neqb_false in H.
Qed.

Lemma referenced_holds source reference target v :
  access_source_reference_target document source = Ok (Some (reference, target)) ->
  valid target v -> holds keyword document source v.
Proof.
  intros Hr Hv. pose proof (fun key => only_reference _ _ _ key Hr) as Hno.
  assert (Hg : forall key, contains (supported_keywords ++ ["$ref"])%list key = true -> key <> "$ref" -> bt_get key source = None).
  { intros key Hk Hne. apply Hno; [|done]. unfold contains in Hk. apply existsb_exists in Hk as (k & Hin & <-%eqb_eq).
    revert Hne. repeat (destruct Hin as [<-|Hin]; [intros _; reflexivity|]). destruct Hin. }
  assert (Hm : forall key, contains supported_keywords key = true -> members source key = None).
  { intros key Hk. unfold members. rewrite Hg; [done|..].
    - rewrite contains_true in *. apply elem_of_app. by left.
    - intros ->. by vm_compute in Hk. }
  constructor.
  - unfold JsonSchema.plain_ok, type_ok, enum_ok, const_ok, open_ok, at_least, at_most, lower_ok, upper_ok, required_ok.
    rewrite !Hg by done. by destruct v.
  - intros t Ht. rewrite (reference_resolves _ _ _ Hr) in Ht. by injection Ht as <-.
  - intros l items _ Hi. by rewrite Hg in Hi.
  - intros m _. apply Forall_forall. intros [c x] (k & _ & Hk)%governed_in. unfold member_schema in Hk.
    by rewrite !Hg in Hk.
  - intros l Hl. by rewrite Hm in Hl.
  - intros l Hl. by rewrite Hm in Hl.
  - intros l Hl. by rewrite Hm in Hl.
Qed.

(** Whatever the curated schema allows, a source that accepts it allows. *)
Lemma accepts_curated_sound levels : forall active source curated v,
  exact_limits document = true -> exact_limits source = true -> exact_limits curated = true ->
  source_schema_accepts_curated document levels active source curated = true ->
  valid curated v -> valid source v.
Proof.
  induction levels as [|levels IH]; [done|]. intros active source_schema curated_schema v Xd Xs Xc.
  cbn [source_schema_accepts_curated].
  destruct source_schema as [| | | | |source]; cbn [as_object]; try done.
  destruct (access_source_reference_target document source) as [[[reference target]|]|] eqn:Er; [| |done].
  - intros [_ H]%andb_true_iff Hv. apply holds_valid.
    eapply referenced_holds; [exact Er|]. refine (IH _ _ _ v Xd _ Xc H Hv).
    apply reference_resolves in Er. unfold resolve in Er. destruct (obind (bt_get "$ref" source) as_str); [|done].
    cbn [obind] in Er. destruct (strip_prefix "#" _); [|done]. exact (exact_limits_pointer _ _ _ Xd Er).
  - destruct (access_source_schema_uses_supported_keywords source); cbn [negb]; [|done].
    destruct curated_schema as [| | | | |curated]; cbn [as_object]; try done.
    assert (IHa : forall s c w, exact_limits s = true -> exact_limits c = true ->
              source_schema_accepts_curated document levels active s c = true ->
              valid c w -> valid s w) by (intros s c w; exact (IH active s c w Xd)).
    assert (IHd : forall s c w, source_schema_is_provably_disjoint document levels active s c = true ->
              valid c w -> invalid s w) by (intros s c w; apply provably_disjoint_sound).
    destruct (schema_composition_members curated "oneOf") as [one|] eqn:E1; [|done].
    destruct (schema_composition_members curated "anyOf") as [any|] eqn:E2; [|by destruct one].
    destruct one as [one|], any as [any|]; try done.
    + intros H. eapply (curated_composition_accepts _ IHa); [done|done|exact H|by apply members_of|by left].
    + intros H. eapply (curated_composition_accepts _ IHa); [done|done|exact H|by apply members_of|by right].
    + destruct (bt_get "allOf" curated); cbn [is_someb]; [done|].
      intros [Hd Hc]%andb_true_iff Hv. apply holds_valid. pose proof (valid_holds _ _ _ _ Hv) as Hcur.
      destruct (direct_accepts _ IHa _ _ _ Xs Xc Hd Hcur) as (H1 & H2 & H3).
      destruct (compositions_accept _ _ IHa IHd _ _ _ Xs Xc Hc Hv) as (H4 & H5 & H6).
      constructor; try done. intros target Ht. by rewrite (no_reference _ Er) in Ht.
Qed.
End Soundness.

(** ** The properties *)


(** Schemas the search proves disjoint have no value in common, so at most
    one alternative of a [oneOf] can accept a curated body. *)
Theorem disjoint_schemas_share_no_value keyword document levels active source_schema curated_schema v :
  KeywordRespects keyword ->
  source_schema_is_provably_disjoint document levels active source_schema curated_schema = true ->
  valid keyword document curated_schema v -> ~ valid keyword document source_schema v.
Proof.
  intros Hk H Hc Hs. eapply valid_not_invalid; [exact Hs|]. by eapply provably_disjoint_sound.
Qed.

(** Integer limits are compared as binary64: a curated minimum of 2^53 passes a
    source minimum of 2^53 + 1, and 2^53 is valid for the one and not for the
    other. *)
Example limits_beyond_2_53_are_rounded :
  let source := jobj [("type", VString "integer"); ("minimum", VNumber (PosInt 9007199254740993))] in
  let curated := jobj [("type", VString "integer"); ("minimum", VNumber (PosInt 9007199254740992))] in
  let body := VNumber (PosInt 9007199254740992) in
  source_schema_accepts_curated VNull MAX_ACCESS_SOURCE_SCHEMA_DEPTH [] source curated = true /\
  exact_limits source = false /\ exact_limits curated = true /\
  (forall keyword, validate keyword VNull 2 curated body = Some true /\ validate keyword VNull 2 source body = Some false).
Proof. vm_compute. done. Qed.

Section Witnesses.
Definition app_variant (kind : string) (more : list (string * Value)) : Value :=
  jobj [("type", VString "object"); ("required", VArray [VString "type"]);
        ("properties", jobj (("type", jobj [("type", VString "string"); ("enum", VArray [VString kind])]) :: more))].

Definition sample_document : Value :=
  jobj [("components", jobj [("schemas", jobj [("App", jobj [("oneOf", VArray
    [app_variant "saas" [];
     app_variant "self_hosted" [("domain", jobj [("type", VString "string"); ("maxLength", VNumber (PosInt 64))]);
       ("ttl", jobj [("type", VString "number"); ("minimum", VNumber (Float (FFinite false 8444249301319680 (-47))))])]])])])])].

Definition sample_source : Value := jobj [("$ref", VString "#/components/schemas/App")].

Definition sample_curated : Value :=
  jobj [("type", VString "object"); ("required", VArray [VString "type"; VString "domain"]);
        ("additionalProperties", VBool false);
        ("properties", jobj
          [("type", jobj [("type", VString "string"); ("const", VString "self_hosted")]);
           ("domain", jobj [("type", VString "string"); ("maxLength", VNumber (PosInt 32))]);
           ("ttl", jobj [("type", VString "integer"); ("minimum", VNumber (PosInt 60))])])].

Definition sample_app_body : Value :=
  jobj [("type", VString "self_hosted"); ("domain", VString "app.example.test"); ("ttl", VNumber (PosInt 9007199254740993))].

Definition any_keyword (key : string) (c v : Value) : bool := true.

Lemma any_keyword_respects : KeywordRespects any_keyword.
Proof. done. Qed.

(** The alternative with another type rejects the body, so exactly one holds. *)
Example sample_is_valid : validate any_keyword sample_document 8 sample_source sample_app_body = Some true.
Proof. vm_compute. reflexivity. Qed.


Lemma disjoint_schemas_share_no_value_witness :
  ~ valid any_keyword sample_document (app_variant "saas" []) sample_app_body.
Proof.
  refine (disjoint_schemas_share_no_value any_keyword sample_document 32 [] (app_variant "saas" []) sample_curated
            sample_app_body any_keyword_respects _ _).
  - vm_compute. reflexivity.
  - exists 8. vm_compute. reflexivity.
Defined.
End Witnesses.
