(* ===== verification/CloudflareErrors.v ===== *)
(** The errors of the Cloudflare adapter (cfctl-cloudflare/src/lib.rs,
    [CloudflareError]) and their messages. The variants that wrap another error
    (URL, HTTP, JSON, file and core errors) are left out, since no definition
    here returns them. *)

From Stdlib Require Import String ZArith.
From stdpp Require Import base strings.
From S2P Require Import Prelude Strings.

Open Scope string_scope.

Inductive CloudflareError : Type :=
| MissingSelector (name : string)
| MissingHeaderSelector (name : string)
| InvalidSelector (name : string)
| InvalidSelectorObject
| UndeclaredSelector (name : string)
| InvalidSelectorSchema (name reason : string)
| InvalidQueryObject
| UndeclaredQuerySelector (name : string)
| MissingQuerySelector (name : string)
| InvalidQuerySelector (name expected : string)
| InvalidQuerySelectorSchema (name reason : string)
| UnsupportedQuerySerialization (name reason : string)
| MissingRequestBody (id : string)
| InvalidRequestBody (reason : string)
| InvalidAnalyticsQuery (reason : string)
| InvalidR2LogRetrieval (reason : string)
| R2LogCredentialsRequired
| R2LogOutputFileRequired
| GraphqlSchemaDrift (pointer : string)
| UnsupportedResponseContract (reason : string)
| UnexpectedResponseMediaType (status : Z) (received : string)
| InvalidResponseEnvelope (status : Z)
| Mln0143ResponseClassification (status : Z) (classification : string)
| UnexpectedSuccessStatus (status : Z) (expected : string)
| UnexpectedResponseBody (status received_bytes : Z)
| ApprovedPlanRequired (id : string)
| D1ImportProviderFailure
| D1ImportUploadResponseIntegrityFailure
| D1ImportInitResponseFailure
| D1ImportIngestResponseFailure
| D1ImportPollResponseFailure
| D1ImportPollInProgressExhausted
| InvalidEventBatchPlan (capability_id : string)
| InvalidBaseUrl
| InvalidMethod (method : string)
| InvalidAuthenticationHeader
| InvalidConditionalHeader
| ReservedHeaderSelector (name : string)
| InvalidHeaderSelector (name : string)
| PaginationLimit (pages : Z)
| PaginationMetadataInvalid
| PaginationMetadataDiagnostic (summary : string)
| QueueConsumersSinglePageMetadataInvalid (reason : string)
| PaginationCountMismatch (expected actual : Z)
| PaginationCursorLoop
| PaginationCursorMetadataMissing
| CatalogDrift (planned current : string)
| UnsupportedVerificationStrategy (strategy : string)
| MissingVerificationTarget (target : string).

(** [to_string], from the messages of the variants. *)
Definition show_error (e : CloudflareError) : string :=
  match e with
  | MissingSelector name => "selector `" ++ name ++ "` is required to construct the request path"
  | MissingHeaderSelector name => "catalog header selector `" ++ name ++ "` is required"
  | InvalidSelector name => "selector `" ++ name ++ "` must be a string, number, or boolean"
  | InvalidSelectorObject => "selector input must be an object of catalog-declared path, header, or target controls"
  | UndeclaredSelector name => "selector `" ++ name ++ "` is not declared by the catalog capability or request path"
  | InvalidSelectorSchema name reason =>
      "catalog selector `" ++ name ++ "` does not satisfy its pinned schema: " ++ reason
  | InvalidQueryObject => "query input must be an object of catalog-declared controls"
  | UndeclaredQuerySelector name => "query control `" ++ name ++ "` is not declared by the catalog capability"
  | MissingQuerySelector name => "catalog query control `" ++ name ++ "` is required"
  | InvalidQuerySelector name expected => "catalog query control `" ++ name ++ "` must have type `" ++ expected ++ "`"
  | InvalidQuerySelectorSchema name reason =>
      "catalog query control `" ++ name ++ "` does not satisfy its pinned schema: " ++ reason
  | UnsupportedQuerySerialization name reason =>
      "catalog query control `" ++ name ++ "` uses unsupported serialization: " ++ reason
  | MissingRequestBody id => "required request body is missing for capability `" ++ id ++ "`"
  | InvalidRequestBody reason => "request body does not satisfy the pinned schema: " ++ reason
  | InvalidAnalyticsQuery reason => "analytics query violates its bounded read contract: " ++ reason
  | InvalidR2LogRetrieval reason => "R2 log retrieval violates its bounded read contract: " ++ reason
  | R2LogCredentialsRequired => "R2 log retrieval requires an out-of-band credential bundle"
  | R2LogOutputFileRequired => "R2 log retrieval requires a new mode-0600 output file"
  | GraphqlSchemaDrift pointer =>
      "GraphQL Analytics response drifted from the pinned contract at `" ++ pointer ++ "`"
  | UnexpectedResponseMediaType status received =>
      "Cloudflare returned HTTP " ++ show_Z status ++ " with response media `" ++ received
      ++ "`, which is not declared by the pinned success contract"
  | InvalidResponseEnvelope status =>
      "Cloudflare returned HTTP " ++ show_Z status ++ " without the pinned JSON success envelope"
  | Mln0143ResponseClassification status classification =>
      "MLN 0143 invariant read returned an untrusted provider response classification `" ++ classification
      ++ "` at HTTP " ++ show_Z status
  | UnexpectedSuccessStatus status expected =>
      "Cloudflare returned successful HTTP " ++ show_Z status
      ++ ", which is not in the pinned response statuses: " ++ expected
  | UnexpectedResponseBody status received_bytes =>
      "Cloudflare returned HTTP " ++ show_Z status ++ " with " ++ show_Z received_bytes
      ++ " body bytes despite the pinned empty response contract"
  | D1ImportProviderFailure => "D1 import provider reported terminal failure after the mutation boundary"
  | D1ImportUploadResponseIntegrityFailure => "D1 import upload response failed its integrity contract"
  | D1ImportInitResponseFailure => "D1 import init returned a known rejected or invalid provider response"
  | D1ImportIngestResponseFailure => "D1 import ingest returned a known rejected or invalid provider response"
  | D1ImportPollResponseFailure => "D1 import poll returned a known rejected or invalid provider response"
  | D1ImportPollInProgressExhausted => "D1 import remained active after the approved poll bound"
  | InvalidEventBatchPlan capability_id =>
      "plan or capability `" ++ capability_id ++ "` is not an exact consumed event batch contract"
  | InvalidMethod method => "invalid HTTP method `" ++ method ++ "`"
  | InvalidAuthenticationHeader => "invalid authentication header"
  | UnsupportedResponseContract reason => "catalog response contract is unsupported by the executor: " ++ reason
  | ApprovedPlanRequired id => "capability `" ++ id ++ "` mutates state and requires a consumable approved plan"
  | InvalidBaseUrl => "Cloudflare API base URL cannot accept path segments"
  | InvalidConditionalHeader => "invalid conditional request header"
  | ReservedHeaderSelector name =>
      "catalog header selector `" ++ name ++ "` is reserved and cannot be set through selectors"
  | InvalidHeaderSelector name => "catalog header selector `" ++ name ++ "` has an invalid name or value"
  | PaginationLimit pages =>
      "Cloudflare reported " ++ show_Z pages ++ " pages, above the governed pagination limit"
  | PaginationMetadataInvalid => "Cloudflare page pagination metadata is invalid or internally inconsistent"
  | PaginationMetadataDiagnostic summary =>
      "Cloudflare page pagination metadata is invalid or internally inconsistent (" ++ summary ++ ")"
  | QueueConsumersSinglePageMetadataInvalid reason =>
      "Cloudflare queue-consumer single-page metadata failed the body-free `" ++ reason ++ "` check"
  | PaginationCountMismatch expected actual =>
      "Cloudflare page pagination result count " ++ show_Z actual ++ " did not match the declared total count "
      ++ show_Z expected
  | PaginationCursorLoop => "Cloudflare cursor pagination repeated a cursor; completion cannot be proven"
  | PaginationCursorMetadataMissing => "Cloudflare cursor pagination omitted cursor metadata before completion"
  | CatalogDrift planned current =>
      "approved plan pins catalog " ++ planned ++ ", but the current catalog is " ++ current
  | UnsupportedVerificationStrategy strategy =>
      "verification strategy `" ++ strategy ++ "` is not implemented by the selected adapter"
  | MissingVerificationTarget target => "verification target is missing from the mutation result: " ++ target
  end.
