(* ===== verification/DecimalMultiple.v ===== *)
(** [multipleOf] in the request validator (cfctl-cloudflare/src/lib.rs,
    [exact_decimal_multiple] and what it calls): whether one decimal is a
    multiple of another, decided on 128-bit coefficients and 32-bit exponents
    with no rounding. Before it, the decimal renderings of integers: only
    digits, and read back. *)

From Stdlib Require Import String Ascii ZArith Lia List Bool Znumtheory.
From stdpp Require Import base numbers option list strings pretty.
From S2P Require Import Prelude Strings Bytes Btree Json JsonOps.

Open Scope cf_scope.
Open Scope string_scope.
Local Open Scope Z_scope.
Open Scope cf_scope.

(** ** Renderings of integers *)

Lemma digit_char x : (x < 10)%N ->
  is_ascii_digit (pretty_N_char x) = true /\ Z.of_N (byte (pretty_N_char x) - 48) = Z.of_N x.
Proof.
  intros Hx. assert (x = 0 \/ x = 1 \/ x = 2 \/ x = 3 \/ x = 4 \/ x = 5 \/ x = 6 \/ x = 7 \/ x = 8 \/ x = 9)%N
    as H by lia. repeat destruct H as [-> | H]; try (by split). by subst x.
Qed.

Lemma pretty_go_read x : forall s, bytes_all is_ascii_digit s = true ->
  bytes_all is_ascii_digit (pretty_N_go x s) = true /\
  (String.length s <= String.length (pretty_N_go x s))%nat /\
  digits_value 0 (pretty_N_go x s) = digits_value (Z.of_N x) s.
Proof.
  induction (N.lt_wf_0 x) as [x _ IH]; intros s Hs.
  destruct (N.eq_0_gt_0_cases x) as [->|Hx]; [by rewrite pretty_N_go_0|].
  rewrite pretty_N_go_step by done.
  destruct (digit_char (x mod 10) (N.mod_lt _ 10 ltac:(done))) as [Hd Hv].
  destruct (IH (x / 10)%N (N.div_lt x 10 Hx eq_refl) (String (pretty_N_char (x mod 10)) s)) as (H1 & H2 & H3).
  { cbn. by rewrite Hd. }
  split; [done|]. split; [etransitivity; [|exact H2]; cbn; lia|]. rewrite H3. cbn [digits_value]. rewrite Hv. f_equal.
  pose proof (N.div_mod x 10 ltac:(done)). lia.
Qed.

(** A natural number prints as a non-empty string of digits that reads back. *)
Lemma show_Z_digits z : 0 <= z ->
  bytes_all is_ascii_digit (show_Z z) = true /\ is_empty (show_Z z) = false /\ digits_value 0 (show_Z z) = z.
Proof.
  intros Hz. destruct z as [|p|p]; [done| |lia]. unfold show_Z, pretty, pretty_Z, pretty, pretty_positive, pretty, pretty_N.
  destruct (decide (N.pos p = 0%N)); [done|].
  destruct (pretty_go_read (N.pos p) "" eq_refl) as (H1 & H2 & H3). split; [done|]. split; [|exact H3].
  by destruct (pretty_N_go (N.pos p) "").
Qed.

Lemma show_Z_negative z : z < 0 -> show_Z z = ("-" ++ show_Z (- z))%string.
Proof. destruct z; [lia|lia|done]. Qed.

Lemma show_Z_inj a b : show_Z a = show_Z b -> a = b.
Proof. apply pretty_Z_inj. Qed.

(** ** The decimal a number is *)

(** [f64]'s shortest decimal, as serde_json prints it. *)
Class FloatDisplay : Type := float_display : finite_f64 -> string.

Record DecimalMagnitude : Type := mkDecimalMagnitude { coefficient : Z; exponent : Z }.

(** [s.split_once(p)] at the first character that [p] holds of. *)
Fixpoint split_once (p : ascii -> bool) (s : string) : option (string * string) :=
  match s with
  | EmptyString => None
  | String a s =>
      if p a then Some (EmptyString, s)
      else match split_once p s with Some (l, r) => Some (String a l, r) | None => None end
  end.

Definition checked_i32 (z : Z) : option Z :=
  if (- 2 ^ 31 <=? z)%Z && (z <? 2 ^ 31)%Z then Some z else None.

(** [str::parse::<i32>] *)
Definition parse_i32 (s : string) : option Z :=
  let '(sign, digits) :=
    match strip_prefix "-" s with
    | Some d => (-1, d)
    | None => match strip_prefix "+" s with Some d => (1, d) | None => (1, s) end
    end in
  if is_empty digits || negb (bytes_all is_ascii_digit digits) then None
  else checked_i32 (sign * digits_value 0 digits).

(** The loop that takes the tens out of the coefficient: a 128-bit number has
    fewer than [S tens] of them. *)
Definition tens : nat := 40.
Fixpoint strip_tens (fuel : nat) (coefficient exponent : Z) : option DecimalMagnitude :=
  match fuel with
  | O => None
  | S fuel =>
      if (coefficient mod 10 =? 0)%Z
      then obind (checked_i32 (exponent + 1)) (strip_tens fuel (coefficient / 10))
      else Some (mkDecimalMagnitude coefficient exponent)
  end.

Section Display.
Context `{FloatDisplay}.

Definition number_to_string (n : Number) : string :=
  match n with PosInt z | NegInt z => show_Z z | Float f => float_display f end.

(** What [decimal_magnitude] reads off a rendering. *)
Definition read_magnitude (rendered : string) : option DecimalMagnitude :=
  let unsigned :=
    match strip_prefix "-" rendered with
    | Some s => s
    | None => default rendered (strip_prefix "+" rendered)
    end in
  obind (match split_once (fun a => (a =? "e"%char) || (a =? "E"%char)) unsigned with
         | Some (mantissa, exponent) => option_map (fun e => (mantissa, e)) (parse_i32 exponent)
         | None => Some (unsigned, 0)
         end) (fun '(mantissa, explicit_exponent) =>
  let '(whole, fraction) := default (mantissa, EmptyString) (split_once (fun a => a =? "."%char) mantissa) in
  if is_empty whole || negb (bytes_all is_ascii_digit whole) || negb (bytes_all is_ascii_digit fraction) then None
  else
    obind (parse_unsigned 128 (whole ++ fraction)%string) (fun coefficient =>
    obind (checked_i32 (Z.of_nat (String.length fraction))) (fun fractional_digits =>
    obind (checked_i32 (explicit_exponent - fractional_digits)) (fun exponent =>
    if (coefficient =? 0)%Z then Some (mkDecimalMagnitude coefficient 0)
    else strip_tens tens coefficient exponent)))).

Definition decimal_magnitude (number : Number) : option DecimalMagnitude :=
  read_magnitude (number_to_string number).

(** ** Euclid's loop and the powers of a factor *)

(** Twice the bits of the smaller operand are steps enough. *)
Definition euclid_steps : nat := 258.
Fixpoint greatest_common_divisor (fuel : nat) (left right : Z) : Z :=
  match fuel with
  | O => left
  | S fuel => if (right =? 0)%Z then left else greatest_common_divisor fuel right (left mod right)
  end.

Fixpoint remove_factor_loop (fuel : nat) (value factor count : Z) : Z * Z :=
  match fuel with
  | O => (value, count)
  | S fuel =>
      if (value mod factor =? 0)%Z
      then remove_factor_loop fuel (value / factor) factor (Z.min (count + 1) (2 ^ 32 - 1))
      else (value, count)
  end.
(** The callers' values are positive 128-bit numbers. *)
Definition remove_factor (value factor : Z) : Z * Z := remove_factor_loop 129 value factor 0.

(** [exact_decimal_multiple] on the magnitudes. *)
Definition magnitude_multiple (value divisor : DecimalMagnitude) : option bool :=
  if (coefficient value =? 0)%Z then Some true
  else
    let common := greatest_common_divisor euclid_steps (coefficient value) (coefficient divisor) in
    let numerator := coefficient value / common in
    let denominator := coefficient divisor / common in
    obind (checked_i32 (exponent value - exponent divisor)) (fun exponent_difference =>
    if (0 <=? exponent_difference)%Z then
      let '(denominator, twos) := remove_factor denominator 2 in
      let '(denominator, fives) := remove_factor denominator 5 in
      Some ((denominator =? 1)%Z && (twos <=? exponent_difference)%Z && (fives <=? exponent_difference)%Z)
    else
      let required_tens := Z.abs exponent_difference in
      let '(_, twos) := remove_factor numerator 2 in
      let '(_, fives) := remove_factor numerator 5 in
      Some ((required_tens <=? twos)%Z && (required_tens <=? fives)%Z)).

Definition exact_decimal_multiple (number multiple : Number) : option bool :=
  obind (decimal_magnitude number) (fun value =>
  obind (decimal_magnitude multiple) (fun divisor =>
  if (coefficient divisor =? 0)%Z || starts_with (number_to_string multiple) "-" then None
  else magnitude_multiple value divisor)).
End Display.

(** ** The loops compute what they are for *)

Lemma gcd_steps k : forall fuel left right,
  0 <= left -> 0 <= right < 2 ^ Z.of_nat k -> (2 * k + 1 <= fuel)%nat ->
  greatest_common_divisor fuel left right = Z.gcd left right.
Proof.
  induction k as [|k IH]; intros fuel l r Hl Hr Hf.
  - assert (r = 0) as -> by (cbn in Hr; lia). destruct fuel; [lia|]. cbn. rewrite Z.gcd_0_r, Z.abs_eq; lia.
  - destruct fuel as [|[|fuel]]; [lia|lia|]. cbn [greatest_common_divisor].
    destruct (Z.eqb_spec r 0) as [->|Hr0]; [rewrite Z.gcd_0_r, Z.abs_eq; lia|].
    pose proof (Z.mod_pos_bound l r ltac:(lia)) as Hm.
    rewrite <- (Z.gcd_comm r l), <- Z.gcd_mod, Z.gcd_comm by lia.
    destruct (Z.eqb_spec (l mod r) 0) as [E|E]; [rewrite E, Z.gcd_0_r, Z.abs_eq; lia|].
    rewrite <- (Z.gcd_comm (l mod r) r), <- Z.gcd_mod, Z.gcd_comm by lia.
    apply IH; [lia| |lia]. pose proof (Z.mod_pos_bound r (l mod r) ltac:(lia)). split; [lia|].
    rewrite Nat2Z.inj_succ, Z.pow_succ_r in Hr by lia.
    assert (r mod (l mod r) <= r - (l mod r)); [|lia].
    rewrite (Z.mod_eq r (l mod r)) by lia. assert (1 <= r / (l mod r)) by (apply Z.div_le_lower_bound; lia). nia.
Qed.

Lemma euclid_gcd left right :
  0 <= left -> 0 <= right < 2 ^ 128 -> greatest_common_divisor euclid_steps left right = Z.gcd left right.
Proof. intros Hl Hr. apply (gcd_steps 128); [done|exact Hr|]. unfold euclid_steps. lia. Qed.

Lemma remove_factor_spec factor k : 2 <= factor -> forall fuel value count,
  0 < value < 2 ^ Z.of_nat k -> (k < fuel)%nat -> 0 <= count -> count + Z.of_nat k < 2 ^ 32 ->
  exists rest n, remove_factor_loop fuel value factor count = (rest, count + n) /\
    0 <= n /\ value = rest * factor ^ n /\ rest mod factor <> 0 /\ 0 < rest.
Proof.
  intros Hf. induction k as [|k IH]; intros fuel value count Hv Hk Hc Hcount; [cbn in Hv; lia|].
  destruct fuel as [|fuel]; [lia|]. cbn [remove_factor_loop].
  destruct (Z.eqb_spec (value mod factor) 0) as [E|E].
  - apply Z.mod_divide in E as [q ->]; [|lia]. rewrite Z.div_mul by lia. rewrite Z.min_l by lia.
    rewrite Nat2Z.inj_succ in *. rewrite Z.pow_succ_r in Hv by lia.
    destruct (IH fuel q (count + 1)) as (rest & n & -> & Hn & Hq & Hm & Hr); [nia|lia..|].
    exists rest, (n + 1). split_and!; try done; [f_equal; lia|lia|].
    rewrite Z.pow_add_r by lia. rewrite Hq. ring.
  - exists value, 0. rewrite Z.add_0_r, Z.pow_0_r, Z.mul_1_r. split_and!; try done; lia.
Qed.

Lemma remove_factor_ok value factor :
  2 <= factor -> 0 < value < 2 ^ 128 ->
  exists rest n, remove_factor value factor = (rest, n) /\ 0 <= n /\ value = rest * factor ^ n /\
    rest mod factor <> 0 /\ 0 < rest.
Proof.
  intros Hf Hv. destruct (remove_factor_spec factor 128 Hf 129 value 0) as (rest & n & E & H); [exact Hv|lia..|].
  exists rest, n. by rewrite Z.add_0_l in E.
Qed.

Lemma prime_5 : Z.prime 5.
Proof. split; [lia|]. intros n Hn Hd%Z.mod_divide; [|lia]. assert (n = 2 \/ n = 3 \/ n = 4) as [->|[->| ->]] by lia; discriminate. Qed.

Lemma coprime_of_mod p a : Z.prime p -> a mod p <> 0 -> Z.coprime a p.
Proof.
  intros Hp Ha. unfold Z.coprime. rewrite Z.gcd_comm. apply Z.coprime_prime_l; [done|].
  rewrite <- Z.mod_divide; [done|]. destruct Hp. lia.
Qed.

Lemma power_divides p q e d :
  2 <= p -> 0 <= e -> 0 <= d -> Z.coprime p q -> (p ^ e | p ^ d * q ^ d) -> e <= d.
Proof.
  intros Hp He Hd Hpq Hdv. rewrite Z.mul_comm in Hdv.
  apply Z.gauss in Hdv; [|by apply Z.coprime_pow_l, Z.coprime_pow_r].
  apply Z.divide_pos_le in Hdv; [|by apply Z.pow_pos_nonneg; lia].
  apply (Z.pow_le_mono_r_iff p); lia.
Qed.

(** A product of powers of 2 and 5 and of something prime to both divides a
    power of ten exactly when it is one and the powers fit. *)
Lemma divides_power_of_ten rest twos fives d :
  0 < rest -> rest mod 2 <> 0 -> rest mod 5 <> 0 -> 0 <= twos -> 0 <= fives -> 0 <= d ->
  (rest * 5 ^ fives * 2 ^ twos | 10 ^ d) <-> rest = 1 /\ twos <= d /\ fives <= d.
Proof.
  intros Hr H2 H5 Ht Hf Hd. assert (E10 : 10 ^ d = 2 ^ d * 5 ^ d) by (rewrite <- Z.pow_mul_l; done). split.
  - intros Hdiv.
    assert (Hone : (rest | 1)).
    { apply (Z.gauss rest (10 ^ d) 1).
      - rewrite Z.mul_1_r. etransitivity; [|exact Hdiv]. exists (5 ^ fives * 2 ^ twos). ring.
      - apply Z.coprime_pow_r; [done|]. change 10 with (2 * 5).
        apply Z.coprime_mul_r; apply coprime_of_mod; [apply Z.prime_2|done|apply prime_5|done]. }
    apply Z.divide_1_r_nonneg in Hone; [|lia]. subst rest. split; [done|]. split.
    + apply (power_divides 2 5); [lia|done|done|reflexivity|]. rewrite <- E10. etransitivity; [|exact Hdiv].
      exists (5 ^ fives). ring.
    + apply (power_divides 5 2); [lia|done|done|reflexivity|]. rewrite Z.mul_comm, <- E10.
      etransitivity; [|exact Hdiv]. exists (2 ^ twos). ring.
  - intros (-> & Hlt & Hlf). rewrite E10. exists (2 ^ (d - twos) * 5 ^ (d - fives)).
    replace (2 ^ d) with (2 ^ (d - twos) * 2 ^ twos) by (rewrite <- Z.pow_add_r by lia; f_equal; lia).
    replace (5 ^ d) with (5 ^ (d - fives) * 5 ^ fives) by (rewrite <- Z.pow_add_r by lia; f_equal; lia). ring.
Qed.

(** ** Multiples, exactly *)

(** [value] is an integer multiple of [divisor] as decimals, both brought to
    the smaller exponent. *)
Definition multiple_of (value divisor : DecimalMagnitude) : Prop :=
  let low := Z.min (exponent value) (exponent divisor) in
  (coefficient divisor * 10 ^ (exponent divisor - low) | coefficient value * 10 ^ (exponent value - low)).

(** A magnitude as [decimal_magnitude] leaves it: no tens in the coefficient. *)
Definition reduced (m : DecimalMagnitude) : Prop :=
  coefficient m = 0 \/ 0 < coefficient m < 2 ^ 128 /\ coefficient m mod 10 <> 0.

Lemma multiple_when_shifted c q d :
  0 < c < 2 ^ 128 -> 0 < q < 2 ^ 128 -> 0 <= d ->
  forall twos fives rest rest5,
  remove_factor (q / Z.gcd c q) 2 = (rest, twos) -> remove_factor rest 5 = (rest5, fives) ->
  (q | c * 10 ^ d) <-> rest5 = 1 /\ twos <= d /\ fives <= d.
Proof.
  intros Hc Hq Hd twos fives rest rest5 E2 E5.
  assert (Hg : 0 < Z.gcd c q) by (pose proof (Z.gcd_nonneg c q); pose proof (Z.gcd_eq_0_l c q); lia).
  destruct (Z.gcd_divide_l c q) as [n Hn]. destruct (Z.gcd_divide_r c q) as [m Hm].
  set (g := Z.gcd c q) in *. assert (Hmq : q / g = m) by (rewrite Hm at 1; apply Z.div_mul; lia).
  assert (Hm0 : 0 < m < 2 ^ 128) by nia. rewrite Hmq in E2.
  assert (Hco : Z.gcd m n = 1).
  { assert (g * Z.gcd m n = g * 1); [|nia]. rewrite <- Z.gcd_mul_mono_l_nonneg by lia.
    rewrite Z.mul_1_r, !(Z.mul_comm g), <- Hm, <- Hn. unfold g. apply Z.gcd_comm. }
  destruct (remove_factor_ok m 2) as (r2 & t & E2' & Ht & Em & Hr2 & Pr2); [lia|done|].
  rewrite E2 in E2'. injection E2' as <- <-.
  assert (Hb : 0 < rest < 2 ^ 128) by (split; [done|]; pose proof (Z.pow_pos_nonneg 2 twos); nia).
  destruct (remove_factor_ok rest 5) as (r5 & f & E5' & Hf & Er & Hr5 & Pr5); [lia|done|].
  rewrite E5 in E5'. injection E5' as <- <-.
  assert (Hr52 : rest5 mod 2 <> 0).
  { rewrite Er in Hr2. intros H0. apply Hr2. rewrite Z.mul_mod, H0 by lia. reflexivity. }
  rewrite <- (divides_power_of_ten rest5 twos fives d) by done. rewrite <- Er, <- Em. clearbody g. clear E2 E5 Em Er Hmq. split.
  - intros [k Hk]. apply (Z.gauss _ n); [|done]. exists k. nia.
  - intros [k Hk]. exists (n * k). nia.
Qed.

Lemma strip_tens_reduced fuel : forall k c e m,
  0 < c < 10 ^ Z.of_nat k -> (k <= fuel)%nat -> strip_tens fuel c e = Some m ->
  0 < coefficient m <= c /\ coefficient m mod 10 <> 0 /\ exponent m >= e /\
  c = coefficient m * 10 ^ (exponent m - e).
Proof.
  induction fuel as [|fuel IH]; intros k c e m Hc Hk; [done|]. cbn [strip_tens].
  destruct (Z.eqb_spec (c mod 10) 0) as [E|E].
  - unfold checked_i32. destruct (_ && _); [|done]. cbn [obind]. intros Hm.
    apply Z.mod_divide in E as [q ->]; [|lia]. rewrite Z.div_mul in Hm by lia.
    destruct k as [|k]; [cbn in Hc; lia|]. rewrite Nat2Z.inj_succ, Z.pow_succ_r in Hc by lia.
    destruct (IH k q (e + 1) m) as (H1 & H2 & H3 & H4); [lia|lia|done|].
    split; [lia|]. split; [done|]. split; [lia|]. rewrite H4 at 1.
    replace (exponent m - e) with (exponent m - (e + 1) + 1) by lia. rewrite Z.pow_add_r by lia. ring.
  - intros [= <-]. cbn. rewrite Z.sub_diag, Z.pow_0_r, Z.mul_1_r. repeat split; try done; lia.
Qed.

Section Exact.
Context `{FloatDisplay}.

Lemma magnitude_reduced n m : decimal_magnitude n = Some m -> reduced m.
Proof.
  unfold decimal_magnitude, read_magnitude. generalize (number_to_string n) as text. intros text.
  destruct (match split_once _ _ with Some _ => _ | None => _ end) as [[mantissa e]|]; cbn [obind]; [|done].
  destruct (default _ _) as [whole fraction]. destruct (_ || _ || _); [done|].
  unfold parse_unsigned. destruct (_ || _); cbn [obind]; [done|].
  destruct (digits_value 0 _ <? 2 ^ 128)%Z eqn:El; cbn [obind]; [|done]. apply Z.ltb_lt in El.
  set (c := digits_value 0 _) in *.
  unfold checked_i32 at 1. destruct (_ && _); cbn [obind]; [|done].
  unfold checked_i32 at 1. destruct (_ && _); cbn [obind]; [|done].
  assert (Hc : 0 <= c).
  { unfold c. generalize (whole ++ fraction)%string as t. intros t.
    assert (Hv : forall t acc, 0 <= acc -> 0 <= digits_value acc t).
    { clear. induction t as [|a t IH]; intros acc Ha; cbn; [done|]. apply IH. lia. }
    by apply Hv. }
  destruct (Z.eqb_spec c 0) as [E|E]; [intros [= <-]; by left|]. intros Hm.
  apply (strip_tens_reduced tens 39) in Hm as (H1 & H2 & _).
  - right. split; [lia|done].
  - split; [lia|]. etransitivity; [exact El|reflexivity].
  - unfold tens. lia.
Qed.

Lemma magnitudes_exact v d b :
  reduced v -> reduced d -> coefficient d <> 0 -> magnitude_multiple v d = Some b ->
  b = true <-> multiple_of v d.
Proof.
  intros Hv Hd Hd0. destruct Hd as [?|[Bd Td]]; [done|]. unfold magnitude_multiple, multiple_of.
  destruct (Z.eqb_spec (coefficient v) 0) as [E|E].
  { intros [= <-]. rewrite E, Z.mul_0_l. split; [|done]. intros _. apply Z.divide_0_r. }
  destruct Hv as [?|[Bv Tv]]; [done|]. rewrite euclid_gcd by lia. unfold checked_i32.
  destruct (_ && _); cbn [obind]; [|done].
  destruct (Z.leb_spec 0 (exponent v - exponent d)) as [Hle|Hlt].
  - destruct (remove_factor _ 2) as [rest twos] eqn:E2. destruct (remove_factor rest 5) as [rest5 fives] eqn:E5.
    intros [= <-]. rewrite Z.min_r by lia. rewrite Z.sub_diag, Z.pow_0_r, Z.mul_1_r.
    rewrite (multiple_when_shifted _ _ _ Bv Bd Hle _ _ _ _ E2 E5).
    rewrite !andb_true_iff, Z.eqb_eq, !Z.leb_le. tauto.
  - set (r := Z.abs (exponent v - exponent d)) in *. assert (Hr : 1 <= r) by lia.
    set (n := coefficient v / _). intros Hb. rewrite Z.min_l by lia.
    rewrite Z.sub_diag, Z.pow_0_r, Z.mul_1_r. replace (exponent d - exponent v) with r by lia.
    assert (Hten : forall c, 0 < c -> (10 ^ r | c) -> c mod 10 = 0).
    { intros c Hc [k ->]. replace r with (1 + (r - 1)) by lia. rewrite Z.pow_add_r, Z.pow_1_r by lia.
      replace (k * (10 * 10 ^ (r - 1))) with (k * 10 ^ (r - 1) * 10) by ring. apply Z.mod_mul. lia. }
    assert (Hno : ~ (coefficient d * 10 ^ r | coefficient v)).
    { intros Hdv. apply Tv, Hten; [lia|]. etransitivity; [|exact Hdv]. apply Z.divide_factor_r. }
    split; [|done]. intros ->. exfalso.
    assert (Hg : 0 < Z.gcd (coefficient v) (coefficient d))
      by (pose proof (Z.gcd_nonneg (coefficient v) (coefficient d)); pose proof (Z.gcd_eq_0_l (coefficient v) (coefficient d)); lia).
    destruct (Z.gcd_divide_l (coefficient v) (coefficient d)) as [q Hq].
    assert (Hn : n = q) by (unfold n; rewrite Hq at 1; apply Z.div_mul; lia).
    assert (Hnb : 0 < n < 2 ^ 128) by (rewrite Hn; nia).
    destruct (remove_factor_ok n 2 ltac:(lia) Hnb) as (r2 & t & E2 & Ht & En2 & _ & _).
    destruct (remove_factor_ok n 5 ltac:(lia) Hnb) as (r5 & f & E5 & Hf & En5 & _ & _).
    rewrite E2, E5 in Hb. injection Hb as Hb. apply andb_true_iff in Hb as [Ht2%Z.leb_le Hf5%Z.leb_le].
    apply Tv, Z.mod_divide; [lia|].
    transitivity n; [|rewrite Hn; exists (Z.gcd (coefficient v) (coefficient d)); lia]. change 10 with (2 * 5).
    assert (D2 : (2 | n)).
    { rewrite En2. replace t with (1 + (t - 1)) by lia. rewrite Z.pow_add_r, Z.pow_1_r by lia.
      exists (r2 * 2 ^ (t - 1)). ring. }
    assert (D5 : (5 | n)).
    { rewrite En5. replace f with (1 + (f - 1)) by lia. rewrite Z.pow_add_r, Z.pow_1_r by lia.
      exists (r5 * 5 ^ (f - 1)). ring. }
    destruct D2 as [a Ha]. rewrite Ha in D5. rewrite Z.mul_comm in D5.
    apply Z.gauss in D5 as [c ->]; [|reflexivity]. exists c. rewrite Ha. ring.
Qed.

(** *** Integers are read exactly *)

Lemma digits_no_prefix c s : bytes_all is_ascii_digit s = true -> is_ascii_digit c = false ->
  strip_prefix (String c EmptyString) s = None.
Proof.
  intros Hs Hc. destruct s as [|a s]; [done|]. cbn in *. apply andb_true_iff in Hs as [Ha _].
  destruct (c =? a) eqn:E; [|done]. apply eqb_eq in E as ->. congruence.
Qed.

Lemma digits_no_split p s : bytes_all is_ascii_digit s = true -> (forall a, is_ascii_digit a = true -> p a = false) ->
  split_once p s = None.
Proof.
  intros Hs Hp. induction s as [|a s IH]; [done|]. cbn in *. apply andb_true_iff in Hs as [Ha Hs].
  by rewrite (Hp _ Ha), (IH Hs).
Qed.

Lemma not_digit_other c : is_ascii_digit c = false -> forall a, is_ascii_digit a = true -> (a =? c) = false.
Proof. intros Hc a Ha. apply eqb_false. intros ->. congruence. Qed.

Lemma strip_tens_total fuel : forall k c e,
  0 < c < 10 ^ Z.of_nat k -> (k < fuel)%nat -> 0 <= e -> e + Z.of_nat k < 2 ^ 31 ->
  exists m, strip_tens fuel c e = Some m.
Proof.
  induction fuel as [|fuel IH]; intros k c e Hc Hk He Hb; [lia|]. cbn [strip_tens].
  destruct (Z.eqb_spec (c mod 10) 0) as [E|E]; [|by eexists].
  apply Z.mod_divide in E as [q ->]; [|lia]. rewrite Z.div_mul by lia.
  destruct k as [|k]; [cbn in Hc; lia|]. rewrite Nat2Z.inj_succ, Z.pow_succ_r in * by lia.
  unfold checked_i32. destruct (Z.leb_spec (- 2 ^ 31) (e + 1)); [|lia]. destruct (Z.ltb_spec (e + 1) (2 ^ 31)); [|lia].
  cbn [andb obind]. apply (IH k); lia.
Qed.

Lemma integer_magnitude z : 0 <= z < 2 ^ 128 ->
  exists m, decimal_magnitude (PosInt z) = Some m /\ 0 <= exponent m /\ z = coefficient m * 10 ^ exponent m.
Proof.
  intros Hz. destruct (show_Z_digits z) as (Hd & Hne & Hv); [lia|].
  unfold decimal_magnitude, read_magnitude. cbn [number_to_string].
  rewrite (digits_no_prefix "-" _ Hd), (digits_no_prefix "+" _ Hd) by done. cbn [default].
  rewrite (digits_no_split _ _ Hd).
  2:{ intros a Ha. by rewrite !not_digit_other by done. }
  cbn [obind]. rewrite (digits_no_split _ _ Hd) by (by apply not_digit_other). cbn [default].
  rewrite Hne, Hd. cbn [bytes_all negb orb]. rewrite str_app_nil.
  unfold parse_unsigned. rewrite Hne, Hd, Hv. cbn [negb orb].
  destruct (Z.ltb_spec z (2 ^ 128)); [|lia]. cbn [obind String.length]. change (checked_i32 (Z.of_nat 0)) with (Some 0).
  cbn [obind]. change (checked_i32 (0 - 0)) with (Some 0). cbn [obind].
  destruct (Z.eqb_spec z 0) as [->|Hz0]; [by eexists|].
  assert (Hk : 0 < z < 10 ^ Z.of_nat 39) by (split; [lia|]; etransitivity; [apply Hz|reflexivity]).
  destruct (strip_tens_total tens 39 z 0 Hk) as [m Hm]; [unfold tens; lia|done|done|].
  assert (Ht : (39 <= tens)%nat) by (unfold tens; lia).
  destruct (strip_tens_reduced _ _ _ _ _ Hk Ht Hm) as (_ & _ & He & Hc).
  exists m. split; [exact Hm|]. rewrite Z.sub_0_r in Hc. split; [lia|done].
Qed.

Lemma multiple_of_integers a b v d :
  0 <= exponent v -> 0 <= exponent d -> a = coefficient v * 10 ^ exponent v -> b = coefficient d * 10 ^ exponent d ->
  multiple_of v d <-> (b | a).
Proof.
  intros Hv Hd -> ->. unfold multiple_of. set (low := Z.min (exponent v) (exponent d)).
  assert (Hl : 0 <= low) by lia. assert (Hp : 0 < 10 ^ low) by (apply Z.pow_pos_nonneg; lia).
  replace (10 ^ exponent v) with (10 ^ low * 10 ^ (exponent v - low)) by (rewrite <- Z.pow_add_r by lia; f_equal; lia).
  replace (10 ^ exponent d) with (10 ^ low * 10 ^ (exponent d - low)) by (rewrite <- Z.pow_add_r by lia; f_equal; lia).
  rewrite !(Z.mul_comm (10 ^ low)), !Z.mul_assoc. split; intros [k Hk]; exists k; nia.
Qed.

Lemma small_exponent m z :
  0 < coefficient m -> 0 <= exponent m -> z = coefficient m * 10 ^ exponent m -> z < 2 ^ 64 -> exponent m < 128.
Proof.
  intros Hc He Hz Hb. apply (Z.pow_lt_mono_r_iff 10); [lia|lia|]. apply Z.le_lt_trans with (2 ^ 64); [|reflexivity]. nia.
Qed.

(** [multipleOf] is decided exactly. An answer of the validator says
    whether the number is an integer multiple of the bound as decimals, with no
    rounding, whatever their exponents; and on integers there always is one. *)
Theorem multiples_are_decided_exactly :
  (forall number multiple answer, exact_decimal_multiple number multiple = Some answer ->
     exists v d, decimal_magnitude number = Some v /\ decimal_magnitude multiple = Some d /\
       0 < coefficient d /\ (answer = true <-> multiple_of v d)) /\
  (forall a b, 0 <= a < 2 ^ 64 -> 0 < b < 2 ^ 64 ->
     exact_decimal_multiple (PosInt a) (PosInt b) = Some (a mod b =? 0)%Z).
Proof.
  assert (H1 : forall number multiple answer, exact_decimal_multiple number multiple = Some answer ->
     exists v d, decimal_magnitude number = Some v /\ decimal_magnitude multiple = Some d /\
       0 < coefficient d /\ (answer = true <-> multiple_of v d)).
  { intros number multiple answer. unfold exact_decimal_multiple.
    destruct (decimal_magnitude number) as [v|] eqn:Ev; cbn [obind]; [|done].
    destruct (decimal_magnitude multiple) as [d|] eqn:Ed; cbn [obind]; [|done].
    destruct (Z.eqb_spec (coefficient d) 0) as [E|E]; cbn [orb]; [done|].
    destruct (starts_with _ _); [done|]. intros Hm.
    pose proof (magnitude_reduced _ _ Ev) as Rv. pose proof (magnitude_reduced _ _ Ed) as Rd.
    exists v, d. split_and!; try done; [|by apply magnitudes_exact]. destruct Rd as [?|[? _]]; [done|lia]. }
  split; [exact H1|]. intros a b Ha Hb.
  destruct (integer_magnitude a) as (v & Ev & Xv & Va); [lia|].
  destruct (integer_magnitude b) as (d & Ed & Xd & Vb); [lia|].
  assert (Hsome : exists answer, exact_decimal_multiple (PosInt a) (PosInt b) = Some answer).
  { unfold exact_decimal_multiple. rewrite Ev, Ed. cbn [obind].
    destruct (Z.eqb_spec (coefficient d) 0) as [E|E]; [rewrite E in Vb; lia|]. cbn [orb number_to_string].
    destruct (show_Z_digits b) as (Hdig & _); [lia|]. unfold starts_with.
    rewrite (digits_no_prefix "-" _ Hdig) by done. cbn [is_someb]. unfold magnitude_multiple.
    destruct (coefficient v =? 0)%Z eqn:E0; [by eexists|].
    apply Z.eqb_neq in E0.
    pose proof (magnitude_reduced _ _ Ev) as [?|[Pv _]]; [done|].
    pose proof (magnitude_reduced _ _ Ed) as [?|[Pd _]]; [done|].
    pose proof (small_exponent v a ltac:(lia) Xv Va ltac:(lia)).
    pose proof (small_exponent d b ltac:(lia) Xd Vb ltac:(lia)).
    unfold checked_i32. destruct (Z.leb_spec (- 2 ^ 31) (exponent v - exponent d)); [|lia].
    destruct (Z.ltb_spec (exponent v - exponent d) (2 ^ 31)); [|lia]. cbn [andb obind].
    destruct (0 <=? _)%Z.
    - destruct (remove_factor _ 2), (remove_factor _ 5). by eexists.
    - destruct (remove_factor _ 2), (remove_factor _ 5). by eexists. }
  destruct Hsome as [answer Hans]. rewrite Hans. f_equal.
  destruct (H1 _ _ _ Hans) as (v' & d' & Ev' & Ed' & _ & Hiff). rewrite Ev in Ev'. injection Ev' as <-.
  rewrite Ed in Ed'. injection Ed' as <-. rewrite (multiple_of_integers a b v d Xv Xd Va Vb) in Hiff.
  apply eq_true_iff_eq. rewrite Hiff, Z.eqb_eq. symmetry. apply Z.mod_divide. lia.
Qed.
End Exact.

Lemma multiples_are_decided_exactly_witness :
  @exact_decimal_multiple (fun _ => "0.5") (PosInt 12) (PosInt 5) = Some (12 mod 5 =? 0).
Proof. refine (proj2 (@multiples_are_decided_exactly (fun _ => "0.5")) 12 5 _ _); split; lia || reflexivity. Defined.

(** Decimals that binary64 would round: 0.3 is a multiple of 0.1. *)
Example tenths : magnitude_multiple (mkDecimalMagnitude 3 (-1)) (mkDecimalMagnitude 1 (-1)) = Some true.
Proof. vm_compute. reflexivity. Qed.
