(* ===== verification/RequestFormats.v ===== *)
(** The string formats the request validator knows (cfctl-cloudflare/src/lib.rs,
    [validate_string_format] and request_dates.rs), with the address parsers of
    [std::net]. *)

From Stdlib Require Import String Ascii ZArith Lia List Bool.
From stdpp Require Import base option list strings.
From S2P Require Import Prelude Strings Btree Json JsonOps DecimalMultiple.

Open Scope cf_scope.
Open Scope string_scope.
Open Scope cf_scope.

(** chrono's parsers, as far as success goes. *)
Class DateParsers : Type := {
  parse_from_rfc3339 : string -> bool;
  naive_date_from_str : string -> bool;
}.

Definition is_ascii_whitespace (a : ascii) : bool := contains [32; 9; 10; 12; 13]%N (byte a).
Definition is_ascii_control (a : ascii) : bool := (byte a <? 32)%N || (byte a =? 127)%N.
Definition is_ascii (s : string) : bool := bytes_all (fun a => byte a <? 128)%N s.

(** The byte at each index satisfies [p]. *)
Fixpoint bytes_all_at (p : nat -> ascii -> bool) (index : nat) (s : string) : bool :=
  match s with
  | EmptyString => true
  | String a s => p index a && bytes_all_at p (S index) s
  end.

(** ** Dates *)

(** [request_dates::parse] *)
Definition date_parses `{DateParsers} (value : string) : bool :=
  (String.length value =? 10)
  && bytes_all_at (fun index b =>
       if contains [4; 7] index then b =? "-"%char else is_ascii_digit b) 0 value
  && naive_date_from_str value.

(** ** Names and addresses of mail *)

Definition is_ascii_email_atext (b : ascii) : bool :=
  is_ascii_alphanumeric b
  || contains (list_ascii_of_string "!#$%&'*+-/=?^_`{|}~") b.

Definition first_byte (p : ascii -> bool) (s : string) : bool :=
  match s with String a _ => p a | EmptyString => false end.
Fixpoint final_byte (p : ascii -> bool) (s : string) : bool :=
  match s with
  | EmptyString => false
  | String a EmptyString => p a
  | String _ s => final_byte p s
  end.

(** [value.strip_suffix('.')] *)
Fixpoint strip_final (c : ascii) (s : string) : option string :=
  match s with
  | EmptyString => None
  | String a EmptyString => if a =? c then Some EmptyString else None
  | String a s => option_map (String a) (strip_final c s)
  end.

Definition is_valid_hostname (value : string) : bool :=
  if value =? "." then true
  else
    let hostname := default value (strip_final "." value) in
    negb (is_empty hostname) && (String.length hostname <=? 253)%nat
    && forallb (fun label =>
         negb (is_empty label) && (String.length label <=? 63)%nat
         && bytes_all (fun b => is_ascii_alphanumeric b || (b =? "-"%char)) label
         && first_byte is_ascii_alphanumeric label && final_byte is_ascii_alphanumeric label)
         (split_on "." hostname).

Definition is_valid_ascii_email (value : string) : bool :=
  if negb (is_ascii value) || (254 <? String.length value)%nat
     || bytes_any (fun b => is_ascii_whitespace b || is_ascii_control b) value
  then false
  else
    match split_once (fun a => a =? "@"%char) value with
    | None => false
    | Some (local, domain) =>
        if is_empty local || (64 <? String.length local)%nat || is_empty domain
           || bytes_any (fun a => a =? "@"%char) domain || (domain =? ".") || ends_with domain "."
        then false
        else forallb (fun atom => negb (is_empty atom) && bytes_all is_ascii_email_atext atom)
               (split_on "." local)
             && is_valid_hostname domain
    end.

(** ** Identifiers *)

Definition is_valid_cloudflare_uuid (value : string) : bool :=
  if String.length value =? 32 then bytes_all is_ascii_hexdigit value
  else (String.length value =? 36)
       && bytes_all_at (fun index b =>
            if contains [8; 13; 18; 23] index then b =? "-"%char else is_ascii_hexdigit b) 0 value.

(** ** [Ipv4Addr::from_str] and [Ipv6Addr::from_str]

    A parser returns what it leaves of the input. *)

Definition given_char (c : ascii) (s : string) : option string :=
  match s with String a s => if a =? c then Some s else None | EmptyString => None end.

(** The digits at the front, at most [max] of them. *)
Fixpoint take_digits (digit : ascii -> bool) (max : nat) (s : string) : string * string :=
  match max, s with
  | S max, String a s' =>
      if digit a then let '(d, r) := take_digits digit max s' in (String a d, r) else (EmptyString, s)
  | _, _ => (EmptyString, s)
  end.

(** An octet: no leading zero, at most 255. A fourth digit is left in place and
    fails what follows. *)
Definition read_octet (s : string) : option string :=
  let '(d, r) := take_digits is_ascii_digit 3 s in
  if is_empty d || (first_byte is_ascii_digit r)
     || (starts_with d "0" && (1 <? String.length d)%nat) || (255 <? digits_value 0 d)%Z
  then None else Some r.

(** [i]-th item of a list with a separator in front of all but the first. *)
Definition read_separator (c : ascii) (i : nat) (read : string -> option string) (s : string) : option string :=
  obind (if i =? 0 then Some s else given_char c s) read.

Definition read_ipv4 (s : string) : option string :=
  obind (read_separator "." 0 read_octet s) (fun s =>
  obind (read_separator "." 1 read_octet s) (fun s =>
  obind (read_separator "." 2 read_octet s) (read_separator "." 3 read_octet))).

(** One to four hexadecimal digits. *)
Definition read_group (s : string) : option string :=
  let '(d, r) := take_digits is_ascii_hexdigit 4 s in
  if is_empty d || first_byte is_ascii_hexdigit r then None else Some r.

(** [read_groups]: how many of [limit] groups were read, whether the last two
    were an IPv4 address, and what is left. *)
Fixpoint read_groups (steps i limit : nat) (s : string) : nat * bool * string :=
  match steps with
  | O => (i, false, s)
  | S steps =>
      match (if (i + 1 <? limit)%nat then read_separator ":" i read_ipv4 s else None) with
      | Some r => (i + 2, true, r)
      | None =>
          match read_separator ":" i read_group s with
          | Some r => read_groups steps (S i) limit r
          | None => (i, false, s)
          end
      end
  end.

Definition read_ipv6 (s : string) : option string :=
  let '(head, v4, r) := read_groups 8 0 8 s in
  if head =? 8 then Some r
  else if v4 then None
  else
    obind (given_char ":" r) (fun r =>
    obind (given_char ":" r) (fun r =>
    let limit := 8 - (head + 1) in
    let '(_, _, r) := read_groups limit 0 limit r in Some r)).

Definition ipv4_parses (s : string) : bool := (String.length s <=? 15)%nat && (read_ipv4 s =? Some EmptyString).
Definition ipv6_parses (s : string) : bool := read_ipv6 s =? Some EmptyString.

Example addresses :
  (ipv4_parses "192.168.0.1", ipv4_parses "192.168.00.1", ipv4_parses "1.2.3", ipv4_parses "256.1.1.1",
   ipv6_parses "2001:db8::1", ipv6_parses "::", ipv6_parses "::ffff:1.2.3.4", ipv6_parses "1:2:3:4:5:6:7:8",
   ipv6_parses "1:2:3:4:5:6:7:8:9", ipv6_parses "1::2::3", ipv6_parses "12345::")
  = (true, false, false, false, true, true, true, true, false, false, false).
Proof. reflexivity. Qed.

(** [match format { .. }] *)
Definition format_ok `{DateParsers} (format value : string) : bool :=
  if format =? "date" then date_parses value
  else if format =? "date-time" then parse_from_rfc3339 value
  else if format =? "email" then is_valid_ascii_email value
  else if format =? "hostname" then is_valid_hostname value
  else if format =? "ipv4" then ipv4_parses value
  else if format =? "ipv6" then ipv6_parses value
  else if format =? "cloudflare-uuid" then is_valid_cloudflare_uuid value
  else true.
