(* ===== verification/RequestValidation.v ===== *)
(** The validator of request bodies (cfctl-cloudflare/src/lib.rs,
    [validate_request_body] and what it calls): a body against the schema its
    capability pins, within a depth limit and a budget of steps, with the
    equality keys that find duplicates. *)

From Stdlib Require Import String Ascii ZArith Lia List Bool.
From Stdlib Require Import Floats.SpecFloat.
From stdpp Require Import base option list strings.
From S2P Require Import Prelude Strings Btree StringSet Json JsonOps JsonSchema CatalogTypes Capability.
From S2P Require Import CloudflareErrors DecimalMultiple RequestFormats.

Open Scope cf_scope.
Open Scope string_scope.
Open Scope cf_scope.

Definition MAX_REQUEST_VALIDATION_DEPTH : nat := 64.
Definition MAX_REQUEST_VALIDATION_STEPS : Z := 65536.
Definition REQUEST_VALIDATION_DEPTH_LIMIT_REASON : string := "pinned schema exceeds the validation depth limit".
Definition REQUEST_VALIDATION_WORK_LIMIT_REASON : string := "request body exceeds the pinned validation work limit".

(** The levels left at depth 0. *)
Definition all_depths : nat := S MAX_REQUEST_VALIDATION_DEPTH.

(** [&mut remaining_steps] *)
Definition Steps (A : Type) : Type := ST Z CloudflareError A.

Definition take_step : Steps unit := fun remaining_steps =>
  if (remaining_steps <? 1)%Z then (Err (InvalidRequestBody REQUEST_VALIDATION_WORK_LIMIT_REASON), remaining_steps)
  else (Ok tt, (remaining_steps - 1)%Z).

(** [match call { .. }] on the outcome of a call. *)
Definition outcome {A} (m : Steps A) : Steps (result CloudflareError A) :=
  fun remaining_steps => let '(r, s) := m remaining_steps in (Ok r, s).

(** ** Where an error is *)

Definition request_schema_location (path : string) : string :=
  if is_empty path then "top-level value" else ("property `" ++ path ++ "`")%string.
Definition request_property_path (parent property : string) : string :=
  if is_empty parent then property else (parent ++ "." ++ property)%string.
Definition bound_error (path reason : string) : CloudflareError :=
  InvalidRequestBody (request_schema_location path ++ " " ++ reason)%string.
Definition empty_composition (path composition : string) : CloudflareError :=
  InvalidRequestBody (request_schema_location path ++ " declares an empty pinned " ++ composition ++ " contract")%string.

Definition validation_error_aborts_composition (error : CloudflareError) : bool :=
  match error with
  | InvalidRequestBody reason =>
      (reason =? REQUEST_VALIDATION_DEPTH_LIMIT_REASON)
      || (reason =? REQUEST_VALIDATION_WORK_LIMIT_REASON)
      || str_contains reason "declares an empty pinned"
  | _ => false
  end.

(** ** Equality keys *)

(** The integer a float is, if it is one. *)
Definition float_integer (f : finite_f64) : option Z :=
  match f with
  | FZero _ => Some 0%Z
  | FFinite s m e =>
      if is_integral (Float f)
      then Some ((if s then -1 else 1) * (if (0 <=? e)%Z then Z.pos m * 2 ^ e else Z.pos m / 2 ^ (- e)))%Z
      else None
  end.

(** [value.to_bits()] of a canonical binary64. *)
Definition to_bits (f : finite_f64) : Z :=
  match f with
  | FZero s => if s then 2 ^ 63 else 0
  | FFinite s m e =>
      (if s then 2 ^ 63 else 0)
      + (if Z.pos m <? 2 ^ 52 then Z.pos m else (e + 1075) * 2 ^ 52 + (Z.pos m - 2 ^ 52))
  end%Z.

Definition hex_char (n : Z) : ascii := ascii_of_N (Z.to_N (if (n <? 10)%Z then 48 + n else 87 + n)).
Fixpoint hex_fixed (width : nat) (n : Z) : string :=
  match width with
  | O => EmptyString
  | S width => (hex_fixed width (n / 16) ++ String (hex_char (n mod 16)) EmptyString)%string
  end.

Definition schema_number_equality_key (number : Number) : string :=
  match number with
  | PosInt z | NegInt z => show_Z z
  | Float f =>
      match float_integer f with
      | Some z => if (- 2 ^ 63 <=? z)%Z && (z <? 2 ^ 64)%Z then show_Z z else ("f" ++ hex_fixed 16 (to_bits f))%string
      | None => ("f" ++ hex_fixed 16 (to_bits f))%string
      end
  end.

Definition append_length_prefixed_string (prefix : string) (value key : string) : string :=
  (key ++ prefix ++ show_Z (Z.of_nat (String.length value)) ++ ":" ++ value)%string.

Fixpoint append_schema_equality_key (levels : nat) (value : Value) (key : string) : Steps string :=
  match levels with
  | O => st_throw (InvalidRequestBody REQUEST_VALIDATION_DEPTH_LIMIT_REASON)
  | S levels =>
      do* take_step in
      match value with
      | VNull => st_ret (key ++ "z")%string
      | VBool b => st_ret (key ++ (if b then "b1" else "b0"))%string
      | VNumber n => st_ret (key ++ "n" ++ schema_number_equality_key n ++ ";")%string
      | VString s => st_ret (append_length_prefixed_string "s" s key)
      | VArray values =>
          let* key := (fix append (values : list Value) (key : string) : Steps string :=
            match values with
            | [] => st_ret key
            | v :: values => let* key := append_schema_equality_key levels v key in append values key
            end) values (key ++ "[")%string in
          st_ret (key ++ "]")%string
      | VObject values =>
          let* key := (fix append (entries : list (string * Value)) (key : string) : Steps string :=
            match entries with
            | [] => st_ret key
            | (name, v) :: entries =>
                let* key := append_schema_equality_key levels v (append_length_prefixed_string "k" name key) in
                append entries key
            end) values (key ++ "{")%string in
          st_ret (key ++ "}")%string
      end
  end.

Definition schema_equality_key (levels : nat) (value : Value) : Steps string :=
  append_schema_equality_key levels value "".

(** ** Property names *)

Fixpoint collect_composed_property_names (levels : nat) (schema : Value) (properties : str_set) : str_set :=
  match levels with
  | O => properties
  | S levels =>
      let properties := set_extend
        (default [] (option_map bt_keys (obind (vget "properties" schema) as_object))) properties in
      fold_left (fun properties composition =>
        fold_left (fun properties member => collect_composed_property_names levels member properties)
          (default [] (obind (vget composition schema) as_array)) properties)
        ["allOf"; "oneOf"; "anyOf"] properties
  end.

(** ** Bounds *)

Definition json_type_matches (value : Value) (expected : string) : bool :=
  if expected =? "object" then is_someb (as_object value)
  else if expected =? "array" then is_someb (as_array value)
  else if expected =? "string" then is_someb (as_str value)
  else if expected =? "number" then match value with VNumber _ => true | _ => false end
  else if expected =? "integer" then match value with VNumber (PosInt _ | NegInt _) => true | _ => false end
  else if expected =? "boolean" then is_boolean value
  else if expected =? "null" then is_null value
  else true.

Definition validate_length_bounds (schema : Value) (path : string) (length : Z)
    (units minimum_key maximum_key : string) : Steps unit :=
  do* st_guard (is_some_and (obind (vget minimum_key schema) as_u64) (fun minimum => (length <? minimum)%Z))
        (bound_error path ("has fewer " ++ units ++ " than the pinned " ++ minimum_key)%string) in
  st_guard (is_some_and (obind (vget maximum_key schema) as_u64) (fun maximum => (maximum <? length)%Z))
    (bound_error path ("has more " ++ units ++ " than the pinned " ++ maximum_key)%string).

(** The loop over the items of an array that must not repeat. *)
Fixpoint unique_items (levels : nat) (path : string) (array : list Value) (items : str_set) : Steps unit :=
  match array with
  | [] => st_ret tt
  | item :: array =>
      let* encoded := schema_equality_key levels item in
      do* st_guard (set_has encoded items)
            (bound_error path "contains duplicate items disallowed by the pinned schema") in
      unique_items levels path array (set_add encoded items)
  end.

(** One side of the numeric range: the bound, whether it excludes itself. *)
Definition exclusive_flag (key : string) (schema : Value) : bool :=
  default false (obind (vget key schema) as_bool).

Section Validator.
Context `{FloatDisplay, DateParsers}.

Definition validate_string_format (schema : Value) (value path : string) : Steps unit :=
  match obind (vget "format" schema) as_str with
  | None => st_ret tt
  | Some format =>
      st_guard (negb (format_ok format value))
        (bound_error path ("does not match the pinned " ++ format ++ " format")%string)
  end.

Definition validate_request_schema_bounds (levels : nat) (schema value : Value) (path : string) : Steps unit :=
  do* match vget "multipleOf" schema, value with
      | Some multiple, VNumber number =>
          st_guard (negb (default false (match multiple with
                     VNumber multiple => exact_decimal_multiple number multiple | _ => None end)))
            (bound_error path "is not a multiple of the pinned multipleOf value")
      | _, _ => st_ret tt
      end in
  do* match as_f64 value with
      | None => st_ret tt
      | Some number =>
          do* match obind (vget "minimum" schema) as_f64 with
              | None => st_ret tt
              | Some minimum =>
                  let exclusive := exclusive_flag "exclusiveMinimum" schema in
                  st_guard (SFltb number minimum || (exclusive && SFleb number minimum))
                    (bound_error path (if exclusive then "must be above the pinned minimum"
                                       else "is below the pinned minimum"))
              end in
          match obind (vget "maximum" schema) as_f64 with
          | None => st_ret tt
          | Some maximum =>
              let exclusive := exclusive_flag "exclusiveMaximum" schema in
              st_guard (SFltb maximum number || (exclusive && SFleb maximum number))
                (bound_error path (if exclusive then "must be below the pinned maximum"
                                   else "is above the pinned maximum"))
          end
      end in
  do* match value with
      | VString text =>
          do* validate_length_bounds schema path (char_count text) "characters" "minLength" "maxLength" in
          validate_string_format schema text path
      | _ => st_ret tt
      end in
  do* match value with
      | VArray array =>
          do* validate_length_bounds schema path (Z.of_nat (length array)) "items" "minItems" "maxItems" in
          if option_eqb Bool.eqb (obind (vget "uniqueItems" schema) as_bool) (Some true)
          then unique_items levels path array [] else st_ret tt
      | _ => st_ret tt
      end in
  match value with
  | VObject object =>
      validate_length_bounds schema path (Z.of_nat (length object)) "properties" "minProperties" "maxProperties"
  | _ => st_ret tt
  end.

(** ** Objects and compositions

    [inner] is [validate_request_schema_value_inner] one level deeper: schema,
    value, path and the properties it inherits. *)

Section Inner.
Context (inner : Value -> Value -> string -> str_set -> Steps unit).
Context (levels : nat).

Fixpoint check_required (path : string) (object : btree Value) (required : list Value) : Steps unit :=
  match required with
  | [] => st_ret tt
  | VString name :: required =>
      do* st_guard (negb (is_someb (bt_get name object)))
            (InvalidRequestBody ("missing required property `" ++ request_property_path path name ++ "`")%string) in
      check_required path object required
  | _ :: required => check_required path object required
  end.

Definition property_error (path what : string) : CloudflareError :=
  InvalidRequestBody ("object at `" ++ (if is_empty path then "request body" else path)
                      ++ "` contains a property " ++ what)%string.

Definition validate_member (properties : option (btree Value)) (additional : option Value) (path : string)
    (allowed_properties : str_set) (name : string) (value : Value) : Steps unit :=
  match obind properties (bt_get name) with
  | Some property => inner property value (request_property_path path name) []
  | None =>
      match additional with
      | Some (VBool false) => st_throw (property_error path "disallowed by the pinned schema")
      | Some (VObject schema) => inner (VObject schema) value path []
      | None =>
          st_guard (is_someb properties && negb (set_has name allowed_properties))
            (property_error path "outside the pinned contract")
      | _ => st_ret tt
      end
  end.

Fixpoint validate_members (properties : option (btree Value)) (additional : option Value) (path : string)
    (allowed_properties : str_set) (object : list (string * Value)) : Steps unit :=
  match object with
  | [] => st_ret tt
  | (name, value) :: object =>
      do* validate_member properties additional path allowed_properties name value in
      validate_members properties additional path allowed_properties object
  end.

Definition validate_request_object (schema : Value) (object : btree Value) (path : string)
    (allowed_properties : str_set) : Steps unit :=
  do* check_required path object (default [] (obind (vget "required" schema) as_array)) in
  validate_members (obind (vget "properties" schema) as_object) (vget "additionalProperties" schema)
    path allowed_properties object.

Fixpoint validate_items (items : Value) (path : string) (array : list Value) : Steps unit :=
  match array with
  | [] => st_ret tt
  | item :: array => do* inner items item path [] in validate_items items path array
  end.

Fixpoint validate_all_of (value : Value) (path : string) (inherited : str_set) (members : list Value) : Steps unit :=
  match members with
  | [] => st_ret tt
  | member :: members => do* inner member value path inherited in validate_all_of value path inherited members
  end.

Fixpoint count_one_of (value : Value) (path : string) (inherited distinct_members : str_set) (matches : Z)
    (members : list Value) : Steps Z :=
  match members with
  | [] => st_ret matches
  | member :: members =>
      let* equality_key := schema_equality_key levels member in
      if set_has equality_key distinct_members
      then count_one_of value path inherited distinct_members matches members
      else
        let distinct_members := set_add equality_key distinct_members in
        let* r := outcome (inner member value path inherited) in
        match r with
        | Ok _ => count_one_of value path inherited distinct_members (matches + 1)%Z members
        | Err error =>
            if validation_error_aborts_composition error then st_throw error
            else count_one_of value path inherited distinct_members matches members
        end
  end.

Fixpoint find_any_of (value : Value) (path : string) (inherited : str_set) (members : list Value) : Steps bool :=
  match members with
  | [] => st_ret false
  | member :: members =>
      let* r := outcome (inner member value path inherited) in
      match r with
      | Ok _ => st_ret true
      | Err error =>
          if validation_error_aborts_composition error then st_throw error
          else find_any_of value path inherited members
      end
  end.

Definition schema_members (schema : Value) (composition : string) : option (list Value) :=
  obind (vget composition schema) as_array.

(** The names the members of a composition declare, on top of the direct ones. *)
Definition with_composed (members : list Value) (direct_properties : str_set) : str_set :=
  fold_left (fun properties member => collect_composed_property_names all_depths member properties)
    members direct_properties.

Definition validate_schema_composition (schema value : Value) (path : string) (inherited : str_set) : Steps unit :=
  let direct_properties := set_extend
    (default [] (option_map bt_keys (obind (vget "properties" schema) as_object))) inherited in
  do* match schema_members schema "allOf" with
      | None => st_ret tt
      | Some members =>
          do* st_guard (is_nil members) (empty_composition path "allOf") in
          validate_all_of value path (with_composed members direct_properties) members
      end in
  do* match schema_members schema "oneOf" with
      | None => st_ret tt
      | Some members =>
          do* st_guard (is_nil members) (empty_composition path "oneOf") in
          let* matches := count_one_of value path direct_properties [] 0 members in
          st_guard (negb (matches =? 1)%Z)
            (bound_error path "must match exactly one pinned oneOf alternative")
      end in
  match schema_members schema "anyOf" with
  | None => st_ret tt
  | Some members =>
      do* st_guard (is_nil members) (empty_composition path "anyOf") in
      let* matches := find_any_of value path (with_composed members direct_properties) members in
      st_guard (negb matches) (bound_error path "must match at least one pinned anyOf alternative")
  end.
End Inner.

(** ** The validator *)

(** A null where the schema takes one. *)
Definition null_accepted (schema value : Value) : bool :=
  is_null value
  && (option_eqb Bool.eqb (obind (vget "nullable" schema) as_bool) (Some true)
      || is_some_and (obind (vget "enum" schema) as_array) (existsb (fun w => Value_eqb w value))).

Fixpoint validate_request_schema_value_inner (levels : nat) (schema value : Value) (path : string)
    (inherited_object_properties : str_set) : Steps unit :=
  match levels with
  | O => st_throw (InvalidRequestBody REQUEST_VALIDATION_DEPTH_LIMIT_REASON)
  | S levels =>
      let inner := validate_request_schema_value_inner levels in
      do* take_step in
      if null_accepted schema value then st_ret tt
      else
        do* match obind (vget "type" schema) as_str with
            | Some expected =>
                st_guard (negb (json_type_matches value expected))
                  (InvalidRequestBody (if is_empty path then ("expected top-level " ++ expected)%string
                                       else ("property `" ++ path ++ "` must be " ++ expected)%string))
            | None => st_ret tt
            end in
        do* st_guard (is_some_and (obind (vget "enum" schema) as_array)
                       (fun values => negb (existsb (fun w => Value_eqb w value) values)))
              (bound_error path "is not one of the pinned enum values") in
        do* validate_request_schema_bounds levels schema value path in
        do* match value with
            | VObject object =>
                validate_request_object inner schema object path
                  (collect_composed_property_names all_depths schema inherited_object_properties)
            | _ => st_ret tt
            end in
        do* match value, vget "items" schema with
            | VArray array, Some items => validate_items inner items path array
            | _, _ => st_ret tt
            end in
        validate_schema_composition inner levels schema value path inherited_object_properties
  end.

Definition validate_request_schema_value (schema value : Value) : result CloudflareError unit :=
  fst (validate_request_schema_value_inner all_depths schema value "" [] MAX_REQUEST_VALIDATION_STEPS).

Definition validate_request_body (capability : CapabilityV1) (body : option Value) : result CloudflareError unit :=
  match cap_request_schema capability with
  | None => Ok tt
  | Some schema =>
      guard (is_noneb body && default false (obind (vget "x-cfctl-body-required" schema) as_bool))
        (MissingRequestBody (cap_id capability)) (
      match body with
      | None => Ok tt
      | Some body => validate_request_schema_value schema body
      end)
  end.
End Validator.
