(* ===== verification/EqualityKeys.v ===== *)
(** The equality keys of the request validator tell values apart: two values
    have one key exactly when they are the same JSON value, integers and
    integral floats being the same number. *)

From Stdlib Require Import String Ascii ZArith Lia List Bool.
From Stdlib Require Import Floats.SpecFloat.
From stdpp Require Import base option list strings.
From S2P Require Import Prelude Strings Bytes Btree StringSet Json JsonOps JsonSchema FloatOrder DecimalMultiple.
From S2P Require Import CloudflareErrors RequestFormats RequestValidation.

Open Scope cf_scope.
Open Scope string_scope.
Local Open Scope Z_scope.
Open Scope cf_scope.

(** ** The key of a value, without the limits *)

Definition prefixed (prefix value : string) : string :=
  (prefix ++ show_Z (Z.of_nat (String.length value)) ++ ":" ++ value)%string.

Fixpoint encode (v : Value) : string :=
  match v with
  | VNull => "z"
  | VBool b => if b then "b1" else "b0"
  | VNumber n => ("n" ++ schema_number_equality_key n ++ ";")%string
  | VString s => prefixed "s" s
  | VArray l =>
      ("[" ++ (fix go (l : list Value) : string :=
         match l with [] => "" | v :: l => encode v ++ go l end) l ++ "]")%string
  | VObject m =>
      ("{" ++ (fix go (m : list (string * Value)) : string :=
         match m with [] => "" | e :: m => (prefixed "k" (fst e) ++ encode (snd e)) ++ go m end) m ++ "}")%string
  end.

Definition encode_items (l : list Value) : string := foldr (fun v s => encode v ++ s)%string "" l.
Definition encode_entries (m : list (string * Value)) : string :=
  foldr (fun e s => (prefixed "k" (fst e) ++ encode (snd e)) ++ s)%string "" m.

Lemma encode_array l : encode (VArray l) = ("[" ++ encode_items l ++ "]")%string.
Proof. reflexivity. Qed.
Lemma encode_object m : encode (VObject m) = ("{" ++ encode_entries m ++ "}")%string.
Proof. reflexivity. Qed.

Ltac key_assoc := rewrite ?str_app_assoc; reflexivity.

Lemma append_key_encodes levels : forall v key s k s',
  append_schema_equality_key levels v key s = (Ok k, s') -> k = (key ++ encode v)%string.
Proof.
  induction levels as [|levels IH]; intros v key s k s'; [done|]. cbn [append_schema_equality_key].
  unfold st_bind at 1, take_step. destruct (s <? 1); [done|].
  destruct v as [|b|n|t|l|m]; unfold st_ret; try (by intros [= <- _]).
  - unfold st_bind at 1.
    set (append := fix append (values : list Value) (key : string) : Steps string := _).
    assert (Ha : forall l key s k s', append l key s = (Ok k, s') -> k = (key ++ encode_items l)%string).
    { clear l key s k s'. induction l as [|v l IHl]; intros key s k s'.
      - unfold append, st_ret. intros [= <- _]. cbn. by rewrite str_app_nil.
      - cbn. unfold st_bind. destruct (append_schema_equality_key levels v key s) as [[k1|] s1] eqn:E; [|done].
        intros H. apply IHl in H as ->. apply IH in E as ->. key_assoc. }
    destruct (append l _ _) as [[k1|] s1] eqn:E; [|done]. intros [= <- _].
    apply Ha in E as ->. rewrite encode_array. key_assoc.
  - unfold st_bind at 1. set (append := fix append (entries : list (string * Value)) (key : string) : Steps string := _).
    assert (Ha : forall m key s k s', append m key s = (Ok k, s') -> k = (key ++ encode_entries m)%string).
    { clear m key s k s'. induction m as [|[name v] m IHm]; intros key s k s'.
      - unfold append, st_ret. intros [= <- _]. cbn. by rewrite str_app_nil.
      - cbn. unfold st_bind. destruct (append_schema_equality_key levels v _ s) as [[k1|] s1] eqn:E; [|done].
        intros H. apply IHm in H as ->. apply IH in E as ->. unfold append_length_prefixed_string, prefixed. key_assoc. }
    destruct (append m _ _) as [[k1|] s1] eqn:E; [|done]. intros [= <- _].
    apply Ha in E as ->. rewrite encode_object. key_assoc.
Qed.

(** ** Numbers *)

(** Integers and integral floats in the range of the integers are one kind of
    number. *)
Definition norm_number (n : Number) : Number :=
  match n with
  | PosInt z | NegInt z => PosInt z
  | Float f =>
      match float_integer f with
      | Some z => if (- 2 ^ 63 <=? z) && (z <? 2 ^ 64) then PosInt z else Float f
      | None => Float f
      end
  end.

Definition canonical_number (n : Number) : bool :=
  match n with Float f => canonical_float f | _ => true end.
Fixpoint canonical (v : Value) : bool :=
  match v with
  | VNumber n => canonical_number n
  | VArray l => forallb canonical l
  | VObject m => forallb (fun e => canonical (snd e)) m
  | _ => true
  end.

Lemma to_bits_range f : canonical_float f = true -> 0 <= to_bits f < 2 ^ 64.
Proof.
  destruct f as [[]|s m e]; cbn [canonical_float to_bits]; [done|done|].
  intros (Hm & He & Hc)%bounded_cases. destruct (Z.ltb_spec (Z.pos m) (2 ^ 52)), s; lia.
Qed.

Lemma to_bits_inj f g : canonical_float f = true -> canonical_float g = true ->
  to_bits f = to_bits g -> f = g.
Proof.
  destruct f as [s|s m e], g as [s'|s' m' e']; cbn [canonical_float to_bits].
  - by destruct s, s'.
  - intros _ (Hm & He & Hc)%bounded_cases. destruct (Z.ltb_spec (Z.pos m') (2 ^ 52)), s, s'; lia.
  - intros (Hm & He & Hc)%bounded_cases _. destruct (Z.ltb_spec (Z.pos m) (2 ^ 52)), s, s'; lia.
  - intros (Hm & He & Hc)%bounded_cases (Hm' & He' & Hc')%bounded_cases E.
    assert (H : s = s' /\ Z.pos m = Z.pos m' /\ e = e').
    { destruct (Z.ltb_spec (Z.pos m) (2 ^ 52)), (Z.ltb_spec (Z.pos m') (2 ^ 52)), s, s'; lia. }
    destruct H as (-> & [= ->] & ->). done.
Qed.

Lemma hex_char_inj a b : 0 <= a < 16 -> 0 <= b < 16 -> hex_char a = hex_char b -> a = b.
Proof.
  intros Ha Hb. unfold hex_char. intros E. apply (f_equal N_of_ascii) in E.
  rewrite !N_ascii_embedding in E by (destruct (a <? 10), (b <? 10); lia).
  destruct (Z.ltb_spec a 10), (Z.ltb_spec b 10); lia.
Qed.

Lemma hex_fixed_length w n : String.length (hex_fixed w n) = w.
Proof.
  revert n. induction w as [|w IH]; intros n; [done|]. cbn [hex_fixed].
  rewrite str_length_app, IH. cbn. lia.
Qed.

(** Two strings of one length that start the same text. *)
Lemma app_same_length a b r r' :
  String.length a = String.length b -> (a ++ r = b ++ r')%string -> a = b /\ r = r'.
Proof.
  revert b. induction a as [|x a IH]; intros [|y b]; try done. intros [= El] E.
  change (String x (a ++ r) = String y (b ++ r'))%string in E. injection E as -> E.
  destruct (IH b El E) as [-> ->]. done.
Qed.

Lemma hex_fixed_inj w : forall a b, 0 <= a < 16 ^ Z.of_nat w -> 0 <= b < 16 ^ Z.of_nat w ->
  hex_fixed w a = hex_fixed w b -> a = b.
Proof.
  induction w as [|w IH]; intros a b Ha Hb; [cbn in *; lia|]. cbn [hex_fixed].
  rewrite Nat2Z.inj_succ, Z.pow_succ_r in Ha, Hb by lia. intros E.
  apply app_same_length in E as [E1 E2]; [|by rewrite !hex_fixed_length].
  injection E2 as E2. apply hex_char_inj in E2; [|apply Z.mod_pos_bound; lia..].
  apply IH in E1; [|split; [apply Z.div_pos; lia|apply Z.div_lt_upper_bound; lia]..].
  pose proof (Z.div_mod a 16). pose proof (Z.div_mod b 16). lia.
Qed.

(** A text up to the first occurrence of a character. *)
Lemma app_until c a b r r' :
  bytes_all (fun x => negb (x =? c)) a = true -> bytes_all (fun x => negb (x =? c)) b = true ->
  (a ++ String c r = b ++ String c r')%string -> a = b /\ r = r'.
Proof.
  revert b. induction a as [|x a IH]; intros [|y b]; cbn [bytes_all]; intros Ha Hb.
  - intros [= ->]. done.
  - intros E. change (String c r = String y (b ++ String c r'))%string in E. injection E as <- _.
    by rewrite eqb_refl in Hb.
  - intros E. change (String x (a ++ String c r) = String c r')%string in E. injection E as -> _.
    by rewrite eqb_refl in Ha.
  - apply andb_true_iff in Ha as [_ Ha], Hb as [_ Hb]. intros E.
    change (String x (a ++ String c r) = String y (b ++ String c r'))%string in E. injection E as -> E.
    destruct (IH b Ha Hb E) as [-> ->]. done.
Qed.

Lemma bytes_all_app p a b : bytes_all p (a ++ b) = bytes_all p a && bytes_all p b.
Proof.
  induction a as [|x a IH]; [done|]. change (p x && bytes_all p (a ++ b) = p x && bytes_all p a && bytes_all p b).
  by rewrite IH, andb_assoc.
Qed.

Lemma show_Z_without c z : is_ascii_digit c = false -> c <> "-"%char ->
  bytes_all (fun x => negb (x =? c)) (show_Z z) = true.
Proof.
  intros Hc Hm. assert (H : forall z, 0 <= z -> bytes_all (fun x => negb (x =? c)) (show_Z z) = true).
  { intros y Hy. destruct (show_Z_digits y Hy) as [Hd _]. eapply bytes_all_impl; [|exact Hd].
    intros a Ha. apply negb_true_iff. by apply not_digit_other. }
  destruct (Z.le_gt_cases 0 z); [by apply H|]. rewrite show_Z_negative, bytes_all_app by lia.
  rewrite H by lia. cbn. rewrite !andb_true_r. apply neqb_true. congruence.
Qed.

Lemma hex_fixed_without c w n : (forall k, 0 <= k < 16 -> hex_char k <> c) ->
  bytes_all (fun x => negb (x =? c)) (hex_fixed w n) = true.
Proof.
  intros Hc. revert n. induction w as [|w IH]; intros n; [done|]. cbn [hex_fixed].
  rewrite bytes_all_app, IH. cbn. rewrite andb_true_r. apply neqb_true, Hc, Z.mod_pos_bound. lia.
Qed.

Lemma number_key_norm n : schema_number_equality_key n =
  match norm_number n with
  | PosInt z | NegInt z => show_Z z
  | Float f => ("f" ++ hex_fixed 16 (to_bits f))%string
  end.
Proof. destruct n as [z|z|f]; cbn; try done. destruct (float_integer f) as [z|]; [|done]. by destruct (_ && _). Qed.

Lemma number_key_without n :
  bytes_all (fun x => negb (x =? ";"%char)) (schema_number_equality_key n) = true.
Proof.
  rewrite number_key_norm. destruct (norm_number n) as [z|z|f]; try (by apply show_Z_without).
  rewrite bytes_all_app, hex_fixed_without; [done|]. intros k Hk. unfold hex_char. intros E.
  apply (f_equal N_of_ascii) in E. rewrite N_ascii_embedding in E by (destruct (k <? 10); lia).
  cbn in E. destruct (Z.ltb_spec k 10); lia.
Qed.

Lemma show_Z_not_f z s : show_Z z <> String "f" s.
Proof.
  intros E. assert (H : bytes_all (fun x => negb (x =? "f"%char)) (show_Z z) = true) by (by apply show_Z_without).
  rewrite E in H. cbn in H. done.
Qed.

Lemma number_key_inj n m : canonical_number n = true -> canonical_number m = true ->
  schema_number_equality_key n = schema_number_equality_key m -> norm_number n = norm_number m.
Proof.
  intros Hn Hm. rewrite !number_key_norm.
  assert (Hc : forall n f, canonical_number n = true -> norm_number n = Float f -> canonical_float f = true).
  { intros [z|z|g] f Hg; try done. cbn. destruct (float_integer g) as [z|]; [destruct (_ && _)|]; try done; by intros [= <-]. }
  assert (Hp : forall n z, norm_number n <> NegInt z).
  { intros [z|z|g] y; try done. cbn. destruct (float_integer g) as [z|]; [destruct (_ && _)|]; done. }
  destruct (norm_number n) as [z|z|f] eqn:En; [|by destruct (Hp n z)|];
    destruct (norm_number m) as [y|y|g] eqn:Em; [|by destruct (Hp m y)| |  |by destruct (Hp m y)|].
  - by intros ->%show_Z_inj.
  - intros E. by destruct (show_Z_not_f _ _ E).
  - intros E. by destruct (show_Z_not_f y _ (eq_sym E)).
  - intros E. apply app_same_length in E as [_ E]; [|done]. pose proof (Hc n f Hn En) as Cf. pose proof (Hc m g Hm Em) as Cg. f_equal.
    apply to_bits_inj; [done..|].
    apply (hex_fixed_inj 16); [exact (to_bits_range f Cf)|exact (to_bits_range g Cg)|exact E].
Qed.

(** ** The keys are a prefix code *)

Fixpoint norm (v : Value) : Value :=
  match v with
  | VNumber n => VNumber (norm_number n)
  | VArray l => VArray (map norm l)
  | VObject m => VObject (map (fun e => (fst e, norm (snd e))) m)
  | _ => v
  end.

Lemma prefixed_inj p a b r r' :
  (prefixed p a ++ r = prefixed p b ++ r')%string -> a = b /\ r = r'.
Proof.
  unfold prefixed. rewrite !str_app_assoc. intros E. apply app_same_length in E as [_ E]; [|done].
  change (":" ++ a ++ r)%string with (String ":" (a ++ r)) in E.
  change (":" ++ b ++ r')%string with (String ":" (b ++ r')) in E.
  apply app_until in E as [E1 E2]; [|by apply show_Z_without..].
  apply show_Z_inj, Nat2Z.inj in E1. by apply app_same_length.
Qed.

Definition heads (v : Value) : ascii :=
  match v with
  | VNull => "z" | VBool _ => "b" | VNumber _ => "n" | VString _ => "s" | VArray _ => "[" | VObject _ => "{"
  end%char.
Definition tail_of (v : Value) : string :=
  match encode v with String _ s => s | EmptyString => EmptyString end.

Lemma encode_head v : encode v = String (heads v) (tail_of v).
Proof. unfold tail_of. destruct v as [|[]|n|t|l|m]; reflexivity. Qed.

Definition decodes (v : Value) : Prop := canonical v = true -> forall w r r',
  canonical w = true -> (encode v ++ r = encode w ++ r')%string -> norm v = norm w /\ r = r'.

Lemma items_decode l : Forall decodes l -> forallb canonical l = true -> forall k r r',
  forallb canonical k = true -> (encode_items l ++ "]" ++ r = encode_items k ++ "]" ++ r')%string ->
  map norm l = map norm k /\ r = r'.
Proof.
  induction 1 as [|v l Hv _ IH]; intros Hl [|w k] r r' Hk E.
  - split; [done|]. exact (proj2 (app_same_length "]" "]" _ _ eq_refl (proj2 (app_same_length "" "" _ _ eq_refl E)))).
  - change (encode_items (w :: k)) with (encode w ++ encode_items k)%string in E.
    rewrite str_app_assoc, encode_head in E. injection E as E _. by destruct w.
  - change (encode_items (v :: l)) with (encode v ++ encode_items l)%string in E.
    rewrite str_app_assoc, encode_head in E. injection E as E _. by destruct v.
  - change (encode_items (v :: l)) with (encode v ++ encode_items l)%string in E.
    change (encode_items (w :: k)) with (encode w ++ encode_items k)%string in E.
    cbn in Hl, Hk. apply andb_true_iff in Hl as [Cv Cl], Hk as [Cw Ck]. rewrite !str_app_assoc in E.
    destruct (Hv Cv w _ _ Cw E) as [Ev E']. destruct (IH Cl k r r' Ck E') as [El ->].
    cbn. by rewrite Ev, El.
Qed.

Lemma entries_decode m : Forall (fun e => decodes (snd e)) m -> forallb (fun e => canonical (snd e)) m = true ->
  forall k r r', forallb (fun e => canonical (snd e)) k = true ->
  (encode_entries m ++ "}" ++ r = encode_entries k ++ "}" ++ r')%string ->
  map (fun e => (fst e, norm (snd e))) m = map (fun e => (fst e, norm (snd e))) k /\ r = r'.
Proof.
  induction 1 as [|[n v] m Hv _ IH]; intros Hm [|[n' w] k] r r' Hk E.
  - split; [done|]. exact (proj2 (app_same_length "}" "}" _ _ eq_refl (proj2 (app_same_length "" "" _ _ eq_refl E)))).
  - discriminate E.
  - discriminate E.
  - change (encode_entries ((n, v) :: m)) with ((prefixed "k" n ++ encode v) ++ encode_entries m)%string in E.
    change (encode_entries ((n', w) :: k)) with ((prefixed "k" n' ++ encode w) ++ encode_entries k)%string in E.
    cbn in Hm, Hk, Hv. apply andb_true_iff in Hm as [Cv Cm], Hk as [Cw Ck]. rewrite !str_app_assoc in E.
    apply prefixed_inj in E as [-> E]. destruct (Hv Cv w _ _ Cw E) as [Ev E'].
    destruct (IH Cm k r r' Ck E') as [Em ->]. cbn. by rewrite Ev, Em.
Qed.

Lemma same_head v w r r' : (encode v ++ r = encode w ++ r')%string -> heads v = heads w.
Proof. rewrite (encode_head v), (encode_head w). by intros [= E _]. Qed.

Lemma encode_decodes v : decodes v.
Proof.
  induction v as [|b|n|t|l IH|m IH] using Value_ind'; intros Cv w r r' Cw E;
    pose proof (same_head _ _ _ _ E) as Hh.
  all: destruct w as [|b'|n'|t'|l'|m']; try discriminate Hh; clear Hh.
  - split; [done|]. exact (proj2 (app_same_length "z" "z" _ _ eq_refl E)).
  - cbn [encode] in E. apply app_same_length in E as [Eb ->]; [|by destruct b, b'].
    split; [|done]. by destruct b, b'.
  - cbn [encode] in E. rewrite !str_app_assoc in E. apply app_same_length in E as [_ E]; [|done].
    apply app_until in E as [E ->]; [|apply number_key_without..]. cbn. by rewrite (number_key_inj n n' Cv Cw E).
  - cbn [encode] in E. apply prefixed_inj in E as [-> ->]. done.
  - rewrite !encode_array, !str_app_assoc in E. apply app_same_length in E as [_ E]; [|done].
    destruct (items_decode l IH Cv l' r r' Cw E) as [El ->]. cbn. by rewrite El.
  - rewrite !encode_object, !str_app_assoc in E. apply app_same_length in E as [_ E]; [|done].
    destruct (entries_decode m IH Cv m' r r' Cw E) as [Em ->]. cbn. by rewrite Em.
Qed.

Lemma norm_encode v w : norm v = norm w -> encode v = encode w.
Proof.
  revert w. induction v as [|b|n|t|l IH|m IH] using Value_ind'; intros [|b'|n'|t'|l'|m']; cbn [norm]; try done.
  - by intros [= ->].
  - intros [= E]. cbn. by rewrite !number_key_norm, E.
  - by intros [= ->].
  - intros [= E]. rewrite !encode_array. enough (H : encode_items l = encode_items l') by (by rewrite H). revert l' E.
    induction IH as [|v l Hv _ IHl]; intros [|w l']; try done. intros [= Ev El].
    change (encode v ++ encode_items l = encode w ++ encode_items l')%string. by rewrite (Hv w Ev), (IHl l' El).
  - intros [= E]. rewrite !encode_object.
    enough (H : encode_entries m = encode_entries m') by (by rewrite H). revert m' E.
    induction IH as [|[k v] m Hv _ IHm]; intros [|[k' w] m']; try done. intros [= -> Ev Em].
    change ((prefixed "k" k' ++ encode v) ++ encode_entries m = (prefixed "k" k' ++ encode w) ++ encode_entries m')%string.
    pose proof (Hv w Ev) as Hw. cbn in Hw. by rewrite Hw, (IHm m' Em).
Qed.

(** The equality keys are exact. Two values that both get a key get the
    same one exactly when they are the same value, a float with an integral
    value counting as that integer; so [uniqueItems] and the distinct members of
    a [oneOf] see neither a false duplicate nor miss a true one. *)
Theorem equality_keys_are_exact v w levels levels' s s' key key' after after' :
  canonical v = true -> canonical w = true ->
  schema_equality_key levels v s = (Ok key, after) -> schema_equality_key levels' w s' = (Ok key', after') ->
  key = key' <-> norm v = norm w.
Proof.
  intros Cv Cw Hk Hk'. apply append_key_encodes in Hk as ->, Hk' as ->. split.
  - intros E. change (encode v = encode w) in E.
    apply (encode_decodes v Cv w "" "" Cw). by rewrite E.
  - intros E. change (encode v = encode w). by apply norm_encode.
Qed.

Lemma equality_keys_are_exact_witness :
  exists key key' after after',
    schema_equality_key 3 (VArray [VNumber (PosInt 2); VString "]"]) 100 = (Ok key, after) /\
    schema_equality_key 3 (VArray [VNumber (Float (FFinite false 4503599627370496 (-51))); VString "]"]) 100
      = (Ok key', after') /\
    (key = key' <-> norm (VArray [VNumber (PosInt 2); VString "]"]) =
       norm (VArray [VNumber (Float (FFinite false 4503599627370496 (-51))); VString "]"])).
Proof.
  do 4 eexists. split; [vm_compute; reflexivity|]. split; [vm_compute; reflexivity|].
  refine (equality_keys_are_exact (VArray [VNumber (PosInt 2); VString "]"])
    (VArray [VNumber (Float (FFinite false 4503599627370496 (-51))); VString "]"]) 3 3 100 100 _ _ _ _ _ _ _ _);
    vm_compute; reflexivity.
Defined.
