(* ===== verification/RequestSoundness.v ===== *)
(** What the request validator lets through is valid: a body accepted against a
    pinned contract is valid for that contract as JSON Schema reads it, for the
    contracts in the keywords the validator reads as JSON Schema does
    ([plain_contract]) and for numbers that are binary64. *)

From Stdlib Require Import String Ascii ZArith Lia List Bool.
From Stdlib Require Import Floats.SpecFloat.
From stdpp Require Import base option list strings.
From S2P Require Import Prelude Strings Bytes Btree StringSet Json JsonOps JsonEq JsonSchema FloatOrder.
From S2P Require Import CatalogTypes Capability CapabilityOps Samples.
From S2P Require Import CloudflareErrors DecimalMultiple RequestFormats RequestValidation EqualityKeys.

Open Scope cf_scope.
Open Scope string_scope.
Open Scope cf_scope.

(** ** Successful runs *)

(** Open a run [H : (do* ...) s = (Ok tt, s')] into the runs of its parts. *)
Ltac run_in H :=
  match type of H with
  | st_bind _ _ _ = (Ok _, _) =>
      let a := fresh "a" in let s := fresh "s" in let H1 := fresh "R" in
      apply st_bind_ok in H as (a & s & H1 & H); try destruct a; run_in H1; run_in H
  | st_guard _ _ _ = (Ok _, _) =>
      let E := fresh "E" in apply st_guard_ok in H as [E ->]; rename E into H
  | _ => idtac
  end.

(** ** The contracts the theorem is about *)

Definition known_types : list string := ["object"; "array"; "string"; "number"; "integer"; "boolean"; "null"].

Definition absent (key : string) (s : btree Value) : bool := negb (is_someb (bt_get key s)).

Definition flag_or_absent (key : string) (s : btree Value) : bool :=
  match bt_get key s with None | Some (VBool _) => true | _ => false end.

Definition plain_contract (s : btree Value) : bool :=
  absent "$ref" s && absent "const" s && absent "pattern" s && absent "oneOf" s
  && match bt_get "type" s with None => true | Some v => is_some_and (as_str v) (contains known_types) end
  && match bt_get "nullable" s with None | Some (VBool false) => true | _ => false end
  && is_none_or (obind (bt_get "enum" s) as_array) (fun values => negb (existsb is_null values))
  && flag_or_absent "exclusiveMinimum" s && flag_or_absent "exclusiveMaximum" s
  && match bt_get "additionalProperties" s with None | Some (VBool _ | VObject _) => true | _ => false end.

Definition subschemas (s : btree Value) : list Value :=
  (default [] (members s "allOf") ++ default [] (members s "anyOf")
   ++ default [] (option_map bt_values (obind (bt_get "properties" s) as_object))
   ++ (match bt_get "items" s with Some v => [v] | None => [] end)
   ++ (match bt_get "additionalProperties" s with Some (VObject o) => [VObject o] | _ => [] end))%list.

(** A contract: plain at every level, [fuel] bounding the levels. *)
Fixpoint contract_shape (fuel : nat) (schema : Value) : bool :=
  match fuel, schema with
  | S fuel, VObject s => plain_contract s && forallb (contract_shape fuel) (subschemas s)
  | _, _ => false
  end.

Section Soundness.
Context {fd : FloatDisplay} {dp : DateParsers} (document : Value).

(** The keywords whose meaning JSON Schema leaves to the validator. *)
Definition request_keyword (key : string) (c v : Value) : bool :=
  if key =? "format" then
    match c, v with VString f, VString t => format_ok f t | _, _ => true end
  else if key =? "multipleOf" then
    match c, v with VNumber m, VNumber n => default false (exact_decimal_multiple n m) | _, _ => true end
  else true.

Abbreviation valid := (JsonSchema.valid request_keyword document).

Lemma type_sound s v :
  plain_contract s = true -> is_some_and (obind (vget "type" (VObject s)) as_str)
    (fun expected => negb (json_type_matches v expected)) = false -> type_ok s v = true.
Proof.
  unfold plain_contract. intros Hp. split_andb. cbn [vget]. unfold type_ok.
  destruct (bt_get "type" s) as [[| | |t| |]|]; try done. cbn [obind as_str is_some_and names_of is_none_or] in *.
  intros Ht%negb_false_iff. apply orb_true_iff. left. cbn [existsb]. rewrite orb_false_r.
  match goal with H : contains known_types t = true |- _ => apply contains_true, list_elem_of_In in H; rename H into Hin end.
  repeat (destruct Hin as [<-|Hin]; [by destruct v as [| |[]| | |]|]). destruct Hin.
Qed.

Lemma enum_sound s v :
  is_some_and (obind (vget "enum" (VObject s)) as_array)
    (fun values => negb (existsb (fun w => Value_eqb w v) values)) = false -> enum_ok s v = true.
Proof.
  unfold enum_ok. cbn [vget]. destruct (obind (bt_get "enum" s) as_array) as [values|]; [|done].
  cbn [is_some_and is_none_or]. intros (w & Hin & Hw)%negb_false_iff%existsb_exists.
  apply orb_true_iff. right. apply existsb_exists. exists w. split; [done|]. change (v =j w). by symmetry.
Qed.

Lemma length_sound s path n units minimum_key maximum_key t t' :
  validate_length_bounds (VObject s) path n units minimum_key maximum_key t = (Ok tt, t') ->
  at_least s minimum_key n = true /\ at_most s maximum_key n = true.
Proof.
  unfold validate_length_bounds. intros R. run_in R. cbn [vget] in *. unfold at_least, at_most.
  destruct (obind (bt_get minimum_key s) as_u64), (obind (bt_get maximum_key s) as_u64);
    cbn in *; rewrite ?Z.ltb_ge in *; rewrite ?Z.leb_le; auto.
Qed.

(** *** Duplicates *)

Lemma json_same_norm v w : v =j w -> norm v = norm w.
Proof.
  rewrite json_same_iff. intros E. assert (H : forall v, norm (unsigned v) = norm v); [|by rewrite <- H, E, H].
  clear. induction v as [|b|n|t|l IH|m IH] using Value_ind'; try done.
  - by destruct n as [z|z|[]].
  - cbn. f_equal. rewrite map_map. induction IH as [|v l Hv _ IHl]; [done|]. cbn. by rewrite Hv, IHl.
  - cbn. f_equal. rewrite map_map. induction IH as [|[k v] m Hv _ IHm]; [done|]. cbn in *. by rewrite Hv, IHm.
Qed.

Lemma unique_sound levels path array : forall items t t',
  unique_items levels path array items t = (Ok tt, t') ->
  all_distinct array = true /\ Forall (fun x => set_has (encode x) items = false) array.
Proof.
  induction array as [|x array IH]; intros items t t'; [done|]. cbn [unique_items]. intros R.
  apply st_bind_ok in R as (key & t1 & Hk & R). apply append_key_encodes in Hk. change ("" ++ encode x)%string with (encode x) in Hk. subst key.
  apply st_bind_ok in R as ([] & t2 & [Hx ->]%st_guard_ok & R). apply IH in R as [Hd Hall].
  assert (Hset : forall y, In y array -> set_has (encode y) (set_add (encode x) items) = false)
    by (by apply List.Forall_forall).
  split.
  - cbn. rewrite Hd, andb_true_r. apply negb_true_iff, not_true_is_false. intros (y & Hin & Hy)%existsb_exists.
    specialize (Hset y Hin). rewrite set_has_add in Hset. apply orb_false_iff in Hset as [Hne _].
    rewrite eqb_false in Hne. apply Hne, norm_encode. symmetry. by apply json_same_norm.
  - constructor; [done|]. apply List.Forall_forall. intros y Hin. specialize (Hset y Hin).
    rewrite set_has_add in Hset. by apply orb_false_iff in Hset as [_ ?].
Qed.

(** *** Ranges *)

Lemma lower_sound s x :
  flag_or_absent "exclusiveMinimum" s = true -> exact_limits (VObject s) = true -> representable x = true ->
  (forall m, obind (bt_get "minimum" s) as_f64 = Some m ->
     SFltb (number_f64 x) m || (exclusive_flag "exclusiveMinimum" (VObject s) && SFleb (number_f64 x) m) = false) ->
  lower_ok s x = true.
Proof.
  unfold flag_or_absent, exclusive_flag, lower_ok. cbn [vget]. intros Hf Hs Hx Hm.
  destruct (bt_get "minimum" s) as [[| |m| | |]|] eqn:E; cbn [obind as_number is_none_or andb];
    try (by destruct (bt_get "exclusiveMinimum" s) as [[|[]| | | |]|]).
  apply (exact_limits_member _ _ _ Hs) in E as [E _]. change (representable m = true) in E.
  specialize (Hm _ eq_refl). rewrite ?representable_lt, ?representable_le in Hm by done.
  destruct (bt_get "exclusiveMinimum" s) as [[|[]| | | |]|]; try done;
    cbn [obind as_bool default andb is_some_and] in Hm; by_scale x m x.
Qed.

Lemma upper_sound s x :
  flag_or_absent "exclusiveMaximum" s = true -> exact_limits (VObject s) = true -> representable x = true ->
  (forall m, obind (bt_get "maximum" s) as_f64 = Some m ->
     SFltb m (number_f64 x) || (exclusive_flag "exclusiveMaximum" (VObject s) && SFleb m (number_f64 x)) = false) ->
  upper_ok s x = true.
Proof.
  unfold flag_or_absent, exclusive_flag, upper_ok. cbn [vget]. intros Hf Hs Hx Hm.
  destruct (bt_get "maximum" s) as [[| |m| | |]|] eqn:E; cbn [obind as_number is_none_or andb];
    try (by destruct (bt_get "exclusiveMaximum" s) as [[|[]| | | |]|]).
  apply (exact_limits_member _ _ _ Hs) in E as [E _]. change (representable m = true) in E.
  specialize (Hm _ eq_refl). rewrite ?representable_lt, ?representable_le in Hm by done.
  destruct (bt_get "exclusiveMaximum" s) as [[|[]| | | |]|]; try done;
    cbn [obind as_bool default andb is_some_and] in Hm; by_scale x m x.
Qed.

(** What the bounds check leaves of the keywords of one value. *)
Definition bounds_hold (s : btree Value) (v : Value) : Prop :=
  match v with
  | VString t =>
      open_ok request_keyword "format" s v = true /\
      at_least s "minLength" (char_count t) = true /\ at_most s "maxLength" (char_count t) = true
  | VNumber n =>
      lower_ok s n = true /\ upper_ok s n = true /\
      open_ok request_keyword "multipleOf" s v = true
  | VArray l =>
      at_least s "minItems" (Z.of_nat (length l)) = true /\ at_most s "maxItems" (Z.of_nat (length l)) = true /\
      (negb (is_some_and (bt_get "uniqueItems" s) (fun b => Value_eqb b (VBool true))) || all_distinct l) = true
  | VObject m =>
      at_least s "minProperties" (Z.of_nat (length m)) = true /\
      at_most s "maxProperties" (Z.of_nat (length m)) = true
  | _ => True
  end.

Lemma bounds_sound levels s v path t t' :
  plain_contract s = true -> exact_limits (VObject s) = true -> exact_numbers v = true ->
  validate_request_schema_bounds levels (VObject s) v path t = (Ok tt, t') -> bounds_hold s v.
Proof.
  intros Hp Xs Xv. unfold validate_request_schema_bounds. intros R.
  apply st_bind_ok in R as ([] & t1 & R1 & R). apply st_bind_ok in R as ([] & t2 & R2 & R).
  apply st_bind_ok in R as ([] & t3 & R3 & R). apply st_bind_ok in R as ([] & t4 & R4 & R5).
  unfold plain_contract in Hp. split_andb. destruct v as [| |n|text|l|m]; try done.
  - cbn [as_f64] in R2. apply st_bind_ok in R2 as ([] & t5 & R2 & R2'). cbn [vget] in *. unfold bounds_hold. split_and!.
    + apply lower_sound; [done..|]. intros b Hb. rewrite Hb in R2. by apply st_guard_ok in R2 as [? _].
    + apply upper_sound; [done..|]. intros b Hb. rewrite Hb in R2'. by apply st_guard_ok in R2' as [? _].
    + unfold open_ok. destruct (bt_get "multipleOf" s) as [b|]; [|done]. apply st_guard_ok in R1 as [R1 _].
      apply negb_false_iff in R1. cbn [is_none_or]. destruct b; done.
  - apply st_bind_ok in R3 as ([] & t5 & R3 & R3'). apply length_sound in R3 as [H1' H2']. split; [|done].
    unfold validate_string_format in R3'. unfold open_ok. cbn [vget] in R3'.
    destruct (bt_get "format" s) as [[| | |f| |]|]; try done. cbn [obind as_str] in R3'.
    apply st_guard_ok in R3' as [R3' _]. by apply negb_false_iff in R3'.
  - apply st_bind_ok in R4 as ([] & t5 & R4 & R4'). apply length_sound in R4 as [H1' H2']. split; [done|]. split; [done|].
    cbn [vget] in R4'. destruct (bt_get "uniqueItems" s) as [[|[]| | | |]|]; try done.
    cbn in R4'. apply unique_sound in R4' as [-> _]. done.
  - by apply length_sound in R5.
Qed.

(** *** Objects, arrays and compositions *)

(** Some run of the validator on the value ends well. *)
Definition accepted (inner : Value -> Value -> string -> str_set -> Steps unit) (schema v : Value) : Prop :=
  exists path inherited t t', inner schema v path inherited t = (Ok tt, t').

Section Parts.
Context (inner : Value -> Value -> string -> str_set -> Steps unit).

Lemma required_sound path m required : forall t t',
  check_required path m required t = (Ok tt, t') ->
  forall name, In (VString name) required -> is_someb (bt_get name m) = true.
Proof.
  induction required as [|v required IH]; intros t t' R name; [done|].
  destruct v as [| | |n| |]; cbn [check_required] in R; try (intros [[=]|Hin]; by eapply IH).
  apply st_bind_ok in R as ([] & t1 & [Hn _]%st_guard_ok & R).
  intros [[= <-]|Hin]; [by apply negb_false_iff in Hn|by eapply IH].
Qed.

Lemma all_strings_in l : forall names name, all_strings l = Some names -> In name names -> In (VString name) l.
Proof.
  induction l as [|v l IH]; intros names name; [by intros [= <-]|]. cbn.
  destruct v as [| | |s| |]; try done. cbn. destruct (all_strings l) as [rest|]; [|done].
  intros [= <-] [<-|Hin]; [by left|right; by eapply IH].
Qed.

Lemma members_sound properties additional path allowed m : forall t t',
  validate_members inner properties additional path allowed m t = (Ok tt, t') ->
  Forall (fun e => exists t t', validate_member inner properties additional path allowed e.1 e.2 t = (Ok tt, t')) m.
Proof.
  induction m as [|[k x] m IH]; intros t t' R; [done|]. cbn [validate_members] in R.
  apply st_bind_ok in R as ([] & t1 & R1 & R). constructor; [by exists t, t1|by eapply IH].
Qed.

Lemma items_sound items path l : forall t t',
  validate_items inner items path l t = (Ok tt, t') -> Forall (accepted inner items) l.
Proof.
  induction l as [|x l IH]; intros t t' R; [done|]. cbn [validate_items] in R.
  apply st_bind_ok in R as ([] & t1 & R1 & R). constructor; [by exists path, [], t, t1|by eapply IH].
Qed.

Lemma all_of_sound v path inherited l : forall t t',
  validate_all_of inner v path inherited l t = (Ok tt, t') -> Forall (fun c => accepted inner c v) l.
Proof.
  induction l as [|c l IH]; intros t t' R; [done|]. cbn [validate_all_of] in R.
  apply st_bind_ok in R as ([] & t1 & R1 & R). constructor; [by exists path, inherited, t, t1|by eapply IH].
Qed.

Lemma any_of_sound v path inherited l : forall t t',
  find_any_of inner v path inherited l t = (Ok true, t') -> Exists (fun c => accepted inner c v) l.
Proof.
  induction l as [|c l IH]; intros t t' R; [done|]. cbn [find_any_of] in R.
  apply st_bind_ok in R as (r & t1 & R1 & R). unfold outcome in R1.
  destruct (inner c v path inherited t) as [o t2] eqn:E. injection R1 as <- <-.
  destruct o as [[]|e]; [left; by exists path, inherited, t, t2|right]. destruct (validation_error_aborts_composition e); [done|by eapply IH].
Qed.
End Parts.

(** One level: what the validator leaves of the keywords of an object schema,
    given that what it accepts below is valid. *)
Lemma contract_parts s n :
  forallb (contract_shape n) (subschemas s) = true ->
  (forall l, members s "allOf" = Some l -> Forall (fun c => contract_shape n c = true) l) /\
  (forall l, members s "anyOf" = Some l -> Forall (fun c => contract_shape n c = true) l) /\
  (forall c, bt_get "items" s = Some c -> contract_shape n c = true) /\
  (forall k c, obind (obind (bt_get "properties" s) as_object) (bt_get k) = Some c -> contract_shape n c = true) /\
  (forall o, bt_get "additionalProperties" s = Some (VObject o) -> contract_shape n (VObject o) = true).
Proof.
  unfold subschemas. rewrite !forallb_app, !andb_true_iff. intros (Ha & Hb & Hp & Hi & Hadd). split_and!.
  - intros l E. rewrite E in Ha. by apply List.Forall_forall, forallb_forall.
  - intros l E. rewrite E in Hb. by apply List.Forall_forall, forallb_forall.
  - intros c E. rewrite E in Hi. cbn in Hi. by apply andb_true_iff in Hi as [Hi _].
  - intros k c E. destruct (obind (bt_get "properties" s) as_object) as [p|]; [|done]. cbn in Hp, E.
    rewrite forallb_forall in Hp. apply Hp. apply bt_get_in in E. unfold bt_values. apply (in_map snd) in E. exact E.
  - intros o E. rewrite E in Hadd. cbn in Hadd. by apply andb_true_iff in Hadd as [Hadd _].
Qed.

Section Level.
Context (levels n : nat).
Abbreviation inner := (validate_request_schema_value_inner levels).
Context (below : forall schema v, contract_shape n schema = true -> exact_limits schema = true ->
  exact_numbers v = true -> accepted inner schema v -> valid schema v).

Lemma composition_sound s v path inherited t t' :
  forallb (contract_shape n) (subschemas s) = true -> exact_limits (VObject s) = true -> exact_numbers v = true ->
  validate_schema_composition inner levels (VObject s) v path inherited t = (Ok tt, t') ->
  (forall l, members s "allOf" = Some l -> Forall (fun c => valid c v) l) /\
  (forall l, members s "anyOf" = Some l -> Exists (fun c => valid c v) l).
Proof.
  intros (Ha & Hb & _)%contract_parts Xs Xv R. unfold validate_schema_composition in R.
  apply st_bind_ok in R as ([] & t1 & R1 & R). apply st_bind_ok in R as ([] & t2 & _ & R3).
  unfold schema_members in *. cbn [vget] in *. fold (members s "allOf") in R1. fold (members s "anyOf") in R3. split.
  - intros l E. rewrite E in R1. apply st_bind_ok in R1 as ([] & t3 & _ & R1). apply all_of_sound in R1.
    specialize (Ha l E). rewrite List.Forall_forall in Ha, R1 |- *. intros c Hc. apply below; eauto using exact_members.
  - intros l E. rewrite E in R3. apply st_bind_ok in R3 as ([] & t3 & _ & R3).
    apply st_bind_ok in R3 as (b & t4 & R3 & [Hm%negb_false_iff _]%st_guard_ok). subst b. apply any_of_sound in R3.
    specialize (Hb l E). rewrite List.Forall_forall in Hb. apply List.Exists_exists in R3 as (c & Hc & Hacc).
    apply List.Exists_exists. exists c. eauto 7 using exact_members.
Qed.

Lemma object_sound s m path allowed t t' :
  plain_contract s = true -> forallb (contract_shape n) (subschemas s) = true ->
  exact_limits (VObject s) = true -> exact_numbers (VObject m) = true ->
  validate_request_object inner (VObject s) m path allowed t = (Ok tt, t') ->
  required_ok s m = true /\ Forall (fun e => valid e.1 e.2) (governed s m).
Proof.
  intros Hp (_ & _ & _ & Hprop & Hadd)%contract_parts Xs Xm%exact_numbers_member R. unfold validate_request_object in R.
  apply st_bind_ok in R as ([] & t1 & R1 & R2). split.
  - unfold required_ok. cbn [vget] in R1. destruct (obind (bt_get "required" s) as_array) as [l|]; [|done].
    cbn [default obind] in *. destruct (all_strings l) as [names|] eqn:E; [|done]. cbn [is_none_or].
    apply forallb_forall. intros name Hin. eapply required_sound; [exact R1|]. by eapply all_strings_in.
  - apply members_sound in R2. apply List.Forall_forall. intros [c x] Hin.
    apply list_elem_of_In, governed_in in Hin as (k & Hk & Hc).
    rewrite List.Forall_forall in R2, Xm. apply list_elem_of_In in Hk. pose proof (Xm _ Hk) as Xx.
    apply R2 in Hk as (t2 & t3 & R). cbn [fst snd] in *.
    unfold validate_member in R. cbn [vget] in R. unfold member_schema in Hc.
    destruct (obind (obind (bt_get "properties" s) as_object) (bt_get k)) as [c'|] eqn:E.
    + injection Hc as <-. apply below; [by eapply Hprop| |done|by eexists _, _, _, _].
      destruct (bt_get "properties" s) as [[| | | | |p]|] eqn:Ep; try done.
      apply (exact_limits_member _ _ _ Xs) in Ep as [_ Ep]. exact (proj2 (exact_limits_member _ _ _ Ep E)).
    + rewrite Hc in R. unfold plain_contract in Hp. split_andb. rewrite Hc in *.
      destruct c as [|[]| | | |o]; try done; [by exists 1|].
      apply below; [by apply Hadd|exact (proj2 (exact_limits_member _ _ _ Xs Hc))|done|]. by eexists _, _, _, _.
Qed.
End Level.

Lemma accepted_is_valid levels : forall n schema v,
  contract_shape n schema = true -> exact_limits schema = true -> exact_numbers v = true ->
  accepted (validate_request_schema_value_inner levels) schema v -> valid schema v.
Proof.
  induction levels as [|levels IH]; intros n schema v Hc Xs Xv (path & inherited & t & t' & R); [done|].
  destruct n as [|n]; [done|]. destruct schema as [| | | | |s]; try done.
  cbn [contract_shape] in Hc. apply andb_true_iff in Hc as [Hp Hsub].
  assert (Hnone : null_accepted (VObject s) v = false).
  { unfold null_accepted. cbn [vget]. destruct v; try done. cbn [is_null andb]. unfold plain_contract in Hp. split_andb.
    destruct (bt_get "nullable" s) as [[|[]| | | |]|]; try done; cbn [obind as_bool option_eqb Bool.eqb orb];
      destruct (obind (bt_get "enum" s) as_array) as [l|]; try done; cbn [is_some_and is_none_or] in *;
      match goal with Hn : negb (existsb is_null l) = true |- _ => apply negb_true_iff in Hn; rewrite <- Hn end;
      clear; induction l as [|w l IHl]; cbn; congruence || (rewrite IHl; by destruct w). }
  cbn [validate_request_schema_value_inner] in R. rewrite Hnone in R.
  apply st_bind_ok in R as ([] & t1 & _ & R). apply st_bind_ok in R as ([] & t2 & Rtype & R).
  apply st_bind_ok in R as ([] & t3 & [Renum _]%st_guard_ok & R). apply st_bind_ok in R as ([] & t4 & Rbounds & R).
  apply st_bind_ok in R as ([] & t5 & Robject & R). apply st_bind_ok in R as ([] & t6 & Ritems & Rcomp).
  specialize (IH n). apply bounds_sound in Rbounds; [|done..].
  apply (composition_sound levels n IH) in Rcomp as [Hall Hany]; [|done..].
  pose proof (contract_parts _ _ Hsub) as (_ & _ & Hitems & _ & _).
  assert (Hobject : forall m, v = VObject m -> required_ok s m = true /\ Forall (fun e => valid e.1 e.2) (governed s m)).
  { intros m ->. by apply (object_sound levels n IH) in Robject. }
  assert (Htype : type_ok s v = true).
  { apply type_sound; [done|]. destruct (obind (vget "type" (VObject s)) as_str); [|done].
    by apply st_guard_ok in Rtype as [? _]. }
  apply enum_sound in Renum. unfold plain_contract, absent in Hp. split_andb.
  apply holds_valid. constructor.
  - unfold plain_ok, const_ok. rewrite Htype, Renum.
    destruct (bt_get "const" s); [done|]. cbn [is_none_or andb]. destruct v as [| |k|text|l|m]; try done.
    + destruct Rbounds as (-> & -> & ->). done.
    + destruct Rbounds as (-> & -> & ->). unfold open_ok. by destruct (bt_get "pattern" s).
    + destruct Rbounds as (-> & -> & ->). done.
    + destruct Rbounds as (-> & ->). by destruct (Hobject m eq_refl) as [-> _].
  - intros target. unfold resolve. by destruct (bt_get "$ref" s).
  - intros l items -> E. cbn [vget] in Ritems. rewrite E in Ritems. apply items_sound in Ritems.
    apply exact_numbers_element in Xv. rewrite List.Forall_forall in Ritems, Xv |- *. intros x Hx.
    apply IH; [by apply Hitems|exact (proj2 (exact_limits_member _ _ _ Xs E))|by apply Xv|by apply Ritems].
  - intros m E. by apply Hobject.
  - done.
  - done.
  - intros l. unfold members. by destruct (bt_get "oneOf" s).
Qed.

End Soundness.

(** ** A pinned contract *)

Definition record_contract : Value :=
  jobj [("type", VString "object"); ("required", VArray [VString "name"]);
        ("properties", jobj [
           ("name", jobj [("type", VString "string"); ("minLength", VNumber (PosInt 1)); ("maxLength", VNumber (PosInt 8))]);
           ("ttl", jobj [("type", VString "integer"); ("minimum", VNumber (PosInt 60)); ("multipleOf", VNumber (PosInt 30))]);
           ("tags", jobj [("type", VString "array"); ("uniqueItems", VBool true);
                          ("items", jobj [("anyOf", VArray [jobj [("enum", VArray [VString "a"])]; jobj [("type", VString "boolean")]])])])]);
        ("additionalProperties", VBool false)].

Definition with_request_schema (schema : Value) (c : CapabilityV1) : CapabilityV1 :=
  let k := classification_of c in
  classify {|
    class_selectors := class_selectors k;
    class_permissions := class_permissions k;
    class_risk := class_risk k;
    class_effect := class_effect k;
    class_cost := class_cost k;
    class_verification := class_verification k;
    class_rollback := class_rollback k;
    class_same_path_read := class_same_path_read k;
    class_request_schema := Some schema;
    class_response_contract := class_response_contract k
  |} c.

Definition record_create : CapabilityV1 :=
  with_request_schema record_contract
    (capability_new "record-create" "Create a record" "POST" "/zones/{zone_id}/dns_records").

Definition record_body : Value :=
  jobj [("name", VString "www"); ("ttl", VNumber (PosInt 120)); ("tags", VArray [VString "a"; VBool true])].

(** What is rejected of it: a name too long, a repeated tag, an extra member. *)
Example long_names_are_rejected :
  exists e, @validate_request_body (fun _ => "0.5") (Build_DateParsers (fun _ => true) (fun _ => true)) record_create
    (Some (jobj [("name", VString "www.example")])) = Err e.
Proof. eexists. vm_compute. reflexivity. Qed.
Example repeated_tags_are_rejected :
  exists e, @validate_request_body (fun _ => "0.5") (Build_DateParsers (fun _ => true) (fun _ => true)) record_create
    (Some (jobj [("name", VString "www"); ("tags", VArray [VString "a"; VString "a"])])) = Err e.
Proof. eexists. vm_compute. reflexivity. Qed.

(** Two contracts the theorem leaves out accept what they should not: a numeric
    [exclusiveMinimum] is not looked at, and a limit and a number that round to
    the same binary64 are not told apart. *)
Definition integer_create (key : string) (limit : Value) : CapabilityV1 :=
  with_request_schema (jobj [("type", VString "integer"); (key, limit)]) record_create.
Definition accepts_integer (key : string) (limit : Value) (n : Z) : Prop :=
  @validate_request_body (fun _ => "0.5") (Build_DateParsers (fun _ => true) (fun _ => true)) (integer_create key limit)
    (Some (VNumber (PosInt n))) = Ok tt /\
  validate (fun _ _ _ => true) VNull 2 (jobj [("type", VString "integer"); (key, limit)]) (VNumber (PosInt n)) = Some false.

Example numeric_exclusive_bounds_are_ignored : accepts_integer "exclusiveMinimum" (VNumber (PosInt 5)) 5.
Proof. vm_compute. done. Qed.
Example bodies_beyond_2_53_are_rounded :
  accepts_integer "minimum" (VNumber (PosInt 9007199254740996)) 9007199254740995 /\
  representable (PosInt 9007199254740996) = true /\ representable (PosInt 9007199254740995) = false.
Proof. vm_compute. done. Qed.

