(* ===== verification/StructuredSql.v ===== *)
(** The read-only SQL of the analytics adapters (cfctl-cloudflare/src/lib.rs,
    [render_structured_select_sql] and what it calls): one SELECT statement from
    a structured body, and what of the body can reach the statement. *)

From Stdlib Require Import String Ascii ZArith Lia List Bool.
From stdpp Require Import base option list strings.
From S2P Require Import Prelude Strings Bytes Btree Json JsonOps CatalogTypes.
From S2P Require Import CloudflareErrors DecimalMultiple.

Open Scope cf_scope.
Open Scope string_scope.
Open Scope cf_scope.

Definition invalid_query {A} (reason : string) : result CloudflareError A := Err (InvalidAnalyticsQuery reason).

(** [.filter(p).ok_or_else(|| InvalidAnalyticsQuery(reason))] on a member. *)
Definition text_member (key : string) (object : btree Value) : option string :=
  obind (bt_get key object) as_str.
Definition list_member (key : string) (object : btree Value) : list Value :=
  default [] (obind (bt_get key object) as_array).

Definition identifier_start (a : ascii) : bool := is_ascii_alphabetic a || (a =? "_"%char).
Definition identifier_char (a : ascii) : bool := is_ascii_alphanumeric a || (a =? "_"%char).

Definition valid_sql_identifier (value : string) : bool :=
  match value with
  | EmptyString => false
  | String a characters =>
      identifier_start a && (String.length value <=? 64)%nat && bytes_all identifier_char characters
  end.

Definition identifier_or (reason : string) (value : option string) : result CloudflareError string :=
  match value with
  | Some value => if valid_sql_identifier value then Ok value else invalid_query reason
  | None => invalid_query reason
  end.

Definition object_or (reason : string) (value : Value) : result CloudflareError (btree Value) :=
  ok_or (InvalidAnalyticsQuery reason) (as_object value).

Definition sql_identifier_value (label : string) (value : Value) : result CloudflareError string :=
  identifier_or (label ++ " values must be plain identifiers")%string (as_str value).

Definition sql_identifier_array (label : string) (value : option Value) : result CloudflareError (list string) :=
  collect (sql_identifier_value label) (default [] (obind value as_array)).

(** [sql_quote] within the quotes its callers put around it. *)
Definition sql_quote (value : string) : string := double_quotes value.
Definition quoted (value : string) : string := (squote ++ sql_quote value ++ squote)%string.

Section Rendering.
Context {fd : FloatDisplay}.

Definition sql_literal (value : Value) : result CloudflareError string :=
  match value with
  | VString value => Ok (quoted value)
  | VNumber value => Ok (number_to_string value)
  | VBool value => Ok (if value then "true" else "false")
  | _ => invalid_query "filter values must be strings, numbers, or booleans"
  end.

(** The operator of a filter: a comparison, or a test against a list. *)
Definition scalar_operator (operator : option string) : result CloudflareError (option string) :=
  match operator with
  | Some operator =>
      if operator =? "eq" then Ok (Some "=")
      else if operator =? "ne" then Ok (Some "!=")
      else if operator =? "gt" then Ok (Some ">")
      else if operator =? "gte" then Ok (Some ">=")
      else if operator =? "lt" then Ok (Some "<")
      else if operator =? "lte" then Ok (Some "<=")
      else if (operator =? "in") || (operator =? "not_in") then Ok None
      else invalid_query "filter operator must be eq, ne, gt, gte, lt, lte, in, or not_in"
  | None => invalid_query "filter operator must be eq, ne, gt, gte, lt, lte, in, or not_in"
  end.

Definition filter_values (value : Value) : option (list Value) :=
  match as_array value with
  | Some values => if negb (is_nil values) && (List.length values <=? 100)%nat then Some values else None
  | None => None
  end.

Definition render_structured_filter (value : Value) : result CloudflareError string :=
  let? filter := object_or "filter must be an object" value in
  let? field := identifier_or "filter field must be one plain identifier" (text_member "field" filter) in
  let operator := text_member "operator" filter in
  let? scalar_operator := scalar_operator operator in
  let? value := ok_or (InvalidAnalyticsQuery "filter value is missing") (bt_get "value" filter) in
  match scalar_operator with
  | Some operator =>
      let? literal := sql_literal value in
      Ok (field ++ " " ++ operator ++ " " ++ literal)%string
  | None =>
      let? values := ok_or (InvalidAnalyticsQuery "in and not_in filters require between 1 and 100 scalar values")
                       (filter_values value) in
      let? literals := collect sql_literal values in
      let operator := if operator =? Some "in" then "IN" else "NOT IN" in
      Ok (field ++ " " ++ operator ++ " (" ++ join ", " literals ++ ")")%string
  end.

Definition aggregate_functions : list string := ["count"; "sum"; "avg"; "min"; "max"].

Definition render_aggregate (aggregate : Value) : result CloudflareError string :=
  let? aggregate := object_or "aggregate must be an object" aggregate in
  let? function :=
    match text_member "function" aggregate with
    | Some function =>
        if contains aggregate_functions function then Ok function
        else invalid_query "aggregate function must be count, sum, avg, min, or max"
    | None => invalid_query "aggregate function must be count, sum, avg, min, or max"
    end in
  let? expression :=
    if function =? "count" then Ok "count(*)"
    else
      let? field := identifier_or ("aggregate `" ++ function ++ "` requires one plain field identifier")%string
                      (text_member "field" aggregate) in
      Ok (function ++ "(" ++ field ++ ")")%string in
  let? alias := identifier_or "aggregate alias must be one plain identifier" (text_member "alias" aggregate) in
  Ok (expression ++ " AS " ++ alias)%string.

Definition render_order (order : Value) : result CloudflareError string :=
  let? order := object_or "order_by entries must be objects" order in
  let? field := identifier_or "order_by field must be one plain identifier" (text_member "field" order) in
  let? direction :=
    match text_member "direction" order with
    | Some direction =>
        if direction =? "asc" then Ok "ASC" else if direction =? "desc" then Ok "DESC"
        else invalid_query "order_by direction must be asc or desc"
    | None => invalid_query "order_by direction must be asc or desc"
    end in
  Ok (field ++ " " ++ direction)%string.

Definition time_bound (clickhouse_time : bool) (value : string) : string :=
  if clickhouse_time then ("toDateTime64(" ++ quoted value ++ ", 3)")%string else quoted value.

(** A clause that is left out when it has no members. *)
Definition clause (keyword : string) (members : list string) : string :=
  if is_nil members then "" else (keyword ++ join ", " members)%string.

Definition output_clause (format : option OutputFormatV1) : string :=
  match format with
  | None => ""
  | Some OutputFormat_Json => " FORMAT JSON"
  | Some OutputFormat_Ndjson => " FORMAT JSONEachRow"
  | Some OutputFormat_Csv => " FORMAT CSVWithNames"
  end.

Definition render_structured_select_sql (body : Value) (timestamp_field : string) (clickhouse_time : bool)
    (format : option OutputFormatV1) : result CloudflareError string :=
  let? body := object_or "structured SQL input must be an object" body in
  let? dataset := identifier_or "dataset must be one plain SQL identifier" (text_member "dataset" body) in
  let? start := ok_or (InvalidAnalyticsQuery "start timestamp is missing") (text_member "start" body) in
  let? end_ := ok_or (InvalidAnalyticsQuery "end timestamp is missing") (text_member "end" body) in
  let? columns := collect (sql_identifier_value "column") (list_member "columns" body) in
  let? aggregates := collect render_aggregate (list_member "aggregates" body) in
  let projections := (columns ++ aggregates)%list in
  guard (is_nil projections) (InvalidAnalyticsQuery "at least one column or aggregate is required") (
  let? filters := collect render_structured_filter (list_member "filters" body) in
  let predicates :=
    ((timestamp_field ++ " >= " ++ time_bound clickhouse_time start)
     :: (timestamp_field ++ " < " ++ time_bound clickhouse_time end_) :: filters)%string in
  let? group_by := sql_identifier_array "group_by" (bt_get "group_by" body) in
  let? order_by := collect render_order (list_member "order_by" body) in
  let? limit := ok_or (InvalidAnalyticsQuery "positive row limit is missing") (obind (bt_get "limit" body) as_u64) in
  Ok ("SELECT " ++ join ", " projections ++ " FROM " ++ dataset ++ " WHERE " ++ join " AND " predicates
      ++ clause " GROUP BY " group_by ++ clause " ORDER BY " order_by
      ++ " LIMIT " ++ show_Z limit ++ output_clause format)%string).

Definition render_structured_analytics_sql (body : Value) (format : OutputFormatV1) : result CloudflareError string :=
  render_structured_select_sql body "timestamp" true (Some format).

Definition render_structured_log_explorer_sql (body : Value) : result CloudflareError string :=
  let? timestamp_field := identifier_or "timestamp_field must be one plain SQL identifier"
                            (obind (vget "timestamp_field" body) as_str) in
  render_structured_select_sql body timestamp_field false None.
End Rendering.

(** ** How SQL reads a statement *)

(** A string literal from after its opening quote: its contents and what follows
    its closing quote. Two quotes in a row stand for one. In a dialect with
    [backslash] escapes, as ClickHouse's, a backslash takes the byte after it
    along, whatever it is (both are left in the contents as written). *)
Fixpoint literal_end (backslash : bool) (s : string) : option (string * string) :=
  match s with
  | EmptyString => None
  | String a r =>
      if (byte a =? 39)%N then
        match r with
        | String b r' =>
            if (byte b =? 39)%N
            then (fun found => (String a (fst found), snd found)) <$> literal_end backslash r'
            else Some (EmptyString, r)
        | EmptyString => Some (EmptyString, r)
        end
      else if backslash && (byte a =? 92)%N then
        match r with
        | String b r' => (fun found => (String a (String b (fst found)), snd found)) <$> literal_end backslash r'
        | EmptyString => None
        end
      else (fun found => (String a (fst found), snd found)) <$> literal_end backslash r
  end.

(** A statement with the contents of its string literals cut out, and those
    contents in order: a quote opens a literal and [literal_end] finds its end. *)
Fixpoint sql_scan (backslash : bool) (fuel : nat) (s : string) : option (string * list string) :=
  match fuel with
  | O => None
  | S fuel =>
      match s with
      | EmptyString => Some (EmptyString, [])
      | String a r =>
          if (byte a =? 39)%N
          then obind (literal_end backslash r) (fun found =>
                 option_map (fun read => ((squote ++ squote ++ fst read)%string, fst found :: snd read))
                   (sql_scan backslash fuel (snd found)))
          else option_map (fun read => (String a (fst read), snd read)) (sql_scan backslash fuel r)
      end
  end.
Definition sql_reads (backslash : bool) (s : string) : option (string * list string) :=
  sql_scan backslash (S (String.length s)) s.

Definition no_backslash (s : string) : bool := bytes_all (fun a => negb (byte a =? 92)%N) s.
(** The contents a dialect reads back from between quotes as they are. *)
Definition literal_safe (backslash : bool) (s : string) : bool := negb backslash || no_backslash s.

Lemma literal_end_quoted backslash s rest :
  literal_safe backslash s = true -> starts_with rest squote = false ->
  literal_end backslash (double_quotes s ++ (squote ++ rest)) = Some (s, rest).
Proof.
  intros Hs Hr. induction s as [|a s IH].
  - change (literal_end backslash (String "'"%char rest) = Some (EmptyString, rest)).
    destruct rest as [|b rest]; [done|]. unfold starts_with in Hr. cbn [strip_prefix squote] in Hr.
    change (ascii_of_N 39) with "'"%char in Hr. cbn [literal_end]. rewrite (is_squote b).
    change (byte "'" =? 39)%N with true. cbv iota. by destruct ("'"%char =? b).
  - assert (Ha : backslash && (byte a =? 92)%N = false /\ literal_safe backslash s = true).
    { unfold literal_safe, no_backslash in *. cbn in Hs. destruct backslash; [|done].
      apply andb_true_iff in Hs as [Ha Hs]. by apply negb_true_iff in Ha. }
    destruct Ha as [Ha Hs']. specialize (IH Hs'). cbn [double_quotes]. destruct (byte a =? 39)%N eqn:E.
    + change (literal_end backslash (String a (String a (double_quotes s ++ (squote ++ rest)))) =
              Some (String a s, rest)). cbn [literal_end]. by rewrite E, IH.
    + change (literal_end backslash (String a (double_quotes s ++ (squote ++ rest))) =
              Some (String a s, rest)). cbn [literal_end]. by rewrite E, Ha, IH.
Qed.

Lemma literal_end_shorter backslash n : forall s v rest, (String.length s <= n)%nat ->
  literal_end backslash s = Some (v, rest) -> (String.length rest <= String.length s)%nat.
Proof.
  induction n as [|n IH]; intros s v rest Hn; destruct s as [|a s]; cbn in Hn; try lia; try done.
  assert (Hmap : forall (f : string * string -> string) t, (String.length t <= n)%nat ->
    (fun found => (f found, snd found)) <$> literal_end backslash t = Some (v, rest) ->
    (String.length rest <= String.length t)%nat).
  { intros f t Ht. destruct (literal_end backslash t) as [[v' r']|] eqn:E; [|done]. intros [= _ <-].
    by apply IH in E. }
  cbn [literal_end]. destruct (byte a =? 39)%N; [|destruct (backslash && _)].
  - destruct s as [|b s]; [intros [= <- <-]; cbn; lia|]. destruct (byte b =? 39)%N; [|intros [= <- <-]; cbn; lia].
    intros H. cbn in Hn. apply (Hmap _ s) in H; cbn; lia.
  - destruct s as [|b s]; [done|]. intros H. cbn in Hn. apply (Hmap _ s) in H; cbn; lia.
  - intros H. apply (Hmap _ s) in H; cbn; lia.
Qed.

Section Reading.
Context (backslash : bool).

(** The same as rules. *)
Inductive Lex : string -> string -> list string -> Prop :=
| lex_nil : Lex EmptyString EmptyString []
| lex_char a s k ls : (byte a =? 39)%N = false -> Lex s k ls -> Lex (String a s) (String a k) ls
| lex_literal a r v rest k ls :
    (byte a =? 39)%N = true -> literal_end backslash r = Some (v, rest) -> Lex rest k ls ->
    Lex (String a r) (squote ++ squote ++ k)%string (v :: ls).

Lemma lex_scan s k ls : Lex s k ls -> forall n, (String.length s < n)%nat -> sql_scan backslash n s = Some (k, ls).
Proof.
  induction 1 as [|a s k ls Ha _ IH|a r v rest k ls Ha Hs _ IH]; intros [|n] Hn; try (cbn in Hn; lia); [done|..];
    cbn [sql_scan]; rewrite Ha.
  - cbn in Hn. rewrite IH by lia. done.
  - rewrite Hs. cbn [obind fst snd]. cbn in Hn. apply literal_end_shorter with (n := String.length r) in Hs; [|done].
    rewrite IH by lia. done.
Qed.

Definition plain (s : string) : bool := bytes_all (fun a => negb (byte a =? 39)%N) s.
Definition unquoted (s : string) : Prop := starts_with s squote = false.

(** [s] contributes the text [k] and the literals [ls], whatever follows. *)
Definition reads (s k : string) (ls : list string) : Prop :=
  forall rest k' ls', unquoted rest -> Lex rest k' ls' -> Lex (s ++ rest) (k ++ k') (ls ++ ls')%list.

Lemma lex_plain t rest k ls : plain t = true -> Lex rest k ls -> Lex (t ++ rest) (t ++ k) ls.
Proof.
  intros Ht Hr. induction t as [|a t IH]; [done|]. unfold plain in *. cbn in Ht. apply andb_true_iff in Ht as [Ha Ht].
  apply negb_true_iff in Ha. apply (lex_char a); [done|]. by apply IH.
Qed.

Lemma reads_plain t : plain t = true -> reads t t [].
Proof. intros Ht rest k' ls' _ Hr. by apply lex_plain. Qed.

Lemma reads_text t s k ls : plain t = true -> reads s k ls -> reads (t ++ s) (t ++ k) ls.
Proof. intros Ht Hs rest k' ls' Hu Hr. rewrite !str_app_assoc. apply lex_plain; [done|]. by apply Hs. Qed.

Lemma unquoted_app s t : unquoted s -> unquoted t -> unquoted (s ++ t).
Proof.
  destruct s as [|a s]; [by intros _|]. change (String a s ++ t)%string with (String a (s ++ t)).
  unfold unquoted, starts_with. cbn [strip_prefix squote]. change (ascii_of_N 39) with "'"%char. by destruct ("'"%char =? a).
Qed.

Lemma reads_app s k ls t k' ls' :
  unquoted t -> reads s k ls -> reads t k' ls' -> reads (s ++ t) (k ++ k') (ls ++ ls')%list.
Proof.
  intros Hu Hs Ht rest r rs Hr Hl. rewrite !str_app_assoc, <- app_assoc.
  apply Hs; [by apply unquoted_app|]. by apply Ht.
Qed.

Lemma reads_quoted v : literal_safe backslash v = true -> reads (quoted v) (squote ++ squote) [v].
Proof.
  intros Hv rest k ls Hu Hr. unfold quoted, sql_quote. rewrite !str_app_assoc.
  refine (lex_literal "'"%char _ v rest k ls eq_refl _ Hr). by apply literal_end_quoted.
Qed.

Lemma reads_scan s k ls : reads s k ls -> sql_reads backslash s = Some (k, ls).
Proof.
  intros H. assert (Hl : Lex (s ++ "") (k ++ "") (ls ++ [])%list) by (apply H; [done|constructor]).
  rewrite !str_app_nil, app_nil_r in Hl. apply (lex_scan _ _ _ Hl). unfold sql_reads. lia.
Qed.

(** Several parts with a separator between them. *)
Inductive reads_all : list string -> list string -> list (list string) -> Prop :=
| reads_none : reads_all [] [] []
| reads_more s k ls ss ks lss : reads s k ls -> reads_all ss ks lss -> reads_all (s :: ss) (k :: ks) (ls :: lss).

Lemma reads_join sep ss ks lss :
  plain sep = true -> unquoted sep -> sep <> "" -> reads_all ss ks lss ->
  reads (join sep ss) (join sep ks) (concat lss).
Proof.
  intros Hp Hu Hne. induction 1 as [|s k ls ss ks lss Hs Hss IH]; [by apply reads_plain|].
  destruct Hss as [|s' k' ls' ss ks lss Hs' Hss]; [cbn; rewrite app_nil_r; exact Hs|].
  change (reads (s ++ (sep ++ join sep (s' :: ss))) (k ++ (sep ++ join sep (k' :: ks))) (ls ++ concat (ls' :: lss))).
  apply reads_app; [|exact Hs|by apply reads_text].
  clear -Hu Hne. destruct sep as [|a sep]; [done|].
  change (String a sep ++ join (String a sep) (s' :: ss))%string with (String a (sep ++ join (String a sep) (s' :: ss))).
  unfold unquoted, starts_with in *. cbn [strip_prefix squote] in *. by destruct (_ =? a).
Qed.

End Reading.

(** ** What a body can say *)

Lemma plain_unquoted s : plain s = true -> unquoted s.
Proof.
  destruct s as [|a s]; [done|]. unfold plain, unquoted, starts_with. cbn [bytes_all strip_prefix squote].
  rewrite is_squote. change (ascii_of_N 39) with "'"%char. by destruct ("'"%char =? a).
Qed.

Lemma plain_app s t : plain (s ++ t) = plain s && plain t.
Proof.
  induction s as [|a s IH]; [done|].
  change (negb (byte a =? 39)%N && plain (s ++ t) = (negb (byte a =? 39)%N && plain s) && plain t).
  by rewrite IH, andb_assoc.
Qed.

Lemma in_range_not_quote lo hi a : (39 < lo)%N -> in_range lo hi a = true -> negb (byte a =? 39)%N = true.
Proof.
  unfold in_range. intros Hlo [H _]%andb_true_iff. apply N.leb_le in H. apply negb_true_iff, N.eqb_neq. lia.
Qed.

Lemma alphanumeric_not_quote a : is_ascii_alphanumeric a = true -> negb (byte a =? 39)%N = true.
Proof.
  unfold is_ascii_alphanumeric, is_ascii_alphabetic, is_ascii_uppercase, is_ascii_lowercase, is_ascii_digit.
  intros H. repeat (apply orb_true_iff in H as [H|H]); by eapply in_range_not_quote; [|exact H].
Qed.

Lemma identifier_plain s : valid_sql_identifier s = true -> plain s = true.
Proof.
  destruct s as [|a s]; [done|]. cbn [valid_sql_identifier]. intros [[Ha _]%andb_true_iff Hs]%andb_true_iff.
  assert (Hc : forall c, identifier_char c = true -> negb (byte c =? 39)%N = true).
  { intros c. unfold identifier_char. intros [?| ->%eqb_eq]%orb_true_iff; [by apply alphanumeric_not_quote|done]. }
  unfold plain. cbn [bytes_all]. rewrite (bytes_all_impl _ _ _ Hc Hs), andb_true_r. apply Hc.
  unfold identifier_start, identifier_char, is_ascii_alphanumeric in *. apply orb_true_iff in Ha as [->| ->]; [done|].
  by rewrite orb_true_r.
Qed.

Lemma show_Z_plain z : plain (show_Z z) = true.
Proof.
  assert (Hnat : forall z, (0 <= z)%Z -> plain (show_Z z) = true).
  { intros z0 Hz. destruct (show_Z_digits z0 Hz) as [H _]. eapply bytes_all_impl; [|exact H].
    intros a. unfold is_ascii_digit. by apply in_range_not_quote. }
  destruct (Z.neg_nonneg_cases z) as [Hz|Hz]; [|by apply Hnat].
  rewrite show_Z_negative by done. rewrite plain_app. rewrite Hnat by lia. done.
Qed.

(** The body with its times and the strings of its filters left blank. *)
Definition mask (v : Value) : Value := match v with VString _ => VString "" | v => v end.
Definition mask_operand (v : Value) : Value := match v with VArray l => VArray (map mask l) | v => mask v end.
Definition mask_filter (v : Value) : Value :=
  match v with
  | VObject m => VObject (bt_map (fun k v => if k =? "value" then mask_operand v else v) m)
  | v => v
  end.
Definition mask_entry (k : string) (v : Value) : Value :=
  if (k =? "start") || (k =? "end") then mask v
  else if k =? "filters" then match v with VArray l => VArray (map mask_filter l) | v => v end
  else v.
Definition mask_body (v : Value) : Value :=
  match v with VObject m => VObject (bt_map mask_entry m) | v => v end.

(** The strings it leaves blank, in the order the statement has them. *)
Definition string_of (v : Value) : list string := match v with VString s => [s] | _ => [] end.
Definition operand_strings (v : Value) : list string :=
  match v with VArray l => concat (map string_of l) | v => string_of v end.
Definition filter_strings (v : Value) : list string := default [] (option_map operand_strings (vget "value" v)).
Definition body_strings (v : Value) : list string :=
  (default [] (option_map string_of (vget "start" v)) ++ default [] (option_map string_of (vget "end" v))
   ++ concat (map filter_strings (default [] (obind (vget "filters" v) as_array))))%list.

Section Structure.
Context {fd : FloatDisplay}.
(** Floats print as digits with a sign, a point and an exponent. *)
Hypothesis floats_print_plain : forall f, plain (float_display f) = true.
(** The dialect of the reader, and the strings it reads back as they are. *)
Context (backslash : bool).
#[local] Abbreviation reads := (reads backslash).
#[local] Abbreviation reads_all := (reads_all backslash).
#[local] Abbreviation safe := (Forall (fun s => literal_safe backslash s = true)).

Lemma number_plain n : plain (number_to_string n) = true.
Proof. destruct n; [apply show_Z_plain..|]. apply floats_print_plain. Qed.

Lemma literal_reads v s : safe (string_of v) -> sql_literal v = Ok s -> exists k, sql_literal (mask v) = Ok k /\ reads s k (string_of v).
Proof.
  destruct v as [|b|n|t|l|m]; try done; cbn [sql_literal mask string_of]; intros Hsafe [= <-].
  - eexists. split; [done|]. apply reads_plain. by destruct b.
  - eexists. split; [done|]. apply reads_plain, number_plain.
  - eexists. split; [done|]. apply reads_quoted. by inversion Hsafe.
Qed.

(** Member by member. *)
Lemma collect_reads (f : Value -> result CloudflareError string) (m : Value -> Value) (strings : Value -> list string) l ss :
  (forall v s, safe (strings v) -> f v = Ok s -> exists k, f (m v) = Ok k /\ reads s k (strings v)) ->
  safe (concat (map strings l)) -> collect f l = Ok ss -> exists ks, collect f (map m l) = Ok ks /\ reads_all ss ks (map strings l).
Proof.
  intros Hf Hsafe. rewrite collect_ok. intros H. revert Hsafe.
  induction H as [|v s l ss Hv _ IH]; [by exists []; split; [|constructor]|].
  intros [Hhere Hsafe]%Forall_app. destruct (IH Hsafe) as (ks & Hks & Hall). destruct (Hf _ _ Hhere Hv) as (k & Hk & Hr). exists (k :: ks). split; [cbn; by rewrite Hk, Hks|by constructor].
Qed.

Lemma identifier_or_ok reason o s : identifier_or reason o = Ok s <-> o = Some s /\ valid_sql_identifier s = true.
Proof.
  unfold identifier_or, invalid_query. destruct o as [t|]; [|by split; [|intros [[=] _]]].
  destruct (valid_sql_identifier t) eqn:E; split; try done.
  - by intros [= <-].
  - by intros [[= <-] _].
  - by intros [[= <-] ?%not_true_iff_false].
Qed.

Lemma scalar_operator_plain name operator : scalar_operator name = Ok (Some operator) -> plain operator = true.
Proof.
  unfold scalar_operator. destruct name as [o|]; [|done].
  repeat match goal with |- context [if ?c then _ else _] => destruct c end; try done; by intros [= <-].
Qed.

Lemma filter_reads v s :
  safe (filter_strings v) -> render_structured_filter v = Ok s ->
  exists k, render_structured_filter (mask_filter v) = Ok k /\ reads s k (filter_strings v).
Proof.
  unfold render_structured_filter, object_or. destruct v as [| | | | |m]; try done. cbn [as_object ok_or res_bind mask_filter].
  unfold text_member, filter_strings. rewrite !bt_get_map. cbn [vget]. intros Hsafe.
  destruct (obind (bt_get "field" m) as_str) as [field|] eqn:Ef; [|done].
  replace (obind ((fun v => if "field" =? "value" then mask_operand v else v) <$> bt_get "field" m) as_str)
    with (Some field) by (rewrite <- Ef; by destruct (bt_get "field" m)).
  replace ((fun v => if "operator" =? "value" then mask_operand v else v) <$> bt_get "operator" m)
    with (bt_get "operator" m) by (by destruct (bt_get "operator" m)).
  rewrite res_bind_ok. intros (field' & ([= <-] & Hfield)%identifier_or_ok & H).
  unfold identifier_or. rewrite Hfield. cbn [res_bind].
  apply identifier_plain in Hfield. revert H.
  destruct (scalar_operator (obind (bt_get "operator" m) as_str)) as [operator|] eqn:Eop; [|done]. cbn [res_bind].
  destruct (bt_get "value" m) as [x|]; [|done]. cbn [option_map default] in Hsafe. cbn [ok_or res_bind fmap option_fmap option_map default].
  change ("value" =? "value") with true. cbn [option_map default].
  destruct operator as [operator|].
  - rewrite res_bind_ok. intros (literal & Hl & [= <-]).
    assert (Hm : mask_operand x = mask x /\ operand_strings x = string_of x) by (by destruct x).
    destruct Hm as [-> Hx]. rewrite Hx in *. destruct (literal_reads _ _ Hsafe Hl) as (k & Hk & Hr). rewrite Hk. eexists. split; [reflexivity|].
    assert (Hop : plain operator = true).
    { by apply (scalar_operator_plain _ _ Eop). }
    apply reads_text; [done|]. apply reads_text; [done|]. apply reads_text; [done|]. by apply reads_text.
  - unfold filter_values. destruct x as [| | | |values|]; try done. cbn [as_array mask_operand operand_strings].
    rewrite length_map. assert (Hnil : is_nil (map mask values) = is_nil values) by (by destruct values).
    rewrite Hnil. destruct (negb (is_nil values) && _); [|done]. cbn [ok_or res_bind].
    rewrite res_bind_ok. intros (literals & Hl & [= <-]).
    apply (collect_reads _ mask string_of) in Hl as (ks & Hks & Hr); [|exact literal_reads|exact Hsafe].
    rewrite Hks. eexists. split; [reflexivity|].
    apply reads_text; [done|]. apply reads_text; [done|].
    apply reads_text; [by destruct (obind _ _ =? _)|]. apply reads_text; [done|].
    rewrite <- (app_nil_r (concat _)). apply reads_app; [done| |by apply reads_plain].
    by apply reads_join.
Qed.

(** *** The parts without strings *)

Lemma plain_join sep ss : plain sep = true -> Forall (fun s => plain s = true) ss -> plain (join sep ss) = true.
Proof.
  intros Hp. induction 1 as [|s ss Hs Hss IH]; [done|]. destruct ss as [|s' ss]; [exact Hs|].
  change (plain (s ++ (sep ++ join sep (s' :: ss))) = true). by rewrite !plain_app, Hs, Hp, IH.
Qed.

Lemma plain_clause keyword ss :
  plain keyword = true -> Forall (fun s => plain s = true) ss -> plain (clause keyword ss) = true.
Proof.
  intros Hk Hss. unfold clause. destruct (is_nil ss); [done|]. by rewrite plain_app, Hk, plain_join.
Qed.

Lemma collect_plain (f : Value -> result CloudflareError string) l ss :
  (forall v s, f v = Ok s -> plain s = true) -> collect f l = Ok ss -> Forall (fun s => plain s = true) ss.
Proof. intros Hf. rewrite collect_ok. induction 1; constructor; eauto. Qed.

Lemma identifier_value_plain label v s : sql_identifier_value label v = Ok s -> plain s = true.
Proof. unfold sql_identifier_value. intros [_ H]%identifier_or_ok. by apply identifier_plain. Qed.

Lemma aggregate_plain v s : render_aggregate v = Ok s -> plain s = true.
Proof.
  unfold render_aggregate. rewrite res_bind_ok. intros (m & _ & H). revert H. rewrite res_bind_ok.
  intros (function & Hf & H). revert H. rewrite res_bind_ok. intros (expression & He & H). revert H.
  rewrite res_bind_ok. intros (alias & [_ Ha%identifier_plain]%identifier_or_ok & [= <-]).
  destruct (text_member "function" m) as [f|]; [|done]. destruct (contains aggregate_functions f) eqn:Ec; [|done].
  injection Hf as <-. assert (Hplain : plain f = true).
  { apply contains_true, list_elem_of_In in Ec. repeat (destruct Ec as [<-|Ec]; [done|]). destruct Ec. }
  assert (Hexpr : plain expression = true).
  { destruct (f =? "count"); [by injection He as <-|]. revert He. rewrite res_bind_ok.
    intros (field & [_ Hfield%identifier_plain]%identifier_or_ok & [= <-]). by rewrite !plain_app, Hplain, Hfield. }
  by rewrite !plain_app, Hexpr, Ha.
Qed.

Lemma order_plain v s : render_order v = Ok s -> plain s = true.
Proof.
  unfold render_order. rewrite res_bind_ok. intros (m & _ & H). revert H. rewrite res_bind_ok.
  intros (field & [_ Hf%identifier_plain]%identifier_or_ok & H). revert H. rewrite res_bind_ok.
  intros (direction & Hd & [= <-]). rewrite !plain_app, Hf.
  destruct (text_member "direction" m) as [d|]; [|done].
  destruct (d =? "asc"); [by injection Hd as <-|]. destruct (d =? "desc"); [by injection Hd as <-|done].
Qed.

Lemma time_reads clickhouse_time v : literal_safe backslash v = true -> reads (time_bound clickhouse_time v) (time_bound clickhouse_time "") [v].
Proof.
  unfold time_bound. intros Hv. destruct clickhouse_time; [|by apply reads_quoted]. apply reads_text; [done|].
  apply (reads_app _ _ _ [v] _ _ []); [done|by apply reads_quoted|by apply reads_plain].
Qed.

Lemma statement_reads projections dataset timestamp_field clickhouse_time start end_ filters filters' lss tail :
  plain projections = true -> plain dataset = true -> plain timestamp_field = true -> plain tail = true ->
  literal_safe backslash start = true -> literal_safe backslash end_ = true -> reads_all filters filters' lss ->
  let statement start end_ filters :=
    ("SELECT " ++ projections ++ " FROM " ++ dataset ++ " WHERE "
     ++ join " AND " ((timestamp_field ++ " >= " ++ time_bound clickhouse_time start)
          :: (timestamp_field ++ " < " ++ time_bound clickhouse_time end_) :: filters) ++ tail)%string in
  reads (statement start end_ filters) (statement "" "" filters') ([start] ++ [end_] ++ concat lss)%list.
Proof.
  intros Hp Hd Ht Htail Hstart Hend Hf statement. unfold statement. do 5 (apply reads_text; [done|]).
  replace ([start] ++ [end_] ++ concat lss)%list with (concat ([start] :: [end_] :: lss) ++ [])%list
    by (cbn; by rewrite app_nil_r).
  apply reads_app; [by apply plain_unquoted| |by apply reads_plain]. apply reads_join; [done|done|done|].
  constructor; [|constructor; [|done]]; (apply reads_text; [done|]; apply reads_text; [done|]; by apply time_reads).
Qed.

Lemma masked_key (f : string -> Value -> Value) k m : (forall v, f k v = v) -> f k <$> bt_get k m = bt_get k m.
Proof. intros Hf. destruct (bt_get k m); cbn; by rewrite ?Hf. Qed.

Lemma structured_select body timestamp_field clickhouse_time format sql :
  plain timestamp_field = true -> safe (body_strings body) ->
  render_structured_select_sql body timestamp_field clickhouse_time format = Ok sql ->
  exists skeleton,
    render_structured_select_sql (mask_body body) timestamp_field clickhouse_time format = Ok skeleton /\
    reads sql skeleton (body_strings body).
Proof.
  intros Ht Hsafe. unfold render_structured_select_sql, object_or. destruct body as [| | | | |m]; try done.
  cbn [as_object ok_or res_bind mask_body]. unfold text_member, list_member, body_strings in *. rewrite !bt_get_map.
  rewrite !(masked_key _ "dataset"), !(masked_key _ "columns"), !(masked_key _ "aggregates"), !(masked_key _ "group_by"),
    !(masked_key _ "order_by"), !(masked_key _ "limit") by done.
  rewrite res_bind_ok. intros (dataset & Hd & H). rewrite Hd. apply identifier_or_ok in Hd as [_ Hd%identifier_plain].
  cbn [res_bind]. cbn [vget] in *. revert H.
  destruct (bt_get "start" m) as [[| | |start| |]|]; try done. destruct (bt_get "end" m) as [[| | |end_| |]|]; try done.
  cbn [option_map default string_of] in Hsafe. apply Forall_app in Hsafe as [Hstart Hsafe].
  apply Forall_app in Hsafe as [Hend Hsafe].
  apply Forall_inv in Hstart, Hend.
  cbn [obind as_str ok_or res_bind fmap option_fmap option_map default string_of].
  change (mask_entry "start" (VString start)) with (VString ""). change (mask_entry "end" (VString end_)) with (VString "").
  cbn [obind as_str ok_or res_bind].
  destruct (collect (sql_identifier_value "column") _) as [columns|] eqn:Ec; [|done].
  destruct (collect render_aggregate _) as [aggregates|] eqn:Ea; [|done]. cbn [res_bind].
  rewrite guard_ok, res_bind_ok. intros (Hnil & filters & Hfilters & H). rewrite Hnil. cbn [guard].
  apply (collect_reads _ mask_filter filter_strings) in Hfilters as (ks & Hks & Hr); [|exact filter_reads|exact Hsafe].
  replace (default [] (obind _ as_array)) with (map mask_filter (default [] (obind (bt_get "filters" m) as_array)))
    by (by destruct (bt_get "filters" m) as [[]|]).
  rewrite Hks. cbn [res_bind]. revert H. unfold sql_identifier_array.
  destruct (collect (sql_identifier_value "group_by") _) as [group_by|] eqn:Eg; [|done].
  destruct (collect render_order _) as [order_by|] eqn:Eo; [|done]. cbn [res_bind].
  destruct (obind (bt_get "limit" m) as_u64) as [limit|]; [|done]. cbn [ok_or res_bind]. intros [= <-].
  eexists. split; [reflexivity|].
  apply statement_reads; [|done|done| |done..].
  - apply plain_join; [done|]. apply Forall_app. split.
    + by eapply collect_plain; [exact (identifier_value_plain "column")|].
    + by eapply collect_plain; [exact aggregate_plain|].
  - rewrite !plain_app, show_Z_plain, !plain_clause; [by destruct format as [[]|]|done| |done|].
    + by eapply collect_plain; [exact order_plain|].
    + by eapply collect_plain; [exact (identifier_value_plain "group_by")|].
Qed.
End Structure.

(** C30: the values of a structured query do not become SQL. Whatever the times
    and the strings of the filters contain, the statement reads as the statement
    of the same body with them left blank, with exactly those strings as its
    literals, in order: always where a string literal ends at its first quote
    that is not doubled, and, in a dialect where a backslash also escapes the
    byte after it (ClickHouse's is one), for values without a backslash. *)
Theorem structured_sql_keeps_its_structure {fd : FloatDisplay} :
  (forall f, plain (float_display f) = true) ->
  forall backslash,
  (forall body format sql,
     Forall (fun s => literal_safe backslash s = true) (body_strings body) ->
     render_structured_analytics_sql body format = Ok sql ->
     exists skeleton, render_structured_analytics_sql (mask_body body) format = Ok skeleton /\
       sql_reads backslash sql = Some (skeleton, body_strings body)) /\
  (forall body sql,
     Forall (fun s => literal_safe backslash s = true) (body_strings body) ->
     render_structured_log_explorer_sql body = Ok sql ->
     exists skeleton, render_structured_log_explorer_sql (mask_body body) = Ok skeleton /\
       sql_reads backslash sql = Some (skeleton, body_strings body)).
Proof.
  intros Hfloats backslash. split.
  - intros body format sql Hsafe H. unfold render_structured_analytics_sql in *.
    destruct (structured_select Hfloats backslash _ "timestamp" _ _ _ eq_refl Hsafe H) as (k & Hk & Hr). exists k. split; [done|by apply reads_scan].
  - intros body sql Hsafe. unfold render_structured_log_explorer_sql. rewrite res_bind_ok. intros (field & Hf & H).
    pose proof (identifier_plain _ (proj2 (proj1 (identifier_or_ok _ _ _) Hf))) as Hp.
    destruct (structured_select Hfloats backslash _ _ _ _ _ Hp Hsafe H) as (k & Hk & Hr). exists k. split; [|by apply reads_scan].
    replace (obind (vget "timestamp_field" (mask_body body)) as_str) with (obind (vget "timestamp_field" body) as_str);
      [by rewrite Hf|]. destruct body as [| | | | |m]; try done. cbn [mask_body vget]. rewrite bt_get_map.
    by rewrite (masked_key _ "timestamp_field").
Qed.

(** ** A query *)

Definition sample_query (host : string) : Value :=
  jobj [("dataset", VString "edge_requests"); ("start", VString "2026-01-01T00:00:00Z");
        ("end", VString "2026-01-02T00:00:00Z"); ("columns", VArray [VString "path"]);
        ("aggregates", VArray [jobj [("function", VString "count"); ("alias", VString "hits")]]);
        ("filters", VArray [jobj [("field", VString "host"); ("operator", VString "in");
                                  ("value", VArray [VString host; VNumber (PosInt 7)])]]);
        ("group_by", VArray [VString "path"]); ("limit", VNumber (PosInt 10))].

Example sample_statement :
  @render_structured_analytics_sql (fun _ => "0.5") (sample_query "a' OR 1=1 --") OutputFormat_Json =
  Ok "SELECT path, count(*) AS hits FROM edge_requests WHERE timestamp >= toDateTime64('2026-01-01T00:00:00Z', 3) AND timestamp < toDateTime64('2026-01-02T00:00:00Z', 3) AND host IN ('a'' OR 1=1 --', 7) GROUP BY path LIMIT 10 FORMAT JSON".
Proof. vm_compute. reflexivity. Qed.

Lemma structured_sql_keeps_its_structure_witness :
  exists sql skeleton,
    @render_structured_analytics_sql (fun _ => "0.5") (sample_query "a' OR 1=1 --") OutputFormat_Json = Ok sql /\
    @render_structured_analytics_sql (fun _ => "0.5") (sample_query "") OutputFormat_Json = Ok skeleton /\
    (exists k, @render_structured_analytics_sql (fun _ => "0.5") (mask_body (sample_query "a' OR 1=1 --")) OutputFormat_Json
       = Ok k /\ sql_reads true sql = Some (k, ["2026-01-01T00:00:00Z"; "2026-01-02T00:00:00Z"; "a' OR 1=1 --"])).
Proof.
  do 2 eexists. split; [vm_compute; reflexivity|]. split; [vm_compute; reflexivity|].
  refine (proj1 (@structured_sql_keeps_its_structure (fun _ => "0.5") _ true) (sample_query "a' OR 1=1 --") OutputFormat_Json _ _ _).
  - intros f. reflexivity.
  - repeat constructor.
  - vm_compute. reflexivity.
Defined.

(** Nothing in the rendering doubles or refuses backslashes: where a backslash
    escapes the quote after it, a value that ends in one takes what follows it
    into its literal, and the text of the next value is read as SQL. *)
Definition two_filters (first second : string) : Value :=
  let equals field value := jobj [("field", VString field); ("operator", VString "eq"); ("value", VString value)] in
  jobj [("dataset", VString "edge_requests"); ("start", VString "s"); ("end", VString "e");
        ("columns", VArray [VString "path"]); ("limit", VNumber (PosInt 10));
        ("filters", VArray [equals "host" first; equals "path" second])].

Example backslash_escapes_the_quote :
  match @render_structured_analytics_sql (fun _ => "0.5") (two_filters "\" " OR 1=1 --") OutputFormat_Json with
  | Ok sql =>
      sql_reads true sql = None /\
      sql_reads true (sql ++ "'") =
        Some ("SELECT path FROM edge_requests WHERE timestamp >= toDateTime64('', 3) AND timestamp < toDateTime64('', 3) AND host = '' OR 1=1 --''",
              ["s"; "e"; "\' AND path = "; " LIMIT 10 FORMAT JSON"])
  | Err _ => False
  end.
Proof. vm_compute. split; reflexivity. Qed.
