(* ===== verification/RequestBuilder.v ===== *)
(** Building a request (cfctl-cloudflare/src/lib.rs, [RequestBuilder] and the
    selector and query contracts): the path from its template, the query and
    the headers from the caller's selectors, over the [url] and [http] crates,
    which are interfaces here. *)

From Stdlib Require Import String Ascii ZArith Lia List Bool.
From stdpp Require Import base option list strings.
From S2P Require Import Prelude Strings Bytes Btree StringSet Json JsonOps CatalogTypes Capability CapabilityOps Samples.
From S2P Require Import RulesetRules CloudflareErrors DecimalMultiple RequestFormats RequestValidation.

Open Scope cf_scope.
Open Scope string_scope.
Open Scope cf_scope.

(** ** What the other crates provide *)

(** [url::Url], as far as the builder uses it. *)
Class Urls := {
  Url : Type;
  can_be_base : Url -> bool;
  (* path_segments_mut().pop_if_empty() and .push(segment) *)
  pop_if_empty : Url -> Url;
  push : string -> Url -> Url;
  path_segments : Url -> list string;
  (* query_pairs_mut().append_pair(key, value) *)
  append_pair : string -> string -> Url -> Url;
  query_pairs : Url -> list (string * string);
  (* query().is_some() *)
  has_query : Url -> bool;
  (* query_pairs_mut().clear().extend_pairs(pairs) *)
  set_pairs : list (string * string) -> Url -> Url;
}.

(** [serde_json::from_str] on the text of a number, [HeaderName::from_bytes]
    and [HeaderValue::from_str]. *)
Class RequestTexts := {
  json_number : string -> option Number;
  header_name : string -> option string;
  header_value : string -> option string;
}.

(** A segment the URL keeps as it is, but for percent-encoding. *)
Definition dot_segment (s : string) : bool := (s =? ".") || (s =? "..").
Definition ordinary (s : string) : bool :=
  negb (dot_segment s) && bytes_all (fun a => negb (contains [9; 10; 13]%N (byte a))) s.

(** What the documentation of [url] says of these operations: a pushed segment
    is percent-encoded, slashes included, so that it stays one segment; one
    that is [.] or [..] is ignored; appended pairs read back. *)
Class UrlLaws (urls : Urls) := {
  encode_segment : string -> string;
  encode_segment_inj s t : ordinary s = true -> ordinary t = true -> encode_segment s = encode_segment t -> s = t;
  push_ordinary u s : ordinary s = true -> path_segments u <> [""] ->
    path_segments (push s u) = (path_segments u ++ [encode_segment s])%list;
  push_root u s : ordinary s = true -> path_segments u = [""] -> path_segments (push s u) = [encode_segment s];
  push_dots u s : dot_segment s = true -> push s u = u;
  append_pair_pairs u k v : query_pairs (append_pair k v u) = (query_pairs u ++ [(k, v)])%list;
  append_pair_path u k v : path_segments (append_pair k v u) = path_segments u;
  set_pairs_pairs u l : query_pairs (set_pairs l u) = l;
  set_pairs_path u l : path_segments (set_pairs l u) = path_segments u;
}.

(** ** Headers a selector may not set *)

Definition reserved_headers : list string :=
  ["authorization"; "proxy-authorization"; "cookie"; "set-cookie"; "host"; "x-auth-email"; "x-auth-key";
   "idempotency-key"; "if-match"; "if-none-match"; "content-length"; "accept-encoding"; "transfer-encoding";
   "connection"; "upgrade"; "te"; "trailer"; "expect"; "r2-access-key-id"; "r2-secret-access-key"].
Definition request_header_is_reserved (name : string) : bool :=
  contains reserved_headers (to_ascii_lowercase name).

(** ** Values *)

Record CallInput : Type := mkCallInput {
  ci_selectors : Value;
  ci_query : Value;
  ci_body : option Value;
  ci_if_match : option string;
  ci_if_none_match : option string;
}.

Definition json_value_type (value : Value) : option string :=
  match value with
  | VBool _ => Some "boolean"
  | VNumber (PosInt _ | NegInt _) => Some "integer"
  | VNumber _ => Some "number"
  | VString _ => Some "string"
  | VArray _ => Some "array"
  | VObject _ => Some "object"
  | VNull => None
  end.

Definition schema_value_type (schema : Value) : option string :=
  match obind (vget "type" schema) as_str with
  | Some value_type => Some value_type
  | None =>
      obind (obind (vget "enum" schema) as_array) (fun values =>
      obind (head values) (fun first =>
      obind (json_value_type first) (fun value_type =>
      if forallb (fun value => json_value_type value =? Some value_type) values then Some value_type else None)))
  end.

(** [str::parse::<i64>] *)
Definition parse_i64 (s : string) : option Z :=
  let '(sign, digits) :=
    match strip_prefix "-" s with
    | Some d => ((-1)%Z, d)
    | None => match strip_prefix "+" s with Some d => (1%Z, d) | None => (1%Z, s) end
    end in
  if is_empty digits || negb (bytes_all is_ascii_digit digits) then None
  else
    let n := (sign * digits_value 0 digits)%Z in
    if (- 2 ^ 63 <=? n)%Z && (n <? 2 ^ 63)%Z then Some n else None.

(** [str::parse::<u64>] *)
Definition parse_u64 (s : string) : option Z :=
  parse_unsigned 64 (default s (strip_prefix "+" s)).

Definition integer_number (n : Z) : Number := if (n <? 0)%Z then NegInt n else PosInt n.

Section Selectors.
Context {fd : FloatDisplay} {rt : RequestTexts}.

Definition scalar (value : Value) : option string :=
  match value with
  | VString value => Some value
  | VNumber value => Some (number_to_string value)
  | VBool value => Some (if value then "true" else "false")
  | _ => None
  end.

Fixpoint all_of {A B} (f : A -> option B) (l : list A) : option (list B) :=
  match l with
  | [] => Some []
  | x :: l => obind (f x) (fun y => option_map (cons y) (all_of f l))
  end.

(** One value that is not a list. *)
Definition canonical_scalar (value : Value) (expected : string) : option Value :=
  if expected =? "string" then option_map VString (as_str value)
  else if expected =? "boolean" then
    match value with
    | VBool b => Some (VBool b)
    | VString s => if s =? "true" then Some (VBool true) else if s =? "false" then Some (VBool false) else None
    | _ => None
    end
  else if expected =? "integer" then
    match value with
    | VNumber (PosInt n) => Some (VNumber (PosInt n))
    | VNumber (NegInt n) => Some (VNumber (NegInt n))
    | VString s =>
        match parse_i64 s with
        | Some n => Some (VNumber (integer_number n))
        | None => option_map (fun n => VNumber (PosInt n)) (parse_u64 s)
        end
    | _ => None
    end
  else if expected =? "number" then
    match value with
    | VNumber n => Some (VNumber n)
    | VString s => option_map VNumber (json_number s)
    | _ => None
    end
  else if expected =? "unknown" then option_map (fun _ => value) (scalar value)
  else None.

Definition canonical_selector_value_for_schema (value : Value) (expected : string) (schema : option Value)
    : option Value :=
  if expected =? "array" then
    obind (as_array value) (fun values =>
    if is_nil values then None
    else
      let item_type := default "unknown" (obind (obind schema (vget "items")) schema_value_type) in
      if contains ["array"; "object"] item_type then None
      else option_map VArray (all_of (fun value => canonical_scalar value item_type) values))
  else canonical_scalar value expected.

Definition canonical_query_value (value : Value) (expected : string) (selector : SelectorV1) : option Value :=
  canonical_selector_value_for_schema value expected (option_map selc_schema (sel_contract selector)).

(** ** The path template *)

Definition trim_slashes (path : string) : string :=
  (fix trim (s : string) : string :=
     match s with String a s' => if a =? "/"%char then trim s' else s | EmptyString => EmptyString end) path.
Definition template_segments (path : string) : list string := split_on "/" (trim_slashes path).

(** The selector a segment stands for. *)
Definition segment_selector (segment : string) : option string :=
  obind (strip_prefix "{" segment) (strip_final "}").

Definition path_selector_names (path : string) : list string := omap segment_selector (template_segments path).
Definition path_declares_selector (path name : string) : bool := existsb (eqb name) (path_selector_names path).

(** ** The selector contract *)

Definition selector_object {A} (error : CloudflareError) (selectors : Value)
    (k : option (btree Value) -> result CloudflareError A) : result CloudflareError A :=
  match selectors with
  | VNull => k None
  | VObject values => k (Some values)
  | _ => Err error
  end.

Definition has_key (values : option (btree Value)) (name : string) : bool :=
  is_some_and values (fun values => is_someb (bt_get name values)).

Context {dp : DateParsers}.

Definition schema_reason (error : CloudflareError) : string :=
  match error with InvalidRequestBody reason => reason | other => show_error other end.

Definition check_selector (capability : CapabilityV1) (entry : string * Value) : result CloudflareError unit :=
  let '(name, value) := entry in
  match List.find (fun selector => (sel_location selector <>? "query") && (sel_name selector =? name))
          (cap_selectors capability) with
  | None =>
      if path_declares_selector (cap_path capability) name
      then guard (is_noneb (scalar value)) (InvalidSelector name) (Ok tt)
      else Err (UndeclaredSelector name)
  | Some selector =>
      guard ((sel_location selector =? "header") && request_header_is_reserved name) (ReservedHeaderSelector name) (
      guard (is_noneb (scalar value)) (InvalidSelector name) (
      let schema := option_map selc_schema (sel_contract selector) in
      let? canonical := ok_or (InvalidSelector name)
        (canonical_selector_value_for_schema value (sel_value_type selector) schema) in
      match schema with
      | None => Ok tt
      | Some schema =>
          map_err (fun error => InvalidSelectorSchema name (schema_reason error))
            (validate_request_schema_value schema canonical)
      end))
  end.

Definition validate_selector_contract (capability : CapabilityV1) (selectors : Value) : result CloudflareError unit :=
  selector_object InvalidSelectorObject selectors (fun values =>
  let? _ := for_each (check_selector capability) (default [] values) in
  let? _ := for_each (fun selector =>
      guard (negb (has_key values (sel_name selector)))
        (if sel_location selector =? "header" then MissingHeaderSelector (sel_name selector)
         else MissingSelector (sel_name selector)) (Ok tt))
    (List.filter (fun selector => (sel_location selector <>? "query") && sel_required selector)
       (cap_selectors capability)) in
  for_each (fun name => guard (negb (has_key values name)) (MissingSelector name) (Ok tt))
    (path_selector_names (cap_path capability))).

(** ** The query contract *)

Definition validated_query_serialization (selector : SelectorV1) : result CloudflareError (bool * bool) :=
  let query := obind (sel_contract selector) selc_query in
  let style := from_option qs_style "form" query in
  guard (style <>? "form")
    (UnsupportedQuerySerialization (sel_name selector) ("style `" ++ style ++ "` is not implemented")%string) (
  guard (is_some_and query qs_allow_reserved)
    (UnsupportedQuerySerialization (sel_name selector)
       "allowReserved=true cannot be encoded by the governed URL builder") (
  Ok (is_none_or query qs_explode, is_some_and query qs_allow_empty_value))).

Definition query_value_is_empty (value : Value) : bool :=
  (as_str value =? Some "") || is_some_and (as_array value) is_nil.

Definition find_query_selector (capability : CapabilityV1) (name : string) : result CloudflareError SelectorV1 :=
  ok_or (UndeclaredQuerySelector name)
    (List.find (fun selector => (sel_location selector =? "query") && (sel_name selector =? name))
       (cap_selectors capability)).

Definition check_query (capability : CapabilityV1) (entry : string * Value) : result CloudflareError unit :=
  let '(name, value) := entry in
  let? selector := find_query_selector capability name in
  let? serialization := validated_query_serialization selector in
  if query_value_is_empty value && snd serialization then Ok tt
  else
    let? canonical := ok_or (InvalidQuerySelector name (sel_value_type selector))
      (canonical_query_value value (sel_value_type selector) selector) in
    match option_map selc_schema (sel_contract selector) with
    | None => Ok tt
    | Some schema =>
        map_err (fun error => InvalidQuerySelectorSchema name (schema_reason error))
          (validate_request_schema_value schema canonical)
    end.

Definition validate_query_contract (capability : CapabilityV1) (query : Value) : result CloudflareError unit :=
  selector_object InvalidQueryObject query (fun values =>
  let? _ := for_each (check_query capability) (default [] values) in
  for_each (fun selector =>
      guard (negb (has_key values (sel_name selector))) (MissingQuerySelector (sel_name selector)) (Ok tt))
    (List.filter (fun selector => (sel_location selector =? "query") && sel_required selector)
       (cap_selectors capability))).

(** ** The parts of a request *)

Definition R2_OBJECT_PATH : string := "/accounts/{account_id}/r2/buckets/{bucket_name}/objects/{object_key}".

Definition r2_object_key_segments (value : string) : result CloudflareError (list string) :=
  let segments := split_on "/" value in
  guard (is_nil segments || existsb (fun segment => is_empty segment || dot_segment segment || has_control segment) segments)
    (InvalidSelector "object_key") (Ok segments).

Context {urls : Urls}.

(** The loop over the segments of the template. *)
Fixpoint push_segments (path : string) (selectors : option (btree Value)) (segments : list string) (url : Url)
    : result CloudflareError Url :=
  match segments with
  | [] => Ok url
  | segment :: segments =>
      match segment_selector segment with
      | Some key =>
          let? value := ok_or (MissingSelector key) (obind selectors (bt_get key)) in
          let? rendered := ok_or (InvalidSelector key) (scalar value) in
          if (key =? "object_key") && (path =? R2_OBJECT_PATH)
          then
            let? object_segments := r2_object_key_segments rendered in
            push_segments path selectors segments (fold_left (fun url segment => push segment url) object_segments url)
          else push_segments path selectors segments (push rendered url)
      | None => push_segments path selectors segments (push segment url)
      end
  end.

Definition request_path (base_url : Url) (capability : CapabilityV1) (input : CallInput) : result CloudflareError Url :=
  guard (negb (can_be_base base_url)) InvalidBaseUrl (
  push_segments (cap_path capability) (as_object (ci_selectors input)) (template_segments (cap_path capability))
    (pop_if_empty base_url)).

(** The pairs one query control contributes. *)
Definition query_pairs_of (key : string) (value : Value) (selector : SelectorV1) (explode : bool)
    : result CloudflareError (list (string * string)) :=
  match value with
  | VArray values =>
      let? rendered := ok_or (InvalidQuerySelector key (sel_value_type selector)) (all_of scalar values) in
      Ok (if is_nil rendered then [(key, "")]
          else if explode then map (fun rendered => (key, rendered)) rendered
          else [(key, join "," rendered)])
  | _ => Ok (match scalar value with Some rendered => [(key, rendered)] | None => [] end)
  end.

Definition append_pairs (pairs : list (string * string)) (url : Url) : Url :=
  fold_left (fun url pair => append_pair (fst pair) (snd pair) url) pairs url.

Fixpoint append_query (capability : CapabilityV1) (query : list (string * Value)) (url : Url) : result CloudflareError Url :=
  match query with
  | [] => Ok url
  | (key, value) :: query =>
      let? selector := find_query_selector capability key in
      let? serialization := validated_query_serialization selector in
      let? pairs := query_pairs_of key value selector (fst serialization) in
      append_query capability query (append_pairs pairs url)
  end.

Definition request_url (base_url : Url) (capability : CapabilityV1) (input : CallInput) : result CloudflareError Url :=
  let? url := request_path base_url capability input in
  append_query capability (default [] (as_object (ci_query input))) url.

(** Headers by their normalised name. *)
Definition HeaderMap : Type := btree string.

Definition selector_header_text (selector : SelectorV1) (value : Value) : option string :=
  if sel_name selector =? "cf-r2-jurisdiction" then as_str value else scalar value.

Fixpoint add_header_selectors (headers : HeaderMap) (declared : list SelectorV1) (selectors : option (btree Value))
    : result CloudflareError HeaderMap :=
  match declared with
  | [] => Ok headers
  | selector :: declared =>
      match obind selectors (bt_get (sel_name selector)) with
      | None =>
          guard (sel_required selector) (MissingHeaderSelector (sel_name selector))
            (add_header_selectors headers declared selectors)
      | Some value =>
          guard (request_header_is_reserved (sel_name selector)) (ReservedHeaderSelector (sel_name selector)) (
          let? rendered := ok_or (InvalidHeaderSelector (sel_name selector)) (selector_header_text selector value) in
          let? name := ok_or (InvalidHeaderSelector (sel_name selector)) (header_name (sel_name selector)) in
          let? value := ok_or (InvalidHeaderSelector (sel_name selector)) (header_value rendered) in
          add_header_selectors (bt_insert name value headers) declared selectors)
      end
  end.

Definition add_declared_header_selectors (headers : HeaderMap) (capability : CapabilityV1)
    (selectors : option (btree Value)) : result CloudflareError HeaderMap :=
  add_header_selectors headers
    (List.filter (fun selector => sel_location selector =? "header") (cap_selectors capability)) selectors.

Definition add_conditional_header (headers : HeaderMap) (name : string) (value : option string)
    : result CloudflareError HeaderMap :=
  match value with
  | None => Ok headers
  | Some value =>
      let? value := ok_or InvalidConditionalHeader (header_value value) in
      Ok (bt_insert name value headers)
  end.

Definition request_headers (capability : CapabilityV1) (input : CallInput) : result CloudflareError HeaderMap :=
  let? headers := add_declared_header_selectors [] capability (as_object (ci_selectors input)) in
  let? headers := add_conditional_header headers "if-match" (ci_if_match input) in
  add_conditional_header headers "if-none-match" (ci_if_none_match input).

(** ** Runtime bounds *)

Definition parse_output_format (value : string) : result CloudflareError OutputFormatV1 :=
  if value =? "json" then Ok OutputFormat_Json
  else if value =? "ndjson" then Ok OutputFormat_Ndjson
  else if value =? "csv" then Ok OutputFormat_Csv
  else Err (InvalidAnalyticsQuery ("output format `" ++ value ++ "` is not declared")%string).

Definition output_media_type (format : OutputFormatV1) : string :=
  match format with
  | OutputFormat_Json => "application/json"
  | OutputFormat_Ndjson => "application/x-ndjson"
  | OutputFormat_Csv => "text/csv"
  end.

(** The format, the rows, the bytes and the seconds a read may take. *)
Definition RuntimeOptions : Type := OutputFormatV1 * Z * Z * Z.

Definition read_runtime_options (capability : CapabilityV1) (input : CallInput) : result CloudflareError RuntimeOptions :=
  let json rows bytes seconds := Ok (OutputFormat_Json, rows, bytes, seconds) in
  match cap_mln_0143_data_invariants capability, cap_d1_schema_introspection capability,
        cap_d1_full_export capability, cap_d1_restore_exact_bookmark capability with
  | Some contract, _, _, _ => json 1%Z (m0143_max_bytes contract) (m0143_max_timeout_seconds contract)
  | None, Some contract, _, _ =>
      json (si_max_rows contract) (si_max_bytes contract) (si_max_timeout_seconds contract)
  | None, None, Some contract, _ => json 1%Z (fe_max_bytes contract) (fe_max_timeout_seconds contract)
  | None, None, None, Some contract => json 1%Z (reb_max_response_bytes contract) (reb_max_timeout_seconds contract)
  | None, None, None, None =>
      match cap_analytics_query capability with
      | None =>
          match cap_r2_log_retrieval capability with
          | None => json 10000%Z (16 * 1024 * 1024)%Z 30%Z
          | Some contract => json (r2log_max_bytes contract) (r2log_max_bytes contract) (r2log_max_timeout_seconds contract)
          end
      | Some contract =>
          let body := obind (ci_body input) as_object in
          let? output_format :=
            match obind (obind body (bt_get "format")) as_str with
            | Some format => parse_output_format format
            | None => Ok (aq_default_output_format contract)
            end in
          let max_rows := default (aq_max_rows contract)
            (obind (obind (aq_row_limit_pointer contract) (fun pointer => obind (ci_body input) (vpointer pointer))) as_u64) in
          let timeout_seconds := default (aq_max_timeout_seconds contract)
            (obind (obind body (bt_get "timeout_seconds")) as_u64) in
          Ok (output_format, max_rows, aq_max_bytes contract, timeout_seconds)
      end
  end.
End Selectors.
