(* ===== verification/RequestPaths.v ===== *)
(** What a built request addresses: the path is its template with each selector
    in a segment of its own, a validated call always builds, nothing of a query
    is lost and no reserved header is set; and the selectors that are not kept. *)

From Stdlib Require Import String Ascii ZArith Lia List Bool.
From stdpp Require Import base option list strings.
From S2P Require Import Prelude Strings Bytes Btree StringSet Json JsonOps CatalogTypes Capability CapabilityOps Samples.
From S2P Require Import RulesetRules CloudflareErrors DecimalMultiple RequestFormats RequestValidation RequestBuilder.

Open Scope cf_scope.
Open Scope string_scope.
Open Scope cf_scope.

Section Paths.
Context {fd : FloatDisplay} {rt : RequestTexts} {dp : DateParsers} {urls : Urls} {laws : UrlLaws urls}.

(** ** The path *)

(** The text of a selector in the path. *)
Definition selector_text (selectors : option (btree Value)) (key : string) : option string :=
  obind (obind selectors (bt_get key)) scalar.

(** The segments a template asks for, before encoding. *)
Fixpoint raw_segments (path : string) (selectors : option (btree Value)) (segments : list string) : option (list string) :=
  match segments with
  | [] => Some []
  | segment :: segments =>
      let parts :=
        match segment_selector segment with
        | None => Some [segment]
        | Some key =>
            obind (selector_text selectors key) (fun rendered =>
            if (key =? "object_key") && (path =? R2_OBJECT_PATH) then ok_opt (r2_object_key_segments rendered)
            else Some [rendered])
        end in
      obind parts (fun parts => option_map (app parts) (raw_segments path selectors segments))
  end.

Definition push_all (segments : list string) (url : Url) : Url :=
  fold_left (fun url segment => push segment url) segments url.

Lemma push_segments_ok path selectors segments : forall url url',
  push_segments path selectors segments url = Ok url' <->
  exists raw, raw_segments path selectors segments = Some raw /\ url' = push_all raw url.
Proof.
  induction segments as [|segment segments IH]; intros url url'; cbn [push_segments raw_segments].
  - split; [intros [= <-]; by exists []|by intros (? & [= <-] & ->)].
  - unfold selector_text. destruct (segment_selector segment) as [key|].
    + destruct (obind selectors (bt_get key)) as [v|]; cbn; [|by split; [|intros (? & ? & ?)]].
      destruct (scalar v) as [rendered|]; cbn; [|by split; [|intros (? & ? & ?)]].
      destruct (_ && _); cbn.
      * destruct (r2_object_key_segments rendered) as [parts|e]; cbn; [|by split; [|intros (? & ? & ?)]].
        rewrite IH. unfold push_all. split.
        -- intros (raw & -> & ->). exists (parts ++ raw)%list. by rewrite fold_left_app.
        -- intros (raw & H & ->). destruct (raw_segments _ _ _) as [r|]; [|done]. injection H as <-. exists r.
           by rewrite fold_left_app.
      * rewrite IH. split.
        -- intros (raw & -> & ->). by exists (rendered :: raw).
        -- intros (raw & H & ->). destruct (raw_segments _ _ _) as [r|]; [|done]. injection H as <-. by exists r.
    + cbn. rewrite IH. split.
      * intros (raw & -> & ->). by exists (segment :: raw).
      * intros (raw & H & ->). destruct (raw_segments _ _ _) as [r|]; [|done]. injection H as <-. by exists r.
Qed.

Lemma request_path_ok base capability input url :
  request_path base capability input = Ok url <->
  can_be_base base = true /\ exists raw,
    raw_segments (cap_path capability) (as_object (ci_selectors input)) (template_segments (cap_path capability)) = Some raw /\
    url = push_all raw (pop_if_empty base).
Proof. unfold request_path. rewrite guard_ok, push_segments_ok, negb_false_iff. done. Qed.

(** A path with segments of its own. *)
Definition has_segments (url : Url) : Prop := path_segments url <> [] /\ path_segments url <> [""].

Lemma push_all_segments raw : forall url, has_segments url -> forallb ordinary raw = true ->
  path_segments (push_all raw url) = (path_segments url ++ map encode_segment raw)%list.
Proof.
  induction raw as [|s raw IH]; intros url [H1 H2] Hr; [by rewrite app_nil_r|]. cbn in Hr |- *.
  apply andb_true_iff in Hr as [Hs Hr]. pose proof (push_ordinary url s Hs H2) as Hp.
  rewrite IH; [by rewrite Hp, <- app_assoc| |done].
  unfold has_segments. rewrite Hp. destruct (path_segments url) as [|x [|y l]]; done.
Qed.

(** *** Templates without an object key *)

Definition flat_template (path : string) : Prop := path <> R2_OBJECT_PATH.

Definition segment_text (selectors : option (btree Value)) (segment : string) : option string :=
  match segment_selector segment with None => Some segment | Some key => selector_text selectors key end.

Lemma raw_flat path selectors segments raw :
  flat_template path ->
  raw_segments path selectors segments = Some raw <->
  Forall2 (fun segment text => segment_text selectors segment = Some text) segments raw.
Proof.
  intros Hp. revert raw. induction segments as [|segment segments IH]; intros raw; cbn [raw_segments].
  - split; [by intros [= <-]|by inversion 1].
  - assert (Hflat : forall key, (key =? "object_key") && (path =? R2_OBJECT_PATH) = false).
    { intros key. rewrite andb_false_iff. right. by apply eqb_false. }
    assert (E : match segment_selector segment with
      | None => Some [segment]
      | Some key => obind (selector_text selectors key) (fun rendered =>
          if (key =? "object_key") && (path =? R2_OBJECT_PATH) then ok_opt (r2_object_key_segments rendered) else Some [rendered])
      end = option_map (fun t => [t]) (segment_text selectors segment)).
    { unfold segment_text. destruct (segment_selector segment) as [key|]; [|done]. rewrite Hflat.
      by destruct (selector_text selectors key). }
    rewrite E. destruct (segment_text selectors segment) as [text|] eqn:Et; cbn.
    + split.
      * destruct (raw_segments _ _ _) as [rest|]; [|done]. intros [= <-]. constructor; [done|]. by apply IH.
      * inversion 1 as [|? t ? rest Ht Hrest]; subst. rewrite Et in Ht. injection Ht as <-.
        apply IH in Hrest. by rewrite Hrest.
    + split; [done|]. inversion 1; congruence.
Qed.

Lemma names_in path key :
  key ∈ path_selector_names path <-> exists segment, segment ∈ template_segments path /\ segment_selector segment = Some key.
Proof. unfold path_selector_names. rewrite list_elem_of_omap. done. Qed.

Lemma raw_determined selectors selectors' segments raw raw' :
  Forall2 (fun segment text => segment_text selectors segment = Some text) segments raw ->
  Forall2 (fun segment text => segment_text selectors' segment = Some text) segments raw' ->
  raw = raw' <-> Forall (fun segment => segment_text selectors segment = segment_text selectors' segment) segments.
Proof.
  intros H. revert raw'. induction H as [|segment t segments raw Ht Hr IH]; intros raw' H'; inversion H'; subst; [done|].
  rewrite Forall_cons, <- IH by done. split; [intros [= -> ->]; split; [congruence|done]|intros [? ->]; f_equal; congruence].
Qed.

Lemma encoded_injective raw : forall raw', forallb ordinary raw = true -> forallb ordinary raw' = true ->
  map encode_segment raw = map encode_segment raw' -> raw = raw'.
Proof.
  induction raw as [|s raw IH]; intros [|s' raw']; cbn; try done.
  intros [Hs Hr]%andb_true_iff [Hs' Hr']%andb_true_iff [= E1 E2]. f_equal; [by apply encode_segment_inj|by apply IH].
Qed.

(** The selectors of the path that a URL keeps. *)
Definition ordinary_path (capability : CapabilityV1) (input : CallInput) : bool :=
  is_some_and (raw_segments (cap_path capability) (as_object (ci_selectors input))
                 (template_segments (cap_path capability))) (forallb ordinary).

(** C31: a selector stays in its segment. Over a base URL with a path, the path
    of a request has one segment for each segment of its template, whatever the
    selectors contain, slashes and percent signs included, dot segments aside
    (those a URL drops) and the object path of R2, whose key is several
    segments; and two calls address the same resource exactly when they agree on
    every selector of the path. *)
Theorem selectors_stay_in_their_segments base capability input input' url url' :
  has_segments (pop_if_empty base) -> flat_template (cap_path capability) ->
  request_path base capability input = Ok url -> request_path base capability input' = Ok url' ->
  ordinary_path capability input = true -> ordinary_path capability input' = true ->
  List.length (path_segments url) =
    List.length (path_segments (pop_if_empty base)) + List.length (template_segments (cap_path capability)) /\
  (path_segments url = path_segments url' <->
   forall key, key ∈ path_selector_names (cap_path capability) ->
     selector_text (as_object (ci_selectors input)) key = selector_text (as_object (ci_selectors input')) key).
Proof.
  intros Hb Hflat (_ & raw & Hraw & ->)%request_path_ok (_ & raw' & Hraw' & ->)%request_path_ok.
  unfold ordinary_path. rewrite Hraw, Hraw'. cbn [is_some_and]. intros Ho Ho'.
  rewrite !push_all_segments by done. apply raw_flat in Hraw, Hraw'; [|done..].
  split; [by rewrite length_app, length_map, (Forall2_length _ _ _ Hraw)|].
  transitivity (raw = raw').
  - split; [intros E%app_inv_head; by apply encoded_injective|by intros ->].
  - rewrite (raw_determined _ _ _ _ _ Hraw Hraw'), Forall_forall. unfold segment_text. setoid_rewrite names_in. split.
    + intros H key (segment & Hin & Hs). specialize (H segment Hin). by rewrite Hs in H.
    + intros H segment Hin. destruct (segment_selector segment) as [key|] eqn:Hs; [|done]. apply H. eauto.
Qed.

(** ** A validated call builds *)

Lemma check_selector_scalar capability name value :
  check_selector capability (name, value) = Ok tt -> is_someb (scalar value) = true.
Proof.
  unfold check_selector. destruct (List.find _ _) as [selector|].
  - rewrite guard_ok. intros [_ H]. rewrite guard_ok in H. destruct H as [H _]. by apply negb_false_iff in H.
  - destruct (path_declares_selector _ _); [|done]. rewrite guard_ok. intros [H _]. by apply negb_false_iff in H.
Qed.

Lemma selector_object_ok {A} error v (k : option (btree Value) -> result CloudflareError A) a :
  selector_object error v k = Ok a -> k (as_object v) = Ok a.
Proof. by destruct v. Qed.

Lemma validated_selector_text capability selectors key :
  validate_selector_contract capability selectors = Ok tt -> key ∈ path_selector_names (cap_path capability) ->
  is_someb (selector_text (as_object selectors) key) = true.
Proof.
  unfold validate_selector_contract. intros H%selector_object_ok Hkey. revert H.
  rewrite res_bind_unit_ok, for_each_ok. intros [Hall H]. revert H.
  rewrite res_bind_unit_ok, for_each_ok. intros [_ Hnames%for_each_ok]. rewrite Forall_forall in Hnames.
  specialize (Hnames key Hkey). apply guard_ok in Hnames as [Hkeyed%negb_false_iff _].
  unfold has_key, selector_text in *. destruct (as_object selectors) as [values|]; [|done]. cbn in *.
  destruct (bt_get key values) as [value|] eqn:E; [|done]. cbn.
  apply bt_get_in in E. rewrite List.Forall_forall in Hall. exact (check_selector_scalar _ _ _ (Hall _ E)).
Qed.

(** A call that passed the selector contract always has a path: every
    selector of the template is there and prints, so building it never fails. *)
Theorem validated_selectors_build_a_path base capability input :
  can_be_base base = true -> flat_template (cap_path capability) ->
  validate_selector_contract capability (ci_selectors input) = Ok tt ->
  exists url, request_path base capability input = Ok url.
Proof.
  intros Hb Hflat Hv.
  assert (Htext : forall segment, segment ∈ template_segments (cap_path capability) ->
    is_someb (segment_text (as_object (ci_selectors input)) segment) = true).
  { intros segment Hin. unfold segment_text. destruct (segment_selector segment) as [key|] eqn:E; [|done].
    apply (validated_selector_text _ _ _ Hv). apply names_in. eauto. }
  assert (Hraw : exists raw, Forall2 (fun segment text =>
    segment_text (as_object (ci_selectors input)) segment = Some text) (template_segments (cap_path capability)) raw).
  { induction (template_segments (cap_path capability)) as [|segment segments IH]; [by exists []|].
    destruct IH as [raw Hraw]; [intros; apply Htext; by right|].
    specialize (Htext segment ltac:(by left)). destruct (segment_text _ segment) as [text|] eqn:E; [|done].
    exists (text :: raw). by constructor. }
  destruct Hraw as [raw Hraw]. eexists. apply request_path_ok. split; [done|]. exists raw. split; [|done].
  by apply raw_flat.
Qed.

(** ** The query *)

Lemma append_pairs_reads pairs : forall url,
  query_pairs (append_pairs pairs url) = (query_pairs url ++ pairs)%list /\ path_segments (append_pairs pairs url) = path_segments url.
Proof.
  induction pairs as [|[k v] pairs IH]; intros url; [cbn; by rewrite app_nil_r|].
  change (append_pairs ((k, v) :: pairs) url) with (append_pairs pairs (append_pair k v url)).
  destruct (IH (append_pair k v url)) as [-> ->]. by rewrite append_pair_pairs, append_pair_path, <- app_assoc.
Qed.

Lemma canonical_scalar_text value expected canonical :
  canonical_scalar value expected = Some canonical -> is_someb (scalar value) = true.
Proof.
  unfold canonical_scalar.
  repeat (match goal with |- context [if ?c then _ else _] => destruct c end; try by destruct value).
Qed.

Lemma all_of_some {A B C} (f : A -> option B) (g : A -> option C) l ys :
  (forall x y, f x = Some y -> is_someb (g x) = true) -> all_of f l = Some ys ->
  exists zs, all_of g l = Some zs /\ List.length zs = List.length l.
Proof.
  intros H. revert ys. induction l as [|x l IH]; intros ys; [by exists []|]. cbn.
  destruct (f x) as [y|] eqn:E; [|done]. apply H in E. destruct (g x) as [z|]; [|done]. cbn.
  destruct (all_of f l) as [rest|]; [|done]. intros _. destruct (IH rest eq_refl) as (zs & -> & Hl).
  exists (z :: zs). cbn. by rewrite Hl.
Qed.

(** What one accepted control contributes. *)
Lemma checked_query capability key value :
  check_query capability (key, value) = Ok tt ->
  exists selector serialization pairs, find_query_selector capability key = Ok selector /\
    validated_query_serialization selector = Ok serialization /\
    query_pairs_of key value selector (fst serialization) = Ok pairs /\
    pairs <> [] /\ Forall (fun pair => fst pair = key) pairs.
Proof.
  unfold check_query. rewrite res_bind_ok. intros (selector & Hs & H). revert H. rewrite res_bind_ok.
  intros (serialization & Hq & H). exists selector, serialization.
  assert (Hrender : query_value_is_empty value = true \/
    is_someb (canonical_query_value value (sel_value_type selector) selector) = true).
  { destruct (query_value_is_empty value); [by left|]. cbn in H. revert H. rewrite res_bind_ok.
    intros (canonical & Hc & _). right. by destruct (canonical_query_value _ _ _). }
  clear H. destruct (match value with VArray _ => true | _ => false end) eqn:Earray.
  - destruct value as [| | | |values|]; try done. unfold query_pairs_of.
    assert (Hall : exists rendered, all_of scalar values = Some rendered /\ List.length rendered = List.length values).
    { destruct Hrender as [He|Hc]; [by destruct values; [exists []|]|].
      unfold canonical_query_value, canonical_selector_value_for_schema in Hc.
      destruct (sel_value_type selector =? "array"); [|unfold canonical_scalar in Hc;
        repeat match type of Hc with context [if ?c then _ else _] => destruct c end; done].
      cbn [as_array obind] in Hc. destruct (is_nil values); [done|].
      destruct (contains _ _); [done|].
      destruct (all_of (fun value => canonical_scalar value _) values) as [ys|] eqn:E; [|done].
      by eapply all_of_some; [|exact E]; intros x y; apply canonical_scalar_text. }
    destruct Hall as (rendered & Er & _). rewrite Er. cbn. eexists. split; [done|]. split; [done|]. split; [reflexivity|].
    destruct rendered as [|r rendered]; cbn; [split; [done|by repeat constructor]|].
    destruct (fst serialization); cbn; [|split; [done|by repeat constructor]].
    split; [done|]. constructor; [done|]. apply List.Forall_forall. by intros ? (? & <- & _)%in_map_iff.
  - assert (Hs' : is_someb (scalar value) = true).
    { destruct Hrender as [He|Hc]; [by destruct value|].
      unfold canonical_query_value, canonical_selector_value_for_schema in Hc.
      destruct (sel_value_type selector =? "array"); [by destruct value|].
      destruct (canonical_scalar _ _) as [c|] eqn:E; [|done]. by apply canonical_scalar_text in E. }
    unfold query_pairs_of. exists (match scalar value with Some r => [(key, r)] | None => [] end).
    split; [done|]. split; [done|]. destruct (scalar value) as [r|]; [|done].
    split; [by destruct value|]. split; [done|by repeat constructor].
Qed.

(** Nothing of a validated query is lost. A query that passed its contract
    always renders; after what the URL had, its pairs are, control by control in
    order, at least one pair each, all under the name of a declared control; and
    the path is untouched. *)
Theorem validated_query_loses_nothing capability query values url :
  validate_query_contract capability query = Ok tt -> as_object query = Some values ->
  exists url' parts, append_query capability values url = Ok url' /\
    Forall2 (fun entry pairs => pairs <> [] /\ Forall (fun pair => fst pair = fst entry) pairs /\
      exists selector, find_query_selector capability (fst entry) = Ok selector) values parts /\
    query_pairs url' = (query_pairs url ++ concat parts)%list /\ path_segments url' = path_segments url.
Proof.
  unfold validate_query_contract. intros H%selector_object_ok Ev. rewrite Ev in H. revert H.
  rewrite res_bind_unit_ok, for_each_ok. intros [Hall _]. clear Ev. change (default [] (Some values)) with values in Hall. revert url.
  induction Hall as [|[key value] entries Hv _ IH]; intros url.
  { exists url, []. cbn. rewrite app_nil_r. split; [done|]. split; [constructor|done]. }
  apply checked_query in Hv as (selector & serialization & pairs & Hs & Hq & Hp & Hne & Hkeys).
  destruct (append_pairs_reads pairs url) as [E1 E2]. destruct (IH (append_pairs pairs url)) as (url' & parts & H1 & H2 & H3 & H4).
  exists url', (pairs :: parts). cbn [append_query]. rewrite Hs. cbn [res_bind]. rewrite Hq. cbn [res_bind].
  rewrite Hp. cbn [res_bind]. split; [done|]. split; [constructor; [eauto|done]|].
  rewrite H3, H4, E1, E2. cbn. by rewrite <- app_assoc.
Qed.

(** ** Headers *)

Lemma add_header_selectors_safe selectors declared : forall headers headers',
  (forall s n, header_name s = Some n -> n = to_ascii_lowercase s) ->
  add_header_selectors headers declared selectors = Ok headers' ->
  forall name, request_header_is_reserved name = true -> to_ascii_lowercase name = name ->
    bt_get name headers' = bt_get name headers.
Proof.
  induction declared as [|selector declared IH]; intros headers headers' Hlaw H name Hr Hl.
  - by injection H as <-.
  - cbn [add_header_selectors] in H. destruct (obind selectors _) as [value|].
    + apply guard_ok in H as [Hn H]. apply res_bind_ok in H as (rendered & _ & H).
      apply res_bind_ok in H as (n & Hname & H). apply res_bind_ok in H as (v & _ & H).
      rewrite (IH _ _ Hlaw H name Hr Hl), bt_get_insert.
      destruct (header_name (sel_name selector)) as [n'|] eqn:En; [|done]. injection Hname as <-.
      apply Hlaw in En as ->. destruct (name =? to_ascii_lowercase (sel_name selector)) eqn:E; [|done].
      apply eqb_eq in E. unfold request_header_is_reserved in *. rewrite <- E in Hn. rewrite Hl in Hr. congruence.
    + apply guard_ok in H as [_ H]. by eapply IH.
Qed.

Lemma conditional_header_get headers name value headers' key :
  add_conditional_header headers name value = Ok headers' ->
  bt_get key headers' = if key =? name then match value with Some v => header_value v | None => bt_get key headers end
                        else bt_get key headers.
Proof.
  unfold add_conditional_header. destruct value as [v|].
  - destruct (header_value v) as [text|]; [|done]. intros [= <-]. by rewrite bt_get_insert.
  - intros [= <-]. by destruct (key =? name).
Qed.

(** No selector sets a reserved header. Whatever the capability declares
    and the caller passes, the headers of a request carry under a reserved name
    only the conditions the caller gave as such: no credentials, cookies, host
    or idempotency key come in through selectors. *)
Theorem selectors_set_no_reserved_header capability input headers name :
  (forall s n, header_name s = Some n -> n = to_ascii_lowercase s) ->
  request_headers capability input = Ok headers ->
  request_header_is_reserved name = true -> to_ascii_lowercase name = name ->
  bt_get name headers =
    if name =? "if-none-match" then obind (ci_if_none_match input) header_value
    else if name =? "if-match" then obind (ci_if_match input) header_value else None.
Proof.
  intros Hlaw H Hr Hl. unfold request_headers in H. apply res_bind_ok in H as (h1 & H1 & H).
  apply res_bind_ok in H as (h2 & H2 & H3). apply (add_header_selectors_safe _ _ _ _ Hlaw) with (name := name) in H1; [|done..].
  rewrite (conditional_header_get _ _ _ _ name H3), (conditional_header_get _ _ _ _ name H2), H1.
  destruct (name =? "if-none-match") eqn:E1.
  - apply eqb_eq in E1 as ->. change ("if-none-match" =? "if-match") with false. by destruct (ci_if_none_match input).
  - destruct (name =? "if-match"); [|done]. by destruct (ci_if_match input).
Qed.

(** ** Segments that are not kept *)

Lemma push_segments_app path selectors segments segments' url :
  push_segments path selectors (segments ++ segments') url =
  res_bind (push_segments path selectors segments url) (push_segments path selectors segments').
Proof.
  revert url. induction segments as [|segment segments IH]; intros url; [done|]. cbn [push_segments app].
  destruct (segment_selector segment) as [key|]; [|apply IH].
  destruct (ok_or _ _); [|done]. cbn [res_bind]. destruct (ok_or _ _); [|done]. cbn [res_bind].
  destruct (_ && _); [|apply IH]. destruct (r2_object_key_segments _); [|done]. apply IH.
Qed.

Lemma push_segments_flat path path' selectors segments url :
  flat_template path -> flat_template path' ->
  push_segments path selectors segments url = push_segments path' selectors segments url.
Proof.
  intros Hp Hp'. revert url. induction segments as [|segment segments IH]; intros url; [done|]. cbn [push_segments].
  destruct (segment_selector segment) as [key|]; [|apply IH].
  destruct (ok_or _ _); [|done]. cbn [res_bind]. destruct (ok_or _ _); [|done]. cbn [res_bind].
  unfold flat_template in *. rewrite <- eqb_false in Hp, Hp'. rewrite Hp, Hp', andb_false_r. apply IH.
Qed.

(** The guarantee needs the selectors to be ordinary, and nothing checks
    it. A selector of one or two dots in the last segment is dropped by the URL:
    the request goes to the path without that segment, the collection the
    resource is in. *)
Theorem dot_selector_addresses_the_collection base capability collection input key dots :
  template_segments (cap_path capability) =
    (template_segments (cap_path collection) ++ [("{" ++ key ++ "}")%string])%list ->
  segment_selector ("{" ++ key ++ "}") = Some key ->
  flat_template (cap_path capability) -> flat_template (cap_path collection) ->
  selector_text (as_object (ci_selectors input)) key = Some dots -> dot_segment dots = true ->
  request_path base capability input = request_path base collection input.
Proof.
  intros Et Ek Hf Hf' Htext Hdots. unfold request_path. destruct (negb (can_be_base base)); [done|]. cbn [guard].
  rewrite Et, push_segments_app. rewrite (push_segments_flat _ _ _ _ _ Hf Hf').
  destruct (push_segments (cap_path collection) _ _ _) as [url|e]; [|done]. cbn [res_bind push_segments].
  rewrite Ek. unfold selector_text in Htext. destruct (obind _ (bt_get key)) as [v|]; [|done]. cbn [ok_or res_bind].
  cbn in Htext. rewrite Htext. cbn [ok_or res_bind]. unfold flat_template in Hf. rewrite <- eqb_false in Hf.
  rewrite Hf, andb_false_r. by rewrite push_dots.
Qed.
End Paths.

(** ** URLs as their segments and pairs *)

Fixpoint percent_encode (s : string) : string :=
  match s with
  | EmptyString => EmptyString
  | String a s =>
      if a =? "/"%char then String "%" (String "2" (String "F" (percent_encode s)))
      else if a =? "%"%char then String "%" (String "2" (String "5" (percent_encode s)))
      else String a (percent_encode s)
  end.

Lemma percent_encode_inj s : forall t, percent_encode s = percent_encode t -> s = t.
Proof.
  induction s as [|a s IH]; intros [|b t]; cbn [percent_encode]; [done|..].
  - destruct (b =? _); [done|]. by destruct (b =? _).
  - destruct (a =? _); [done|]. by destruct (a =? _).
  - destruct (a =? "/"%char) eqn:E1, (b =? "/"%char) eqn:E2; reflect_eqb; subst;
      try (intros [= E]; f_equal; by apply IH).
    + destruct (b =? "%"%char) eqn:E; [by intros [=]|]. apply eqb_neq in E. intros [= <- _]. done.
    + destruct (a =? "%"%char) eqn:E; [by intros [=]|]. apply eqb_neq in E. intros [= -> _]. done.
    + destruct (a =? "%"%char) eqn:E3, (b =? "%"%char) eqn:E4; reflect_eqb; subst;
        try (intros [= E]; f_equal; by apply IH).
      * intros [= <- _]. done.
      * intros [= -> _]. done.
      * intros [= <- E]. f_equal. by apply IH.
Qed.

(** The path segments, [[""]] being the path [/], and the pairs. *)
#[export] Instance list_urls : Urls := {|
  Url := list string * list (string * string);
  can_be_base _ := true;
  pop_if_empty u := (match rev (fst u) with "" :: (_ :: _) as l => rev l | _ => fst u end, snd u);
  push s u := if dot_segment s then u
              else ((if bool_decide (fst u = [""]) then [percent_encode s] else (fst u ++ [percent_encode s])%list), snd u);
  path_segments u := fst u;
  append_pair k v u := (fst u, (snd u ++ [(k, v)])%list);
  query_pairs u := snd u;
  has_query u := negb (is_nil (snd u));
  set_pairs l u := (fst u, l);
|}.

#[export] Instance list_url_laws : UrlLaws list_urls.
Proof.
  refine {| encode_segment := percent_encode |}.
  - intros s t _ _. apply percent_encode_inj.
  - intros u s Hs Hu. unfold ordinary in Hs. apply andb_true_iff in Hs as [Hs%negb_true_iff _]. cbn. rewrite Hs.
    by rewrite bool_decide_eq_false_2.
  - intros u s Hs Hu. unfold ordinary in Hs. apply andb_true_iff in Hs as [Hs%negb_true_iff _]. cbn. rewrite Hs.
    by rewrite bool_decide_eq_true_2.
  - intros u s Hs. cbn. by rewrite Hs.
  - done.
  - done.
  - done.
  - done.
Defined.

(** ** Requests *)

#[local] Instance sample_display : FloatDisplay := fun _ => "0.5".
#[local] Instance sample_texts : RequestTexts :=
  {| json_number _ := None; header_name s := Some (to_ascii_lowercase s); header_value s := Some s |}.
#[local] Instance sample_dates : DateParsers := Build_DateParsers (fun _ => true) (fun _ => true).

Definition api : Url := (["client"; "v4"], []).
Definition script_delete : CapabilityV1 :=
  capability_new "worker-script-delete" "Delete a script" "DELETE" "/accounts/{account_id}/workers/scripts/{script_name}".
Definition script_list : CapabilityV1 :=
  capability_new "worker-script-list" "List scripts" "GET" "/accounts/{account_id}/workers/scripts".
Definition script_input (account_id script_name : string) : CallInput :=
  mkCallInput (jobj [("account_id", VString account_id); ("script_name", VString script_name)]) VNull None None None.

Lemma selectors_stay_in_their_segments_witness :
  exists url url',
    request_path api script_delete (script_input "0a1b" "a/../b") = Ok url /\
    request_path api script_delete (script_input "0a1b" "a") = Ok url' /\
    List.length (path_segments url) = 7 /\ path_segments url <> path_segments url'.
Proof.
  do 2 eexists. split; [vm_compute; reflexivity|]. split; [vm_compute; reflexivity|].
  destruct (selectors_stay_in_their_segments api script_delete (script_input "0a1b" "a/../b") (script_input "0a1b" "a")
    (["client"; "v4"; "accounts"; "0a1b"; "workers"; "scripts"; "a%2F..%2Fb"], [])
    (["client"; "v4"; "accounts"; "0a1b"; "workers"; "scripts"; "a"], [])) as [Hl Hiff];
    try (vm_compute; reflexivity); [split; discriminate|discriminate|].
  split; [exact Hl|]. intros E. apply Hiff with (key := "script_name") in E; [discriminate E|].
  apply list_elem_of_In. vm_compute. tauto.
Defined.

Lemma validated_selectors_build_a_path_witness :
  exists url, request_path api script_delete (script_input "0a1b" "edge") = Ok url.
Proof.
  refine (validated_selectors_build_a_path api script_delete (script_input "0a1b" "edge") _ _ _);
    [reflexivity|discriminate|vm_compute; reflexivity].
Defined.

(** A call that passes its contract and deletes at the address of the list. *)
Lemma dot_selector_addresses_the_collection_witness :
  validate_selector_contract script_delete (ci_selectors (script_input "0a1b" "..")) = Ok tt /\
  request_path api script_delete (script_input "0a1b" "..") = request_path api script_list (script_input "0a1b" "..").
Proof.
  split; [vm_compute; reflexivity|].
  refine (dot_selector_addresses_the_collection api script_delete script_list (script_input "0a1b" "..") "script_name" ".."
            _ _ _ _ _ _); try (vm_compute; reflexivity); discriminate.
Defined.

Definition query_selector (name value_type : string) (required explode : bool) : SelectorV1 :=
  mkSelectorV1 name "query" required value_type None
    (Some (mkSelectorContractV1 (jobj []) (Some (mkQuerySerializationV1 "form" explode false false)))).
Definition record_list : CapabilityV1 :=
  let c := capability_new "record-list" "List records" "GET" "/zones/{zone_id}/dns_records" in
  let k := classification_of c in
  classify {|
    class_selectors := [query_selector "page" "integer" false true; query_selector "tag" "array" true true];
    class_permissions := class_permissions k;
    class_risk := class_risk k;
    class_effect := class_effect k;
    class_cost := class_cost k;
    class_verification := class_verification k;
    class_rollback := class_rollback k;
    class_same_path_read := class_same_path_read k;
    class_request_schema := class_request_schema k;
    class_response_contract := class_response_contract k
  |} c.
Definition record_query : Value :=
  jobj [("page", VString "2"); ("tag", VArray [VString "a&b"; VString "c"])].

Lemma validated_query_loses_nothing_witness :
  exists url' parts, append_query record_list [("page", VString "2"); ("tag", VArray [VString "a&b"; VString "c"])] api = Ok url' /\
    query_pairs url' = concat parts /\ List.length parts = 2.
Proof.
  destruct (validated_query_loses_nothing record_list record_query
    [("page", VString "2"); ("tag", VArray [VString "a&b"; VString "c"])] api) as (url' & parts & H1 & H2 & H3 & _);
    [vm_compute; reflexivity|vm_compute; reflexivity|].
  exists url', parts. split; [exact H1|]. split; [exact H3|]. symmetry. exact (Forall2_length _ _ _ H2).
Defined.

Lemma selectors_set_no_reserved_header_witness :
  exists headers,
    request_headers script_delete (mkCallInput (jobj [("authorization", VString "Bearer x")]) VNull None (Some "v1") None)
      = Ok headers /\
    bt_get "if-match" headers = Some "v1" /\ bt_get "authorization" headers = None.
Proof.
  eexists. split; [vm_compute; reflexivity|].
  split;
    [refine (eq_trans (selectors_set_no_reserved_header script_delete
       (mkCallInput (jobj [("authorization", VString "Bearer x")]) VNull None (Some "v1") None) _ "if-match" _ _ _ _) _)
    |refine (eq_trans (selectors_set_no_reserved_header script_delete
       (mkCallInput (jobj [("authorization", VString "Bearer x")]) VNull None (Some "v1") None) _ "authorization" _ _ _ _) _)];
    try (vm_compute; reflexivity); cbn; congruence.
Defined.
