(* ===== verification/Pagination.v ===== *)
(** Listings in pages (cfctl-cloudflare/src/lib.rs, [send_paginated] and what it
    calls, pagination_diagnostic.rs, worker_domains.rs): the metadata of a page,
    the loop over the pages or the cursors of a listing, and the listings the
    provider returns in one page. *)

From Stdlib Require Import String Ascii ZArith Lia List Bool.
From stdpp Require Import base option list strings.
From S2P Require Import Prelude Strings Bytes Btree StringSet Json JsonOps CatalogTypes Capability.
From S2P Require Import CloudflareErrors RequestBuilder.

Open Scope cf_scope.
Open Scope string_scope.
Local Open Scope Z_scope.
Open Scope cf_scope.

Record CloudflareApiErrorV1 : Type := mkCloudflareApiErrorV1 {
  api_error_code : option Z;
  api_error_message : string;
}.

Record CloudflareResponseV1 : Type := mkCloudflareResponseV1 {
  cr_status : Z;
  cr_success : bool;
  cr_result : Value;
  cr_errors : list CloudflareApiErrorV1;
  cr_result_info : option Value;
  cr_etag : option string;
  cr_cf_ray : option string;
}.

Definition set_result (v : Value) (r : CloudflareResponseV1) : CloudflareResponseV1 :=
  mkCloudflareResponseV1 (cr_status r) (cr_success r) v (cr_errors r) (cr_result_info r) (cr_etag r) (cr_cf_ray r).
Definition set_result_info (v : option Value) (r : CloudflareResponseV1) : CloudflareResponseV1 :=
  mkCloudflareResponseV1 (cr_status r) (cr_success r) (cr_result r) (cr_errors r) v (cr_etag r) (cr_cf_ray r).
Definition set_tags (etag cf_ray : option string) (r : CloudflareResponseV1) : CloudflareResponseV1 :=
  mkCloudflareResponseV1 (cr_status r) (cr_success r) (cr_result r) (cr_errors r) (cr_result_info r) etag cf_ray.

Definition nat_value (n : Z) : Value := VNumber (PosInt n).
Definition count_of {A} (l : list A) : Z := Z.of_nat (List.length l).

(** ** The metadata of a page *)

Record PagePagination : Type := mkPagePagination {
  current_page : Z;
  total_pages : Z;
  pp_per_page : option Z;
  pp_count : option Z;
  total_count : option Z;
}.

Definition optional_pagination_u64 (result_info : Value) (field : string) : result CloudflareError (option Z) :=
  match vget field result_info with
  | None => Ok None
  | Some value => let? n := ok_or PaginationMetadataInvalid (as_u64 value) in Ok (Some n)
  end.

(** [div_ceil] *)
Definition div_ceil (a b : Z) : Z := (a + b - 1) / b.

Definition page_pagination (result_info : option Value) : result CloudflareError (option PagePagination) :=
  match result_info with
  | None => Ok None
  | Some info =>
      let has_page := is_someb (vget "page" info) in
      let has_total_pages := is_someb (vget "total_pages" info) in
      if negb has_page && negb has_total_pages then Ok None
      else
        guard (negb has_page || is_someb (vget "cursor" info) || is_someb (vget "cursors" info))
          PaginationMetadataInvalid (
        let? current := ok_or PaginationMetadataInvalid
          (obind (obind (vget "page" info) as_u64) (fun page => if 0 <? page then Some page else None)) in
        let? explicit_total_pages := optional_pagination_u64 info "total_pages" in
        let? per_page := optional_pagination_u64 info "per_page" in
        let? count := optional_pagination_u64 info "count" in
        let? total_count := optional_pagination_u64 info "total_count" in
        guard (per_page =? Some 0) PaginationMetadataInvalid (
        guard (match count, per_page with Some count, Some per_page => per_page <? count | _, _ => false end)
          PaginationMetadataInvalid (
        let? explicit_total_pages :=
          if explicit_total_pages =? Some 0 then
            if (current =? 1) && (count =? Some 0) && (total_count =? Some 0) then Ok (Some 1)
            else Err PaginationMetadataInvalid
          else Ok explicit_total_pages in
        let derived_total_pages :=
          match per_page, count, total_count with
          | Some per_page, Some _, Some total_count => Some (Z.max (div_ceil total_count per_page) 1)
          | _, _, _ => None
          end in
        let? total_pages :=
          match explicit_total_pages, derived_total_pages with
          | Some explicit, Some derived => if explicit <>? derived then Err PaginationMetadataInvalid else Ok explicit
          | Some explicit, None => Ok explicit
          | None, Some derived => Ok derived
          | None, None => Err PaginationMetadataInvalid
          end in
        guard (total_pages <? current)%Z PaginationMetadataInvalid (
        Ok (Some (mkPagePagination current total_pages per_page count total_count))))))
  end.

(** Where the items of a page are: the result itself, or one of its members. *)
Definition page_items (collection : option string) (result : Value) : option (list Value) :=
  match collection with
  | None => as_array result
  | Some collection => obind (obind (as_object result) (bt_get collection)) as_array
  end.

Definition with_items (collection : option string) (items : list Value) (result : Value) : Value :=
  match collection, result with
  | None, _ => VArray items
  | Some collection, VObject entries => VObject (bt_insert collection (VArray items) entries)
  | Some _, result => result
  end.

(** [validate_page_item_count], and [validate_worker_collection_item_count]. *)
Definition validate_item_count (collection : option string) (response : CloudflareResponseV1)
    (pagination : PagePagination) : result CloudflareError unit :=
  match page_items collection (cr_result response) with
  | None => Err (InvalidResponseEnvelope (cr_status response))
  | Some items =>
      match pp_count pagination with
      | Some expected =>
          guard (expected <>? count_of items) (PaginationCountMismatch expected (count_of items)) (Ok tt)
      | None => Ok tt
      end
  end.

(** ** Requests *)

Definition set_query_parameter {urls : Urls} (url : Url) (name value : string) : Url :=
  append_pair name value (set_pairs (List.filter (fun pair => fst pair <>? name) (query_pairs url)) url).

Definition request_expects_page_pagination {urls : Urls} (url : Url) : bool :=
  existsb (fun pair => fst pair =? "page") (query_pairs url).

Definition is_get (method : string) : bool := eq_ignore_ascii_case method "GET".

(** The last [n] segments, if there are as many. *)
Definition tail_segments (n : nat) (segments : list string) : option (list string) :=
  if (List.length segments <? n)%nat then None else Some (skipn (List.length segments - n) segments).

Definition request_is_worker_collection {urls : Urls} (method : string) (url : Url) (collection : string) : bool :=
  is_get method &&
  match tail_segments 6 (path_segments url) with
  | Some [a; account; w; s; script; c] =>
      (a =? "accounts") && negb (is_empty account) && (w =? "workers") && (s =? "scripts")
      && negb (is_empty script) && (c =? collection)
  | _ => false
  end.

Definition request_is_worker_versions_list {urls : Urls} (method : string) (url : Url) : bool :=
  request_is_worker_collection method url "versions".

Definition request_is_worker_versions_deployable {urls : Urls} (method : string) (url : Url) : bool :=
  request_is_worker_versions_list method url
  && existsb (fun pair => (fst pair =? "deployable") && (snd pair =? "true")) (query_pairs url).

Definition request_is_queue_consumers_single_page {urls : Urls} (method : string) (url : Url) : bool :=
  is_get method && negb (has_query url) &&
  match tail_segments 5 (path_segments url) with
  | Some [a; account; q; queue; c] =>
      (a =? "accounts") && negb (is_empty account) && (q =? "queues") && negb (is_empty queue) && (c =? "consumers")
  | _ => false
  end.

Definition request_is_worker_domains_list {urls : Urls} (url : Url) : bool :=
  match tail_segments 4 (path_segments url) with
  | Some [a; account; w; d] => (a =? "accounts") && negb (is_empty account) && (w =? "workers") && (d =? "domains")
  | _ => false
  end.

(** ** Listings the provider returns in one page *)

(** [Value::from(count)] under [key]. *)
Definition note (key : string) (v : Value) (info : btree Value) : btree Value := bt_insert key v info.

(** The metadata of a response, an empty object when it has none. *)
Definition response_info (error : CloudflareError) (response : CloudflareResponseV1) : result CloudflareError (btree Value) :=
  ok_or error (as_object (default (VObject []) (cr_result_info response))).

Definition cursors_are_active (info : btree Value) : bool :=
  match bt_get "cursors" info with
  | None | Some VNull => false
  | Some (VObject entries) => existsb (fun cursor => negb (is_null cursor)) (bt_values entries)
  | Some _ => true
  end.

(** An unsigned member; null counts as absent. *)
Definition nullable_u64 (info : btree Value) (field : string) : result CloudflareError (option Z) :=
  match bt_get field info with
  | None | Some VNull => Ok None
  | Some value => let? n := ok_or PaginationMetadataInvalid (as_u64 value) in Ok (Some n)
  end.

Definition normalize_deployable_worker_versions (response : CloudflareResponseV1)
    : result CloudflareError CloudflareResponseV1 :=
  match page_items (Some "items") (cr_result response) with
  | None => Err (InvalidResponseEnvelope (cr_status response))
  | Some items =>
      let count := count_of items in
      let? info := response_info PaginationMetadataInvalid response in
      let cursor_is_active := is_some_and (bt_get "cursor" info) (fun cursor => negb (is_null cursor)) in
      guard (cursor_is_active || cursors_are_active info) PaginationMetadataInvalid (
      let? _ := nullable_u64 info "page" in
      let? per_page := nullable_u64 info "per_page" in
      guard (per_page =? Some 0) PaginationMetadataInvalid (
      let? declared := nullable_u64 info "count" in
      guard (is_some_and declared (fun expected => expected <>? count))
        (PaginationCountMismatch (default 0 declared) count) (
      let? _ := nullable_u64 info "total_count" in
      let? _ := nullable_u64 info "total_pages" in
      let info := note "cfctl_single_page_complete" (VBool true)
        (note "cfctl_pages" (nat_value 1) (note "count" (nat_value count) info)) in
      Ok (set_result_info (Some (VObject info)) response))))
  end.

Definition single_page_error (reason : string) : CloudflareError := QueueConsumersSinglePageMetadataInvalid reason.

Definition queue_u64 (info : btree Value) (field : string) : result CloudflareError (option Z) :=
  match bt_get field info with
  | None => Ok None
  | Some value => let? n := ok_or (single_page_error "metadata_unsigned_integer") (as_u64 value) in Ok (Some n)
  end.

Definition normalize_queue_consumers_single_page (response : CloudflareResponseV1)
    : result CloudflareError CloudflareResponseV1 :=
  let? results := ok_or (InvalidResponseEnvelope (cr_status response)) (as_array (cr_result response)) in
  let count := count_of results in
  let? info := response_info (single_page_error "result_info_object") response in
  guard (is_someb (bt_get "cursor" info) || is_someb (bt_get "cursors" info)) (single_page_error "cursor_absent") (
  let? _ := for_each (fun '(field, expected, reason) =>
      let? actual := queue_u64 info field in
      guard (is_some_and actual (fun actual => actual <>? expected)) (single_page_error reason) (Ok tt))
    [("page", 1, "page_one"); ("count", count, "count_matches_items"); ("total_count", count, "total_count_matches_items")] in
  let? total_pages := queue_u64 info "total_pages" in
  guard (is_some_and total_pages (fun total_pages =>
      (total_pages <>? 1) && negb ((total_pages =? 0) && (count =? 0))))
    (single_page_error "total_pages_complete") (
  let? per_page := queue_u64 info "per_page" in
  guard (is_some_and per_page (fun per_page => (per_page =? 0) || (per_page <? count)))
    (single_page_error "per_page_capacity") (
  let info := note "cfctl_single_page_complete" (VBool true) (note "count" (nat_value count) info) in
  Ok (set_result_info (Some (VObject info)) response)))).

(** [accept_empty_single_page]: the response it rewrites, if it accepts. *)
Definition accept_empty_single_page {urls : Urls} (method : string) (url : Url) (response : CloudflareResponseV1)
    : option CloudflareResponseV1 :=
  if negb (is_get method) || negb (request_is_worker_domains_list url)
     || negb (forallb (fun pair => contains ["environment"; "hostname"; "service"; "zone_id"; "zone_name"] (fst pair))
                (query_pairs url))
     || (cr_status response <>? 200) || negb (cr_success response) || negb (is_nil (cr_errors response))
     || negb (is_some_and (as_array (cr_result response)) is_nil)
  then None
  else
    obind (obind (cr_result_info response) as_object) (fun info =>
    if negb (forallb (fun '(field, expected) => obind (bt_get field info) as_u64 =? Some expected)
               [("page", 1); ("per_page", 0); ("count", 0); ("total_count", 0)])
       || is_someb (bt_get "cursor" info) || is_someb (bt_get "cursors" info)
       || is_some_and (bt_get "total_pages" info) (fun value => negb (contains [Some 0; Some 1] (as_u64 value)))
    then None
    else Some (set_result_info
      (Some (VObject (note "cfctl_single_page_complete" (VBool true) (note "cfctl_pages" (nat_value 1) info)))) response)).

(** ** Diagnostics of a rejected first page *)

Definition page_summary (info : option Value) (result : Value) : string :=
  let field name :=
    (name ++ "=" ++ match obind info (vget name) with
                    | None => "absent"
                    | Some value => match as_u64 value with None => "invalid" | Some number => show_Z number end
                    end)%string in
  let presence name :=
    (name ++ "_present=" ++ if is_someb (obind info (vget name)) then "true" else "false")%string in
  let items := match as_array result with None => "non-array" | Some items => show_Z (count_of items) end in
  join ", " (map field ["page"; "per_page"; "count"; "total_count"; "total_pages"]
             ++ map presence ["cursor"; "cursors"] ++ [("items=" ++ items)%string])%list.

Definition is_metadata_invalid (error : CloudflareError) : bool :=
  match error with PaginationMetadataInvalid => true | _ => false end.

Definition with_metadata {urls : Urls} (method : string) (url : Url) (response : CloudflareResponseV1)
    (error : CloudflareError) : CloudflareError :=
  if negb (is_get method) || negb (request_is_worker_domains_list url) || negb (is_metadata_invalid error) then error
  else PaginationMetadataDiagnostic (page_summary (cr_result_info response) (cr_result response)).

(** ** The exchange with the provider *)

(** Sending one request: its outcome may depend on everything before it. *)
Class Provider (urls : Urls) := {
  World : Type;
  send : Url -> ST World CloudflareError CloudflareResponseV1;
}.

Definition MAX_PAGES : Z := 1000.

Section Listing.
Context {urls : Urls} {provider : Provider urls}.

Definition Exchange (A : Type) : Type := ST World CloudflareError A.

(** What a loop has gathered: the items and the tags of the last response. *)
Record Gathered : Type := mkGathered {
  g_items : list Value;
  g_etag : option string;
  g_cf_ray : option string;
}.

(** [for page in (current_page + 1)..=total_pages]: a page that failed ends the
    listing and is its answer. *)
Fixpoint fetch_pages (remaining : nat) (page : Z) (collection : option string) (url : Url) (total : Z)
    (total_items : option Z) (gathered : Gathered) : Exchange (CloudflareResponseV1 + Gathered) :=
  match remaining with
  | O => st_ret (inr gathered)
  | S remaining =>
      let* response := send (set_query_parameter url "page" (show_Z page)) in
      if negb (cr_success response) then st_ret (inl response)
      else
        let* pagination := st_lift (
          let? pagination := page_pagination (cr_result_info response) in
          ok_or PaginationMetadataInvalid pagination) in
        do* st_guard ((current_page pagination <>? page) || (total_pages pagination <>? total)
                      || (total_count pagination <>? total_items)) PaginationMetadataInvalid in
        do* st_lift (validate_item_count collection response pagination) in
        let* items := st_lift (ok_or (InvalidResponseEnvelope (cr_status response))
                                 (page_items collection (cr_result response))) in
        fetch_pages remaining (page + 1) collection url total total_items
          (mkGathered (g_items gathered ++ items) (cr_etag response) (cr_cf_ray response))
  end.

Definition page_notes (total : Z) (items : list Value) (info : btree Value) : btree Value :=
  note "cfctl_page_complete" (VBool true) (note "cfctl_pages" (nat_value total) (note "total_pages" (nat_value total)
    (note "count" (nat_value (count_of items)) (note "page" (nat_value total) info)))).

(** The notes, where the response has a metadata object to take them. *)
Definition annotate (notes : btree Value -> btree Value) (info : option Value) : option Value :=
  match info with Some (VObject info) => Some (VObject (notes info)) | info => info end.

(** [complete_page_pagination], and with a [collection]
    [complete_worker_collection_page_pagination]. *)
Definition complete_pages (collection : option string) (url : Url) (combined : CloudflareResponseV1)
    (pagination : PagePagination) : Exchange CloudflareResponseV1 :=
  let total := total_pages pagination in
  do* st_guard (MAX_PAGES <? total) (PaginationLimit total) in
  do* st_lift (validate_item_count collection combined pagination) in
  let* results := st_lift (ok_or (InvalidResponseEnvelope (cr_status combined))
                             (page_items collection (cr_result combined))) in
  let* gathered := fetch_pages (Z.to_nat (total - current_page pagination)) (current_page pagination + 1)
    collection url total (total_count pagination) (mkGathered results (cr_etag combined) (cr_cf_ray combined)) in
  match gathered with
  | inl response => st_ret response
  | inr (mkGathered results etag cf_ray) =>
      do* st_guard (is_some_and (total_count pagination) (fun expected => expected <>? count_of results))
            (PaginationCountMismatch (default 0 (total_count pagination)) (count_of results)) in
      st_ret (set_result_info (annotate (page_notes total results) (cr_result_info combined))
                (set_tags etag cf_ray (set_result (with_items collection results (cr_result combined)) combined)))
  end.

Definition complete_page_pagination := complete_pages None.
Definition complete_worker_collection_page_pagination (url : Url) (combined : CloudflareResponseV1)
    (pagination : PagePagination) (collection : string) : Exchange CloudflareResponseV1 :=
  complete_pages (Some collection) url combined pagination.

Definition complete_worker_versions_list (method : string) (url : Url) (combined : CloudflareResponseV1)
    : Exchange CloudflareResponseV1 :=
  if request_is_worker_versions_deployable method url then st_lift (normalize_deployable_worker_versions combined)
  else
    let* pagination := st_lift (
      let? pagination := page_pagination (cr_result_info combined) in
      ok_or PaginationMetadataInvalid pagination) in
    complete_worker_collection_page_pagination url combined pagination "items".

(** ** Cursors *)

Inductive CursorState : Type :=
| NotPresent
| Complete
| Next (cursor : string).

Definition cursor_after (result_info : option Value) : CursorState :=
  match obind (obind result_info (vget "cursors")) as_object with
  | None => NotPresent
  | Some cursors =>
      match obind (bt_get "after" cursors) as_str with
      | Some cursor => if is_empty cursor then Complete else Next cursor
      | None => Complete
      end
  end.

(** The loop over the cursors: [remaining] pages more are allowed. The pages
    it read, and the last response's items, tags and metadata. *)
Fixpoint follow_cursors (remaining : nat) (url : Url) (observed : str_set) (pages : Z)
    (next_cursor : option string) (gathered : Gathered) (result_info : option Value)
    : Exchange (CloudflareResponseV1 + Gathered * option Value * Z) :=
  match next_cursor with
  | None => st_ret (inr (gathered, result_info, pages))
  | Some cursor =>
      match remaining with
      | O => st_throw (PaginationLimit (pages + 1))
      | S remaining =>
          do* st_guard (set_has cursor observed) PaginationCursorLoop in
          let* response := send (set_query_parameter url "cursor" cursor) in
          if negb (cr_success response) then st_ret (inl response)
          else
            let* items := st_lift (ok_or (InvalidResponseEnvelope (cr_status response)) (as_array (cr_result response))) in
            let* next_cursor :=
              match cursor_after (cr_result_info response) with
              | NotPresent => st_throw PaginationCursorMetadataMissing
              | Complete => st_ret None
              | Next cursor => st_ret (Some cursor)
              end in
            follow_cursors remaining url (set_add cursor observed) (pages + 1) next_cursor
              (mkGathered (g_items gathered ++ items) (cr_etag response) (cr_cf_ray response)) (cr_result_info response)
      end
  end.

Definition cursor_notes (pages : Z) (items : list Value) (info : btree Value) : btree Value :=
  note "cfctl_pages" (nat_value pages) (note "cfctl_cursor_complete" (VBool true)
    (note "count" (nat_value (count_of items)) info)).

Definition complete_cursors (url : Url) (combined : CloudflareResponseV1) : Exchange CloudflareResponseV1 :=
  match cursor_after (cr_result_info combined) with
  | NotPresent => st_ret combined
  | state =>
      let next_cursor := match state with Next cursor => Some cursor | _ => None end in
      match as_array (cr_result combined) with
      | None => st_ret combined
      | Some results =>
          let* gathered := follow_cursors (Z.to_nat (MAX_PAGES - 1)) url [] 1 next_cursor
            (mkGathered results (cr_etag combined) (cr_cf_ray combined)) (cr_result_info combined) in
          match gathered with
          | inl response => st_ret response
          | inr (mkGathered results etag cf_ray, info, pages) =>
              st_ret (set_result_info (annotate (cursor_notes pages results) info)
                        (set_tags etag cf_ray (set_result (VArray results) combined)))
          end
      end
  end.

(** ** One listing *)

(** [send_paginated_with_output] without an output file. *)
Definition send_paginated (method : string) (url : Url) : Exchange CloudflareResponseV1 :=
  let* combined := send url in
  if negb (cr_success combined) || negb (is_get method) then st_ret combined
  else if request_is_worker_versions_list method url then complete_worker_versions_list method url combined
  else if request_is_queue_consumers_single_page method url then
    st_lift (normalize_queue_consumers_single_page combined)
  else
    match accept_empty_single_page method url combined with
    | Some accepted => st_ret accepted
    | None =>
        let* pagination := st_lift (map_err (with_metadata method url combined)
                                      (page_pagination (cr_result_info combined))) in
        match pagination with
        | Some pagination =>
            if request_is_worker_collection method url "deployments"
            then complete_worker_collection_page_pagination url combined pagination "deployments"
            else complete_page_pagination url combined pagination
        | None =>
            do* st_guard (request_expects_page_pagination url) PaginationMetadataInvalid in
            complete_cursors url combined
        end
    end.
End Listing.
