(* ===== verification/Listings.v ===== *)
(** What a listing is: the answer of the page loop is the first page followed by
    one consistent response for each further page, and that of the cursor loop
    one response for each cursor of a chain without repetition. *)

From Stdlib Require Import String Ascii ZArith Lia List Bool.
From stdpp Require Import base option list strings.
From S2P Require Import Prelude Strings Bytes Btree StringSet Json JsonOps CatalogTypes Capability.
From S2P Require Import CloudflareErrors RequestBuilder RequestPaths Pagination.

Open Scope cf_scope.
Open Scope string_scope.
Local Open Scope Z_scope.
Open Scope cf_scope.

Section Listings.
Context {urls : Urls} {provider : Provider urls}.

(** ** Pages *)

Section Pages.
Context (collection : option string) (url : Url) (total : Z) (total_items : option Z).

Definition items_of (response : CloudflareResponseV1) : list Value :=
  default [] (page_items collection (cr_result response)).

(** A response that belongs to this listing as its page [page]. *)
Record fits (page : Z) (response : CloudflareResponseV1) : Prop := mkFits {
  fits_success : cr_success response = true;
  fits_metadata : exists p, page_pagination (cr_result_info response) = Ok (Some p) /\ current_page p = page /\
    total_pages p = total /\ total_count p = total_items /\ validate_item_count collection response p = Ok tt;
}.

(** The pages from [page] on, as the provider answered them one after another. *)
Inductive Fetched : Z -> World -> list CloudflareResponseV1 -> World -> Prop :=
| fetched_none page w : Fetched page w [] w
| fetched_page page w response w1 responses w2 :
    send (set_query_parameter url "page" (show_Z page)) w = (Ok response, w1) -> fits page response ->
    Fetched (page + 1) w1 responses w2 -> Fetched page w (response :: responses) w2.

Definition last_tags (g : Gathered) (responses : list CloudflareResponseV1) : option string * option string :=
  match List.rev responses with [] => (g_etag g, g_cf_ray g) | r :: _ => (cr_etag r, cr_cf_ray r) end.

Lemma validated_items response p :
  validate_item_count collection response p = Ok tt -> page_items collection (cr_result response) = Some (items_of response).
Proof. unfold validate_item_count, items_of. by destruct (page_items collection _). Qed.

Lemma fetch_pages_ok n : forall page g w w' g',
  fetch_pages n page collection url total total_items g w = (Ok (inr g'), w') <->
  exists responses, List.length responses = n /\ Fetched page w responses w' /\
    g_items g' = (g_items g ++ concat (map items_of responses))%list /\
    (g_etag g', g_cf_ray g') = last_tags g responses.
Proof.
  induction n as [|n IH]; intros page g w w' g'.
  - cbn [fetch_pages]. split.
    + intros [= <- <-]. exists []. cbn. rewrite app_nil_r. split; [done|]. split; [constructor|done].
    + intros (rs & Hl & Hf & Hi & Ht). destruct rs; [|done]. inversion Hf; subst. cbn in Hi, Ht.
      rewrite app_nil_r in Hi. destruct g, g'; cbn in *. by injection Ht as -> ->; subst.
  - cbn [fetch_pages]. rewrite st_bind_ok. split.
    + intros (response & w1 & Hsend & H). destruct (cr_success response) eqn:Es; [|done]. cbn [negb] in H.
      apply st_bind_ok in H as (p & w2 & [Hp ->]%st_lift_ok & H). apply st_bind_ok in H as ([] & w2 & [Hc ->]%st_guard_ok & H).
      apply st_bind_ok in H as ([] & w2 & [Hv ->]%st_lift_ok & H). apply st_bind_ok in H as (items & w2 & [Hi ->]%st_lift_ok & H).
      apply IH in H as (rs & Hl & Hf & Hg & Ht). apply orb_false_iff in Hc as [[H1 H2]%orb_false_iff H3].
      rewrite neqb_false in H1, H2. rewrite neqb_false in H3. apply res_bind_ok in Hp as (o & Hp & Ho). destruct o as [p'|]; [|done]. injection Ho as ->.
      exists (response :: rs). split; [cbn; by rewrite Hl|]. split; [econstructor; [exact Hsend| |exact Hf]|].
      * constructor; [done|]. by exists p.
      * rewrite (validated_items _ _ Hv) in Hi. injection Hi as <-. rewrite Hg. cbn. rewrite <- app_assoc. split; [done|].
        rewrite Ht. unfold last_tags. cbn. destruct (List.rev rs) as [|r l]; done.
    + intros (rs & Hl & Hf & Hg & Ht). destruct rs as [|response rs]; [done|]. inversion Hf as [|? ? ? w1 ? ? Hsend Hfit Hf']; subst.
      exists response, w1. split; [done|]. destruct Hfit as [Es (p & Hp & H1 & H2 & H3 & Hv)]. rewrite Es. cbn [negb].
      rewrite Hp. cbn [res_bind ok_or]. apply st_bind_ok. exists p, w1. split; [done|].
      apply st_bind_ok. exists tt, w1. split; [by rewrite H1, H2, H3, !eqb_refl|].
      apply st_bind_ok. exists tt, w1. split; [by rewrite Hv|]. apply st_bind_ok.
      exists (items_of response), w1. split; [by rewrite (validated_items _ _ Hv)|].
      apply IH. exists rs. split; [by injection Hl|]. split; [done|]. cbn in Hg |- *. rewrite <- app_assoc. split; [done|].
      rewrite Ht. unfold last_tags. cbn. by destruct (List.rev rs).
Qed.
End Pages.

Lemma fetch_pages_failed n collection url total total_items : forall page g w w' r,
  fetch_pages n page collection url total total_items g w = (Ok (inl r), w') -> cr_success r = false.
Proof.
  induction n as [|n IH]; intros page g w w' r; [done|]. cbn [fetch_pages]. rewrite st_bind_ok.
  intros (response & w1 & _ & H). destruct (cr_success response) eqn:Es.
  - cbn [negb] in H. apply st_bind_ok in H as (p & w2 & _ & H). apply st_bind_ok in H as ([] & w3 & _ & H).
    apply st_bind_ok in H as ([] & w4 & _ & H). apply st_bind_ok in H as (items & w5 & _ & H). by eapply IH.
  - cbn [negb] in H. by injection H as <- _.
Qed.

Lemma page_items_with_items collection items result old :
  page_items collection result = Some old -> page_items collection (with_items collection items result) = Some items.
Proof.
  destruct collection as [c|]; [|done]. cbn. destruct result as [| | | | |m]; try done. cbn. intros _.
  by rewrite bt_get_insert, eqb_refl.
Qed.

(** What completing a listing did, when it succeeded. *)
Lemma complete_pages_inv collection url first pagination r w w' :
  complete_pages collection url first pagination w = (Ok r, w') -> cr_success r = true ->
  total_pages pagination <= MAX_PAGES /\ validate_item_count collection first pagination = Ok tt /\
  exists responses,
    List.length responses = Z.to_nat (total_pages pagination - current_page pagination) /\
    Fetched collection url (total_pages pagination) (total_count pagination)
      (current_page pagination + 1) w responses w' /\
    page_items collection (cr_result r) = Some (items_of collection first ++ concat (map (items_of collection) responses))%list /\
    (forall total, total_count pagination = Some total ->
       total = count_of (items_of collection first ++ concat (map (items_of collection) responses))%list).
Proof.
  unfold complete_pages. intros H Hr. apply st_bind_ok in H as ([] & w1 & [Hmax%Z.ltb_ge ->]%st_guard_ok & H).
  apply st_bind_ok in H as ([] & w1 & [Hv ->]%st_lift_ok & H). apply st_bind_ok in H as (results & w1 & [Hi ->]%st_lift_ok & H).
  rewrite (validated_items _ _ _ Hv) in Hi. injection Hi as <-.
  apply st_bind_ok in H as ([bad|[results etag ray]] & w1 & H1 & H).
  { injection H as -> _. by rewrite (fetch_pages_failed _ _ _ _ _ _ _ _ _ _ H1) in Hr. }
  apply st_bind_ok in H as ([] & w2 & [Ht ->]%st_guard_ok & H). injection H as <- <-.
  apply fetch_pages_ok in H1 as (rs & Hl & Hf & Hg & _). cbn [g_items] in Hg. subst results. split; [done|]. split; [done|].
  exists rs. split; [done|]. split; [done|]. cbn [cr_result set_result_info set_tags set_result].
  rewrite (page_items_with_items _ _ _ _ (validated_items _ _ _ Hv)). split; [done|]. intros total E. rewrite E in Ht. cbn in Ht.
  by rewrite neqb_false in Ht.
Qed.

(** C32: a listing in pages is whole. A successful first page with its metadata
    is completed into a successful listing of some items exactly when it
    promises at most a thousand pages, holds as many items as it says, every
    further page up to the last answered in turn, successfully, with its own
    number, the same totals and as many items as it says, the items are all
    theirs in order, and the declared total, if there is one, is their number.
    Up to 999 further requests are sent. *)
Theorem page_listing_is_whole collection url first pagination items w w' :
  cr_success first = true ->
  (exists r, complete_pages collection url first pagination w = (Ok r, w') /\ cr_success r = true /\
     page_items collection (cr_result r) = Some items) <->
  total_pages pagination <= MAX_PAGES /\ validate_item_count collection first pagination = Ok tt /\
  exists responses,
    List.length responses = Z.to_nat (total_pages pagination - current_page pagination) /\
    Fetched collection url (total_pages pagination) (total_count pagination)
      (current_page pagination + 1) w responses w' /\
    items = (items_of collection first ++ concat (map (items_of collection) responses))%list /\
    (forall total, total_count pagination = Some total -> total = count_of items).
Proof.
  intros Hs. split.
  - intros (r & H & Hr & Hitems). destruct (complete_pages_inv _ _ _ _ _ _ _ H Hr) as (Hmax & Hv & rs & Hl & Hf & Hi & Ht).
    rewrite Hi in Hitems. injection Hitems as <-. do 2 (split; [done|]). by exists rs.
  - intros (Hmax & Hv & rs & Hl & Hf & -> & Ht).
    unfold complete_pages. set (g := mkGathered (items_of collection first) (cr_etag first) (cr_cf_ray first)).
    set (tags := last_tags g rs). set (items := (items_of collection first ++ _)%list).
    eexists. split; [|split].
    + apply st_bind_ok. exists tt, w. split; [apply st_guard_ok; split; [by apply Z.ltb_ge|done]|].
      apply st_bind_ok. exists tt, w. split; [by rewrite Hv|]. apply st_bind_ok. exists (items_of collection first), w.
      split; [by rewrite (validated_items _ _ _ Hv)|]. apply st_bind_ok.
      exists (inr (mkGathered items (fst tags) (snd tags))), w'. split.
      * apply fetch_pages_ok. exists rs. split; [done|]. split; [done|]. split; [done|].
        symmetry. apply surjective_pairing.
      * apply st_bind_ok. exists tt, w'. split; [|reflexivity]. apply st_guard_ok. split; [|done].
        destruct (total_count pagination) as [total|]; [|done]. cbn. rewrite neqb_false. by apply Ht.
    + done.
    + cbn [cr_result set_result_info set_tags set_result]. by apply (page_items_with_items _ _ _ _ (validated_items _ _ _ Hv)).
Qed.

(** ** Cursors *)

Section Cursors.
Context (url : Url).

(** The cursor a response leads to; [None] at the end. *)
Definition leads_to (response : CloudflareResponseV1) (next : option string) : Prop :=
  match cursor_after (cr_result_info response) with
  | NotPresent => False
  | Complete => next = None
  | Next cursor => next = Some cursor
  end.

(** A chain of cursors, each with the response it was answered with. *)
Inductive Followed : option string -> World -> list (string * CloudflareResponseV1) -> World -> Prop :=
| followed_end w : Followed None w [] w
| followed_page cursor w response items next w1 steps w2 :
    send (set_query_parameter url "cursor" cursor) w = (Ok response, w1) ->
    cr_success response = true -> as_array (cr_result response) = Some items -> leads_to response next ->
    Followed next w1 steps w2 -> Followed (Some cursor) w ((cursor, response) :: steps) w2.

Definition step_items (step : string * CloudflareResponseV1) : list Value := items_of None (snd step).

(** What the loop has after the pages [steps] of a chain. *)
Definition followed_state (steps : list (string * CloudflareResponseV1)) (g : Gathered) (info : option Value) (pages : Z)
    : Gathered * option Value * Z :=
  (mkGathered (g_items g ++ concat (map step_items steps)) (fst (last_tags g (map snd steps)))
     (snd (last_tags g (map snd steps))),
   match List.rev steps with [] => info | step :: _ => cr_result_info (snd step) end,
   pages + count_of steps).

Lemma followed_state_nil g info pages : followed_state [] g info pages = (g, info, pages).
Proof. unfold followed_state, count_of. cbn. rewrite app_nil_r, Z.add_0_r. by destruct g. Qed.

Lemma followed_state_cons cursor response items steps g info pages :
  as_array (cr_result response) = Some items ->
  followed_state ((cursor, response) :: steps) g info pages =
  followed_state steps (mkGathered (g_items g ++ items) (cr_etag response) (cr_cf_ray response)) (cr_result_info response)
    (pages + 1).
Proof.
  intros Ha. unfold followed_state, count_of, last_tags. cbn [map List.rev List.length g_items concat snd fst].
  unfold step_items at 1, items_of. cbn [snd page_items]. rewrite Ha. cbn [default]. rewrite <- app_assoc.
  rewrite Nat2Z.inj_succ. replace (pages + 1 + Z.of_nat (List.length steps)) with (pages + Z.succ (Z.of_nat (List.length steps))) by lia.
  rewrite <- map_rev. by destruct (List.rev steps).
Qed.

Lemma follow_cursors_ok n : forall observed pages next g info w w' state,
  follow_cursors n url observed pages next g info w = (Ok (inr state), w') <->
  exists steps, (List.length steps <= n)%nat /\ Followed next w steps w' /\ NoDup (map fst steps) /\
    Forall (fun step => set_has (fst step) observed = false) steps /\ state = followed_state steps g info pages.
Proof.
  induction n as [|n IH]; intros observed pages next g info w w' state; destruct next as [cursor|].
  2, 4: cbn [follow_cursors]; split;
    [intros [= <- <-]; exists []; rewrite followed_state_nil; split_and!; [cbn; lia|constructor..|done]
    |intros (steps & _ & Hf & _ & _ & ->); inversion Hf; subst; by rewrite followed_state_nil].
  - cbn [follow_cursors]. split; [done|]. intros (steps & Hl & Hf & _). inversion Hf; subst. cbn in Hl. lia.
  - cbn [follow_cursors]. rewrite st_bind_ok. split.
    + intros ([] & w0 & [Hnew ->]%st_guard_ok & H). apply st_bind_ok in H as (response & w1 & Hsend & H).
      destruct (cr_success response) eqn:Es; [|done]. cbn [negb] in H.
      apply st_bind_ok in H as (items & w2 & [Hi ->]%st_lift_ok & H). apply st_bind_ok in H as (next & w2 & Hn & H).
      assert (Hlead : leads_to response next /\ w2 = w1).
      { unfold leads_to. destruct (cursor_after _); [done|by injection Hn as <- <-..]. }
      destruct Hlead as [Hlead ->]. apply IH in H as (steps & Hl & Hf & Hnd & Hobs & ->).
      destruct (as_array (cr_result response)) as [items'|] eqn:Ea; [|done]. injection Hi as ->.
      exists ((cursor, response) :: steps). split; [cbn; lia|]. split; [by econstructor|].
      assert (Hfresh : Forall (fun step => fst step <> cursor /\ set_has (fst step) observed = false) steps).
      { eapply Forall_impl; [exact Hobs|]. intros step. cbn. rewrite set_has_add. intros [H1 H2]%orb_false_iff.
        split; [by apply eqb_false|done]. }
      split; [|split].
      * cbn. constructor; [|done]. intros (step & Es' & Hin)%list_elem_of_fmap. rewrite Forall_forall in Hfresh.
        by destruct (Hfresh _ Hin) as [? _].
      * constructor; [done|]. eapply Forall_impl; [exact Hfresh|]. by intros ? [_ ?].
      * symmetry. by apply followed_state_cons.
    + intros (steps & Hl & Hf & Hnd & Hobs & ->).
      inversion Hf as [|? ? response items next w1 steps' ? Hsend Hsucc Harr Hlead Hf']; subst.
      inversion Hobs as [|? ? Hnew Hobs']; subst. inversion Hnd as [|? ? Hnotin Hnd']; subst. cbn [fst] in *.
      exists tt, w. split; [by rewrite Hnew|]. apply st_bind_ok. exists response, w1. split; [done|].
      rewrite Hsucc. cbn [negb]. apply st_bind_ok. exists items, w1. split; [by rewrite Harr|].
      apply st_bind_ok. exists next, w1. split.
      { unfold leads_to in Hlead. by destruct (cursor_after _); subst. }
      apply IH. exists steps'. split; [cbn in Hl; lia|]. split; [done|]. split; [done|]. split.
      * rewrite Forall_forall in Hobs' |- *. intros step Hin. rewrite set_has_add. apply orb_false_iff.
        split; [|by apply Hobs']. apply eqb_false. intros <-. apply Hnotin. by apply list_elem_of_fmap_2.
      * by apply followed_state_cons.
Qed.

Lemma follow_cursors_failed n : forall observed pages next g info w w' r,
  follow_cursors n url observed pages next g info w = (Ok (inl r), w') -> cr_success r = false.
Proof.
  induction n as [|n IH]; intros observed pages next g info w w' r; destruct next as [cursor|]; try done.
  cbn [follow_cursors]. intros H. apply st_bind_ok in H as ([] & w0 & _ & H).
  apply st_bind_ok in H as (response & w1 & _ & H). destruct (cr_success response) eqn:Es.
  - cbn [negb] in H. apply st_bind_ok in H as (items & w2 & _ & H). apply st_bind_ok in H as (next & w3 & _ & H). by eapply IH.
  - cbn [negb] in H. by injection H as <- _.
Qed.

(** A listing by cursors is whole and ends. It succeeds exactly when the
    responses form a chain from the first cursor to an end without cursor, no
    cursor being sent twice and at most 999 of them; then the listing is the
    first items followed by those of the chain, in order. *)
Theorem cursor_listing_is_whole first first_items next items w w' :
  cr_success first = true -> as_array (cr_result first) = Some first_items -> leads_to first next ->
  (exists r, complete_cursors url first w = (Ok r, w') /\ cr_success r = true /\ as_array (cr_result r) = Some items) <->
  exists steps, (List.length steps <= 999)%nat /\ Followed next w steps w' /\ NoDup (map fst steps) /\
    items = (first_items ++ concat (map step_items steps))%list.
Proof.
  intros Hs Ha Hlead.
  assert (E : complete_cursors url first = st_bind
    (follow_cursors (Z.to_nat (MAX_PAGES - 1)) url [] 1 next
       (mkGathered first_items (cr_etag first) (cr_cf_ray first)) (cr_result_info first))
    (fun gathered => match gathered with
       | inl response => st_ret response
       | inr (mkGathered results etag cf_ray, info, pages) =>
           st_ret (set_result_info (annotate (cursor_notes pages results) info)
                     (set_tags etag cf_ray (set_result (VArray results) first)))
       end)).
  { unfold complete_cursors, leads_to in *. rewrite Ha. by destruct (cursor_after _); [|subst..]. }
  rewrite E. clear E. split.
  - intros (r & H & Hr & Hitems). apply st_bind_ok in H as ([bad|[[[results etag ray] info] pages]] & w1 & H1 & H).
    { injection H as -> _. by rewrite (follow_cursors_failed _ _ _ _ _ _ _ _ _ H1) in Hr. }
    injection H as <- <-. cbn in Hitems. injection Hitems as ->.
    apply follow_cursors_ok in H1 as (steps & Hl & Hf & Hnd & _ & [= -> _ _ _ _]). exists steps. by split_and!.
  - intros (steps & Hl & Hf & Hnd & ->).
    eexists. split; [apply st_bind_ok; eexists (inr _), w'; split; [|]|].
    + apply follow_cursors_ok. exists steps. split; [done|]. split; [done|]. split; [done|]. split; [by apply Forall_true|reflexivity].
    + unfold followed_state. reflexivity.
    + by split.
Qed.
End Cursors.
End Listings.

(** ** A provider that answers from a script *)

#[local] Instance scripted : Provider list_urls := {|
  World := list CloudflareResponseV1;
  send _ answers :=
    match answers with [] => (Err PaginationMetadataInvalid, []) | answer :: answers => (Ok answer, answers) end;
|}.

Definition page_answer (page total count total_items : Z) (items : list Value) : CloudflareResponseV1 :=
  mkCloudflareResponseV1 200 true (VArray items) []
    (Some (jobj [("page", nat_value page); ("total_pages", nat_value total); ("count", nat_value count);
                 ("total_count", nat_value total_items)])) None None.
Definition zones (names : list string) : list Value := map VString names.
Definition zones_url : Url := (["client"; "v4"; "zones"], []).

Lemma page_listing_is_whole_witness :
  exists r,
    complete_pages None zones_url (page_answer 1 2 2 3 (zones ["a"; "b"])) (mkPagePagination 1 2 None (Some 2) (Some 3))
      [page_answer 2 2 1 3 (zones ["c"])] = (Ok r, []) /\
    cr_success r = true /\ page_items None (cr_result r) = Some (zones ["a"; "b"; "c"]).
Proof.
  refine (proj2 (page_listing_is_whole None zones_url (page_answer 1 2 2 3 (zones ["a"; "b"]))
    (mkPagePagination 1 2 None (Some 2) (Some 3)) (zones ["a"; "b"; "c"]) [page_answer 2 2 1 3 (zones ["c"])] [] eq_refl) _).
  split; [discriminate|]. split; [reflexivity|]. exists [page_answer 2 2 1 3 (zones ["c"])].
  split; [reflexivity|]. split.
  - eapply fetched_page; [reflexivity| |apply fetched_none]. constructor; [reflexivity|].
    exists (mkPagePagination 2 2 None (Some 1) (Some 3)). repeat split; vm_compute; reflexivity.
  - split; [reflexivity|]. intros total [= <-]. reflexivity.
Defined.

Definition cursor_answer (after : option string) (items : list Value) : CloudflareResponseV1 :=
  mkCloudflareResponseV1 200 true (VArray items) []
    (Some (jobj [("cursors", jobj (match after with Some c => [("after", VString c)] | None => [] end))])) None None.

Lemma cursor_listing_is_whole_witness :
  exists r,
    complete_cursors zones_url (cursor_answer (Some "k1") (zones ["a"])) [cursor_answer None (zones ["b"])] = (Ok r, []) /\
    cr_success r = true /\ as_array (cr_result r) = Some (zones ["a"; "b"]).
Proof.
  refine (proj2 (cursor_listing_is_whole zones_url (cursor_answer (Some "k1") (zones ["a"])) (zones ["a"]) (Some "k1")
    (zones ["a"; "b"]) [cursor_answer None (zones ["b"])] [] eq_refl eq_refl eq_refl) _).
  exists [("k1", cursor_answer None (zones ["b"]))]. split; [cbn; lia|]. split.
  - eapply followed_page; [reflexivity|reflexivity|reflexivity|reflexivity|apply followed_end].
  - split; [|reflexivity]. cbn. constructor; [apply not_elem_of_nil|constructor].
Defined.

(** A listing that was asked for from its last page on holds that page alone,
    and is marked as complete in two pages all the same. *)
Example a_later_page_is_called_complete :
  let first := mkCloudflareResponseV1 200 true (VArray (zones ["c"])) []
    (Some (jobj [("page", nat_value 2); ("total_pages", nat_value 2)])) None None in
  exists r, send_paginated "GET" (append_pair "page" "2" zones_url) [first] = (Ok r, []) /\
    cr_result r = VArray (zones ["c"]) /\
    obind (cr_result_info r) (vget "cfctl_page_complete") = Some (VBool true) /\
    obind (cr_result_info r) (vget "cfctl_pages") = Some (nat_value 2).
Proof. eexists. vm_compute. repeat split; reflexivity. Qed.
