(* ===== verification/Sorting.v ===== *)
(** Sorting and searching slices: [values.sort()] over an order given by its
    strict comparison, the test for adjacent duplicates that follows it, and
    [binary_search]. A sorted list depends only on the elements, so comparing
    sorted lists compares multisets. *)

From Stdlib Require Import String Ascii ZArith Lia List Bool.
From stdpp Require Import base option list strings.
From S2P Require Import Prelude Strings Core.

Open Scope cf_scope.

Section Sort.
Context {A : Type} (ltb : A -> A -> bool).

(** [values.sort()]: equal elements keep their order. *)
Fixpoint insert_by (x : A) (l : list A) : list A :=
  match l with
  | [] => [x]
  | y :: t => if ltb y x then y :: insert_by x t else x :: l
  end.
Definition sort_by (l : list A) : list A := fold_right insert_by [] l.

(** [values.windows(2).any(|pair| same(pair[0], pair[1]))] *)
Fixpoint windows2_any (same : A -> A -> bool) (l : list A) : bool :=
  match l with
  | x :: ((y :: _) as t) => same x y || windows2_any same t
  | _ => false
  end.
End Sort.

(** The order of pairs, [(A, B): Ord]. *)
Definition pair_ltb {A B} (lta : A -> A -> bool) (ltb : B -> B -> bool) (p q : A * B) : bool :=
  lta p.1 q.1 || (negb (lta q.1 p.1) && ltb p.2 q.2).

(** The order of sequences, [Vec<T>: Ord], which those of sorted sets and maps
    are by their elements. *)
Fixpoint list_ltb {A} (ltb : A -> A -> bool) (l k : list A) : bool :=
  match l, k with
  | [], _ :: _ => true
  | x :: l, y :: k => ltb x y || (negb (ltb y x) && list_ltb ltb l k)
  | _, [] => false
  end.

(** [values.dedup()] *)
Fixpoint dedup_by {A} `{EqDecision A} (l : list A) : list A :=
  match l with
  | x :: ((y :: _) as t) => if x =? y then dedup_by t else x :: dedup_by t
  | _ => l
  end.
(** [values.sort(); values.dedup()], and what a [BTreeSet] of the values has. *)
Definition sorted_dedup {A} `{EqDecision A} (ltb : A -> A -> bool) (values : list A) : list A := dedup_by (sort_by ltb values).

(** [slice::binary_search], as the standard library halves the slice: [base]
    moves to the middle unless the element there is greater. *)
Fixpoint search_base (fuel : nat) (key : string) (values : list string) (base size : nat) : nat :=
  match fuel with
  | O => base
  | S fuel =>
      if (size <=? 1)%nat then base
      else
        let half := (size / 2)%nat in
        let mid := (base + half)%nat in
        let base := if is_some_and (values !! mid) (str_ltb key) then base else mid in
        search_base fuel key values base (size - half)
  end.
Definition binary_search (key : string) (values : list string) : bool :=
  values !! search_base (length values) key values 0 (length values) =? Some key.

(** ** Strict total orders *)

Class StrictTotal {A} (ltb : A -> A -> bool) : Prop := {
  ltb_irrefl x : ltb x x = false;
  ltb_trans x y z : ltb x y = true -> ltb y z = true -> ltb x z = true;
  ltb_total x y : ltb x y = false -> ltb y x = false -> x = y;
}.

#[export] Instance str_ltb_strict : StrictTotal str_ltb.
Proof. split; [apply str_ltb_irrefl|apply str_ltb_trans|apply str_ltb_total]. Qed.

#[export] Instance Z_ltb_strict : StrictTotal Z.ltb.
Proof. split; intros; lia. Qed.

Lemma ltb_asym {A} (ltb : A -> A -> bool) `{!StrictTotal ltb} x y : ltb x y = true -> ltb y x = false.
Proof.
  intros H. destruct (ltb y x) eqn:E; [|done]. pose proof (ltb_trans _ _ _ H E) as H'. by rewrite ltb_irrefl in H'.
Qed.

#[export] Instance pair_ltb_strict {A B} (lta : A -> A -> bool) (ltb : B -> B -> bool)
  `{!StrictTotal lta, !StrictTotal ltb} : StrictTotal (pair_ltb lta ltb).
Proof.
  unfold pair_ltb. split.
  - intros [a b]. cbn. by rewrite !ltb_irrefl.
  - intros [a b] [c d] [e f]. cbn. rewrite !orb_true_iff, !andb_true_iff, !negb_true_iff.
    intros [H|[H1 H2]] [K|[K1 K2]].
    + left. by apply (ltb_trans _ c).
    + left. destruct (lta c e) eqn:E; [by apply (ltb_trans _ c)|]. by rewrite <- (ltb_total _ _ E K1).
    + left. destruct (lta a c) eqn:E; [by apply (ltb_trans _ c)|]. by rewrite (ltb_total _ _ E H1).
    + destruct (lta a c) eqn:E1; [|destruct (lta c e) eqn:E2].
      * left. destruct (lta c e) eqn:E2; [by apply (ltb_trans _ c)|]. by rewrite <- (ltb_total _ _ E2 K1).
      * left. by rewrite (ltb_total _ _ E1 H1).
      * right. apply ltb_total in E1; [|done]. apply ltb_total in E2; [|done]. subst. split; [done|by apply (ltb_trans _ d)].
  - intros [a b] [c d]. cbn. rewrite !orb_false_iff, !andb_false_iff, !negb_false_iff.
    intros [H1 H2] [K1 K2]. assert (a = c) as -> by by apply ltb_total.
    rewrite ltb_irrefl in H2, K2. f_equal. apply ltb_total; naive_solver.
Qed.

#[export] Instance list_ltb_strict {A} (ltb : A -> A -> bool) `{!StrictTotal ltb} : StrictTotal (list_ltb ltb).
Proof.
  split.
  - intros l. induction l as [|x l IH]; [done|]. cbn. by rewrite ltb_irrefl, IH.
  - intros l. induction l as [|x l IH]; intros [|y k] [|z m]; try done. cbn.
    rewrite !orb_true_iff, !andb_true_iff, !negb_true_iff. intros [H|[H1 H2]] [K|[K1 K2]].
    + left. by apply (ltb_trans _ y).
    + left. destruct (ltb y z) eqn:E; [by apply (ltb_trans _ y)|]. by rewrite <- (ltb_total _ _ E K1).
    + left. destruct (ltb x y) eqn:E; [by apply (ltb_trans _ y)|]. by rewrite (ltb_total _ _ E H1).
    + destruct (ltb x y) eqn:E1; [|destruct (ltb y z) eqn:E2].
      * left. destruct (ltb y z) eqn:E2; [by apply (ltb_trans _ y)|]. by rewrite <- (ltb_total _ _ E2 K1).
      * left. by rewrite (ltb_total _ _ E1 H1).
      * right. apply ltb_total in E1; [|done]. apply ltb_total in E2; [|done]. subst. split; [done|by apply (IH k)].
  - intros l. induction l as [|x l IH]; intros [|y k]; try done. cbn.
    rewrite !orb_false_iff, !andb_false_iff, !negb_false_iff. intros [H1 H2] [K1 K2].
    assert (x = y) as -> by by apply ltb_total. rewrite ltb_irrefl in H2, K2. f_equal. apply IH; naive_solver.
Qed.

(** An order through a key that determines the element. *)
Lemma key_strict {A K} (ltk : K -> K -> bool) `{!StrictTotal ltk} (key : A -> K) :
  (forall x y, key x = key y -> x = y) -> StrictTotal (fun x y => ltk (key x) (key y)).
Proof.
  intros Hinj. split.
  - intros x. apply ltb_irrefl.
  - intros x y z. apply ltb_trans.
  - intros x y H1 H2. by apply Hinj, ltb_total.
Qed.

(** ** Sorted lists *)

Section Sorted.
Context {A : Type} (ltb : A -> A -> bool) `{!StrictTotal ltb}.

(** No later element is below an earlier one. *)
Fixpoint in_order (l : list A) : Prop :=
  match l with [] => True | x :: t => Forall (fun y => ltb y x = false) t /\ in_order t end.

Lemma insert_by_permutation x l : Permutation (insert_by ltb x l) (x :: l).
Proof.
  induction l as [|y l IH]; cbn; [done|]. destruct (ltb y x); [|done]. rewrite IH. constructor.
Qed.

Lemma sort_by_permutation l : Permutation (sort_by ltb l) l.
Proof. induction l as [|x l IH]; cbn; [done|]. by rewrite insert_by_permutation, IH. Qed.

Lemma ge_trans x y z : ltb y x = false -> ltb z y = false -> ltb z x = false.
Proof.
  intros H1 H2. destruct (ltb z x) eqn:E; [|done]. destruct (ltb x y) eqn:E'.
  - by rewrite (ltb_trans _ _ _ E E') in H2.
  - rewrite (ltb_total _ _ E' H1) in E. congruence.
Qed.

Lemma insert_by_in_order x l : in_order l -> in_order (insert_by ltb x l).
Proof.
  induction l as [|y l IH]; cbn; [done|]. intros [Hy Hl]. destruct (ltb y x) eqn:E; cbn.
  - split; [|by apply IH]. rewrite insert_by_permutation. constructor; [by apply ltb_asym|done].
  - split; [|done]. constructor; [done|]. eapply Forall_impl; [exact Hy|]. intros z Hz. by eapply ge_trans.
Qed.

Lemma sort_by_in_order l : in_order (sort_by ltb l).
Proof. induction l as [|x l IH]; [done|]. by apply insert_by_in_order. Qed.

Lemma in_order_unique l k : in_order l -> in_order k -> Permutation l k -> l = k.
Proof.
  revert k. induction l as [|x l IH]; intros [|y k] Hl Hk Hp.
  - done.
  - by apply Permutation_nil in Hp.
  - by apply Permutation_sym, Permutation_nil in Hp.
  - cbn in Hl, Hk. destruct Hl as [Hx Hl], Hk as [Hy Hk].
    assert (x = y) as ->; [|f_equal; apply IH; [done..|by apply Permutation_cons_inv in Hp]].
    assert (Hin : x ∈ y :: k) by (rewrite <- Hp; left).
    assert (Hin' : y ∈ x :: l) by (rewrite Hp; left).
    rewrite Forall_forall in Hx, Hy. apply elem_of_cons in Hin as [|Hin]; [done|].
    apply elem_of_cons in Hin' as [|Hin']; [done|]. apply (ltb_total (ltb := ltb)); [by apply Hy|by apply Hx].
Qed.

Lemma sort_by_same l k : sort_by ltb l = sort_by ltb k <-> Permutation l k.
Proof.
  split.
  - intros E. by rewrite <- (sort_by_permutation l), E, sort_by_permutation.
  - intros Hp. apply in_order_unique; [apply sort_by_in_order..|]. by rewrite !sort_by_permutation.
Qed.

(** In a sorted list equal elements are neighbours. The test may look at a
    [key] of the elements the order refines. *)
Lemma windows2_any_NoDup {K} `{EqDecision K} (ltk : K -> K -> bool) `{!StrictTotal ltk} (key : A -> K) l :
  (forall x y, ltb y x = false -> ltk (key y) (key x) = false) -> in_order l ->
  windows2_any (fun x y => key x =? key y) l = false <-> NoDup (map key l).
Proof.
  intros Hkey. induction l as [|x [|y l] IH]; intros Ho.
  - split; [intros; constructor|done].
  - split; [intros _; apply NoDup_singleton|done].
  - change (windows2_any (fun x y => key x =? key y) (x :: y :: l))
      with ((key x =? key y) || windows2_any (fun x y => key x =? key y) (y :: l)).
    cbn [map]. rewrite orb_false_iff, eqb_false, NoDup_cons. destruct Ho as [Hx Ho]. rewrite IH by done.
    split; [|intros [Hn ?]; split; [|done]; intros E; apply Hn; cbn; rewrite E; left].
    intros [Hne Hd]. split; [|done]. change (key y :: map key l) with (key <$> (y :: l)). intros (z & Ez & Hz)%list_elem_of_fmap. apply elem_of_cons in Hz as [->|Hz]; [by rewrite Ez in Hne|].
    apply Hne. cbn in Ho. destruct Ho as [Hy _]. rewrite Forall_forall in Hx, Hy.
    apply (ltb_total (ltb := ltk)).
    + rewrite Ez. by apply Hkey, Hy.
    + apply Hkey, Hx. left.
Qed.
End Sorted.

Lemma sort_by_NoDup {A} `{EqDecision A} (ltb : A -> A -> bool) `{!StrictTotal ltb} l :
  windows2_any eqb (sort_by ltb l) = false <-> NoDup l.
Proof.
  pose proof (windows2_any_NoDup ltb ltb id (sort_by ltb l) ltac:(done) (sort_by_in_order ltb l)) as H.
  rewrite map_id in H. etransitivity; [exact H|]. by rewrite (sort_by_permutation ltb l).
Qed.

Lemma sort_by_nil {A} (ltb : A -> A -> bool) `{!StrictTotal ltb} l : sort_by ltb l = [] <-> l = [].
Proof.
  split; [|by intros ->]. intros E. pose proof (sort_by_permutation ltb l) as H. rewrite E in H. by apply Permutation_nil in H.
Qed.

Lemma dedup_by_nil {A} `{EqDecision A} (l : list A) : dedup_by l = [] <-> l = [].
Proof.
  split; [|by intros ->]. induction l as [|x [|y l] IH]; [done|done|].
  change (dedup_by (x :: y :: l)) with (if x =? y then dedup_by (y :: l) else x :: dedup_by (y :: l)).
  destruct (x =? y); [|done]. intros H. by apply IH in H.
Qed.

Lemma sorted_dedup_nil {A} `{EqDecision A} (ltb : A -> A -> bool) `{!StrictTotal ltb} l : sorted_dedup ltb l = [] <-> l = [].
Proof. unfold sorted_dedup. by rewrite dedup_by_nil, sort_by_nil. Qed.

(** ** Searching a sorted slice *)

Lemma search_base_spec key values : windows2_all str_ltb values = true ->
  forall fuel base size, (size <= fuel)%nat -> (0 < size)%nat -> (base + size <= length values)%nat ->
  (forall i, values !! i = Some key -> base <= i < base + size)%nat ->
  forall i, values !! i = Some key -> i = search_base fuel key values base size.
Proof.
  intros Hs. induction fuel as [|fuel IH]; intros base size Hf H0 Hl Hin i Hi; [lia|]. cbn [search_base].
  destruct (size <=? 1)%nat eqn:E; [apply Nat.leb_le in E; specialize (Hin i Hi); lia|]. apply Nat.leb_gt in E.
  set (half := (size / 2)%nat). assert (Hh : (0 < half < size)%nat).
  { split; [apply Nat.div_str_pos; lia|apply Nat.div_lt; lia]. }
  assert (Hh2 : (2 * half <= size)%nat) by apply Nat.Div0.mul_div_le.
  destruct (lookup_lt_is_Some_2 values (base + half)) as [mid Hm]; [lia|]. rewrite Hm. cbn [is_some_and].
  destruct (str_ltb key mid) eqn:Ek.
  - apply IH; [lia|lia|lia| |done]. intros j Hj. specialize (Hin j Hj). destruct (decide (j < base + half)%nat); [lia|]. exfalso.
    destruct (decide (j = base + half)%nat) as [->|]; [rewrite Hm in Hj; injection Hj as ->; by rewrite str_ltb_irrefl in Ek|].
    pose proof (windows2_sorted values mid key (base + half) j Hs ltac:(lia) Hm Hj) as K.
    apply str_ltb_asym in K. congruence.
  - apply IH; [lia|lia|lia| |done]. intros j Hj. specialize (Hin j Hj). destruct (decide (base + half <= j)%nat); [lia|]. exfalso.
    pose proof (windows2_sorted values key mid j (base + half) Hs ltac:(lia) Hj Hm). congruence.
Qed.

Lemma binary_search_sorted key values : windows2_all str_ltb values = true ->
  binary_search key values = true <-> key ∈ values.
Proof.
  intros Hs. unfold binary_search. rewrite eqb_true. split; [apply list_elem_of_lookup_2|].
  intros [i Hi]%list_elem_of_lookup. pose proof (lookup_lt_Some _ _ _ Hi).
  rewrite <- (search_base_spec key values Hs (length values) 0 (length values) ltac:(lia) ltac:(lia) ltac:(lia)
    ltac:(intros j Hj; apply lookup_lt_Some in Hj; lia) i Hi). done.
Qed.
