(* ===== verification/Readback.v ===== *)
(** Comparing what was planned with what is read back (cfctl-cloudflare/src/
    lib.rs, [mismatched_verifiable_planned_fields] and what it calls): the
    planned request body against the resource the provider returns, field by
    field, skipping what the request schema declares unobservable, and the
    complete snapshots of Access applications and policies. *)

From Stdlib Require Import String Ascii ZArith Lia List Bool.
From stdpp Require Import base option list strings.
From S2P Require Import Prelude Strings Btree Json JsonOps Core CatalogTypes Capability RequestSchema.
From S2P Require Import Sorting RequestFormats RequestValidation RequestBuilder.

Open Scope cf_scope.
Open Scope string_scope.
Open Scope cf_scope.

(** [option.filter(p)], [.filter(|value| !value.is_empty())] *)
Definition ofilter {A} (p : A -> bool) (o : option A) : option A :=
  obind o (fun x => if p x then Some x else None).
Definition nonempty_str (o : option string) : option string := ofilter (fun s => negb (is_empty s)) o.

(** ** Planned values in actual ones *)

Fixpoint contains_planned_value (actual planned : Value) {struct planned} : bool :=
  match actual, planned with
  | VObject actual, VObject planned =>
      forallb (fun e => is_some_and (bt_get (fst e) actual) (fun v => contains_planned_value v (snd e))) planned
  | _, _ => Value_eqb actual planned
  end.

Definition mismatched_planned_fields (planned : btree Value) (actual : Value) : list string :=
  map fst (List.filter (fun e =>
    is_none_or (vget (fst e) actual) (fun v => negb (contains_planned_value v (snd e)))) planned).

Fixpoint has_unplanned_recursive_members (actual planned : Value) {struct actual} : bool :=
  match actual, planned with
  | VObject actual, VObject planned =>
      existsb (fun e => is_none_or (bt_get (fst e) planned)
                          (fun p => has_unplanned_recursive_members (snd e) p)) actual
  | VArray actual, VArray planned =>
      negb (length actual =? length planned)
      || (fix any (l k : list Value) : bool :=
            match l, k with
            | x :: l, y :: k => has_unplanned_recursive_members x y || any l k
            | _, _ => false
            end) actual planned
  | _, _ => false
  end.

(** ** Where the request schema describes a value *)

Inductive RequestSchemaPathStep : Type :=
| Property (name : string)
| Item.

Definition MAX_REQUEST_SCHEMA_PROJECTION_STEPS : Z := 4096.

(** [for member in members { candidates.extend(visit(member)?) }] *)
Fixpoint extend_candidates (visit : Value -> Z -> option (list Value * Z)) (members : list Value)
    (candidates : list Value) (steps : Z) : option (list Value * Z) :=
  match members with
  | [] => Some (candidates, steps)
  | member :: members =>
      obind (visit member steps) (fun found =>
        extend_candidates visit members (candidates ++ fst found) (snd found))
  end.

Definition step_child (step : RequestSchemaPathStep) (schema : Value) : option Value :=
  match step with
  | Property name => obind (obind (vget "properties" schema) as_object) (bt_get name)
  | Item => vget "items" schema
  end.

Definition composition_members (schema : Value) : list Value :=
  flat_map (fun composition => default [] (obind (vget composition schema) as_array)) ["allOf"; "oneOf"; "anyOf"].

(** Every schema for the value at [path], through compositions; [None] when a
    budget is exhausted. [levels] is what is left of the depth. *)
Fixpoint request_schema_path_candidates (levels : nat) (path : list RequestSchemaPathStep) (schema : Value)
    (remaining_steps : Z) {struct levels} : option (list Value * Z) :=
  match levels with
  | O => None
  | S levels =>
      if (remaining_steps =? 0)%Z then None
      else
        let steps := (remaining_steps - 1)%Z in
        match path with
        | [] => Some ([schema], steps)
        | step :: remaining =>
            obind (match step_child step schema with
                   | Some child => request_schema_path_candidates levels remaining child steps
                   | None => Some ([], steps)
                   end) (fun found =>
              extend_candidates (request_schema_path_candidates levels path) (composition_members schema)
                (fst found) (snd found))
        end
  end.

(** [schema_declares_verification_omitted], which the core defines alike. *)
Definition readback_omits : nat -> Value -> Z -> bool * Z := schema_declares_verification_omitted.

Definition request_schema_path_is_verification_omitted (schema : Value) (path : list RequestSchemaPathStep) : bool :=
  match request_schema_path_candidates all_depths path schema MAX_REQUEST_SCHEMA_PROJECTION_STEPS with
  | None => false
  | Some (candidates, steps) =>
      negb (is_nil candidates) && fst (all_spending (readback_omits all_levels) candidates steps)
  end.

Definition array_identity_of (candidate : Value) : option string :=
  nonempty_str (obind (vget "x-cfctl-verification-array-identity" candidate) as_str).

Definition request_schema_path_array_identity (schema : option Value) (path : list RequestSchemaPathStep)
    : option string :=
  obind schema (fun schema =>
  obind (request_schema_path_candidates all_depths path schema MAX_REQUEST_SCHEMA_PROJECTION_STEPS) (fun found =>
  obind (all_of array_identity_of (fst found)) (fun identities =>
  obind (head identities) (fun identity =>
    if forallb (fun candidate => candidate =? identity) identities then Some identity else None)))).

(** The elements by their identity; [None] when one has none or two share it. *)
Fixpoint keyed_elements (identity : string) (values : list Value) (keyed : btree Value) : option (btree Value) :=
  match values with
  | [] => Some keyed
  | value :: values =>
      obind (nonempty_str (obind (obind (as_object value) (bt_get identity)) as_str)) (fun key =>
        if is_someb (bt_get key keyed) then None
        else keyed_elements identity values (bt_insert key value keyed))
  end.
Definition identity_keyed_array (values : list Value) (identity : string) : option (btree Value) :=
  keyed_elements identity values [].

(** ** The comparison *)

Definition is_omitted (schema : option Value) (path : list RequestSchemaPathStep) : bool :=
  is_some_and schema (fun schema => request_schema_path_is_verification_omitted schema path).

Fixpoint contains_verifiable_planned_value (levels : nat) (schema : option Value)
    (path : list RequestSchemaPathStep) (actual : option Value) (planned : Value) {struct levels} : bool :=
  match levels with
  | O => false
  | S levels =>
      if is_omitted schema path then true
      else
        match actual with
        | None => false
        | Some actual =>
            match actual, planned with
            | VObject actual, VObject planned =>
                forallb (fun e => contains_verifiable_planned_value levels schema (path ++ [Property (fst e)])
                                    (bt_get (fst e) actual) (snd e)) planned
            | VArray actual, VArray planned =>
                if negb (length actual =? length planned) then false
                else
                  match request_schema_path_array_identity schema path with
                  | Some identity =>
                      match identity_keyed_array actual identity, identity_keyed_array planned identity with
                      | Some actual, Some planned =>
                          (bt_keys actual =? bt_keys planned)
                          && forallb (fun e => contains_verifiable_planned_value levels schema (path ++ [Item])
                                                 (bt_get (fst e) actual) (snd e)) planned
                      | _, _ => false
                      end
                  | None =>
                      forallb (fun e => contains_verifiable_planned_value levels schema (path ++ [Item])
                                          (Some (fst e)) (snd e)) (combine actual planned)
                  end
            | _, _ => Value_eqb actual planned
            end
        end
  end.

(** ** Sets of the Access resources *)

Definition remove_hyphens (s : string) : string :=
  string_of_list_ascii (List.filter (fun a => negb (a =? "-"%char)) (list_ascii_of_string s)).
Definition canonical_cloudflare_uuid (value : string) : option string :=
  if is_valid_cloudflare_uuid value then Some (to_ascii_lowercase (remove_hyphens value)) else None.

(** Sorted, unless two elements agree on [same]. *)
Definition sorted_set {A} (ltb same : A -> A -> bool) (values : list A) : option (list A) :=
  let values := sort_by ltb values in
  if windows2_any same values then None else Some values.
Definition nonempty_set {A} (ltb same : A -> A -> bool) (values : list A) : option (list A) :=
  ofilter (fun values => negb (is_nil values)) (sorted_set ltb same values).

Definition normalized_idps (values : list Value) : option (list string) :=
  obind (all_of as_str values) (fun names =>
  obind (all_of canonical_cloudflare_uuid names) (nonempty_set str_ltb eqb)).

Definition policy_reference (value : Value) : option (string * Z) :=
  obind (nonempty_str (obind (vget "id" value) as_str)) (fun id =>
  obind (ofilter (fun precedence => 0 <? precedence)%Z (obind (vget "precedence" value) as_u64)) (fun precedence =>
    Some (id, precedence))).
Definition normalized_policies (values : list Value) : option (list (string * Z)) :=
  obind (all_of policy_reference values)
    (nonempty_set (pair_ltb str_ltb Z.ltb) (fun p q => fst p =? fst q)).

Definition normalized_access_string_set (values : list Value) : option (list string) :=
  obind (all_of (fun value => nonempty_str (as_str value)) values) (sorted_set str_ltb eqb).

(** [normalized(actual).zip(normalized(planned)).is_some_and(==)] *)
Definition same_normalized {A B} `{EqDecision B} (normalized : A -> option B) (actual planned : A) : bool :=
  match normalized actual, normalized planned with
  | Some actual, Some planned => actual =? planned
  | _, _ => false
  end.

Definition access_application_set_field_matches (name : string) (actual : option Value) (planned : Value) : bool :=
  match obind actual as_array, as_array planned with
  | Some actual, Some planned =>
      if name =? "allowed_idps" then same_normalized normalized_idps actual planned
      else if contains ["custom_pages"; "self_hosted_domains"] name then
        same_normalized normalized_access_string_set actual planned
      else if name =? "policies" then same_normalized normalized_policies actual planned
      else false
  | _, _ => false
  end.

(** One member only: [object.len() == 1]. *)
Definition single (o : option (btree Value)) : option (btree Value) :=
  ofilter (fun m => length m =? 1) o.

Definition access_identity_rule (value : Value) : option (string * string) :=
  obind (single (as_object value)) (fun rule =>
    match bt_get "email" rule with
    | Some email =>
        obind (single (as_object email)) (fun email =>
        obind (nonempty_str (obind (bt_get "email" email) as_str)) (fun address => Some ("email", address)))
    | None =>
        obind (single (obind (bt_get "email_domain" rule) as_object)) (fun domain =>
        obind (nonempty_str (obind (bt_get "domain" domain) as_str)) (fun name => Some ("email_domain", name)))
    end).
Definition normalized_access_human_identity_rules (require_nonempty : bool) (values : list Value)
    : option (list (string * string)) :=
  if require_nonempty && is_nil values then None
  else obind (all_of access_identity_rule values) (sorted_set (pair_ltb str_ltb str_ltb) eqb).

Definition normalized_access_authenticators (values : list Value) : option (list string) :=
  obind (all_of as_str values) (nonempty_set str_ltb eqb).

Definition normalized_access_human_mfa_config (tolerate_empty_provider_duration : bool) (config : btree Value)
    : option (list string * bool * option string) :=
  if existsb (fun field => negb (contains ["allowed_authenticators"; "mfa_disabled"; "session_duration"] field))
       (bt_keys config)
  then None
  else
    obind (obind (obind (bt_get "allowed_authenticators" config) as_array) normalized_access_authenticators)
      (fun authenticators =>
    obind (obind (bt_get "mfa_disabled" config) as_bool) (fun mfa_disabled =>
    obind (match bt_get "session_duration" config with
           | None => Some None
           | Some duration =>
               obind (as_str duration) (fun duration =>
                 if is_empty duration then (if negb tolerate_empty_provider_duration then None else Some None)
                 else Some (Some duration))
           end) (fun session_duration => Some (authenticators, mfa_disabled, session_duration)))).

Definition access_human_policy_field_matches (name : string) (actual : option Value) (planned : Value) : bool :=
  if contains ["include"; "exclude"] name then
    match obind actual as_array, as_array planned with
    | Some actual, Some planned =>
        same_normalized (normalized_access_human_identity_rules (name =? "include")) actual planned
    | _, _ => false
    end
  else if name =? "mfa_config" then
    match obind actual as_object, as_object planned with
    | Some actual, Some planned =>
        match normalized_access_human_mfa_config true actual, normalized_access_human_mfa_config false planned with
        | Some actual, Some planned => actual =? planned
        | _, _ => false
        end
    | _, _ => false
    end
  else false.

Definition exact_operator_group_rule (values : list Value) : option string :=
  match values with
  | [rule] =>
      obind (single (as_object rule)) (fun rule =>
      obind (single (obind (bt_get "group" rule) as_object)) (fun group =>
      obind (obind (bt_get "id" group) as_str) canonical_cloudflare_uuid))
  | _ => None
  end.

Definition access_operator_group_policy_field_matches (name : string) (actual : option Value) (planned : Value) : bool :=
  match obind actual as_array, as_array planned with
  | Some actual, Some planned =>
      if name =? "exclude" then is_nil actual && is_nil planned
      else if name =? "include" then same_normalized exact_operator_group_rule actual planned
      else false
  | _, _ => false
  end.

(** ** The mismatches of a mutation *)

Definition is_operation (capability : CapabilityV1) (ids : list string) (method path : string) : bool :=
  contains ids (cap_id capability) && (cap_method capability =? method) && (cap_path capability =? path).

Definition LAUNCHER_ID : string := "access-applications-update-app-launcher-login-methods".
Definition HUMAN_POLICY_ID : string := "access-policies-update-human-access-controls".
Definition OPERATOR_GROUP_ID : string := "access-policies-update-operator-group-allow-policy".
Definition self_hosted_update_ids : list string :=
  ["access-applications-update-self-hosted-login-methods"; "access-applications-update-owned-self-hosted-whole-host"].
Definition ACCESS_APP_PATH : string := "/accounts/{account_id}/access/apps/{app_id}".
Definition ACCESS_POLICY_PATH : string := "/accounts/{account_id}/access/apps/{app_id}/policies/{policy_id}".

Definition is_application_snapshot (capability : CapabilityV1) : bool :=
  is_operation capability (self_hosted_update_ids ++ [LAUNCHER_ID]) "PUT" ACCESS_APP_PATH.
Definition is_policy_snapshot (capability : CapabilityV1) : bool :=
  is_operation capability [HUMAN_POLICY_ID; OPERATOR_GROUP_ID] "PUT" ACCESS_POLICY_PATH.

(** The resource read back is the one the selectors name. *)
Definition exact_resource_readback_identity_matches (capability : CapabilityV1) (input : CallInput) (actual : Value)
    : bool :=
  let selector :=
    if is_application_snapshot capability then Some "app_id"
    else if is_policy_snapshot capability then Some "policy_id"
    else None in
  match selector with
  | None => true
  | Some selector =>
      match nonempty_str (obind (vget selector (ci_selectors input)) as_str) with
      | None => false
      | Some expected_identity => nonempty_str (obind (vget "id" actual) as_str) =? Some expected_identity
      end
  end.

Definition access_application_field_is_order_insensitive (capability_id field : string) : bool :=
  if contains self_hosted_update_ids capability_id then contains ["allowed_idps"; "policies"; "self_hosted_domains"] field
  else if capability_id =? LAUNCHER_ID then contains ["allowed_idps"; "custom_pages"; "policies"] field
  else false.

Definition verification_response_field (capability : CapabilityV1) (request_field : string) : option string :=
  if negb (is_operation capability ["r2-create-bucket"] "POST" "/accounts/{account_id}/r2/buckets")
     || (cap_product capability <>? "R2 Bucket") || (request_field <>? "storageClass")
  then None
  else ofilter (fun response_field => response_field =? "storage_class")
         (request_object_field_verification_response_field capability request_field).
Definition response_field_of (capability : CapabilityV1) (name : string) : string :=
  default name (verification_response_field capability name).

(** Whether one planned field is found in the readback. *)
Definition planned_field_matches (capability : CapabilityV1) (actual : Value) (name : string) (planned_value : Value)
    : bool :=
  if access_application_field_is_order_insensitive (cap_id capability) name
     && (cap_method capability =? "PUT") && (cap_path capability =? ACCESS_APP_PATH)
  then access_application_set_field_matches name (vget name actual) planned_value
  else if is_operation capability [OPERATOR_GROUP_ID] "PUT" ACCESS_POLICY_PATH && contains ["include"; "exclude"] name
  then access_operator_group_policy_field_matches name (vget name actual) planned_value
  else if is_operation capability [HUMAN_POLICY_ID] "PUT" ACCESS_POLICY_PATH
          && contains ["include"; "exclude"; "mfa_config"] name
  then access_human_policy_field_matches name (vget name actual) planned_value
  else contains_verifiable_planned_value all_depths (cap_request_schema capability) [Property name]
         (vget (response_field_of capability name) actual) planned_value.

Definition access_exact_snapshot_optional_absence_mismatches (capability : CapabilityV1) (planned : btree Value)
    (actual : Value) : list string :=
  if negb (is_application_snapshot capability || is_policy_snapshot capability) then []
  else
    match cap_same_path_read capability with
    | None => ["same_path_read"]
    | Some read =>
        List.filter (fun field =>
          match vget field actual with
          | None => false
          | Some actual_value =>
              negb (is_policy_snapshot capability && (field =? "session_duration")
                    && (as_str actual_value =? Some ""))
          end)
          (List.filter (fun field => is_noneb (bt_get field planned)) (spr_verified_response_fields read))
    end.

Definition COMMON_RESPONSE_ONLY_FIELDS : list string := ["aud"; "created_at"; "id"; "uid"; "updated_at"].

Definition access_application_complete_snapshot_mismatches (capability : CapabilityV1) (planned : btree Value)
    (actual : Value) : list string :=
  if negb (is_application_snapshot capability) then []
  else
    match as_object actual with
    | None => ["access_application_snapshot"]
    | Some actual =>
        List.filter (fun field =>
          let launcher_response_only := (cap_id capability =? LAUNCHER_ID) && contains ["domain"; "name"] field in
          is_noneb (bt_get field planned) && negb (contains COMMON_RESPONSE_ONLY_FIELDS field)
          && negb launcher_response_only) (bt_keys actual)
        ++ map fst (List.filter (fun e =>
             negb (contains ["allowed_idps"; "policies"] (fst e))
             && is_some_and (bt_get (response_field_of capability (fst e)) actual)
                  (fun actual_value => has_unplanned_recursive_members actual_value (snd e))) planned)
    end.

Definition policy_snapshot_fields : list string :=
  ["created_at"; "decision"; "exclude"; "id"; "include"; "name"; "precedence"; "require"; "reusable";
   "session_duration"; "uid"; "updated_at"].

Definition access_human_policy_complete_snapshot_mismatches (capability : CapabilityV1) (actual : Value) : list string :=
  if negb (is_policy_snapshot capability) then []
  else
    match as_object actual with
    | None => ["human_policy_snapshot"; "reusable"]
    | Some actual =>
        let permits_mfa_config := cap_id capability =? HUMAN_POLICY_ID in
        List.filter (fun field =>
          negb (contains policy_snapshot_fields field || (permits_mfa_config && (field =? "mfa_config"))))
          (bt_keys actual)
        ++ (if obind (bt_get "reusable" actual) as_bool =? Some false then [] else ["reusable"])
    end.

Definition mismatched_verifiable_planned_fields (capability : CapabilityV1) (planned : btree Value) (actual : Value)
    : list string :=
  sorted_dedup str_ltb
    (map fst (List.filter (fun e => negb (planned_field_matches capability actual (fst e) (snd e))) planned)
     ++ access_exact_snapshot_optional_absence_mismatches capability planned actual
     ++ access_application_complete_snapshot_mismatches capability planned actual
     ++ access_human_policy_complete_snapshot_mismatches capability actual).

Definition r2_bucket_create (capability : CapabilityV1) : bool :=
  (cap_id capability =? "r2-create-bucket") && (cap_product capability =? "R2 Bucket")
  && (cap_path capability =? "/accounts/{account_id}/r2/buckets").

Definition extend_r2_bucket_create_mismatches (capability : CapabilityV1) (input : CallInput) (actual : Value)
    (mismatches : list string) : list string :=
  if negb (r2_bucket_create capability) then mismatches
  else
    let drifted := is_some_and (vget "cf-r2-jurisdiction" (ci_selectors input)) (fun planned_jurisdiction =>
      negb (option_eqb Value_eqb (vget "jurisdiction" actual) (Some planned_jurisdiction))) in
    sorted_dedup str_ltb (mismatches ++ if drifted then ["cf-r2-jurisdiction"] else []).

Definition render_field_names (fields : list string) : string :=
  if is_nil fields then "none" else join "," fields.
