(* ===== verification/ReadbackProofs.v ===== *)
(** What a comparison without mismatches says: every planned value the schema
    does not declare unobservable was read back, a complete Access snapshot is
    the plan and nothing more, and sets are compared whatever their order. *)

From Stdlib Require Import String Ascii ZArith Lia List Bool.
From stdpp Require Import base option list strings.
From S2P Require Import Prelude Strings Btree Json JsonOps JsonEq Core CatalogTypes Capability CapabilityOps RequestSchema Samples.
From S2P Require Import Sorting RequestFormats RequestValidation RequestBuilder Readback.

Open Scope cf_scope.
Open Scope string_scope.
Open Scope cf_scope.

(** ** Positions in a value *)

Inductive Position : Type :=
| Member (name : string)
| Element (index : nat).

Fixpoint value_at (positions : list Position) (v : Value) : option Value :=
  match positions with
  | [] => Some v
  | Member name :: positions => obind (vget name v) (value_at positions)
  | Element index :: positions => obind (obind (as_array v) (fun l => l !! index)) (value_at positions)
  end.

Definition schema_step (p : Position) : RequestSchemaPathStep :=
  match p with Member name => Property name | Element _ => Item end.

Definition is_scalar (v : Value) : bool := match v with VArray _ | VObject _ => false | _ => true end.

(** The schema declares nothing about the value at [path] that would exempt
    it from the comparison or compare it by identity. *)
Definition compared_here (schema : option Value) (path : list RequestSchemaPathStep) : Prop :=
  is_omitted schema path = false /\ request_schema_path_array_identity schema path = None.
Definition compared_along (schema : option Value) (path : list RequestSchemaPathStep) (positions : list Position) : Prop :=
  forall above below, positions = (above ++ below)%list -> compared_here schema (path ++ map schema_step above).

Lemma compared_along_here schema path positions : compared_along schema path positions -> compared_here schema path.
Proof. intros H. specialize (H [] positions eq_refl). cbn in H. by rewrite app_nil_r in H. Qed.

Lemma compared_along_below schema path p positions :
  compared_along schema path (p :: positions) -> compared_along schema (path ++ [schema_step p]) positions.
Proof. intros H above below E. rewrite <- app_assoc. apply (H (p :: above) below). by rewrite E. Qed.

(** ** Pairs of lists *)

Lemma forallb_combine {A B} (f : A * B -> bool) (l : list A) (k : list B) : length l = length k ->
  forallb f (combine l k) = true <-> Forall2 (fun x y => f (x, y) = true) l k.
Proof.
  revert k. induction l as [|x l IH]; intros [|y k] E; try discriminate E.
  - cbn. split; [intros; constructor|done].
  - cbn. injection E as E. rewrite andb_true_iff, IH by done. split; [intros []; by constructor|by inversion 1].
Qed.

Lemma filter_nil {A} (p : A -> bool) l : List.filter p l = [] <-> Forall (fun x => p x = false) l.
Proof.
  induction l as [|x l IH]; cbn; [split; [intros; constructor|done]|]. rewrite Forall_cons, <- IH. destruct (p x); naive_solver.
Qed.

(** ** Contained values *)

Section Contained.
Context (schema : option Value).

Lemma contained_member levels path m k name v :
  contains_verifiable_planned_value (S levels) schema path (Some (VObject m)) (VObject k) = true ->
  compared_here schema path -> bt_get name k = Some v ->
  contains_verifiable_planned_value levels schema (path ++ [Property name]) (bt_get name m) v = true.
Proof. cbn [contains_verifiable_planned_value]. intros H [E _] Hv%bt_get_in. rewrite E, forallb_forall in H. exact (H _ Hv). Qed.

Lemma contained_elements levels path l k :
  contains_verifiable_planned_value (S levels) schema path (Some (VArray l)) (VArray k) = true ->
  compared_here schema path ->
  Forall2 (fun x y => contains_verifiable_planned_value levels schema (path ++ [Item]) (Some x) y = true) l k.
Proof.
  cbn [contains_verifiable_planned_value]. intros H [E1 E2]. rewrite E1, E2 in H. destruct (negb (length l =? length k)) eqn:E; [done|].
  rewrite neqb_false in E. apply forallb_combine in H; [exact H|exact E].
Qed.

Lemma absent_is_not_contained levels path planned :
  is_omitted schema path = false -> contains_verifiable_planned_value levels schema path None planned = false.
Proof. destruct levels; [done|]. cbn [contains_verifiable_planned_value]. by intros ->. Qed.

(** A scalar of the plan is read back where it was planned. *)
Lemma contained_scalar positions : forall levels path actual planned leaf,
  contains_verifiable_planned_value levels schema path (Some actual) planned = true ->
  compared_along schema path positions -> value_at positions planned = Some leaf -> is_scalar leaf = true ->
  exists read, value_at positions actual = Some read /\ read =j leaf.
Proof.
  induction positions as [|p positions IH]; intros [|levels] path actual planned leaf H Hc Hp Hs; try done.
  - injection Hp as ->. exists actual. split; [done|]. destruct (compared_along_here _ _ _ Hc) as [E _].
    cbn [contains_verifiable_planned_value] in H. rewrite E in H. by destruct actual, leaf.
  - pose proof (compared_along_here _ _ _ Hc) as Hh. apply compared_along_below in Hc as Hb.
    pose proof (compared_along_here _ _ _ Hb) as [Ho _]. destruct p as [name|index]; cbn [value_at] in *.
    + destruct planned as [| | | | |k]; try discriminate Hp. cbn [vget] in Hp.
      destruct (bt_get name k) as [v|] eqn:Ev; [|discriminate Hp]. cbn [obind] in Hp.
      destruct actual as [| | | | |m]; try (cbn [contains_verifiable_planned_value] in H; destruct Hh as [E _]; by rewrite E in H).
      apply contained_member with (name := name) (v := v) in H; [|done..]. cbn [vget].
      destruct (bt_get name m) as [a|]; [by eapply IH|]. cbn [schema_step] in Ho. by rewrite absent_is_not_contained in H.
    + destruct planned as [| | | |k|]; try discriminate Hp. cbn [as_array obind] in Hp.
      destruct (k !! index) as [v|] eqn:Ev; [|discriminate Hp]. cbn [obind] in Hp.
      destruct actual as [| | | |l|]; try (cbn [contains_verifiable_planned_value] in H; destruct Hh as [E _]; by rewrite E in H).
      apply contained_elements in H; [|done]. destruct (Forall2_lookup_r _ _ _ _ _ H Ev) as (a & Ea & Ha).
      cbn [as_array obind]. rewrite Ea. by eapply IH.
Qed.

(** ** Nothing unplanned *)

Lemma planned_member m k name v :
  has_unplanned_recursive_members (VObject m) (VObject k) = false -> bt_get name m = Some v ->
  exists p, bt_get name k = Some p /\ has_unplanned_recursive_members v p = false.
Proof.
  cbn. intros H Hv%bt_get_in. rewrite existsb_Forall in H. rewrite List.Forall_forall in H. specialize (H _ Hv). cbn in H.
  destruct (bt_get name k) as [p|]; [eauto|done].
Qed.

Lemma planned_elements l k :
  has_unplanned_recursive_members (VArray l) (VArray k) = false ->
  Forall2 (fun x y => has_unplanned_recursive_members x y = false) l k.
Proof.
  cbn. rewrite orb_false_iff. intros [E H]. rewrite neqb_false in E. revert k E H. induction l as [|x l IH]; intros [|y k] E H; try done.
  apply orb_false_iff in H as [? ?]. constructor; [done|]. apply IH; [by injection E|done].
Qed.

(** A value that contains the plan and nothing else is the plan. *)
Lemma contained_exactly : (forall path, compared_here schema path) ->
  forall levels path actual planned, value_wf actual = true -> value_wf planned = true ->
  contains_verifiable_planned_value levels schema path (Some actual) planned = true ->
  has_unplanned_recursive_members actual planned = false -> actual =j planned.
Proof.
  intros Hc. induction levels as [|levels IH]; intros path actual planned Hwa Hwp H Hu; [done|].
  destruct (Hc path) as [Ho _].
  destruct actual as [| | | |l|m], planned as [| | | |k|k'];
    try (cbn [contains_verifiable_planned_value] in H; rewrite Ho in H; done).
  - apply same_array. apply contained_elements in H; [|done]. apply planned_elements in Hu.
    apply value_wf_items in Hwa, Hwp. revert H Hu Hwp. revert k. induction Hwa as [|x l Hx _ IHl]; intros k H Hu Hwp.
    + inversion H. constructor.
    + inversion H as [|? y ? k2 Hxy Hlk]; subst. inversion Hu; subst. inversion Hwp; subst. constructor; [by eapply IH|by apply IHl].
  - apply same_object; [by apply value_wf_object..|]. intros name. destruct (bt_get name m) as [v|] eqn:Ev.
    + destruct (planned_member _ _ _ _ Hu Ev) as (p & Ep & Hvp). rewrite Ep. change (v =j p).
      apply contained_member with (name := name) (v := p) in H; [|done..]. rewrite Ev in H.
      eapply IH; [exact (value_wf_member _ _ _ Hwa Ev)|exact (value_wf_member _ _ _ Hwp Ep)|exact H|exact Hvp].
    + destruct (bt_get name k') as [p|] eqn:Ep; [|done].
      apply contained_member with (name := name) (v := p) in H; [|done..]. rewrite Ev in H.
      destruct (Hc (path ++ [Property name])%list) as [Ho' _]. by rewrite absent_is_not_contained in H.
Qed.
End Contained.

(** ** Sets *)

(** Two arrays hold the same set of what [read] finds in their elements: all
    elements are read, no two agree on their [key], and in any order. *)
Definition same_set {A K} (read : Value -> option A) (key : A -> K) (actual planned : list Value) : Prop :=
  exists xs ys, all_of read actual = Some xs /\ all_of read planned = Some ys /\ NoDup (map key ys) /\ Permutation xs ys.

Section Sets.
Context {A K : Type} `{EqDecision A} `{EqDecision K} (ltb : A -> A -> bool) (ltk : K -> K -> bool).
Context `{!StrictTotal ltb} `{!StrictTotal ltk} (key : A -> K) (read : Value -> option A).
Hypothesis key_ordered : forall x y, ltb y x = false -> ltk (key y) (key x) = false.
Let same (x y : A) : bool := key x =? key y.

Lemma windows2_sort l : windows2_any same (sort_by ltb l) = false <-> NoDup (map key l).
Proof.
  pose proof (windows2_any_NoDup ltb ltk key (sort_by ltb l) key_ordered (sort_by_in_order ltb l)) as H.
  etransitivity; [exact H|]. by rewrite (sort_by_permutation ltb l).
Qed.

Lemma sorted_set_some (l : list A) xs : sorted_set ltb same l = Some xs <-> xs = sort_by ltb l /\ NoDup (map key l).
Proof.
  unfold sorted_set. rewrite <- windows2_sort. destruct (windows2_any _ _); [by split; [|intros [_ ?]]|].
  split; [by intros [= <-]|by intros [-> _]].
Qed.

Lemma same_sorted_set l k :
  same_normalized (fun l => obind (all_of read l) (sorted_set ltb same)) l k = true <-> same_set read key l k.
Proof.
  unfold same_normalized, same_set. destruct (all_of read l) as [xs|]; cbn [obind].
  2: { split; [done|]. by intros (? & ? & ? & _). }
  destruct (sorted_set ltb same xs) as [xs'|] eqn:Ex.
  - apply sorted_set_some in Ex as [-> Hx]. destruct (all_of read k) as [ys|]; cbn [obind].
    2: { split; [done|]. by intros (? & ? & _ & ? & _). }
    destruct (sorted_set ltb same ys) as [ys'|] eqn:Ey.
    + apply sorted_set_some in Ey as [-> Hy]. rewrite eqb_true, sort_by_same by done.
      split; [by intros; exists xs, ys|]. by intros (? & ? & [= <-] & [= <-] & _ & ?).
    + split; [done|]. intros (? & ? & [= <-] & [= <-] & Hd & _).
      assert (H : sorted_set ltb same ys = Some (sort_by ltb ys)) by by apply sorted_set_some. congruence.
  - split; [done|]. intros (? & ys & [= <-] & _ & Hd & Hp). rewrite <- Hp in Hd.
    assert (H : sorted_set ltb same xs = Some (sort_by ltb xs)) by by apply sorted_set_some. congruence.
Qed.

Lemma nonempty_sorted (l : list A) : nonempty_set ltb same l = if is_nil l then None else sorted_set ltb same l.
Proof.
  unfold nonempty_set, ofilter, sorted_set. destruct l as [|x l]; [done|]. destruct (windows2_any _ _); [done|]. cbn [obind].
  destruct (sort_by ltb (x :: l)) eqn:E; [|done]. by apply sort_by_nil in E; [|done].
Qed.

Lemma same_nonempty_set l k :
  same_normalized (fun l => obind (all_of read l) (nonempty_set ltb same)) l k = true <->
  l <> [] /\ same_set read key l k.
Proof.
  destruct l as [|v l]; [by split; [|intros [[] _]]|]. rewrite <- same_sorted_set.
  unfold same_normalized. destruct (all_of read (v :: l)) as [xs|] eqn:Ex; [|by split; [|intros [_ ?]]]. cbn [obind].
  assert (is_nil xs = false) as Hx. { cbn in Ex. destruct (read v); [|done]. destruct (all_of read l); [|done]. by injection Ex as <-. }
  rewrite nonempty_sorted, Hx. destruct (sorted_set ltb same xs) as [xs'|] eqn:E; [|by split; [|intros [_ ?]]].
  destruct (all_of read k) as [ys|]; cbn [obind]; [|by split; [|intros [_ ?]]].
  rewrite nonempty_sorted. destruct ys as [|y ys]; cbn [is_nil]; [|by split; [|intros [_ ?]]].
  split; [done|]. intros [_ H]. apply sorted_set_some in E as [-> _]. cbn in H. apply eqb_true, sort_by_nil in H; [|done]. by subst.
Qed.
End Sets.

Lemma all_of_nil {A B} (f : A -> option B) l xs : all_of f l = Some xs -> l = [] <-> xs = [].
Proof.
  destruct l as [|x l]; cbn; [by intros [= <-]|]. destruct (f x); [|done]. cbn. destruct (all_of f l); [|done]. by intros [= <-].
Qed.

(** ** What no mismatch says *)

Lemma no_mismatch capability planned actual :
  mismatched_verifiable_planned_fields capability planned actual = [] <->
  Forall (fun e => planned_field_matches capability actual (fst e) (snd e) = true) planned /\
  access_exact_snapshot_optional_absence_mismatches capability planned actual = [] /\
  access_application_complete_snapshot_mismatches capability planned actual = [] /\
  access_human_policy_complete_snapshot_mismatches capability actual = [].
Proof.
  unfold mismatched_verifiable_planned_fields. rewrite sorted_dedup_nil by apply _.
  rewrite !app_nil. assert (Hm : forall l : list (string * Value), map fst l = [] <-> l = []) by by intros [].
  rewrite Hm, filter_nil. setoid_rewrite negb_false_iff. done.
Qed.

Lemma no_mismatch_field capability planned actual name value :
  mismatched_verifiable_planned_fields capability planned actual = [] -> bt_get name planned = Some value ->
  planned_field_matches capability actual name value = true.
Proof. intros [H _]%no_mismatch Hv%bt_get_in. rewrite List.Forall_forall in H. exact (H _ Hv). Qed.

(** The fields compared value by value: all but the sets of the Access
    resources. *)
Definition compared_by_value (capability : CapabilityV1) (name : string) : bool :=
  negb (access_application_field_is_order_insensitive (cap_id capability) name
        && (cap_method capability =? "PUT") && (cap_path capability =? ACCESS_APP_PATH))
  && negb (is_operation capability [OPERATOR_GROUP_ID] "PUT" ACCESS_POLICY_PATH && contains ["include"; "exclude"] name)
  && negb (is_operation capability [HUMAN_POLICY_ID] "PUT" ACCESS_POLICY_PATH
           && contains ["include"; "exclude"; "mfa_config"] name).

Lemma by_value capability actual name value : compared_by_value capability name = true ->
  planned_field_matches capability actual name value =
  contains_verifiable_planned_value all_depths (cap_request_schema capability) [Property name]
    (vget (response_field_of capability name) actual) value.
Proof.
  unfold compared_by_value, planned_field_matches. rewrite !andb_true_iff, !negb_true_iff. by intros [[-> ->] ->].
Qed.

(** C15: what is planned was read back. When a readback shows no mismatch,
    every scalar anywhere in a planned field that is compared by value was read
    back with its planned value at its place in the resource, unless the
    request schema declares it, or something it is in, unobservable, or an
    array it is in compared by an identity key, where the order is free. The
    fields not compared by value are the sets of the Access application and
    policy updates, which are compared without their order. *)
Theorem planned_values_were_read_back capability planned actual name value positions leaf :
  mismatched_verifiable_planned_fields capability planned actual = [] ->
  compared_by_value capability name = true -> bt_get name planned = Some value ->
  value_at positions value = Some leaf -> is_scalar leaf = true ->
  compared_along (cap_request_schema capability) [Property name] positions ->
  exists read, value_at (Member (response_field_of capability name) :: positions) actual = Some read /\ read =j leaf.
Proof.
  intros H Hv Hp Hleaf Hs Hc. apply (no_mismatch_field _ _ _ _ _ H) in Hp. rewrite by_value in Hp by done. cbn [value_at].
  destruct (vget _ actual) as [found|]; cbn [obind].
  - by eapply contained_scalar.
  - destruct (compared_along_here _ _ _ Hc) as [Ho _]. by rewrite absent_is_not_contained in Hp.
Qed.

(** ** The Access resources *)

Definition idp_of (v : Value) : option string := obind (as_str v) canonical_cloudflare_uuid.

Lemma all_of_obind {A B C} (f : A -> option B) (g : B -> option C) l :
  obind (all_of f l) (all_of g) = all_of (fun x => obind (f x) g) l.
Proof.
  induction l as [|x l IH]; [done|]. cbn. rewrite <- IH. destruct (f x) as [y|]; [|done]. cbn.
  destruct (all_of f l) as [ys|]; cbn; [done|]. by destruct (g y).
Qed.

(** What it takes for a set field of an application to match. *)
Definition set_field_reads (name : string) (actual planned : Value) : Prop :=
  exists l k, actual = VArray l /\ planned = VArray k /\
    if name =? "allowed_idps" then l <> [] /\ same_set idp_of id l k
    else if contains ["custom_pages"; "self_hosted_domains"] name
    then same_set (fun v => nonempty_str (as_str v)) id l k
    else name = "policies" /\ l <> [] /\ same_set policy_reference fst l k.

Lemma fst_ordered (x y : string * Z) : pair_ltb str_ltb Z.ltb y x = false -> str_ltb y.1 x.1 = false.
Proof. unfold pair_ltb. by rewrite orb_false_iff; intros [? _]. Qed.

Lemma set_field_iff name actual planned :
  access_application_set_field_matches name (Some actual) planned = true <-> set_field_reads name actual planned.
Proof.
  unfold access_application_set_field_matches, set_field_reads. cbn [obind].
  destruct (as_array actual) as [l|] eqn:El; [|split; [done|]; by intros (? & ? & -> & _)].
  destruct (as_array planned) as [k|] eqn:Ek; [|split; [done|]; by intros (? & ? & _ & -> & _)].
  destruct actual as [| | | |l'|]; try discriminate El. injection El as ->.
  destruct planned as [| | | |k'|]; try discriminate Ek. injection Ek as ->.
  assert (Hex : forall P : list Value -> list Value -> Prop,
    (exists l' k', VArray l = VArray l' /\ VArray k = VArray k' /\ P l' k') <-> P l k).
  { intros P. split; [by intros (? & ? & [= <-] & [= <-] & ?)|]. intros. by exists l, k. }
  rewrite (Hex (fun l k => if name =? "allowed_idps" then l <> [] /\ same_set idp_of id l k
    else if contains ["custom_pages"; "self_hosted_domains"] name
    then same_set (fun v => nonempty_str (as_str v)) id l k
    else name = "policies" /\ l <> [] /\ same_set policy_reference fst l k)).
  destruct (name =? "allowed_idps"); [|destruct (contains _ name); [|destruct (name =? "policies") eqn:E]].
  - rewrite <- (same_nonempty_set str_ltb str_ltb id idp_of) by done. unfold same_normalized, normalized_idps, idp_of.
    rewrite <- !all_of_obind. by destruct (all_of as_str l), (all_of as_str k).
  - by rewrite <- (same_sorted_set str_ltb str_ltb id).
  - apply eqb_eq in E as ->. rewrite <- (same_nonempty_set _ str_ltb fst policy_reference fst_ordered). naive_solver.
  - split; [done|]. intros [-> _]. by rewrite eqb_refl in E.
Qed.

(** The members of an application only responses have. *)
Definition response_only (capability : CapabilityV1) (name : string) : bool :=
  contains COMMON_RESPONSE_ONLY_FIELDS name || ((cap_id capability =? LAUNCHER_ID) && contains ["domain"; "name"] name).

Lemma snapshot_id capability : is_application_snapshot capability = true ->
  cap_method capability = "PUT" /\ cap_path capability = ACCESS_APP_PATH /\
  In (cap_id capability) (self_hosted_update_ids ++ [LAUNCHER_ID])%list.
Proof.
  unfold is_application_snapshot, is_operation. rewrite !andb_true_iff, !eqb_true, contains_true. rewrite list_elem_of_In. tauto.
Qed.

Lemma snapshot_response_field capability name : is_application_snapshot capability = true ->
  response_field_of capability name = name.
Proof.
  intros (Hm & _ & _)%snapshot_id. unfold response_field_of, verification_response_field, is_operation.
  rewrite Hm. change ("PUT" =? "POST") with false. by rewrite andb_false_r.
Qed.

Lemma idps_and_policies_are_sets capability name :
  In (cap_id capability) (self_hosted_update_ids ++ [LAUNCHER_ID])%list ->
  contains ["allowed_idps"; "policies"] name = true ->
  access_application_field_is_order_insensitive (cap_id capability) name <> false.
Proof.
  rewrite contains_true, list_elem_of_In. unfold access_application_field_is_order_insensitive.
  intros Hid Hn. repeat (destruct Hid as [<-|Hid]; [by destruct Hn as [<-|[<-|[]]]|]). done.
Qed.

(** One field of a complete snapshot, as planned. *)
Definition field_as_planned (capability : CapabilityV1) (name : string) (actual planned : Value) : Prop :=
  if access_application_field_is_order_insensitive (cap_id capability) name then set_field_reads name actual planned
  else actual =j planned.

(** An application that shows no mismatch is the planned one and nothing
    more. Its sets are the planned sets in any order, every other planned
    field has exactly its planned value, all the way down, and besides the
    fields only responses have it has no field that was not planned. *)
Theorem application_snapshot_is_the_plan capability planned actual :
  is_application_snapshot capability = true ->
  (forall path, compared_here (cap_request_schema capability) path) ->
  value_wf actual = true -> value_wf (VObject planned) = true ->
  mismatched_verifiable_planned_fields capability planned actual = [] ->
  exists members, actual = VObject members /\
    forall name, match bt_get name planned with
                 | Some p => exists v, bt_get name members = Some v /\ field_as_planned capability name v p
                 | None => response_only capability name = false -> bt_get name members = None
                 end.
Proof.
  intros Hsnap Hc Hwa Hwp H. pose proof H as (_ & _ & Hcomplete & _)%no_mismatch.
  destruct (snapshot_id _ Hsnap) as (Hm & Hpath & Hid).
  unfold access_application_complete_snapshot_mismatches in Hcomplete. rewrite Hsnap in Hcomplete. cbn [negb] in Hcomplete.
  destruct actual as [| | | | |members]; try discriminate Hcomplete. exists members. split; [done|]. cbn [as_object] in Hcomplete.
  apply app_nil in Hcomplete as [Hextra Hdeep]. intros name. destruct (bt_get name planned) as [p|] eqn:Ep.
  - pose proof (no_mismatch_field _ _ _ _ _ H Ep) as Hf. unfold field_as_planned.
    destruct (access_application_field_is_order_insensitive (cap_id capability) name) eqn:Es.
    + unfold planned_field_matches in Hf. rewrite Es, Hm, Hpath, !eqb_refl in Hf. cbn [andb] in Hf. cbn [vget] in Hf.
      destruct (bt_get name members) as [v|]; [|done]. exists v. split; [done|]. by apply set_field_iff.
    + rewrite by_value in Hf.
      2: { unfold compared_by_value, is_operation. rewrite Es, Hpath. change (ACCESS_APP_PATH =? ACCESS_POLICY_PATH) with false. by rewrite !andb_false_r. }
      rewrite snapshot_response_field in Hf by done. cbn [vget] in Hf. destruct (bt_get name members) as [v|] eqn:Ev.
      * exists v. split; [done|]. eapply (contained_exactly _ Hc); [exact (value_wf_member _ _ _ Hwa Ev)|exact (value_wf_member _ _ _ Hwp Ep)|exact Hf|].
        apply map_eq_nil, filter_nil in Hdeep. rewrite List.Forall_forall in Hdeep. specialize (Hdeep _ (bt_get_in _ _ _ Ep)). cbn [fst snd] in Hdeep.
        rewrite snapshot_response_field, Ev in Hdeep by done. apply andb_false_iff in Hdeep as [Hdeep|Hdeep]; [|done].
        apply negb_false_iff in Hdeep. exfalso. revert Es. by apply idps_and_policies_are_sets.
      * destruct (Hc [Property name]) as [Ho _]. by rewrite absent_is_not_contained in Hf.
  - intros Hr. destruct (bt_get name members) as [v|] eqn:Ev; [|done]. exfalso. rewrite filter_nil, List.Forall_forall in Hextra.
    specialize (Hextra name (bt_get_keys name members ltac:(by rewrite Ev))). unfold response_only in Hr.
    apply orb_false_iff in Hr as [E1 E2]. by rewrite Ep, E1, E2 in Hextra.
Qed.

Lemma human_policy_guards capability : is_operation capability [HUMAN_POLICY_ID] "PUT" ACCESS_POLICY_PATH = true ->
  cap_id capability = HUMAN_POLICY_ID /\ is_policy_snapshot capability = true /\ is_application_snapshot capability = false /\
  forall name, access_application_field_is_order_insensitive (cap_id capability) name = false /\
    is_operation capability [OPERATOR_GROUP_ID] "PUT" ACCESS_POLICY_PATH = false.
Proof.
  unfold is_policy_snapshot, is_application_snapshot, is_operation. rewrite !andb_true_iff, !eqb_true, contains_true, list_elem_of_In.
  intros [[[<-|[]] ->] ->]. done.
Qed.

Lemma identity_rules_match name actual planned : contains ["include"; "exclude"] name = true ->
  access_human_policy_field_matches name (Some actual) planned = true ->
  exists l k, actual = VArray l /\ planned = VArray k /\ (name = "include" -> l <> []) /\ same_set access_identity_rule id l k.
Proof.
  intros Hn. unfold access_human_policy_field_matches. rewrite Hn. cbn [obind].
  destruct actual as [| | | |l|]; try done. destruct planned as [| | | |k|]; try done. cbn [as_array]. intros H.
  exists l, k. do 2 (split; [done|]). revert H. unfold same_normalized, normalized_access_human_identity_rules. intros H. split.
  - intros ->. by destruct l.
  - apply (same_sorted_set (pair_ltb str_ltb str_ltb) (pair_ltb str_ltb str_ltb) id); [done|].
    unfold same_normalized. change (fun x y : string * string => id x =? id y) with (@eqb (string * string) _).
    destruct ((name =? "include") && is_nil l); [done|]. destruct (obind (all_of access_identity_rule l) _); [|done].
    by destruct ((name =? "include") && is_nil k).
Qed.

(** A verified policy admits whom the plan admits. When the readback of a
    human access policy shows no mismatch, its identity rules are the planned
    ones, as sets and without repetition, at least one of them to include; the
    policy is not reusable, it has no fields besides those of a policy, and a
    verified field the plan leaves out is absent. *)
Theorem policy_snapshot_admits_the_planned capability planned actual :
  is_operation capability [HUMAN_POLICY_ID] "PUT" ACCESS_POLICY_PATH = true ->
  mismatched_verifiable_planned_fields capability planned actual = [] ->
  exists members, actual = VObject members /\ bt_get "reusable" members = Some (VBool false) /\
    (forall name, is_someb (bt_get name members) = true -> contains (policy_snapshot_fields ++ ["mfa_config"]) name = true) /\
    (forall name p, contains ["include"; "exclude"] name = true -> bt_get name planned = Some p ->
       exists l k, bt_get name members = Some (VArray l) /\ p = VArray k /\ (name = "include" -> l <> []) /\
         same_set access_identity_rule id l k) /\
    (forall read name, cap_same_path_read capability = Some read -> name ∈ spr_verified_response_fields read ->
       bt_get name planned = None ->
       bt_get name members = None \/ (name = "session_duration" /\ bt_get name members = Some (VString ""))).
Proof.
  intros Hop H. destruct (human_policy_guards _ Hop) as (Hid & Hpol & Happ & Hg).
  pose proof H as (_ & Habsent & _ & Hcomplete)%no_mismatch.
  unfold access_human_policy_complete_snapshot_mismatches in Hcomplete. rewrite Hpol in Hcomplete. cbn [negb] in Hcomplete.
  destruct actual as [| | | | |members]; try discriminate Hcomplete. cbn [as_object] in Hcomplete.
  apply app_nil in Hcomplete as [Hextra Hreusable]. exists members. split; [done|]. split; [|split; [|split]].
  - destruct (obind _ as_bool =? _) eqn:E in Hreusable; [|done]. rewrite eqb_true in E.
    destruct (bt_get "reusable" members) as [[]|]; cbn in E; try discriminate E. by injection E as ->.
  - intros name Hn. rewrite filter_nil, List.Forall_forall in Hextra.
    specialize (Hextra name (bt_get_keys name members ltac:(by destruct (bt_get name members)))). rewrite negb_false_iff in Hextra.
    apply contains_true, elem_of_app. apply orb_true_iff in Hextra as [?%contains_true|[_ ->%eqb_eq]%andb_true_iff]; [by left|right; left].
  - intros name p Hn Hp. pose proof (no_mismatch_field _ _ _ _ _ H Hp) as Hf. unfold planned_field_matches in Hf.
    destruct (Hg name) as [E1 E2]. rewrite E1, E2, Hop in Hf. cbn [andb vget] in Hf.
    assert (E3 : contains ["include"; "exclude"; "mfa_config"] name = true).
    { rewrite contains_true, list_elem_of_In in Hn |- *. destruct Hn as [<-|[<-|[]]]; cbn; tauto. }
    rewrite E3 in Hf. destruct (bt_get name members) as [v|].
    + apply identity_rules_match in Hf as (l & k & -> & -> & ?); [|done]. eauto.
    + unfold access_human_policy_field_matches in Hf. by rewrite Hn in Hf.
  - intros read name Hread Hin Hp. unfold access_exact_snapshot_optional_absence_mismatches in Habsent.
    rewrite Hpol, Happ, Hread in Habsent. cbn [orb negb] in Habsent. rewrite filter_nil, List.Forall_forall in Habsent.
    specialize (Habsent name). rewrite filter_In, <- list_elem_of_In, Hp in Habsent. specialize (Habsent (conj Hin eq_refl)). cbn [vget andb] in Habsent.
    destruct (bt_get name members) as [v|]; [right|by left]. apply negb_false_iff, andb_true_iff in Habsent as [->%eqb_eq E]. rewrite eqb_true in E.
    split; [done|]. destruct v; try discriminate E. by injection E as ->.
Qed.

(** ** Samples *)

Definition with_readback (read : option SamePathReadContractV1) (schema : option Value) (c : CapabilityV1) : CapabilityV1 :=
  let k := classification_of c in
  classify {|
    class_selectors := class_selectors k;
    class_permissions := class_permissions k;
    class_risk := class_risk k;
    class_effect := class_effect k;
    class_cost := class_cost k;
    class_verification := class_verification k;
    class_rollback := class_rollback k;
    class_same_path_read := read;
    class_request_schema := schema;
    class_response_contract := class_response_contract k
  |} c.

Definition webhook_schema : Value :=
  jobj [("type", VString "object");
        ("properties", jobj [("name", jobj [("type", VString "string")]);
                             ("secret", jobj [("type", VString "string"); ("writeOnly", VBool true)]);
                             ("events", jobj [("type", VString "array"); ("items", jobj [("type", VString "string")])])])].
Definition webhook_update : CapabilityV1 :=
  with_readback None (Some webhook_schema)
    (capability_new "webhooks-update" "Update a webhook" "PUT" "/accounts/{account_id}/webhooks/{webhook_id}").
Definition webhook_planned : btree Value :=
  [("events", VArray [VString "push"]); ("name", VString "builds"); ("secret", VString "s3cret")].
Definition webhook_read : Value :=
  jobj [("id", VString "w1"); ("name", VString "builds"); ("events", VArray [VString "push"])].

Lemma planned_values_were_read_back_witness :
  mismatched_verifiable_planned_fields webhook_update webhook_planned webhook_read = [] /\
  mismatched_verifiable_planned_fields webhook_update webhook_planned (jobj [("name", VString "builds")]) = ["events"] /\
  exists read, value_at [Member "events"; Element 0] webhook_read = Some read /\ read =j VString "push".
Proof.
  split; [vm_compute; reflexivity|]. split; [vm_compute; reflexivity|].
  refine (planned_values_were_read_back webhook_update webhook_planned webhook_read "events"
            (VArray [VString "push"]) [Element 0] (VString "push") _ _ _ _ _ _);
    [vm_compute; reflexivity|vm_compute; reflexivity|reflexivity|reflexivity|reflexivity|].
  intros [|p [|q above]] below E; [split; vm_compute; reflexivity| |by destruct below].
  injection E as <- <-. split; vm_compute; reflexivity.
Defined.

Definition access_app : CapabilityV1 :=
  with_readback (Some (mkSamePathReadContractV1 ACCESS_APP_PATH "access-applications-get-an-access-application"
                         ["allowed_idps"; "name"; "policies"])) None
    (capability_new "access-applications-update-self-hosted-login-methods" "Update login methods" "PUT" ACCESS_APP_PATH).
Definition idp_a : string := "699d98642c564d2e855e9661899b7252".
Definition idp_b : string := "7b0bc477-5d42-4dab-b0ea-c97d0aef7810".
Definition idp_b_compact : string := "7b0bc4775d424dabb0eac97d0aef7810".
Definition app_planned : btree Value :=
  [("allowed_idps", VArray [VString idp_a; VString idp_b]); ("name", VString "ops")].
Definition app_read : btree Value :=
  [("allowed_idps", VArray [VString idp_b_compact; VString idp_a]); ("id", VString "app-1"); ("name", VString "ops")].

Lemma application_snapshot_is_the_plan_witness :
  mismatched_verifiable_planned_fields access_app app_planned (VObject (bt_insert "tags" (VArray []) app_read)) = ["tags"] /\
  exists l k, VArray [VString idp_b_compact; VString idp_a] = VArray l /\
    VArray [VString idp_a; VString idp_b] = VArray k /\ l <> [] /\ same_set idp_of id l k.
Proof.
  split; [vm_compute; reflexivity|].
  destruct (application_snapshot_is_the_plan access_app app_planned (VObject app_read) eq_refl) as (members & [= <-] & H);
    [intros path; split; reflexivity|vm_compute; reflexivity..|].
  destruct (H "allowed_idps") as (v & [= <-] & Hf). exact Hf.
Defined.

Definition access_policy : CapabilityV1 :=
  with_readback (Some (mkSamePathReadContractV1 ACCESS_POLICY_PATH "access-policies-get-an-access-policy"
                         ["exclude"; "include"; "session_duration"])) None
    (capability_new HUMAN_POLICY_ID "Update an access policy" "PUT" ACCESS_POLICY_PATH).
Definition email_rule (address : string) : Value := jobj [("email", jobj [("email", VString address)])].
Definition domain_rule (domain : string) : Value := jobj [("email_domain", jobj [("domain", VString domain)])].
Definition policy_planned : btree Value := [("include", VArray [email_rule "a@example.com"; domain_rule "example.com"])].
Definition policy_read (include : list Value) : btree Value :=
  [("id", VString "p1"); ("include", VArray include); ("reusable", VBool false); ("session_duration", VString "")].

Lemma policy_snapshot_admits_the_planned_witness :
  mismatched_verifiable_planned_fields access_policy policy_planned
    (VObject (policy_read [domain_rule "example.com"; email_rule "a@example.com"; email_rule "b@example.com"])) = ["include"] /\
  same_set access_identity_rule id [domain_rule "example.com"; email_rule "a@example.com"]
    [email_rule "a@example.com"; domain_rule "example.com"].
Proof.
  split; [vm_compute; reflexivity|].
  destruct (policy_snapshot_admits_the_planned access_policy policy_planned
    (VObject (policy_read [domain_rule "example.com"; email_rule "a@example.com"]))) as (members & [= <-] & _ & _ & H & _);
    [vm_compute; reflexivity..|].
  destruct (H "include" (VArray [email_rule "a@example.com"; domain_rule "example.com"]) eq_refl eq_refl)
    as (l & k & El & Ek & _ & Hs).
  injection El as <-. injection Ek as <-. exact Hs.
Defined.
