(* ===== verification/AccessCreate.v ===== *)
(** Creating an Access application that owns its whole hostname
    (cfctl-cloudflare/src/access_create.rs): the planned body, the overlap of
    hostname patterns, and the receipt of a complete inventory - nobody owns
    the hostname before, exactly the created application afterwards. *)

From Stdlib Require Import String Ascii ZArith Lia List Bool.
From stdpp Require Import base option list strings.
From S2P Require Import Prelude Strings Bytes Btree StringSet Json JsonOps JsonEq.
From S2P Require Import CloudflareErrors RequestBuilder Pagination Readback.

Open Scope cf_scope.
Open Scope string_scope.
Local Open Scope Z_scope.
Open Scope cf_scope.

Definition OWNED_CREATE_ID : string := "access-applications-create-owned-self-hosted-whole-host".

Definition owned_invalid (message : string) : CloudflareError :=
  InvalidRequestBody ("owned Access application: " ++ message).

(** The query of a call that is verified by reading back: none. *)
Definition clean_verification_query (input : CallInput) : bool :=
  is_null (ci_query input) || is_some_and (as_object (ci_query input)) is_nil.

(** [selectors.get(name).and_then(Value::as_str).is_none_or(str::is_empty)] *)
Definition lacks_text (name : string) (values : btree Value) : bool :=
  is_none_or (obind (bt_get name values) as_str) is_empty.

Definition hostname_label (label : string) : bool :=
  negb (is_empty label) && bytes_all (fun b => is_ascii_alphanumeric b || (b =? "-"%char)) label.

Definition whole_hostname (hostname : string) : bool :=
  (hostname =? to_ascii_lowercase hostname) && (Z.of_nat (String.length hostname) <=? 253)
  && str_contains hostname "."
  && forallb (fun label => negb (is_empty label) && (Z.of_nat (String.length label) <=? 63)
                           && negb (starts_with label "-") && negb (ends_with label "-") && hostname_label label)
       (split_on "." hostname).

(** [body.get(name) == Some(&value)] *)
Definition member_is (name : string) (value : Value) (body : btree Value) : bool :=
  option_eqb Value_eqb (bt_get name body) (Some value).

Definition validate_owned_access_create_input (input : CallInput) : result CloudflareError unit :=
  let? selectors := ok_or (owned_invalid "selectors must be an object") (as_object (ci_selectors input)) in
  guard (negb (length selectors =? 1)%nat || lacks_text "account_id" selectors || negb (clean_verification_query input))
    (owned_invalid "requires only account_id and no query controls") (
  let? body := ok_or (owned_invalid "complete body required") (obind (ci_body input) as_object) in
  let? hostname := ok_or (owned_invalid "domain required") (obind (bt_get "domain" body) as_str) in
  guard (negb (whole_hostname hostname)) (owned_invalid "domain must be an exact lowercase whole hostname") (
  guard (negb (member_is "type" (VString "self_hosted") body)
         || lacks_text "name" body
         || negb (member_is "policies" (VArray []) body)
         || negb (member_is "options_preflight_bypass" (VBool false) body)
         || is_someb (bt_get "self_hosted_domains" body)
         || negb (member_is "destinations"
                    (VArray [jobj [("type", VString "public"); ("uri", VString hostname)]]) body))
    (owned_invalid "requires one bare whole-host destination and empty policies without bypass") (Ok tt))).

(** ** Hostname patterns *)

Definition strip_scheme (value : string) : string :=
  match strip_prefix "https://" value with
  | Some raw => raw
  | None => match strip_prefix "http://" value with Some raw => raw | None => value end
  end.

(** The host a pattern is about: before the first slash, without trailing
    dots, in lower case. *)
Definition pattern_host (value : string) : string :=
  to_ascii_lowercase (trim_end_matches "."%char (default "" (head (split_on "/" (strip_scheme value))))).

(** The host, or what a wildcard stands below. *)
Definition pattern_base (host : string) : string := default host (strip_prefix "*." host).

Definition hostname_overlap (value target : string) : result CloudflareError bool :=
  let host := pattern_host value in
  guard (is_empty host || bytes_any (fun b => contains [":"; "?"; "#"; "@"]%char b) host)
    (owned_invalid "unclassified hostname in application inventory") (
  let base := pattern_base host in
  guard (existsb (fun label => negb (hostname_label label)) (split_on "." base))
    (owned_invalid "unclassified hostname pattern in application inventory")
    (Ok ((host =? target) || (starts_with host "*." && ends_with target ("." ++ base))))).

(** What the loops over an application have found: whether a pattern matched,
    whether there was one to see. *)
Definition Overlap : Type := bool * bool.

Definition overlap_text (message : string) (hostname : string) (found : Overlap) (value : option Value)
    : result CloudflareError Overlap :=
  let? text := ok_or (owned_invalid message) (obind value as_str) in
  let? overlaps := hostname_overlap text hostname in
  Ok (fst found || overlaps, true).

Fixpoint overlap_domains (hostname : string) (domains : list Value) (found : Overlap) : result CloudflareError Overlap :=
  match domains with
  | [] => Ok found
  | domain :: domains =>
      let? found := overlap_text "non-string domain" hostname found (Some domain) in
      overlap_domains hostname domains found
  end.

Fixpoint overlap_destinations (hostname : string) (destinations : list Value) (found : Overlap)
    : result CloudflareError Overlap :=
  match destinations with
  | [] => Ok found
  | destination :: destinations =>
      let? found :=
        match obind (vget "type" destination) as_str with
        | Some kind =>
            if kind =? "public"
            then overlap_text "public destination has no URI" hostname found (vget "uri" destination)
            else if kind =? "private" then Ok found
            else Err (owned_invalid "unclassified destination type")
        | None => Err (owned_invalid "unclassified destination type")
        end in
      overlap_destinations hostname destinations found
  end.

(** [app.get(name).filter(|v| !v.is_null())] *)
Definition present_member (name : string) (app : Value) : option Value := ofilter (fun v => negb (is_null v)) (vget name app).

Definition access_application_host_overlap (app : Value) (hostname : string) : result CloudflareError bool :=
  guard (is_some_and (vget "name" app) (fun value => negb (is_someb (as_str value)) && negb (is_null value)))
    (owned_invalid "unclassified application name") (
  let? app_type := ok_or (owned_invalid "application type absent") (obind (vget "type" app) as_str) in
  guard (negb (contains ["self_hosted"; "app_launcher"; "saas"] app_type))
    (owned_invalid "unclassified application type cannot prove hostname absence") (
  let? found :=
    match present_member "domain" app with
    | Some domain => overlap_text "non-string domain" hostname (false, false) (Some domain)
    | None => Ok (false, false)
    end in
  let? found :=
    match present_member "self_hosted_domains" app with
    | Some domains =>
        let? domains := ok_or (owned_invalid "non-array domains") (as_array domains) in
        overlap_domains hostname domains found
    | None => Ok found
    end in
  let? found :=
    match present_member "destinations" app with
    | Some destinations =>
        let? destinations := ok_or (owned_invalid "non-array destinations") (as_array destinations) in
        overlap_destinations hostname destinations found
    | None => Ok found
    end in
  guard ((app_type =? "self_hosted") && negb (snd found))
    (owned_invalid "self-hosted application omitted observable hostname ownership") (Ok (fst found)))).

(** ** The receipt of an inventory *)

(** The receipt, without its constants; [or_inventory] is what its digest is
    of, and the serialisation of a JSON value to hash it does not fail. *)
Record OwnershipReceipt : Type := mkOwnershipReceipt {
  or_account_id : Value;
  or_name : string;
  or_hostname : string;
  or_created_id : option string;
  or_candidate_count : Z;
  or_collection_count : Z;
  or_inventory : Value;
}.

Definition terminal_inventory (response : CloudflareResponseV1) : bool :=
  is_some_and (cr_result_info response) (fun info =>
    let page := obind (vget "page" info) as_u64 in
    let pages := obind (vget "total_pages" info) as_u64 in
    is_some_and page (fun page => 0 <? page) && (page =? pages)
    && option_eqb Value_eqb (vget "cfctl_page_complete" info) (Some (VBool true))).

(** The identities of the candidates: applications of that name, or that
    cover the hostname. *)
Fixpoint inventory_candidates (name hostname : string) (created_id : option string) (apps : list Value) (ids : str_set)
    : result CloudflareError (list string) :=
  match apps with
  | [] => Ok []
  | app :: apps =>
      let? id := ok_or (owned_invalid "application id absent") (nonempty_str (obind (vget "id" app) as_str)) in
      let app_type := obind (vget "type" app) as_str in
      let app_name := obind (vget "name" app) as_str in
      guard (set_has id ids || is_none_or app_type is_empty)
        (owned_invalid "duplicate identity or unclassified application") (
      let? overlap := access_application_host_overlap app hostname in
      guard ((created_id =? Some id)
             && ((app_type <>? Some "self_hosted") || (app_name <>? Some name) || negb overlap))
        (owned_invalid "returned application identity drifted in inventory") (
      let? candidates := inventory_candidates name hostname created_id apps (set_add id ids) in
      Ok (if (app_name =? Some name) || overlap then id :: candidates else candidates)))
  end.

Definition access_create_collection_receipt (input : CallInput) (response : CloudflareResponseV1)
    (created_id : option string) : result CloudflareError OwnershipReceipt :=
  let? _ := validate_owned_access_create_input input in
  guard (negb (cr_success response) || negb ((200 <=? cr_status response) && (cr_status response <? 300))
         || negb (terminal_inventory response))
    (owned_invalid "complete successful terminal application inventory required") (
  let? apps := ok_or (owned_invalid "application inventory must be an array") (as_array (cr_result response)) in
  let? body := ok_or (owned_invalid "body absent") (ci_body input) in
  let? name := ok_or (owned_invalid "name absent") (as_str (vindex body "name")) in
  let? host := ok_or (owned_invalid "domain absent") (as_str (vindex body "domain")) in
  let? candidates := inventory_candidates name host created_id apps [] in
  guard (candidates <>? (match created_id with Some id => [id] | None => [] end))
    (owned_invalid "name or hostname ownership conflicts with the expected absence/returned identity")
    (Ok (mkOwnershipReceipt (vindex (ci_selectors input) "account_id") name host created_id
           (count_of candidates) (count_of apps) (cr_result response)))).

(** ** Hostnames as their labels *)

Lemma split_on_nonempty c s : split_on c s <> [].
Proof. destruct s as [|a s]; [done|]. cbn. destruct (split_on c s); [done|]. by destruct (a =? c). Qed.

Lemma split_on_sep c p s : split_on c (p ++ String c s) = (split_on c p ++ split_on c s)%list.
Proof.
  induction p as [|a p IH].
  - change (("" ++ String c s)) with (String c s). cbn. rewrite eqb_refl. destruct (split_on c s) eqn:E; [by apply split_on_nonempty in E|done].
  - change (String a p ++ String c s) with (String a (p ++ String c s)). cbn [split_on]. rewrite IH.
    destruct (split_on c p) as [|t l] eqn:E; [by apply split_on_nonempty in E|]. cbn. by destruct (a =? c).
Qed.

Lemma split_on_inj c s t : split_on c s = split_on c t -> s = t.
Proof.
  revert t. induction s as [|a s IH]; intros [|b t]; cbn; try done.
  - destruct (split_on c t) eqn:E; [by apply split_on_nonempty in E|]. by destruct (b =? c).
  - destruct (split_on c s) eqn:E; [by apply split_on_nonempty in E|]. by destruct (a =? c).
  - destruct (split_on c s) as [|x l] eqn:E1; [by apply split_on_nonempty in E1|].
    destruct (split_on c t) as [|y k] eqn:E2; [by apply split_on_nonempty in E2|].
    destruct (a =? c) eqn:Ea, (b =? c) eqn:Eb; intros [= H1 H2]; subst; try (exfalso; congruence).
    + apply eqb_eq in Ea, Eb. subst. f_equal. apply IH. by rewrite E2.
    + f_equal. apply IH. by rewrite E2.
Qed.

Lemma split_on_cons c s x l : l <> [] -> split_on c s = x :: l ->
  exists r, s = x ++ String c r /\ split_on c r = l.
Proof.
  intros Hl. revert x. induction s as [|a s IH]; intros x; cbn; [by intros [= <- <-]|].
  destruct (split_on c s) as [|t l'] eqn:E; [by apply split_on_nonempty in E|]. destruct (a =? c) eqn:Ea.
  - apply eqb_eq in Ea as ->. intros [= <- <-]. by exists s.
  - intros [= <- <-]. destruct (IH t eq_refl) as (r & -> & Hr). by exists r.
Qed.

(** A suffix of the labels is a suffix of the text after a separator. *)
Lemma split_on_suffix c target base front : split_on c target = (front ++ split_on c base)%list -> front <> [] ->
  exists p, target = p ++ String c base.
Proof.
  intros E Hf. revert target E Hf. induction front as [|x front IH]; intros target E Hf; [done|].
  apply split_on_cons in E as (r & -> & Hr).
  2: { intros [_ E']%app_nil. by apply split_on_nonempty in E'. }
  destruct front as [|y front]; [apply split_on_inj in Hr as ->; by exists x|].
  destruct (IH r Hr) as [p ->]; [done|]. exists (x ++ String c p). by rewrite str_app_assoc.
Qed.

Lemma ends_with_labels target base :
  ends_with target ("." ++ base) = true <->
  exists front, split_on "." target = (front ++ split_on "." base)%list /\ front <> [].
Proof.
  rewrite ends_with_true. split.
  - intros [p ->]. exists (split_on "." p). change ("." ++ base) with (String "." base). rewrite split_on_sep. split; [done|apply split_on_nonempty].
  - intros (front & E & Hf). destruct (split_on_suffix _ _ _ _ E Hf) as [p ->]. by exists p.
Qed.

(** What a pattern covers: its own host, or below the base of a wildcard. *)
Definition covers (pattern target : string) : Prop :=
  let labels := split_on "." (pattern_host pattern) in
  labels = split_on "." target \/
  exists base front, labels = "*" :: base /\ split_on "." target = (front ++ base)%list /\ front <> [].

Lemma hostname_overlap_covers value target b : hostname_overlap value target = Ok b -> b = true <-> covers value target.
Proof.
  unfold hostname_overlap, covers. rewrite guard_ok. intros [_ H]. apply guard_ok in H as [Hl [= <-]].
  set (host := pattern_host value) in *. rewrite orb_true_iff, eqb_true, andb_true_iff. split.
  - intros [->|[Hs He]]; [left; reflexivity|right]. unfold starts_with in Hs. destruct (strip_prefix "*." host) as [base|] eqn:E; [|done].
    unfold pattern_base in He. rewrite E in He. change (default host (Some base)) with base in He. apply strip_prefix_app in E. apply ends_with_labels in He as (front & He & Hf).
    exists (split_on "." base), front. split; [|split; assumption]. rewrite E. apply (split_on_sep "." "*" base).
  - intros [E|(base & front & E & Et & Hf)]; [left; by apply split_on_inj in E|right].
    destruct base as [|x base].
    + exfalso. assert (host = "*") as Eh by by apply (split_on_inj "."). rewrite Eh in Hl. by vm_compute in Hl.
    + apply split_on_cons in E as (r & Eh & Er); [|done].
      assert (Hp : strip_prefix "*." host = Some r) by by apply strip_prefix_app.
      split; [unfold starts_with; by rewrite Hp|]. unfold pattern_base. rewrite Hp. change (default host (Some r)) with r.
      apply ends_with_labels. exists front. by rewrite Er.
Qed.

(** ** The hostnames of an application *)

(** Every hostname pattern an application shows in public. *)
Definition text_of (o : option Value) : list string := match obind o as_str with Some s => [s] | None => [] end.
Definition elements_of (o : option Value) : list Value := default [] (obind o as_array).
Definition public_patterns (app : Value) : list string :=
  text_of (vget "domain" app)
  ++ flat_map (fun domain => text_of (Some domain)) (elements_of (vget "self_hosted_domains" app))
  ++ flat_map (fun destination =>
       if obind (vget "type" destination) as_str =? Some "public" then text_of (vget "uri" destination) else [])
       (elements_of (vget "destinations" app)).

Definition covered_by (patterns : list string) (hostname : string) : Prop := exists pattern, pattern ∈ patterns /\ covers pattern hostname.

Lemma covered_by_nil hostname : covered_by [] hostname <-> False.
Proof. unfold covered_by. split; [|done]. by intros (? & ?%elem_of_nil & _). Qed.

Lemma covered_by_app p q hostname : covered_by (p ++ q) hostname <-> covered_by p hostname \/ covered_by q hostname.
Proof. unfold covered_by. setoid_rewrite elem_of_app. naive_solver. Qed.

(** A step over some patterns: what it found before, or they cover. *)
Definition overlap_adds (hostname : string) (patterns : list string) (before after : Overlap) : Prop :=
  fst after = true <-> fst before = true \/ covered_by patterns hostname.

Lemma overlap_text_adds message hostname before value after :
  overlap_text message hostname before value = Ok after -> overlap_adds hostname (text_of value) before after.
Proof.
  unfold overlap_text, overlap_adds, text_of. rewrite res_bind_ok. intros (text & Et & H).
  destruct (obind value as_str) as [t|]; [|done]. injection Et as ->. apply res_bind_ok in H as (b & Hb & H).
  injection H as <-. cbn [fst]. rewrite orb_true_iff, (hostname_overlap_covers _ _ _ Hb). unfold covered_by.
  setoid_rewrite list_elem_of_singleton. naive_solver.
Qed.

Lemma overlap_adds_trans hostname p q a b c :
  overlap_adds hostname p a b -> overlap_adds hostname q b c -> overlap_adds hostname (p ++ q) a c.
Proof. unfold overlap_adds. rewrite covered_by_app. intros H1 H2. rewrite H2, H1. tauto. Qed.

Lemma overlap_adds_nil hostname a : overlap_adds hostname [] a a.
Proof. unfold overlap_adds. rewrite covered_by_nil. tauto. Qed.

Lemma overlap_domains_adds hostname domains before after :
  overlap_domains hostname domains before = Ok after ->
  overlap_adds hostname (flat_map (fun domain => text_of (Some domain)) domains) before after.
Proof.
  revert before. induction domains as [|domain domains IH]; intros before; cbn [overlap_domains].
  - intros [= <-]. apply overlap_adds_nil.
  - rewrite res_bind_ok. intros (found & H1 & H2). eapply overlap_adds_trans; [by eapply overlap_text_adds|by apply IH].
Qed.

Lemma overlap_destinations_adds hostname destinations before after :
  overlap_destinations hostname destinations before = Ok after ->
  overlap_adds hostname (flat_map (fun destination =>
    if obind (vget "type" destination) as_str =? Some "public" then text_of (vget "uri" destination) else []) destinations) before after.
Proof.
  revert before. induction destinations as [|destination destinations IH]; intros before; cbn [overlap_destinations].
  - intros [= <-]. apply overlap_adds_nil.
  - rewrite res_bind_ok. intros (found & H1 & H2). cbn [flat_map]. eapply overlap_adds_trans; [|by apply IH]. clear IH H2.
    destruct (obind (vget "type" destination) as_str) as [kind|]; [|done]. destruct (kind =? "public") eqn:Ek.
    + apply eqb_eq in Ek as ->. rewrite eqb_refl. by eapply overlap_text_adds.
    + destruct (kind =? "private"); [|done]. injection H1 as <-. destruct (Some kind =? Some "public") eqn:E; [|apply overlap_adds_nil].
      rewrite eqb_true in E. injection E as ->. by rewrite eqb_refl in Ek.
Qed.

Lemma present_member_cases name app :
  match present_member name app with
  | Some v => vget name app = Some v
  | None => obind (vget name app) as_str = None /\ obind (vget name app) as_array = None
  end.
Proof. unfold present_member, ofilter. destruct (vget name app) as [v|]; [|done]. by destruct v. Qed.

Lemma host_overlap_covers app hostname b :
  access_application_host_overlap app hostname = Ok b -> b = true <-> covered_by (public_patterns app) hostname.
Proof.
  unfold access_application_host_overlap. rewrite guard_ok. intros [_ H]. apply res_bind_ok in H as (app_type & _ & H).
  apply guard_ok in H as [_ H]. apply res_bind_ok in H as (f1 & H1 & H). apply res_bind_ok in H as (f2 & H2 & H).
  apply res_bind_ok in H as (f3 & H3 & H). apply guard_ok in H as [_ H]. injection H as <-.
  assert (A1 : overlap_adds hostname (text_of (vget "domain" app)) (false, false) f1).
  { pose proof (present_member_cases "domain" app) as Hp. destruct (present_member "domain" app) as [v|].
    - rewrite Hp. by eapply overlap_text_adds.
    - injection H1 as <-. destruct Hp as [E _]. unfold text_of. rewrite E. apply overlap_adds_nil. }
  assert (A2 : overlap_adds hostname (flat_map (fun domain => text_of (Some domain)) (elements_of (vget "self_hosted_domains" app))) f1 f2).
  { pose proof (present_member_cases "self_hosted_domains" app) as Hp. unfold elements_of. destruct (present_member "self_hosted_domains" app) as [v|].
    - apply res_bind_ok in H2 as (l & Hl & H2). rewrite Hp. cbn [obind]. destruct (as_array v); [|done]. injection Hl as ->. by apply overlap_domains_adds.
    - injection H2 as <-. destruct Hp as [_ E]. rewrite E. apply overlap_adds_nil. }
  assert (A3 : overlap_adds hostname (flat_map (fun destination =>
    if obind (vget "type" destination) as_str =? Some "public" then text_of (vget "uri" destination) else [])
      (elements_of (vget "destinations" app))) f2 f3).
  { pose proof (present_member_cases "destinations" app) as Hp. unfold elements_of. destruct (present_member "destinations" app) as [v|].
    - apply res_bind_ok in H3 as (l & Hl & H3). rewrite Hp. cbn [obind]. destruct (as_array v); [|done]. injection Hl as ->. by apply overlap_destinations_adds.
    - injection H3 as <-. destruct Hp as [_ E]. rewrite E. apply overlap_adds_nil. }
  pose proof (overlap_adds_trans _ _ _ _ _ _ A1 (overlap_adds_trans _ _ _ _ _ _ A2 A3)) as H. unfold overlap_adds in H. cbn [fst] in H.
  unfold public_patterns. rewrite H. naive_solver.
Qed.

(** ** Who owns a hostname *)

(** An application has a claim: its name is the planned one, or a pattern it
    shows covers the hostname. *)
Definition claims (name hostname : string) (app : Value) : Prop :=
  obind (vget "name" app) as_str = Some name \/ covered_by (public_patterns app) hostname.

Lemma inventory_candidates_claim name hostname created_id apps : forall ids candidates,
  inventory_candidates name hostname created_id apps ids = Ok candidates ->
  forall app, app ∈ apps -> exists id, obind (vget "id" app) as_str = Some id /\ (claims name hostname app -> id ∈ candidates) /\
    (created_id = Some id -> obind (vget "type" app) as_str = Some "self_hosted" /\
       obind (vget "name" app) as_str = Some name /\ covered_by (public_patterns app) hostname).
Proof.
  induction apps as [|app apps IH]; intros ids candidates H app' Hin; [by apply elem_of_nil in Hin|]. cbn [inventory_candidates] in H.
  apply res_bind_ok in H as (id & Hid & H). apply guard_ok in H as [_ H]. apply res_bind_ok in H as (overlap & Ho & H).
  apply host_overlap_covers in Ho. apply guard_ok in H as [Hdrift H]. apply res_bind_ok in H as (rest & Hrest & [= <-]).
  apply elem_of_cons in Hin as [->|Hin].
  - exists id. unfold nonempty_str, ofilter in Hid. destruct (obind (vget "id" app) as_str) as [i|]; [|done]. cbn in Hid.
    destruct (negb (is_empty i)); [|done]. injection Hid as ->. split; [done|]. split.
    + intros Hc. assert (E : (obind (vget "name" app) as_str =? Some name) || overlap = true).
      { apply orb_true_iff. rewrite eqb_true, Ho. exact Hc. }
      rewrite E. left.
    + intros ->. rewrite eqb_refl in Hdrift. apply orb_false_iff in Hdrift as [H1 H2]. apply orb_false_iff in H1 as [H0 H1].
      rewrite neqb_false in H0. rewrite neqb_false in H1. apply negb_false_iff in H2. rewrite Ho in H2. done.
  - destruct (IH _ _ Hrest app' Hin) as (i & E & Hc & Hd). exists i. split; [done|]. split; [|done]. intros Hcl. apply Hc in Hcl.
    destruct (_ || overlap); [by right|done].
Qed.

Lemma inventory_candidates_from name hostname created_id apps : forall ids candidates id,
  inventory_candidates name hostname created_id apps ids = Ok candidates -> id ∈ candidates ->
  exists app, app ∈ apps /\ obind (vget "id" app) as_str = Some id.
Proof.
  induction apps as [|app apps IH]; intros ids candidates id H Hin; [injection H as <-; by apply elem_of_nil in Hin|]. cbn [inventory_candidates] in H.
  apply res_bind_ok in H as (i & Hid & H). apply guard_ok in H as [_ H]. apply res_bind_ok in H as (overlap & _ & H).
  apply guard_ok in H as [_ H]. apply res_bind_ok in H as (rest & Hrest & [= <-]).
  assert (Hi : obind (vget "id" app) as_str = Some i).
  { unfold nonempty_str, ofilter in Hid. destruct (obind (vget "id" app) as_str) as [j|]; [|done]. cbn in Hid.
    destruct (negb (is_empty j)); [|done]. by injection Hid as ->. }
  assert (Hin' : id = i \/ id ∈ rest) by (destruct (_ || overlap); [by apply elem_of_cons|by right]).
  destruct Hin' as [->|Hin']; [exists app; split; [left|done]|]. destruct (IH _ _ _ Hrest Hin') as (a & Ha & E). exists a. split; [by right|done].
Qed.

(** What a receipt was made of: a successful, complete inventory, in which
    exactly the created application is a candidate. *)
Lemma receipt_inv input response created receipt :
  access_create_collection_receipt input response created = Ok receipt ->
  cr_success response = true /\ terminal_inventory response = true /\
  obind (obind (ci_body input) (vget "name")) as_str = Some (or_name receipt) /\
  obind (obind (ci_body input) (vget "domain")) as_str = Some (or_hostname receipt) /\
  exists apps, cr_result response = VArray apps /\
    inventory_candidates (or_name receipt) (or_hostname receipt) created apps [] =
      Ok (match created with Some id => [id] | None => [] end).
Proof.
  unfold access_create_collection_receipt. rewrite res_bind_ok. intros (_ & _ & H). apply guard_ok in H as [Hg H].
  apply orb_false_iff in Hg as [[Hs%negb_false_iff _]%orb_false_iff Ht%negb_false_iff].
  apply res_bind_ok in H as (apps & Ha & H). apply res_bind_ok in H as (body & Hb & H).
  apply res_bind_ok in H as (name & Hn & H). apply res_bind_ok in H as (host & Hh & H). apply res_bind_ok in H as (candidates & Hc & H).
  apply guard_ok in H as [Hcs [= <-]]. rewrite neqb_false in Hcs. cbn [or_name or_hostname].
  destruct (ci_body input) as [b|]; [|done]. injection Hb as ->. unfold vindex in Hn, Hh. cbn [obind].
  destruct (vget "name" body) as [vn|], (vget "domain" body) as [vh|]; try done. change (default VNull (Some vn)) with vn in Hn.
  change (default VNull (Some vh)) with vh in Hh. cbn [obind]. destruct (as_str vn) as [n|]; [|done]. injection Hn as ->.
  destruct (as_str vh) as [h|]; [|done]. injection Hh as ->. do 4 (split; [done|]).
  destruct (cr_result response) as [| | | |l|]; try done. injection Ha as ->. exists apps. by rewrite <- Hcs.
Qed.

Lemma candidates_own name hostname created apps :
  inventory_candidates name hostname created apps [] = Ok (match created with Some id => [id] | None => [] end) ->
  forall app, app ∈ apps -> claims name hostname app ->
  exists id, created = Some id /\ obind (vget "id" app) as_str = Some id.
Proof.
  intros Hc app Hin Hcl. destruct (inventory_candidates_claim _ _ _ _ _ _ Hc app Hin) as (id & E & Hid & _). exists id. split; [|done].
  apply Hid in Hcl. destruct created as [i|]; [|by apply elem_of_nil in Hcl]. by apply list_elem_of_singleton in Hcl as ->.
Qed.

(** A receipt proves who owns the hostname. It is of a complete inventory;
    every application in it that has the planned name or shows a pattern, its
    own or a wildcard, that covers the planned hostname, is the created one;
    before creation there is none, and after it the created application is
    there, is self-hosted, has the name and covers the hostname. *)
Theorem ownership_receipt_is_exclusive input response created receipt :
  access_create_collection_receipt input response created = Ok receipt ->
  terminal_inventory response = true /\
  obind (obind (ci_body input) (vget "name")) as_str = Some (or_name receipt) /\
  obind (obind (ci_body input) (vget "domain")) as_str = Some (or_hostname receipt) /\
  exists apps, cr_result response = VArray apps /\
    (forall app, app ∈ apps -> claims (or_name receipt) (or_hostname receipt) app ->
       exists id, created = Some id /\ obind (vget "id" app) as_str = Some id) /\
    (forall id, created = Some id -> exists app, app ∈ apps /\ obind (vget "id" app) as_str = Some id /\
       obind (vget "type" app) as_str = Some "self_hosted" /\ obind (vget "name" app) as_str = Some (or_name receipt) /\
       covered_by (public_patterns app) (or_hostname receipt)).
Proof.
  intros (_ & Ht & Hn & Hh & apps & Ha & Hc)%receipt_inv. do 3 (split; [done|]). exists apps. split; [done|].
  split; [by apply candidates_own|]. intros id ->.
  destruct (inventory_candidates_from _ _ _ _ _ _ id Hc) as (app & Hin & E); [left|].
  exists app. destruct (inventory_candidates_claim _ _ _ _ _ _ Hc app Hin) as (i & E' & _ & Hd). rewrite E in E'. injection E' as <-.
  destruct (Hd eq_refl) as (? & ? & ?). done.
Qed.

Definition owned_body (hostname : string) : Value :=
  jobj [("domain", VString hostname); ("name", VString "ops"); ("type", VString "self_hosted"); ("policies", VArray []);
        ("options_preflight_bypass", VBool false);
        ("destinations", VArray [jobj [("type", VString "public"); ("uri", VString hostname)]])].
Definition owned_input : CallInput :=
  mkCallInput (jobj [("account_id", VString "account-a")]) VNull (Some (owned_body "ops.example.com")) None None.
Definition inventory (apps : list Value) : CloudflareResponseV1 :=
  mkCloudflareResponseV1 200 true (VArray apps) []
    (Some (jobj [("page", VNumber (PosInt 1)); ("total_pages", VNumber (PosInt 1)); ("cfctl_page_complete", VBool true)])) None None.
Definition app_of (id name domain : string) : Value :=
  jobj [("id", VString id); ("name", VString name); ("type", VString "self_hosted"); ("domain", VString domain)].

(** An inventory with a wildcard above the hostname is refused; one without
    proves that the hostname is free. *)
Lemma ownership_receipt_is_exclusive_witness :
  is_ok (access_create_collection_receipt owned_input (inventory [app_of "1" "wild" "*.example.com"]) None) = false /\
  ~ covered_by (public_patterns (app_of "1" "other" "ops.example.org/admin")) "ops.example.com".
Proof.
  split; [vm_compute; reflexivity|]. intros H.
  destruct (ownership_receipt_is_exclusive owned_input (inventory [app_of "1" "other" "ops.example.org/admin"]) None
    (mkOwnershipReceipt (VString "account-a") "ops" "ops.example.com" None 0 1
       (VArray [app_of "1" "other" "ops.example.org/admin"]))) as (_ & _ & _ & apps & E & Hclaim & _); [vm_compute; reflexivity|].
  injection E as <-. destruct (Hclaim (app_of "1" "other" "ops.example.org/admin")) as (id & E & _); [left|by right|discriminate E].
Defined.
