(* ===== verification/VerificationTargets.v ===== *)
(** What must be there before a mutation is sent so that it can be verified
    afterwards (cfctl-cloudflare/src/lib.rs,
    [validate_verification_preconditions] and the targets it checks): the
    contract of the readback, the planned body, the selectors and the query. *)

From Stdlib Require Import String Ascii ZArith Lia List Bool.
From Stdlib Require Import Floats.SpecFloat.
From stdpp Require Import base option list strings.
From S2P Require Import Prelude Strings Bytes Btree StringSet Json JsonOps JsonSchema Core CatalogTypes Capability.
From S2P Require Import RequestSchema Contracts Verification RulesetRules CloudflareErrors RequestBuilder.
From S2P Require Import Sorting Readback AccessCreate.

Open Scope cf_scope.
Open Scope string_scope.
Local Open Scope Z_scope.
Open Scope cf_scope.

Abbreviation missing := MissingVerificationTarget (only parsing).

(** [verified_response_fields.binary_search(field)], or a field the schema
    declares unobservable. *)
Definition planned_field_is_bound_to_readback (capability : CapabilityV1) (verified_response_fields : list string)
    (field : string) : bool :=
  binary_search field verified_response_fields || request_object_field_is_verification_omitted capability field.

Definition planned_object (input : CallInput) : option (btree Value) := obind (ci_body input) as_object.
(** [.filter(|body| !body.is_empty())] *)
Definition planned_nonempty (input : CallInput) : option (btree Value) :=
  ofilter (fun body => negb (is_nil body)) (planned_object input).

(** [fields.windows(2).any(|fields| fields[0] >= fields[1])] *)
Definition not_increasing (fields : list string) : bool := windows2_any (fun x y => negb (str_ltb x y)) fields.

Definition path_below (path identity_selector : string) : string :=
  trim_end_matches "/"%char path ++ "/{" ++ identity_selector ++ "}".

(** [selectors.get(name).and_then(Value::as_str).is_none_or(str::is_empty)] *)
Definition lacks_selector (input : CallInput) (name : string) : bool :=
  is_none_or (obind (vget name (ci_selectors input)) as_str) is_empty.

Definition fields_are_bound (capability : CapabilityV1) (fields : list string) (planned : btree Value) : bool :=
  forallb (planned_field_is_bound_to_readback capability fields) (bt_keys planned).

(** ** Deletes *)

Definition validate_same_path_delete_target (capability : CapabilityV1) (input : CallInput) : result CloudflareError unit :=
  let outside := missing "the exact delete contains inputs outside its hash-bound same-path readback contract" in
  let? target := ok_or (missing "the hash-bound same-path delete readback contract is absent") (cap_same_path_read capability) in
  guard ((spr_path target <>? cap_path capability) || is_empty (spr_read_capability_id target)
         || negb (is_nil (spr_verified_response_fields target))) outside (
  let? _ :=
    match cap_request_schema capability with
    | None => guard (is_someb (ci_body input)) outside (Ok tt)
    | Some _ =>
        guard (negb (required_empty_request_body_contract capability)
               || negb (is_some_and (planned_object input) is_nil))
          (missing "the exact delete does not match its hash-bound required empty body contract") (Ok tt)
    end in
  guard (negb (clean_verification_query input))
    (missing "the planned delete contains query controls outside the hash-bound same-path readback contract") (Ok tt)).

(** Two selectors, and these are texts. *)
Definition exact_selectors (names : list string) (input : CallInput) (absent broader : string) : result CloudflareError unit :=
  let? selectors := ok_or (missing absent) (as_object (ci_selectors input)) in
  guard (negb (length selectors =? length names)%nat || existsb (fun name => lacks_text name selectors) names)
    (missing broader) (Ok tt).

Definition validate_worker_script_delete_target (capability : CapabilityV1) (input : CallInput) : result CloudflareError unit :=
  let? target := ok_or (missing "the hash-bound Worker script settings readback contract is absent") (cap_same_path_read capability) in
  guard ((spr_path target <>? "/accounts/{account_id}/workers/scripts/{script_name}/settings")
         || (spr_read_capability_id target <>? "worker-script-get-settings")
         || negb (is_nil (spr_verified_response_fields target))
         || negb (clean_verification_query input) || is_someb (ci_body input))
    (missing "the Worker script delete does not match its hash-bound settings readback contract")
  (exact_selectors ["account_id"; "script_name"] input
     "the planned Worker script selectors are not an object"
     "the planned Worker script selectors are missing, empty, or broader than the exact account and script target").

Definition validate_deleted_resource_target (capability : CapabilityV1) (input : CallInput) : result CloudflareError unit :=
  let? target := ok_or (missing "the hash-bound deleted-resource contract is absent") (cap_deleted_resource capability) in
  guard (is_empty (dr_identity_selector target)
         || (cap_path capability <>? path_below (dr_collection_path target) (dr_identity_selector target))
         || negb (response_identity_pointer_supported (dr_identity_selector target) (dr_response_item_identity_pointer target))
         || is_empty (dr_read_capability_id target) || lacks_selector input (dr_identity_selector target))
    (missing "the hash-bound deleted-resource contract is malformed") (
  guard (is_someb (ci_body input))
    (missing "the planned delete body is outside the hash-bound collection readback contract") (
  guard (negb (clean_verification_query input))
    (missing "the planned delete contains query controls outside the hash-bound collection readback contract") (Ok tt))).

Definition validate_deleted_nested_resource_target (capability : CapabilityV1) (input : CallInput)
    : result CloudflareError unit :=
  let? target := ok_or (missing "the hash-bound deleted-nested-resource contract is absent")
                   (cap_deleted_nested_resource capability) in
  guard (is_empty (dnr_parent_path target) || is_empty (dnr_collection_path target) || is_empty (dnr_items_pointer target)
         || negb (starts_with (dnr_items_pointer target) "/")
         || (cap_path capability <>? path_below (dnr_collection_path target) (dnr_identity_selector target))
         || negb (response_identity_pointer_supported (dnr_identity_selector target) (dnr_response_item_identity_pointer target))
         || is_empty (dnr_read_capability_id target) || lacks_selector input (dnr_identity_selector target)
         || is_someb (ci_body input) || negb (clean_verification_query input))
    (missing "the hash-bound deleted-nested-resource target is malformed") (Ok tt).

Definition validate_web_analytics_rule_delete_target (capability : CapabilityV1) (input : CallInput)
    : result CloudflareError unit :=
  guard ((cap_id capability <>? "web-analytics-delete-rule") || lacks_selector input "account_id"
         || lacks_selector input "ruleset_id" || lacks_selector input "rule_id"
         || is_someb (ci_body input) || negb (clean_verification_query input))
    (missing "the hash-bound Web Analytics rule deletion target is malformed") (Ok tt).

(** ** Updates *)

Definition update_operation (capability : CapabilityV1) : string :=
  if verif_strategy (cap_verification capability) =? "same_path_result_contains_planned_fields_after_mutation"
  then "mutation" else "update".

Definition validate_same_path_update_target (capability : CapabilityV1) (input : CallInput) : result CloudflareError unit :=
  let operation := update_operation capability in
  let? target := ok_or (missing ("the hash-bound same-path " ++ operation ++ " readback contract is absent"))
                   (cap_same_path_read capability) in
  guard ((spr_path target <>? cap_path capability) || is_empty (spr_read_capability_id target)
         || is_nil (spr_verified_response_fields target) || not_increasing (spr_verified_response_fields target))
    (missing ("the hash-bound same-path " ++ operation ++ " readback contract is malformed")) (
  guard (negb (clean_verification_query input))
    (missing ("the planned " ++ operation
              ++ " contains query controls outside the hash-bound same-path readback contract")) (
  let? planned := ok_or (missing ("planned " ++ operation ++ " body is absent, empty, or not an object")) (planned_object input) in
  guard (negb (fields_are_bound capability (spr_verified_response_fields target) planned))
    (missing ("the planned " ++ operation ++ " contains a field outside the hash-bound same-path readback fields")) (Ok tt))).

Definition validate_updated_resource_target (capability : CapabilityV1) (input : CallInput) : result CloudflareError unit :=
  let? target := ok_or (missing "the hash-bound updated-resource contract is absent") (cap_updated_resource capability) in
  guard (is_empty (ur_identity_selector target)
         || (cap_path capability <>? path_below (ur_collection_path target) (ur_identity_selector target))
         || negb (response_identity_pointer_supported (ur_identity_selector target) (ur_response_item_identity_pointer target))
         || is_empty (ur_read_capability_id target) || lacks_selector input (ur_identity_selector target))
    (missing "the hash-bound updated-resource contract is malformed") (
  guard (negb (clean_verification_query input))
    (missing "the planned update contains query controls outside the hash-bound collection readback contract") (
  let? planned := ok_or (missing "planned update body is absent, empty, or not an object") (planned_object input) in
  guard (negb (fields_are_bound capability (ur_verified_response_fields target) planned))
    (missing "the planned update contains a field outside the hash-bound collection readback fields") (Ok tt))).

(** ** Creates *)

Definition malformed_fields (fields : list string) : bool :=
  is_nil fields || existsb (fun field => is_empty field || str_contains field "/") fields || not_increasing fields.

Definition validate_created_resource_target (capability : CapabilityV1) (input : CallInput) : result CloudflareError unit :=
  let? _ := if cap_id capability =? OWNED_CREATE_ID then validate_owned_access_create_input input else Ok tt in
  let? target := ok_or (missing "the hash-bound created-resource contract is absent") (cap_created_resource capability) in
  guard (is_empty (cr_identity_selector target)
         || negb (ends_with (cr_detail_path target) ("/{" ++ cr_identity_selector target ++ "}"))
         || negb (response_identity_pointer_supported (cr_identity_selector target) (cr_response_result_identity_pointer target))
         || is_empty (cr_read_capability_id target) || is_empty (cr_delete_capability_id target)
         || malformed_fields (cr_verified_response_fields target))
    (missing "the hash-bound created-resource contract is malformed") (
  guard (negb (clean_verification_query input))
    (missing "the planned create contains query controls outside the hash-bound exact readback contract") (
  let? planned := ok_or (missing "planned create body is absent, empty, or not an object") (planned_object input) in
  guard (negb (fields_are_bound capability (cr_verified_response_fields target) planned))
    (missing "the planned create contains a field outside the hash-bound exact readback fields") (Ok tt))).

Definition validate_access_application_create_target (capability : CapabilityV1) (input : CallInput)
    : result CloudflareError unit :=
  let? target := ok_or (missing "the hash-bound Access application create contract is absent") (cap_created_resource capability) in
  guard ((cr_detail_path target <>? "/accounts/{account_id}/access/apps/{app_id}")
         || (cr_identity_selector target <>? "app_id") || (cr_response_result_identity_pointer target <>? "/id")
         || (cr_read_capability_id target <>? "access-applications-get-an-access-application")
         || (cr_verified_response_fields target <>? ["name"; "type"]) || negb (clean_verification_query input))
    (missing "the Access application create does not match its hash-bound curated readback contract") (
  let? planned := ok_or (missing "planned Access application create body is absent, empty, or not an object")
                    (planned_nonempty input) in
  let? _ := for_each (fun field =>
    guard (lacks_text field planned)
      (missing ("the planned Access application is missing its verifiable `" ++ field ++ "`")) (Ok tt))
    (cr_verified_response_fields target) in
  exact_selectors ["account_id"] input
    "the planned Access application selectors are not an object"
    "the planned Access application selectors are missing, empty, or broader than the exact account target").

Definition is_worker_tail_create_capability (capability : CapabilityV1) : bool :=
  (cap_id capability =? "worker-tail-logs-start-tail") && (cap_method capability =? "POST")
  && (cap_path capability =? "/accounts/{account_id}/workers/scripts/{script_name}/tails")
  && (cap_product capability =? "Worker Tail Logs") && (cap_account_scope capability =? "account")
  && is_noneb (cap_request_schema capability) && (cap_risk capability =? RiskClass_SecretSensitive)
  && (cap_permissions capability =? ["Workers Tail Read"; "Workers Scripts Write"])
  && (verif_strategy (cap_verification capability) =? "worker_tail_collection_contains_created_lease_id").

Definition validate_created_collection_resource_target (capability : CapabilityV1) (input : CallInput)
    : result CloudflareError unit :=
  let? target := ok_or (missing "the hash-bound created-collection-resource contract is absent")
                   (cap_created_collection_resource capability) in
  if is_worker_tail_create_capability capability then
    guard ((ccr_collection_path target <>? cap_path capability) || (ccr_identity_selector target <>? "id")
           || (ccr_response_result_identity_pointer target <>? "/id")
           || (ccr_response_item_identity_pointer target <>? "/id")
           || (ccr_read_capability_id target <>? "worker-tail-logs-list-tails")
           || (ccr_delete_capability_id target <>? "worker-tail-logs-delete-tail")
           || negb (is_nil (ccr_verified_response_fields target)) || ccr_requires_page_number_completion target
           || is_someb (ci_body input) || negb (clean_verification_query input))
      (missing "the hash-bound Worker tail lease verification target is malformed") (Ok tt)
  else
    guard ((ccr_collection_path target <>? cap_path capability) || is_empty (ccr_identity_selector target)
           || (ccr_response_result_identity_pointer target <>? ccr_response_item_identity_pointer target)
           || negb (response_identity_pointer_supported (ccr_identity_selector target)
                      (ccr_response_result_identity_pointer target))
           || is_empty (ccr_read_capability_id target) || is_empty (ccr_delete_capability_id target)
           || malformed_fields (ccr_verified_response_fields target))
      (missing "the hash-bound created-collection-resource contract is malformed") (
    guard (negb (clean_verification_query input))
      (missing "the planned create contains query controls outside the hash-bound collection readback contract") (
    let? planned := ok_or (missing "planned create body is absent, empty, or not an object") (planned_object input) in
    guard (negb (fields_are_bound capability (ccr_verified_response_fields target) planned))
      (missing "the planned create contains a field outside the hash-bound collection readback fields") (Ok tt))).

Definition validate_created_nested_resource_target (capability : CapabilityV1) (input : CallInput)
    : result CloudflareError unit :=
  let? target := ok_or (missing "the hash-bound created-nested-resource contract is absent")
                   (cap_created_nested_resource capability) in
  guard (is_empty (cnr_parent_path target) || is_empty (cnr_items_pointer target)
         || negb (starts_with (cnr_items_pointer target) "/") || is_empty (cnr_identity_selector target)
         || negb (response_identity_pointer_supported (cnr_identity_selector target) (cnr_response_item_identity_pointer target))
         || is_empty (cnr_correlation_field target) || is_empty (cnr_read_capability_id target)
         || is_empty (cnr_delete_capability_id target)
         || (cnr_delete_path target <>? path_below (cap_path capability) (cnr_identity_selector target))
         || is_nil (cnr_verified_response_fields target)
         || negb (binary_search (cnr_correlation_field target) (cnr_verified_response_fields target)))
    (missing "the hash-bound created-nested-resource contract is malformed") (
  guard (negb (clean_verification_query input))
    (missing "the planned nested-resource create contains query controls outside the hash-bound parent readback contract") (
  let? planned := ok_or (missing "planned nested-resource create body is absent, empty, or not an object")
                    (planned_nonempty input) in
  guard (lacks_text (cnr_correlation_field target) planned
         || negb (fields_are_bound capability (cnr_verified_response_fields target) planned))
    (missing "the planned nested-resource create is missing its correlation value or contains a field outside the hash-bound readback fields")
    (Ok tt))).

(** ** Operations with a target of their own *)

Definition validate_oauth_client_secret_target (capability : CapabilityV1) (input : CallInput) : result CloudflareError unit :=
  let? target := ok_or (missing "the hash-bound OAuth client detail readback contract is absent") (cap_same_path_read capability) in
  guard ((spr_path target <>? "/accounts/{account_id}/oauth_clients/{oauth_client_id}")
         || (spr_read_capability_id target <>? "oauth-clients-get")
         || (spr_verified_response_fields target <>? ["client_id"; "has_rotated_secret"])
         || is_someb (cap_request_schema capability) || is_someb (ci_body input) || negb (clean_verification_query input))
    (missing "the OAuth client secret operation does not match its hash-bound body-free detail readback contract")
  (exact_selectors ["account_id"; "oauth_client_id"] input
     "the planned OAuth client selectors are not an object"
     "the planned OAuth client selectors are missing, empty, or broader than the exact account and client target").

Definition validate_access_service_token_refresh_target (capability : CapabilityV1) (input : CallInput)
    : result CloudflareError unit :=
  let? target := ok_or (missing "the hash-bound Access service-token detail readback contract is absent")
                   (cap_same_path_read capability) in
  guard ((spr_path target <>? "/accounts/{account_id}/access/service_tokens/{service_token_id}")
         || (spr_read_capability_id target <>? "access-service-tokens-get-a-service-token")
         || (spr_verified_response_fields target <>? ["expires_at"; "id"])
         || is_someb (cap_request_schema capability) || is_someb (ci_body input) || negb (clean_verification_query input))
    (missing "the Access service-token refresh does not match its hash-bound body-free detail readback contract")
  (exact_selectors ["account_id"; "service_token_id"] input
     "the planned Access service-token selectors are not an object"
     "the planned Access service-token selectors are missing, empty, or broader than the exact account and token target").

Definition worker_mutation_read_target (capability : CapabilityV1) : result CloudflareError SamePathReadContractV1 :=
  ok_or (missing "the hash-bound Worker readback contract is absent") (cap_same_path_read capability).

Definition cron_expression (item : Value) : option string :=
  obind (obind (vget "cron" item) as_str) (fun cron =>
    if is_empty cron || (128 <? Z.of_nat (String.length cron)) || has_control cron then None else Some cron).
Definition cron_expressions (value : Value) : option (list string) := obind (as_array value) (all_of cron_expression).

Section Targets.
Context `{Runtime}.

Definition validate_worker_cron_update_target (capability : CapabilityV1) (input : CallInput) : result CloudflareError unit :=
  let? _ := worker_mutation_read_target capability in
  let? body := ok_or (missing "Worker cron plan body is absent") (ci_body input) in
  guard (negb (clean_verification_query input) || negb (verification_contract_supported capability)
         || is_noneb (cron_expressions body))
    (missing "Worker cron body must be an array of cron expressions, with no extra query") (Ok tt).

(** *** Percentage splits of versions *)

(** The nearest integer of a finite float, halves away from zero, as [f64::round]. *)
Definition round_Z (x : f64) : option Z :=
  match x with
  | S754_zero _ => Some 0
  | S754_finite s m e =>
      let magnitude := if 0 <=? e then Z.pos m * 2 ^ e else (2 * Z.pos m + 2 ^ (- e)) / 2 ^ (1 - e) in
      Some (if s then - magnitude else magnitude)
  | _ => None
  end.

Definition f64_of_Z (z : Z) : f64 := binary_normalize 53 1024 z 0 false.

(** [(percentage * 1000.0).round()], between 10 and 100000 thousandths. *)
Definition percentage_milli (percentage : f64) : option Z :=
  match percentage with
  | S754_zero _ | S754_finite _ _ _ =>
      obind (round_Z (SFmul 53 1024 percentage (f64_of_Z 1000))) (fun milli =>
        if (10 <=? milli) && (milli <=? 100000) then Some milli else None)
  | _ => None
  end.

(** [0.01_f64], the closest binary64 value *)
Definition f64_0_01 : f64 := S754_finite false 5764607523034235 (-59).

Definition deployment_version_pair (version : Value) : option (string * Z) :=
  obind (obind (vget "version_id" version) as_str) (fun id =>
    if is_noneb (uuid_hyphenated id) then None
    else obind (obind (vget "percentage" version) as_f64) (fun percentage =>
           if negb (SFleb f64_0_01 percentage && SFleb percentage (f64_of_Z 100)) then None
           else obind (percentage_milli percentage) (fun milli => Some (id, milli)))).

(** The loop over the versions: each with its own identity. *)
Fixpoint version_pairs (versions : list Value) (seen : str_set) : option (list (string * Z)) :=
  match versions with
  | [] => Some []
  | version :: versions =>
      obind (deployment_version_pair version) (fun pair =>
        if set_has (fst pair) seen then None
        else obind (version_pairs versions (set_add (fst pair) seen)) (fun pairs => Some (pair :: pairs)))
  end.
Definition sum_Z (l : list Z) : Z := fold_right Z.add 0 l.

Definition deployment_version_pairs (versions : option Value) : option (list (string * Z)) :=
  obind (obind versions as_array) (fun versions =>
    if is_nil versions then None
    else obind (version_pairs versions []) (fun pairs =>
      if sum_Z (map snd pairs) =? 100000 then Some (sort_by (pair_ltb str_ltb Z.ltb) pairs) else None)).

Definition worker_deployment_versions_match (planned latest : Value) : bool :=
  if obind (vget "strategy" planned) as_str <>? Some "percentage" then false
  else if is_some_and (obind (vget "strategy" latest) as_str) (fun strategy => strategy <>? "percentage") then false
  else match deployment_version_pairs (vget "versions" planned), deployment_version_pairs (vget "versions" latest) with
       | Some planned_versions, Some latest_versions => (planned_versions =? latest_versions)%cf
       | _, _ => false
       end.

Definition validate_worker_deployment_create_target (capability : CapabilityV1) (input : CallInput)
    : result CloudflareError unit :=
  let? _ := worker_mutation_read_target capability in
  let? body := ok_or (missing "Worker deployment plan body is absent") (ci_body input) in
  guard (negb (clean_verification_query input) || negb (verification_contract_supported capability)
         || negb (worker_deployment_versions_match body body))
    (missing "Worker deployment body must be a percentage split of unique versions summing to 100, with no force query")
    (Ok tt).

(** *** Members of a list *)

Definition governed_list_item_projection (item : Value) : option Value :=
  obind (as_object item) (fun object =>
  obind (nonempty_str (obind (bt_get "comment" object) as_str)) (fun comment =>
    let ip := match obind (bt_get "ip" object) as_str with
              | Some ip => [jobj [("comment", VString comment); ("ip", VString ip)]] | None => [] end in
    let asn := match obind (bt_get "asn" object) as_u64 with
               | Some asn => [jobj [("asn", VNumber (PosInt asn)); ("comment", VString comment)]] | None => [] end in
    let hostname := match obind (vpointer "/hostname/url_hostname" item) as_str with
                    | Some hostname => [jobj [("comment", VString comment);
                                              ("hostname", jobj [("url_hostname", VString hostname)])]] | None => [] end in
    match (ip ++ asn ++ hostname)%list with [target] => Some target | _ => None end)).

(** [.filter(|items| items.len() == 1)] *)
Definition single_item (items : option (list Value)) : option Value :=
  match items with Some [item] => Some item | _ => None end.

Definition governed_list_delete_ids (input : CallInput) : result CloudflareError (list string) :=
  let? item := ok_or (missing "the governed List removal must contain exactly one member identity")
                 (single_item (obind (obind (ci_body input) (vget "items")) as_array)) in
  let? identity := ok_or (missing "the governed List removal contains an invalid member identity")
                     (nonempty_str (obind (vget "id" item) as_str)) in
  Ok [identity].

Definition validate_async_list_mutation_target (capability : CapabilityV1) (input : CallInput) : result CloudflareError unit :=
  let? selectors := ok_or (missing "the governed List selectors are not an object") (as_object (ci_selectors input)) in
  guard (negb (length selectors =? 2)%nat || existsb (fun name => lacks_text name selectors) ["account_id"; "list_id"]
         || negb (clean_verification_query input) || is_noneb (cap_async_collection_mutation capability))
    (missing "the governed List operation is broader than its exact account, list, and body-only contract") (
  let strategy := verif_strategy (cap_verification capability) in
  if strategy =? "async_list_operation_completes_and_correlated_member_exists" then
    let? item := ok_or (missing "the governed List add must carry exactly one item")
                   (single_item (obind (ci_body input) as_array)) in
    guard (is_noneb (governed_list_item_projection item))
      (missing "the governed List add item lacks one exact IP, ASN, or hostname plus its correlation comment") (Ok tt)
  else if strategy =? "async_list_operation_completes_and_members_absent" then
    let? _ := governed_list_delete_ids input in Ok tt
  else Err (UnsupportedVerificationStrategy strategy)).

(** *** Secrets of a script

    [request_contract] is [validate_request_contract], of which
    [RequestBuilder] and [RequestValidation] model the selectors, the query and
    the body. *)
Context (request_contract : CapabilityV1 -> CallInput -> result CloudflareError unit).

Definition validate_worker_script_secret_put_target (capability : CapabilityV1) (input : CallInput)
    : result CloudflareError unit :=
  let? target := ok_or (missing "the hash-bound Worker script secret readback contract is absent") (cap_same_path_read capability) in
  guard ((spr_path target <>? "/accounts/{account_id}/workers/scripts/{script_name}/secrets/{secret_name}")
         || (spr_read_capability_id target <>? "worker-get-script-secret")
         || (spr_verified_response_fields target <>? ["name"; "type"]) || negb (clean_verification_query input))
    (missing "the Worker script secret operation does not match its hash-bound exact readback contract") (
  let? _ := exact_selectors ["account_id"; "script_name"] input
     "the planned Worker script selectors are not an object"
     "the planned Worker script selectors are missing, empty, or broader than the exact account and script target" in
  let? _ := request_contract capability input in
  let? body := ok_or (missing "the planned Worker script secret body is absent or not an object") (planned_object input) in
  guard (lacks_text "name" body
         || negb (is_some_and (obind (bt_get "type" body) as_str) (contains ["secret_text"; "secret_key"])))
    (missing "the planned Worker script secret name or type is absent or invalid") (Ok tt)).

(** ** The preconditions *)

Definition body_label (strategy : string) : option string :=
  if contains ["created_resource_contains_planned_fields_by_returned_id";
               "created_access_application_contains_planned_fields_by_returned_id";
               "parent_collection_contains_created_resource_id_and_planned_fields";
               "parent_object_contains_created_nested_resource_by_correlation";
               "web_analytics_rule_list_contains_created_id_and_planned_fields";
               "dns_record_details_match_created_id_and_planned_fields"] strategy then Some "create"
  else if contains ["same_resource_contains_planned_fields_after_update";
                    "same_path_result_contains_planned_fields_after_update";
                    "parent_collection_item_contains_planned_fields_after_update";
                    "dns_record_details_match_planned_id_and_fields"] strategy then Some "update"
  else if strategy =? "same_path_result_contains_planned_fields_after_mutation" then Some "mutation"
  else None.

(** The target a strategy reads back, from the last [match]. *)
Definition resource_targets : list (list string * (CapabilityV1 -> CallInput -> result CloudflareError unit)) :=
  [(["same_resource_returns_not_found_after_delete"], validate_same_path_delete_target);
   (["same_resource_contains_planned_fields_after_update"; "same_path_result_contains_planned_fields_after_update";
     "same_path_result_contains_planned_fields_after_mutation"], validate_same_path_update_target);
   (["created_resource_contains_planned_fields_by_returned_id";
     "web_analytics_rule_list_contains_created_id_and_planned_fields"], validate_created_resource_target);
   (["created_access_application_contains_planned_fields_by_returned_id"], validate_access_application_create_target);
   (["parent_collection_contains_created_resource_id_and_planned_fields";
     "worker_tail_collection_contains_created_lease_id"], validate_created_collection_resource_target);
   (["parent_object_contains_created_nested_resource_by_correlation"], validate_created_nested_resource_target);
   (["parent_collection_omits_deleted_resource_id"], validate_deleted_resource_target);
   (["parent_object_omits_deleted_nested_resource_id"], validate_deleted_nested_resource_target);
   (["web_analytics_rule_list_omits_deleted_id"], validate_web_analytics_rule_delete_target);
   (["parent_collection_item_contains_planned_fields_after_update"], validate_updated_resource_target)].

Definition validate_resource_target (strategy : string) (capability : CapabilityV1) (input : CallInput)
    : result CloudflareError unit :=
  match find (fun arm => contains (fst arm) strategy) resource_targets with
  | Some (_, validate) => validate capability input
  | None => Ok tt
  end.

Definition own_targets : list (string * (CapabilityV1 -> CallInput -> result CloudflareError unit)) :=
  [("oauth_client_reports_rotated_secret_after_value_roll", validate_oauth_client_secret_target);
   ("oauth_client_reports_no_rotated_secret_after_old_secret_delete", validate_oauth_client_secret_target);
   ("worker_script_secret_reports_planned_name_and_type_after_put", validate_worker_script_secret_put_target);
   ("worker_script_settings_returns_not_found_after_delete", validate_worker_script_delete_target);
   ("worker_deployment_latest_matches_planned_versions", validate_worker_deployment_create_target);
   ("worker_cron_schedules_match_planned_crons", validate_worker_cron_update_target);
   ("access_service_token_reports_refreshed_expiration", validate_access_service_token_refresh_target)].

Definition validate_verification_preconditions (capability : CapabilityV1) (input : CallInput) : result CloudflareError unit :=
  let strategy := verif_strategy (cap_verification capability) in
  guard (negb (verification_contract_supported capability)) (UnsupportedVerificationStrategy strategy) (
  match find (fun arm => fst arm =? strategy) own_targets with
  | Some (_, validate) => validate capability input
  | None =>
      if starts_with strategy "async_list_operation_" then validate_async_list_mutation_target capability input
      else
        let? _ :=
          match body_label strategy with
          | Some label =>
              guard (is_noneb (planned_nonempty input))
                (missing ("planned " ++ label ++ " body is absent, empty, or not an object")) (Ok tt)
          | None => Ok tt
          end in
        validate_resource_target strategy capability input
  end).
End Targets.
