(* ===== verification/TokenVerification.v ===== *)
(** Live readback of API tokens (cfctl-cloudflare/src/token_verification.rs):
    the planned policies of a token, what the details of the token show, and
    the readback without its secret. Of an evaluation the model keeps the
    verdict; the sentence that explains it is left out. *)

From Stdlib Require Import String Ascii ZArith Lia List Bool.
From stdpp Require Import base option list strings.
From S2P Require Import Prelude Strings Bytes Btree StringSet Json JsonOps Core.
From S2P Require Import CloudflareErrors RequestBuilder Pagination Sorting Readback VerificationTargets.

Open Scope cf_scope.
Open Scope string_scope.
Local Open Scope Z_scope.
Open Scope cf_scope.

Definition CREATE_STRATEGY : string := "api_token_details_match_created_id_and_active_status".
Definition ROLL_STRATEGY : string := "api_token_details_report_active_after_value_roll".
Definition REVOKE_STRATEGY : string := "api_token_details_returns_not_found_after_revoke".

(** The groups are the elements of a sorted set, the resources a sorted map. *)
Record TokenPolicy : Type := mkTokenPolicy {
  tp_effect : string;
  tp_group_ids : list string;
  tp_resources : btree string;
}.
#[export] Instance TokenPolicy_eq_dec : EqDecision TokenPolicy.
Proof. solve_decision. Defined.

(** The order [derive(Ord)] gives: member by member. *)
Definition token_policy_key (p : TokenPolicy) : string * (list string * list (string * string)) :=
  (tp_effect p, (tp_group_ids p, tp_resources p)).
Definition token_policy_ltb (p q : TokenPolicy) : bool :=
  pair_ltb str_ltb (pair_ltb (list_ltb str_ltb) (list_ltb (pair_ltb str_ltb str_ltb))) (token_policy_key p) (token_policy_key q).

Record PlannedTokenPolicySet : Type := mkPlannedTokenPolicySet { pts_policies : list TokenPolicy }.

Definition group_ids (s : PlannedTokenPolicySet) : list string :=
  sorted_dedup str_ltb (flat_map tp_group_ids (pts_policies s)).
Definition resources (s : PlannedTokenPolicySet) : list (string * string) :=
  sorted_dedup (pair_ltb str_ltb str_ltb) (flat_map tp_resources (pts_policies s)).

Inductive TokenVerificationExpectation : Type :=
| Active
| Created (planned : PlannedTokenPolicySet)
| Revoked.

(** [.and_then(Value::as_str).map(str::trim).filter(|value| !value.is_empty())] *)
Definition trimmed_text (value : option Value) : option string := nonempty_str (option_map trim (obind value as_str)).

(** ** The policies of a token *)

Definition group_id_of (source : string) (group : Value) : result CloudflareError string :=
  ok_or (missing (source ++ " contain a permission group without an ID")) (trimmed_text (vget "id" group)).

Definition resource_of (source : string) (grant : string * Value) : result CloudflareError (string * string) :=
  let? access := ok_or (missing (source ++ " contain a non-string resource grant")) (trimmed_text (Some (snd grant))) in
  Ok (fst grant, access).

Definition token_policy (source : string) (policy : Value) : result CloudflareError TokenPolicy :=
  let? effect := ok_or (missing (source ++ " contain a policy without an effect")) (trimmed_text (vget "effect" policy)) in
  let? groups := ok_or (missing (source ++ " contain a policy without permission groups"))
                   (ofilter (fun groups => negb (is_nil groups)) (obind (vget "permission_groups" policy) as_array)) in
  let? group_ids := collect (group_id_of source) groups in
  let? grants := ok_or (missing (source ++ " contain a policy without an account resource"))
                   (ofilter (fun resources => negb (is_nil resources)) (obind (vget "resources" policy) as_object)) in
  let? resources := collect (resource_of source) grants in
  Ok (mkTokenPolicy effect (sorted_dedup str_ltb group_ids) (bt_collect resources)).

Definition token_policy_set_from_value (policies : Value) (source : string) : result CloudflareError PlannedTokenPolicySet :=
  let? policies := ok_or (missing (source ++ " are absent"))
                     (ofilter (fun items => negb (is_nil items)) (as_array policies)) in
  let? parsed := collect (token_policy source) policies in
  Ok (mkPlannedTokenPolicySet (sort_by token_policy_ltb parsed)).

(** ** What to expect *)

Definition planned_token_id (input : CallInput) : result CloudflareError string :=
  ok_or (missing "planned token_id selector is absent") (trimmed_text (vget "token_id" (ci_selectors input))).

Definition planned_token_policy_set (input : CallInput) : result CloudflareError PlannedTokenPolicySet :=
  let? policies := ok_or (missing "planned token policies are absent") (obind (ci_body input) (vget "policies")) in
  token_policy_set_from_value policies "planned token policies".

Definition token_verification_target (strategy : string) (input : CallInput) (apply_response : CloudflareResponseV1)
    : result CloudflareError (string * TokenVerificationExpectation) :=
  if (strategy =? CREATE_STRATEGY)%cf then
    let? token_id := ok_or (missing "created token id is absent") (trimmed_text (vget "id" (cr_result apply_response))) in
    let? planned := planned_token_policy_set input in
    Ok (token_id, Created planned)
  else if (strategy =? ROLL_STRATEGY)%cf then
    let? token_id := planned_token_id input in Ok (token_id, Active)
  else if (strategy =? REVOKE_STRATEGY)%cf then
    let? token_id := planned_token_id input in Ok (token_id, Revoked)
  else Err (UnsupportedVerificationStrategy strategy).

(** ** What is read back *)

Definition redact_token_secret_fields (response : CloudflareResponseV1) : CloudflareResponseV1 :=
  match cr_result response with
  | VObject members => set_result (VObject (bt_remove "token" (bt_remove "value" members))) response
  | _ => response
  end.

Definition evaluate_active_id_and_status (token_id : string) (readback : CloudflareResponseV1) : bool :=
  cr_success readback
  && (obind (vget "id" (cr_result readback)) as_str =? Some token_id)%cf
  && (obind (vget "status" (cr_result readback)) as_str =? Some "active")%cf.

Definition evaluate_created_token_readback (token_id : string) (planned : PlannedTokenPolicySet)
    (readback : CloudflareResponseV1) : bool :=
  if negb (evaluate_active_id_and_status token_id readback) then false
  else
    match token_policy_set_from_value (default VNull (vget "policies" (cr_result readback))) "live token details" with
    | Err _ => false
    | Ok observed =>
        if (group_ids observed <>? group_ids planned)%cf then false
        else if (resources observed <>? resources planned)%cf then false
        else (pts_policies observed =? pts_policies planned)%cf
    end.

Definition evaluate_token_readback (expectation : TokenVerificationExpectation) (token_id : string)
    (readback : CloudflareResponseV1) : bool :=
  match expectation with
  | Active => evaluate_active_id_and_status token_id readback
  | Created planned => evaluate_created_token_readback token_id planned readback
  | Revoked => (cr_status readback =? 404) && negb (cr_success readback)
  end.

(** ** Policies as such *)

#[export] Instance token_policy_ltb_strict : StrictTotal token_policy_ltb.
Proof. apply (key_strict _ token_policy_key). intros [e g r] [e' g' r'] [= -> -> ->]. done. Qed.

(** The policies a value lists, one by one and in its order. *)
Definition policies_of (value : Value) : option (list TokenPolicy) :=
  obind (ofilter (fun items => negb (is_nil items)) (as_array value)) (fun items =>
    ok_opt (collect (token_policy "") items)).

Lemma collect_ok_ext {A B E F} (f : A -> result E B) (g : A -> result F B) l ys :
  (forall x y, f x = Ok y <-> g x = Ok y) -> collect f l = Ok ys <-> collect g l = Ok ys.
Proof. intros H. rewrite !collect_ok. split; intros Hl; (eapply Forall2_impl; [exact Hl|]); intros; by apply H. Qed.

Lemma ok_or_ext {A E F} (e : E) (e' : F) (o : option A) a : ok_or e o = Ok a <-> ok_or e' o = Ok a.
Proof. destruct o; cbn; split; congruence. Qed.

(** Whose policies they are changes only the messages. *)
Lemma token_policy_source source source' policy p :
  token_policy source policy = Ok p <-> token_policy source' policy = Ok p.
Proof.
  assert (Hg : forall group id, group_id_of source group = Ok id <-> group_id_of source' group = Ok id).
  { intros. apply ok_or_ext. }
  assert (Hr : forall grant r, resource_of source grant = Ok r <-> resource_of source' grant = Ok r).
  { intros. unfold resource_of. rewrite !res_bind_ok. setoid_rewrite (ok_or_ext _ (missing (source' ++ " contain a non-string resource grant"))). done. }
  unfold token_policy. rewrite !res_bind_ok. setoid_rewrite res_bind_ok. setoid_rewrite res_bind_ok. setoid_rewrite res_bind_ok.
  setoid_rewrite res_bind_ok.
  setoid_rewrite (ok_or_ext _ (missing (source' ++ " contain a policy without an effect"))).
  setoid_rewrite (ok_or_ext _ (missing (source' ++ " contain a policy without permission groups"))).
  setoid_rewrite (ok_or_ext _ (missing (source' ++ " contain a policy without an account resource"))).
  setoid_rewrite (collect_ok_ext _ _ _ _ Hg). setoid_rewrite (collect_ok_ext _ _ _ _ Hr). done.
Qed.

Lemma token_policy_set_ok policies source planned :
  token_policy_set_from_value policies source = Ok planned <->
  exists parsed, policies_of policies = Some parsed /\ pts_policies planned = sort_by token_policy_ltb parsed.
Proof.
  unfold token_policy_set_from_value, policies_of. rewrite res_bind_ok. destruct (ofilter _ (as_array policies)) as [items|].
  2: { split; [by intros (? & ? & _)|by intros (? & ? & _)]. }
  cbn [ok_or obind]. setoid_rewrite res_bind_ok.
  assert (E : forall parsed, collect (token_policy source) items = Ok parsed <-> ok_opt (collect (token_policy "") items) = Some parsed).
  { intros parsed. rewrite (collect_ok_ext _ (token_policy "")) by (intros; apply token_policy_source).
    destruct (collect (token_policy "") items); cbn; split; congruence. }
  setoid_rewrite <- E. destruct planned as [policies']. cbn [pts_policies]. split.
  - intros (? & [= <-] & parsed & Hp & [= <-]). by exists parsed.
  - intros (parsed & Hp & ->). exists items. split; [done|]. by exists parsed.
Qed.

(** A created token is the planned one. Its readback passes exactly when
    it succeeded, shows the created identity as active, and lists the planned
    policies: the same effects, groups and grants, policy by policy in any
    order. The comparisons of all groups and of all resources before it refuse
    nothing more. *)
Theorem created_token_is_as_planned input planned token_id readback :
  planned_token_policy_set input = Ok planned ->
  evaluate_token_readback (Created planned) token_id readback = true <->
  cr_success readback = true /\
  obind (vget "id" (cr_result readback)) as_str = Some token_id /\
  obind (vget "status" (cr_result readback)) as_str = Some "active" /\
  exists value ps os, obind (ci_body input) (vget "policies") = Some value /\ policies_of value = Some ps /\
    obind (vget "policies" (cr_result readback)) policies_of = Some os /\ Permutation os ps.
Proof.
  unfold planned_token_policy_set. rewrite res_bind_ok. intros (value & Hv & (ps & Hps & Hplanned)%token_policy_set_ok).
  cbn [evaluate_token_readback]. unfold evaluate_created_token_readback, evaluate_active_id_and_status.
  destruct (obind (ci_body input) (vget "policies")) as [value'|]; [|done]. injection Hv as ->.
  destruct (cr_success readback); [|by split; [|intros [? _]]]. cbn [andb].
  destruct (obind (vget "id" _) as_str =? Some token_id)%cf eqn:Ei; cbn [andb negb].
  2: { rewrite eqb_false in Ei. by split; [|intros (_ & ? & _)]. }
  destruct (obind (vget "status" _) as_str =? Some "active")%cf eqn:Es; cbn [negb].
  2: { rewrite eqb_false in Es. by split; [|intros (_ & _ & ? & _)]. }
  rewrite eqb_true in Ei, Es. rewrite Ei, Es.
  assert (Hlive : forall observed,
    token_policy_set_from_value (default VNull (vget "policies" (cr_result readback))) "live token details" = Ok observed <->
    exists os, obind (vget "policies" (cr_result readback)) policies_of = Some os /\ pts_policies observed = sort_by token_policy_ltb os).
  { intros. rewrite token_policy_set_ok. by destruct (vget "policies" (cr_result readback)). }
  destruct (token_policy_set_from_value _ _) as [observed|e].
  - destruct (proj1 (Hlive observed) eq_refl) as (os & Hos & Ho).
    transitivity (pts_policies observed = pts_policies planned).
    + split.
      * destruct (group_ids observed <>? _)%cf; [done|]. destruct (resources observed <>? _)%cf; [done|]. by rewrite eqb_true.
      * intros E. unfold group_ids, resources. rewrite E. by rewrite !eqb_refl.
    + rewrite Ho, Hplanned, sort_by_same by apply _. split.
      * intros Hp. do 3 (split; [done|]). by exists value, ps, os.
      * intros (_ & _ & _ & value' & ps' & os' & [= <-] & Hps' & Hos' & Hp). congruence.
  - split; [done|]. intros (_ & _ & _ & value' & ps' & os & _ & _ & Hos & _).
    assert (H : Err e = Ok (mkPlannedTokenPolicySet (sort_by token_policy_ltb os))) by (apply Hlive; by exists os). done.
Qed.

Definition policy_value (groups : list string) (resource : string) : Value :=
  jobj [("effect", VString "allow"); ("permission_groups", VArray (map (fun id => jobj [("id", VString id)]) groups));
        ("resources", jobj [(resource, VString "*")])].
Definition token_input : CallInput :=
  mkCallInput (jobj [("account_id", VString "a1")]) VNull
    (Some (jobj [("policies", VArray [policy_value ["read"; "write"] "account.a1"; policy_value ["read"] "account.a2"])])) None None.
Definition token_details (policies : list Value) : CloudflareResponseV1 :=
  mkCloudflareResponseV1 200 true (jobj [("id", VString "t1"); ("status", VString "active"); ("policies", VArray policies)]) []
    None None None.
Definition token_planned : PlannedTokenPolicySet :=
  mkPlannedTokenPolicySet [mkTokenPolicy "allow" ["read"] [("account.a2", "*")];
                           mkTokenPolicy "allow" ["read"; "write"] [("account.a1", "*")]].

(** The order of policies and groups does not matter; a token whose groups and
    resources are the planned ones, but associated the other way, fails. *)
Lemma created_token_is_as_planned_witness :
  evaluate_token_readback (Created token_planned) "t1"
    (token_details [policy_value ["read"] "account.a2"; policy_value ["write"; "read"] "account.a1"]) = true /\
  evaluate_token_readback (Created token_planned) "t1"
    (token_details [policy_value ["read"] "account.a1"; policy_value ["write"; "read"] "account.a2"]) = false.
Proof.
  split; [|vm_compute; reflexivity].
  apply (created_token_is_as_planned token_input token_planned "t1"); [vm_compute; reflexivity|].
  split; [reflexivity|]. split; [reflexivity|]. split; [reflexivity|].
  exists (VArray [policy_value ["read"; "write"] "account.a1"; policy_value ["read"] "account.a2"]),
    [mkTokenPolicy "allow" ["read"; "write"] [("account.a1", "*")]; mkTokenPolicy "allow" ["read"] [("account.a2", "*")]],
    [mkTokenPolicy "allow" ["read"] [("account.a2", "*")]; mkTokenPolicy "allow" ["read"; "write"] [("account.a1", "*")]].
  split; [reflexivity|]. split; [vm_compute; reflexivity|]. split; [vm_compute; reflexivity|]. apply perm_swap.
Defined.
