(* ===== verification/VerificationReads.v ===== *)
(** Reading a resource back to verify its mutation (cfctl-cloudflare/src/
    lib.rs, [verify_resource_delete], [verify_resource_update],
    [verify_resource_create], [verify_dns_record] and the two verified by the
    response alone; access_create.rs): the verifiers, as exchanges with the
    provider. Of a verification the model leaves out the sentence that explains
    it to the operator ([basis]). *)

From Stdlib Require Import String Ascii ZArith Lia List Bool.
From stdpp Require Import base option list strings.
From S2P Require Import Prelude Strings Btree Json JsonOps JsonEq Core CatalogTypes Capability CapabilityOps.
From S2P Require Import Contracts DecimalMultiple CloudflareErrors RequestFormats RequestBuilder Pagination.
From S2P Require Import Sorting Readback AccessCreate VerificationTargets.

Open Scope cf_scope.
Open Scope string_scope.
Local Open Scope Z_scope.
Open Scope cf_scope.

(** ** Capabilities with other resources *)

Record Resources : Type := mkResources {
  res_created_resource : option CreatedResourceContractV1;
  res_created_collection_resource : option CreatedCollectionResourceContractV1;
  res_created_nested_resource : option CreatedNestedResourceContractV1;
  res_deleted_resource : option DeletedResourceContractV1;
  res_deleted_nested_resource : option DeletedNestedResourceContractV1;
  res_updated_resource : option UpdatedResourceContractV1;
  res_async_collection_mutation : option AsyncCollectionMutationContractV1;
}.
Definition no_resources : Resources := mkResources None None None None None None None.

Definition with_resources (product : string) (selectors : list SelectorV1) (contract : option ResponseContractV1)
    (k : Resources) (c : CapabilityV1) : CapabilityV1 := {|
  cap_schema_version := cap_schema_version c;
  cap_id := cap_id c;
  cap_title := cap_title c;
  cap_description := cap_description c;
  cap_authority_scope := cap_authority_scope c;
  cap_product := product;
  cap_source := cap_source c;
  cap_method := cap_method c;
  cap_path := cap_path c;
  cap_account_scope := cap_account_scope c;
  cap_selectors := selectors;
  cap_aliases := cap_aliases c;
  cap_permissions := cap_permissions c;
  cap_mutating := cap_mutating c;
  cap_execution_supported := cap_execution_supported c;
  cap_risk := cap_risk c;
  cap_effect := cap_effect c;
  cap_maturity := cap_maturity c;
  cap_entitlement := cap_entitlement c;
  cap_cost := cap_cost c;
  cap_verification := cap_verification c;
  cap_rollback := cap_rollback c;
  cap_created_resource := res_created_resource k;
  cap_created_collection_resource := res_created_collection_resource k;
  cap_created_nested_resource := res_created_nested_resource k;
  cap_deleted_resource := res_deleted_resource k;
  cap_deleted_nested_resource := res_deleted_nested_resource k;
  cap_updated_resource := res_updated_resource k;
  cap_same_path_read := cap_same_path_read c;
  cap_async_collection_mutation := res_async_collection_mutation k;
  cap_adapter_status := cap_adapter_status c;
  cap_blocked_reason := cap_blocked_reason c;
  cap_request_schema := cap_request_schema c;
  cap_response_contract := contract;
  cap_analytics_query := cap_analytics_query c;
  cap_d1_schema_introspection := cap_d1_schema_introspection c;
  cap_mln_0142_post_import_schema := cap_mln_0142_post_import_schema c;
  cap_mln_0143_data_invariants := cap_mln_0143_data_invariants c;
  cap_d1_full_export := cap_d1_full_export c;
  cap_d1_restore_exact_bookmark := cap_d1_restore_exact_bookmark c;
  cap_workspace_d1_migration := cap_workspace_d1_migration c;
  cap_workspace_d1_policy_projection := cap_workspace_d1_policy_projection c;
  cap_workspace_d1_reply_admission := cap_workspace_d1_reply_admission c;
  cap_workspace_reply_subdomain_ingress := cap_workspace_reply_subdomain_ingress c;
  cap_workspace_d1_evidence := cap_workspace_d1_evidence c;
  cap_workspace_d1_read_inventory := cap_workspace_d1_read_inventory c;
  cap_r2_private_file_upload := cap_r2_private_file_upload c;
  cap_r2_private_object_digest := cap_r2_private_object_digest c;
  cap_email_sending_dns_repair := cap_email_sending_dns_repair c;
  cap_email_routing_subdomain_dns := cap_email_routing_subdomain_dns c;
  cap_d1_approved_mln_import := cap_d1_approved_mln_import c;
  cap_d1_approved_mln_import_poll_resume := cap_d1_approved_mln_import_poll_resume c;
  cap_r2_log_retrieval := cap_r2_log_retrieval c;
  cap_graphql := cap_graphql c;
  cap_workflow := cap_workflow c;
  cap_security_action := cap_security_action c;
  cap_event_batch := cap_event_batch c
|}.

(** A read made up for a verification has no resources of its own. *)
Definition read_capability (id title path product : string) (selectors : list SelectorV1) : CapabilityV1 :=
  with_resources product selectors None no_resources (capability_new id title "GET" path).

Definition same_path_routing_header (capability : CapabilityV1) (selector : SelectorV1) : bool :=
  (sel_location selector =? "header") && (sel_name selector =? "cf-r2-jurisdiction") && negb (sel_required selector)
  && (sel_value_type selector =? "string") && contains ["R2 Bucket"; "R2 Object"] (cap_product capability).

Definition same_path_verification_capability (mutation : CapabilityV1) (read_capability_id title path : string)
    : CapabilityV1 :=
  read_capability read_capability_id title path (cap_product mutation)
    (List.filter (same_path_routing_header mutation) (cap_selectors mutation)).

(** [CapabilityV1::new(id, title, "GET", path)] *)
Definition readback_capability (id title path : string) : CapabilityV1 := capability_new id title "GET" path.

Record OperationVerificationV1 : Type := mkOperationVerificationV1 {
  ov_strategy : string;
  ov_passed : bool;
  ov_readback : CloudflareResponseV1;
  ov_correlated_resource_id : option Value;
}.

(** ** What a readback shows *)

Definition collection_pagination_complete (required : bool) (readback : CloudflareResponseV1) : bool :=
  negb required
  || is_some_and (cr_result_info readback) (fun result_info =>
       let page := obind (vget "page" result_info) as_u64 in
       let total_pages := obind (vget "total_pages" result_info) as_u64 in
       is_some_and page (fun page => (0 <? page) && (Some page =? total_pages)%cf)).

(** [item.pointer(pointer).and_then(Value::as_str)] *)
Definition identity_at (pointer : string) (item : Value) : option string := obind (vpointer pointer item) as_str.

Definition identities_are_valid (pointer : string) (items : option (list Value)) : bool :=
  is_some_and items (forallb (fun item => is_someb (nonempty_str (identity_at pointer item)))).

(** [items.into_iter().flatten().filter(identity == Some(id))] *)
Definition matching_items (pointer identity : string) (items : option (list Value)) : list Value :=
  List.filter (fun item => identity_at pointer item =? Some identity) (default [] items).

Definition not_found (apply_response readback : CloudflareResponseV1) : bool :=
  cr_success apply_response && (cr_status readback =? 404) && negb (cr_success readback).

Definition resource_identity_value (value : Value) : option Value :=
  match value with
  | VString identity => if is_empty identity then None else Some value
  | VNumber (PosInt _ | NegInt _) => Some value
  | _ => None
  end.

(** The one matching item has every planned field. *)
Definition fields_match (capability : CapabilityV1) (planned : btree Value) (items : list Value) : bool :=
  is_some_and (head items) (fun item => is_nil (mismatched_verifiable_planned_fields capability planned item)).

(** ** Verifiers *)

Section Verifiers.
Context {fd : FloatDisplay} {rt : RequestTexts} {urls : Urls} {provider : Provider urls}.
Context (base_url : Url) (request_contract : CapabilityV1 -> CallInput -> result CloudflareError unit).

(** [self.builder.build] of a read without contracts of its own; the URL
    stands for the request. *)
Definition build_read (capability : CapabilityV1) (selectors : Value) : result CloudflareError Url :=
  let input := mkCallInput selectors (VObject []) None None None in
  guard (cap_mutating capability) (ApprovedPlanRequired (cap_id capability)) (
  let? _ := request_contract capability input in
  let? url := request_url base_url capability input in
  let? _ := request_headers capability input in
  let? _ := read_runtime_options capability input in
  Ok url).

Definition read_one (capability : CapabilityV1) (selectors : Value) : Exchange CloudflareResponseV1 :=
  let* url := st_lift (build_read capability selectors) in send url.
Definition read_all (capability : CapabilityV1) (selectors : Value) : Exchange CloudflareResponseV1 :=
  let* url := st_lift (build_read capability selectors) in send_paginated (cap_method capability) url.

Definition verified (capability : CapabilityV1) (passed : bool) (readback : CloudflareResponseV1)
    : Exchange OperationVerificationV1 :=
  st_ret (mkOperationVerificationV1 (verif_strategy (cap_verification capability)) passed readback None).

Definition required {A} (message : string) (o : option A) : Exchange A := st_lift (ok_or (missing message) o).

Definition selector_text_of (input : CallInput) (name : string) : option string :=
  nonempty_str (obind (vget name (ci_selectors input)) as_str).
Definition selectors_without (input : CallInput) (name message : string) : Exchange Value :=
  let* selectors := required message (as_object (ci_selectors input)) in
  st_ret (VObject (bt_remove name selectors)).

Section Plan.
Context (capability : CapabilityV1) (apply_response : CloudflareResponseV1) (input : CallInput).
(** The capability is the one of the plan. *)

(** *** Deletes *)

Definition verify_worker_script_delete : Exchange OperationVerificationV1 :=
  let* target := required "the hash-bound Worker script settings readback contract is absent" (cap_same_path_read capability) in
  let details := same_path_verification_capability capability (spr_read_capability_id target)
                   "Worker script deletion settings readback" (spr_path target) in
  let* readback := read_one details (ci_selectors input) in
  verified capability (not_found apply_response readback) readback.

Definition verify_exact_resource_delete : Exchange OperationVerificationV1 :=
  let* target := required "the hash-bound same-path delete readback contract is absent" (cap_same_path_read capability) in
  let details := same_path_verification_capability capability (spr_read_capability_id target)
                   "Exact resource deletion verification readback" (spr_path target) in
  let* readback := read_one details (ci_selectors input) in
  verified capability (not_found apply_response readback) readback.

Definition verify_parent_collection_delete : Exchange OperationVerificationV1 :=
  let* target := required "the hash-bound deleted-resource contract is absent" (cap_deleted_resource capability) in
  let* deleted_identity := required "the planned delete selector has no non-empty resource identity"
                             (selector_text_of input (dr_identity_selector target)) in
  let* selectors := selectors_without input (dr_identity_selector target) "planned delete selectors are not an object" in
  let collection := readback_capability (dr_read_capability_id target)
                      "Deleted resource collection verification readback" (dr_collection_path target) in
  let* readback := read_all collection selectors in
  let pagination_complete := collection_pagination_complete (dr_requires_page_number_completion target) readback in
  let items := as_array (cr_result readback) in
  let pointer := dr_response_item_identity_pointer target in
  let deleted_identity_absent :=
    is_someb items && is_nil (matching_items pointer deleted_identity items) in
  verified capability
    (cr_success apply_response && cr_success readback && pagination_complete
     && identities_are_valid pointer items && deleted_identity_absent) readback.

Definition verify_parent_object_nested_delete : Exchange OperationVerificationV1 :=
  let* target := required "the hash-bound deleted-nested-resource contract is absent" (cap_deleted_nested_resource capability) in
  let* resource_id := required "planned nested-resource delete identity is absent or empty"
                        (selector_text_of input (dnr_identity_selector target)) in
  let* selectors := selectors_without input (dnr_identity_selector target)
                      "planned nested-resource delete selectors are not an object" in
  let parent := readback_capability (dnr_read_capability_id target)
                  "Deleted nested resource parent verification readback" (dnr_parent_path target) in
  let* readback := read_one parent selectors in
  let items := obind (vpointer (dnr_items_pointer target) (cr_result readback)) as_array in
  verified capability
    (cr_success apply_response && cr_success readback && is_someb items
     && is_nil (matching_items (dnr_response_item_identity_pointer target) resource_id items)) readback.

Definition WEB_ANALYTICS_RULES : string := "/accounts/{account_id}/rum/v2/{ruleset_id}/rules".

Definition verify_web_analytics_rule_delete : Exchange OperationVerificationV1 :=
  let* resource_id := required "planned Web Analytics rule deletion identity is absent or empty"
                        (selector_text_of input "rule_id") in
  let* selectors := selectors_without input "rule_id" "planned Web Analytics rule deletion selectors are not an object" in
  let rules_list := readback_capability "web-analytics-list-rules" "Web Analytics rule list deletion readback" WEB_ANALYTICS_RULES in
  let* readback := read_one rules_list selectors in
  let rules := obind (vpointer "/rules" (cr_result readback)) as_array in
  verified capability
    (cr_success apply_response && cr_success readback && is_someb rules
     && is_nil (matching_items "/id" resource_id rules)) readback.

(** *** Updates *)

Definition verify_exact_resource_update : Exchange OperationVerificationV1 :=
  let operation := update_operation capability in
  let* target := required ("the hash-bound same-path " ++ operation ++ " readback contract is absent")
                   (cap_same_path_read capability) in
  let* planned := required ("planned " ++ operation ++ " body is absent, empty, or not an object") (planned_nonempty input) in
  let details := same_path_verification_capability capability (spr_read_capability_id target)
                   ("Exact resource " ++ operation ++ " verification readback") (spr_path target) in
  let* readback := read_one details (ci_selectors input) in
  verified capability
    (cr_success apply_response && cr_success readback
     && exact_resource_readback_identity_matches capability input (cr_result readback)
     && is_nil (mismatched_verifiable_planned_fields capability planned (cr_result readback))) readback.

Definition verify_parent_collection_update : Exchange OperationVerificationV1 :=
  let* target := required "the hash-bound updated-resource contract is absent" (cap_updated_resource capability) in
  let* updated_identity := required "the planned update selector has no non-empty resource identity"
                             (selector_text_of input (ur_identity_selector target)) in
  let* planned := required "planned update body is absent, empty, or not an object" (planned_nonempty input) in
  let* selectors := selectors_without input (ur_identity_selector target) "planned update selectors are not an object" in
  let collection := readback_capability (ur_read_capability_id target)
                      "Updated resource collection verification readback" (ur_collection_path target) in
  let* readback := read_all collection selectors in
  let pagination_complete := collection_pagination_complete (ur_requires_page_number_completion target) readback in
  let items := as_array (cr_result readback) in
  let pointer := ur_response_item_identity_pointer target in
  let matching := matching_items pointer updated_identity items in
  verified capability
    (cr_success apply_response && cr_success readback && pagination_complete && identities_are_valid pointer items
     && (length matching =? 1)%nat && fields_match capability planned matching) readback.

(** *** Creates *)

Definition exact_created_fields (body actual : Value) : bool :=
  is_some_and (as_object body) (forallb (fun e =>
    if (fst e =? "allowed_idps")%cf
    then access_application_set_field_matches (fst e) (vget (fst e) actual) (snd e)
    else option_eqb Value_eqb (vget (fst e) actual) (Some (snd e)))).

Definition ACCESS_COLLECTION : string := "/accounts/{account_id}/access/apps".
Definition ACCESS_LIST_ID : string := "access-applications-list-access-applications".

(** All pages of the applications, from the first. *)
Definition read_access_application_inventory (list : CapabilityV1) (read_input : CallInput)
    : Exchange CloudflareResponseV1 :=
  do* st_guard ((cap_id list <>? ACCESS_LIST_ID)%cf || (cap_method list <>? "GET")%cf || (cap_path list <>? ACCESS_COLLECTION)%cf
                || negb (clean_verification_query read_input) || is_someb (ci_body read_input))
        (owned_invalid "application inventory read contract drifted") in
  let* url := st_lift (build_read list (ci_selectors read_input)) in
  let* first := send url in
  if negb (cr_success first) then st_ret first
  else
    let* pagination := st_lift (
      let? pagination := page_pagination (cr_result_info first) in
      ok_or (owned_invalid "page-one application inventory metadata missing") pagination) in
    do* st_guard (negb (current_page pagination =? 1)) (owned_invalid "application inventory did not start at page one") in
    complete_page_pagination url first pagination.

(** The readback is that of the detail; its result, which the source replaces
    by a summary, is kept as it was read. *)
Definition verify_owned_access_create : Exchange OperationVerificationV1 :=
  do* st_lift (validate_owned_access_create_input input) in
  let* id := st_lift (ok_or (owned_invalid "creation response omitted exact app ID; inspect consumed operation, never replay")
                        (nonempty_str (obind (vget "id" (cr_result apply_response)) as_str))) in
  let details := readback_capability "access-applications-get-an-access-application" "Owned Access app verification"
                   (ACCESS_COLLECTION ++ "/{app_id}") in
  let* detail := read_one details (jobj [("account_id", vindex (ci_selectors input) "account_id"); ("app_id", VString id)]) in
  let list := readback_capability ACCESS_LIST_ID "Owned Access app uniqueness" ACCESS_COLLECTION in
  let* inventory := read_access_application_inventory list (mkCallInput (ci_selectors input) (VObject []) None None None) in
  let ownership := access_create_collection_receipt input inventory (Some id) in
  verified capability
    (cr_success apply_response && ((200 <=? cr_status apply_response) && (cr_status apply_response <? 300))
     && cr_success detail && ((200 <=? cr_status detail) && (cr_status detail <? 300))
     && (obind (vget "id" (cr_result detail)) as_str =? Some id)%cf
     && is_some_and (ci_body input) (fun body => exact_created_fields body (cr_result detail))
     && is_ok ownership) detail.

(** The read of a resource by its detail path keeps the selectors of the
    mutation. *)
Definition detail_read (id title path : string) : CapabilityV1 :=
  with_resources (cap_product (readback_capability id title path)) (cap_selectors capability) None no_resources (readback_capability id title path).

Definition verify_created_resource : Exchange OperationVerificationV1 :=
  if (cap_id capability =? OWNED_CREATE_ID)%cf then verify_owned_access_create
  else
    let* target := required "the hash-bound created-resource contract is absent" (cap_created_resource capability) in
    let* planned := required "planned create body is absent, empty, or not an object" (planned_nonempty input) in
    let pointer := cr_response_result_identity_pointer target in
    let* resource_id := required "the successful creation response has no non-empty string or integer schema-proven identity"
                          (obind (vpointer pointer (cr_result apply_response)) resource_identity_value) in
    let* selectors := required "planned create selectors are not an object" (as_object (ci_selectors input)) in
    let details := detail_read (cr_read_capability_id target) "Created resource verification readback" (cr_detail_path target) in
    let* readback := read_one details (VObject (bt_insert (cr_identity_selector target) resource_id selectors)) in
    let readback_identity := obind (vpointer pointer (cr_result readback)) resource_identity_value in
    let mismatches := extend_r2_bucket_create_mismatches capability input (cr_result readback)
                        (mismatched_verifiable_planned_fields capability planned (cr_result readback)) in
    verified capability
      (cr_success apply_response && cr_success readback
       && option_eqb Value_eqb readback_identity (Some resource_id) && is_nil mismatches) readback.

Definition verify_created_collection_resource : Exchange OperationVerificationV1 :=
  let* target := required "the hash-bound created-collection-resource contract is absent"
                   (cap_created_collection_resource capability) in
  let worker_tail := is_worker_tail_create_capability capability in
  let* planned := (if worker_tail then st_ret None
                   else let* planned := required "planned create body is absent, empty, or not an object" (planned_nonempty input) in
                        st_ret (Some planned)) in
  let* resource_id := required "the successful creation response has no non-empty schema-proven identity"
                        (nonempty_str (identity_at (ccr_response_result_identity_pointer target) (cr_result apply_response))) in
  let collection := readback_capability (ccr_read_capability_id target)
                      "Created resource collection verification readback" (ccr_collection_path target) in
  let* readback := read_all collection (ci_selectors input) in
  let pagination_complete := collection_pagination_complete (ccr_requires_page_number_completion target) readback in
  let items := as_array (cr_result readback) in
  let pointer := ccr_response_item_identity_pointer target in
  let matching := matching_items pointer resource_id items in
  verified capability
    (cr_success apply_response && cr_success readback && pagination_complete && identities_are_valid pointer items
     && (length matching =? 1)%nat
     && (worker_tail || is_some_and planned (fun planned => fields_match capability planned matching))) readback.

Definition correlated_items (target : CreatedNestedResourceContractV1) (correlation : string) (result : Value) : list Value :=
  List.filter (fun item => (obind (vget (cnr_correlation_field target) item) as_str =? Some correlation)%cf)
    (default [] (obind (vpointer (cnr_items_pointer target) result) as_array)).

Definition verify_created_nested_resource : Exchange OperationVerificationV1 :=
  let* target := required "the hash-bound created-nested-resource contract is absent" (cap_created_nested_resource capability) in
  let* planned := required "planned nested-resource create body is absent, empty, or not an object" (planned_nonempty input) in
  let* correlation := required "planned nested-resource correlation value is absent or empty"
                        (nonempty_str (obind (bt_get (cnr_correlation_field target) planned) as_str)) in
  let apply_matches := correlated_items target correlation (cr_result apply_response) in
  let pointer := cnr_response_item_identity_pointer target in
  let resource_id :=
    match apply_matches with
    | [item] => nonempty_str (identity_at pointer item)
    | _ => None
    end in
  let parent := readback_capability (cnr_read_capability_id target)
                  "Created nested resource parent verification readback" (cnr_parent_path target) in
  let* readback := read_one parent (ci_selectors input) in
  let readback_matches := List.filter (fun item => (identity_at pointer item =? resource_id)%cf)
                            (correlated_items target correlation (cr_result readback)) in
  verified capability
    (cr_success apply_response && cr_success readback && is_someb resource_id
     && (length apply_matches =? 1)%nat && fields_match capability planned apply_matches
     && (length readback_matches =? 1)%nat && fields_match capability planned readback_matches) readback.

Definition verify_web_analytics_rule_create : Exchange OperationVerificationV1 :=
  let* target := required "the hash-bound Web Analytics rule creation contract is absent" (cap_created_resource capability) in
  let* planned := required "planned Web Analytics rule body is absent, empty, or not an object" (planned_nonempty input) in
  let* resource_id := required "the successful Web Analytics rule response has no schema-proven identity"
    (nonempty_str (identity_at (cr_response_result_identity_pointer target) (cr_result apply_response))) in
  let rules_list := readback_capability (cr_read_capability_id target) "Web Analytics rule list verification readback" WEB_ANALYTICS_RULES in
  let* readback := read_one rules_list (ci_selectors input) in
  let rules := obind (vpointer "/rules" (cr_result readback)) as_array in
  let matching := matching_items "/id" resource_id rules in
  verified capability
    (cr_success apply_response && cr_success readback && identities_are_valid "/id" rules
     && (length matching =? 1)%nat && fields_match capability planned matching) readback.

(** The polling of a deployment: [remaining] reads after this one. *)
Fixpoint poll_deployment (remaining : nat) (url : Url) (deployment_id project_name : string)
    : Exchange OperationVerificationV1 :=
  let* readback := send url in
  let result := cr_result readback in
  let stage := obind (vpointer "/latest_stage/status" result) as_str in
  let invariant_matches :=
    (cr_status apply_response =? 200) && cr_success apply_response && (cr_status readback =? 200) && cr_success readback
    && (obind (vget "id" result) as_str =? Some deployment_id)%cf
    && (obind (vget "project_name" result) as_str =? Some project_name)%cf
    && (obind (vget "environment" result) as_str =? Some "production")%cf in
  if invariant_matches && (stage =? Some "success")%cf then verified capability true readback
  else
    let remains_active := invariant_matches && is_some_and stage (contains ["active"; "idle"]) in
    match remaining with
    | S remaining =>
        if remains_active then poll_deployment remaining url deployment_id project_name
        else verified capability false readback
    | O => verified capability false readback
    end.

Definition verify_pages_production_deployment : Exchange OperationVerificationV1 :=
  let* target := required "the hash-bound Pages deployment readback contract is absent" (cap_created_resource capability) in
  let* deployment_id := required "the successful Pages deployment response omitted its deployment ID"
    (nonempty_str (identity_at (cr_response_result_identity_pointer target) (cr_result apply_response))) in
  let* project_name := required "the Pages deployment plan omitted its project_name selector"
                         (selector_text_of input "project_name") in
  let* selectors := required "planned Pages deployment selectors are not an object" (as_object (ci_selectors input)) in
  let details := detail_read (cr_read_capability_id target) "Pages production deployment verification readback" (cr_detail_path target) in
  let* url := st_lift (build_read details (VObject (bt_insert (cr_identity_selector target) (VString deployment_id) selectors))) in
  poll_deployment 119 url deployment_id project_name.

(** *** DNS records *)

Definition planned_selector (name : string) : result CloudflareError string :=
  ok_or (missing ("planned " ++ name ++ " selector is absent")) (selector_text_of input name).

Inductive DnsRecordVerificationExpectation : Type :=
| MatchesPlannedFields
| Deleted.

Definition dns_record_verification_target (strategy : string)
    : result CloudflareError (string * string * DnsRecordVerificationExpectation) :=
  let? zone_id := planned_selector "zone_id" in
  if (strategy =? "dns_record_details_match_created_id_and_planned_fields")%cf then
    let? record_id := ok_or (missing "created DNS record id is absent")
                        (nonempty_str (obind (vget "id" (cr_result apply_response)) as_str)) in
    Ok (zone_id, record_id, MatchesPlannedFields)
  else if (strategy =? "dns_record_details_match_planned_id_and_fields")%cf then
    let? record_id := planned_selector "dns_record_id" in Ok (zone_id, record_id, MatchesPlannedFields)
  else if (strategy =? "dns_record_details_returns_not_found_after_delete")%cf then
    let? record_id := planned_selector "dns_record_id" in Ok (zone_id, record_id, Deleted)
  else Err (UnsupportedVerificationStrategy strategy).

Definition evaluate_dns_record_readback (expectation : DnsRecordVerificationExpectation) (record_id : string)
    (readback : CloudflareResponseV1) : result CloudflareError bool :=
  match expectation with
  | Deleted => Ok ((cr_status readback =? 404) && negb (cr_success readback))
  | MatchesPlannedFields =>
      let? planned := ok_or (missing "planned DNS record request body is absent or not an object") (planned_object input) in
      let id response := obind (vget "id" (cr_result response)) as_str in
      Ok (cr_success apply_response && cr_success readback
          && (id apply_response =? Some record_id)%cf && (id readback =? Some record_id)%cf
          && is_nil (mismatched_planned_fields planned (cr_result apply_response))
          && is_nil (mismatched_planned_fields planned (cr_result readback)))
  end.

Definition verify_dns_record : Exchange OperationVerificationV1 :=
  let* target := st_lift (dns_record_verification_target (verif_strategy (cap_verification capability))) in
  let '(zone_id, record_id, expectation) := target in
  let details := readback_capability "dns-record-verification-readback" "DNS record verification readback" DNS_RECORD_DETAIL_PATH in
  let* readback := read_one details (jobj [("zone_id", VString zone_id); ("dns_record_id", VString record_id)]) in
  let* passed := st_lift (evaluate_dns_record_readback expectation record_id readback) in
  verified capability passed readback.

(** *** Verified by the response alone *)

Definition verify_cache_purge : result CloudflareError OperationVerificationV1 :=
  let? zone_id := ok_or (missing "the planned cache purge zone_id selector is absent")
                    (obind (obind (as_object (ci_selectors input)) (bt_get "zone_id")) as_str) in
  let returned_id := obind (vpointer "/id" (cr_result apply_response)) as_str in
  Ok (mkOperationVerificationV1 (verif_strategy (cap_verification capability))
        (returned_id =? Some zone_id)%cf apply_response None).

Definition verify_email_routing_settings : result CloudflareError OperationVerificationV1 :=
  let? expected_enabled :=
    if (cap_id capability =? "email-routing-settings-enable-email-routing")%cf then Ok true
    else if (cap_id capability =? "email-routing-settings-disable-email-routing")%cf then Ok false
    else Err (missing ("the Email Routing settings verifier is bound to an unexpected capability `"
                       ++ cap_id capability ++ "`")) in
  let reported := obind (vpointer "/enabled" (cr_result apply_response)) as_bool in
  Ok (mkOperationVerificationV1 (verif_strategy (cap_verification capability))
        (reported =? Some expected_enabled)%cf apply_response None).

(** *** By strategy *)

(** The first arm whose strategies contain the given one. *)
Definition by_strategy (arms : list (list string * Exchange OperationVerificationV1)) (strategy : string)
    : Exchange OperationVerificationV1 :=
  match find (fun arm => contains (fst arm) strategy) arms with
  | Some (_, verify) => verify
  | None => st_throw (UnsupportedVerificationStrategy strategy)
  end.

Definition delete_verifiers : list (list string * Exchange OperationVerificationV1) :=
  [(["same_resource_returns_not_found_after_delete"], verify_exact_resource_delete);
   (["worker_script_settings_returns_not_found_after_delete"], verify_worker_script_delete);
   (["parent_collection_omits_deleted_resource_id"], verify_parent_collection_delete);
   (["parent_object_omits_deleted_nested_resource_id"], verify_parent_object_nested_delete);
   (["web_analytics_rule_list_omits_deleted_id"], verify_web_analytics_rule_delete)].
Definition update_verifiers : list (list string * Exchange OperationVerificationV1) :=
  [(["same_resource_contains_planned_fields_after_update"; "same_path_result_contains_planned_fields_after_update";
     "same_path_result_contains_planned_fields_after_mutation"], verify_exact_resource_update);
   (["parent_collection_item_contains_planned_fields_after_update"], verify_parent_collection_update)].
Definition create_verifiers : list (list string * Exchange OperationVerificationV1) :=
  [(["created_resource_contains_planned_fields_by_returned_id";
     "created_access_application_contains_planned_fields_by_returned_id"], verify_created_resource);
   (["pages_production_deployment_succeeds_by_returned_id"], verify_pages_production_deployment);
   (["parent_collection_contains_created_resource_id_and_planned_fields";
     "worker_tail_collection_contains_created_lease_id"], verify_created_collection_resource);
   (["parent_object_contains_created_nested_resource_by_correlation"], verify_created_nested_resource);
   (["web_analytics_rule_list_contains_created_id_and_planned_fields"], verify_web_analytics_rule_create)].

Definition verify_resource_delete : Exchange OperationVerificationV1 :=
  by_strategy delete_verifiers (verif_strategy (cap_verification capability)).
Definition verify_resource_update : Exchange OperationVerificationV1 :=
  by_strategy update_verifiers (verif_strategy (cap_verification capability)).
Definition verify_resource_create : Exchange OperationVerificationV1 :=
  by_strategy create_verifiers (verif_strategy (cap_verification capability)).

Definition strategies_of (arms : list (list string * Exchange OperationVerificationV1)) : list string := flat_map fst arms.
Definition is_delete_verifier (strategy : string) : bool := contains (strategies_of delete_verifiers) strategy.
Definition is_update_verifier (strategy : string) : bool := contains (strategies_of update_verifiers) strategy.
Definition is_create_verifier (strategy : string) : bool := contains (strategies_of create_verifiers) strategy.
End Plan.
End Verifiers.
