(* ===== verification/VerificationOperations.v ===== *)
(** The verifiers of single operations (cfctl-cloudflare/src/lib.rs,
    [verify_worker_version_rollback] to [verify_access_service_token_refresh],
    token_verification.rs, custom_challenge_rule.rs, response_header_rule.rs):
    Worker deployments, rollbacks, schedules and secrets, OAuth clients, service
    and API tokens, ruleset repairs, and the members of a list, which the
    provider changes in the background; and [verify_plan_with_input], which
    chooses the verifier of a plan. As in [VerificationReads], [basis] is left
    out. *)

From Stdlib Require Import String Ascii ZArith Lia List Bool.
From Stdlib Require Import Floats.SpecFloat.
From stdpp Require Import base option list strings.
From S2P Require Import Prelude Strings Btree Json JsonOps JsonEq JsonSchema Core CatalogTypes Capability CapabilityOps.
From S2P Require Import Contracts Plan RulesetRules DecimalMultiple CloudflareErrors RequestFormats RequestBuilder Pagination.
From S2P Require Import Sorting Readback AccessCreate VerificationTargets VerificationReads TokenVerification.

Open Scope cf_scope.
Open Scope string_scope.
Local Open Scope Z_scope.
Open Scope cf_scope.

Definition clear_errors (r : CloudflareResponseV1) : CloudflareResponseV1 :=
  mkCloudflareResponseV1 (cr_status r) (cr_success r) (cr_result r) [] (cr_result_info r) (cr_etag r) (cr_cf_ray r).

(** [object.get(name).and_then(Value::as_str)] *)
Definition text_at (name : string) (value : Value) : option string := obind (vget name value) as_str.

Definition worker_cron_lists_match (planned readback : Value) : bool :=
  match cron_expressions planned, cron_expressions readback with
  | Some planned_crons, Some readback_crons => (sort_by str_ltb planned_crons =? sort_by str_ltb readback_crons)%cf
  | _, _ => false
  end.

Section Operations.
Context {fd : FloatDisplay} {rt : RequestTexts} {urls : Urls} {provider : Provider urls} {runtime : Runtime}.
Context (base_url : Url) (request_contract : CapabilityV1 -> CallInput -> result CloudflareError unit).
(** [CloudflareError::Plan], which wraps an error of the core. *)
Context (Plan : CoreError -> CloudflareError).
(** [DateTime::parse_from_rfc3339] and [Utc::now()]. *)
Context (parse_instant : string -> option DateTime) (now : DateTime).
Context (plan : PlanV1) (apply_response : CloudflareResponseV1) (input : CallInput).
#[local] Abbreviation capability := (plan_capability plan) (only parsing).
#[local] Abbreviation strategy := (verif_strategy (cap_verification (plan_capability plan))) (only parsing).

Definition with_correlated (passed : bool) (readback : CloudflareResponseV1) (id : option Value) : OperationVerificationV1 :=
  mkOperationVerificationV1 (verif_strategy (cap_verification (plan_capability plan))) passed readback id.

(** ** Workers *)

Definition read_worker_mutation_target (target : SamePathReadContractV1) (title : string) : Exchange CloudflareResponseV1 :=
  let details := same_path_verification_capability capability (spr_read_capability_id target) title (spr_path target) in
  read_one base_url request_contract details (ci_selectors input).

Definition redacted_worker_verification (passed : bool) (readback : CloudflareResponseV1) : OperationVerificationV1 :=
  let result := jobj [("schema_version", nat_value 1); ("passed", VBool passed); ("provider_output_retained", VBool false)] in
  with_correlated passed (clear_errors (set_result_info None (set_result result readback))) None.

Definition verify_worker_deployment_create : Exchange OperationVerificationV1 :=
  let* planned := required "Worker deployment plan body is absent" (ci_body input) in
  let* target := st_lift (worker_mutation_read_target capability) in
  let* readback := read_worker_mutation_target target "Worker deployment list readback" in
  let latest := obind (obind (vget "deployments" (cr_result readback)) as_array) (@head Value) in
  let latest_id := obind latest (text_at "id") in
  let apply_id := text_at "id" (cr_result apply_response) in
  let identity_matches := is_someb apply_id && (apply_id =? latest_id)%cf in
  let versions_match := is_some_and latest (worker_deployment_versions_match planned) in
  let passed := cr_success apply_response && cr_success readback && identity_matches && versions_match in
  st_ret (redacted_worker_verification passed readback).

Definition verify_worker_cron_update : Exchange OperationVerificationV1 :=
  let* planned := required "Worker cron plan body is absent" (ci_body input) in
  let* target := st_lift (worker_mutation_read_target capability) in
  let* readback := read_worker_mutation_target target "Worker cron schedule readback" in
  let matched := worker_cron_lists_match planned (cr_result readback) in
  let passed := cr_success apply_response && cr_success readback && matched in
  st_ret (redacted_worker_verification passed readback).

(** *** Rollbacks *)

Definition WORKER_VERSION_ROLLBACK_CAPABILITY_ID : string := "worker-version-rollback".
Definition WORKER_DEPLOYMENTS_PATH : string := "/accounts/{account_id}/workers/scripts/{script_name}/deployments".

Definition is_worker_version_rollback_capability (capability : CapabilityV1) : bool :=
  (cap_id capability =? WORKER_VERSION_ROLLBACK_CAPABILITY_ID)%cf && (cap_method capability =? "POST")%cf
  && (cap_path capability =? WORKER_DEPLOYMENTS_PATH)%cf && (cap_adapter_status capability =? AdapterStatus_Native)%cf.

Definition worker_version_rollback_annotation (message operation_id : string) : result CloudflareError string :=
  let? operation := ok_or (InvalidRequestBody "Worker rollback operation identity must be a UUID") (uuid_hyphenated operation_id) in
  guard ((operation <>? operation_id)%cf || is_empty message || (900 <? char_count message))
    (InvalidRequestBody "Worker rollback operation identity or 1 to 900 character reason is invalid")
    (Ok ("cfctl-operation=" ++ operation_id ++ "; " ++ message)).

(** [deployment["annotations"]["workers/message"]] *)
Definition deployment_message (deployment : Value) : option string :=
  obind (obind (obind (vget "annotations" deployment) as_object) (bt_get "workers/message")) as_str.

(** The deployment serves the one version, whole. *)
Definition serves_only (target_version_id : string) (deployment : Value) : bool :=
  match obind (vget "versions" deployment) as_array with
  | Some [version] =>
      (text_at "version_id" version =? Some target_version_id)%cf
      && is_some_and (obind (vget "percentage" version) as_f64) (fun percentage => SFeqb percentage (f64_of_Z 100))
  | _ => false
  end.

Definition text_or_null (o : option string) : Value := match o with Some s => VString s | None => VNull end.

Definition project_worker_version_rollback_readback (target_version_id expected_annotation : string)
    (readback : CloudflareResponseV1) : result CloudflareError (bool * option string * CloudflareResponseV1) :=
  let? history := ok_or (missing "Worker deployment readback omitted result.deployments")
                    (obind (vget "deployments" (cr_result readback)) as_array) in
  let latest := head history in
  let latest_id := obind latest (text_at "id") in
  let exact_target := is_some_and latest (serves_only target_version_id) in
  let latest_annotation := obind latest deployment_message in
  let operation_match_count :=
    count_of (List.filter (fun deployment => (deployment_message deployment =? Some expected_annotation)%cf) history) in
  let current_exact := cr_success readback && (latest_annotation =? Some expected_annotation)%cf
                       && (operation_match_count =? 1) && exact_target in
  let? marker_hash := map_err Plan (hash_value (VString expected_annotation)) in
  let? history_hash := map_err Plan (hash_value (cr_result readback)) in
  let result := jobj [("schema_version", nat_value 1); ("latest_deployment_id", text_or_null latest_id);
                      ("target_version_id", VString target_version_id);
                      ("traffic_percentage", if exact_target then nat_value 100 else VNull);
                      ("operation_marker_hash", VString marker_hash); ("deployment_history_hash", VString history_hash);
                      ("operation_match_count", nat_value operation_match_count); ("provider_output_retained", VBool false)] in
  Ok (current_exact, latest_id, clear_errors (set_result_info None (set_result result readback))).

Definition evaluate_worker_version_rollback_readback (target_version_id expected_message : string)
    (readback : CloudflareResponseV1) : result CloudflareError (bool * option Value * CloudflareResponseV1) :=
  let? projection := project_worker_version_rollback_readback target_version_id expected_message readback in
  let '(current_exact, latest_id, projected) := projection in
  let apply_id := text_at "id" (cr_result apply_response) in
  let identity_matches := is_someb apply_id && (apply_id =? latest_id)%cf in
  Ok (cr_success apply_response && identity_matches && current_exact, option_map VString latest_id, projected).

Definition verify_worker_version_rollback : Exchange OperationVerificationV1 :=
  do* st_guard (negb (is_worker_version_rollback_capability capability))
        (missing "Worker rollback verifier is attached to another capability") in
  let* target_version_id := required "Worker rollback target version is absent"
                              (obind (ci_body input) (text_at "target_version_id")) in
  let* reason := required "Worker rollback reason is absent" (obind (ci_body input) (text_at "message")) in
  let* expected_message := st_lift (worker_version_rollback_annotation reason (plan_operation_id plan)) in
  let read := readback_capability "worker-version-rollback-verification-readback" "Worker rollback latest deployment readback"
                WORKER_DEPLOYMENTS_PATH in
  let read := with_resources (cap_product read) (cap_selectors capability) (cap_response_contract capability) no_resources read in
  let* readback := read_one base_url request_contract read (ci_selectors input) in
  let* evaluated := st_lift (evaluate_worker_version_rollback_readback target_version_id expected_message readback) in
  let '(passed, correlated_resource_id, projected_readback) := evaluated in
  st_ret (with_correlated passed projected_readback correlated_resource_id).

(** *** Secrets of a script *)

Definition evaluate_worker_script_secret_put_readback (planned_name planned_type : string) (readback : CloudflareResponseV1)
    : bool :=
  ((cr_status apply_response =? 200) || (cr_status apply_response =? 201)) && cr_success apply_response
  && (text_at "name" (cr_result apply_response) =? Some planned_name)%cf
  && (text_at "type" (cr_result apply_response) =? Some planned_type)%cf
  && (cr_status readback =? 200) && cr_success readback
  && (text_at "name" (cr_result readback) =? Some planned_name)%cf
  && (text_at "type" (cr_result readback) =? Some planned_type)%cf.

Definition verify_worker_script_secret_put : Exchange OperationVerificationV1 :=
  let* target := required "the hash-bound Worker script secret readback contract is absent" (cap_same_path_read capability) in
  let* body := required "the planned Worker script secret body is absent or not an object" (planned_object input) in
  let* secret_name := required "the planned Worker script secret name is absent" (obind (bt_get "name" body) as_str) in
  let* secret_type := required "the planned Worker script secret type is absent" (obind (bt_get "type" body) as_str) in
  let* selectors := required "the planned Worker script selectors are not an object" (as_object (ci_selectors input)) in
  let details := same_path_verification_capability capability (spr_read_capability_id target)
                   "Worker script secret verification readback" (spr_path target) in
  let* readback := read_one base_url request_contract details (VObject (bt_insert "secret_name" (VString secret_name) selectors)) in
  st_ret (with_correlated (evaluate_worker_script_secret_put_readback secret_name secret_type readback) readback None).

(** ** Clients and tokens *)

Definition evaluate_oauth_client_secret_readback (strategy oauth_client_id : string) (readback : CloudflareResponseV1)
    : result CloudflareError bool :=
  let readback_identity_matches := (text_at "client_id" (cr_result readback) =? Some oauth_client_id)%cf in
  let rotated_state := obind (vget "has_rotated_secret" (cr_result readback)) as_bool in
  if (strategy =? "oauth_client_reports_rotated_secret_after_value_roll")%cf then
    Ok (cr_success apply_response && (cr_status apply_response =? 200)
        && is_someb (nonempty_str (text_at "client_secret" (cr_result apply_response)))
        && cr_success readback && (cr_status readback =? 200) && readback_identity_matches
        && (rotated_state =? Some true)%cf)
  else if (strategy =? "oauth_client_reports_no_rotated_secret_after_old_secret_delete")%cf then
    Ok (cr_success apply_response && (cr_status apply_response =? 200)
        && (text_at "id" (cr_result apply_response) =? Some oauth_client_id)%cf
        && cr_success readback && (cr_status readback =? 200) && readback_identity_matches
        && (rotated_state =? Some false)%cf)
  else Err (UnsupportedVerificationStrategy strategy).

Definition verify_oauth_client_secret_rotation : Exchange OperationVerificationV1 :=
  let* target := required "the hash-bound OAuth client detail readback contract is absent" (cap_same_path_read capability) in
  let* oauth_client_id := required "the planned OAuth client selector is absent or empty" (selector_text_of input "oauth_client_id") in
  let details := same_path_verification_capability capability (spr_read_capability_id target)
                   "OAuth client secret rotation verification readback" (spr_path target) in
  let* readback := read_one base_url request_contract details (ci_selectors input) in
  let* passed := st_lift (evaluate_oauth_client_secret_readback strategy oauth_client_id readback) in
  st_ret (with_correlated passed readback None).

(** Seconds since the epoch. *)
Definition timestamp (t : DateTime) : Z := ns t / 1000000000.

Definition evaluate_access_service_token_refresh_readback (service_token_id : string) (readback : CloudflareResponseV1) : bool :=
  let expiration response := obind (text_at "expires_at" (cr_result response)) parse_instant in
  let expiration_matches :=
    match expiration apply_response, expiration readback with
    | Some apply, Some readback => (apply =? readback)%cf
    | _, _ => false
    end in
  (cr_status apply_response =? 200) && cr_success apply_response
  && (text_at "id" (cr_result apply_response) =? Some service_token_id)%cf
  && is_some_and (expiration apply_response) (fun expiration => timestamp now <? timestamp expiration)
  && (cr_status readback =? 200) && cr_success readback
  && (text_at "id" (cr_result readback) =? Some service_token_id)%cf && expiration_matches.

Definition verify_access_service_token_refresh : Exchange OperationVerificationV1 :=
  let* target := required "the hash-bound Access service-token detail readback contract is absent" (cap_same_path_read capability) in
  let* service_token_id := required "the planned Access service-token selector is absent or empty"
                             (selector_text_of input "service_token_id") in
  let details := same_path_verification_capability capability (spr_read_capability_id target)
                   "Access service-token refresh verification readback" (spr_path target) in
  let* readback := read_one base_url request_contract details (ci_selectors input) in
  st_ret (with_correlated (evaluate_access_service_token_refresh_readback service_token_id readback) readback None).

Definition verify_api_token : Exchange OperationVerificationV1 :=
  let* target := st_lift (token_verification_target strategy input apply_response) in
  let '(token_id, expectation) := target in
  let account_scoped := starts_with (cap_path capability) "/accounts/" in
  let details := readback_capability "api-token-verification-readback" "API token verification readback"
                   (if account_scoped then "/accounts/{account_id}/tokens/{token_id}" else "/user/tokens/{token_id}") in
  let selectors := if account_scoped then jobj [("account_id", VString (plan_account_id plan)); ("token_id", VString token_id)]
                   else jobj [("token_id", VString token_id)] in
  let* readback := read_one base_url request_contract details selectors in
  let readback := redact_token_secret_fields readback in
  st_ret (with_correlated (evaluate_token_readback expectation token_id readback) readback None).

(** ** Ruleset repairs

    [max_bytes], the bound of the response that is read, is left out. *)

Definition challenge_error : CloudflareError := InvalidRequestBody challenge_rejected.
Definition header_error : CloudflareError := InvalidRequestBody header_rejected.

(** [read_custom_challenge_parent] and [read_response_header_parent] *)
Definition read_rule_parent (supported : CapabilityV1 -> bool) (valid_body : Value -> bool)
    (read_id title read_path : string) (target : Value -> Value -> result string Value) (rejected : CloudflareError)
    : Exchange CloudflareResponseV1 :=
  do* st_guard (negb (supported capability) || is_someb (ci_if_match input) || is_someb (ci_if_none_match input)
                || negb (Value_eqb (ci_query input) (VObject []))
                || negb (is_some_and (ci_body input) valid_body)) rejected in
  let read := readback_capability read_id title read_path in
  let read := with_resources (cap_product read)
                (List.filter (fun selector => (sel_name selector <>? "rule_id")%cf) (cap_selectors capability))
                (cap_response_contract capability) no_resources read in
  let* response := read_one base_url request_contract read
    (jobj [("zone_id", vindex (ci_selectors input) "zone_id"); ("ruleset_id", vindex (ci_selectors input) "ruleset_id")]) in
  do* st_guard (negb (cr_success response) || negb (cr_status response =? 200) || negb (is_nil (cr_errors response))) rejected in
  let* _ := st_lift (map_err (fun _ => rejected) (target (cr_result response) (ci_selectors input))) in
  st_ret response.

Definition read_custom_challenge_parent : Exchange CloudflareResponseV1 :=
  read_rule_parent challenge_rule_supported challenge_valid_body challenge_rule_READ_ID "Read custom challenge parent"
    challenge_rule_READ_PATH challenge_target challenge_error.

Definition read_response_header_parent : Exchange CloudflareResponseV1 :=
  read_rule_parent header_rule_supported header_valid_body header_rule_READ_ID "Read response-header parent"
    header_rule_READ_PATH header_target header_error.

Definition applied_cleanly : bool :=
  cr_success apply_response && (cr_status apply_response =? 200) && is_nil (cr_errors apply_response).

Definition verify_custom_challenge_rule : Exchange OperationVerificationV1 :=
  let* body := st_lift (ok_or challenge_error (ci_body input)) in
  let* before := st_lift (map_err (fun _ => challenge_error) (challenge_prior plan (ci_selectors input) body)) in
  let* readback := read_custom_challenge_parent in
  let passed := applied_cleanly
    && is_ok (challenge_verify_after before (cr_result apply_response) (ci_selectors input) body)
    && Value_eqb (cr_result apply_response) (cr_result readback)
    && is_ok (challenge_verify_after before (cr_result readback) (ci_selectors input) body) in
  st_ret (mkOperationVerificationV1 challenge_rule_VERIFY passed readback None).

Definition verify_response_header_rule : Exchange OperationVerificationV1 :=
  let* body := st_lift (ok_or header_error (ci_body input)) in
  let* before := st_lift (map_err (fun _ => header_error) (header_prior plan (ci_selectors input) body)) in
  let* readback := read_response_header_parent in
  let passed := applied_cleanly && is_ok (header_verify_after before (cr_result readback) (ci_selectors input) body) in
  st_ret (mkOperationVerificationV1 header_rule_VERIFY passed readback None).

(** ** Members of a list, changed in the background *)

Record AsyncListReceipt : Type := mkAsyncListReceipt {
  alr_status : Z;
  alr_operation_id : string;
  alr_operation_status : string;
  alr_cursor_complete : bool;
  alr_match_count : Z;
  alr_resource_id : option string;
  alr_resource_hash : option string;
  alr_failure : option Value;
}.

Definition async_list_receipt_response (receipt : AsyncListReceipt) : CloudflareResponseV1 :=
  let result := jobj [
    ("schema_version", nat_value 1);
    ("operation_id", VString (alr_operation_id receipt));
    ("operation_status", VString (alr_operation_status receipt));
    ("cursor_complete", VBool (alr_cursor_complete receipt));
    ("match_count", nat_value (alr_match_count receipt));
    ("resource_id", text_or_null (alr_resource_id receipt));
    ("resource_hash", text_or_null (alr_resource_hash receipt));
    ("failure_hash", text_or_null (obind (alr_failure receipt) (fun value => ok_opt (hash_value value))));
    ("redaction", VString "list member target and audit comment omitted; only hashes and Cloudflare identities are retained")] in
  mkCloudflareResponseV1 (alr_status receipt) true result [] None None None.

(** The polling of the operation: [None] when no attempt showed an end. *)
Fixpoint poll_operation (attempts : nat) (contract : AsyncCollectionMutationContractV1) (url : Url) (operation_id : string)
    : Exchange (option (string * CloudflareResponseV1)) :=
  match attempts with
  | O => st_ret None
  | S attempts =>
      let* response := send url in
      let returned_id := obind (vpointer (acm_status_operation_id_pointer contract) (cr_result response)) as_str in
      do* st_guard (negb (cr_success response) || (returned_id <>? Some operation_id)%cf)
            (missing "the bulk-operation status readback did not prove the exact operation identity") in
      let* status := required "the bulk-operation status readback omitted its bounded state"
                       (obind (vpointer (acm_status_state_pointer contract) (cr_result response)) as_str) in
      if (status =? acm_completed_state contract)%cf || (status =? acm_failed_state contract)%cf
      then st_ret (Some (status, response))
      else
        do* st_guard (negb (contains (acm_pending_states contract) status))
              (missing ("the bulk-operation status `" ++ status ++ "` is outside the hash-bound state machine")) in
        poll_operation attempts contract url operation_id
  end.

(** [info.get("cfctl_cursor_complete") == Some(true)], where it is required. *)
Definition cursor_is_complete (contract : AsyncCollectionMutationContractV1) (collection : CloudflareResponseV1) : bool :=
  negb (acm_requires_cursor_completion contract)
  || is_some_and (cr_result_info collection) (fun info => (obind (vget "cfctl_cursor_complete" info) as_bool =? Some true)%cf).

(** The added member, found by the comment it was sent with. *)
Definition evaluate_async_list_add (contract : AsyncCollectionMutationContractV1) (operation_id terminal_status : string)
    (collection : CloudflareResponseV1) (items : list Value) : result CloudflareError OperationVerificationV1 :=
  let cursor_complete := cursor_is_complete contract collection in
  let? planned := ok_or (missing "the governed List add must contain exactly one planned item")
                    (single_item (obind (ci_body input) as_array)) in
  let? correlation := ok_or (missing "the governed List add omitted its correlation comment") (nonempty_str (text_at "comment" planned)) in
  let matching := List.filter (fun item => (text_at "comment" item =? Some correlation)%cf) items in
  let projection := obind (head matching) governed_list_item_projection in
  let projection_matches := option_eqb Value_eqb projection (governed_list_item_projection planned) in
  let resource_id := obind (head matching) (fun item =>
                       nonempty_str (identity_at (acm_collection_item_identity_pointer contract) item)) in
  let passed := cr_success apply_response && cr_success collection && cursor_complete && (length matching =? 1)%nat
                && projection_matches && is_someb resource_id in
  let? projection_hash :=
    match projection with
    | Some projection => let? hash := map_err Plan (hash_value projection) in Ok (Some hash)
    | None => Ok None
    end in
  let readback := async_list_receipt_response (mkAsyncListReceipt (cr_status collection) operation_id terminal_status
                    cursor_complete (count_of matching) resource_id projection_hash None) in
  Ok (with_correlated passed readback (option_map VString resource_id)).

(** The members to remove, absent from every item. *)
Definition evaluate_async_list_removal (contract : AsyncCollectionMutationContractV1) (operation_id terminal_status : string)
    (collection : CloudflareResponseV1) (items : list Value) : result CloudflareError OperationVerificationV1 :=
  let cursor_complete := cursor_is_complete contract collection in
  let? deleted_ids := governed_list_delete_ids input in
  let live_ids := map (fun item => nonempty_str (identity_at (acm_collection_item_identity_pointer contract) item)) items in
  let identity_shape_valid := forallb is_someb live_ids in
  let all_absent := forallb (fun deleted => forallb (fun live => (live <>? Some deleted)%cf) live_ids) deleted_ids in
  let passed := cr_success apply_response && cr_success collection && cursor_complete && identity_shape_valid && all_absent in
  let? deleted_ids_hash := map_err Plan (hash_value (VArray (map VString deleted_ids))) in
  let readback := async_list_receipt_response (mkAsyncListReceipt (cr_status collection) operation_id terminal_status
                    cursor_complete (count_of deleted_ids) None (Some deleted_ids_hash) None) in
  Ok (with_correlated passed readback None).

Definition verify_async_list_mutation : Exchange OperationVerificationV1 :=
  let* contract := required "the hash-bound asynchronous collection contract is absent" (cap_async_collection_mutation capability) in
  let* operation_id := required "Cloudflare accepted the List mutation without a non-empty bulk operation identity"
    (nonempty_str (identity_at (acm_apply_operation_id_pointer contract) (cr_result apply_response))) in
  let* account_id := required "the asynchronous List verifier requires an exact account selector" (selector_text_of input "account_id") in
  let* list_id := required "the asynchronous List verifier requires an exact list selector" (selector_text_of input "list_id") in
  let status_capability := readback_capability (acm_operation_status_capability_id contract)
                             "Asynchronous List operation status verification readback" (acm_operation_status_path contract) in
  let* status_url := st_lift (build_read base_url request_contract status_capability
    (jobj [("account_id", VString account_id); (acm_operation_id_selector contract, VString operation_id)])) in
  let* terminal := poll_operation (Z.to_nat (acm_max_poll_attempts contract)) contract status_url operation_id in
  match terminal with
  | None =>
      st_ret (with_correlated false (async_list_receipt_response
        (mkAsyncListReceipt 200 operation_id "timeout" false 0 None None None)) None)
  | Some (terminal_status, status_readback) =>
      if (terminal_status =? acm_failed_state contract)%cf then
        st_ret (with_correlated false (async_list_receipt_response
          (mkAsyncListReceipt (cr_status status_readback) operation_id terminal_status false 0 None None
             (vget "error" (cr_result status_readback)))) None)
      else
        let collection_capability := readback_capability (acm_collection_capability_id contract)
                                       "Asynchronous List collection verification readback" (acm_collection_path contract) in
        let* collection_url := st_lift (build_read base_url request_contract collection_capability
          (jobj [("account_id", VString account_id); ("list_id", VString list_id)])) in
        let* collection := send_paginated (cap_method collection_capability)
                             (set_query_parameter collection_url "per_page" "500") in
        let* items := required "the List verification readback did not return an item array" (as_array (cr_result collection)) in
        if (strategy =? "async_list_operation_completes_and_correlated_member_exists")%cf
        then st_lift (evaluate_async_list_add contract operation_id terminal_status collection items)
        else st_lift (evaluate_async_list_removal contract operation_id terminal_status collection items)
  end.

(** ** The verifier of a plan *)

(** The strategies whose verifiers are not modelled. *)
Definition other_strategies : list string :=
  [pages_CREATE_STRATEGY; pages_VARIABLES_STRATEGY;
   "d1_current_bookmark_equals_restore_result_bookmark"; "osint_research_migration_schema_marker_is_present";
   "d1_import_provider_completion_matches_reviewed_source"; "d1_reviewed_schema_batch_reports_every_statement_success";
   "r2_private_file_upload_etag_and_conditional_read"; "email_sending_dns_status_reports_ready";
   "email_routing_subdomain_dns_records_match"].

(** [verify_plan_with_input]; [other] verifies the strategies above, which the
    source tests one by one at other places of the chain, where no test before
    them applies. *)
Definition verify_plan_with_input (other : Exchange OperationVerificationV1) : Exchange OperationVerificationV1 :=
  do* st_lift (validate_verification_preconditions request_contract capability input) in
  if contains other_strategies strategy then other
  else if starts_with strategy "api_token_details_" then verify_api_token
  else if starts_with strategy "dns_record_details_" then
    verify_dns_record base_url request_contract capability apply_response input
  else if starts_with strategy "oauth_client_" then verify_oauth_client_secret_rotation
  else if (strategy =? "worker_script_secret_reports_planned_name_and_type_after_put")%cf then verify_worker_script_secret_put
  else if (strategy =? "access_service_token_reports_refreshed_expiration")%cf then verify_access_service_token_refresh
  else if (strategy =? "cache_purge_response_reports_target_zone_id")%cf then
    st_lift (verify_cache_purge capability apply_response input)
  else if (strategy =? "email_routing_settings_response_reports_enabled_state")%cf then
    st_lift (verify_email_routing_settings capability apply_response)
  else if (strategy =? "worker_latest_deployment_is_exact_rollback_target")%cf then verify_worker_version_rollback
  else if (strategy =? "worker_deployment_latest_matches_planned_versions")%cf then verify_worker_deployment_create
  else if (strategy =? "worker_cron_schedules_match_planned_crons")%cf then verify_worker_cron_update
  else if starts_with strategy "async_list_operation_" then verify_async_list_mutation
  else if (strategy =? challenge_rule_VERIFY)%cf then verify_custom_challenge_rule
  else if (strategy =? header_rule_VERIFY)%cf then verify_response_header_rule
  else if is_delete_verifier base_url request_contract capability apply_response input strategy then
    verify_resource_delete base_url request_contract capability apply_response input
  else if is_update_verifier base_url request_contract capability apply_response input strategy then
    verify_resource_update base_url request_contract capability apply_response input
  else if is_create_verifier base_url request_contract capability apply_response input strategy then
    verify_resource_create base_url request_contract capability apply_response input
  else st_throw (UnsupportedVerificationStrategy strategy).
End Operations.
