(* ===== verification/VerificationProofs.v ===== *)
(** What the verification of a mutation rests on: an update the core supports
    and reads back at its own path is admitted exactly when what it changes can
    be read back; an admitted change is verified, unless the request of its
    readback cannot be built or its exchange fails; and a deletion or a
    created application that passed is proven by the whole collection. *)

From Stdlib Require Import String Ascii ZArith Lia List Bool.
From stdpp Require Import base option list strings.
From S2P Require Import Prelude Strings Btree Json JsonOps JsonEq Core CatalogTypes Capability CapabilityOps RequestSchema.
From S2P Require Import Contracts Verification DecimalMultiple CloudflareErrors RequestFormats RequestBuilder RequestPaths.
From S2P Require Import Plan RulesetRules Samples Pagination Listings Sorting Readback ReadbackProofs AccessCreate VerificationTargets.
From S2P Require Import VerificationReads TokenVerification VerificationOperations.

Open Scope cf_scope.
Open Scope string_scope.
Local Open Scope Z_scope.
Open Scope cf_scope.

(** ** Admission *)

Section Admission.
Context {runtime : Runtime} (request_contract : CapabilityV1 -> CallInput -> result CloudflareError unit).

Lemma not_increasing_sorted fields : not_increasing fields = negb (windows2_all str_ltb fields).
Proof.
  unfold not_increasing. induction fields as [|x [|y l] IH]; [done|done|].
  change (windows2_any (fun x y => negb (str_ltb x y)) (x :: y :: l))
    with (negb (str_ltb x y) || windows2_any (fun x y => negb (str_ltb x y)) (y :: l)).
  change (windows2_all str_ltb (x :: y :: l)) with (str_ltb x y && windows2_all str_ltb (y :: l)).
  by rewrite IH, negb_andb.
Qed.

(** The fields of a contract taken from the schema bind exactly the declared
    ones: those read back and those declared unobservable. *)
Lemma bound_iff_declared capability fields field :
  verifiable_request_object_fields capability = Some fields ->
  planned_field_is_bound_to_readback capability fields field = true <-> request_object_field capability field <> None.
Proof.
  intros H. destruct (verifiable_fields_iff _ _ H) as (Hs & _ & Hiff & _). unfold planned_field_is_bound_to_readback.
  rewrite orb_true_iff, binary_search_sorted, Hiff by done. split.
  - intros [[? _]|E]; [done|]. unfold request_object_field_is_verification_omitted in E.
    by destruct (request_object_field capability field).
  - intros Hd. destruct (request_object_field_is_verification_omitted capability field); [by right|by left].
Qed.

Lemma fields_bound_iff capability fields planned :
  verifiable_request_object_fields capability = Some fields ->
  fields_are_bound capability fields planned = true <->
  Forall (fun field => request_object_field capability field <> None) (bt_keys planned).
Proof.
  intros H. unfold fields_are_bound. rewrite forallb_forall, List.Forall_forall.
  split; intros Hall field Hin; apply (bound_iff_declared _ _ _ H); by apply Hall.
Qed.

Definition same_path_updates : list string :=
  ["same_resource_contains_planned_fields_after_update"; "same_path_result_contains_planned_fields_after_update";
   "same_path_result_contains_planned_fields_after_mutation"].

Lemma supported_same_path capability :
  cap_mutating capability = true -> verif_required (cap_verification capability) = true ->
  In (verif_strategy (cap_verification capability)) same_path_updates ->
  verification_contract_supported capability = true -> same_path_read_contract_supported capability true = true.
Proof.
  unfold verification_contract_supported. intros -> -> Hs. destruct (cap_id capability =? _)%cf; [done|]. cbn [negb].
  destruct Hs as [<-|[<-|[<-|[]]]].
  - change (select_arm verification_strategies _ capability) with (verify_same_resource_contains_planned_fields_after_update capability).
    unfold verify_same_resource_contains_planned_fields_after_update. by intros [_ ?]%andb_true_iff.
  - change (select_arm verification_strategies _ capability) with (verify_same_path_result_contains_planned_fields_after_update capability).
    unfold verify_same_path_result_contains_planned_fields_after_update. by intros [_ ?]%andb_true_iff.
  - change (select_arm verification_strategies _ capability) with (verify_same_path_result_contains_planned_fields_after_mutation capability).
    unfold verify_same_path_result_contains_planned_fields_after_mutation. by intros [_ ?]%andb_true_iff.
Qed.

Lemma same_path_contract capability : same_path_read_contract_supported capability true = true ->
  exists target, cap_same_path_read capability = Some target /\ spr_path target = cap_path capability /\
    is_empty (spr_read_capability_id target) = false /\
    verifiable_request_object_fields capability = Some (spr_verified_response_fields target).
Proof.
  unfold same_path_read_contract_supported. destruct (cap_same_path_read capability) as [target|]; [|done]. cbn [is_some_and negb].
  destruct (_ || _) eqn:E; [done|]. apply orb_false_iff in E as [E1 E2]. rewrite neqb_false in E1.
  destruct (verifiable_request_object_fields capability) as [fields|]; [|done]. cbn. intros [_ H]%andb_true_iff.
  rewrite eqb_true in H. exists target. by rewrite H.
Qed.

(** C14: the core and the executor agree on the updates that are read back at
    their own path: under each of the three strategies that compare the planned
    fields with a read of the same path (not the one that finds the resource in
    its parent collection), an update whose capability the core supports passes
    the preconditions of its verification exactly when it carries no query and
    its body is an object, not empty, all of whose fields the request schema
    declares: whatever is sent is read back, or declared unobservable. *)
Theorem supported_update_admission capability input :
  verification_contract_supported capability = true -> cap_mutating capability = true ->
  verif_required (cap_verification capability) = true ->
  In (verif_strategy (cap_verification capability)) same_path_updates ->
  validate_verification_preconditions request_contract capability input = Ok tt <->
  clean_verification_query input = true /\
  exists planned, ci_body input = Some (VObject planned) /\ planned <> [] /\
    Forall (fun field => request_object_field capability field <> None) (bt_keys planned).
Proof.
  intros Hsup Hmut Hreq Hs.
  destruct (same_path_contract _ (supported_same_path _ Hmut Hreq Hs Hsup)) as (target & Et & Ep & Er & Ef).
  destruct (verifiable_fields_iff _ _ Ef) as (Hsorted & Hne & _).
  assert (E : validate_verification_preconditions request_contract capability input =
    (let? _ := match body_label (verif_strategy (cap_verification capability)) with
               | Some label => guard (is_noneb (planned_nonempty input))
                   (missing ("planned " ++ label ++ " body is absent, empty, or not an object")) (Ok tt)
               | None => Ok tt end in validate_same_path_update_target capability input)).
  { unfold validate_verification_preconditions. rewrite Hsup. cbn [negb guard]. by destruct Hs as [<-|[<-|[<-|[]]]]. }
  rewrite E. assert (Hl : is_someb (body_label (verif_strategy (cap_verification capability))) = true) by by destruct Hs as [<-|[<-|[<-|[]]]].
  destruct (body_label _) as [label|]; [|done]. rewrite res_bind_unit_ok, guard_unit_ok.
  unfold validate_same_path_update_target. rewrite Et. cbn [ok_or res_bind].
  replace ((spr_path target <>? cap_path capability) || is_empty (spr_read_capability_id target)
           || is_nil (spr_verified_response_fields target) || not_increasing (spr_verified_response_fields target))%cf with false.
  2: { rewrite Ep, eqb_refl, Er, not_increasing_sorted, Hsorted. by destruct (spr_verified_response_fields target). }
  cbn [guard]. rewrite guard_ok, negb_false_iff. unfold planned_nonempty, planned_object.
  destruct (ci_body input) as [[| | | | |planned]|]; cbn [obind as_object];
    try (split; [by intros [? _]|by intros (_ & ? & [=] & _)]).
  cbn [ok_or res_bind]. rewrite guard_unit_ok, negb_false_iff, (fields_bound_iff _ _ _ Ef). destruct planned as [|e planned]; cbn.
  - split; [by intros [? _]|]. by intros (_ & ? & [= <-] & ? & _).
  - split; [|by intros (? & ? & [= <-] & _ & ?)]. intros (_ & ? & ?). split; [done|]. by eexists.
Qed.
End Admission.

(** ** Admitted changes are verified *)

Section Verified.
Context {fd : FloatDisplay} {rt : RequestTexts} {urls : Urls} {provider : Provider urls} {runtime : Runtime}.
Context (base_url : Url) (request_contract : CapabilityV1 -> CallInput -> result CloudflareError unit).

(** The paths the contracts of a capability pin for its readback. *)
Definition readback_paths (capability : CapabilityV1) : list string :=
  (option_list (option_map spr_path (cap_same_path_read capability))
   ++ option_list (option_map dr_collection_path (cap_deleted_resource capability))
   ++ option_list (option_map dnr_parent_path (cap_deleted_nested_resource capability))
   ++ option_list (option_map ur_collection_path (cap_updated_resource capability)) ++ [WEB_ANALYTICS_RULES])%list.

Definition members_of_object (v : Value) : btree Value := default [] (as_object v).

(** A read of such a path with selectors of the plan; the secret of a Worker
    script is named by the planned body. *)
Definition planned_read (capability : CapabilityV1) (input : CallInput) (read : CapabilityV1) (selectors : Value) : Prop :=
  In (cap_path read) (readback_paths capability) /\ cap_mutating read = false /\
  forall name v, In (name, v) (members_of_object selectors) ->
    name = "secret_name" \/ In (name, v) (members_of_object (ci_selectors input)).

(** The two ways a planned readback fails: its request cannot be built from the
    selectors, and nothing is sent; or it was built, and the exchange failed. *)
Inductive read_fails (capability : CapabilityV1) (input : CallInput) (e : CloudflareError) (w w' : World) : Prop :=
| read_not_built read selectors :
    planned_read capability input read selectors ->
    build_read base_url request_contract read selectors = Err e -> w' = w -> read_fails capability input e w w'
| read_not_answered read selectors url :
    planned_read capability input read selectors ->
    build_read base_url request_contract read selectors = Ok url ->
    send url w = (Err e, w') \/ send_paginated (cap_method read) url w = (Err e, w') ->
    read_fails capability input e w w'.

Lemma read_fails_one c i read selectors e w w' : planned_read c i read selectors ->
  read_one base_url request_contract read selectors w = (Err e, w') \/
  read_all base_url request_contract read selectors w = (Err e, w') -> read_fails c i e w w'.
Proof.
  intros Hp H. unfold read_one, read_all, st_bind, st_lift in H.
  destruct (build_read base_url request_contract read selectors) as [url|e'] eqn:E.
  - by eapply read_not_answered.
  - apply (read_not_built _ _ _ _ _ read selectors); [done|..]; destruct H as [[= <- <-]|[= <- <-]]; done.
Qed.

Lemma planned_same_path c i target id title : cap_same_path_read c = Some target ->
  planned_read c i (same_path_verification_capability c id title (spr_path target)) (ci_selectors i).
Proof.
  intros E. split; [|split; [done|auto]]. unfold readback_paths. rewrite E. by left.
Qed.

(** The path a contract of the capability pins is one of them. *)
Ltac pinned E := unfold readback_paths; rewrite ?in_app_iff, E; cbn; tauto.

Lemma planned_without c i id title path name selectors :
  In path (readback_paths c) -> as_object (ci_selectors i) = Some selectors ->
  planned_read c i (readback_capability id title path) (VObject (bt_remove name selectors)).
Proof.
  intros Hin Hs. split; [done|]. split; [done|]. intros k v Hkv. right.
  unfold members_of_object in *. rewrite Hs. cbn [as_object default] in *. clear Hs. revert Hkv.
  induction selectors as [|[k' v'] m IH]; cbn; [done|]. destruct (name =? k')%cf; [by right|].
  intros [Hk|Hk]; [by left|right; by apply IH].
Qed.

Lemma verified_err capability passed readback e (w w' : World) : verified capability passed readback w = (Err e, w') -> False.
Proof. done. Qed.

Lemma required_some {A} message (a : A) (o : option A) {B} (k : A -> Exchange B) w :
  o = Some a -> st_bind (required message o) k w = k a w.
Proof. by intros ->. Qed.

(** Nothing after the read fails. *)
Lemma after_read c i capability selectors {B} (k : CloudflareResponseV1 -> Exchange B) e w w' :
  planned_read c i capability selectors ->
  (forall readback w1 e1 w2, k readback w1 = (Err e1, w2) -> False) ->
  st_bind (read_one base_url request_contract capability selectors) k w = (Err e, w') -> read_fails c i e w w'.
Proof.
  intros Hp Hk [(a & w1 & _ & H)|(e' & H & [= <-])]%st_bind_inv; [by apply Hk in H|].
  eapply read_fails_one; [exact Hp|by left].
Qed.

Lemma after_read_one c i capability read selectors (passed : CloudflareResponseV1 -> bool) e w w' :
  planned_read c i read selectors ->
  st_bind (read_one base_url request_contract read selectors) (fun readback => verified capability (passed readback) readback) w
    = (Err e, w') -> read_fails c i e w w'.
Proof. intros Hp. apply after_read; [done|]. intros readback w1 e1 w2. apply verified_err. Qed.

Lemma after_read_all c i capability read selectors (passed : CloudflareResponseV1 -> bool) e w w' :
  planned_read c i read selectors ->
  st_bind (read_all base_url request_contract read selectors) (fun readback => verified capability (passed readback) readback) w
    = (Err e, w') -> read_fails c i e w w'.
Proof.
  intros Hp [(a & w1 & _ & H)|(e' & H & [= <-])]%st_bind_inv; [by apply verified_err in H|].
  eapply read_fails_one; [exact Hp|by right].
Qed.

Lemma has_selector input name : lacks_selector input name = false ->
  exists id selectors, selector_text_of input name = Some id /\ as_object (ci_selectors input) = Some selectors.
Proof.
  unfold lacks_selector, selector_text_of, nonempty_str, ofilter. destruct (ci_selectors input) as [| | | | |m]; try done. cbn [vget].
  destruct (obind (bt_get name m) as_str) as [id|]; [|done]. cbn. intros ->. cbn. eauto.
Qed.

Lemma without_selectors input name message selectors {B} (k : Value -> Exchange B) w :
  as_object (ci_selectors input) = Some selectors ->
  st_bind (selectors_without input name message) k w = k (VObject (bt_remove name selectors)) w.
Proof. intros H. unfold selectors_without. by rewrite H. Qed.

(** What the preconditions leave of a strategy: its target, and a body where
    it has a label. *)
Lemma admitted_target capability input :
  validate_verification_preconditions request_contract capability input = Ok tt ->
  find (fun arm => (fst arm =? verif_strategy (cap_verification capability))%cf) (own_targets request_contract) = None ->
  starts_with (verif_strategy (cap_verification capability)) "async_list_operation_" = false ->
  (is_someb (body_label (verif_strategy (cap_verification capability))) = true -> exists planned, planned_nonempty input = Some planned) /\
  validate_resource_target (verif_strategy (cap_verification capability)) capability input = Ok tt.
Proof.
  unfold validate_verification_preconditions. rewrite guard_ok. intros [_ H] E1 E2. rewrite E1, E2 in H.
  apply res_bind_unit_ok in H as [Hb Ht]. split; [|done]. intros Hl. destruct (body_label _) as [label|]; [|done].
  apply guard_unit_ok in Hb. destruct (planned_nonempty input) as [planned|]; [by eexists|done].
Qed.

Lemma planned_named_secret c i target id title name selectors :
  cap_same_path_read c = Some target -> as_object (ci_selectors i) = Some selectors ->
  planned_read c i (same_path_verification_capability c id title (spr_path target))
    (VObject (bt_insert "secret_name" name selectors)).
Proof.
  intros E Hs. destruct (planned_same_path c i target id title E) as (Hp & Hm & _). split; [done|]. split; [done|].
  intros k v. unfold members_of_object. rewrite Hs. intros [[-> _]|H]%bt_insert_in; [by left|by right].
Qed.

Section One.
Context (capability : CapabilityV1) (apply_response : CloudflareResponseV1) (input : CallInput).
Let strategy : string := verif_strategy (cap_verification capability).

(** A verifier fails only as its read does. *)
Definition only_reads_fail (verifier : Exchange OperationVerificationV1) : Prop :=
  forall e w w', verifier w = (Err e, w') -> read_fails capability input e w w'.

Lemma same_path_verifiers_fail target : cap_same_path_read capability = Some target ->
  only_reads_fail (verify_exact_resource_delete base_url request_contract capability apply_response input) /\
  only_reads_fail (verify_worker_script_delete base_url request_contract capability apply_response input).
Proof.
  intros Et. split; intros e w w'; unfold verify_exact_resource_delete, verify_worker_script_delete;
    rewrite (required_some _ target) by done; by apply after_read_one, planned_same_path.
Qed.

Lemma collection_delete_fails target : cap_deleted_resource capability = Some target ->
  lacks_selector input (dr_identity_selector target) = false ->
  only_reads_fail (verify_parent_collection_delete base_url request_contract capability apply_response input).
Proof.
  intros Et (id & selectors & Eid & Es)%has_selector e w w'. unfold verify_parent_collection_delete.
  rewrite (required_some _ target), (required_some _ id), (without_selectors _ _ _ selectors) by done.
  apply after_read_all, planned_without; [pinned Et|done].
Qed.

Lemma nested_delete_fails target : cap_deleted_nested_resource capability = Some target ->
  lacks_selector input (dnr_identity_selector target) = false ->
  only_reads_fail (verify_parent_object_nested_delete base_url request_contract capability apply_response input).
Proof.
  intros Et (id & selectors & Eid & Es)%has_selector e w w'. unfold verify_parent_object_nested_delete.
  rewrite (required_some _ target), (required_some _ id), (without_selectors _ _ _ selectors) by done.
  apply after_read_one, planned_without; [pinned Et|done].
Qed.

Lemma rule_delete_fails : lacks_selector input "rule_id" = false ->
  only_reads_fail (verify_web_analytics_rule_delete base_url request_contract capability apply_response input).
Proof.
  intros (id & selectors & Eid & Es)%has_selector e w w'. unfold verify_web_analytics_rule_delete.
  rewrite (required_some _ id), (without_selectors _ _ _ selectors) by done.
  apply after_read_one, planned_without; [unfold readback_paths; rewrite !in_app_iff; cbn; tauto|done].
Qed.

Lemma exact_update_fails target planned : cap_same_path_read capability = Some target -> planned_nonempty input = Some planned ->
  only_reads_fail (verify_exact_resource_update base_url request_contract capability apply_response input).
Proof.
  intros Et Ep e w w'. unfold verify_exact_resource_update.
  rewrite (required_some _ target), (required_some _ planned) by done.
  by apply after_read_one, planned_same_path.
Qed.

Lemma collection_update_fails target planned : cap_updated_resource capability = Some target -> planned_nonempty input = Some planned ->
  lacks_selector input (ur_identity_selector target) = false ->
  only_reads_fail (verify_parent_collection_update base_url request_contract capability apply_response input).
Proof.
  intros Et Ep (id & selectors & Eid & Es)%has_selector e w w'. unfold verify_parent_collection_update.
  rewrite (required_some _ target), (required_some _ id), (required_some _ planned), (without_selectors _ _ _ selectors) by done.
  apply after_read_all, planned_without; [pinned Et|done].
Qed.

Lemma admitted_delete_fails :
  validate_verification_preconditions request_contract capability input = Ok tt ->
  In strategy (strategies_of (delete_verifiers base_url request_contract capability apply_response input)) ->
  only_reads_fail (verify_resource_delete base_url request_contract capability apply_response input).
Proof.
  intros Hp Hs. unfold verify_resource_delete, by_strategy. fold strategy.
  pose proof (admitted_target _ _ Hp) as Ht. fold strategy in Ht.
  destruct Hs as [Hs|[Hs|[Hs|[Hs|[Hs|[]]]]]]; rewrite <- Hs in *.
  - destruct Ht as [_ (target & Et & _)%res_bind_ok]; [done..|]. destruct (cap_same_path_read capability) eqn:E; [|done].
    by eapply same_path_verifiers_fail.
  - unfold validate_verification_preconditions in Hp. fold strategy in Hp. rewrite <- Hs in Hp. apply guard_ok in Hp as [_ Hp].
    change (validate_worker_script_delete_target capability input = Ok tt) in Hp. apply res_bind_ok in Hp as (target & Et & _).
    destruct (cap_same_path_read capability) eqn:E; [|done]. by eapply same_path_verifiers_fail.
  - destruct Ht as [_ (target & Et & Hg)%res_bind_ok]; [done..|]. destruct (cap_deleted_resource capability) eqn:E; [|done].
    injection Et as ->. apply guard_ok in Hg as [[_ Hl]%orb_false_iff _]. by eapply collection_delete_fails.
  - destruct Ht as [_ (target & Et & Hg)%res_bind_ok]; [done..|]. destruct (cap_deleted_nested_resource capability) eqn:E; [|done].
    injection Et as ->. apply guard_unit_ok in Hg as [[[_ Hl]%orb_false_iff _]%orb_false_iff _]%orb_false_iff. by eapply nested_delete_fails.
  - destruct Ht as [_ Hg]; [done..|]. change (validate_web_analytics_rule_delete_target capability input = Ok tt) in Hg.
    apply guard_unit_ok in Hg as [[[_ Hl]%orb_false_iff _]%orb_false_iff _]%orb_false_iff. by eapply rule_delete_fails.
Qed.

Lemma admitted_update_fails :
  validate_verification_preconditions request_contract capability input = Ok tt ->
  In strategy (strategies_of (update_verifiers base_url request_contract capability apply_response input)) ->
  only_reads_fail (verify_resource_update base_url request_contract capability apply_response input).
Proof.
  intros Hp Hs. unfold verify_resource_update, by_strategy. fold strategy.
  pose proof (admitted_target _ _ Hp) as Ht. fold strategy in Ht.
  assert (Hsame : In strategy same_path_updates -> only_reads_fail (verify_exact_resource_update base_url request_contract capability apply_response input)).
  { intros Hin. assert (Hv : validate_same_path_update_target capability input = Ok tt /\ exists planned, planned_nonempty input = Some planned).
    { destruct Hin as [E|[E|[E|[]]]]; rewrite <- E in Ht; (destruct Ht as [Hb Ht]; [done..|]); by split; [exact Ht|apply Hb]. }
    destruct Hv as [(target & Et & _)%res_bind_ok [planned Epl]]. destruct (cap_same_path_read capability) eqn:E; [|done].
    by eapply exact_update_fails. }
  destruct Hs as [Hs|[Hs|[Hs|[Hs|[]]]]]; rewrite <- Hs in *.
  - apply Hsame. by left.
  - apply Hsame. by right; left.
  - apply Hsame. by right; right; left.
  - destruct Ht as [Hb (target & Et & Hg)%res_bind_ok]; [done..|]. destruct (Hb eq_refl) as [planned Epl].
    destruct (cap_updated_resource capability) eqn:E; [|done]. injection Et as ->.
    apply guard_ok in Hg as [[_ Hl]%orb_false_iff _]. by eapply collection_update_fails.
Qed.

End One.

(** *** Operations with a target of their own *)

Section Own.
Context (Plan : CoreError -> CloudflareError) (parse_instant : string -> option DateTime) (now : DateTime).
Context (plan : PlanV1) (apply_response : CloudflareResponseV1) (input : CallInput).
Let capability : CapabilityV1 := plan_capability plan.
Let strategy : string := verif_strategy (cap_verification (plan_capability plan)).

Lemma own_target validate :
  validate_verification_preconditions request_contract (plan_capability plan) input = Ok tt ->
  find (fun arm => (fst arm =? verif_strategy (cap_verification (plan_capability plan)))%cf) (own_targets request_contract)
    = Some (verif_strategy (cap_verification (plan_capability plan)), validate) ->
  validate (plan_capability plan) input = Ok tt.
Proof. unfold validate_verification_preconditions. rewrite guard_ok. intros [_ H] E. by rewrite E in H. Qed.

Lemma text_selectors names absent broader :
  exact_selectors names input absent broader = Ok tt ->
  exists selectors, as_object (ci_selectors input) = Some selectors /\
    forall name, name ∈ names -> exists id, selector_text_of input name = Some id.
Proof.
  unfold exact_selectors. rewrite res_bind_ok. intros (selectors & Hs & H). destruct (ci_selectors input) as [| | | | |m] eqn:E; try done.
  injection Hs as ->. apply guard_unit_ok in H as [_ H]%orb_false_iff. exists selectors. split; [done|]. intros name Hin.
  unfold selector_text_of, nonempty_str, ofilter. rewrite E. cbn [vget]. apply list_elem_of_In in Hin.
  assert (Hl : lacks_text name selectors = false).
  { destruct (lacks_text name selectors) eqn:El; [|done]. rewrite <- H. symmetry. apply existsb_exists. by exists name. }
  unfold lacks_text in Hl. destruct (obind _ as_str) as [t|]; [|done]. cbn in Hl |- *. rewrite Hl. by exists t.
Qed.

Definition own_strategies : list string :=
  ["oauth_client_reports_rotated_secret_after_value_roll"; "oauth_client_reports_no_rotated_secret_after_old_secret_delete";
   "worker_script_secret_reports_planned_name_and_type_after_put"; "access_service_token_reports_refreshed_expiration";
   "worker_deployment_latest_matches_planned_versions"; "worker_cron_schedules_match_planned_crons"].

Lemma oauth_fails : In strategy (firstn 2 own_strategies) ->
  validate_verification_preconditions request_contract (plan_capability plan) input = Ok tt ->
  only_reads_fail (plan_capability plan) input (verify_oauth_client_secret_rotation base_url request_contract plan apply_response input).
Proof.
  intros Hs Hp.
  assert (Ht : validate_oauth_client_secret_target (plan_capability plan) input = Ok tt).
  { destruct Hs as [E|[E|[]]]; (apply own_target; [done|unfold strategy in E; by rewrite <- E]). }
  apply res_bind_ok in Ht as (target & Et & [_ Ht]%guard_ok). apply text_selectors in Ht as (selectors & _ & Hsel).
  destruct (Hsel "oauth_client_id") as [id Hid]; [right; left|]. destruct (cap_same_path_read (plan_capability plan)) as [t|] eqn:E; [|done].
  intros e w w'. unfold verify_oauth_client_secret_rotation. rewrite (required_some _ t), (required_some _ id) by done.
  apply after_read; [by apply planned_same_path|]. intros readback w1 e1 w2. unfold strategy in Hs. destruct Hs as [<-|[<-|[]]]; intros [=].
Qed.

Lemma script_secret_fails : strategy = "worker_script_secret_reports_planned_name_and_type_after_put" ->
  validate_verification_preconditions request_contract (plan_capability plan) input = Ok tt ->
  only_reads_fail (plan_capability plan) input (verify_worker_script_secret_put base_url request_contract plan apply_response input).
Proof.
  intros Hs Hp.
  assert (Ht : validate_worker_script_secret_put_target request_contract (plan_capability plan) input = Ok tt)
    by (apply own_target; [done|unfold strategy in Hs; by rewrite Hs]).
  apply res_bind_ok in Ht as (target & Et & [_ Ht]%guard_ok). apply res_bind_ok in Ht as ([] & Hsel & Ht).
  apply res_bind_ok in Ht as (_ & _ & Ht). apply res_bind_ok in Ht as (body & Hb & Ht).
  apply text_selectors in Hsel as (selectors & Hsel & _). apply guard_unit_ok in Ht as [Hn Hk]%orb_false_iff.
  destruct (cap_same_path_read (plan_capability plan)) as [t|] eqn:E; [|done]. destruct (planned_object input) as [b|] eqn:Eb; [|done].
  injection Hb as ->. unfold lacks_text in Hn. destruct (obind (bt_get "name" body) as_str) as [name|] eqn:En; [|done].
  destruct (obind (bt_get "type" body) as_str) as [kind|] eqn:Ek; [|done].
  intros e w w'. unfold verify_worker_script_secret_put.
  rewrite (required_some _ t), (required_some _ body), (required_some _ name), (required_some _ kind), (required_some _ selectors) by done.
  apply after_read; [by apply planned_named_secret|]. by intros readback w1 e1 w2 [=].
Qed.

Lemma service_token_fails : strategy = "access_service_token_reports_refreshed_expiration" ->
  validate_verification_preconditions request_contract (plan_capability plan) input = Ok tt ->
  only_reads_fail (plan_capability plan) input (verify_access_service_token_refresh base_url request_contract parse_instant now plan apply_response input).
Proof.
  intros Hs Hp.
  assert (Ht : validate_access_service_token_refresh_target (plan_capability plan) input = Ok tt)
    by (apply own_target; [done|unfold strategy in Hs; by rewrite Hs]).
  apply res_bind_ok in Ht as (target & Et & [_ Ht]%guard_ok). apply text_selectors in Ht as (selectors & _ & Hsel).
  destruct (Hsel "service_token_id") as [id Hid]; [right; left|]. destruct (cap_same_path_read (plan_capability plan)) as [t|] eqn:E; [|done].
  intros e w w'. unfold verify_access_service_token_refresh. rewrite (required_some _ t), (required_some _ id) by done.
  apply after_read; [by apply planned_same_path|]. by intros readback w1 e1 w2 [=].
Qed.

Lemma worker_target_fails {A} title (o : option A) message (k : A -> CloudflareResponseV1 -> OperationVerificationV1) :
  (exists a, o = Some a) -> (exists t, cap_same_path_read (plan_capability plan) = Some t) ->
  only_reads_fail (plan_capability plan) input (st_bind (required message o) (fun a =>
    st_bind (st_lift (worker_mutation_read_target (plan_capability plan))) (fun target =>
    st_bind (read_worker_mutation_target base_url request_contract plan input target title) (fun readback => st_ret (k a readback))))).
Proof.
  intros [a ->] [t Et] e w w'. unfold worker_mutation_read_target. rewrite Et. cbn [required ok_or].
  change (st_bind (read_worker_mutation_target base_url request_contract plan input t title) (fun readback => st_ret (k a readback)) w = (Err e, w') ->
    read_fails (plan_capability plan) input e w w').
  apply after_read; [by apply planned_same_path|]. by intros readback w1 e1 w2 [=].
Qed.

Lemma worker_fails :
  validate_verification_preconditions request_contract (plan_capability plan) input = Ok tt ->
  (strategy = "worker_deployment_latest_matches_planned_versions" ->
   only_reads_fail (plan_capability plan) input (verify_worker_deployment_create base_url request_contract plan apply_response input)) /\
  (strategy = "worker_cron_schedules_match_planned_crons" ->
   only_reads_fail (plan_capability plan) input (verify_worker_cron_update base_url request_contract plan apply_response input)).
Proof.
  intros Hp. split; intros Hs; apply worker_target_fails.
  - assert (Ht : validate_worker_deployment_create_target (plan_capability plan) input = Ok tt)
      by (apply own_target; [done|unfold strategy in Hs; by rewrite Hs]).
    apply res_bind_ok in Ht as (? & _ & Ht). apply res_bind_ok in Ht as (body & Hb & _). destruct (ci_body input); [by eexists|done].
  - assert (Ht : validate_worker_deployment_create_target (plan_capability plan) input = Ok tt)
      by (apply own_target; [done|unfold strategy in Hs; by rewrite Hs]).
    apply res_bind_ok in Ht as (t & Et & _). unfold worker_mutation_read_target in Et. destruct (cap_same_path_read _); [by eexists|done].
  - assert (Ht : validate_worker_cron_update_target (plan_capability plan) input = Ok tt)
      by (apply own_target; [done|unfold strategy in Hs; by rewrite Hs]).
    apply res_bind_ok in Ht as (? & _ & Ht). apply res_bind_ok in Ht as (body & Hb & _). destruct (ci_body input); [by eexists|done].
  - assert (Ht : validate_worker_cron_update_target (plan_capability plan) input = Ok tt)
      by (apply own_target; [done|unfold strategy in Hs; by rewrite Hs]).
    apply res_bind_ok in Ht as (t & Et & _). unfold worker_mutation_read_target in Et. destruct (cap_same_path_read _); [by eexists|done].
Qed.

Abbreviation delete_strategies := (strategies_of (delete_verifiers base_url request_contract (plan_capability plan) apply_response input)).
Abbreviation update_strategies := (strategies_of (update_verifiers base_url request_contract (plan_capability plan) apply_response input)).
Abbreviation verify_this other :=
  (verify_plan_with_input base_url request_contract Plan parse_instant now plan apply_response input other).

Lemma delete_dispatch other : In strategy delete_strategies ->
  validate_verification_preconditions request_contract (plan_capability plan) input = Ok tt ->
  forall w, verify_this other w = verify_resource_delete base_url request_contract (plan_capability plan) apply_response input w.
Proof.
  intros Hs Hp w. unfold verify_plan_with_input, verify_resource_delete. rewrite Hp. unfold strategy in Hs.
  by destruct Hs as [<-|[<-|[<-|[<-|[<-|[]]]]]].
Qed.

Lemma update_dispatch other : In strategy update_strategies ->
  validate_verification_preconditions request_contract (plan_capability plan) input = Ok tt ->
  forall w, verify_this other w = verify_resource_update base_url request_contract (plan_capability plan) apply_response input w.
Proof.
  intros Hs Hp w. unfold verify_plan_with_input, verify_resource_update. rewrite Hp. unfold strategy in Hs.
  by destruct Hs as [<-|[<-|[<-|[<-|[]]]]].
Qed.

Lemma own_fails other : In strategy own_strategies ->
  validate_verification_preconditions request_contract (plan_capability plan) input = Ok tt ->
  only_reads_fail (plan_capability plan) input (verify_this other).
Proof.
  intros Hs Hp e w w' H.
  assert (Hd : verify_this other w =
    if (starts_with strategy "oauth_client_")
    then verify_oauth_client_secret_rotation base_url request_contract plan apply_response input w
    else if (strategy =? "worker_script_secret_reports_planned_name_and_type_after_put")%cf
    then verify_worker_script_secret_put base_url request_contract plan apply_response input w
    else if (strategy =? "access_service_token_reports_refreshed_expiration")%cf
    then verify_access_service_token_refresh base_url request_contract parse_instant now plan apply_response input w
    else if (strategy =? "worker_deployment_latest_matches_planned_versions")%cf
    then verify_worker_deployment_create base_url request_contract plan apply_response input w
    else verify_worker_cron_update base_url request_contract plan apply_response input w).
  { unfold verify_plan_with_input. rewrite Hp. unfold strategy in *. by destruct Hs as [<-|[<-|[<-|[<-|[<-|[<-|[]]]]]]]. }
  rewrite Hd in H. clear Hd. destruct (worker_fails Hp) as [Hdep Hcron].
  destruct Hs as [E|[E|[E|[E|[E|[E|[]]]]]]]; rewrite <- E in H.
  - eapply oauth_fails; [left; exact E|done|exact H].
  - eapply oauth_fails; [right; left; exact E|done|exact H].
  - eapply script_secret_fails; [by symmetry|done|exact H].
  - eapply service_token_fails; [by symmetry|done|exact H].
  - by eapply Hdep.
  - by eapply Hcron.
Qed.

(** C13: an admitted change is not left without a verdict for want of its
    contract, planned body or identity. Of the deletes, the updates, the
    rotation and removal of an OAuth client's secret, the put of a Worker
    secret, the refresh of an Access service token, and the deployment and
    schedule of a Worker, one that passed the preconditions is verified after
    the mutation with a verdict, except in two ways: the request of a read of a
    path its contracts pin cannot be built from the selectors the plan has, and
    nothing is sent; or that request was built and the exchange failed. *)
Theorem admitted_changes_are_verified other e w w' :
  validate_verification_preconditions request_contract (plan_capability plan) input = Ok tt ->
  In strategy (delete_strategies ++ update_strategies ++ own_strategies) ->
  verify_this other w = (Err e, w') -> read_fails (plan_capability plan) input e w w'.
Proof.
  intros Hp Hs. apply in_app_iff in Hs as [Hs|[Hs|Hs]%in_app_iff].
  - rewrite delete_dispatch by done. by apply admitted_delete_fails.
  - rewrite update_dispatch by done. by apply admitted_update_fails.
  - by apply own_fails.
Qed.
End Own.

End Verified.

(** ** Proof by a whole collection *)

Section Proven.
Context {fd : FloatDisplay} {rt : RequestTexts} {urls : Urls} {provider : Provider urls}.
Context (base_url : Url) (request_contract : CapabilityV1 -> CallInput -> result CloudflareError unit).
Context (capability : CapabilityV1) (apply_response : CloudflareResponseV1) (input : CallInput).

Lemma required_ok {A B} message (o : option A) (k : A -> Exchange B) w b w' :
  st_bind (required message o) k w = (Ok b, w') -> exists a, o = Some a /\ k a w = (Ok b, w').
Proof. destruct o as [a|]; [|done]. intros H. by exists a. Qed.

Lemma verified_ok passed readback v (w w' : World) : verified capability passed readback w = (Ok v, w') ->
  w' = w /\ ov_passed v = passed /\ ov_readback v = readback.
Proof. by intros [= <- ->]. Qed.

Lemma no_matching_items pointer identity items : is_nil (matching_items pointer identity (Some items)) = true <->
  Forall (fun item => identity_at pointer item <> Some identity) items.
Proof.
  unfold matching_items. change (default [] (Some items)) with items.
  rewrite <- (Forall_iff (fun item => (identity_at pointer item =? Some identity)%cf = false)) by (intros; apply eqb_false).
  rewrite <- filter_nil. by destruct (List.filter _ items).
Qed.

(** C16: a verified deletion is proven by the collection. It passes exactly
    when the mutation and the reading of the collection succeeded, the reading
    ended at the last page where pages are required, and the collection is an
    array in which every item has an identity and none has the deleted one. *)
Theorem verified_deletion_iff target v w w' :
  cap_deleted_resource capability = Some target ->
  verify_parent_collection_delete base_url request_contract capability apply_response input w = (Ok v, w') ->
  ov_passed v = true <->
  cr_success apply_response = true /\ cr_success (ov_readback v) = true /\
  collection_pagination_complete (dr_requires_page_number_completion target) (ov_readback v) = true /\
  exists deleted items, selector_text_of input (dr_identity_selector target) = Some deleted /\
    cr_result (ov_readback v) = VArray items /\
    Forall (fun item => exists identity, identity_at (dr_response_item_identity_pointer target) item = Some identity /\
      identity <> "" /\ identity <> deleted) items.
Proof.
  intros Et. unfold verify_parent_collection_delete. intros (t & E & H)%required_ok. rewrite Et in E. injection E as <-.
  apply required_ok in H as (deleted & Ed & H). apply st_bind_ok in H as (selectors & w1 & _ & H).
  apply st_bind_ok in H as (readback & w2 & _ & H). apply verified_ok in H as (_ & -> & ->).
  rewrite !andb_true_iff. destruct (cr_result readback) as [| | | |items|] eqn:Er; cbn [as_array is_someb identities_are_valid is_some_and andb];
    try (split; [intros [[_ H] _]; discriminate H|by intros (_ & _ & _ & ? & ? & _ & [=] & _)]).
  rewrite no_matching_items, forallb_forall, <- List.Forall_forall.
  assert (Hid : Forall (fun item => is_someb (nonempty_str (identity_at (dr_response_item_identity_pointer target) item)) = true) items /\
      Forall (fun item => identity_at (dr_response_item_identity_pointer target) item <> Some deleted) items <->
    Forall (fun item => exists identity, identity_at (dr_response_item_identity_pointer target) item = Some identity /\
      identity <> "" /\ identity <> deleted) items).
  { rewrite <- Forall_and. apply Forall_iff. intros item. unfold nonempty_str, ofilter.
    destruct (identity_at _ item) as [i|]; cbn [obind]; [|split; [by intros [? _]|by intros (? & [=] & _)]].
    destruct i as [|a i]; cbn; [split; [by intros [? _]|by intros (? & [= <-] & [] & _)]|].
    split; [intros [_ ?]; exists (String a i); naive_solver|by intros (? & [= <-] & _ & ?); split; [|intros [= ?]]]. }
  split.
  - intros [[[[? ?] ?] Hv] Ha]. split_and!; [done..|]. exists deleted, items. split_and!; [done|done|]. by apply Hid; destruct Ha.
  - intros (? & ? & ? & d & l & Ed' & [= <-] & Hall). rewrite Ed in Ed'. injection Ed' as <-. apply Hid in Hall. tauto.
Qed.

Lemma read_inventory_inv list read_input inventory w w' :
  read_access_application_inventory base_url request_contract list read_input w = (Ok inventory, w') ->
  cr_success inventory = true ->
  exists url first pages w1, send url w = (Ok first, w1) /\ page_pagination (cr_result_info first) = Ok (Some pages) /\
    current_page pages = 1 /\ complete_pages None url first pages w1 = (Ok inventory, w').
Proof.
  unfold read_access_application_inventory. intros H Hs. apply st_bind_ok in H as ([] & w0 & [_ ->]%st_guard_ok & H).
  apply st_bind_ok in H as (url & w0 & [_ ->]%st_lift_ok & H). apply st_bind_ok in H as (first & w1 & Hsend & H).
  destruct (cr_success first) eqn:Ef; cbn [negb] in H; [|injection H as <- _; by rewrite Ef in Hs].
  apply st_bind_ok in H as (pages & w2 & [Hp ->]%st_lift_ok & H). apply st_bind_ok in H as ([] & w2 & [Hone ->]%st_guard_ok & H).
  apply res_bind_ok in Hp as (o & Hp & Ho). destruct o as [p|]; [|done]. injection Ho as ->.
  exists url, first, pages, w1. do 2 (split; [done|]). split; [|exact H]. apply negb_false_iff in Hone. by rewrite eqb_true in Hone.
Qed.

(** C17: a created application that passed owns its hostname in every page. The
    inventory was read from its first page to the last one it announces, each
    answering with its own number and the same totals, and any application of
    any of these pages that has the planned name or covers the planned hostname
    is the created one. *)
Theorem verified_owner_is_unique v w w' :
  verify_owned_access_create base_url request_contract capability apply_response input w = (Ok v, w') -> ov_passed v = true ->
  exists id name hostname url first pages responses w1 w2,
    obind (vget "id" (cr_result apply_response)) as_str = Some id /\
    obind (obind (ci_body input) (vget "name")) as_str = Some name /\
    obind (obind (ci_body input) (vget "domain")) as_str = Some hostname /\
    send url w1 = (Ok first, w2) /\ page_pagination (cr_result_info first) = Ok (Some pages) /\ current_page pages = 1 /\
    List.length responses = Z.to_nat (total_pages pages - 1) /\
    Fetched None url (total_pages pages) (total_count pages) 2 w2 responses w' /\
    forall response app, response ∈ first :: responses -> app ∈ items_of None response -> claims name hostname app ->
      obind (vget "id" app) as_str = Some id.
Proof.
  unfold verify_owned_access_create. intros H Hpass. apply st_bind_ok in H as ([] & w0 & [_ ->]%st_lift_ok & H).
  apply st_bind_ok in H as (id & w0 & [Hid ->]%st_lift_ok & H). apply st_bind_ok in H as (detail & w1 & _ & H).
  apply st_bind_ok in H as (inventory & w3 & Hinv & H). apply verified_ok in H as (-> & Hp & _). rewrite Hpass in Hp.
  symmetry in Hp. apply andb_true_iff in Hp as [_ Hown].
  destruct (access_create_collection_receipt input inventory (Some id)) as [receipt|] eqn:Er; [|done]. clear Hown.
  apply receipt_inv in Er as (Hs & _ & Hn & Hh & apps & Ha & Hc).
  apply read_inventory_inv in Hinv as (url & first & pages & w2 & Hsend & Hpages & Hone & Hcomplete); [|done].
  destruct (complete_pages_inv _ _ _ _ _ _ _ Hcomplete Hs) as (_ & _ & responses & Hl & Hf & Hi & _).
  rewrite Hone in Hl, Hf. rewrite Ha in Hi. injection Hi as Hi.
  exists id, (or_name receipt), (or_hostname receipt), url, first, pages, responses, w1, w2.
  split; [by destruct (obind _ as_str) as [[|]|]; [| injection Hid as <-|]|]. do 5 (split; [done|]). split; [done|]. split; [exact Hf|].
  intros response app Hr Happ Hcl.
  destruct (candidates_own _ _ _ _ Hc app) as (i & [= <-] & ?); [|done..]. rewrite Hi.
  apply list_elem_of_In, in_app_iff. apply elem_of_cons in Hr as [->|Hr]; [left; by apply list_elem_of_In|right].
  apply in_concat. exists (items_of None response). split; [apply in_map|]; by apply list_elem_of_In.
Qed.
End Proven.

(** ** Samples *)

#[local] Instance sample_display : FloatDisplay := fun _ => "0.5".
#[local] Instance sample_texts : RequestTexts :=
  {| json_number _ := None; header_name s := Some (to_ascii_lowercase s); header_value s := Some s |}.
#[local] Instance sample_runtime : Runtime :=
  {| to_vec _ := Ok ""; sha256_hex _ := ""; rfc3339 _ := ""; uuid_hyphenated s := Some s |}.
(** A provider that answers from a script, and cannot be reached after it. *)
#[local] Instance sample_provider : Provider list_urls := {|
  World := list CloudflareResponseV1;
  send _ answers :=
    match answers with [] => (Err PaginationMetadataInvalid, []) | answer :: answers => (Ok answer, answers) end;
|}.
Definition any_request (capability : CapabilityV1) (input : CallInput) : result CloudflareError unit := Ok tt.

Definition path_selector (name : string) : SelectorV1 := mkSelectorV1 name "path" true "string" None None.
Definition webhook_input (body : option Value) : CallInput :=
  mkCallInput (jobj [("account_id", VString "0a1b"); ("webhook_id", VString "w1")]) VNull body None None.
Definition with_verification (strategy : string) (selectors : list SelectorV1) (read : option SamePathReadContractV1)
    (schema : option Value) (c : CapabilityV1) : CapabilityV1 :=
  let k := classification_of c in
  classify {|
    class_selectors := selectors;
    class_permissions := class_permissions k;
    class_risk := class_risk k;
    class_effect := class_effect k;
    class_cost := class_cost k;
    class_verification := mkVerificationSpecV1 true strategy;
    class_rollback := class_rollback k;
    class_same_path_read := read;
    class_request_schema := schema;
    class_response_contract := class_response_contract k
  |} c.
Definition WEBHOOK : string := "/accounts/{account_id}/webhooks/{webhook_id}".
Definition webhook_put : CapabilityV1 :=
  with_verification "same_resource_contains_planned_fields_after_update" [path_selector "account_id"; path_selector "webhook_id"]
    (Some (mkSamePathReadContractV1 WEBHOOK "webhooks-get" ["events"; "name"])) (Some webhook_schema)
    (capability_new "webhooks-update" "Update a webhook" "PUT" WEBHOOK).

Lemma supported_update_admission_witness :
  validate_verification_preconditions any_request webhook_put (webhook_input (Some (VObject webhook_planned))) = Ok tt /\
  validate_verification_preconditions any_request webhook_put (webhook_input (Some (jobj [("colour", VString "red")]))) <> Ok tt.
Proof.
  split.
  - apply (supported_update_admission any_request webhook_put (webhook_input (Some (VObject webhook_planned))));
      [vm_compute; reflexivity|reflexivity|reflexivity|left; reflexivity|]. split; [reflexivity|].
    exists webhook_planned. split; [reflexivity|]. split; [discriminate|]. repeat constructor; vm_compute; discriminate.
  - vm_compute. discriminate.
Defined.

Definition applied (result : Value) : CloudflareResponseV1 := mkCloudflareResponseV1 200 true result [] None None None.
Definition unknown_strategy : Exchange OperationVerificationV1 := st_throw (UnsupportedVerificationStrategy "other").

Definition any_instant (text : string) : option DateTime := None.
Definition no_wrap (e : CoreError) : CloudflareError := InvalidBaseUrl.
Definition unwrap {E A} (r : result E A) : is_ok r = true -> A :=
  match r with
  | Ok a => fun _ => a
  | Err _ => fun H => match Bool.diff_false_true H with end
  end.
Definition plan_of (capability : CapabilityV1) : Result PlanV1 :=
  plan_draft (fun _ => Timestamp 0) "699d9864-2c56-4d2e-855e-9661899b7252" "admin" "0a1b" "catalog" capability VNull.
Definition webhook_plan : PlanV1 := unwrap (plan_of webhook_put) eq_refl.

(** The update is verified, and only a provider out of reach prevents it. *)
Lemma admitted_changes_are_verified_witness :
  (exists v, verify_plan_with_input api any_request no_wrap any_instant (Timestamp 0) webhook_plan (applied webhook_read)
               (webhook_input (Some (VObject webhook_planned))) unknown_strategy
               [applied (jobj [("name", VString "builds"); ("events", VArray [VString "push"])])] = (Ok v, []) /\ ov_passed v = true) /\
  read_fails api any_request webhook_put (webhook_input (Some (VObject webhook_planned))) PaginationMetadataInvalid [] [].
Proof.
  split; [eexists; split; vm_compute; reflexivity|].
  apply (admitted_changes_are_verified (provider := sample_provider) api any_request no_wrap any_instant (Timestamp 0) webhook_plan
    (applied webhook_read) (webhook_input (Some (VObject webhook_planned))) unknown_strategy PaginationMetadataInvalid [] []);
    [vm_compute; reflexivity|vm_compute; tauto|vm_compute; reflexivity].
Defined.

Definition webhook_delete : CapabilityV1 :=
  with_resources "Webhooks" [path_selector "account_id"; path_selector "webhook_id"] None
    (mkResources None None None
       (Some (mkDeletedResourceContractV1 "/accounts/{account_id}/webhooks" "webhook_id" "/id" "webhooks-list" true)) None None None)
    (with_verification "parent_collection_omits_deleted_resource_id" [] None None
       (capability_new "webhooks-delete" "Delete a webhook" "DELETE" WEBHOOK)).
Definition listed (items : list Value) : CloudflareResponseV1 :=
  mkCloudflareResponseV1 200 true (VArray items) []
    (Some (jobj [("count", nat_value (count_of items)); ("page", nat_value 1); ("total_pages", nat_value 1)])) None None.
Definition identified (id : string) : Value := jobj [("id", VString id)].

(** The preconditions look at the identity of the resource alone: without the
    account the deletion is admitted, and the listing cannot be asked for. *)
Example missing_parents_are_admitted :
  let input := mkCallInput (jobj [("webhook_id", VString "w1")]) VNull None None None in
  validate_verification_preconditions any_request webhook_delete input = Ok tt /\
  verify_plan_with_input api any_request no_wrap any_instant (Timestamp 0) (unwrap (plan_of webhook_delete) eq_refl)
    (applied VNull) input unknown_strategy [listed []] =
    (Err (MissingSelector "account_id"), [listed []]).
Proof. vm_compute. split; reflexivity. Qed.

Lemma verified_deletion_iff_witness :
  exists v, verify_parent_collection_delete api any_request webhook_delete (applied VNull) (webhook_input None)
              [listed [identified "w2"]] = (Ok v, []) /\ ov_passed v = true.
Proof.
  eexists. split; [vm_compute; reflexivity|].
  apply (verified_deletion_iff (provider := sample_provider) api any_request webhook_delete (applied VNull) (webhook_input None)
    (mkDeletedResourceContractV1 "/accounts/{account_id}/webhooks" "webhook_id" "/id" "webhooks-list" true) _
    [listed [identified "w2"]] []); [reflexivity|vm_compute; reflexivity|].
  split; [reflexivity|]. split; [reflexivity|]. split; [vm_compute; reflexivity|].
  exists "w1", [identified "w2"]. split; [reflexivity|]. split; [reflexivity|]. constructor; [|constructor].
  exists "w2". split; [reflexivity|]. split; discriminate.
Defined.

Definition owned_app : Value :=
  match owned_body "ops.example.com" with VObject body => VObject (bt_insert "id" (VString "9") body) | body => body end.

Lemma verified_owner_is_unique_witness :
  exists v, verify_owned_access_create api any_request webhook_put (applied (identified "9")) owned_input
    [applied owned_app; listed [owned_app; app_of "2" "docs" "docs.example.com"]] = (Ok v, []) /\ ov_passed v = true /\
  exists first pages, page_pagination (cr_result_info first) = Ok (Some pages) /\ current_page pages = 1 /\
    forall app, app ∈ items_of None first -> claims "ops" "ops.example.com" app -> obind (vget "id" app) as_str = Some "9".
Proof.
  eexists. split; [vm_compute; reflexivity|]. split; [reflexivity|].
  edestruct (verified_owner_is_unique (provider := sample_provider) api any_request webhook_put (applied (identified "9")) owned_input)
    with (w := [applied owned_app; listed [owned_app; app_of "2" "docs" "docs.example.com"]])
    as (id & name & hostname & url & first & pages & responses & w1 & w2 & Hid & Hname & Hhost & _ & Hp & H1 & _ & _ & Hown);
    [vm_compute; reflexivity|reflexivity|].
  injection Hid as <-. vm_compute in Hname. injection Hname as <-. vm_compute in Hhost. injection Hhost as <-.
  exists first, pages. split; [exact Hp|]. split; [exact H1|]. intros app Hin Hc. apply (Hown first app); [left|exact Hin|exact Hc].
Defined.
