(* ===== verification/OperationProofs.v ===== *)
(** What the verification of single operations rests on: a verified ruleset
    repair is the planned correction of the recorded state; a member of a list
    was removed when the provider completed the very operation and the whole
    list is without it; and the readback of a token keeps no secret, whose
    removal does not change the verdict. *)

From Stdlib Require Import String Ascii ZArith Lia List Bool.
From stdpp Require Import base option list strings.
From S2P Require Import Prelude Strings Btree Json JsonOps JsonEq Core CatalogTypes Capability CapabilityOps.
From S2P Require Import Contracts Plan RulesetRules DecimalMultiple CloudflareErrors RequestFormats RequestBuilder RequestPaths Samples Pagination Listings.
From S2P Require Import Sorting Readback ReadbackProofs AccessCreate VerificationTargets VerificationReads TokenVerification.
From S2P Require Import VerificationOperations VerificationProofs.

Open Scope cf_scope.
Open Scope string_scope.
Local Open Scope Z_scope.
Open Scope cf_scope.

Section Operations.
Context {fd : FloatDisplay} {rt : RequestTexts} {urls : Urls} {provider : Provider urls} {runtime : Runtime}.
Context (base_url : Url) (request_contract : CapabilityV1 -> CallInput -> result CloudflareError unit).
Context (Plan : CoreError -> CloudflareError).
Context (plan : PlanV1) (apply_response : CloudflareResponseV1) (input : CallInput).

(** ** Ruleset repairs *)

Lemma read_one_ok read selectors readback w w' :
  read_one base_url request_contract read selectors w = (Ok readback, w') ->
  exists url, build_read base_url request_contract read selectors = Ok url /\ send url w = (Ok readback, w').
Proof. unfold read_one. intros (url & w1 & [Hb ->]%st_lift_ok & H)%st_bind_ok. by exists url. Qed.

Lemma read_rule_parent_inv supported valid_body read_id title read_path target rejected readback w w' :
  read_rule_parent base_url request_contract plan input supported valid_body read_id title read_path target rejected w
    = (Ok readback, w') ->
  cr_success readback = true /\ cr_status readback = 200 /\ exists url, send url w = (Ok readback, w').
Proof.
  unfold read_rule_parent. intros ([] & w0 & [_ ->]%st_guard_ok & H)%st_bind_ok. apply st_bind_ok in H as (response & w1 & Hr & H).
  apply read_one_ok in Hr as (url & _ & Hsend). apply st_bind_ok in H as ([] & w2 & [Hg ->]%st_guard_ok & H).
  apply st_bind_ok in H as (rule & w2 & [_ ->]%st_lift_ok & H). injection H as <- <-.
  apply orb_false_iff in Hg as [[H1%negb_false_iff H2%negb_false_iff]%orb_false_iff _]. rewrite eqb_true in H2.
  split; [done|]. split; [done|]. by exists url.
Qed.

(** C18: a verified challenge repair is the planned correction. The ruleset that
    was read back is a correction of the state the plan recorded before the
    mutation, by the planned expression: that rule alone moved, everything else
    in the ruleset is as it was; and the answer to the mutation already said
    so. *)
Theorem verified_challenge_is_the_correction v w w' :
  verify_custom_challenge_rule base_url request_contract plan apply_response input w = (Ok v, w') -> ov_passed v = true ->
  exists body before url, ci_body input = Some body /\ challenge_prior plan (ci_selectors input) body = Ok before /\
    send url w = (Ok (ov_readback v), w') /\ cr_success apply_response = true /\ cr_status apply_response = 200 /\
    cr_result apply_response =j cr_result (ov_readback v) /\
    (value_wf before = true -> value_wf (cr_result (ov_readback v)) = true ->
     corrected before (cr_result (ov_readback v)) (ci_selectors input) body).
Proof.
  unfold verify_custom_challenge_rule. intros (body & w0 & [Hb ->]%st_lift_ok & H)%st_bind_ok Hpass.
  apply st_bind_ok in H as (before & w1 & [Hp ->]%st_lift_ok & H). apply st_bind_ok in H as (readback & w2 & Hr & H).
  injection H as <- <-. cbn [ov_passed ov_readback] in *. apply read_rule_parent_inv in Hr as (_ & _ & url & Hsend).
  rewrite !andb_true_iff in Hpass. destruct Hpass as [[[Hc _] He] Hv]. unfold applied_cleanly in Hc.
  rewrite !andb_true_iff in Hc. destruct Hc as [[Hs Ht] _].
  destruct (ci_body input) as [b|]; [|done]. injection Hb as ->. exists body, before, url. split; [done|].
  split; [by destruct (challenge_prior plan (ci_selectors input) body); [injection Hp as ->|]|].
  rewrite eqb_true in Ht. do 4 (split; [done|]). intros Wb Wr. apply challenge_verified; [done..|].
  by destruct (challenge_verify_after _ _ _ _) as [[]|].
Qed.

(** ** Members of a list *)

(** The polling ended with an answer about the operation itself. *)
Lemma poll_operation_inv contract url operation_id : forall attempts w w' status response,
  poll_operation attempts contract url operation_id w = (Ok (Some (status, response)), w') ->
  (exists w1, send url w1 = (Ok response, w')) /\ cr_success response = true /\
  obind (vpointer (acm_status_operation_id_pointer contract) (cr_result response)) as_str = Some operation_id /\
  obind (vpointer (acm_status_state_pointer contract) (cr_result response)) as_str = Some status /\
  (status = acm_completed_state contract \/ status = acm_failed_state contract).
Proof.
  induction attempts as [|attempts IH]; intros w w' status response H; [done|]. cbn [poll_operation] in H.
  apply st_bind_ok in H as (r & w1 & Hsend & H). apply st_bind_ok in H as ([] & w2 & [Hg ->]%st_guard_ok & H).
  apply required_ok in H as (s & Hs & H). destruct (_ || _) eqn:E in H.
  - injection H as -> -> <-. apply orb_false_iff in Hg as [Hg%negb_false_iff Hi]. rewrite neqb_false in Hi.
    rewrite orb_true_iff, !eqb_true in E. split; [by exists w|]. split; [done|]. split; [done|].
    by split.
  - apply st_bind_ok in H as ([] & w2 & [_ ->]%st_guard_ok & H). by eapply IH.
Qed.

(** C19: a removed member is gone from the whole list. When the removal of a
    member passed, the provider had answered that this very operation was
    completed, and in the list it gave afterwards, read to the last cursor
    where that is required, every item has an identity and none the removed
    one. *)
Theorem removed_member_is_absent v w w' :
  verif_strategy (cap_verification (plan_capability plan)) <> "async_list_operation_completes_and_correlated_member_exists" ->
  verify_async_list_mutation base_url request_contract Plan plan apply_response input w = (Ok v, w') -> ov_passed v = true ->
  exists contract operation_id deleted completed collection items status_url url w1 w2 w3,
    cap_async_collection_mutation (plan_capability plan) = Some contract /\
    identity_at (acm_apply_operation_id_pointer contract) (cr_result apply_response) = Some operation_id /\
    governed_list_delete_ids input = Ok [deleted] /\
    send status_url w1 = (Ok completed, w2) /\ cr_success completed = true /\
    identity_at (acm_status_operation_id_pointer contract) (cr_result completed) = Some operation_id /\
    identity_at (acm_status_state_pointer contract) (cr_result completed) = Some (acm_completed_state contract) /\
    send_paginated "GET" url w3 = (Ok collection, w') /\ cr_success collection = true /\
    cursor_is_complete contract collection = true /\ cr_result collection = VArray items /\
    Forall (fun item => exists id, identity_at (acm_collection_item_identity_pointer contract) item = Some id /\
      id <> "" /\ id <> deleted) items.
Proof.
  intros Hstrategy H Hpass. unfold verify_async_list_mutation in H.
  apply required_ok in H as (contract & Hc & H). apply required_ok in H as (operation_id & Ho & H).
  apply required_ok in H as (account_id & _ & H). apply required_ok in H as (list_id & _ & H).
  apply st_bind_ok in H as (status_url & w0 & [_ ->]%st_lift_ok & H).
  apply st_bind_ok in H as (terminal & w2 & Hpoll & H). destruct terminal as [[status response]|]; [|injection H as <- _; discriminate Hpass].
  apply poll_operation_inv in Hpoll as ([w1 Hsend] & Hs & Hid & Hstate & Hend).
  destruct (status =? acm_failed_state contract)%cf eqn:Ef; [injection H as <- _; discriminate Hpass|].
  rewrite eqb_false in Ef. destruct Hend as [->|Hend]; [|done].
  apply st_bind_ok in H as (collection_url & w3 & [_ ->]%st_lift_ok & H). apply st_bind_ok in H as (collection & w3 & Hlist & H).
  apply required_ok in H as (items & Hi & H). rewrite <- eqb_false in Hstrategy. rewrite Hstrategy in H.
  apply st_lift_ok in H as [H ->]. unfold evaluate_async_list_removal in H. apply res_bind_ok in H as (deleted_ids & Hd & H).
  apply res_bind_ok in H as (hash & _ & [= <-]). cbn [ov_passed with_correlated] in Hpass.
  rewrite !andb_true_iff, !forallb_forall in Hpass. destruct Hpass as [[[[_ Hsc] Hcur] Hshape] Habsent].
  assert (Hone : exists deleted, deleted_ids = [deleted]).
  { unfold governed_list_delete_ids in Hd. apply res_bind_ok in Hd as (? & _ & Hd). apply res_bind_ok in Hd as (id & _ & [= <-]). by exists id. }
  destruct Hone as [deleted ->].
  exists contract, operation_id, deleted, response, collection, items, status_url,
    (set_query_parameter collection_url "per_page" "500"), w1, w2, w2.
  split; [done|]. split.
  { unfold nonempty_str, ofilter in Ho. destruct (identity_at _ _) as [o|]; [|done]. cbn in Ho.
    destruct (negb (is_empty o)); [|done]. by injection Ho as ->. }
  do 8 (split; [done|]). split; [by destruct (cr_result collection); try done; injection Hi as ->|].
  apply List.Forall_forall. intros item Hin. specialize (Hshape _ (in_map _ _ _ Hin)). specialize (Habsent deleted (or_introl eq_refl)).
  rewrite forallb_forall in Habsent. specialize (Habsent _ (in_map _ _ _ Hin)). rewrite neqb_true in Habsent.
  unfold nonempty_str, ofilter in Hshape, Habsent. destruct (identity_at _ item) as [[|a id]|]; [done| |done].
  exists (String a id). split; [done|]. split; [done|]. intros E. apply Habsent. rewrite <- E. reflexivity.
Qed.

(** ** Tokens *)

Lemma redacted_member name response : name <> "value" -> name <> "token" ->
  vget name (cr_result (redact_token_secret_fields response)) = vget name (cr_result response).
Proof.
  intros H1 H2. unfold redact_token_secret_fields. destruct (cr_result response) as [| | | | |m] eqn:E; [by rewrite E..|].
  cbn. by rewrite !bt_get_remove_ne.
Qed.

(** The readback of a token keeps no secret. It is what the provider
    answered about the token, without its [value] and [token] members, and the
    verdict is the one the whole answer would have given. *)
Theorem token_readback_keeps_no_secret v w w' :
  verify_api_token base_url request_contract plan apply_response input w = (Ok v, w') ->
  exists token_id expectation url response,
    token_verification_target (verif_strategy (cap_verification (plan_capability plan))) input apply_response
      = Ok (token_id, expectation) /\
    send url w = (Ok response, w') /\
    ov_passed v = evaluate_token_readback expectation token_id response /\
    (value_wf (cr_result response) = true ->
     forall name, vget name (cr_result (ov_readback v)) =
       if (name =? "value")%cf || (name =? "token")%cf then None else vget name (cr_result response)).
Proof.
  unfold verify_api_token. intros ([token_id expectation] & w0 & [Ht ->]%st_lift_ok & H)%st_bind_ok.
  apply st_bind_ok in H as (response & w1 & (url & _ & Hsend)%read_one_ok & H). injection H as <- <-.
  exists token_id, expectation, url, response. do 2 (split; [done|]). cbn [ov_passed ov_readback with_correlated]. split.
  - assert (Hid : evaluate_active_id_and_status token_id (redact_token_secret_fields response)
                  = evaluate_active_id_and_status token_id response).
    { unfold evaluate_active_id_and_status. rewrite !redacted_member by done. unfold redact_token_secret_fields.
      by destruct (cr_result response). }
    destruct expectation as [|planned|]; cbn [evaluate_token_readback].
    + done.
    + unfold evaluate_created_token_readback. by rewrite Hid, redacted_member.
    + unfold redact_token_secret_fields. by destruct (cr_result response).
  - intros Hwf name. unfold redact_token_secret_fields. destruct (cr_result response) as [| | | | |m] eqn:E;
      try (rewrite E; by destruct (_ || _)).
    cbn in Hwf. apply andb_true_iff in Hwf as [Hsorted _]. cbn [cr_result set_result vget].
    rewrite !bt_get_remove by (try apply bt_remove_sorted; done).
    by destruct (name =? "value")%cf, (name =? "token")%cf.
Qed.
End Operations.

(** ** Samples *)

#[local] Instance sample_display : FloatDisplay := fun _ => "0.5".
#[local] Instance sample_texts : RequestTexts :=
  {| json_number _ := None; header_name s := Some (to_ascii_lowercase s); header_value s := Some s |}.
#[local] Instance sample_runtime : Runtime :=
  {| to_vec _ := Ok ""; sha256_hex _ := ""; rfc3339 _ := ""; uuid_hyphenated s := Some s |}.
#[local] Instance sample_provider : Provider list_urls := {|
  World := list CloudflareResponseV1;
  send _ answers :=
    match answers with [] => (Err PaginationMetadataInvalid, []) | answer :: answers => (Ok answer, answers) end;
|}.

Definition challenge_capability : CapabilityV1 :=
  let c := capability_new challenge_rule_ID "Correct a challenge" "PATCH" challenge_rule_PATH in
  classify {|
    class_selectors := map path_selector ["zone_id"; "ruleset_id"; "rule_id"];
    class_permissions := ["Zone WAF Read"; "Zone WAF Write"];
    class_risk := RiskClass_IdentityOrOwnership;
    class_effect := EffectClass_ReversibleWrite;
    class_cost := cap_cost c;
    class_verification := mkVerificationSpecV1 true challenge_rule_VERIFY;
    class_rollback := mkRollbackSpecV1 true (Some challenge_rule_ROLLBACK) None;
    class_same_path_read := Some (mkSamePathReadContractV1 challenge_rule_READ_PATH challenge_rule_READ_ID ["expression"]);
    class_request_schema := Some challenge_rule_request_schema;
    class_response_contract := Some (mkResponseContractV1 ["200"] ["application/json"] ResponseBodyMode_CloudflareJsonEnvelope)
  |} c.

Definition with_preconditions (targets : Value) (hashes : btree string) (p : PlanV1) : PlanV1 := {|
  plan_schema_version := plan_schema_version p;
  plan_operation_id := plan_operation_id p;
  plan_created_at := plan_created_at p;
  plan_expires_at := plan_expires_at p;
  plan_profile_id := plan_profile_id p;
  plan_account_id := plan_account_id p;
  plan_catalog_hash := plan_catalog_hash p;
  plan_permission_lane := plan_permission_lane p;
  plan_precondition_hashes := hashes;
  plan_capability := plan_capability p;
  plan_targets := targets;
  plan_input := plan_input p;
  plan_affected_repositories := plan_affected_repositories p;
  plan_affected_resources := plan_affected_resources p;
  plan_local_diffs := plan_local_diffs p;
  plan_cloudflare_diffs := plan_cloudflare_diffs p;
  plan_verification_steps := plan_verification_steps p;
  plan_compensation_steps := plan_compensation_steps p;
  plan_non_reversible_warnings := plan_non_reversible_warnings p;
  plan_policy := plan_policy p;
  plan_status := plan_status p;
  plan_approval := plan_approval p;
  plan_cancelled_at := plan_cancelled_at p;
  plan_content_hash := plan_content_hash p;
  plan_transaction_stage := plan_transaction_stage p;
  plan_transaction_journal := plan_transaction_journal p;
  plan_transaction_artifacts := plan_transaction_artifacts p
|}.

Definition challenge_receipt_value : Value :=
  unwrap (challenge_receipt challenge_capability sample_selectors "0a1b" sample_challenge_before sample_challenge_body) eq_refl.
Definition challenge_plan : PlanV1 :=
  with_preconditions (jobj [("live_preconditions", jobj [("same_path_prior_state", challenge_receipt_value)])])
    [("same_path_prior_state", "sha256:")] (unwrap (plan_of challenge_capability) eq_refl).
Definition challenge_input : CallInput :=
  mkCallInput sample_selectors (jobj []) (Some sample_challenge_body) None None.

Lemma verified_challenge_is_the_correction_witness :
  exists v, verify_custom_challenge_rule api any_request challenge_plan (applied sample_challenge_after) challenge_input
              [applied sample_challenge_after] = (Ok v, []) /\ ov_passed v = true /\
    corrected sample_challenge_before sample_challenge_after sample_selectors sample_challenge_body.
Proof.
  eexists. split; [vm_compute; reflexivity|]. split; [reflexivity|].
  edestruct (verified_challenge_is_the_correction (provider := sample_provider) api any_request challenge_plan
    (applied sample_challenge_after) challenge_input) with (w := [applied sample_challenge_after])
    as (body & before & url & Hb & Hp & _ & _ & _ & _ & Hc); [vm_compute; reflexivity|reflexivity|].
  injection Hb as <-. vm_compute in Hp. injection Hp as <-. apply Hc; vm_compute; reflexivity.
Defined.

Definition list_contract : AsyncCollectionMutationContractV1 :=
  mkAsyncCollectionMutationContractV1 "/accounts/{account_id}/rules/lists/bulk_operations/{operation_id}" "lists-get-bulk-operation-status"
    "operation_id" "/operation_id" "/id" "/status" ["pending"; "running"] "completed" "failed" 30 1000
    "/accounts/{account_id}/rules/lists/{list_id}/items" "lists-get-list-items" "/accounts/{account_id}/rules/lists/{list_id}"
    "lists-get-a-list" "/id" None None true.
Definition list_removal : CapabilityV1 :=
  with_resources "Lists" (map path_selector ["account_id"; "list_id"]) None
    (mkResources None None None None None None (Some list_contract))
    (with_verification "async_list_operation_completes_and_members_absent" [] None None
       (capability_new "lists-delete-list-items" "Remove a member" "DELETE" "/accounts/{account_id}/rules/lists/{list_id}/items")).
Definition removal_plan : PlanV1 := unwrap (plan_of list_removal) eq_refl.
Definition removal_input : CallInput :=
  mkCallInput (jobj [("account_id", VString "0a1b"); ("list_id", VString "l1")]) VNull
    (Some (jobj [("items", VArray [identified "m1"])])) None None.
Definition operation_is (status : string) : CloudflareResponseV1 := applied (jobj [("id", VString "op9"); ("status", VString status)]).

Lemma removed_member_is_absent_witness :
  exists v, verify_async_list_mutation api any_request no_wrap removal_plan (applied (jobj [("operation_id", VString "op9")])) removal_input
              [operation_is "running"; operation_is "completed"; cursor_answer None [identified "m2"]] = (Ok v, []) /\
    ov_passed v = true /\ exists items, Forall (fun item => exists id, identity_at "/id" item = Some id /\ id <> "" /\ id <> "m1") items.
Proof.
  eexists. split; [vm_compute; reflexivity|]. split; [reflexivity|].
  edestruct (removed_member_is_absent (provider := sample_provider) api any_request no_wrap removal_plan
    (applied (jobj [("operation_id", VString "op9")])) removal_input)
    with (w := [operation_is "running"; operation_is "completed"; cursor_answer None [identified "m2"]])
    as (contract & op & deleted & completed & collection & items & su & u & w1 & w2 & w3 & Hc & _ & Hd & _ & _ & _ & _ & _ & _ & _ & _ & Hall);
    [discriminate|vm_compute; reflexivity|reflexivity|].
  injection Hc as <-. vm_compute in Hd. injection Hd as <-. exists items. exact Hall.
Defined.

Definition token_create : CapabilityV1 :=
  with_verification CREATE_STRATEGY (map path_selector ["account_id"]) None None
    (capability_new "account-api-tokens-create-token" "Create a token" "POST" "/accounts/{account_id}/tokens").
Definition token_plan : PlanV1 := unwrap (plan_of token_create) eq_refl.
Definition token_answer : CloudflareResponseV1 :=
  applied (jobj [("id", VString "t1"); ("status", VString "active"); ("value", VString "s3cret");
                 ("policies", VArray [policy_value ["read"] "account.a2"; policy_value ["write"; "read"] "account.a1"])]).

Lemma token_readback_keeps_no_secret_witness :
  exists v, verify_api_token api any_request token_plan token_answer token_input [token_answer] = (Ok v, []) /\
    ov_passed v = true /\ exists token_id expectation response,
      token_verification_target CREATE_STRATEGY token_input token_answer = Ok (token_id, expectation) /\
      evaluate_token_readback expectation token_id response = true.
Proof.
  eexists. split; [vm_compute; reflexivity|]. split; [reflexivity|].
  edestruct (token_readback_keeps_no_secret (provider := sample_provider) api any_request token_plan token_answer token_input)
    with (w := [token_answer]) as (token_id & expectation & url & response & Ht & _ & He & _); [vm_compute; reflexivity|].
  exists token_id, expectation, response. split; [exact Ht|]. symmetry. exact He.
Defined.
