(* ===== verification/Paths.v ===== *)
(** Paths as [std::path] reads them on Unix: components, joining, and the
    normalised relative paths that workspace sources are named by
    (crates/cfctl-workspace/src/d1_operation.rs, [safe_relative]). *)

From Stdlib Require Import String Ascii ZArith Lia List Bool.
From stdpp Require Import base option list strings.
From S2P Require Import Prelude Strings Btree Json JsonOps.

Open Scope cf_scope.
Open Scope string_scope.
Open Scope cf_scope.

Inductive Component : Type :=
| RootDir
| CurDir
| ParentDir
| Normal (name : string).
#[export] Instance Component_eq_dec : EqDecision Component.
Proof. solve_decision. Defined.

(** [Path::is_absolute] *)
Definition is_absolute (path : string) : bool := starts_with path "/".

Definition component_of (piece : string) : option Component :=
  if (piece =? "") || (piece =? ".") then None
  else if piece =? ".." then Some ParentDir else Some (Normal piece).

(** [Path::components] *)
Definition components (path : string) : list Component :=
  let pieces := split_on "/" path in
  let rest := omap component_of pieces in
  if is_absolute path then RootDir :: rest
  else match pieces with
       | "." :: _ => CurDir :: rest
       | _ => rest
       end.

(** [Component::as_os_str] *)
Definition component_str (c : Component) : string :=
  match c with
  | RootDir => "/"
  | CurDir => "."
  | ParentDir => ".."
  | Normal name => name
  end.

(** [Path::join]: an absolute argument replaces the base, and a separator is
    added only where the base has none. *)
Definition path_push (base name : string) : string :=
  if is_absolute name then name
  else if is_empty base || ends_with base "/" then base ++ name
  else base ++ "/" ++ name.

(** The components a workspace source path may have. *)
Definition is_normal (c : Component) : bool :=
  match c with Normal _ => true | _ => false end.
