(* ===== verification/Files.v ===== *)
(** The file system under the state store (crates/cfctl-storage/src/lib.rs):
    what the store can see of a path, the calls it makes with the faults the
    operating system may return, and the atomic writes built from them. A
    crash leaves the files as the fault at the next call would. *)

From Stdlib Require Import String Ascii ZArith Lia List Bool.
From stdpp Require Import base option list strings gmap.
From S2P Require Import Prelude Strings Btree Json JsonOps Core.

Open Scope cf_scope.
Open Scope string_scope.
Open Scope cf_scope.

(** ** Errors *)

Inductive ErrorKind : Type :=
| NotFound
| AlreadyExists
| OtherKind (detail : string).

(** [StorageError], with the source of an I/O error cut down to its kind and
    [error.to_string()] kept as the error. *)
#[warnings="-register-all"]
Inductive StorageError : Type :=
| PlatformDirectoriesUnavailable
| InvalidRuntimeRoot (root : string)
| Io (path : string) (source : ErrorKind)
| WriteDurabilityUnknown (path : string) (source : ErrorKind)
| Json (error : string)
| CapabilityPublicationCleanupFailed (path temporary_name directory_durability : string)
    (source : ErrorKind)
| SensitiveData
| InvalidPlan (error : CoreError)
| UnsafeImportPath (path : string)
| PlanNotFound (operation_id : string)
| PlanV2NotFound (operation_id : string)
| DeploymentPlanSetNotFound (bundle_id : string)
| DeploymentPlanSetAlreadyExists (bundle_id : string)
| InvalidDeploymentPlanSetId (bundle_id : string)
| PlanProjectionDrift (operation_id : string)
| CorruptPlan (operation_id : string) (reason : StorageError)
| PlanProjectionWriteFailed (operation_id : string) (reason : StorageError)
| AuthorityNotFound (authority_id : string)
| InvalidPlanId (operation_id : string)
| InvalidAuthorityId (authority_id : string)
| UnsafeManagedDocument (path reason : string)
| ManagedDocumentIdentityMismatch (kind filename_id document_id : string)
| AuthorityAlreadyExists (authority_id : string)
| AdmissionBundleNotFound (bundle_id : string)
| AdmissionBundleAlreadyExists (bundle_id : string)
| InvalidAdmissionBundleId (bundle_id : string)
| InvalidAdmissionPointer (reason : string)
| InvalidWorkspaceManifest (reason : string)
| AuthorityLockMismatch (authority_id : string)
| AuthorityRevocationRollback (authority_id : string)
| PlanLocked (operation_id : string)
| WorkerDeploymentLocked (account_id script_name : string)
| EmailRoutingCatchAllLocked (account_id zone_id : string)
| ArchivedOperation (operation_id archive : string)
| StorageClock
| InvalidOperationalProof (reason : string)
| EvidenceAuthentication (reason : string).

(** ** State *)

(** What a path names. Following a symbolic link gives the contents of a
    regular file, or fails. *)
Inductive Entry : Type :=
| Regular (bytes : string)
| Link (target : option string)
| Directory.

#[export] Instance Entry_eq_dec : EqDecision Entry.
Proof. solve_decision. Defined.

Abbreviation Files := (gmap string Entry).

(** The files, and the faults the coming system calls meet, in order. *)
Record World : Type := mkWorld {
  files : Files;
  faults : nat -> option string;
}.

Abbreviation IO := (ST World StorageError).

(** The world after one more call that left [f]. *)
Definition next_world (f : Files) (w : World) : World := mkWorld f (fun n => faults w (S n)).

(** ** Calls *)

(** One system call: it fails with the fault that is due and no effect, or
    acts on the files. *)
Definition syscall {A} (act : Files -> result ErrorKind (A * Files)) : ST World ErrorKind A :=
  fun w =>
    match faults w 0 with
    | Some detail => (Err (OtherKind detail), next_world (files w) w)
    | None =>
        match act (files w) with
        | Ok (a, f) => (Ok a, next_world f w)
        | Err k => (Err k, next_world (files w) w)
        end
    end.

(** A call without effect on managed paths: it can only fail. *)
Definition attempt : ST World ErrorKind unit := syscall (fun f => Ok (tt, f)).

(** [result.map_err(f)] *)
Definition st_map_err {S E F A} (f : E -> F) (m : ST S E A) : ST S F A :=
  fun s => match m s with
           | (Ok a, s) => (Ok a, s)
           | (Err e, s) => (Err (f e), s)
           end.

(** A call on a document the caller owns, [document.call()?]. *)
Definition in_place {S E} (m : ST S E unit) (s : S) : result E S :=
  match m s with
  | (Ok _, s) => Ok s
  | (Err e, _) => Err e
  end.

(** A call whose outcome the caller matches on. *)
Definition st_try {S E F A} (m : ST S E A) : ST S F (result E A) :=
  fun s => let (r, s) := m s in (Ok r, s).

(** [.map_err(|source| io_error(path, source))] *)
Definition io {A} (path : string) (m : ST World ErrorKind A) : IO A := st_map_err (Io path) m.

(** [fs::symlink_metadata] *)
Definition symlink_metadata (path : string) : ST World ErrorKind Entry :=
  syscall (fun f => match f !! path with Some e => Ok (e, f) | None => Err NotFound end).

(** [fs::read], which follows links *)
Definition fs_read (path : string) : ST World ErrorKind string :=
  syscall (fun f =>
    match f !! path with
    | Some (Regular bytes) | Some (Link (Some bytes)) => Ok (bytes, f)
    | Some Directory => Err (OtherKind "is a directory")
    | Some (Link None) | None => Err NotFound
    end).

(** [path.is_file()] follows links and answers [false] on any error. *)
Definition is_file (path : string) : IO bool :=
  fun w =>
    match faults w 0, files w !! path with
    | None, Some (Regular _) | None, Some (Link (Some _)) => (Ok true, next_world (files w) w)
    | _, _ => (Ok false, next_world (files w) w)
    end.

(** [NamedTempFile::persist]: rename over whatever is there. *)
Definition persist (path bytes : string) : ST World ErrorKind unit :=
  syscall (fun f =>
    match f !! path with
    | Some Directory => Err (OtherKind "is a directory")
    | _ => Ok (tt, <[path := Regular bytes]> f)
    end).

(** [NamedTempFile::persist_noclobber] *)
Definition persist_noclobber (path bytes : string) : ST World ErrorKind unit :=
  syscall (fun f =>
    match f !! path with
    | Some _ => Err AlreadyExists
    | None => Ok (tt, <[path := Regular bytes]> f)
    end).

(** [path.parent()], for the error text. *)
Definition parent (path : string) : string :=
  join "/" (removelast (split_on "/" path)).

(** ** Atomic writes *)

(** The temporary file: create the directory and the file, restrict it, write
    it and sync it. *)
Definition write_temporary (path : string) : IO unit :=
  do* io (parent path) attempt in
  do* io (parent path) attempt in
  do* io path attempt in
  do* io path attempt in
  io path attempt.

(** [directory_sync(parent)] *)
Definition sync_parent (path : string) : IO unit :=
  st_map_err (WriteDurabilityUnknown path) attempt.

Definition atomic_create (path bytes : string) : IO unit :=
  do* write_temporary path in
  do* io path (persist_noclobber path bytes) in
  sync_parent path.

Definition atomic_write (path bytes : string) : IO unit :=
  do* write_temporary path in
  do* io path (persist path bytes) in
  sync_parent path.

Definition unsafe_managed_document (path reason : string) : StorageError :=
  UnsafeManagedDocument path reason.

Definition validate_existing_managed_file (path : string) : IO bool :=
  fun w =>
    match symlink_metadata path w with
    | (Err NotFound, w) => (Ok false, w)
    | (Err source, w) => (Err (Io path source), w)
    | (Ok (Link _), w) =>
        (Err (unsafe_managed_document path "symbolic links are forbidden"), w)
    | (Ok Directory, w) =>
        (Err (unsafe_managed_document path "managed documents must be regular files"), w)
    | (Ok (Regular _), w) => (Ok true, w)
    end.

(** ** Stored documents *)

(** [serde_json::to_vec_pretty] of a value. *)
Class Pretty : Type := to_vec_pretty : Value -> result string string.
(** [serde_json::from_slice] at a type. *)
Class Decode (A : Type) : Type := from_slice : string -> result string A.

Section Documents.
Context `{Pretty} {A : Type} `{Serialize A} `{Decode A}.

(** [StateStore::write_json] *)
Definition write_json (path : string) (value : A) : IO unit :=
  let* encoded := st_lift (map_err Json (to_vec_pretty (to_value value))) in
  atomic_write path encoded.

(** [StateStore::read_json] *)
Definition read_json (path : string) : IO A :=
  let* encoded := io path (fs_read path) in
  st_lift (map_err Json (from_slice encoded)).
End Documents.

(** ** Facts *)

(** A world in which no call fails: on it the store is a function of files. *)
Definition calm (f : Files) : World := mkWorld f (fun _ => None).

(** What reading [path] gives. *)
Definition contents (f : Files) (path : string) : option string :=
  match f !! path with
  | Some (Regular bytes) | Some (Link (Some bytes)) => Some bytes
  | _ => None
  end.

Definition document {A} `{Decode A} (f : Files) (path : string) : option A :=
  match contents f path with
  | Some bytes => match from_slice bytes with Ok a => Some a | Err _ => None end
  | None => None
  end.

Lemma map_err_ok {E F A} (g : E -> F) (r : result E A) a : map_err g r = Ok a <-> r = Ok a.
Proof. destruct r; cbn; split; congruence. Qed.

Lemma syscall_inv {A} (act : Files -> result ErrorKind (A * Files)) w r w' :
  syscall act w = (r, w') ->
  (files w' = files w /\ exists k, r = Err k) \/
  (exists a, act (files w) = Ok (a, files w') /\ r = Ok a).
Proof.
  unfold syscall. destruct (faults w 0); [intros [= <- <-]; left; eauto|].
  destruct (act (files w)) as [[a f]|k]; intros [= <- <-]; eauto.
Qed.

Lemma st_map_err_inv {S E F A} (f : E -> F) (m : ST S E A) s r s' :
  st_map_err f m s = (r, s') ->
  exists r0, m s = (r0, s') /\ r = map_err f r0.
Proof. unfold st_map_err. destruct (m s) as [[a|e] s1]; intros [= <- <-]; eexists; done. Qed.

Lemma attempt_inv w r w' : attempt w = (r, w') -> files w' = files w.
Proof. intros [[? _]|(a & [= ? ?] & _)]%syscall_inv; congruence. Qed.

Lemma io_attempt_inv path w r w' : io path attempt w = (r, w') -> files w' = files w.
Proof. intros (r0 & H%attempt_inv & _)%st_map_err_inv. done. Qed.

Lemma write_temporary_inv path w r w' : write_temporary path w = (r, w') -> files w' = files w.
Proof.
  unfold write_temporary. intros H.
  repeat (apply st_bind_inv in H as [([] & ? & H1%io_attempt_inv & H)|(? & H1%io_attempt_inv & _)];
    [|congruence]; rewrite <- H1; clear H1).
  by apply io_attempt_inv in H.
Qed.

Lemma sync_parent_inv path w r w' :
  sync_parent path w = (r, w') ->
  files w' = files w /\ (r = Ok tt \/ exists k, r = Err (WriteDurabilityUnknown path k)).
Proof.
  intros (r0 & H%attempt_inv & ->)%st_map_err_inv. split; [done|].
  destruct r0 as [[]|]; cbn; eauto.
Qed.

(** A write either left everything as it was and failed, or took place - and
    may still fail to know that it is durable. *)
Definition written (path bytes : string) (f f' : Files) (r : result StorageError unit) : Prop :=
  (f' = f /\ exists e, r = Err e) \/
  (f' = <[path := Regular bytes]> f /\
   (r = Ok tt \/ exists k, r = Err (WriteDurabilityUnknown path k))).

Lemma atomic_write_inv path bytes w r w' :
  atomic_write path bytes w = (r, w') -> written path bytes (files w) (files w') r.
Proof.
  intros [([] & w1 & H1%write_temporary_inv & H)|(e & H1%write_temporary_inv & ->)]%st_bind_inv;
    [|by left; eauto].
  apply st_bind_inv in H as [([] & w2 & H & Hs%sync_parent_inv)|(e & H & ->)];
    apply st_map_err_inv in H as (r0 & H & Hr).
  - destruct Hs as [Hf Hs]. apply syscall_inv in H as [[_ [k ->]]|(a & Ha & _)]; [done|].
    rewrite H1 in Ha. right. rewrite Hf. split; [|done].
    by destruct (files w !! path) as [[]|]; simplify_eq.
  - left. apply syscall_inv in H as [[-> _]|(a & _ & ->)]; [|done]. eauto.
Qed.

Lemma atomic_create_inv path bytes w r w' :
  atomic_create path bytes w = (r, w') ->
  (files w' = files w /\ exists e, r = Err e) \/
  (files w !! path = None /\ files w' = <[path := Regular bytes]> (files w) /\
   (r = Ok tt \/ exists k, r = Err (WriteDurabilityUnknown path k))).
Proof.
  intros [([] & w1 & H1%write_temporary_inv & H)|(e & H1%write_temporary_inv & ->)]%st_bind_inv;
    [|by left; eauto].
  apply st_bind_inv in H as [([] & w2 & H & Hs%sync_parent_inv)|(e & H & ->)];
    apply st_map_err_inv in H as (r0 & H & Hr).
  - destruct Hs as [Hf Hs]. apply syscall_inv in H as [[_ [k ->]]|(a & Ha & _)]; [done|].
    rewrite H1 in Ha. destruct (files w !! path) eqn:E; [done|].
    right. rewrite Hf. split; [done|]. split; [by simplify_eq|done].
  - apply syscall_inv in H as [[Hf _]|(a & _ & ->)]; [|done]. rewrite H1 in Hf. left. eauto.
Qed.

Lemma validate_existing_inv path w r w' :
  validate_existing_managed_file path w = (r, w') ->
  files w' = files w /\
  (r = Ok true -> exists bytes, files w !! path = Some (Regular bytes)) /\
  (r = Ok false -> files w !! path = None).
Proof.
  unfold validate_existing_managed_file.
  destruct (symlink_metadata path w) as [r0 w0] eqn:E.
  unfold symlink_metadata in E. unfold syscall in E. destruct (faults w 0).
  { injection E as <- <-. by intros [= <- <-]. }
  destruct (files w !! path) as [e|] eqn:Ep; injection E as <- <-; [|by intros [= <- <-]].
  destruct e; intros [= <- <-]; (split; [done|]); (split; [|done]); [|done..]. eauto.
Qed.

Section Documents.
Context `{Pretty} {A : Type} `{Serialize A} `{Decode A}.

Lemma read_json_inv path w (r : result StorageError A) w' :
  read_json path w = (r, w') ->
  files w' = files w /\ (forall a, r = Ok a -> document (files w) path = Some a).
Proof.
  intros [(bytes & w1 & Hr & [= <- <-])|(e & Hr & ->)]%st_bind_inv;
    apply st_map_err_inv in Hr as (r0 & Hr & Hr0); apply syscall_inv in Hr.
  - destruct Hr as [[_ [k ->]]|(b & Hb & ->)]; [done|]. injection Hr0 as ->.
    unfold document, contents.
    destruct (files w !! path) as [[b'|[b'|]|]|]; try done; injection Hb as -> ->;
      (split; [done|]); intros a; destruct (from_slice b); cbn; congruence.
  - split; [|done]. destruct Hr as [[-> _]|(b & _ & ->)]; done.
Qed.

Lemma write_json_inv path (value : A) w r w' :
  write_json path value w = (r, w') ->
  (files w' = files w /\ exists e, r = Err e) \/
  exists bytes, to_vec_pretty (to_value value) = Ok bytes /\
    written path bytes (files w) (files w') r.
Proof.
  intros [(bytes & w1 & [= Hb <-] & Hw)|(e & [= He <-] & ->)]%st_bind_inv; [|by left; eauto].
  right. exists bytes. split; [by destruct (to_vec_pretty (to_value value)); simplify_eq/=|].
  by apply atomic_write_inv in Hw.
Qed.
End Documents.

(** ** Reasoning: what a call can leave, whatever fails *)

(** [wp m Q f]: started on files [f], under any faults, [m] ends in a result
    and files that satisfy [Q]. *)
Definition wp {E A} (m : ST World E A) (Q : result E A -> Files -> Prop) (f : Files) : Prop :=
  forall w r w', files w = f -> m w = (r, w') -> Q r (files w').

Section Wp.
Context {E : Type}.

Lemma wp_use {A} (m : ST World E A) Q w r w' : m w = (r, w') -> wp m Q (files w) -> Q r (files w').
Proof. intros Hm H. by apply (H w). Qed.

Lemma wp_mono {A} (m : ST World E A) (Q Q' : result E A -> Files -> Prop) f :
  wp m Q f -> (forall r f', Q r f' -> Q' r f') -> wp m Q' f.
Proof. intros H HQ w r w' Hf Hm. eapply HQ, H; done. Qed.

Lemma wp_any {A} (m : ST World E A) f : wp m (fun _ _ => True) f.
Proof. done. Qed.

Lemma wp_ret {A} (a : A) (Q : result E A -> Files -> Prop) f : Q (Ok a) f -> wp (st_ret a) Q f.
Proof. by intros H w r w' <- [= <- <-]. Qed.

Lemma wp_throw {A} e (Q : result E A -> Files -> Prop) f : Q (Err e) f -> wp (st_throw e) Q f.
Proof. by intros H w r w' <- [= <- <-]. Qed.

Lemma wp_lift {A} (x : result E A) (Q : result E A -> Files -> Prop) f : Q x f -> wp (st_lift x) Q f.
Proof. by intros H w r w' <- [= <- <-]. Qed.

Lemma wp_guard c e (Q : result E unit -> Files -> Prop) f :
  (c = true -> Q (Err e) f) -> (c = false -> Q (Ok tt) f) -> wp (st_guard c e) Q f.
Proof. unfold st_guard. destruct c; intros H1 H2; [by apply wp_throw, H1|by apply wp_ret, H2]. Qed.

Lemma wp_bind {A B} (m : ST World E A) (k : A -> ST World E B) Q f :
  wp m (fun r f' => match r with Ok a => wp (k a) Q f' | Err e => Q (Err e) f' end) f ->
  wp (st_bind m k) Q f.
Proof.
  intros H w r w' Hf [(a & w1 & Hm & Hk)|(e & Hm & ->)]%st_bind_inv.
  - specialize (H _ _ _ Hf Hm). by eapply H.
  - by specialize (H _ _ _ Hf Hm).
Qed.

Lemma wp_map_err {F A} (g : E -> F) (m : ST World E A) Q f :
  wp m (fun r => Q (map_err g r)) f -> wp (st_map_err g m) Q f.
Proof. intros H w r w' Hf (r0 & Hm & ->)%st_map_err_inv. by eapply H. Qed.

Lemma wp_try {F A} (m : ST World E A) (Q : result F (result E A) -> Files -> Prop) f :
  wp m (fun r => Q (Ok r)) f -> wp (st_try m) Q f.
Proof.
  intros H w r w' Hf. unfold st_try. destruct (m w) as [r0 w0] eqn:Em. intros [= <- <-].
  by eapply H.
Qed.
End Wp.

Lemma wp_existing path (Q : result StorageError bool -> Files -> Prop) f :
  (forall e, Q (Err e) f) ->
  (forall bytes, f !! path = Some (Regular bytes) -> Q (Ok true) f) ->
  (f !! path = None -> Q (Ok false) f) ->
  wp (validate_existing_managed_file path) Q f.
Proof.
  intros He Ht Hn w r w' <- (-> & H1 & H2)%validate_existing_inv.
  destruct r as [[]|e]; [|by apply Hn, H2|done].
  destruct (H1 eq_refl) as [bytes Hb]. by eapply Ht.
Qed.

Lemma wp_atomic_create path bytes (Q : result StorageError unit -> Files -> Prop) f :
  (forall e, Q (Err e) f) ->
  (forall r, f !! path = None -> (r = Ok tt \/ exists k, r = Err (WriteDurabilityUnknown path k)) ->
     Q r (<[path := Regular bytes]> f)) ->
  wp (atomic_create path bytes) Q f.
Proof.
  intros He Hc w r w' <- [[-> [e ->]]|(Hn & -> & Hr)]%atomic_create_inv; auto.
Qed.

Lemma wp_is_file path (Q : result StorageError bool -> Files -> Prop) f :
  Q (Ok false) f -> (forall bytes, contents f path = Some bytes -> Q (Ok true) f) ->
  wp (is_file path) Q f.
Proof.
  intros Hn Hy w r w' <-. unfold is_file, contents in *.
  destruct (faults w 0), (files w !! path) as [[b|[b|]|]|]; intros [= <- <-]; cbn; try done;
    by apply (Hy b).
Qed.

Section WpDocuments.
Context `{Pretty} {A : Type} `{Serialize A} `{Decode A}.

Lemma wp_read_json path (Q : result StorageError A -> Files -> Prop) f :
  (forall e, Q (Err e) f) ->
  (forall a, document f path = Some a -> Q (Ok a) f) ->
  wp (read_json path) Q f.
Proof.
  intros He Ha w r w' <- (-> & Hr)%read_json_inv. destruct r as [a|e]; [|done]. by apply Ha, Hr.
Qed.

Lemma wp_write_json path (value : A) (Q : result StorageError unit -> Files -> Prop) f :
  (forall e, Q (Err e) f) ->
  (forall bytes r, to_vec_pretty (to_value value) = Ok bytes ->
     (r = Ok tt \/ exists k, r = Err (WriteDurabilityUnknown path k)) ->
     Q r (<[path := Regular bytes]> f)) ->
  wp (write_json path value) Q f.
Proof.
  intros He Hw w r w' <- [[-> [e ->]]|(bytes & Hb & [[-> [e ->]]|[-> Hr]])]%write_json_inv; auto.
Qed.
End WpDocuments.

(** Walk through a call: the error of each step ends the walk. *)
Ltac wp_step :=
  lazymatch goal with
  | |- wp (st_bind _ _) _ _ => apply wp_bind
  | |- wp (st_lift ?r) _ _ => apply wp_lift; let E := fresh "E" in destruct r eqn:E; cbn beta iota
  | |- wp (st_ret _) _ _ => apply wp_ret; cbn beta iota
  | |- wp (st_throw _) _ _ => apply wp_throw; cbn beta iota
  | |- wp (st_guard _ _) _ _ => apply wp_guard; let G := fresh "Hguard" in intros G; cbn beta iota
  | |- wp (st_map_err _ _) _ _ => apply wp_map_err
  | |- wp (st_try _) _ _ => apply wp_try
  | |- wp (validate_existing_managed_file _) _ _ =>
      let G := fresh "Hentry" in
      apply wp_existing; [intros ?| intros ? G | intros G]; cbn beta iota
  | |- wp (read_json _) _ _ => let G := fresh "Hdoc" in apply wp_read_json; [intros ? | intros ? G]; cbn beta iota
  | |- wp (write_json _ _) _ _ => let G := fresh "Hbytes" in let W := fresh "Hwritten" in
      apply wp_write_json; [intros ? | intros ? ? G W]; cbn beta iota
  | |- wp (atomic_create _ _) _ _ =>
      let G := fresh "Habsent" in let W := fresh "Hwritten" in
      apply wp_atomic_create; [intros ? | intros ? G W]; cbn beta iota
  | |- wp (is_file _) _ _ =>
      let G := fresh "Hcontents" in apply wp_is_file; [|intros ? G]; cbn beta iota
  | |- wp (if ?b then _ else _) _ _ => let E := fresh "E" in destruct b eqn:E; try discriminate E
  | |- wp (match ?x with _ => _ end) _ _ => let E := fresh "E" in destruct x eqn:E
  end.

(** The two outcomes of a write that took place. *)
Ltac split_written :=
  match goal with
  | Hr : ?r = Ok tt \/ (exists k, ?r = Err (WriteDurabilityUnknown _ k)) |- _ =>
      destruct Hr as [->|[? ->]]; cbn beta iota
  end.
