(* ===== verification/Store.v ===== *)
(** What the parts of the state store share (crates/cfctl-storage/src/lib.rs):
    its paths, managed identifiers, lock files, how reads behave when nothing
    fails, and the encoders of the witnesses. *)

From Stdlib Require Import String Ascii ZArith Lia List Bool.
From stdpp Require Import base option list strings gmap.
From S2P Require Import Prelude Strings Btree Json JsonOps Core Demo Bytes Files.

Open Scope cf_scope.
Open Scope string_scope.
Open Scope cf_scope.

(** ** Paths *)

Record RuntimePaths : Type := mkRuntimePaths {
  config_dir : string;
  data_dir : string;
  cache_dir : string;
}.

Definition path_join (path name : string) : string := path ++ "/" ++ name.

(** [RuntimePaths::from_root] *)
Definition from_root (root : string) : RuntimePaths := {|
  config_dir := path_join root "config";
  data_dir := path_join root "data";
  cache_dir := path_join root "cache"
|}.

(** The historical runtime this one replaced, with the document its private
    directory gave for the transition. *)
Record Archive : Type := mkArchive {
  archive_data_dir : string;
  archive_document : result string (option string);
}.

(** [StateStore], as far as managed documents go. *)
Record StateStore : Type := mkStateStore {
  store_paths : RuntimePaths;
  private_origin : option Archive;
}.

(** ** Managed identifiers *)

(** [ManagedIdKind] *)
Inductive ManagedIdKind : Type := ManagedPlan | ManagedAuthority.

Definition managed_label (kind : ManagedIdKind) : string :=
  match kind with ManagedPlan => "plan" | ManagedAuthority => "standing authority" end.

Definition invalid_id (kind : ManagedIdKind) (value : string) : StorageError :=
  match kind with
  | ManagedPlan => InvalidPlanId value
  | ManagedAuthority => InvalidAuthorityId value
  end.

Section Identifiers.
Context `{Runtime}.

Definition validate_managed_id (value : string) (kind : ManagedIdKind) : result StorageError unit :=
  match uuid_hyphenated value with
  | None => Err (invalid_id kind value)
  | Some parsed => guard (parsed <>? value) (invalid_id kind value) (Ok tt)
  end.

Definition json_name (id : string) : string := id ++ ".json".

Lemma json_name_inj id id' : json_name id = json_name id' -> id = id'.
Proof.
  unfold json_name. intros E.
  assert (Hl : String.length id = String.length id').
  { apply (f_equal String.length) in E. rewrite !str_length_app in E. lia. }
  revert id' E Hl. induction id as [|a s IH]; intros [|a' s'] E Hl; try done.
  injection E as -> E. f_equal. apply IH; [done|]. cbn in Hl. lia.
Qed.

Lemma validate_managed_id_ok id kind :
  validate_managed_id id kind = Ok tt <-> uuid_hyphenated id = Some id.
Proof.
  unfold validate_managed_id.
  destruct (uuid_hyphenated id); [rewrite guard_unit_ok, neqb_false|]; split; congruence.
Qed.
End Identifiers.

(** An I/O error of kind [AlreadyExists] becomes the error of the document. *)
Definition already_exists {A} (e : StorageError) (r : result StorageError A) : result StorageError A :=
  match r with
  | Err (Io _ AlreadyExists) => Err e
  | r => r
  end.

Definition st_already_exists {A} (e : StorageError) (m : IO A) : IO A :=
  fun w => let (r, w) := m w in (already_exists e r, w).

(** The last byte of a path tells managed documents from locks. *)
Fixpoint last_byte (s : string) (last : ascii) : ascii :=
  match s with
  | EmptyString => last
  | String c s => last_byte s c
  end.

Lemma last_byte_app s t a c : last_byte (s ++ String a t) c = last_byte t a.
Proof. revert c. induction s as [|d s IH]; intros c; [done|apply IH]. Qed.

Lemma path_last dir name a c t :
  name = (t ++ String a EmptyString)%string -> last_byte (path_join dir name) c = a.
Proof.
  intros ->. unfold path_join.
  change (dir ++ "/" ++ t ++ String a "")%string with (dir ++ String "/" (t ++ String a ""))%string.
  rewrite last_byte_app. destruct t as [|d t]; [done|]. apply (last_byte_app (String d t)).
Qed.

Lemma json_name_last dir id c : last_byte (path_join dir (json_name id)) c = "n"%char.
Proof.
  apply (path_last _ _ _ _ (id ++ ".jso")). unfold json_name.
  induction id as [|a s IH]; [done|]. exact (f_equal (String a) IH).
Qed.

(** ** Lock files *)

(** [open_lock_file]: create the directory, open or create the file, look at
    its type and restrict it. *)
Definition open_lock_file (path : string) : IO unit :=
  do* io (parent path) attempt in
  let* entry := io path (syscall (fun f =>
    match f !! path with
    | None => Ok (Regular "", <[path := Regular ""]> f)
    | Some (Regular bytes) => Ok (Regular bytes, f)
    | Some (Link (Some bytes)) => Ok (Regular bytes, f)
    | Some (Link None) => Ok (Regular "", <[path := Link (Some "")]> f)
    | Some Directory => Err (OtherKind "is a directory")
    end)) in
  do* io path attempt in
  match entry with
  | Regular _ => io path attempt
  | _ => st_throw (unsafe_managed_document path "authority locks must be regular files")
  end.

(** [open_lock_file] and then [file.lock()]. *)
Definition lock_file (path : string) : IO unit :=
  do* open_lock_file path in io path attempt.

Lemma io_attempt_wp path (Q : result StorageError unit -> Files -> Prop) f :
  (forall r, Q r f) -> wp (io path attempt) Q f.
Proof. intros HQ w r w' <- Hr. by rewrite (io_attempt_inv _ _ _ _ Hr). Qed.

(** Taking a lock leaves every other path alone. *)
Lemma wp_lock_file path (Q : result StorageError unit -> Files -> Prop) f :
  (forall r f', (forall path', path' <> path -> f' !! path' = f !! path') -> Q r f') ->
  wp (lock_file path) Q f.
Proof.
  intros HQ. unfold lock_file, open_lock_file.
  assert (Hdone : forall f', (forall path', path' <> path -> f' !! path' = f !! path') ->
    wp (io path attempt) Q f') by (intros; apply io_attempt_wp; eauto).
  wp_step. wp_step. apply io_attempt_wp. intros [[]|e]; [|by apply HQ].
  wp_step. apply wp_map_err. intros w r w' Hw [[Hf [k ->]]|(e & He & ->)]%syscall_inv; cbn.
  { apply HQ. congruence. }
  assert (Hf : forall path', path' <> path -> files w' !! path' = f !! path').
  { rewrite Hw in He. intros path' Hne.
    destruct (f !! path) as [[b|[b|]|]|]; try discriminate;
      injection He as _ Hf; rewrite <- Hf; try done; by rewrite lookup_insert_ne. }
  wp_step. apply io_attempt_wp. intros [[]|]; [|by apply HQ].
  destruct e; [|apply wp_throw; by apply HQ..].
  apply io_attempt_wp. intros [[]|]; [|by apply HQ]. by apply Hdone.
Qed.

(** ** Reads when nothing fails *)

(** A document that reads back as it was written. *)
Definition reads_back {A} `{Serialize A} `{Pretty} `{Decode A} (a : A) : Prop :=
  forall bytes, to_vec_pretty (to_value a) = Ok bytes -> from_slice bytes = Ok a.

Lemma document_regular {A} `{Decode A} f path bytes (a : A) :
  f !! path = Some (Regular bytes) -> document f path = Some a -> from_slice bytes = Ok a.
Proof.
  intros Hf. unfold document, contents. rewrite Hf. destruct (from_slice bytes); congruence.
Qed.

Lemma calm_existing f path :
  validate_existing_managed_file path (calm f) =
  (match f !! path with
   | None => Ok false
   | Some (Regular _) => Ok true
   | Some (Link _) => Err (unsafe_managed_document path "symbolic links are forbidden")
   | Some Directory => Err (unsafe_managed_document path "managed documents must be regular files")
   end, calm f).
Proof.
  unfold validate_existing_managed_file, symlink_metadata, syscall. cbn.
  by destruct (f !! path) as [[]|].
Qed.

Lemma calm_read_json {A} `{Decode A} f path bytes :
  f !! path = Some (Regular bytes) ->
  read_json (A := A) path (calm f) = (map_err Json (from_slice bytes), calm f).
Proof.
  intros Hf. unfold read_json, io, fs_read, syscall, st_map_err, st_bind, st_lift. cbn. by rewrite Hf.
Qed.

Lemma st_bind_eq {S E A B} (m : ST S E A) (k : A -> ST S E B) s a s' :
  m s = (Ok a, s') -> st_bind m k s = k a s'.
Proof. unfold st_bind. by intros ->. Qed.


Lemma calm_is_file f path :
  is_file path (calm f) = (Ok (is_someb (contents f path)), calm f).
Proof. unfold is_file, contents. cbn. by destruct (f !! path) as [[b|[b|]|]|]. Qed.

Lemma calm_read {A} `{Decode A} f path bytes :
  contents f path = Some bytes -> read_json (A := A) path (calm f) = (map_err Json (from_slice bytes), calm f).
Proof.
  intros Hf. unfold read_json, io, fs_read, syscall, st_map_err, st_bind, st_lift, contents in *. cbn.
  by destruct (f !! path) as [[b|[b|]|]|]; simplify_eq.
Qed.

(** ** Encoders of the witnesses *)

(** A short encoding, and a decoder that knows the documents of the witnesses. *)
Definition demo_bytes (v : Value) : string := digest_hex (encode v).

Definition decode_known {A} `{Serialize A} (known : list A) (bytes : string) : result string A :=
  match find (fun a => demo_bytes (to_value a) =? bytes) known with
  | Some a => Ok a
  | None => Err "unknown document"
  end.

Definition demo_pretty : Pretty := fun v => Ok (demo_bytes v).
Definition demo_decode_value : Decode Value := fun _ => Err "unknown document".

(** Two sets of files compared by computation. *)
Lemma same_files (f g : Files) : bool_decide (f = g) = true -> f = g.
Proof. apply bool_decide_eq_true_1. Qed.

Lemma outcome {A B} (x : A * B) a : x.1 = a -> x = (a, x.2).
Proof. destruct x. by intros <-. Qed.

