(* ===== verification/PlanStore.v ===== *)
(** The plan store (crates/cfctl-storage/src/lib.rs): [PlanV2] documents as
    the canonical record of a plan, [PlanV1] projections beside them, and
    immutable plan-set receipts. *)

From Stdlib Require Import String Ascii ZArith Lia List Bool.
From stdpp Require Import base option list strings gmap.
From S2P Require Import Prelude Strings Btree Json JsonOps SchemaRedaction Core.
From S2P Require Import CatalogTypes Capability Policy Authority Plan PlanJournal PlanLifecycle.
From S2P Require Import PlanV2 PlanSet Demo Files Store.

Open Scope cf_scope.
Open Scope string_scope.
Open Scope cf_scope.

(** ** Documents *)

#[export] Instance ser_PlanV2 `{Runtime} : Serialize PlanV2 := fun d => struct_value [
  field "schema_version" (v2_schema_version d);
  field "plan" (v2_plan d);
  field "pins" (v2_pins d);
  field "content_hash" (v2_content_hash d)].

(** [==] on plans: field by field, with the comparison of [f64]. Every other
    field is determined by its JSON. *)
Definition budget_amount (budget : option MoneyV1) : option f64 := money_amount <$> budget.

Definition plan_floats (p : PlanV1) : list (option f64) :=
  [budget_amount (match plan_approval p with Some a => approval_max_cost a | None => None end);
   cost_maximum (cap_cost (plan_capability p));
   ebc_price_per_million_operations <$> cap_event_batch (plan_capability p)].

Fixpoint floats_eqb (l k : list (option f64)) : bool :=
  match l, k with
  | [], [] => true
  | a :: l, b :: k => option_eqb f64_eqb a b && floats_eqb l k
  | _, _ => false
  end.

Inductive StoredPlanRecord : Type :=
| Current (plan : PlanV2)
| LegacyReadable (plan : PlanV1)
| RequiredSidecarMissing (plan : PlanV1)
| ProjectionDrift (current : PlanV2) (projection : PlanV1)
| Corrupt (operation_id : string) (reason : StorageError).

Definition execution_compatible (self : StoredPlanRecord) : bool :=
  match self with Current _ => true | _ => false end.

Definition execution_incompatibility_reason (self : StoredPlanRecord) : option string :=
  match self with
  | Current _ => None
  | LegacyReadable _ => Some "legacy_plan_v1"
  | RequiredSidecarMissing _ => Some "required_plan_v2_missing"
  | ProjectionDrift _ _ => Some "plan_v2_projection_drift"
  | Corrupt _ _ => Some "corrupt_plan_record"
  end.

Definition readable_plan (self : StoredPlanRecord) : option PlanV1 :=
  match self with
  | Current plan => Some (v2_plan plan)
  | LegacyReadable plan | RequiredSidecarMissing plan => Some plan
  | ProjectionDrift current _ => Some (v2_plan current)
  | Corrupt _ _ => None
  end.

(** [2026-07-22T00:00:00Z] *)
Definition PLAN_V2_ACTIVATED_AT : DateTime := Timestamp (1784678400 * 1000000000).

Definition plan_v2_is_required (plan : PlanV1) : bool :=
  if negb (cap_mutating (plan_capability plan)) then false
  else negb (dt_lt (plan_created_at plan) PLAN_V2_ACTIVATED_AT).

(** The member a [value.pointer_mut(pointer)] assignment replaces. *)
Fixpoint replace_at (tokens : list string) (new v : Value) : Value :=
  match tokens with
  | [] => new
  | token :: tokens =>
      match v with
      | VObject m =>
          match bt_get token m with
          | Some x => VObject (bt_insert token (replace_at tokens new x) m)
          | None => v
          end
      | _ => v
      end
  end.

Definition plan_document_contains_sensitive_data (value : Value) (tokens : list string) : bool :=
  match fold_left (fun t token => obind t (vget token)) tokens (Some value) with
  | Some request_schema =>
      if negb (Value_eqb (redact_json_schema request_schema) request_schema) then true
      else
        let value := replace_at tokens VNull value in
        negb (Value_eqb (redact_json value) value)
  | None => negb (Value_eqb (redact_json value) value)
  end.

(** ** Equality *)

(** The derived [==] of pins and money, field by field. *)
Definition money_eqb (a b : MoneyV1) : bool :=
  (money_currency a =? money_currency b) && f64_eqb (money_amount a) (money_amount b).

Definition pins_eqb (a b : PlanPinsV2) : bool :=
  (pins_build_identity_hash a =? pins_build_identity_hash b)
  && (pins_catalog_hash a =? pins_catalog_hash b)
  && (pins_credential_generation_id a =? pins_credential_generation_id b)
  && (pins_admission_policy_hash a =? pins_admission_policy_hash b)
  && (pins_authority_hash a =? pins_authority_hash b)
  && (pins_workspace_graph_hash a =? pins_workspace_graph_hash b)
  && (pins_resource_observation_hashes a =? pins_resource_observation_hashes b)
  && option_eqb money_eqb (pins_cost_budget a) (pins_cost_budget b).

Definition plan_eqb `{Runtime} (a b : PlanV1) : bool :=
  floats_eqb (plan_floats a) (plan_floats b) && Value_eqb (to_value a) (to_value b).

(** ** The store *)

Section PlanStore.
Context `{Runtime} `{Pretty} `{!Decode PlanV1} `{!Decode PlanV2} `{!Decode DeploymentPlanSetV1}
  `{!Decode Value}.
Variable self : StateStore.

Definition validate_plan_id (operation_id : string) : result StorageError unit :=
  validate_managed_id operation_id ManagedPlan.

Definition validate_deployment_plan_set_id (bundle_id : string) : result StorageError unit :=
  match uuid_hyphenated bundle_id with
  | None => Err (InvalidDeploymentPlanSetId bundle_id)
  | Some parsed => guard (parsed <>? bundle_id) (InvalidDeploymentPlanSetId bundle_id) (Ok tt)
  end.

Definition plan_file (operation_id : string) : string :=
  path_join (path_join (data_dir (store_paths self)) "plans") (json_name operation_id).
Definition plan_v2_file (operation_id : string) : string :=
  path_join (path_join (data_dir (store_paths self)) "plans-v2") (json_name operation_id).
Definition plan_set_file (bundle_id : string) : string :=
  path_join (path_join (data_dir (store_paths self)) "plan-sets") (json_name bundle_id).

Definition plan_path (operation_id : string) : result StorageError string :=
  let? _ := validate_plan_id operation_id in Ok (plan_file operation_id).

Definition plan_v2_path (operation_id : string) : result StorageError string :=
  let? _ := validate_plan_id operation_id in Ok (plan_v2_file operation_id).

Definition deployment_plan_set_path (bundle_id : string) : result StorageError string :=
  let? _ := validate_deployment_plan_set_id bundle_id in Ok (plan_set_file bundle_id).

Definition ensure_plan_identity (plan : PlanV1) (filename_id : string) : result StorageError unit :=
  let? _ := validate_plan_id (plan_operation_id plan) in
  guard (plan_operation_id plan <>? filename_id)
    (ManagedDocumentIdentityMismatch (managed_label ManagedPlan) filename_id (plan_operation_id plan))
    (Ok tt).

(** [reject_archived_operation]; the historical document is read through the
    private directory. *)
Definition reject_archived_operation (operation_id : string) : IO unit :=
  match private_origin self with
  | None => st_ret tt
  | Some origin =>
      let* bytes := st_lift (map_err EvidenceAuthentication (archive_document origin)) in
      match bytes with
      | None => st_throw (EvidenceAuthentication "private transition history is missing")
      | Some bytes =>
          let* value := st_lift (map_err EvidenceAuthentication (from_slice (A := Value) bytes)) in
          st_guard (is_some_and (obind (vget "history" value) as_object)
                      (fun history => is_someb (bt_get operation_id history)))
            (ArchivedOperation operation_id (archive_data_dir origin))
      end
  end.

Definition request_schema_in_plan : list string := ["capability"; "request_schema"].
Definition request_schema_in_document : list string := ["plan"; "capability"; "request_schema"].

Definition valid_journal (plan : PlanV1) : result StorageError unit :=
  map_err InvalidPlan (validate_transaction_journal plan).

Definition write_current_plan (plan : PlanV2) : IO unit :=
  let id := plan_operation_id (v2_plan plan) in
  do* st_guard (plan_document_contains_sensitive_data (to_value plan) request_schema_in_document)
        SensitiveData in
  let* current := st_lift (plan_v2_path id) in
  do* write_json current plan in
  let* projection := st_lift (plan_path id) in
  st_map_err (PlanProjectionWriteFailed id) (write_json projection (v2_plan plan)).

Definition read_plan_v2 (path operation_id : string) : IO PlanV2 :=
  let* plan := read_json (A := PlanV2) path in
  do* st_lift (ensure_plan_identity (v2_plan plan) operation_id) in
  do* st_lift (map_err InvalidPlan (v2_validate plan)) in
  st_ret plan.

Definition read_plan (path operation_id : string) : IO PlanV1 :=
  let* plan := read_json (A := PlanV1) path in
  do* st_lift (ensure_plan_identity plan operation_id) in
  do* st_lift (valid_journal plan) in
  st_ret plan.

Definition load_plan_v2 (operation_id : string) : IO PlanV2 :=
  let* path := st_lift (plan_v2_path operation_id) in
  let* present := validate_existing_managed_file path in
  do* st_guard (negb present) (PlanV2NotFound operation_id) in
  read_plan_v2 path operation_id.

Definition has_plan_v2 (operation_id : string) : IO bool :=
  let* path := st_lift (plan_v2_path operation_id) in
  validate_existing_managed_file path.

Definition save_plan (plan : PlanV1) : IO unit :=
  let id := plan_operation_id plan in
  do* st_lift (validate_plan_id id) in
  do* st_lift (valid_journal plan) in
  do* st_guard (plan_document_contains_sensitive_data (to_value plan) request_schema_in_plan)
        SensitiveData in
  let* current := st_lift (plan_v2_path id) in
  let* pinned := validate_existing_managed_file current in
  if pinned : bool then
    let* document := load_plan_v2 id in
    let* document := st_lift (map_err InvalidPlan (in_place (v2_refresh_from_plan plan) document)) in
    write_current_plan document
  else
    let* path := st_lift (plan_path id) in
    let* present := validate_existing_managed_file path in
    do* (if present : bool then do* read_plan path id in st_ret tt else st_ret tt) in
    write_json path plan.

Definition save_plan_v2 (plan : PlanV2) : IO unit :=
  let id := plan_operation_id (v2_plan plan) in
  do* st_lift (validate_plan_id id) in
  do* st_lift (map_err InvalidPlan (v2_validate plan)) in
  let* current := st_lift (plan_v2_path id) in
  let* pinned := validate_existing_managed_file current in
  do* (if pinned : bool then
    let* stored := load_plan_v2 id in
    st_guard (negb (pins_eqb (v2_pins stored) (v2_pins plan)))
      (InvalidPlan (InvalidPlanV2 "canonical execution pins cannot be replaced"))
  else
    let* path := st_lift (plan_path id) in
    let* present := validate_existing_managed_file path in
    if present : bool then
      let* projection := read_plan path id in
      st_guard (negb (plan_eqb projection (v2_plan plan)))
        (InvalidPlan (InvalidPlanV2 "v2 wrapper does not match the stored PlanV1 projection"))
    else st_ret tt) in
  write_current_plan plan.

Definition load_stored_plan_record (operation_id : string) : IO StoredPlanRecord :=
  do* st_lift (validate_plan_id operation_id) in
  let* projection_path := st_lift (plan_path operation_id) in
  let* current_path := st_lift (plan_v2_path operation_id) in
  let* projection_exists := validate_existing_managed_file projection_path in
  let* current_exists := validate_existing_managed_file current_path in
  do* (if negb projection_exists && negb current_exists then
         do* reject_archived_operation operation_id in
         st_throw (PlanNotFound operation_id)
       else st_ret tt) in
  let* read := (if projection_exists : bool
                then let* r := st_try (read_plan projection_path operation_id) in
                     st_ret (Some r)
                else st_ret None) in
  match read with
  | Some (Err error) => st_ret (Corrupt operation_id error)
  | None | Some (Ok _) =>
      let projection := match read with Some (Ok plan) => Some plan | _ => None end in
      if current_exists : bool then
        let* read := st_try (read_plan_v2 current_path operation_id) in
        match read with
        | Err error => st_ret (Corrupt operation_id error)
        | Ok current =>
            st_ret (match projection with
                    | Some projection =>
                        if negb (plan_eqb projection (v2_plan current))
                        then ProjectionDrift current projection else Current current
                    | None => Current current
                    end)
        end
      else
        match projection with
        | None => st_throw (PlanNotFound operation_id)
        | Some projection =>
            st_ret (if plan_v2_is_required projection then RequiredSidecarMissing projection
                    else LegacyReadable projection)
        end
  end.

Definition load_plan (operation_id : string) : IO PlanV1 :=
  let* record := load_stored_plan_record operation_id in
  match record with
  | Current plan => st_ret (v2_plan plan)
  | LegacyReadable plan | RequiredSidecarMissing plan => st_ret plan
  | ProjectionDrift _ _ => st_throw (PlanProjectionDrift operation_id)
  | Corrupt _ _ =>
      let* pinned := has_plan_v2 operation_id in
      if pinned : bool then
        let* plan := load_plan_v2 operation_id in st_ret (v2_plan plan)
      else
        let* path := st_lift (plan_path operation_id) in
        read_plan path operation_id
  end.

Definition bind_plan_authority_hash (operation_id authority_hash : string) : IO unit :=
  let* record := load_stored_plan_record operation_id in
  match record with
  | Current plan =>
      let* plan := st_lift (map_err InvalidPlan (in_place (v2_bind_authority_hash authority_hash) plan)) in
      write_current_plan plan
  | LegacyReadable _ | RequiredSidecarMissing _ =>
      do* reject_archived_operation operation_id in
      st_throw (PlanV2NotFound operation_id)
  | ProjectionDrift _ _ => st_throw (PlanProjectionDrift operation_id)
  | Corrupt _ reason => st_throw (CorruptPlan operation_id reason)
  end.

Definition create_deployment_plan_set (plan_set : DeploymentPlanSetV1) : IO unit :=
  do* st_lift (map_err InvalidPlan (set_validate plan_set)) in
  let* path := st_lift (deployment_plan_set_path (set_bundle_id plan_set)) in
  let* present := validate_existing_managed_file path in
  do* st_guard present (DeploymentPlanSetAlreadyExists (set_bundle_id plan_set)) in
  let value := to_value plan_set in
  do* st_guard (negb (Value_eqb (redact_json value) value)) SensitiveData in
  let* encoded := st_lift (map_err Json (to_vec_pretty (to_value plan_set))) in
  atomic_create path encoded.

Definition load_deployment_plan_set (bundle_id : string) : IO DeploymentPlanSetV1 :=
  let* path := st_lift (deployment_plan_set_path bundle_id) in
  let* present := validate_existing_managed_file path in
  do* st_guard (negb present) (DeploymentPlanSetNotFound bundle_id) in
  let* plan_set := read_json (A := DeploymentPlanSetV1) path in
  do* st_guard (set_bundle_id plan_set <>? bundle_id)
        (ManagedDocumentIdentityMismatch "deployment plan set" bundle_id (set_bundle_id plan_set)) in
  do* st_lift (map_err InvalidPlan (set_validate plan_set)) in
  st_ret plan_set.
End PlanStore.

(** ** Specification *)

(** The calls that write plan documents. *)
Inductive plan_call : Type :=
| CallSavePlan (plan : PlanV1)
| CallSavePlanV2 (document : PlanV2)
| CallBindAuthority (operation_id authority_hash : string).

Definition call_id (c : plan_call) : string :=
  match c with
  | CallSavePlan plan => plan_operation_id plan
  | CallSavePlanV2 document => plan_operation_id (v2_plan document)
  | CallBindAuthority operation_id _ => operation_id
  end.

Section Spec.
Context `{Runtime} `{Pretty} `{!Decode PlanV1} `{!Decode PlanV2} `{!Decode DeploymentPlanSetV1}
  `{!Decode Value}.
Variable self : StateStore.

Definition run_call (c : plan_call) : IO unit :=
  match c with
  | CallSavePlan plan => save_plan self plan
  | CallSavePlanV2 document => save_plan_v2 self document
  | CallBindAuthority operation_id authority_hash =>
      bind_plan_authority_hash self operation_id authority_hash
  end.

(** The pins no call replaces once stored. *)
Definition pins_core (p : PlanPinsV2) : list string * btree string :=
  ([pins_build_identity_hash p; pins_catalog_hash p; pins_credential_generation_id p;
    pins_admission_policy_hash p; pins_workspace_graph_hash p],
   pins_resource_observation_hashes p).

(** A managed file holding a valid canonical document. *)
Definition holds (before : option Entry) (id : string) (d : PlanV2) : Prop :=
  (exists bytes, before = Some (Regular bytes) /\ from_slice bytes = Ok d) /\
  plan_operation_id (v2_plan d) = id /\ v2_validate d = Ok tt.

(** How a call may replace the canonical document of [id]. *)
Inductive stored_step (before : option Entry) (id : string) : plan_call -> PlanV2 -> Prop :=
| step_first d :
    before = None -> stored_step before id (CallSavePlanV2 d) d
| step_resave d d' :
    holds before id d -> pins_eqb (v2_pins d) (v2_pins d') = true ->
    stored_step before id (CallSavePlanV2 d') d'
| step_refresh plan d d' :
    holds before id d -> v2_refresh_from_plan plan d = (Ok tt, d') ->
    stored_step before id (CallSavePlan plan) d'
| step_bind hash d d' :
    holds before id d -> v2_bind_authority_hash hash d = (Ok tt, d') ->
    stored_step before id (CallBindAuthority id hash) d'.

(** The canonical document a call may write: valid, of this operation, free
    of secrets, and reached by one of the steps. *)
Definition admissible (f : Files) (c : plan_call) (d : PlanV2) : Prop :=
  stored_step (f !! plan_v2_file self (call_id c)) (call_id c) c d /\
  v2_validate d = Ok tt /\ plan_operation_id (v2_plan d) = call_id c /\
  plan_document_contains_sensitive_data (to_value d) request_schema_in_document = false.

(** Everything a call can leave behind. *)
Inductive call_effect (f : Files) (c : plan_call) : result StorageError unit -> Files -> Prop :=
| effect_refused e : call_effect f c (Err e) f
| effect_legacy plan bytes r :
    c = CallSavePlan plan -> f !! plan_v2_file self (call_id c) = None ->
    validate_transaction_journal plan = Ok tt -> to_vec_pretty (to_value plan) = Ok bytes ->
    (r = Ok tt \/ exists path k, r = Err (WriteDurabilityUnknown path k)) ->
    call_effect f c r (<[plan_file self (call_id c) := Regular bytes]> f)
| effect_canonical_only d bytes e :
    admissible f c d -> to_vec_pretty (to_value d) = Ok bytes ->
    call_effect f c (Err e) (<[plan_v2_file self (call_id c) := Regular bytes]> f)
| effect_both d bytes projected r :
    admissible f c d -> to_vec_pretty (to_value d) = Ok bytes ->
    to_vec_pretty (to_value (v2_plan d)) = Ok projected ->
    (r = Ok tt \/ exists reason, r = Err (PlanProjectionWriteFailed (call_id c) reason)) ->
    call_effect f c r (<[plan_file self (call_id c) := Regular projected]>
                         (<[plan_v2_file self (call_id c) := Regular bytes]> f)).
End Spec.

(** A managed file holding a valid projection. *)
Definition projects `{Runtime} `{!Decode PlanV1} (before : option Entry) (id : string) (p : PlanV1) :
  Prop :=
  (exists bytes, before = Some (Regular bytes) /\ from_slice bytes = Ok p) /\
  plan_operation_id p = id /\ validate_transaction_journal p = Ok tt.

(** ** Facts *)

Section Facts.
Context `{Runtime} `{Pretty} `{!Decode PlanV1} `{!Decode PlanV2} `{!Decode DeploymentPlanSetV1}
  `{!Decode Value}.
Variable self : StateStore.

Lemma ensure_plan_identity_ok p id u : ensure_plan_identity p id = Ok u -> plan_operation_id p = id.
Proof.
  unfold ensure_plan_identity. destruct u. rewrite res_bind_unit_ok, guard_unit_ok, neqb_false.
  by intros [_ ?].
Qed.

Lemma wp_read_plan_v2 path id Q f :
  (forall e, Q (Err e) f) ->
  (forall d, document f path = Some d -> plan_operation_id (v2_plan d) = id ->
     v2_validate d = Ok tt -> Q (Ok d) f) ->
  wp (read_plan_v2 path id) Q f.
Proof.
  intros He Hd. unfold read_plan_v2. repeat wp_step; auto.
  apply map_err_ok in E0. destruct a1. eauto using ensure_plan_identity_ok.
Qed.

Lemma wp_read_plan path id Q f :
  (forall e, Q (Err e) f) ->
  (forall p, document f path = Some p -> plan_operation_id p = id ->
     validate_transaction_journal p = Ok tt -> Q (Ok p) f) ->
  wp (read_plan path id) Q f.
Proof.
  intros He Hd. unfold read_plan. repeat wp_step; auto.
  apply map_err_ok in E0. destruct a1. eauto using ensure_plan_identity_ok.
Qed.

Lemma plan_v2_path_ok id path : plan_v2_path self id = Ok path -> path = plan_v2_file self id.
Proof. unfold plan_v2_path. rewrite res_bind_unit_ok. by intros [_ [= <-]]. Qed.

Lemma plan_path_ok id path : plan_path self id = Ok path -> path = plan_file self id.
Proof. unfold plan_path. rewrite res_bind_unit_ok. by intros [_ [= <-]]. Qed.

Lemma wp_load_plan_v2 id Q f :
  (forall e, Q (Err e) f) ->
  (forall d, holds (f !! plan_v2_file self id) id d -> Q (Ok d) f) ->
  wp (load_plan_v2 self id) Q f.
Proof.
  intros He Hd. unfold load_plan_v2. repeat wp_step; auto; [|done].
  apply plan_v2_path_ok in E as ->. apply wp_read_plan_v2; [done|].
  intros d Hdoc Hid Hv. apply Hd. split; [|done]. exists bytes. split; [done|].
  by eapply document_regular.
Qed.

Lemma wp_reject_archived id Q f :
  (forall r, Q r f) -> wp (reject_archived_operation self id) Q f.
Proof. intros HQ. unfold reject_archived_operation. repeat wp_step; auto. Qed.

(** The canonical write comes first. *)
Lemma wp_write_current_plan c d f :
  plan_operation_id (v2_plan d) = call_id c -> v2_validate d = Ok tt ->
  stored_step (f !! plan_v2_file self (call_id c)) (call_id c) c d ->
  wp (write_current_plan self d) (call_effect self f c) f.
Proof.
  intros Hid Hv Hs. unfold write_current_plan. rewrite Hid.
  wp_step. wp_step; [constructor|]. wp_step. wp_step; [|constructor].
  apply plan_v2_path_ok in E as ->. wp_step. wp_step; [constructor|].
  assert (admissible self f c d) by done.
  split_written; [|by eapply effect_canonical_only].
  wp_step. wp_step; [|by eapply effect_canonical_only]. apply plan_path_ok in E as ->.
  wp_step. wp_step; [by eapply effect_canonical_only|].
  eapply effect_both; [done..|]. split_written; cbn; eauto.
Qed.

(** Each call writes as the specification allows. *)
Lemma wp_save_plan plan f :
  wp (save_plan self plan) (call_effect self f (CallSavePlan plan)) f.
Proof.
  unfold save_plan. wp_step. wp_step; [|constructor]. wp_step. wp_step; [|constructor].
  apply map_err_ok in E0. destruct a0.
  wp_step. wp_step; [constructor|]. wp_step. wp_step; [|constructor].
  apply plan_v2_path_ok in E1 as ->. wp_step. wp_step; [constructor|..].
  - wp_step. apply wp_load_plan_v2; [constructor|]. intros d Hd. wp_step. wp_step; [|constructor].
    apply map_err_ok in E1. unfold in_place in E1.
    destruct (v2_refresh_from_plan plan d) as [[[]|e] d'] eqn:Ed; simplify_eq.
    destruct (v2_refresh_from_plan_ok _ _ _ Ed) as (<- & _ & Hv).
    by apply wp_write_current_plan; [..|eapply step_refresh].
  - wp_step. wp_step; [|constructor]. apply plan_path_ok in E1 as ->.
    wp_step. wp_step; [constructor|..].
    + do 2 wp_step. apply wp_read_plan; [constructor|]. intros p _ _ _. wp_step.
      wp_step; [constructor|]. eapply effect_legacy; try done. split_written; eauto.
    + do 2 wp_step. wp_step; [constructor|]. eapply effect_legacy; try done. split_written; eauto.
Qed.

Lemma wp_save_plan_v2 d f :
  wp (save_plan_v2 self d) (call_effect self f (CallSavePlanV2 d)) f.
Proof.
  unfold save_plan_v2. wp_step. wp_step; [|constructor]. wp_step. wp_step; [|constructor].
  apply map_err_ok in E0. destruct a0.
  wp_step. wp_step; [|constructor]. apply plan_v2_path_ok in E1 as ->.
  wp_step. wp_step; [constructor|..]; do 2 wp_step.
  - apply wp_load_plan_v2; [constructor|]. intros stored Hd. wp_step; [constructor|].
    apply negb_false_iff in Hguard. apply wp_write_current_plan; [done..|]. by eapply step_resave.
  - wp_step; [|constructor]. apply plan_path_ok in E1 as ->.
    wp_step. wp_step; [constructor|..].
    + wp_step. apply wp_read_plan; [constructor|]. intros p _ _ _. wp_step; [constructor|].
      apply wp_write_current_plan; [done..|]. by eapply step_first.
    + wp_step. apply wp_write_current_plan; [done..|]. by eapply step_first.
Qed.

(** What [load_stored_plan_record] may answer, whatever fails. *)
Inductive record_of (f : Files) (id : string) : StoredPlanRecord -> Prop :=
| record_current d :
    holds (f !! plan_v2_file self id) id d ->
    (f !! plan_file self id = None \/
     exists p, projects (f !! plan_file self id) id p /\ plan_eqb p (v2_plan d) = true) ->
    record_of f id (Current d)
| record_drift d p :
    holds (f !! plan_v2_file self id) id d -> projects (f !! plan_file self id) id p ->
    plan_eqb p (v2_plan d) = false -> record_of f id (ProjectionDrift d p)
| record_legacy p :
    f !! plan_v2_file self id = None -> projects (f !! plan_file self id) id p ->
    plan_v2_is_required p = false -> record_of f id (LegacyReadable p)
| record_missing p :
    f !! plan_v2_file self id = None -> projects (f !! plan_file self id) id p ->
    plan_v2_is_required p = true -> record_of f id (RequiredSidecarMissing p)
| record_corrupt reason : record_of f id (Corrupt id reason).

Lemma holds_read f id bytes d :
  f !! plan_v2_file self id = Some (Regular bytes) -> document f (plan_v2_file self id) = Some d ->
  plan_operation_id (v2_plan d) = id -> v2_validate d = Ok tt ->
  holds (f !! plan_v2_file self id) id d.
Proof. intros Hf Hd Hid Hv. split; [|done]. eauto using document_regular. Qed.

Lemma projects_read f id bytes p :
  f !! plan_file self id = Some (Regular bytes) -> document f (plan_file self id) = Some p ->
  plan_operation_id p = id -> validate_transaction_journal p = Ok tt ->
  projects (f !! plan_file self id) id p.
Proof. intros Hf Hd Hid Hv. split; [|done]. eauto using document_regular. Qed.

Lemma wp_load_record id Q f :
  (forall e, Q (Err e) f) -> (forall record, record_of f id record -> Q (Ok record) f) ->
  wp (load_stored_plan_record self id) Q f.
Proof.
  intros He HQ. unfold load_stored_plan_record.
  wp_step. wp_step; [|done]. wp_step. wp_step; [|done]. apply plan_path_ok in E0 as ->.
  wp_step. wp_step; [|done]. apply plan_v2_path_ok in E0 as ->.
  wp_step. wp_step; [done|..]; wp_step; (wp_step; [done|..]); cbn [negb andb].
  all: do 2 wp_step.
  4: { apply wp_reject_archived. intros []; [by apply wp_throw|done]. }
  - do 3 wp_step. apply wp_read_plan; [intros e|intros p Hp Hid Hv]; wp_step.
    { apply wp_ret, HQ. constructor. }
    wp_step. wp_step. apply wp_read_plan_v2; [intros e; apply wp_ret, HQ; constructor|].
    intros d Hd Hid' Hv'. wp_step. apply HQ.
    assert (projects (f !! plan_file self id) id p) by eauto using projects_read.
    assert (holds (f !! plan_v2_file self id) id d) by eauto using holds_read.
    destruct (plan_eqb p (v2_plan d)) eqn:Ep; cbn [negb]; [apply record_current|by apply record_drift].
    + done.
    + right. eauto.
  - do 3 wp_step. apply wp_read_plan; [intros e|intros p Hp Hid Hv]; wp_step.
    { apply wp_ret, HQ. constructor. }
    wp_step. apply HQ.
    assert (projects (f !! plan_file self id) id p) by eauto using projects_read.
    destruct (plan_v2_is_required p) eqn:Er; by constructor.
  - do 4 wp_step. apply wp_read_plan_v2; [intros e; apply wp_ret, HQ; constructor|].
    intros d Hd Hid' Hv'. wp_step. apply HQ, record_current; [|by left].
    eauto using holds_read.
Qed.

Lemma v2_bind_ok hash d d' :
  v2_bind_authority_hash hash d = (Ok tt, d') -> v2_validate d = Ok tt ->
  v2_plan d' = v2_plan d /\ v2_validate d' = Ok tt.
Proof.
  intros E Hv. destruct (v2_bind_cases hash d)
    as [[_ E']|[[e E']|(_ & _ & _ & _ & r & d2 & E' & _ & Hp & Hv')]];
    rewrite E in E'; simplify_eq; auto.
Qed.

Lemma wp_bind_plan_authority_hash id hash f :
  wp (bind_plan_authority_hash self id hash) (call_effect self f (CallBindAuthority id hash)) f.
Proof.
  unfold bind_plan_authority_hash. wp_step. apply wp_load_record; [constructor|].
  intros record Hr. destruct record as [d| | | |]; [|wp_step..].
  - inversion_clear Hr as [? Hd _| | | |]. wp_step. wp_step; [|constructor].
    apply map_err_ok in E. unfold in_place in E.
    destruct (v2_bind_authority_hash hash d) as [[[]|e] d'] eqn:Ed; simplify_eq.
    assert (Hok := v2_bind_ok _ _ _ Ed ltac:(apply Hd)). destruct Hok as [Hp Hv].
    apply wp_write_current_plan; [|done|by eapply step_bind]. rewrite Hp. apply Hd.
  - apply wp_reject_archived. intros []; [apply wp_throw|]; constructor.
  - apply wp_reject_archived. intros []; [apply wp_throw|]; constructor.
  - constructor.
  - constructor.
Qed.

(** *** On a calm world *)

Lemma calm_read_plan_v2 f id d :
  validate_plan_id id = Ok tt -> holds (f !! plan_v2_file self id) id d ->
  read_plan_v2 (plan_v2_file self id) id (calm f) = (Ok d, calm f).
Proof.
  intros Hid ((bytes & Hf & Hb) & Hd & Hv). unfold read_plan_v2.
  erewrite st_bind_eq by (rewrite (calm_read_json _ _ bytes Hf), Hb; done).
  unfold ensure_plan_identity. rewrite Hd, Hid, eqb_refl, Hv. done.
Qed.

Lemma calm_read_plan f id p :
  validate_plan_id id = Ok tt -> projects (f !! plan_file self id) id p ->
  read_plan (plan_file self id) id (calm f) = (Ok p, calm f).
Proof.
  intros Hid ((bytes & Hf & Hb) & Hd & Hv). unfold read_plan.
  erewrite st_bind_eq by (rewrite (calm_read_json _ _ bytes Hf), Hb; done).
  unfold ensure_plan_identity, valid_journal. rewrite Hd, Hid, eqb_refl, Hv. done.
Qed.

(** A readable canonical document is the current record unless a readable
    projection disagrees. *)
Lemma calm_load_current f id d :
  validate_plan_id id = Ok tt -> holds (f !! plan_v2_file self id) id d ->
  (f !! plan_file self id = None \/
   exists p, projects (f !! plan_file self id) id p /\ plan_eqb p (v2_plan d) = true) ->
  load_stored_plan_record self id (calm f) = (Ok (Current d), calm f).
Proof.
  intros Hid Hd Hp. unfold load_stored_plan_record, plan_path, plan_v2_path.
  pose proof (calm_existing f (plan_file self id)) as H1.
  pose proof (calm_existing f (plan_v2_file self id)) as H2.
  pose proof (calm_read_plan_v2 f id d Hid Hd) as Hr.
  destruct Hd as [(bytes & Hf & _) _]. rewrite Hf in H2. rewrite Hid. cbn [res_bind].
  do 3 (erewrite st_bind_eq by reflexivity).
  destruct Hp as [Hn|(p & Hp & He)].
  - rewrite Hn in H1. rewrite (st_bind_eq _ _ _ _ _ H1), (st_bind_eq _ _ _ _ _ H2).
    do 2 (erewrite st_bind_eq by reflexivity). unfold st_try, st_bind. by rewrite Hr.
  - pose proof (calm_read_plan f id p Hid Hp) as Hq. destruct Hp as [(pb & Hpf & _) _].
    rewrite Hpf in H1. rewrite (st_bind_eq _ _ _ _ _ H1), (st_bind_eq _ _ _ _ _ H2).
    erewrite st_bind_eq by reflexivity. unfold st_try, st_bind. rewrite Hq. cbn. by rewrite Hr, He.
Qed.

Lemma plan_files_differ id id' : plan_file self id <> plan_v2_file self id'.
Proof.
  unfold plan_file, plan_v2_file, path_join. induction (data_dir (store_paths self)) as [|c s IH].
  - discriminate.
  - intros [= E]. by apply IH.
Qed.

Lemma wp_run_call c f : wp (run_call self c) (call_effect self f c) f.
Proof.
  destruct c; [apply wp_save_plan|apply wp_save_plan_v2|apply wp_bind_plan_authority_hash].
Qed.

Lemma stored_step_v2 before id d d' : stored_step before id (CallSavePlanV2 d) d' -> d' = d.
Proof. by inversion 1. Qed.

Lemma holds_inj before id d d' : holds before id d -> holds before id d' -> d = d'.
Proof. intros [(b & -> & Hb) _] [(b' & [= <-] & Hb') _]. congruence. Qed.

(** The budget is the one pin that follows the plan: a saved plan brings the
    ceiling of its approval, and every other call keeps what is stored. *)
Definition budget_follows (c : plan_call) (d d' : PlanV2) : Prop :=
  match c with
  | CallSavePlan plan => pins_cost_budget (v2_pins d') = approved_budget plan
  | CallSavePlanV2 _ =>
      option_eqb money_eqb (pins_cost_budget (v2_pins d)) (pins_cost_budget (v2_pins d')) = true
  | CallBindAuthority _ _ => pins_cost_budget (v2_pins d') = pins_cost_budget (v2_pins d)
  end.

Definition pins_follow (c : plan_call) (d d' : PlanV2) : Prop :=
  pins_core (v2_pins d') = pins_core (v2_pins d) /\
  (pins_authority_hash (v2_pins d') = pins_authority_hash (v2_pins d) \/
   exists hash, c = CallBindAuthority (call_id c) hash /\ v2_plan d' = v2_plan d /\
     pins_authority_hash (v2_pins d) = None /\ plan_status (v2_plan d) = Draft /\
     plan_approval (v2_plan d) = None /\ pins_authority_hash (v2_pins d') = Some hash) /\
  budget_follows c d d'.

Lemma pins_eqb_core a b :
  pins_eqb a b = true ->
  pins_core b = pins_core a /\ pins_authority_hash b = pins_authority_hash a /\
  option_eqb money_eqb (pins_cost_budget a) (pins_cost_budget b) = true.
Proof.
  unfold pins_eqb, pins_core. rewrite !andb_true_iff, !eqb_true.
  intros (((((((? & ?) & ?) & ?) & ?) & ?) & ?) & ?). split; [|split]; congruence.
Qed.

Lemma stored_step_pins before id c d d' :
  id = call_id c -> holds before id d -> stored_step before id c d' -> pins_follow c d d'.
Proof.
  intros Hid Hd Hs. unfold pins_follow. inversion Hs as [d0 Hn|d0 d1 Hd0 He|plan d0 d1 Hd0 He|hash d0 d1 Hd0 He]; subst.
  - destruct Hd as [(b & Hf & _) _]. congruence.
  - rewrite (holds_inj _ _ _ _ Hd Hd0). apply pins_eqb_core in He as (-> & -> & ?).
    unfold budget_follows. auto.
  - rewrite (holds_inj _ _ _ _ Hd Hd0). apply v2_refresh_from_plan_ok in He as (_ & E & _).
    unfold budget_follows. rewrite E. auto.
  - rewrite (holds_inj _ _ _ _ Hd Hd0).
    destruct (v2_bind_cases hash d0) as [[_ E]|[[e E]|(_ & Ha & Hst & Hap & r & d2 & E & Hp & Hpl & _)]];
      rewrite He in E; simplify_eq.
    { unfold budget_follows. match goal with E : _ = c |- _ => rewrite <- E end. auto. }
    destruct (v2_bind_keeps hash d0) as (a & h & Hk). rewrite He in Hk. cbn in Hk.
    split; [|split].
    + by rewrite Hk.
    + right. exists hash. by repeat split.
    + unfold budget_follows. by rewrite Hk.
Qed.

(** Where a saved document ends up. *)
Lemma saved_v2_effect p f r f' :
  call_effect self f (CallSavePlanV2 p) r f' -> let id := plan_operation_id (v2_plan p) in
  ((exists e, r = Err e) /\ f' = f) \/
  (v2_validate p = Ok tt /\
   (exists bytes, to_vec_pretty (to_value p) = Ok bytes /\
      f' !! plan_v2_file self id = Some (Regular bytes)) /\
   (r = Ok tt -> exists bytes, to_vec_pretty (to_value (v2_plan p)) = Ok bytes /\
      f' !! plan_file self id = Some (Regular bytes))).
Proof.
  intros He id. inversion He; subst; [left; eauto|discriminate|right..].
  all: match goal with Ha : admissible _ _ _ _ |- _ =>
         destruct Ha as (Hs & Hv & _ & _); apply stored_step_v2 in Hs as -> end.
  - split; [done|]. split; [|done]. eexists. split; [done|]. apply lookup_insert_eq.
  - split; [done|]. split.
    + eexists. split; [done|]. subst id. cbn [call_id]. rewrite lookup_insert_ne by apply plan_files_differ.
      apply lookup_insert_eq.
    + intros _. eexists. split; [done|]. apply lookup_insert_eq.
Qed.

Lemma save_plan_v2_id p w r w' :
  save_plan_v2 self p w = (r, w') -> r = Ok tt -> validate_plan_id (plan_operation_id (v2_plan p)) = Ok tt.
Proof.
  unfold save_plan_v2, st_bind at 1, st_lift at 1.
  destruct (validate_plan_id (plan_operation_id (v2_plan p))) as [[]|e]; [done|]. by intros [= <- _].
Qed.

Lemma load_record_id id w rec w' :
  load_stored_plan_record self id w = (Ok rec, w') -> validate_plan_id id = Ok tt.
Proof.
  unfold load_stored_plan_record, st_bind at 1, st_lift at 1.
  by destruct (validate_plan_id id) as [[]|e].
Qed.

Lemma load_record_sound id w rec w' :
  load_stored_plan_record self id w = (Ok rec, w') -> record_of (files w) id rec.
Proof.
  intros Hl. apply (wp_use _ (fun r _ => forall rec, r = Ok rec -> record_of (files w) id rec)
    _ _ _ Hl); [|done].
  apply wp_load_record; [done|]. intros record Hr rec' Hrec. by injection Hrec as <-.
Qed.
End Facts.

(** ** Properties *)

(** C8: every call that writes plan documents - saving a plan, saving a pinned
    document, binding an authority - leaves, whatever system calls fail on
    the way, one of four states: nothing changed; a legacy projection alone,
    only where no canonical document exists; the new canonical document
    alone, with an error; or the canonical document with its own projection.
    The canonical document is valid, of this operation, free of secrets, and
    follows from the stored one by a step of the specification. *)
Theorem plan_call_refines `{Runtime} `{Pretty} `{!Decode PlanV1} `{!Decode PlanV2}
    `{!Decode DeploymentPlanSetV1} `{!Decode Value}
    (self : StateStore) (c : plan_call) (w w' : World) (r : result StorageError unit) :
  run_call self c w = (r, w') -> call_effect self (files w) c r (files w').
Proof. intros Hr. exact (wp_use _ _ _ _ _ Hr (wp_run_call self c (files w))). Qed.


(** C10: a plan document that was saved is the one that is loaded: if saving
    reports success, loading gives it as the current record and its plan,
    provided the two documents decode to what was encoded. *)
Theorem saved_plan_reads_back `{Runtime} `{Pretty} `{!Decode PlanV1} `{!Decode PlanV2}
    `{!Decode DeploymentPlanSetV1} `{!Decode Value}
    (self : StateStore) (p : PlanV2) (w w' : World) :
  let id := plan_operation_id (v2_plan p) in
  save_plan_v2 self p w = (Ok tt, w') ->
  reads_back p -> reads_back (v2_plan p) -> plan_eqb (v2_plan p) (v2_plan p) = true ->
  load_stored_plan_record self id (calm (files w')) = (Ok (Current p), calm (files w')) /\
  load_plan self id (calm (files w')) = (Ok (v2_plan p), calm (files w')).
Proof.
  intros id Hs H2 H1 He. assert (Hid := save_plan_v2_id self _ _ _ _ Hs eq_refl).
  destruct (saved_v2_effect self p (files w) (Ok tt) (files w')) as [[[? [=]] _]|(Hv & Hc & Hp)].
  { exact (wp_use _ _ _ _ _ Hs (wp_save_plan_v2 self p (files w))). }
  assert (Hl : load_stored_plan_record self id (calm (files w')) = (Ok (Current p), calm (files w'))).
  { apply calm_load_current; [done| |right].
    { destruct Hc as (bytes & Hb & Hf). split; [|done]. exists bytes. auto. }
    exists (v2_plan p). split; [|done]. destruct (Hp eq_refl) as (bytes & Hb & Hf).
    split; [exists bytes; auto|]. split; [done|]. by apply v2_validate_ok in Hv as [? _]. }
  split; [done|]. unfold load_plan. by rewrite (st_bind_eq _ _ _ _ _ Hl).
Qed.

(** A save interrupted anywhere leaves something to execute only if it is
    the old record or the new document: what loads as current afterwards
    either loaded as current before, or is the document being saved. *)
Theorem interrupted_save_is_atomic `{Runtime} `{Pretty} `{!Decode PlanV1} `{!Decode PlanV2}
    `{!Decode DeploymentPlanSetV1} `{!Decode Value}
    (self : StateStore) (p q : PlanV2) (w w' w1 w2 : World) (r : result StorageError unit) :
  let id := plan_operation_id (v2_plan p) in
  save_plan_v2 self p w = (r, w') -> reads_back p ->
  files w1 = files w' -> load_stored_plan_record self id w1 = (Ok (Current q), w2) ->
  q = p \/
  ((exists e, r = Err e) /\
   load_stored_plan_record self id (calm (files w)) = (Ok (Current q), calm (files w))).
Proof.
  intros id Hs H2 Hw Hl. assert (Hr := load_record_sound self id _ _ _ Hl). rewrite Hw in Hr.
  inversion Hr as [? Hq Hproj| | | |]; subst.
  destruct (saved_v2_effect self p (files w) r (files w')) as [[He Hf]|(Hv & (bytes & Hb & Hf) & _)].
  { exact (wp_use _ _ _ _ _ Hs (wp_save_plan_v2 self p (files w))). }
  - right. split; [done|]. rewrite Hf in Hq, Hproj. apply calm_load_current; [|done..].
    eapply load_record_id, Hl.
  - left. destruct Hq as [(b & Hfb & Hd) _]. subst id. rewrite Hf in Hfb. simplify_eq.
    specialize (H2 _ Hb). congruence.
Qed.

(** ** Witnesses *)

Definition sample_operation : string := "11111111-1111-1111-1111-111111111111".

Definition sample_stored_plan : PlanV1 := Eval vm_compute in
  match plan_draft (clock_at 0) sample_operation "profile" "acct" "catalog" sample_capability
      (VObject [("zone_id", VString "z")]) return PlanV1 with
  | Ok p => p
  | Err _ => sample_plan
  end.

Definition sample_document : PlanV2 := Eval vm_compute in
  match v2_new sample_stored_plan sample_pins return PlanV2 with
  | Ok d => d
  | Err _ => sample_v2
  end.

Definition sample_store : StateStore := mkStateStore (from_root "root") None.

Definition demo_decode_v1 : Decode PlanV1 := decode_known [sample_stored_plan].
Definition demo_decode_v2 : Decode PlanV2 := decode_known [sample_document].
Definition demo_decode_set : Decode DeploymentPlanSetV1 := fun _ => Err "unknown document".
#[local] Existing Instances demo_pretty demo_decode_value demo_decode_v1 demo_decode_v2
  demo_decode_set.

(** The disk before and after the sample is saved. *)
Definition saved_files : Files :=
  <[plan_file sample_store sample_operation := Regular (demo_bytes (to_value sample_stored_plan))]>
  (<[plan_v2_file sample_store sample_operation := Regular (demo_bytes (to_value sample_document))]> ∅).

Lemma sample_saved : (save_plan_v2 sample_store sample_document (calm ∅)).1 = Ok tt.
Proof. vm_compute. reflexivity. Qed.

Lemma sample_saved_files :
  files (save_plan_v2 sample_store sample_document (calm ∅)).2 = saved_files.
Proof. apply same_files. vm_compute. reflexivity. Qed.

(** The projection write of a save fails at its rename. *)
Definition failing_world : World :=
  mkWorld ∅ (fun n => if Nat.eqb n 14 then Some "disk full" else None).

Definition interrupted_files : Files :=
  {[plan_v2_file sample_store sample_operation := Regular (demo_bytes (to_value sample_document))]}.

Definition projection_failed : StorageError :=
  PlanProjectionWriteFailed sample_operation
    (Io (plan_file sample_store sample_operation) (OtherKind "disk full")).

Lemma sample_interrupted :
  (save_plan_v2 sample_store sample_document failing_world).1 = Err projection_failed.
Proof. vm_compute. reflexivity. Qed.

Lemma sample_interrupted_files :
  files (save_plan_v2 sample_store sample_document failing_world).2 = interrupted_files.
Proof. apply same_files. vm_compute. reflexivity. Qed.

Lemma sample_interrupted_load :
  (load_stored_plan_record sample_store sample_operation (calm interrupted_files)).1
    = Ok (Current sample_document).
Proof. vm_compute. reflexivity. Qed.

Definition sample_bind : plan_call := CallBindAuthority sample_operation "authority".

Lemma sample_bound : (run_call sample_store sample_bind (calm saved_files)).1 = Ok tt.
Proof. vm_compute. reflexivity. Qed.

Lemma sample_bound_changed :
  files (run_call sample_store sample_bind (calm saved_files)).2 !! plan_v2_file sample_store sample_operation
    <> saved_files !! plan_v2_file sample_store sample_operation.
Proof. vm_compute. discriminate. Qed.

Lemma sample_holds :
  holds (saved_files !! plan_v2_file sample_store sample_operation) sample_operation sample_document.
Proof.
  split; [exists (demo_bytes (to_value sample_document)); split; vm_compute; reflexivity|].
  split; vm_compute; reflexivity.
Qed.

Lemma sample_reads_back : reads_back sample_document /\ reads_back sample_stored_plan.
Proof.
  split; intros bytes; change (to_vec_pretty ?v) with (@Ok string string (demo_bytes v));
    intros [= <-]; vm_compute; reflexivity.
Qed.

Lemma plan_call_refines_witness :
  call_effect sample_store ∅ (CallSavePlanV2 sample_document) (Err projection_failed)
    interrupted_files.
Proof.
  rewrite <- sample_interrupted_files.
  exact (plan_call_refines sample_store (CallSavePlanV2 sample_document) failing_world _ _
    (outcome _ _ sample_interrupted)).
Defined.


Lemma sample_plan_eqb : plan_eqb sample_stored_plan sample_stored_plan = true.
Proof. vm_compute. reflexivity. Qed.

Lemma saved_plan_reads_back_witness :
  load_plan sample_store sample_operation (calm saved_files) =
    (Ok sample_stored_plan, calm saved_files).
Proof.
  rewrite <- sample_saved_files.
  exact (proj2 (saved_plan_reads_back sample_store sample_document (calm ∅) _
    (outcome _ _ sample_saved) (proj1 sample_reads_back) (proj2 sample_reads_back)
    sample_plan_eqb)).
Defined.

Lemma interrupted_save_is_atomic_witness :
  sample_document = sample_document \/
  ((exists e, Err projection_failed = Err (A := unit) (E := StorageError) e) /\
   load_stored_plan_record sample_store sample_operation (calm ∅)
     = (Ok (Current sample_document), calm ∅)).
Proof.
  exact (interrupted_save_is_atomic sample_store sample_document sample_document failing_world _
    (calm interrupted_files) _ _ (outcome _ _ sample_interrupted) (proj1 sample_reads_back)
    (eq_sym sample_interrupted_files) (outcome _ _ sample_interrupted_load)).
Defined.
