(* ===== verification/AuthorityStore.v ===== *)
(** The authority store (crates/cfctl-storage/src/lib.rs): standing
    authorities as managed documents that are created once, saved under a
    lock and, once revoked, never restored; and the permission inventories
    cached beside them. *)

From Stdlib Require Import String Ascii ZArith Lia List Bool.
From stdpp Require Import base option list strings gmap relations.
From S2P Require Import Prelude Strings Btree Json JsonOps Redaction Core CatalogTypes Capability.
From S2P Require Import Authority PlanV2 Demo Files Store.

Open Scope cf_scope.
Open Scope string_scope.
Open Scope cf_scope.

(** ** Documents *)

#[export] Instance ser_StandingAuthorityStatus : Serialize StandingAuthorityStatus :=
  fun s => VString (status_as_str s).

#[export] Instance ser_StandingAuthorityRunV1 `{Runtime} : Serialize StandingAuthorityRunV1 :=
  fun r => struct_value [
    field "at" (run_at r);
    field "operation_id" (run_operation_id r);
    field "capability_id" (run_capability_id r)].

#[export] Instance ser_StandingAuthorityV1 `{Runtime} : Serialize StandingAuthorityV1 :=
  fun s => struct_value [
    field "schema_version" (sa_schema_version s);
    field "authority_id" (sa_authority_id s);
    field "created_at" (sa_created_at s);
    field "expires_at" (sa_expires_at s);
    field "account_id" (sa_account_id s);
    field_some "zone_id" (sa_zone_id s);
    field "capability_ids" (sa_capability_ids s);
    field "permission_group_ids" (sa_permission_group_ids s);
    field "permission_inventory_hash" (sa_permission_inventory_hash s);
    field "max_child_ttl_hours" (sa_max_child_ttl_hours s);
    field "name_prefix" (sa_name_prefix s);
    field "max_runs_per_day" (sa_max_runs_per_day s);
    field "status" (sa_status s);
    field "approval" (sa_approval s);
    field "minted_token_ids" (sa_minted_token_ids s);
    field "run_log" (sa_run_log s);
    field "content_hash" (sa_content_hash s)].

(** The guard [lock_authority] returns; the lock itself is the kernel's. *)
Record AuthorityLock : Type := mkAuthorityLock {
  lock_authority_id : string;
  lock_authority_path : string;
}.

(** ** The store *)

Section AuthorityStore.
Context `{Runtime} `{Pretty} `{!Decode StandingAuthorityV1} `{!Decode Value}.
Variable self : StateStore.

Definition validate_authority_id (authority_id : string) : result StorageError unit :=
  validate_managed_id authority_id ManagedAuthority.

Definition authorities_directory : string := path_join (data_dir (store_paths self)) "authorities".
Definition authority_file (id : string) : string :=
  path_join authorities_directory (json_name id).
Definition authority_permissions_file (id : string) : string :=
  path_join authorities_directory (json_name (id ++ "-permissions")).
Definition authority_lock_file (id : string) : string :=
  path_join (path_join (path_join (data_dir (store_paths self)) "locks") "authorities")
    (id ++ ".lock").

Definition authority_path (authority_id : string) : result StorageError string :=
  let? _ := validate_authority_id authority_id in Ok (authority_file authority_id).

Definition authority_permissions_path (authority_id : string) : result StorageError string :=
  let? _ := validate_authority_id authority_id in Ok (authority_permissions_file authority_id).

Definition ensure_authority_identity (authority : StandingAuthorityV1) (filename_id : string)
  : result StorageError unit :=
  let? _ := validate_authority_id (sa_authority_id authority) in
  guard (sa_authority_id authority <>? filename_id)
    (ManagedDocumentIdentityMismatch (managed_label ManagedAuthority) filename_id
       (sa_authority_id authority)) (Ok tt).

Definition lock_authority (authority_id : string) : IO AuthorityLock :=
  let* path := st_lift (authority_path authority_id) in
  do* validate_existing_managed_file (authority_lock_file authority_id) in
  do* lock_file (authority_lock_file authority_id) in
  st_ret (mkAuthorityLock authority_id path).

Definition create_authority (authority : StandingAuthorityV1) : IO unit :=
  let* path := st_lift (authority_path (sa_authority_id authority)) in
  let value := to_value authority in
  do* st_guard (negb (Value_eqb (redact_json value) value)) SensitiveData in
  let* present := validate_existing_managed_file path in
  do* st_guard present (AuthorityAlreadyExists (sa_authority_id authority)) in
  let* encoded := st_lift (map_err Files.Json (to_vec_pretty (to_value authority))) in
  st_already_exists (AuthorityAlreadyExists (sa_authority_id authority)) (atomic_create path encoded).

Definition save_authority (authority : StandingAuthorityV1) : IO unit := create_authority authority.

Definition save_authority_guarded (authority : StandingAuthorityV1) (guard_ : AuthorityLock)
  : IO unit :=
  let id := sa_authority_id authority in
  let* path := st_lift (authority_path id) in
  do* st_guard ((lock_authority_id guard_ <>? id) || (lock_authority_path guard_ <>? path))
        (AuthorityLockMismatch id) in
  let value := to_value authority in
  do* st_guard (negb (Value_eqb (redact_json value) value)) SensitiveData in
  let* present := validate_existing_managed_file path in
  do* st_guard (negb present) (AuthorityNotFound id) in
  let* stored := read_json (A := StandingAuthorityV1) path in
  do* st_lift (ensure_authority_identity stored id) in
  do* st_guard ((sa_status stored =? Revoked) && (sa_status authority <>? Revoked))
        (AuthorityRevocationRollback id) in
  write_json path authority.

Definition load_authority (authority_id : string) : IO StandingAuthorityV1 :=
  let* path := st_lift (authority_path authority_id) in
  let* present := validate_existing_managed_file path in
  do* st_guard (negb present) (AuthorityNotFound authority_id) in
  let* authority := read_json (A := StandingAuthorityV1) path in
  do* st_lift (ensure_authority_identity authority authority_id) in
  st_ret authority.

Definition save_authority_permissions (authority_id : string) (permission_groups : Value) : IO unit :=
  let* path := st_lift (authority_permissions_path authority_id) in
  let* encoded := st_lift (map_err Files.Json (to_vec_pretty permission_groups)) in
  atomic_create path encoded.

Definition load_authority_permissions (authority_id : string) : IO (option Value) :=
  let* path := st_lift (authority_permissions_path authority_id) in
  let* present := is_file path in
  if negb present then st_ret None
  else let* permissions := read_json (A := Value) path in st_ret (Some permissions).
End AuthorityStore.

(** ** Specification *)

(** The calls on authorities, with whatever document and guard. *)
Inductive authority_call : Type :=
| CallCreate (authority : StandingAuthorityV1)
| CallSaveGuarded (authority : StandingAuthorityV1) (guard_ : AuthorityLock)
| CallLock (authority_id : string)
| CallLoad (authority_id : string)
| CallSavePermissions (authority_id : string) (permission_groups : Value)
| CallLoadPermissions (authority_id : string).

Section Spec.
Context `{Runtime} `{Pretty} `{!Decode StandingAuthorityV1} `{!Decode Value}.
Variable self : StateStore.

Definition run_authority_call (c : authority_call) : IO unit :=
  match c with
  | CallCreate authority => create_authority self authority
  | CallSaveGuarded authority guard_ => save_authority_guarded self authority guard_
  | CallLock id => do* lock_authority self id in st_ret tt
  | CallLoad id => do* load_authority self id in st_ret tt
  | CallSavePermissions id groups => save_authority_permissions self id groups
  | CallLoadPermissions id => do* load_authority_permissions self id in st_ret tt
  end.

(** One call, whatever fails during it and whatever it answers. *)
Definition authority_step (f f' : Files) : Prop :=
  exists c w w' r, files w = f /\ run_authority_call c w = (r, w') /\ files w' = f'.

(** The document of [id] is there and, if it reads at all, is revoked. *)
Definition durably_revoked (id : string) (f : Files) : Prop :=
  exists bytes, f !! authority_file self id = Some (Regular bytes) /\
    forall a : StandingAuthorityV1, from_slice bytes = Ok a -> sa_status a = Revoked.
End Spec.

(** serde: the status of an authority that was written is the one read. *)
Class StatusReadsBack `{Runtime} `{Pretty} `{!Decode StandingAuthorityV1} : Prop :=
  status_reads_back : forall (a a' : StandingAuthorityV1) bytes,
    to_vec_pretty (to_value a) = Ok bytes -> from_slice bytes = Ok a' -> sa_status a' = sa_status a.

(** ** Facts *)

Section Facts.
Context `{Runtime} `{Pretty} `{!Decode StandingAuthorityV1} `{!Decode Value}.
Variable self : StateStore.

Lemma authority_path_ok id path : authority_path self id = Ok path -> path = authority_file self id.
Proof. unfold authority_path. rewrite res_bind_unit_ok. by intros [_ [= <-]]. Qed.

Lemma authority_lock_apart id id' : authority_file self id' <> authority_lock_file self id.
Proof.
  unfold authority_file, authority_lock_file, authorities_directory, path_join.
  induction (data_dir (store_paths self)) as [|c s IH]; [discriminate|]. intros [= E]. by apply IH.
Qed.

Lemma revoked_present id f : durably_revoked self id f -> f !! authority_file self id <> None.
Proof. by intros (b & -> & _). Qed.

(** A file created where none was is not the revoked document. *)
Lemma revoked_create id f path e :
  durably_revoked self id f -> f !! path = None -> durably_revoked self id (<[path := e]> f).
Proof.
  intros Hd Hn. destruct (decide (path = authority_file self id)) as [->|Hne].
  - by destruct (revoked_present id f Hd).
  - destruct Hd as (b & Hb & Ha). exists b. by rewrite lookup_insert_ne.
Qed.

Lemma wp_load_authority id Q f :
  (forall e, Q (Err e) f) ->
  (forall a, document f (authority_file self id) = Some a -> Q (Ok a) f) ->
  wp (load_authority self id) Q f.
Proof.
  intros He Ha. unfold load_authority. repeat wp_step; auto.
  all: try (apply authority_path_ok in E as ->; auto).
Qed.

Lemma revoked_document id f a :
  durably_revoked self id f -> document f (authority_file self id) = Some a -> sa_status a = Revoked.
Proof. intros (b & Hb & Ha) Hd. apply Ha. by eapply document_regular. Qed.

Lemma wp_save_guarded_revoked `{!StatusReadsBack} id authority guard_ f :
  durably_revoked self id f ->
  wp (save_authority_guarded self authority guard_) (fun _ => durably_revoked self id) f.
Proof.
  intros Hd. unfold save_authority_guarded. wp_step. wp_step; [|done].
  apply authority_path_ok in E as ->. repeat wp_step; try done.
  destruct (decide (authority_file self (sa_authority_id authority) = authority_file self id)) as [Ep|Hne].
  - rewrite Ep in *. exists bytes0. rewrite lookup_insert_eq. split; [done|]. intros a' Ha'.
    rewrite (status_reads_back _ _ _ Hbytes Ha').
    rewrite (revoked_document id f _ Hd Hdoc), eqb_refl in Hguard2. cbn in Hguard2.
    by apply negb_false_iff, eqb_eq in Hguard2.
  - destruct Hd as (b & Hb & Ha). exists b. by rewrite lookup_insert_ne.
Qed.

Lemma wp_call_revoked `{!StatusReadsBack} id c f :
  durably_revoked self id f ->
  wp (run_authority_call self c) (fun _ => durably_revoked self id) f.
Proof.
  intros Hd. destruct c as [a|a g|id'|id'|id' v|id']; cbn [run_authority_call].
  - unfold create_authority. repeat wp_step; try done.
    intros w r w' Hw. unfold st_already_exists. destruct (atomic_create _ _ w) as [r0 w0] eqn:Ec.
    intros [= _ <-]. 
    refine (wp_atomic_create _ _ (fun _ => durably_revoked self id) f _ _ w r0 w0 Hw Ec);
      auto using revoked_create.
  - by apply wp_save_guarded_revoked.
  - wp_step. unfold lock_authority. wp_step. wp_step; [|done]. wp_step.
    assert (Hl : wp (do* lock_file (authority_lock_file self id')
        in st_ret (mkAuthorityLock id' a))
      (fun _ => durably_revoked self id) f).
    { wp_step. apply wp_lock_file. intros r f' Hf'.
      assert (durably_revoked self id f').
      { destruct Hd as (b & Hb & Ha). exists b. rewrite Hf' by apply authority_lock_apart. done. }
      destruct r; [by apply wp_ret|done]. }
    wp_step; try done; (eapply wp_mono; [exact Hl|]); intros []; intros; try done; by apply wp_ret.
  - wp_step. apply wp_load_authority; [done|]. intros. by apply wp_ret.
  - unfold save_authority_permissions. repeat wp_step; auto using revoked_create.
  - unfold load_authority_permissions. repeat wp_step; done.
Qed.
End Facts.

(** ** Properties *)

(** C11: revocation is durable: once the stored authority is revoked, no
    sequence of store calls - creating, saving under any guard, locking,
    caching permissions, whatever fails in between - ever lets a load return
    an authority that could authorise anything. *)
Theorem revocation_is_durable `{Runtime} `{Pretty} `{!Decode StandingAuthorityV1} `{!Decode Value}
    `{!StatusReadsBack} (self : StateStore) (id : string) (f f' : Files)
    (w w' : World) (a : StandingAuthorityV1) (now : DateTime) :
  durably_revoked self id f -> rtc (authority_step self) f f' ->
  files w = f' -> load_authority self id w = (Ok a, w') ->
  sa_status a = Revoked /\ is_ok (ensure_operational_at a now) = false.
Proof.
  intros Hd Hr Hw Hl. assert (Hd' : durably_revoked self id f').
  { clear Hw Hl. induction Hr as [|x y z (c & w1 & w2 & r & <- & Hc & <-) _ IH]; [done|].
    apply IH. exact (wp_use _ _ _ _ _ Hc (wp_call_revoked self id c (files w1) Hd)). }
  assert (Hs : sa_status a = Revoked).
  { apply (wp_use _ (fun r _ => forall a, r = Ok a -> sa_status a = Revoked) _ _ _ Hl); [|done].
    rewrite Hw. apply wp_load_authority; [done|]. intros b Hb ? [= <-]. by eapply revoked_document. }
  split; [done|]. unfold ensure_operational_at. by rewrite Hs.
Qed.

(** ** Witnesses *)

Definition sample_authority_id : string := "22222222-2222-2222-2222-222222222222".
Definition sample_revoked : StandingAuthorityV1 :=
  mkStandingAuthorityV1 1 sample_authority_id (at_s 0) (at_s 864000) "acct" None ["dns.create"]
    ["dns.write"] "inventory" 8 "cfctl-child-" 2 Revoked None [] [] "hash".
Definition sample_restored : StandingAuthorityV1 := sa_set_status Active sample_revoked.
Definition authority_store : StateStore := mkStateStore (from_root "root") None.

(** An encoder of exactly two documents. *)
Definition two_documents : Pretty := fun v =>
  if decide (v = to_value sample_revoked) then Ok "revoked"
  else if decide (v = to_value sample_restored) then Ok "restored"
  else Err "unsupported".
Definition decode_two : Decode StandingAuthorityV1 := fun bytes =>
  if bytes =? "revoked" then Ok sample_revoked
  else if bytes =? "restored" then Ok sample_restored else Err "unknown document".
#[local] Existing Instances two_documents decode_two demo_decode_value.

Lemma status_of_value (a b : StandingAuthorityV1) :
  to_value a = to_value b -> sa_status a = sa_status b.
Proof.
  intros E. apply (f_equal (vget "status")) in E.
  assert (Hv : forall x : StandingAuthorityV1, vget "status" (to_value x) = Some (VString (status_as_str (sa_status x)))).
  { intros x. destruct x as [? ? ? ? ? [] ? ? ? ? ? ? [] ? ? ? ?]; reflexivity. }
  rewrite !Hv in E. by destruct (sa_status a), (sa_status b).
Qed.

#[local] Instance two_documents_status : StatusReadsBack.
Proof.
  intros a a' bytes Hb Ha. unfold to_vec_pretty, two_documents in Hb.
  destruct (decide (to_value a = to_value sample_revoked)) as [E|];
    [|destruct (decide (to_value a = to_value sample_restored)) as [E|]; [|done]];
    injection Hb as <-; injection Ha as <-; by rewrite (status_of_value _ _ E).
Qed.

Definition revoked_files : Files :=
  {[authority_file authority_store sample_authority_id := Regular "revoked"]}.

Lemma revocation_is_durable_witness :
  let restore := CallSaveGuarded sample_restored
    (mkAuthorityLock sample_authority_id (authority_file authority_store sample_authority_id)) in
  (run_authority_call authority_store restore (calm revoked_files)).1
    = Err (AuthorityRevocationRollback sample_authority_id) /\
  is_ok (ensure_operational_at sample_revoked (at_s 10)) = false.
Proof.
  intros restore. split; [vm_compute; reflexivity|].
  refine (proj2 (revocation_is_durable authority_store sample_authority_id revoked_files revoked_files
    (calm revoked_files) _ sample_revoked (at_s 10) _ _ _ (outcome _ _ _))).
  - exists "revoked". split; [vm_compute; reflexivity|]. by intros a [= <-].
  - apply rtc_once. exists restore, (calm revoked_files),
      (run_authority_call authority_store restore (calm revoked_files)).2,
      (Err (AuthorityRevocationRollback sample_authority_id)).
    split; [reflexivity|]. split; [apply outcome; vm_compute; reflexivity|].
    apply same_files. vm_compute. reflexivity.
  - reflexivity.
  - vm_compute. reflexivity.
Defined.
