(* ===== verification/AdmissionStore.v ===== *)
(** The admission policy store (crates/cfctl-storage/src/lib.rs): staged
    bundles as managed documents, and the pointer that selects the active
    one. *)

From Stdlib Require Import String Ascii ZArith Lia List Bool.
From stdpp Require Import base option list strings gmap relations.
From S2P Require Import Prelude Strings Btree Json JsonOps Redaction Core CatalogTypes Capability.
From S2P Require Import Policy Admission Demo Files Store.

Open Scope cf_scope.
Open Scope string_scope.
Open Scope cf_scope.

(** ** Documents *)

#[export] Instance ser_AdmissionPolicyBundleStatusV1 : Serialize AdmissionPolicyBundleStatusV1 :=
  fun s => VString (bundle_status_as_str s).

#[export] Instance ser_AdmissionPolicyBundleV1 `{Runtime} : Serialize AdmissionPolicyBundleV1 :=
  fun b => struct_value [
    field "schema_version" (bundle_schema_version b);
    field "bundle_id" (bundle_id b);
    field "name" (bundle_name b);
    field "created_at" (bundle_created_at b);
    field "status" (bundle_status b);
    field "rules" (bundle_rules b);
    field "content_hash" (bundle_content_hash b);
    field_some "approved_at" (bundle_approved_at b);
    field_some "approved_content_hash" (bundle_approved_content_hash b)].

Record AdmissionPolicyPointerV1 : Type := mkAdmissionPolicyPointerV1 {
  pointer_schema_version : Z;
  pointer_bundle_id : string;
  pointer_content_hash : string;
}.
#[export] Instance ser_AdmissionPolicyPointerV1 : Serialize AdmissionPolicyPointerV1 :=
  fun p => struct_value [
    field "schema_version" (pointer_schema_version p);
    field "bundle_id" (pointer_bundle_id p);
    field "content_hash" (pointer_content_hash p)].

Record AdmissionActivationV1 : Type := mkAdmissionActivationV1 {
  activation_bundle : AdmissionPolicyBundleV1;
  activation_previous_bundle_id : option string;
}.

(** ** The store *)

Section AdmissionStore.
Context `{Runtime} `{Pretty} `{!Decode AdmissionPolicyBundleV1} `{!Decode AdmissionPolicyPointerV1}.
Variable self : StateStore.

Definition validate_admission_bundle_id (bundle_id : string) : result StorageError unit :=
  match uuid_hyphenated bundle_id with
  | None => Err (InvalidAdmissionBundleId bundle_id)
  | Some parsed => guard (parsed <>? bundle_id) (InvalidAdmissionBundleId bundle_id) (Ok tt)
  end.

Definition admission_directory : string :=
  path_join (path_join (config_dir (store_paths self)) "policy") "admission".

Definition admission_bundle_directory : string := path_join admission_directory "bundles".

Definition admission_bundle_file (bundle_id : string) : string :=
  path_join admission_bundle_directory (json_name bundle_id).

Definition admission_bundle_path (bundle_id : string) : result StorageError string :=
  let? _ := validate_admission_bundle_id bundle_id in Ok (admission_bundle_file bundle_id).

Definition active_admission_policy_path : string := path_join admission_directory "active.json".

Definition admission_lock_file : string :=
  path_join (path_join (data_dir (store_paths self)) "locks") "admission-policy.lock".

Definition validate_admission_bundle_identity (bundle : AdmissionPolicyBundleV1)
    (filename_id : string) : result StorageError unit :=
  let? _ := validate_admission_bundle_id (bundle_id bundle) in
  guard (bundle_id bundle <>? filename_id)
    (ManagedDocumentIdentityMismatch "admission policy bundle" filename_id (bundle_id bundle))
    (Ok tt).

Definition active_admission_pointer : IO (option AdmissionPolicyPointerV1) :=
  let path := active_admission_policy_path in
  let* present := is_file path in
  if negb present then st_ret None
  else
    let* pointer := read_json (A := AdmissionPolicyPointerV1) path in
    do* st_guard ((pointer_schema_version pointer <>? 1%Z) || is_empty (pointer_content_hash pointer))
          (InvalidAdmissionPointer "unsupported schema or empty content hash") in
    do* st_lift (validate_admission_bundle_id (pointer_bundle_id pointer)) in
    st_ret (Some pointer).

Definition write_admission_bundle (bundle : AdmissionPolicyBundleV1) : IO unit :=
  do* st_lift (map_err InvalidPlan (bundle_validate bundle)) in
  let* path := st_lift (admission_bundle_path (bundle_id bundle)) in
  let* present := validate_existing_managed_file path in
  do* st_guard (negb present) (AdmissionBundleNotFound (bundle_id bundle)) in
  let* stored := read_json (A := AdmissionPolicyBundleV1) path in
  do* st_lift (validate_admission_bundle_identity stored (bundle_id bundle)) in
  write_json path bundle.

Definition lock_admission_policy : IO unit := lock_file admission_lock_file.

Definition create_admission_bundle (bundle : AdmissionPolicyBundleV1) : IO unit :=
  do* st_lift (map_err InvalidPlan (bundle_validate bundle)) in
  do* st_guard (bundle_status bundle <>? BundlePending)
        (InvalidAdmissionPointer "only a pending admission bundle may be staged") in
  do* lock_admission_policy in
  let* path := st_lift (admission_bundle_path (bundle_id bundle)) in
  let value := to_value bundle in
  do* st_guard (negb (Value_eqb (redact_json value) value)) SensitiveData in
  let* encoded := st_lift (map_err Files.Json (to_vec_pretty (to_value bundle))) in
  st_already_exists (AdmissionBundleAlreadyExists (bundle_id bundle)) (atomic_create path encoded).

Definition load_admission_bundle (bundle_id : string) : IO AdmissionPolicyBundleV1 :=
  let* path := st_lift (admission_bundle_path bundle_id) in
  let* present := validate_existing_managed_file path in
  do* st_guard (negb present) (AdmissionBundleNotFound bundle_id) in
  let* bundle := read_json (A := AdmissionPolicyBundleV1) path in
  do* st_lift (validate_admission_bundle_identity bundle bundle_id) in
  do* st_lift (map_err InvalidPlan (bundle_validate bundle)) in
  st_ret bundle.

Definition approve_admission_bundle (clk : Clock) (bundle_id : string) (explicit_yes : bool)
  : IO AdmissionPolicyBundleV1 :=
  do* lock_admission_policy in
  let* bundle := load_admission_bundle bundle_id in
  let* bundle := st_lift (map_err InvalidPlan (in_place (bundle_approve clk explicit_yes) bundle)) in
  do* write_admission_bundle bundle in
  st_ret bundle.

Definition pointer_to (target : AdmissionPolicyBundleV1) : AdmissionPolicyPointerV1 :=
  mkAdmissionPolicyPointerV1 1 (bundle_id target) (bundle_content_hash target).

(** The last step of an activation. *)
Definition supersede_previous (bundle_id : string) (previous_id : option string) : IO unit :=
  match previous_id with
  | Some previous_id =>
      if previous_id =? bundle_id then st_ret tt
      else
        let* previous := load_admission_bundle previous_id in
        write_admission_bundle (bundle_supersede previous)
  | None => st_ret tt
  end.

Definition activate_admission_bundle (bundle_id : string) : IO AdmissionActivationV1 :=
  do* lock_admission_policy in
  let* pointer := active_admission_pointer in
  let previous_id := pointer_bundle_id <$> pointer in
  let* target := load_admission_bundle bundle_id in
  let* target := st_lift (map_err InvalidPlan (in_place bundle_activate target)) in
  do* write_admission_bundle target in
  do* write_json active_admission_policy_path (pointer_to target) in
  do* supersede_previous bundle_id previous_id in
  st_ret (mkAdmissionActivationV1 target previous_id).

Definition active_admission_bundle_id : IO (option string) :=
  let* pointer := active_admission_pointer in st_ret (pointer_bundle_id <$> pointer).

Definition active_admission_policy : IO (option AdmissionPolicyBundleV1) :=
  let* pointer := active_admission_pointer in
  match pointer with
  | None => st_ret None
  | Some pointer =>
      let* bundle := load_admission_bundle (pointer_bundle_id pointer) in
      do* st_guard ((bundle_status bundle <>? BundleActive)
                    || (bundle_content_hash bundle <>? pointer_content_hash pointer))
            (InvalidAdmissionPointer ("pointer selects bundle `" ++ pointer_bundle_id pointer
               ++ "` without the exact active content hash")) in
      st_ret (Some bundle)
  end.
End AdmissionStore.

(** ** Specification *)

Section Spec.
Context `{Runtime} `{Pretty} `{!Decode AdmissionPolicyBundleV1} `{!Decode AdmissionPolicyPointerV1}.
Variable self : StateStore.

(** The policy in force on some files: what [active_admission_policy] answers
    when nothing fails. *)
Definition effective (f : Files) : result StorageError (option AdmissionPolicyBundleV1) :=
  (active_admission_policy self (calm f)).1.
End Spec.

(** The calls on bundles. *)
Inductive admission_call : Type :=
| CallCreateBundle (bundle : AdmissionPolicyBundleV1)
| CallApprove (clk : Clock) (bundle_id : string) (explicit_yes : bool)
| CallActivate (bundle_id : string)
| CallLoadBundle (bundle_id : string)
| CallActivePolicy.

Section Stuck.
Context `{Runtime} `{Pretty} `{!Decode AdmissionPolicyBundleV1} `{!Decode AdmissionPolicyPointerV1}.
Variable self : StateStore.

Definition run_admission_call (c : admission_call) : IO unit :=
  match c with
  | CallCreateBundle bundle => create_admission_bundle self bundle
  | CallApprove clk id yes => do* approve_admission_bundle self clk id yes in st_ret tt
  | CallActivate id => do* activate_admission_bundle self id in st_ret tt
  | CallLoadBundle id => do* load_admission_bundle self id in st_ret tt
  | CallActivePolicy => do* active_admission_policy self in st_ret tt
  end.

(** One call, whatever fails during it and whatever it answers. *)
Definition admission_step (f f' : Files) : Prop :=
  exists c w w' r, files w = f /\ run_admission_call c w = (r, w') /\ files w' = f'.

(** The bundle is stored as active, but no pointer names it: what an
    activation interrupted before the pointer was written leaves. *)
Definition half_activated (id : string) (f : Files) : Prop :=
  (exists bytes, f !! admission_bundle_file self id = Some (Regular bytes) /\
     forall b : AdmissionPolicyBundleV1, from_slice bytes = Ok b -> bundle_status b = BundleActive) /\
  forall p, document f (active_admission_policy_path self) = Some p -> pointer_bundle_id p <> id.
End Stuck.

(** serde: a pointer that was written names the bundle it was made for. *)
Class PointerReadsBack `{Pretty} `{!Decode AdmissionPolicyPointerV1} : Prop :=
  pointer_reads_back : forall (p p' : AdmissionPolicyPointerV1) bytes,
    to_vec_pretty (to_value p) = Ok bytes -> from_slice bytes = Ok p' ->
    pointer_bundle_id p' = pointer_bundle_id p.

(** ** Facts *)

Section Facts.
Context `{Runtime} `{Pretty} `{!Decode AdmissionPolicyBundleV1} `{!Decode AdmissionPolicyPointerV1}.
Variable self : StateStore.

Lemma admission_bundle_path_ok id path :
  admission_bundle_path self id = Ok path ->
  path = admission_bundle_file self id /\ validate_admission_bundle_id id = Ok tt.
Proof. unfold admission_bundle_path. rewrite res_bind_unit_ok. by intros [? [= <-]]. Qed.

Lemma bundle_identity_ok b id u :
  validate_admission_bundle_identity b id = Ok u ->
  bundle_id b = id /\ validate_admission_bundle_id id = Ok tt.
Proof.
  unfold validate_admission_bundle_identity. destruct u.
  rewrite res_bind_unit_ok, guard_unit_ok, neqb_false. by intros [? <-].
Qed.

(** Loading a bundle, whatever fails. *)
Definition bundle_at (f : Files) (id : string) (b : AdmissionPolicyBundleV1) : Prop :=
  (exists bytes, f !! admission_bundle_file self id = Some (Regular bytes) /\
     from_slice bytes = Ok b) /\
  validate_admission_bundle_id id = Ok tt /\ bundle_id b = id /\ bundle_validate b = Ok tt.

Lemma wp_load_bundle id Q f :
  (forall e, Q (Err e) f) -> (forall b, bundle_at f id b -> Q (Ok b) f) ->
  wp (load_admission_bundle self id) Q f.
Proof.
  intros He Hb. unfold load_admission_bundle. repeat wp_step; try done.
  apply admission_bundle_path_ok in E as [-> Hid]. apply bundle_identity_ok in E0 as [Hi _].
  apply map_err_ok in E1. destruct a2. apply Hb. repeat split; eauto using document_regular.
Qed.

Lemma bundle_at_same f f' id b :
  f' !! admission_bundle_file self id = f !! admission_bundle_file self id ->
  bundle_at f' id b <-> bundle_at f id b.
Proof. unfold bundle_at. by intros ->. Qed.

Lemma wp_write_bundle b Q f :
  (forall e, Q (Err e) f) ->
  (forall bytes r, bundle_validate b = Ok tt -> validate_admission_bundle_id (bundle_id b) = Ok tt ->
     to_vec_pretty (to_value b) = Ok bytes ->
     (r = Ok tt \/ exists k, r = Err (WriteDurabilityUnknown (admission_bundle_file self (bundle_id b)) k)) ->
     Q r (<[admission_bundle_file self (bundle_id b) := Regular bytes]> f)) ->
  wp (write_admission_bundle self b) Q f.
Proof.
  intros He Hw. unfold write_admission_bundle. wp_step. wp_step; [|done]. apply map_err_ok in E.
  destruct a. repeat wp_step; try done. apply admission_bundle_path_ok in E0 as [-> Hid]. eauto.
Qed.

Lemma wp_pointer Q f :
  (forall e, Q (Err e) f) ->
  (forall pointer, (forall p, pointer = Some p -> document f (active_admission_policy_path self) = Some p) ->
     Q (Ok pointer) f) ->
  wp (active_admission_pointer self) Q f.
Proof.
  intros He Hp. unfold active_admission_pointer. repeat wp_step; auto.
  - by apply Hp.
  - apply Hp. by intros ? [= <-].
Qed.

(** *** The effective policy depends on two files *)

(** What the pointer file holds, and what a bundle file holds. *)
Definition read_pointer (content : option string)
  : result StorageError (option AdmissionPolicyPointerV1) :=
  match content with
  | None => Ok None
  | Some bytes =>
      let? pointer := map_err Json (from_slice bytes) in
      guard ((pointer_schema_version pointer <>? 1%Z) || is_empty (pointer_content_hash pointer))
        (InvalidAdmissionPointer "unsupported schema or empty content hash")
        (let? _ := validate_admission_bundle_id (pointer_bundle_id pointer) in Ok (Some pointer))
  end.

Definition stored_pointer (f : Files) : result StorageError (option AdmissionPolicyPointerV1) :=
  read_pointer (contents f (active_admission_policy_path self)).

Lemma calm_pointer f : active_admission_pointer self (calm f) = (stored_pointer f, calm f).
Proof.
  unfold stored_pointer, active_admission_pointer. rewrite (st_bind_eq _ _ _ _ _ (calm_is_file f _)).
  destruct (contents f (active_admission_policy_path self)) as [bytes|] eqn:E; [|done].
  cbn [is_someb negb read_pointer]. unfold st_bind at 1. rewrite (calm_read f _ bytes E).
  destruct (from_slice bytes) as [p|]; [|done].
  cbn [map_err res_bind]. unfold st_guard, st_bind, st_throw, st_ret, st_lift, guard.
  destruct (_ || _); [done|]. by destruct (validate_admission_bundle_id (pointer_bundle_id p)).
Qed.

Definition read_bundle (id : string) (entry : option Entry) : result StorageError AdmissionPolicyBundleV1 :=
  let? path := admission_bundle_path self id in
  match entry with
  | None => Err (AdmissionBundleNotFound id)
  | Some (Regular bytes) =>
      let? b := map_err Json (from_slice bytes) in
      let? _ := validate_admission_bundle_identity b id in
      let? _ := map_err InvalidPlan (bundle_validate b) in Ok b
  | Some (Link _) => Err (unsafe_managed_document path "symbolic links are forbidden")
  | Some Directory =>
      Err (unsafe_managed_document path "managed documents must be regular files")
  end.

Lemma calm_bundle f id :
  load_admission_bundle self id (calm f) =
  (read_bundle id (f !! admission_bundle_file self id), calm f).
Proof.
  unfold load_admission_bundle, read_bundle.
  destruct (admission_bundle_path self id) as [path|] eqn:Ep; [|done].
  erewrite st_bind_eq by reflexivity. cbn [res_bind].
  apply admission_bundle_path_ok in Ep as [-> _].
  unfold st_bind at 1. rewrite calm_existing.
  destruct (f !! admission_bundle_file self id) as [[b| |]|] eqn:Ef; [|done..].
  unfold st_guard. cbn [negb]. erewrite st_bind_eq by reflexivity.
  unfold st_bind at 1. rewrite (calm_read_json _ _ b Ef).
  destruct (from_slice b) as [x|]; [|done]. cbn [map_err res_bind]. unfold st_bind, st_lift, st_ret.
  destruct (validate_admission_bundle_identity x id); [|done]. by destruct (bundle_validate x).
Qed.

Lemma read_bundle_at f id b :
  bundle_at f id b -> read_bundle id (f !! admission_bundle_file self id) = Ok b.
Proof.
  intros ((bytes & -> & Hb) & Hid & Hi & Hv). unfold read_bundle, admission_bundle_path.
  rewrite Hid. cbn. rewrite Hb. cbn. unfold validate_admission_bundle_identity.
  by rewrite Hi, Hid, eqb_refl, Hv.
Qed.

Definition exact_active (p : AdmissionPolicyPointerV1) (b : AdmissionPolicyBundleV1)
  : result StorageError (option AdmissionPolicyBundleV1) :=
  guard ((bundle_status b <>? BundleActive) || (bundle_content_hash b <>? pointer_content_hash p))
    (InvalidAdmissionPointer ("pointer selects bundle `" ++ pointer_bundle_id p
       ++ "` without the exact active content hash")) (Ok (Some b)).

Lemma effective_eq f :
  effective self f =
  let? pointer := stored_pointer f in
  match pointer with
  | None => Ok None
  | Some p =>
      let? b := read_bundle (pointer_bundle_id p) (f !! admission_bundle_file self (pointer_bundle_id p)) in
      exact_active p b
  end.
Proof.
  unfold effective, active_admission_policy. unfold st_bind at 1. rewrite calm_pointer.
  destruct (stored_pointer f) as [[p|]|]; [|done..]. cbn [res_bind]. unfold st_bind at 1.
  rewrite calm_bundle. destruct (read_bundle _ _) as [b|e]; [|done].
  cbn [fst res_bind]. unfold exact_active, guard, st_guard, st_bind. by destruct (_ || _).
Qed.

Lemma effective_same f f' :
  f' !! active_admission_policy_path self = f !! active_admission_policy_path self ->
  (forall p, stored_pointer f = Ok (Some p) ->
     f' !! admission_bundle_file self (pointer_bundle_id p)
     = f !! admission_bundle_file self (pointer_bundle_id p)) ->
  effective self f' = effective self f.
Proof.
  intros Hp Hb. rewrite !effective_eq.
  assert (Hs : stored_pointer f' = stored_pointer f) by (unfold stored_pointer, contents; by rewrite Hp).
  rewrite Hs. destruct (stored_pointer f) as [[p|]|]; [|done..]. cbn [res_bind].
  by rewrite (Hb p eq_refl).
Qed.

(** *** Paths *)

Lemma lock_apart path :
  path = active_admission_policy_path self \/ (exists id, path = admission_bundle_file self id) ->
  path <> admission_lock_file self.
Proof.
  intros Hp E. apply (f_equal (fun s => last_byte s "x"%char)) in E.
  unfold admission_lock_file in E.
  rewrite (path_last _ _ "k"%char _ "admission-policy.loc" eq_refl) in E.
  destruct Hp as [->|[id ->]].
  - unfold active_admission_policy_path in E.
    by rewrite (path_last _ _ "n"%char _ "active.jso" eq_refl) in E.
  - unfold admission_bundle_file in E. by rewrite json_name_last in E.
Qed.

Lemma pointer_apart id : admission_bundle_file self id <> active_admission_policy_path self.
Proof.
  unfold admission_bundle_file, active_admission_policy_path, admission_bundle_directory, path_join.
  induction (admission_directory self) as [|c s IH]; [discriminate|]. intros [= E]. by apply IH.
Qed.

Lemma bundle_file_inj id id' : admission_bundle_file self id = admission_bundle_file self id' -> id = id'.
Proof.
  unfold admission_bundle_file. generalize (admission_bundle_directory self). intros d E.
  unfold path_join in E. do 2 apply str_app_inj_l in E. by apply json_name_inj.
Qed.

(** *** Activation *)

Lemma in_place_ok {S E} (m : ST S E unit) (s s' : S) : in_place m s = Ok s' -> m s = (Ok tt, s').
Proof. unfold in_place. destruct (m s) as [[[]|] x]; congruence. Qed.

Lemma approve_id clk yes b target :
  in_place (bundle_approve clk yes) b = Ok target -> bundle_id target = bundle_id b.
Proof.
  intros Ha%in_place_ok. unfold bundle_approve, st_bind, st_get, st_lift, st_modify, st_throw in Ha.
  destruct (bundle_status b <>? BundlePending); [done|]. destruct (negb yes); [done|].
  destruct (bundle_validate b) as [[]|]; [|done]. by injection Ha as <-.
Qed.

Lemma activate_ok b target :
  bundle_activate b = (Ok tt, target) ->
  bundle_validate b = Ok tt /\ bundle_status b <> BundleActive /\ bundle_status target = BundleActive /\
  bundle_id target = bundle_id b /\ bundle_content_hash target = bundle_content_hash b /\
  bundle_content_hash target <> ""%string.
Proof.
  unfold bundle_activate, st_bind, st_get, st_lift, st_modify, st_throw.
  destruct (contains [BundleApproved; BundleSuperseded] (bundle_status b)) eqn:Es; [|done]. cbn [negb].
  destruct (bundle_validate b) as [[]|] eqn:Ev; [|done]. intros [= <-].
  split; [done|]. split; [by destruct (bundle_status b)|]. do 3 (split; [done|]). cbn.
  unfold bundle_validate in Ev. rewrite !guard_ok, res_bind_ok in Ev.
  destruct Ev as (_ & _ & h & Hh & Hk). rewrite guard_ok, neqb_false in Hk. destruct Hk as [<- _].
  unfold bundle_hash, json_value, canonical_hash_value, hash_value in Hh. cbn [res_bind] in Hh.
  rewrite res_bind_ok in Hh. by destruct Hh as (? & _ & [= <-]).
Qed.

(** Storing the activated bundle changes the effective policy only if the
    pointer already names it. *)
Lemma effective_after_bundle f b target bytes :
  bundle_at f (bundle_id b) b -> bundle_activate b = (Ok tt, target) ->
  bundle_validate target = Ok tt -> from_slice bytes = Ok target ->
  let f' := <[admission_bundle_file self (bundle_id b) := Regular bytes]> f in
  effective self f' = effective self f \/ effective self f' = Ok (Some target).
Proof.
  intros Hb Ha Hv Hd f'.
  assert (Hp : f' !! active_admission_policy_path self = f !! active_admission_policy_path self)
    by (unfold f'; apply lookup_insert_ne, pointer_apart).
  destruct (activate_ok _ _ Ha) as (_ & Hna & Hst & Hid & Hh & _).
  rewrite !effective_eq. assert (Hs : stored_pointer f' = stored_pointer f) by (unfold stored_pointer, contents; by rewrite Hp).
  rewrite Hs. destruct (stored_pointer f) as [[p|]|] eqn:Ep; [|by left..]. cbn [res_bind].
  destruct (decide (pointer_bundle_id p = bundle_id b)) as [Hpi|Hne].
  - rewrite Hpi, (read_bundle_at f _ b Hb), (read_bundle_at f' _ target).
    2: { destruct Hb as (_ & Hi & _). repeat split; [|done..]. exists bytes. unfold f'.
         by rewrite lookup_insert_eq. }
    cbn [res_bind]. unfold exact_active. rewrite Hst, Hh.
    assert (Hab : (bundle_status b <>? BundleActive) = true) by by apply neqb_true.
    rewrite Hab. cbn [orb guard]. destruct (bundle_content_hash b <>? pointer_content_hash p); cbn; auto.
  - left. unfold f'. rewrite lookup_insert_ne; [done|]. intros E. by apply Hne, bundle_file_inj.
Qed.

(** Once the pointer names the stored bundle, it is in force. *)
Lemma effective_after_pointer f b target bytes pbytes :
  bundle_activate b = (Ok tt, target) -> validate_admission_bundle_id (bundle_id b) = Ok tt ->
  bundle_validate target = Ok tt ->
  f !! admission_bundle_file self (bundle_id b) = Some (Regular bytes) -> from_slice bytes = Ok target ->
  f !! active_admission_policy_path self = Some (Regular pbytes) ->
  from_slice pbytes = Ok (pointer_to target) ->
  effective self f = Ok (Some target).
Proof.
  intros Ha Hi Hv Hf Hd Hp Hpd. destruct (activate_ok _ _ Ha) as (_ & _ & Hst & Hid & Hh & Hne).
  rewrite effective_eq. unfold stored_pointer, contents. rewrite Hp. cbn. rewrite Hpd. cbn.
  rewrite Hid, Hi.
  assert (He : is_empty (bundle_content_hash target) = false) by by destruct (bundle_content_hash target). rewrite He. cbn.
  change (1%Z <>? 1%Z) with false. cbn. rewrite Hid, (read_bundle_at f (bundle_id b) target). 2: { by split; [exists bytes|]. }
  cbn. unfold exact_active. rewrite Hst. cbn. by rewrite !eqb_refl.
Qed.

(** Superseding the previous bundle leaves the new one in force. *)
Lemma wp_supersede b target bytes pbytes (previous_id : option string) f :
  bundle_activate b = (Ok tt, target) -> validate_admission_bundle_id (bundle_id b) = Ok tt ->
  bundle_validate target = Ok tt ->
  f !! admission_bundle_file self (bundle_id b) = Some (Regular bytes) -> from_slice bytes = Ok target ->
  f !! active_admission_policy_path self = Some (Regular pbytes) ->
  from_slice pbytes = Ok (pointer_to target) ->
  wp (supersede_previous self (bundle_id b) previous_id)
    (fun _ f' => effective self f' = Ok (Some target)) f.
Proof.
  intros Ha Hi Hv Hf Hd Hp Hpd. assert (He := effective_after_pointer f b target _ _ Ha Hi Hv Hf Hd Hp Hpd).
  destruct previous_id as [previous|]; [|by apply wp_ret]. unfold supersede_previous.
  destruct (previous =? bundle_id b) eqn:Epr; [by apply wp_ret|]. apply eqb_neq in Epr.
  wp_step. apply wp_load_bundle; [done|]. intros pb Hpb. apply wp_write_bundle; [done|].
  intros bytes4 r4 _ _ _ _. assert (Hpid : bundle_id (bundle_supersede pb) = previous).
  { destruct Hpb as (_ & _ & <- & _). unfold bundle_supersede. by destruct (_ =? _). }
  rewrite Hpid. apply (effective_after_pointer _ b target bytes pbytes); auto.
  - rewrite lookup_insert_ne; [done|]. intros Ef. by apply bundle_file_inj in Ef.
  - rewrite lookup_insert_ne by apply pointer_apart. done.
Qed.

(** What an activation leaves, whatever fails: the effective policy of before,
    or the activated bundle; on success, the activated bundle. *)
Lemma wp_activate id b target f :
  bundle_at f id b -> bundle_activate b = (Ok tt, target) ->
  reads_back target -> reads_back (pointer_to target) ->
  wp (activate_admission_bundle self id)
    (fun r f' => (effective self f' = effective self f /\ is_ok r = false) \/
                 (effective self f' = Ok (Some target) /\
                  forall a, r = Ok a -> activation_bundle a = target)) f.
Proof.
  intros Hb Ha Hrt Hrp. assert (Hid : bundle_id b = id) by apply Hb.
  destruct (activate_ok _ _ Ha) as (_ & _ & _ & Htid & _).
  unfold activate_admission_bundle. wp_step. apply wp_lock_file. intros r0 f1 Hl.
  assert (Hsame : effective self f1 = effective self f).
  { apply effective_same; [apply Hl, lock_apart; by left|]. intros. apply Hl, lock_apart. right. by eexists. }
  assert (Hb1 : bundle_at f1 id b).
  { apply (bundle_at_same f); [|done]. apply Hl, lock_apart. right. by eexists. }
  destruct r0 as [[]|e]; [|by left]. wp_step. apply wp_pointer; [by left|]. intros pointer _.
  wp_step. apply wp_load_bundle; [by left|]. intros b' Hb'.
  assert (b' = b) as ->.
  { destruct Hb1 as ((y & Hy & Hyd) & _), Hb' as ((z & Hz & Hzd) & _). congruence. }
  wp_step. wp_step; [|by left]. apply map_err_ok, in_place_ok in E. rewrite E in Ha. simplify_eq.
  wp_step. apply wp_write_bundle; [by left|]. rewrite Htid. intros bytes r2 Hv Hi Hbytes Hr2.
  set (f2 := <[admission_bundle_file self (bundle_id b) := Regular bytes]> f1).
  assert (H2 : effective self f2 = effective self f \/ effective self f2 = Ok (Some target)).
  { rewrite <- Hsame. by apply (effective_after_bundle f1 b target bytes); auto. }
  destruct r2 as [[]|e]; [|by destruct H2; [left|right]].
  wp_step. wp_step; [by destruct H2; [left|right]|].
  set (f3 := <[active_admission_policy_path self := Regular bytes0]> f2).
  assert (H3f : f3 !! admission_bundle_file self (bundle_id b) = Some (Regular bytes)).
  { unfold f3, f2. rewrite lookup_insert_ne by (intros Ep; by apply (pointer_apart (bundle_id b))).
    apply lookup_insert_eq. }
  assert (H3p : f3 !! active_admission_policy_path self = Some (Regular bytes0))
    by apply lookup_insert_eq.
  assert (H3 : effective self f3 = Ok (Some target))
    by (apply (effective_after_pointer f3 b target bytes bytes0); auto).
  split_written; [|by right].
  wp_step. eapply wp_mono; [by apply (wp_supersede b target bytes bytes0); auto|].
  intros [[]|] f4 H4; [|by right]. wp_step. right. split; [done|]. by intros ? [= <-].
Qed.

(** *** Half activated bundles *)

Lemma half_activated_other id f path bytes :
  half_activated self id f -> path <> admission_bundle_file self id ->
  path <> active_admission_policy_path self -> half_activated self id (<[path := Regular bytes]> f).
Proof.
  intros [(b & Hb & Ha) Hp] H1 H2. split; [exists b; by rewrite lookup_insert_ne|].
  intros p. unfold document, contents. rewrite lookup_insert_ne by done. apply Hp.
Qed.

Lemma half_activated_same id f f' :
  half_activated self id f -> (forall path, path <> admission_lock_file self -> f' !! path = f !! path) ->
  half_activated self id f'.
Proof.
  intros [(b & Hb & Ha) Hp] Hf. split.
  - exists b. rewrite Hf; [done|]. apply lock_apart. right. by eexists.
  - intros p. unfold document, contents. rewrite Hf; [apply Hp|]. apply lock_apart. by left.
Qed.

Lemma half_activated_status id f b :
  half_activated self id f -> bundle_at f id b -> bundle_status b = BundleActive.
Proof. intros [(x & Hx & Ha) _] ((y & Hy & Hd) & _). apply Ha. congruence. Qed.

Lemma wp_locked {A} (m : IO A) id (Q : result StorageError A -> Files -> Prop) f :
  half_activated self id f ->
  (forall e f', half_activated self id f' -> Q (Err e) f') ->
  (forall f', half_activated self id f' -> wp m Q f') ->
  wp (do* lock_admission_policy self in m) Q f.
Proof.
  intros Hh He Hm. wp_step. apply wp_lock_file. intros [[]|e] f' Hf;
    [apply Hm|apply He]; by eapply half_activated_same.
Qed.

Lemma wp_write_other id b f :
  half_activated self id f -> bundle_id b <> id ->
  wp (write_admission_bundle self b) (fun _ => half_activated self id) f.
Proof.
  intros Hh Hne. apply wp_write_bundle; [done|]. intros bytes r _ _ _ _.
  apply half_activated_other; [done| |apply pointer_apart].
  intros E. by apply bundle_file_inj in E.
Qed.

Lemma approve_active clk yes b : bundle_status b = BundleActive ->
  exists e, in_place (bundle_approve clk yes) b = Err e.
Proof. intros Hb. unfold in_place, bundle_approve, st_bind, st_get. rewrite Hb. by eexists. Qed.

Lemma activate_active b : bundle_status b = BundleActive ->
  exists e, in_place bundle_activate b = Err e.
Proof. intros Hb. unfold in_place, bundle_activate, st_bind, st_get. rewrite Hb. by eexists. Qed.

Lemma wp_activate_half `{!PointerReadsBack} id id' f :
  half_activated self id f ->
  wp (activate_admission_bundle self id')
    (fun r f' => half_activated self id f' /\ (id' = id -> is_ok r = false)) f.
Proof.
  intros Hh. unfold activate_admission_bundle. apply (wp_locked _ id); [done..|]. clear f Hh. intros f Hh.
  wp_step. apply wp_pointer; [done|]. intros pointer Hpointer. wp_step. apply wp_load_bundle; [done|].
  intros b Hb. assert (Hid : bundle_id b = id') by apply Hb. wp_step. wp_step; [|done].
  apply map_err_ok in E. destruct (decide (id' = id)) as [->|Hne].
  { destruct (activate_active b) as [e Ee]; [by eapply half_activated_status|congruence]. }
  apply in_place_ok, activate_ok in E as (_ & _ & _ & Htid & _).
  wp_step. eapply wp_mono; [apply (wp_write_other id a); [done|congruence]|]. intros [[]|e] f2 H2; [|done].
  wp_step. assert (H3 : forall bytes, to_vec_pretty (to_value (pointer_to a)) = Ok bytes ->
    half_activated self id (<[active_admission_policy_path self := Regular bytes]> f2)).
  { intros bytes Hbytes. destruct H2 as [(x & Hx & Ha) _]. split.
    - exists x. rewrite lookup_insert_ne; [done|]. intros Ep. by apply (pointer_apart id).
    - intros p Hp. apply (document_regular _ _ bytes) in Hp; [|apply lookup_insert_eq].
      rewrite (pointer_reads_back _ _ _ Hbytes Hp). cbn. congruence. }
  wp_step; [done|]. specialize (H3 _ Hbytes). split_written; [|done].
  wp_step. assert (Hs : wp (supersede_previous self id' (pointer_bundle_id <$> pointer))
    (fun _ => half_activated self id) (<[active_admission_policy_path self := Regular bytes]> f2)).
  { destruct pointer as [p|]; [|by apply wp_ret]. cbn. destruct (pointer_bundle_id p =? id'); [by apply wp_ret|].
    wp_step. apply wp_load_bundle; [done|]. intros pb Hpb. apply wp_write_other; [done|].
    assert (Hpid : bundle_id (bundle_supersede pb) = pointer_bundle_id p).
    { destruct Hpb as (_ & _ & <- & _). unfold bundle_supersede. by destruct (_ =? _). }
    rewrite Hpid. destruct Hh as [_ Hp]. auto. }
  eapply wp_mono; [exact Hs|]. intros [[]|] f4 H4; [by wp_step|done].
Qed.

Lemma wp_admission_half `{!PointerReadsBack} id c f :
  half_activated self id f -> wp (run_admission_call self c) (fun _ => half_activated self id) f.
Proof.
  intros Hh. destruct c as [b|clk id' yes|id'|id'|]; cbn [run_admission_call].
  - unfold create_admission_bundle. wp_step. wp_step; [|done]. wp_step. wp_step; [done|].
    apply (wp_locked _ id); [done..|]. clear f Hh. intros f Hh. repeat wp_step; try done.
    apply admission_bundle_path_ok in E0 as [-> _].
    intros w r w' Hw. unfold st_already_exists. destruct (atomic_create _ _ w) as [r0 w0] eqn:Ec.
    intros [= _ <-].
    refine (wp_atomic_create _ _ (fun _ => half_activated self id) f _ _ w r0 w0 Hw Ec); [done|].
    intros _ Hn _. apply half_activated_other; [done| |apply pointer_apart].
    intros Ef. rewrite Ef in Hn. destruct Hh as [(x & Hx & _) _]. congruence.
  - wp_step. unfold approve_admission_bundle. apply (wp_locked _ id); [done..|]. clear f Hh. intros f Hh.
    wp_step. apply wp_load_bundle; [done|]. intros b Hb. wp_step. wp_step; [|done].
    apply map_err_ok in E. wp_step. eapply wp_mono; [apply (wp_write_other id a); [done|]|].
    + intros Hid. assert (Hab := approve_id _ _ _ _ E). assert (Hbi : bundle_id b = id') by apply Hb.
      assert (Hst : bundle_status b = BundleActive) by (eapply half_activated_status; [done|congruence]).
      destruct (approve_active clk yes b Hst) as [e Ee]. congruence.
    + intros [[]|] f2 H2; [by do 2 wp_step|done].
  - wp_step. eapply wp_mono; [by apply (wp_activate_half id)|]. intros [] f' [Hf' _]; [by wp_step|done].
  - wp_step. apply wp_load_bundle; [done|]. intros b _. by wp_step.
  - wp_step. unfold active_admission_policy. wp_step. apply wp_pointer; [done|]. intros [p|] _; [|by do 2 wp_step].
    wp_step. apply wp_load_bundle; [done|]. intros b _. repeat wp_step; done.
Qed.

Lemma half_activated_ineffective id f b :
  half_activated self id f -> effective self f = Ok (Some b) -> bundle_id b <> id.
Proof.
  intros [_ Hp]. rewrite effective_eq. unfold stored_pointer, document in *.
  destruct (contents f (active_admission_policy_path self)) as [bytes|]; [|done]. cbn.
  destruct (from_slice bytes) as [p|]; [|done]. cbn. specialize (Hp p eq_refl).
  unfold guard. destruct (_ || _); [done|]. destruct (validate_admission_bundle_id (pointer_bundle_id p)); [|done].
  cbn. destruct (read_bundle _ _) as [x|] eqn:Er; [|done]. cbn. unfold exact_active, guard.
  destruct (_ || _); [done|]. intros [= <-]. unfold read_bundle in Er.
  rewrite res_bind_ok in Er. destruct Er as (path & _ & Er).
  destruct (f !! _) as [[y| |]|]; try done.
  rewrite res_bind_ok in Er. destruct Er as (z & _ & Er). rewrite res_bind_ok in Er.
  destruct Er as ([] & Hi%bundle_identity_ok & Er). rewrite res_bind_ok in Er. destruct Er as (? & _ & [= ->]).
  destruct Hi as [-> _]. done.
Qed.
End Facts.

(** ** Properties *)

(** Activating a bundle is atomic for the policy in force: whatever fails
    on the way, afterwards either the policy is what it was - and the call
    reported an error - or it is exactly the activated bundle. *)
Theorem activation_is_atomic `{Runtime} `{Pretty} `{!Decode AdmissionPolicyBundleV1}
    `{!Decode AdmissionPolicyPointerV1} (self : StateStore) (id : string)
    (b target : AdmissionPolicyBundleV1) (w w' : World)
    (r : result StorageError AdmissionActivationV1) :
  bundle_at self (files w) id b -> bundle_activate b = (Ok tt, target) ->
  reads_back target -> reads_back (pointer_to target) ->
  activate_admission_bundle self id w = (r, w') ->
  (effective self (files w') = effective self (files w) /\ is_ok r = false) \/
  (effective self (files w') = Ok (Some target) /\
   forall a, r = Ok a -> activation_bundle a = target).
Proof.
  intros Hb Ha Ht Hp Hr. exact (wp_use _ _ _ _ _ Hr (wp_activate self id b target (files w) Hb Ha Ht Hp)).
Qed.

(** An activation interrupted between its two writes cannot be resumed:
    once a bundle is stored as active without a pointer to it, activating it
    fails under every sequence of store calls, and it never comes into force. *)
Theorem interrupted_activation_is_stuck `{Runtime} `{Pretty} `{!Decode AdmissionPolicyBundleV1}
    `{!Decode AdmissionPolicyPointerV1} `{!PointerReadsBack} (self : StateStore) (id : string)
    (f f' : Files) :
  half_activated self id f -> rtc (admission_step self) f f' ->
  (forall w r w', files w = f' -> activate_admission_bundle self id w = (r, w') -> is_ok r = false) /\
  (forall b, effective self f' = Ok (Some b) -> bundle_id b <> id).
Proof.
  intros Hh Hr. assert (Hh' : half_activated self id f').
  { induction Hr as [|x y z (c & w1 & w2 & r & <- & Hc & <-) _ IH]; [done|].
    apply IH. exact (wp_use _ _ _ _ _ Hc (wp_admission_half self id c (files w1) Hh)). }
  split; [|intros b; by apply half_activated_ineffective].
  intros w r w' Hw Ha. assert (H2 := wp_use _ _ _ _ _ Ha (wp_activate_half self id id (files w)
    ltac:(by rewrite Hw))). by apply H2.
Qed.

(** ** Witnesses *)

Definition sample_bundle_id : string := "33333333-3333-3333-3333-333333333333".
Definition policy_store : StateStore := mkStateStore (from_root "root") None.

Definition staged_bundle : AdmissionPolicyBundleV1 := Eval vm_compute in
  match bundle_pending (clock_at 0) sample_bundle_id "no deletes" sample_rules
    return AdmissionPolicyBundleV1 with
  | Ok b => (bundle_approve (clock_at 10) true b).2
  | Err _ => sample_bundle
  end.
Definition activated_bundle : AdmissionPolicyBundleV1 := Eval vm_compute in
  (bundle_activate staged_bundle).2.
Definition sample_pointer : AdmissionPolicyPointerV1 := pointer_to activated_bundle.

(** An encoder of exactly three documents. *)
Definition policy_pretty : Pretty := fun v =>
  if decide (v = to_value staged_bundle) then Ok "approved"
  else if decide (v = to_value activated_bundle) then Ok "active"
  else if decide (v = to_value sample_pointer) then Ok "pointer"
  else Err "unsupported".
Definition decode_bundle : Decode AdmissionPolicyBundleV1 := fun bytes =>
  if bytes =? "approved" then Ok staged_bundle
  else if bytes =? "active" then Ok activated_bundle else Err "unknown document".
Definition decode_pointer : Decode AdmissionPolicyPointerV1 := fun bytes =>
  if bytes =? "pointer" then Ok sample_pointer else Err "unknown document".
#[local] Existing Instances policy_pretty decode_bundle decode_pointer.

Lemma pointer_value_id (p q : AdmissionPolicyPointerV1) :
  to_value p = to_value q -> pointer_bundle_id p = pointer_bundle_id q.
Proof.
  intros E. apply (f_equal (vget "bundle_id")) in E. destruct p, q. by injection E.
Qed.

#[local] Instance policy_pointer_reads_back : PointerReadsBack.
Proof.
  intros p p' bytes Hb Hp. unfold to_vec_pretty, policy_pretty in Hb.
  unfold from_slice, decode_pointer in Hp. destruct (bytes =? "pointer") eqn:E; [|done].
  apply eqb_eq in E as ->. injection Hp as <-.
  destruct (decide _); [done|]. destruct (decide _); [done|].
  destruct (decide _) as [Hv|]; [|done]. by rewrite (pointer_value_id _ _ Hv).
Qed.

Lemma activated_reads_back : reads_back activated_bundle /\ reads_back (pointer_to activated_bundle).
Proof. split; intros bytes Hb; vm_compute in Hb; injection Hb as <-; reflexivity. Qed.

(** The staged bundle on disk, and what an interrupted activation leaves. *)
Definition staged_files : Files :=
  {[admission_bundle_file policy_store sample_bundle_id := Regular "approved"]}.

Lemma staged_at : bundle_at policy_store staged_files sample_bundle_id staged_bundle.
Proof.
  split; [exists "approved"; split; vm_compute; reflexivity|]. repeat split; vm_compute; reflexivity.
Qed.

Lemma staged_activates : bundle_activate staged_bundle = (Ok tt, activated_bundle).
Proof. vm_compute. reflexivity. Qed.

Lemma activation_is_atomic_witness :
  effective policy_store
    (files (activate_admission_bundle policy_store sample_bundle_id (calm staged_files)).2)
    = Ok (Some activated_bundle).
Proof.
  assert (Hr : (activate_admission_bundle policy_store sample_bundle_id (calm staged_files)).1
    = Ok (mkAdmissionActivationV1 activated_bundle None)) by (vm_compute; reflexivity).
  destruct (activation_is_atomic policy_store sample_bundle_id staged_bundle activated_bundle
    (calm staged_files) _ _ staged_at staged_activates (proj1 activated_reads_back)
    (proj2 activated_reads_back) (outcome _ _ Hr)) as [[_ He]|[He _]]; [discriminate|exact He].
Defined.

(** The rename of the pointer fails. *)
Definition pointer_fails : World :=
  mkWorld staged_files (fun n => if Nat.eqb n 22 then Some "disk full" else None).

Definition half_activated_files : Files :=
  <[admission_lock_file policy_store := Regular ""]>
  {[admission_bundle_file policy_store sample_bundle_id := Regular "active"]}.

Lemma sample_half_activated :
  (activate_admission_bundle policy_store sample_bundle_id pointer_fails).1
    = Err (Io (active_admission_policy_path policy_store) (OtherKind "disk full")) /\
  files (activate_admission_bundle policy_store sample_bundle_id pointer_fails).2 = half_activated_files.
Proof.
  split; [vm_compute; reflexivity|]. apply same_files. vm_compute. reflexivity.
Qed.

Lemma interrupted_activation_is_stuck_witness :
  is_ok (activate_admission_bundle policy_store sample_bundle_id (calm half_activated_files)).1 = false.
Proof.
  refine (proj1 (interrupted_activation_is_stuck policy_store sample_bundle_id half_activated_files
    half_activated_files _ (rtc_refl _ _)) (calm half_activated_files) _ _ eq_refl (surjective_pairing _)).
  split.
  - exists "active". split; [vm_compute; reflexivity|]. by intros b [= <-].
  - intros p Hp. vm_compute in Hp. discriminate.
Defined.

(** A fault while looking at the pointer is read as "no pointer": the policy
    in force is reported absent. *)
Definition active_files : Files :=
  <[active_admission_policy_path policy_store := Regular "pointer"]>
  {[admission_bundle_file policy_store sample_bundle_id := Regular "active"]}.

Example active_policy_fails_open :
  effective policy_store active_files = Ok (Some activated_bundle) /\
  (active_admission_policy policy_store
    (mkWorld active_files (fun n => if Nat.eqb n 0 then Some "permission denied" else None))).1
    = Ok None.
Proof. split; vm_compute; reflexivity. Qed.
