(* ===== verification/PlanLock.v ===== *)
(** Plan locks (crates/cfctl-storage/src/lib.rs: [lock_plan],
    [create_plan_lock], [lock_is_expired] and the [Drop] of [PlanLock]): the
    system calls of any number of processes on one lock file, interleaved. *)

From Stdlib Require Import String Ascii ZArith Lia List Bool.
From stdpp Require Import base option list strings pretty.
From S2P Require Import Prelude Strings Btree Json JsonOps Core Demo.

Open Scope cf_scope.
Open Scope string_scope.
Open Scope cf_scope.

(** ** State *)

(** [LOCK_TTL] and the age an unreadable lock file must reach, in seconds. *)
Definition LOCK_TTL : Z := 15 * 60.
Definition UNREADABLE_TTL : Z := 30.

Record PlanLockRecord : Type := mkPlanLockRecord {
  lock_pid : Z;
  created_at_unix : Z;
  nonce : string;
}.

(** The lock file: which inode the path names, what is in it (nothing that
    decodes until the record is written) and when it was last modified. *)
Record LockFile : Type := mkLockFile {
  inode : nat;
  record : option PlanLockRecord;
  modified : Z;
}.

(** Where a process is between two system calls. *)
Inductive Proc : Type :=
| Idle
| Creating (retry : bool)
| Writing (file : nat) (r : PlanLockRecord)
| Checking
| CheckingAge
| Removing
| Holding (own : string)
| Dropping (own : string)
| RemovingOwn
| Refused
| LockFailed.

Record System : Type := mkSystem {
  lock : option LockFile;
  next_inode : nat;
  procs : nat -> Proc;
}.

Definition start : System := mkSystem None 0 (fun _ => Idle).

(** The next call of a process, with the clock reading it makes (seconds and
    nanoseconds since the epoch), or the fault it meets. *)
Inductive Action : Type :=
| Lock
| Create (secs nanos : Z)
| Write (secs : Z)
| Check (secs : Z)
| Remove
| Release
| DropRead
| DropRemove
| Fault
| Crash.

(** ** Operations *)

(** [now.saturating_sub(then)] of [u64] *)
Definition saturating_sub (a b : Z) : Z := Z.max 0 (a - b).

(** [lock_is_expired] once the record was read. *)
Definition record_is_expired (now : Z) (r : PlanLockRecord) : bool :=
  (LOCK_TTL <? saturating_sub now (created_at_unix r))%Z.

(** [duration_since(modified).unwrap_or_default() > 30 s] *)
Definition age_is_expired (now modified : Z) : bool :=
  (UNREADABLE_TTL <? Z.max 0 (now - modified))%Z.

Section PlanLock.
Context `{Runtime}.

Definition lock_nonce (pid secs nanos : Z) : string :=
  sha256_hex (show_Z pid ++ ":" ++ show_Z (secs * 1000000000 + nanos)).

Definition lock_record (pid secs nanos : Z) : PlanLockRecord :=
  mkPlanLockRecord pid secs (lock_nonce pid secs nanos).

Definition at_proc (s : System) (p : nat) (file : option LockFile) (q : Proc) : System :=
  mkSystem file (next_inode s) (fun i => if Nat.eqb i p then q else procs s i).

(** One call of process [p]; [None] when it is not the call the process
    makes next. *)
Definition exec (p : nat) (a : Action) (s : System) : option System :=
  let goto := at_proc s p (lock s) in
  match procs s p, a with
  | _, Crash => Some (goto Idle)
  | Idle, Lock | Refused, Lock | LockFailed, Lock => Some (goto (Creating false))
  | Creating retry, Create secs nanos =>
      if (secs <? 0)%Z then Some (goto LockFailed)
      else
        match lock s with
        | None =>
            let file := next_inode s in
            Some (mkSystem (Some (mkLockFile file None secs)) (S file)
              (fun i => if Nat.eqb i p then Writing file (lock_record (Z.of_nat p) secs nanos)
                        else procs s i))
        | Some _ => Some (goto (if retry then Refused else Checking))
        end
  | Writing file r, Write secs =>
      (* the record goes to the open file, whatever the path names by now *)
      let lock' := match lock s with
                   | Some f => if Nat.eqb (inode f) file
                               then Some (mkLockFile file (Some r) secs) else Some f
                   | None => None
                   end in
      Some (at_proc s p lock' (Holding (nonce r)))
  | Checking, Check secs =>
      if (secs <? 0)%Z then Some (goto LockFailed)
      else
        match lock s with
        | None => Some (goto Removing)
        | Some f =>
            match record f with
            | Some r => Some (goto (if record_is_expired secs r then Removing else Refused))
            | None => Some (goto CheckingAge)
            end
        end
  | CheckingAge, Check secs =>
      match lock s with
      | None => Some (goto LockFailed)
      | Some f => Some (goto (if age_is_expired secs (modified f) then Removing else Refused))
      end
  | Removing, Remove => Some (at_proc s p None (Creating true))
  | Holding own, Release => Some (goto (Dropping own))
  | Dropping own, DropRead =>
      Some (goto (match lock s with
                  | Some f => if is_some_and (record f) (fun r => nonce r =? own)
                              then RemovingOwn else Idle
                  | None => Idle
                  end))
  | RemovingOwn, DropRemove => Some (at_proc s p None Idle)
  | Creating _, Fault | Writing _ _, Fault | Checking, Fault | CheckingAge, Fault
  | Removing, Fault => Some (goto LockFailed)
  | Dropping _, Fault | RemovingOwn, Fault => Some (goto Idle)
  | _, _ => None
  end.

Fixpoint run_lock (events : list (nat * Action)) (s : System) : option System :=
  match events with
  | [] => Some s
  | (p, a) :: events => obind (exec p a s) (run_lock events)
  end.
End PlanLock.

(** ** Specification *)

(** The process believes it owns the lock. *)
Definition holds_lock (q : Proc) : bool :=
  match q with Holding _ | Dropping _ | RemovingOwn => true | _ => false end.

(** It owns the lock or has created the file. *)
Definition engaged (q : Proc) : bool :=
  match q with Writing _ _ => true | q => holds_lock q end.

(** At most one process is engaged, and then the file is there. *)
Definition exclusive (s : System) : Prop :=
  (forall p q, engaged (procs s p) = true -> engaged (procs s q) = true -> p = q) /\
  (forall p, engaged (procs s p) = true -> lock s <> None).

Definition is_remove (a : Action) : bool := match a with Remove => true | _ => false end.

Section Spec.
Context `{Runtime}.

(** Every takeover removes the file while no process is engaged. *)
Fixpoint takeovers_are_quiet (events : list (nat * Action)) (s : System) : Prop :=
  match events with
  | [] => True
  | (p, a) :: events =>
      (is_remove a = true -> forall q, engaged (procs s q) = false) /\
      match exec p a s with
      | Some s' => takeovers_are_quiet events s'
      | None => True
      end
  end.
End Spec.

(** ** Facts *)

Section Facts.
Context `{Runtime}.

(** A step of [p] that does not engage it and keeps the file. *)
Lemma exclusive_keep s p file n q :
  exclusive s -> (engaged q = true -> engaged (procs s p) = true) -> (lock s <> None -> file <> None) ->
  exclusive (mkSystem file n (fun i => if Nat.eqb i p then q else procs s i)).
Proof.
  intros [Hx Hl] Hq Hf. split; cbn.
  - intros i j. destruct (Nat.eqb_spec i p), (Nat.eqb_spec j p); subst; auto.
  - intros i. destruct (Nat.eqb_spec i p); subst; intros Hi; apply Hf; eauto.
Qed.

(** A step of the engaged process that removes the file and lets go. *)
Lemma exclusive_drop s p n q :
  exclusive s -> engaged (procs s p) = true -> engaged q = false ->
  exclusive (mkSystem None n (fun i => if Nat.eqb i p then q else procs s i)).
Proof.
  intros [Hx Hl] Hp Hq. split; cbn.
  - intros i j. destruct (Nat.eqb_spec i p), (Nat.eqb_spec j p); subst; auto; congruence.
  - intros i. destruct (Nat.eqb_spec i p) as [|Hne]; subst; [congruence|]. intros Hi. by destruct Hne; auto.
Qed.

(** A step while no process is engaged. *)
Lemma exclusive_quiet s p file n q :
  (forall i, engaged (procs s i) = false) -> (engaged q = true -> file <> None) ->
  exclusive (mkSystem file n (fun i => if Nat.eqb i p then q else procs s i)).
Proof.
  intros Hs Hf. split; cbn.
  - intros i j. destruct (Nat.eqb_spec i p), (Nat.eqb_spec j p); subst; rewrite ?Hs; try done.
  - intros i. destruct (Nat.eqb_spec i p); [done|]. by rewrite Hs.
Qed.

Lemma exec_exclusive p a s s' :
  exec p a s = Some s' -> exclusive s ->
  (is_remove a = true -> forall q, engaged (procs s q) = false) -> exclusive s'.
Proof.
  intros He Hx Hr. unfold exec, at_proc in He.
  destruct (procs s p) eqn:Hp, a; try discriminate He; branches He;
    try (injection He as <-); repeat case_goal;
    try (apply exclusive_keep; [done|by rewrite ?Hp|done]).
  all: try (apply exclusive_quiet; [|done]; intros i; destruct (engaged (procs s i)) eqn:Hi; [|done];
    by destruct (proj2 Hx i Hi)).
  all: try (apply exclusive_quiet; [by apply Hr|done]).
  all: try (apply exclusive_drop; [done|by rewrite Hp|done]).
Qed.

Lemma run_lock_exclusive events s s' :
  run_lock events s = Some s' -> takeovers_are_quiet events s -> exclusive s -> exclusive s'.
Proof.
  revert s. induction events as [|[p a] events IH]; cbn; intros s Hr Hq Hx; [by injection Hr as <-|].
  destruct (exec p a s) as [s1|] eqn:E; [|done]. cbn in Hr. destruct Hq as [Ha Hq].
  by eapply IH, exec_exclusive.
Qed.
End Facts.

(** ** Properties *)

(** C12: as long as every takeover removes the lock file at a moment when no
    process is engaged, at most one process holds a plan lock, under any
    interleaving of system calls, faults and crashes. *)
Theorem plan_lock_is_exclusive `{Runtime} (events : list (nat * Action)) (s : System) (p q : nat) :
  takeovers_are_quiet events start -> run_lock events start = Some s ->
  holds_lock (procs s p) = true -> holds_lock (procs s q) = true -> p = q.
Proof.
  intros Hq Hr Hp Hs. assert (Hx : exclusive s).
  { eapply run_lock_exclusive; [done..|]. by split. }
  apply (proj1 Hx); [by destruct (procs s p)|by destruct (procs s q)].
Qed.

(** C40: takeovers are not quiet by themselves: after a holder crashed, two
    processes that both find its lock expired end up holding the lock at the
    same time - each removes the file, the second one the fresh file of the
    first, and each creates its own. *)
Theorem stale_takeover_is_not_exclusive `{Runtime} :
  exists events s, run_lock events start = Some s /\
    holds_lock (procs s 1) = true /\ holds_lock (procs s 2) = true /\
    Forall (fun e => e.2 <> Fault) events.
Proof.
  exists [(0, Lock); (0, Create 0 0); (0, Write 0); (0, Crash);
     (1, Lock); (1, Create 1000 0); (2, Lock); (2, Create 1000 1);
     (1, Check 1000); (2, Check 1000);
     (1, Remove); (1, Create 1000 2); (1, Write 1000);
     (2, Remove); (2, Create 1000 3); (2, Write 1000)].
  eexists. split; [reflexivity|]. split; [reflexivity|]. split; [reflexivity|].
  by repeat constructor.
Qed.

(** A lock is taken over exactly when the clock is more than the fifteen
    minutes past its creation second: a record from the future, however far,
    never expires, and the saturating difference of two [u64] seconds stays
    a [u64]. *)
Theorem lock_expiry_bounds (now : Z) (r : PlanLockRecord) :
  (0 <= now < 2 ^ 64)%Z -> (0 <= created_at_unix r < 2 ^ 64)%Z ->
  (0 <= saturating_sub now (created_at_unix r) < 2 ^ 64)%Z /\
  (record_is_expired now r = true <-> (now > created_at_unix r + 900)%Z).
Proof.
  intros Hn Hc. unfold record_is_expired, saturating_sub, LOCK_TTL. rewrite Z.ltb_lt. lia.
Qed.

(** A stale lock never blocks forever: one process alone, finding the
    record of a crashed holder past its time, holds the lock after its own
    next calls; and finding it in time, is refused without touching it. *)
Theorem stale_lock_is_recovered `{Runtime} (s : System) (p : nat) (f : LockFile) (r : PlanLockRecord)
    (secs nanos : Z) :
  procs s p = Idle -> lock s = Some f -> record f = Some r -> (0 <= secs)%Z ->
  exists s', (if record_is_expired secs r
              then run_lock [(p, Lock); (p, Create secs nanos); (p, Check secs); (p, Remove);
                        (p, Create secs nanos); (p, Write secs)] s = Some s' /\
                   procs s' p = Holding (lock_nonce (Z.of_nat p) secs nanos) /\
                   record <$> lock s' = Some (Some (lock_record (Z.of_nat p) secs nanos))
              else run_lock [(p, Lock); (p, Create secs nanos); (p, Check secs)] s = Some s' /\
                   procs s' p = Refused /\ lock s' = lock s) /\
             forall q, q <> p -> procs s' q = procs s q.
Proof.
  intros Hp Hf Hr Hs. apply Z.ltb_ge in Hs.
  destruct (record_is_expired secs r) eqn:Ex; eexists; (split; [split; [|split]|]).
  all: try (cbn; unfold exec, at_proc; rewrite ?Hp; cbn; repeat (rewrite ?Nat.eqb_refl, ?Hs, ?Hf, ?Hr, ?Ex; cbn);
    reflexivity).
  all: cbn; rewrite ?Nat.eqb_refl; try done.
  all: intros q Hq; apply Nat.eqb_neq in Hq; by rewrite Hq.
Qed.

(** ** Witnesses *)

Definition sample_run : list (nat * Action) :=
  [(0, Lock); (0, Create 0 0); (0, Write 0); (0, Crash); (1, Lock); (1, Create 1000 0);
   (1, Check 1000); (1, Remove); (1, Create 1000 1); (1, Write 1000); (2, Lock); (2, Create 1001 0);
   (2, Check 1001)].

Lemma plan_lock_is_exclusive_witness :
  exists s, run_lock sample_run start = Some s /\ holds_lock (procs s 1) = true /\
    procs s 2 = Refused /\ 1 = 1.
Proof.
  eexists. split; [reflexivity|]. split; [reflexivity|]. split; [reflexivity|].
  eapply (plan_lock_is_exclusive sample_run _ 1 1); [|reflexivity..].
  cbn. repeat split; try discriminate. intros _ [|[|q]]; reflexivity.
Defined.

Lemma lock_expiry_bounds_witness :
  record_is_expired 2000 (mkPlanLockRecord 1 1000 "") = true.
Proof. apply (lock_expiry_bounds 2000 (mkPlanLockRecord 1 1000 "")); cbn; lia. Defined.

Definition stale_system : System :=
  mkSystem (Some (mkLockFile 0 (Some (lock_record 7 0 0)) 0)) 1 (fun _ => Idle).

Lemma stale_lock_is_recovered_witness :
  exists s', run_lock [(3, Lock); (3, Create 901 0); (3, Check 901); (3, Remove); (3, Create 901 0);
                  (3, Write 901)] stale_system = Some s' /\
    procs s' 3 = Holding (lock_nonce 3 901 0).
Proof.
  destruct (stale_lock_is_recovered stale_system 3 (mkLockFile 0 (Some (lock_record 7 0 0)) 0)
    (lock_record 7 0 0) 901 0 eq_refl eq_refl eq_refl ltac:(lia)) as (s' & (H1 & H2 & _) & _).
  exists s'. exact (conj H1 H2).
Defined.
