(* ===== verification/WorkspaceManifest.v ===== *)
(** The workspace manifest: registered roots with their account pins
    (crates/cfctl-workspace/src/lib.rs) and the store that keeps them
    (crates/cfctl-storage/src/lib.rs). *)

From Stdlib Require Import String Ascii ZArith Lia List Bool Sorted.
From stdpp Require Import base option list strings gmap relations.
From S2P Require Import Prelude Strings Btree Json JsonOps Core Demo Paths Files Store.

Open Scope cf_scope.
Open Scope string_scope.
Open Scope cf_scope.

(** ** Paths compare by their components, as [std::path] does on Unix *)

(** The derived order of components. *)
Definition component_rank (c : Component) : Z :=
  match c with RootDir => 1 | CurDir => 2 | ParentDir => 3 | Normal _ => 4 end.

Definition component_ltb (a b : Component) : bool :=
  match a, b with
  | Normal x, Normal y => str_ltb x y
  | _, _ => (component_rank a <? component_rank b)%Z
  end.

Fixpoint components_ltb (l k : list Component) : bool :=
  match l, k with
  | [], [] | _ :: _, [] => false
  | [], _ :: _ => true
  | a :: l, b :: k => component_ltb a b || ((a =? b) && components_ltb l k)
  end.

Definition path_eqb (a b : string) : bool := components a =? components b.
Definition path_ltb (a b : string) : bool := components_ltb (components a) (components b).

(** ** State *)

Record WorkspaceRegistrationV1 : Type := mkWorkspaceRegistrationV1 {
  reg_path : string;
  reg_account_id : option string;
}.
#[export] Instance ser_WorkspaceRegistrationV1 : Serialize WorkspaceRegistrationV1 :=
  fun r => struct_value [
    field "path" (reg_path r);
    field_some "account_id" (reg_account_id r)].

Record WorkspaceManifestV1 : Type := mkWorkspaceManifestV1 {
  manifest_schema_version : Z;
  registrations : list WorkspaceRegistrationV1;
}.
#[export] Instance ser_WorkspaceManifestV1 : Serialize WorkspaceManifestV1 :=
  fun m => struct_value [
    field "schema_version" (manifest_schema_version m);
    field "registrations" (registrations m)].

Definition WORKSPACE_MANIFEST_SCHEMA_VERSION : Z := 1.

(** ** Operations *)

(** [sort_by(|left, right| left.path.cmp(&right.path))], which is stable. *)
Fixpoint insert_by_path {A} (path : A -> string) (x : A) (l : list A) : list A :=
  match l with
  | [] => [x]
  | y :: t => if path_ltb (path y) (path x) then y :: insert_by_path path x t else x :: l
  end.
Definition sort_by_path {A} (path : A -> string) (l : list A) : list A :=
  fold_right (insert_by_path path) [] l.

(** [Vec::dedup] on paths *)
Fixpoint dedup_from (kept : string) (l : list string) : list string :=
  match l with
  | [] => []
  | y :: t => if path_eqb y kept then dedup_from kept t else y :: dedup_from y t
  end.
Definition dedup_paths (l : list string) : list string :=
  match l with [] => [] | x :: t => x :: dedup_from x t end.

Definition manifest_roots (m : WorkspaceManifestV1) : list string := map reg_path (registrations m).

(** [account_pins] as the entries of the map it collects. *)
Definition account_pins (m : WorkspaceManifestV1) : list (string * string) :=
  omap (fun r => (fun account => (reg_path r, account)) <$> reg_account_id r) (registrations m).

(** The first registration of [path] gets the pin, if there is one to set. *)
Fixpoint repin (path : string) (account_id : option string) (l : list WorkspaceRegistrationV1)
  : option (WorkspaceRegistrationV1 * list WorkspaceRegistrationV1) :=
  match l with
  | [] => None
  | r :: t =>
      if path_eqb (reg_path r) path then
        let r := if is_someb account_id then mkWorkspaceRegistrationV1 (reg_path r) account_id else r in
        Some (r, r :: t)
      else (fun found => (fst found, r :: snd found)) <$> repin path account_id t
  end.

Definition register (path : string) (account_id : option string) (m : WorkspaceManifestV1)
  : WorkspaceRegistrationV1 * WorkspaceManifestV1 :=
  match repin path account_id (registrations m) with
  | Some (r, regs) => (r, mkWorkspaceManifestV1 (manifest_schema_version m) regs)
  | None =>
      let r := mkWorkspaceRegistrationV1 path account_id in
      (r, mkWorkspaceManifestV1 (manifest_schema_version m)
            (sort_by_path reg_path (registrations m ++ [r])%list))
  end.

Definition unregister (path : string) (m : WorkspaceManifestV1) : (bool * bool) * WorkspaceManifestV1 :=
  let account_pin_removed :=
    is_some_and (List.find (fun r => path_eqb (reg_path r) path) (registrations m))
      (fun r => is_someb (reg_account_id r)) in
  let kept := List.filter (fun r => negb (path_eqb (reg_path r) path)) (registrations m) in
  ((length kept <>? length (registrations m), account_pin_removed),
   mkWorkspaceManifestV1 (manifest_schema_version m) kept).

Definition invalid_manifest (reason : string) : StorageError := InvalidWorkspaceManifest reason.

(** The loop of [validate_workspace_manifest]. *)
Fixpoint validate_registrations (previous : option string) (l : list WorkspaceRegistrationV1)
  : result StorageError unit :=
  match l with
  | [] => Ok tt
  | r :: t =>
      guard (negb (is_absolute (reg_path r)))
        (invalid_manifest ("registered root `" ++ reg_path r ++ "` is not absolute")) (
      guard (is_some_and (reg_account_id r) is_empty)
        (invalid_manifest ("registered root `" ++ reg_path r ++ "` has an empty account pin")) (
      guard (is_some_and previous (fun path => negb (path_ltb path (reg_path r))))
        (invalid_manifest "registrations must be unique and sorted by path")
        (validate_registrations (Some (reg_path r)) t)))
  end.

Definition validate_workspace_manifest (m : WorkspaceManifestV1) : result StorageError unit :=
  guard (manifest_schema_version m <>? WORKSPACE_MANIFEST_SCHEMA_VERSION)
    (invalid_manifest ("unsupported schema version " ++ show_Z (manifest_schema_version m)))
    (validate_registrations None (registrations m)).

(** ** The store *)

(** What [Path::canonicalize] answers on some files. *)
Class Canonicalize : Type := resolve : string -> Files -> result ErrorKind string.

Definition canonicalize `{Canonicalize} (path : string) : ST World ErrorKind string :=
  syscall (fun f => match resolve path f with Ok p => Ok (p, f) | Err k => Err k end).

Section ManifestStore.
Context `{Pretty} `{!Decode WorkspaceManifestV1} `{!Decode (list string)}
  `{!Decode (list (string * string))} `{Canonicalize}.
Variable self : StateStore.

Definition workspace_manifest_path : string :=
  path_join (config_dir (store_paths self)) "workspace-manifest-v1.json".
Definition legacy_roots_path : string :=
  path_join (config_dir (store_paths self)) "workspace-roots.json".
Definition legacy_accounts_path : string :=
  path_join (config_dir (store_paths self)) "workspace-accounts.json".
Definition manifest_lock_file : string :=
  path_join (path_join (data_dir (store_paths self)) "locks") "workspace-manifest.lock".

Definition lock_workspace_manifest : IO unit := lock_file manifest_lock_file.

(** A legacy document, or its default when there is none. *)
Definition read_legacy {A} `{Decode A} (path : string) (default : A) : IO A :=
  let* present := is_file path in
  if present : bool then read_json (A := A) path else st_ret default.

Definition migrated (roots : list string) (account_pins : list (string * string))
  : WorkspaceManifestV1 :=
  mkWorkspaceManifestV1 WORKSPACE_MANIFEST_SCHEMA_VERSION
    (map (fun path => mkWorkspaceRegistrationV1 path
            (snd <$> List.find (fun pin => path_eqb (fst pin) path) account_pins)) roots).

Definition load_workspace_manifest_unlocked : IO WorkspaceManifestV1 :=
  let path := workspace_manifest_path in
  let* present := is_file path in
  if present : bool then
    let* manifest := read_json (A := WorkspaceManifestV1) path in
    do* st_lift (validate_workspace_manifest manifest) in
    st_ret manifest
  else
    let* roots := read_legacy (A := list string) legacy_roots_path [] in
    let roots := dedup_paths (sort_by_path (fun path => path) roots) in
    let* account_pins := read_legacy (A := list (string * string)) legacy_accounts_path [] in
    match List.find (fun pin => negb (existsb (path_eqb (fst pin)) roots)) account_pins with
    | Some orphan =>
        st_throw (invalid_manifest ("legacy account pin `" ++ fst orphan
          ++ "` is not an explicitly registered root"))
    | None =>
        let manifest := migrated roots account_pins in
        do* st_lift (validate_workspace_manifest manifest) in
        do* write_json path manifest in
        st_ret manifest
    end.

Definition register_workspace (root : string) (account_id : option string)
  : IO WorkspaceRegistrationV1 :=
  let* canonical := io root (canonicalize root) in
  do* lock_workspace_manifest in
  let* manifest := load_workspace_manifest_unlocked in
  let (registration, manifest) := register canonical account_id manifest in
  do* write_json workspace_manifest_path manifest in
  st_ret registration.

(** A missing absolute path is unregistered as it is spelled. *)
Definition canonical_or_missing (root : string) : IO string :=
  fun w =>
    match canonicalize root w with
    | (Ok canonical, w) => (Ok canonical, w)
    | (Err NotFound, w) => if is_absolute root then (Ok root, w) else (Err (Io root NotFound), w)
    | (Err source, w) => (Err (Io root source), w)
    end.

Definition unregister_workspace (root : string) : IO (string * bool * bool) :=
  let* canonical := canonical_or_missing root in
  do* lock_workspace_manifest in
  let* manifest := load_workspace_manifest_unlocked in
  let '((removed, pin_removed), manifest') := unregister canonical manifest in
  let '(path, removed, pin_removed, manifest) :=
    if negb removed && is_absolute root && negb (path_eqb root canonical) then
      let '((by_spelling, pin_by_spelling), spelled) := unregister root manifest' in
      if by_spelling then (root, true, pin_by_spelling, spelled)
      else (canonical, removed, pin_removed, spelled)
    else (canonical, removed, pin_removed, manifest') in
  do* (if removed : bool then write_json workspace_manifest_path manifest else st_ret tt) in
  st_ret (path, removed, pin_removed).

Definition workspace_manifest : IO WorkspaceManifestV1 :=
  do* lock_workspace_manifest in load_workspace_manifest_unlocked.

Definition workspace_roots : IO (list string) :=
  let* manifest := workspace_manifest in st_ret (manifest_roots manifest).
End ManifestStore.

(** ** Facts *)

(** *** The order of paths *)

Lemma component_ltb_irrefl a : component_ltb a a = false.
Proof. destruct a; try done. apply str_ltb_irrefl. Qed.

Lemma component_ltb_trans a b c :
  component_ltb a b = true -> component_ltb b c = true -> component_ltb a c = true.
Proof. destruct a, b, c; try done. apply str_ltb_trans. Qed.

Lemma component_ltb_total a b : component_ltb a b = false -> component_ltb b a = false -> a = b.
Proof. destruct a, b; try done. intros H1 H2. f_equal. by apply str_ltb_total. Qed.

Lemma components_ltb_irrefl l : components_ltb l l = false.
Proof. induction l as [|a l IH]; [done|]. cbn. by rewrite component_ltb_irrefl, eqb_refl, IH. Qed.

Lemma components_ltb_trans l k m :
  components_ltb l k = true -> components_ltb k m = true -> components_ltb l m = true.
Proof.
  revert k m. induction l as [|a l IH]; intros [|b k] [|c m]; cbn; try done.
  rewrite !orb_true_iff, !andb_true_iff, !eqb_true.
  intros [H1|[<- H1]] [H2|[<- H2]]; eauto using component_ltb_trans.
Qed.

Lemma components_ltb_total l k : components_ltb l k = false -> components_ltb k l = false -> l = k.
Proof.
  revert k. induction l as [|a l IH]; intros [|b k]; cbn; try done.
  rewrite !orb_false_iff, !andb_false_iff, !eqb_false.
  intros [H1 H2] [H3 H4]. assert (a = b) as -> by by apply component_ltb_total.
  f_equal. destruct H2, H4; try done. by apply IH.
Qed.

Lemma path_ltb_trans a b c : path_ltb a b = true -> path_ltb b c = true -> path_ltb a c = true.
Proof. apply components_ltb_trans. Qed.

Lemma path_eqb_true a b : path_eqb a b = true <-> components a = components b.
Proof. apply eqb_true. Qed.

(** Distinct paths are ordered one way or the other. *)
Lemma path_ltb_flip a b : path_eqb a b = false -> path_ltb a b = false -> path_ltb b a = true.
Proof.
  unfold path_ltb. intros He%eqb_neq H1. destruct (components_ltb (components b) (components a)) eqn:H2; [done|].
  destruct He. by apply components_ltb_total.
Qed.

Lemma path_ltb_eqb a b : path_ltb a b = true -> path_eqb a b = false.
Proof.
  unfold path_ltb. intros H1. apply eqb_false. intros E. rewrite E, components_ltb_irrefl in H1. done.
Qed.

(** *** Valid manifests *)

Definition path_lt (a b : string) : Prop := path_ltb a b = true.

(** A registration [validate_workspace_manifest] accepts by itself. *)
Definition registration_ok (r : WorkspaceRegistrationV1) : Prop :=
  is_absolute (reg_path r) = true /\ reg_account_id r <> Some "".

Lemma validate_registrations_ok previous l :
  validate_registrations previous l = Ok tt <->
  Forall registration_ok l /\ StronglySorted path_lt (map reg_path l) /\
  match previous with Some p => Forall (fun r => path_lt p (reg_path r)) l | None => True end.
Proof.
  revert previous. induction l as [|r l IH]; intros previous; cbn.
  { split; [|done]. intros _. by destruct previous; repeat constructor. }
  rewrite !guard_ok, IH, negb_false_iff, Forall_cons. unfold registration_ok at 2.
  assert (Ha : is_some_and (reg_account_id r) is_empty = false <-> reg_account_id r <> Some "").
  { destruct (reg_account_id r) as [[]|]; cbn; split; congruence. }
  rewrite Ha. assert (Hs : StronglySorted path_lt (reg_path r :: map reg_path l) <->
    StronglySorted path_lt (map reg_path l) /\ Forall (fun x => path_lt (reg_path r) (reg_path x)) l).
  { split; [intros Hs; apply StronglySorted_inv in Hs as [? Hf]; split; [done|]; by rewrite Forall_map in Hf|].
    intros [? Hf]. constructor; [done|]. by rewrite Forall_map. }
  rewrite Hs. destruct previous as [p|]; cbn; [|tauto].
  rewrite Forall_cons, negb_false_iff. split.
  - intros (? & ? & Hp & ? & ? & Hf). split; [done|]. split; [done|]. split; [done|].
    eapply Forall_impl; [exact Hf|]. intros x. by apply path_ltb_trans.
  - tauto.
Qed.

Lemma validate_manifest_ok m :
  validate_workspace_manifest m = Ok tt <->
  manifest_schema_version m = 1%Z /\ Forall registration_ok (registrations m) /\
  StronglySorted path_lt (map reg_path (registrations m)).
Proof.
  unfold validate_workspace_manifest. rewrite guard_ok, neqb_false, validate_registrations_ok.
  unfold WORKSPACE_MANIFEST_SCHEMA_VERSION. tauto.
Qed.

(** *** Lookup *)

(** The registration of a root. *)
Definition registered (path : string) (l : list WorkspaceRegistrationV1)
  : option WorkspaceRegistrationV1 :=
  List.find (fun r => path_eqb (reg_path r) path) l.

#[local] Arguments registered : simpl never.

Lemma registered_cons q r l :
  registered q (r :: l) = if path_eqb (reg_path r) q then Some r else registered q l.
Proof. done. Qed.

Lemma path_eqb_same a b c : path_eqb a b = true -> path_eqb a c = path_eqb b c.
Proof. rewrite path_eqb_true. unfold path_eqb. by intros ->. Qed.

Lemma repin_some path account l r l' :
  repin path account l = Some (r, l') ->
  map reg_path l' = map reg_path l /\
  (Forall registration_ok l -> account <> Some "" -> Forall registration_ok l') /\
  (exists old, registered path l = Some old /\ reg_path r = reg_path old /\
     reg_account_id r = (if is_someb account then account else reg_account_id old)) /\
  (forall q, registered q l' = if path_eqb (reg_path r) q then Some r else registered q l) /\
  (account = Some "" -> ~ Forall registration_ok l').
Proof.
  revert l'. induction l as [|x l IH]; [done|]. cbn. intros l'.
  destruct (path_eqb (reg_path x) path) eqn:Ex.
  - set (y := if is_someb account then mkWorkspaceRegistrationV1 (reg_path x) account else x).
    assert (Hp : reg_path y = reg_path x) by (unfold y; by destruct account).
    assert (Ha : reg_account_id y = if is_someb account then account else reg_account_id x)
      by (unfold y; by destruct account).
    intros [= <- <-]. cbn [map]. rewrite Hp. split; [done|]. split.
    { rewrite !Forall_cons. intros [[Hx1 Hx2] Hl] Hne. split; [|done]. split; [by rewrite Hp|].
      rewrite Ha. by destruct account. }
    split; [exists x; by rewrite registered_cons, Ex|]. split.
    { intros q. rewrite !registered_cons, Hp. by destruct (path_eqb (reg_path x) q). }
    intros ->. rewrite Forall_cons. intros [[_ Hn] _]. by apply Hn.
  - destruct (repin path account l) as [[r0 l0]|]; [|done]. cbn. intros [= <- <-].
    destruct (IH l0 eq_refl) as (Hm & Hok & Hold & Hq & Hbad). cbn [map]. split; [by f_equal|]. split.
    { rewrite !Forall_cons. intros [? ?] ?. auto. }
    split; [by rewrite registered_cons, Ex|]. split; [|intros Ha; rewrite Forall_cons; intros [_ ?]; by apply Hbad].
    intros q. rewrite !registered_cons, Hq. destruct (path_eqb (reg_path x) q) eqn:Exq; [|done].
    destruct (path_eqb (reg_path r0) q) eqn:Erq; [|done].
    destruct Hold as (old & Hold & Hr & _). apply List.find_some in Hold as [_ Hold].
    rewrite Hr in Erq. apply path_eqb_true in Exq, Erq, Hold.
    unfold path_eqb in Ex. apply eqb_neq in Ex. congruence.
Qed.

Lemma repin_none path account l :
  repin path account l = None <-> Forall (fun r => path_eqb (reg_path r) path = false) l.
Proof.
  induction l as [|x l IH]; cbn; [done|]. rewrite Forall_cons.
  destruct (path_eqb (reg_path x) path); [split; [done|by intros [? _]]|].
  destruct (repin path account l); cbn; rewrite <- IH; split; naive_solver.
Qed.

(** *** Sorting one more registration in *)

Definition fresh (r : WorkspaceRegistrationV1) (l : list WorkspaceRegistrationV1) : Prop :=
  Forall (fun x => path_eqb (reg_path x) (reg_path r) = false) l.

Lemma insert_in r l x : In x (insert_by_path reg_path r l) <-> x = r \/ In x l.
Proof.
  induction l as [|y l IH]; cbn; [intuition|]. destruct (path_ltb (reg_path y) (reg_path r)); cbn; [rewrite IH|];
    intuition.
Qed.

Lemma insert_path_sorted r l :
  fresh r l -> StronglySorted path_lt (map reg_path l) ->
  StronglySorted path_lt (map reg_path (insert_by_path reg_path r l)).
Proof.
  induction l as [|y l IH]; cbn; intros Hf Hs; [by repeat constructor|].
  apply Forall_cons in Hf as [Hy Hf]. apply StronglySorted_inv in Hs as [Hs Hl].
  destruct (path_ltb (reg_path y) (reg_path r)) eqn:E; cbn.
  - constructor; [by apply IH|]. apply List.Forall_forall. intros p Hp.
    apply in_map_iff in Hp as (x & <- & Hx). apply insert_in in Hx as [->|Hx]; [done|].
    rewrite List.Forall_forall in Hl. apply Hl, in_map, Hx.
  - assert (Hr : path_lt (reg_path r) (reg_path y)) by by apply path_ltb_flip.
    constructor; [by constructor|]. constructor; [done|]. eapply Forall_impl; [exact Hl|].
    intros p. by apply path_ltb_trans.
Qed.

Lemma insert_registered r l q :
  fresh r l ->
  registered q (insert_by_path reg_path r l) = if path_eqb (reg_path r) q then Some r else registered q l.
Proof.
  induction l as [|y l IH]; intros Hf; [done|]. apply Forall_cons in Hf as [Hy Hf]. cbn [insert_by_path].
  destruct (path_ltb (reg_path y) (reg_path r)); [|done]. rewrite !registered_cons, IH by done.
  destruct (path_eqb (reg_path y) q) eqn:Eq; [|done]. destruct (path_eqb (reg_path r) q) eqn:Er; [|done].
  apply path_eqb_true in Eq, Er. unfold path_eqb in Hy. apply eqb_neq in Hy. congruence.
Qed.

(** Sorting [l ++ [r]] with [l] in order only moves [r]. *)
Lemma sort_snoc r l :
  fresh r l -> StronglySorted path_lt (map reg_path l) ->
  sort_by_path reg_path (l ++ [r])%list = insert_by_path reg_path r l.
Proof.
  induction l as [|y l IH]; intros Hf Hs; [done|]. cbn in Hf, Hs.
  apply Forall_cons in Hf as [Hy Hf]. apply StronglySorted_inv in Hs as [Hs Hl].
  change (sort_by_path reg_path ((y :: l) ++ [r])%list)
    with (insert_by_path reg_path y (sort_by_path reg_path (l ++ [r])%list)).
  rewrite IH by done. cbn. destruct (path_ltb (reg_path y) (reg_path r)) eqn:E.
  - destruct (insert_by_path reg_path r l) as [|z t] eqn:Ei; [done|]. cbn.
    assert (Hz : path_lt (reg_path y) (reg_path z)).
    { assert (In z (insert_by_path reg_path r l)) as [->|Hz]%insert_in by (rewrite Ei; by left); [done|].
      rewrite List.Forall_forall in Hl. apply Hl, in_map, Hz. }
    destruct (path_ltb (reg_path z) (reg_path y)) eqn:Ezy; [|done].
    assert (Hyy := path_ltb_trans _ _ _ Hz Ezy). by apply path_ltb_eqb, eqb_neq in Hyy.
  - assert (Hr : path_lt (reg_path r) (reg_path y)) by by apply path_ltb_flip.
    assert (Hins : insert_by_path reg_path r l = r :: l).
    { destruct l as [|z l]; [done|]. cbn. inversion Hl as [|? ? Hz _]; subst.
      assert (Hrz := path_ltb_trans _ _ _ Hr Hz). destruct (path_ltb (reg_path z) (reg_path r)) eqn:Ez; [|done].
      assert (Hrr := path_ltb_trans _ _ _ Hrz Ez). by apply path_ltb_eqb, eqb_neq in Hrr. }
    rewrite Hins. cbn. unfold path_lt in Hr. rewrite Hr. f_equal.
    destruct l as [|z l]; [done|]. cbn. inversion Hl as [|? ? Hz _]; subst.
    destruct (path_ltb (reg_path z) (reg_path y)) eqn:Ez; [|done].
    assert (Hyy := path_ltb_trans _ _ _ Hz Ez). by apply path_ltb_eqb, eqb_neq in Hyy.
Qed.

(** *** Registering and unregistering *)

Lemma registered_none path l :
  registered path l = None <-> Forall (fun r => path_eqb (reg_path r) path = false) l.
Proof.
  induction l as [|r l IH]; [done|]. rewrite registered_cons, Forall_cons, <- IH.
  destruct (path_eqb (reg_path r) path); split; naive_solver.
Qed.

Lemma path_eqb_sym a b : path_eqb a b = path_eqb b a.
Proof. apply bool_decide_ext. split; congruence. Qed.

Lemma path_eqb_refl a : path_eqb a a = true.
Proof. apply eqb_refl. Qed.

Lemma filter_path_sorted p l :
  StronglySorted path_lt (map reg_path l) ->
  StronglySorted path_lt (map reg_path (List.filter p l)).
Proof.
  induction l as [|r l IH]; cbn; [done|]. intros [Hs Hl]%StronglySorted_inv.
  destruct (p r); cbn; [|auto]. constructor; [auto|]. apply List.Forall_forall. intros x Hx.
  rewrite List.Forall_forall in Hl. apply Hl. apply in_map_iff in Hx as (y & <- & Hy).
  apply in_map. apply filter_In in Hy. tauto.
Qed.

Lemma filter_registered path q l :
  registered q (List.filter (fun r => negb (path_eqb (reg_path r) path)) l) =
  if path_eqb path q then None else registered q l.
Proof.
  induction l as [|r l IH]; [by destruct (path_eqb path q)|]. cbn [List.filter].
  destruct (path_eqb (reg_path r) path) eqn:E; cbn [negb]; rewrite !registered_cons, IH.
  - rewrite (path_eqb_same _ _ q E). by destruct (path_eqb path q).
  - destruct (path_eqb (reg_path r) q) eqn:Eq; [|done].
    by rewrite path_eqb_sym, <- (path_eqb_same _ _ path Eq), E.
Qed.

Lemma filter_length_removed path l :
  (length (List.filter (fun r => negb (path_eqb (reg_path r) path)) l) <>? length l)
  = is_someb (registered path l).
Proof.
  induction l as [|r l IH]; [done|]. rewrite registered_cons. cbn [List.filter].
  pose proof (List.filter_length_le (fun r => negb (path_eqb (reg_path r) path)) l) as Hle.
  destruct (path_eqb (reg_path r) path); cbn [negb length is_someb].
  - apply neqb_true. lia.
  - rewrite <- IH. unfold eqb. f_equal. apply bool_decide_ext. split; congruence.
Qed.

(** *** An empty pin *)

Section StoreFacts.
Context `{Pretty} `{!Decode WorkspaceManifestV1} `{!Decode (list string)}
  `{!Decode (list (string * string))} `{Canonicalize}.
Variable self : StateStore.

Lemma sort_path_in (r : WorkspaceRegistrationV1) l : In r (sort_by_path reg_path l) <-> In r l.
Proof. induction l as [|x l IH]; [done|]. cbn. rewrite insert_in, IH. intuition. Qed.

Lemma register_empty_pin path m :
  validate_workspace_manifest (register path (Some "") m).2 <> Ok tt.
Proof.
  intros Hv. apply validate_manifest_ok in Hv as (_ & Hok & _). revert Hok. unfold register.
  destruct (repin path (Some "") (registrations m)) as [[r l]|] eqn:E.
  - apply repin_some in E as (_ & _ & _ & _ & Hbad). by apply Hbad.
  - intros Hok. rewrite List.Forall_forall in Hok.
    destruct (Hok (mkWorkspaceRegistrationV1 path (Some ""))) as [_ Hn]; [|by apply Hn].
    apply sort_path_in, in_or_app. right. by left.
Qed.

(** The manifest file holds a manifest the store rejects. *)
Definition rejected_manifest (f : Files) : Prop :=
  exists bytes m, contents f (workspace_manifest_path self) = Some bytes /\
    from_slice bytes = Ok m /\ validate_workspace_manifest m <> Ok tt.

Lemma wp_canonicalize path Q f :
  (forall r, Q r f) -> wp (canonicalize path) Q f.
Proof.
  intros HQ w r w' <- [[-> _]|(a & Ha & _)]%syscall_inv; [done|].
  destruct (resolve path (files w)); [|done]. injection Ha as _ <-. apply HQ.
Qed.

Lemma wp_register_empty root f :
  (forall m : WorkspaceManifestV1, reads_back m) ->
  wp (register_workspace self root (Some "")) (fun r f' => is_ok r = true -> rejected_manifest f') f.
Proof.
  intros Hlaw. unfold register_workspace. wp_step. apply wp_map_err, wp_canonicalize.
  intros [canonical|e]; [|done]. cbn [map_err]. wp_step. apply wp_lock_file. intros [[]|e] f1 _; [|done]. wp_step.
  eapply wp_mono; [by apply (wp_any _ f1)|]. intros [m|e] f2 _; [|done].
  destruct (register canonical (Some "") m) as [r m'] eqn:Em. wp_step. wp_step; [done|].
  assert (Hr : rejected_manifest (<[workspace_manifest_path self := Regular bytes]> f2)).
  { exists bytes, m'. split; [unfold contents; by rewrite lookup_insert_eq|]. split; [by apply Hlaw|].
    assert (Hn := register_empty_pin canonical m). by rewrite Em in Hn. }
  destruct r0 as [[]|e]; [by apply wp_ret|done].
Qed.

(** *** Without faults *)

Lemma calm_lock_file path f :
  exists r f1, lock_file path (calm f) = (r, calm f1) /\
    forall path', path' <> path -> f1 !! path' = f !! path'.
Proof.
  unfold lock_file, open_lock_file, io, attempt, syscall, st_map_err, st_bind. cbn.
  destruct (f !! path) as [[b|[b|]|]|] eqn:E; cbn; eexists _, _; (split; [reflexivity|]); try done;
    intros path' Hne; by rewrite lookup_insert_ne.
Qed.

Lemma manifest_lock_apart : workspace_manifest_path self <> manifest_lock_file self.
Proof.
  intros E. apply (f_equal (fun s => last_byte s "x"%char)) in E.
  unfold workspace_manifest_path, manifest_lock_file in E.
  rewrite (path_last _ _ "n"%char _ "workspace-manifest-v1.jso" eq_refl),
    (path_last _ _ "k"%char _ "workspace-manifest.loc" eq_refl) in E. done.
Qed.

Lemma calm_load_rejected f :
  rejected_manifest f ->
  exists e, load_workspace_manifest_unlocked self (calm f) = (Err e, calm f).
Proof.
  intros (bytes & m & Hc & Hm & Hv). unfold load_workspace_manifest_unlocked.
  rewrite (st_bind_eq _ _ _ _ _ (calm_is_file f _)), Hc. cbn [is_someb].
  unfold st_bind at 1. rewrite (calm_read f _ bytes Hc), Hm. cbn [map_err].
  unfold st_bind, st_lift. destruct (validate_workspace_manifest m) as [[]|e]; [done|]. by exists e.
Qed.

Lemma calm_locked_rejected {A} f (k : WorkspaceManifestV1 -> IO A) :
  rejected_manifest f ->
  is_ok ((do* lock_workspace_manifest self in
          let* m := load_workspace_manifest_unlocked self in k m) (calm f)).1 = false.
Proof.
  intros Hf. unfold lock_workspace_manifest, st_bind.
  destruct (calm_lock_file (manifest_lock_file self) f) as (r & f1 & -> & Hf1).
  destruct r as [[]|]; [|done]. destruct (calm_load_rejected f1) as [e ->]; [|done].
  destruct Hf as (bytes & m & Hc & Hm). exists bytes, m. split; [|done].
  unfold contents. rewrite Hf1 by apply manifest_lock_apart. done.
Qed.

Lemma calm_canonicalize path f : canonicalize path (calm f) = (resolve path f, calm f).
Proof. unfold canonicalize, syscall. cbn. by destruct (resolve path f). Qed.
End StoreFacts.

(** ** Properties *)

(** Registering and unregistering implement updates of a map from roots
    to pins: registering sets the pin of its root (keeping the old pin when
    none is given) and unregistering deletes it, with the right report, and
    neither touches any other root; a valid manifest stays valid - absolute,
    unique, in path order - except exactly when the pin set is empty. *)
Theorem manifest_is_a_map (m : WorkspaceManifestV1) (path : string) (account : option string) :
  validate_workspace_manifest m = Ok tt -> is_absolute path = true ->
  let old := registered path (registrations m) in
  (let '(r, m') := register path account m in
   (validate_workspace_manifest m' = Ok tt <-> account <> Some "") /\
   reg_account_id r = (if is_someb account then account else obind old reg_account_id) /\
   forall q, registered q (registrations m') =
     if path_eqb path q then Some r else registered q (registrations m)) /\
  (let '((removed, pin_removed), m') := unregister path m in
   validate_workspace_manifest m' = Ok tt /\
   removed = is_someb old /\ pin_removed = is_someb (obind old reg_account_id) /\
   forall q, registered q (registrations m') =
     if path_eqb path q then None else registered q (registrations m)).
Proof.
  intros Hm Hp old. apply validate_manifest_ok in Hm as (Hv & Hok & Hs). split.
  - unfold register. destruct (repin path account (registrations m)) as [[r l]|] eqn:E.
    + apply repin_some in E as (Hmap & Hl & (o & Ho & Hro & Hra) & Hq & Hbad). subst old. rewrite Ho.
      assert (Hrp : path_eqb (reg_path r) path = true) by (rewrite Hro; by apply List.find_some in Ho as [_ ?]).
      split; [|split; [done|]].
      * rewrite validate_manifest_ok. cbn. rewrite Hmap. split; [|by auto].
        intros (_ & Hl' & _) Ha. by apply Hbad.
      * intros q. by rewrite Hq, (path_eqb_same _ _ q Hrp).
    + apply repin_none in E. assert (Ho : old = None) by by apply registered_none. rewrite Ho.
      set (r := mkWorkspaceRegistrationV1 path account). assert (Hf : fresh r (registrations m)) by done.
      rewrite (sort_snoc r) by done. split; [|split; [by destruct account|]].
      * rewrite validate_manifest_ok. cbn. split.
        { intros (_ & Hall & _). rewrite List.Forall_forall in Hall.
          apply (Hall r). apply insert_in. by left. }
        intros Ha. split; [done|]. split; [|by apply insert_path_sorted].
        apply List.Forall_forall. intros x [->|Hx]%insert_in; [done|].
        rewrite List.Forall_forall in Hok. auto.
      * intros q. by apply insert_registered.
  - unfold unregister. split; [|split; [apply filter_length_removed|split]].
    + rewrite validate_manifest_ok. cbn. split; [done|]. split; [|by apply filter_path_sorted].
      apply List.Forall_forall. intros x [Hx _]%filter_In. rewrite List.Forall_forall in Hok. auto.
    + unfold old, registered. by destruct (List.find _ _).
    + intros q. apply filter_registered.
Qed.

(** An empty account pin locks the operator out: registering a root with
    an empty pin, if it succeeds, writes a manifest the store rejects, and
    from then on no root can be registered, unregistered or listed. *)
Theorem empty_pin_locks_out `{Pretty} `{!Decode WorkspaceManifestV1} `{!Decode (list string)}
    `{!Decode (list (string * string))} `{Canonicalize} (self : StateStore) (root : string)
    (w w' : World) (r : WorkspaceRegistrationV1) :
  (forall m : WorkspaceManifestV1, reads_back m) ->
  register_workspace self root (Some "") w = (Ok r, w') ->
  is_ok (workspace_manifest self (calm (files w'))).1 = false /\
  is_ok (workspace_roots self (calm (files w'))).1 = false /\
  (forall root' account, is_ok (register_workspace self root' account (calm (files w'))).1 = false) /\
  (forall root', is_ok (unregister_workspace self root' (calm (files w'))).1 = false).
Proof.
  intros Hlaw Hr.
  assert (Hf := wp_use _ _ _ _ _ Hr (wp_register_empty self root (files w) Hlaw) eq_refl).
  assert (Hm : is_ok (workspace_manifest self (calm (files w'))).1 = false).
  { assert (Hl := calm_locked_rejected self (files w') (fun m => st_ret m) Hf).
    unfold workspace_manifest. unfold st_bind, st_ret in *.
    destruct (lock_workspace_manifest self (calm (files w'))) as [[[]|] w1]; [|done].
    by destruct (load_workspace_manifest_unlocked self w1) as [[]]. }
  split; [done|]. split.
  { unfold workspace_roots, st_bind. by destruct (workspace_manifest self (calm (files w'))) as [[] ?]. }
  split.
  - intros root' account. unfold register_workspace, io. unfold st_bind at 1, st_map_err.
    rewrite calm_canonicalize. destruct (resolve root' (files w')) as [c|]; [|done].
    by apply (calm_locked_rejected self (files w')).
  - intros root'. unfold unregister_workspace. unfold st_bind at 1, canonical_or_missing.
    rewrite calm_canonicalize. destruct (resolve root' (files w')) as [c|[]]; try done;
      [|destruct (is_absolute root'); [|done]]; by apply (calm_locked_rejected self (files w')).
Qed.

(** A single fault while the store looks at its manifest loses the
    manifest: with no legacy documents around, the lookup failure is read as
    absence, the migration finds nothing to migrate, and its empty manifest
    replaces whatever was registered - and the call reports success. *)
Theorem stat_fault_loses_the_manifest `{Pretty} `{!Decode WorkspaceManifestV1} `{!Decode (list string)}
    `{!Decode (list (string * string))} (self : StateStore) (f : Files) (fault stored bytes : string) :
  f !! manifest_lock_file self = None ->
  f !! workspace_manifest_path self = Some (Regular stored) ->
  f !! legacy_roots_path self = None -> f !! legacy_accounts_path self = None ->
  let empty := mkWorkspaceManifestV1 WORKSPACE_MANIFEST_SCHEMA_VERSION [] in
  to_vec_pretty (to_value empty) = Ok bytes ->
  let '(r, w') := workspace_manifest self
    (mkWorld f (fun n => if Nat.eqb n 5 then Some fault else None)) in
  r = Ok empty /\ files w' !! workspace_manifest_path self = Some (Regular bytes).
Proof.
  intros Hl Hm Hr Ha empty He.
  unfold workspace_manifest, lock_workspace_manifest, lock_file, open_lock_file, io, attempt, syscall,
    st_map_err, st_bind. cbn. rewrite Hl. cbn.
  assert (Hne : forall path, last_byte path "x"%char = "n"%char -> path <> manifest_lock_file self).
  { intros path Hp E. rewrite E in Hp. unfold manifest_lock_file in Hp.
    by rewrite (path_last _ _ "k"%char _ "workspace-manifest.loc" eq_refl) in Hp. }
  assert (Hn1 := Hne (legacy_roots_path self)
    (path_last _ "workspace-roots.json" "n"%char _ "workspace-roots.jso" eq_refl)).
  assert (Hn2 := Hne (legacy_accounts_path self)
    (path_last _ "workspace-accounts.json" "n"%char _ "workspace-accounts.jso" eq_refl)).
  assert (Hn3 := Hne (workspace_manifest_path self)
    (path_last _ "workspace-manifest-v1.json" "n"%char _ "workspace-manifest-v1.jso" eq_refl)).
  unfold read_legacy, is_file, next_world, st_bind. cbn.
  rewrite lookup_insert_ne by (intros E; by apply Hn1). rewrite Hr. cbn.
  rewrite lookup_insert_ne by (intros E; by apply Hn2). rewrite Ha. cbn.
  unfold write_json, st_bind, st_lift. change (migrated [] []) with empty. rewrite He. cbn.
  unfold atomic_write, write_temporary, sync_parent, persist, io, attempt, syscall, st_bind, st_map_err, next_world.
  cbn. rewrite lookup_insert_ne by (intros E; by apply Hn3). rewrite Hm. cbn.
  split; [done|]. apply lookup_insert_eq.
Qed.

(** ** Witnesses *)

#[local] Program Instance inj_WorkspaceRegistrationV1 : SerializeInj WorkspaceRegistrationV1 :=
  {| ser_ok _ := True |}.
Next Obligation. struct_inj. Qed.
#[local] Instance total_WorkspaceRegistrationV1 : SerializeTotal WorkspaceRegistrationV1.
Proof. done. Qed.
#[local] Program Instance inj_WorkspaceManifestV1 : SerializeInj WorkspaceManifestV1 :=
  {| ser_ok _ := True |}.
Next Obligation. struct_inj. Qed.

Definition sample_manifest : WorkspaceManifestV1 :=
  mkWorkspaceManifestV1 1 [mkWorkspaceRegistrationV1 "/src/api" (Some "acct");
                           mkWorkspaceRegistrationV1 "/src/api-docs" None].

Lemma manifest_is_a_map_witness :
  registered "/src/api/v2" (registrations (register "/src/api//v2" (Some "other") sample_manifest).2)
    = Some (mkWorkspaceRegistrationV1 "/src/api//v2" (Some "other")) /\
  map reg_path (registrations (register "/src/api//v2" (Some "other") sample_manifest).2)
    = ["/src/api"; "/src/api//v2"; "/src/api-docs"] /\
  validate_workspace_manifest (register "/src/api//v2" (Some "other") sample_manifest).2 = Ok tt.
Proof.
  destruct (manifest_is_a_map sample_manifest "/src/api//v2" (Some "other") eq_refl eq_refl)
    as [[Hv [_ Hq]] _].
  split; [exact (Hq "/src/api/v2")|]. split; [vm_compute; reflexivity|].
  apply Hv. discriminate.
Defined.

Definition manifest_store : StateStore := mkStateStore (from_root "root") None.

(** An encoder of exactly the manifests of the witnesses. *)
Definition empty_manifest : WorkspaceManifestV1 := mkWorkspaceManifestV1 1 [].
Definition unpinned_manifest : WorkspaceManifestV1 :=
  mkWorkspaceManifestV1 1 [mkWorkspaceRegistrationV1 "/src/api" (Some "")].
Definition manifest_pretty : Pretty := fun v =>
  if decide (v = to_value empty_manifest) then Ok "empty"
  else if decide (v = to_value unpinned_manifest) then Ok "unpinned"
  else if decide (v = to_value sample_manifest) then Ok "sample" else Err "unsupported".
Definition decode_manifest : Decode WorkspaceManifestV1 := fun bytes =>
  if bytes =? "empty" then Ok empty_manifest
  else if bytes =? "unpinned" then Ok unpinned_manifest
  else if bytes =? "sample" then Ok sample_manifest else Err "unknown document".
Definition decode_roots : Decode (list string) := fun _ => Err "unknown document".
Definition decode_pins : Decode (list (string * string)) := fun _ => Err "unknown document".
Definition resolve_same : Canonicalize := fun path _ => Ok path.
#[local] Existing Instances manifest_pretty decode_manifest decode_roots decode_pins resolve_same.

Lemma manifests_read_back (m : WorkspaceManifestV1) : reads_back m.
Proof.
  intros bytes Hb. unfold to_vec_pretty, manifest_pretty in Hb.
  repeat (destruct (decide _) as [Hv|] in Hb;
    [apply (ser_inj (A := WorkspaceManifestV1)) in Hv; [|exact I..];
     injection Hb as <-; by subst m|]).
  done.
Qed.

Definition registered_run : result StorageError WorkspaceRegistrationV1 * World :=
  register_workspace manifest_store "/src/api" (Some "") (calm ∅).

Lemma sample_registered :
  registered_run.1 = Ok (mkWorkspaceRegistrationV1 "/src/api" (Some "")).
Proof. vm_compute. reflexivity. Qed.

Lemma empty_pin_locks_out_witness :
  is_ok (unregister_workspace manifest_store "/src/api" (calm (files registered_run.2))).1 = false.
Proof.
  exact (proj2 (proj2 (proj2 (empty_pin_locks_out manifest_store "/src/api" (calm ∅) registered_run.2
    _ manifests_read_back (outcome _ _ sample_registered)))) "/src/api").
Defined.

Definition sample_manifest_files : Files :=
  {[workspace_manifest_path manifest_store := Regular "sample"]}.

Lemma stat_fault_loses_the_manifest_witness :
  (workspace_manifest manifest_store (calm sample_manifest_files)).1 = Ok sample_manifest /\
  let '(r, w') := workspace_manifest manifest_store (mkWorld sample_manifest_files
    (fun n => if Nat.eqb n 5 then Some "input/output error" else None)) in
  r = Ok empty_manifest /\
  files w' !! workspace_manifest_path manifest_store = Some (Regular "empty").
Proof.
  split; [vm_compute; reflexivity|].
  apply (stat_fault_loses_the_manifest manifest_store sample_manifest_files "input/output error" "sample");
    vm_compute; reflexivity.
Defined.
