(* ===== verification/Repository.v ===== *)
(** Committed workspace sources: git commands on a registered repository and the
    files they are compared with (crates/cfctl-workspace/src/lib.rs,
    d1_operation.rs and operation_identity.rs). The repository may change
    between any two calls. *)

From Stdlib Require Import String Ascii ZArith Lia List Bool.
From stdpp Require Import base option list strings.
From S2P Require Import Prelude Strings Bytes Btree Json JsonOps Core CatalogTypes WorkspaceTypes.
From S2P Require Import Transition Demo Paths Files.

Open Scope cf_scope.
Open Scope string_scope.
Open Scope cf_scope.

(** ** Calls to the operating system *)

(** What the calls answer, by the number of calls made before: the status and
    the output of [git -C repository arguments], the bytes of a file, and
    whether a path is a symbolic link. An error is the text of the I/O error. *)
Class Machine : Type := {
  git_output : nat -> string -> list string -> result string (bool * string);
  read_bytes : nat -> string -> result string string;
  lstat_is_symlink : nat -> string -> result string bool;
}.

Inductive WorkspaceError : Type :=
| MissingRoot (root : string)
| WorkspaceIo (path source : string)
| WorkspaceGit (repository message : string)
| DiscoveryInvariant (message : string).
#[export] Instance WorkspaceError_eq_dec : EqDecision WorkspaceError.
Proof. solve_decision. Defined.

(** How a function of the crate ends early: an error value, or a panic. *)
Inductive Failure : Type :=
| Failed (error : WorkspaceError)
| Panicked.
#[export] Instance Failure_eq_dec : EqDecision Failure.
Proof. solve_decision. Defined.

(** The state is the number of calls made. *)
Abbreviation Work := (ST nat Failure).

Definition invariant (message : string) : Failure := Failed (DiscoveryInvariant message).
Definition io_failed (path source : string) : Failure := Failed (WorkspaceIo path source).

Definition call {A} (path : string) (answer : nat -> result string A) : Work A :=
  fun t => (map_err (io_failed path) (answer t), S t).

Inductive WorkspaceOperationLoad : Type :=
| Inspect
| Execute.

(** [WorkspaceOperationLoad::requires_clean_worktree] *)
Definition requires_clean_worktree (self : WorkspaceOperationLoad) : bool :=
  match self with Inspect => false | Execute => true end.

(** [safe_relative] *)
Definition safe_relative (value : string) : result Failure string :=
  guard (is_empty value || is_absolute value
         || existsb (fun component => negb (is_normal component)) (components value))
    (invariant "workspace operation paths must be normalized and relative") (Ok value).

Section Machine.
Context `{Runtime} `{Machine}.

Definition git_optional (repository : string) (arguments : list string) : Work (option string) :=
  let* output := call repository (fun t => git_output t repository arguments) in
  st_ret (if fst output then Some (trim (from_utf8_lossy (snd output))) else None).

Definition git_blob (repository relative : string) : Work (option string) :=
  let object := "HEAD:" ++ relative in
  let* output := call repository (fun t => git_output t repository ["show"; object]) in
  st_ret (if fst output then Some (snd output) else None).

(** [reject_symlinks]: every prefix of the path is looked at. *)
Fixpoint reject_symlinks_from (relative cursor : string) (components : list Component)
    : Work unit :=
  match components with
  | [] => st_ret tt
  | component :: components =>
      let cursor := path_push cursor (component_str component) in
      let* is_symlink := call cursor (fun t => lstat_is_symlink t cursor) in
      do* st_guard is_symlink
            (invariant ("workspace operation input `" ++ relative ++ "` contains a symlink")) in
      reject_symlinks_from relative cursor components
  end.

Definition reject_symlinks (repository relative : string) : Work unit :=
  reject_symlinks_from relative repository (components relative).

Definition committed_file (repository relative : string) (mode : WorkspaceOperationLoad)
    : Work string :=
  let* relative := st_lift (safe_relative relative) in
  let* blob := git_blob repository relative in
  let* committed := st_lift (ok_or
    (invariant ("workspace operation input `" ++ relative ++ "` is not tracked at HEAD")) blob) in
  if negb (requires_clean_worktree mode) then st_ret committed else
  do* reject_symlinks repository relative in
  let path := path_push repository relative in
  let* worktree := call path (fun t => read_bytes t path) in
  do* st_guard (worktree <>? committed)
        (invariant ("workspace operation input `" ++ relative ++ "` differs from HEAD")) in
  st_ret worktree.

(** [sha256(bytes)] *)
Definition sha256_of (bytes : string) : string := "sha256:" ++ sha256_hex bytes.

(** [bound_source]: the bytes of a source, as its declared digest and blob. *)
Definition bound_source (repository : string) (source : TransitionSource)
    (mode : WorkspaceOperationLoad) : Work string :=
  do* st_guard (negb (canonical_digest (ts_sha256 source))
                || negb (lower_hex_of (ts_git_blob_oid source) 40))
        (invariant "V3 source digest or Git blob is not canonical") in
  let* relative := st_lift (safe_relative (ts_path source)) in
  let* bytes := committed_file repository relative mode in
  let spec := "HEAD:" ++ ts_path source in
  let mismatch := invariant "V3 source bytes, declared digest or committed blob disagree" in
  do* st_guard (sha256_of bytes <>? ts_sha256 source) mismatch in
  let* blob := git_optional repository ["rev-parse"; "--verify"; spec] in
  do* st_guard (blob <>? Some (ts_git_blob_oid source)) mismatch in
  st_ret bytes.

(** [materialize_workspace_d1_transition_source] *)
Definition materialize_workspace_d1_transition_source (repository expected_head : string)
    (source : TransitionSource) : Work string :=
  let changed := invariant "transition source repository revision changed" in
  do* st_guard (negb (lower_hex_of expected_head 40)) changed in
  let* head := git_optional repository ["rev-parse"; "HEAD"] in
  do* st_guard (head <>? Some expected_head) changed in
  bound_source repository source Execute.

(** ** Specification *)

(** [m] never panics, whatever the machine answers. *)
Definition no_panic {A} (m : Work A) : Prop := forall t, (m t).1 <> Err Panicked.

(** [bytes] are what git gave for the source, and what its declaration says. *)
Definition committed (repository : string) (source : TransitionSource) (bytes : string) : Prop :=
  exists t, git_output t repository ["show"; "HEAD:" ++ ts_path source] = Ok (true, bytes) /\
    sha256_of bytes = ts_sha256 source /\
    canonical_digest (ts_sha256 source) = true /\
    lower_hex_of (ts_git_blob_oid source) 40 = true /\
    safe_relative (ts_path source) = Ok (ts_path source).

(** ** Facts *)

Lemma no_panic_ret {A} (a : A) : no_panic (st_ret a).
Proof. by intros t. Qed.

Lemma no_panic_bind {A B} (m : Work A) (k : A -> Work B) :
  no_panic m -> (forall a t t', m t = (Ok a, t') -> (k a t').1 <> Err Panicked) ->
  no_panic (st_bind m k).
Proof.
  intros Hm Hk t. unfold st_bind. specialize (Hm t). destruct (m t) as [[a|e] t'] eqn:E; cbn in *.
  - by eapply Hk.
  - congruence.
Qed.

Lemma no_panic_then {A B} (m : Work A) (k : A -> Work B) :
  no_panic m -> (forall a, no_panic (k a)) -> no_panic (st_bind m k).
Proof. intros Hm Hk. apply no_panic_bind; [done|]. intros a t t' _. apply Hk. Qed.

Lemma no_panic_lift {A} (r : result Failure A) : r <> Err Panicked -> no_panic (st_lift r).
Proof. by intros Hr t. Qed.

Lemma no_panic_guard c message : no_panic (st_guard c (invariant message)).
Proof. by intros t; destruct c. Qed.

Lemma no_panic_call {A} path (answer : nat -> result string A) : no_panic (call path answer).
Proof. intros t. unfold call. cbn. by destruct (answer t). Qed.

Lemma safe_relative_ok value r :
  safe_relative value = Ok r ->
  r = value /\ is_absolute value = false /\ Forall (fun c => is_normal c = true) (components value).
Proof.
  unfold safe_relative. rewrite guard_ok, !orb_false_iff, existsb_Forall.
  setoid_rewrite negb_false_iff. by intros ([[_ ?] ?] & [= <-]).
Qed.

Lemma safe_relative_no_panic value : safe_relative value <> Err Panicked.
Proof. unfold safe_relative, guard. by destruct (_ || _). Qed.

Lemma no_panic_if {A} (c : bool) (a b : Work A) : no_panic a -> no_panic b -> no_panic (if c then a else b).
Proof. by destruct c. Qed.

Lemma ok_or_no_panic {A} message (o : option A) : ok_or (invariant message) o <> Err Panicked.
Proof. by destruct o. Qed.
End Machine.

Create HintDb no_panic.
#[export] Hint Resolve no_panic_ret no_panic_guard no_panic_call no_panic_lift no_panic_then
  no_panic_if safe_relative_no_panic ok_or_no_panic : no_panic.

(** Follows the shape of a computation made of calls, guards and lifted results. *)
Ltac no_panic := repeat (intros; auto 1 with no_panic;
  first [apply no_panic_if | apply no_panic_then | apply no_panic_lift]).

Section Sources.
Context `{Runtime} `{Machine}.

Lemma git_optional_no_panic repository arguments : no_panic (git_optional repository arguments).
Proof. unfold git_optional. no_panic. Qed.

Lemma git_blob_no_panic repository relative : no_panic (git_blob repository relative).
Proof. unfold git_blob. no_panic. Qed.
#[local] Hint Resolve git_optional_no_panic git_blob_no_panic : no_panic.

Lemma reject_symlinks_no_panic relative cursor l : no_panic (reject_symlinks_from relative cursor l).
Proof. revert cursor. induction l as [|c l IH]; intros cursor; cbn; no_panic. Qed.
#[local] Hint Resolve reject_symlinks_no_panic : no_panic.

Lemma committed_file_no_panic repository relative mode :
  no_panic (committed_file repository relative mode).
Proof. unfold committed_file, reject_symlinks. no_panic. Qed.
#[local] Hint Resolve committed_file_no_panic : no_panic.

Lemma bound_source_no_panic repository source mode : no_panic (bound_source repository source mode).
Proof. unfold bound_source. no_panic. Qed.

Lemma st_guard_bind {A} c e (k : unit -> Work A) t a t' :
  st_bind (st_guard c e) k t = (Ok a, t') <-> c = false /\ k tt t = (Ok a, t').
Proof. destruct c; cbn; naive_solver. Qed.

Lemma st_lift_bind {A B} (r : result Failure A) (k : A -> Work B) t b t' :
  st_bind (st_lift r) k t = (Ok b, t') <-> exists a, r = Ok a /\ k a t = (Ok b, t').
Proof. destruct r; cbn; naive_solver. Qed.

Lemma git_blob_ok repository relative t bytes t' :
  git_blob repository relative t = (Ok (Some bytes), t') ->
  git_output t repository ["show"; "HEAD:" ++ relative] = Ok (true, bytes).
Proof.
  unfold git_blob, call, st_bind, st_ret. destruct git_output as [[[] out]|]; cbn; congruence.
Qed.

Lemma committed_file_ok repository relative mode t bytes t' :
  committed_file repository relative mode t = (Ok bytes, t') ->
  safe_relative relative = Ok relative /\
  exists t, git_output t repository ["show"; "HEAD:" ++ relative] = Ok (true, bytes).
Proof.
  unfold committed_file. rewrite st_lift_bind. intros (r & Hr & Hk).
  pose proof (safe_relative_ok _ _ Hr) as [-> _]. split; [done|].
  apply st_bind_ok in Hk as ([blob|] & t1 & Hb & Hk);
    apply st_lift_bind in Hk as (? & [= <-] & Hk).
  apply git_blob_ok in Hb. exists t.
  destruct (requires_clean_worktree mode); cbn [negb] in Hk; [|by injection Hk as -> _].
  apply st_bind_ok in Hk as (_ & t2 & _ & Hk). apply st_bind_ok in Hk as (worktree & t3 & _ & Hk).
  apply st_guard_bind in Hk as [Heq Hk]. rewrite neqb_false in Heq. subst.
  by injection Hk as -> _.
Qed.

Lemma bound_source_ok repository source mode t bytes t' :
  bound_source repository source mode t = (Ok bytes, t') -> committed repository source bytes.
Proof.
  unfold bound_source. rewrite st_guard_bind, orb_false_iff, !negb_false_iff.
  intros ([Hd Hg] & Hk). apply st_lift_bind in Hk as (r & Hr & Hk).
  pose proof (safe_relative_ok _ _ Hr) as [-> _].
  apply st_bind_ok in Hk as (b & t1 & (_ & t0 & Hgit)%committed_file_ok & Hk).
  apply st_guard_bind in Hk as [Hs Hk]. rewrite neqb_false in Hs.
  apply st_bind_ok in Hk as (blob & t2 & _ & Hk). apply st_guard_bind in Hk as [_ Hk].
  injection Hk as -> _. by exists t0.
Qed.
End Sources.

#[export] Hint Resolve git_optional_no_panic git_blob_no_panic reject_symlinks_no_panic
  committed_file_no_panic bound_source_no_panic : no_panic.
