(* ===== verification/TransitionCompiler.v ===== *)
(** The compiler of D1 transition packs: the manifest and the historical ledger,
    the scheduled targets, the source envelope and the execution file with the
    compiler-owned ledger statement
    (crates/cfctl-workspace/src/d1_operation/transition.rs and
    transition/execution.rs). *)

From Stdlib Require Import String Ascii ZArith Lia List Bool Sorted.
From stdpp Require Import base option list strings gmap sorting.
From S2P Require Import Prelude Strings Bytes Btree Json JsonOps Core CatalogTypes WorkspaceTypes.
From S2P Require Import Transition Demo TransitionProofs Paths Files Repository.

Open Scope cf_scope.
Open Scope string_scope.
Open Scope cf_scope.

#[export] Instance TransitionTarget_eq_dec : EqDecision TransitionTarget.
Proof. solve_decision. Defined.
#[export] Instance TransitionStep_eq_dec : EqDecision TransitionStep.
Proof. solve_decision. Defined.
#[export] Instance TransitionExecutionManifest_eq_dec : EqDecision TransitionExecutionManifest.
Proof. solve_decision. Defined.

(** ** Source documents *)

Record MigrationManifestEntryV1 : Type := mkMigrationManifestEntryV1 {
  mme_migration_class : option string;
  mme_sequence : Z;
  mme_file : string;
  mme_sha256 : string;
  mme_predecessor : option string;
  mme_production_applied : bool;
}.

Record MigrationManifestV1 : Type := mkMigrationManifestV1 {
  mm_manifest_version : Z;
  mm_migrations : list MigrationManifestEntryV1;
}.

Record HistoricalEntry : Type := mkHistoricalEntry {
  he_file : string;
  he_sha256 : string;
  he_applied_at : string;
  he_sequence : option Z;
  he_migration_class : option string;
  he_notes : option string;
}.

Record HistoricalLedger : Type := mkHistoricalLedger {
  hl_documentation : option string;
  hl_migrations : list HistoricalEntry;
}.

(** ** The execution file *)

(** [usize::checked_add] *)
Definition usize_checked_add (a b : Z) : option Z :=
  if (a + b <? 2 ^ 64)%Z then Some (a + b)%Z else None.

Definition blen (bytes : string) : Z := Z.of_nat (String.length bytes).

Definition or_panic {A} (o : option A) : result Failure A := ok_or Panicked o.

(** [ledger_sql] *)
Definition ledger_sql (target : TransitionTarget) : result Failure string :=
  guard (is_empty (tt_file target)
         || bytes_any (fun b => (byte b =? 0) || (byte b =? 10) || (byte b =? 13))%N (tt_file target))
    (invariant "V3 target ledger filename is invalid") (
  Ok ("INSERT INTO " ++ dquote ++ "d1_migrations" ++ dquote ++ " (" ++ dquote ++ "name" ++ dquote
      ++ ") VALUES (" ++ squote ++ double_quotes (tt_file target) ++ squote ++ ");" ++ newline)).

Section Compiler.
Context `{Runtime}.

Definition ends_in_newline (bytes : string) : bool := ends_with bytes newline.

(** The loop over the segments: each starts where the last one ended, and its
    bytes have the digest of its source. *)
Fixpoint check_segments (source : string) (segments : list TransitionSegment) (offset : Z)
    : result Failure Z :=
  match segments with
  | [] => Ok offset
  | segment :: segments =>
      let? end_ := ok_or (invariant "V3 execution segment offset overflow")
                     (usize_checked_add offset (tsg_length segment)) in
      guard ((tsg_offset segment <>? offset) || (tsg_length segment =? 0)%Z
             || is_none_or (slice_get (Z.to_nat offset) (Z.to_nat end_) source) (fun bytes =>
                  negb (ends_in_newline bytes)
                  || (sha256_of bytes <>? ts_sha256 (tsg_source segment))))
        (invariant "V3 execution source segment bytes or offsets differ") (
      check_segments source segments end_)
  end.

(** [execution::compile] *)
Definition execution_compile (source : string) (segments : list TransitionSegment)
    (target : TransitionTarget) : result Failure TransitionExecutionManifest :=
  match segments with
  | [_; _; original; _; cleanup] =>
      guard (tsg_source original <>? tt_source target)
        (invariant "V3 execution requires the exact five source segments") (
      let? offset := check_segments source segments 0 in
      guard (offset <>? blen source) (invariant "V3 execution has unbound source bytes") (
      let? ledger := ledger_sql target in
      let? length := ok_or (invariant "V3 execution including ledger exceeds its byte bound")
        (match usize_checked_add (blen source) (blen ledger) with
         | Some length => if (length <=? MAX_ENVELOPE_BYTES)%Z then Some length else None
         | None => None
         end) in
      let ledger_offset := tsg_offset cleanup in
      let? before := or_panic (slice_to (Z.to_nat ledger_offset) source) in
      let? after := or_panic (slice_from (Z.to_nat ledger_offset) source) in
      let execution := before ++ ledger ++ after in
      Ok {| tem_compiler_id := EXECUTION_COMPILER_ID;
            tem_source_envelope_sha256 := sha256_of source;
            tem_ledger_name := tt_file target;
            tem_ledger_offset := ledger_offset;
            tem_ledger_length := blen ledger;
            tem_ledger_sha256 := sha256_of ledger;
            tem_execution_length := length;
            tem_execution_sha256 := sha256_of execution |}))
  | _ => Err (invariant "V3 execution requires the exact five source segments")
  end.

(** [execution::materialize] *)
Definition execution_materialize (source : string) (compiled : TransitionCompiled)
    : result Failure string :=
  let target := td_target (tc_declaration compiled) in
  let? expected := execution_compile source (tc_segments compiled) target in
  guard (expected <>? tc_execution compiled) (invariant "native execution manifest changed") (
  let? before := or_panic (slice_to (Z.to_nat (tem_ledger_offset expected)) source) in
  let? ledger := ledger_sql target in
  let? after := or_panic (slice_from (Z.to_nat (tem_ledger_offset expected)) source) in
  let bytes := before ++ ledger ++ after in
  guard ((blen bytes <>? tem_execution_length expected)
         || (sha256_of bytes <>? tem_execution_sha256 expected))
    (invariant "native execution bytes differ from their manifest") (Ok bytes)).

(** ** Manifest and history *)

Definition valid_operation_id (value : string) : bool :=
  (3 <=? String.length value)%nat && (String.length value <=? 128)%nat
  && bytes_all (fun b => is_ascii_lowercase b || is_ascii_digit b
       || ((byte b =? 46) || (byte b =? 45) || (byte b =? 95))%N) value
  && match value with String b _ => is_ascii_lowercase b | EmptyString => false end.

Definition safe_identifier (value : string) : bool :=
  (1 <=? String.length value)%nat && (String.length value <=? 128)%nat
  && match value with
     | String b _ => is_ascii_alphabetic b || (byte b =? 95)%N
     | EmptyString => false
     end
  && bytes_all (fun b => is_ascii_alphanumeric b || (byte b =? 95)%N) value.

(** The loop over [manifest.migrations]: [previous] is the file at the position
    before, [names] the files seen. *)
Fixpoint check_manifest_entries (position : nat) (previous : option string) (names : gset string)
    (entries : list MigrationManifestEntryV1) : result Failure unit :=
  match entries with
  | [] => Ok tt
  | entry :: entries =>
      guard ((mme_sequence entry <>? Z.of_nat (position + 1))
             || bool_decide (mme_file entry ∈ names)
             || negb (lower_hex_of (mme_sha256 entry) 64)
             || (length (components (mme_file entry)) <>? 1)
             || (mme_predecessor entry <>? previous))
        (invariant "V3 manifest sequence, filename, digest or historical adjacency is invalid") (
      let? _ := safe_relative (mme_file entry) in
      check_manifest_entries (S position) (Some (mme_file entry)) ({[mme_file entry]} ∪ names)
        entries)
  end.

(** What the loop over the history rejects in an entry and its manifest entry. *)
Definition membership_differs (names : gset string) (entry : HistoricalEntry)
    (matched : MigrationManifestEntryV1) : bool :=
  bool_decide (he_file entry ∈ names)
  || trim_is_empty (he_applied_at entry)
  || is_some_and (he_sequence entry) (fun sequence => sequence <>? mme_sequence matched)
  || is_some_and (he_migration_class entry) (fun class =>
       negb (contains ["schema"; "compatibility"; "data_repair"] class)
       || (mme_migration_class matched <>? Some class))
  || is_some_and (he_notes entry) trim_is_empty
  || negb (mme_production_applied matched).

(** The loop over [history.migrations]: the names seen and the sequences. *)
Fixpoint check_history (migrations : list MigrationManifestEntryV1) (names : gset string)
    (entries : list HistoricalEntry) : result Failure (gset string * list Z) :=
  match entries with
  | [] => Ok (names, [])
  | entry :: entries =>
      let? matched := ok_or
        (invariant "historical ledger identity is absent or differs from the manifest")
        (find (fun m => (mme_file m =? he_file entry) && (mme_sha256 m =? he_sha256 entry))
           migrations) in
      guard (membership_differs names entry matched)
        (invariant "historical source ledger contains duplicate or contradictory membership") (
      let? found := check_history migrations ({[he_file entry]} ∪ names) entries in
      Ok (fst found, mme_sequence matched :: snd found))
  end.

(** [check_manifest]: manifest and history up to the list of pending sequences;
    the result is the sorted historical sequences and the pending ones. *)
Definition check_manifest (manifest : MigrationManifestV1) (history : HistoricalLedger)
    : result Failure (list Z * list Z) :=
  let migrations := mm_migrations manifest in
  guard ((mm_manifest_version manifest <>? 1)%Z || is_nil migrations
         || (MAX_HISTORY <? length migrations)%nat
         || (MAX_HISTORY <? length (hl_migrations history))%nat)
    (invariant "V3 manifest or history exceeds the closed 256-entry bound") (
  let? _ := check_manifest_entries 0 None ∅ migrations in
  let? found := check_history migrations ∅ (hl_migrations history) in
  let historical_sequences := merge_sort Z.le (snd found) in
  guard (existsb (fun entry => mme_production_applied entry
                    <>? bool_decide (mme_file entry ∈ fst found)) migrations)
    (invariant "manifest and historical source ledger membership disagree") (
  Ok (historical_sequences,
      map mme_sequence (List.filter (fun m => negb (mme_production_applied m)) migrations)))).
End Compiler.

(** ** The compiler *)

Section Compile.
Context `{Runtime} `{Machine}.
Context `{Decode MigrationManifestV1} `{Decode HistoricalLedger}.
Context `{Decode TransitionManagedPolicyV1}.
(** Whether [serde_json] reads the bytes as a [D1ReadInventoryV1]. *)
Context (reads_as_inventory : string -> bool).
Context (repository : string) (mode : WorkspaceOperationLoad).

(** The identity checks of [compile]. *)
Definition identity_invalid (op : TransitionDeclaration) : bool :=
  negb (valid_operation_id (td_id op))
  || trim_is_empty (td_title op) || trim_is_empty (td_description op)
  || negb (lower_hex_of (td_account_id op) 32)
  || (String.length (td_database_id op) <>? 36)
  || is_empty (td_profile_id op)
  || negb (safe_identifier (td_database_binding op)).

(** One observation: its capability and its committed inventory. *)
Definition check_observation (observation : TransitionObservation) (id_error schema_error : string)
    : Work unit :=
  do* st_guard (negb (valid_operation_id (to_capability_id observation))) (invariant id_error) in
  let* bytes := bound_source repository (to_inventory observation) mode in
  st_guard (negb (reads_as_inventory bytes)) (invariant schema_error).

Definition check_observations (op : TransitionDeclaration) : Work unit :=
  match td_observations op with
  | None => st_ret tt
  | Some observations =>
      let check observation := check_observation observation
        "V3 observation capability identity is invalid"
        "V3 observation inventory schema is invalid" in
      do* check (tos_baseline observations) in check (tos_terminal observations)
  end.

Definition compile_assurance (op : TransitionDeclaration)
    : Work (option TransitionManagedPolicyV1) :=
  match td_assurance op with
  | None => st_ret None
  | Some assurance =>
      do* check_observation (declaration_diagnostic assurance)
            "V3 assurance diagnostic capability is invalid"
            "V3 assurance diagnostic inventory schema is invalid" in
      match assurance with
      | AssuranceDeclaration_FullIntegrityV1 _ => st_ret None
      | AssuranceDeclaration_ManagedD1ApplicationV1 policy _ =>
          let* bytes := bound_source repository policy mode in
          let* policy := st_lift (map_err
            (fun _ => invariant "V3 managed assurance policy schema is invalid")
            (from_slice bytes)) in
          do* st_lift (map_err invariant (managed_policy_validate policy
                (td_account_id op) (td_database_id op) (td_target op))) in
          st_ret (Some policy)
      end
  end.

(** The body of the loop over the schedule. *)
Definition scheduled_target (migrations : list MigrationManifestEntryV1) (directory : string)
    (step : TransitionStep) : Work TransitionTarget :=
  let* entry := st_lift (or_panic
    (if (tst_sequence step <? 1)%Z then None
     else migrations !! Z.to_nat (tst_sequence step - 1))) in
  let path := path_push directory (mme_file entry) in
  let* blob := git_optional repository ["rev-parse"; "--verify"; "HEAD:" ++ path] in
  let* blob := st_lift (ok_or (invariant "scheduled SQL has no committed blob") blob) in
  let source := mkTransitionSource path ("sha256:" ++ mme_sha256 entry) blob in
  let* _ := bound_source repository source mode in
  st_ret (mkTransitionTarget (tst_sequence step) (mme_file entry) source).

Fixpoint schedule_targets (migrations : list MigrationManifestEntryV1) (directory : string)
    (schedule : list TransitionStep) : Work (list TransitionTarget) :=
  match schedule with
  | [] => st_ret []
  | step :: schedule =>
      let* target := scheduled_target migrations directory step in
      let* targets := schedule_targets migrations directory schedule in
      st_ret (target :: targets)
  end.

(** The five sources of the envelope, in order. *)
Definition envelope_sources (op : TransitionDeclaration) : list TransitionSource :=
  let a := td_assertions op in
  [ta_preconditions a; ta_capture a; tt_source (td_target op); ta_preservation a; ta_cleanup a].

Definition segment_malformed (bytes : string) : bool :=
  is_empty bytes || bytes_any (fun b => byte b =? 0)%N bytes || negb (is_utf8 bytes)
  || negb (ends_in_newline bytes).

(** The loop over the sources, which appends to [envelope] and [segments]. *)
Fixpoint build_envelope (sources : list TransitionSource) (envelope : string)
    (segments : list TransitionSegment) : Work (string * list TransitionSegment) :=
  match sources with
  | [] => st_ret (envelope, segments)
  | source :: sources =>
      let* bytes := bound_source repository source mode in
      do* st_guard (segment_malformed bytes)
            (invariant "V3 SQL segments must be nonempty NUL-free UTF-8 ending in a newline; no rewriting is permitted") in
      do* st_guard (is_none_or (usize_checked_add (blen envelope) (blen bytes))
                      (fun n => MAX_ENVELOPE_BYTES <? n)%Z)
            (invariant "V3 envelope exceeds its byte bound") in
      build_envelope sources (envelope ++ bytes)
        (segments ++ [mkTransitionSegment source (blen envelope) (blen bytes)])%list
  end.

(** [compile] *)
Definition compile (op : TransitionDeclaration) : Work TransitionCompiled :=
  do* st_guard (identity_invalid op) (invariant "V3 operation identity or target is invalid") in
  do* check_observations op in
  let* assurance_policy := compile_assurance op in
  let* bytes := bound_source repository (td_manifest op) mode in
  let* manifest := st_lift (map_err
    (fun error => invariant ("V3 manifest is invalid: " ++ error))
    (from_slice (A := MigrationManifestV1) bytes)) in
  let* bytes := bound_source repository (td_historical_ledger op) mode in
  let* history := st_lift (map_err
    (fun error => invariant ("V3 historical ledger is invalid: " ++ error))
    (from_slice (A := HistoricalLedger) bytes)) in
  let* sequences := st_lift (check_manifest manifest history) in
  do* st_lift (map_err invariant
        (validate_schedule (td_transition_schedule op) (snd sequences))) in
  let* directory := st_lift (safe_relative (td_migrations_dir op)) in
  let* scheduled_targets := schedule_targets (mm_migrations manifest) directory
                              (td_transition_schedule op) in
  do* st_guard (find (fun t => tt_sequence t =? tt_sequence (td_target op))%Z scheduled_targets
                <>? Some (td_target op))
        (invariant "V3 target sequence/file/hash/blob does not match its scheduled manifest identity") in
  let sources := envelope_sources op in
  do* st_guard (negb (distinct (map ts_path sources)))
        (invariant "V3 envelope segments must have distinct source paths") in
  let* built := build_envelope sources "" [] in
  let envelope := fst built in
  let* execution := st_lift (execution_compile envelope (snd built) (td_target op)) in
  st_ret {| tc_declaration := op;
            tc_compiler_id := COMPILER_ID;
            tc_envelope_sha256 := sha256_of envelope;
            tc_envelope_length := blen envelope;
            tc_segments := snd built;
            tc_execution := execution;
            tc_historical_sequences := fst sequences;
            tc_scheduled_targets := scheduled_targets;
            tc_assurance_policy := assurance_policy |}.

(** The comparison of two declarations of a pack. *)
Definition declarations_disagree (first op : TransitionDeclaration) : bool :=
  (td_manifest op <>? td_manifest first)
  || (td_historical_ledger op <>? td_historical_ledger first)
  || (td_transition_schedule op <>? td_transition_schedule first)
  || (td_account_id op <>? td_account_id first)
  || (td_profile_id op <>? td_profile_id first)
  || (td_database_id op <>? td_database_id first)
  || (td_database_binding op <>? td_database_binding first)
  || (td_config_template op <>? td_config_template first)
  || (td_migrations_dir op <>? td_migrations_dir first).

(** [iter().map(..).collect::<Result<Vec<_>>>()] *)
Fixpoint compile_all (operations : list TransitionDeclaration) : Work (list TransitionCompiled) :=
  match operations with
  | [] => st_ret []
  | op :: operations =>
      let* compiled := compile op in
      let* rest := compile_all operations in
      st_ret (compiled :: rest)
  end.

(** [compile_pack] *)
Definition compile_pack (operations : list TransitionDeclaration)
    : Work (list TransitionCompiled) :=
  let* first := st_lift (ok_or (invariant "V3 pack is empty") (head operations)) in
  let expected : gset Z := list_to_set (map tst_sequence (td_transition_schedule first)) in
  let actual : gset Z := list_to_set (map (fun op => tt_sequence (td_target op)) operations) in
  do* st_guard ((actual <>? expected) || (size actual <>? length operations))
        (invariant "V3 frozen pack must contain exactly one declaration per scheduled target") in
  do* st_guard (existsb (declarations_disagree first) operations)
        (invariant "V3 frozen declarations disagree on source, target scope or phase schedule") in
  compile_all operations.

(** The loop over the segments of a compiled contract in
    [materialize_workspace_d1_transition]. *)
Fixpoint rebuild_envelope (segments : list TransitionSegment) (envelope : string) : Work string :=
  match segments with
  | [] => st_ret envelope
  | segment :: segments =>
      let* bytes := bound_source repository (tsg_source segment) Execute in
      do* st_guard ((tsg_offset segment <>? blen envelope)
                    || (tsg_length segment <>? blen bytes)
                    || is_none_or (usize_checked_add (blen envelope) (blen bytes))
                         (fun n => MAX_ENVELOPE_BYTES <? n)%Z)
            (invariant "V3 envelope segment identity changed") in
      rebuild_envelope segments (envelope ++ bytes)
  end.

(** The checks of [materialize_workspace_d1_transition] on the rebuilt bytes. *)
Definition materialize_envelope (compiled : TransitionCompiled) (repository_head : string)
    : Work string :=
  let* envelope := rebuild_envelope (tc_segments compiled) "" in
  let changed := invariant "V3 envelope or repository identity changed" in
  do* st_guard ((blen envelope <>? tc_envelope_length compiled)
                || (sha256_of envelope <>? tc_envelope_sha256 compiled)) changed in
  let* execution := st_lift (execution_compile envelope (tc_segments compiled)
                               (td_target (tc_declaration compiled))) in
  do* st_guard (execution <>? tc_execution compiled) changed in
  let* head := git_optional repository ["rev-parse"; "HEAD"] in
  do* st_guard (head <>? Some repository_head) changed in
  st_ret envelope.
End Compile.

(** ** Specification *)

(** The bytes of a list of pieces in a row. *)
Definition in_a_row (pieces : list string) : string := foldr String.append "" pieces.

(** The segments of [pieces] laid out from [offset] on, each with its source. *)
Fixpoint layout (sources : list TransitionSource) (pieces : list string) (offset : Z)
    : list TransitionSegment :=
  match sources, pieces with
  | source :: sources, piece :: pieces =>
      mkTransitionSegment source offset (blen piece)
      :: layout sources pieces (offset + blen piece)
  | _, _ => []
  end.

(** Why a manifest entry matches a history entry. *)
Definition matched_by (migrations : list MigrationManifestEntryV1) (entry : HistoricalEntry)
    (m : MigrationManifestEntryV1) : Prop :=
  m ∈ migrations /\ mme_file m = he_file entry /\ mme_sha256 m = he_sha256 entry /\
  mme_production_applied m = true.

(** ** Facts *)

Lemma blen_app s t : blen (s ++ t) = (blen s + blen t)%Z.
Proof. unfold blen. rewrite str_length_app. lia. Qed.

Lemma blen_nonneg s : (0 <= blen s)%Z.
Proof. unfold blen. lia. Qed.

Lemma to_nat_blen s : Z.to_nat (blen s) = String.length s.
Proof. unfold blen. lia. Qed.

Lemma blen_zero s : is_empty s = false -> blen s <> 0%Z.
Proof. destruct s; [done|]. unfold blen. cbn. lia. Qed.

Lemma usize_checked_add_some a b n : usize_checked_add a b = Some n <-> n = (a + b)%Z /\ (a + b < 2 ^ 64)%Z.
Proof.
  unfold usize_checked_add. destruct (Z.ltb_spec (a + b) (2 ^ 64)); split; [intros [= <-]|..].
  - done.
  - by intros [-> _].
  - done.
  - intros [_ ?]. lia.
Qed.

(** The guard both loops that build an envelope share. *)
Lemma within_bound envelope bytes :
  is_none_or (usize_checked_add (blen envelope) (blen bytes)) (fun n => MAX_ENVELOPE_BYTES <? n)%Z = false
  <-> (blen (envelope ++ bytes) <= MAX_ENVELOPE_BYTES)%Z.
Proof.
  rewrite blen_app. destruct usize_checked_add as [n|] eqn:E; cbn.
  - apply usize_checked_add_some in E as [-> _]. apply Z.ltb_ge.
  - split; [done|]. intros Hle. exfalso. unfold MAX_ENVELOPE_BYTES in Hle.
    rewrite (proj2 (usize_checked_add_some _ _ (blen envelope + blen bytes)%Z)) in E; [done|].
    split; [done|lia].
Qed.

Lemma in_a_row_app l k : in_a_row (l ++ k)%list = in_a_row l ++ in_a_row k.
Proof.
  induction l as [|s l IH]; [done|]. change (s ++ in_a_row (l ++ k)%list = (s ++ in_a_row l) ++ in_a_row k).
  by rewrite IH, str_app_assoc.
Qed.

Section Facts.
Context `{Runtime}.

(** Two byte strings with one digest. *)
Definition byte_collision : Prop := exists s t : string, s <> t /\ sha256_hex s = sha256_hex t.

Lemma sha256_of_same s t : sha256_of s = sha256_of t -> s = t \/ byte_collision.
Proof.
  unfold sha256_of. intros E%(str_app_inj_l "sha256:").
  destruct (decide (s = t)) as [->|Hne]; [by left|]. right. by exists s, t.
Qed.

(** Bytes that fit their segment. *)
Definition piece_fits (source : TransitionSource) (piece : string) : Prop :=
  piece <> "" /\ ends_in_newline piece = true /\ sha256_of piece = ts_sha256 source.

Lemma piece_guard source piece :
  is_none_or (Some piece) (fun bytes =>
    negb (ends_in_newline bytes) || (sha256_of bytes <>? ts_sha256 source)) = false <->
  ends_in_newline piece = true /\ sha256_of piece = ts_sha256 source.
Proof. cbn. by rewrite orb_false_iff, negb_false_iff, neqb_false. Qed.

(** The loop accepts exactly a list of segments laid out over pieces of the
    bytes, and ends where the last of them does. *)
Lemma check_segments_ok segments : forall before rest end_,
  check_segments (before ++ rest) segments (blen before) = Ok end_ <->
  exists pieces after, rest = in_a_row pieces ++ after /\
    segments = layout (map tsg_source segments) pieces (blen before) /\
    Forall2 piece_fits (map tsg_source segments) pieces /\
    end_ = (blen before + blen (in_a_row pieces))%Z /\
    (segments <> [] -> (end_ < 2 ^ 64)%Z).
Proof.
  induction segments as [|g segments IH]; intros before rest end_; cbn [check_segments].
  { split.
    - intros [= <-]. exists [], rest. split; [done|]. split; [done|]. split; [constructor|].
      split; [unfold blen; cbn; lia|done].
    - intros (pieces & after & _ & _ & Hf & -> & _). apply Forall2_nil_inv_l in Hf as ->.
      f_equal. unfold blen. cbn. lia. }
  rewrite res_bind_ok. split.
  - intros (e & He & Hk). destruct (usize_checked_add _ _) as [n|] eqn:En; [|done].
    injection He as <-. apply usize_checked_add_some in En as [-> Hn].
    apply guard_ok in Hk as [[[Ho Hz]%orb_false_iff Hg]%orb_false_iff Hk].
    rewrite neqb_false in Ho.
    destruct (slice_get _ _ _) as [piece|] eqn:Es; [|done].
    apply piece_guard in Hg. apply slice_get_some in Es as (Hb & Hl & Hs).
    rewrite to_nat_blen in Hb, Hl, Hs.
    rewrite str_take_app in Hs. apply str_app_inj_l in Hs.
    set (after := str_drop _ (before ++ rest)) in Hs. clearbody after. subst rest.
    assert (Hne : piece <> "") by (by intros ->; destruct Hg).
    assert (Hlen : tsg_length g = blen piece).
    { assert (String.length piece <> 0) by (by destruct piece). unfold blen in *. lia. }
    rewrite Hlen in Hk. rewrite <- blen_app, <- str_app_assoc in Hk.
    apply IH in Hk as (pieces & after' & -> & Hseg & Hf & Hend & Hlt).
    exists (piece :: pieces), after'. rewrite blen_app in Hseg, Hend.
    split; [symmetry; apply str_app_assoc|]. split; [|split; [|split]].
    + cbn [map layout]. rewrite <- Hseg. destruct g; cbn in *; subst. done.
    + by constructor.
    + change (in_a_row (piece :: pieces)) with (piece ++ in_a_row pieces). rewrite blen_app. lia.
    + intros _. destruct segments as [|g' segments]; [|by apply Hlt].
      apply Forall2_nil_inv_l in Hf as ->. cbn in Hend. unfold blen in *. cbn in Hend. lia.
  - intros (pieces & after & -> & Hseg & Hf & -> & Hlt). specialize (Hlt ltac:(done)).
    cbn [map] in Hseg, Hf. apply Forall2_cons_inv_l in Hf as (piece & pieces' & [Hne Hg] & Hf & ->).
    cbn [layout] in Hseg. injection Hseg as Hg' Hseg.
    change (in_a_row (piece :: pieces')) with (piece ++ in_a_row pieces') in *.
    rewrite blen_app in Hlt |- *. pose proof (blen_nonneg (in_a_row pieces')).
    assert (Hlen : tsg_length g = blen piece) by (by rewrite Hg').
    assert (Ho : tsg_offset g = blen before) by (by rewrite Hg').
    exists (blen before + blen piece)%Z. rewrite Hlen. split.
    { rewrite (proj2 (usize_checked_add_some _ _ (blen before + blen piece)%Z)); [done|].
      split; [done|lia]. }
    apply guard_ok. rewrite Ho, (proj2 (neqb_false _ _) eq_refl). split.
    + rewrite <- blen_app, !to_nat_blen, str_length_app, str_app_assoc, slice_get_app.
      rewrite (proj2 (piece_guard _ _)) by done.
      replace (blen piece =? 0)%Z with false; [done|].
      symmetry. apply Z.eqb_neq, blen_zero. by destruct piece.
    + rewrite <- blen_app, str_app_assoc, <- (str_app_assoc before piece). apply IH.
      exists pieces', after. rewrite blen_app. split; [done|]. split; [done|].
      split; [done|]. split; [lia|intros _; lia].
Qed.

(** The manifest of an execution file that consists of the bytes [before] the
    ledger statement, the statement, and the [cleanup]. *)
Definition execution_manifest (target : TransitionTarget) (before ledger cleanup : string)
    : TransitionExecutionManifest := {|
  tem_compiler_id := EXECUTION_COMPILER_ID;
  tem_source_envelope_sha256 := sha256_of (before ++ cleanup);
  tem_ledger_name := tt_file target;
  tem_ledger_offset := blen before;
  tem_ledger_length := blen ledger;
  tem_ledger_sha256 := sha256_of ledger;
  tem_execution_length := blen (before ++ (ledger ++ cleanup));
  tem_execution_sha256 := sha256_of (before ++ (ledger ++ cleanup))
|}.

(** Five segments laid out over the whole source, with the ledger statement that
    fits the bound. *)
Definition execution_parts (source : string) (segments : list TransitionSegment)
    (target : TransitionTarget) (sources : list TransitionSource) (before : list string)
    (cleanup ledger : string) : Prop :=
  length sources = 5 /\ sources !! 2 = Some (tt_source target) /\
  segments = layout sources (before ++ [cleanup])%list 0 /\
  Forall2 piece_fits sources (before ++ [cleanup])%list /\
  source = in_a_row before ++ cleanup /\
  ledger_sql target = Ok ledger /\ (blen source + blen ledger <= MAX_ENVELOPE_BYTES)%Z.

Lemma layout_sources sources pieces offset :
  length sources = length pieces -> map tsg_source (layout sources pieces offset) = sources.
Proof.
  revert pieces offset. induction sources as [|s sources IH]; intros [|p pieces] offset Hl; try done.
  cbn. f_equal. apply IH. cbn in Hl. lia.
Qed.

Lemma in_a_row_one s : in_a_row [s] = s.
Proof. apply str_app_nil. Qed.

Lemma slice_at before after :
  slice_to (Z.to_nat (blen before)) (before ++ after) = Some before /\
  slice_from (Z.to_nat (blen before)) (before ++ after) = Some after.
Proof.
  rewrite to_nat_blen. unfold slice_to, slice_from. rewrite str_length_app.
  rewrite (proj2 (Nat.leb_le _ _)) by lia. by rewrite str_take_app, str_drop_app.
Qed.

Lemma snoc_of {A} n (l : list A) : length l = S n -> exists front x, l = (front ++ [x])%list /\ length front = n.
Proof.
  intros Hl. destruct l as [|a l] using rev_ind; [done|]. exists l, a. split; [done|].
  rewrite length_app in Hl. cbn in Hl. lia.
Qed.

Lemma length_bound source ledger length :
  ok_or (invariant "V3 execution including ledger exceeds its byte bound")
    match usize_checked_add (blen source) (blen ledger) with
    | Some length => if (length <=? MAX_ENVELOPE_BYTES)%Z then Some length else None
    | None => None
    end = Ok length <->
  length = (blen source + blen ledger)%Z /\ (blen source + blen ledger <= MAX_ENVELOPE_BYTES)%Z.
Proof.
  destruct (usize_checked_add _ _) as [n|] eqn:E.
  - apply usize_checked_add_some in E as [-> _].
    destruct (Z.leb_spec (blen source + blen ledger) MAX_ENVELOPE_BYTES); cbn; split.
    + by intros [= <-].
    + by intros [-> _].
    + done.
    + intros [_ ?]. lia.
  - split; [done|]. intros [-> Hle]. exfalso. unfold MAX_ENVELOPE_BYTES in Hle.
    rewrite (proj2 (usize_checked_add_some _ _ (blen source + blen ledger)%Z)) in E; [done|].
    split; [done|lia].
Qed.

Lemma layout_snoc sources s pieces p offset :
  length sources = length pieces ->
  layout (sources ++ [s])%list (pieces ++ [p])%list offset =
  (layout sources pieces offset
   ++ [mkTransitionSegment s (offset + blen (in_a_row pieces)) (blen p)])%list.
Proof.
  revert pieces offset. induction sources as [|s' sources IH]; intros [|p' pieces] offset Hl; try done.
  - cbn. unfold blen at 3. cbn. by rewrite Z.add_0_r.
  - cbn [app layout]. f_equal. rewrite IH by (cbn in Hl; lia).
    change (in_a_row (p' :: pieces)) with (p' ++ in_a_row pieces). rewrite blen_app.
    by rewrite Z.add_assoc.
Qed.

(** The parts of accepted segments, from the loop. *)
Lemma check_segments_parts source segments front s4 pieces :
  map tsg_source segments = (front ++ [s4])%list ->
  segments = layout (front ++ [s4])%list pieces 0 -> Forall2 piece_fits (front ++ [s4])%list pieces ->
  source = in_a_row pieces ->
  exists before cleanup, pieces = (before ++ [cleanup])%list /\ length front = length before /\
    source = in_a_row before ++ cleanup /\
    segments = (layout front before 0
                ++ [mkTransitionSegment s4 (blen (in_a_row before)) (blen cleanup)])%list.
Proof.
  intros Hm Hseg Hf Hs. pose proof (Forall2_length _ _ _ Hf) as Hl. rewrite length_app in Hl. cbn in Hl.
  destruct (snoc_of (length front) pieces) as (before & cleanup & -> & Hb); [lia|].
  exists before, cleanup. split; [done|]. split; [done|].
  split; [rewrite Hs, in_a_row_app; by rewrite in_a_row_one|].
  rewrite Hseg at 1. by rewrite layout_snoc.
Qed.

Lemma layout_length sources pieces offset :
  length sources = length pieces -> length (layout sources pieces offset) = length sources.
Proof. intros Hl. by rewrite <- (layout_sources _ _ offset Hl) at 2; rewrite length_map. Qed.

Lemma in_a_row_nil_app source : "" ++ source = source.
Proof. done. Qed.

(** The loop run over a whole source, from the start. *)
Lemma check_all_segments source segments :
  check_segments source segments 0 = Ok (blen source) /\ (blen source < 2 ^ 64)%Z /\ segments <> [] <->
  exists pieces, source = in_a_row pieces /\
    segments = layout (map tsg_source segments) pieces 0 /\
    Forall2 piece_fits (map tsg_source segments) pieces /\ (blen source < 2 ^ 64)%Z /\ segments <> [].
Proof.
  pose proof (check_segments_ok segments "" source (blen source)) as Hc.
  rewrite in_a_row_nil_app in Hc. change (blen "") with 0%Z in Hc. rewrite Hc. split.
  - intros ((pieces & after & -> & Hseg & Hf & Hend & _) & Hlt & Hne). exists pieces.
    rewrite blen_app in Hend. assert (after = "") as ->.
    { destruct after; [done|]. unfold blen in Hend. cbn in Hend. lia. }
    rewrite str_app_nil in *. done.
  - intros (pieces & -> & Hseg & Hf & Hlt & Hne). split; [|done].
    exists pieces, "". rewrite str_app_nil. done.
Qed.

(** What the segments of an accepted source are. *)
Lemma accepted_segments source g0 g1 g2 g3 g4 :
  let segments := [g0; g1; g2; g3; g4] in
  check_segments source segments 0 = Ok (blen source) -> (blen source < 2 ^ 64)%Z ->
  exists before cleanup,
    segments = layout (map tsg_source segments) (before ++ [cleanup])%list 0 /\
    Forall2 piece_fits (map tsg_source segments) (before ++ [cleanup])%list /\
    source = in_a_row before ++ cleanup /\ tsg_offset g4 = blen (in_a_row before).
Proof.
  cbv zeta. intros Hchk Hlt.
  destruct (proj1 (check_all_segments source [g0; g1; g2; g3; g4])) as (pieces & Hs & Hseg & Hf & _);
    [done|].
  destruct (check_segments_parts source [g0; g1; g2; g3; g4]
    (map tsg_source [g0; g1; g2; g3]) (tsg_source g4) pieces eq_refl Hseg Hf Hs)
    as (before & cleanup & -> & Hlen & Hsource & Hseg4).
  exists before, cleanup. split; [done|]. split; [done|]. split; [done|].
  pose proof (f_equal (fun l => last l) Hseg4) as Hlast. rewrite last_snoc in Hlast.
  cbn in Hlast. by injection Hlast as ->.
Qed.

Lemma execution_compile_parts source segments target m :
  execution_compile source segments target = Ok m ->
  exists sources before cleanup ledger,
    execution_parts source segments target sources before cleanup ledger /\
    m = execution_manifest target (in_a_row before) ledger cleanup.
Proof.
  unfold execution_compile.
  destruct segments as [|g0 [|g1 [|g2 [|g3 [|g4 [|? ?]]]]]]; try done.
  intros (Horig & Hk)%guard_ok. rewrite neqb_false in Horig.
  apply res_bind_ok in Hk as (offset & Hoff & Hk). apply guard_ok in Hk as [Hend Hk].
  rewrite neqb_false in Hend. subst offset.
  apply res_bind_ok in Hk as (ledger & Hled & Hk). apply res_bind_ok in Hk as (n & Hn & Hk).
  apply length_bound in Hn as [-> Hmax].
  destruct (accepted_segments source g0 g1 g2 g3 g4 Hoff) as (before & cleanup & Hseg & Hf & Hs & Ho).
  { pose proof (blen_nonneg ledger). unfold MAX_ENVELOPE_BYTES in Hmax. lia. }
  rewrite Ho, Hs in Hk. destruct (slice_at (in_a_row before) cleanup) as [Hto Hfrom].
  rewrite Hto, Hfrom in Hk. cbn [or_panic ok_or res_bind] in Hk. injection Hk as <-.
  exists (map tsg_source [g0; g1; g2; g3; g4]), before, cleanup, ledger. split.
  - split_and!; try done. cbn. by rewrite Horig.
  - unfold execution_manifest. rewrite !blen_app. f_equal. lia.
Qed.

Lemma execution_parts_compile source segments target sources before cleanup ledger :
  execution_parts source segments target sources before cleanup ledger ->
  execution_compile source segments target =
  Ok (execution_manifest target (in_a_row before) ledger cleanup).
Proof.
  intros (Hl & Horig & Hseg & Hf & Hs & Hled & Hmax).
  pose proof (Forall2_length _ _ _ Hf) as Hlen.
  assert (Hsrc : map tsg_source segments = sources) by (rewrite Hseg; by apply layout_sources).
  assert (Hchk : check_segments source segments 0 = Ok (blen source)).
  { apply check_all_segments. exists (before ++ [cleanup])%list. rewrite Hsrc, in_a_row_app, in_a_row_one.
    split; [done|]. split; [done|]. split; [done|]. pose proof (blen_nonneg ledger).
    unfold MAX_ENVELOPE_BYTES in Hmax. split; [lia|]. intros ->. cbn in Hsrc. by subst sources. }
  destruct sources as [|s0 [|s1 [|s2 [|s3 [|s4 [|? ?]]]]]]; try done.
  cbn in Horig. injection Horig as ->.
  assert (Hb : length before = 4) by (rewrite length_app in Hlen; cbn in Hlen; lia).
  change [s0; s1; tt_source target; s3; s4] with ([s0; s1; tt_source target; s3] ++ [s4])%list in Hseg.
  rewrite layout_snoc, Z.add_0_l in Hseg by done.
  destruct before as [|p0 [|p1 [|p2 [|p3 [|? ?]]]]]; try done. cbn [layout app] in Hseg.
  set (before := in_a_row [p0; p1; p2; p3]) in *. subst segments.
  unfold execution_compile. rewrite Hchk. cbn [tsg_source tsg_offset].
  rewrite eqb_refl. cbn [negb guard res_bind]. rewrite eqb_refl. cbn [negb guard].
  rewrite Hled. cbn [res_bind]. rewrite (proj2 (length_bound _ _ _) (conj eq_refl Hmax)).
  cbn [res_bind]. rewrite Hs. destruct (slice_at before cleanup) as [-> ->].
  cbn [or_panic ok_or res_bind]. unfold execution_manifest. rewrite !blen_app.
  do 2 f_equal. lia.
Qed.

Lemma execution_compile_no_panic source segments target :
  execution_compile source segments target <> Err Panicked.
Proof.
  unfold execution_compile.
  destruct segments as [|g0 [|g1 [|g2 [|g3 [|g4 [|? ?]]]]]]; try done.
  destruct (_ <>? _); cbn [guard]; [done|].
  destruct (check_segments source [g0; g1; g2; g3; g4] 0) as [offset|e] eqn:Hoff; cbn [res_bind].
  2: { intros [= ->]. revert Hoff. generalize 0%Z. generalize [g0; g1; g2; g3; g4].
       induction l as [|g l IH]; intros o; cbn; [done|]. destruct usize_checked_add; cbn; [|done].
       unfold guard. destruct (_ || _); [done|apply IH]. }
  destruct (offset <>? blen source) eqn:Hend; cbn [guard]; [done|].
  rewrite neqb_false in Hend. subst offset.
  destruct (ledger_sql target) as [ledger|e] eqn:Hled; cbn [res_bind].
  2: { intros [= ->]. unfold ledger_sql, guard in Hled. by destruct (_ || _). }
  destruct (ok_or _ _) as [n|e] eqn:Hn; cbn [res_bind].
  2: { intros [= ->]. by destruct (match usize_checked_add _ _ with Some _ => _ | None => _ end). }
  apply length_bound in Hn as [-> Hmax].
  destruct (accepted_segments source g0 g1 g2 g3 g4 Hoff) as (before & cleanup & _ & _ & Hs & Ho).
  { pose proof (blen_nonneg ledger). unfold MAX_ENVELOPE_BYTES in Hmax. lia. }
  rewrite Ho, Hs. destruct (slice_at (in_a_row before) cleanup) as [-> ->]. done.
Qed.
End Facts.

Section History.
Context `{Runtime}.
Implicit Types (migrations entries : list MigrationManifestEntryV1) (names : gset string).

Lemma check_manifest_entries_ok entries : forall position previous names,
  check_manifest_entries position previous names entries = Ok tt ->
  map mme_sequence entries = seqZ (Z.of_nat position + 1) (Z.of_nat (length entries)) /\
  NoDup (map mme_file entries) /\ (forall f, f ∈ map mme_file entries -> f ∉ names).
Proof.
  induction entries as [|e entries IH]; intros position previous names; cbn [check_manifest_entries].
  { intros _. split; [done|]. split; [constructor|]. intros f Hf. by apply elem_of_nil in Hf. }
  intros [[[[[Hs Hn]%orb_false_iff _]%orb_false_iff _]%orb_false_iff _]%orb_false_iff
    (_ & _ & Hk)%res_bind_ok]%guard_ok.
  rewrite neqb_false in Hs. apply bool_decide_eq_false in Hn.
  apply IH in Hk as (Hseq & Hnd & Hfresh). cbn [map length]. split; [|split].
  - rewrite Nat2Z.inj_succ, seqZ_cons by lia. f_equal; [lia|]. rewrite Hseq. f_equal; lia.
  - constructor; [|done]. intros Hin. apply Hfresh in Hin. set_solver.
  - intros f [->|Hf]%elem_of_cons; [done|]. apply Hfresh in Hf. set_solver.
Qed.

(** The loop over the history collects one applied manifest entry per name. *)
Lemma check_history_ok migrations (history : list HistoricalEntry) : forall names found sequences,
  check_history migrations names history = Ok (found, sequences) ->
  exists matched, Forall2 (matched_by migrations) history matched /\
    sequences = map mme_sequence matched /\ NoDup (map mme_file matched) /\
    (forall f, f ∈ map mme_file matched -> f ∉ names) /\
    found = names ∪ list_to_set (map mme_file matched).
Proof.
  induction history as [|e history IH]; intros names found sequences; cbn [check_history].
  { intros [= <- <-]. exists []. split; [constructor|]. split; [done|]. split; [constructor|].
    split; [intros f Hf; by apply elem_of_nil in Hf|]. cbn. set_solver. }
  intros (m & Hm & Hk)%res_bind_ok. destruct (find _ migrations) as [m'|] eqn:Hf; [|done].
  injection Hm as ->. apply find_some in Hf as [Hin [Hfile Hsha]%andb_true_iff].
  apply eqb_eq in Hfile, Hsha. apply list_elem_of_In in Hin.
  apply guard_ok in Hk as [Hd Hk]. apply res_bind_ok in Hk as ([found' seqs] & Hr & Hk).
  injection Hk as <- <-. apply IH in Hr as (matched & Hm & -> & Hnd & Hfresh & ->).
  unfold membership_differs in Hd. rewrite !orb_false_iff in Hd.
  destruct Hd as [[[[[Hn _] _] _] _] Ha]. apply bool_decide_eq_false in Hn.
  apply negb_false_iff in Ha. rewrite <- Hfile in *.
  exists (m :: matched). split; [by constructor|]. split; [done|]. cbn [map].
  split; [|split].
  - constructor; [|done]. intros Hin'. apply Hfresh in Hin'. set_solver.
  - intros f [->|Hf]%elem_of_cons; [done|]. apply Hfresh in Hf. set_solver.
  - cbn. set_solver.
Qed.

Lemma same_file migrations a b :
  NoDup (map mme_file migrations) -> a ∈ migrations -> b ∈ migrations ->
  mme_file a = mme_file b -> a = b.
Proof.
  intros Hn Ha Hb Hf. apply list_elem_of_lookup in Ha as [i Hi], Hb as [j Hj].
  assert (i = j) as ->; [|congruence].
  eapply (NoDup_lookup _ _ _ (mme_file a) Hn); rewrite list_lookup_fmap, ?Hi, ?Hj; cbn; congruence.
Qed.

Lemma matched_applied migrations (history : list HistoricalEntry) matched :
  NoDup (map mme_file migrations) -> Forall2 (matched_by migrations) history matched ->
  NoDup (map mme_file matched) ->
  existsb (fun entry => mme_production_applied entry
    <>? bool_decide (mme_file entry ∈ (list_to_set (map mme_file matched) : gset string))) migrations
    = false ->
  matched ≡ₚ List.filter mme_production_applied migrations.
Proof.
  intros Hn Hm Hnd Hall. rewrite existsb_Forall in Hall.
  assert (Hsub : forall m, m ∈ matched -> m ∈ migrations /\ mme_production_applied m = true).
  { intros m Hin. apply list_elem_of_lookup in Hin as [i Hi].
    destruct (Forall2_lookup_r _ _ _ _ _ Hm Hi) as (e & _ & ? & _ & _ & ?). done. }
  apply NoDup_Permutation.
  - by eapply NoDup_fmap_1.
  - apply NoDup_ListNoDup, List.NoDup_filter, NoDup_ListNoDup. by eapply NoDup_fmap_1.
  - intros m. rewrite (list_elem_of_In (List.filter _ _)), filter_In, <- list_elem_of_In. split; [apply Hsub|].
    intros [Hin Ha]. rewrite Forall_forall in Hall. specialize (Hall m Hin). cbn in Hall.
    rewrite neqb_false, Ha in Hall. symmetry in Hall. apply bool_decide_eq_true in Hall.
    apply elem_of_list_to_set, list_elem_of_fmap in Hall as (m' & Hf & Hin').
    destruct (Hsub _ Hin') as [Hm' _]. by rewrite (same_file migrations m m' Hn Hin Hm' Hf).
Qed.

Lemma filter_split {A} (f : A -> bool) (l : list A) :
  (List.filter f l ++ List.filter (fun a => negb (f a)) l)%list ≡ₚ l.
Proof.
  induction l as [|a l IH]; [done|]. cbn. destruct (f a); cbn; [by rewrite IH|].
  rewrite <- Permutation_middle. by rewrite IH.
Qed.

(** An accepted manifest numbers its migrations from one; those in the history
    and the pending ones together are all of them, each once. *)
Lemma check_manifest_ok manifest history historical pending :
  check_manifest manifest history = Ok (historical, pending) ->
  let n := Z.of_nat (length (mm_migrations manifest)) in
  (0 < n <= 256)%Z /\ map mme_sequence (mm_migrations manifest) = seqZ 1 n /\
  Sorted Z.le historical /\ (historical ++ pending)%list ≡ₚ seqZ 1 n.
Proof.
  unfold check_manifest. intros [[[[_ Hne]%orb_false_iff Hmax]%orb_false_iff _]%orb_false_iff
    ([] & Hm & Hk)%res_bind_ok]%guard_ok.
  apply check_manifest_entries_ok in Hm as (Hseq & Hnd & _).
  apply res_bind_ok in Hk as ([found seqs] & Hh & Hk).
  apply check_history_ok in Hh as (matched & Hma & -> & Hndm & _ & ->).
  apply guard_ok in Hk as [Hall Hk]. injection Hk as <- <-. cbv zeta.
  assert (Hset : forall (s : gset string), ∅ ∪ s = s) by (intros; set_solver).
  cbn [fst] in Hall. rewrite Hset in Hall.
  pose proof (matched_applied _ _ _ Hnd Hma Hndm Hall) as Hperm.
  apply Nat.ltb_ge in Hmax. unfold MAX_HISTORY in Hmax.
  assert (length (mm_migrations manifest) <> 0) by (by destruct (mm_migrations manifest)).
  split; [lia|]. split; [done|]. split; [apply Sorted_merge_sort; intros x y; lia|].
  cbn [snd]. rewrite merge_sort_Permutation, Hperm, <- map_app, filter_split, Hseq. done.
Qed.

(** The schedule of such a manifest indexes it. *)
Lemma scheduled_index migrations schedule pending step n :
  map mme_sequence migrations = seqZ 1 n -> pending ⊆ seqZ 1 n ->
  validate_schedule schedule pending = Ok tt -> step ∈ schedule ->
  (1 <= tst_sequence step)%Z /\
  exists entry, migrations !! Z.to_nat (tst_sequence step - 1) = Some entry /\
    mme_sequence entry = tst_sequence step.
Proof.
  intros Hseq Hsub (_ & _ & _ & Hperm & _)%validate_schedule_ok Hin.
  assert (Hs : tst_sequence step ∈ seqZ 1 n).
  { apply Hsub. rewrite <- Hperm. by apply list_elem_of_fmap_2. }
  apply elem_of_seqZ in Hs. split; [lia|].
  assert (Hl : map mme_sequence migrations !! Z.to_nat (tst_sequence step - 1) = Some (tst_sequence step)).
  { rewrite Hseq. apply lookup_seqZ. lia. }
  change (map mme_sequence migrations) with (mme_sequence <$> migrations) in Hl.
  apply list_lookup_fmap_Some in Hl as (entry & -> & He). by exists entry.
Qed.
End History.

Section Compiled.
Context `{Runtime} `{Machine}.
Context `{Decode MigrationManifestV1} `{Decode HistoricalLedger}.
Context `{Decode TransitionManagedPolicyV1}.
Context (reads_as_inventory : string -> bool).
Context (repository : string).

(** A source segment as the compiler takes it. *)
Definition taken (mode : WorkspaceOperationLoad) (source : TransitionSource) (bytes : string)
    : Prop :=
  (exists t, (bound_source repository source mode t).1 = Ok bytes) /\
  committed repository source bytes /\ segment_malformed bytes = false.

Lemma build_envelope_ok mode sources : forall envelope segments t envelope' segments' t',
  build_envelope repository mode sources envelope segments t = (Ok (envelope', segments'), t') ->
  exists pieces, Forall2 (taken mode) sources pieces /\ envelope' = envelope ++ in_a_row pieces /\
    segments' = (segments ++ layout sources pieces (blen envelope))%list.
Proof.
  induction sources as [|source sources IH]; intros envelope segments t envelope' segments' t';
    cbn [build_envelope].
  { intros [= <- <- _]. exists []. split; [constructor|]. cbn.
    rewrite app_nil_r. split; [by rewrite str_app_nil|done]. }
  intros (bytes & t1 & Hb & Hk)%st_bind_ok.
  apply st_guard_bind in Hk as [Hm Hk]. apply st_guard_bind in Hk as [_ Hk].
  apply IH in Hk as (pieces & Hf & -> & ->). exists (bytes :: pieces). split; [|split].
  - constructor; [|done]. split; [exists t; by rewrite Hb|]. split; [|done].
    by eapply bound_source_ok.
  - apply str_app_assoc.
  - rewrite <- app_assoc, blen_app. done.
Qed.

(** What a compilation that succeeded went through. *)
Record compilation (mode : WorkspaceOperationLoad) (op : TransitionDeclaration) (c : TransitionCompiled) : Prop := {
  co_declaration : tc_declaration c = op;
  co_identity : identity_invalid op = false;
  co_compiler : tc_compiler_id c = COMPILER_ID;
  co_manifest : exists manifest history pending,
    check_manifest manifest history = Ok (tc_historical_sequences c, pending) /\
    validate_schedule (td_transition_schedule op) pending = Ok tt;
  co_policy : forall policy, tc_assurance_policy c = Some policy ->
    managed_policy_validate policy (td_account_id op) (td_database_id op) (td_target op) = Ok tt;
  co_targets : map tt_sequence (tc_scheduled_targets c) =
               map tst_sequence (td_transition_schedule op) /\
               td_target op ∈ tc_scheduled_targets c;
  co_paths : NoDup (map ts_path (envelope_sources op));
  co_envelope : exists pieces, Forall2 (taken mode) (envelope_sources op) pieces /\
    tc_segments c = layout (envelope_sources op) pieces 0 /\
    tc_envelope_sha256 c = sha256_of (in_a_row pieces) /\
    tc_envelope_length c = blen (in_a_row pieces) /\
    execution_compile (in_a_row pieces) (tc_segments c) (td_target op) = Ok (tc_execution c);
}.

Lemma compile_assurance_ok mode op t policy t' :
  compile_assurance reads_as_inventory repository mode op t = (Ok policy, t') ->
  forall p, policy = Some p ->
    managed_policy_validate p (td_account_id op) (td_database_id op) (td_target op) = Ok tt.
Proof.
  unfold compile_assurance. intros Hc p ->. destruct (td_assurance op) as [assurance|]; [|done].
  apply st_bind_ok in Hc as (_ & t1 & _ & Hc). destruct assurance as [|source diagnostic]; [done|].
  apply st_bind_ok in Hc as (bytes & t2 & _ & Hc).
  apply st_lift_bind in Hc as (q & _ & Hc). apply st_lift_bind in Hc as ([] & Hv & Hc).
  injection Hc as -> _. by apply map_err_ok in Hv.
Qed.

Lemma schedule_targets_ok mode migrations directory schedule : forall t targets t',
  schedule_targets repository mode migrations directory schedule t = (Ok targets, t') ->
  map tt_sequence targets = map tst_sequence schedule.
Proof.
  induction schedule as [|step schedule IH]; intros t targets t'; cbn [schedule_targets].
  { by intros [= <- _]. }
  intros (target & t1 & Ht & Hk)%st_bind_ok. apply st_bind_ok in Hk as (rest & t2 & Hr%IH & Hk).
  injection Hk as <- _. cbn. rewrite Hr. f_equal. unfold scheduled_target in Ht.
  apply st_lift_bind in Ht as (entry & _ & Ht). apply st_bind_ok in Ht as (blob & ? & _ & Ht).
  apply st_lift_bind in Ht as (oid & _ & Ht). apply st_bind_ok in Ht as (? & ? & _ & Ht).
  by injection Ht as <- _.
Qed.

Lemma compile_ok mode op t c t' :
  compile reads_as_inventory repository mode op t = (Ok c, t') -> compilation mode op c.
Proof.
  unfold compile. intros [Hid Hc]%st_guard_bind. apply st_bind_ok in Hc as (_ & t1 & _ & Hc).
  apply st_bind_ok in Hc as (policy & t2 & Hp & Hc).
  apply st_bind_ok in Hc as (b1 & t3 & _ & Hc). apply st_lift_bind in Hc as (manifest & _ & Hc).
  apply st_bind_ok in Hc as (b2 & t4 & _ & Hc). apply st_lift_bind in Hc as (history & _ & Hc).
  apply st_lift_bind in Hc as ([historical pending] & Hm & Hc).
  apply st_lift_bind in Hc as ([] & Hv & Hc). apply map_err_ok in Hv.
  apply st_lift_bind in Hc as (directory & _ & Hc).
  apply st_bind_ok in Hc as (targets & t5 & Ht%schedule_targets_ok & Hc).
  apply st_guard_bind in Hc as [Hfind Hc]. rewrite neqb_false in Hfind.
  apply st_guard_bind in Hc as [Hd Hc]. apply negb_false_iff, distinct_true in Hd.
  apply st_bind_ok in Hc as ([envelope segments] & t6 & Hb & Hc).
  apply build_envelope_ok in Hb as (pieces & Hf & -> & ->).
  apply st_lift_bind in Hc as (execution & Hx & Hc). injection Hc as <- _. cbn [fst snd] in *.
  change ("" ++ in_a_row pieces) with (in_a_row pieces) in *. change (blen "") with 0%Z in *.
  split; cbn [tc_declaration tc_compiler_id tc_historical_sequences tc_assurance_policy
    tc_scheduled_targets tc_segments tc_envelope_sha256 tc_envelope_length tc_execution]; try done.
  - by exists manifest, history, pending.
  - by apply (compile_assurance_ok _ _ _ _ _ Hp).
  - split; [done|]. apply list_elem_of_In. by apply find_some in Hfind as [? _].
  - by exists pieces.
Qed.

(** ** No panic *)

Lemma check_manifest_no_panic manifest history : check_manifest manifest history <> Err Panicked.
Proof.
  assert (Hm : forall l p o n, check_manifest_entries p o n l <> Err Panicked).
  { induction l as [|e l IH]; intros p o n; cbn; [done|]. unfold guard. destruct (_ || _); [done|].
    pose proof (safe_relative_no_panic (mme_file e)).
    destruct (safe_relative _) as [|[]]; cbn; [apply IH|done..]. }
  assert (Hh : forall l m n, check_history m n l <> Err Panicked).
  { induction l as [|e l IH]; intros m n; cbn; [done|]. destruct find; cbn; [|done].
    unfold guard. destruct (membership_differs _ _ _); [done|].
    specialize (IH m ({[he_file e]} ∪ n)). destruct (check_history _ _ l) as [|[]]; cbn; congruence. }
  unfold check_manifest, guard. destruct (_ || _); [done|].
  specialize (Hm (mm_migrations manifest) 0 None ∅).
  destruct (check_manifest_entries _ _ _ _) as [|[]]; cbn [res_bind]; [|done..].
  specialize (Hh (hl_migrations history) (mm_migrations manifest) ∅).
  destruct (check_history _ _ _) as [[]|[]]; cbn [res_bind]; [|done..]. by destruct existsb.
Qed.

Lemma no_panic_invariant {A E} (f : E -> string) (r : result E A) :
  map_err (fun e => invariant (f e)) r <> Err Panicked.
Proof. by destruct r. Qed.

Lemma no_panic_map_invariant {A} (r : result string A) : map_err invariant r <> Err Panicked.
Proof. by destruct r. Qed.

Lemma check_observation_no_panic mode o a b :
  no_panic (check_observation reads_as_inventory repository mode o a b).
Proof. unfold check_observation. no_panic. Qed.
#[local] Hint Resolve check_observation_no_panic no_panic_map_invariant no_panic_invariant
  check_manifest_no_panic execution_compile_no_panic : no_panic.

Lemma compile_assurance_no_panic mode op :
  no_panic (compile_assurance reads_as_inventory repository mode op).
Proof.
  unfold compile_assurance. destruct (td_assurance op) as [[|]|]; no_panic.
Qed.

Lemma check_observations_no_panic mode op :
  no_panic (check_observations reads_as_inventory repository mode op).
Proof. unfold check_observations. destruct (td_observations op); no_panic. Qed.

Lemma build_envelope_no_panic mode sources envelope segments :
  no_panic (build_envelope repository mode sources envelope segments).
Proof. revert envelope segments. induction sources; intros; cbn; no_panic. Qed.
#[local] Hint Resolve compile_assurance_no_panic check_observations_no_panic
  build_envelope_no_panic : no_panic.

Lemma schedule_targets_no_panic mode migrations directory schedule :
  (forall step, step ∈ schedule -> (1 <= tst_sequence step)%Z /\
     exists entry, migrations !! Z.to_nat (tst_sequence step - 1) = Some entry) ->
  no_panic (schedule_targets repository mode migrations directory schedule).
Proof.
  induction schedule as [|step schedule IH]; intros Hall; cbn; [no_panic|].
  apply no_panic_then; [|intros target; apply no_panic_then; [|no_panic]; apply IH; set_solver].
  unfold scheduled_target. destruct (Hall step ltac:(set_solver)) as (Hle & entry & ->).
  rewrite (proj2 (Z.ltb_ge _ _) Hle). no_panic.
Qed.

Lemma no_panic_lift_bind {A B} (r : result Failure A) (k : A -> Work B) :
  r <> Err Panicked -> (forall a, r = Ok a -> no_panic (k a)) -> no_panic (st_bind (st_lift r) k).
Proof. intros Hr Hk t. destruct r as [a|e]; cbn; [by apply Hk|congruence]. Qed.

Lemma compile_no_panic mode op : no_panic (compile reads_as_inventory repository mode op).
Proof.
  unfold compile. do 3 (apply no_panic_then; [no_panic|intros ?]).
  apply no_panic_then; [no_panic|intros bytes]. apply no_panic_then; [no_panic|intros manifest].
  apply no_panic_then; [no_panic|intros b2]. apply no_panic_then; [no_panic|intros history].
  apply no_panic_lift_bind; [no_panic|]. intros [historical pending] Hm.
  apply check_manifest_ok in Hm as (_ & Hseq & _ & Hperm).
  apply no_panic_lift_bind; [no_panic|]. intros [] Hv. apply map_err_ok in Hv. cbn [snd] in Hv.
  apply no_panic_then; [no_panic|intros directory].
  apply no_panic_then.
  - apply schedule_targets_no_panic. intros step Hin.
    assert (Hsub : pending ⊆ seqZ 1 (Z.of_nat (length (mm_migrations manifest)))).
    { intros s Hs. rewrite <- Hperm. set_solver. }
    destruct (scheduled_index _ _ _ _ _ Hseq Hsub Hv Hin) as (? & entry & ? & _).
    split; [done|]. by exists entry.
  - intros targets. no_panic.
Qed.

Lemma compile_pack_no_panic mode operations :
  no_panic (compile_pack reads_as_inventory repository mode operations).
Proof.
  unfold compile_pack. assert (Hall : forall l, no_panic (compile_all reads_as_inventory repository mode l)).
  { induction l as [|op l IH]; cbn; [no_panic|]. apply no_panic_then; [apply compile_no_panic|no_panic]. }
  no_panic.
Qed.

Lemma compile_all_ok mode operations : forall t compiled t',
  compile_all reads_as_inventory repository mode operations t = (Ok compiled, t') ->
  Forall2 (compilation mode) operations compiled.
Proof.
  induction operations as [|op operations IH]; intros t compiled t'; cbn [compile_all].
  { intros [= <- _]. constructor. }
  intros (c & t1 & Hc%compile_ok & Hk)%st_bind_ok. apply st_bind_ok in Hk as (rest & t2 & Hr%IH & Hk).
  injection Hk as <- _. by constructor.
Qed.

(** ** Rebuilding the envelope *)

(** The calls answer alike at any time: nothing changes the repository. *)
Definition steady : Prop :=
  (forall t t' repository arguments,
     git_output t repository arguments = git_output t' repository arguments) /\
  (forall t t' path, read_bytes t path = read_bytes t' path) /\
  (forall t t' path, lstat_is_symlink t path = lstat_is_symlink t' path).

Definition timeless {A} (m : Work A) : Prop := forall t t', (m t).1 = (m t').1.

Lemma timeless_bind {A B} (m : Work A) (k : A -> Work B) :
  timeless m -> (forall a, timeless (k a)) -> timeless (st_bind m k).
Proof.
  intros Hm Hk t t'. unfold st_bind. specialize (Hm t t').
  destruct (m t) as [[a|e] s], (m t') as [[a'|e'] s']; cbn in *; simplify_eq; [apply Hk|done].
Qed.

Lemma timeless_lift {A} (r : result Failure A) : timeless (st_lift r).
Proof. done. Qed.

Lemma timeless_if {A} (c : bool) (a b : Work A) :
  timeless a -> timeless b -> timeless (if c then a else b).
Proof. by destruct c. Qed.

Lemma timeless_call {A} path (answer : nat -> result string A) :
  (forall t t', answer t = answer t') -> timeless (call path answer).
Proof. intros Ha t t'. unfold call. cbn. by rewrite (Ha t t'). Qed.

Lemma bound_source_timeless source mode : steady -> timeless (bound_source repository source mode).
Proof.
  intros (Hg & Hr & Hl).
  assert (Hs : forall relative cursor l, timeless (reject_symlinks_from relative cursor l)).
  { intros relative cursor l. revert cursor. induction l as [|c l IH]; intros cursor; cbn; [done|].
    apply timeless_bind; [apply timeless_call; naive_solver|intros b].
    apply timeless_bind; [by destruct b|intros; apply IH]. }
  unfold bound_source, committed_file, git_blob, git_optional, reject_symlinks.
  repeat first [apply timeless_bind; [|intros ?] | apply timeless_if | apply timeless_lift
    | apply timeless_call; intros; apply Hg | apply timeless_call; intros; apply Hr | apply Hs
    | by intros ? ?].
Qed.

Lemma rebuild_envelope_ok sources : forall pieces envelope t,
  steady -> Forall2 (taken Execute) sources pieces ->
  (blen envelope + blen (in_a_row pieces) <= MAX_ENVELOPE_BYTES)%Z ->
  (rebuild_envelope repository (layout sources pieces (blen envelope)) envelope t).1 =
  Ok (envelope ++ in_a_row pieces).
Proof.
  induction sources as [|source sources IH]; intros pieces envelope t Hs Hf Hle.
  { apply Forall2_nil_inv_l in Hf as ->. cbn. by rewrite str_app_nil. }
  apply Forall2_cons_inv_l in Hf as (piece & pieces' & [[t0 Hb] _] & Hf & ->).
  change (in_a_row (piece :: pieces')) with (piece ++ in_a_row pieces') in *.
  rewrite blen_app in Hle. cbn [layout rebuild_envelope tsg_source tsg_offset tsg_length].
  unfold st_bind at 1. rewrite (bound_source_timeless source Execute Hs t0 t) in Hb.
  destruct (bound_source repository source Execute t) as [r t1]. cbn in Hb. subst r.
  pose proof (blen_nonneg (in_a_row pieces')).
  rewrite !(proj2 (neqb_false _ _) eq_refl). cbn [orb].
  rewrite (proj2 (within_bound _ _)) by (rewrite blen_app; lia).
  unfold st_bind, st_guard, st_ret. rewrite <- blen_app, IH; [by rewrite str_app_assoc|done|done|].
  rewrite blen_app. lia.
Qed.

Lemma rebuild_envelope_bytes segments : forall envelope t envelope' t',
  rebuild_envelope repository segments envelope t = (Ok envelope', t') ->
  exists pieces, Forall2 (committed repository) (map tsg_source segments) pieces /\
    envelope' = envelope ++ in_a_row pieces.
Proof.
  induction segments as [|g segments IH]; intros envelope t envelope' t'; cbn [rebuild_envelope].
  { intros [= <- _]. exists []. by rewrite str_app_nil. }
  intros (bytes & t1 & Hb%bound_source_ok & Hk)%st_bind_ok. apply st_guard_bind in Hk as [_ Hk].
  apply IH in Hk as (pieces & Hf & ->). exists (bytes :: pieces).
  split; [by constructor|]. apply str_app_assoc.
Qed.

Lemma materialize_parts source c sources before cleanup ledger :
  execution_parts source (tc_segments c) (td_target (tc_declaration c)) sources before cleanup ledger ->
  tc_execution c = execution_manifest (td_target (tc_declaration c)) (in_a_row before) ledger cleanup ->
  execution_materialize source c = Ok (in_a_row before ++ (ledger ++ cleanup)).
Proof.
  intros Hp Hx. pose proof Hp as (_ & _ & _ & _ & Hs & Hled & _).
  unfold execution_materialize. rewrite (execution_parts_compile _ _ _ _ _ _ _ Hp), <- Hx.
  cbn [res_bind]. rewrite (proj2 (neqb_false _ _) eq_refl). cbn [guard].
  rewrite Hx. cbn [execution_manifest tem_ledger_offset tem_execution_length tem_execution_sha256].
  rewrite Hs, Hled. destruct (slice_at (in_a_row before) cleanup) as [-> ->].
  cbn [or_panic ok_or res_bind]. by rewrite !(proj2 (neqb_false _ _) eq_refl).
Qed.
End Compiled.

Section Properties.
Context `{Runtime} `{Machine}.
Context `{Decode MigrationManifestV1} `{Decode HistoricalLedger}.
Context `{Decode TransitionManagedPolicyV1}.
Context (reads_as_inventory : string -> bool).
Context (repository : string) (mode : WorkspaceOperationLoad).

(** The start of the ledger statement, up to the quote of its literal. *)
Definition ledger_prefix : string :=
  "INSERT INTO " ++ dquote ++ "d1_migrations" ++ dquote ++ " (" ++ dquote ++ "name" ++ dquote
  ++ ") VALUES (" ++ squote.

(** The declared sources of an envelope and the bytes they stand for. *)
Definition committed_sources (op : TransitionDeclaration) (before : list string) (cleanup : string)
    : Prop :=
  Forall2 (committed repository) (envelope_sources op) (before ++ [cleanup])%list.

(** The ledger statement names the migration and nothing else. It exists
    exactly for a file name without NUL and line breaks, and SQL reads its one
    literal back as that name, with only the end of the statement after it: a
    quote in the name cannot end the literal. *)
Theorem ledger_statement_reads_back target :
  match ledger_sql target with
  | Ok sql =>
      exists rest, sql = ledger_prefix ++ rest /\
        sql_string rest = Some (tt_file target, ");" ++ newline)
  | Err e =>
      e = invariant "V3 target ledger filename is invalid" /\
      (tt_file target = "" \/
       bytes_any (fun b => (byte b =? 0) || (byte b =? 10) || (byte b =? 13))%N (tt_file target) = true)
  end.
Proof.
  unfold ledger_sql, guard. destruct (_ || _) eqn:E.
  - split; [done|]. apply orb_true_iff in E as [E|E]; [left|by right]. by destruct (tt_file target).
  - exists (double_quotes (tt_file target) ++ (squote ++ (");" ++ newline))). split.
    + unfold ledger_prefix. by rewrite !str_app_assoc.
    + by apply sql_string_quoted.
Qed.

Lemma Forall2_with {A B} (P : A -> B -> Prop) (Q : A -> Prop) l k :
  Forall2 P l k -> Forall Q l -> Forall2 (fun a b => Q a /\ P a b) l k.
Proof. induction 1; intros Hq; [constructor|]. apply Forall_cons in Hq as [? ?]. constructor; auto. Qed.

Lemma str_app_split (s t u v : string) :
  blen s = blen u -> s ++ t = u ++ v -> s = u /\ t = v.
Proof.
  intros Hl Heq. unfold blen in Hl. apply Nat2Z.inj in Hl.
  pose proof (f_equal (str_take (String.length s)) Heq) as Hs.
  rewrite str_take_app, Hl, str_take_app in Hs. subst. split; [done|]. by apply str_app_inj_l in Heq.
Qed.

(** The bytes and the lengths of the segments fix the pieces. *)
Lemma layout_inj sources : forall pieces pieces' offset,
  length sources = length pieces -> length sources = length pieces' ->
  layout sources pieces offset = layout sources pieces' offset ->
  in_a_row pieces = in_a_row pieces' -> pieces = pieces'.
Proof.
  induction sources as [|s sources IH]; intros [|p pieces] [|p' pieces'] offset Hl Hl' Hseg Hrow; try done.
  cbn [layout] in Hseg. injection Hseg as Hp Hseg.
  change (p ++ in_a_row pieces = p' ++ in_a_row pieces') in Hrow.
  apply str_app_split in Hrow as [-> Hrow]; [|done]. f_equal.
  eapply IH; [by injection Hl|by injection Hl'|exact Hseg|exact Hrow].
Qed.

(** The execution file of a compilation, in the pieces it was built from. *)
Lemma compiled_parts op c :
  compilation repository mode op c ->
  exists before cleanup ledger, Forall2 (taken repository mode) (envelope_sources op) (before ++ [cleanup])%list /\
    execution_parts (in_a_row before ++ cleanup) (tc_segments c) (td_target op)
      (envelope_sources op) before cleanup ledger /\
    tc_envelope_sha256 c = sha256_of (in_a_row before ++ cleanup) /\
    tc_envelope_length c = blen (in_a_row before ++ cleanup) /\
    tc_execution c = execution_manifest (td_target op) (in_a_row before) ledger cleanup.
Proof.
  intros [Hd _ _ _ _ _ _ (pieces & Hf & Hseg & Hsha & Hlen & Hx)].
  apply execution_compile_parts in Hx as (sources & before & cleanup & ledger & Hparts & ->).
  pose proof Hparts as (Hl & _ & Hlay & Hfits & Hs & _).
  pose proof (Forall2_length _ _ _ Hf) as Hlp. pose proof (Forall2_length _ _ _ Hfits) as Hlb.
  assert (Hsources : sources = envelope_sources op).
  { rewrite <- (layout_sources sources (before ++ [cleanup])%list 0),
      <- (layout_sources (envelope_sources op) pieces 0) by done. by rewrite <- Hlay, Hseg. }
  subst sources. assert (Hp : pieces = (before ++ [cleanup])%list).
  { apply (layout_inj (envelope_sources op) _ _ 0); [done|done|congruence|].
    by rewrite Hs, in_a_row_app, in_a_row_one. }
  rewrite Hs in Hsha, Hlen, Hparts. subst pieces. by exists before, cleanup, ledger.
Qed.

(** C25: what a compiled transition is. Its envelope is the committed bytes of the
    five declared sources in a row, each with its declared digest, laid out in
    contiguous segments from zero; its execution file is the same bytes with
    the ledger statement between preservation and cleanup and nothing else
    changed, within a mebibyte; offsets, lengths and digests say exactly that. *)
Theorem compiled_envelope op t c t'
    (Hc : compile reads_as_inventory repository mode op t = (Ok c, t')) :
  exists before cleanup ledger,
    length before = 4 /\ committed_sources op before cleanup /\
    ledger_sql (td_target op) = Ok ledger /\
    tc_declaration c = op /\
    tc_segments c = layout (envelope_sources op) (before ++ [cleanup])%list 0 /\
    tc_envelope_sha256 c = sha256_of (in_a_row before ++ cleanup) /\
    tc_envelope_length c = blen (in_a_row before ++ cleanup) /\
    tc_execution c = execution_manifest (td_target op) (in_a_row before) ledger cleanup /\
    (tem_execution_length (tc_execution c) <= MAX_ENVELOPE_BYTES)%Z.
Proof.
  apply compile_ok in Hc. pose proof (co_declaration _ _ _ _ Hc) as Hd.
  apply compiled_parts in Hc as (before & cleanup & ledger & Hf & Hp & Hsha & Hlen & Hx).
  destruct Hp as (_ & _ & Hlay & _ & _ & Hled & Hmax). exists before, cleanup, ledger.
  pose proof (Forall2_length _ _ _ Hf) as Hl. rewrite length_app in Hl. cbn in Hl.
  split; [lia|]. split; [eapply Forall2_impl; [exact Hf|]; by intros ?? (_ & ? & _)|].
  split_and!; try done. rewrite Hx. cbn [tem_execution_length execution_manifest].
  rewrite !blen_app in *. lia.
Qed.

(** C27: compiling never panics. Whatever the repository answers at each call, and
    whatever the declaration says, a pack compiles or is refused with an error:
    the schedule that was checked against the manifest never indexes outside
    it, and the envelope is never cut outside its bytes. *)
Theorem compile_never_panics operations t :
  (compile_pack reads_as_inventory repository mode operations t).1 <> Err Panicked.
Proof. apply compile_pack_no_panic. Qed.

(** What a compilation says about the sequences of its manifest. *)
Lemma compilation_sequences op c :
  compilation repository mode op c ->
  let scheduled := map tst_sequence (td_transition_schedule op) in
  NoDup scheduled /\ Sorted Z.le (tc_historical_sequences c) /\
  exists n : Z, (0 < n <= 256)%Z /\ (tc_historical_sequences c ++ scheduled)%list ≡ₚ seqZ 1 n /\
    map tt_sequence (tc_scheduled_targets c) = scheduled /\ td_target op ∈ tc_scheduled_targets c.
Proof.
  intros [_ _ _ (m & h & pending & Hm & Hv) _ [Ht Hin] _ _].
  apply check_manifest_ok in Hm as (Hn & _ & Hsorted & Hperm).
  apply validate_schedule_ok in Hv as (_ & _ & Hnd & Hsched & _). cbv zeta.
  split; [by rewrite Hsched|]. split; [done|]. eexists. split; [exact Hn|]. by rewrite Hsched at 1.
Qed.

(** A compiled pack accounts for every migration. The manifest numbers its
    migrations from one to at most 256; the historical sequences, in order, and
    the scheduled ones are all of them, each once; there is exactly one
    compiled transition for each scheduled sequence, and all of them share the
    schedule, so every completed prefix of the schedule selects the same next
    transition. *)
Theorem compiled_pack_partitions operations t compiled t'
    (Hc : compile_pack reads_as_inventory repository mode operations t = (Ok compiled, t')) :
  map tc_declaration compiled = operations /\
  exists schedule, Forall (fun c => td_transition_schedule (tc_declaration c) = schedule) compiled /\
    map target_sequence compiled ≡ₚ map tst_sequence schedule /\
    Forall (fun c => Sorted Z.le (tc_historical_sequences c) /\
      exists n : Z, (0 < n <= 256)%Z /\
        (tc_historical_sequences c ++ map tst_sequence schedule)%list ≡ₚ seqZ 1 n /\
        map tt_sequence (tc_scheduled_targets c) = map tst_sequence schedule /\
        td_target (tc_declaration c) ∈ tc_scheduled_targets c) compiled.
Proof.
  unfold compile_pack in Hc. apply st_lift_bind in Hc as (first & Hfirst & Hc).
  apply st_guard_bind in Hc as [[Hset Hsize]%orb_false_iff Hc]. rewrite !neqb_false in *.
  apply st_guard_bind in Hc as [Hagree Hc]. apply compile_all_ok in Hc.
  rewrite existsb_Forall in Hagree.
  assert (Hall : Forall2 (fun op c => td_transition_schedule op = td_transition_schedule first /\
    compilation repository mode op c) operations compiled).
  { eapply Forall2_impl; [exact (Forall2_with _ _ _ _ Hc Hagree)|]. intros op c [Ha ?]. split; [|done].
    revert Ha. unfold declarations_disagree. rewrite !orb_false_iff, !neqb_false. tauto. }
  clear Hc Hagree. assert (Hdecl : map tc_declaration compiled = operations).
  { clear -Hall. induction Hall as [|op c ops cs [_ Hc] _ IH]; [done|]. cbn. f_equal; [apply Hc|done]. }
  split; [done|]. exists (td_transition_schedule first).
  assert (Hone : forall c, c ∈ compiled -> exists op, tc_declaration c = op /\
    td_transition_schedule op = td_transition_schedule first /\ compilation repository mode op c).
  { intros c [i Hi]%list_elem_of_lookup. destruct (Forall2_lookup_r _ _ _ _ _ Hall Hi) as (op & _ & Hs & Hc).
    exists op. split; [apply Hc|done]. }
  split; [|split].
  - apply Forall_forall. by intros c (op & -> & ? & _)%Hone.
  - apply distinct_set_Permutation.
    + destruct operations as [|op operations]; [done|]. injection Hfirst as ->.
      destruct compiled as [|c compiled]; [by apply Forall2_nil_inv_r in Hall|].
      apply Forall2_cons in Hall as [[_ Hc%compilation_sequences] _]. apply Hc.
    + replace (map target_sequence compiled)
        with (map (fun op => tt_sequence (td_target op)) operations) by (by rewrite <- Hdecl, map_map).
      split; [|done]. apply distinct_true, size_eq_NoDup. by rewrite Hsize, length_map.
  - apply Forall_forall. intros c (op & <- & Hs & (_ & Hsorted & n & Hn)%compilation_sequences)%Hone.
    rewrite Hs in Hn. split; [done|]. by exists n.
Qed.

Lemma materialize_envelope_bytes c head t envelope t' :
  materialize_envelope repository c head t = (Ok envelope, t') ->
  sha256_of envelope = tc_envelope_sha256 c.
Proof.
  unfold materialize_envelope. intros (e & t1 & _ & Hk)%st_bind_ok.
  apply st_guard_bind in Hk as [[_ Hs]%orb_false_iff Hk]. rewrite neqb_false in Hs.
  apply st_lift_bind in Hk as (x & _ & Hk). apply st_guard_bind in Hk as [_ Hk].
  apply st_bind_ok in Hk as (h & t2 & _ & Hk). apply st_guard_bind in Hk as [_ Hk].
  by injection Hk as <- _.
Qed.

Lemma git_optional_timeless arguments : steady -> timeless (git_optional repository arguments).
Proof.
  intros (Hg & _). unfold git_optional. apply timeless_bind; [|done].
  apply timeless_call. intros. apply Hg.
Qed.

Lemma materialize_envelope_steady op c head t before cleanup ledger :
  steady -> Forall2 (taken repository Execute) (envelope_sources op) (before ++ [cleanup])%list ->
  tc_declaration c = op ->
  execution_parts (in_a_row before ++ cleanup) (tc_segments c) (td_target op)
    (envelope_sources op) before cleanup ledger ->
  tc_envelope_sha256 c = sha256_of (in_a_row before ++ cleanup) ->
  tc_envelope_length c = blen (in_a_row before ++ cleanup) ->
  tc_execution c = execution_manifest (td_target op) (in_a_row before) ledger cleanup ->
  (forall t, (git_optional repository ["rev-parse"; "HEAD"] t).1 = Ok (Some head)) ->
  (materialize_envelope repository c head t).1 = Ok (in_a_row before ++ cleanup).
Proof.
  intros Hs Hf Hd Hp Hsha Hlen Hx Hhead. pose proof Hp as (_ & _ & Hlay & _ & _ & _ & Hmax).
  assert (Hr : forall t, (rebuild_envelope repository (tc_segments c) "" t).1 =
                         Ok (in_a_row before ++ cleanup)).
  { intros t0. rewrite Hlay. change 0%Z with (blen "").
    rewrite rebuild_envelope_ok by
      (done || (rewrite in_a_row_app, in_a_row_one; pose proof (blen_nonneg ledger);
                change (blen "") with 0%Z; lia)).
    by rewrite in_a_row_app, in_a_row_one. }
  unfold materialize_envelope, st_bind. specialize (Hr t).
  destruct (rebuild_envelope _ _ _ t) as [r t1]. cbn in Hr. subst r.
  rewrite Hlen, Hsha, !(proj2 (neqb_false _ _) eq_refl). cbn [orb st_guard st_ret st_lift].
  rewrite Hd, (execution_parts_compile _ _ _ _ _ _ _ Hp), Hx, (proj2 (neqb_false _ _) eq_refl).
  cbn [st_guard st_ret]. specialize (Hhead t1). destruct (git_optional _ _ t1) as [r t2].
  cbn in Hhead. subst r. by rewrite (proj2 (neqb_false _ _) eq_refl).
Qed.

(** C26: a compiled transition is rebuilt from its sources. Whenever the envelope
    is materialised again, at any time and whatever happened to the repository
    since, the bytes are those that were compiled, or SHA-256 collided, and
    the execution file made of them has the digest and length of its manifest;
    and while the repository stays as it was compiled under the clean-worktree
    rule, materialising succeeds. *)
Theorem materialized_transition_is_the_compiled_one op t c t'
    (Hc : compile reads_as_inventory repository mode op t = (Ok c, t')) :
  exists envelope bytes,
    (forall head t2 rebuilt t3,
       materialize_envelope repository c head t2 = (Ok rebuilt, t3) ->
       rebuilt = envelope \/ byte_collision) /\
    execution_materialize envelope c = Ok bytes /\
    sha256_of bytes = tem_execution_sha256 (tc_execution c) /\
    blen bytes = tem_execution_length (tc_execution c) /\
    (mode = Execute -> steady -> forall head t2,
       (forall t, (git_optional repository ["rev-parse"; "HEAD"] t).1 = Ok (Some head)) ->
       (materialize_envelope repository c head t2).1 = Ok envelope).
Proof.
  apply compile_ok in Hc. pose proof (co_declaration _ _ _ _ Hc) as Hd.
  apply compiled_parts in Hc as (before & cleanup & ledger & Hf & Hp & Hsha & Hlen & Hx).
  exists (in_a_row before ++ cleanup), (in_a_row before ++ (ledger ++ cleanup)).
  split; [|split; [|split; [|split]]].
  - intros head t2 rebuilt t3 Hm%materialize_envelope_bytes. rewrite Hsha in Hm.
    by apply sha256_of_same.
  - apply (materialize_parts _ c (envelope_sources op)); by rewrite Hd.
  - by rewrite Hx.
  - by rewrite Hx.
  - intros -> Hs head t2 Hhead. by eapply materialize_envelope_steady.
Qed.
End Properties.

(** ** Witnesses: a repository of seven committed files *)

Definition sample_sql (text : string) : string := text ++ newline.

Definition sample_files : list (string * string) :=
  [("sql/preconditions.sql", sample_sql "SELECT 1;"); ("sql/capture.sql", sample_sql "SELECT 2;");
   ("migrations/0002_o'brien.sql", sample_sql "ALTER TABLE t ADD c;");
   ("sql/preservation.sql", sample_sql "SELECT 3;"); ("sql/cleanup.sql", sample_sql "SELECT 4;");
   ("migrations/manifest.json", "manifest"); ("migrations/ledger.json", "ledger")].

Definition sample_oid : string := "0123456789012345678901234567890123456789".

Definition file_named (path : string) : option string :=
  snd <$> find (fun f => fst f =? path) sample_files.

#[local] Instance sample_machine : Machine := {|
  git_output _ _ arguments :=
    match arguments with
    | ["show"; object] =>
        match strip_prefix "HEAD:" object with
        | Some path => match file_named path with Some b => Ok (true, b) | None => Ok (false, "") end
        | None => Ok (false, "")
        end
    | _ => Ok (true, sample_oid ++ newline)
    end;
  read_bytes _ path :=
    match strip_prefix "/repository/" path with
    | Some path => match file_named path with Some b => Ok b | None => Err "not found" end
    | None => Err "not found"
    end;
  lstat_is_symlink _ _ := Ok false
|}.

Definition sample_committed_file (path : string) : TransitionSource := {|
  ts_path := path;
  ts_sha256 := "sha256:" ++ digest_hex (default "" (file_named path));
  ts_git_blob_oid := sample_oid
|}.

Definition sample_manifest : MigrationManifestV1 := {|
  mm_manifest_version := 1;
  mm_migrations := [
    mkMigrationManifestEntryV1 None 1 "0001.sql" (digest_hex "") None true;
    mkMigrationManifestEntryV1 None 2 "0002_o'brien.sql"
      (digest_hex (sample_sql "ALTER TABLE t ADD c;")) (Some "0001.sql") false]
|}.

#[local] Instance sample_manifest_decode : Decode MigrationManifestV1 := fun bytes =>
  if bytes =? "manifest" then Ok sample_manifest else Err "expected value".
#[local] Instance sample_ledger_decode : Decode HistoricalLedger := fun bytes =>
  if bytes =? "ledger" then Ok {|
    hl_documentation := None;
    hl_migrations := [mkHistoricalEntry "0001.sql" (digest_hex "") "2026-01-01" (Some 1%Z) None None] |}
  else Err "expected value".
#[local] Instance sample_policy_decode : Decode TransitionManagedPolicyV1 := fun _ =>
  Err "expected value".

Definition sample_operation_declaration : TransitionDeclaration := {|
  td_id := "fixture.transition";
  td_title := "Transition";
  td_description := "Add a column";
  td_manifest := sample_committed_file "migrations/manifest.json";
  td_historical_ledger := sample_committed_file "migrations/ledger.json";
  td_config_template := "wrangler.toml";
  td_account_id := "0123456789abcdef0123456789abcdef";
  td_profile_id := "profile";
  td_database_id := "00000000-0000-4000-8000-000000000001";
  td_database_binding := "DB";
  td_migrations_dir := "migrations";
  td_target := mkTransitionTarget 2 "0002_o'brien.sql"
                 (sample_committed_file "migrations/0002_o'brien.sql");
  td_transition_schedule := [mkTransitionStep 2 TransitionPhase_PreDeploy [] []];
  td_assertions := mkTransitionAssertions (sample_committed_file "sql/preconditions.sql")
    (sample_committed_file "sql/capture.sql") (sample_committed_file "sql/preservation.sql")
    (sample_committed_file "sql/cleanup.sql");
  td_observations := None;
  td_assurance := None
|}.

Definition sample_compilation : result Failure TransitionCompiled :=
  Eval vm_compute in
    (compile (fun _ => false) "/repository" Execute sample_operation_declaration 0).1.

Definition sample_transition : TransitionCompiled :=
  Eval vm_compute in
    match sample_compilation return TransitionCompiled with
    | Ok c => c
    | Err _ => sample_compiled
    end.

Example sample_compiles :
  compile (fun _ => false) "/repository" Execute sample_operation_declaration 0 =
  (Ok sample_transition, 41).
Proof. vm_compute. reflexivity. Qed.

(** The name's quote is doubled in the statement. *)
Example sample_ledger :
  ledger_sql (td_target sample_operation_declaration) =
  Ok (ledger_prefix ++ "0002_o''brien.sql');" ++ newline).
Proof. vm_compute. reflexivity. Qed.

(** A byte that changed since, or a schedule that skips the pending migration. *)
Definition reschedule (schedule : list TransitionStep) (op : TransitionDeclaration)
    : TransitionDeclaration := {|
  td_id := td_id op; td_title := td_title op; td_description := td_description op;
  td_manifest := td_manifest op; td_historical_ledger := td_historical_ledger op;
  td_config_template := td_config_template op; td_account_id := td_account_id op;
  td_profile_id := td_profile_id op; td_database_id := td_database_id op;
  td_database_binding := td_database_binding op; td_migrations_dir := td_migrations_dir op;
  td_target := td_target op; td_transition_schedule := schedule;
  td_assertions := td_assertions op; td_observations := td_observations op;
  td_assurance := td_assurance op
|}.

Example unknown_sequence_is_refused :
  (compile (fun _ => false) "/repository" Execute
     (reschedule [mkTransitionStep 9 TransitionPhase_PreDeploy [] []] sample_operation_declaration) 0).1
  = Err (invariant "transition schedule duplicates or omits pending source identities").
Proof. vm_compute. reflexivity. Qed.

Lemma compiled_envelope_witness :
  exists before cleanup ledger,
    length before = 4 /\ ledger_sql (td_target sample_operation_declaration) = Ok ledger /\
    tc_execution sample_transition =
      execution_manifest (td_target sample_operation_declaration) (in_a_row before) ledger cleanup.
Proof.
  destruct (compiled_envelope (fun _ => false) "/repository" Execute sample_operation_declaration 0
    sample_transition 41 sample_compiles)
    as (before & cleanup & ledger & Hl & _ & Hs & _ & _ & _ & _ & Hx & _).
  exists before, cleanup, ledger. split; [exact Hl|]. split; [exact Hs|exact Hx].
Defined.

Lemma compiled_pack_partitions_witness :
  exists n : Z, (tc_historical_sequences sample_transition ++ [2%Z])%list ≡ₚ seqZ 1 n.
Proof.
  assert (Hc : compile_pack (fun _ => false) "/repository" Execute [sample_operation_declaration] 0 =
    (Ok [sample_transition], 41)) by (vm_compute; reflexivity).
  destruct (compiled_pack_partitions (fun _ => false) "/repository" Execute
    [sample_operation_declaration] 0 [sample_transition] 41 Hc) as (_ & schedule & Hs & _ & Hall).
  apply Forall_cons in Hs as [<- _].
  apply Forall_cons in Hall as [(_ & n & _ & Hn & _) _]. exists n. exact Hn.
Defined.

Lemma materialized_transition_is_the_compiled_one_witness :
  exists envelope,
    (materialize_envelope "/repository" sample_transition sample_oid 0).1 = Ok envelope.
Proof.
  destruct (materialized_transition_is_the_compiled_one (fun _ => false) "/repository" Execute
    sample_operation_declaration 0 sample_transition 41 sample_compiles)
    as (envelope & bytes & _ & _ & _ & _ & Hm).
  exists envelope. apply Hm; [reflexivity| |intros t; vm_compute; reflexivity].
  split; [|split]; reflexivity.
Defined.
