(* ===== verification/RegistryStore.v ===== *)
(** The registry database (crates/cfctl-registry/src/lib.rs): its tables as maps
    by primary key, its statements with the constraints SQLite enforces, its
    transactions, and every operation of [Registry] over them. *)

From Stdlib Require Import String Ascii ZArith Lia List Bool.
From stdpp Require Import base option list strings gmap pretty.
From S2P Require Import Prelude Strings Btree Json Core Demo Proofs Registry Files.

Open Scope cf_scope.
Open Scope string_scope.
Open Scope cf_scope.

(** ** Records the registry stores besides those of the core *)

#[export] Instance EventUpstreamIdentityV1_eq_dec : EqDecision EventUpstreamIdentityV1.
Proof. solve_decision. Defined.
#[export] Instance EventSignatureStatusV1_eq_dec : EqDecision EventSignatureStatusV1.
Proof. solve_decision. Defined.
#[export] Instance ReconciliationJobStatusV1_eq_dec : EqDecision ReconciliationJobStatusV1.
Proof. solve_decision. Defined.

Record OwnershipRecordV1 : Type := mkOwnershipRecordV1 {
  ownership_schema_version : Z;
  ownership_resource : ResourceRefV1;
  ownership_owner : string;
  ownership_repository : string;
  ownership_deploy_lane : string;
  ownership_verifier : string;
  ownership_allowed_change_path : string;
}.

Record EventCursorV1 : Type := mkEventCursorV1 {
  cursor_schema_version : Z;
  cursor_source_key : string;
  cursor_cursor : string;
  cursor_overlap_seconds : Z;
  cursor_updated_at : DateTime;
}.

Record OperationIndexRecordV1 : Type := mkOperationIndexRecordV1 {
  op_schema_version : Z;
  op_capability_id : string;
  op_product : string;
  op_method : string;
  op_path : string;
  op_adapter_status : string;
  op_maturity : string;
  op_blocker : option string;
  op_catalog_hash : string;
}.

Record InventoryProviderV1 : Type := mkInventoryProviderV1 {
  ip_schema_version : Z;
  ip_resource_kind : string;
  ip_scope_kind : string;
  ip_list_capability_id : string;
  ip_detail_capability_id : option string;
  ip_pagination : string;
  ip_normalization_rule : string;
  ip_freshness_seconds : Z;
  ip_permissions : list string;
  ip_status : string;
  ip_blocker : option string;
}.

Record UnindexableEvidenceV1 : Type := mkUnindexableEvidenceV1 {
  ue_evidence_key : string;
  ue_reason : string;
  ue_recorded_at : string;
}.

Record RegistryCoverageV1 : Type := mkRegistryCoverageV1 {
  cov_schema_version : Z;
  cov_as_of : DateTime;
  cov_operation_count : Z;
  cov_scope_count : Z;
  cov_resource_count : Z;
  cov_current_observation_count : Z;
  cov_stale_observation_count : Z;
  cov_desired_resource_count : Z;
  cov_provider_count : Z;
  cov_blocked_provider_count : Z;
  cov_partial : bool;
  cov_blockers : list string;
}.

Inductive EventIngestDispositionV1 : Type :=
| Recorded
| Duplicate.
#[export] Instance EventIngestDispositionV1_eq_dec : EqDecision EventIngestDispositionV1.
Proof. solve_decision. Defined.

Record EventIngestResultV1 : Type := mkEventIngestResultV1 {
  ingest_schema_version : Z;
  ingest_dedupe_key : string;
  ingest_disposition : EventIngestDispositionV1;
  ingest_reconciliation_jobs : list ReconciliationJobV1;
  ingest_acknowledgement_permitted : bool;
}.

Record EventLedgerStatusV1 : Type := mkEventLedgerStatusV1 {
  ledger_schema_version : Z;
  ledger_event_count : Z;
  ledger_reconciliation_job_count : Z;
  ledger_queued_job_count : Z;
  ledger_blocked_job_count : Z;
  ledger_cursor_count : Z;
  ledger_latest_received_at : option string;
}.

(** ** Errors *)

(** [rusqlite::Error], as far as the code looks at it. *)
Inductive SqlError : Type :=
| ConstraintViolation (detail : string)
| SqlFailure (detail : string).

Inductive RegistryError : Type :=
| RegistryIo (path source : string)
| RegistrySql (error : SqlError)
| RegistryJson (detail : string)
| DuplicateOwner (resource existing requested : string)
| ResourceLocked (resource_key : string)
| RegistryIntegrity (reason : string)
| InvalidCount (value : Z)
| EventDedupeCollision (dedupe_key : string)
| RegistryCore (error : CoreError).

(** ** The database *)

Section Rows.
(** The JSON text of a column. *)
Context (Text : Type).

Record ScopeRow : Type := mkScopeRow {
  sc_kind : string;
  sc_scope_id : string;
  sc_parent_key : option string;
  sc_json : Text;
}.

Record ResourceRow : Type := mkResourceRow {
  rs_scope_key : string;
  rs_kind : string;
  rs_resource_id : string;
  rs_origin : string;
  rs_json : Text;
}.

Record ObservationRow : Type := mkObservationRow {
  ob_observation_id : Z;
  ob_resource_key : string;
  ob_observed_at : string;
  ob_fresh_until : string;
  ob_state_hash : string;
  ob_status : string;
  ob_json : Text;
}.

Record DesiredRow : Type := mkDesiredRow {
  de_manifest_hash : string;
  de_json : Text;
}.

Record OwnershipRow : Type := mkOwnershipRow {
  ow_owner : string;
  ow_json : Text;
}.

Record EventRow : Type := mkEventRow {
  ev_received_at : string;
  ev_operation_id : option string;
  ev_authority_id : option string;
  ev_queue_id : option string;
  ev_subscription_id : option string;
  ev_json : Text;
}.

Record CursorRow : Type := mkCursorRow {
  cu_cursor : Text;
  cu_updated_at : string;
}.

Record JobRow : Type := mkJobRow {
  jb_resource_key : option string;
  jb_status : string;
  jb_json : Text;
}.

Record OperationRow : Type := mkOperationRow {
  oi_maturity : string;
  oi_blocker : option string;
  oi_json : Text;
}.

Record ProviderRow : Type := mkProviderRow {
  pv_status : string;
  pv_blocker : option string;
  pv_json : Text;
}.

Record LockRow : Type := mkLockRow {
  lk_owner : string;
  lk_acquired_at : string;
}.

Record UnindexableRow : Type := mkUnindexableRow {
  un_reason : string;
  un_recorded_at : string;
}.

(** The tables, by primary key; observations in the order of their rowids. *)
Record Db : Type := mkDb {
  t_metadata : gmap string string;
  t_scopes : gmap string ScopeRow;
  t_resources : gmap string ResourceRow;
  t_observations : list ObservationRow;
  t_desired : gmap string DesiredRow;
  t_ownership : gmap string OwnershipRow;
  t_events : gmap string EventRow;
  t_cursors : gmap string CursorRow;
  t_jobs : gmap string JobRow;
  t_operations : gmap string OperationRow;
  t_providers : gmap string ProviderRow;
  t_locks : gmap string LockRow;
  t_unindexable : gmap string UnindexableRow;
}.
End Rows.

Definition empty_db (Text : Type) : Db Text := {|
  t_metadata := ∅; t_scopes := ∅; t_resources := ∅; t_observations := []; t_desired := ∅;
  t_ownership := ∅; t_events := ∅; t_cursors := ∅; t_jobs := ∅; t_operations := ∅;
  t_providers := ∅; t_locks := ∅; t_unindexable := ∅
|}.

Arguments mkScopeRow {Text}. Arguments sc_kind {Text}. Arguments sc_scope_id {Text}.
Arguments sc_parent_key {Text}. Arguments sc_json {Text}.
Arguments mkResourceRow {Text}. Arguments rs_scope_key {Text}. Arguments rs_kind {Text}.
Arguments rs_resource_id {Text}. Arguments rs_origin {Text}. Arguments rs_json {Text}.
Arguments mkObservationRow {Text}. Arguments ob_observation_id {Text}.
Arguments ob_resource_key {Text}. Arguments ob_observed_at {Text}. Arguments ob_fresh_until {Text}.
Arguments ob_state_hash {Text}. Arguments ob_status {Text}. Arguments ob_json {Text}.
Arguments mkDesiredRow {Text}. Arguments de_manifest_hash {Text}. Arguments de_json {Text}.
Arguments mkOwnershipRow {Text}. Arguments ow_owner {Text}. Arguments ow_json {Text}.
Arguments mkEventRow {Text}. Arguments ev_received_at {Text}. Arguments ev_operation_id {Text}.
Arguments ev_authority_id {Text}. Arguments ev_queue_id {Text}. Arguments ev_subscription_id {Text}.
Arguments ev_json {Text}. Arguments mkCursorRow {Text}. Arguments cu_cursor {Text}.
Arguments cu_updated_at {Text}. Arguments mkJobRow {Text}. Arguments jb_resource_key {Text}.
Arguments jb_status {Text}. Arguments jb_json {Text}. Arguments mkOperationRow {Text}.
Arguments oi_maturity {Text}. Arguments oi_blocker {Text}. Arguments oi_json {Text}.
Arguments mkProviderRow {Text}. Arguments pv_status {Text}. Arguments pv_blocker {Text}.
Arguments pv_json {Text}.
Arguments mkDb {Text}. Arguments t_metadata {Text}. Arguments t_scopes {Text}.
Arguments t_resources {Text}. Arguments t_observations {Text}. Arguments t_desired {Text}.
Arguments t_ownership {Text}. Arguments t_events {Text}. Arguments t_cursors {Text}.
Arguments t_jobs {Text}. Arguments t_operations {Text}. Arguments t_providers {Text}.
Arguments t_locks {Text}. Arguments t_unindexable {Text}.

(** ** Calls *)

(** What the calls meet, by the number of calls made before: the fault of a
    statement, what other connections commit before it, a fresh UUID, the clock,
    the verdict of the integrity check and the outcome of a backup copy; and
    [DateTime::to_rfc3339]. *)
Class Environment (Text : Type) : Type := {
  sql_fault : nat -> option string;
  meanwhile : nat -> Db Text -> Db Text;
  uuid_at : nat -> string;
  now_at : nat -> DateTime;
  integrity_at : nat -> string;
  backup_at : nat -> result RegistryError string;
  to_rfc3339 : DateTime -> string;
}.

(** [serde_json::to_string] and [serde_json::from_str] at a type. *)
Class Codec (Text A : Type) : Type := {
  to_text : A -> result string Text;
  of_text : Text -> result string A;
}.
(** What is written reads back, up to [R]. *)
Class ReadsBack (Text A : Type) (R : A -> A -> Prop) `{!Codec Text A} : Prop :=
  reads_back : forall (a : A) t, to_text a = Ok t -> exists b, of_text t = Ok b /\ R a b.

Record Connection (Text : Type) : Type := mkConnection {
  db : Db Text;
  calls : nat;
}.
Arguments mkConnection {Text}. Arguments db {Text}. Arguments calls {Text}.

Section Tables.
Context {Text : Type}.
Definition set_metadata (t : gmap string string) (d : Db Text) : Db Text := {|
  t_metadata := t; t_scopes := t_scopes d; t_resources := t_resources d;
  t_observations := t_observations d; t_desired := t_desired d; t_ownership := t_ownership d;
  t_events := t_events d; t_cursors := t_cursors d; t_jobs := t_jobs d;
  t_operations := t_operations d; t_providers := t_providers d; t_locks := t_locks d;
  t_unindexable := t_unindexable d
|}.
Definition set_scopes (t : gmap string (ScopeRow Text)) (d : Db Text) : Db Text := {|
  t_metadata := t_metadata d; t_scopes := t; t_resources := t_resources d;
  t_observations := t_observations d; t_desired := t_desired d; t_ownership := t_ownership d;
  t_events := t_events d; t_cursors := t_cursors d; t_jobs := t_jobs d;
  t_operations := t_operations d; t_providers := t_providers d; t_locks := t_locks d;
  t_unindexable := t_unindexable d
|}.
Definition set_resources (t : gmap string (ResourceRow Text)) (d : Db Text) : Db Text := {|
  t_metadata := t_metadata d; t_scopes := t_scopes d; t_resources := t;
  t_observations := t_observations d; t_desired := t_desired d; t_ownership := t_ownership d;
  t_events := t_events d; t_cursors := t_cursors d; t_jobs := t_jobs d;
  t_operations := t_operations d; t_providers := t_providers d; t_locks := t_locks d;
  t_unindexable := t_unindexable d
|}.
Definition set_observations (t : list (ObservationRow Text)) (d : Db Text) : Db Text := {|
  t_metadata := t_metadata d; t_scopes := t_scopes d; t_resources := t_resources d;
  t_observations := t; t_desired := t_desired d; t_ownership := t_ownership d;
  t_events := t_events d; t_cursors := t_cursors d; t_jobs := t_jobs d;
  t_operations := t_operations d; t_providers := t_providers d; t_locks := t_locks d;
  t_unindexable := t_unindexable d
|}.
Definition set_desired (t : gmap string (DesiredRow Text)) (d : Db Text) : Db Text := {|
  t_metadata := t_metadata d; t_scopes := t_scopes d; t_resources := t_resources d;
  t_observations := t_observations d; t_desired := t; t_ownership := t_ownership d;
  t_events := t_events d; t_cursors := t_cursors d; t_jobs := t_jobs d;
  t_operations := t_operations d; t_providers := t_providers d; t_locks := t_locks d;
  t_unindexable := t_unindexable d
|}.
Definition set_ownership (t : gmap string (OwnershipRow Text)) (d : Db Text) : Db Text := {|
  t_metadata := t_metadata d; t_scopes := t_scopes d; t_resources := t_resources d;
  t_observations := t_observations d; t_desired := t_desired d; t_ownership := t;
  t_events := t_events d; t_cursors := t_cursors d; t_jobs := t_jobs d;
  t_operations := t_operations d; t_providers := t_providers d; t_locks := t_locks d;
  t_unindexable := t_unindexable d
|}.
Definition set_events (t : gmap string (EventRow Text)) (d : Db Text) : Db Text := {|
  t_metadata := t_metadata d; t_scopes := t_scopes d; t_resources := t_resources d;
  t_observations := t_observations d; t_desired := t_desired d; t_ownership := t_ownership d;
  t_events := t; t_cursors := t_cursors d; t_jobs := t_jobs d; t_operations := t_operations d;
  t_providers := t_providers d; t_locks := t_locks d; t_unindexable := t_unindexable d
|}.
Definition set_cursors (t : gmap string (CursorRow Text)) (d : Db Text) : Db Text := {|
  t_metadata := t_metadata d; t_scopes := t_scopes d; t_resources := t_resources d;
  t_observations := t_observations d; t_desired := t_desired d; t_ownership := t_ownership d;
  t_events := t_events d; t_cursors := t; t_jobs := t_jobs d; t_operations := t_operations d;
  t_providers := t_providers d; t_locks := t_locks d; t_unindexable := t_unindexable d
|}.
Definition set_jobs (t : gmap string (JobRow Text)) (d : Db Text) : Db Text := {|
  t_metadata := t_metadata d; t_scopes := t_scopes d; t_resources := t_resources d;
  t_observations := t_observations d; t_desired := t_desired d; t_ownership := t_ownership d;
  t_events := t_events d; t_cursors := t_cursors d; t_jobs := t; t_operations := t_operations d;
  t_providers := t_providers d; t_locks := t_locks d; t_unindexable := t_unindexable d
|}.
Definition set_operations (t : gmap string (OperationRow Text)) (d : Db Text) : Db Text := {|
  t_metadata := t_metadata d; t_scopes := t_scopes d; t_resources := t_resources d;
  t_observations := t_observations d; t_desired := t_desired d; t_ownership := t_ownership d;
  t_events := t_events d; t_cursors := t_cursors d; t_jobs := t_jobs d; t_operations := t;
  t_providers := t_providers d; t_locks := t_locks d; t_unindexable := t_unindexable d
|}.
Definition set_providers (t : gmap string (ProviderRow Text)) (d : Db Text) : Db Text := {|
  t_metadata := t_metadata d; t_scopes := t_scopes d; t_resources := t_resources d;
  t_observations := t_observations d; t_desired := t_desired d; t_ownership := t_ownership d;
  t_events := t_events d; t_cursors := t_cursors d; t_jobs := t_jobs d;
  t_operations := t_operations d; t_providers := t; t_locks := t_locks d;
  t_unindexable := t_unindexable d
|}.
Definition set_locks (t : gmap string LockRow) (d : Db Text) : Db Text := {|
  t_metadata := t_metadata d; t_scopes := t_scopes d; t_resources := t_resources d;
  t_observations := t_observations d; t_desired := t_desired d; t_ownership := t_ownership d;
  t_events := t_events d; t_cursors := t_cursors d; t_jobs := t_jobs d;
  t_operations := t_operations d; t_providers := t_providers d; t_locks := t;
  t_unindexable := t_unindexable d
|}.
Definition set_unindexable (t : gmap string UnindexableRow) (d : Db Text) : Db Text := {|
  t_metadata := t_metadata d; t_scopes := t_scopes d; t_resources := t_resources d;
  t_observations := t_observations d; t_desired := t_desired d; t_ownership := t_ownership d;
  t_events := t_events d; t_cursors := t_cursors d; t_jobs := t_jobs d;
  t_operations := t_operations d; t_providers := t_providers d; t_locks := t_locks d;
  t_unindexable := t
|}.
End Tables.

(** ** Statements *)

Section Statements.
Context {Text : Type}.
Implicit Types (d : Db Text).

Definition constraint {A} (detail : string) : result SqlError A := Err (ConstraintViolation detail).

(** INSERT INTO scopes .. ON CONFLICT(scope_key) DO UPDATE SET scope_json *)
Definition stmt_upsert_scope (key : string) (row : ScopeRow Text) d : result SqlError (unit * Db Text) :=
  match t_scopes d !! key with
  | Some old =>
      Ok (tt, set_scopes (<[key := mkScopeRow (sc_kind old) (sc_scope_id old) (sc_parent_key old)
                                     (sc_json row)]> (t_scopes d)) d)
  | None =>
      if is_some_and (sc_parent_key row) (fun parent => is_noneb (t_scopes d !! parent))
      then constraint "FOREIGN KEY constraint failed"
      else Ok (tt, set_scopes (<[key := row]> (t_scopes d)) d)
  end.

(** DELETE FROM scopes WHERE scope_key = ?1, with ON DELETE RESTRICT *)
Definition stmt_delete_scope (key : string) d : result SqlError (bool * Db Text) :=
  match t_scopes d !! key with
  | None => Ok (false, d)
  | Some _ =>
      if existsb (fun e => sc_parent_key (snd e) =? Some key) (map_to_list (t_scopes d))
         || existsb (fun e => rs_scope_key (snd e) =? key) (map_to_list (t_resources d))
      then constraint "FOREIGN KEY constraint failed"
      else Ok (true, set_scopes (delete key (t_scopes d)) d)
  end.

(** INSERT INTO resources .. ON CONFLICT(resource_key) DO UPDATE SET
    resource_json, and the origin where [replace_origin]. *)
Definition stmt_upsert_resource (replace_origin : bool) (key : string) (row : ResourceRow Text) d
    : result SqlError (unit * Db Text) :=
  match t_resources d !! key with
  | Some old =>
      Ok (tt, set_resources (<[key := mkResourceRow (rs_scope_key old) (rs_kind old)
            (rs_resource_id old) (if replace_origin then rs_origin row else rs_origin old)
            (rs_json row)]> (t_resources d)) d)
  | None =>
      if is_noneb (t_scopes d !! rs_scope_key row)
      then constraint "FOREIGN KEY constraint failed"
      else Ok (tt, set_resources (<[key := row]> (t_resources d)) d)
  end.

(** The rowid of the next observation. *)
Definition next_observation_id d : Z :=
  (fold_right Z.max 0 (map ob_observation_id (t_observations d)) + 1)%Z.

(** INSERT OR IGNORE INTO observations *)
Definition stmt_insert_observation (key observed_at fresh_until state_hash status : string)
    (json : Text) d : result SqlError (unit * Db Text) :=
  if existsb (fun o => (ob_resource_key o =? key) && (ob_state_hash o =? state_hash)
                       && (ob_observed_at o =? observed_at)) (t_observations d)
  then Ok (tt, d)
  else if is_noneb (t_resources d !! key) then constraint "FOREIGN KEY constraint failed"
  else Ok (tt, set_observations (t_observations d ++
         [mkObservationRow (next_observation_id d) key observed_at fresh_until state_hash status
            json])%list d).

(** INSERT INTO events *)
Definition stmt_insert_event (key : string) (row : EventRow Text) d : result SqlError (unit * Db Text) :=
  match t_events d !! key with
  | Some _ => constraint "UNIQUE constraint failed: events.dedupe_key"
  | None => Ok (tt, set_events (<[key := row]> (t_events d)) d)
  end.

(** INSERT INTO reconciliation_jobs *)
Definition stmt_insert_job (id : string) (row : JobRow Text) d : result SqlError (unit * Db Text) :=
  match t_jobs d !! id with
  | Some _ => constraint "UNIQUE constraint failed: reconciliation_jobs.job_id"
  | None => Ok (tt, set_jobs (<[id := row]> (t_jobs d)) d)
  end.

(** INSERT INTO desired_resources .. ON CONFLICT(resource_key) DO UPDATE *)
Definition stmt_upsert_desired (key : string) (row : DesiredRow Text) d
    : result SqlError (unit * Db Text) :=
  if is_noneb (t_desired d !! key) && is_noneb (t_resources d !! key)
  then constraint "FOREIGN KEY constraint failed"
  else Ok (tt, set_desired (<[key := row]> (t_desired d)) d).

(** INSERT INTO resource_locks *)
Definition stmt_insert_lock (key : string) (row : LockRow) d : result SqlError (unit * Db Text) :=
  match t_locks d !! key with
  | Some _ => constraint "UNIQUE constraint failed: resource_locks.resource_key"
  | None => Ok (tt, set_locks (<[key := row]> (t_locks d)) d)
  end.

(** DELETE FROM resource_locks WHERE resource_key = ?1 AND owner = ?2 *)
Definition stmt_delete_lock (key owner : string) d : result SqlError (bool * Db Text) :=
  match t_locks d !! key with
  | Some row =>
      if lk_owner row =? owner then Ok (true, set_locks (delete key (t_locks d)) d) else Ok (false, d)
  | None => Ok (false, d)
  end.

(** DELETE FROM resources WHERE resource_key NOT IN (SELECT .. desired_resources) *)
Definition stmt_delete_undesired_resources d : result SqlError (unit * Db Text) :=
  let kept := filter (fun e => is_Some (t_desired d !! fst e)) (t_resources d) in
  if existsb (fun o => is_noneb (kept !! ob_resource_key o)) (t_observations d)
  then constraint "FOREIGN KEY constraint failed"
  else Ok (tt, set_resources kept d).

(** A statement that cannot violate a constraint. *)
Definition stmt_set (f : Db Text -> Db Text) d : result SqlError (unit * Db Text) := Ok (tt, f d).
Definition stmt_select {A} (f : Db Text -> A) d : result SqlError (A * Db Text) := Ok (f d, d).
End Statements.

(** ORDER BY: an insertion sort by a strict order. *)
Fixpoint insert_ordered {A} (lt : A -> A -> bool) (x : A) (l : list A) : list A :=
  match l with
  | [] => [x]
  | y :: t => if lt y x then y :: insert_ordered lt x t else x :: l
  end.
Definition order_by {A} (lt : A -> A -> bool) (l : list A) : list A :=
  fold_right (insert_ordered lt) [] l.

(** The rows of a table in the order of their keys. *)
Definition rows {A} (t : gmap string A) : list (string * A) :=
  order_by (fun a b => str_ltb (fst a) (fst b)) (map_to_list t).

(** A strict order on pairs of texts, then on rowids. *)
Definition later_first (a b : string * Z) : bool :=
  str_ltb (fst b) (fst a) || ((fst a =? fst b) && (snd b <? snd a)%Z).

(** [status LIKE 'blocked_%']: ASCII letters in either case, then one
    character or more. *)
Definition like_blocked (status : string) : bool :=
  starts_with (to_ascii_lowercase status) "blocked" && (7 <? String.length status)%nat.

Definition max_text (l : list string) : option string :=
  fold_right (fun x acc => match acc with
                           | Some y => Some (if str_ltb y x then x else y)
                           | None => Some x
                           end) None l.

Record RegistryExportV1 : Type := mkRegistryExportV1 {
  export_schema_version : Z;
  export_exported_at : DateTime;
  export_scopes : list ScopeRefV1;
  export_resources : list ResourceRefV1;
  export_desired_resources : list DesiredResourceV1;
  export_ownership : list OwnershipRecordV1;
  export_coverage : RegistryCoverageV1;
}.

(** Where a statement runs: on its own, or inside the transaction that is open. *)
Inductive Mode : Type :=
| Autocommit
| InTransaction.

(** ** Operations *)

Section Operations.
Context {Text : Type} `{!Runtime} `{!Environment Text}.
Context `{!Codec Text ScopeRefV1} `{!Codec Text ResourceRefV1} `{!Codec Text RegistryObservationV1}.
Context `{!Codec Text DesiredResourceV1} `{!Codec Text OwnershipRecordV1}.
Context `{!Codec Text EventEnvelopeV1} `{!Codec Text ReconciliationJobV1} `{!Codec Text EventCursorV1}.
Context `{!Codec Text OperationIndexRecordV1} `{!Codec Text InventoryProviderV1}.

Abbreviation Reg := (ST (Connection Text) RegistryError).

(** A call that does not touch the database. *)
Definition ask {A} (answer : nat -> A) : Reg A :=
  fun s => (Ok (answer (calls s)), mkConnection (db s) (S (calls s))).

(** The database a statement starts from: on its own, it sees what the other
    connections committed before it. *)
Definition current (mode : Mode) (s : Connection Text) : Db Text :=
  match mode with Autocommit => meanwhile (calls s) (db s) | InTransaction => db s end.

(** A statement fails and changes nothing, or takes effect whole. *)
Definition execute {A} (mode : Mode) (statement : Db Text -> result SqlError (A * Db Text)) : Reg A :=
  fun s =>
    let d := current mode s in
    let next d := mkConnection d (S (calls s)) in
    match sql_fault (calls s) with
    | Some detail => (Err (RegistrySql (SqlFailure detail)), next d)
    | None =>
        match statement d with
        | Ok (a, d') => (Ok a, next d')
        | Err e => (Err (RegistrySql e), next d)
        end
    end.

(** BEGIN, the body, COMMIT; what ends the body or the commit with an error
    drops the transaction, which rolls it back. *)
Definition transaction {A} (body : Reg A) : Reg A :=
  let* d := execute Autocommit (stmt_select (fun d => d)) in
  st_on_err
    (let* a := body in
     do* execute InTransaction (stmt_select (fun _ => tt)) in
     st_ret a)
    (fun s => mkConnection d (calls s)).

Definition encode {A} `{!Codec Text A} (value : A) : Reg Text :=
  st_lift (map_err RegistryJson (to_text value)).

Definition decode {A} `{!Codec Text A} (text : Text) : result RegistryError A :=
  map_err RegistryJson (of_text text).

Definition query_json_rows {A} `{!Codec Text A} (mode : Mode) (select : Db Text -> list Text)
    : Reg (list A) :=
  let* encoded := execute mode (stmt_select select) in
  st_lift (collect decode encoded).

Definition query_optional_json {A} `{!Codec Text A} (mode : Mode) (select : Db Text -> option Text)
    : Reg (option A) :=
  let* encoded := execute mode (stmt_select select) in
  st_lift match encoded with
          | None => Ok None
          | Some text => let? value := decode text in Ok (Some value)
          end.

(** [count], [count_with_param] *)
Definition count (select : Db Text -> nat) : Reg Z :=
  let* value := execute Autocommit (stmt_select (fun d => Z.of_nat (select d))) in
  do* st_guard (value <? 0)%Z (InvalidCount value) in
  st_ret value.

(** [Registry::integrity_check] *)
Definition integrity_check : Reg string :=
  do* execute Autocommit (stmt_select (fun _ => tt)) in
  let* result := ask integrity_at in
  do* st_guard (result <>? "ok") (RegistryIntegrity result) in
  st_ret result.

(** [upsert_scope] *)
Fixpoint upsert_scope (scope : ScopeRefV1) : Reg unit :=
  do* match scope_parent scope with
      | Some parent => upsert_scope parent
      | None => st_ret tt
      end in
  let* json := encode scope in
  execute InTransaction
    (stmt_upsert_scope (scope_key scope)
       (mkScopeRow (scope_kind_as_str (scope_kind scope)) (scope_id scope)
          (option_map scope_key (scope_parent scope)) json)).

Definition adopt_scope (scope : ScopeRefV1) : Reg unit := transaction (upsert_scope scope).

Definition remove_scope (scope : ScopeRefV1) : Reg bool :=
  execute Autocommit (stmt_delete_scope (scope_key scope)).

Definition list_scopes : Reg (list ScopeRefV1) :=
  query_json_rows Autocommit (fun d => map (fun e => sc_json (snd e)) (rows (t_scopes d))).

Definition resource_row (resource : ResourceRefV1) (origin : string) (json : Text) : ResourceRow Text :=
  mkResourceRow (scope_key (resource_scope resource)) (resource_kind resource)
    (resource_id resource) origin json.

Definition upsert_resource (resource : ResourceRefV1) (origin : string) : Reg unit :=
  transaction
    (do* upsert_scope (resource_scope resource) in
     let* json := encode resource in
     execute InTransaction
       (stmt_upsert_resource true (resource_key resource) (resource_row resource origin json))).

Definition list_resources (kind : option string) : Reg (list ResourceRefV1) :=
  query_json_rows Autocommit (fun d =>
    map (fun e => rs_json (snd e))
      (List.filter (fun e => is_none_or kind (fun kind => rs_kind (snd e) =? kind))
         (rows (t_resources d)))).

Definition get_resource (resource_key : string) : Reg (option ResourceRefV1) :=
  query_optional_json Autocommit (fun d => option_map rs_json (t_resources d !! resource_key)).

Definition observation_status (status : RegistryObservationStatusV1) : string :=
  match status with
  | ObservationCurrent => "current"
  | ObservationStale => "stale"
  | ObservationPartial => "partial"
  | ObservationPermissionDenied => "permission_denied"
  | ObservationTombstone => "tombstone"
  | ObservationUnknownSchema => "unknown_schema"
  end.

Definition record_observation (observation : RegistryObservationV1) : Reg unit :=
  let resource := obs_resource observation in
  transaction
    (do* upsert_scope (resource_scope resource) in
     let* json := encode resource in
     do* execute InTransaction
           (stmt_upsert_resource false (resource_key resource) (resource_row resource "live_read" json)) in
     let* json := encode observation in
     execute InTransaction
       (stmt_insert_observation (resource_key resource) (to_rfc3339 (obs_observed_at observation))
          (to_rfc3339 (obs_fresh_until observation)) (obs_state_hash observation)
          (observation_status (obs_status observation)) json)).

Definition observation_history (resource_key : string) : Reg (list RegistryObservationV1) :=
  query_json_rows Autocommit (fun d =>
    map ob_json
      (order_by (fun a b => later_first (ob_observed_at a, ob_observation_id a)
                                  (ob_observed_at b, ob_observation_id b))
         (List.filter (fun o => ob_resource_key o =? resource_key) (t_observations d)))).

(** *** Events *)

Definition event_reconciliation_status (event : EventEnvelopeV1) : ReconciliationJobStatusV1 :=
  if event_upstream_schema_version event <>? 1%Z then JobBlockedUnknownSchema
  else if match event_signature_status event with
          | SignatureInvalid | SignatureUnknown => true
          | _ => false
          end
  then JobBlockedInvalidSignature
  else JobQueued.

Definition reconciliation_status (status : ReconciliationJobStatusV1) : string :=
  match status with
  | JobQueued => "queued"
  | JobRunning => "running"
  | JobSucceeded => "succeeded"
  | JobFailed => "failed"
  | JobBlockedUnknownSchema => "blocked_unknown_schema"
  | JobBlockedInvalidSignature => "blocked_invalid_signature"
  end.

(** [ReconciliationJobV1::queued] *)
Definition queued_job (resource : ResourceRefV1) (event_dedupe_key : option string)
    : Reg ReconciliationJobV1 :=
  let* now := ask now_at in
  let* id := ask uuid_at in
  st_ret (job_queued (fun _ => now) id resource event_dedupe_key).

Definition insert_reconciliation_job (job : ReconciliationJobV1) : Reg unit :=
  let* json := encode job in
  execute InTransaction
    (stmt_insert_job (job_id job)
       (mkJobRow (Some (resource_key (job_resource job))) (reconciliation_status (job_status job)) json)).

(** The status and the error a job of the event starts with. *)
Definition job_of_event (event : EventEnvelopeV1) (job : ReconciliationJobV1) : ReconciliationJobV1 :=
  let status := event_reconciliation_status event in
  {| job_schema_version := job_schema_version job;
     job_id := job_id job;
     job_event_dedupe_key := job_event_dedupe_key job;
     job_resource := job_resource job;
     job_status := status;
     job_enqueued_at := job_enqueued_at job;
     job_updated_at := job_updated_at job;
     job_attempts := job_attempts job;
     job_error :=
       match status with
       | JobBlockedUnknownSchema =>
           Some ("upstream schema version " ++ pretty (event_upstream_schema_version event)
                 ++ " is not supported")
       | JobBlockedInvalidSignature =>
           Some "event signature was invalid or could not be verified"
       | _ => job_error job
       end |}.

(** The loop over the resources of the event. *)
Fixpoint insert_event_jobs (event : EventEnvelopeV1) (resources : list ResourceRefV1)
    : Reg (list ReconciliationJobV1) :=
  match resources with
  | [] => st_ret []
  | resource :: resources =>
      let* job := queued_job resource (Some (event_dedupe_key event)) in
      let job := job_of_event event job in
      do* insert_reconciliation_job job in
      let* jobs := insert_event_jobs event resources in
      st_ret (job :: jobs)
  end.

Definition event_jobs (dedupe_key : string) : Reg (list ReconciliationJobV1) :=
  let* jobs := query_json_rows InTransaction
                 (fun d => map (fun e => jb_json (snd e)) (rows (t_jobs d))) in
  st_ret (List.filter (fun job => job_event_dedupe_key job =? Some dedupe_key) jobs).

Definition ingest_event_in_transaction (event : EventEnvelopeV1) : Reg EventIngestResultV1 :=
  let* existing := query_optional_json InTransaction
                     (fun d => option_map ev_json (t_events d !! event_dedupe_key event)) in
  match existing with
  | Some existing =>
      do* st_guard ((event_upstream existing <>? event_upstream event)
                    || (event_upstream_schema_version existing
                        <>? event_upstream_schema_version event)
                    || (event_payload_hash existing <>? event_payload_hash event))
            (EventDedupeCollision (event_dedupe_key event)) in
      let* jobs := event_jobs (event_dedupe_key event) in
      st_ret {| ingest_schema_version := 1;
                ingest_dedupe_key := event_dedupe_key event;
                ingest_disposition := Duplicate;
                ingest_reconciliation_jobs := jobs;
                ingest_acknowledgement_permitted := true |}
  | None =>
      let* json := encode event in
      do* execute InTransaction
            (stmt_insert_event (event_dedupe_key event)
               {| ev_received_at := to_rfc3339 (event_received_at event);
                  ev_operation_id := event_operation_id event;
                  ev_authority_id := event_authority_id event;
                  ev_queue_id := upstream_queue_id (event_upstream event);
                  ev_subscription_id := upstream_subscription_id (event_upstream event);
                  ev_json := json |}) in
      let* jobs := insert_event_jobs event (event_resource_refs event) in
      st_ret {| ingest_schema_version := 1;
                ingest_dedupe_key := event_dedupe_key event;
                ingest_disposition := Recorded;
                ingest_reconciliation_jobs := jobs;
                ingest_acknowledgement_permitted := true |}
  end.

Fixpoint ingest_events_in_transaction (events : list EventEnvelopeV1)
    : Reg (list EventIngestResultV1) :=
  match events with
  | [] => st_ret []
  | event :: events =>
      let* result := ingest_event_in_transaction event in
      let* results := ingest_events_in_transaction events in
      st_ret (result :: results)
  end.

Definition ingest_event_batch (events : list EventEnvelopeV1) : Reg (list EventIngestResultV1) :=
  do* st_guard (is_noneb (head events))
        (RegistryIntegrity "event batch must contain at least one receipt") in
  do* st_lift (map_err RegistryCore (collect event_validate events)) in
  transaction (ingest_events_in_transaction events).

Definition ingest_event (event : EventEnvelopeV1) : Reg EventIngestResultV1 :=
  let* results := ingest_event_batch [event] in
  st_lift (ok_or (RegistryIntegrity "event batch result was empty") (head results)).

Definition event_history (limit : Z) : Reg (list EventEnvelopeV1) :=
  let limit := Z.min (Z.max limit 1) 1000 in
  query_json_rows Autocommit (fun d =>
    map (fun e => ev_json (snd e))
      (take (Z.to_nat limit)
         (order_by (fun a b => str_ltb (ev_received_at (snd b)) (ev_received_at (snd a))
                               || ((ev_received_at (snd a) =? ev_received_at (snd b))
                                   && str_ltb (fst b) (fst a)))
            (map_to_list (t_events d))))).

Definition enqueue_reconciliation (resource : ResourceRefV1) : Reg ReconciliationJobV1 :=
  let* job := queued_job resource None in
  do* transaction (insert_reconciliation_job job) in
  st_ret job.

Definition reconciliation_jobs : Reg (list ReconciliationJobV1) :=
  query_json_rows Autocommit (fun d => map (fun e => jb_json (snd e)) (rows (t_jobs d))).

Definition upsert_cursor (cursor : EventCursorV1) : Reg unit :=
  do* st_guard ((cursor_schema_version cursor <>? 1%Z) || trim_is_empty (cursor_source_key cursor)
                || trim_is_empty (cursor_cursor cursor))
        (RegistryIntegrity "event cursor requires schema version 1, source key, and cursor") in
  let* json := encode cursor in
  execute Autocommit (stmt_set (fun d =>
    set_cursors (<[cursor_source_key cursor :=
      mkCursorRow json (to_rfc3339 (cursor_updated_at cursor))]> (t_cursors d)) d)).

Definition cursor (source_key : string) : Reg (option EventCursorV1) :=
  query_optional_json Autocommit (fun d => option_map cu_cursor (t_cursors d !! source_key)).

Definition jobs_where (p : string -> bool) (d : Db Text) : nat :=
  List.length (List.filter (fun e => p (jb_status (snd e))) (map_to_list (t_jobs d))).

Definition event_status : Reg EventLedgerStatusV1 :=
  let* event_count := count (fun d => size (t_events d)) in
  let* job_count := count (fun d => size (t_jobs d)) in
  let* queued := count (jobs_where (fun status => status =? "queued")) in
  let* blocked := count (jobs_where like_blocked) in
  let* cursors := count (fun d => size (t_cursors d)) in
  let* latest := execute Autocommit (stmt_select (fun d =>
    max_text (map (fun e => ev_received_at (snd e)) (map_to_list (t_events d))))) in
  st_ret {| ledger_schema_version := 1;
            ledger_event_count := event_count;
            ledger_reconciliation_job_count := job_count;
            ledger_queued_job_count := queued;
            ledger_blocked_job_count := blocked;
            ledger_cursor_count := cursors;
            ledger_latest_received_at := latest |}.

(** *** Desired state and ownership *)

(** SELECT owner FROM ownership WHERE resource_key = ?1 *)
Definition select_owner (mode : Mode) (key : string) : Reg (option string) :=
  execute mode (stmt_select (fun d => option_map ow_owner (t_ownership d !! key))).

Definition refuse_other_owner (key : string) (existing_owner : option string) (requested : string)
    : Reg unit :=
  match existing_owner with
  | Some existing => st_guard (existing <>? requested) (DuplicateOwner key existing requested)
  | None => st_ret tt
  end.

Definition upsert_desired_resource (desired : DesiredResourceV1) : Reg unit :=
  let resource := desired_resource desired in
  transaction
    (do* upsert_scope (resource_scope resource) in
     let key := resource_key resource in
     let* existing_owner := select_owner InTransaction key in
     do* refuse_other_owner key existing_owner (desired_owner desired) in
     let* json := encode resource in
     do* execute InTransaction
           (stmt_upsert_resource false key (resource_row resource "desired_state" json)) in
     let* json := encode desired in
     execute InTransaction
       (stmt_upsert_desired key (mkDesiredRow (desired_manifest_hash desired) json))).

Definition upsert_ownership (ownership : OwnershipRecordV1) : Reg unit :=
  let key := resource_key (ownership_resource ownership) in
  let* existing_owner := select_owner Autocommit key in
  do* refuse_other_owner key existing_owner (ownership_owner ownership) in
  let* json := encode ownership in
  execute Autocommit (stmt_set (fun d =>
    set_ownership (<[key := mkOwnershipRow (ownership_owner ownership) json]> (t_ownership d)) d)).

Definition list_desired_resources : Reg (list DesiredResourceV1) :=
  query_json_rows Autocommit (fun d => map (fun e => de_json (snd e)) (rows (t_desired d))).

Definition list_ownership : Reg (list OwnershipRecordV1) :=
  query_json_rows Autocommit (fun d => map (fun e => ow_json (snd e)) (rows (t_ownership d))).

(** *** Operations, providers, evidence and metadata *)

Definition upsert_operation (operation : OperationIndexRecordV1) : Reg unit :=
  let* json := encode operation in
  execute Autocommit (stmt_set (fun d =>
    set_operations (<[op_capability_id operation :=
      mkOperationRow (op_maturity operation) (op_blocker operation) json]> (t_operations d)) d)).

Definition upsert_provider (provider : InventoryProviderV1) : Reg unit :=
  let* json := encode provider in
  execute Autocommit (stmt_set (fun d =>
    set_providers (<[ip_resource_kind provider :=
      mkProviderRow (ip_status provider) (ip_blocker provider) json]> (t_providers d)) d)).

Definition record_unindexable_evidence (evidence_key reason : string) : Reg unit :=
  let* now := ask now_at in
  execute Autocommit (stmt_set (fun d =>
    set_unindexable (<[evidence_key := mkUnindexableRow reason (to_rfc3339 now)]>
      (t_unindexable d)) d)).

Definition unindexable_evidence : Reg (list UnindexableEvidenceV1) :=
  execute Autocommit (stmt_select (fun d =>
    map (fun e => mkUnindexableEvidenceV1 (fst e) (un_reason (snd e)) (un_recorded_at (snd e)))
      (rows (t_unindexable d)))).

Definition metadata (key : string) : Reg (option string) :=
  execute Autocommit (stmt_select (fun d => t_metadata d !! key)).

(** [Registry::set_metadata] *)
Definition write_metadata (key value : string) : Reg unit :=
  execute Autocommit (stmt_set (fun d => set_metadata (<[key := value]> (t_metadata d)) d)).

Definition mark_sync_complete : Reg unit :=
  let* now := ask now_at in
  write_metadata "last_sync_at" (to_rfc3339 now).

Definition provider_blocked (e : string * ProviderRow Text) : bool := pv_status (snd e) <>? "available".

Definition coverage : Reg RegistryCoverageV1 :=
  let* read_at := ask now_at in
  let now := to_rfc3339 read_at in
  let* provider_count := count (fun d => size (t_providers d)) in
  let* blocked_provider_count :=
    count (fun d => List.length (List.filter provider_blocked (map_to_list (t_providers d)))) in
  let* blockers := execute Autocommit (stmt_select (fun d =>
    map (fun e => default (fst e ++ " provider is not available") (pv_blocker (snd e)))
      (List.filter provider_blocked (rows (t_providers d))))) in
  let blockers := if provider_count =? 0%Z
                  then (blockers ++ ["no live inventory providers are registered"])%list
                  else blockers in
  let* as_of := ask now_at in
  let* operation_count := count (fun d => size (t_operations d)) in
  let* scope_count := count (fun d => size (t_scopes d)) in
  let* resource_count := count (fun d => size (t_resources d)) in
  let is_current o := (ob_status o =? "current") && negb (str_ltb (ob_fresh_until o) now) in
  let* current_count := count (fun d => List.length (List.filter is_current (t_observations d))) in
  let is_stale o := (ob_status o <>? "current") || str_ltb (ob_fresh_until o) now in
  let* stale_count := count (fun d => List.length (List.filter is_stale (t_observations d))) in
  let* desired_count := count (fun d => size (t_desired d)) in
  st_ret {| cov_schema_version := 1;
            cov_as_of := as_of;
            cov_operation_count := operation_count;
            cov_scope_count := scope_count;
            cov_resource_count := resource_count;
            cov_current_observation_count := current_count;
            cov_stale_observation_count := stale_count;
            cov_desired_resource_count := desired_count;
            cov_provider_count := provider_count;
            cov_blocked_provider_count := blocked_provider_count;
            cov_partial := (provider_count =? 0%Z) || (0 <? blocked_provider_count)%Z;
            cov_blockers := blockers |}.

(** [Registry::export] *)
Definition export : Reg RegistryExportV1 :=
  let* exported_at := ask now_at in
  let* scopes := list_scopes in
  let* resources := list_resources None in
  let* desired_resources := list_desired_resources in
  let* ownership := list_ownership in
  let* coverage := coverage in
  st_ret {| export_schema_version := 1;
            export_exported_at := exported_at;
            export_scopes := scopes;
            export_resources := resources;
            export_desired_resources := desired_resources;
            export_ownership := ownership;
            export_coverage := coverage |}.

(** [Registry::backup]: the copy itself is the machine's. *)
Definition backup : Reg string :=
  let* outcome := ask backup_at in
  st_lift outcome.

Definition rebuild_projection : Reg string :=
  let* backup := backup in
  do* transaction
        (do* execute InTransaction (stmt_set (set_observations [])) in
         do* execute InTransaction (stmt_set (set_locks ∅)) in
         do* execute InTransaction (stmt_set (set_providers ∅)) in
         do* execute InTransaction (stmt_set (set_operations ∅)) in
         do* execute InTransaction stmt_delete_undesired_resources in
         execute InTransaction
           (stmt_set (fun d => set_metadata (delete "last_sync_at" (t_metadata d)) d))) in
  do* integrity_check in
  st_ret backup.

Definition acquire_resource_lock (resource_key owner : string) : Reg unit :=
  let* now := ask now_at in
  fun s =>
    match execute Autocommit (stmt_insert_lock resource_key (mkLockRow owner (to_rfc3339 now))) s with
    | (Ok _, s) => (Ok tt, s)
    | (Err (RegistrySql (ConstraintViolation _)), s) => (Err (ResourceLocked resource_key), s)
    | (Err e, s) => (Err e, s)
    end.

Definition release_resource_lock (resource_key owner : string) : Reg bool :=
  execute Autocommit (stmt_delete_lock resource_key owner).
End Operations.
