(* ===== verification/RegistrySamples.v ===== *)
(** A concrete machine for the registry: column texts that hold the values they
    were written from, a connection alone with no faults, and sample rows. *)

From Stdlib Require Import String Ascii ZArith List Bool.
From stdpp Require Import base option list strings gmap pretty.
From S2P Require Import Prelude Json Core Demo Proofs Registry RegistryStore.

Open Scope string_scope.
Open Scope cf_scope.

Inductive SampleText : Type :=
| TextScope (a : ScopeRefV1)
| TextResource (a : ResourceRefV1)
| TextObservation (a : RegistryObservationV1)
| TextDesired (a : DesiredResourceV1)
| TextOwnership (a : OwnershipRecordV1)
| TextEvent (a : EventEnvelopeV1)
| TextJob (a : ReconciliationJobV1)
| TextCursor (a : EventCursorV1)
| TextOperation (a : OperationIndexRecordV1)
| TextProvider (a : InventoryProviderV1).

Definition injected {A} (inj : A -> SampleText) (proj : SampleText -> option A) : Codec SampleText A :=
  {| to_text a := Ok (inj a); of_text t := ok_or "invalid type" (proj t) |}.

#[export] Instance sample_scope_codec : Codec SampleText ScopeRefV1 :=
  injected TextScope (fun t => match t with TextScope a => Some a | _ => None end).
#[export] Instance sample_resource_codec : Codec SampleText ResourceRefV1 :=
  injected TextResource (fun t => match t with TextResource a => Some a | _ => None end).
#[export] Instance sample_observation_codec : Codec SampleText RegistryObservationV1 :=
  injected TextObservation (fun t => match t with TextObservation a => Some a | _ => None end).
#[export] Instance sample_desired_codec : Codec SampleText DesiredResourceV1 :=
  injected TextDesired (fun t => match t with TextDesired a => Some a | _ => None end).
#[export] Instance sample_ownership_codec : Codec SampleText OwnershipRecordV1 :=
  injected TextOwnership (fun t => match t with TextOwnership a => Some a | _ => None end).
#[export] Instance sample_event_codec : Codec SampleText EventEnvelopeV1 :=
  injected TextEvent (fun t => match t with TextEvent a => Some a | _ => None end).
#[export] Instance sample_job_codec : Codec SampleText ReconciliationJobV1 :=
  injected TextJob (fun t => match t with TextJob a => Some a | _ => None end).
#[export] Instance sample_cursor_codec : Codec SampleText EventCursorV1 :=
  injected TextCursor (fun t => match t with TextCursor a => Some a | _ => None end).
#[export] Instance sample_operation_codec : Codec SampleText OperationIndexRecordV1 :=
  injected TextOperation (fun t => match t with TextOperation a => Some a | _ => None end).
#[export] Instance sample_provider_codec : Codec SampleText InventoryProviderV1 :=
  injected TextProvider (fun t => match t with TextProvider a => Some a | _ => None end).

(** No faults; the call numbers serve as UUIDs and as seconds. *)
Definition alone : Environment SampleText := {|
  sql_fault := fun _ => None;
  meanwhile := fun _ d => d;
  uuid_at := fun n => pretty n;
  now_at := fun n => at_s (Z.of_nat n);
  integrity_at := fun _ => "ok";
  backup_at := fun _ => Ok "backup.sqlite3";
  to_rfc3339 := rfc3339;
|}.

(** The same, with the statement of call [k] failing. *)
Definition failing (k : nat) : Environment SampleText := {|
  sql_fault := fun n => if (n =? k)%nat then Some "disk I/O error" else None;
  meanwhile := fun _ d => d;
  uuid_at := fun n => pretty n;
  now_at := fun n => at_s (Z.of_nat n);
  integrity_at := fun _ => "ok";
  backup_at := fun _ => Ok "backup.sqlite3";
  to_rfc3339 := rfc3339;
|}.

Definition fresh : Connection SampleText := mkConnection (empty_db SampleText) 0.
Definition sample_record : ResourceRefV1 := resource_new sample_zone "dns_record" "r1".
Definition owned_by (owner : string) : OwnershipRecordV1 :=
  mkOwnershipRecordV1 1 sample_record owner "repository" "lane" "verifier" "path".
