(* ===== verification/RegistryProofs.v ===== *)
(** The registry database: what its calls can leave behind, whatever statement
    fails and whatever the other connections commit meanwhile. The reasoning
    rules, the statements every call is made of, the event ledger, ownership,
    locks, references between the tables and the rebuild. *)

From Stdlib Require Import String Ascii ZArith Lia List Bool.
From stdpp Require Import base option list strings gmap.
From S2P Require Import Prelude Strings Btree Json Core Demo Proofs Registry Files RegistryStore.

Open Scope cf_scope.
Open Scope string_scope.
Open Scope cf_scope.

Create HintDb stays.

(** ** Calls in general *)

Section Calls.
Context {Text : Type} {rt : Runtime} {env : Environment Text}.
Context {c1 : Codec Text ScopeRefV1} {c2 : Codec Text ResourceRefV1}.
Context {c3 : Codec Text RegistryObservationV1} {c4 : Codec Text DesiredResourceV1}.
Context {c5 : Codec Text OwnershipRecordV1} {c6 : Codec Text EventEnvelopeV1}.
Context {c7 : Codec Text ReconciliationJobV1} {c8 : Codec Text EventCursorV1}.
Context {c9 : Codec Text OperationIndexRecordV1} {c10 : Codec Text InventoryProviderV1}.

(** A call on the registry, its answer dropped. *)
Inductive RegistryCall : Type :=
| CallIntegrityCheck
| CallAdoptScope (scope : ScopeRefV1)
| CallRemoveScope (scope : ScopeRefV1)
| CallListScopes
| CallUpsertResource (resource : ResourceRefV1) (origin : string)
| CallListResources (kind : option string)
| CallGetResource (key : string)
| CallRecordObservation (observation : RegistryObservationV1)
| CallObservationHistory (key : string)
| CallIngestEvent (event : EventEnvelopeV1)
| CallIngestEventBatch (events : list EventEnvelopeV1)
| CallEventHistory (limit : Z)
| CallEnqueueReconciliation (resource : ResourceRefV1)
| CallReconciliationJobs
| CallUpsertCursor (new : EventCursorV1)
| CallCursor (source_key : string)
| CallEventStatus
| CallUpsertDesiredResource (desired : DesiredResourceV1)
| CallUpsertOwnership (ownership : OwnershipRecordV1)
| CallListDesiredResources
| CallListOwnership
| CallUpsertOperation (operation : OperationIndexRecordV1)
| CallUpsertProvider (provider : InventoryProviderV1)
| CallRecordUnindexableEvidence (key reason : string)
| CallUnindexableEvidence
| CallMarkSyncComplete
| CallCoverage
| CallExport
| CallBackup
| CallRebuildProjection
| CallAcquireResourceLock (key owner : string)
| CallReleaseResourceLock (key owner : string).

Definition dropped {A} (m : ST (Connection Text) RegistryError A)
    : ST (Connection Text) RegistryError unit := let* _ := m in st_ret tt.

Definition perform (c : RegistryCall) : ST (Connection Text) RegistryError unit :=
  match c with
  | CallIntegrityCheck => dropped integrity_check
  | CallAdoptScope scope => adopt_scope scope
  | CallRemoveScope scope => dropped (remove_scope scope)
  | CallListScopes => dropped list_scopes
  | CallUpsertResource resource origin => upsert_resource resource origin
  | CallListResources kind => dropped (list_resources kind)
  | CallGetResource key => dropped (get_resource key)
  | CallRecordObservation observation => record_observation observation
  | CallObservationHistory key => dropped (observation_history key)
  | CallIngestEvent event => dropped (ingest_event event)
  | CallIngestEventBatch events => dropped (ingest_event_batch events)
  | CallEventHistory limit => dropped (event_history limit)
  | CallEnqueueReconciliation resource => dropped (enqueue_reconciliation resource)
  | CallReconciliationJobs => dropped reconciliation_jobs
  | CallUpsertCursor new => upsert_cursor new
  | CallCursor key => dropped (cursor key)
  | CallEventStatus => dropped event_status
  | CallUpsertDesiredResource desired => upsert_desired_resource desired
  | CallUpsertOwnership ownership => upsert_ownership ownership
  | CallListDesiredResources => dropped list_desired_resources
  | CallListOwnership => dropped list_ownership
  | CallUpsertOperation operation => upsert_operation operation
  | CallUpsertProvider provider => upsert_provider provider
  | CallRecordUnindexableEvidence key reason => record_unindexable_evidence key reason
  | CallUnindexableEvidence => dropped unindexable_evidence
  | CallMarkSyncComplete => mark_sync_complete
  | CallCoverage => dropped coverage
  | CallExport => dropped export
  | CallBackup => dropped backup
  | CallRebuildProjection => dropped rebuild_projection
  | CallAcquireResourceLock key owner => acquire_resource_lock key owner
  | CallReleaseResourceLock key owner => dropped (release_resource_lock key owner)
  end.

(** Calls one after another, whatever each answers. *)
Fixpoint perform_all (cs : list RegistryCall) (s : Connection Text) : Connection Text :=
  match cs with
  | [] => s
  | c :: cs => perform_all cs (perform c s).2
  end.

(** ** Reasoning *)

Abbreviation Reg := (ST (Connection Text) RegistryError).

(** [ends m Q d]: started on database [d] at any number of calls, [m] ends in a
    result and a database that satisfy [Q]. *)
Definition ends {A} (m : Reg A) (Q : result RegistryError A -> Db Text -> Prop) (d : Db Text) : Prop :=
  forall s, db s = d -> Q (m s).1 (db (m s).2).

(** What the other connections may do to the database between two statements. *)
Context (rely : Db Text -> Db Text -> Prop).
Context (Hrely : forall n d, rely d (meanwhile n d)).

Section Rules.
Context {A : Type}.
Implicit Types (Q : result RegistryError A -> Db Text -> Prop).

Lemma ends_mono (m : Reg A) Q Q' d : ends m Q d -> (forall r d', Q r d' -> Q' r d') -> ends m Q' d.
Proof. intros H HQ s Hs. by apply HQ, H. Qed.

Lemma ends_ret (a : A) Q d : Q (Ok a) d -> ends (st_ret a) Q d.
Proof. by intros H s <-. Qed.

Lemma ends_lift r Q d : Q r d -> ends (st_lift r) Q d.
Proof. by intros H s <-. Qed.

Lemma ends_ask (answer : nat -> A) Q d : (forall n, Q (Ok (answer n)) d) -> ends (ask answer) Q d.
Proof. intros H s <-. apply H. Qed.

Lemma ends_bind {B} (m : Reg B) (k : B -> Reg A) Q d :
  ends m (fun r d' => match r with Ok b => ends (k b) Q d' | Err e => Q (Err e) d' end) d ->
  ends (st_bind m k) Q d.
Proof.
  intros H s Hs. specialize (H s Hs). unfold st_bind. destruct (m s) as [[b|e] s']; cbn in *.
  - by apply H.
  - done.
Qed.

Lemma ends_execute mode statement Q d :
  (forall d1, (match mode with Autocommit => rely d d1 | InTransaction => d1 = d end) ->
     (forall e, Q (Err (RegistrySql e)) d1) /\
     (forall a d2, statement d1 = Ok (a, d2) -> Q (Ok a) d2)) ->
  ends (execute mode statement) Q d.
Proof.
  intros H s Hs. unfold execute.
  destruct (H (current mode s)) as [He Ho]; [destruct mode; cbn; subst; auto|].
  destruct (sql_fault (calls s)); cbn; [apply He|].
  destruct (statement (current mode s)) as [[a d2]|e] eqn:E; cbn; [by apply Ho|apply He].
Qed.

End Rules.

(** A failed transaction leaves the database it began with. *)
Lemma ends_transaction {A} (body : Reg A) (Q : result RegistryError A -> Db Text -> Prop) d :
  (forall d1, rely d d1 ->
     (forall e, Q (Err e) d1) /\
     ends body (fun r d2 => match r with Ok a => Q (Ok a) d2 | Err _ => True end) d1) ->
  ends (transaction body) Q d.
Proof.
  intros H. apply ends_bind, ends_execute. intros d1 Hd1. destruct (H d1 Hd1) as [He Hb].
  split; [auto|]. intros a d2 [= <- <-] s Hs. specialize (Hb s Hs).
  assert (ends (st_bind (execute InTransaction (stmt_select (fun _ => tt))) (fun _ => st_ret tt))
            (fun r d' => r = Ok tt -> d' = db (body s).2) (db (body s).2)) as Hc.
  { apply ends_bind, ends_execute. intros ? ->. split; [done|].
    intros ? ? [= <- <-]. by apply ends_ret. }
  specialize (Hc (body s).2 eq_refl). revert Hb Hc. unfold st_on_err, st_bind, st_ret.
  destruct (body s) as [[a|e] s1]; cbn; [|by intros].
  destruct (execute InTransaction _ s1) as [[[]|e] s2]; cbn; intros Hb Hc; [|done].
  by rewrite Hc.
Qed.

Lemma ends_guard c e (Q : result RegistryError unit -> Db Text -> Prop) d :
  (c = true -> Q (Err e) d) -> (c = false -> Q (Ok tt) d) -> ends (st_guard c e) Q d.
Proof. unfold st_guard. destruct c; intros H1 H2; [by intros s <-; apply H1|by apply ends_ret, H2]. Qed.

Lemma ends_dropped {A} (m : Reg A) (Q : Db Text -> Prop) d :
  ends m (fun _ => Q) d -> ends (dropped m) (fun _ => Q) d.
Proof.
  intros H. apply ends_bind. eapply ends_mono; [apply H|]. intros [a|e] d' Hd'; [by apply ends_ret|done].
Qed.

(** ** What a statement of the calls can do *)

(** The rows of the jobs of an event, one for each resource, under fresh ids. *)
Inductive jobs_inserted (event : EventEnvelopeV1)
    : list ResourceRefV1 -> Db Text -> list ReconciliationJobV1 -> Db Text -> Prop :=
| jobs_inserted_nil d : jobs_inserted event [] d [] d
| jobs_inserted_cons resource resources job jobs json d d' d'' :
    job_resource job = resource ->
    job_event_dedupe_key job = Some (event_dedupe_key event) ->
    job_status job = event_reconciliation_status event ->
    to_text job = Ok json ->
    stmt_insert_job (job_id job)
      (mkJobRow (Some (resource_key (job_resource job))) (reconciliation_status (job_status job)) json)
      d = Ok (tt, d') ->
    jobs_inserted event resources d' jobs d'' ->
    jobs_inserted event (resource :: resources) d (job :: jobs) d''.

(** The row of an event. *)
Definition event_row (event : EventEnvelopeV1) (json : Text) : EventRow Text :=
  {| ev_received_at := to_rfc3339 (event_received_at event);
     ev_operation_id := event_operation_id event;
     ev_authority_id := event_authority_id event;
     ev_queue_id := upstream_queue_id (event_upstream event);
     ev_subscription_id := upstream_subscription_id (event_upstream event);
     ev_json := json |}.

(** The same upstream content, as far as the ledger compares it. *)
Definition same_receipt (a b : EventEnvelopeV1) : Prop :=
  event_upstream a = event_upstream b /\
  event_upstream_schema_version a = event_upstream_schema_version b /\
  event_payload_hash a = event_payload_hash b.

(** The stored jobs of a dedupe key, in the order of their ids. *)
Definition stored_jobs (d : Db Text) (key : string) : result RegistryError (list ReconciliationJobV1) :=
  let? jobs := collect decode (map (fun e => jb_json (snd e)) (rows (t_jobs d))) in
  Ok (List.filter (fun job => job_event_dedupe_key job =? Some key) jobs).

Definition ingest_result (event : EventEnvelopeV1) (disposition : EventIngestDispositionV1)
    (jobs : list ReconciliationJobV1) : EventIngestResultV1 :=
  {| ingest_schema_version := 1;
     ingest_dedupe_key := event_dedupe_key event;
     ingest_disposition := disposition;
     ingest_reconciliation_jobs := jobs;
     ingest_acknowledgement_permitted := true |}.

(** One event of a batch that commits: known already, or stored with its jobs. *)
Inductive ingested (event : EventEnvelopeV1) (d : Db Text) : EventIngestResultV1 -> Db Text -> Prop :=
| ingested_duplicate row existing jobs :
    t_events d !! event_dedupe_key event = Some row ->
    of_text (ev_json row) = Ok existing ->
    same_receipt existing event ->
    stored_jobs d (event_dedupe_key event) = Ok jobs ->
    ingested event d (ingest_result event Duplicate jobs) d
| ingested_new json jobs d' :
    t_events d !! event_dedupe_key event = None ->
    to_text event = Ok json ->
    jobs_inserted event (event_resource_refs event)
      (set_events (<[event_dedupe_key event := event_row event json]> (t_events d)) d) jobs d' ->
    ingested event d (ingest_result event Recorded jobs) d'.

Inductive ingested_all
    : list EventEnvelopeV1 -> Db Text -> list EventIngestResultV1 -> Db Text -> Prop :=
| ingested_all_nil d : ingested_all [] d [] d
| ingested_all_cons event events result results d d' d'' :
    ingested event d result d' ->
    ingested_all events d' results d'' ->
    ingested_all (event :: events) d (result :: results) d''.

(** The database after a rebuild. *)
Definition rebuilt (d : Db Text) : Db Text :=
  let d := set_resources (filter (fun e => is_Some (t_desired d !! fst e)) (t_resources d)) d in
  set_metadata (delete "last_sync_at" (t_metadata d))
    (set_operations ∅ (set_providers ∅ (set_locks ∅ (set_observations [] d)))).

(** Events and jobs are all an ingested batch changes. *)
Lemma jobs_inserted_shape event resources d jobs d' :
  jobs_inserted event resources d jobs d' -> exists t, d' = set_jobs t d.
Proof.
  induction 1 as [d|? ? ? ? ? d d' d'' _ _ _ _ E _ [t ->]]; [by exists (t_jobs d); destruct d|].
  revert E. unfold stmt_insert_job. case_match; [done|]. intros [= <-]. by exists t.
Qed.

Lemma ingested_all_shape events d results d' :
  ingested_all events d results d' -> exists e t, d' = set_events e (set_jobs t d).
Proof.
  induction 1 as [d|? ? ? ? d d1 d2 Hi _ (e & t & ->)]; [by exists (t_events d), (t_jobs d); destruct d|].
  destruct Hi as [|? ? ? _ _ Hi]; [by exists e, t|].
  apply jobs_inserted_shape in Hi as [t' ->]. by exists e, t.
Qed.

Lemma ends_encode {A} {c : Codec Text A} (a : A) (Q : result RegistryError Text -> Db Text -> Prop) d :
  (forall e, Q (Err e) d) -> (forall json, to_text a = Ok json -> Q (Ok json) d) ->
  ends (encode a) Q d.
Proof.
  intros He Ho. apply ends_lift. destruct (to_text a) eqn:E; [by apply Ho|apply He].
Qed.

(** [m] either fails, or ends as [P] says. *)
Abbreviation succeeds m P d :=
  (ends m (fun r d' => match r with Ok a => P a d' | Err _ => True end) d).

Lemma ends_insert_event_jobs event resources d :
  succeeds (insert_event_jobs event resources) (fun jobs d' => jobs_inserted event resources d jobs d') d.
Proof.
  revert d; induction resources as [|resource resources IH]; intros d; cbn.
  { apply ends_ret. constructor. }
  apply ends_bind, ends_bind, ends_ask. intros now. apply ends_bind, ends_ask. intros id.
  apply ends_ret. set (job := job_of_event event _).
  apply ends_bind, ends_bind, ends_encode; [done|]. intros json Hj.
  apply ends_execute. intros ? ->. split; [done|]. intros [] d' Hd'.
  apply ends_bind. eapply ends_mono; [apply IH|]. intros [jobs|e] d'' H; [|done].
  apply ends_ret. by eapply jobs_inserted_cons.
Qed.

Lemma ends_ingest_event event d :
  succeeds (ingest_event_in_transaction event) (ingested event d) d.
Proof.
  apply ends_bind, ends_bind, ends_execute. intros ? ->. split; [done|]. intros ? ? [= <- <-].
  apply ends_lift. destruct (t_events d !! event_dedupe_key event) as [row|] eqn:E; cbn.
  - unfold decode. destruct (of_text (ev_json row)) as [existing|] eqn:Ex; cbn; [|done].
    apply ends_bind, ends_guard; [done|]. intros [[H1 H2]%orb_false_iff H3]%orb_false_iff.
    rewrite neqb_false in H1. rewrite neqb_false in H2. rewrite neqb_false in H3. apply ends_bind, ends_bind, ends_bind, ends_execute. intros ? ->.
    split; [done|]. intros ? ? [= <- <-]. apply ends_lift.
    destruct (collect decode _) as [jobs|] eqn:Ej; [|done]. apply ends_ret, ends_ret.
    econstructor; [done..|]. unfold stored_jobs. by rewrite Ej.
  - apply ends_bind, ends_encode; [done|]. intros json Hj.
    apply ends_bind, ends_execute. intros ? ->. split; [done|]. intros [] d'.
    unfold stmt_insert_event. rewrite E. intros [= <-].
    apply ends_bind. eapply ends_mono; [apply ends_insert_event_jobs|]. intros [jobs|e] d' H; [|done].
    apply ends_ret. by econstructor.
Qed.

Lemma ends_ingest_events events d :
  succeeds (ingest_events_in_transaction events) (fun results d' => ingested_all events d results d') d.
Proof.
  revert d; induction events as [|event events IH]; intros d; cbn; [apply ends_ret; constructor|].
  apply ends_bind. eapply ends_mono; [apply ends_ingest_event|]. intros [result|e] d' H; [|done].
  apply ends_bind. eapply ends_mono; [apply IH|]. intros [results|e] d'' H'; [|done].
  apply ends_ret. by econstructor.
Qed.

Lemma collect_validated events l :
  collect event_validate events = Ok l -> Forall (fun e => event_validate e = Ok tt) events.
Proof.
  revert l; induction events as [|e events IH]; intros l; [constructor|]. cbn.
  destruct (event_validate e) as [[]|] eqn:E; cbn; [|done].
  destruct (collect _ events) eqn:Ec; cbn; [|done]. intros _. by econstructor; [|eapply IH].
Qed.

(** A batch takes effect whole, or not at all. *)
Lemma ends_ingest_batch events d :
  ends (ingest_event_batch events)
    (fun r d' => match r with
                 | Ok results => events <> [] /\ Forall (fun e => event_validate e = Ok tt) events /\
                     exists d1, rely d d1 /\ ingested_all events d1 results d'
                 | Err _ => d' = d \/ rely d d'
                 end) d.
Proof.
  apply ends_bind, ends_guard; [by left|]. intros Hne. apply ends_bind, ends_lift.
  destruct (collect event_validate events) as [l|] eqn:Ev; cbn; [|by left].
  apply ends_transaction. intros d1 Hd1. split; [by right|].
  eapply ends_mono; [apply ends_ingest_events|]. intros [results|e] d' H; [|done].
  split; [by intros ->|]. split; [by eapply collect_validated|]. by exists d1.
Qed.

Lemma ends_rebuild d :
  ends rebuild_projection
    (fun r d' => d' = d \/ rely d d' \/ exists d1 d2, rely d d1 /\ d2 = rebuilt d1 /\ (d' = d2 \/ rely d2 d')) d.
Proof.
  apply ends_bind, ends_bind, ends_ask. intros n. apply ends_lift.
  destruct (backup_at n) as [path|e]; [|by left]. apply ends_bind, ends_transaction. intros d1 Hd1.
  split; [by right; left|].
  do 4 (apply ends_bind, ends_execute; intros ? ->; split; [done|]; intros ? ? [= <- <-]).
  apply ends_bind, ends_execute; intros ? ->; split; [done|]. intros [] d2.
  unfold stmt_delete_undesired_resources. cbn. intros [= <-].
  apply ends_execute; intros ? ->; split; [done|]. intros ? ? [= <- <-].
  change (ends (st_bind integrity_check (fun _ => st_ret path))
    (fun _ d' => d' = d \/ rely d d' \/ exists d1 d2, rely d d1 /\ d2 = rebuilt d1 /\ (d' = d2 \/ rely d2 d'))
    (rebuilt d1)).
  assert (Hfin : forall d', d' = rebuilt d1 \/ rely (rebuilt d1) d' ->
    d' = d \/ rely d d' \/ exists d1 d2, rely d d1 /\ d2 = rebuilt d1 /\ (d' = d2 \/ rely d2 d')) by eauto 8.
  apply ends_bind, ends_bind, ends_execute. intros d2 Hd2. split; [auto|]. intros ? ? [= <- <-].
  apply ends_bind, ends_ask. intros k. apply ends_bind, ends_guard; [auto|]. intros _.
  apply ends_ret, ends_ret. auto.
Qed.

(** ** Invariants *)

(** [I] is kept by whatever the other connections do, and by each change a call
    can make. *)
Record kept (I : Db Text -> Prop) : Prop := mkKept {
  kept_rely d d' : rely d d' -> I d -> I d';
  kept_scope key row d d' : stmt_upsert_scope key row d = Ok (tt, d') -> I d -> I d';
  kept_unscope key b d d' : stmt_delete_scope key d = Ok (b, d') -> I d -> I d';
  kept_resource replace key row d d' :
    stmt_upsert_resource replace key row d = Ok (tt, d') -> I d -> I d';
  kept_observation key at1 until hash status json d d' :
    stmt_insert_observation key at1 until hash status json d = Ok (tt, d') -> I d -> I d';
  kept_events events results d d' :
    Forall (fun e => event_validate e = Ok tt) events ->
    ingested_all events d results d' -> I d -> I d';
  kept_job job json d d' :
    job_event_dedupe_key job = None -> to_text job = Ok json ->
    stmt_insert_job (job_id job)
      (mkJobRow (Some (resource_key (job_resource job))) (reconciliation_status (job_status job)) json)
      d = Ok (tt, d') -> I d -> I d';
  kept_cursor key row d : I d -> I (set_cursors (<[key := row]> (t_cursors d)) d);
  kept_desired key row d d' : stmt_upsert_desired key row d = Ok (tt, d') -> I d -> I d';
  kept_ownership key row d d' :
    (forall existing, t_ownership d !! key = Some existing -> ow_owner existing = ow_owner row) ->
    rely d d' -> I d -> I (set_ownership (<[key := row]> (t_ownership d')) d');
  kept_operation key row d : I d -> I (set_operations (<[key := row]> (t_operations d)) d);
  kept_provider key row d : I d -> I (set_providers (<[key := row]> (t_providers d)) d);
  kept_unindexable key row d : I d -> I (set_unindexable (<[key := row]> (t_unindexable d)) d);
  kept_metadata key value d : I d -> I (set_metadata (<[key := value]> (t_metadata d)) d);
}.

#[local] Ltac kept_by K :=
  first [ eapply (kept_scope _ K); eassumption | eapply (kept_unscope _ K); eassumption
        | eapply (kept_resource _ K); eassumption | eapply (kept_observation _ K); eassumption
        | eapply (kept_desired _ K); eassumption | apply (kept_cursor _ K); assumption
        | apply (kept_operation _ K); assumption | apply (kept_provider _ K); assumption
        | apply (kept_unindexable _ K); assumption | apply (kept_metadata _ K); assumption ].

Section Stays.
Context (I : Db Text -> Prop) (K : kept I).

Definition stays {A} (m : Reg A) : Prop := forall d, I d -> ends m (fun _ => I) d.

Lemma stays_ret {A} (a : A) : stays (st_ret a).
Proof. intros d Hd. by apply ends_ret. Qed.
Lemma stays_lift {A} (r : result RegistryError A) : stays (st_lift r).
Proof. intros d Hd. by apply ends_lift. Qed.
Lemma stays_ask {A} (answer : nat -> A) : stays (ask answer).
Proof. intros d Hd. by apply ends_ask. Qed.
Lemma stays_guard c e : stays (st_guard c e).
Proof. intros d Hd. by apply ends_guard. Qed.

Lemma stays_bind {A B} (m : Reg A) (k : A -> Reg B) :
  stays m -> (forall a, stays (k a)) -> stays (st_bind m k).
Proof.
  intros Hm Hk d Hd. apply ends_bind. eapply ends_mono; [by apply Hm|].
  intros [a|e] d' Hd'; [by apply Hk|done].
Qed.

Lemma stays_execute {A} mode (statement : Db Text -> result SqlError (A * Db Text)) :
  (forall d a d', statement d = Ok (a, d') -> I d -> I d') -> stays (execute mode statement).
Proof.
  intros H d Hd. apply ends_execute. intros d1 Hd1.
  assert (Hd1' : I d1) by (destruct mode; [by eapply (kept_rely I K)|by subst]).
  split; [done|]. intros a d2 E. by eapply H.
Qed.

Lemma stays_select {A} mode (f : Db Text -> A) : stays (execute mode (stmt_select f)).
Proof. apply stays_execute. by intros d a d' [= <- <-]. Qed.

Lemma stays_set mode (f : Db Text -> Db Text) :
  (forall d, I d -> I (f d)) -> stays (execute mode (stmt_set f)).
Proof. intros H. apply stays_execute. intros d a d' [= <- <-]. apply H. Qed.

Lemma stays_transaction {A} (body : Reg A) : stays body -> stays (transaction body).
Proof.
  intros H d Hd. apply ends_transaction. intros d1 Hd1.
  assert (I d1) by (by eapply (kept_rely I K)). split; [done|].
  eapply ends_mono; [by apply H|]. by intros [].
Qed.

Lemma stays_match {A B} (o : option A) (f : A -> Reg B) (m : Reg B) :
  (forall a, stays (f a)) -> stays m -> stays match o with Some a => f a | None => m end.
Proof. by destruct o. Qed.

Hint Resolve stays_ret stays_lift stays_ask stays_guard stays_select stays_transaction : stays.
Hint Extern 2 (stays (st_bind _ _)) => apply stays_bind; [|intros ?] : stays.
Hint Extern 2 (stays (execute _ (stmt_set _))) => apply stays_set; intros ? ? : stays.
Hint Extern 3 (stays (execute _ _)) => apply stays_execute; intros ? [] ? ? ? : stays.
Hint Extern 2 (I _) => kept_by K : stays.

Lemma stays_rows {A} {c : Codec Text A} mode (f : Db Text -> list Text) :
  stays (query_json_rows (A := A) mode f).
Proof. unfold query_json_rows. auto with stays. Qed.
Lemma stays_optional {A} {c : Codec Text A} mode (f : Db Text -> option Text) :
  stays (query_optional_json (A := A) mode f).
Proof. unfold query_optional_json. auto with stays. Qed.
Lemma stays_count f : stays (count f).
Proof. unfold count. auto with stays. Qed.
Lemma stays_encode {A} {c : Codec Text A} (a : A) : stays (encode a).
Proof. unfold encode. auto with stays. Qed.
Lemma stays_dropped {A} (m : Reg A) : stays m -> stays (dropped m).
Proof. unfold dropped. auto with stays. Qed.
Hint Resolve stays_rows stays_optional stays_count stays_encode stays_dropped : stays.

Fixpoint stays_upsert_scope (scope : ScopeRefV1) : stays (upsert_scope scope).
Proof.
  destruct scope as [v k i [parent|]]; cbn [upsert_scope scope_parent].
  - apply stays_bind; [apply stays_upsert_scope|]. auto with stays.
  - auto 6 with stays.
Qed.
Hint Resolve stays_upsert_scope : stays.

(** Stored state: scopes, resources, observations and desired state. *)
Lemma stays_upsert_resource r origin : stays (upsert_resource r origin).
Proof. unfold upsert_resource. auto 8 with stays. Qed.
Lemma stays_record_observation o : stays (record_observation o).
Proof. unfold record_observation. auto 12 with stays. Qed.
Lemma stays_upsert_desired desired : stays (upsert_desired_resource desired).
Proof.
  unfold upsert_desired_resource, select_owner, refuse_other_owner.
  apply stays_transaction, stays_bind; [auto with stays|]. intros _.
  apply stays_bind; [auto with stays|]. intros existing.
  apply stays_bind; [destruct existing; auto with stays|]. auto 8 with stays.
Qed.
Lemma stays_upsert_ownership ownership : stays (upsert_ownership ownership).
Proof.
  intros d Hd. apply ends_bind, ends_execute. intros d1 H1.
  assert (I d1) by (by eapply (kept_rely I K)). split; [done|]. intros ? ? [= <- <-].
  apply ends_bind. set (key := resource_key _).
  assert (Hend : (forall existing, t_ownership d1 !! key = Some existing ->
                    ow_owner existing = ownership_owner ownership) ->
    ends (let* json := encode ownership in
          execute Autocommit (stmt_set (fun d =>
            set_ownership (<[key := mkOwnershipRow (ownership_owner ownership) json]> (t_ownership d)) d)))
      (fun _ => I) d1).
  { intros Ho. apply ends_bind, ends_encode; [done|]. intros json _. apply ends_execute.
    intros d2 H2. split; [by intros; eapply (kept_rely I K)|]. intros ? ? [= <- <-].
    by apply (kept_ownership I K) with d1. }
  unfold refuse_other_owner. destruct (t_ownership d1 !! key) as [row|] eqn:E; cbn.
  - apply ends_guard; [done|]. rewrite neqb_false. intros Ho. apply Hend. by intros ? [= <-].
  - apply ends_ret. by apply Hend.
Qed.

(** Events and jobs. *)
Lemma stays_ingest_batch events : stays (ingest_event_batch events).
Proof.
  intros d Hd. eapply ends_mono; [apply ends_ingest_batch|]. cbn. intros [results|e] d'.
  - intros (_ & Hv & d1 & H1 & H). eapply (kept_events I K); [done..|]. by eapply (kept_rely I K).
  - intros [->|H]; [done|]. by eapply (kept_rely I K).
Qed.
Lemma stays_ingest event : stays (ingest_event event).
Proof. unfold ingest_event. apply stays_bind; [apply stays_ingest_batch|auto with stays]. Qed.
Lemma stays_enqueue resource : stays (enqueue_reconciliation resource).
Proof.
  intros d Hd. apply ends_bind, ends_bind, ends_ask. intros now. apply ends_bind, ends_ask. intros id.
  apply ends_ret, ends_bind, ends_transaction. intros d1 H1.
  assert (I d1) by (by eapply (kept_rely I K)). split; [done|].
  apply ends_bind, ends_encode; [done|]. intros json Hj. apply ends_execute. intros ? ->.
  split; [done|]. intros [] d2 E. apply ends_ret. by apply (kept_job I K (job_queued (fun _ => now_at now) (uuid_at id) resource None) json d1).
Qed.
Hint Resolve stays_upsert_resource stays_record_observation stays_upsert_desired
  stays_upsert_ownership stays_ingest_batch stays_ingest stays_enqueue : stays.

Lemma stays_coverage : stays coverage.
Proof. unfold coverage. auto 30 with stays. Qed.
Hint Resolve stays_coverage : stays.

(** The calls that take locks, release them or rebuild. *)
Definition special (c : RegistryCall) : Prop :=
  match c with
  | CallRebuildProjection | CallAcquireResourceLock _ _ | CallReleaseResourceLock _ _ => True
  | _ => False
  end.

Lemma stays_ordinary c : ~ special c -> stays (perform c).
Proof.
  destruct c; intros Hc; try (by destruct Hc); cbn [perform]; auto with stays.
  all: unfold export, integrity_check, adopt_scope, remove_scope, list_scopes, list_resources,
    get_resource, observation_history, event_history, reconciliation_jobs, upsert_cursor, cursor,
    event_status, list_desired_resources, list_ownership, upsert_operation, upsert_provider,
    record_unindexable_evidence, unindexable_evidence, mark_sync_complete, write_metadata,
    backup; auto 30 with stays.
Qed.

Lemma stays_acquire key owner :
  (forall row d d', stmt_insert_lock key row d = Ok (tt, d') -> I d -> I d') ->
  stays (acquire_resource_lock key owner).
Proof.
  intros Hi d Hd. apply ends_bind, ends_ask. intros now s Hs.
  assert (H : stays (execute Autocommit (stmt_insert_lock key (mkLockRow owner (to_rfc3339 (now_at now)))))).
  { apply stays_execute. intros ? [] ?. apply Hi. }
  specialize (H d Hd s Hs). destruct (execute _ _ s) as [[[]|[| [] | | | | | | |]] s']; exact H.
Qed.

Lemma stays_release key owner :
  (forall b d d', stmt_delete_lock key owner d = Ok (b, d') -> I d -> I d') ->
  stays (release_resource_lock key owner).
Proof. intros H. apply stays_execute. intros ? ? ?. apply H. Qed.

Lemma stays_rebuild : (forall d, I d -> I (rebuilt d)) -> stays rebuild_projection.
Proof.
  intros H d Hd. eapply ends_mono; [apply ends_rebuild|]. cbn.
  intros _ d' [->|[Hr|(d1 & d2 & H1 & -> & H2)]]; [done|by eapply (kept_rely I K)|].
  assert (I (rebuilt d1)) by (by eapply H, (kept_rely I K)).
  destruct H2 as [->|H2]; [done|]. by eapply (kept_rely I K).
Qed.

(** An invariant that does not look at the locks, kept by a rebuild. *)
Lemma stays_perform c :
  (forall t d, I d -> I (set_locks t d)) -> (forall d, I d -> I (rebuilt d)) -> stays (perform c).
Proof.
  intros Hl Hr. destruct c; try (apply stays_ordinary; tauto); cbn [perform].
  - by apply stays_dropped, stays_rebuild.
  - apply stays_acquire. intros row d d'. unfold stmt_insert_lock.
    destruct (t_locks d !! key); [done|]. intros [= <-]. apply Hl.
  - apply stays_dropped, stays_release. intros b d d'. unfold stmt_delete_lock.
    destruct (t_locks d !! key) as [row|]; [|by intros [= <- <-]].
    destruct (_ =? _); intros [= <- <-]; auto.
Qed.

Lemma perform_all_stays cs s :
  Forall (fun c => stays (perform c)) cs -> I (db s) -> I (db (perform_all cs s)).
Proof. intros H; revert s; induction H as [|c cs Hc _ IH]; intros s Hs; [done|]. cbn. apply IH. by apply (Hc (db s)). Qed.
End Stays.
End Calls.

(** ** Runs without faults *)

Lemma runs_bind {S E A B} (m : ST S E A) (k : A -> ST S E B) s a s1 r :
  m s = (Ok a, s1) -> k a s1 = r -> st_bind m k s = r.
Proof. intros Hm <-. unfold st_bind. by rewrite Hm. Qed.

Section Quiet.
Context {Text : Type} {env : Environment Text}.
Context (Hfault : forall n, sql_fault n = None) (Halone : forall n (d : Db Text), meanwhile n d = d).

Lemma runs_execute {A} mode (statement : Db Text -> result SqlError (A * Db Text)) s a d :
  statement (db s) = Ok (a, d) -> execute mode statement s = (Ok a, mkConnection d (S (calls s))).
Proof.
  intros E. unfold execute. rewrite Hfault.
  replace (current mode s) with (db s) by (destruct mode; cbn; by rewrite ?Halone). by rewrite E.
Qed.

Lemma runs_transaction {A} (body : ST (Connection Text) RegistryError A) s a s1 :
  body (mkConnection (db s) (S (calls s))) = (Ok a, s1) ->
  transaction body s = (Ok a, mkConnection (db s1) (S (calls s1))).
Proof.
  intros Hb. eapply runs_bind; [by apply runs_execute|]. unfold st_on_err.
  rewrite (runs_bind _ _ _ _ _ (Ok a, mkConnection (db s1) (S (calls s1))) Hb); [done|].
  by eapply runs_bind; [by apply runs_execute|].
Qed.
End Quiet.
