(* ===== verification/RegistryLedger.v ===== *)
(** What the registry keeps: the event ledger and its jobs, references between
    the tables, owners, locks, and what a rebuild preserves. *)

From Stdlib Require Import String Ascii ZArith Lia List Bool.
From stdpp Require Import base option list strings gmap.
From S2P Require Import Prelude Strings Btree Json Core Demo Proofs Registry Files RegistryStore.
From S2P Require Import RegistrySamples RegistryProofs.

Open Scope cf_scope.
Open Scope string_scope.
Open Scope cf_scope.

Lemma insert_ordered_perm {A} (lt : A -> A -> bool) x l : insert_ordered lt x l ≡ₚ x :: l.
Proof.
  induction l as [|y l IH]; [done|]. cbn. destruct (lt y x); [|done].
  rewrite IH. apply Permutation_swap.
Qed.

Lemma order_by_perm {A} (lt : A -> A -> bool) l : order_by lt l ≡ₚ l.
Proof. induction l as [|x l IH]; [done|]. cbn. by rewrite insert_ordered_perm, IH. Qed.

Section Ledger.
Context {Text : Type} {rt : Runtime} {env : Environment Text}.
Context {c1 : Codec Text ScopeRefV1} {c2 : Codec Text ResourceRefV1}.
Context {c3 : Codec Text RegistryObservationV1} {c4 : Codec Text DesiredResourceV1}.
Context {c5 : Codec Text OwnershipRecordV1} {c6 : Codec Text EventEnvelopeV1}.
Context {c7 : Codec Text ReconciliationJobV1} {c8 : Codec Text EventCursorV1}.
Context {c9 : Codec Text OperationIndexRecordV1} {c10 : Codec Text InventoryProviderV1}.

(** ** The event ledger *)

(** What of an event the ledger compares and acts on. *)
Definition receipt_of (e : EventEnvelopeV1) :=
  (event_dedupe_key e, event_upstream e, event_upstream_schema_version e, event_payload_hash e,
   event_resource_refs e).
Definition same_stored (a b : EventEnvelopeV1) : Prop := receipt_of a = receipt_of b.

(** The jobs stored for a dedupe key. *)
Definition job_for (key : string) (e : string * JobRow Text) : option ReconciliationJobV1 :=
  match of_text (jb_json (snd e)) with
  | Ok job => if job_event_dedupe_key job =? Some key then Some job else None
  | Err _ => None
  end.
Definition jobs_of (d : Db Text) (key : string) : list ReconciliationJobV1 :=
  omap (job_for key) (map_to_list (t_jobs d)).

(** The event stored under a dedupe key. *)
Definition event_at (d : Db Text) (key : string) : option EventEnvelopeV1 :=
  match t_events d !! key with Some row => ok_opt (of_text (ev_json row)) | None => None end.

(** The row of a job is the job's. *)
Definition job_rows_ok (d : Db Text) : Prop := forall id row, t_jobs d !! id = Some row ->
  exists job, of_text (jb_json row) = Ok job /\ job_id job = id /\
    jb_status row = reconciliation_status (job_status job) /\
    jb_resource_key row = Some (resource_key (job_resource job)).

(** Every stored event reads back under its own key, with one job for each
    resource it names and no other; a job that names an event has one; and the
    row of a job is the job's. *)
Record ledger_ok (d : Db Text) : Prop := mkLedgerOk {
  ledger_event key row : t_events d !! key = Some row ->
    exists e, event_at d key = Some e /\ event_dedupe_key e = key /\
      map job_resource (jobs_of d key) ≡ₚ event_resource_refs e;
  ledger_no_event key : t_events d !! key = None -> jobs_of d key = [];
  ledger_job : job_rows_ok d;
}.

Context (Hjob : ReadsBack Text ReconciliationJobV1 eq).
Context (Hevent : ReadsBack Text EventEnvelopeV1 same_stored).

Lemma job_reads_back (job : ReconciliationJobV1) json : to_text job = Ok json -> of_text json = Ok job.
Proof. intros H. by destruct (Hjob job json H) as (? & ? & <-). Qed.

Lemma jobs_of_insert (d : Db Text) id row job key :
  t_jobs d !! id = None -> of_text (jb_json row) = Ok job ->
  jobs_of (set_jobs (<[id := row]> (t_jobs d)) d) key ≡ₚ
    (if job_event_dedupe_key job =? Some key then [job] else []) ++ jobs_of d key.
Proof.
  intros Hn Ht. unfold jobs_of. cbn [t_jobs set_jobs].
  rewrite map_to_list_insert by done. cbn. unfold job_for at 1. cbn. rewrite Ht.
  by destruct (_ =? _).
Qed.

(** What inserted jobs leave. *)
Record jobs_added (d d' : Db Text) (jobs : list ReconciliationJobV1) : Prop := mkJobsAdded {
  added_events : t_events d' = t_events d;
  added_jobs : t_jobs d ⊆ t_jobs d';
  added_of key : jobs_of d' key ≡ₚ
    List.filter (fun job => job_event_dedupe_key job =? Some key) jobs ++ jobs_of d key;
  added_rows : job_rows_ok d -> job_rows_ok d';
  added_rest : exists t, d' = set_jobs t d;
}.

Lemma insert_job_added (d d' : Db Text) (job : ReconciliationJobV1) json (H : to_text job = Ok json) :
  stmt_insert_job (job_id job)
    (mkJobRow (Some (resource_key (job_resource job))) (reconciliation_status (job_status job)) json)
    d = Ok (tt, d') -> jobs_added d d' [job].
Proof.
  unfold stmt_insert_job. destruct (t_jobs d !! job_id job) as [|] eqn:E; [done|]. intros [= <-].
  split; [done|by apply insert_subseteq|..|by eexists].
  - intros key. rewrite (jobs_of_insert _ _ _ job) by (done || by apply job_reads_back).
    cbn. by destruct (_ =? _).
  - intros Hl id row. cbn. destruct (decide (id = job_id job)) as [->|Hne].
    + rewrite lookup_insert_eq. intros [= <-]. exists job. cbn. split; [by apply job_reads_back|done].
    + rewrite lookup_insert_ne by done. apply Hl.
Qed.

Lemma jobs_added_trans d d' d'' js js' :
  jobs_added d d' js -> jobs_added d' d'' js' -> jobs_added d d'' (js ++ js').
Proof.
  intros [E1 S1 O1 R1 [t1 ->]] [E2 S2 O2 R2 [t2 ->]]. split; [congruence|by trans (t_jobs (set_jobs t1 d))|..].
  - intros key. rewrite O2, O1, List.filter_app, !app_assoc. f_equiv. apply Permutation_app_comm.
  - auto.
  - by exists t2.
Qed.

Lemma jobs_inserted_added event resources d jobs d' :
  jobs_inserted event resources d jobs d' ->
  jobs_added d d' jobs /\ map job_resource jobs = resources /\
  Forall (fun job => job_event_dedupe_key job = Some (event_dedupe_key event) /\
                     job_status job = event_reconciliation_status event) jobs.
Proof.
  induction 1 as [d|resource resources job jobs json d d' d'' Hr Hk Hs Ht Hi _ (IH & IHr & IHk)].
  - split; [|done]. split; try done. by exists (t_jobs d); destruct d.
  - split; [|by split; [cbn; congruence|constructor]].
    by apply (jobs_added_trans d d' d'' [job]); [eapply insert_job_added|].
Qed.

Lemma same_stored_key a b : same_stored a b -> event_dedupe_key a = event_dedupe_key b.
Proof. by intros [= ? ? ? ? ?]. Qed.
Lemma same_stored_refs a b : same_stored a b -> event_resource_refs a = event_resource_refs b.
Proof. by intros [= ? ? ? ? ?]. Qed.
Lemma same_stored_receipt a b : same_stored a b -> same_receipt a b.
Proof. by intros [= ? ? ? ? ?]. Qed.

Lemma filter_all {A} (p : A -> bool) l : Forall (fun x => p x = true) l -> List.filter p l = l.
Proof. induction 1 as [|x l Hx _ IH]; [done|]. cbn. by rewrite Hx, IH. Qed.
Lemma filter_none {A} (p : A -> bool) l : Forall (fun x => p x = false) l -> List.filter p l = [].
Proof. induction 1 as [|x l Hx _ IH]; [done|]. cbn. by rewrite Hx, IH. Qed.

Lemma filter_of_event (event : EventEnvelopeV1) jobs key :
  Forall (fun job => job_event_dedupe_key job = Some (event_dedupe_key event) /\
                     job_status job = event_reconciliation_status event) jobs ->
  List.filter (fun job => job_event_dedupe_key job =? Some key) jobs =
    if event_dedupe_key event =? key then jobs else [].
Proof.
  intros H. destruct (event_dedupe_key event =? key) eqn:E.
  - apply filter_all. apply eqb_eq in E as <-. eapply Forall_impl; [done|].
    intros job [-> _]. apply eqb_refl.
  - apply filter_none. eapply Forall_impl; [done|]. intros job [-> _].
    rewrite eqb_false in E. rewrite eqb_false. congruence.
Qed.

(** What the stored jobs of a key read back as. *)
Lemma stored_jobs_of (d : Db Text) key jobs : stored_jobs d key = Ok jobs -> jobs ≡ₚ jobs_of d key.
Proof.
  unfold stored_jobs, jobs_of. rewrite <- (order_by_perm (fun a b => str_ltb (fst a) (fst b)) (map_to_list _)).
  unfold rows. generalize (order_by (fun a b => str_ltb (fst a) (fst b)) (map_to_list (t_jobs d))).
  intros l. revert jobs. induction l as [|[id row] l IH]; intros jobs; cbn.
  { by intros [= <-]. }
  unfold decode at 1, job_for at 1. cbn. destruct (of_text (jb_json row)) as [job|] eqn:Et; cbn; [|done].
  destruct (collect decode _) as [js|] eqn:Ec; cbn; [|done]. intros [= <-].
  destruct (job_event_dedupe_key job =? Some key).
  - by rewrite (IH _ eq_refl).
  - by apply IH.
Qed.

(** How a committed event shows in the database before and after. *)
Record accounted (d d' : Db Text) (event : EventEnvelopeV1) (result : EventIngestResultV1) : Prop :=
  mkAccounted {
  acc_ack : ingest_acknowledgement_permitted result = true;
  acc_key : ingest_dedupe_key result = event_dedupe_key event;
  acc_stored : exists stored, event_at d' (event_dedupe_key event) = Some stored /\
    same_receipt stored event /\
    map job_resource (ingest_reconciliation_jobs result) ≡ₚ event_resource_refs stored;
  acc_jobs : ingest_reconciliation_jobs result ≡ₚ jobs_of d' (event_dedupe_key event);
  acc_recorded : ingest_disposition result = Recorded ->
    t_events d !! event_dedupe_key event = None /\
    Forall (fun job => job_status job = event_reconciliation_status event)
      (ingest_reconciliation_jobs result) /\
    map job_resource (ingest_reconciliation_jobs result) = event_resource_refs event;
}.

(** What a commit adds. *)
Definition adds_to (d d' : Db Text) : Prop :=
  t_events d ⊆ t_events d' /\ t_jobs d ⊆ t_jobs d' /\
  (forall key, is_Some (t_events d !! key) -> jobs_of d' key ≡ₚ jobs_of d key) /\
  exists events jobs, d' = set_events events (set_jobs jobs d).

Lemma adds_to_refl d : adds_to d d.
Proof. split_and!; try done. exists (t_events d), (t_jobs d). by destruct d. Qed.

Lemma adds_to_trans d d' d'' : adds_to d d' -> adds_to d' d'' -> adds_to d d''.
Proof.
  intros (E1 & J1 & O1 & e1 & j1 & ->) (E2 & J2 & O2 & e2 & j2 & ->). split_and!.
  - by etrans.
  - by etrans.
  - intros key Hk. rewrite O2, O1; [done..|]. destruct Hk as [row Hk]. exists row.
    by eapply lookup_weaken.
  - by exists e2, j2.
Qed.

Lemma event_at_weaken d d' key e :
  t_events d ⊆ t_events d' -> event_at d key = Some e -> event_at d' key = Some e.
Proof.
  unfold event_at. intros Hs. destruct (t_events d !! key) eqn:E; [|done].
  by rewrite (lookup_weaken _ _ _ _ E Hs).
Qed.

Lemma event_at_row d key e : event_at d key = Some e -> is_Some (t_events d !! key).
Proof. unfold event_at. by destruct (t_events d !! key). Qed.

Lemma ingested_new_ok d d' event json jobs :
  ledger_ok d -> t_events d !! event_dedupe_key event = None -> to_text event = Ok json ->
  jobs_inserted event (event_resource_refs event)
    (set_events (<[event_dedupe_key event := event_row event json]> (t_events d)) d) jobs d' ->
  ledger_ok d' /\ adds_to d d' /\ accounted d d' event (ingest_result event Recorded jobs).
Proof.
  intros [Le Ln Lj] En Et Hi. set (key := event_dedupe_key event) in *.
  apply jobs_inserted_added in Hi as ([Ee Ej Eo Er [t Erest]] & Hrefs & Hall). cbn in Ee, Ej.
  assert (Ho : forall k, jobs_of d' k ≡ₚ (if key =? k then jobs else []) ++ jobs_of d k).
  { intros k. rewrite Eo. by rewrite (filter_of_event event) by done. }
  assert (Hkey : jobs_of d' key ≡ₚ jobs) by (rewrite Ho, eqb_refl, Ln, app_nil_r by done; done).
  assert (Hother : forall k, k <> key -> jobs_of d' k ≡ₚ jobs_of d k).
  { intros k Hk. rewrite Ho. replace (key =? k) with false by (symmetry; rewrite eqb_false; congruence). done. }
  destruct (Hevent event json Et) as (stored & Hs & Hsame).
  assert (Hat : event_at d' key = Some stored).
  { unfold event_at. rewrite Ee, lookup_insert_eq. cbn. by rewrite Hs. }
  assert (Hsub : t_events d ⊆ t_events d') by (rewrite Ee; by apply insert_subseteq).
  assert (Hjobs : map job_resource jobs = event_resource_refs stored).
  { by rewrite Hrefs, (same_stored_refs _ _ Hsame). }
  split_and!.
  - split.
    + intros k row. destruct (decide (k = key)) as [->|Hne].
      * intros _. exists stored. split; [done|]. split; [by rewrite <- (same_stored_key _ _ Hsame)|].
        by rewrite Hkey, Hjobs.
      * rewrite Ee, lookup_insert_ne by done. intros Hr. destruct (Le k row Hr) as (e & He & Hk & Hp).
        exists e. split; [by eapply event_at_weaken|]. split; [done|]. by rewrite Hother.
    + intros k. rewrite Ee, lookup_insert_None. intros [Hk Hne]. apply Permutation_nil_r.
      by rewrite Hother, Ln by congruence.
    + by apply Er.
  - split_and!; try done.
    + intros k [row Hk]. apply Hother. congruence.
    + rewrite Erest. by eexists _, t.
  - split; cbn; try done.
    + exists stored. split; [done|]. split; [|by rewrite Hjobs].
      by destruct (same_stored_receipt _ _ Hsame) as (? & ? & ?).
    + intros _. split; [done|]. split; [|done]. eapply Forall_impl; [done|]. by intros ? [].
Qed.

Lemma ingested_ok d d' event result :
  ledger_ok d -> ingested event d result d' ->
  ledger_ok d' /\ adds_to d d' /\ accounted d d' event result.
Proof.
  intros Hl [row existing jobs Hr Ht Hs Hj|json jobs d'' Hn Ht Hi]; [|by eapply ingested_new_ok].
  split; [done|]. split; [apply adds_to_refl|]. apply stored_jobs_of in Hj.
  destruct (ledger_event _ Hl _ _ Hr) as (e & He & Hk & Hp).
  assert (e = existing) as -> by (unfold event_at in He; rewrite Hr, Ht in He; by injection He).
  split; cbn; try done. exists existing. split; [done|]. split; [done|]. by rewrite Hj.
Qed.

Lemma accounted_adds d0 d d' d'' event result :
  adds_to d0 d -> accounted d d' event result -> adds_to d' d'' -> accounted d0 d'' event result.
Proof.
  intros (S0 & _) [A1 A2 (stored & At & A3 & A4) A5 A6] (S1 & _ & O1 & _).
  split; try done.
  - exists stored. split; [by eapply event_at_weaken|done].
  - rewrite A5, O1; [done|]. by eapply event_at_row.
  - intros Hr. destruct (A6 Hr) as (Hn & H). split; [|done].
    destruct (t_events d0 !! _) eqn:E; [|done]. by rewrite (lookup_weaken _ _ _ _ E S0) in Hn.
Qed.

Lemma ingested_all_ok events d results d' :
  ledger_ok d -> ingested_all events d results d' ->
  ledger_ok d' /\ adds_to d d' /\ Forall2 (accounted d d') events results.
Proof.
  intros Hl H. induction H as [d|event events result results d d1 d2 Hi _ IH].
  { split; [done|]. split; [apply adds_to_refl|constructor]. }
  destruct (ingested_ok _ _ _ _ Hl Hi) as (Hl1 & He1 & Ha1). destruct (IH Hl1) as (Hl2 & He2 & Ha2).
  split; [done|]. split; [by eapply adds_to_trans|]. constructor.
  - by eapply accounted_adds; [apply adds_to_refl|..].
  - eapply Forall2_impl; [done|]. intros e r Ha. eapply accounted_adds; [done..|apply adds_to_refl].
Qed.

(** The ledger looks at events and jobs only. *)
Lemma ledger_frame d d' :
  t_events d' = t_events d -> t_jobs d' = t_jobs d -> ledger_ok d -> ledger_ok d'.
Proof.
  intros He Hj [Le Ln Lj]. unfold event_at, jobs_of, job_rows_ok in *.
  split; unfold event_at, jobs_of, job_rows_ok; rewrite ?He, ?Hj; auto.
Qed.

Lemma ledger_job_added d d' job :
  job_event_dedupe_key job = None -> jobs_added d d' [job] -> ledger_ok d -> ledger_ok d'.
Proof.
  intros Hk [Ee Ej Eo Er _] [Le Ln Lj].
  assert (Ho : forall key, jobs_of d' key ≡ₚ jobs_of d key).
  { intros key. rewrite Eo. cbn. by rewrite Hk. }
  split; unfold event_at in *; rewrite ?Ee.
  - intros key row Hr. destruct (Le key row Hr) as (e & He & Hek & Hp).
    exists e. by rewrite Ho.
  - intros key Hn. apply Permutation_nil_r. by rewrite Ho, Ln.
  - by apply Er.
Qed.

Definition keeps_ledger (d d' : Db Text) : Prop := ledger_ok d -> ledger_ok d'.

#[local] Ltac framed :=
  match goal with H : ledger_ok ?d |- ledger_ok _ => apply (ledger_frame d); [reflexivity..|exact H] end.

Lemma kept_ledger : kept keeps_ledger ledger_ok.
Proof.
  split.
  - auto.
  - intros key row d d'. unfold stmt_upsert_scope. repeat case_match; intros; simplify_eq; framed.
  - intros key b d d'. unfold stmt_delete_scope. repeat case_match; intros; simplify_eq; framed.
  - intros replace key row d d'. unfold stmt_upsert_resource.
    repeat case_match; intros; simplify_eq; framed.
  - intros key at1 until hash status json d d'. unfold stmt_insert_observation.
    repeat case_match; intros; simplify_eq; framed.
  - intros events results d d' _ H Hl. by destruct (ingested_all_ok _ _ _ _ Hl H).
  - intros job json d d' Hk Ht Hi. eapply ledger_job_added; [done|]. by eapply insert_job_added.
  - intros key row d. intros; framed.
  - intros key row d d'. unfold stmt_upsert_desired. case_match; intros; simplify_eq; framed.
  - intros key row d d' _ Hr Hd. specialize (Hr Hd). framed.
  - intros key row d. intros; framed.
  - intros key row d. intros; framed.
  - intros key row d. intros; framed.
  - intros key value d. intros; framed.
Qed.

(** C34: whatever calls are made one after another, whichever statements fail and
    whatever consistent state the other connections leave in between, every
    stored event keeps one reconciliation job for each resource it names and no
    other, no job names an event that is not stored, and every job row agrees
    with the job it holds. *)
Theorem ledger_matches_events (Hothers : forall n d, ledger_ok d -> ledger_ok (meanwhile n d)) cs s :
  ledger_ok (db s) -> ledger_ok (db (perform_all cs s)).
Proof.
  apply (perform_all_stays ledger_ok), Forall_forall. intros c _.
  apply (stays_perform keeps_ledger Hothers ledger_ok kept_ledger).
  - intros t d. by apply ledger_frame.
  - intros d. by apply ledger_frame.
Qed.

(** A batch of events that fails leaves the database as it was, or as the
    other connections left it when the transaction began. A batch that answers
    adds to the events and the jobs of that database and changes nothing else,
    and permits each acknowledgement only with the event stored under its key
    with the same upstream content, one job per resource of the stored event
    answered and stored, and new jobs blocked exactly when the event's schema or
    signature demands it. *)
Theorem event_batch_is_atomic (Hothers : forall n d, ledger_ok d -> ledger_ok (meanwhile n d)) events s :
  ledger_ok (db s) ->
  exists d, (d = db s \/ exists n, d = meanwhile n (db s)) /\
  match ingest_event_batch events s with
  | (Err _, s') => db s' = d
  | (Ok results, s') =>
      events <> [] /\ Forall (fun e => event_validate e = Ok tt) events /\
      ledger_ok (db s') /\ adds_to d (db s') /\ Forall2 (accounted d (db s')) events results
  end.
Proof.
  intros Hl. set (rely := fun d d' => exists n, d' = meanwhile n d).
  pose proof (ends_ingest_batch rely (fun n d => ex_intro _ n eq_refl) events (db s) s eq_refl) as H.
  destruct (ingest_event_batch events s) as [[results|e] s']; cbn in H.
  - destruct H as (Hne & Hv & d & [n Hd] & Hall). exists d. split; [right; by exists n|].
    split; [done|]. split; [done|]. apply ingested_all_ok; [|done]. subst d. by apply Hothers.
  - exists (db s'). by destruct H as [H|H]; [split; [left|]|split; [right|]].
Qed.

(** Every job text reads back, so the scan over them does not fail. *)
Lemma stored_jobs_total (d : Db Text) key : ledger_ok d -> exists jobs, stored_jobs d key = Ok jobs.
Proof.
  intros Hl. unfold stored_jobs, rows.
  assert (H : Forall (fun e => exists job : ReconciliationJobV1, of_text (jb_json (snd e)) = Ok job)
    (order_by (fun a b => str_ltb (fst a) (fst b)) (map_to_list (t_jobs d)))).
  { rewrite order_by_perm. apply Forall_forall. intros [id row] He%elem_of_map_to_list.
    destruct (ledger_job d Hl _ _ He) as (job & Ht & _). by exists job. }
  induction H as [|e l [job Ht] _ [jobs IH]]; cbn; [eauto|]. unfold decode at 1. rewrite Ht. cbn.
  destruct (collect decode _) as [js|] eqn:E; cbn in *; [|done]. eauto.
Qed.

Lemma collect_of_validated events :
  Forall (fun e => event_validate e = Ok tt) events -> exists l, collect event_validate events = Ok l.
Proof. induction 1 as [|e events He _ [l IH]]; cbn; [eauto|]. rewrite He. cbn. rewrite IH. cbn. eauto. Qed.

Section Redelivery.
Context (Hfault : forall n, sql_fault n = None) (Halone : forall n (d : Db Text), meanwhile n d = d).

Lemma redelivered_event event s stored :
  ledger_ok (db s) -> event_at (db s) (event_dedupe_key event) = Some stored ->
  same_receipt stored event ->
  exists jobs s', ingest_event_in_transaction event s = (Ok (ingest_result event Duplicate jobs), s') /\
    db s' = db s /\ jobs ≡ₚ jobs_of (db s) (event_dedupe_key event).
Proof.
  intros Hl Hat (H1 & H2 & H3). destruct (stored_jobs_total (db s) (event_dedupe_key event) Hl) as [jobs Hj].
  unfold event_at in Hat. destruct (t_events (db s) !! _) as [row|] eqn:Er; [|done].
  destruct (of_text (ev_json row)) as [e|] eqn:Et; [|done]. injection Hat as ->.
  exists jobs. eexists. split_and!; [| |by apply stored_jobs_of].
  - eapply runs_bind.
    { eapply runs_bind; [by apply (runs_execute Hfault Halone)|]. unfold st_lift. cbn.
      rewrite Er. cbn. unfold decode. by rewrite Et. }
    cbn beta iota. rewrite H1, H2, H3. eapply runs_bind; [by rewrite !eqb_refl|].
    eapply runs_bind; [|done]. unfold stored_jobs in Hj.
    destruct (collect decode _) as [all|] eqn:Ec; [|done]. injection Hj as <-.
    eapply runs_bind; [|done]. eapply runs_bind; [by apply (runs_execute Hfault Halone)|].
    unfold st_lift. cbn. by rewrite Ec.
  - done.
Qed.

(** Redelivering events the ledger has is harmless and always answered:
    with no fault of the database the batch succeeds, every event is reported a
    duplicate that may be acknowledged, with the jobs it already has, and the
    database does not change. *)
Theorem redelivery_is_idempotent events s :
  ledger_ok (db s) -> events <> [] -> Forall (fun e => event_validate e = Ok tt) events ->
  Forall (fun e => exists stored, event_at (db s) (event_dedupe_key e) = Some stored /\
                     same_receipt stored e) events ->
  exists results s', ingest_event_batch events s = (Ok results, s') /\ db s' = db s /\
    Forall2 (fun e r => r = ingest_result e Duplicate (ingest_reconciliation_jobs r) /\
      ingest_reconciliation_jobs r ≡ₚ jobs_of (db s) (event_dedupe_key e)) events results.
Proof.
  intros Hl Hne Hv Hs.
  assert (H : forall s0, db s0 = db s -> exists results s',
    ingest_events_in_transaction events s0 = (Ok results, s') /\ db s' = db s /\
    Forall2 (fun e r => r = ingest_result e Duplicate (ingest_reconciliation_jobs r) /\
      ingest_reconciliation_jobs r ≡ₚ jobs_of (db s) (event_dedupe_key e)) events results).
  { clear Hne Hv. induction Hs as [|e events (stored & Hat & Hsame) _ IH]; intros s0 H0; [by eexists [], s0|].
    rewrite <- H0 in Hl, Hat. destruct (redelivered_event e s0 stored Hl Hat Hsame) as (jobs & s1 & Hr & Hd & Hp).
    rewrite H0 in Hl, Hd, Hp. destruct (IH s1 Hd) as (results & s2 & Hr2 & Hd2 & Hall).
    exists (ingest_result e Duplicate jobs :: results), s2. split; [|split; [done|constructor; [split; [reflexivity|exact Hp]|exact Hall]]].
    cbn [ingest_events_in_transaction]. eapply runs_bind; [exact Hr|]. by eapply runs_bind. }
  destruct (H (mkConnection (db s) (S (calls s))) eq_refl) as (results & s' & Hr & Hd & Hall).
  destruct (collect_of_validated _ Hv) as [l Hl']. exists results. eexists. split_and!; [| |exact Hall].
  - eapply runs_bind; [by destruct events|]. eapply runs_bind; [unfold st_lift; by rewrite Hl'|].
    by apply (runs_transaction Hfault Halone).
  - done.
Qed.
End Redelivery.
End Ledger.

(** ** Witnesses *)

Lemma sample_jobs_read_back : ReadsBack SampleText ReconciliationJobV1 eq.
Proof. intros a t [= <-]. by exists a. Qed.
Lemma sample_events_read_back : ReadsBack SampleText EventEnvelopeV1 same_stored.
Proof. intros a t [= <-]. by exists a. Qed.

Lemma empty_ledger : ledger_ok (empty_db SampleText).
Proof. split; done. Qed.

Definition sample_ledger_calls : list RegistryCall :=
  [CallIngestEvent sample_event; CallEnqueueReconciliation sample_record; CallRebuildProjection;
   CallIngestEventBatch [sample_event; sample_event]].

(** The second statement of the first transaction fails, the rest goes through. *)
Lemma ledger_matches_events_witness :
  ledger_ok (db (perform_all (env := failing 5) sample_ledger_calls fresh)) /\
  size (t_events (db (perform_all (env := failing 5) sample_ledger_calls fresh))) = 1 /\
  size (t_jobs (db (perform_all (env := failing 5) sample_ledger_calls fresh))) = 2.
Proof.
  split; [|split; vm_compute; reflexivity].
  apply (ledger_matches_events (env := failing 5) sample_jobs_read_back sample_events_read_back).
  - intros n d Hd. exact Hd.
  - exact empty_ledger.
Defined.

Lemma event_batch_is_atomic_witness :
  map ingest_disposition
    (default [] (ok_opt (ingest_event_batch (Environment0 := alone) [sample_event; sample_event] fresh).1)) =
    [Recorded; Duplicate] /\
  exists d, (d = db fresh \/ exists n, d = meanwhile (Environment := alone) n (db fresh)) /\
  match ingest_event_batch (Environment0 := alone) [sample_event; sample_event] fresh with
  | (Err _, s') => db s' = d
  | (Ok results, s') =>
      [sample_event; sample_event] <> [] /\
      Forall (fun e => event_validate e = Ok tt) [sample_event; sample_event] /\
      ledger_ok (db s') /\ adds_to d (db s') /\
      Forall2 (accounted d (db s')) [sample_event; sample_event] results
  end.
Proof.
  split; [vm_compute; reflexivity|].
  apply (event_batch_is_atomic (env := alone) sample_jobs_read_back sample_events_read_back).
  - intros n d Hd. exact Hd.
  - exact empty_ledger.
Defined.

(** The database after one event. *)
Definition ingested_once : Connection SampleText := (ingest_event (Environment0 := alone) sample_event fresh).2.

Lemma ingested_once_ok : ledger_ok (db ingested_once).
Proof.
  assert (K : kept (env := alone) keeps_ledger (ledger_ok (Text := SampleText))).
  { apply kept_ledger; [exact sample_jobs_read_back|exact sample_events_read_back]. }
  apply (stays_ingest (env := alone) keeps_ledger (fun _ d Hd => Hd) ledger_ok K sample_event
           (empty_db SampleText) empty_ledger fresh eq_refl).
Qed.

Lemma redelivery_is_idempotent_witness :
  exists results s', ingest_event_batch (Environment0 := alone) [sample_event] ingested_once = (Ok results, s') /\
    db s' = db ingested_once /\
    Forall2 (fun e r => r = ingest_result e Duplicate (ingest_reconciliation_jobs r) /\
      ingest_reconciliation_jobs r ≡ₚ jobs_of (db ingested_once) (event_dedupe_key e)) [sample_event] results.
Proof.
  apply (redelivery_is_idempotent (env := alone)).
  - reflexivity.
  - reflexivity.
  - exact ingested_once_ok.
  - discriminate.
  - constructor; [vm_compute; reflexivity|constructor].
  - constructor; [|constructor]. exists sample_event. split; [vm_compute; reflexivity|].
    split; [reflexivity|split; reflexivity].
Defined.
