(* ===== verification/RegistryTables.v ===== *)
(** The tables of the registry beside the ledger: references between them, what
    recording an observation stores, who owns a resource, who holds a lock, and what a rebuild preserves. *)

From Stdlib Require Import String Ascii ZArith Lia List Bool.
From stdpp Require Import base option list strings gmap pretty.
From S2P Require Import Prelude Strings Btree Json Core Demo Proofs Registry Files RegistryStore.
From S2P Require Import RegistrySamples RegistryProofs.

Open Scope cf_scope.
Open Scope string_scope.
Open Scope cf_scope.

Lemma existsb_map_false {A} (p : string * A -> bool) (m : gmap string A) key x :
  existsb p (map_to_list m) = false -> m !! key = Some x -> p (key, x) = false.
Proof.
  intros H Hk. destruct (p (key, x)) eqn:E; [|done]. rewrite <- H. symmetry. apply existsb_exists.
  exists (key, x). split; [|done]. by apply list_elem_of_In, elem_of_map_to_list.
Qed.

Lemma is_noneb_false {A} (o : option A) : is_noneb o = false <-> is_Some o.
Proof. destruct o; cbn; split; (done || by eexists || by intros []). Qed.

Lemma is_Some_insert {A} (m : gmap string A) key key' x :
  is_Some (m !! key) -> is_Some (<[key' := x]> m !! key).
Proof. intros H. destruct (decide (key = key')) as [->|]; [by rewrite lookup_insert_eq|by rewrite lookup_insert_ne]. Qed.

Section Tables.
Context {Text : Type} {rt : Runtime} {env : Environment Text}.
Context {c1 : Codec Text ScopeRefV1} {c2 : Codec Text ResourceRefV1}.
Context {c3 : Codec Text RegistryObservationV1} {c4 : Codec Text DesiredResourceV1}.
Context {c5 : Codec Text OwnershipRecordV1} {c6 : Codec Text EventEnvelopeV1}.
Context {c7 : Codec Text ReconciliationJobV1} {c8 : Codec Text EventCursorV1}.
Context {c9 : Codec Text OperationIndexRecordV1} {c10 : Codec Text InventoryProviderV1}.

(** ** References *)

(** The unique columns of an observation. *)
Definition observed (o : ObservationRow Text) := (ob_resource_key o, ob_state_hash o, ob_observed_at o).

(** Every reference resolves, and rowids and unique columns are distinct. *)
Record well_formed (d : Db Text) : Prop := mkWellFormed {
  wf_parent key row parent : t_scopes d !! key = Some row -> sc_parent_key row = Some parent ->
    is_Some (t_scopes d !! parent);
  wf_scope key row : t_resources d !! key = Some row -> is_Some (t_scopes d !! rs_scope_key row);
  wf_desired key row : t_desired d !! key = Some row -> is_Some (t_resources d !! key);
  wf_observations : Forall (fun o => is_Some (t_resources d !! ob_resource_key o)) (t_observations d);
  wf_rowids : NoDup (map ob_observation_id (t_observations d));
  wf_observed : NoDup (map observed (t_observations d));
}.

Lemma wf_frame d d' :
  t_scopes d' = t_scopes d -> t_resources d' = t_resources d -> t_desired d' = t_desired d ->
  t_observations d' = t_observations d -> well_formed d -> well_formed d'.
Proof. intros E1 E2 E3 E4 [W1 W2 W3 W4 W5 W6]. split; rewrite ?E1, ?E2, ?E3, ?E4; done. Qed.

Lemma wf_upsert_scope key row d d' :
  stmt_upsert_scope key row d = Ok (tt, d') -> well_formed d -> well_formed d'.
Proof.
  unfold stmt_upsert_scope. intros E [W1 W2 W3 W4 W5 W6].
  assert (Hnew : exists new, d' = set_scopes (<[key := new]> (t_scopes d)) d /\
            forall parent, sc_parent_key new = Some parent -> is_Some (t_scopes d !! parent)).
  { destruct (t_scopes d !! key) as [old|] eqn:Eo.
    - injection E as <-. eexists. split; [done|]. cbn. intros parent. by apply (W1 key old).
    - destruct (is_some_and _ _) eqn:Ep; [done|]. injection E as <-. exists row. split; [done|].
      intros parent Hp. rewrite Hp in Ep. by apply is_noneb_false. }
  destruct Hnew as (new & -> & Hp). split; cbn; try done.
  - intros k r parent. destruct (decide (k = key)) as [->|Hne].
    + rewrite lookup_insert_eq. intros [= <-] H. by apply is_Some_insert, Hp.
    + rewrite lookup_insert_ne by done. intros H1 H2. apply is_Some_insert. by apply (W1 k r).
  - intros k r H. apply is_Some_insert. by apply (W2 k r).
Qed.

Lemma wf_delete_scope key b d d' :
  stmt_delete_scope key d = Ok (b, d') -> well_formed d -> well_formed d'.
Proof.
  unfold stmt_delete_scope. destruct (t_scopes d !! key) as [old|] eqn:Eo; [|by intros [= <- <-]].
  destruct (_ || _) eqn:E; [done|]. apply orb_false_iff in E as [Es Er]. intros [= <- <-] [W1 W2 W3 W4 W5 W6].
  split; cbn; try done.
  - intros k r parent [Hne Hk]%lookup_delete_Some Hp.
    pose proof (existsb_map_false _ _ _ _ Es Hk) as Hn. cbn in Hn. rewrite Hp, eqb_false in Hn.
    rewrite lookup_delete_ne by congruence. by apply (W1 k r).
  - intros k r Hk. pose proof (existsb_map_false _ _ _ _ Er Hk) as Hn. cbn in Hn. rewrite eqb_false in Hn.
    rewrite lookup_delete_ne by congruence. by apply (W2 k r).
Qed.

Lemma wf_upsert_resource replace key row d d' :
  stmt_upsert_resource replace key row d = Ok (tt, d') -> well_formed d -> well_formed d'.
Proof.
  unfold stmt_upsert_resource. intros E [W1 W2 W3 W4 W5 W6].
  assert (Hnew : exists new, d' = set_resources (<[key := new]> (t_resources d)) d /\
            is_Some (t_scopes d !! rs_scope_key new)).
  { destruct (t_resources d !! key) as [old|] eqn:Eo.
    - injection E as <-. eexists. split; [done|]. cbn. by apply (W2 key old).
    - destruct (is_noneb _) eqn:Ep; [done|]. injection E as <-. exists row. split; [done|].
      by apply is_noneb_false. }
  destruct Hnew as (new & -> & Hs). split; cbn; try done.
  - intros k r. destruct (decide (k = key)) as [->|Hne].
    + rewrite lookup_insert_eq. by intros [= <-].
    + rewrite lookup_insert_ne by done. apply W2.
  - intros k r H. apply is_Some_insert. by apply (W3 k r).
  - eapply Forall_impl; [exact W4|]. intros o. apply is_Some_insert.
Qed.

Lemma next_id_fresh (d : Db Text) : next_observation_id d ∉ map ob_observation_id (t_observations d).
Proof.
  assert (H : forall l i, In i l -> (i <= fold_right Z.max 0 l)%Z).
  { induction l as [|j l IH]; intros i; [done|]. cbn. intros [->|Hi]; [lia|]. specialize (IH i Hi). lia. }
  rewrite list_elem_of_In. intros Hi. apply H in Hi. unfold next_observation_id in Hi. lia.
Qed.

Lemma wf_insert_observation key at1 until hash status json d d' :
  stmt_insert_observation key at1 until hash status json d = Ok (tt, d') -> well_formed d -> well_formed d'.
Proof.
  unfold stmt_insert_observation. destruct (existsb _ _) eqn:Ex; [by intros [= <-]|].
  destruct (is_noneb _) eqn:En; [done|]. intros [= <-] [W1 W2 W3 W4 W5 W6].
  split; cbn; try done.
  - rewrite Forall_app. split; [done|]. constructor; [|done]. by apply is_noneb_false.
  - rewrite map_app. apply NoDup_app. split; [done|]. split; [|apply NoDup_singleton].
    intros i Hi ->%list_elem_of_singleton. by apply (next_id_fresh d).
  - rewrite map_app. apply NoDup_app. split; [done|]. split; [|apply NoDup_singleton].
    intros i Hi ->%list_elem_of_singleton.
    apply list_elem_of_In, in_map_iff in Hi as (o & [= H1 H2 H3] & Ho).
    apply not_true_iff_false in Ex. apply Ex, existsb_exists. exists o. split; [done|].
    by rewrite H1, H2, H3, !eqb_refl.
Qed.

Lemma wf_upsert_desired key row d d' :
  stmt_upsert_desired key row d = Ok (tt, d') -> well_formed d -> well_formed d'.
Proof.
  unfold stmt_upsert_desired. destruct (_ && _) eqn:E; [done|]. intros [= <-] [W1 W2 W3 W4 W5 W6].
  split; cbn; try done. intros k r. destruct (decide (k = key)) as [->|Hne].
  - intros _. apply andb_false_iff in E as [[r' E]%is_noneb_false|E%is_noneb_false]; [by apply (W3 key r')|done].
  - rewrite lookup_insert_ne by done. apply W3.
Qed.

Lemma wf_rebuilt d : well_formed d -> well_formed (rebuilt d).
Proof.
  intros [W1 W2 W3 W4 W5 W6]. split; cbn; try done.
  - intros k r [Hk _]%map_lookup_filter_Some. by apply (W2 k r).
  - intros k r Hk. destruct (W3 k r Hk) as [row Hr]. exists row.
    apply map_lookup_filter_Some. split; [done|]. cbn. by exists r.
  - constructor.
  - constructor.
Qed.

Definition keeps_form (d d' : Db Text) : Prop := well_formed d -> well_formed d'.

#[local] Ltac framed :=
  match goal with H : well_formed ?d |- well_formed _ => apply (wf_frame d); [reflexivity..|exact H] end.

Lemma kept_form : kept keeps_form well_formed.
Proof.
  split.
  - auto.
  - apply wf_upsert_scope.
  - apply wf_delete_scope.
  - apply wf_upsert_resource.
  - apply wf_insert_observation.
  - intros events results d d' _ (e & t & ->)%ingested_all_shape ?. framed.
  - intros job json d d' _ _. unfold stmt_insert_job. case_match; [done|]. intros [= <-] ?. framed.
  - intros; framed.
  - apply wf_upsert_desired.
  - intros key row d d' _ Hr Hd. specialize (Hr Hd). framed.
  - intros; framed.
  - intros; framed.
  - intros; framed.
  - intros; framed.
Qed.

(** The tables stay well formed through any sequence of calls, whichever
    statements fail: the parent of a scope, the scope of a resource, the
    resource of an observation and of a desired state are rows of their tables,
    and no two observations share a rowid or their unique columns. *)
Theorem tables_stay_well_formed (Hothers : forall n d, well_formed d -> well_formed (meanwhile n d)) cs s :
  well_formed (db s) -> well_formed (db (perform_all cs s)).
Proof.
  apply (perform_all_stays well_formed), Forall_forall. intros c _.
  apply (stays_perform keeps_form Hothers well_formed kept_form).
  - intros t d Hd. framed.
  - apply wf_rebuilt.
Qed.

(** ** Recording an observation *)

Fixpoint ancestry (scope : ScopeRefV1) : list ScopeRefV1 :=
  scope :: match scope_parent scope with Some parent => ancestry parent | None => [] end.

(** [scopes] have rows, each with the text of a scope of its key; a row that was
    there keeps its kind, identifier and parent, a new one has those of a scope
    of its key; no other row is touched. *)
Record stored_scopes (scopes : list ScopeRefV1) (m m' : gmap string (ScopeRow Text)) : Prop := mkStoredScopes {
  ss_other key : ~ In key (map scope_key scopes) -> m' !! key = m !! key;
  ss_rows scope : In scope scopes -> exists row, m' !! scope_key scope = Some row /\
    (exists written, In written scopes /\ scope_key written = scope_key scope /\
       to_text written = Ok (sc_json row)) /\
    match m !! scope_key scope with
    | Some old => sc_kind row = sc_kind old /\ sc_scope_id row = sc_scope_id old /\ sc_parent_key row = sc_parent_key old
    | None => exists named, In named scopes /\ scope_key named = scope_key scope /\
        sc_kind row = scope_kind_as_str (scope_kind named) /\ sc_scope_id row = scope_id named /\
        sc_parent_key row = option_map scope_key (scope_parent named)
    end;
}.

(** The row of the observed resource: what it was, or one of a live read. *)
Definition stored_resource (r : ResourceRefV1) (old : option (ResourceRow Text)) (row : ResourceRow Text) : Prop :=
  to_text r = Ok (rs_json row) /\
  match old with
  | Some old => rs_scope_key row = rs_scope_key old /\ rs_kind row = rs_kind old /\
      rs_resource_id row = rs_resource_id old /\ rs_origin row = rs_origin old
  | None => rs_scope_key row = scope_key (resource_scope r) /\ rs_kind row = resource_kind r /\
      rs_resource_id row = resource_id r /\ rs_origin row = "live_read"
  end.

(** What recording [o] makes of database [d]. *)
Record recorded (o : RegistryObservationV1) (d d' : Db Text) : Prop := mkRecorded {
  rc_scopes : stored_scopes (ancestry (resource_scope (obs_resource o))) (t_scopes d) (t_scopes d');
  rc_resource : exists row, t_resources d' !! resource_key (obs_resource o) = Some row /\
    stored_resource (obs_resource o) (t_resources d !! resource_key (obs_resource o)) row;
  rc_resources key : key <> resource_key (obs_resource o) -> t_resources d' !! key = t_resources d !! key;
  rc_observation :
    let unique := (resource_key (obs_resource o), obs_state_hash o, to_rfc3339 (obs_observed_at o)) in
    (In unique (map observed (t_observations d)) /\ t_observations d' = t_observations d) \/
    (~ In unique (map observed (t_observations d)) /\
     exists row, t_observations d' = (t_observations d ++ [row])%list /\ observed row = unique /\
       ob_observation_id row = next_observation_id d /\ ob_fresh_until row = to_rfc3339 (obs_fresh_until o) /\
       ob_status row = observation_status (obs_status o) /\ to_text o = Ok (ob_json row));
  rc_frame : d' = set_observations (t_observations d') (set_resources (t_resources d') (set_scopes (t_scopes d') d));
}.

(** An error that is no constraint's: of the machine, or of an encoder. *)
Definition outer_failure (unencodable : string -> Prop) (e : RegistryError) : Prop :=
  (exists n detail, sql_fault n = Some detail /\ e = RegistrySql (SqlFailure detail)) \/
  (exists detail, unencodable detail /\ e = RegistryJson detail).

Abbreviation ends_or_fails m unencodable P d :=
  (ends m (fun r d' => match r with Ok a => P a d' | Err e => outer_failure unencodable e end) d).

Lemma ends_encoded {A} {c : Codec Text A} (a : A) unencodable (P : Text -> Db Text -> Prop) d :
  (forall detail, to_text a = Err detail -> unencodable detail : Prop) ->
  (forall json, to_text a = Ok json -> P json d) -> ends_or_fails (encode a) unencodable P d.
Proof.
  intros He Ho. apply ends_lift. destruct (to_text a) as [json|detail]; cbn; [by apply Ho|].
  right. exists detail. by split; [apply He|].
Qed.

Lemma ends_statement {A} (statement : Db Text -> result SqlError (A * Db Text)) unencodable
    (P : A -> Db Text -> Prop) d :
  (exists a d', statement d = Ok (a, d') /\ P a d') ->
  ends_or_fails (execute InTransaction statement) unencodable P d.
Proof.
  intros (a & d' & E & HP) s <-. unfold execute. cbn [current].
  destruct (sql_fault (calls s)) as [detail|] eqn:Ef; cbn; [left; by exists (calls s), detail|].
  by rewrite E.
Qed.

Lemma outer_failure_mono (P Q : string -> Prop) e :
  (forall detail, P detail -> Q detail) -> outer_failure P e -> outer_failure Q e.
Proof. intros H [?|(detail & Hd & ->)]; [by left|right; exists detail; split; [by apply H|done]]. Qed.

Lemma ends_or_fails_bind {A B} (m : ST (Connection Text) RegistryError B) (k : B -> ST (Connection Text) RegistryError A) (U : string -> Prop) (P : B -> Db Text -> Prop)
    (Q : A -> Db Text -> Prop) d :
  ends_or_fails m U P d -> (forall b d', P b d' -> ends_or_fails (k b) U Q d') -> ends_or_fails (st_bind m k) U Q d.
Proof. intros Hm Hk. apply ends_bind. eapply ends_mono; [exact Hm|]. intros [b|e] d'; [apply Hk|done]. Qed.

Lemma stored_scopes_more scope scopes m m' json :
  stored_scopes scopes m m' -> to_text scope = Ok json ->
  stored_scopes (scope :: scopes) m
    (<[scope_key scope :=
         match m' !! scope_key scope with
         | Some old => mkScopeRow (sc_kind old) (sc_scope_id old) (sc_parent_key old) json
         | None => mkScopeRow (scope_kind_as_str (scope_kind scope)) (scope_id scope)
                     (option_map scope_key (scope_parent scope)) json
         end]> m').
Proof.
  intros [Ho Hr] Hj. set (key := scope_key scope).
  assert (Hold : m' !! key = m !! key \/ exists s, In s scopes /\ scope_key s = key).
  { destruct (in_dec String.string_dec key (map scope_key scopes)) as [Hin|Hin]; [right|left; by apply Ho].
    apply in_map_iff in Hin as (s & Hk & Hin). by exists s. }
  split.
  - intros k Hk. cbn in Hk. rewrite lookup_insert_ne by tauto. apply Ho. tauto.
  - intros s Hs. destruct (decide (scope_key s = key)) as [->|Hne].
    + rewrite lookup_insert_eq. eexists. split; [done|]. split.
      { exists scope. split; [by left|]. split; [done|]. by destruct (m' !! key). }
      destruct Hold as [E|(s' & Hin & Hk)].
      * rewrite E. destruct (m !! key); [done|]. exists scope. split; [by left|]. done.
      * destruct (Hr s' Hin) as (row & Hrow & _ & Hid). rewrite Hk in Hrow, Hid. rewrite Hrow. cbn.
        destruct (m !! key); [done|]. destruct Hid as (named & Hn & Hid). exists named. split; [by right|done].
    + rewrite lookup_insert_ne by done. assert (Hin : In s scopes) by (destruct Hs as [<-|Hs]; done).
      destruct (Hr s Hin) as (row & Hrow & (w & Hw & Hwj) & Hid). exists row. split; [done|]. split.
      { exists w. split; [by right|done]. }
      destruct (m !! scope_key s); [done|]. destruct Hid as (named & Hn & Hid). exists named. split; [by right|done].
Qed.

Definition unencodable_scope (scope : ScopeRefV1) (detail : string) : Prop :=
  exists scope', In scope' (ancestry scope) /\ to_text scope' = Err detail.

Lemma ends_upsert_scope : forall scope d,
  ends_or_fails (upsert_scope scope) (unencodable_scope scope)
    (fun _ d' => exists m, stored_scopes (ancestry scope) (t_scopes d) m /\ d' = set_scopes m d) d.
Proof.
  fix IH 1. intros scope d. set (above := match scope_parent scope with Some p => ancestry p | None => [] end).
  assert (Hparent : ends_or_fails (match scope_parent scope with Some p => upsert_scope p | None => st_ret tt end)
    (unencodable_scope scope) (fun _ d' => exists m, stored_scopes above (t_scopes d) m /\ d' = set_scopes m d) d).
  { subst above. destruct scope as [v k i [p|]]; cbn [scope_parent].
    - eapply ends_mono; [apply (IH p)|]. intros [[]|e] d' H; [done|]. eapply outer_failure_mono; [|exact H].
      intros detail (s & Hin & Hs). exists s. split; [by right|done].
    - apply ends_ret. exists (t_scopes d). split; [|by destruct d]. by split. }
  assert (Hsplit : ancestry scope = scope :: above) by (subst above; by destruct scope).
  assert (Hrun : upsert_scope scope =
    (do* match scope_parent scope with Some p => upsert_scope p | None => st_ret tt end in
     let* json := encode scope in
     execute InTransaction (stmt_upsert_scope (scope_key scope) (mkScopeRow (scope_kind_as_str (scope_kind scope))
       (scope_id scope) (option_map scope_key (scope_parent scope)) json)))) by (by destruct scope).
  rewrite Hrun. apply (ends_or_fails_bind _ _ _ _ _ _ Hparent). intros _ d1 (m & Hm & ->).
  apply ends_or_fails_bind with (P := fun json d' => to_text scope = Ok json /\ d' = set_scopes m d).
  { apply ends_encoded; [|done]. intros detail Hd. exists scope. split; [rewrite Hsplit; by left|done]. }
  intros json d' [Hj ->]. apply ends_statement. exists tt, (set_scopes (<[scope_key scope :=
      match m !! scope_key scope with
      | Some old => mkScopeRow (sc_kind old) (sc_scope_id old) (sc_parent_key old) json
      | None => mkScopeRow (scope_kind_as_str (scope_kind scope)) (scope_id scope)
                  (option_map scope_key (scope_parent scope)) json
      end]> m) d). split.
  - unfold stmt_upsert_scope. cbn. destruct (m !! scope_key scope) eqn:E; [done|].
    destruct (is_some_and _ _) eqn:Ep; [exfalso|done]. subst above. destruct (scope_parent scope) as [p|]; [|done].
    cbn in Ep. destruct (ss_rows _ _ _ Hm p) as (row & Hrow & _); [destruct p; by left|]. by rewrite Hrow in Ep.
  - eexists. split; [|done]. rewrite Hsplit. by apply stored_scopes_more.
Qed.

(** The scopes, the resource and the observation that have no text. *)
Definition unencodable (o : RegistryObservationV1) (detail : string) : Prop :=
  unencodable_scope (resource_scope (obs_resource o)) detail \/ to_text (obs_resource o) = Err detail \/
  to_text o = Err detail.

Lemma ends_record o d :
  ends_or_fails
    (do* upsert_scope (resource_scope (obs_resource o)) in
     let* json := encode (obs_resource o) in
     do* execute InTransaction (stmt_upsert_resource false (resource_key (obs_resource o))
           (resource_row (obs_resource o) "live_read" json)) in
     let* json := encode o in
     execute InTransaction
       (stmt_insert_observation (resource_key (obs_resource o)) (to_rfc3339 (obs_observed_at o))
          (to_rfc3339 (obs_fresh_until o)) (obs_state_hash o) (observation_status (obs_status o)) json))
    (unencodable o) (fun _ d' => recorded o d d') d.
Proof.
  set (r := obs_resource o). set (key := resource_key r).
  apply ends_or_fails_bind with (P := fun _ d' => exists m,
    stored_scopes (ancestry (resource_scope r)) (t_scopes d) m /\ d' = set_scopes m d).
  { eapply ends_mono; [apply ends_upsert_scope|]. intros [a|e] d' H; [done|].
    eapply outer_failure_mono; [|exact H]. by left. }
  intros _ d1 (m & Hm & ->).
  apply ends_or_fails_bind with (P := fun json d' => to_text r = Ok json /\ d' = set_scopes m d).
  { apply ends_encoded; [|done]. intros detail Hd. by right; left. }
  intros json d1 [Hj ->].
  apply ends_or_fails_bind with (P := fun _ d' => exists row, d' = set_resources (<[key := row]> (t_resources d)) (set_scopes m d) /\
    stored_resource r (t_resources d !! key) row).
  { apply ends_statement. unfold stmt_upsert_resource. cbn. destruct (t_resources d !! key) as [old|] eqn:E.
    - eexists tt, _. split; [done|]. eexists. split; [done|]. by split.
    - destruct (ss_rows _ _ _ Hm (resource_scope r)) as (row & Hrow & _); [destruct (resource_scope r); by left|].
      rewrite Hrow. eexists tt, _. split; [done|]. eexists. split; [done|]. by split. }
  intros _ d1 (row & -> & Hrow).
  apply ends_or_fails_bind with (P := fun json d' => to_text o = Ok json /\
    d' = set_resources (<[key := row]> (t_resources d)) (set_scopes m d)).
  { apply ends_encoded; [|done]. intros detail Hd. by right; right. }
  intros json' d1 [Hj' ->]. apply ends_statement. unfold stmt_insert_observation. cbn [t_observations set_resources set_scopes].
  assert (Hres : forall t, recorded o d (set_observations t (set_resources (<[key := row]> (t_resources d)) (set_scopes m d))) <->
    let unique := (key, obs_state_hash o, to_rfc3339 (obs_observed_at o)) in
    (In unique (map observed (t_observations d)) /\ t = t_observations d) \/
    (~ In unique (map observed (t_observations d)) /\
     exists row, t = (t_observations d ++ [row])%list /\ observed row = unique /\
       ob_observation_id row = next_observation_id d /\ ob_fresh_until row = to_rfc3339 (obs_fresh_until o) /\
       ob_status row = observation_status (obs_status o) /\ to_text o = Ok (ob_json row))).
  { intros t. split; [by intros [_ _ _ H _]|]. intros H. split; cbn; try done.
    - exists row. split; [by rewrite lookup_insert_eq|done].
    - intros k Hk. by rewrite lookup_insert_ne. }
  assert (Hin : forall b, existsb (fun x => (ob_resource_key x =? key) && (ob_state_hash x =? obs_state_hash o)
      && (ob_observed_at x =? to_rfc3339 (obs_observed_at o))) (t_observations d) = b ->
    if b then In (key, obs_state_hash o, to_rfc3339 (obs_observed_at o)) (map observed (t_observations d))
    else ~ In (key, obs_state_hash o, to_rfc3339 (obs_observed_at o)) (map observed (t_observations d))).
  { intros [] E.
    - apply existsb_exists in E as (x & Hx & [[H1%eqb_eq H2%eqb_eq]%andb_true_iff H3%eqb_eq]%andb_true_iff).
      apply in_map_iff. exists x. split; [|done]. unfold observed. by rewrite H1, H2, H3.
    - intros (x & [= H1 H2 H3] & Hx)%in_map_iff. apply not_true_iff_false in E. apply E, existsb_exists.
      exists x. split; [done|]. by rewrite H1, H2, H3, !eqb_refl. }
  specialize (Hin _ eq_refl). destruct (existsb _ (t_observations d)).
  - eexists tt, _. split; [done|]. apply (Hres (t_observations d)). by left.
  - cbn. rewrite lookup_insert_eq. cbn. eexists tt, _. split; [done|]. apply Hres. right. split; [done|].
    eexists. split; [done|]. done.
Qed.

(** A transaction takes effect whole or leaves what the other connections had
    committed before it. *)
Lemma transaction_ends (body : ST (Connection Text) RegistryError unit) unencodable (P : Db Text -> Prop) s :
  ends_or_fails body unencodable (fun _ d' => P d') (meanwhile (calls s) (db s)) ->
  match transaction body s with
  | (Ok _, s') => P (db s')
  | (Err e, s') => db s' = meanwhile (calls s) (db s) /\ outer_failure unencodable e
  end.
Proof.
  intros H. unfold transaction, st_bind at 1, execute at 1. cbn [current].
  destruct (sql_fault (calls s)) as [detail|] eqn:E; cbn; [split; [done|left; by exists (calls s), detail]|].
  specialize (H (mkConnection (meanwhile (calls s) (db s)) (S (calls s))) eq_refl).
  unfold st_on_err, st_bind. destruct (body _) as [[[]|e] s1]; cbn in *; [|done].
  unfold execute. cbn. destruct (sql_fault (calls s1)) as [detail|] eqn:E1; cbn; [|done].
  split; [done|]. left. by exists (calls s1), detail.
Qed.

(** C35: recording an observation stores all of it or nothing. When it
    succeeds, every scope the resource is in has a row whose parent has one, the
    resource has its row, and the observation is there under its resource, state
    and instant, added only if it was not, rows that were there keeping their
    identity and the origin of the resource; nothing else of the database changes. When it fails,
    the database is the one the call found, and the failure is one of the
    machine or of an encoder: no reference between the tables, no repeated
    observation makes it fail. *)
Theorem recorded_observation_is_stored (o : RegistryObservationV1) (s : Connection Text) :
  match record_observation o s with
  | (Ok _, s') => recorded o (meanwhile (calls s) (db s)) (db s')
  | (Err e, s') => db s' = meanwhile (calls s) (db s) /\ outer_failure (unencodable o) e
  end.
Proof. apply transaction_ends, ends_record. Qed.

(** ** Owners *)

Definition owner_of (d : Db Text) (key : string) : option string := option_map ow_owner (t_ownership d !! key).

(** Other connections keep the owners there are. *)
Definition keeps_owners (d d' : Db Text) : Prop :=
  forall key owner, owner_of d key = Some owner -> owner_of d' key = Some owner.

(** An invariant of the owners and the locks alone. *)
Lemma kept_of_columns (rely : Db Text -> Db Text -> Prop) (I : Db Text -> Prop) :
  (forall d d', rely d d' -> I d -> I d') ->
  (forall d d', t_ownership d' = t_ownership d -> t_locks d' = t_locks d -> I d -> I d') ->
  (forall key row d d',
    (forall existing, t_ownership d !! key = Some existing -> ow_owner existing = ow_owner row) ->
    rely d d' -> I d -> I (set_ownership (<[key := row]> (t_ownership d')) d')) ->
  kept rely I.
Proof.
  intros Hr Hf Ho. split; [done|..]; try done.
  - intros key row d d'. unfold stmt_upsert_scope. repeat case_match; intros; simplify_eq; by eapply Hf; [| |done].
  - intros key b d d'. unfold stmt_delete_scope. repeat case_match; intros; simplify_eq; [|done]. by eapply Hf; [| |done].
  - intros replace key row d d'. unfold stmt_upsert_resource.
    repeat case_match; intros; simplify_eq; by eapply Hf; [| |done].
  - intros key at1 until hash status json d d'. unfold stmt_insert_observation.
    repeat case_match; intros; simplify_eq; [done|]. by eapply Hf; [| |done].
  - intros events results d d' _ (e & t & ->)%ingested_all_shape. by apply Hf.
  - intros job json d d' _ _. unfold stmt_insert_job. case_match; [done|]. intros [= <-]. by apply Hf.
  - intros key row d. by apply Hf.
  - intros key row d d'. unfold stmt_upsert_desired. case_match; [done|]. intros [= <-]. by apply Hf.
  - intros key row d. by apply Hf.
  - intros key row d. by apply Hf.
  - intros key row d. by apply Hf.
  - intros key row d. by apply Hf.
Qed.

(** Once a resource has an owner no sequence of calls of a connection gives
    it another, as long as the other connections keep the owners they find. *)
Theorem owner_is_final (Hothers : forall n d, keeps_owners d (meanwhile n d)) key owner cs s :
  owner_of (db s) key = Some owner -> owner_of (db (perform_all cs s)) key = Some owner.
Proof.
  set (I := fun d => owner_of d key = Some owner).
  assert (K : kept keeps_owners I).
  { apply kept_of_columns; unfold I.
    - auto.
    - intros d d' E _. unfold owner_of. by rewrite E.
    - intros k row d d' Hk Hd Hi. unfold owner_of. cbn. destruct (decide (key = k)) as [->|Hne].
      + rewrite lookup_insert_eq. cbn. unfold owner_of in Hi.
        destruct (t_ownership d !! k) as [existing|] eqn:E; [|done]. by rewrite <- (Hk existing).
      + rewrite lookup_insert_ne by done. by apply Hd. }
  apply (perform_all_stays I), Forall_forall. intros c _.
  by apply (stays_perform keeps_owners Hothers I K).
Qed.

(** ** Locks *)

(** Other connections keep the locks there are. *)
Definition keeps_locks (d d' : Db Text) : Prop :=
  forall key row, t_locks d !! key = Some row -> t_locks d' !! key = Some row.

(** The calls that may end a lock. *)
Definition ends_lock (key owner : string) (c : RegistryCall) : Prop :=
  c = CallRebuildProjection \/ c = CallReleaseResourceLock key owner.

(** A lock that is held stays held, by the same owner, through any sequence
    of calls that neither releases it in its owner's name nor rebuilds the
    projection, and every attempt to take it meanwhile is refused. *)
Theorem held_lock_excludes (Hothers : forall n d, keeps_locks d (meanwhile n d)) key row cs s :
  t_locks (db s) !! key = Some row -> Forall (fun c => ~ ends_lock key (lk_owner row) c) cs ->
  t_locks (db (perform_all cs s)) !! key = Some row /\
  forall other, exists e, (acquire_resource_lock key other (perform_all cs s)).1 = Err e /\
    (e = ResourceLocked key \/ exists detail, e = RegistrySql (SqlFailure detail)).
Proof.
  set (I := fun d : Db Text => t_locks d !! key = Some row). intros Hs Hcs.
  assert (K : kept keeps_locks I).
  { apply kept_of_columns; unfold I.
    - auto.
    - intros d d' _ E. by rewrite E.
    - intros k r d d' _ Hd Hi. cbn. by apply Hd. }
  assert (HI : I (db (perform_all cs s))).
  { apply (perform_all_stays I); [|done]. eapply Forall_impl; [exact Hcs|]. intros c Hc.
    destruct c; try (apply (stays_ordinary keeps_locks Hothers I K); tauto).
    - destruct Hc. by left.
    - apply (stays_acquire keeps_locks Hothers I K). intros r d d'. unfold stmt_insert_lock, I.
      destruct (t_locks d !! key0) eqn:E; [done|]. intros [= <-] Hi. cbn.
      rewrite lookup_insert_ne; [done|congruence].
    - apply (stays_dropped I), (stays_release keeps_locks Hothers I K).
      intros b d d'. unfold stmt_delete_lock, I. destruct (t_locks d !! key0) as [r|] eqn:E; [|by intros [= <- <-]].
      destruct (lk_owner r =? owner) eqn:Eo; intros [= <- <-] Hi; [|done]. cbn.
      rewrite lookup_delete_ne; [done|]. intros ->. apply Hc. right.
      rewrite Hi in E. injection E as <-. by apply eqb_eq in Eo as <-. }
  split; [exact HI|]. intros other. unfold acquire_resource_lock, st_bind, ask, execute. cbn.
  destruct (sql_fault _) as [detail|]; cbn; [eauto|].
  unfold stmt_insert_lock. rewrite (Hothers _ _ _ _ HI). eauto.
Qed.

(** ** Rebuilding *)

(** What a rebuild keeps, what it drops, and what becomes of the resources. *)
Record declared_kept (d d' : Db Text) : Prop := mkDeclaredKept {
  dk_scopes : t_scopes d' = t_scopes d;
  dk_desired : t_desired d' = t_desired d;
  dk_ownership : t_ownership d' = t_ownership d;
  dk_events : t_events d' = t_events d;
  dk_jobs : t_jobs d' = t_jobs d;
  dk_cursors : t_cursors d' = t_cursors d;
  dk_unindexable : t_unindexable d' = t_unindexable d;
  dk_resources key : t_resources d' !! key =
    match t_desired d !! key with Some _ => t_resources d !! key | None => None end;
  dk_dropped : t_observations d' = [] /\ t_providers d' = ∅ /\ t_operations d' = ∅ /\ t_locks d' = ∅;
  dk_metadata key : t_metadata d' !! key =
    if decide (key = "last_sync_at") then None else t_metadata d !! key;
}.

Lemma rebuilt_kept d : declared_kept d (rebuilt d).
Proof.
  split; try done.
  - intros key. cbn. destruct (t_desired d !! key) as [row|] eqn:E.
    + destruct (t_resources d !! key) as [r|] eqn:Er.
      * apply map_lookup_filter_Some. split; [done|]. by exists row.
      * apply map_lookup_filter_None. by left.
    + apply map_lookup_filter_None. right. intros r _ [? H]. cbn in H. by rewrite E in H.
  - intros key. cbn. case_decide as Hd; [subst; apply lookup_delete_eq|by apply lookup_delete_ne].
Qed.

(** Rebuilding the projection keeps the declared state (scopes, desired
    state, owners, events, jobs, cursors) and the resources desired state names,
    and drops everything else, the held writer locks with it; when it fails it
    leaves the database it found, unless it is the integrity check after the
    commit that fails; and with no fault of the machine it does not fail: no
    reference between the tables stands in its way. *)
Theorem rebuild_keeps_declared_state (Halone : forall n (d : Db Text), meanwhile n d = d) s :
  (declared_kept (db s) (db (rebuild_projection s).2) \/
   ((exists e, (rebuild_projection s).1 = Err e) /\ db (rebuild_projection s).2 = db s)) /\
  ((forall n, sql_fault n = None) -> (forall n, integrity_at n = "ok") ->
   (forall n e, backup_at n <> Err e) -> is_ok (rebuild_projection s).1 = true).
Proof.
  set (rely := fun d d' : Db Text => d' = d). assert (Hrely : forall n d, rely d (meanwhile n d)) by done.
  split.
  - assert (H : ends rebuild_projection (fun r d' => declared_kept (db s) d' \/ ((exists e, r = Err e) /\ d' = db s)) (db s)).
    { apply ends_bind, ends_bind, ends_ask. intros n. apply ends_lift.
      destruct (backup_at n) as [path|e]; [|eauto].
      apply ends_bind, (ends_transaction rely Hrely). intros d1 ->. split; [eauto|].
      do 4 (apply ends_bind, (ends_execute rely Hrely); intros ? ->; split; [done|]; intros ? ? [= <- <-]).
      apply ends_bind, (ends_execute rely Hrely); intros ? ->; split; [done|]. intros [] d2 [= <-].
      apply (ends_execute rely Hrely); intros ? ->; split; [done|]. intros ? ? [= <- <-].
      apply (ends_mono _ (fun _ d' => d' = rebuilt (db s)));
        [|intros r d' ->; left; exact (rebuilt_kept (db s))].
      change (ends (st_bind integrity_check (fun _ => st_ret path)) (fun _ d' => d' = rebuilt (db s)) (rebuilt (db s))).
      apply ends_bind, ends_bind, (ends_execute rely Hrely). intros d2 ->. split; [done|].
      intros ? ? [= <- <-]. apply ends_bind, ends_ask. intros k. apply ends_bind, ends_guard; [done|].
      intros _. by apply ends_ret, ends_ret. }
    by apply H.
  - intros Hf Hi Hb. destruct (backup_at (calls s)) as [path|e] eqn:E; [|by apply Hb in E].
    assert (Hrun : exists s', rebuild_projection s = (Ok path, s')); [|by destruct Hrun as [s' ->]].
    eexists. eapply runs_bind; [by eapply runs_bind; [done|cbn; unfold st_lift; rewrite E]|].
    eapply runs_bind.
    { apply (runs_transaction Hf Halone).
      do 5 (eapply runs_bind; [by apply (runs_execute Hf Halone)|]).
      by apply (runs_execute Hf Halone). }
    eapply runs_bind; [|done]. eapply runs_bind; [by apply (runs_execute Hf Halone)|].
    eapply runs_bind; [done|]. cbn. by rewrite Hi.
Qed.
End Tables.

(** ** Two connections *)

Section Race.
Context {Text : Type} {rt : Runtime} {c5 : Codec Text OwnershipRecordV1}.

(** An owner is checked and written by two statements of their own. When
    another connection registers an owner between them, both calls answer
    success and the later write replaces the owner already registered. *)
Theorem ownership_race_replaces_owner (other this : Environment Text)
    (first second : OwnershipRecordV1) (text1 text2 : Text) (d : Db Text) :
  let key := resource_key (ownership_resource first) in
  resource_key (ownership_resource second) = key ->
  ownership_owner first <> ownership_owner second ->
  to_text first = Ok text1 -> to_text second = Ok text2 ->
  t_ownership d !! key = None ->
  (forall n, sql_fault (Environment := other) n = None) ->
  (forall n d, meanwhile (Environment := other) n d = d) ->
  (forall n, sql_fault (Environment := this) n = None) ->
  (forall d, meanwhile (Environment := this) 0 d = d) ->
  (forall d, meanwhile (Environment := this) 1 d =
     db (upsert_ownership (Environment0 := other) first (mkConnection d 0)).2) ->
  (upsert_ownership (Environment0 := other) first (mkConnection d 0)).1 = Ok tt /\
  owner_of (db (upsert_ownership (Environment0 := other) first (mkConnection d 0)).2) key =
    Some (ownership_owner first) /\
  (upsert_ownership (Environment0 := this) second (mkConnection d 0)).1 = Ok tt /\
  owner_of (db (upsert_ownership (Environment0 := this) second (mkConnection d 0)).2) key =
    Some (ownership_owner second).
Proof.
  intros key Hk Hne E1 E2 Hn Fo Ao Ft T0 T1.
  assert (R1 : upsert_ownership (Environment0 := other) first (mkConnection d 0) =
    (Ok tt, mkConnection (set_ownership (<[key := mkOwnershipRow (ownership_owner first) text1]> (t_ownership d)) d) 2)).
  { unfold upsert_ownership. fold key.
    eapply runs_bind; [by apply (runs_execute Fo Ao)|]. cbn. rewrite Hn.
    eapply runs_bind; [done|]. eapply runs_bind; [unfold encode, st_lift; by rewrite E1|].
    by rewrite (runs_execute Fo Ao _ _ _ tt _ eq_refl). }
  assert (R2 : exists s', upsert_ownership (Environment0 := this) second (mkConnection d 0) = (Ok tt, s') /\
    owner_of (db s') key = Some (ownership_owner second)).
  { unfold upsert_ownership, select_owner. rewrite Hk. eexists. split.
    - eapply runs_bind; [unfold execute; rewrite Ft; cbn; by rewrite T0|]. cbn. rewrite Hn.
      eapply runs_bind; [done|]. eapply runs_bind; [unfold encode, st_lift; by rewrite E2|].
      unfold execute. by rewrite Ft.
    - unfold owner_of. cbn. by rewrite lookup_insert_eq. }
  destruct R2 as (s' & -> & Ho). rewrite R1. split_and!; try done.
  unfold owner_of. cbn. by rewrite lookup_insert_eq.
Qed.
End Race.

(** ** Witnesses *)

Definition sample_desired : DesiredResourceV1 :=
  mkDesiredResourceV1 1 sample_record "sha256:m" VNull "a" "lane" "verifier" "path" "source".
Definition sample_observed : RegistryObservationV1 :=
  mkRegistryObservationV1 1 sample_record (at_s 0) (at_s 60) "sha256:c" "c" "sha256:s" VNull
    ObservationCurrent (evidence_new (clock_at 0) Release "" "").
Definition sample_table_calls : list RegistryCall :=
  [CallRecordObservation sample_observed; CallRemoveScope sample_zone;
   CallUpsertDesiredResource sample_desired; CallUpsertOwnership (owned_by "a");
   CallAcquireResourceLock (resource_key sample_record) "first"].

Lemma empty_well_formed : well_formed (empty_db SampleText).
Proof. split; cbn; (done || constructor). Qed.

Lemma recorded_observation_is_stored_witness :
  is_ok (record_observation (Environment0 := alone) sample_observed fresh).1 = true /\
  recorded (env := alone) sample_observed (empty_db SampleText)
    (db (record_observation (Environment0 := alone) sample_observed fresh).2).
Proof.
  assert (Hok : is_ok (record_observation (Environment0 := alone) sample_observed fresh).1 = true) by (vm_compute; reflexivity).
  split; [exact Hok|]. pose proof (recorded_observation_is_stored (env := alone) sample_observed fresh) as H.
  destruct (record_observation sample_observed fresh) as [[[]|e] s']; [exact H|discriminate Hok].
Defined.

Lemma tables_stay_well_formed_witness :
  well_formed (db (perform_all (env := alone) sample_table_calls fresh)) /\
  size (t_scopes (db (perform_all (env := alone) sample_table_calls fresh))) = 2.
Proof.
  split; [|vm_compute; reflexivity].
  apply (tables_stay_well_formed (env := alone)).
  - intros n d Hd. exact Hd.
  - exact empty_well_formed.
Defined.

Definition populated : Connection SampleText := perform_all (env := alone) sample_table_calls fresh.

Lemma owner_is_final_witness :
  owner_of (db (perform_all (env := alone) [CallUpsertOwnership (owned_by "b"); CallRebuildProjection]
                  populated)) (resource_key sample_record) = Some "a".
Proof.
  apply (owner_is_final (env := alone)).
  - intros n d k o Hd. exact Hd.
  - vm_compute. reflexivity.
Defined.

Lemma held_lock_excludes_witness :
  let s := perform_all (env := alone)
    [CallAcquireResourceLock (resource_key sample_record) "second";
     CallReleaseResourceLock (resource_key sample_record) "second"] populated in
  t_locks (db s) !! resource_key sample_record = Some (mkLockRow "first" (rfc3339 (at_s 16))) /\
  forall other, exists e, (acquire_resource_lock (Environment0 := alone)
      (resource_key sample_record) other s).1 = Err e /\
    (e = ResourceLocked (resource_key sample_record) \/ exists detail, e = RegistrySql (SqlFailure detail)).
Proof.
  apply (held_lock_excludes (env := alone)).
  - intros n d k r Hd. exact Hd.
  - vm_compute. reflexivity.
  - repeat constructor; intros [H|H]; discriminate H.
Defined.

Lemma rebuild_keeps_declared_state_witness :
  is_ok (rebuild_projection (Environment0 := alone) populated).1 = true.
Proof.
  destruct (rebuild_keeps_declared_state (env := alone) (fun _ _ => eq_refl) populated) as [_ H].
  apply H; intros; (reflexivity || discriminate).
Defined.

(** A connection that loses the race: the other's call happens before its
    second statement. *)
Definition racing : Environment SampleText := {|
  sql_fault := fun _ => None;
  meanwhile := fun n d =>
    if (n =? 1)%nat
    then db (upsert_ownership (Environment0 := alone) (owned_by "a") (mkConnection d 0)).2 else d;
  uuid_at := fun n => pretty n;
  now_at := fun n => at_s (Z.of_nat n);
  integrity_at := fun _ => "ok";
  backup_at := fun _ => Ok "backup.sqlite3";
  to_rfc3339 := rfc3339;
|}.

Lemma ownership_race_replaces_owner_witness :
  (upsert_ownership (Environment0 := alone) (owned_by "a") fresh).1 = Ok tt /\
  owner_of (db (upsert_ownership (Environment0 := alone) (owned_by "a") fresh).2)
    (resource_key sample_record) = Some "a" /\
  (upsert_ownership (Environment0 := racing) (owned_by "b") fresh).1 = Ok tt /\
  owner_of (db (upsert_ownership (Environment0 := racing) (owned_by "b") fresh).2)
    (resource_key sample_record) = Some "b".
Proof.
  apply (ownership_race_replaces_owner alone racing (owned_by "a") (owned_by "b")
           (TextOwnership (owned_by "a")) (TextOwnership (owned_by "b")) (empty_db SampleText));
    intros; (reflexivity || discriminate).
Defined.
