(* ===== verification/PagesProjects.v ===== *)
(** Pages projects (cfctl-core/src/pages_projects.rs and configuration.rs
    beside it): names, the source-less project, the commitment to a
    configuration, the redaction of responses, and the non-secret metadata of
    a configuration. The capability contracts are in Contracts. *)

From Stdlib Require Import String Ascii ZArith Lia List Bool.
From stdpp Require Import base option list strings.
From S2P Require Import Prelude Strings Btree Json Core JsonOps JsonEq Contracts Demo.

Open Scope cf_scope.
Open Scope string_scope.
Open Scope list_scope.
Open Scope cf_scope.

(** ** Names *)

Definition valid_project_name (name : string) : bool :=
  negb (is_empty name)
  && (String.length name <=? 58)%nat
  && bytes_all (fun byte => is_ascii_lowercase byte || is_ascii_digit byte || (byte =? "-"%char)) name
  && negb (starts_with name "-")
  && negb (ends_with name "-").

Definition variable_letter (byte : ascii) : bool := (byte =? "_"%char) || is_ascii_alphabetic byte.

(** Only the first byte ([index > 0] fails) must not be a digit. *)
Definition valid_variable_name (name : string) : bool :=
  negb (is_empty name)
  && (String.length name <=? 256)%nat
  && match name with
     | EmptyString => true
     | String first rest =>
         variable_letter first && bytes_all (fun byte => variable_letter byte || is_ascii_digit byte) rest
     end.

Definition requested_variables (body : Value) : option (btree Value) :=
  obind (vpointer "/deployment_configs/production/env_vars" body) as_object.

(** ** A project without a source *)

Definition build_field_is_inert (key : string) (value : Value) : bool :=
  contains ["build_command"; "destination_dir"; "root_dir"; "build_caching"; "web_analytics_tag";
            "web_analytics_token"] key
  && (is_null value || (as_str value =? Some "") || (as_bool value =? Some false)).

Definition project_is_direct (project : Value) (name : string) : bool :=
  (obind (vget "name" project) as_str =? Some name)
  && is_some_and (obind (vget "id" project) as_str) (fun id => negb (is_empty id))
  && (obind (vget "production_branch" project) as_str =? Some "main")
  && is_none_or (vget "source" project) is_null
  && is_none_or (vget "build_config" project) (fun build =>
       is_null build
       || is_some_and (as_object build) (forallb (fun e => build_field_is_inert (fst e) (snd e)))).

(** ** The commitment to a configuration *)

(** [if let Some(x) = value.pointer_mut(tokens).and_then(as_object_mut) { f(x) }]
    for a pointer through members of objects. *)
Fixpoint update_object (tokens : list string) (f : btree Value -> btree Value) (value : Value) : Value :=
  match value with
  | VObject m =>
      match tokens with
      | [] => VObject (f m)
      | token :: tokens =>
          match bt_get token m with
          | Some x => VObject (bt_insert token (update_object tokens f x) m)
          | None => value
          end
      end
  | _ => value
  end.

Definition COMMITTED_FIELDS : list string :=
  ["id"; "name"; "production_branch"; "source"; "build_config"; "deployment_configs"].

(** The member, an empty object when there is none ([entry().or_insert_with]). *)
Definition or_insert (key : string) (new : Value) (m : btree Value) : btree Value :=
  if is_someb (bt_get key m) then m else bt_insert key new m.

Definition configuration_snapshot (project : Value) (added_names : list string) : Value :=
  let fields := fold_left (fun fields key => bt_insert key (default VNull (vget key project)) fields)
                  COMMITTED_FIELDS [] in
  let snapshot := VObject fields in
  let snapshot := update_object ["deployment_configs"; "production"] (or_insert "env_vars" (jobj [])) snapshot in
  update_object ["deployment_configs"; "production"; "env_vars"] (bt_without added_names) snapshot.

Definition configuration_hash `{Runtime} (project : Value) (added_names : list string) : Result string :=
  hash_value (configuration_snapshot project added_names).

(** ** Redaction of responses *)

Definition is_number (v : Value) : bool := match v with VNumber _ => true | _ => false end.

Definition redacted_error (entry : Value) : Value :=
  jobj [("code", match vget "code" entry with
                 | Some code => if is_number code then code else VNull
                 | None => VNull
                 end);
        ("message", VString "[REDACTED]")].
Definition redacted_errors (value : Value) : Value :=
  VArray (map redacted_error (default [] (as_array value))).

Definition shown_name (name : string) : string :=
  if valid_variable_name name then name else "[UNRECOGNIZED]".
Definition variable_kind (kind : string) : bool := contains ["plain_text"; "secret_text"] kind.

(** An entry the projection takes for one of its own. *)
Definition projected_entry (entry : Value) : bool :=
  is_some_and (as_object entry) (fun fields => length fields =? 2%nat)
  && is_some_and (as_str (vindex entry "name")) (fun name =>
       valid_variable_name name || (name =? "[UNRECOGNIZED]"))
  && (is_null (vindex entry "type") || is_some_and (as_str (vindex entry "type")) variable_kind).

Definition shown_kind (entry : Value) : Value :=
  match obind (vget "type" entry) as_str with
  | Some kind => if variable_kind kind then VString kind else VNull
  | None => VNull
  end.
Definition shown_variable (name : string) (entry : Value) : Value :=
  jobj [("name", VString (shown_name name)); ("type", shown_kind entry)].

Definition environment_metadata (value : Value) : Value :=
  match value with
  | VArray entries =>
      if forallb projected_entry entries then value else VString "[REDACTED]"
  | VObject variables => VArray (map (fun e => shown_variable (fst e) (snd e)) variables)
  | _ => VString "[REDACTED]"
  end.

(** An object that reports a failure. *)
Definition reports_failure (object : btree Value) : bool :=
  match bt_get "success" object with
  | Some success => negb (Value_eqb success (VBool true))
  | None => false
  end.

Definition FAILURE_FIELDS : list string := ["status"; "success"; "etag"; "cf_ray"].

Definition failure_response (object : btree Value) : Value :=
  let response := fold_left (fun response key =>
    match bt_get key object with Some value => bt_insert key value response | None => response end)
    FAILURE_FIELDS [] in
  let response := bt_insert "result" VNull response in
  let response := bt_insert "result_info" VNull response in
  VObject (bt_insert "errors" (redacted_errors (default VNull (bt_get "errors" object))) response).

(** What becomes of one member, [redacted] being its own redaction. *)
Definition pages_member (key : string) (value redacted : Value) : option Value :=
  if key =? "web_analytics_token" then None
  else Some (if key =? "env_vars" then environment_metadata value
             else if key =? "value" then VString "[REDACTED]"
             else if contains ["errors"; "messages"] key then redacted_errors value
             else redacted).

Fixpoint pages_redact_response (value : Value) : Value :=
  match value with
  | VObject object =>
      if reports_failure object then failure_response object
      else VObject (bt_collect
             ((fix members (l : list (string * Value)) : list (string * Value) :=
                 match l with
                 | [] => []
                 | (key, value) :: l =>
                     match pages_member key value (pages_redact_response value) with
                     | Some projected => (key, projected) :: members l
                     | None => members l
                     end
                 end) object))
  | VArray values => VArray (map pages_redact_response values)
  | _ => value
  end.

(** ** Non-secret metadata of a configuration *)

Definition metadata_text (value : Value) : bool :=
  is_some_and (as_str value) (fun s =>
    negb (is_empty s) && (String.length s <=? 512)%nat
    && bytes_all (fun b => in_range 33 126 b || (b =? " "%char)) s
    && negb (contains ["[SUNK]"; "[REDACTED]"] s)).

Definition state (name : string) : Value := jobj [("state", VString name)].
Definition observed_state (value : option Value) (valid : Value -> option Value) : Value :=
  match value with
  | None => state "missing"
  | Some VNull => state "null"
  | Some v => match valid v with
              | None => state "unknown"
              | Some v => jobj [("state", VString "observed"); ("observed", v)]
              end
  end.

Definition metadata_patterns (value : Value) : option Value :=
  obind (as_array value) (fun entries =>
    if (256 <? length entries)%nat || negb (forallb metadata_text entries) then None
    else Some (VArray (map (fun v => jobj [("pattern", v)]) entries))).

Definition hyphen_at (i : nat) : bool := contains [8; 13; 18; 23]%nat i.
Fixpoint database_id_bytes (i : nat) (id : string) : bool :=
  match id with
  | EmptyString => true
  | String b id =>
      (if hyphen_at i then b =? "-"%char else is_ascii_hexdigit b) && database_id_bytes (S i) id
  end.
Definition binding_id_valid (field id : string) : bool :=
  if field =? "id" then (String.length id =? 36%nat) && database_id_bytes 0 id
  else (3 <=? String.length id)%nat && (String.length id <=? 63)%nat
       && bytes_all (fun b => is_ascii_lowercase b || is_ascii_digit b || (b =? "-"%char)) id.

Definition metadata_binding (field : string) (e : string * Value) : option Value :=
  if negb (valid_variable_name (fst e)) then None
  else obind (obind (vget field (snd e)) as_str) (fun id =>
    if binding_id_valid field id
    then Some (jobj [("binding", VString (fst e)); ("resource_id", VString id)]) else None).

Definition metadata_bindings (value : Value) (field : string) : option Value :=
  obind (as_object value) (fun entries =>
    if (256 <? length entries)%nat then None
    else option_map VArray (mapM (metadata_binding field) entries)).

Definition INVALID_PARENT : Value := VString "".
(** Invalid ancestors carry their unavailable state to descendants. *)
Definition metadata_child (parent : option Value) (key : string) : option Value :=
  match parent with
  | Some (VObject map) => bt_get key map
  | Some VNull => Some VNull
  | Some _ => Some INVALID_PARENT
  | None => None
  end.
Definition descend (value : Value) (path : list string) : option Value :=
  fold_left (fun parent key => obind parent (fun parent => metadata_child (Some parent) key)) path (Some value).

Definition metadata_variables (v : Value) : option Value :=
  obind (as_object v) (fun vars =>
    if (256 <? length vars)%nat then None
    else Some (VArray (map (fun e => shown_variable (fst e) (snd e)) vars))).
Definition metadata_environment (value : option Value) : Value :=
  observed_state value (fun v => obind (as_object v) (fun env => Some (jobj [
    ("d1_databases", observed_state (bt_get "d1_databases" env) (fun v => metadata_bindings v "id"));
    ("r2_buckets", observed_state (bt_get "r2_buckets" env) (fun v => metadata_bindings v "name"));
    ("variables", observed_state (bt_get "env_vars" env) metadata_variables)]))).

Definition metadata_triggers (project : Value) : Value :=
  let source := descend project ["source"; "config"] in
  let triggers := fold_left (fun triggers key =>
      bt_insert key (observed_state (metadata_child source key) (fun v => option_map VBool (as_bool v))) triggers)
    ["deployments_enabled"; "production_deployments_enabled"; "pr_comments_enabled"] [] in
  let triggers := fold_left (fun triggers key =>
      bt_insert key (observed_state (metadata_child source key) metadata_patterns) triggers)
    ["preview_branch_includes"; "preview_branch_excludes"; "path_includes"; "path_excludes"] triggers in
  VObject (bt_insert "preview_deployment_setting"
    (observed_state (metadata_child source "preview_deployment_setting") (fun v => obind (as_str v) (fun s =>
      if contains ["all"; "none"; "custom"] s then Some (VString s) else None))) triggers).

Definition configuration_metadata (project : Value) : Value :=
  jobj [("schema_version", VNumber (PosInt 1));
        ("provenance", VString "exact_project_get_observed_configuration");
        ("effective_isolation", VString "unknown");
        ("precedence_resolved", VBool false);
        ("public_value_comparison", VString "not_admitted");
        ("binding_coverage", VString "d1_and_r2_only");
        ("project_name", observed_state (vget "name" project) (fun v => obind (as_str v) (fun s =>
           if valid_project_name s then Some (VString s) else None)));
        ("production_branch", observed_state (vget "production_branch" project) (fun v =>
           if metadata_text v then Some v else None));
        ("triggers", metadata_triggers project);
        ("production", metadata_environment (descend project ["deployment_configs"; "production"]));
        ("preview", metadata_environment (descend project ["deployment_configs"; "preview"]));
        ("top_level", metadata_environment (Some project))].

(** ** What a redacted response may hold *)

Definition is_scalar (v : Value) : bool :=
  match v with VArray _ | VObject _ => false | _ => true end.

Definition sealed_variable (entry : Value) : bool :=
  projected_entry entry && is_someb (vget "type" entry).
Definition sealed_variables (value : Value) : bool :=
  (value =? VString "[REDACTED]") || is_some_and (as_array value) (forallb sealed_variable).
Definition sealed_error (entry : Value) : bool :=
  is_some_and (as_object entry) (fun fields => length fields =? 2%nat)
  && (vget "message" entry =? Some (VString "[REDACTED]"))
  && is_some_and (vget "code" entry) (fun code => is_null code || is_number code).
Definition sealed_errors (value : Value) : bool :=
  is_some_and (as_array value) (forallb sealed_error).

Definition sealed_failure (object : btree Value) : bool :=
  forallb (fun e => contains (FAILURE_FIELDS ++ ["result"; "result_info"; "errors"]) (fst e)) object
  && forallb (fun key => is_none_or (bt_get key object) is_scalar) FAILURE_FIELDS
  && (bt_get "result" object =? Some VNull) && (bt_get "result_info" object =? Some VNull)
  && is_some_and (bt_get "errors" object) sealed_errors.

Definition sealed_member (key : string) (value : Value) (inner : bool) : bool :=
  if key =? "web_analytics_token" then false
  else if key =? "env_vars" then sealed_variables value
  else if key =? "value" then value =? VString "[REDACTED]"
  else if contains ["errors"; "messages"] key then sealed_errors value
  else inner.

(** No value of a variable, no analytics token, no prose of an error, and of a
    failure nothing but its status, its tags and the codes of its errors. *)
Fixpoint sealed (value : Value) : bool :=
  match value with
  | VObject object =>
      if reports_failure object then sealed_failure object
      else forallb (fun e => sealed_member (fst e) (snd e) (sealed (snd e))) object
  | VArray values => forallb sealed values
  | _ => true
  end.

(** What the redaction takes for granted of a response: variables are never an
    array, and the members a failure keeps are scalars. *)
Definition shaped_member (key : string) (value : Value) (inner : bool) : bool :=
  if key =? "env_vars" then negb (is_someb (as_array value))
  else (key =? "web_analytics_token") || (key =? "value") || contains ["errors"; "messages"] key || inner.

Fixpoint response_shaped (value : Value) : bool :=
  match value with
  | VObject object =>
      if reports_failure object then forallb (fun key => is_none_or (bt_get key object) is_scalar) FAILURE_FIELDS
      else forallb (fun e => shaped_member (fst e) (snd e) (response_shaped (snd e))) object
  | VArray values => forallb response_shaped values
  | _ => true
  end.

(** ** The redaction, member by member *)

Definition bt_omap {A B} (f : string -> A -> option B) (m : btree A) : btree B :=
  omap (fun e => option_map (pair (fst e)) (f (fst e) (snd e))) m.

Lemma bt_omap_in {A B} (f : string -> A -> option B) m k y :
  In (k, y) (bt_omap f m) <-> exists x, In (k, x) m /\ f k x = Some y.
Proof.
  unfold bt_omap. induction m as [|[k1 x1] m IH]; cbn; [split; [done|by intros (? & [] & _)]|].
  destruct (f k1 x1) as [y1|] eqn:E; cbn; [rewrite IH|rewrite IH; split].
  - split; [intros [[= <- <-]|(x & ? & ?)]; eauto|intros (x & [[= <- <-]|?] & Hf); [left; congruence|eauto]].
  - intros (x & ? & ?). eauto.
  - intros (x & [[= <- <-]|?] & Hf); [congruence|eauto].
Qed.

Lemma bt_omap_sorted {A B} (f : string -> A -> option B) m :
  bt_sorted m = true -> bt_sorted (bt_omap f m) = true.
Proof.
  induction m as [|[k x] m IH]; [done|]. intros [Ha Hs]%bt_sorted_cons. unfold bt_omap in *. cbn.
  destruct (f k x) as [y|]; cbn -[bt_sorted]; [|auto]. apply bt_sorted_cons. split; [|auto].
  intros k' y' (x' & Hin & _)%bt_omap_in. by eapply Ha.
Qed.

Lemma bt_get_omap {A B} (f : string -> A -> option B) m k :
  bt_sorted m = true -> bt_get k (bt_omap f m) = obind (bt_get k m) (f k).
Proof.
  induction m as [|[k1 x1] m IH]; [done|]. intros [Ha Hs]%bt_sorted_cons. unfold bt_omap in *. cbn.
  destruct (k =? k1) eqn:E.
  - apply eqb_eq in E as ->. cbn. destruct (f k1 x1) as [y|]; cbn; [by rewrite eqb_refl|].
    rewrite IH by done. by rewrite above_get.
  - destruct (f k1 x1) as [y|]; cbn; [rewrite E|]; by apply IH.
Qed.

Lemma bt_omap_fixed {A} (f : string -> A -> option A) m :
  (forall k x, In (k, x) m -> f k x = Some x) -> bt_omap f m = m.
Proof.
  unfold bt_omap. induction m as [|[k x] m IH]; intros H; [done|]. cbn.
  rewrite (H k x (or_introl eq_refl)). cbn. f_equal. apply IH. intros ???. apply H. by right.
Qed.

Definition pages_redacted_member (key : string) (value : Value) : option Value :=
  pages_member key value (pages_redact_response value).

Lemma pages_redact_object object :
  bt_sorted object = true -> reports_failure object = false ->
  pages_redact_response (VObject object) = VObject (bt_omap pages_redacted_member object).
Proof.
  intros Hs Hf. cbn [pages_redact_response]. rewrite Hf. f_equal.
  rewrite <- (bt_collect_id (bt_omap pages_redacted_member object)) by by apply bt_omap_sorted.
  f_equal. clear Hs Hf. induction object as [|[k x] m IH]; [done|]. rewrite IH.
  unfold bt_omap, pages_redacted_member. cbn. by destruct pages_member.
Qed.

Lemma success_true_redacted x : Value_eqb x (VBool true) = true -> x = VBool true.
Proof. destruct x as [|[]| | | |]; cbn; congruence. Qed.

Lemma redacted_reports_nothing object :
  bt_sorted object = true -> reports_failure object = false ->
  reports_failure (bt_omap pages_redacted_member object) = false.
Proof.
  unfold reports_failure. intros Hs H. rewrite bt_get_omap by done.
  destruct (bt_get "success" object) as [x|]; [|done].
  apply negb_false_iff in H. by rewrite (success_true_redacted x).
Qed.

(** ** One part at a time *)

Lemma redacted_error_sealed e : sealed_error (redacted_error e) = true.
Proof. unfold redacted_error. destruct (vget "code" e) as [[]|]; reflexivity. Qed.

Lemma redacted_errors_sealed v : sealed_errors (redacted_errors v) = true.
Proof.
  unfold redacted_errors, sealed_errors. cbn. apply forallb_forall. intros ? (e & <- & _)%in_map_iff.
  apply redacted_error_sealed.
Qed.

Lemma redacted_errors_idem v : redacted_errors (redacted_errors v) = redacted_errors v.
Proof.
  unfold redacted_errors. cbn. rewrite map_map. f_equal. apply map_ext. intros e.
  unfold redacted_error. destruct (vget "code" e) as [[]|]; reflexivity.
Qed.

Lemma shown_variable_sealed name entry : sealed_variable (shown_variable name entry) = true.
Proof.
  assert (Hn : valid_variable_name (shown_name name) || (shown_name name =? "[UNRECOGNIZED]") = true).
  { unfold shown_name. destruct (valid_variable_name name) eqn:E; [by rewrite E|done]. }
  assert (Hk : is_null (shown_kind entry) || is_some_and (as_str (shown_kind entry)) variable_kind = true).
  { unfold shown_kind. destruct obind as [kind|]; [|done]. destruct (variable_kind kind) eqn:E; cbn; by rewrite ?E. }
  unfold sealed_variable, projected_entry. unfold shown_variable.
  change (as_object (jobj [("name", VString (shown_name name)); ("type", shown_kind entry)]))
    with (Some [("name", VString (shown_name name)); ("type", shown_kind entry)]).
  change (vindex (jobj [("name", VString (shown_name name)); ("type", shown_kind entry)]) "name")
    with (VString (shown_name name)).
  change (vindex (jobj [("name", VString (shown_name name)); ("type", shown_kind entry)]) "type")
    with (shown_kind entry).
  cbn -[shown_name shown_kind valid_variable_name variable_kind]. by rewrite Hn, Hk.
Qed.

Lemma environment_metadata_idem v : environment_metadata (environment_metadata v) = environment_metadata v.
Proof.
  destruct v as [| | | |entries|variables]; try done; cbn.
  - destruct (forallb projected_entry entries) eqn:E; [cbn; by rewrite E|done].
  - replace (forallb projected_entry _) with true; [done|]. symmetry. apply forallb_forall.
    intros ? (e & <- & _)%in_map_iff.
    pose proof (shown_variable_sealed (fst e) (snd e)) as [H _]%andb_true_iff. exact H.
Qed.

Lemma environment_metadata_sealed v :
  is_someb (as_array v) = false -> sealed_variables (environment_metadata v) = true.
Proof.
  destruct v as [| | | |entries|variables]; try done. intros _. unfold sealed_variables. cbn.
  apply orb_true_iff. right. apply forallb_forall. intros ? (e & <- & _)%in_map_iff. apply shown_variable_sealed.
Qed.

(** What a failure keeps. *)
Lemma failure_fields object key :
  In key FAILURE_FIELDS ->
  exists m, failure_response object = VObject m /\ bt_get key m = bt_get key object.
Proof.
  unfold failure_response, FAILURE_FIELDS. cbn [fold_left]. intros Hin. eexists. split; [reflexivity|].
  assert (Hi : forall k v (m : btree Value), key <> k -> bt_get key (bt_insert k v m) = bt_get key m).
  { intros k v m Hk. rewrite bt_get_insert. apply eqb_false in Hk. by rewrite Hk. }
  assert (Ho : forall k (m : btree Value), key <> k ->
    bt_get key (match bt_get k object with Some value => bt_insert k value m | None => m end) = bt_get key m).
  { intros k m Hk. destruct (bt_get k object); auto. }
  assert (He : forall (m : btree Value), bt_get key m = None ->
    bt_get key (match bt_get key object with Some value => bt_insert key value m | None => m end) = bt_get key object).
  { intros m Hm. destruct (bt_get key object); [|done]. by rewrite bt_get_insert, eqb_refl. }
  destruct Hin as [<-|[<-|[<-|[<-|[]]]]]; repeat first [rewrite Hi by done | rewrite Ho by done]; apply He;
    repeat first [rewrite Ho by done]; reflexivity.
Qed.

Definition failure_members (object : btree Value) : btree Value :=
  match failure_response object with VObject m => m | _ => [] end.

Lemma failure_response_members object : failure_response object = VObject (failure_members object).
Proof. reflexivity. Qed.

Lemma failure_kept object key :
  In key FAILURE_FIELDS -> bt_get key (failure_members object) = bt_get key object.
Proof.
  intros H. destruct (failure_fields object key H) as (m & E & Hm).
  rewrite failure_response_members in E. by injection E as <-.
Qed.

Lemma failure_errors object :
  bt_get "errors" (failure_members object) = Some (redacted_errors (default VNull (bt_get "errors" object))).
Proof. unfold failure_members, failure_response. by rewrite bt_get_insert. Qed.

Lemma failure_result object :
  bt_get "result" (failure_members object) = Some VNull /\
  bt_get "result_info" (failure_members object) = Some VNull.
Proof. unfold failure_members, failure_response. by rewrite !bt_get_insert. Qed.

Lemma failure_keys object e :
  In e (failure_members object) ->
  contains (FAILURE_FIELDS ++ ["result"; "result_info"; "errors"]) (fst e) = true.
Proof.
  set (keys := FAILURE_FIELDS ++ ["result"; "result_info"; "errors"]).
  assert (Hi : forall k v (m : btree Value), contains keys k = true ->
    (forall e, In e m -> contains keys (fst e) = true) ->
    forall e, In e (bt_insert k v m) -> contains keys (fst e) = true).
  { intros k v m Hk Hm [k' v'] [[-> _]|Hin]%bt_insert_in; [done|exact (Hm _ Hin)]. }
  revert e. unfold failure_members, failure_response, FAILURE_FIELDS. do 3 (apply Hi; [done|]). cbn [fold_left].
  repeat match goal with |- context [match bt_get ?k object with _ => _ end] => destruct (bt_get k object) end;
    repeat (apply Hi; [done|]); by intros ? [].
Qed.

Lemma failure_reported object :
  reports_failure object = true -> reports_failure (failure_members object) = true.
Proof. unfold reports_failure. rewrite failure_kept; [done|cbn; auto]. Qed.

Lemma failure_idem object : failure_response (failure_members object) = failure_response object.
Proof.
  unfold failure_response at 1. rewrite failure_errors. cbn [from_option id].
  rewrite redacted_errors_idem. unfold failure_response. do 4 f_equal. unfold FAILURE_FIELDS. cbn [fold_left].
  rewrite !failure_kept by (cbn; auto). done.
Qed.

Lemma failure_sealed object :
  forallb (fun key => is_none_or (bt_get key object) is_scalar) FAILURE_FIELDS = true ->
  sealed_failure (failure_members object) = true.
Proof.
  intros H. unfold sealed_failure. destruct (failure_result object) as [Hr Hi].
  rewrite Hr, Hi, failure_errors. cbn [is_some_and]. rewrite redacted_errors_sealed, !eqb_refl, !andb_true_r.
  apply andb_true_iff. split; [apply forallb_forall, failure_keys|].
  apply forallb_forall. intros key Hk. rewrite failure_kept by done. rewrite forallb_forall in H. auto.
Qed.

Lemma pages_member_idem key value r y :
  pages_member key value r = Some y -> pages_redact_response r = r ->
  pages_member key y (pages_redact_response y) = Some y.
Proof.
  unfold pages_member. destruct (key =? "web_analytics_token"); [done|].
  destruct (key =? "env_vars"); [intros [= <-] _; by rewrite environment_metadata_idem|].
  destruct (key =? "value"); [by intros [= <-]|].
  destruct (contains _ key); intros [= <-] Hr; [by rewrite redacted_errors_idem|by rewrite Hr].
Qed.

Lemma pages_member_sealed key value r y :
  pages_member key value r = Some y -> shaped_member key value (response_shaped value) = true ->
  (response_shaped value = true -> sealed r = true) -> sealed_member key y (sealed y) = true.
Proof.
  unfold pages_member, shaped_member, sealed_member. destruct (key =? "web_analytics_token") eqn:E0; [done|].
  destruct (key =? "env_vars").
  { intros [= <-] Hs _. apply environment_metadata_sealed. by apply negb_true_iff. }
  destruct (key =? "value") eqn:E1; [by intros [= <-]|].
  destruct (contains ["errors"; "messages"] key) eqn:E2; intros [= <-] Hs Hr; [apply redacted_errors_sealed|].
  by apply Hr.
Qed.

Lemma wf_entries m :
  value_wf (VObject m) = true -> bt_sorted m = true /\ forall k x, In (k, x) m -> value_wf x = true.
Proof. cbn. intros [Hs H]%andb_true_iff. split; [done|]. rewrite forallb_forall in H. intros k x. exact (H (k, x)). Qed.

(** The redaction of a Pages response is idempotent: a receipt that stored
    a redacted response and is redacted again on its way out keeps its bytes;
    the array of names and types, the null result of a failure and the bare
    error codes are recognised as what they are. *)
Theorem pages_redaction_is_idempotent value :
  value_wf value = true ->
  pages_redact_response (pages_redact_response value) = pages_redact_response value.
Proof.
  induction value as [|b|n|s|values IH|object IH] using Value_ind'; intros Hw; try done.
  - cbn. f_equal. rewrite map_map. apply value_wf_items in Hw. revert Hw.
    induction IH as [|x l Hx _ IHl]; inversion 1; [done|]. cbn. by rewrite Hx, IHl.
  - apply wf_entries in Hw as [Hs Hm]. destruct (reports_failure object) eqn:Ef.
    + cbn [pages_redact_response]. rewrite Ef, failure_response_members. cbn [pages_redact_response].
      by rewrite failure_reported, failure_idem, failure_response_members.
    + rewrite pages_redact_object by done. rewrite pages_redact_object.
      * f_equal. apply bt_omap_fixed. intros k y (x & Hin & Hf)%bt_omap_in. eapply pages_member_idem; [exact Hf|].
        rewrite List.Forall_forall in IH. apply (IH (k, x) Hin). by eapply Hm.
      * by apply bt_omap_sorted.
      * by apply redacted_reports_nothing.
Qed.

(** C22: a redacted Pages response is sealed: no value of a variable, no
    analytics token and no prose of an error is left anywhere in it, and a
    reported failure is reduced to its status, its tags and its error codes. *)
Theorem pages_redaction_seals_the_response value :
  value_wf value = true -> response_shaped value = true -> sealed (pages_redact_response value) = true.
Proof.
  induction value as [|b|n|s|values IH|object IH] using Value_ind'; intros Hw Hsh; try done.
  - cbn in *. apply value_wf_items in Hw. rewrite List.Forall_forall in Hw, IH. rewrite forallb_forall in *.
    intros ? (x & <- & Hin)%in_map_iff. apply IH; [done|by apply Hw|by apply Hsh].
  - apply wf_entries in Hw as [Hs Hm]. cbn [response_shaped] in Hsh. destruct (reports_failure object) eqn:Ef.
    + cbn [pages_redact_response]. rewrite Ef, failure_response_members. cbn [sealed].
      rewrite failure_reported by done. by apply failure_sealed.
    + rewrite pages_redact_object by done. cbn [sealed]. rewrite redacted_reports_nothing by done.
      rewrite forallb_forall in *. intros [k y] (x & Hin & Hf)%bt_omap_in.
      eapply pages_member_sealed; [exact Hf|exact (Hsh _ Hin)|].
      rewrite List.Forall_forall in IH. apply (IH (k, x) Hin). by eapply Hm.
Qed.

(** An array in the place of the variables is taken for the projection's own
    output when its entries have two members and no type, so its values stay. *)
Lemma array_of_variables_is_kept :
  let response := jobj [("success", VBool true);
    ("result", jobj [("env_vars", VArray [jobj [("name", VString "API_KEY"); ("value", VString "hunter2")]])])] in
  pages_redact_response response = response.
Proof. vm_compute. reflexivity. Qed.

(** A failure keeps its etag as it is, whatever it is. *)
Lemma failure_keeps_its_tags :
  let response := jobj [("success", VBool false); ("etag", jobj [("value", VString "hunter2")])] in
  vget "etag" (pages_redact_response response) = Some (jobj [("value", VString "hunter2")]).
Proof. vm_compute. reflexivity. Qed.

(** ** What the commitment to a configuration commits to *)

Lemma update_object_other token tokens f v k :
  k <> token -> vget k (update_object (token :: tokens) f v) = vget k v.
Proof.
  intros Hk. destruct v as [| | | | |m]; [done..|]. cbn. destruct (bt_get token m); [|done]. cbn.
  rewrite bt_get_insert. apply eqb_false in Hk. by rewrite Hk.
Qed.

Lemma update_object_same token tokens f v :
  vget token (update_object (token :: tokens) f v) = option_map (update_object tokens f) (vget token v).
Proof.
  destruct v as [| | | | |m]; [done..|]. cbn. destruct (bt_get token m) eqn:E; cbn; [|by rewrite E].
  by rewrite bt_get_insert, eqb_refl.
Qed.

(** The member at the end of a path of members. *)
Definition member_at (tokens : list string) (v : Value) : option Value :=
  fold_left (fun t token => obind t (vget token)) tokens (Some v).

Definition snapshot_fields (project : Value) : btree Value :=
  fold_left (fun fields key => bt_insert key (default VNull (vget key project)) fields) COMMITTED_FIELDS [].

Lemma snapshot_field project key :
  In key COMMITTED_FIELDS -> bt_get key (snapshot_fields project) = Some (vindex project key).
Proof.
  intros H. unfold snapshot_fields, COMMITTED_FIELDS, vindex. cbn [fold_left]. cbn in H.
  destruct H as [<-|[<-|[<-|[<-|[<-|[<-|[]]]]]]]; rewrite !bt_get_insert; reflexivity.
Qed.

Lemma snapshot_plain project added key :
  In key COMMITTED_FIELDS -> key <> "deployment_configs" ->
  vget key (configuration_snapshot project added) = Some (vindex project key).
Proof.
  intros Hin Hk. unfold configuration_snapshot. rewrite !update_object_other by done. by apply snapshot_field.
Qed.

(** The deployment configurations of the snapshot. *)
Definition committed_configs (added : list string) (configs : Value) : Value :=
  update_object ["production"; "env_vars"] (bt_without added)
    (update_object ["production"] (or_insert "env_vars" (jobj [])) configs).

Lemma snapshot_configs project added :
  vget "deployment_configs" (configuration_snapshot project added) =
  Some (committed_configs added (vindex project "deployment_configs")).
Proof.
  unfold configuration_snapshot. rewrite !update_object_same. cbn [vget].
  fold (snapshot_fields project). rewrite snapshot_field by (cbn; tauto). reflexivity.
Qed.

Lemma committed_environment added configs k :
  k <> "production" -> vget k (committed_configs added configs) = vget k configs.
Proof. intros Hk. unfold committed_configs. by rewrite !update_object_other. Qed.

Definition committed_production (added : list string) (production : Value) : Value :=
  update_object ["env_vars"] (bt_without added) (update_object [] (or_insert "env_vars" (jobj [])) production).

Lemma committed_production_member added configs :
  vget "production" (committed_configs added configs) =
  option_map (committed_production added) (vget "production" configs).
Proof.
  unfold committed_configs. rewrite !update_object_same. by destruct (vget "production" configs).
Qed.

Lemma or_insert_get key k new m :
  bt_get k (or_insert key new m) =
  if k =? key then Some (default new (bt_get key m)) else bt_get k m.
Proof.
  unfold or_insert. destruct (bt_get key m) as [x|] eqn:E; cbn.
  - destruct (k =? key) eqn:Ek; [|done]. by apply eqb_eq in Ek as ->.
  - by rewrite bt_get_insert.
Qed.

Lemma committed_production_other added production k :
  k <> "env_vars" -> vget k (committed_production added production) = vget k production.
Proof.
  intros Hk. unfold committed_production. rewrite update_object_other by done.
  destruct production as [| | | | |m]; [done..|]. cbn. rewrite or_insert_get.
  apply eqb_false in Hk. by rewrite Hk.
Qed.

Lemma committed_variable added production name :
  value_wf production = true -> ~ In name added ->
  obind (vget "env_vars" (committed_production added production)) (vget name) =
  obind (vget "env_vars" production) (vget name).
Proof.
  intros Hw Hn. unfold committed_production. rewrite update_object_same.
  destruct production as [| | | | |m]; [done..|]. cbn [update_object vget]. rewrite or_insert_get, eqb_refl. cbn.
  assert (Hc : contains added name = false).
  { apply not_true_iff_false. by rewrite contains_true, list_elem_of_In. }
  assert (Hb : forall env : btree Value, bt_sorted env = true -> bt_get name (bt_without added env) = bt_get name env).
  { intros env Hs. destruct (bt_without_spec added env Hs) as [_ H]. by rewrite H, Hc. }
  destruct (bt_get "env_vars" m) as [x|] eqn:E; cbn; [|by rewrite (Hb [])].
  pose proof (value_wf_member _ _ _ Hw E) as Hx. destruct x as [| | | | |env]; [done..|]. cbn.
  apply Hb. by apply value_wf_object in Hx.
Qed.

(** What two configurations have in common when only [added] variables of
    production may differ. *)
Definition configs_preserved (added : list string) (before after : Value) : Prop :=
  (forall k, k <> "production" -> vget k after = vget k before) /\
  (forall k, k <> "env_vars" -> member_at ["production"; k] after = member_at ["production"; k] before) /\
  (forall name, ~ In name added ->
     member_at ["production"; "env_vars"; name] after = member_at ["production"; "env_vars"; name] before).

Lemma committed_configs_preserved added before after :
  value_wf before = true -> value_wf after = true ->
  committed_configs added before = committed_configs added after -> configs_preserved added before after.
Proof.
  intros Hb Ha H.
  assert (Hp : option_map (committed_production added) (vget "production" before) =
               option_map (committed_production added) (vget "production" after))
    by by rewrite <- !committed_production_member, H.
  assert (Hw : forall v p, value_wf v = true -> vget "production" v = Some p -> value_wf p = true).
  { intros [| | | | |m] p; try done. apply value_wf_member. }
  split; [intros k Hk; by rewrite <- (committed_environment added before k), H, committed_environment|].
  unfold member_at. cbn.
  destruct (vget "production" before) as [p|] eqn:Ep, (vget "production" after) as [q|] eqn:Eq;
    try discriminate Hp; [|done]. injection Hp as Hp. cbn. split.
  - intros k Hk. by rewrite <- (committed_production_other added p k), Hp, committed_production_other.
  - intros name Hn. rewrite <- (committed_variable added p name), Hp, committed_variable by eauto. done.
Qed.

Lemma value_wf_vindex v k : value_wf v = true -> value_wf (vindex v k) = true.
Proof.
  intros H. unfold vindex. destruct v as [| | | | |m]; [done..|]. cbn [vget].
  destruct (bt_get k m) eqn:E; [by eapply value_wf_member|done].
Qed.

(** The hash of a configuration without the added names commits to everything
    else: two projects with one hash have the same identity, source and build,
    and the same deployment configurations but for the added variables of
    production; otherwise two different values collide. *)
Theorem configuration_hash_preserves `{Runtime} before after added h :
  value_wf before = true -> value_wf after = true ->
  configuration_hash before added = Ok h -> configuration_hash after added = Ok h ->
  collision \/
  ((forall key, In key COMMITTED_FIELDS -> key <> "deployment_configs" -> vindex after key = vindex before key) /\
   configs_preserved added (vindex before "deployment_configs") (vindex after "deployment_configs")).
Proof.
  intros Hb Ha H1 H2. destruct (hash_value_same _ _ _ H1 H2) as [E|]; [right|by left]. split.
  - intros key Hin Hk. pose proof (snapshot_plain before added key Hin Hk) as S1.
    rewrite E, snapshot_plain in S1 by done. congruence.
  - apply committed_configs_preserved; [by apply value_wf_vindex..|].
    pose proof (snapshot_configs before added) as S1. rewrite E, snapshot_configs in S1. congruence.
Qed.

(** ** The metadata reads no value *)

(** An entry without the value of its variable: its type alone is left. *)
Definition without_value (_ : string) (entry : Value) : Value :=
  match entry with
  | VObject fields => VObject (filter (fun e => fst e = "type") fields)
  | _ => VNull
  end.

Definition environment_without_values : Value -> Value :=
  update_object ["env_vars"] (bt_map without_value).

Definition project_without_values (project : Value) : Value :=
  update_object ["env_vars"] (bt_map without_value)
    (update_object ["deployment_configs"; "production"; "env_vars"] (bt_map without_value)
      (update_object ["deployment_configs"; "preview"; "env_vars"] (bt_map without_value) project)).

Lemma shown_without_value name entry : shown_variable name (without_value name entry) = shown_variable name entry.
Proof.
  unfold shown_variable. do 3 f_equal. unfold shown_kind. destruct entry as [| | | | |m]; try done. cbn.
  replace (bt_get "type" (filter _ m)) with (bt_get "type" m); [done|].
  induction m as [|[k x] m IH]; [done|]. rewrite filter_cons. cbn.
  destruct (decide (k = "type")) as [->|Hk]; cbn; [done|].
  destruct ("type" =? k) eqn:E; [apply eqb_eq in E; congruence|done].
Qed.

Lemma metadata_variables_without o :
  observed_state (option_map (update_object [] (bt_map without_value)) o) metadata_variables = observed_state o metadata_variables.
Proof.
  destruct o as [v|]; [|done]. destruct v as [| | | | |m]; try done.
  unfold metadata_variables. cbn -[Nat.ltb]. unfold bt_map. rewrite length_map, map_map.
  cbn -[Nat.ltb]. destruct (256 <? length m)%nat; [done|].
  erewrite map_ext; [done|]. intros e. apply shown_without_value.
Qed.

Lemma metadata_environment_without o :
  metadata_environment (option_map environment_without_values o) = metadata_environment o.
Proof.
  destruct o as [v|]; [|done]. unfold environment_without_values.
  pose proof (update_object_same "env_vars" [] (bt_map without_value) v) as Hv.
  pose proof (fun k => update_object_other "env_vars" [] (bt_map without_value) v k) as Ho.
  destruct v as [| | | | |m]; try done. unfold metadata_environment. cbn [option_map].
  destruct (update_object ["env_vars"] (bt_map without_value) (VObject m)) as [| | | | |m'] eqn:E;
    try (cbn in E; destruct (bt_get "env_vars" m); discriminate).
  cbn [vget] in Hv. cbn [observed_state as_object obind]. rewrite Hv, metadata_variables_without.
  cbn [vget] in Ho. by rewrite !Ho.
Qed.

Lemma metadata_environment_other tokens f v :
  metadata_environment (Some (update_object ("deployment_configs" :: tokens) f v)) = metadata_environment (Some v).
Proof.
  pose proof (fun k => update_object_other "deployment_configs" tokens f v k) as Ho.
  destruct v as [| | | | |m]; try done. unfold metadata_environment.
  destruct (update_object ("deployment_configs" :: tokens) f (VObject m)) as [| | | | |m'] eqn:E;
    try (cbn in E; destruct (bt_get "deployment_configs" m); discriminate).
  cbn [observed_state as_object obind]. cbn [vget] in Ho. by rewrite !Ho.
Qed.

Lemma child_update_other token tokens f v k :
  k <> token -> metadata_child (Some (update_object (token :: tokens) f v)) k = metadata_child (Some v) k.
Proof.
  intros Hk. pose proof (update_object_other token tokens f v k Hk) as H.
  destruct v as [| | | | |m]; try done. cbn in *. destruct (bt_get token m); done.
Qed.

Lemma child_update_same token tokens f v :
  metadata_child (Some (update_object (token :: tokens) f v)) token =
  option_map (update_object tokens f) (metadata_child (Some v) token).
Proof.
  pose proof (update_object_same token tokens f v) as H.
  destruct v as [| | | | |m]; [by destruct tokens..|]. cbn in *. destruct (bt_get token m); done.
Qed.

Lemma descend_two v a b : descend v [a; b] = obind (metadata_child (Some v) a) (fun x => metadata_child (Some x) b).
Proof. done. Qed.

Lemma descend_update_other token tokens f v a b :
  a <> token -> descend (update_object (token :: tokens) f v) [a; b] = descend v [a; b].
Proof. intros Ha. by rewrite !descend_two, child_update_other. Qed.

Lemma descend_update_beside token token' tokens f v b :
  b <> token' -> descend (update_object (token :: token' :: tokens) f v) [token; b] = descend v [token; b].
Proof.
  intros Hb. rewrite !descend_two, child_update_same.
  destruct (metadata_child (Some v) token) as [x|]; [|done]. cbn [option_map obind]. by apply child_update_other.
Qed.

Lemma descend_update_same token token' tokens f v :
  descend (update_object (token :: token' :: tokens) f v) [token; token'] =
  option_map (update_object tokens f) (descend v [token; token']).
Proof.
  rewrite !descend_two, child_update_same.
  destruct (metadata_child (Some v) token) as [x|]; [|done]. cbn [option_map obind]. by apply child_update_same.
Qed.

(** The metadata of a configuration reads no value of a variable: it is the
    same for a project stripped of all of them. *)
Theorem metadata_reads_no_value project :
  configuration_metadata (project_without_values project) = configuration_metadata project.
Proof.
  unfold configuration_metadata, project_without_values, metadata_triggers.
  rewrite !(update_object_other "env_vars"), !(update_object_other "deployment_configs") by done.
  rewrite !(descend_update_other "env_vars"), !(descend_update_other "deployment_configs" _ _ _ "source") by done.
  rewrite descend_update_same. rewrite (descend_update_beside _ _ _ _ _ "preview") by done.
  rewrite (descend_update_beside _ _ _ _ _ "production") by done. rewrite descend_update_same.
  rewrite !metadata_environment_without.
  pose proof (metadata_environment_without (Some (update_object ["deployment_configs"; "production"; "env_vars"]
    (bt_map without_value) (update_object ["deployment_configs"; "preview"; "env_vars"] (bt_map without_value) project))))
    as Ht.
  cbn [option_map] in Ht. unfold environment_without_values in Ht. by rewrite Ht, !metadata_environment_other.
Qed.

(** ** Examples *)

Definition demo_response : Value := jobj [
  ("success", VBool true); ("errors", VArray []);
  ("result", jobj [("name", VString "farm"); ("web_analytics_token", VString "token");
    ("deployment_configs", jobj [("production", jobj [
       ("env_vars", jobj [("ACCESS_AUD", jobj [("type", VString "secret_text"); ("value", VString "hunter2")]);
                          ("0 bad", VNull)])])])])].

Example demo_redacted :
  pages_redact_response demo_response = jobj [
    ("success", VBool true); ("errors", VArray []);
    ("result", jobj [("name", VString "farm");
      ("deployment_configs", jobj [("production", jobj [
         ("env_vars", VArray [jobj [("name", VString "[UNRECOGNIZED]"); ("type", VNull)];
                              jobj [("name", VString "ACCESS_AUD"); ("type", VString "secret_text")]])])])])].
Proof. vm_compute. reflexivity. Qed.

Example pages_redaction_is_idempotent_witness :
  value_wf demo_response = true /\
  pages_redact_response (pages_redact_response demo_response) = pages_redact_response demo_response.
Proof.
  assert (H : value_wf demo_response = true) by (vm_compute; reflexivity).
  split; [exact H|]. exact (pages_redaction_is_idempotent demo_response H).
Defined.

Example pages_redaction_seals_the_response_witness :
  response_shaped demo_response = true /\ sealed demo_response = false /\
  sealed (pages_redact_response demo_response) = true.
Proof.
  split; [vm_compute; reflexivity|]. split; [vm_compute; reflexivity|].
  apply pages_redaction_seals_the_response; vm_compute; reflexivity.
Defined.

Definition demo_project (variables : list (string * Value)) : Value := jobj [
  ("id", VString "1"); ("name", VString "farm"); ("production_branch", VString "main"); ("created_on", VNull);
  ("deployment_configs", jobj [("preview", VNull); ("production", jobj [("env_vars", jobj variables)])])].

Example demo_direct : project_is_direct (demo_project []) "farm" = true.
Proof. vm_compute. reflexivity. Qed.

Definition demo_variable (value : string) : Value := jobj [("type", VString "plain_text"); ("value", VString value)].
Definition demo_before : Value := demo_project [("OLD", demo_variable "1")].
Definition demo_after : Value := demo_project [("NEW", demo_variable "2"); ("OLD", demo_variable "1")].

Example configuration_hash_preserves_witness :
  demo_before <> demo_after /\
  configuration_hash demo_before ["NEW"] = configuration_hash demo_after ["NEW"] /\
  (collision \/ vget "preview" (vindex demo_after "deployment_configs") = vget "preview" (vindex demo_before "deployment_configs")).
Proof.
  split; [by vm_compute|]. split; [vm_compute; reflexivity|].
  destruct (hash_value_total (configuration_snapshot demo_before ["NEW"])) as [h Hh].
  destruct (configuration_hash_preserves demo_before demo_after ["NEW"] h) as [|[_ [Hc _]]];
    [vm_compute; reflexivity|vm_compute; reflexivity|exact Hh|exact Hh|by left|].
  right. apply Hc. discriminate.
Defined.

Example metadata_of_states :
  let metadata := configuration_metadata (jobj [("deployment_configs", jobj [("production", VNull);
    ("preview", jobj [("d1_databases", jobj []); ("env_vars", VString "hunter2");
                      ("r2_buckets", jobj [("BAD", jobj [("name", VString "Secret/1")])])])])]) in
  vpointer "/production/state" metadata = Some (VString "null") /\
  vpointer "/preview/observed/d1_databases/observed" metadata = Some (VArray []) /\
  vpointer "/preview/observed/r2_buckets/state" metadata = Some (VString "unknown") /\
  vpointer "/preview/observed/variables/state" metadata = Some (VString "unknown") /\
  vpointer "/triggers/path_includes/state" metadata = Some (VString "missing").
Proof. vm_compute. auto 10. Qed.
