(* ===== verification/PrivateRestore.v ===== *)
(** Private captures of an R2 bucket and the restore of one captured object
    (cfctl-core/src/r2_recovery.rs and r2_restore.rs): the capture window, the
    check of a provider record, the semantic metadata a restore writes back and
    the selection it is pinned to. The capability contract of the restore is in
    Contracts. *)

From Stdlib Require Import String Ascii ZArith Lia List Bool.
From stdpp Require Import base option list strings.
From S2P Require Import Prelude Strings Bytes Btree Json Core JsonOps JsonEq CatalogTypes Capability Contracts PlanSet Demo.

Open Scope cf_scope.
Open Scope string_scope.
Open Scope list_scope.
Local Open Scope Z_scope.
Open Scope cf_scope.

(** What the check of a record takes from chrono: the instant of an RFC 3339
    text, and the text of an instant as an HTTP date in UTC. *)
Class HttpDates : Type := {
  parse_instant : string -> option DateTime;
  http_date : DateTime -> string;
}.

(** ** Captures: r2_recovery.rs *)

Definition capture_MAX_BYTES : Z := 300000000.
Definition capture_MAX_OBJECTS : Z := 1000.
Definition capture_MAX_SECONDS : Z := 900.
Definition capture_CAPTURE_ID : string := "r2-capture-private-bucket".
Definition capture_VERIFY_ID : string := "r2-verify-private-capture".

Definition is_sha256 (value : string) : bool :=
  (String.length value =? 64)%nat
  && bytes_all (fun b => is_ascii_digit b || in_range 97 102 b) value.

(** [hash.strip_prefix("sha256:").is_some_and(is_sha256)] *)
Definition evidence_hash_valid (hash : string) : bool := is_some_and (strip_prefix "sha256:" hash) is_sha256.

Record CaptureWindowV1 : Type := mkCaptureWindowV1 {
  window_id : string;
  window_opened_at : DateTime;
  window_expires_at : DateTime;
  window_recovery_binding_sha256 : string;
}.

Record CaptureRequestV2 : Type := mkCaptureRequestV2 {
  capture_schema_version : Z;
  capture_window : CaptureWindowV1;
  capture_token_verification_evidence_hash : string;
  capture_token_policy_evidence_hash : string;
}.

Record CapturedObjectV1 : Type := mkCapturedObjectV1 {
  co_provider_metadata : Value;
  co_blob : string;
  co_sha256 : string;
  co_byte_count : Z;
}.

Record CaptureManifestV1 : Type := mkCaptureManifestV1 {
  cm_schema_version : Z;
  cm_run_id : string;
  cm_account_id : string;
  cm_bucket_name : string;
  cm_window : CaptureWindowV1;
  cm_started_at : DateTime;
  cm_completed_at : DateTime;
  cm_list_pages : Z;
  cm_total_bytes : Z;
  cm_objects : list CapturedObjectV1;
}.

Record CaptureReceiptV1 : Type := mkCaptureReceiptV1 {
  rc_schema_version : Z;
  rc_run_id : string;
  rc_account_id : string;
  rc_bucket_name : string;
  rc_window : CaptureWindowV1;
  rc_started_at : DateTime;
  rc_completed_at : DateTime;
  rc_list_pages : Z;
  rc_object_count : Z;
  rc_total_bytes : Z;
  rc_manifest_sha256 : string;
  rc_capture_complete : bool;
  rc_body_returned : bool;
  rc_recovery_ready : bool;
}.

(** [CaptureManifestV1::receipt] *)
Definition capture_receipt (self : CaptureManifestV1) (manifest_sha256 : string) : CaptureReceiptV1 := {|
  rc_schema_version := 1;
  rc_run_id := cm_run_id self;
  rc_account_id := cm_account_id self;
  rc_bucket_name := cm_bucket_name self;
  rc_window := cm_window self;
  rc_started_at := cm_started_at self;
  rc_completed_at := cm_completed_at self;
  rc_list_pages := cm_list_pages self;
  rc_object_count := Z.of_nat (length (cm_objects self));
  rc_total_bytes := cm_total_bytes self;
  rc_manifest_sha256 := manifest_sha256;
  rc_capture_complete := true;
  rc_body_returned := false;
  rc_recovery_ready := false;
|}.

Definition capture_verifies (cap : CapabilityV1) : bool :=
  ((cap_id cap =? capture_CAPTURE_ID)
   && (cap_permissions cap =? ["Workers R2 Storage Read"])
   && (verif_strategy (cap_verification cap) =? "r2_private_capture"))
  || ((cap_id cap =? capture_VERIFY_ID)
      && is_nil (cap_permissions cap)
      && (verif_strategy (cap_verification cap) =? "private_capture_authenticated_local_integrity")).
Definition capture_capability_matches (cap : CapabilityV1) : bool :=
  ((cap_id cap =? capture_CAPTURE_ID) || (cap_id cap =? capture_VERIFY_ID))
  && (cap_method cap =? "GET")
  && (cap_path cap =? r2_OBJECTS_PATH)
  && negb (cap_mutating cap)
  && (cap_risk cap =? RiskClass_Read)
  && (cap_effect cap =? EffectClass_ReadOnly)
  && capture_verifies cap
  && (cap_adapter_status cap =? AdapterStatus_Native).

Section Windows.
Context `{Runtime}.

(** [CaptureWindowV1::validate] *)
Definition window_validate (self : CaptureWindowV1) (now : DateTime) : result string unit :=
  if negb (canonical_uuid (window_id self))
     || negb (is_sha256 (window_recovery_binding_sha256 self))
     || dt_lt now (window_opened_at self)
     || negb (dt_lt now (window_expires_at self))
     || negb (dt_lt (window_opened_at self) (window_expires_at self))
     || (capture_MAX_SECONDS * 1000000000 <? ns (window_expires_at self) - ns (window_opened_at self))
  then Err "invalid or expired private capture window"
  else Ok tt.

(** [CaptureRequestV2::validate] *)
Definition capture_validate (self : CaptureRequestV2) (now : DateTime) : result string unit :=
  if (capture_schema_version self <>? 2)
     || existsb (fun hash => negb (evidence_hash_valid hash))
          [capture_token_verification_evidence_hash self; capture_token_policy_evidence_hash self]
  then Err "private capture requires version 2 window and current token evidence hashes"
  else window_validate (capture_window self) now.
End Windows.

Section Records.
Context `{HttpDates}.

Definition is_ascii_graphic (b : ascii) : bool := in_range 33 126 b.
Definition double_quote : ascii := ascii_of_N 34.

(** Whether the identity of a record is unsupported. *)
Definition record_identity_unsupported (object : btree Value) : bool :=
  let string key := obind (bt_get key object) as_str in
  is_none_or (string "key") (fun s => is_empty s || (1024 <? Z.of_nat (String.length s)))
  || is_none_or (string "etag") (fun s =>
       is_empty s || (256 <? Z.of_nat (String.length s))
       || negb (bytes_all (fun b => is_ascii_graphic b && (b <>? double_quote)) s))
  || is_none_or (obind (bt_get "size" object) as_u64) (fun s => capture_MAX_BYTES <? s)
  || is_none_or (string "last_modified") (fun s => negb (is_someb (parse_instant s)))
  || negb (is_some_and (string "storage_class") (contains ["Standard"; "InfrequentAccess"]))
  || is_some_and (bt_get "ssec" object) (fun v =>
       match v with VBool false | VNull => false | _ => true end).

Definition HTTP_NAMES : list string :=
  ["cacheControl"; "cacheExpiry"; "contentDisposition"; "contentEncoding"; "contentLanguage"; "contentType"].

Definition is_string (v : Value) : bool := is_someb (as_str v).

(** [object.get(field).filter(|v| !v.is_null())] *)
Definition present_field (field : string) (object : btree Value) : option Value :=
  obind (bt_get field object) (fun v => if is_null v then None else Some v).

(** The body of the loop over [http_metadata] and [custom_metadata]. *)
Definition validate_metadata (object : btree Value) (field : string) : result string unit :=
  match present_field field object with
  | None => Ok tt
  | Some metadata =>
      let? map := ok_or "invalid private object metadata" (as_object metadata) in
      if (field =? "custom_metadata") && existsb (fun v => negb (is_string v)) (bt_values map)
      then Err "invalid private custom metadata"
      else if (field =? "http_metadata")
              && existsb (fun name => is_some_and (bt_get name map) (fun v => negb (is_string v) && negb (is_null v)))
                   HTTP_NAMES
      then Err "invalid private HTTP metadata"
      else Ok tt
  end.

Definition validate_object (value : Value) : result string unit :=
  let? object := ok_or "invalid private object record" (as_object value) in
  if record_identity_unsupported object then Err "unsupported private object identity or size"
  else for_each (validate_metadata object) ["http_metadata"; "custom_metadata"].

(** ** Semantic metadata: r2_restore.rs *)

Definition checked_header_value (value : string) : result string string :=
  if negb (bytes_all (fun b => is_ascii_graphic b || (b =? " "%char)) value)
     || (trim value <>? value)
     || str_contains value "  "
  then Err "private metadata value is not losslessly supported by S3"
  else Ok value.

Definition http_header (name : string) : option string :=
  if name =? "cacheControl" then Some "cache-control"
  else if name =? "cacheExpiry" then Some "expires"
  else if name =? "contentDisposition" then Some "content-disposition"
  else if name =? "contentEncoding" then Some "content-encoding"
  else if name =? "contentLanguage" then Some "content-language"
  else if name =? "contentType" then Some "content-type"
  else None.

Definition http_value (header text : string) : result string string :=
  if header =? "expires" then
    let? expiry := ok_or "unsupported private expiry metadata" (parse_instant text) in
    if (ns expiry mod 1000000000 <>? 0)
    then Err "private expiry cannot be represented losslessly by HTTP"
    else Ok (http_date expiry)
  else checked_header_value text.

(** The body of the loop of [insert_http_metadata]. *)
Definition insert_http_member (headers : btree string) (e : string * Value) : result string (btree string) :=
  let? header := ok_or "private restore has unsupported HTTP metadata" (http_header (fst e)) in
  if is_null (snd e) then Ok headers
  else
    let? text := ok_or "invalid private HTTP metadata" (as_str (snd e)) in
    let? value := http_value header text in
    Ok (bt_insert header value headers).

Fixpoint insert_members (member : btree string -> string * Value -> result string (btree string))
    (l : list (string * Value)) (headers : btree string) : result string (btree string) :=
  match l with
  | [] => Ok headers
  | e :: l => let? headers := member headers e in insert_members member l headers
  end.

Definition insert_http_metadata (http : option Value) (headers : btree string) : result string (btree string) :=
  match http with
  | None | Some VNull => Ok headers
  | Some http =>
      let? map := ok_or "invalid private HTTP metadata" (as_object http) in
      insert_members insert_http_member map headers
  end.

Definition custom_key_supported (key : string) : bool :=
  negb (is_empty key) && (Z.of_nat (String.length key) <=? 128)
  && bytes_all (fun b => is_ascii_lowercase b || is_ascii_digit b || contains ["-"; "_"]%char b) key.

Definition custom_header (key : string) : string := ("x-amz-meta-" ++ key)%string.

Definition insert_custom_member (headers : btree string) (e : string * Value) : result string (btree string) :=
  if negb (custom_key_supported (fst e))
  then Err "private custom metadata key is not losslessly supported by S3"
  else
    let? text := ok_or "invalid private custom metadata" (as_str (snd e)) in
    let? value := checked_header_value text in
    Ok (bt_insert (custom_header (fst e)) value headers).

Definition insert_custom_metadata (custom : option Value) (headers : btree string) : result string (btree string) :=
  match custom with
  | None | Some VNull => Ok headers
  | Some custom =>
      let? map := ok_or "invalid private custom metadata" (as_object custom) in
      insert_members insert_custom_member map headers
  end.

Definition RECORD_FIELDS : list string :=
  ["key"; "size"; "etag"; "last_modified"; "storage_class"; "ssec"; "http_metadata"; "custom_metadata"].

Definition storage_class_header (record : Value) : result string string :=
  match as_str (vindex record "storage_class") with
  | Some class =>
      if class =? "Standard" then Ok "STANDARD"
      else if class =? "InfrequentAccess" then Ok "STANDARD_IA"
      else Err "unsupported private storage class"
  | None => Err "unsupported private storage class"
  end.

Definition header_budget (headers : btree string) : Z :=
  fold_right (fun e total => Z.of_nat (String.length (fst e)) + Z.of_nat (String.length (snd e)) + total) 0 headers.

Definition semantic_headers (record : Value) : result string (btree string) :=
  let? _ := validate_object record in
  let? object := ok_or "invalid private metadata record" (as_object record) in
  if existsb (fun k => negb (contains RECORD_FIELDS k)) (bt_keys object)
  then Err "private restore has unsupported provider metadata"
  else
    let? class := storage_class_header record in
    let headers := bt_insert "x-amz-storage-class" class [] in
    let? headers := insert_http_metadata (bt_get "http_metadata" object) headers in
    let? headers := insert_custom_metadata (bt_get "custom_metadata" object) headers in
    if 8192 <? header_budget headers
    then Err "private restore metadata exceeds its bounded header budget"
    else Ok headers.

Definition key_supported (key : string) : bool :=
  negb (is_empty key) && (Z.of_nat (String.length key) <=? 1024)
  && negb (existsb (contains ["."; ".."]) (split_on "/"%char key)).

Definition validate_restore_member (member : CapturedObjectV1) : result string unit :=
  let metadata := co_provider_metadata member in
  let? _ := validate_object metadata in
  if negb (is_sha256 (co_sha256 member))
     || is_none_or (as_str (vindex metadata "key")) (fun key => negb (key_supported key))
     || negb (as_u64 (vindex metadata "size") =? Some (co_byte_count member))
  then Err "invalid private restore member identity"
  else let? _ := semantic_headers metadata in Ok tt.
End Records.

(** ** Selections *)

Record CaptureRefV1 : Type := mkCaptureRefV1 {
  ref_evidence_hash : string;
  ref_run_id : string;
}.

Inductive CurrentExpectationV1 : Type :=
| Absent
| Present (object_index : Z).

Record RestoreRequestV1 : Type := mkRestoreRequestV1 {
  rr_source_capture : CaptureRefV1;
  rr_source_object_index : Z;
  rr_current_capture : CaptureRefV1;
  rr_expected_current : CurrentExpectationV1;
  rr_token_verification_evidence_hash : string;
  rr_token_policy_evidence_hash : string;
}.

Record RestoreSelectionV1 : Type := mkRestoreSelectionV1 {
  sel_schema_version : Z;
  sel_account_id : string;
  sel_bucket_name : string;
  sel_window : CaptureWindowV1;
  sel_request : RestoreRequestV1;
  sel_source : CapturedObjectV1;
  sel_displaced : option CapturedObjectV1;
}.

Record RestoreObjectResultV1 : Type := mkRestoreObjectResultV1 {
  ror_sha256 : string;
  ror_byte_count : Z;
  ror_semantic_metadata_sha256 : string;
}.

Definition TOKEN_VERIFY_PATH : string := "/accounts/{account_id}/tokens/verify".
Definition TOKEN_POLICY_PATH : string := "/accounts/{account_id}/tokens/{token_id}".

Definition token_read_matches (cap : CapabilityV1) (path : string) : bool :=
  contains [TOKEN_VERIFY_PATH; TOKEN_POLICY_PATH] path
  && (cap_path cap =? path)
  && (cap_method cap =? "GET")
  && negb (cap_mutating cap)
  && (cap_account_scope cap =? "account")
  && (cap_risk cap =? RiskClass_Read)
  && (cap_effect cap =? EffectClass_ReadOnly)
  && contains [AdapterStatus_Native; AdapterStatus_DynamicApi] (cap_adapter_status cap)
  && is_noneb (cap_request_schema cap)
  && is_some_and (cap_response_contract cap) (fun r =>
       (resp_success_statuses r =? ["200"])
       && (resp_body_mode r =? ResponseBodyMode_CloudflareJsonEnvelope)).

Section Selections.
Context `{Runtime} `{HttpDates}.

(** [CaptureRefV1::validate] *)
Definition ref_validate (self : CaptureRefV1) : result string unit :=
  if negb (evidence_hash_valid (ref_evidence_hash self)) || negb (canonical_uuid (ref_run_id self))
  then Err "invalid authenticated capture reference"
  else Ok tt.

(** [RestoreRequestV1::validate] *)
Definition restore_request_validate (self : RestoreRequestV1) : result string unit :=
  let? _ := ref_validate (rr_source_capture self) in
  let? _ := ref_validate (rr_current_capture self) in
  if (capture_MAX_OBJECTS <=? rr_source_object_index self)
     || match rr_expected_current self with
        | Present object_index => capture_MAX_OBJECTS <=? object_index
        | Absent => false
        end
     || existsb (fun h => negb (evidence_hash_valid h))
          [rr_token_verification_evidence_hash self; rr_token_policy_evidence_hash self]
  then Err "invalid private restore member or credential evidence reference"
  else Ok tt.

(** [RestoreSelectionV1::object_key_sha256] *)
Definition object_key_sha256 (self : RestoreSelectionV1) : result string string :=
  let? key := ok_or "invalid private restore object key"
    (obind (as_str (vindex (co_provider_metadata (sel_source self)) "key"))
       (fun key => if key_supported key then Some key else None)) in
  Ok (sha256_hex key).

(** [serde_json::to_value] of the headers, a map of strings. *)
Definition headers_value (headers : btree string) : Value := VObject (bt_map (fun _ => VString) headers).

(** [RestoreSelectionV1::expected_result] *)
Definition expected_result (self : RestoreSelectionV1) : result string RestoreObjectResultV1 :=
  let? _ := validate_restore_member (sel_source self) in
  let? headers := semantic_headers (co_provider_metadata (sel_source self)) in
  let? digest := map_err (fun _ => "invalid private restore metadata digest") (hash_value (headers_value headers)) in
  Ok {| ror_sha256 := co_sha256 (sel_source self);
        ror_byte_count := co_byte_count (sel_source self);
        ror_semantic_metadata_sha256 := digest |}.

Definition restore_target_invalid (self : RestoreSelectionV1) : bool :=
  let bucket := sel_bucket_name self in
  (sel_schema_version self <>? 1)
  || negb (String.length (sel_account_id self) =? 32)%nat
  || negb (bytes_all (fun b => is_ascii_digit b || in_range 97 102 b) (sel_account_id self))
  || negb ((3 <=? Z.of_nat (String.length bucket)) && (Z.of_nat (String.length bucket) <=? 63))
  || negb (bytes_all (fun b => is_ascii_lowercase b || is_ascii_digit b || (b =? "-"%char)) bucket)
  || starts_with bucket "-"
  || ends_with bucket "-".

(** [RestoreSelectionV1::validate] *)
Definition selection_validate (self : RestoreSelectionV1) (now : DateTime) : result string unit :=
  let? _ := restore_request_validate (sel_request self) in
  let? _ := window_validate (sel_window self) now in
  if restore_target_invalid self then Err "invalid private restore target"
  else
    let? _ := validate_restore_member (sel_source self) in
    match rr_expected_current (sel_request self), sel_displaced self with
    | Absent, None => Ok tt
    | Present _, Some displaced =>
        let? _ := validate_restore_member displaced in
        if negb (Value_eqb (vindex (co_provider_metadata displaced) "key")
                   (vindex (co_provider_metadata (sel_source self)) "key"))
        then Err "private restore member target drifted"
        else Ok tt
    | _, _ => Err "private restore current condition drifted"
    end.
End Selections.

(** ** The headers, name by name *)

(** The member of the HTTP metadata a header is taken from. *)
Definition http_member (header : string) : option string :=
  if header =? "cache-control" then Some "cacheControl"
  else if header =? "expires" then Some "cacheExpiry"
  else if header =? "content-disposition" then Some "contentDisposition"
  else if header =? "content-encoding" then Some "contentEncoding"
  else if header =? "content-language" then Some "contentLanguage"
  else if header =? "content-type" then Some "contentType"
  else None.

Lemma http_header_member name header : http_header name = Some header -> http_member header = Some name.
Proof.
  unfold http_header.
  do 6 (destruct (eqb name _) eqn:E; [apply eqb_eq in E as ->; by intros [= <-]|clear E]). done.
Qed.

Section HeaderFacts.
Context `{HttpDates}.

(** What a member of the HTTP metadata becomes; nothing when it is null. *)
Definition http_text (header : string) (v : Value) : option string :=
  obind (as_str v) (fun text => ok_opt (http_value header text)).

Definition member_text (member : string) (name : string) (record : Value) : option Value :=
  obind (vget member record) (vget name).

(** The headers of a record, read off the record. *)
Definition header_spec (record : Value) (name : string) : option string :=
  if name =? "x-amz-storage-class" then ok_opt (storage_class_header record)
  else match http_member name with
       | Some member => obind (member_text "http_metadata" member record) (http_text name)
       | None =>
           match strip_prefix "x-amz-meta-" name with
           | Some key => obind (member_text "custom_metadata" key record) as_str
           | None => None
           end
       end.
End HeaderFacts.

(** ** The headers are the record's *)

Section Lossless.
Context `{HttpDates}.

Lemma insert_members_frame member name l headers headers' :
  (forall hs e hs', member hs e = Ok hs' -> In e l -> bt_get name hs' = bt_get name hs) ->
  insert_members member l headers = Ok headers' -> bt_get name headers' = bt_get name headers.
Proof.
  revert headers; induction l as [|e l IH]; intros headers Hm; cbn; [by intros [= ->]|].
  rewrite res_bind_ok. intros (hs & He & Hl). rewrite (IH hs); [|intros; eapply Hm; [done|by right]|done].
  eapply Hm; [exact He|by left].
Qed.

Lemma insert_http_other hs e hs' name :
  insert_http_member hs e = Ok hs' -> http_header (fst e) <> Some name -> bt_get name hs' = bt_get name hs.
Proof.
  unfold insert_http_member. rewrite res_bind_ok. intros (header & Hh & Hr) Hn.
  destruct (http_header (fst e)) as [h|]; [|done]. injection Hh as ->.
  destruct (is_null (snd e)); [by injection Hr as <-|].
  apply res_bind_ok in Hr as (text & _ & Hr). apply res_bind_ok in Hr as (value & _ & [= <-]).
  rewrite bt_get_insert. destruct (name =? header) eqn:E; [|done]. apply eqb_eq in E. congruence.
Qed.

Lemma insert_http_same hs e hs' name :
  insert_http_member hs e = Ok hs' -> http_header (fst e) = Some name -> bt_get name hs = None ->
  bt_get name hs' = http_text name (snd e).
Proof.
  unfold insert_http_member, http_text. intros Hr Hh Hn. rewrite Hh in Hr. cbn in Hr.
  destruct (is_null (snd e)) eqn:En; [injection Hr as <-; by destruct (snd e)|].
  apply res_bind_ok in Hr as (text & Ht & Hr). apply res_bind_ok in Hr as (value & Hv & [= <-]).
  destruct (as_str (snd e)); [|done]. injection Ht as ->. cbn. by rewrite Hv, bt_get_insert, eqb_refl.
Qed.

Lemma insert_custom_other hs e hs' name :
  insert_custom_member hs e = Ok hs' -> custom_header (fst e) <> name -> bt_get name hs' = bt_get name hs.
Proof.
  unfold insert_custom_member. intros Hr Hn. destruct (custom_key_supported (fst e)); [|done]. cbn in Hr.
  apply res_bind_ok in Hr as (text & _ & Hr). apply res_bind_ok in Hr as (value & _ & [= <-]).
  rewrite bt_get_insert. destruct (name =? custom_header (fst e)) eqn:E; [|done]. apply eqb_eq in E. congruence.
Qed.

Lemma checked_header_value_ok text value : checked_header_value text = Ok value -> value = text.
Proof. unfold checked_header_value. by destruct (_ || _); intros [= ->]. Qed.

Lemma insert_custom_same hs e hs' :
  insert_custom_member hs e = Ok hs' -> bt_get (custom_header (fst e)) hs' = as_str (snd e).
Proof.
  unfold insert_custom_member. intros Hr. destruct (custom_key_supported (fst e)); [|done]. cbn in Hr.
  apply res_bind_ok in Hr as (text & Ht & Hr). apply res_bind_ok in Hr as (value & Hv & [= <-]).
  apply checked_header_value_ok in Hv as ->. rewrite bt_get_insert, eqb_refl.
  destruct (as_str (snd e)); [|done]. by injection Ht as ->.
Qed.

(** A loop that writes the header [name] for the member [key] only. *)
Lemma insert_members_get member (name key : string) (text : Value -> option string) m headers headers' :
  (forall hs e hs', member hs e = Ok hs' -> fst e <> key -> bt_get name hs' = bt_get name hs) ->
  (forall hs e hs', member hs e = Ok hs' -> fst e = key -> bt_get name hs = None -> bt_get name hs' = text (snd e)) ->
  bt_sorted m = true -> bt_get name headers = None -> insert_members member m headers = Ok headers' ->
  bt_get name headers' = obind (bt_get key m) text.
Proof.
  intros Hother Hsame Hs. revert headers; induction m as [|[k v] m IH]; intros headers Hn; [by intros [= <-]|].
  cbn [insert_members bt_get]. rewrite res_bind_ok. intros (hs & He & Hm). apply bt_sorted_cons in Hs as [Ha Hs].
  destruct (key =? k) eqn:E.
  - apply eqb_eq in E as <-. pose proof (Hsame _ _ _ He eq_refl Hn) as Hx. cbn in Hx |- *. rewrite <- Hx. clear Hx.
    eapply insert_members_frame; [|exact Hm]. intros ? [k' v'] ? Hx Hin. eapply Hother; [exact Hx|]. cbn.
    intros ->. pose proof (Ha _ _ Hin) as Hlt. by rewrite str_ltb_irrefl in Hlt.
  - apply eqb_neq in E. eapply IH; [done| |exact Hm]. rewrite (Hother _ _ _ He); [done|]. cbn. congruence.
Qed.

Lemma http_member_header name member : http_member name = Some member -> http_header member = Some name.
Proof.
  unfold http_member.
  do 6 (destruct (eqb name _) eqn:E; [apply eqb_eq in E as ->; by intros [= <-]|clear E]). done.
Qed.

Lemma http_header_not_member name k : http_member name = None -> http_header k <> Some name.
Proof. intros Hn Hk. apply http_header_member in Hk. congruence. Qed.

Definition as_members (o : option Value) : btree Value := default [] (obind o as_object).

Lemma insert_http_metadata_get record name h0 h1 :
  value_wf record = true -> insert_http_metadata (vget "http_metadata" record) h0 = Ok h1 ->
  bt_get name h1 =
  match http_member name with
  | Some member => if is_someb (bt_get name h0) then bt_get name h1
                   else obind (member_text "http_metadata" member record) (http_text name)
  | None => bt_get name h0
  end.
Proof.
  intros Hw. unfold insert_http_metadata, member_text. destruct (vget "http_metadata" record) as [v|] eqn:Ev; cbn.
  2:{ intros [= ->]. destruct (http_member name); [|done]. by destruct (bt_get name h1). }
  assert (Hv : value_wf v = true) by (destruct record; try done; by eapply value_wf_member).
  destruct v as [| | | | |m]; cbn; try done.
  { intros [= ->]. destruct (http_member name); [|done]. by destruct (bt_get name h1). }
  intros Hm. apply value_wf_object in Hv. destruct (http_member name) as [member|] eqn:Em.
  - destruct (bt_get name h0) eqn:E0; [done|]. cbn.
    pose proof (http_member_header _ _ Em) as Hh.
    eapply insert_members_get; [| |exact Hv|exact E0|exact Hm].
    + intros hs e hs' He Hk. eapply insert_http_other; [exact He|]. intros Hx%http_header_member. congruence.
    + intros hs e hs' He Hk Hnone. eapply insert_http_same; [exact He|by rewrite Hk|done].
  - eapply insert_members_frame; [|exact Hm]. intros hs e hs' He _. eapply insert_http_other; [exact He|].
    by apply http_header_not_member.
Qed.

Lemma custom_header_inj k key : custom_header k = custom_header key -> k = key.
Proof. apply str_app_inj_l. Qed.

Lemma insert_custom_metadata_get record name h0 h1 :
  value_wf record = true -> insert_custom_metadata (vget "custom_metadata" record) h0 = Ok h1 ->
  bt_get name h1 =
  match strip_prefix "x-amz-meta-" name with
  | Some key => if is_someb (bt_get name h0) then bt_get name h1
                else obind (member_text "custom_metadata" key record) as_str
  | None => bt_get name h0
  end.
Proof.
  intros Hw. unfold insert_custom_metadata, member_text. destruct (vget "custom_metadata" record) as [v|] eqn:Ev; cbn -[strip_prefix].
  2:{ intros [= ->]. destruct (strip_prefix _ _); [|done]. by destruct (bt_get name h1). }
  assert (Hv : value_wf v = true) by (destruct record; try done; by eapply value_wf_member).
  destruct v as [| | | | |m]; cbn -[strip_prefix]; try done.
  { intros [= ->]. destruct (strip_prefix _ _); [|done]. by destruct (bt_get name h1). }
  intros Hm. apply value_wf_object in Hv. destruct (strip_prefix "x-amz-meta-" name) as [key|] eqn:Ek.
  - destruct (bt_get name h0) eqn:E0; [done|]. cbn. apply strip_prefix_app in Ek. subst name.
    eapply insert_members_get; [| |exact Hv|exact E0|exact Hm].
    + intros hs e hs' He Hk. eapply insert_custom_other; [exact He|]. by intros Hx%custom_header_inj.
    + intros hs e hs' He <- _. by eapply insert_custom_same.
  - eapply insert_members_frame; [|exact Hm]. intros hs e hs' He _. eapply insert_custom_other; [exact He|].
    intros <-. unfold custom_header in Ek. pose proof (proj2 (strip_prefix_app "x-amz-meta-" _ (fst e)) eq_refl) as H'.
    congruence.
Qed.

Lemma http_member_not_custom name member :
  http_member name = Some member ->
  strip_prefix "x-amz-meta-" name = None /\ name <> "x-amz-storage-class".
Proof.
  unfold http_member.
  do 6 (destruct (eqb name _) eqn:E; [apply eqb_eq in E as ->; by intros _|clear E]). done.
Qed.

(** What an accepted record went through. *)
Lemma semantic_headers_inv record h :
  semantic_headers record = Ok h ->
  exists class h1,
    storage_class_header record = Ok class /\
    insert_http_metadata (vget "http_metadata" record) [("x-amz-storage-class", class)] = Ok h1 /\
    insert_custom_metadata (vget "custom_metadata" record) h1 = Ok h.
Proof.
  unfold semantic_headers. rewrite res_bind_ok. intros (_ & _ & Hr). apply res_bind_ok in Hr as (object & Ho & Hr).
  destruct record as [| | | | |m]; try done. injection Ho as <-.
  destruct (existsb _ (bt_keys m)); [done|].
  apply res_bind_ok in Hr as (class & Hc & Hr). apply res_bind_ok in Hr as (h1 & H1 & Hr).
  apply res_bind_ok in Hr as (h2 & H2 & Hr). destruct (8192 <? header_budget h2); [done|].
  injection Hr as <-. exists class, h1. done.
Qed.

(** The headers of an accepted record are exactly those read off the record. *)
Lemma semantic_headers_get record h name :
  value_wf record = true -> semantic_headers record = Ok h -> bt_get name h = header_spec record name.
Proof.
  intros Hw Hh. destruct (semantic_headers_inv _ _ Hh) as (class & h1 & Hc & H1 & H2).
  rewrite (insert_custom_metadata_get _ name _ _ Hw H2). pose proof (insert_http_metadata_get _ name _ _ Hw H1) as G1.
  unfold header_spec. cbn [bt_get] in G1. destruct (name =? "x-amz-storage-class") eqn:En.
  - apply eqb_eq in En as ->. change (http_member "x-amz-storage-class") with (@None string) in G1.
    rewrite Hc. exact G1.
  - destruct (http_member name) as [member|] eqn:Em.
    + destruct (http_member_not_custom _ _ Em) as [-> _]. by rewrite G1.
    + rewrite G1. by destruct (strip_prefix _ _).
Qed.

Lemma insert_members_each member l headers headers' e :
  insert_members member l headers = Ok headers' -> In e l -> exists hs hs', member hs e = Ok hs'.
Proof.
  revert headers; induction l as [|e0 l IH]; intros headers; cbn; [by intros _ []|].
  rewrite res_bind_ok. intros (hs & He & Hl) [<-|Hin]; [eauto|by eapply IH].
Qed.

(** A custom member is a string, and an HTTP member null or a text with a header. *)
Lemma custom_member_is_text record h0 h1 key v :
  insert_custom_metadata (vget "custom_metadata" record) h0 = Ok h1 ->
  member_text "custom_metadata" key record = Some v -> exists text, v = VString text.
Proof.
  unfold insert_custom_metadata, member_text. destruct (vget "custom_metadata" record) as [[| | | | |m]|]; cbn; try done.
  intros Hm Hg. apply bt_get_in in Hg. destruct (insert_members_each _ _ _ _ _ Hm Hg) as (hs & hs' & He).
  revert He. unfold insert_custom_member. cbn [fst snd]. destruct (custom_key_supported key); [|done]. cbn.
  rewrite res_bind_ok. intros (text & Ht & _). destruct v; try done. eauto.
Qed.

Lemma http_member_is_text record h0 h1 member header v :
  insert_http_metadata (vget "http_metadata" record) h0 = Ok h1 -> http_member header = Some member ->
  member_text "http_metadata" member record = Some v ->
  v = VNull \/ exists text value, v = VString text /\ http_value header text = Ok value.
Proof.
  unfold insert_http_metadata, member_text. intros Hm Hh. destruct (vget "http_metadata" record) as [[| | | | |m]|];
    cbn in *; try done.
  intros Hg. apply bt_get_in in Hg. destruct (insert_members_each _ _ _ _ _ Hm Hg) as (hs & hs' & He).
  revert He. unfold insert_http_member. cbn [fst snd]. rewrite (http_member_header _ _ Hh). cbn.
  destruct (is_null v) eqn:En; [by destruct v; try done; left|].
  rewrite res_bind_ok. intros (text & Ht & Hv). apply res_bind_ok in Hv as (value & Hv & _).
  destruct v; try done. injection Ht as ->. right. eauto.
Qed.

(** What a member of the HTTP metadata means: an instant for the expiry, else
    its text; null means the same as absence. *)
Definition http_meaning (member : string) (record : Value) : option (string + DateTime) :=
  obind (obind (member_text "http_metadata" member record) as_str) (fun text =>
    if member =? "cacheExpiry" then option_map inr (parse_instant text) else Some (inl text)).

(** The HTTP dates of whole seconds tell them apart. *)
Class HttpDatesInjective : Prop :=
  http_date_inj : forall a b, ns a mod 1000000000 = 0 -> ns b mod 1000000000 = 0 -> http_date a = http_date b -> a = b.

Lemma http_value_means `{HttpDatesInjective} header member a b value :
  http_member header = Some member -> http_value header a = Ok value -> http_value header b = Ok value ->
  if member =? "cacheExpiry" then parse_instant a = parse_instant b else a = b.
Proof.
  intros Hh. unfold http_value.
  assert (Hx : (header =? "expires") = (member =? "cacheExpiry")).
  { revert Hh. unfold http_member.
    do 6 (destruct (eqb header _) eqn:E; [apply eqb_eq in E as ->; by intros [= <-]|clear E]). done. }
  rewrite Hx. destruct (member =? "cacheExpiry").
  - rewrite !res_bind_ok. intros (x & Hx1 & Ha) (y & Hy & Hb).
    destruct (parse_instant a) as [x'|]; [|done]. destruct (parse_instant b) as [y'|]; [|done].
    injection Hx1 as ->. injection Hy as ->. f_equal.
    destruct (ns x mod 1000000000 =? 0) eqn:Ex; [|done]. destruct (ns y mod 1000000000 =? 0) eqn:Ey; [|done].
    apply eqb_eq in Ex, Ey. apply http_date_inj; [done..|]. cbn in *. congruence.
  - intros ->%checked_header_value_ok Hb. apply checked_header_value_ok in Hb. congruence.
Qed.

Lemma http_meaning_of_headers `{HttpDatesInjective} r1 r2 h member :
  value_wf r1 = true -> value_wf r2 = true -> semantic_headers r1 = Ok h -> semantic_headers r2 = Ok h ->
  In member HTTP_NAMES -> http_meaning member r1 = http_meaning member r2.
Proof.
  intros Hw1 Hw2 Hh1 Hh2 Hin.
  assert (exists header, http_member header = Some member /\ header <> "x-amz-storage-class") as (header & Hm & Hne).
  { cbn in Hin. destruct Hin as [<-|[<-|[<-|[<-|[<-|[<-|[]]]]]]];
      [by exists "cache-control"|by exists "expires"|by exists "content-disposition"|by exists "content-encoding"
      |by exists "content-language"|by exists "content-type"]. }
  pose proof (semantic_headers_get r1 h header Hw1 Hh1) as G1.
  rewrite (semantic_headers_get r2 h header Hw2 Hh2) in G1.
  destruct (semantic_headers_inv _ _ Hh1) as (? & ? & _ & I1 & _), (semantic_headers_inv _ _ Hh2) as (? & ? & _ & I2 & _).
  unfold header_spec in G1. apply eqb_false in Hne. rewrite Hne, Hm in G1. unfold http_meaning.
  pose proof (fun v => http_member_is_text _ _ _ _ _ v I1 Hm) as T1.
  pose proof (fun v => http_member_is_text _ _ _ _ _ v I2 Hm) as T2.
  destruct (member_text "http_metadata" member r1) as [v1|], (member_text "http_metadata" member r2) as [v2|];
    try destruct (T1 _ eq_refl) as [->|(a & s1 & -> & Ha)]; try destruct (T2 _ eq_refl) as [->|(b & s2 & -> & Hb)];
    cbn in G1 |- *; try unfold http_text in G1; cbn in G1; try done;
    rewrite ?Ha, ?Hb in G1; cbn in G1; try done.
  injection G1 as ->. pose proof (http_value_means _ _ _ _ _ Hm Ha Hb) as Hv.
  destruct (member =? "cacheExpiry"); [by rewrite Hv|by rewrite Hv].
Qed.

Lemma storage_class_of_headers r1 r2 class :
  storage_class_header r1 = Ok class -> storage_class_header r2 = Ok class ->
  vindex r1 "storage_class" = vindex r2 "storage_class".
Proof.
  unfold storage_class_header.
  destruct (vindex r1 "storage_class") as [| | |s| |], (vindex r2 "storage_class") as [| | |t| |]; cbn; try done.
  destruct (s =? "Standard") eqn:A1, (t =? "Standard") eqn:B1;
    try destruct (s =? "InfrequentAccess") eqn:A2; try destruct (t =? "InfrequentAccess") eqn:B2; try done;
    repeat match goal with H : (_ =? _) = true |- _ => apply eqb_eq in H as -> end; congruence.
Qed.

(** Two records a restore takes for the same stored metadata. *)
Definition same_metadata (r1 r2 : Value) : Prop :=
  vindex r1 "storage_class" = vindex r2 "storage_class" /\
  (forall member, In member HTTP_NAMES -> http_meaning member r1 = http_meaning member r2) /\
  (forall key, member_text "custom_metadata" key r1 = member_text "custom_metadata" key r2).

(** Only metadata that can be restored without loss is accepted: two records
    with the same headers have the same storage class, the same meaning of
    every HTTP member, down to the instant of the expiry, and the same custom
    metadata. *)
Lemma semantic_headers_lossless `{HttpDatesInjective} r1 r2 h :
  value_wf r1 = true -> value_wf r2 = true ->
  semantic_headers r1 = Ok h -> semantic_headers r2 = Ok h -> same_metadata r1 r2.
Proof.
  intros Hw1 Hw2 Hh1 Hh2.
  pose proof (fun name => semantic_headers_get r1 h name Hw1 Hh1) as G1.
  pose proof (fun name => semantic_headers_get r2 h name Hw2 Hh2) as G2.
  destruct (semantic_headers_inv _ _ Hh1) as (c1 & ? & Hc1 & _ & I1), (semantic_headers_inv _ _ Hh2) as (c2 & ? & Hc2 & _ & I2).
  split; [|split].
  - specialize (G1 "x-amz-storage-class"). specialize (G2 "x-amz-storage-class"). rewrite G1 in G2.
    unfold header_spec in G2. cbn in G2. rewrite Hc1, Hc2 in G2. injection G2 as ->. by eapply storage_class_of_headers.
  - intros member. by eapply http_meaning_of_headers.
  - intros key. specialize (G1 (custom_header key)). specialize (G2 (custom_header key)). rewrite G1 in G2.
    unfold header_spec in G2. change (custom_header key =? "x-amz-storage-class") with false in G2.
    change (http_member (custom_header key)) with (@None string) in G2.
    rewrite (proj2 (strip_prefix_app "x-amz-meta-" (custom_header key) key) eq_refl) in G2.
    pose proof (fun v => custom_member_is_text _ _ _ key v I1) as T1.
    pose proof (fun v => custom_member_is_text _ _ _ key v I2) as T2.
    destruct (member_text "custom_metadata" key r1) as [v1|], (member_text "custom_metadata" key r2) as [v2|];
      try destruct (T1 _ eq_refl) as (a & ->); try destruct (T2 _ eq_refl) as (b & ->); cbn in G2; congruence.
Qed.
End Lossless.

(** ** What a restore is pinned to *)

Lemma headers_value_inj h1 h2 : headers_value h1 = headers_value h2 -> h1 = h2.
Proof.
  unfold headers_value, bt_map. intros [= E]. revert h2 E.
  induction h1 as [|[k v] h1 IH]; intros [|[k2 v2] h2]; cbn; try done.
  intros [= -> -> E]. f_equal. by apply IH.
Qed.

Section Pinned.
Context `{Runtime} `{HttpDates}.

Lemma expected_result_inv self r :
  expected_result self = Ok r ->
  exists headers digest,
    semantic_headers (co_provider_metadata (sel_source self)) = Ok headers /\
    hash_value (headers_value headers) = Ok digest /\
    r = mkRestoreObjectResultV1 (co_sha256 (sel_source self)) (co_byte_count (sel_source self)) digest.
Proof.
  unfold expected_result. rewrite res_bind_ok. intros (_ & _ & Hr). apply res_bind_ok in Hr as (headers & Hh & Hr).
  apply res_bind_ok in Hr as (digest & Hd & [= <-]). exists headers, digest. split; [done|].
  by destruct (hash_value (headers_value headers)) as [d|]; cbn in Hd; [injection Hd as ->|].
Qed.

Lemma validate_member_ok member :
  validate_restore_member member = Ok tt ->
  (exists headers, semantic_headers (co_provider_metadata member) = Ok headers) /\
  is_some_and (as_str (vindex (co_provider_metadata member) "key")) key_supported = true /\
  as_u64 (vindex (co_provider_metadata member) "size") = Some (co_byte_count member).
Proof.
  unfold validate_restore_member. rewrite res_bind_ok. intros (_ & _ & Hr).
  destruct (_ || _) eqn:E in Hr; [done|]. apply res_bind_ok in Hr as (headers & Hh & _).
  split; [eauto|]. apply orb_false_iff in E as [[_ Hk]%orb_false_iff Hs]. apply negb_false_iff, eqb_eq in Hs.
  split; [|done]. destruct (as_str _) as [key|]; [|done]. by apply negb_false_iff in Hk.
Qed.

Lemma window_validate_ok self now :
  window_validate self now = Ok tt ->
  ns (window_opened_at self) <= ns now < ns (window_expires_at self) /\
  ns (window_expires_at self) - ns (window_opened_at self) <= capture_MAX_SECONDS * 1000000000.
Proof.
  unfold window_validate. destruct (_ || _) eqn:E; [done|]. intros _.
  rewrite !orb_false_iff, !negb_false_iff in E. unfold dt_lt in E.
  rewrite !Z.ltb_lt, !Z.ltb_ge in E. lia.
Qed.

(** C20: the expected result of a restore commits to what is restored: two
    selections with one expected result have the same bytes, by their digest
    and count, and the same stored metadata - storage class, HTTP metadata down
    to the instant of the expiry, and custom metadata - or two different values
    collide under the content hash. *)
Theorem expected_result_commits_to_the_object `{!HttpDatesInjective} s1 s2 result :
  value_wf (co_provider_metadata (sel_source s1)) = true -> value_wf (co_provider_metadata (sel_source s2)) = true ->
  expected_result s1 = Ok result -> expected_result s2 = Ok result ->
  co_sha256 (sel_source s1) = co_sha256 (sel_source s2) /\
  co_byte_count (sel_source s1) = co_byte_count (sel_source s2) /\
  (collision \/ same_metadata (co_provider_metadata (sel_source s1)) (co_provider_metadata (sel_source s2))).
Proof.
  intros Hw1 Hw2 (h1 & d1 & Hh1 & Hd1 & ->)%expected_result_inv (h2 & d2 & Hh2 & Hd2 & [= Hs Hb <-])%expected_result_inv.
  split; [done|]. split; [done|].
  destruct (hash_value_same _ _ _ Hd1 Hd2) as [E|]; [right|by left].
  apply headers_value_inj in E as <-. by eapply semantic_headers_lossless.
Qed.

(** C21: a validated selection can always be restored and verified: it is valid
    now and for at most 900 seconds, the digests of its key and of its expected
    result exist, the bytes it expects are as many as the provider recorded,
    and an object it displaces is a captured one under the same key, expected
    exactly when the selection names it. *)
Theorem validated_selection_is_restorable `{!RuntimeTotal} self now :
  selection_validate self now = Ok tt ->
  ns (window_opened_at (sel_window self)) <= ns now < ns (window_expires_at (sel_window self)) /\
  ns (window_expires_at (sel_window self)) - ns (window_opened_at (sel_window self)) <= 900 * 1000000000 /\
  (exists key result, object_key_sha256 self = Ok key /\ expected_result self = Ok result /\
     as_u64 (vindex (co_provider_metadata (sel_source self)) "size") = Some (ror_byte_count result)) /\
  match rr_expected_current (sel_request self) with
  | Absent => sel_displaced self = None
  | Present _ => exists displaced, sel_displaced self = Some displaced /\ validate_restore_member displaced = Ok tt /\
      vindex (co_provider_metadata displaced) "key" =j vindex (co_provider_metadata (sel_source self)) "key"
  end.
Proof.
  unfold selection_validate. rewrite res_bind_ok. intros (_ & _ & Hr).
  apply res_bind_ok in Hr as ([] & Hwin & Hr). destruct (restore_target_invalid self); [done|].
  apply res_bind_ok in Hr as ([] & Hsrc & Hr). apply window_validate_ok in Hwin as [Hnow Hlen].
  split; [done|]. split; [exact Hlen|]. split.
  - pose proof Hsrc as ([headers Hh] & Hk & Hb)%validate_member_ok.
    unfold object_key_sha256, expected_result. rewrite Hsrc, Hh. cbn.
    destruct (hash_value_total (headers_value headers)) as [digest ->]. cbn.
    destruct (as_str _) as [key|]; [|done]. cbn in Hk |- *. rewrite Hk. cbn. do 2 eexists. split; [done|]. by split.
  - destruct (rr_expected_current (sel_request self)) as [|i], (sel_displaced self) as [displaced|]; try done.
    apply res_bind_ok in Hr as ([] & Hd & Hr). exists displaced. split; [done|]. split; [done|].
    unfold json_same. by destruct (Value_eqb _ _).
Qed.
End Pinned.

(** ** Examples *)

(** Two spellings of one instant. *)
#[local] Instance demo_dates : HttpDates := {|
  parse_instant s :=
    if contains ["2026-09-07T00:00:00-05:00"; "2026-09-07T05:00:00Z"] s
    then Some (Timestamp (1788757200 * 1000000000))
    else if s =? "2026-08-07T00:00:00Z" then Some (Timestamp (1786060800 * 1000000000)) else None;
  http_date := rfc3339 |}.

Definition demo_record (http : list (string * Value)) : Value := jobj [
  ("key", VString "docs/zero-byte"); ("etag", VString "original-etag"); ("size", VNumber (PosInt 3));
  ("last_modified", VString "2026-08-07T00:00:00Z"); ("storage_class", VString "InfrequentAccess");
  ("http_metadata", jobj http);
  ("custom_metadata", jobj [("document-id", VString "private-id")])].

Definition demo_digest : string := "aaaaaaaaaaaaaaaaaaaaaaaaaaaaaaaaaaaaaaaaaaaaaaaaaaaaaaaaaaaaaaaa".
Definition demo_hash : string := ("sha256:" ++ demo_digest)%string.
Definition demo_uuid : string := "11111111-2222-4333-8444-555555555555".
Definition demo_ref : CaptureRefV1 := mkCaptureRefV1 demo_hash demo_uuid.
Definition demo_object (http : list (string * Value)) : CapturedObjectV1 :=
  mkCapturedObjectV1 (demo_record http) "0" demo_digest 3.
Definition demo_selection (http : list (string * Value)) : RestoreSelectionV1 := {|
  sel_schema_version := 1;
  sel_account_id := "aaaaaaaaaaaaaaaaaaaaaaaaaaaaaaaa";
  sel_bucket_name := "private-bucket";
  sel_window := mkCaptureWindowV1 demo_uuid (Timestamp 0) (Timestamp (900 * 1000000000)) demo_digest;
  sel_request := mkRestoreRequestV1 demo_ref 0 demo_ref (Present 1) demo_hash demo_hash;
  sel_source := demo_object http;
  sel_displaced := Some (demo_object []);
|}.
Definition demo_http_one : list (string * Value) :=
  [("cacheExpiry", VString "2026-09-07T00:00:00-05:00"); ("contentType", VString "application/pdf")].
Definition demo_http_two : list (string * Value) :=
  [("cacheExpiry", VString "2026-09-07T05:00:00Z"); ("contentType", VString "application/pdf");
   ("contentLanguage", VNull)].

Example headers_of_a_record :
  semantic_headers (demo_record demo_http_one) = Ok [
    ("content-type", "application/pdf"); ("expires", rfc3339 (Timestamp (1788757200 * 1000000000)));
    ("x-amz-meta-document-id", "private-id"); ("x-amz-storage-class", "STANDARD_IA")].
Proof. vm_compute. reflexivity. Qed.

Example the_limit_has_the_precision_of_a_nanosecond :
  let window expires := mkCaptureWindowV1 demo_uuid (Timestamp 0) (Timestamp expires) demo_digest in
  window_validate (window (900 * 1000000000)) (Timestamp 0) = Ok tt /\
  is_ok (window_validate (window (900 * 1000000000 + 1)) (Timestamp 0)) = false /\
  is_ok (window_validate (window (900 * 1000000000)) (Timestamp (900 * 1000000000))) = false.
Proof. vm_compute. auto. Qed.

#[local] Instance demo_dates_injective : HttpDatesInjective.
Proof. intros a b _ _. apply rfc3339_inj. Qed.

Definition demo_result : RestoreObjectResultV1 :=
  match expected_result (demo_selection demo_http_one) with
  | Ok result => result
  | Err _ => mkRestoreObjectResultV1 "" 0 ""
  end.

Example expected_result_commits_to_the_object_witness :
  expected_result (demo_selection demo_http_one) = Ok demo_result /\
  expected_result (demo_selection demo_http_two) = Ok demo_result /\
  demo_record demo_http_one <> demo_record demo_http_two /\
  (collision \/ same_metadata (demo_record demo_http_one) (demo_record demo_http_two)).
Proof.
  assert (H1 : expected_result (demo_selection demo_http_one) = Ok demo_result) by (vm_compute; reflexivity).
  assert (H2 : expected_result (demo_selection demo_http_two) = Ok demo_result) by (vm_compute; reflexivity).
  split; [exact H1|]. split; [exact H2|]. split; [by vm_compute|].
  refine (proj2 (proj2 (expected_result_commits_to_the_object (demo_selection demo_http_one)
    (demo_selection demo_http_two) demo_result _ _ H1 H2))); vm_compute; reflexivity.
Defined.

Example validated_selection_is_restorable_witness :
  selection_validate (demo_selection demo_http_one) (Timestamp 5) = Ok tt /\
  exists key result, object_key_sha256 (demo_selection demo_http_one) = Ok key /\
    expected_result (demo_selection demo_http_one) = Ok result /\ ror_byte_count result = 3.
Proof.
  assert (Hv : selection_validate (demo_selection demo_http_one) (Timestamp 5) = Ok tt) by (vm_compute; reflexivity).
  split; [exact Hv|].
  destruct (validated_selection_is_restorable _ _ Hv) as (_ & _ & (key & result & Hk & Hr & Hb) & _).
  exists key, result. split; [exact Hk|]. split; [exact Hr|]. change (Some 3 = Some (ror_byte_count result)) in Hb. congruence.
Defined.
