(* ===== verification/EmailRouting.v ===== *)
(** Projections of Email Routing rules (cfctl-core/src/email_routing.rs): a
    listing of provider rules reduced to identifiers, types, digests, counts
    and Worker targets, or a diagnostic that names what was wrong without
    quoting it. *)

From Stdlib Require Import String Ascii ZArith Lia List Bool.
From stdpp Require Import base option list strings.
From S2P Require Import Prelude Strings Bytes Btree Json Core JsonOps CatalogTypes Capability RulesetRules Demo.

Open Scope cf_scope.
Open Scope string_scope.
Open Scope list_scope.
Local Open Scope Z_scope.
Open Scope cf_scope.

Definition EMAIL_ROUTING_RULES_LIST_CAPABILITY_ID : string := "email-routing-routing-rules-list-routing-rules".
Definition EMAIL_ROUTING_RULES_LIST_PATH : string := "/zones/{zone_id}/email/routing/rules".
Definition EMAIL_ROUTING_ACCOUNT_RULES_LIST_CAPABILITY_ID : string :=
  "email-routing-account-rules-list-routing-rules".
Definition EMAIL_ROUTING_ACCOUNT_RULES_LIST_PATH : string := "/accounts/{account_id}/email/routing/rules".
Definition EMAIL_ROUTING_RULES_PAGE_SIZE : Z := 50.
Definition EMAIL_ROUTING_RULES_MAX_PAGES : Z := 100.
Definition EMAIL_ROUTING_RULES_MAX_MATCHERS : Z := 32.
Definition EMAIL_ROUTING_RULES_MAX_ACTIONS : Z := 32.
Definition EMAIL_ROUTING_RULES_MAX_ACTION_VALUES : Z := 100.
Definition EMAIL_ROUTING_RULES_MAX_STRING_BYTES : Z := 4096.
Definition EMAIL_ROUTING_RULE_IDENTIFIER_MAX_BYTES : Z := 32.

Record EmailRoutingMatcherV1 : Type := mkEmailRoutingMatcherV1 {
  em_matcher_type : string;
  em_field : option string;
  em_value_sha256 : option string;
}.

Record EmailRoutingActionV1 : Type := mkEmailRoutingActionV1 {
  ea_action_type : string;
  ea_worker_targets : list string;
  ea_value_count : Z;
}.

Record EmailRoutingRuleV1 : Type := mkEmailRoutingRuleV1 {
  er_rule_identifier : string;
  er_enabled : bool;
  er_zone_name_sha256 : option string;
  er_zone_tag_sha256 : option string;
  er_matchers : list EmailRoutingMatcherV1;
  er_actions : list EmailRoutingActionV1;
}.

Record EmailRoutingRuleSetV1 : Type := mkEmailRoutingRuleSetV1 {
  es_schema_version : Z;
  es_complete : bool;
  es_page_size : Z;
  es_pages : Z;
  es_rule_count : Z;
  es_rules : list EmailRoutingRuleV1;
}.

Record EmailRoutingRuleDiagnosticV1 : Type := mkEmailRoutingRuleDiagnosticV1 {
  ed_schema_version : Z;
  ed_code : string;
  ed_rule_index : option Z;
  ed_component : string;
}.

(** [EmailRoutingRuleDiagnosticV1::new] *)
Definition diagnostic (code : string) (rule_index : option Z) (component : string) : EmailRoutingRuleDiagnosticV1 :=
  mkEmailRoutingRuleDiagnosticV1 1 code rule_index component.

Abbreviation email_result := (result EmailRoutingRuleDiagnosticV1).

Definition is_email_routing_rules_list_capability (capability : CapabilityV1) : bool :=
  (((cap_id capability =? EMAIL_ROUTING_RULES_LIST_CAPABILITY_ID)
    && (cap_path capability =? EMAIL_ROUTING_RULES_LIST_PATH))
   || ((cap_id capability =? EMAIL_ROUTING_ACCOUNT_RULES_LIST_CAPABILITY_ID)
       && (cap_path capability =? EMAIL_ROUTING_ACCOUNT_RULES_LIST_PATH)))
  && (cap_method capability =? "GET")
  && negb (cap_mutating capability)
  && is_some_and (cap_response_contract capability) (fun contract =>
       resp_body_mode contract =? ResponseBodyMode_CloudflareJsonEnvelope).

Definition byte_len (s : string) : Z := Z.of_nat (String.length s).

Definition bounded_email_routing_string (value : option Value) : option string :=
  obind (obind value as_str) (fun value =>
    if negb (is_empty value) && (byte_len value <=? EMAIL_ROUTING_RULES_MAX_STRING_BYTES) && negb (has_control value)
    then Some value else None).

Definition bounded_identifier (value : option Value) : option string :=
  obind (bounded_email_routing_string value) (fun identifier =>
    if (byte_len identifier <=? EMAIL_ROUTING_RULE_IDENTIFIER_MAX_BYTES)
       && bytes_all (fun byte => is_ascii_alphanumeric byte || contains ["-"; "_"]%char byte) identifier
    then Some identifier else None).

Definition domain_label_invalid (label : string) : bool :=
  is_empty label || (63 <? byte_len label) || starts_with label "-" || ends_with label "-"
  || negb (bytes_all (fun byte => is_ascii_alphanumeric byte || (byte =? "-"%char)) label).

Definition normalize_email_routing_domain (value : string) : option string :=
  let normalized := to_ascii_lowercase (trim_end_matches "."%char (trim value)) in
  if is_empty normalized || (253 <? byte_len normalized) || negb (str_contains normalized ".")
     || existsb domain_label_invalid (split_on "."%char normalized)
  then None else Some normalized.

Definition bounded_email_routing_array (value : option Value) (maximum : Z) (code : string) (rule_index : Z)
    (component : string) : email_result (list Value) :=
  ok_or (diagnostic code (Some rule_index) component)
    (obind (obind value as_array) (fun values =>
       if negb (is_nil values) && (Z.of_nat (length values) <=? maximum) then Some values else None)).

Section Normalize.
Context `{Runtime}.

Definition email_digest (text : string) : string := ("sha256:" ++ sha256_hex text)%string.

Definition normalize_email_routing_matcher (value : Value) (rule_index : Z) : email_result EmailRoutingMatcherV1 :=
  let error code component := diagnostic code (Some rule_index) component in
  let? matcher := ok_or (error "matcher_not_object" "matcher") (as_object value) in
  let? matcher_type := ok_or (error "matcher_type_invalid" "matcher.type")
                         (bounded_email_routing_string (bt_get "type" matcher)) in
  match bt_get "field" matcher, bt_get "value" matcher with
  | None, None => Ok (mkEmailRoutingMatcherV1 matcher_type None None)
  | Some field, Some value =>
      let? field := ok_or (error "matcher_field_invalid" "matcher.field")
                      (bounded_email_routing_string (Some field)) in
      let? value := ok_or (error "matcher_value_invalid" "matcher.value")
                      (bounded_email_routing_string (Some value)) in
      Ok (mkEmailRoutingMatcherV1 matcher_type (Some field) (Some (email_digest value)))
  | _, _ => Err (error "matcher_pair_incomplete" "matcher")
  end.
End Normalize.

(** The values of an action of a type. *)
Definition action_values (action_type : string) (value : option Value) : option (list string) :=
  if action_type =? "drop" then
    match value with
    | None => Some []
    | Some (VArray []) => Some []
    | _ => None
    end
  else
    match value with
    | Some (VArray values) =>
        if Z.of_nat (length values) <=? EMAIL_ROUTING_RULES_MAX_ACTION_VALUES
        then mapM (fun value => bounded_email_routing_string (Some value)) values else None
    | _ => None
    end.

Definition normalize_email_routing_action (value : Value) (rule_index : Z) : email_result EmailRoutingActionV1 :=
  let error code component := diagnostic code (Some rule_index) component in
  let? action := ok_or (error "action_not_object" "action") (as_object value) in
  let? action_type := ok_or (error "action_type_invalid" "action.type")
                        (bounded_email_routing_string (bt_get "type" action)) in
  let? values := ok_or (error "action_values_invalid" "action.value")
                   (action_values action_type (bt_get "value" action)) in
  let? worker_targets :=
    if action_type =? "worker" then
      if existsb (fun value => str_contains value "@" || has_control value) values
      then Err (error "worker_target_invalid" "action.value") else Ok values
    else Ok [] in
  Ok (mkEmailRoutingActionV1 action_type worker_targets (Z.of_nat (length values))).

Section Rules.
Context `{Runtime}.

Definition rule_identifier (rule : btree Value) (account_scoped : bool) : option string :=
  if account_scoped then
    match bounded_identifier (bt_get "id" rule) with
    | Some identifier => Some identifier
    | None => bounded_identifier (bt_get "tag" rule)
    end
  else bounded_identifier (bt_get "tag" rule).

Definition zone_digests (rule : btree Value) (rule_index : Z) : email_result (option string * option string) :=
  let error code component := diagnostic code (Some rule_index) component in
  let? zone := ok_or (error "zone_not_object" "zone") (obind (bt_get "zone" rule) as_object) in
  let? zone_name := ok_or (error "zone_name_invalid" "zone.name")
    (obind (bounded_email_routing_string (bt_get "name" zone)) normalize_email_routing_domain) in
  let? zone_tag := ok_or (error "zone_tag_invalid" "zone.tag") (bounded_email_routing_string (bt_get "tag" zone)) in
  Ok (Some (email_digest zone_name), Some (email_digest zone_tag)).

Definition normalize_email_routing_rule (value : Value) (rule_index : Z) (account_scoped : bool) :
    email_result EmailRoutingRuleV1 :=
  let error code component := diagnostic code (Some rule_index) component in
  let? rule := ok_or (error "rule_not_object" "rule") (as_object value) in
  let? identifier := ok_or (error "rule_identifier_invalid" (if account_scoped then "rule.id_or_tag" else "rule.tag"))
                       (rule_identifier rule account_scoped) in
  let? enabled := ok_or (error "enabled_not_boolean" "enabled") (obind (bt_get "enabled" rule) as_bool) in
  let? digests := if account_scoped then zone_digests rule rule_index else Ok (None, None) in
  let? matcher_values := bounded_email_routing_array (bt_get "matchers" rule) EMAIL_ROUTING_RULES_MAX_MATCHERS
                           "matchers_not_bounded_array" rule_index "matchers" in
  let? action_values := bounded_email_routing_array (bt_get "actions" rule) EMAIL_ROUTING_RULES_MAX_ACTIONS
                          "actions_not_bounded_array" rule_index "actions" in
  let? matchers := collect (fun matcher => normalize_email_routing_matcher matcher rule_index) matcher_values in
  let? actions := collect (fun action => normalize_email_routing_action action rule_index) action_values in
  Ok (mkEmailRoutingRuleV1 identifier enabled (fst digests) (snd digests) matchers actions).

(** [rules.iter().enumerate().map(..).collect::<Result<Vec<_>, _>>()] *)
Fixpoint normalize_rules (rules : list Value) (rule_index : Z) (account_scoped : bool) :
    email_result (list EmailRoutingRuleV1) :=
  match rules with
  | [] => Ok []
  | rule :: rules =>
      let? normalized := normalize_email_routing_rule rule rule_index account_scoped in
      let? rest := normalize_rules rules (rule_index + 1) account_scoped in
      Ok (normalized :: rest)
  end.

Definition normalize_email_routing_rule_set_with_scope (value : Value) (pages page_size : Z) (account_scoped : bool) :
    email_result EmailRoutingRuleSetV1 :=
  if negb ((1 <=? pages) && (pages <=? EMAIL_ROUTING_RULES_MAX_PAGES))
  then Err (diagnostic "page_bound_invalid" None "pagination")
  else if negb ((1 <=? page_size) && (page_size <=? EMAIL_ROUTING_RULES_PAGE_SIZE))
  then Err (diagnostic "page_size_invalid" None "pagination")
  else
    let? rules := ok_or (diagnostic "rules_not_array" None "rules") (as_array value) in
    if EMAIL_ROUTING_RULES_PAGE_SIZE * EMAIL_ROUTING_RULES_MAX_PAGES <? Z.of_nat (length rules)
    then Err (diagnostic "rule_bound_exceeded" None "rules")
    else
      let? normalized := normalize_rules rules 0 account_scoped in
      Ok (mkEmailRoutingRuleSetV1 1 true page_size pages (Z.of_nat (length normalized)) normalized).

Definition normalize_email_routing_rule_set_with_page_size (value : Value) (pages page_size : Z) :
    email_result EmailRoutingRuleSetV1 :=
  normalize_email_routing_rule_set_with_scope value pages page_size false.
Definition normalize_email_routing_rule_set (value : Value) (pages : Z) : email_result EmailRoutingRuleSetV1 :=
  normalize_email_routing_rule_set_with_page_size value pages EMAIL_ROUTING_RULES_PAGE_SIZE.
Definition normalize_email_routing_account_rule_set_with_page_size (value : Value) (pages page_size : Z) :
    email_result EmailRoutingRuleSetV1 :=
  normalize_email_routing_rule_set_with_scope value pages page_size true.
Definition normalize_email_routing_account_rule_set (value : Value) (pages : Z) : email_result EmailRoutingRuleSetV1 :=
  normalize_email_routing_account_rule_set_with_page_size value pages EMAIL_ROUTING_RULES_PAGE_SIZE.
End Rules.

(** ** Bounds of a projection *)

Definition identifier_bounded (identifier : string) : bool :=
  negb (is_empty identifier) && (byte_len identifier <=? 32)
  && bytes_all (fun byte => is_ascii_alphanumeric byte || contains ["-"; "_"]%char byte) identifier.

(** Only the targets of a Worker are kept, and none looks like an address. *)
Definition action_bounded (action : EmailRoutingActionV1) : bool :=
  (0 <=? ea_value_count action) && (ea_value_count action <=? 100)
  && (if ea_action_type action =? "worker"
      then (Z.of_nat (length (ea_worker_targets action)) =? ea_value_count action)
           && forallb (fun target => negb (str_contains target "@") && negb (has_control target))
                (ea_worker_targets action)
      else is_nil (ea_worker_targets action))
  && ((ea_action_type action <>? "drop") || (ea_value_count action =? 0)).

Definition matcher_bounded (matcher : EmailRoutingMatcherV1) : bool :=
  Bool.eqb (is_someb (em_field matcher)) (is_someb (em_value_sha256 matcher)).

Definition one_to {A} (maximum : Z) (l : list A) : bool :=
  negb (is_nil l) && (Z.of_nat (length l) <=? maximum).

Definition rule_bounded (account_scoped : bool) (rule : EmailRoutingRuleV1) : bool :=
  identifier_bounded (er_rule_identifier rule)
  && Bool.eqb (is_someb (er_zone_name_sha256 rule)) account_scoped
  && Bool.eqb (is_someb (er_zone_tag_sha256 rule)) account_scoped
  && one_to 32 (er_matchers rule) && forallb matcher_bounded (er_matchers rule)
  && one_to 32 (er_actions rule) && forallb action_bounded (er_actions rule).

Lemma one_to_length {A B} maximum (l : list A) (k : list B) :
  length l = length k -> one_to maximum l = one_to maximum k.
Proof. unfold one_to. intros H. rewrite H. by destruct l, k. Qed.

Lemma collect_all {E A B} (f : A -> result E B) (p : B -> bool) l ys :
  (forall x y, f x = Ok y -> p y = true) -> collect f l = Ok ys -> forallb p ys = true /\ length ys = length l.
Proof.
  intros Hp H. apply collect_ok in H. induction H as [|x y l ys Hx _ [IH IHl]]; [done|]. cbn.
  rewrite (Hp _ _ Hx), IH, IHl. done.
Qed.

Lemma mapM_length {A B} (f : A -> option B) l ys : mapM f l = Some ys -> length ys = length l.
Proof. intros H%mapM_Some. symmetry. by apply Forall2_length in H. Qed.

Lemma bounded_identifier_bounded value identifier :
  bounded_identifier value = Some identifier -> identifier_bounded identifier = true.
Proof.
  unfold bounded_identifier, bounded_email_routing_string, identifier_bounded.
  destruct (obind value as_str) as [s|]; [|done]. cbn.
  destruct (negb (is_empty s)) eqn:Es; cbn; [|done]. destruct (_ && _); [|done]. cbn.
  destruct (_ && _) eqn:E; [|done]. intros [= <-]. by rewrite Es.
Qed.

Lemma rule_identifier_bounded rule scoped identifier :
  rule_identifier rule scoped = Some identifier -> identifier_bounded identifier = true.
Proof.
  unfold rule_identifier. destruct scoped; [|apply bounded_identifier_bounded].
  destruct (bounded_identifier (bt_get "id" rule)) as [i|] eqn:E; [|apply bounded_identifier_bounded].
  intros [= <-]. by eapply bounded_identifier_bounded.
Qed.

Lemma bounded_array_bounded value maximum code index component l :
  bounded_email_routing_array value maximum code index component = Ok l -> one_to maximum l = true.
Proof.
  unfold bounded_email_routing_array, one_to. destruct (obind value as_array) as [values|]; [|done]. cbn.
  destruct (_ && _) eqn:E; [|done]. by intros [= <-].
Qed.

Lemma action_values_bounded action_type value values :
  action_values action_type value = Some values ->
  Z.of_nat (length values) <= 100 /\ (action_type = "drop" -> values = []).
Proof.
  unfold action_values. destruct (action_type =? "drop") eqn:E.
  - destruct value as [[| | | |[|]|]|]; try done; intros [= <-]; cbn; split; try done; lia.
  - destruct value as [[| | | |l|]|]; try done. destruct (_ <=? _) eqn:El; [|done].
    intros Hm%mapM_length. apply eqb_neq in E. apply Z.leb_le in El. unfold EMAIL_ROUTING_RULES_MAX_ACTION_VALUES in El.
    split; [lia|done].
Qed.

Lemma action_is_bounded value index action :
  normalize_email_routing_action value index = Ok action -> action_bounded action = true.
Proof.
  unfold normalize_email_routing_action. rewrite res_bind_ok. intros (object & _ & Hr).
  apply res_bind_ok in Hr as (kind & _ & Hr). apply res_bind_ok in Hr as (values & Hv & Hr).
  apply res_bind_ok in Hr as (targets & Ht & [= <-]).
  destruct (action_values kind (bt_get "value" object)) as [values'|] eqn:E; [|done]. injection Hv as ->.
  destruct (action_values_bounded _ _ _ E) as [Hl Hd]. unfold action_bounded. cbn [ea_action_type ea_worker_targets ea_value_count].
  rewrite !andb_true_iff. repeat split; [lia|lia| |].
  - destruct (kind =? "worker"); [|by injection Ht as <-]. destruct (existsb _ values) eqn:Ex; [done|].
    injection Ht as <-. rewrite eqb_refl. cbn. apply forallb_forall. intros t Hin.
    rewrite <- negb_orb. apply negb_true_iff. destruct (_ || _) eqn:Eo; [|done].
    rewrite <- Ex. symmetry. apply existsb_exists. eauto.
  - destruct (kind =? "drop") eqn:Ed; [|done]. apply eqb_eq in Ed. by rewrite (Hd Ed).
Qed.

Section Bounded.
Context `{Runtime}.

Lemma matcher_is_bounded value index matcher :
  normalize_email_routing_matcher value index = Ok matcher -> matcher_bounded matcher = true.
Proof.
  unfold normalize_email_routing_matcher. rewrite res_bind_ok. intros (object & _ & Hr).
  apply res_bind_ok in Hr as (kind & _ & Hr).
  destruct (bt_get "field" object), (bt_get "value" object); [|done|done|by injection Hr as <-].
  apply res_bind_ok in Hr as (f & _ & Hr). by apply res_bind_ok in Hr as (digest & _ & [= <-]).
Qed.

Lemma rule_is_bounded value index scoped rule :
  normalize_email_routing_rule value index scoped = Ok rule -> rule_bounded scoped rule = true.
Proof.
  unfold normalize_email_routing_rule. rewrite res_bind_ok. intros (object & _ & Hr).
  apply res_bind_ok in Hr as (identifier & Hi & Hr). apply res_bind_ok in Hr as (enabled & _ & Hr).
  apply res_bind_ok in Hr as ([name tag] & Hz & Hr). apply res_bind_ok in Hr as (ms & Hms & Hr).
  apply res_bind_ok in Hr as (acts & Hacts & Hr). apply res_bind_ok in Hr as (matchers & Hm & Hr).
  apply res_bind_ok in Hr as (actions & Ha & [= <-]). unfold rule_bounded. cbn -[one_to].
  destruct (rule_identifier object scoped) as [i|] eqn:Ei; [|done]. injection Hi as ->.
  rewrite (rule_identifier_bounded _ _ _ Ei).
  destruct (collect_all _ matcher_bounded _ _ (fun v m => matcher_is_bounded v index m) Hm) as [-> Lm].
  destruct (collect_all _ action_bounded _ _ (fun v a => action_is_bounded v index a) Ha) as [-> La].
  apply bounded_array_bounded in Hms, Hacts.
  change EMAIL_ROUTING_RULES_MAX_MATCHERS with 32 in Hms. change EMAIL_ROUTING_RULES_MAX_ACTIONS with 32 in Hacts.
  rewrite (one_to_length _ _ _ Lm), (one_to_length _ _ _ La), Hms, Hacts, !andb_true_r.
  destruct scoped; [|by injection Hz as <- <-]. unfold zone_digests in Hz.
  apply res_bind_ok in Hz as (zone & _ & Hz). apply res_bind_ok in Hz as (zn & _ & Hz).
  by apply res_bind_ok in Hz as (zt & _ & [= <- <-]).
Qed.

Lemma normalize_rules_bounded rules index scoped normalized :
  normalize_rules rules index scoped = Ok normalized ->
  forallb (rule_bounded scoped) normalized = true /\ length normalized = length rules.
Proof.
  revert index normalized; induction rules as [|rule rules IH]; intros index normalized; cbn; [by intros [= <-]|].
  rewrite res_bind_ok. intros (r & Hr & Hs). apply res_bind_ok in Hs as (rest & Hrest & [= <-]).
  apply IH in Hrest as [Hb Hl]. cbn. by rewrite (rule_is_bounded _ _ _ _ Hr), Hb, Hl.
Qed.
End Bounded.

(** ** Diagnostics *)

Definition DIAGNOSTICS : list (string * string) := [
  ("page_bound_invalid", "pagination"); ("page_size_invalid", "pagination");
  ("rules_not_array", "rules"); ("rule_bound_exceeded", "rules");
  ("rule_not_object", "rule"); ("rule_identifier_invalid", "rule.id_or_tag"); ("rule_identifier_invalid", "rule.tag");
  ("enabled_not_boolean", "enabled");
  ("zone_not_object", "zone"); ("zone_name_invalid", "zone.name"); ("zone_tag_invalid", "zone.tag");
  ("matchers_not_bounded_array", "matchers"); ("actions_not_bounded_array", "actions");
  ("matcher_not_object", "matcher"); ("matcher_type_invalid", "matcher.type");
  ("matcher_field_invalid", "matcher.field"); ("matcher_value_invalid", "matcher.value");
  ("matcher_pair_incomplete", "matcher");
  ("action_not_object", "action"); ("action_type_invalid", "action.type");
  ("action_values_invalid", "action.value"); ("worker_target_invalid", "action.value")].

(** A failure of the rule at [index] whose texts are fixed. *)
Definition fixed_at (index : option Z) (e : EmailRoutingRuleDiagnosticV1) : Prop :=
  In (ed_code e, ed_component e) DIAGNOSTICS /\ ed_rule_index e = index /\ ed_schema_version e = 1.
Definition fails_fixed {A} (index : option Z) (r : email_result A) : Prop := forall e, r = Err e -> fixed_at index e.

Lemma fails_bind {A B} index (r : email_result A) (k : A -> email_result B) :
  fails_fixed index r -> (forall a, fails_fixed index (k a)) -> fails_fixed index (res_bind r k).
Proof. intros Hr Hk e. destruct r as [a|e']; cbn; [apply Hk|intros [= <-]; by apply Hr]. Qed.

Lemma fails_ok {A} index (a : A) : fails_fixed index (Ok a).
Proof. by intros e. Qed.

Lemma fails_err {A} code index component :
  In (code, component) DIAGNOSTICS -> fails_fixed (A := A) index (Err (diagnostic code index component)).
Proof. intros H e [= <-]. by split. Qed.

Lemma fails_or {A} code index component (o : option A) :
  In (code, component) DIAGNOSTICS -> fails_fixed index (ok_or (diagnostic code index component) o).
Proof. intros H. destruct o; [apply fails_ok|by apply fails_err]. Qed.

Lemma fails_collect {A B} index (f : A -> email_result B) l :
  (forall a, fails_fixed index (f a)) -> fails_fixed index (collect f l).
Proof.
  intros Hf. induction l as [|a l IH]; cbn; [apply fails_ok|].
  apply fails_bind; [apply Hf|]. intros b. apply fails_bind; [apply IH|]. intros bs. apply fails_ok.
Qed.

Ltac diagnose := repeat first
  [ apply fails_bind; [|intros ?] | apply fails_ok | apply fails_err; cbn; tauto | apply fails_or; cbn; tauto
  | apply fails_collect; intros ? | progress cbn beta
  | match goal with |- fails_fixed _ (if ?c then _ else _) => destruct c end
  | match goal with |- fails_fixed _ (match ?o with _ => _ end) => destruct o end ].

Section Diagnostics.
Context `{Runtime}.

Lemma rule_diagnostics value index scoped : fails_fixed (Some index) (normalize_email_routing_rule value index scoped).
Proof.
  unfold normalize_email_routing_rule, zone_digests, bounded_email_routing_array. diagnose.
  apply fails_or. destruct scoped; cbn; tauto.
Qed.

Lemma rules_diagnostics rules index scoped e :
  normalize_rules rules index scoped = Err e ->
  exists i, index <= i < index + Z.of_nat (length rules) /\ fixed_at (Some i) e.
Proof.
  revert index; induction rules as [|rule rules IH]; intros index; cbn -[Z.of_nat]; [done|].
  destruct (normalize_email_routing_rule rule index scoped) as [r|e'] eqn:Er; cbn -[Z.of_nat].
  - destruct (normalize_rules rules (index + 1) scoped) as [rest|e'] eqn:Es; [done|]. cbn -[Z.of_nat]. intros [= ->].
    destruct (IH _ Es) as (i & Hi & He). exists i. split; [lia|done].
  - intros [= ->]. exists index. split; [lia|]. by eapply rule_diagnostics.
Qed.
End Diagnostics.

(** ** What is not projected *)

(** Actions that differ in nothing the projection shows: no Worker, of one type,
    with equally many values. *)
Definition action_alike (a b : Value) : Prop :=
  a = b \/
  exists ma mb va vb, a = VObject ma /\ b = VObject mb /\
    bt_get "type" ma = bt_get "type" mb /\ bt_get "type" ma <> Some (VString "worker") /\
    bt_get "value" ma = Some (VArray va) /\ bt_get "value" mb = Some (VArray vb) /\ length va = length vb.

Definition rule_alike (a b : Value) : Prop :=
  exists ma mb aa ab, a = VObject ma /\ b = VObject mb /\
    (forall k, In k ["id"; "tag"; "enabled"; "zone"; "matchers"] -> bt_get k ma = bt_get k mb) /\
    bt_get "actions" ma = Some (VArray aa) /\ bt_get "actions" mb = Some (VArray ab) /\ Forall2 action_alike aa ab.

Lemma action_alike_same a b index x y :
  action_alike a b -> normalize_email_routing_action a index = Ok x -> normalize_email_routing_action b index = Ok y ->
  x = y.
Proof.
  intros [->|(ma & mb & va & vb & -> & -> & Ht & Hw & Ha & Hb & Hl)]; [congruence|].
  unfold normalize_email_routing_action. cbn. rewrite Ha, Hb, <- Ht.
  destruct (bounded_email_routing_string (bt_get "type" ma)) as [kind|] eqn:Ek; [|done]. cbn.
  assert (Hk : (kind =? "worker") = false).
  { apply eqb_false. intros ->. apply Hw. unfold bounded_email_routing_string in Ek.
    destruct (bt_get "type" ma) as [[| | |s| |]|]; cbn in Ek; try done. destruct (_ && _); [|done]. congruence. }
  rewrite Hk. unfold action_values. destruct (kind =? "drop").
  - destruct va, vb; try done. cbn. congruence.
  - rewrite <- Hl. destruct (_ <=? _); [|done].
    destruct (mapM _ va) as [xa|] eqn:Ea; [|done]. destruct (mapM _ vb) as [xb|] eqn:Eb; [|done]. cbn.
    apply mapM_length in Ea, Eb. intros [= <-] [= <-]. f_equal. lia.
Qed.

Lemma collect_alike {E A B} (R : A -> A -> Prop) (f : A -> result E B) l k xs ys :
  (forall a b x y, R a b -> f a = Ok x -> f b = Ok y -> x = y) -> Forall2 R l k ->
  collect f l = Ok xs -> collect f k = Ok ys -> xs = ys.
Proof.
  intros Hf HR. revert xs ys. induction HR as [|a b l k Hab _ IH]; intros xs ys; cbn; [congruence|].
  rewrite !res_bind_ok. intros (x & Hx & H1) (y & Hy & H2).
  apply res_bind_ok in H1 as (xs' & H1 & [= <-]). apply res_bind_ok in H2 as (ys' & H2 & [= <-]).
  f_equal; [by eapply Hf|by apply IH].
Qed.

Section Alike.
Context `{Runtime}.

Lemma rule_alike_same a b index scoped x y :
  rule_alike a b -> normalize_email_routing_rule a index scoped = Ok x ->
  normalize_email_routing_rule b index scoped = Ok y -> x = y.
Proof.
  intros (ma & mb & aa & ab & -> & -> & Hk & Ha & Hb & Hal). unfold normalize_email_routing_rule, rule_identifier, zone_digests.
  cbn [as_object ok_or res_bind]. rewrite Ha, Hb, !Hk by (cbn; tauto). rewrite !res_bind_ok.
  intros (i & Hi & H1) (i' & Hi' & H2). rewrite Hi in Hi'. injection Hi' as <-.
  apply res_bind_ok in H1 as (en & Hen & H1), H2 as (en' & Hen' & H2). rewrite Hen in Hen'. injection Hen' as <-.
  apply res_bind_ok in H1 as (z & Hz & H1), H2 as (z' & Hz' & H2). rewrite Hz in Hz'. injection Hz' as <-.
  apply res_bind_ok in H1 as (ms & Hms & H1), H2 as (ms' & Hms' & H2). rewrite Hms in Hms'. injection Hms' as <-.
  apply res_bind_ok in H1 as (va & Hva & H1), H2 as (vb & Hvb & H2).
  apply res_bind_ok in H1 as (m & Hm & H1), H2 as (m' & Hm' & H2). rewrite Hm in Hm'. injection Hm' as <-.
  apply res_bind_ok in H1 as (x1 & Hx & [= <-]), H2 as (y1 & Hy & [= <-]). f_equal.
  unfold bounded_email_routing_array in Hva, Hvb. cbn in Hva, Hvb.
  destruct (_ && _); [|done]. destruct (_ && _); [|done]. injection Hva as <-. injection Hvb as <-.
  eapply (collect_alike action_alike); [|exact Hal|exact Hx|exact Hy]. intros ?????. by apply action_alike_same.
Qed.

Lemma rules_alike_same rs ks index scoped xs ys :
  Forall2 rule_alike rs ks -> normalize_rules rs index scoped = Ok xs -> normalize_rules ks index scoped = Ok ys ->
  xs = ys.
Proof.
  intros HR. revert index xs ys. induction HR as [|a b rs ks Hab _ IH]; intros index xs ys; cbn; [congruence|].
  rewrite !res_bind_ok. intros (x & Hx & H1) (y & Hy & H2).
  apply res_bind_ok in H1 as (xs' & H1 & [= <-]), H2 as (ys' & H2 & [= <-]).
  f_equal; [by eapply rule_alike_same|by eapply IH].
Qed.
End Alike.

(** ** Properties *)

Section Properties.
Context `{Runtime}.

Lemma rule_set_inv value pages page_size scoped set :
  normalize_email_routing_rule_set_with_scope value pages page_size scoped = Ok set ->
  1 <= pages <= 100 /\ 1 <= page_size <= 50 /\
  exists rules normalized, value = VArray rules /\ Z.of_nat (length rules) <= 5000 /\
    normalize_rules rules 0 scoped = Ok normalized /\
    set = mkEmailRoutingRuleSetV1 1 true page_size pages (Z.of_nat (length normalized)) normalized.
Proof.
  unfold normalize_email_routing_rule_set_with_scope.
  destruct (_ && _) eqn:E1; [|done]. destruct (_ && _) eqn:E2 in |- *; [|done]. cbn [negb].
  rewrite res_bind_ok. intros (rules & Hv & Hr). destruct (_ <? _) eqn:El in Hr; [done|].
  apply res_bind_ok in Hr as (normalized & Hn & [= <-]).
  unfold EMAIL_ROUTING_RULES_MAX_PAGES, EMAIL_ROUTING_RULES_PAGE_SIZE in *.
  split; [lia|]. split; [lia|]. exists rules, normalized. destruct value; try done. injection Hv as ->.
  split; [done|]. split; [lia|done].
Qed.

(** A projected listing is bounded and aligned with the provider's: one rule
    for each of at most 5000, every identifier within 32 bytes of letters,
    digits, hyphens and underscores, one to 32 matchers and actions, at most
    100 values counted for an action, targets only of a Worker and none of them
    an address, and the digests of a zone exactly on account listings. *)
Theorem email_projection_is_bounded value pages page_size scoped set :
  normalize_email_routing_rule_set_with_scope value pages page_size scoped = Ok set ->
  es_rule_count set = Z.of_nat (length (es_rules set)) /\
  option_map (fun rules => Z.of_nat (length rules)) (as_array value) = Some (es_rule_count set) /\
  es_rule_count set <= 5000 /\ 1 <= es_pages set <= 100 /\ 1 <= es_page_size set <= 50 /\
  forallb (rule_bounded scoped) (es_rules set) = true.
Proof.
  intros (Hp & Hs & rules & normalized & -> & Hl & Hn & ->)%rule_set_inv.
  apply normalize_rules_bounded in Hn as [Hb Hlen]. cbn. rewrite Hlen. repeat split; try done; lia.
Qed.

(** C23: the projection shows nothing of an address: two listings that differ
    only in the values of actions that run no Worker, as many for each, and in
    members the projection does not read, have the same projection. *)
Theorem addresses_are_not_projected rs ks pages page_size scoped s1 s2 :
  Forall2 rule_alike rs ks ->
  normalize_email_routing_rule_set_with_scope (VArray rs) pages page_size scoped = Ok s1 ->
  normalize_email_routing_rule_set_with_scope (VArray ks) pages page_size scoped = Ok s2 -> s1 = s2.
Proof.
  intros HR (_ & _ & rules & n1 & [= <-] & _ & H1 & ->)%rule_set_inv (_ & _ & rules' & n2 & [= <-] & _ & H2 & ->)%rule_set_inv.
  by rewrite (rules_alike_same _ _ _ _ _ _ HR H1 H2).
Qed.

(** A refusal quotes nothing: its code and component are one of 22 fixed
    pairs, and the only datum of the listing it carries is the index of a rule
    that exists. *)
Theorem email_diagnostics_quote_nothing value pages page_size scoped e :
  normalize_email_routing_rule_set_with_scope value pages page_size scoped = Err e ->
  In (ed_code e, ed_component e) DIAGNOSTICS /\ ed_schema_version e = 1 /\
  match ed_rule_index e with
  | Some i => 0 <= i < Z.of_nat (length (default [] (as_array value)))
  | None => True
  end.
Proof.
  unfold normalize_email_routing_rule_set_with_scope.
  destruct (_ && _); [|intros [= <-]; cbn; tauto]. destruct (_ && _); [|intros [= <-]; cbn; tauto]. cbn [negb].
  destruct (as_array value) as [rules|]; cbn [ok_or res_bind]; [|intros [= <-]; cbn; tauto].
  destruct (_ <? _); [intros [= <-]; cbn; tauto|].
  destruct (normalize_rules rules 0 scoped) as [normalized|e'] eqn:En; [done|]. intros [= ->].
  apply rules_diagnostics in En as (i & Hi & Hc & -> & Hv). split; [done|]. split; [done|]. cbn. lia.
Qed.
End Properties.

(** ** Examples *)

Definition demo_rule (tag address : string) : Value := jobj [
  ("tag", VString tag); ("enabled", VBool true); ("name", VString ("forward to " ++ address)%string);
  ("matchers", VArray [jobj [("type", VString "literal"); ("field", VString "to"); ("value", VString "team@example.com")]]);
  ("actions", VArray [jobj [("type", VString "forward"); ("value", VArray [VString address])];
                      jobj [("type", VString "worker"); ("value", VArray [VString "inbox"])]])].

Definition demo_set : EmailRoutingRuleSetV1 :=
  match normalize_email_routing_rule_set (VArray [demo_rule "rule-1" "a@example.com"]) 1 with
  | Ok set => set
  | Err _ => mkEmailRoutingRuleSetV1 0 false 0 0 0 []
  end.

Example demo_actions :
  map er_actions (es_rules demo_set) =
  [[mkEmailRoutingActionV1 "forward" [] 1; mkEmailRoutingActionV1 "worker" ["inbox"] 1]].
Proof. vm_compute. reflexivity. Qed.

Example email_projection_is_bounded_witness :
  normalize_email_routing_rule_set (VArray [demo_rule "rule-1" "a@example.com"]) 1 = Ok demo_set /\
  forallb (rule_bounded false) (es_rules demo_set) = true.
Proof.
  assert (H : normalize_email_routing_rule_set_with_scope (VArray [demo_rule "rule-1" "a@example.com"]) 1 50 false
              = Ok demo_set) by (vm_compute; reflexivity).
  split; [exact H|]. exact (proj2 (proj2 (proj2 (proj2 (proj2 (email_projection_is_bounded _ _ _ _ _ H)))))).
Defined.

Example addresses_are_not_projected_witness :
  demo_rule "rule-1" "a@example.com" <> demo_rule "rule-1" "b@example.com" /\
  normalize_email_routing_rule_set (VArray [demo_rule "rule-1" "b@example.com"]) 1 = Ok demo_set.
Proof.
  split; [by vm_compute|].
  destruct (normalize_email_routing_rule_set (VArray [demo_rule "rule-1" "b@example.com"]) 1) as [set|] eqn:E;
    [|vm_compute in E; discriminate E].
  f_equal. apply (addresses_are_not_projected [demo_rule "rule-1" "b@example.com"]
    [demo_rule "rule-1" "a@example.com"] 1 50 false); [|exact E|vm_compute; reflexivity].
  constructor; [|constructor]. do 4 eexists. split; [reflexivity|]. split; [reflexivity|].
  split; [intros k [<-|[<-|[<-|[<-|[<-|[]]]]]]; reflexivity|]. split; [reflexivity|]. split; [reflexivity|].
  constructor; [right|constructor; [by left|constructor]].
  do 4 eexists. split; [reflexivity|]. split; [reflexivity|]. split; [reflexivity|]. split; [discriminate|].
  split; [reflexivity|]. split; reflexivity.
Defined.

Example email_diagnostics_quote_nothing_witness :
  exists e, normalize_email_routing_rule_set (VArray [demo_rule "rule-1" "a@example.com"; VNull]) 1 = Err e /\
    In (ed_code e, ed_component e) DIAGNOSTICS /\ ed_rule_index e = Some 1.
Proof.
  exists (diagnostic "rule_not_object" (Some 1) "rule").
  assert (H : normalize_email_routing_rule_set_with_scope (VArray [demo_rule "rule-1" "a@example.com"; VNull]) 1 50 false
              = Err (diagnostic "rule_not_object" (Some 1) "rule")) by (vm_compute; reflexivity).
  split; [exact H|]. split; [exact (proj1 (email_diagnostics_quote_nothing _ _ _ _ _ H))|reflexivity].
Defined.
